(* ===== verification/_CoqProject ===== *)
-Q . S2P
Prelude.v
Status.v
CLib.v
Mbr.v
Printf.v
Atomic.v
Queue.v
Allocator.v
AllocatorSpec.v
AllocatorFree.v
Kernel.v
Logic.v
Memory.v
Mmc.v
Scheduler.v
Alarm.v
Thread.v
Semaphore.v
AlarmHandler.v
Interrupt.v
Port.v
Core.v
Scenario.v
Rdv.v
Vfs.v
VfsSpec.v
VfsHeap.v
RootFs.v
RootFsSpec.v
VfsScenario.v
Libc.v
Dal.v
Posix.v
Dol.v
Kpn.v
Fat.v
FatSpec.v
FatDirectory.v
FatVnode.v
FatScenario.v
Devfs.v
DevfsTree.v
DevfsSpec.v
DevfsWalk.v
DevfsScenario.v
Block.v
BlockContract.v
BlockSpec.v
Platform.v
Dma.v
Boot.v
