(* ===== verification/Prelude.v ===== *)
(** * Verification of the DNA operating system kernel

    The repository contains a virtual multiprocessor platform and the software that
    runs on it.  This library is about its operating system, DNA-OS, under
    src/platform/software/dnaos/Components/: the support library DnaTools, the memory
    manager DnaMM-WorstFit, the kernel DnaCore, the virtual file system
    DnaVirtualFileSystem and its file systems RootFileSystem, DeviceFileSystem and
    FATFileSystem, the storage modules MultiMediaCardModule and MasterBootRecordModule, the
    drivers SoclibPlatformDriver, SoclibBlockDriver, SoclibDmaDriver and
    RendezVousChannelDriver, the libraries of the applications
    (PosixThreadsLibrary, PosixSemaphoresLibrary, KahnProcessNetworkLibrary, DalLibrary,
    DolLibrary) and the start of the system, DnaKickStart.  It is about the build in which
    neither WRITEBACK nor WRITETHROUGH is defined (the cache macros are empty), for a 32-bit
    processor.  The other parts of the repository are listed at the end.

    ** Method

    A C function is a function of the same name in the monad [M S]: it maps a state to
    an [outcome], which is a value and a new state ([Ret]), an endless wait for a spin
    lock that is taken ([Spin]), a NULL or wild dereference or a panic ([Fault]), or a
    loop that exceeds the bound the model gives it ([Diverge]).  The guards keep the
    form they have in the code: [ensure c orelse r in] returns r, and
    [check c rescue r in] runs the rescue block.  Integers are in Z with the wrap-around
    of their C type written out.  The theorems are proved with the weakest precondition
    [wp], which excludes the last three outcomes: a theorem that gives the result of a
    function also says that it returns, without a fault, and within the bounds.  A component
    that calls another one has the state of both: [lift] runs a function on a part of the
    state.

    ** Components and files

    - Prelude.v: machine integers, the monad, the rules of [wp], the database of hints
      [dna], and lemmas on lists and maps.
    - Status.v: status_t and the capacities (DnaTools/Status.h, Configuration.h).
    - CLib.v: the strings, buffers, numbers and paths of DnaTools (dna_*.c, path_*.c) on
      a flat memory of bytes.  Printf.v: dna_printf.c.
    - Atomic.v: Atomic.c and the ARMv6 compare-and-swap, with the steps of the
      processors interleaved ([astep]).
    - Queue.v: the intrusive queues (queue_*.c).  Their state is the links of the items
      and the headers of the queues; [qwf U s V] relates it to one list [V q] per queue,
      and the rest of the development uses the queues through that relation only.
    - Allocator.v: kernel_region_*.c and memory_*.c on doubly linked lists of regions.
      AllocatorSpec.v, AllocatorFree.v: their invariants [heap_ok] and [heap_live] and their
      theorems.  Memory.v: kernel_malloc.c and kernel_free.c, which run them under a lock,
      and the class [Heap], what they promise to the components that allocate.
    - Kernel.v: the objects of DnaCore/Headers/Private and the global variables of the
      kernel as one record [kstate]; the locks and the masking of interrupts; the class
      [Hal] with what the processor gives (number of processors, value of the timer).
      Logic.v: the rules and tactics for that state.
    - Scheduler.v, Thread.v, Semaphore.v, Alarm.v, AlarmHandler.v, Interrupt.v, Port.v,
      Core.v: the operations of DnaCore/Sources, one definition per function, cut in two
      at the context switches (a [..._resume] function is what a thread executes when it
      runs again).  Scenario.v: a concrete system on which their theorems are applied.
    - Vfs.v: volumes, vnodes, files and every vfs_*.c operation, for any file systems
      given by their table of commands [filesystem_cmd].  VfsSpec.v: its theorems; VfsHeap.v:
      the vnodes that vnode_create takes from the heap.
    - RootFs.v, Fat.v, Devfs.v: three instances of that table.  RootFs.v: rootfs_*.c, with
      RootFsSpec.v.  Fat.v: FATFileSystem (media_*.c, fatlib_*.c, fatfs_*.c); FatSpec.v: the
      allocation table, the files and the parameters of a volume on a block device [Disk];
      FatDirectory.v: names, search and listing; FatVnode.v: fatfs_read_vnode.  Devfs.v:
      DeviceFileSystem (devfs_*.c), over the drivers given by their commands; DevfsTree.v: the
      invariant of its tree of inodes, and lookups; DevfsSpec.v: creation and deletion of inodes
      and entries on any [Heap]; DevfsWalk.v: insertion of paths, walk and mount.
      VfsScenario.v, FatScenario.v, DevfsScenario.v: two mounted root file systems, a card,
      a console.
    - Mmc.v: the state machine and the registers of MultiMediaCardModule, over the commands of
      a host controller.  Mbr.v: mbr_*.c, the partition table of a sector.
    - Block.v: SoclibBlockDriver, over the registers of a device; BlockContract.v: the contract
      [BlockDevice] of the device, an instance of it, and the transfers of a polled device;
      BlockSpec.v: the transfers, polled or signalled by the interrupt.  Platform.v:
      SoclibPlatformDriver, the terminals and the interrupts of a processor.  Dma.v:
      SoclibDmaDriver.  Rdv.v: RendezVousChannelDriver.
    - Libc.v: the C library that the components above the kernel call, as the class
      [Libc].  Posix.v: the semaphores and the threads of Posix.  Kpn.v: the channels of
      KahnProcessNetworkLibrary.  Dal.v: channels and processes of DalLibrary, and the same
      channel with its accesses interleaved ([wstep], [rstep]).  Dol.v: processes and ports of
      DolLibrary.
    - Boot.v: system_kickstart of DnaKickStart over all the components, the product of several
      file systems in one virtual file system, and the barrier of the processors interleaved
      ([bstep]).

    The scheduler calls the queues; threads, semaphores and alarms call the scheduler
    and each other through the callbacks; ports use two semaphores each; the virtual
    file system uses the threads (the group of the caller), the memory manager and the
    commands of the file systems, which call it back for their vnodes; the device file system
    asks the drivers for their devices; the Posix, Dal and Dol libraries and the drivers are
    clients of the semaphores, the threads and the heap.

    ** Theorems

    - Refinement: every program of queue operations behaves as on lists
      ([queue_ops_refine_lists]); semaphore_release serves the waiting threads as the
      abstract function [serve] ([semaphore_release_spec]); vnode_walk resolves paths
      along the relation [steps] of mounted directories when their vnodes are loaded
      ([vnode_walk_spec]), the root file system giving the answers it relies on ([rootfs_walks]); two channels on a pipe
      and a ring of DAL are queues of bytes ([kpn_channel_fifo], [dal_channel_fifo]); a Posix
      mutex is free or held with a queue of threads ([pthread_mutex_lock_spec],
      [pthread_mutex_unlock_spec]); the DMA driver is a queue of transfers ([dma_fifo]).
    - Equivalence with a reference: dna_printf and a rendering of the directives,
      dna_log2 and the binary logarithm, next_entry of Vfs.v and path_get_next_entry,
      the file allocation table and an array of words, mmc_build_csd and the bits of the
      register.
    - Invariants: the heap after creation, kernel_malloc and kernel_free, the pools
      after core_create, the cell of atomic_add under every interleaving, the buffers of a
      FAT volume after fatfs_init and every access, the tree of the device file system
      ([devfs_insert_preserves], [devfs_walk_spec]).
    - Safety and liveness: no ready thread is lost by scheduler_dispatch; an area
      returned by kernel_malloc is disjoint from the others; a thread sent to an idle
      processor runs there; the alarm of a sleeping thread makes it ready
      ([sleeping_thread_woken]); atomic_add makes progress ([atomic_add_progress]); a
      rendez-vous takes place whoever comes first
      ([rdv_rendezvous]); no byte of an interleaved ring is lost or read early
      ([dal_ring_interleaved]); no processor starts before the components exist
      ([kickstart_barrier]).  The example [system_boots] runs the whole system.
    - Behaviour of each operation, errors included: election, switch, exit, suspension,
      resumption, yield, acquisition with and without tokens, alarms, interrupts,
      ports, opening, reading, writing, seeking and closing files, directories, the bytes
      of the files of a FAT volume and of a block device, the commands of a card.
    - Round trips: dna_itoa and dna_atoi, the digits of dna_printf and dna_atoi,
      identifiers and their members, rootfs_mkdir and rootfs_walk, mbr_dump and mbr_load,
      the ports of a DOL process.
    - Defects of the code that the model shows: an inode read after it is freed
      ([devfs_release_faults]), sem_trywait that waits ([sem_trywait_blocks]), the token that a
      failed transfer keeps ([block_device_read_errors]), a character that is read twice
      ([soclib_tty_read_repeats]), the processors that wait for ever
      ([kickstart_barrier] and its examples).

    ** Bounds

    A loop along a list has as fuel the number of objects it can meet ([walk_fuel]:
    the links of the queue state, the mapped addresses for strings), plus one; the lemmas
    ([walk_fuel_enough] and the like) show that it is enough in well formed states.  The
    walk of a token through nested volumes has the number of volumes as fuel, enough
    since a volume is younger than its host ([hosts_older]); the walk of a path has
    its length.  The loops of dna_printf and dna_itoa have the number of digits of the
    type.  The loops of fatfs_read_vnode have the number of sectors that the allocation
    table can describe ([chain_fuel]): a chain with a cycle does not end in the code
    either.  The recursion of the device file system has the number of its objects, the
    insertion of a path its length.  The loops that wait for a device (Mmc.v, Block.v) or for
    another thread (Dal.v) have a bound given by the caller: the theorems say which one is
    enough from what the device or the other thread does.

    ** Parameters

    The code that is not in the repository or is hardware is an argument of the definitions:
    the class [Hal], the commands of drivers and file systems, the registers of the
    devices and of the host controller, the C library [Libc], the functions of DAL and DOL
    processes, and the contents of memory that the code reads before writing it.

    ** Not modelled

    thread_idle (an endless loop that changes no state), the contents of messages, the traces
    (dna_log, dna_printf called for debugging) and the cache operations; the functions that give
    the address of a static variable (errno).  Out of scope: DnaCoreRT-RM, a copy of DnaCore that the
    platform does not build; the processor and platform ports (registers and assembly); the other
    drivers (registers of devices, copies); third-party code (LwIP, newlib, LibELF, the qemu and SystemC
    simulators, the benchmarks). *)

From Stdlib Require Export ZArith Lia Bool.
From stdpp Require Export base decidable list option countable gmap fin_maps.

Set Default Proof Using "Type".

Declare Scope dna_scope.
Delimit Scope dna_scope with dna.
#[global] Open Scope Z_scope.

(** ** Machine integers

    A w-bit integer of the C code is a [Z]; [wrap_u w] and [wrap_s w] are the
    conversions to the unsigned and to the (two's complement) signed type. *)

Definition wrap_u (w z : Z) : Z := z mod 2 ^ w.
Definition wrap_s (w z : Z) : Z := (z + 2 ^ (w - 1)) mod 2 ^ w - 2 ^ (w - 1).

Definition u8 := wrap_u 8.
Definition u16 := wrap_u 16.
Definition u32 := wrap_u 32.
Definition i16 := wrap_s 16.
Definition i32 := wrap_s 32.
Definition i64 := wrap_s 64.

(** ** Outcomes of kernel code

    A C function of the kernel maps a state to an outcome: it returns a value
    in a new state, it spins forever on a spin lock that is already taken, it
    dereferences a NULL pointer (or hits [panic]), or one of its loops does not
    terminate within the bound the model gives it. *)

Inductive outcome (S A : Type) : Type :=
| Ret (a : A) (s : S)
| Spin (s : S)
| Fault (s : S)
| Diverge.

Arguments Ret {S A} a s.
Arguments Spin {S A} s.
Arguments Fault {S A} s.
Arguments Diverge {S A}.

Definition M (S A : Type) : Type := S -> outcome S A.

Definition ret {S A} (a : A) : M S A := fun s => Ret a s.

Definition bind {S A B} (m : M S A) (k : A -> M S B) : M S B :=
  fun s => match m s with
           | Ret a s' => k a s'
           | Spin s' => Spin s'
           | Fault s' => Fault s'
           | Diverge => Diverge
           end.

Definition fault {S A} : M S A := fun s => Fault s.
Definition diverge {S A} : M S A := fun _ => Diverge.
Definition gets {S A} (f : S -> A) : M S A := fun s => Ret (f s) s.
Definition modify {S} (f : S -> S) : M S unit := fun s => Ret tt (f s).

(** Dereference of a pointer that may be NULL. *)
Definition deref {S A} (p : option A) : M S A :=
  match p with Some a => ret a | None => fault end.

(** Run a computation on a component of the state. *)
Definition lift {S T A} (get : S -> T) (put : T -> S -> S) (m : M T A) : M S A :=
  fun s => match m (get s) with
           | Ret a t => Ret a (put t s)
           | Spin t => Spin (put t s)
           | Fault t => Fault (put t s)
           | Diverge => Diverge
           end.

(** for (i = start; i < start + n; i += 1) body (i); *)
Fixpoint for_from {S} (n : nat) (start : Z) (body : Z -> M S unit) : M S unit :=
  match n with
  | O => ret tt
  | Datatypes.S n => bind (body start) (fun _ => for_from n (start + 1) body)
  end.

Notation "'let*' x := m 'in' k" := (bind m (fun x => k))
  (at level 10, x name, m at level 200, k at level 200) : dna_scope.
Notation "m ;; k" := (bind m (fun _ => k))
  (at level 100, k at level 200, right associativity) : dna_scope.

(** The checkpoint macros of DnaTools/Checkpoint.h: [ensure] returns, [check]
    jumps to a rescue block. *)
Notation "'ensure' c 'orelse' e 'in' k" := (if c then k else ret e)
  (at level 10, c at level 200, e at level 200, k at level 200) : dna_scope.
Notation "'check' c 'rescue' r 'in' k" := (if c then k else r)
  (at level 10, c at level 200, r at level 200, k at level 200) : dna_scope.

#[global] Open Scope dna_scope.

(** A run that returns. *)
Definition returns {S A} (o : outcome S A) (a : A) (s : S) : Prop := o = Ret a s.

(** ** Automation *)

Create HintDb dna discriminated.

(** Split conjunctions, existentials and trivial equations of the context. *)
Ltac crush_hyps :=
  repeat match goal with
  | H : _ /\ _ |- _ => destruct H
  | H : exists _, _ |- _ => destruct H
  | H : Some _ = Some _ |- _ => injection H as H; try subst
  | H : Ret _ _ = Ret _ _ |- _ => injection H as H; try subst
  | H : Some _ = None |- _ => discriminate H
  | H : None = Some _ |- _ => discriminate H
  end.

(** Turn boolean tests on [Z] into propositions. *)
Ltac zbool :=
  repeat match goal with
  | H : (_ =? _) = true |- _ => apply Z.eqb_eq in H
  | H : (_ =? _) = false |- _ => apply Z.eqb_neq in H
  | H : (_ <? _) = true |- _ => apply Z.ltb_lt in H
  | H : (_ <? _) = false |- _ => apply Z.ltb_ge in H
  | H : (_ <=? _) = true |- _ => apply Z.leb_le in H
  | H : (_ <=? _) = false |- _ => apply Z.leb_gt in H
  | H : negb _ = true |- _ => apply negb_true_iff in H
  | H : negb _ = false |- _ => apply negb_false_iff in H
  | H : _ && _ = true |- _ => apply andb_true_iff in H; destruct H
  | H : _ || _ = false |- _ => apply orb_false_iff in H; destruct H
  end.

(** ** Integer lemmas *)

Lemma wrap_u_id w z : 0 <= z < 2 ^ w -> wrap_u w z = z.
Proof. apply Z.mod_small. Qed.

Lemma wrap_s_id w z : 0 < w -> - 2 ^ (w - 1) <= z < 2 ^ (w - 1) -> wrap_s w z = z.
Proof.
  intros Hw Hz. unfold wrap_s.
  assert (2 ^ w = 2 * 2 ^ (w - 1)) as Hpow.
  { rewrite <- Z.pow_succ_r by lia. f_equal. lia. }
  rewrite Z.mod_small by lia. lia.
Qed.

Lemma u16_id z : 0 <= z < 65536 -> u16 z = z.
Proof. intros. apply wrap_u_id. cbn. lia. Qed.

Lemma u32_id z : 0 <= z < 4294967296 -> u32 z = z.
Proof. intros. apply wrap_u_id. cbn. lia. Qed.

Lemma i32_id z : -2147483648 <= z < 2147483648 -> i32 z = z.
Proof. intros. apply wrap_s_id; cbn; lia. Qed.

Lemma i16_id z : -32768 <= z < 32768 -> i16 z = z.
Proof. intros. apply wrap_s_id; cbn; lia. Qed.

Lemma i64_id z : - 2 ^ 63 <= z < 2 ^ 63 -> i64 z = z.
Proof. intros. by apply wrap_s_id. Qed.

Lemma u16_range z : 0 <= u16 z < 65536.
Proof. apply Z.mod_pos_bound. lia. Qed.

Lemma u32_range z : 0 <= u32 z < 4294967296.
Proof. apply Z.mod_pos_bound. lia. Qed.

Lemma i32_range z : -2147483648 <= i32 z < 2147483648.
Proof.
  unfold i32, wrap_s. pose proof (Z.mod_pos_bound (z + 2 ^ (32 - 1)) (2 ^ 32)).
  change (2 ^ (32 - 1)) with 2147483648 in *. change (2 ^ 32) with 4294967296 in *. lia.
Qed.

#[export] Hint Resolve u16_range u32_range i32_range : dna.

(** ** Bit fields *)

(** The bits [k], ..., [k + n - 1] of a word: its field. *)
Definition field (k n x : Z) : Z := (x / 2 ^ k) mod 2 ^ n.

Lemma field_range k n x : 0 <= n -> 0 <= field k n x < 2 ^ n.
Proof. intros Hn. apply Z.mod_pos_bound, Z.pow_pos_nonneg; lia. Qed.

(** (x & (ones << k)) >> k *)
Lemma mask_shiftr k n x : 0 <= k -> 0 <= n -> Z.shiftr (Z.land x (Z.shiftl (Z.ones n) k)) k = field k n x.
Proof.
  intros Hk Hn. rewrite Z.shiftr_land, Z.shiftr_shiftl_l, Z.sub_diag, Z.shiftl_0_r by lia.
  rewrite Z.land_ones, Z.shiftr_div_pow2 by lia. done.
Qed.

(** (x & (ones << k)) << l | (y & ...) >> m, with disjoint bits *)
Lemma lor_shiftl_add a b n : 0 <= n -> 0 <= b < 2 ^ n -> Z.lor (Z.shiftl a n) b = a * 2 ^ n + b.
Proof.
  intros Hn Hb.
  assert (Z.land (Z.shiftl a n) b = 0) as Hz.
  { apply Z.bits_inj'. intros i Hi. rewrite Z.land_spec, Z.bits_0. destruct (decide (i < n)).
    - by rewrite Z.shiftl_spec_low.
    - rewrite <- (Z.mod_small b (2 ^ n)), Z.mod_pow2_bits_high by lia. apply andb_false_r. }
  rewrite <- Z.lxor_lor, <- Z.add_nocarry_lxor, Z.shiftl_mul_pow2 by done. done.
Qed.

(** Fields of a word that is made of two parts. *)
Lemma field_low k n l a b : 0 <= k -> 0 <= n -> k + n <= l -> field k n (a * 2 ^ l + b) = field k n b.
Proof.
  intros Hk Hn Hl. unfold field. replace l with ((l - k - n) + n + k) by lia. rewrite !Z.pow_add_r by lia.
  rewrite !Z.mul_assoc, Z.add_comm, Z.div_add by (pose proof (Z.pow_pos_nonneg 2 k); lia).
  apply Z_mod_plus_full.
Qed.
Lemma field_high k n l a b : 0 <= l <= k -> 0 <= b < 2 ^ l -> field k n (a * 2 ^ l + b) = field (k - l) n a.
Proof.
  intros Hl Hb. pose proof (Z.pow_pos_nonneg 2 l). pose proof (Z.pow_pos_nonneg 2 (k - l)).
  unfold field.
  assert (2 ^ k = 2 ^ l * 2 ^ (k - l)) as -> by (rewrite <- Z.pow_add_r by lia; f_equal; lia).
  rewrite <- Z.div_div, Z.add_comm, Z.div_add, (Z.div_small b), Z.add_0_l by lia. done.
Qed.
Lemma field_all n x : 0 <= x < 2 ^ n -> field 0 n x = x.
Proof. intros Hx. unfold field. rewrite Z.div_1_r. by apply Z.mod_small. Qed.

(** ** Monad lemmas *)

Lemma bind_ret_l {S A B} (a : A) (k : A -> M S B) s : bind (ret a) k s = k a s.
Proof. reflexivity. Qed.

Lemma bind_Ret {S A B} (m : M S A) (k : A -> M S B) s a s' :
  m s = Ret a s' -> bind m k s = k a s'.
Proof. intros H. unfold bind. by rewrite H. Qed.

Lemma bind_inv {S A B} (m : M S A) (k : A -> M S B) s b s'' :
  bind m k s = Ret b s'' -> exists a s', m s = Ret a s' /\ k a s' = Ret b s''.
Proof. unfold bind. destruct (m s) as [a s'| | |]; try discriminate. eauto. Qed.

Lemma lift_Ret {S T A} (get : S -> T) put (m : M T A) s a t :
  m (get s) = Ret a t -> lift get put m s = Ret a (put t s).
Proof. intros H. unfold lift. by rewrite H. Qed.

(** ** Symbolic execution

    [wp m Q s]: run in [s], the code [m] returns (it neither spins, nor faults,
    nor diverges) and its result satisfies [Q]. *)

Definition wp {S A} (m : M S A) (Q : A -> S -> Prop) (s : S) : Prop :=
  match m s with Ret a s' => Q a s' | _ => False end.

Lemma wp_bind {S A B} (m : M S A) (k : A -> M S B) Q s :
  wp m (fun a s' => wp (k a) Q s') s -> wp (bind m k) Q s.
Proof. unfold wp, bind. by destruct (m s). Qed.

Lemma wp_unbind {S A B} (m : M S A) (k : A -> M S B) Q s :
  wp (bind m k) Q s -> wp m (fun a s' => wp (k a) Q s') s.
Proof. unfold wp, bind. by destruct (m s). Qed.

Lemma wp_ret {S A} (a : A) Q (s : S) : Q a s -> wp (ret a) Q s.
Proof. done. Qed.

Lemma wp_gets {S A} (f : S -> A) Q s : Q (f s) s -> wp (gets f) Q s.
Proof. done. Qed.

Lemma wp_modify {S} (f : S -> S) Q s : Q tt (f s) -> wp (modify f) Q s.
Proof. done. Qed.

Lemma wp_mono {S A} (m : M S A) (Q Q' : A -> S -> Prop) s :
  wp m Q s -> (forall a s', Q a s' -> Q' a s') -> wp m Q' s.
Proof. unfold wp. destruct (m s); auto. Qed.

Lemma wp_exists {S A} (m : M S A) Q s :
  wp m Q s <-> exists a s', m s = Ret a s' /\ Q a s'.
Proof.
  unfold wp. split.
  - destruct (m s) as [a s'| | |]; try done. eauto.
  - by intros (a & s' & -> & HQ).
Qed.

Lemma wp_lift {S T A} (get : S -> T) (put : T -> S -> S) (m : M T A) Q s :
  wp m (fun a t => Q a (put t s)) (get s) -> wp (lift get put m) Q s.
Proof. unfold wp, lift. by destruct (m (get s)). Qed.

Lemma wp_returns {S A} (m : M S A) (P : S -> Prop) s a :
  wp m (fun a' s' => a' = a /\ P s') s -> exists s', m s = Ret a s' /\ P s'.
Proof. intros (a' & s' & Hm & -> & HP)%wp_exists. eauto. Qed.

(** Running [m] gives exactly [a] and [s']. *)
Lemma wp_run {S A} (m : M S A) s a s' : wp m (fun a0 s0 => a0 = a /\ s0 = s') s -> m s = Ret a s'.
Proof. unfold wp. destruct (m s); [|done..]. by intros [-> ->]. Qed.

Lemma wp_eq {S A} (m : M S A) Q s a s' : m s = Ret a s' -> Q a s' -> wp m Q s.
Proof. intros Hm HQ. unfold wp. by rewrite Hm. Qed.

Lemma wp_if {S A} (b : bool) (m1 m2 : M S A) Q s :
  (b = true -> wp m1 Q s) -> (b = false -> wp m2 Q s) -> wp (if b then m1 else m2) Q s.
Proof. destruct b; auto. Qed.

(** The value and the state of an execution that returns. *)
Definition value {S A} (o : outcome S A) : option A := match o with Ret a _ => Some a | _ => None end.
Definition after {S A} (o : outcome S A) (d : S) : S := match o with Ret _ s => s | _ => d end.

Lemma run_after {S A} (o : outcome S A) a d : value o = Some a -> o = Ret a (after o d).
Proof. destruct o; cbn; [|done..]. by intros [= ->]. Qed.

(** ** List lemmas *)

Lemma last_app_singleton {A} (l : list A) x : last (l ++ [x]) = Some x.
Proof. apply last_snoc. Qed.

Lemma last_cons_ne {A} (x : A) l : l <> [] -> last (x :: l) = last l.
Proof. destruct l; [done|]. done. Qed.

Lemma exists_last_or_nil {A} (l : list A) : l = [] \/ exists l' x, l = l' ++ [x].
Proof. induction l using rev_ind; eauto. Qed.

Lemma last_cons_Some {A} (x : A) l : exists y, last (x :: l) = Some y.
Proof. revert x. induction l as [|z l IH]; intros x; [by exists x|]. apply IH. Qed.

Lemma size_list_to_set_le `{Countable A} (l : list A) :
  (size (list_to_set l : gset A) <= length l)%nat.
Proof.
  induction l as [|x l IH]; cbn [list_to_set length]; [by rewrite size_empty|].
  transitivity (size ({[x]} : gset A) + size (list_to_set l : gset A))%nat;
    [rewrite size_union_alt; apply Nat.add_le_mono_l, subseteq_size; set_solver|].
  rewrite size_singleton. cbn. lia.
Qed.

(** Filtering that keeps everything, or nothing. *)
Lemma list_filter_all {A} (P : A -> Prop) `{forall x, Decision (P x)} l :
  Forall P l -> filter P l = l.
Proof. induction 1; [done|]. rewrite filter_cons_True by done. by f_equal. Qed.
Lemma list_filter_none {A} (P : A -> Prop) `{forall x, Decision (P x)} l :
  Forall (fun x => ~ P x) l -> filter P l = [].
Proof. induction 1; [done|]. by rewrite filter_cons_False by done. Qed.

(** Removing an element by filtering. *)
Lemma filter_absent `{EqDecision A} (x : A) (l : list A) : x ∉ l -> filter (fun y => y <> x) l = l.
Proof.
  induction l as [|y l IH]; [done|]. intros Hx.
  rewrite filter_cons_True, IH; [done|set_solver|set_solver].
Qed.

Lemma filter_remove `{EqDecision A} (x : A) (l1 l2 : list A) :
  NoDup (l1 ++ x :: l2) -> filter (fun y => y <> x) (l1 ++ x :: l2) = l1 ++ l2.
Proof.
  intros Hnd. apply NoDup_app in Hnd as (_ & H1 & H2). apply NoDup_cons in H2 as [Hx _].
  rewrite filter_app, filter_cons_False by naive_solver.
  rewrite !filter_absent; [done|done|]. intros Hin. apply (H1 x Hin). set_solver.
Qed.
