(* ===== verification/Status.v ===== *)
(** * Status codes and configuration constants

    The [status_t] enumeration of DnaTools/Status.h (every constructor keeps
    the source's name, [status_code] is its numeric value) and the sizes of
    DnaTools/Configuration.h. *)

From S2P Require Import Prelude.

Inductive status_t : Type :=
| DNA_HANDLED_INTERRUPT | DNA_UNHANDLED_INTERRUPT | DNA_INVOKE_SCHEDULER
| DNA_ALREADY_AT_ROOT | DNA_NO_ERROR | DNA_OK
| DNA_ERROR | DNA_NOT_IMPLEMENTED | DNA_OUT_OF_MEM | DNA_BAD_ARGUMENT
| DNA_ACCES_DENIED | DNA_NAME_TOO_LONG | DNA_INTERRUPTED
| DNA_NO_ENTRY | DNA_NO_VOLUME | DNA_NO_VNODE | DNA_DEVICE_MOUNTED
| DNA_VNODE_MOUNTED | DNA_UNKNOWN_FILESYSTEM | DNA_MAX_OPENED_FILES
| DNA_INVALID_FD | DNA_BAD_INODE_TYPE | DNA_INVALID_WHENCE | DNA_VOLUME_IN_USE
| DNA_INODE_EXISTS
| DNA_BAD_SEM_ID | DNA_NO_MORE_SEM | DNA_WOULD_BLOCK | DNA_TIMED_OUT
| DNA_SEM_DESTROYED
| DNA_UNKNOWN_THREAD | DNA_INVALID_THREAD_ID | DNA_NO_AVAILABLE_THREAD
| DNA_NO_MORE_THREAD | DNA_THREAD_DESTROYED
| DNA_NO_TIMER | DNA_UNKNOWN_ALARM | DNA_NO_MORE_ALARM
| DNA_BAD_PORT_ID | DNA_NO_MORE_PORT | DNA_UNKNOWN_PORT.

#[export] Instance status_eq_dec : EqDecision status_t.
Proof. solve_decision. Defined.

Definition status_code (st : status_t) : Z :=
  match st with
  | DNA_HANDLED_INTERRUPT => 0x0005 | DNA_UNHANDLED_INTERRUPT => 0x0004
  | DNA_INVOKE_SCHEDULER => 0x0003 | DNA_ALREADY_AT_ROOT => 0x0002
  | DNA_NO_ERROR => 0x0001 | DNA_OK => 0x0000
  | DNA_ERROR => 0xFFFF | DNA_NOT_IMPLEMENTED => 0xFFFE | DNA_OUT_OF_MEM => 0xFFFD
  | DNA_BAD_ARGUMENT => 0xFFFC | DNA_ACCES_DENIED => 0xFFFB
  | DNA_NAME_TOO_LONG => 0xFFFA | DNA_INTERRUPTED => 0xFFF9
  | DNA_NO_ENTRY => 0xFEFF | DNA_NO_VOLUME => 0xFEFE | DNA_NO_VNODE => 0xFEFD
  | DNA_DEVICE_MOUNTED => 0xFEFC | DNA_VNODE_MOUNTED => 0xFEFB
  | DNA_UNKNOWN_FILESYSTEM => 0xFEFA | DNA_MAX_OPENED_FILES => 0xFEF9
  | DNA_INVALID_FD => 0xFEF8 | DNA_BAD_INODE_TYPE => 0xFEF7
  | DNA_INVALID_WHENCE => 0xFEF6 | DNA_VOLUME_IN_USE => 0xFEF5
  | DNA_INODE_EXISTS => 0xFEF4
  | DNA_BAD_SEM_ID => 0xFDFF | DNA_NO_MORE_SEM => 0xFDFE | DNA_WOULD_BLOCK => 0xFDFD
  | DNA_TIMED_OUT => 0xFDFC | DNA_SEM_DESTROYED => 0xFDFB
  | DNA_UNKNOWN_THREAD => 0xFCFF | DNA_INVALID_THREAD_ID => 0xFCFE
  | DNA_NO_AVAILABLE_THREAD => 0xFCFD | DNA_NO_MORE_THREAD => 0xFCFC
  | DNA_THREAD_DESTROYED => 0xFCFB
  | DNA_NO_TIMER => 0xFBFF | DNA_UNKNOWN_ALARM => 0xFBFE | DNA_NO_MORE_ALARM => 0xFBFD
  | DNA_BAD_PORT_ID => 0xFAFF | DNA_NO_MORE_PORT => 0xFAFE | DNA_UNKNOWN_PORT => 0xFAFD
  end.

(** Equality test on statuses, as the C code compares them. *)
Definition st_eqb (a b : status_t) : bool := bool_decide (a = b).

Definition DNA_NAME_LENGTH : Z := 32.
Definition DNA_FILENAME_LENGTH : Z := 256.
Definition DNA_PATH_LENGTH : Z := 1024.
Definition DNA_IDLE_STACK_SIZE : Z := 0x8000.
Definition DNA_THREAD_STACK_SIZE : Z := 0x8000.
Definition DNA_MAX_CPU : Z := 16.
Definition DNA_MAX_SEM : Z := 4096.
Definition DNA_MAX_THREAD : Z := 64.
Definition DNA_MAX_GROUP : Z := 1.
Definition DNA_MAX_ALARM : Z := 64.
Definition DNA_MAX_PORT : Z := 64.
Definition CPU_TRAP_COUNT : Z := 32.

(** Distinct statuses have distinct codes, so comparing statuses is comparing
    the integers of the C code. *)
Lemma status_code_inj a b : status_code a = status_code b -> a = b.
Proof. destruct a; destruct b; first [reflexivity | discriminate]. Qed.
