(* ===== verification/CLib.v ===== *)
(** * C support library of the kernel (DnaTools/Sources/dna_*.c, path_*.c)

    The routines work on a flat memory of bytes: [mem] maps every mapped address
    to its content, and an access to any other address is a fault.  A string is
    a sequence of non-zero bytes followed by a zero.  A loop that walks through
    a string or a buffer reads a new address at each turn: it leaves the mapped
    addresses after at most [size mem] turns, hence the bound [walk_fuel].

    The build is the default one (neither WRITEBACK nor WRITETHROUGH): the
    DCACHE_ macros are empty. *)

From S2P Require Import Prelude Status.

Abbreviation mem := (gmap Z Z).

Definition load (p : Z) : M mem Z := let* m := gets (fun m => m) in deref (m !! p).
Definition store (p v : Z) : M mem unit := load p ;; modify (fun m => <[p := u8 v]> m).

Definition walk_fuel (m : mem) : nat := S (size m).

(** ** Strings *)

(** dna_strlen.c *)
Fixpoint strlen_loop (fuel : nat) (s sz : Z) : M mem Z :=
  match fuel with
  | O => diverge
  | S fuel =>
      let* c := load (s + sz) in
      let sz := u32 (sz + 1) in
      if negb (c =? 0) then strlen_loop fuel s sz else ret (u32 (sz - 1))
  end.
Definition dna_strlen (s : Z) : M mem Z :=
  let* fuel := gets walk_fuel in strlen_loop fuel s 0.

(** dna_strcpy.c: [*s2_ptr] is read again after the store. *)
Fixpoint strcpy_loop (fuel : nat) (s1 s2 : Z) : M mem unit :=
  match fuel with
  | O => diverge
  | S fuel =>
      let* c := load s2 in
      store s1 c ;;
      let* c := load s2 in
      if negb (c =? 0) then strcpy_loop fuel (s1 + 1) (s2 + 1) else ret tt
  end.
Definition dna_strcpy (s1 s2 : Z) : M mem Z :=
  let* fuel := gets walk_fuel in strcpy_loop fuel s1 s2 ;; ret s1.

(** dna_strcmp.c *)
Fixpoint strcmp_loop (fuel : nat) (s1 s2 : Z) : M mem Z :=
  match fuel with
  | O => diverge
  | S fuel =>
      let* c1 := load s1 in
      let* c2 := load s2 in
      if negb (c1 =? c2) then ret (-1)
      else if negb (c2 =? 0) then strcmp_loop fuel (s1 + 1) (s2 + 1) else ret 0
  end.
Definition dna_strcmp (s1 s2 : Z) : M mem Z :=
  let* fuel := gets walk_fuel in strcmp_loop fuel s1 s2.

(** dna_strncmp.c: the characters are compared before [i < n] is tested. *)
Fixpoint strncmp_loop (fuel : nat) (s1 s2 i n : Z) : M mem Z :=
  match fuel with
  | O => diverge
  | S fuel =>
      let* c1 := load s1 in
      let* c2 := load s2 in
      if negb (c1 =? c2) then ret (-1)
      else
        let i := u32 (i + 1) in
        if negb (c2 =? 0) && (i <? n) then strncmp_loop fuel (s1 + 1) (s2 + 1) i n else ret 0
  end.
Definition dna_strncmp (s1 s2 n : Z) : M mem Z :=
  let* fuel := gets walk_fuel in strncmp_loop fuel s1 s2 0 n.

(** dna_strcat.c *)
Fixpoint end_loop (fuel : nat) (s1 : Z) : M mem Z :=
  match fuel with
  | O => diverge
  | S fuel => let* c := load s1 in if negb (c =? 0) then end_loop fuel (s1 + 1) else ret s1
  end.
Fixpoint append_loop (fuel : nat) (s1 s2 : Z) : M mem Z :=
  match fuel with
  | O => diverge
  | S fuel =>
      let* c := load s2 in
      if negb (c =? 0) then store s1 c ;; append_loop fuel (s1 + 1) (s2 + 1) else ret s1
  end.
Definition dna_strcat (dest src : Z) : M mem Z :=
  let* fuel := gets walk_fuel in
  let* s1 := end_loop fuel dest in
  let* s1 := append_loop fuel s1 src in
  store s1 0 ;;
  ret dest.

(** ** Buffers *)

(** dna_memcpy.c *)
Definition dna_memcpy (s1 s2 n : Z) : M mem Z :=
  for_from (Z.to_nat n) 0 (fun idx => let* c := load (s2 + idx) in store (s1 + idx) c) ;;
  ret s1.

(** dna_memcmp.c *)
Fixpoint memcmp_loop (k : nat) (s1 s2 i : Z) : M mem Z :=
  match k with
  | O => ret 0
  | S k =>
      let* c1 := load (s1 + i) in
      let* c2 := load (s2 + i) in
      if negb (c1 =? c2) then
        (if c1 <? c2 then ret (c2 - c1) else ret (c1 - c2))
      else memcmp_loop k s1 s2 (i + 1)
  end.
Definition dna_memcmp (s1 s2 n : Z) : M mem Z := memcmp_loop (Z.to_nat n) s1 s2 0.

(** Store of an int32_t on a little-endian processor. *)
Definition store32 (p v : Z) : M mem unit :=
  store p v ;; store (p + 1) (Z.shiftr v 8) ;;
  store (p + 2) (Z.shiftr v 16) ;; store (p + 3) (Z.shiftr v 24).

(** dna_memset.c: the last [n % 4] bytes are written at the start of the buffer. *)
Definition dna_memset (s c n : Z) : M mem Z :=
  let rem := n mod 4 in
  let quo := Z.shiftr n 2 in
  for_from (Z.to_nat quo) 0 (fun step => store32 (s + 4 * step) c) ;;
  for_from (Z.to_nat rem) 0 (fun step => store (s + step) c) ;;
  ret s.

(** ** Numbers *)

(** dna_atoi.c, from the last digit to the first one: [k] is [index + 1]. *)
Fixpoint atoi_loop (k : nat) (alpha value coeff : Z) : M mem Z :=
  match k with
  | O => ret value
  | S k =>
      let* a := load (alpha + Z.of_nat k) in
      let c := a - 48 in
      if (c <? 0) || (9 <? c) then ret (-1)
      else atoi_loop k alpha (i32 (value + u32 (c * coeff))) (u32 (coeff * 10))
  end.
Definition dna_atoi (alpha : Z) : M mem Z :=
  let* len := dna_strlen alpha in
  if alpha =? 0 then ret (-1)
  else if len =? 0 then ret (-1)
  else atoi_loop (Z.to_nat len) alpha 0 1.

(** The digits of dna_itoa.c, the last digit first; [value] is an int32_t and
    every turn divides it by ten, hence the bound. *)
Fixpoint digits (fuel : nat) (value : Z) : list Z :=
  match fuel with
  | O => []
  | S fuel =>
      u8 (Z.rem value 10 + 48) :: (if 0 <? Z.quot value 10 then digits fuel (Z.quot value 10) else [])
  end.
Definition itoa_ascii (integer : Z) : list Z :=
  let negative := integer <? 0 in
  let value := if negative then i32 (-1 * integer) else integer in
  digits 32 value ++ (if negative then [45] else []).

(** Copy of a sequence of characters, which returns the next address. *)
Fixpoint put_chars (buffer : Z) (l : list Z) : M mem Z :=
  match l with
  | [] => ret buffer
  | c :: l => store buffer c ;; put_chars (buffer + 1) l
  end.
(** dna_itoa.c *)
Definition dna_itoa (integer buffer : Z) : M mem Z :=
  let* buffer := put_chars buffer (rev (itoa_ascii integer)) in
  store buffer 0 ;;
  ret integer.

(** dna_log2.c *)
Definition log2_b : list Z := [0x2; 0xC; 0xF0; 0xFF00; 0xFFFF0000].
Definition log2_S : list Z := [1; 2; 4; 8; 16].
Definition log2_step (i : nat) (vr : Z * Z) : Z * Z :=
  let (value, r) := vr in
  let s := default 0 (log2_S !! i) in
  if negb (Z.land value (default 0 (log2_b !! i)) =? 0) then (Z.shiftr value s, Z.lor r s)
  else (value, r).
Definition dna_log2 (value : Z) : Z :=
  (log2_step 0 (log2_step 1 (log2_step 2 (log2_step 3 (log2_step 4 (value, 0)))))).2.

(** ** Paths *)

Definition slash : Z := 47.

(** while ( *p_end != '/' && *p_end != '\0') p_end += 1; *)
Fixpoint entry_loop (fuel : nat) (p_end : Z) : M mem Z :=
  match fuel with
  | O => diverge
  | S fuel =>
      let* c := load p_end in
      if negb (c =? slash) && negb (c =? 0) then entry_loop fuel (p_end + 1) else ret p_end
  end.

(** path_get_next_entry.c; [path] is the value of [*path], and the second
    component of the result the new one. *)
Definition path_get_next_entry (path token : Z) : M mem (status_t * Z) :=
  let* c := load path in
  ensure negb (c =? 0) orelse (DNA_ERROR, path) in
  let* fuel := gets walk_fuel in
  let* p_end := entry_loop fuel path in
  let token_size := i32 (p_end - path) in
  ensure token_size <=? DNA_FILENAME_LENGTH orelse (DNA_NAME_TOO_LONG, path) in
  dna_memcpy token path token_size ;;
  store (token + token_size) 0 ;;
  let* c := load p_end in
  let* p_end := (if c =? slash then store p_end 0 ;; ret (p_end + 1) else ret p_end) in
  ret (DNA_OK, p_end).

(** while ( *p_start != '/' && p_start != path) p_start -= 1; *)
Fixpoint start_loop (fuel : nat) (path p_start : Z) : M mem Z :=
  match fuel with
  | O => diverge
  | S fuel =>
      let* c := load p_start in
      if negb (c =? slash) && negb (p_start =? path) then start_loop fuel path (u32 (p_start - 1))
      else ret p_start
  end.

(** path_split.c *)
Definition path_split (path token : Z) : M mem status_t :=
  let p_start := 0 in
  ensure negb (path =? 0) && negb (token =? 0) orelse DNA_ERROR in
  let* len := dna_strlen path in
  let p_end := path + len in
  let* c := load p_end in
  let* p_end := (if c =? slash then store (p_end + 1) 46 ;; ret (p_end + 1) else ret p_end) in
  let* fuel := gets walk_fuel in
  let* p_start := start_loop fuel path p_start in
  let* c := load p_start in
  ensure c =? slash orelse DNA_ERROR in
  let token_size := i32 (p_end - p_start + 1) in
  ensure token_size <=? DNA_FILENAME_LENGTH orelse DNA_NAME_TOO_LONG in
  dna_memcpy token (p_start + 1) token_size ;;
  store (token + token_size) 0 ;;
  store (p_start + 1) 0 ;;
  ret DNA_OK.

(** ** Extensions (extension_get.c)

    [list] is OS_EXTENSIONS_LIST: the address of the name of each extension and
    its [initialize] function, if any; the result tells which extension was
    found. *)
Fixpoint extension_get (list : list (Z * option (M mem status_t))) (i : nat) (name : Z)
    : M mem (status_t * option nat) :=
  match list with
  | [] => ret (DNA_ERROR, None)
  | (ext_name, initialize) :: list =>
      let* r := dna_strcmp ext_name name in
      if r =? 0 then
        match initialize with
        | None => ret (DNA_ERROR, Some i)
        | Some initialize => let* status := initialize in ret (status, Some i)
        end
      else extension_get list (S i) name
  end.

(** ** Contents of the memory *)

(** The bytes [l] are stored from the address [p]. *)
Fixpoint segment (m : mem) (p : Z) (l : list Z) : Prop :=
  match l with
  | [] => True
  | c :: l => m !! p = Some c /\ segment m (p + 1) l
  end.

(** The memory after the bytes [l] have been stored from [p]. *)
Fixpoint written (m : mem) (p : Z) (l : list Z) : mem :=
  match l with
  | [] => m
  | c :: l => written (<[p := c]> m) (p + 1) l
  end.

(** A character of a string, a byte. *)
Definition ischar (c : Z) : Prop := 0 < c < 256.
Definition isbyte (c : Z) : Prop := 0 <= c < 256.

(** The string [l] is stored at [p]. *)
Definition cstring (m : mem) (p : Z) (l : list Z) : Prop := Forall ischar l /\ segment m p (l ++ [0]).

(** [n] addresses from [p] are mapped. *)
Definition mapped (m : mem) (p : Z) (n : nat) : Prop :=
  forall i, 0 <= i < Z.of_nat n -> is_Some (m !! (p + i)).

Definition apart (p : Z) (n : nat) (q : Z) (k : nat) : Prop :=
  p + Z.of_nat n <= q \/ q + Z.of_nat k <= p.

Lemma segment_app m p l1 l2 :
  segment m p (l1 ++ l2) <-> segment m p l1 /\ segment m (p + Z.of_nat (length l1)) l2.
Proof.
  revert p. induction l1 as [|c l1 IH]; intros p; cbn [app segment length].
  - rewrite Z.add_0_r. tauto.
  - rewrite IH. replace (p + 1 + Z.of_nat (length l1)) with (p + Z.of_nat (S (length l1))) by lia. tauto.
Qed.

Lemma segment_insert m p l q c :
  (q < p \/ p + Z.of_nat (length l) <= q) -> segment m p l -> segment (<[q := c]> m) p l.
Proof.
  revert p. induction l as [|d l IH]; intros p Hq; cbn [segment length] in *; [done|].
  intros [Hp Hl]. split; [rewrite lookup_insert_ne by lia; done|]. apply IH; [lia|done].
Qed.

Lemma segment_lookup m p l i c : segment m p l -> l !! i = Some c -> m !! (p + Z.of_nat i) = Some c.
Proof.
  revert p i. induction l as [|d l IH]; intros p i Hs Hi; [done|]. destruct Hs as [Hp Hs].
  destruct i as [|i]; [rewrite Z.add_0_r; by injection Hi as <-|].
  replace (p + Z.of_nat (S i)) with (p + 1 + Z.of_nat i) by lia. by apply IH.
Qed.

Lemma segment_mapped m p l : segment m p l -> mapped m p (length l).
Proof.
  intros Hs i Hi. destruct (lookup_lt_is_Some_2 l (Z.to_nat i)) as [c Hc]; [lia|].
  exists c. replace i with (Z.of_nat (Z.to_nat i)) by lia. by eapply segment_lookup.
Qed.

(** Mapped addresses are bounded by the size of the memory. *)
Lemma mapped_size m p n : mapped m p n -> (n <= size m)%nat.
Proof.
  intros Hm. set (l := (fun i => p + Z.of_nat i) <$> seq 0 n).
  assert (NoDup l) as Hnd.
  { apply NoDup_fmap_2_strong; [|apply NoDup_seq]. intros x y _ _ Hxy. lia. }
  assert (length l = n) as Hn by (unfold l; by rewrite length_fmap, length_seq).
  rewrite <- Hn at 1. rewrite <- (size_list_to_set (C := gset Z)) by done. rewrite <- size_dom.
  apply subseteq_size. intros x Hx. apply elem_of_list_to_set, list_elem_of_fmap in Hx.
  destruct Hx as (i & -> & Hi%elem_of_seq). apply elem_of_dom, Hm. lia.
Qed.

Lemma mapped_insert m p n q c : mapped m p n -> mapped (<[q := c]> m) p n.
Proof.
  intros Hm i Hi. destruct (decide (q = p + i)) as [->|Hne].
  - rewrite lookup_insert_eq. eauto.
  - rewrite lookup_insert_ne by done. by apply Hm.
Qed.

Lemma mapped_tail m p n : mapped m p (S n) -> mapped m (p + 1) n.
Proof. intros Hm i Hi. rewrite <- Z.add_assoc. apply Hm. lia. Qed.

Lemma mapped_head m p n : mapped m p (S n) -> is_Some (m !! p).
Proof. intros Hm. rewrite <- (Z.add_0_r p). apply Hm. lia. Qed.

Lemma written_app m p l1 l2 :
  written m p (l1 ++ l2) = written (written m p l1) (p + Z.of_nat (length l1)) l2.
Proof.
  revert m p. induction l1 as [|c l1 IH]; intros m p; cbn [app written length].
  - by rewrite Z.add_0_r.
  - rewrite IH. f_equal. lia.
Qed.

Lemma written_outside m p l q :
  q < p \/ p + Z.of_nat (length l) <= q -> written m p l !! q = m !! q.
Proof.
  revert m p. induction l as [|c l IH]; intros m p Hq; cbn [written length] in *; [done|].
  rewrite IH by lia. apply lookup_insert_ne. lia.
Qed.

Lemma written_segment m p l : segment (written m p l) p l.
Proof.
  revert m p. induction l as [|c l IH]; intros m p; cbn [written segment]; [done|].
  split; [|apply IH]. rewrite written_outside by lia. apply lookup_insert_eq.
Qed.

Lemma segment_written m p l q l' :
  apart p (length l) q (length l') -> segment m q l' -> segment (written m p l) q l'.
Proof.
  revert m p. induction l as [|c l IH]; intros m p Ha Hs; cbn [written length] in *; [done|].
  apply IH; [unfold apart in *; cbn in *; lia|]. destruct l' as [|d l']; [done|].
  apply segment_insert; [unfold apart in *; cbn in *; lia|done].
Qed.

(** ** Rules for the accesses *)

Lemma u8_id c : isbyte c -> u8 c = c.
Proof. unfold isbyte, u8, wrap_u. intros. by apply Z.mod_small. Qed.

Lemma wp_load p c Q (m : mem) : m !! p = Some c -> Q c m -> wp (load p) Q m.
Proof. intros Hp HQ. unfold wp, load, bind, gets. by rewrite Hp. Qed.

Lemma wp_store p v Q (m : mem) : is_Some (m !! p) -> Q tt (<[p := u8 v]> m) -> wp (store p v) Q m.
Proof. intros [c Hp] HQ. unfold store. apply wp_bind. by eapply wp_load. Qed.

Lemma char_nonzero c : ischar c -> negb (c =? 0) = true.
Proof. unfold ischar. intros. by rewrite (proj2 (Z.eqb_neq c 0)) by lia. Qed.

Lemma char_byte c : ischar c -> isbyte c.
Proof. unfold ischar, isbyte. lia. Qed.

Lemma cstring_length m p l : cstring m p l -> (length l < size m)%nat.
Proof.
  intros [_ Hs]. apply segment_mapped, mapped_size in Hs. rewrite length_app in Hs. cbn in Hs. lia.
Qed.

Lemma cstring_cons m p c l : cstring m p (c :: l) -> ischar c /\ m !! p = Some c /\ cstring m (p + 1) l.
Proof. intros [[Hc Hl]%Forall_cons [Hp Hs]]. done. Qed.

Lemma cstring_nil m p : cstring m p [] -> m !! p = Some 0.
Proof. by intros [_ [Hp _]]. Qed.

(** ** Strings *)

Lemma strlen_loop_ok m s l : forall k fuel,
  cstring m (s + k) l -> (length l < fuel)%nat -> 0 <= k -> k + Z.of_nat (length l) < 2 ^ 32 - 1 ->
  strlen_loop fuel s k m = Ret (k + Z.of_nat (length l)) m.
Proof.
  induction l as [|c l IH]; intros k fuel Hs Hf Hk Hb; (destruct fuel as [|fuel]; [cbn in Hf; lia|]);
    cbn [strlen_loop length] in *; apply wp_run, wp_bind.
  - eapply wp_load; [by apply cstring_nil|]. cbn [Z.eqb negb]. rewrite !u32_id by (rewrite ?u32_id; lia).
    apply wp_ret. split; [lia|done].
  - apply cstring_cons in Hs as (Hc & Hp & Hs). eapply wp_load; [exact Hp|].
    rewrite (char_nonzero c Hc), u32_id by lia. eapply wp_eq; [apply IH|]; [|lia|lia|lia|].
    + by rewrite Z.add_assoc.
    + split; [lia|done].
Qed.

Lemma dna_strlen_ok m s l :
  cstring m s l -> Z.of_nat (length l) < 2 ^ 32 - 1 -> dna_strlen s m = Ret (Z.of_nat (length l)) m.
Proof.
  intros Hs Hl. apply wp_run, wp_bind, wp_gets. eapply wp_eq; [eapply (strlen_loop_ok m s l 0)|done];
    [by rewrite Z.add_0_r|pose proof (cstring_length _ _ _ Hs); unfold walk_fuel; lia|lia|lia].
Qed.

(** A string stays where the writes do not reach it. *)
Lemma cstring_insert m p l q c :
  (q < p \/ p + Z.of_nat (length l) < q) -> cstring m p l -> cstring (<[q := c]> m) p l.
Proof.
  intros Hq [Hl Hs]. split; [done|]. apply segment_insert; [rewrite length_app; cbn; lia|done].
Qed.

(** [apart] with the terminators counted, unfolded to linear arithmetic. *)
Ltac apart := unfold apart, mapped in *; rewrite ?length_app in *; cbn [length] in *; lia.

Lemma strcpy_loop_ok l : forall m s1 s2 fuel,
  cstring m s2 l -> mapped m s1 (S (length l)) -> apart s1 (S (length l)) s2 (S (length l)) ->
  (length l < fuel)%nat ->
  strcpy_loop fuel s1 s2 m = Ret tt (written m s1 (l ++ [0])).
Proof.
  induction l as [|c l IH]; intros m s1 s2 fuel Hs Hm Ha Hf; (destruct fuel as [|fuel]; [cbn in Hf; lia|]);
    cbn [strcpy_loop app written] in *; apply wp_run, wp_bind.
  - pose proof (cstring_nil _ _ Hs) as Hz. eapply wp_load; [exact Hz|]. apply wp_bind.
    apply wp_store; [by eapply mapped_head|]. apply wp_bind.
    eapply wp_load; [rewrite lookup_insert_ne by apart; exact Hz|]. by apply wp_ret.
  - pose proof Hs as (Hc & Hp & Hl)%cstring_cons. eapply wp_load; [exact Hp|]. apply wp_bind.
    apply wp_store; [by eapply mapped_head|]. apply wp_bind.
    eapply wp_load; [rewrite lookup_insert_ne by apart; exact Hp|].
    rewrite (char_nonzero c Hc), u8_id by (by apply char_byte).
    eapply wp_eq; [apply IH|done]; [|by apply mapped_insert, mapped_tail|apart|apart].
    apply cstring_insert; [apart|done].
Qed.

Lemma dna_strcpy_ok m s1 s2 l :
  cstring m s2 l -> mapped m s1 (S (length l)) -> apart s1 (S (length l)) s2 (S (length l)) ->
  dna_strcpy s1 s2 m = Ret s1 (written m s1 (l ++ [0])).
Proof.
  intros Hs Hm Ha. apply wp_run, wp_bind, wp_gets, wp_bind.
  eapply wp_eq; [apply strcpy_loop_ok; try done|by apply wp_ret].
  pose proof (cstring_length _ _ _ Hs). unfold walk_fuel. lia.
Qed.

Lemma strcmp_loop_ok m l1 : forall l2 s1 s2 fuel,
  cstring m s1 l1 -> cstring m s2 l2 -> (length l1 < fuel)%nat ->
  strcmp_loop fuel s1 s2 m = Ret (if decide (l1 = l2) then 0 else -1) m.
Proof.
  induction l1 as [|c1 l1 IH]; intros l2 s1 s2 fuel H1 H2 Hf;
    (destruct fuel as [|fuel]; [cbn in Hf; lia|]); cbn [strcmp_loop length] in *; apply wp_run, wp_bind.
  - eapply wp_load; [by apply cstring_nil|]. apply wp_bind. destruct l2 as [|c2 l2].
    + eapply wp_load; [by apply cstring_nil|]. by apply wp_ret.
    + apply cstring_cons in H2 as (Hc & Hp & _). eapply wp_load; [exact Hp|].
      replace (0 =? c2) with false by (symmetry; unfold ischar in *; zbool; lia). by apply wp_ret.
  - apply cstring_cons in H1 as (Hc1 & Hp1 & H1). eapply wp_load; [exact Hp1|]. apply wp_bind.
    destruct l2 as [|c2 l2].
    + eapply wp_load; [by apply cstring_nil|]. rewrite (char_nonzero c1 Hc1). by apply wp_ret.
    + apply cstring_cons in H2 as (Hc2 & Hp2 & H2). eapply wp_load; [exact Hp2|].
      destruct (c1 =? c2) eqn:He; zbool; cbn [negb].
      * subst c2. rewrite (char_nonzero c1 Hc1). eapply wp_eq; [by apply (IH l2); [..|lia]|].
        by destruct (decide (l1 = l2)), (decide (c1 :: l1 = c1 :: l2)); try congruence.
      * apply wp_ret. rewrite decide_False by congruence. done.
Qed.

Lemma dna_strcmp_ok m s1 s2 l1 l2 :
  cstring m s1 l1 -> cstring m s2 l2 -> dna_strcmp s1 s2 m = Ret (if decide (l1 = l2) then 0 else -1) m.
Proof.
  intros H1 H2. apply wp_run, wp_bind, wp_gets. pose proof (cstring_length _ _ _ H1).
  eapply wp_eq; [apply (strcmp_loop_ok m l1 l2); [done|done|unfold walk_fuel; lia]|done].
Qed.

Lemma strncmp_loop_ok m l1 : forall l2 s1 s2 i n fuel,
  cstring m s1 l1 -> cstring m s2 l2 -> (length l1 < fuel)%nat -> 0 <= i < n -> n < 2 ^ 32 ->
  strncmp_loop fuel s1 s2 i n m =
    Ret (if decide (take (Z.to_nat (n - i)) l1 = take (Z.to_nat (n - i)) l2) then 0 else -1) m.
Proof.
  induction l1 as [|c1 l1 IH]; intros l2 s1 s2 i n fuel H1 H2 Hf Hi Hn;
    (destruct fuel as [|fuel]; [cbn in Hf; lia|]); cbn [strncmp_loop length] in *; apply wp_run, wp_bind;
    destruct (Z.to_nat (n - i)) as [|k] eqn:Hk; try lia.
  - eapply wp_load; [by apply cstring_nil|]. apply wp_bind. destruct l2 as [|c2 l2].
    + eapply wp_load; [by apply cstring_nil|]. by apply wp_ret.
    + apply cstring_cons in H2 as (Hc & Hp & _). eapply wp_load; [exact Hp|].
      replace (0 =? c2) with false by (symmetry; unfold ischar in *; zbool; lia). by apply wp_ret.
  - apply cstring_cons in H1 as (Hc1 & Hp1 & H1). eapply wp_load; [exact Hp1|]. apply wp_bind.
    destruct l2 as [|c2 l2].
    + eapply wp_load; [by apply cstring_nil|]. rewrite (char_nonzero c1 Hc1). by apply wp_ret.
    + apply cstring_cons in H2 as (Hc2 & Hp2 & H2). eapply wp_load; [exact Hp2|]. cbn [take].
      destruct (c1 =? c2) eqn:He; zbool; cbn [negb].
      * subst c2. rewrite (char_nonzero c1 Hc1), u32_id by lia. cbn [andb].
        destruct (i + 1 <? n) eqn:Hlt; zbool.
        -- eapply wp_eq; [apply (IH l2); [done|done|lia|lia|lia]|].
           replace (Z.to_nat (n - (i + 1))) with k by lia. split; [|done].
           destruct (decide (take k l1 = take k l2)), (decide (c1 :: take k l1 = c1 :: take k l2)); congruence.
        -- apply wp_ret. assert (k = 0%nat) as -> by lia. by rewrite decide_True.
      * apply wp_ret. rewrite decide_False by congruence. done.
Qed.

Lemma dna_strncmp_ok m s1 s2 l1 l2 n :
  cstring m s1 l1 -> cstring m s2 l2 -> 0 < n < 2 ^ 32 ->
  dna_strncmp s1 s2 n m =
    Ret (if decide (take (Z.to_nat n) l1 = take (Z.to_nat n) l2) then 0 else -1) m.
Proof.
  intros H1 H2 Hn. apply wp_run, wp_bind, wp_gets. pose proof (cstring_length _ _ _ H1).
  eapply wp_eq; [apply (strncmp_loop_ok m l1 l2); [done|done|unfold walk_fuel; lia|lia|lia]|].
  by rewrite Z.sub_0_r.
Qed.

Lemma end_loop_ok m l : forall s fuel,
  cstring m s l -> (length l < fuel)%nat -> end_loop fuel s m = Ret (s + Z.of_nat (length l)) m.
Proof.
  induction l as [|c l IH]; intros s fuel Hs Hf; (destruct fuel as [|fuel]; [cbn in Hf; lia|]);
    cbn [end_loop length] in *; apply wp_run, wp_bind.
  - eapply wp_load; [by apply cstring_nil|]. apply wp_ret. split; [lia|done].
  - apply cstring_cons in Hs as (Hc & Hp & Hs). eapply wp_load; [exact Hp|].
    rewrite (char_nonzero c Hc). eapply wp_eq; [apply IH; [done|lia]|]. split; [lia|done].
Qed.

Lemma append_loop_ok l : forall m s1 s2 fuel,
  cstring m s2 l -> mapped m s1 (length l) -> apart s1 (length l) s2 (S (length l)) ->
  (length l < fuel)%nat ->
  append_loop fuel s1 s2 m = Ret (s1 + Z.of_nat (length l)) (written m s1 l).
Proof.
  induction l as [|c l IH]; intros m s1 s2 fuel Hs Hm Ha Hf; (destruct fuel as [|fuel]; [cbn in Hf; lia|]);
    cbn [append_loop length written] in *; apply wp_run, wp_bind.
  - eapply wp_load; [by apply cstring_nil|]. apply wp_ret. split; [lia|done].
  - apply cstring_cons in Hs as (Hc & Hp & Hs). eapply wp_load; [exact Hp|].
    rewrite (char_nonzero c Hc). apply wp_bind, wp_store; [by eapply mapped_head|].
    rewrite u8_id by (by apply char_byte).
    eapply wp_eq; [apply IH|]; [|by apply mapped_insert, mapped_tail|apart|apart|split; [lia|done]].
    apply cstring_insert; [apart|done].
Qed.

Lemma mapped_written m p n q l : mapped m p n -> mapped (written m q l) p n.
Proof.
  revert m q. induction l as [|c l IH]; intros m q Hm; cbn [written]; [done|].
  by apply IH, mapped_insert.
Qed.

Lemma mapped_sub m p n q k :
  mapped m p n -> p <= q -> q + Z.of_nat k <= p + Z.of_nat n -> mapped m q k.
Proof.
  intros Hm Hq Hk i Hi. replace (q + i) with (p + (q + i - p)) by lia. apply Hm. lia.
Qed.

Lemma dna_strcat_ok m d s l1 l2 :
  cstring m d l1 -> cstring m s l2 -> mapped m d (S (length l1 + length l2)) ->
  apart (d + Z.of_nat (length l1)) (S (length l2)) s (S (length l2)) ->
  dna_strcat d s m = Ret d (written m (d + Z.of_nat (length l1)) (l2 ++ [0])).
Proof.
  intros H1 H2 Hm Ha. apply wp_run, wp_bind, wp_gets.
  pose proof (cstring_length _ _ _ H1). pose proof (cstring_length _ _ _ H2).
  apply wp_bind. eapply wp_eq; [apply end_loop_ok; [done|unfold walk_fuel; lia]|].
  apply wp_bind. eapply wp_eq; [apply append_loop_ok; [done| |apart|unfold walk_fuel; lia]|].
  { eapply mapped_sub; [done|lia|lia]. }
  apply wp_bind, wp_store.
  { eapply mapped_head, mapped_written, (mapped_sub _ _ _ _ 1); [exact Hm|lia|lia]. }
  apply wp_ret. split; [done|]. by rewrite written_app.
Qed.

(** ** Buffers *)

(** The body of the copy loop, from the byte [i]. *)
Lemma memcpy_loop_ok l : forall m s1 s2 i,
  segment m (s2 + i) l -> Forall isbyte l -> mapped m (s1 + i) (length l) ->
  apart (s1 + i) (length l) (s2 + i) (length l) ->
  for_from (length l) i (fun idx => let* c := load (s2 + idx) in store (s1 + idx) c) m =
    Ret tt (written m (s1 + i) l).
Proof.
  induction l as [|c l IH]; intros m s1 s2 i Hs Hb Hm Ha; cbn [for_from length written]; [done|].
  destruct Hs as [Hp Hs]. apply Forall_cons in Hb as [Hc Hb].
  apply wp_run, wp_bind, wp_bind. eapply wp_load; [exact Hp|].
  apply wp_store; [by eapply mapped_head|]. rewrite u8_id by done.
  rewrite <- !Z.add_assoc in *. eapply wp_eq; [apply IH; try done|done].
  - apply segment_insert; [apart|done].
  - rewrite Z.add_assoc. by apply mapped_insert, mapped_tail.
  - apart.
Qed.

Lemma dna_memcpy_ok m s1 s2 l :
  segment m s2 l -> Forall isbyte l -> mapped m s1 (length l) -> apart s1 (length l) s2 (length l) ->
  dna_memcpy s1 s2 (Z.of_nat (length l)) m = Ret s1 (written m s1 l).
Proof.
  intros Hs Hb Hm Ha. apply wp_run, wp_bind. rewrite Nat2Z.id.
  eapply wp_eq; [apply memcpy_loop_ok; rewrite ?Z.add_0_r; done|]. rewrite Z.add_0_r. by apply wp_ret.
Qed.

(** dna_memcmp returns the distance of the first bytes that differ. *)
Fixpoint distance (l1 l2 : list Z) : Z :=
  match l1, l2 with
  | c1 :: l1, c2 :: l2 => if c1 =? c2 then distance l1 l2 else Z.abs (c1 - c2)
  | _, _ => 0
  end.

Lemma memcmp_loop_ok m l1 : forall l2 s1 s2 i,
  segment m (s1 + i) l1 -> segment m (s2 + i) l2 -> length l1 = length l2 ->
  memcmp_loop (length l1) s1 s2 i m = Ret (distance l1 l2) m.
Proof.
  induction l1 as [|c1 l1 IH]; intros [|c2 l2] s1 s2 i H1 H2 Hl; try done.
  destruct H1 as [Hp1 H1], H2 as [Hp2 H2]. cbn [memcmp_loop length distance] in *.
  apply wp_run, wp_bind. eapply wp_load; [exact Hp1|]. apply wp_bind. eapply wp_load; [exact Hp2|].
  destruct (c1 =? c2) eqn:He; zbool; cbn [negb].
  - rewrite <- !Z.add_assoc in *. eapply wp_eq; [apply (IH l2); [done|done|lia]|done].
  - destruct (c1 <? c2) eqn:Hlt; zbool; apply wp_ret; split; [lia|done|lia|done].
Qed.

Lemma distance_zero l1 : forall l2, length l1 = length l2 -> distance l1 l2 = 0 <-> l1 = l2.
Proof.
  induction l1 as [|c1 l1 IH]; intros [|c2 l2] Hl; try done. cbn [distance length] in *.
  destruct (c1 =? c2) eqn:He; zbool.
  - rewrite IH by lia. split; [congruence|]. by intros [= _ ->].
  - split; [lia|]. by intros [= ? _].
Qed.

(** Clearing a buffer. *)
Definition zeros (n : nat) : list Z := replicate n 0.

Lemma store32_zero p m : mapped m p 4 -> store32 p 0 m = Ret tt (written m p (zeros 4)).
Proof.
  intros Hm. apply wp_run. unfold store32. cbn [zeros replicate written].
  replace (p + 1 + 1) with (p + 2) by lia. replace (p + 2 + 1) with (p + 3) by lia.
  apply wp_bind, wp_store; [rewrite <- (Z.add_0_r p); apply Hm; lia|].
  apply wp_bind, wp_store; [apply (mapped_insert _ _ _ _ _ Hm); lia|].
  apply wp_bind, wp_store; [apply (mapped_insert _ _ _ _ _ (mapped_insert _ _ _ _ _ Hm)); lia|].
  apply wp_store; [|done].
  apply (mapped_insert _ _ _ _ _ (mapped_insert _ _ _ _ _ (mapped_insert _ _ _ _ _ Hm))); lia.
Qed.

Lemma memset_words q : forall m s i,
  mapped m (s + 4 * i) (4 * q) ->
  for_from q i (fun step => store32 (s + 4 * step) 0) m = Ret tt (written m (s + 4 * i) (zeros (4 * q))).
Proof.
  induction q as [|q IH]; intros m s i Hm; [done|]. cbn [for_from]. apply wp_run, wp_bind.
  eapply wp_eq; [apply store32_zero; eapply mapped_sub; [done|lia|lia]|].
  replace (zeros (4 * S q)) with (zeros 4 ++ zeros (4 * q))
    by (unfold zeros; rewrite <- replicate_add; f_equal; lia).
  rewrite written_app. change (Z.of_nat (length (zeros 4))) with 4.
  replace (s + 4 * i + 4) with (s + 4 * (i + 1)) by lia.
  eapply wp_eq; [apply IH|done]. apply mapped_written. eapply mapped_sub; [exact Hm|lia|lia].
Qed.

Lemma memset_bytes r : forall m s i,
  mapped m (s + i) r ->
  for_from r i (fun step => store (s + step) 0) m = Ret tt (written m (s + i) (zeros r)).
Proof.
  induction r as [|r IH]; intros m s i Hm; [done|]. cbn [for_from zeros replicate written].
  apply wp_run, wp_bind, wp_store; [by eapply mapped_head|]. rewrite <- Z.add_assoc.
  eapply wp_eq; [apply IH|done]. rewrite Z.add_assoc. by apply mapped_insert, mapped_tail.
Qed.

Lemma written_zeros_again m s k r :
  (r <= k)%nat -> written (written m s (zeros k)) s (zeros r) = written m s (zeros k).
Proof.
  intros Hr. apply map_eq. intros q.
  destruct (decide (s <= q < s + Z.of_nat r)) as [Hin|Hout].
  - replace q with (s + Z.of_nat (Z.to_nat (q - s))) by lia.
    rewrite (segment_lookup _ s (zeros r) (Z.to_nat (q - s)) 0);
      [|apply written_segment|apply lookup_replicate_2; lia].
    rewrite (segment_lookup _ s (zeros k) (Z.to_nat (q - s)) 0);
      [done|apply written_segment|apply lookup_replicate_2; lia].
  - apply written_outside. unfold zeros. rewrite length_replicate. lia.
Qed.

(** ** Numbers *)

(** Value of a list of digits, the last digit of the number first. *)
Fixpoint decimal (l : list Z) : Z :=
  match l with [] => 0 | c :: l => (c - 48) + 10 * decimal l end.

Definition isdigit (c : Z) : Prop := 48 <= c <= 57.

(** The conversions change a number by a multiple of 2^32, and agree on numbers
    that differ by such a multiple. *)
Lemma u32_shift z : exists k, u32 z = z + k * 2 ^ 32.
Proof. exists (- (z / 2 ^ 32)). unfold u32, wrap_u. rewrite Z.mod_eq; lia. Qed.

Lemma i32_shift z : exists k, i32 z = z + k * 2 ^ 32.
Proof. exists (- ((z + 2 ^ (32 - 1)) / 2 ^ 32)). unfold i32, wrap_s. rewrite Z.mod_eq; lia. Qed.

Lemma i32_congr a b k : a = b + k * 2 ^ 32 -> i32 a = i32 b.
Proof.
  intros ->. unfold i32, wrap_s. f_equal. rewrite <- (Z_mod_plus_full (b + _) k). f_equal. lia.
Qed.

Lemma atoi_loop_ok m alpha ds : forall value coeff,
  segment m alpha (rev ds) -> Forall isdigit ds ->
  atoi_loop (length ds) alpha value coeff m =
    Ret (match ds with [] => value | _ => i32 (value + coeff * decimal ds) end) m.
Proof.
  induction ds as [|d ds IH]; intros value coeff Hs Hd; [done|].
  apply Forall_cons in Hd as [Hd Hds]. cbn [rev] in Hs. apply segment_app in Hs as [Hs [Hp _]].
  rewrite length_rev in Hp. cbn [atoi_loop length decimal]. apply wp_run, wp_bind.
  eapply wp_load; [exact Hp|]. unfold isdigit in Hd.
  replace (d - 48 <? 0) with false by (symmetry; zbool; lia).
  replace (9 <? d - 48) with false by (symmetry; zbool; lia). cbn [orb].
  eapply wp_eq; [by apply IH|]. split; [|done].
  destruct (u32_shift ((d - 48) * coeff)) as [k1 ->]. destruct ds as [|e ds].
  - apply (i32_congr _ _ k1). cbn [decimal]. lia.
  - destruct (u32_shift (coeff * 10)) as [k2 ->].
    destruct (i32_shift (value + ((d - 48) * coeff + k1 * 2 ^ 32))) as [k3 ->].
    set (v := decimal (e :: ds)). apply (i32_congr _ _ (k1 + k3 + k2 * v)). nia.
Qed.

Lemma dna_atoi_ok m alpha ds :
  alpha <> 0 -> cstring m alpha (rev ds) -> Forall isdigit ds -> ds <> [] ->
  Z.of_nat (length ds) < 2 ^ 32 - 1 -> dna_atoi alpha m = Ret (i32 (decimal ds)) m.
Proof.
  intros Ha Hs Hd Hne Hl. apply wp_run, wp_bind.
  eapply wp_eq; [apply dna_strlen_ok; [exact Hs|by rewrite length_rev]|]. rewrite length_rev.
  rewrite (proj2 (Z.eqb_neq alpha 0)) by done.
  rewrite (proj2 (Z.eqb_neq _ 0)) by (destruct ds; [done|cbn; lia]). rewrite Nat2Z.id.
  destruct Hs as [_ [Hs _]%segment_app]. eapply wp_eq; [by apply atoi_loop_ok|].
  split; [|done]. destruct ds; [done|]. f_equal. lia.
Qed.

(** The digits of a number that fits in the bound. *)
Lemma digits_ok fuel : forall v,
  0 <= v < 10 ^ Z.of_nat fuel -> (0 < fuel)%nat ->
  Forall isdigit (digits fuel v) /\ decimal (digits fuel v) = v /\ digits fuel v <> [] /\
  (length (digits fuel v) <= fuel)%nat.
Proof.
  induction fuel as [|fuel IH]; intros v Hv Hf; [lia|]. cbn [digits].
  pose proof (Z.rem_bound_pos v 10 ltac:(lia) ltac:(lia)) as Hr.
  pose proof (Z.quot_rem' v 10) as Hq.
  rewrite u8_id by (unfold isbyte; lia).
  assert (isdigit (Z.rem v 10 + 48)) as Hd by (unfold isdigit; lia).
  destruct (0 <? Z.quot v 10) eqn:Hlt; zbool.
  - rewrite Nat2Z.inj_succ, Z.pow_succ_r in Hv by lia.
    destruct fuel as [|fuel]; [cbn in Hv; lia|].
    destruct (IH (Z.quot v 10)) as (Hds & Hdec & Hne & Hlen); [lia|lia|].
    split_and!; [by constructor|cbn [decimal]; lia|done|cbn [length]; lia].
  - split_and!; [by apply Forall_singleton|cbn; lia|done|cbn; lia].
Qed.

Lemma put_chars_ok l : forall m p,
  Forall isbyte l -> mapped m p (length l) ->
  put_chars p l m = Ret (p + Z.of_nat (length l)) (written m p l).
Proof.
  induction l as [|c l IH]; intros m p Hl Hm; cbn [put_chars written length] in *.
  - apply wp_run, wp_ret. split; [lia|done].
  - apply Forall_cons in Hl as [Hc Hl]. apply wp_run, wp_bind, wp_store; [by eapply mapped_head|].
    rewrite u8_id by done. eapply wp_eq; [apply IH; [done|by apply mapped_insert, mapped_tail]|].
    split; [lia|done].
Qed.

Lemma dna_itoa_ok m integer buffer :
  let l := rev (itoa_ascii integer) in
  Forall isbyte l -> mapped m buffer (S (length l)) ->
  dna_itoa integer buffer m = Ret integer (written m buffer (l ++ [0])).
Proof.
  intros l Hl Hm. apply wp_run. unfold dna_itoa. fold l. apply wp_bind.
  eapply wp_eq; [apply put_chars_ok; [done|eapply mapped_sub; [done|lia|lia]]|].
  apply wp_bind, wp_store.
  { eapply mapped_head, mapped_written, (mapped_sub _ _ _ _ 1); [exact Hm|lia|lia]. }
  apply wp_ret. split; [done|]. by rewrite written_app.
Qed.

(** The masks of dna_log2 test the upper half of the value. *)
Lemma land_upper k v :
  0 < k -> 0 <= v < 2 ^ (2 * k) ->
  Z.land v (Z.shiftl (Z.ones k) k) = 0 <-> v < 2 ^ k.
Proof.
  intros Hk Hv. replace (2 * k) with (k + k) in Hv by lia. rewrite Z.pow_add_r in Hv by lia.
  assert (0 < 2 ^ k) as Hp by (apply Z.pow_pos_nonneg; lia).
  assert (Z.land v (Z.shiftl (Z.ones k) k) = 2 ^ k * (v / 2 ^ k)) as ->.
  { replace (Z.shiftl (Z.ones k) k) with (Z.ldiff (Z.ones (k + k)) (Z.ones k)).
    - rewrite Z.ldiff_land, Z.land_assoc, Z.land_ones by lia. rewrite Z.mod_small by (rewrite Z.pow_add_r; lia).
      rewrite <- Z.ldiff_land, Z.ldiff_ones_r, Z.shiftl_mul_pow2, Z.shiftr_div_pow2 by lia. lia.
    - apply Z.bits_inj'. intros n Hn. rewrite Z.ldiff_spec, Z.shiftl_spec by lia.
      rewrite !Z.testbit_ones_nonneg by lia.
      destruct (Z.lt_ge_cases n k).
      + rewrite (Z.testbit_neg_r _ (n - k)) by lia. rewrite (proj2 (Z.ltb_lt n k)) by lia.
        by rewrite andb_false_r.
      + rewrite Z.testbit_ones_nonneg by lia. rewrite (proj2 (Z.ltb_ge n k)) by lia.
        rewrite andb_true_r. destruct (n <? k + k) eqn:E1, (n - k <? k) eqn:E2; zbool; lia. }
  split; intros H.
  - assert (v / 2 ^ k = 0) as Hz by nia. apply Z.div_small_iff in Hz; lia.
  - rewrite Z.div_small; lia.
Qed.

Lemma log2_step_ok i k v r :
  0 < k -> log2_S !! i = Some k -> log2_b !! i = Some (Z.shiftl (Z.ones k) k) ->
  0 < v < 2 ^ (2 * k) ->
  exists v' r', log2_step i (v, r) = (v', r') /\ 0 < v' < 2 ^ k /\
    ((r' = Z.lor r k /\ Z.log2 v = k + Z.log2 v') \/ (r' = r /\ Z.log2 v = Z.log2 v')).
Proof.
  intros Hk HS Hb Hv. unfold log2_step. rewrite HS, Hb. cbn [from_option Datatypes.id].
  assert (0 < 2 ^ k) as Hp by (apply Z.pow_pos_nonneg; lia).
  pose proof (land_upper k v Hk ltac:(lia)) as Hl.
  destruct (Z.land v (Z.shiftl (Z.ones k) k) =? 0) eqn:He; zbool; cbn [negb].
  - eexists _, _. split; [done|]. apply Hl in He. split; [lia|by right].
  - assert (2 ^ k <= v) as Hge by (destruct (Z.lt_ge_cases v (2 ^ k)); [by apply Hl in H|done]).
    eexists _, _. split; [done|]. rewrite Z.shiftr_div_pow2 by lia.
    assert (1 <= v / 2 ^ k) by (apply Z.div_le_lower_bound; lia).
    split; [|left; split; [done|]].
    + split; [lia|]. apply Z.div_lt_upper_bound; [lia|]. rewrite <- Z.pow_add_r by lia.
      replace (k + k) with (2 * k) by lia. apply Hv.
    + rewrite <- Z.shiftr_div_pow2 by lia. rewrite Z.log2_shiftr by lia.
      assert (k <= Z.log2 v) by (apply Z.log2_le_pow2; lia). lia.
Qed.

(** Rebinding of the lemma above for each of the five steps. *)
Lemma dna_log2_ok v : 0 < v < 2 ^ 32 -> dna_log2 v = Z.log2 v.
Proof.
  intros Hv. unfold dna_log2.
  destruct (log2_step_ok 4 16 v 0) as (v4 & r4 & -> & Hv4 & H4); [lia|done|done|done|].
  destruct (log2_step_ok 3 8 v4 r4) as (v3 & r3 & -> & Hv3 & H3); [lia|done|done|done|].
  destruct (log2_step_ok 2 4 v3 r3) as (v2 & r2 & -> & Hv2 & H2); [lia|done|done|done|].
  destruct (log2_step_ok 1 2 v2 r2) as (v1 & r1 & -> & Hv1 & H1); [lia|done|done|done|].
  destruct (log2_step_ok 0 1 v1 r1) as (v0 & r0 & -> & Hv0 & H0); [lia|done|done|done|].
  assert (v0 = 1) as -> by lia. cbn [snd]. change (Z.log2 1) with 0 in H0.
  destruct H4 as [[-> ->]|[-> ->]], H3 as [[-> ->]|[-> ->]], H2 as [[-> ->]|[-> ->]],
    H1 as [[-> ->]|[-> ->]], H0 as [[-> ->]|[-> ->]]; reflexivity.
Qed.

(** ** Paths *)

Definition entry_char (c : Z) : Prop := ischar c /\ c <> slash.

Lemma entry_loop_ok m tok : forall p fuel c,
  Forall entry_char tok -> segment m p (tok ++ [c]) -> (c = slash \/ c = 0) -> (length tok < fuel)%nat ->
  entry_loop fuel p m = Ret (p + Z.of_nat (length tok)) m.
Proof.
  induction tok as [|d tok IH]; intros p fuel c Ht Hs Hc Hf;
    (destruct fuel as [|fuel]; [cbn in Hf; lia|]); cbn [entry_loop length app] in *; apply wp_run, wp_bind;
    destruct Hs as [Hp Hs]; (eapply wp_load; [exact Hp|]).
  - replace (negb (c =? slash) && negb (c =? 0)) with false by (by destruct Hc as [-> | ->]).
    apply wp_ret. split; [lia|done].
  - apply Forall_cons in Ht as [[Hd Hds] Ht].
    rewrite (char_nonzero d Hd), (proj2 (Z.eqb_neq d slash)) by done. cbn [negb andb].
    eapply wp_eq; [apply (IH (p + 1) fuel c); [done|done|done|lia]|]. split; [lia|done].
Qed.

(** The token, then what ends it: a '/' or the end of the path. *)
Lemma path_get_next_entry_ok m path token tok c :
  Forall entry_char tok -> segment m path (tok ++ [c]) -> (c = slash \/ (c = 0 /\ tok <> [])) ->
  Z.of_nat (length tok) <= DNA_FILENAME_LENGTH ->
  mapped m token (S (length tok)) -> apart token (S (length tok)) path (S (length tok)) ->
  let m' := written m token (tok ++ [0]) in
  let p_end := path + Z.of_nat (length tok) in
  path_get_next_entry path token m =
    if c =? slash then Ret (DNA_OK, p_end + 1) (<[p_end := 0]> m') else Ret (DNA_OK, p_end) m'.
Proof.
  intros Ht Hs Hc Hlen Hm Ha m' p_end. unfold DNA_FILENAME_LENGTH in Hlen.
  pose proof Hs as [Htok [Hend _]]%segment_app.
  assert (exists d, m !! path = Some d /\ d <> 0) as (d & Hd & Hd0).
  { destruct tok as [|e tok]; [exists c; destruct Hs as [Hp _]; split; [done|]|].
    - destruct Hc as [-> |[_ ?]]; [unfold slash; lia|done].
    - exists e. destruct Hs as [Hp _]. split; [done|]. apply Forall_cons in Ht as [[He _] _].
      unfold ischar in He. lia. }
  assert ((if c =? slash then Ret (DNA_OK, p_end + 1) (<[p_end := 0]> m') else Ret (DNA_OK, p_end) m')
          = Ret (DNA_OK, if c =? slash then p_end + 1 else p_end)
                (if c =? slash then <[p_end := 0]> m' else m')) as -> by by destruct (c =? slash).
  apply wp_run, wp_bind. eapply wp_load; [exact Hd|]. rewrite (proj2 (Z.eqb_neq d 0)) by done. cbn [negb].
  apply wp_bind, wp_gets, wp_bind. pose proof (segment_mapped _ _ _ Hs) as Hms%mapped_size.
  rewrite length_app in Hms. cbn in Hms.
  eapply wp_eq; [apply (entry_loop_ok m tok path _ c); [done|done|naive_solver|unfold walk_fuel; lia]|].
  fold p_end. replace (p_end - path) with (Z.of_nat (length tok)) by lia.
  rewrite i32_id by lia. rewrite (proj2 (Z.leb_le _ DNA_FILENAME_LENGTH)) by (unfold DNA_FILENAME_LENGTH; lia).
  apply wp_bind. eapply wp_eq; [apply dna_memcpy_ok; [done| | |]|].
  { eapply Forall_impl; [exact Ht|]. intros x [Hx _]. by apply char_byte. }
  { eapply mapped_sub; [exact Hm|lia|lia]. } { apart. }
  apply wp_bind, wp_store.
  { eapply mapped_head, mapped_written, (mapped_sub _ _ _ _ 1); [exact Hm|lia|lia]. }
  assert (<[token + Z.of_nat (length tok) := u8 0]> (written m token tok) = m') as ->.
  { unfold m'. by rewrite written_app. }
  assert (m' !! p_end = Some c) as Hc'.
  { unfold m'. rewrite written_outside; [done|]. unfold p_end. apart. }
  apply wp_bind. eapply wp_load; [exact Hc'|]. apply wp_bind.
  destruct (c =? slash); [apply wp_bind, wp_store; [by rewrite Hc'|]|]; by apply wp_ret, wp_ret.
Qed.

(** ** Theorems *)

Lemma written_cstring m p l : Forall ischar l -> cstring (written m p (l ++ [0])) p l.
Proof. intros Hl. split; [done|]. apply written_segment. Qed.

Lemma cstring_written m p l q l' :
  apart p (length l) q (S (length l')) -> cstring m q l' -> cstring (written m p l) q l'.
Proof.
  intros Ha [Hc Hs]. split; [done|]. apply segment_written; [apart|done].
Qed.

(** on two strings, dna_strlen returns the length of the first, dna_strcmp
    returns 0 exactly when they are equal and -1 otherwise, and dna_strncmp does so
    for their first [n] characters, [n] being positive.  None writes anything. *)
Theorem dna_string_tests m s1 s2 l1 l2 n :
  cstring m s1 l1 -> cstring m s2 l2 -> Z.of_nat (length l1) < 2 ^ 32 - 1 -> 0 < n < 2 ^ 32 ->
  dna_strlen s1 m = Ret (Z.of_nat (length l1)) m /\
  dna_strcmp s1 s2 m = Ret (if decide (l1 = l2) then 0 else -1) m /\
  dna_strncmp s1 s2 n m =
    Ret (if decide (take (Z.to_nat n) l1 = take (Z.to_nat n) l2) then 0 else -1) m.
Proof.
  intros H1 H2 Hl Hn.
  split_and!; [by apply dna_strlen_ok|by apply dna_strcmp_ok|by apply dna_strncmp_ok].
Qed.

(** into a buffer large enough that does not overlap the source, dna_strcpy
    copies the string and dna_strcat appends it to the one it finds there; the source and
    every byte outside the destination are unchanged. *)
Theorem dna_string_copies m d s l :
  cstring m s l ->
  (mapped m d (S (length l)) -> apart d (S (length l)) s (S (length l)) ->
   exists m', dna_strcpy d s m = Ret d m' /\ cstring m' d l /\ cstring m' s l /\
     forall q, q < d \/ d + Z.of_nat (length l) < q -> m' !! q = m !! q) /\
  (forall l0, cstring m d l0 -> mapped m d (S (length l0 + length l)) ->
   apart (d + Z.of_nat (length l0)) (S (length l)) s (S (length l)) ->
   exists m', dna_strcat d s m = Ret d m' /\ cstring m' d (l0 ++ l) /\ cstring m' s l /\
     forall q, q < d \/ d + Z.of_nat (length l0 + length l) < q -> m' !! q = m !! q).
Proof.
  intros Hs. pose proof Hs as [Hl _]. split.
  - intros Hm Ha. eexists. split; [by apply dna_strcpy_ok|]. split_and!.
    + by apply written_cstring.
    + apply cstring_written; [apart|done].
    + intros q Hq. apply written_outside. apart.
  - intros l0 [Hl0 Hd] Hm Ha. eexists. split; [by apply dna_strcat_ok|].
    apply segment_app in Hd as [Hd _]. split_and!.
    + split; [by apply Forall_app|]. rewrite <- app_assoc. apply segment_app. split.
      * apply segment_written; [apart|done].
      * apply written_segment.
    + apply cstring_written; [apart|done].
    + intros q Hq. apply written_outside. apart.
Qed.

(** Dna_memcpy copies a buffer and changes nothing else; dna_memcmp finds the
    copy equal to the source, and in general returns 0 exactly on equal buffers. *)
Theorem dna_memcpy_memcmp m d s l :
  segment m s l -> Forall isbyte l -> mapped m d (length l) -> apart d (length l) s (length l) ->
  let n := Z.of_nat (length l) in
  exists m', dna_memcpy d s n m = Ret d m' /\ segment m' d l /\
    (forall q, q < d \/ d + n <= q -> m' !! q = m !! q) /\ dna_memcmp d s n m' = Ret 0 m' /\
    forall p l', segment m p l' -> length l' = length l ->
      exists r, dna_memcmp p s n m = Ret r m /\ (r = 0 <-> l' = l).
Proof.
  intros Hs Hb Hm Ha n. exists (written m d l). unfold n. split_and!.
  - by apply dna_memcpy_ok.
  - apply written_segment.
  - intros q Hq. by apply written_outside.
  - unfold dna_memcmp. rewrite Nat2Z.id, (memcmp_loop_ok _ l l); rewrite ?Z.add_0_r; try done.
    + by rewrite (proj2 (distance_zero l l eq_refl)).
    + apply written_segment.
    + by apply segment_written.
  - intros p l' Hp Hl. exists (distance l' l). unfold dna_memcmp. rewrite Nat2Z.id, <- Hl.
    split; [apply memcmp_loop_ok; by rewrite ?Z.add_0_r|by apply distance_zero].
Qed.

(** Dna_memset clears a buffer of less than 4 bytes, or whose size is a multiple
    of 4; for any other size the last [n % 4] bytes keep their contents. *)
Theorem dna_memset_clears m s n :
  0 <= n < 2 ^ 32 -> mapped m s (Z.to_nat n) ->
  let k := if n <? 4 then n else n - n mod 4 in
  exists m', dna_memset s 0 n m = Ret s m' /\
    (forall i, 0 <= i < k -> m' !! (s + i) = Some 0) /\
    (forall q, q < s \/ s + k <= q -> m' !! q = m !! q).
Proof.
  intros Hn Hm k. exists (written m s (zeros (Z.to_nat k))).
  pose proof (Z.mod_pos_bound n 4 ltac:(lia)) as Hr. pose proof (Z.div_mod n 4 ltac:(lia)) as Hq.
  assert (0 <= k <= n) as Hk by (unfold k; destruct (n <? 4) eqn:E; zbool; lia). split_and!.
  - apply wp_run. unfold dna_memset. rewrite Z.shiftr_div_pow2 by lia. change (2 ^ 2) with 4.
    apply wp_bind. eapply wp_eq; [apply memset_words; eapply mapped_sub; [exact Hm|lia|lia]|].
    apply wp_bind. eapply wp_eq; [apply memset_bytes, mapped_written; eapply mapped_sub; [exact Hm|lia|lia]|].
    apply wp_ret. split; [done|]. rewrite !Z.add_0_r.
    unfold k. destruct (n <? 4) eqn:E; zbool.
    + replace (n / 4) with 0 by lia. replace (n mod 4) with n by lia. done.
    + rewrite written_zeros_again by lia. do 2 f_equal. lia.
  - intros i Hi. replace i with (Z.of_nat (Z.to_nat i)) by lia.
    eapply segment_lookup; [apply written_segment|]. apply lookup_replicate_2. lia.
  - intros q Hq'. apply written_outside. unfold zeros. rewrite length_replicate. lia.
Qed.

(** Dna_atoi applied to what dna_itoa printed gives the number back, for every
    non-negative int32_t. *)
Theorem dna_atoi_itoa m n buffer :
  0 <= n < 2 ^ 31 -> buffer <> 0 -> mapped m buffer 33 ->
  exists m', dna_itoa n buffer m = Ret n m' /\ dna_atoi buffer m' = Ret n m'.
Proof.
  intros Hn Hb Hm. unfold itoa_ascii in *.
  destruct (digits_ok 32 n) as (Hd & Hdec & Hne & Hlen); [change (10 ^ Z.of_nat 32) with (10 ^ 32); lia|lia|].
  assert (itoa_ascii n = digits 32 n) as Ha.
  { unfold itoa_ascii. rewrite (proj2 (Z.ltb_ge n 0)) by lia. apply app_nil_r. }
  assert (Forall ischar (rev (digits 32 n))) as Hc.
  { apply Forall_rev. eapply Forall_impl; [exact Hd|]. unfold isdigit, ischar. lia. }
  eexists. split.
  - apply dna_itoa_ok; rewrite Ha.
    + eapply Forall_impl; [exact Hc|]. apply char_byte.
    + eapply mapped_sub; [exact Hm|lia|]. rewrite length_rev. lia.
  - rewrite Ha. erewrite dna_atoi_ok; [|done|by apply written_cstring|done|done|lia].
    by rewrite Hdec, i32_id by lia.
Qed.

(** dna_log2 is the integer logarithm in base 2 of a non-zero uint32_t. *)
Theorem dna_log2_spec v : 0 < v < 2 ^ 32 -> dna_log2 v = Z.log2 v.
Proof. apply dna_log2_ok. Qed.

(** path_get_next_entry copies the characters before the first '/' (or the end
    of the path) into the token, terminates it, and leaves the path after that '/', which
    it replaces by a terminator; a path that is empty is an error. *)
Theorem path_get_next_entry_spec m path token tok c :
  Forall entry_char tok -> segment m path (tok ++ [c]) -> (c = slash \/ c = 0) ->
  Z.of_nat (length tok) <= DNA_FILENAME_LENGTH ->
  mapped m token (S (length tok)) -> apart token (S (length tok)) path (S (length tok)) ->
  exists m', path_get_next_entry path token m =
      Ret (if decide (tok = [] /\ c = 0) then (DNA_ERROR, path)
           else (DNA_OK, path + Z.of_nat (length tok) + (if decide (c = slash) then 1 else 0))) m' /\
    (if decide (tok = [] /\ c = 0) then m' = m else cstring m' token tok /\ cstring m' path tok) /\
    forall q, (q < token \/ token + Z.of_nat (length tok) < q) -> q <> path + Z.of_nat (length tok) ->
      m' !! q = m !! q.
Proof.
  intros Ht Hs Hc Hlen Hm Ha.
  assert (Forall ischar tok) as Hch by (eapply Forall_impl; [exact Ht|by intros x []]).
  destruct (decide (tok = [] /\ c = 0)) as [[-> ->]|Hne].
  - exists m. split_and!; [|done|done]. apply wp_run, wp_bind. destruct Hs as [Hp _].
    eapply wp_load; [exact Hp|]. by apply wp_ret.
  - assert (segment (written m token (tok ++ [0])) path (tok ++ [c])) as Hs' by (apply segment_written; [apart|done]).
    apply segment_app in Hs' as [Htok [Hend _]].
    rewrite (path_get_next_entry_ok m path token tok c); try done; [|destruct Hc; naive_solver].
    assert (cstring (written m token (tok ++ [0])) token tok) as Htk by (by apply written_cstring).
    destruct (decide (c = slash)) as [->|Hsl]; eexists.
    + split_and!; [done|apply cstring_insert; [apart|done]| |].
      * split; [done|]. apply segment_app. split; [by apply segment_insert; [lia|]|].
        cbn. by rewrite lookup_insert_eq.
      * intros q Hq Hq'. rewrite lookup_insert_ne by done. apply written_outside. apart.
    + destruct Hc as [-> | ->]; [done|]. change (0 =? slash) with false. cbv iota. rewrite Z.add_0_r. split_and!; [done|done| |].
      * split; [done|]. by apply segment_app.
      * intros q Hq Hq'. apply written_outside. apart.
Qed.

(** ** Instances *)

(** The string "ab/c" at 100, the string "ab" at 200, a free buffer at 300. *)
Definition sample : mem :=
  written (written (written ∅ 100 [97; 98; 47; 99; 0]) 200 [97; 98; 0]) 300 (replicate 40 7).

Ltac bytes := repeat (apply Forall_cons; split); try apply Forall_nil;
  unfold entry_char, ischar, isbyte, slash; lia.

Lemma sample_long : cstring sample 100 [97; 98; 47; 99].
Proof. split; [bytes|]. vm_compute. by repeat split. Qed.
Lemma sample_short : cstring sample 200 [97; 98].
Proof. split; [bytes|]. vm_compute. by repeat split. Qed.
Lemma sample_buffer : mapped sample 300 40.
Proof. change 40%nat with (length (replicate 40 7)). apply segment_mapped, written_segment. Qed.

Lemma dna_string_tests_witness :
  dna_strlen 100 sample = Ret 4 sample /\ dna_strcmp 100 200 sample = Ret (-1) sample /\
  dna_strncmp 100 200 2 sample = Ret 0 sample.
Proof.
  apply (dna_string_tests sample 100 200 [97; 98; 47; 99] [97; 98] 2);
    [exact sample_long|exact sample_short|cbn; lia|lia].
Defined.

Lemma dna_string_copies_witness :
  exists m', dna_strcpy 300 200 sample = Ret 300 m' /\ cstring m' 300 [97; 98] /\
    cstring m' 200 [97; 98] /\ forall q, q < 300 \/ 302 < q -> m' !! q = sample !! q.
Proof.
  apply (dna_string_copies sample 300 200 [97; 98]); [exact sample_short| |apart].
  apply (mapped_sub _ 300 40); [exact sample_buffer|lia|cbn; lia].
Defined.

Lemma dna_memcpy_memcmp_witness :
  exists m', dna_memcpy 300 200 2 sample = Ret 300 m' /\ segment m' 300 [97; 98] /\
    (forall q, q < 300 \/ 302 <= q -> m' !! q = sample !! q) /\ dna_memcmp 300 200 2 m' = Ret 0 m' /\
    forall p l', segment sample p l' -> length l' = 2%nat ->
      exists r, dna_memcmp p 200 2 sample = Ret r sample /\ (r = 0 <-> l' = [97; 98]).
Proof.
  apply (dna_memcpy_memcmp sample 300 200 [97; 98]); [vm_compute; by repeat split|bytes| |apart].
  apply (mapped_sub _ 300 40); [exact sample_buffer|lia|cbn; lia].
Defined.

Lemma dna_memset_clears_witness :
  exists m', dna_memset 300 0 7 sample = Ret 300 m' /\
    (forall i, 0 <= i < 4 -> m' !! (300 + i) = Some 0) /\
    (forall q, q < 300 \/ 304 <= q -> m' !! q = sample !! q).
Proof.
  apply (dna_memset_clears sample 300 7); [lia|].
  apply (mapped_sub _ 300 40); [exact sample_buffer|lia|cbn; lia].
Defined.

Lemma dna_atoi_itoa_witness :
  exists m', dna_itoa 4096 300 sample = Ret 4096 m' /\ dna_atoi 300 m' = Ret 4096 m'.
Proof.
  apply (dna_atoi_itoa sample 4096 300); [lia|lia|].
  apply (mapped_sub _ 300 40); [exact sample_buffer|lia|cbn; lia].
Defined.

Lemma dna_log2_spec_witness : dna_log2 0xFFFF1 = 19.
Proof. apply (dna_log2_spec 0xFFFF1). lia. Defined.

Lemma path_get_next_entry_spec_witness :
  exists m', path_get_next_entry 100 300 sample = Ret (DNA_OK, 103) m' /\
    (cstring m' 300 [97; 98] /\ cstring m' 100 [97; 98]) /\
    forall q, (q < 300 \/ 302 < q) -> q <> 102 -> m' !! q = sample !! q.
Proof.
  apply (path_get_next_entry_spec sample 100 300 [97; 98] slash);
    [bytes|vm_compute; by repeat split|by left|cbn; unfold DNA_FILENAME_LENGTH; lia| |apart].
  apply (mapped_sub _ 300 40); [exact sample_buffer|lia|cbn; lia].
Defined.

(** path_split reads through a NULL pointer: whatever the path, it faults when
    the address 0 is not mapped. *)
Lemma path_split_faults m path token l :
  m !! 0 = None -> path <> 0 -> token <> 0 -> cstring m path l -> Z.of_nat (length l) < 2 ^ 32 - 1 ->
  path_split path token m = Fault m.
Proof.
  intros H0 Hp Ht Hs Hl. unfold path_split.
  rewrite (proj2 (Z.eqb_neq path 0)), (proj2 (Z.eqb_neq token 0)) by done. cbn [negb andb].
  rewrite (bind_Ret _ _ _ _ _ (dna_strlen_ok m path l Hs Hl)).
  destruct Hs as [_ [_ [Hz _]]%segment_app].
  assert (forall p c, m !! p = Some c -> load p m = Ret c m) as Hload.
  { intros p c Hc. unfold load, bind, gets. by rewrite Hc. }
  rewrite (bind_Ret _ _ _ _ _ (Hload _ _ Hz)). change (0 =? slash) with false. cbv iota.
  rewrite bind_ret_l. unfold bind at 1, gets at 1, walk_fuel. cbn [start_loop].
  unfold bind at 1, load at 1, bind, gets. by rewrite H0.
Qed.

(** INT_MIN is printed as a minus sign and an opening parenthesis. *)
Lemma dna_itoa_int_min : rev (itoa_ascii (- 2 ^ 31)) = [45; 40].
Proof. reflexivity. Qed.

(** A comparison of no character at all still compares the first ones. *)
Lemma dna_strncmp_zero : dna_strncmp 101 200 0 sample = Ret (-1) sample.
Proof. vm_compute. reflexivity. Qed.
