(* ===== verification/Mbr.v ===== *)
(** * Master boot record (MasterBootRecordModule)

    [mbr_load] reads the table of partitions of a boot sector, [mbr_dump] writes one.
    Both work on the flat memory of CLib.v: the sector is 512 bytes, laid out as the
    packed structure of Private/MBR.h, and an array of partitions is 4 structures of 16
    bytes, with their words in the order of the processor, little-endian.

    The theorems give the result of each for every contents of the sector, and the round
    trip. *)

From S2P Require Import Prelude Status CLib.

Definition MBR_NORMAL_PARTITION : Z := 0x00.
Definition MBR_BOOTABLE_PARTITION : Z := 0x80.

Record mbr_partition_t := mkPartition {
  p_status : Z;
  head_first : Z;
  sector_first : Z;
  cylinder_first : Z;
  p_type : Z;
  head_last : Z;
  sector_last : Z;
  cylinder_last : Z;
  block_start : Z;
  block_count : Z
}.

Definition sizeof_mbr_partition : Z := 16.
Definition offsetof_type : Z := 4.

(** The members of mbr_t: code and disk_signature and zero, then partition, then
    signature. *)
Definition offsetof_partition : Z := 440 + 4 + 2.
Definition offsetof_signature : Z := offsetof_partition + 4 * sizeof_mbr_partition.

(** cpu_data_is_big_endian (16, x) *)
Definition SWITCH_ENDIAN_16 (x : Z) : Z :=
  u16 (Z.lor (Z.shiftl (Z.land x 0x00FF) 8) (Z.shiftr (Z.land x 0xFF00) 8)).

Definition load16 (p : Z) : M mem Z :=
  let* l := load p in let* h := load (p + 1) in ret (l + Z.shiftl h 8).
Definition store16 (p v : Z) : M mem unit := store p v ;; store (p + 1) (Z.shiftr v 8).

(** The assignment of a structure of [n] bytes: it is read, then written. *)
Fixpoint load_bytes (n : nat) (p : Z) : M mem (list Z) :=
  match n with
  | O => ret []
  | S n => let* c := load p in let* l := load_bytes n (p + 1) in ret (c :: l)
  end.
Fixpoint store_bytes (p : Z) (l : list Z) : M mem unit :=
  match l with
  | [] => ret tt
  | c :: l => store p c ;; store_bytes (p + 1) l
  end.
Definition assign_partition (dst src : Z) : M mem unit :=
  let* l := load_bytes (Z.to_nat sizeof_mbr_partition) src in store_bytes dst l.

Definition valid_status (s : Z) : bool := (s =? MBR_NORMAL_PARTITION) || (s =? MBR_BOOTABLE_PARTITION).

(** The loop of mbr_load from [i]: DNA_ERROR, or the final [valid_count]. *)
Fixpoint load_partitions (k : nat) (i sector partition valid_count : Z) : M mem (option Z) :=
  match k with
  | O => ret (Some valid_count)
  | S k =>
      let src := sector + offsetof_partition + i * sizeof_mbr_partition in
      let dst := partition + i * sizeof_mbr_partition in
      assign_partition dst src ;;
      let* status := load dst in
      ensure valid_status status orelse None in
      let* type := load (src + offsetof_type) in
      if negb (type =? 0) then
        assign_partition dst src ;;
        load_partitions k (i + 1) sector partition (i32 (valid_count + 1))
      else load_partitions k (i + 1) sector partition valid_count
  end.

Definition mbr_load (sector partition : Z) : M mem status_t :=
  ensure negb (sector =? 0) orelse DNA_BAD_ARGUMENT in
  ensure negb (partition =? 0) orelse DNA_BAD_ARGUMENT in
  let* signature := load16 (sector + offsetof_signature) in
  ensure SWITCH_ENDIAN_16 signature =? 0x55AA orelse DNA_ERROR in
  dna_memset partition 0 (4 * sizeof_mbr_partition) ;;
  let* valid_count := load_partitions 4 0 sector partition 0 in
  match valid_count with
  | None => ret DNA_ERROR
  | Some valid_count => ensure 0 <? valid_count orelse DNA_ERROR in ret DNA_OK
  end.

(** The loop of mbr_dump from [i]. *)
Fixpoint dump_partitions (k : nat) (i sector partition next_partition : Z) : M mem status_t :=
  match k with
  | O => ret DNA_OK
  | S k =>
      let src := partition + i * sizeof_mbr_partition in
      let* type := load (src + offsetof_type) in
      if negb (type =? 0) then
        let* status := load src in
        ensure valid_status status orelse DNA_ERROR in
        assign_partition (sector + offsetof_partition + next_partition * sizeof_mbr_partition) src ;;
        dump_partitions k (i + 1) sector partition (i32 (next_partition + 1))
      else dump_partitions k (i + 1) sector partition next_partition
  end.

Definition mbr_dump (partition sector : Z) : M mem status_t :=
  ensure negb (sector =? 0) orelse DNA_BAD_ARGUMENT in
  ensure negb (partition =? 0) orelse DNA_BAD_ARGUMENT in
  dna_memset sector 0 512 ;;
  store16 (sector + offsetof_signature) (SWITCH_ENDIAN_16 0x55AA) ;;
  dump_partitions 4 0 sector partition 0.

(** ** The bytes of a sector *)

Definition le16 (z : Z) : list Z := [u8 z; u8 (Z.shiftr z 8)].
Definition le32 (z : Z) : list Z := le16 z ++ le16 (Z.shiftr z 16).

Definition encode_partition (p : mbr_partition_t) : list Z :=
  [p_status p; head_first p; sector_first p; cylinder_first p;
   p_type p; head_last p; sector_last p; cylinder_last p] ++ le32 (block_start p) ++ le32 (block_count p).
Definition encode_table (ps : list mbr_partition_t) : list Z := concat (encode_partition <$> ps).

(** Every member has the values of its type; the words may have any. *)
Definition partition_ok (p : mbr_partition_t) : Prop :=
  Forall isbyte [p_status p; head_first p; sector_first p; cylinder_first p;
                 p_type p; head_last p; sector_last p; cylinder_last p].

Definition used (p : mbr_partition_t) : bool := negb (p_type p =? 0).
Definition acceptable (p : mbr_partition_t) : bool := valid_status (p_status p).
Definition unused : mbr_partition_t := mkPartition 0 0 0 0 0 0 0 0 0 0.

(** What mbr_load returns for a signature and a table. *)
Definition load_status (signature : list Z) (ps : list mbr_partition_t) : status_t :=
  if bool_decide (signature = [0x55; 0xAA]) && forallb acceptable ps && existsb used ps
  then DNA_OK else DNA_ERROR.

(** ** Lemmas *)

Lemma written_same m p l : segment m p l -> written m p l = m.
Proof.
  revert m p. induction l as [|c l IH]; intros m p; cbn [segment written]; [done|].
  intros [Hp Hl]. rewrite insert_id by done. by apply IH.
Qed.

Lemma load_bytes_ok m l : forall p, segment m p l -> load_bytes (length l) p m = Ret l m.
Proof.
  induction l as [|c l IH]; intros p; cbn [segment length load_bytes]; [done|]. intros [Hp Hl].
  apply wp_run, wp_bind. eapply wp_load; [done|]. apply wp_bind. eapply wp_eq; [by apply IH|].
  by apply wp_ret.
Qed.

Lemma store_bytes_ok l : forall m p,
  mapped m p (length l) -> Forall isbyte l -> store_bytes p l m = Ret tt (written m p l).
Proof.
  induction l as [|c l IH]; intros m p Hm; cbn [length store_bytes written]; [done|].
  intros [Hc Hl]%Forall_cons. apply wp_run, wp_bind, wp_store; [by eapply mapped_head|].
  rewrite u8_id by done. eapply wp_eq; [apply IH; [by apply mapped_insert, mapped_tail|done]|done].
Qed.

Lemma u8_byte z : isbyte (u8 z).
Proof. unfold isbyte, u8, wrap_u. apply Z.mod_pos_bound. lia. Qed.

Lemma encode_partition_length p : length (encode_partition p) = 16%nat.
Proof. done. Qed.
Lemma encode_table_length ps : length (encode_table ps) = (16 * length ps)%nat.
Proof.
  induction ps as [|p ps IH]; [done|]. unfold encode_table in *. cbn [fmap list_fmap concat length].
  rewrite length_app, encode_partition_length, IH. lia.
Qed.

Lemma encode_partition_bytes p : partition_ok p -> Forall isbyte (encode_partition p).
Proof.
  intros Hp. unfold encode_partition, le32, le16. apply Forall_app. split; [done|].
  cbn [app]. repeat (constructor; [apply u8_byte|]). constructor.
Qed.
#[local] Hint Resolve encode_partition_bytes : dna.

Lemma assign_partition_ok m dst src p :
  partition_ok p -> segment m src (encode_partition p) -> mapped m dst 16 ->
  assign_partition dst src m = Ret tt (written m dst (encode_partition p)).
Proof.
  intros Hp Hs Hm. apply wp_run, wp_bind. eapply wp_eq; [by apply (load_bytes_ok m (encode_partition p))|].
  eapply wp_eq; [by apply store_bytes_ok; auto with dna|done].
Qed.

(** The first bytes of an encoded partition. *)
Lemma segment_status m q p : segment m q (encode_partition p) -> m !! q = Some (p_status p).
Proof. by intros [Hq _]. Qed.
Lemma segment_type m q p : segment m q (encode_partition p) -> m !! (q + offsetof_type) = Some (p_type p).
Proof. intros Hs. by apply (segment_lookup m q _ 4 (p_type p) Hs). Qed.
Lemma segment_table_cons m q p ps :
  segment m q (encode_table (p :: ps)) -> segment m q (encode_partition p) /\ segment m (q + 16) (encode_table ps).
Proof. unfold encode_table. cbn [fmap list_fmap concat]. by rewrite segment_app. Qed.

Lemma switch_endian a b : isbyte a -> isbyte b -> SWITCH_ENDIAN_16 (a + Z.shiftl b 8) = a * 256 + b.
Proof.
  unfold isbyte. intros Ha Hb. unfold SWITCH_ENDIAN_16. rewrite (Z.shiftl_mul_pow2 b) by lia.
  set (x := a + b * 2 ^ 8).
  assert (Z.land x 0xFF = field 0 8 x) as -> by (rewrite <- mask_shiftr by lia; by rewrite Z.shiftr_0_r).
  assert (Z.shiftr (Z.land x 0xFF00) 8 = field 8 8 x) as -> by (by rewrite <- mask_shiftr by lia).
  subst x. rewrite (Z.add_comm a), field_low, field_high, !field_all by lia.
  rewrite lor_shiftl_add by lia. unfold u16. apply wrap_u_id. lia.
Qed.

Lemma signature_bytes a b : isbyte a -> isbyte b ->
  (SWITCH_ENDIAN_16 (a + Z.shiftl b 8) =? 0x55AA) = bool_decide ([a; b] = [0x55; 0xAA]).
Proof.
  intros Ha Hb. rewrite switch_endian by done. unfold isbyte in *. case_bool_decide as He.
  - by injection He as -> ->.
  - apply Z.eqb_neq. intros Hn. apply He. assert (a = 0x55) as -> by lia. assert (b = 0xAA) as -> by lia. done.
Qed.

(** ** The loops *)

Lemma load_partitions_ok sector partition ps : forall i v m,
  Forall partition_ok ps -> segment m (sector + offsetof_partition + i * 16) (encode_table ps) ->
  mapped m (partition + i * 16) (16 * length ps) ->
  apart (partition + i * 16) (16 * length ps) (sector + offsetof_partition + i * 16) (16 * length ps) ->
  0 <= v -> v + Z.of_nat (length ps) < 2 ^ 31 ->
  wp (load_partitions (length ps) i sector partition v) (fun r m' =>
    r = (if forallb acceptable ps then Some (v + Z.of_nat (length (List.filter used ps))) else None) /\
    (forallb acceptable ps = true -> m' = written m (partition + i * 16) (encode_table ps)) /\
    forall q, q < partition + i * 16 \/ partition + (i + Z.of_nat (length ps)) * 16 <= q -> m' !! q = m !! q) m.
Proof.
  induction ps as [|p ps IH]; intros i v m Hok Hs Hm Ha Hv Hvb; cbn [load_partitions length forallb List.filter].
  { apply wp_ret. split_and!; [f_equal; cbn; lia|done|done]. }
  apply Forall_cons in Hok as [Hp Hok]. apply segment_table_cons in Hs as [Hs1 Hs]. cbn [length] in *.
  set (src := sector + offsetof_partition + i * 16) in *. set (dst := partition + i * 16) in *.
  assert (segment (written m dst (encode_partition p)) src (encode_partition p)) as Hsrc
    by (apply segment_written; [rewrite encode_partition_length; apart|done]).
  change sizeof_mbr_partition with 16. fold src dst.
  apply wp_bind. eapply wp_eq; [apply assign_partition_ok; [done|done|eapply mapped_sub; [done|lia|lia]]|].
  apply wp_bind. eapply wp_load; [apply segment_status, written_segment|]. fold (acceptable p).
  assert (forall q, q < dst \/ partition + (i + Z.of_nat (S (length ps))) * 16 <= q ->
    written m dst (encode_partition p) !! q = m !! q) as Hout
    by (intros q Hq; apply written_outside; rewrite encode_partition_length; lia).
  destruct (acceptable p); cbn [andb]; [|apply wp_ret; split_and!; done].
  apply wp_bind. eapply wp_load; [by apply segment_type|]. fold (used p).
  replace (src + 16) with (sector + offsetof_partition + (i + 1) * 16) in * by lia.
  assert (forall v', 0 <= v' -> v' + Z.of_nat (length ps) < 2 ^ 31 ->
    wp (load_partitions (length ps) (i + 1) sector partition v') (fun r m' =>
      r = (if forallb acceptable ps then Some (v' + Z.of_nat (length (List.filter used ps))) else None) /\
      (forallb acceptable ps = true -> m' = written m dst (encode_table (p :: ps))) /\
      forall q, q < dst \/ partition + (i + Z.of_nat (S (length ps))) * 16 <= q -> m' !! q = m !! q)
      (written m dst (encode_partition p))) as Hrest.
  { intros v' Hv' Hvb'. eapply wp_mono; [apply IH; [done| | | |done|done]|].
    - apply segment_written; [rewrite encode_partition_length, encode_table_length; apart|done].
    - apply mapped_written. eapply mapped_sub; [exact Hm|unfold dst; lia|unfold dst; lia].
    - unfold apart, src, dst in *. lia.
    - intros r m' (-> & Hw & Hframe). split_and!; [done| |].
      + intros Hall. rewrite (Hw Hall). unfold encode_table at 2. cbn [fmap list_fmap concat].
        rewrite written_app, encode_partition_length. by replace (dst + Z.of_nat 16) with (partition + (i + 1) * 16) by (unfold dst; lia).
      + intros q Hq. rewrite Hframe by lia. by apply Hout. }
  destruct (used p) eqn:Hu; cbn [length].
  - apply wp_bind. eapply wp_eq.
    { apply assign_partition_ok; [done|done|]. apply mapped_written. eapply mapped_sub; [exact Hm|lia|lia]. }
    rewrite (written_same (written _ _ _)) by apply written_segment. rewrite i32_id by lia.
    eapply wp_mono; [apply Hrest; lia|]. intros r m' (-> & Hw & Hf). split_and!; [|done|done].
    destruct (forallb acceptable ps); [f_equal; lia|done].
  - eapply wp_mono; [apply Hrest; lia|]. done.
Qed.

Definition dumpable (p : mbr_partition_t) : bool := negb (used p) || acceptable p.

Lemma dump_partitions_ok sector partition ps : forall i k m,
  Forall partition_ok ps -> segment m (partition + i * 16) (encode_table ps) ->
  mapped m (sector + offsetof_partition + k * 16) (16 * length ps) ->
  apart (sector + offsetof_partition + k * 16) (16 * length ps) (partition + i * 16) (16 * length ps) ->
  0 <= k -> k + Z.of_nat (length ps) < 2 ^ 31 ->
  wp (dump_partitions (length ps) i sector partition k) (fun r m' =>
    r = (if forallb dumpable ps then DNA_OK else DNA_ERROR) /\
    (forallb dumpable ps = true ->
     m' = written m (sector + offsetof_partition + k * 16) (encode_table (List.filter used ps))) /\
    forall q, q < sector + offsetof_partition + k * 16 \/
              sector + offsetof_partition + (k + Z.of_nat (length ps)) * 16 <= q -> m' !! q = m !! q) m.
Proof.
  induction ps as [|p ps IH]; intros i k m Hok Hs Hm Ha Hk Hkb; cbn [dump_partitions length forallb List.filter].
  { apply wp_ret. by split_and!. }
  apply Forall_cons in Hok as [Hp Hok]. apply segment_table_cons in Hs as [Hs1 Hs]. cbn [length] in *.
  set (src := partition + i * 16) in *. set (dst := sector + offsetof_partition + k * 16) in *.
  change sizeof_mbr_partition with 16. fold src dst. change (dumpable p) with (negb (used p) || acceptable p).
  apply wp_bind. eapply wp_load; [by apply segment_type|]. fold (used p).
  replace (src + 16) with (partition + (i + 1) * 16) in * by (unfold src; lia).
  destruct (used p) eqn:Hu; cbn [negb orb].
  - apply wp_bind. eapply wp_load; [by apply segment_status|]. fold (acceptable p).
    destruct (acceptable p); cbn [andb]; [|by apply wp_ret; split_and!].
    apply wp_bind. eapply wp_eq; [apply assign_partition_ok; [done|done|eapply mapped_sub; [done|lia|lia]]|].
    rewrite i32_id by lia. eapply wp_mono; [apply IH; [done| | | |lia|lia]|].
    + apply segment_written; [rewrite encode_partition_length, encode_table_length; unfold apart, src, dst in *; lia|done].
    + apply mapped_written. eapply mapped_sub; [exact Hm|unfold dst; lia|unfold dst; lia].
    + unfold apart, src, dst in *. lia.
    + intros r m' (-> & Hw & Hf). split_and!; [done| |].
      * intros Hall. rewrite (Hw Hall). unfold encode_table at 2. cbn [fmap list_fmap concat].
        rewrite written_app, encode_partition_length.
        by replace (dst + Z.of_nat 16) with (sector + offsetof_partition + (k + 1) * 16) by (unfold dst; lia).
      * intros q Hq. rewrite Hf by (unfold dst in *; lia). apply written_outside. rewrite encode_partition_length. unfold dst in *. lia.
  - cbn [andb]. eapply wp_mono; [apply IH; [done|done| | |lia|lia]|].
    + eapply mapped_sub; [exact Hm|unfold dst; lia|unfold dst; lia].
    + unfold apart, src, dst in *. lia.
    + intros r m' (-> & Hw & Hf). split_and!; [done|done|]. intros q Hq. apply Hf. unfold dst in *. lia.
Qed.

Lemma segment_head m p l1 l2 : segment m p (l1 ++ l2) -> segment m p l1.
Proof. intros Hs. by apply segment_app in Hs as [Hs _]. Qed.

Lemma memset_zeros m s k : mapped m s (4 * k) ->
  dna_memset s 0 (Z.of_nat (4 * k)) m = Ret s (written m s (zeros (4 * k))).
Proof.
  intros Hm. apply wp_run. unfold dna_memset. rewrite Z.shiftr_div_pow2 by lia.
  replace (Z.of_nat (4 * k) / 2 ^ 2) with (Z.of_nat k) by (change (2 ^ 2) with 4; Z.to_euclidean_division_equations; lia).
  replace (Z.of_nat (4 * k) mod 4) with 0 by (Z.to_euclidean_division_equations; lia). rewrite Nat2Z.id.
  replace s with (s + 4 * 0) in Hm by lia. apply wp_bind. eapply wp_eq; [by apply memset_words|].
  apply wp_bind, wp_ret, wp_ret. by rewrite Z.mul_0_r, Z.add_0_r.
Qed.
Lemma written_over m p l1 l2 : length l1 = length l2 -> written (written m p l1) p l2 = written m p l2.
Proof.
  intros Hl. apply map_eq. intros q.
  destruct (decide (q < p \/ p + Z.of_nat (length l2) <= q)) as [Hout|Hin].
  - by rewrite !written_outside by lia.
  - destruct (lookup_lt_is_Some_2 l2 (Z.to_nat (q - p))) as [c Hc]; [lia|].
    replace q with (p + Z.of_nat (Z.to_nat (q - p))) by lia.
    by rewrite !(segment_lookup _ p l2 _ c (written_segment _ _ _) Hc).
Qed.

Lemma existsb_used ps : existsb used ps = (0 <? Z.of_nat (length (List.filter used ps))).
Proof. induction ps as [|p ps IH]; [done|]. cbn [existsb List.filter]. destruct (used p); [done|]. by rewrite IH. Qed.

(** ** Theorems *)

(** Mbr_load accepts a sector exactly when it has the signature, every partition of
    its table is normal or bootable, and one is used; it then stores the four partitions,
    and it writes nothing else than the array. *)
Theorem mbr_load_spec m sector partition boot ps a b :
  sector <> 0 -> partition <> 0 -> length boot = 446%nat -> length ps = 4%nat ->
  Forall partition_ok ps -> isbyte a -> isbyte b ->
  segment m sector (boot ++ encode_table ps ++ [a; b]) ->
  mapped m partition 64 -> apart partition 64 sector 512 ->
  exists m', mbr_load sector partition m = Ret (load_status [a; b] ps) m' /\
    (load_status [a; b] ps = DNA_OK -> segment m' partition (encode_table ps)) /\
    (forall q, q < partition \/ partition + 64 <= q -> m' !! q = m !! q).
Proof.
  intros Hsec Hpart Hboot Hlen Hok Ha Hb Hs Hm Hap. apply wp_returns. unfold mbr_load.
  rewrite (proj2 (Z.eqb_neq sector 0)), (proj2 (Z.eqb_neq partition 0)) by done. cbn [negb].
  apply segment_app in Hs as [_ Hs]. rewrite Hboot in Hs.
  apply segment_app in Hs as [Hs [Hlo [Hhi _]]]. rewrite encode_table_length, Hlen in Hlo, Hhi.
  change (Z.of_nat 446) with offsetof_partition in *.
  replace (sector + offsetof_partition + Z.of_nat (16 * 4)) with (sector + offsetof_signature) in * by (unfold offsetof_signature; change (Z.of_nat (16 * 4)) with (4 * sizeof_mbr_partition); lia).
  apply wp_bind, wp_bind. eapply wp_load; [done|]. apply wp_bind. eapply wp_load; [done|]. apply wp_ret.
  rewrite signature_bytes by done. unfold load_status. case_bool_decide as Hsgn; cbn [andb]; [|by apply wp_ret].
  change (4 * sizeof_mbr_partition) with (Z.of_nat (4 * 16)).
  apply wp_bind. eapply wp_eq; [by apply memset_zeros|].
  apply wp_bind. rewrite <- Hlen. eapply wp_mono.
  - apply load_partitions_ok; rewrite ?Z.mul_0_l, ?Z.add_0_r, ?Hlen; [done| | | |lia|lia].
    + apply segment_written; [unfold zeros; rewrite length_replicate, encode_table_length, Hlen; unfold apart, offsetof_partition in *; lia|done].
    + by apply mapped_written.
    + unfold apart, offsetof_partition in *. lia.
  - rewrite Hlen, !Z.mul_0_l, !Z.add_0_r, Z.add_0_l, existsb_used. intros r m' (-> & Hw & Hf).
    assert (forall q, q < partition \/ partition + 64 <= q -> m' !! q = m !! q) as Hframe.
    { intros q Hq. rewrite Hf by lia. apply written_outside. cbn. lia. }
    destruct (forallb acceptable ps); cbn [andb]; [|by apply wp_ret].
    destruct (0 <? _); apply wp_ret; [|done].
    split_and!; [done|intros _; rewrite (Hw eq_refl); apply written_segment|done].
Qed.

(** The table that mbr_dump writes: the used partitions first. *)
Definition compacted (ps : list mbr_partition_t) : list mbr_partition_t :=
  List.filter used ps ++ replicate (4 - length (List.filter used ps)) unused.

Lemma encode_table_app ps1 ps2 : encode_table (ps1 ++ ps2) = encode_table ps1 ++ encode_table ps2.
Proof. unfold encode_table. by rewrite fmap_app, concat_app. Qed.
Lemma encode_unused k : encode_table (replicate k unused) = zeros (16 * k).
Proof.
  induction k as [|k IH]; [done|]. unfold encode_table in *. cbn [replicate fmap list_fmap concat]. rewrite IH.
  change (encode_partition unused) with (zeros 16). unfold zeros. rewrite <- replicate_add. f_equal. lia.
Qed.
Lemma filter_used_length ps : (length (List.filter used ps) <= length ps)%nat.
Proof. apply filter_length_le. Qed.

(** Arithmetic on the offsets of the members. *)
Ltac offsets := unfold apart, offsetof_signature, offsetof_partition, sizeof_mbr_partition in *; rewrite ?length_app; unfold zeros; rewrite ?length_replicate; cbn [length]; lia.

Lemma store16_ok m p v : mapped m p 2 -> store16 p v m = Ret tt (written m p (le16 v)).
Proof.
  intros Hm. apply wp_run, wp_bind, wp_store; [by eapply mapped_head|].
  apply wp_store; [by apply (mapped_head _ _ 0), mapped_insert, mapped_tail|done].
Qed.

(** Mbr_dump refuses a used partition that is neither normal nor bootable; otherwise the
    sector has the used partitions and the signature, and zeros elsewhere: the code and
    the signature of the disk are lost. *)
Theorem mbr_dump_spec m sector partition ps :
  sector <> 0 -> partition <> 0 -> length ps = 4%nat -> Forall partition_ok ps ->
  segment m partition (encode_table ps) -> mapped m sector 512 -> apart sector 512 partition 64 ->
  exists m', mbr_dump partition sector m = Ret (if forallb dumpable ps then DNA_OK else DNA_ERROR) m' /\
    (forallb dumpable ps = true ->
     segment m' sector (zeros 446 ++ encode_table (compacted ps) ++ [0x55; 0xAA])) /\
    (forall q, q < sector \/ sector + 512 <= q -> m' !! q = m !! q).
Proof.
  intros Hsec Hpart Hlen Hok Hs Hm Hap. apply wp_returns. unfold mbr_dump.
  rewrite (proj2 (Z.eqb_neq sector 0)), (proj2 (Z.eqb_neq partition 0)) by done. cbn [negb].
  change 512 with (Z.of_nat (4 * 128)) at 1. apply wp_bind. eapply wp_eq; [by apply memset_zeros|].
  change (SWITCH_ENDIAN_16 0x55AA) with 0xAA55. set (m1 := written m sector (zeros 446 ++ zeros 64 ++ [0x55; 0xAA])).
  apply wp_bind. eapply wp_eq; [apply store16_ok, mapped_written; eapply mapped_sub; [exact Hm|offsets|offsets]|].
  change (zeros (4 * 128)) with (zeros 446 ++ zeros 64 ++ zeros 2).
  assert (written (written m sector (zeros 446 ++ zeros 64 ++ zeros 2)) (sector + offsetof_signature) (le16 0xAA55) = m1) as ->.
  { subst m1. rewrite !app_assoc, !written_app. apply written_over. done. }
  assert (segment m1 sector (zeros 446 ++ zeros 64 ++ [0x55; 0xAA])) as Hs1 by apply written_segment.
  rewrite <- Hlen. eapply wp_mono.
  - apply dump_partitions_ok; rewrite ?Z.mul_0_l, ?Z.add_0_r, ?Hlen; [done| | | |lia|lia].
    + apply segment_written; [rewrite encode_table_length, Hlen; offsets|done].
    + apply mapped_written. eapply mapped_sub; [exact Hm|offsets|offsets].
    + offsets.
  - rewrite Hlen, !Z.mul_0_l, !Z.add_0_r. intros r m' (-> & Hw & Hf). split_and!; [done| |].
    + intros Hall. rewrite (Hw Hall). clear Hw Hf. pose proof (filter_used_length ps) as Hu. rewrite Hlen in Hu.
      set (n := length (List.filter used ps)) in *.
      change (zeros 64) with (zeros (16 * 4)) in Hs1.
      replace (zeros (16 * 4)) with (zeros (16 * n) ++ zeros (16 * (4 - n))) in Hs1
        by (unfold zeros; rewrite <- replicate_add; f_equal; lia).
      unfold compacted. fold n. rewrite encode_table_app, encode_unused, <- !app_assoc in *.
      rewrite !segment_app in *. unfold zeros in *. rewrite !length_replicate, encode_table_length in *. fold n.
      change (Z.of_nat 446) with offsetof_partition in *.
      destruct Hs1 as (H1 & _ & H2 & H3). split_and!; try apply written_segment;
        (apply segment_written; [rewrite encode_table_length; fold n|done]);
        offsets.
    + intros q Hq. rewrite Hf by (unfold offsetof_partition; lia). subst m1. apply written_outside. cbn. lia.
Qed.

Lemma forallb_compacted ps : forallb dumpable ps = true -> forallb acceptable (compacted ps) = true.
Proof.
  intros Hd. unfold compacted. rewrite forallb_app. apply andb_true_iff. split.
  - apply forallb_forall. intros p [Hin Hu]%filter_In. rewrite forallb_forall in Hd.
    specialize (Hd p Hin). unfold dumpable in Hd. by rewrite Hu in Hd.
  - by apply forallb_forall; intros p [-> _]%list_elem_of_In%elem_of_replicate.
Qed.
Lemma existsb_compacted ps : existsb used ps = true -> existsb used (compacted ps) = true.
Proof.
  intros (p & Hin & Hu)%existsb_exists. apply existsb_exists. exists p. split; [|done].
  apply in_app_iff. left. by apply filter_In.
Qed.
Lemma compacted_ok ps : Forall partition_ok ps -> Forall partition_ok (compacted ps).
Proof.
  intros Hok. apply Forall_app. split.
  - apply Forall_forall. intros p [Hin _]%list_elem_of_In%filter_In. rewrite Forall_forall in Hok. by apply Hok, list_elem_of_In.
  - apply Forall_replicate. unfold partition_ok. cbn. repeat constructor; unfold isbyte; lia.
Qed.

(** C21: What mbr_dump wrote of a table of partitions with a used one, mbr_load reads back:
    the used partitions in their order, then unused ones. *)
Theorem mbr_dump_load m partition sector table ps :
  sector <> 0 -> partition <> 0 -> table <> 0 -> length ps = 4%nat -> Forall partition_ok ps ->
  forallb dumpable ps = true -> existsb used ps = true ->
  segment m partition (encode_table ps) -> mapped m sector 512 -> mapped m table 64 ->
  apart sector 512 partition 64 -> apart table 64 sector 512 ->
  exists m1 m2, mbr_dump partition sector m = Ret DNA_OK m1 /\
    mbr_load sector table m1 = Ret DNA_OK m2 /\ segment m2 table (encode_table (compacted ps)).
Proof.
  intros Hsec Hpart Htab Hlen Hok Hd Hu Hs Hm Hmt Ha Hat.
  destruct (mbr_dump_spec m sector partition ps) as (m1 & Hdump & Hseg & Hframe); [done..|].
  rewrite Hd in Hdump. specialize (Hseg Hd).
  destruct (mbr_load_spec m1 sector table (zeros 446) (compacted ps) 0x55 0xAA) as (m2 & Hload & Hres & _).
  all: try done.
  - unfold compacted. rewrite length_app, length_replicate. pose proof (filter_used_length ps). lia.
  - by apply compacted_ok.
  - intros i Hi. rewrite Hframe by (unfold apart in Hat; lia). by apply Hmt.
  - exists m1, m2. unfold load_status in *. rewrite bool_decide_eq_true_2 in * by done.
    rewrite forallb_compacted, existsb_compacted in * by done. auto.
Qed.

(** Two partitions, in the second and the last place, at 2000; the sector is at 100. *)
Definition disk_table : list mbr_partition_t :=
  [unused; mkPartition 0x80 1 1 0 0x83 254 63 100 63 1000000; unused; mkPartition 0 0 1 101 0x0C 254 63 200 1000063 500000].
Definition mbr_sample : mem :=
  written (written (written ∅ 2000 (encode_table disk_table)) 100 (replicate 512 7)) 3000 (replicate 64 7).

Lemma mbr_dump_load_witness :
  exists m1 m2, mbr_dump 2000 100 mbr_sample = Ret DNA_OK m1 /\
    mbr_load 100 3000 m1 = Ret DNA_OK m2 /\ segment m2 3000 (encode_table (compacted disk_table)).
Proof.
  apply (mbr_dump_load mbr_sample 2000 100 3000 disk_table); [lia|lia|lia|done| |done|done| | | |unfold apart; lia|unfold apart; lia].
  - repeat constructor; cbn; unfold isbyte; lia.
  - apply segment_written; [unfold apart; cbn; lia|]. apply segment_written; [unfold apart; cbn; lia|]. apply written_segment.
  - apply mapped_written. change 512%nat with (length (replicate 512 7)). apply segment_mapped, written_segment.
  - change 64%nat with (length (replicate 64 7)). apply segment_mapped, written_segment.
Defined.
