(* ===== verification/Printf.v ===== *)
(** * dna_printf (DnaTools/Sources/dna_printf.c)

    The formatted output of the kernel: a three-state automaton that reads the
    format one character at a time and fills a buffer of 256 bytes, which is then
    given to platform_debug_puts.  The result of the model is that buffer, without
    its terminator; a write outside it, or an argument that is not of the type the
    format asks for, is a fault.

    The format is the list of its characters, without the terminator.  The types
    are those of a 32-bit processor: [int] and [long] have 32 bits, [long long]
    has 64. *)

From S2P Require Import Prelude CLib.

(** A variadic argument: a word, a double word, or a pointer to a string. *)
Inductive varg : Type :=
| VWord (w : Z) | VLongLong (w : Z) | VString (s : list Z).

Inductive pstate_t : Type := NORMAL | ESCAPE | FORMAT.

Record pf := mkPf {
  pst : pstate_t;
  is_long : bool;
  is_long_long : bool;
  is_short : bool;
  is_char : bool;
  args : list varg;
  buffer : list Z
}.

Definition BUFFER_SIZE : nat := 256.

Definition set_pst v s := mkPf v (is_long s) (is_long_long s) (is_short s) (is_char s) (args s) (buffer s).
Definition set_long v s := mkPf (pst s) v (is_long_long s) (is_short s) (is_char s) (args s) (buffer s).
Definition set_long_long v s := mkPf (pst s) (is_long s) v (is_short s) (is_char s) (args s) (buffer s).
Definition set_short v s := mkPf (pst s) (is_long s) (is_long_long s) v (is_char s) (args s) (buffer s).
Definition set_char v s := mkPf (pst s) (is_long s) (is_long_long s) (is_short s) v (args s) (buffer s).
Definition set_args v s := mkPf (pst s) (is_long s) (is_long_long s) (is_short s) (is_char s) v (buffer s).
Definition set_buffer v s := mkPf (pst s) (is_long s) (is_long_long s) (is_short s) (is_char s) (args s) v.

Definition goto (p : pstate_t) : M pf unit := modify (set_pst p).

(** buffer[j] = c; j += 1; *)
Definition putc (c : Z) : M pf unit :=
  let* b := gets buffer in
  if (length b <? BUFFER_SIZE)%nat then modify (set_buffer (b ++ [u8 c])) else fault.

Fixpoint puts (l : list Z) : M pf unit :=
  match l with [] => ret tt | c :: l => putc c ;; puts l end.

(** va_arg *)
Definition next_arg : M pf varg :=
  let* l := gets args in
  match l with [] => fault | a :: l => modify (set_args l) ;; ret a end.
Definition arg_word : M pf Z :=
  let* a := next_arg in match a with VWord w => ret (u32 w) | _ => fault end.
Definition arg_long_long : M pf Z :=
  let* a := next_arg in match a with VLongLong w => ret (wrap_u 64 w) | _ => fault end.
Definition arg_string : M pf (list Z) :=
  let* a := next_arg in match a with VString s => ret s | _ => fault end.

(** The argument of [%u] and [%x], at its size, as a uint64_t. *)
Definition unsigned_arg : M pf Z :=
  let* s := gets (fun s => s) in
  if is_long_long s then arg_long_long
  else if is_long s then arg_word
  else if is_char s then let* w := arg_word in ret (u8 w)
  else if is_short s then let* w := arg_word in ret (u16 w)
  else arg_word.

(** The argument of [%d], as an int64_t. *)
Definition signed_arg : M pf Z :=
  let* s := gets (fun s => s) in
  if is_long_long s then let* w := arg_long_long in ret (i64 w)
  else if is_long s then let* w := arg_word in ret (i32 w)
  else if is_char s then let* w := arg_word in ret (wrap_s 8 w)
  else if is_short s then let* w := arg_word in ret (i16 w)
  else let* w := arg_word in ret (i32 w).

(** The loops that fill [ascii], the last digit first: a uint64_t is less than
    10^32 and 16^32, so 32 turns are enough, and [ascii] has 32 characters. *)
Fixpoint ascii10 (fuel : nat) (v : Z) : list Z :=
  match fuel with
  | O => []
  | S fuel => (v mod 10 + 48) :: (if 0 <? v / 10 then ascii10 fuel (v / 10) else [])
  end.
Definition hex_digit (r : Z) : Z := if r <? 10 then r + 48 else r - 10 + 97.
Fixpoint ascii16 (fuel : nat) (v : Z) : list Z :=
  match fuel with
  | O => []
  | S fuel =>
      hex_digit (Z.land v 0xf) :: (if 0 <? Z.shiftr v 4 then ascii16 fuel (Z.shiftr v 4) else [])
  end.

(** Case NORMAL of the switch. *)
Definition step_normal (c : Z) : M pf unit :=
  if c =? 92 then goto ESCAPE
  else if c =? 37 then
    modify (set_char false) ;; modify (set_short false) ;;
    modify (set_long false) ;; modify (set_long_long false) ;;
    goto FORMAT
  else putc c.

(** Case ESCAPE. *)
Definition step_escape (c : Z) : M pf unit :=
  (if c =? 110 then putc 10
   else if c =? 116 then putc 9
   else putc 92 ;; putc c) ;;
  goto NORMAL.

(** The conversions of the case FORMAT. *)
Definition conv_u : M pf unit :=
  let* v := unsigned_arg in
  puts (rev (ascii10 32 v)) ;;
  goto NORMAL.
Definition conv_d : M pf unit :=
  let* v := signed_arg in
  let unsigned_value := if v <? 0 then wrap_u 64 (-1 * v) else wrap_u 64 v in
  puts (rev (ascii10 32 unsigned_value ++ (if v <? 0 then [45] else []))) ;;
  goto NORMAL.
Definition conv_x : M pf unit :=
  let* v := unsigned_arg in
  puts (rev (ascii16 32 v)) ;;
  goto NORMAL.
Definition conv_c : M pf unit :=
  let* v := arg_word in
  putc v ;;
  goto NORMAL.
Definition conv_s : M pf unit :=
  let* s := arg_string in
  puts s ;;
  goto NORMAL.

(** The size modifiers of the case FORMAT. *)
Definition modifier_h : M pf unit :=
  let* s := gets (fun s => s) in
  if negb (is_short s) then modify (set_short true)
  else if negb (is_char s) then modify (set_short false) ;; modify (set_char true)
  else goto NORMAL.
Definition modifier_l : M pf unit :=
  let* s := gets (fun s => s) in
  if negb (is_long s) then modify (set_long true)
  else if negb (is_long_long s) then modify (set_long false) ;; modify (set_long_long true)
  else goto NORMAL.

(** Case FORMAT. *)
Definition step_format (c : Z) : M pf unit :=
  if c =? 104 then modifier_h
  else if c =? 108 then modifier_l
  else if c =? 117 then conv_u
  else if c =? 100 then conv_d
  else if (c =? 112) || (c =? 120) then conv_x
  else if c =? 99 then conv_c
  else if c =? 115 then conv_s
  else if c =? 37 then putc 37 ;; goto FORMAT
  else if ((48 <=? c) && (c <=? 57)) || (c =? 46) then goto FORMAT
  else goto NORMAL.

Definition printf_step (c : Z) : M pf unit :=
  let* st := gets pst in
  match st with
  | NORMAL => step_normal c
  | ESCAPE => step_escape c
  | FORMAT => step_format c
  end.

(** The loop stops at the character 0 of the format; a format without one is read past its
    end. *)
Fixpoint printf_loop (format : list Z) : M pf unit :=
  match format with
  | [] => fault
  | c :: format => if negb (c =? 0) then printf_step c ;; printf_loop format else ret tt
  end.

(** The whole function; the result is the string given to platform_debug_puts. *)
Definition dna_printf (format : list Z) (arguments : list varg) : M pf (list Z) :=
  modify (fun _ => mkPf NORMAL false false false false arguments []) ;;
  printf_loop format ;;
  let* b := gets buffer in
  if (length b <? BUFFER_SIZE)%nat then ret b else fault.

(** ** Specification: formats as sequences of directives *)

Inductive size_t : Type := SInt | SLong | SLongLong | SShort | SChar.

Inductive directive : Type :=
| Text (c : Z)                 (* an ordinary character *)
| Escape (c : Z)               (* a backslash and the next character *)
| Unsigned (z : size_t) (v : Z)
| Signed (z : size_t) (v : Z)
| Hex (z : size_t) (v : Z)
| Character (c : Z)
| Str (s : list Z).

Definition size_chars (z : size_t) : list Z :=
  match z with
  | SInt => [] | SLong => [108] | SLongLong => [108; 108] | SShort => [104] | SChar => [104; 104]
  end.

(** The characters of a directive in the format, and its argument. *)
Definition directive_chars (d : directive) : list Z :=
  match d with
  | Text c => [c]
  | Escape c => [92; c]
  | Unsigned z _ => 37 :: size_chars z ++ [117]
  | Signed z _ => 37 :: size_chars z ++ [100]
  | Hex z _ => 37 :: size_chars z ++ [120]
  | Character _ => [37; 99]
  | Str _ => [37; 115]
  end.
Definition sized_arg (z : size_t) (v : Z) : varg :=
  match z with SLongLong => VLongLong v | _ => VWord v end.
Definition directive_arg (d : directive) : list varg :=
  match d with
  | Unsigned z v | Signed z v | Hex z v => [sized_arg z v]
  | Character c => [VWord c]
  | Str s => [VString s]
  | _ => []
  end.

(** Width of a size, and values that fit in it. *)
Definition width (z : size_t) : Z :=
  match z with SLongLong => 64 | SShort => 16 | SChar => 8 | _ => 32 end.

Definition directive_ok (d : directive) : Prop :=
  match d with
  | Text c => ischar c /\ c <> 92 /\ c <> 37
  | Escape c => ischar c
  | Unsigned z v | Hex z v => 0 <= v < 2 ^ width z
  | Signed z v => - 2 ^ (width z - 1) <= v < 2 ^ (width z - 1)
  | Character c => ischar c
  | Str s => Forall ischar s
  end.

(** The numeral of [v] in base [b], the most significant digit first, without
    leading zeros: its digit of rank [i] is [v / b^i mod b].  64 digits are enough
    for a 64-bit number in any base. *)
Definition digit_char (d : Z) : Z :=
  nth (Z.to_nat d) [48; 49; 50; 51; 52; 53; 54; 55; 56; 57; 97; 98; 99; 100; 101; 102] 0.
Definition ndigits (b v : Z) : nat :=
  S (length (filter (fun i : nat => b ^ Z.of_nat i <= v) (seq 1 64))).
Definition digit_at (b v : Z) (i : nat) : Z := digit_char (v / b ^ Z.of_nat i mod b).
Definition numeral (b v : Z) : list Z := rev (digit_at b v <$> seq 0 (ndigits b v)).

(** What a directive prints. *)
Definition directive_text (d : directive) : list Z :=
  match d with
  | Text c => [c]
  | Escape c => if c =? 110 then [10] else if c =? 116 then [9] else [92; c]
  | Unsigned _ v => numeral 10 v
  | Signed _ v => (if v <? 0 then [45] else []) ++ numeral 10 (Z.abs v)
  | Hex _ v => numeral 16 v
  | Character c => [c]
  | Str s => s
  end.

(** The format ends with the character 0. *)
Definition format_of (ds : list directive) : list Z := concat (directive_chars <$> ds) ++ [0].
Definition args_of (ds : list directive) : list varg := concat (directive_arg <$> ds).
Definition text_of (ds : list directive) : list Z := concat (directive_text <$> ds).

(** ** Proofs *)

Lemma puts_ok l : forall s,
  Forall isbyte l -> (length (buffer s) + length l <= BUFFER_SIZE)%nat ->
  puts l s = Ret tt (set_buffer (buffer s ++ l) s).
Proof.
  induction l as [|c l IH]; intros s Hl Hb; cbn [puts length] in *.
  - rewrite app_nil_r. by destruct s.
  - apply Forall_cons in Hl as [Hc Hl]. apply wp_run. apply wp_bind.
    unfold putc. apply wp_bind, wp_gets.
    rewrite (proj2 (Nat.ltb_lt _ _)) by lia. apply wp_modify. rewrite u8_id by done.
    eapply wp_eq; [apply IH; [done|]|].
    + cbn [set_buffer buffer]. rewrite length_app. cbn. lia.
    + cbn [set_buffer buffer]. by rewrite <- app_assoc.
Qed.

Lemma putc_ok c s :
  isbyte c -> (length (buffer s) < BUFFER_SIZE)%nat -> putc c s = Ret tt (set_buffer (buffer s ++ [c]) s).
Proof.
  intros Hc Hb. unfold putc, bind, gets. by rewrite (proj2 (Nat.ltb_lt _ _) Hb), u8_id.
Qed.

(** The digits are characters, and read back as the number. *)
Lemma ascii10_ok fuel : forall v,
  0 <= v < 10 ^ Z.of_nat fuel -> Forall isdigit (ascii10 fuel v) /\ decimal (ascii10 fuel v) = v.
Proof.
  induction fuel as [|fuel IH]; intros v Hv; [split; [constructor|cbn in *; lia]|]. cbn [ascii10].
  pose proof (Z.mod_pos_bound v 10 ltac:(lia)) as Hr. pose proof (Z.div_mod v 10 ltac:(lia)) as Hq.
  rewrite Nat2Z.inj_succ, Z.pow_succ_r in Hv by lia.
  destruct (0 <? v / 10) eqn:Hlt; zbool.
  - destruct (IH (v / 10)) as [Hd Hdec]; [lia|]. split; [|cbn [decimal]; lia].
    constructor; [unfold isdigit; lia|done].
  - split; [|cbn; lia]. apply Forall_singleton. unfold isdigit. lia.
Qed.

Lemma ascii10_bytes v : 0 <= v < 2 ^ 64 -> Forall isbyte (ascii10 32 v).
Proof.
  intros Hv. destruct (ascii10_ok 32 v) as [Hd _].
  - change (10 ^ Z.of_nat 32) with (10 ^ 32). lia.
  - eapply Forall_impl; [exact Hd|]. unfold isdigit, isbyte. lia.
Qed.

Lemma ascii16_bytes fuel : forall v, Forall isbyte (ascii16 fuel v).
Proof.
  induction fuel as [|fuel IH]; intros v; cbn [ascii16]; [constructor|].
  constructor; [|destruct (_ <? _); [apply IH|constructor]].
  change 0xf with (Z.ones 4). rewrite Z.land_ones by lia.
  pose proof (Z.mod_pos_bound v (2 ^ 4) ltac:(lia)) as Hr. change (2 ^ 4) with 16 in *.
  unfold hex_digit, isbyte. destruct (_ <? _) eqn:E; zbool; lia.
Qed.

(** ** The loops on [ascii] compute the numeral *)

(** [k + 1] is the number of digits of [v]. *)
Definition has_digits (b v : Z) (k : nat) : Prop :=
  0 <= v < b ^ (Z.of_nat k + 1) /\ (k = 0%nat \/ b ^ Z.of_nat k <= v).

Lemma ndigits_ok b v k : 2 <= b -> (k <= 64)%nat -> has_digits b v k -> ndigits b v = S k.
Proof.
  intros Hb Hk [Hv Hl]. unfold ndigits. f_equal.
  replace 64%nat with (k + (64 - k))%nat by lia. rewrite seq_app, filter_app, length_app.
  rewrite (list_filter_all _ (seq 1 k)), length_seq, (list_filter_none _ (seq (1 + k) _)).
  - cbn. lia.
  - apply Forall_seq. intros i Hi Hle.
    pose proof (Z.pow_le_mono_r b (Z.of_nat k + 1) (Z.of_nat i) ltac:(lia) ltac:(lia)). lia.
  - apply Forall_seq. intros i Hi. destruct Hl as [->|Hl]; [lia|].
    pose proof (Z.pow_le_mono_r b (Z.of_nat i) (Z.of_nat k) ltac:(lia) ltac:(lia)). lia.
Qed.

(** A loop that takes the last digit and divides by the base. *)
Lemma digit_loop_ok b (loop : nat -> Z -> list Z) :
  2 <= b ->
  (forall fuel v, 0 <= v -> loop (S fuel) v =
     digit_char (v mod b) :: (if 0 <? v / b then loop fuel (v / b) else [])) ->
  forall fuel v, (fuel <= 64)%nat -> (0 < fuel)%nat -> 0 <= v < b ^ Z.of_nat fuel ->
  exists k, (k < fuel)%nat /\ has_digits b v k /\ loop fuel v = digit_at b v <$> seq 0 (S k).
Proof.
  intros Hb Hloop. induction fuel as [|fuel IH]; intros v Hfuel H0 Hv; [lia|].
  rewrite Nat2Z.inj_succ, Z.pow_succ_r in Hv by lia. rewrite Hloop by lia.
  destruct (0 <? v / b) eqn:E; zbool.
  - assert (0 < fuel)%nat as Hf.
    { destruct fuel; [|lia]. change (b ^ Z.of_nat 0) with 1 in Hv. rewrite Z.div_small in E; lia. }
    destruct (IH (v / b)) as (k & Hk & [Hr Hl] & ->); [lia|done| |].
    { split; [lia|]. apply Z.div_lt_upper_bound; lia. }
    exists (S k). split; [lia|]. split; [split|].
    + split; [lia|]. rewrite Nat2Z.inj_succ, <- Z.add_1_r, Z.pow_add_r, Z.pow_1_r by lia.
      pose proof (Z.div_mod v b ltac:(lia)). pose proof (Z.mod_pos_bound v b ltac:(lia)). nia.
    + right. rewrite Nat2Z.inj_succ, Z.pow_succ_r by lia.
      pose proof (Z.div_mod v b ltac:(lia)). pose proof (Z.mod_pos_bound v b ltac:(lia)).
      destruct Hl as [->|Hl]; [change (b ^ Z.of_nat 0) with 1|]; nia.
    + change (seq 0 (S (S k))) with (0%nat :: seq 1 (S k)). cbn [fmap list_fmap]. f_equal.
      * unfold digit_at. cbn [Z.of_nat Z.pow]. change (b ^ 0) with 1. by rewrite Z.div_1_r.
      * rewrite <- fmap_S_seq, <- list_fmap_compose. apply list_fmap_ext. intros i j _. cbn.
        unfold digit_at. rewrite Nat2Z.inj_succ, Z.pow_succ_r by lia.
        rewrite Z.div_div by (try apply Z.pow_pos_nonneg; lia). done.
  - exists 0%nat. split; [lia|]. split; [split; [|by left]|].
    + change (b ^ (Z.of_nat 0 + 1)) with (b ^ 1). rewrite Z.pow_1_r.
      pose proof (Z.div_mod v b ltac:(lia)). pose proof (Z.mod_pos_bound v b ltac:(lia)).
      pose proof (Z.div_pos v b ltac:(lia) ltac:(lia)). nia.
    + cbn. unfold digit_at. change (b ^ Z.of_nat 0) with 1. by rewrite Z.div_1_r.
Qed.

Lemma digit_char_dec d : 0 <= d < 10 -> digit_char d = d + 48.
Proof.
  intros Hd. assert (d = 0 \/ d = 1 \/ d = 2 \/ d = 3 \/ d = 4 \/ d = 5 \/ d = 6 \/ d = 7 \/ d = 8 \/ d = 9)
    as Hcase by lia. repeat (destruct Hcase as [->|Hcase]; [done|]). by subst.
Qed.
Lemma digit_char_hex d : 0 <= d < 16 -> digit_char d = hex_digit d.
Proof.
  intros Hd. unfold hex_digit. destruct (d <? 10) eqn:E; zbool; [apply digit_char_dec; lia|].
  assert (d = 10 \/ d = 11 \/ d = 12 \/ d = 13 \/ d = 14 \/ d = 15) as Hcase by lia.
  repeat (destruct Hcase as [->|Hcase]; [done|]). by subst.
Qed.

Lemma ascii10_numeral v : 0 <= v < 2 ^ 64 -> rev (ascii10 32 v) = numeral 10 v.
Proof.
  intros Hv. destruct (digit_loop_ok 10 ascii10) with (fuel := 32%nat) (v := v) as (k & Hk & Hd & ->); try lia.
  - intros fuel w Hw. cbn [ascii10]. rewrite digit_char_dec; [done|]. apply Z.mod_pos_bound. lia.
  - unfold numeral. by rewrite (ndigits_ok 10 v k) by (done || lia).
Qed.

Lemma ascii16_numeral v : 0 <= v < 2 ^ 64 -> rev (ascii16 32 v) = numeral 16 v.
Proof.
  intros Hv. destruct (digit_loop_ok 16 ascii16) with (fuel := 32%nat) (v := v) as (k & Hk & Hd & ->); try lia.
  - intros fuel w Hw. cbn [ascii16]. change 0xf with (Z.ones 4). rewrite Z.land_ones, Z.shiftr_div_pow2 by lia.
    change (2 ^ 4) with 16. rewrite digit_char_hex; [done|]. apply Z.mod_pos_bound. lia.
  - unfold numeral. by rewrite (ndigits_ok 16 v k) by (done || lia).
Qed.

Lemma width_bound z : 2 ^ width z <= 2 ^ 64 /\ 2 ^ (width z - 1) <= 2 ^ 63.
Proof. destruct z; cbn; lia. Qed.

Lemma directive_text_bytes d : directive_ok d -> Forall isbyte (directive_text d).
Proof.
  destruct d as [c|c|z v|z v|z v|c|s]; cbn [directive_ok directive_text]; try (intros H; apply Forall_singleton, char_byte; tauto).
  - intros Hc. unfold ischar in Hc. destruct (c =? 110); [|destruct (c =? 116)]; bytes.
  - intros Hv. pose proof (width_bound z). rewrite <- ascii10_numeral by lia. apply Forall_rev, ascii10_bytes. lia.
  - intros Hv. pose proof (width_bound z). apply Forall_app. split.
    + destruct (v <? 0); bytes.
    + rewrite <- ascii10_numeral by lia. apply Forall_rev, ascii10_bytes. lia.
  - intros Hv. pose proof (width_bound z). rewrite <- ascii16_numeral by lia. apply Forall_rev, ascii16_bytes.
  - intros Hs. eapply Forall_impl; [exact Hs|]. apply char_byte.
Qed.

(** A signed conversion of a number already reduced to at least as many bits. *)
Lemma wrap_s_u w k v : 0 < w <= k -> wrap_s w (wrap_u k v) = wrap_s w v.
Proof.
  intros Hw. unfold wrap_s, wrap_u. f_equal.
  rewrite (Z.mod_eq v (2 ^ k)) by (apply Z.pow_nonzero; lia).
  replace k with (w + (k - w)) at 1 by lia. rewrite Z.pow_add_r by lia.
  replace (v - 2 ^ w * 2 ^ (k - w) * (v / 2 ^ k) + 2 ^ (w - 1))
    with (v + 2 ^ (w - 1) + (- (2 ^ (k - w) * (v / 2 ^ k))) * 2 ^ w) by lia.
  apply Z_mod_plus_full.
Qed.

(** The state in which a conversion of size [z] is executed. *)
Definition sized (z : size_t) (l : list varg) (b : list Z) : pf :=
  match z with
  | SInt => mkPf FORMAT false false false false l b
  | SLong => mkPf FORMAT true false false false l b
  | SLongLong => mkPf FORMAT false true false false l b
  | SShort => mkPf FORMAT false false true false l b
  | SChar => mkPf FORMAT false false false true l b
  end.

Lemma modifiers_ok z k rest s :
  pst s = NORMAL -> k <> 0 ->
  printf_loop (37 :: size_chars z ++ k :: rest) s =
    bind (step_format k) (fun _ => printf_loop rest) (sized z (args s) (buffer s)).
Proof.
  destruct s as [p ? ? ? ? l b]. cbn [pst]. intros -> Hk%Z.eqb_neq.
  destruct z; cbn [size_chars app printf_loop Z.eqb Pos.eqb negb]; rewrite Hk; reflexivity.
Qed.

Lemma printf_loop_char c rest : c <> 0 -> printf_loop (c :: rest) = (printf_step c ;; printf_loop rest).
Proof. intros Hc%Z.eqb_neq. cbn [printf_loop]. by rewrite Hc. Qed.

Lemma unsigned_arg_ok z v l b :
  0 <= v < 2 ^ width z -> unsigned_arg (sized z (sized_arg z v :: l) b) = Ret v (sized z l b).
Proof.
  intros Hv. assert (forall k, width z <= k -> wrap_u k v = v) as Hw.
  { intros k Hk. apply wrap_u_id. pose proof (Z.pow_le_mono_r 2 (width z) k). lia. }
  destruct z; unfold unsigned_arg, arg_word, arg_long_long, next_arg, bind, gets, modify, ret, u32, u16, u8;
    cbn [sized sized_arg is_long_long is_long is_char is_short args set_args width] in *;
    rewrite !Hw by lia; done.
Qed.

Lemma signed_arg_ok z v l b :
  - 2 ^ (width z - 1) <= v < 2 ^ (width z - 1) ->
  signed_arg (sized z (sized_arg z v :: l) b) = Ret v (sized z l b).
Proof.
  intros Hv.
  destruct z; unfold signed_arg, arg_word, arg_long_long, next_arg, bind, gets, modify, ret, u32, i64, i32, i16;
    cbn [sized sized_arg is_long_long is_long is_char is_short args set_args width] in *;
    rewrite wrap_s_u, wrap_s_id by lia; done.
Qed.

Lemma goto_sized z l b : goto NORMAL (sized z l b) = Ret tt (set_pst NORMAL (sized z l b)).
Proof. done. Qed.

(** The end of a conversion: the text is printed and the state is NORMAL again. *)
Lemma conversion_ok {B} z l b t (k : M pf B) Q :
  Forall isbyte t -> (length b + length t <= BUFFER_SIZE)%nat ->
  (forall s', pst s' = NORMAL -> args s' = l -> buffer s' = b ++ t -> wp k Q s') ->
  wp (puts t ;; goto NORMAL) (fun _ s' => wp k Q s') (sized z l b).
Proof.
  intros Ht Hb Hk. apply wp_bind. eapply wp_eq; [apply puts_ok; [done|by destruct z]|].
  apply wp_modify. by apply Hk; destruct z.
Qed.

Lemma directive_step d rest l s Q :
  directive_ok d -> pst s = NORMAL -> args s = directive_arg d ++ l ->
  (length (buffer s) + length (directive_text d) <= BUFFER_SIZE)%nat ->
  (forall s', pst s' = NORMAL -> args s' = l -> buffer s' = buffer s ++ directive_text d ->
     wp (printf_loop rest) Q s') ->
  wp (printf_loop (directive_chars d ++ rest)) Q s.
Proof.
  intros Hd Hst Hargs Hb Hk. pose proof (directive_text_bytes d Hd) as Ht.
  destruct d as [c|c|z v|z v|z v|c|t]; cbn [directive_ok directive_chars directive_arg directive_text app] in *.
  - destruct Hd as (Hc & H92 & H37). rewrite printf_loop_char by (unfold ischar in Hc; lia). apply char_byte in Hc. apply wp_bind. unfold printf_step.
    apply wp_bind, wp_gets. rewrite Hst. unfold step_normal.
    rewrite (proj2 (Z.eqb_neq c 92)), (proj2 (Z.eqb_neq c 37)) by done.
    eapply wp_eq; [apply putc_ok; [done|cbn in Hb; lia]|]. by apply Hk.
  - rewrite !printf_loop_char by (unfold ischar in Hd; lia). apply char_byte in Hd. apply wp_bind. unfold printf_step at 1. apply wp_bind, wp_gets. rewrite Hst.
    apply wp_modify. apply wp_bind, wp_bind, wp_gets. cbn [set_pst pst]. apply wp_bind.
    destruct (c =? 110); [|destruct (c =? 116)].
    1,2: eapply wp_eq; [apply putc_ok; [unfold isbyte; lia|cbn in *; lia]|]; apply wp_modify; by apply Hk.
    apply wp_bind. eapply wp_eq; [apply putc_ok; [unfold isbyte; lia|cbn in *; lia]|].
    eapply wp_eq; [apply putc_ok; [done|cbn in *; rewrite length_app; cbn; lia]|].
    apply wp_modify. apply Hk; [done|done|]. cbn. by rewrite <- app_assoc.
  - rewrite <- app_assoc. cbn [app]. unfold wp. rewrite modifiers_ok by (done || lia). rewrite Hargs.
    apply wp_bind. change (step_format 117) with conv_u. apply wp_bind.
    pose proof (width_bound z). eapply wp_eq; [by apply unsigned_arg_ok|].
    rewrite ascii10_numeral by lia. by apply conversion_ok.
  - rewrite <- app_assoc. cbn [app]. unfold wp. rewrite modifiers_ok by (done || lia). rewrite Hargs.
    apply wp_bind. change (step_format 100) with conv_d. apply wp_bind.
    eapply wp_eq; [by apply signed_arg_ok|]. cbv beta zeta. pose proof (width_bound z) as Hw.
    replace (if v <? 0 then wrap_u 64 (-1 * v) else wrap_u 64 v) with (Z.abs v).
    + rewrite rev_app_distr, ascii10_numeral by lia. replace (rev (if v <? 0 then [45] else [])) with (if v <? 0 then [45] else [])
        by (by destruct (v <? 0)). by apply conversion_ok.
    + destruct (v <? 0) eqn:E; zbool; rewrite wrap_u_id; lia.
  - rewrite <- app_assoc. cbn [app]. unfold wp. rewrite modifiers_ok by (done || lia). rewrite Hargs.
    apply wp_bind. change (step_format 120) with conv_x. apply wp_bind.
    pose proof (width_bound z). eapply wp_eq; [by apply unsigned_arg_ok|].
    rewrite ascii16_numeral by lia. by apply conversion_ok.
  - apply char_byte in Hd. change (37 :: 99 :: rest) with (37 :: size_chars SInt ++ 99 :: rest). unfold wp.
    rewrite modifiers_ok by (done || lia). rewrite Hargs. apply wp_bind. change (step_format 99) with conv_c.
    apply wp_bind. eapply wp_eq; [apply (unsigned_arg_ok SInt c)|]; [unfold isbyte in Hd; cbn; lia|].
    apply wp_bind. eapply wp_eq; [apply putc_ok; [done|cbn in *; lia]|]. apply wp_modify. by apply Hk.
  - change (37 :: 115 :: rest) with (37 :: size_chars SInt ++ 115 :: rest). unfold wp.
    rewrite modifiers_ok by (done || lia). rewrite Hargs. apply wp_bind. change (step_format 115) with conv_s.
    apply wp_bind. eapply wp_eq; [reflexivity|]. by apply (conversion_ok SInt).
Qed.

Lemma printf_loop_ok ds : forall s Q,
  Forall directive_ok ds -> pst s = NORMAL -> args s = args_of ds ->
  (length (buffer s) + length (text_of ds) <= BUFFER_SIZE)%nat ->
  (forall s', buffer s' = buffer s ++ text_of ds -> Q tt s') ->
  wp (printf_loop (format_of ds)) Q s.
Proof.
  unfold format_of, args_of, text_of.
  induction ds as [|d ds IH]; intros s Q Hd Hst Hargs Hb HQ; cbn [fmap list_fmap concat] in *.
  - apply wp_ret, HQ. by rewrite app_nil_r.
  - apply Forall_cons in Hd as [Hd Hds]. rewrite length_app in Hb. rewrite <- app_assoc.
    apply (directive_step d _ (concat (directive_arg <$> ds))); [done|done|done|lia|].
    intros s' Hst' Hargs' Hb'. apply IH; try done.
    + rewrite Hb', length_app. lia.
    + intros s'' Hb''. apply HQ. by rewrite Hb'', Hb', <- app_assoc.
Qed.

(** ** Theorems *)

(** C7: for every format made of ordinary characters, escapes and conversions, with
    arguments that fit their conversions, dna_printf prints the concatenation of the texts
    of its directives, as long as it has less than 256 characters. *)
Theorem dna_printf_spec ds s :
  Forall directive_ok ds -> (length (text_of ds) < BUFFER_SIZE)%nat ->
  exists s', dna_printf (format_of ds) (args_of ds) s = Ret (text_of ds) s'.
Proof.
  intros Hd Hlen.
  enough (wp (dna_printf (format_of ds) (args_of ds)) (fun t _ => t = text_of ds /\ True) s) as H.
  { apply (wp_returns _ (fun _ => True)) in H as (s' & Hs & _). eauto. }
  apply wp_bind, wp_modify, wp_bind. apply printf_loop_ok; try done; [cbn; lia|].
  intros s' Hs'. apply wp_bind, wp_gets. rewrite Hs', (proj2 (Nat.ltb_lt _ _)) by (cbn; lia). by apply wp_ret.
Qed.

Lemma dna_printf_spec_witness :
  exists s', dna_printf (format_of [Text 105; Text 61; Signed SInt (-12); Escape 110])
               [VWord (-12)] (mkPf NORMAL false false false false [] [])
             = Ret [105; 61; 45; 49; 50; 10] s'.
Proof.
  apply (dna_printf_spec [Text 105; Text 61; Signed SInt (-12); Escape 110]).
  - repeat (apply Forall_cons; split); try apply Forall_nil; cbn; unfold ischar; lia.
  - vm_compute. lia.
Defined.

(** the digits that dna_printf prints for "%u" are read back by dna_atoi. *)
Theorem dna_printf_atoi v s :
  0 <= v < 2 ^ 32 ->
  exists t s', dna_printf [37; 117; 0] [VWord v] s = Ret t s' /\
    forall m p, p <> 0 -> cstring m p t -> dna_atoi p m = Ret (i32 v) m.
Proof.
  intros Hv. exists (rev (ascii10 32 v)).
  destruct (ascii10_ok 32 v) as [Hd Hdec]; [change (10 ^ Z.of_nat 32) with (10 ^ 32); lia|].
  assert (forall n k, length (ascii10 n k) <= n)%nat as Hlen.
  { intros n. induction n as [|n IH]; intros k; cbn [ascii10 length]; [lia|].
    destruct (_ <? _); cbn [length]; [pose proof (IH (k / 10))|]; lia. }
  assert (wp (dna_printf [37; 117; 0] [VWord v]) (fun t _ => t = rev (ascii10 32 v) /\ True) s) as H.
  { apply wp_bind, wp_modify, wp_bind.
    apply (directive_step (Unsigned SInt v) [0] []); [done|done|done| |].
    - cbn [directive_text buffer length]. rewrite <- ascii10_numeral, length_rev by lia. specialize (Hlen 32%nat v). unfold BUFFER_SIZE. lia.
    - intros s' _ _ Hb. cbn [buffer app directive_text] in Hb. rewrite <- ascii10_numeral in Hb by lia. apply wp_ret, wp_bind, wp_gets.
      rewrite Hb, (proj2 (Nat.ltb_lt _ _)); [by apply wp_ret|].
      rewrite length_rev. specialize (Hlen 32%nat v). unfold BUFFER_SIZE. lia. }
  apply (wp_returns _ (fun _ => True)) in H as (s' & Hs & _). exists s'. split; [done|].
  intros m p Hp Hc. rewrite (dna_atoi_ok m p (ascii10 32 v)); [by rewrite Hdec|done|done|done|done|].
  pose proof (Hlen 32%nat v). lia.
Qed.

Lemma dna_printf_atoi_witness :
  exists t s', dna_printf [37; 117; 0] [VWord 2010] (mkPf NORMAL false false false false [] []) = Ret t s' /\
    forall m p, p <> 0 -> cstring m p t -> dna_atoi p m = Ret 2010 m.
Proof. apply (dna_printf_atoi 2010). lia. Defined.

(** "%%" prints a '%' but stays in the state FORMAT: the next character is taken
    as a conversion. *)
Lemma printf_percent_percent :
  exists s', dna_printf [37; 37; 100; 0] [VWord 5] (mkPf NORMAL false false false false [] []) = Ret [37; 53] s'.
Proof. eexists. vm_compute. reflexivity. Qed.
