(* ===== verification/Atomic.v ===== *)
(** * Atomic addition (DnaTools/Sources/Atomic.c, ArmV6Processor/Sources/Synchronization.c)

    Several processors execute atomic_add on the same 32-bit cell.  Between the
    reading of the cell and cpu_compare_and_swap any other processor may run:
    the steps of all the processors are interleaved ([astep]).  The ldrex / strex
    pair of cpu_compare_and_swap is one step, whose strex may fail at any time. *)

From S2P Require Import Prelude.

(** The result of cpu_compare_and_swap and the new content of the cell: the
    status of strex if the comparison succeeded, the value loaded otherwise. *)
Definition cpu_compare_and_swap (strex : bool) (cell oldval newval : Z) : Z * Z :=
  if cell =? oldval then (if strex then (0, newval) else (1, cell)) else (cell, cell).

(** A processor outside atomic_add, about to read the cell, or about to compare
    and swap. *)
Inductive pc : Type :=
| Outside
| Reading (offset : Z)
| Swapping (offset old_val : Z).

(** One step of atomic_add: the new position, the new content of the cell, and
    the result if the function returns. *)
Definition atomic_add_step (strex : bool) (p : pc) (cell : Z) : pc * Z * option Z :=
  match p with
  | Outside => (Outside, cell, None)
  | Reading offset => (Swapping offset cell, cell, None)
  | Swapping offset old_val =>
      let new_val := i32 (old_val + offset) in
      let (result, cell') := cpu_compare_and_swap strex cell old_val new_val in
      if negb (result =? 0) then (Reading offset, cell', None) else (Outside, cell', Some old_val)
  end.

(** The cell, the processors, the additions that were done, those that returned without
    having been done, and the values returned by atomic_add, each with its processor. *)
Record acell := mkA {
  cell : Z;
  pcs : gmap Z pc;
  applied : list Z;
  lost : list Z;
  returned : list (Z * Z)
}.

Definition at_pc (c : Z) (s : acell) : pc := default Outside (pcs s !! c).

(** What a step of the processor [c] that returns [r] adds to the history: the value returned,
    and whether the swap took place. *)
Definition log_return (c : Z) (p : pc) (before : Z) (r : option Z) (s : acell) : acell :=
  match p, r with
  | Swapping offset old_val, Some value =>
      if before =? old_val
      then mkA (cell s) (pcs s) (offset :: applied s) (lost s) ((c, value) :: returned s)
      else mkA (cell s) (pcs s) (applied s) (offset :: lost s) ((c, value) :: returned s)
  | _, _ => s
  end.

Definition run_cpu (strex : bool) (c : Z) (s : acell) : acell :=
  let '(p, v, r) := atomic_add_step strex (at_pc c s) (cell s) in
  log_return c (at_pc c s) (cell s) r
    (mkA v (<[c := p]> (pcs s)) (applied s) (lost s) (returned s)).

Inductive astep : acell -> acell -> Prop :=
| Call c offset s : at_pc c s = Outside ->
    astep s (mkA (cell s) (<[c := Reading offset]> (pcs s)) (applied s) (lost s) (returned s))
| Run c strex s : astep s (run_cpu strex c s).

(** The states reached from a cell [v0]; [nonzero] asks for a non-zero cell all
    along. *)
Inductive areach (nonzero : bool) (v0 : Z) : acell -> Prop :=
| Start : areach nonzero v0 (mkA v0 ∅ [] [] [])
| Step s s' : areach nonzero v0 s -> (nonzero = true -> cell s <> 0) -> astep s s' ->
    areach nonzero v0 s'.

Definition sum (l : list Z) : Z := foldr Z.add 0 l.

(** The reads of the processors are the cell at some time: a swap that succeeds
    finds the value read still there. *)
Lemma run_cpu_cases strex c s :
  (exists v p, run_cpu strex c s = mkA v (<[c := p]> (pcs s)) (applied s) (lost s) (returned s) /\
     v = cell s) \/
  (exists offset, at_pc c s = Swapping offset (cell s) /\
     run_cpu strex c s =
       mkA (i32 (cell s + offset)) (<[c := Outside]> (pcs s)) (offset :: applied s) (lost s)
         ((c, cell s) :: returned s)) \/
  (exists offset old, at_pc c s = Swapping offset old /\ cell s = 0 /\ old <> 0 /\
     run_cpu strex c s = mkA (cell s) (<[c := Outside]> (pcs s)) (applied s) (offset :: lost s)
       ((c, old) :: returned s)).
Proof.
  unfold run_cpu. destruct (at_pc c s) as [|offset|offset old] eqn:Hp; cbn; [eauto..|].
  unfold cpu_compare_and_swap. destruct (cell s =? old) eqn:He; zbool; subst.
  - destruct strex; cbn; [|eauto]. right. left. by exists offset.
  - destruct (cell s =? 0) eqn:Hz; zbool; cbn; [|eauto]. right. right. exists offset, old.
    rewrite Hz in *. naive_solver.
Qed.

Lemma i32_add_l a b : i32 (i32 a + b) = i32 (a + b).
Proof.
  unfold i32, wrap_s. f_equal.
  replace ((a + 2 ^ (32 - 1)) mod 2 ^ 32 - 2 ^ (32 - 1) + b + 2 ^ (32 - 1))
    with ((a + 2 ^ (32 - 1)) mod 2 ^ 32 + b) by lia.
  rewrite Zplus_mod_idemp_l. f_equal. lia.
Qed.

Lemma areach_sum nonzero v0 s :
  areach nonzero v0 s -> v0 = i32 v0 ->
  cell s = i32 (v0 + sum (applied s)) /\ (nonzero = true -> lost s = []).
Proof.
  intros H Hv. induction H as [|s s' Hr [IHs IHl] Hnz Hs]; [cbn; by rewrite Z.add_0_r|].
  destruct Hs as [c offset s Hc|c strex s]; [done|].
  destruct (run_cpu_cases strex c s) as [(v & p & -> & ->)|[(offset & Hp & ->)|(offset & old & Hp & Hz & _ & ->)]];
    cbn [cell applied lost sum foldr]; [done| |].
  - split; [|done]. rewrite IHs, i32_add_l. f_equal. fold (sum (applied s)). lia.
  - split; [done|]. intros ->. by destruct (Hnz eq_refl).
Qed.

(** ** Theorems *)

(** C8: however the processors interleave, the cell always holds its initial value
    plus the offsets of the additions done (modulo 2^32), and no call of atomic_add returns
    without its addition as long as the cell is never zero. *)
Theorem atomic_add_linearizable nonzero v0 s :
  areach nonzero v0 s -> v0 = i32 v0 ->
  cell s = i32 (v0 + sum (applied s)) /\ (nonzero = true -> lost s = []).
Proof. apply areach_sum. Qed.

(** Two processors, the second adding while the first is between its read and
    its swap: the first one starts again, and both additions are done. *)
Definition contended : acell :=
  let s := mkA 5 (<[0 := Reading 1]> (<[1 := Reading 2]> ∅)) [] [] [] in
  run_cpu true 0 (run_cpu true 0 (run_cpu true 0 (run_cpu true 1 (run_cpu true 1 (run_cpu true 0 s))))).

Lemma contended_reached : areach true 5 contended.
Proof.
  unfold contended.
  assert (areach true 5 (mkA 5 (<[0 := Reading 1]> (<[1 := Reading 2]> ∅)) [] [] [])) as H.
  { apply (Step true 5 (mkA 5 (<[1 := Reading 2]> ∅) [] [] [])); [|done|by constructor].
    apply (Step true 5 (mkA 5 ∅ [] [] [])); [constructor|done|by constructor]. }
  repeat lazymatch goal with
  | |- areach _ _ (run_cpu _ _ ?s) => apply (Step true 5 s); [|intros _; vm_compute; discriminate|apply Run]
  end. exact H.
Qed.

Lemma atomic_add_linearizable_witness :
  cell contended = i32 (5 + sum (applied contended)) /\ (true = true -> lost contended = []).
Proof. apply (atomic_add_linearizable true 5); [exact contended_reached|reflexivity]. Defined.

(** The steps of the processors other than [c]: calls, and steps inside atomic_add. *)
Inductive others (c : Z) : acell -> acell -> Prop :=
| others_none s : others c s s
| others_call x offset s s' : x <> c -> at_pc x s = Outside ->
    others c (mkA (cell s) (<[x := Reading offset]> (pcs s)) (applied s) (lost s) (returned s)) s' ->
    others c s s'
| others_run x strex s s' : x <> c -> others c (run_cpu strex x s) s' -> others c s s'.

Lemma run_cpu_at strex c x s : x <> c -> at_pc c (run_cpu strex x s) = at_pc c s.
Proof.
  intros Hx. unfold at_pc.
  destruct (run_cpu_cases strex x s) as [(v & p & -> & _)|[(offset & _ & ->)|(offset & old & _ & _ & _ & ->)]];
    cbn [pcs]; by rewrite lookup_insert_ne.
Qed.

(** The others leave the position of [c] alone, and change the cell only by additions. *)
Lemma others_frame c s s' :
  others c s s' -> at_pc c s' = at_pc c s /\
  exists l, applied s' = l ++ applied s /\ (l = [] -> cell s' = cell s).
Proof.
  induction 1 as [s|x offset s s' Hx Hp _ (IHp & l & Ha & Hc)|x strex s s' Hx _ (IHp & l & Ha & Hc)].
  - split; [done|]. by exists [].
  - split; [|by exists l]. rewrite IHp. unfold at_pc. cbn [pcs]. by rewrite lookup_insert_ne.
  - split; [by rewrite IHp, run_cpu_at|].
    destruct (run_cpu_cases strex x s) as [(v & p & Hr & Hv)|[(offset & _ & Hr)|(offset & old & _ & _ & _ & Hr)]];
      rewrite Hr in Ha, Hc; cbn [applied cell] in Ha, Hc.
    + exists l. split; [done|]. intros Hl. by rewrite Hc.
    + exists (l ++ [offset]). rewrite <- app_assoc. split; [done|]. intros Hl. by destruct l.
    + by exists l.
Qed.

Lemma run_reading b c offset s :
  at_pc c s = Reading offset ->
  run_cpu b c s = mkA (cell s) (<[c := Swapping offset (cell s)]> (pcs s)) (applied s) (lost s) (returned s).
Proof. intros Hp. unfold run_cpu. by rewrite Hp. Qed.

(** The attempts of the processor [c] when the others do not run: each reads the cell, then
    swaps, with the outcome of its strex. *)
Fixpoint attempts (c : Z) (outcomes : list bool) (s : acell) : acell :=
  match outcomes with
  | [] => s
  | strex :: outcomes => attempts c outcomes (run_cpu strex c (run_cpu strex c s))
  end.

Lemma attempt_alone strex c offset s :
  at_pc c s = Reading offset ->
  run_cpu strex c (run_cpu strex c s) =
    if strex
    then mkA (i32 (cell s + offset)) (<[c := Outside]> (pcs s)) (offset :: applied s) (lost s)
           ((c, cell s) :: returned s)
    else mkA (cell s) (<[c := Reading offset]> (pcs s)) (applied s) (lost s) (returned s).
Proof.
  intros Hp. rewrite (run_reading strex c offset s Hp). unfold run_cpu, at_pc. cbn [pcs cell].
  rewrite lookup_insert_eq. cbn [default from_option Datatypes.id atomic_add_step].
  unfold cpu_compare_and_swap. rewrite Z.eqb_refl.
  destruct strex; cbn; by rewrite ?Z.eqb_refl, insert_insert_eq.
Qed.

(** C38: progress of atomic_add.  A call that runs alone terminates after any number
    of failures of its strex: it adds the offset to the cell and returns the value the cell had.
    Among other processors, an attempt whose strex succeeds returns the value it read and adds
    its offset to it, unless another addition took effect since that read: then somebody made
    progress. *)
Theorem atomic_add_progress c offset s :
  at_pc c s = Reading offset ->
  (forall n, attempts c (replicate n false ++ [true]) s =
     mkA (i32 (cell s + offset)) (<[c := Outside]> (pcs s)) (offset :: applied s) (lost s)
       ((c, cell s) :: returned s)) /\
  (forall b s', others c (run_cpu b c s) s' ->
     (exists x l, applied s' = x :: l ++ applied s) \/
     applied s' = applied s /\
     run_cpu true c s' =
       mkA (i32 (cell s + offset)) (<[c := Outside]> (pcs s')) (offset :: applied s) (lost s')
         ((c, cell s) :: returned s')).
Proof.
  intros Hp. split.
  - intros n. revert s Hp. induction n as [|n IH]; intros s Hp.
    + cbn. by rewrite (attempt_alone true c offset).
    + change (replicate (S n) false ++ [true]) with (false :: replicate n false ++ [true]). cbn [attempts].
      rewrite (attempt_alone false c offset s Hp), IH by (unfold at_pc; cbn; by rewrite lookup_insert_eq).
      cbn. by rewrite insert_insert_eq.
  - intros b s' Ho. rewrite (run_reading b c offset s Hp) in Ho.
    apply others_frame in Ho as (Hp' & l & Ha & Hc). cbn [applied cell] in Ha, Hc.
    destruct l as [|x l]; [right|left; by exists x, l].
    split; [done|]. specialize (Hc eq_refl).
    assert (at_pc c s' = Swapping offset (cell s)) as Hs
      by (rewrite Hp'; unfold at_pc; cbn; by rewrite lookup_insert_eq).
    unfold run_cpu. rewrite Hs, Hc. cbn [atomic_add_step]. unfold cpu_compare_and_swap.
    rewrite Z.eqb_refl. cbn. rewrite Z.eqb_refl. cbn. by rewrite Ha.
Qed.

(** A strex that fails twice, then succeeds. *)
Lemma atomic_add_progress_witness :
  attempts 0 [false; false; true] (mkA 7 {[0 := Reading 3]} [] [] []) =
    mkA 10 (<[0 := Outside]> {[0 := Reading 3]}) [3] [] [(0, 7)].
Proof.
  destruct (atomic_add_progress 0 3 (mkA 7 {[0 := Reading 3]} [] [] [])) as [H _]; [reflexivity|].
  exact (H 2%nat).
Defined.

(** When the cell becomes zero in between, cpu_compare_and_swap returns that zero,
    which atomic_add takes for a success: the addition is lost. *)
Lemma atomic_add_lost :
  exists s, areach false 1 s /\ cell s = 0 /\ applied s = [-1] /\ lost s = [5].
Proof.
  assert (areach false 1 (mkA 1 (<[0 := Reading 5]> (<[1 := Reading (-1)]> ∅)) [] [] [])) as H.
  { apply (Step false 1 (mkA 1 (<[1 := Reading (-1)]> ∅) [] [] [])); [|done|by constructor].
    apply (Step false 1 (mkA 1 ∅ [] [] [])); [constructor|done|by constructor]. }
  eexists (run_cpu true 0 (run_cpu true 1 (run_cpu true 1 (run_cpu true 0 _)))).
  split; [do 4 (eapply Step; [|discriminate|apply Run]); exact H|].
  split_and!; reflexivity.
Qed.
