(* ===== verification/Queue.v ===== *)
(** * The intrusive queues of DnaTools (queue_add.c ... queue_walk.c)

    A [queue_t] points to the first and last of a chain of items linked through
    the [next] field that each item embeds as its first member.  The memory the
    queue code reads and writes is a [qstate]: the [next] fields of all items
    ([links]; an absent binding is NULL) and all the queue headers ([queues]; an
    absent binding is a header filled with zeros).  Items and queues are named by
    two arbitrary countable types.

    The first part translates the operations.  The second part relates them to
    lists: [qwf s V] says that in [s] every queue [q] is a well formed chain
    holding exactly the items [V q], and that no item is in two places.  The
    operations refine append, pop-front, push-front, removal and ordered
    insertion on [V q], and keep every other queue unchanged. *)

From S2P Require Import Prelude Status.

Section Queue.
Context {addr qid : Type} `{Countable addr} `{Countable qid}.

(** Headers/Public/DnaTools/Queue.h: [queue_t] without its lock (the locks are
    part of the kernel state) and without padding. *)
Record queue_t := mkQueue {
  head : option addr;
  tail : option addr;
  status : Z
}.

Definition DNA_QUEUE_DEFAULTS : queue_t := mkQueue None None 0.

Record qstate := mkQ {
  links : gmap addr addr;
  queues : gmap qid queue_t
}.

Definition getq (q : qid) (s : qstate) : queue_t :=
  default DNA_QUEUE_DEFAULTS (queues s !! q).

Definition putq (q : qid) (Q : queue_t) (s : qstate) : qstate :=
  mkQ (links s) (<[q := Q]> (queues s)).

Definition next (x : addr) (s : qstate) : option addr := links s !! x.

Definition set_next (x : addr) (n : option addr) (s : qstate) : qstate :=
  mkQ (match n with
       | Some y => <[x := y]> (links s)
       | None => delete x (links s)
       end) (queues s).

Definition upd_head (h : option addr) (Q : queue_t) := mkQueue h (tail Q) (status Q).
Definition upd_tail (t : option addr) (Q : queue_t) := mkQueue (head Q) t (status Q).
Definition upd_status (n : Z) (Q : queue_t) := mkQueue (head Q) (tail Q) n.

Definition updq (q : qid) (f : queue_t -> queue_t) : M qstate unit :=
  modify (fun s => putq q (f (getq q s)) s).

Definition is_null (p : option addr) : bool :=
  match p with None => true | Some _ => false end.

(** ** The operations *)

Definition queue_add (q : qid) (item : addr) : M qstate status_t :=
  let* nx := gets (next item) in
  check is_null nx rescue ret DNA_ERROR in
  let* Q := gets (getq q) in
  (if status Q =? 0 then
     updq q (upd_head (Some item)) ;;
     updq q (upd_tail (Some item))
   else
     let* t := deref (tail Q) in
     modify (set_next t (Some item)) ;;
     updq q (upd_tail (Some item))) ;;
  updq q (fun Q => upd_status (u32 (status Q + 1)) Q) ;;
  ret DNA_OK.

Definition queue_rem (q : qid) : M qstate (option addr) :=
  let* Q := gets (getq q) in
  ensure negb (status Q =? 0) orelse None in
  let it := head Q in
  updq q (fun Q => upd_status (u32 (status Q - 1)) Q) ;;
  let* item := deref it in
  let* nx := gets (next item) in
  updq q (upd_head nx) ;;
  let* Q := gets (getq q) in
  check negb (is_null (head Q)) || (is_null (head Q) && (status Q =? 0))
    rescue ret None in
  modify (set_next item None) ;;
  ret (Some item).

(** The walk of queue_extract: advance [kitem] until its successor is [item] or
    NULL. *)
Fixpoint extract_walk (fuel : nat) (item kitem : addr) : M qstate addr :=
  match fuel with
  | O => diverge
  | S fuel =>
      let* nx := gets (next kitem) in
      match nx with
      | None => ret kitem
      | Some k => if bool_decide (k = item) then ret kitem else extract_walk fuel item k
      end
  end.

(** A chain without cycle has at most one item more than there are links, so
    this many steps are enough for every well formed queue. *)
Definition walk_fuel (s : qstate) : nat := S (S (size (links s))).

Definition queue_extract (q : qid) (data : option addr) : M qstate status_t :=
  let* kit := gets (fun s => head (getq q s)) in
  match data with
  | None => ret DNA_BAD_ARGUMENT
  | Some item =>
      let* Q := gets (getq q) in
      ensure negb (status Q =? 0) orelse DNA_ERROR in
      let finish : M qstate status_t :=
        modify (set_next item None) ;;
        updq q (fun Q => upd_status (u32 (status Q - 1)) Q) ;;
        ret DNA_OK in
      if bool_decide (head Q = Some item) then
        let* nx := gets (next item) in
        updq q (upd_head nx) ;;
        finish
      else
        let* kitem := deref kit in
        let* fuel := gets walk_fuel in
        let* kitem := extract_walk fuel item kitem in
        let* knext := gets (next kitem) in
        ensure bool_decide (knext = Some item) orelse DNA_ERROR in
        let* inext := gets (next item) in
        modify (set_next kitem inext) ;;
        let* knext := gets (next kitem) in
        (if is_null knext then updq q (upd_tail (Some kitem)) else ret tt) ;;
        finish
  end.

(** The walk of queue_insert: stop before the first [current] that the
    comparator puts after [item]; the result is ([previous], [current]). *)
Fixpoint insert_walk (fuel : nat) (comparator : addr -> addr -> bool) (item : addr)
    (previous current : option addr) : M qstate (option addr * option addr) :=
  match fuel with
  | O => diverge
  | S fuel =>
      match current with
      | None => ret (previous, None)
      | Some c =>
          if comparator c item then ret (previous, Some c)
          else let* nx := gets (next c) in
               insert_walk fuel comparator item (Some c) nx
      end
  end.

Definition queue_insert (q : qid) (comparator : addr -> addr -> bool) (item : addr)
    : M qstate unit :=
  modify (set_next item None) ;;
  let* Q := gets (getq q) in
  (if negb (status Q =? 0) then
     let* fuel := gets walk_fuel in
     let* pc := insert_walk fuel comparator item None (head Q) in
     match pc with
     | (previous, Some current) =>
         if bool_decide (head Q = Some current) then
           updq q (upd_head (Some item)) ;;
           modify (set_next item (Some current))
         else
           let* p := deref previous in
           modify (set_next p (Some item)) ;;
           modify (set_next item (Some current))
     | (_, None) =>
         let* t := deref (tail Q) in
         modify (set_next t (Some item)) ;;
         updq q (upd_tail (Some item))
     end
   else
     updq q (upd_head (Some item)) ;;
     updq q (upd_tail (Some item))) ;;
  updq q (fun Q => upd_status (u32 (status Q + 1)) Q).

Definition queue_pushback (q : qid) (item : addr) : M qstate status_t :=
  let* nx := gets (next item) in
  check is_null nx rescue ret DNA_ERROR in
  let* Q := gets (getq q) in
  (if status Q =? 0 then
     updq q (upd_head (Some item)) ;;
     updq q (upd_tail (Some item))
   else
     modify (set_next item (head Q)) ;;
     updq q (upd_head (Some item))) ;;
  updq q (fun Q => upd_status (u32 (status Q + 1)) Q) ;;
  ret DNA_OK.

(** The inspectors handed to queue_lookup and queue_walk are read-only tests of
    an item; the variadic arguments are part of the closure. *)
Fixpoint lookup_walk (fuel : nat) (inspector : addr -> bool) (item : option addr)
    : M qstate (option addr) :=
  match fuel with
  | O => diverge
  | S fuel =>
      match item with
      | None => ret None
      | Some x => if inspector x then ret (Some x)
                  else let* nx := gets (next x) in lookup_walk fuel inspector nx
      end
  end.

Definition queue_lookup (q : qid) (inspector : addr -> bool) : M qstate (option addr) :=
  let* Q := gets (getq q) in
  if negb (status Q =? 0) then
    let* fuel := gets walk_fuel in lookup_walk fuel inspector (head Q)
  else ret None.

Fixpoint walk_loop (fuel : nat) (q : qid) (inspector : addr -> bool) (item : option addr)
    : M qstate unit :=
  match fuel with
  | O => diverge
  | S fuel =>
      match item with
      | None => ret tt
      | Some x =>
          let* nx := gets (next x) in
          if inspector x then
            queue_extract q (Some x) ;; walk_loop fuel q inspector nx
          else walk_loop fuel q inspector nx
      end
  end.

Definition queue_walk (q : qid) (inspector : addr -> bool) : M qstate unit :=
  let* Q := gets (getq q) in
  if negb (status Q =? 0) then
    let* fuel := gets walk_fuel in walk_loop fuel q inspector (head Q)
  else ret tt.


(** ** Representation: chains of links as lists *)

Fixpoint chain (L : gmap addr addr) (h : option addr) (l : list addr) : Prop :=
  match l with
  | [] => h = None
  | x :: l' => h = Some x /\ chain L (L !! x) l'
  end.

Definition qrep (L : gmap addr addr) (Q : queue_t) (l : list addr) : Prop :=
  chain L (head Q) l /\ status Q = Z.of_nat (length l) /\ (l <> [] -> tail Q = last l).

(** [V q] replaced by [l]. *)
Definition vupd (V : qid -> list addr) (q : qid) (l : list addr) : qid -> list addr :=
  fun q' => if decide (q' = q) then l else V q'.

(** All queues of [s] are well formed and hold the items given by [V]; [U] is the
    set of the items that exist. *)
Record qwf (U : gset addr) (s : qstate) (V : qid -> list addr) : Prop := {
  wf_rep : forall q, qrep (links s) (getq q s) (V q);
  wf_disj : forall q q' x, x ∈ V q -> x ∈ V q' -> q = q';
  wf_nodup : forall q, NoDup (V q);
  wf_free : forall x, (forall q, x ∉ V q) -> links s !! x = None;
  wf_in : forall q x, x ∈ V q -> x ∈ U;
  wf_size : Z.of_nat (size U) < 2 ^ 32
}.

(** An item that is in no queue. *)
Definition unqueued (V : qid -> list addr) (x : addr) : Prop := forall q, x ∉ V q.

Lemma vupd_eq V q l : vupd V q l q = l.
Proof. unfold vupd. by rewrite decide_True. Qed.

Lemma vupd_ne V q q' l : q' <> q -> vupd V q l q' = V q'.
Proof. intros. unfold vupd. by rewrite decide_False. Qed.

Lemma chain_insert L h l x y : x ∉ l -> chain L h l -> chain (<[x := y]> L) h l.
Proof.
  revert h. induction l as [|z l IH]; intros h Hx; [done|].
  intros [-> Hc]. split; [done|].
  rewrite lookup_insert_ne by set_solver. apply IH; [set_solver|done].
Qed.

Lemma chain_delete L h l x : x ∉ l -> chain L h l -> chain (delete x L) h l.
Proof.
  revert h. induction l as [|z l IH]; intros h Hx; [done|].
  intros [-> Hc]. split; [done|].
  rewrite lookup_delete_ne by set_solver. apply IH; [set_solver|done].
Qed.

Lemma chain_ext L L' h l :
  (forall x, x ∈ l -> L' !! x = L !! x) -> chain L h l -> chain L' h l.
Proof.
  revert h. induction l as [|z l IH]; intros h Hx; [done|].
  intros [-> Hc]. split; [done|].
  rewrite Hx by set_solver. apply IH; [set_solver|done].
Qed.

Lemma chain_head L h l : chain L h l -> h = hd_error l.
Proof. destruct l; cbn; [done|]. by intros [-> _]. Qed.

Lemma chain_app_inv L h l1 x l2 :
  chain L h (l1 ++ x :: l2) -> chain L (L !! x) l2.
Proof.
  revert h. induction l1 as [|z l1 IH]; cbn; intros h [-> Hc]; [done|].
  by eapply IH.
Qed.

Lemma chain_link L h l1 x l2 : chain L h (l1 ++ x :: l2) -> L !! x = hd_error l2.
Proof. intros Hc%chain_app_inv. by apply chain_head in Hc. Qed.

(** Re-point the last element before a suffix. *)
Lemma chain_splice L h l1 k l2 l3 L' :
  NoDup (l1 ++ [k]) ->
  chain L h (l1 ++ k :: l2) ->
  (forall x, x ∈ l1 -> L' !! x = L !! x) ->
  chain L' (L' !! k) l3 ->
  chain L' h (l1 ++ k :: l3).
Proof.
  revert h. induction l1 as [|z l1 IH]; cbn; intros h Hnd [-> Hc] Hext Hk; [done|].
  split; [done|]. inversion Hnd; subst.
  rewrite Hext by set_solver. eapply IH; eauto. set_solver.
Qed.

Lemma chain_size L h l : NoDup l -> chain L h l -> (length l <= S (size L))%nat.
Proof.
  revert L h. induction l as [|x l IH]; intros L h Hnd Hc; [cbn; lia|].
  destruct Hc as [-> Hc]. inversion Hnd as [|? ? Hx Hnd']; subst.
  destruct l as [|y l]; [cbn; lia|].
  assert (L !! x = Some y) as Hxy by apply Hc.
  assert (length (y :: l) <= S (size (delete x L)))%nat as Hlen.
  { eapply IH; [done|]. eapply chain_delete; eauto. }
  rewrite <- (insert_delete_id L x y Hxy).
  rewrite map_size_insert_None by apply lookup_delete_eq. cbn in *. lia.
Qed.

Lemma qrep_len L Q l : qrep L Q l -> status Q = Z.of_nat (length l).
Proof. by intros (? & ? & ?). Qed.

Lemma getq_putq q Q s : getq q (putq q Q s) = Q.
Proof. unfold getq, putq; cbn. by rewrite lookup_insert_eq. Qed.

Lemma getq_putq_ne q q' Q s : q' <> q -> getq q' (putq q Q s) = getq q' s.
Proof. intros. unfold getq, putq; cbn. by rewrite lookup_insert_ne by congruence. Qed.

Lemma getq_set_next q x n s : getq q (set_next x n s) = getq q s.
Proof. reflexivity. Qed.

Lemma links_putq q Q s : links (putq q Q s) = links s.
Proof. reflexivity. Qed.

Lemma qwf_len_lt U s V q : qwf U s V -> Z.of_nat (length (V q)) < 2 ^ 32.
Proof.
  intros Hwf. pose proof (wf_size _ _ _ Hwf).
  enough (length (V q) <= size U)%nat by lia.
  rewrite <- (size_list_to_set (C := gset addr)) by apply (wf_nodup _ _ _ Hwf).
  apply subseteq_size. intros x Hx. apply (wf_in _ _ _ Hwf q). set_solver.
Qed.

Lemma qwf_len_lt_new U s V q x :
  qwf U s V -> x ∈ U -> x ∉ V q -> Z.of_nat (length (V q)) + 1 < 2 ^ 32.
Proof.
  intros Hwf Hx Hnx. pose proof (wf_size _ _ _ Hwf).
  enough (length (x :: V q) <= size U)%nat by (cbn in *; lia).
  rewrite <- (size_list_to_set (C := gset addr))
    by (constructor; [done|apply (wf_nodup _ _ _ Hwf)]).
  apply subseteq_size. intros y Hy. cbn in Hy.
  apply elem_of_union in Hy as [Hy%elem_of_singleton| Hy]; [by subst|].
  apply (wf_in _ _ _ Hwf q). set_solver.
Qed.

(** An operation that rewires queue [q] only. *)
Lemma qwf_update U s V s' q l' :
  qwf U s V ->
  (forall q', q' <> q -> getq q' s' = getq q' s) ->
  (forall x q', q' <> q -> x ∈ V q' -> links s' !! x = links s !! x) ->
  qrep (links s') (getq q s') l' ->
  NoDup l' ->
  (forall x, x ∈ l' -> x ∈ V q \/ (unqueued V x /\ x ∈ U)) ->
  (forall x, x ∉ l' -> (forall q', q' <> q -> x ∉ V q') -> links s' !! x = None) ->
  qwf U s' (vupd V q l').
Proof.
  intros Hwf Hq Hl Hrep Hnd Hsub Hfree. split.
  - intros q'. unfold vupd. destruct (decide (q' = q)) as [->|Hne]; [done|].
    rewrite Hq by done. destruct (wf_rep _ _ _ Hwf q') as (Hc & Hs & Ht).
    split; [|done]. eapply chain_ext; [|done]. eauto.
  - intros q1 q2 x. unfold vupd.
    destruct (decide (q1 = q)), (decide (q2 = q)); subst; try done.
    + intros [Hx|[Hx _]]%Hsub Hx2; [|by destruct (Hx q2)].
      by apply (wf_disj _ _ _ Hwf _ _ x).
    + intros Hx2 [Hx|[Hx _]]%Hsub; [|by destruct (Hx q1)].
      by apply (wf_disj _ _ _ Hwf _ _ x).
    + apply (wf_disj _ _ _ Hwf).
  - intros q'. unfold vupd. case_decide; [done|]. apply (wf_nodup _ _ _ Hwf).
  - intros x Hx. apply Hfree.
    + specialize (Hx q). by rewrite vupd_eq in Hx.
    + intros q' Hne. specialize (Hx q'). by rewrite vupd_ne in Hx.
  - intros q' x. unfold vupd. case_decide; [|apply (wf_in _ _ _ Hwf)].
    intros [Hx|[_ Hx]]%Hsub; [|done]. by apply (wf_in _ _ _ Hwf q).
  - apply (wf_size _ _ _ Hwf).
Qed.

(** The links of the items of a well formed queue. *)
Lemma qwf_last_link U s V q l t : qwf U s V -> V q = l ++ [t] -> links s !! t = None.
Proof.
  intros Hwf Heq. destruct (wf_rep _ _ _ Hwf q) as (Hc & _ & _). rewrite Heq in Hc.
  by apply chain_link in Hc.
Qed.

Lemma qwf_tail U s V q l t : qwf U s V -> V q = l ++ [t] -> tail (getq q s) = Some t.
Proof.
  intros Hwf Heq. destruct (wf_rep _ _ _ Hwf q) as (_ & _ & Ht). rewrite Heq in Ht.
  rewrite Ht by (intros Hnil; by apply app_eq_nil in Hnil as [_ ?]). apply last_snoc.
Qed.

Lemma qwf_status U s V q : qwf U s V -> status (getq q s) = Z.of_nat (length (V q)).
Proof. intros Hwf. eapply qrep_len, wf_rep, Hwf. Qed.

Lemma qwf_head U s V q : qwf U s V -> head (getq q s) = hd_error (V q).
Proof. intros Hwf. destruct (wf_rep _ _ _ Hwf q) as (Hc & _ & _). by eapply chain_head. Qed.

Lemma status_zero U s V q : qwf U s V -> (status (getq q s) =? 0) = bool_decide (V q = []).
Proof.
  intros Hwf. rewrite (qwf_status _ _ _ _ Hwf). case_bool_decide as Heq.
  - by rewrite Heq.
  - destruct (V q); [done|]. apply Z.eqb_neq. cbn. lia.
Qed.

Lemma walk_fuel_enough U s V q : qwf U s V -> (length (V q) < walk_fuel s)%nat.
Proof.
  intros Hwf. unfold walk_fuel. destruct (wf_rep _ _ _ Hwf q) as (Hc & _ & _).
  apply chain_size in Hc; [lia|]. apply (wf_nodup _ _ _ Hwf).
Qed.

Ltac qrun := cbv beta iota zeta delta [bind gets modify updq ret deref next].

Lemma queue_add_ok U s V q x :
  qwf U s V -> unqueued V x -> x ∈ U ->
  exists s', queue_add q x s = Ret DNA_OK s' /\ qwf U s' (vupd V q (V q ++ [x])).
Proof.
  intros Hwf Hx HxU. unfold queue_add. qrun.
  rewrite (wf_free _ _ _ Hwf x Hx). cbn [is_null].
  rewrite (status_zero _ _ _ _ Hwf).
  pose proof (qwf_len_lt_new _ _ _ q x Hwf HxU (Hx q)) as Hlen.
  destruct (exists_last_or_nil (V q)) as [Hnil|(l & t & Hsn)].
  - rewrite bool_decide_true by done. eexists; split; [reflexivity|].
    eapply qwf_update; [exact Hwf| | | | | |].
    + intros q' Hne. by rewrite !getq_putq_ne.
    + done.
    + rewrite Hnil, !getq_putq. unfold qrep; cbn.
      split_and!; [done|by apply (wf_free _ _ _ Hwf)| |done].
      rewrite (qwf_status _ _ _ _ Hwf), Hnil. done.
    + rewrite Hnil. apply NoDup_singleton.
    + rewrite Hnil. intros y Hy%list_elem_of_singleton. subst. by right.
    + intros y Hy Hoth. apply (wf_free _ _ _ Hwf). intros q'.
      destruct (decide (q' = q)) as [->|]; [rewrite Hnil; set_solver|auto].
  - rewrite bool_decide_false by (intros Hnil; rewrite Hnil in Hsn; by destruct l).
    rewrite (qwf_tail _ _ _ _ _ _ Hwf Hsn).
    eexists; split; [reflexivity|].
    assert (t ∈ V q) as Ht by (rewrite Hsn; set_solver).
    eapply qwf_update; [exact Hwf| | | | | |].
    + intros q' Hne. by rewrite !getq_putq_ne.
    + intros y q' Hne Hy. cbn. apply lookup_insert_ne. intros ->.
      by pose proof (wf_disj _ _ _ Hwf _ _ _ Hy Ht).
    + rewrite !getq_putq. split; [|split].
      * rewrite Hsn, <- app_assoc. cbn.
        destruct (wf_rep _ _ _ Hwf q) as (Hc & _ & _). rewrite Hsn in Hc.
        pose proof (wf_nodup _ _ _ Hwf q) as Hnd. rewrite Hsn in Hnd.
        eapply chain_splice; [done|exact Hc| |].
        -- intros y Hy. apply lookup_insert_ne. intros ->.
           apply NoDup_app in Hnd as (_ & Hnd & _). by apply (Hnd y); [|set_solver].
        -- rewrite lookup_insert_eq. cbn. split; [done|].
           rewrite lookup_insert_ne; [by apply (wf_free _ _ _ Hwf)|].
           intros ->. by apply (Hx q).
      * cbn. rewrite getq_set_next, (qwf_status _ _ _ _ Hwf), length_app. cbn.
        rewrite u32_id; lia.
      * cbn. by rewrite last_snoc.
    + apply NoDup_app. split_and!; [apply (wf_nodup _ _ _ Hwf)| |apply NoDup_singleton].
      intros y Hy ->%list_elem_of_singleton. by destruct (Hx q).
    + intros y [Hy|Hy%list_elem_of_singleton]%elem_of_app; subst; auto.
    + intros y Hy Hoth. cbn. rewrite lookup_insert_ne by set_solver.
      apply (wf_free _ _ _ Hwf). intros q'.
      destruct (decide (q' = q)) as [->|]; [set_solver|auto].
Qed.

Lemma queue_rem_nil U s V q : qwf U s V -> V q = [] -> queue_rem q s = Ret None s.
Proof.
  intros Hwf Hnil. unfold queue_rem. qrun. rewrite (status_zero _ _ _ _ Hwf).
  by rewrite bool_decide_true.
Qed.

Lemma queue_rem_cons U s V q x l :
  qwf U s V -> V q = x :: l ->
  exists s', queue_rem q s = Ret (Some x) s' /\ qwf U s' (vupd V q l).
Proof.
  intros Hwf Hq. unfold queue_rem. qrun. rewrite (status_zero _ _ _ _ Hwf).
  rewrite bool_decide_false by (by rewrite Hq). cbn [negb].
  rewrite (qwf_head _ _ _ _ Hwf), Hq. cbn [hd_error].
  rewrite !getq_putq. cbn [upd_head upd_status head status is_null negb links_putq].
  pose proof (qwf_status _ _ _ q Hwf) as Hst. rewrite Hq in Hst. cbn in Hst.
  pose proof (qwf_len_lt _ _ _ q Hwf) as Hlt. rewrite Hq in Hlt. cbn in Hlt.
  pose proof (wf_nodup _ _ _ Hwf q) as Hnd. rewrite Hq in Hnd. inversion Hnd as [|? ? Hxl Hnd']; subst.
  destruct (wf_rep _ _ _ Hwf q) as (Hc & _ & Ht). rewrite Hq in Hc, Ht. destruct Hc as [_ Hc].
  assert (links (putq q (upd_status (u32 (status (getq q s) - 1)) (getq q s)) s) !! x
          = links s !! x) as Hlk by reflexivity.
  rewrite Hlk. clear Hlk.
  replace (u32 (status (getq q s) - 1)) with (Z.of_nat (length l)) by (rewrite u32_id; lia).
  assert (negb (is_null (links s !! x))
          || is_null (links s !! x) && (Z.of_nat (length l) =? 0) = true) as Hck.
  { apply chain_head in Hc. rewrite Hc. by destruct l. }
  rewrite Hck. eexists; split; [reflexivity|].
  assert (x ∈ V q) as HxV by (rewrite Hq; set_solver).
  eapply qwf_update; [exact Hwf| | | | | |].
  - intros q' Hne. by rewrite getq_set_next, !getq_putq_ne.
  - intros y q' Hne Hy. cbn. apply lookup_delete_ne. intros ->.
    by pose proof (wf_disj _ _ _ Hwf _ _ _ Hy HxV).
  - rewrite getq_set_next, getq_putq. split; [|split]; cbn.
    + by apply chain_delete.
    + done.
    + intros Hl. rewrite Ht by done. by apply last_cons_ne.
  - done.
  - intros y Hy. left. rewrite Hq. set_solver.
  - intros y Hy Hoth. cbn. rewrite lookup_delete. case_decide; [done|].
    apply (wf_free _ _ _ Hwf). intros q'.
    destruct (decide (q' = q)) as [->|]; [rewrite Hq; set_solver|auto].
Qed.

Lemma queue_pushback_ok U s V q x :
  qwf U s V -> unqueued V x -> x ∈ U ->
  exists s', queue_pushback q x s = Ret DNA_OK s' /\ qwf U s' (vupd V q (x :: V q)).
Proof.
  intros Hwf Hx HxU. unfold queue_pushback. qrun.
  pose proof (wf_free _ _ _ Hwf x Hx) as Hfx. rewrite Hfx. cbn [is_null].
  rewrite (status_zero _ _ _ _ Hwf).
  pose proof (qwf_len_lt_new _ _ _ q x Hwf HxU (Hx q)) as Hlen.
  pose proof (qwf_status _ _ _ q Hwf) as Hst.
  destruct (wf_rep _ _ _ Hwf q) as (Hc & _ & Ht).
  case_bool_decide as Hnil; (eexists; split; [reflexivity|]);
    (eapply qwf_update; [exact Hwf| | | | | |]).
  - intros q' Hne. by rewrite !getq_putq_ne.
  - done.
  - rewrite !getq_putq, Hnil. unfold qrep; cbn. rewrite Hst, Hnil. done.
  - rewrite Hnil. apply NoDup_singleton.
  - rewrite Hnil. intros y Hy%list_elem_of_singleton. subst. by right.
  - intros y Hy Hoth. apply (wf_free _ _ _ Hwf). intros q'.
    destruct (decide (q' = q)) as [->|]; [rewrite Hnil; set_solver|auto].
  - intros q' Hne. by rewrite !getq_putq_ne.
  - intros y q' Hne Hy. apply chain_head in Hc.
    destruct (V q) as [|z l]; [done|]. cbn in Hc. rewrite Hc. cbn.
    apply lookup_insert_ne. intros ->. by apply (Hx q').
  - rewrite !getq_putq. destruct (V q) as [|z l] eqn:HVq; [done|].
    destruct Hc as [Hh Hc]. unfold qrep. rewrite Hh. cbn.
    rewrite lookup_insert_eq. split_and!; try done.
    + rewrite lookup_insert_ne.
      * apply chain_insert; [|done]. specialize (Hx q). rewrite HVq in Hx. set_solver.
      * intros ->. specialize (Hx q). rewrite HVq in Hx. set_solver.
    + rewrite getq_set_next, Hst, u32_id; cbn in *; lia.
    + intros _. rewrite getq_set_next. by rewrite Ht.
  - constructor; [apply Hx|apply (wf_nodup _ _ _ Hwf)].
  - intros y [->|Hy]%elem_of_cons; auto.
  - intros y Hy Hoth. apply chain_head in Hc.
    destruct (V q) as [|z l] eqn:HVq; [done|]. cbn in Hc. rewrite Hc. cbn.
    rewrite lookup_insert_ne by set_solver. apply (wf_free _ _ _ Hwf). intros q'.
    destruct (decide (q' = q)) as [->|]; [rewrite HVq; set_solver|auto].
Qed.

Lemma extract_walk_found s fuel item k a b p :
  chain (links s) (Some k) ((k :: a) ++ item :: b) ->
  item ∉ a -> (length a < fuel)%nat -> last (k :: a) = Some p ->
  extract_walk fuel item k s = Ret p s.
Proof.
  revert fuel k. induction a as [|z a IH]; intros fuel k Hc Hni Hf Hp;
    (destruct fuel as [|fuel]; [cbn in *; lia|]); cbn [extract_walk]; qrun.
  - cbn in Hc. destruct Hc as (_ & -> & _). rewrite bool_decide_true by done.
    cbn in Hp. by injection Hp as ->.
  - cbn in Hc. destruct Hc as (_ & Hz & Hc). rewrite Hz.
    rewrite bool_decide_false by set_solver.
    apply IH; [|set_solver|cbn in *; lia|done]. by split.
Qed.

Lemma extract_walk_missing s fuel item k a p :
  chain (links s) (Some k) (k :: a) ->
  item ∉ a -> (length a < fuel)%nat -> last (k :: a) = Some p ->
  extract_walk fuel item k s = Ret p s.
Proof.
  revert fuel k. induction a as [|z a IH]; intros fuel k Hc Hni Hf Hp;
    (destruct fuel as [|fuel]; [cbn in *; lia|]); cbn [extract_walk]; qrun.
  - cbn in Hc. destruct Hc as (_ & ->). cbn in Hp. by injection Hp as ->.
  - cbn in Hc. destruct Hc as (_ & Hz & Hc). rewrite Hz.
    rewrite bool_decide_false by set_solver.
    apply IH; [|set_solver|cbn in *; lia|done]. by split.
Qed.

(** Splitting a queue around an item. *)
Lemma NoDup_mid {A} (l1 l2 : list A) x :
  NoDup (l1 ++ (x :: l2)) -> x ∉ l1 /\ x ∉ l2 /\ NoDup (l1 ++ l2).
Proof.
  intros Hnd. rewrite <- Permutation_middle in Hnd. inversion Hnd; subst. set_solver.
Qed.

Lemma queue_extract_ok U s V q x l1 l2 :
  qwf U s V -> V q = l1 ++ x :: l2 ->
  exists s', queue_extract q (Some x) s = Ret DNA_OK s' /\ qwf U s' (vupd V q (l1 ++ l2)).
Proof.
  intros Hwf Hq. unfold queue_extract. qrun.
  rewrite (status_zero _ _ _ _ Hwf).
  rewrite bool_decide_false by (rewrite Hq; by destruct l1). cbn [negb].
  pose proof (qwf_status _ _ _ q Hwf) as Hst.
  pose proof (qwf_len_lt _ _ _ q Hwf) as Hlt.
  pose proof (wf_nodup _ _ _ Hwf q) as Hnd.
  destruct (wf_rep _ _ _ Hwf q) as (Hc & _ & Ht).
  pose proof (walk_fuel_enough _ _ _ q Hwf) as Hfuel.
  rewrite Hq in Hst, Hlt, Hnd, Hc, Ht, Hfuel.
  assert (x ∈ V q) as HxV by (rewrite Hq; set_solver).
  pose proof (NoDup_mid _ _ _ Hnd) as (Hx1 & Hx2 & Hnd').
  pose proof (chain_link _ _ _ _ _ Hc) as Hlx.
  rewrite (qwf_head _ _ _ _ Hwf), Hq.
  assert (forall y, y ∉ l1 ++ l2 -> y <> x -> (forall q', q' <> q -> y ∉ V q') ->
          links s !! y = None) as Hfree.
  { intros y Hy Hyx Hoth. apply (wf_free _ _ _ Hwf). intros q'.
    destruct (decide (q' = q)) as [->|]; [rewrite Hq; set_solver|auto]. }
  rewrite length_app in Hst, Hlt. cbn in Hst, Hlt.
  destruct l1 as [|k a]; [cbn [hd_error app]|change (hd_error ((k :: a) ++ x :: l2)) with (Some k)].
  - rewrite bool_decide_true by done. eexists; split; [reflexivity|].
    eapply qwf_update; [exact Hwf| | | | | |].
    + intros q' Hne. by rewrite getq_putq_ne, getq_set_next, getq_putq_ne.
    + intros y q' Hne Hy. cbn. apply lookup_delete_ne. intros ->.
      by pose proof (wf_disj _ _ _ Hwf _ _ _ Hy HxV).
    + rewrite !getq_putq, getq_set_next, !getq_putq. split; [|split]; cbn.
      * apply chain_delete; [done|]. by apply (chain_app_inv _ _ []) in Hc.
      * rewrite u32_id; cbn in *; lia.
      * intros Hl. rewrite Ht by done. by apply last_cons_ne.
    + done.
    + intros y Hy. left. rewrite Hq. set_solver.
    + intros y Hy Hoth. cbn. rewrite lookup_delete. case_decide; [done|]. by apply Hfree.
  - rewrite bool_decide_false by set_solver.
    destruct (last_cons_Some k a) as (p & Hp).
    assert (extract_walk (walk_fuel s) x k s = Ret p s) as Hwalk.
    { eapply (extract_walk_found _ _ _ _ a l2).
      - apply chain_head in Hc as Hh. cbn in Hh. by rewrite Hh in Hc.
      - set_solver.
      - rewrite length_app in Hfuel. cbn in *. lia.
      - done. }
    rewrite Hwalk. clear Hwalk.
    apply last_Some in Hp as (a' & Ha). rewrite Ha in *. clear Ha k a.
    assert (links s !! p = Some x) as Hpx.
    { rewrite <- app_assoc in Hc. by apply chain_link in Hc. }
    rewrite Hpx, bool_decide_true by done. rewrite Hlx.
    assert (x <> p) as Hxp by set_solver.
    assert (links (set_next p (hd_error l2) s) !! p = hd_error l2) as Hp2.
    { destruct l2; cbn; [apply lookup_delete_eq|apply lookup_insert_eq]. }
    rewrite Hp2.
    assert (forall y, y <> p -> links (set_next p (hd_error l2) s) !! y = links s !! y) as Hoth.
    { intros y Hy. destruct l2; cbn; [by rewrite lookup_delete_ne|by rewrite lookup_insert_ne]. }
    set (s1 := set_next p (hd_error l2) s) in *.
    set (s2 := if is_null (hd_error l2) then putq q (upd_tail (Some p) (getq q s1)) s1 else s1).
    assert (getq q s2 = if is_null (hd_error l2) then upd_tail (Some p) (getq q s) else getq q s)
      as Hq2 by (unfold s2; destruct l2; cbn [hd_error is_null]; [apply getq_putq|done]).
    assert (links s2 = links s1) as Hl2 by (unfold s2; by destruct l2).
    assert (forall q', q' <> q -> getq q' s2 = getq q' s) as Hqo.
    { intros q' Hne. unfold s2. destruct l2; cbn [hd_error is_null]; [by rewrite getq_putq_ne|done]. }
    exists (putq q (upd_status (u32 (status (getq q (set_next x None s2)) - 1))
                     (getq q (set_next x None s2))) (set_next x None s2)).
    split; [by unfold s2; destruct l2|].
    eapply qwf_update; [exact Hwf| | | | | |].
    + intros q' Hne. rewrite getq_putq_ne, getq_set_next by done. auto.
    + intros y q' Hne Hy. cbn. rewrite Hl2.
      assert (y <> x) by (intros ->; by pose proof (wf_disj _ _ _ Hwf _ _ _ Hy HxV)).
      rewrite lookup_delete_ne by done. apply Hoth. intros ->.
      assert (p ∈ V q) as HpV by (rewrite Hq; set_solver).
      by pose proof (wf_disj _ _ _ Hwf _ _ _ Hy HpV).
    + rewrite getq_putq, getq_set_next, Hq2. rewrite <- app_assoc. cbn [app]. split; [|split].
      * assert (head (upd_status (u32 (status (if is_null (hd_error l2) then
          upd_tail (Some p) (getq q s) else getq q s) - 1)) (if is_null (hd_error l2) then
          upd_tail (Some p) (getq q s) else getq q s)) = head (getq q s)) as Hh
          by (by destruct l2).
        rewrite Hh. cbn [links putq set_next]. rewrite Hl2.
        rewrite <- !app_assoc in Hc, Hnd'. cbn [app] in Hc, Hnd'.
        apply NoDup_mid in Hnd' as (Hp1 & Hp2' & Hnd3).
        apply chain_delete; [set_solver|].
        eapply chain_splice; [|exact Hc| |].
        -- rewrite NoDup_app. apply NoDup_app in Hnd3 as (? & _ & _).
           split_and!; [done|set_solver|apply NoDup_singleton].
        -- intros y Hy. apply Hoth. set_solver.
        -- rewrite Hp2. apply chain_app_inv in Hc. rewrite Hpx in Hc. destruct Hc as [_ Hc].
           rewrite Hlx in Hc. eapply chain_ext; [|exact Hc].
           intros y Hy. apply Hoth. intros ->. done.
      * rewrite !length_app in *. cbn in *.
        destruct l2; cbn in *; rewrite u32_id; lia.
      * intros _. destruct l2 as [|z l2]; cbn [hd_error is_null upd_tail upd_status tail].
        -- by rewrite last_snoc.
        -- rewrite Ht by (by destruct a'). destruct (last_cons_Some z l2) as (w & Hw).
           rewrite !last_app. change (last (x :: z :: l2)) with (last (z :: l2)).
           change (last (p :: z :: l2)) with (last (z :: l2)). by rewrite Hw.
    + done.
    + intros y Hy. left. rewrite Hq. set_solver.
    + intros y Hy Hno. cbn. rewrite Hl2, lookup_delete. case_decide; [done|].
      rewrite Hoth by set_solver. apply Hfree; [set_solver|done|done].
Qed.

Lemma queue_extract_fail U s V q x :
  qwf U s V -> x ∉ V q -> queue_extract q (Some x) s = Ret DNA_ERROR s.
Proof.
  intros Hwf Hx. unfold queue_extract. qrun. rewrite (status_zero _ _ _ _ Hwf).
  case_bool_decide as Hnil; [done|]. cbn [negb].
  rewrite (qwf_head _ _ _ _ Hwf).
  destruct (wf_rep _ _ _ Hwf q) as (Hc & _ & _).
  pose proof (walk_fuel_enough _ _ _ q Hwf) as Hfuel.
  destruct (V q) as [|k a] eqn:Hq; [done|]. cbn [hd_error].
  rewrite bool_decide_false by set_solver.
  destruct (last_cons_Some k a) as (p & Hp).
  assert (extract_walk (walk_fuel s) x k s = Ret p s) as Hwalk.
  { eapply (extract_walk_missing _ _ _ _ a); [|set_solver|cbn in *; lia|done].
    apply chain_head in Hc as Hh. cbn in Hh. by rewrite Hh in Hc. }
  rewrite Hwalk. apply last_Some in Hp as (a' & Ha).
  erewrite qwf_last_link; [done|done|]. by rewrite Hq.
Qed.

Lemma queue_extract_null q s : queue_extract q None s = Ret DNA_BAD_ARGUMENT s.
Proof. done. Qed.

(** Insertion in front of the first item that the comparator orders after it. *)
Fixpoint insert_before (comparator : addr -> addr -> bool) (x : addr) (l : list addr)
    : list addr :=
  match l with
  | [] => [x]
  | c :: l' => if comparator c x then x :: c :: l' else c :: insert_before comparator x l'
  end.

(** The same insertion as a split of the list. *)
Fixpoint split_before (comparator : addr -> addr -> bool) (x : addr) (l : list addr)
    : list addr * list addr :=
  match l with
  | [] => ([], [])
  | c :: l' => if comparator c x then ([], l)
               else let (a, b) := split_before comparator x l' in (c :: a, b)
  end.

Lemma split_before_app cmp x l a b : split_before cmp x l = (a, b) -> l = a ++ b.
Proof.
  revert a b. induction l as [|c l IH]; cbn; intros a b Hs.
  - by injection Hs as <- <-.
  - destruct (cmp c x); [by injection Hs as <- <-|].
    destruct (split_before cmp x l) as [a' b']. injection Hs as <- <-. cbn. f_equal. auto.
Qed.

Lemma insert_before_split cmp x l a b :
  split_before cmp x l = (a, b) -> insert_before cmp x l = a ++ x :: b.
Proof.
  revert a b. induction l as [|c l IH]; cbn; intros a b Hs.
  - by injection Hs as <- <-.
  - destruct (cmp c x); [by injection Hs as <- <-|].
    destruct (split_before cmp x l) as [a' b']. injection Hs as <- <-. cbn. f_equal. auto.
Qed.

Lemma insert_walk_spec s cmp x fuel l a b previous current :
  chain (links s) current l -> (length l < fuel)%nat -> split_before cmp x l = (a, b) ->
  insert_walk fuel cmp x previous current s =
    Ret (match last a with Some p => Some p | None => previous end, hd_error b) s.
Proof.
  revert fuel previous current a b. induction l as [|c l IH];
    intros fuel previous current a b Hc Hf Hs;
    (destruct fuel as [|fuel]; [cbn in *; lia|]); cbn [insert_walk split_before] in *.
  - rewrite Hc. by injection Hs as <- <-.
  - destruct Hc as [-> Hc]. destruct (cmp c x); [by injection Hs as <- <-|]. qrun.
    destruct (split_before cmp x l) as [a' b'] eqn:Hs'. injection Hs as <- <-.
    rewrite (IH _ _ _ a' b'); [|done|cbn in *; lia|done].
    destruct a' as [|z a']; [done|]. destruct (last_cons_Some z a') as (w & Hw).
    change (last (c :: z :: a')) with (last (z :: a')). by rewrite Hw.
Qed.

Lemma set_next_None_id s x : links s !! x = None -> set_next x None s = s.
Proof. intros Hx. destruct s as [L Qs]. unfold set_next; cbn in *. by rewrite delete_id. Qed.

(** Linking [x] between [p] and its successor. *)
Lemma chain_link_between L h a p b x :
  NoDup (a ++ p :: b) -> x ∉ a ++ p :: b -> chain L h (a ++ p :: b) ->
  L !! x = None ->
  chain (match hd_error b with
         | Some c => <[x := c]> (<[p := x]> L)
         | None => <[p := x]> L
         end) h (a ++ p :: x :: b).
Proof.
  intros Hnd Hx Hc HLx. apply NoDup_mid in Hnd as (Hp1 & Hp2 & Hnd).
  set (L' := match hd_error b with Some c => _ | None => _ end).
  assert (forall y, y <> x -> y <> p -> L' !! y = L !! y) as HL'.
  { intros y Hy1 Hy2. unfold L'. destruct b; cbn; by rewrite !lookup_insert_ne. }
  assert (L' !! p = Some x) as HLp.
  { unfold L'. destruct b; cbn; [apply lookup_insert_eq|].
    rewrite lookup_insert_ne by set_solver. apply lookup_insert_eq. }
  assert (L' !! x = hd_error b) as HLx'.
  { unfold L'. destruct b; cbn; [|apply lookup_insert_eq].
    rewrite lookup_insert_ne by set_solver. done. }
  eapply chain_splice; [|exact Hc| |].
  - rewrite NoDup_app. apply NoDup_app in Hnd as (? & _ & _).
    split_and!; [done|set_solver|apply NoDup_singleton].
  - intros y Hy. apply HL'; set_solver.
  - rewrite HLp. cbn. split; [done|]. rewrite HLx'.
    pose proof (chain_link _ _ _ _ _ Hc) as Hpb. apply chain_app_inv in Hc.
    rewrite Hpb in Hc. eapply chain_ext; [|exact Hc].
    intros y Hy. apply HL'; set_solver.
Qed.

(** Adding an unqueued item somewhere in queue [q]. *)
Lemma qwf_grow U s V s' q x a b :
  qwf U s V -> unqueued V x -> x ∈ U -> V q = a ++ b ->
  (forall q', q' <> q -> getq q' s' = getq q' s) ->
  (forall y, y <> x -> y ∉ V q -> links s' !! y = links s !! y) ->
  qrep (links s') (getq q s') (a ++ x :: b) ->
  qwf U s' (vupd V q (a ++ x :: b)).
Proof.
  intros Hwf Hx HxU Hq Hqo Hlo Hrep. eapply qwf_update; [exact Hwf|done| |done| | |].
  - intros y q' Hne Hy. apply Hlo; [intros ->; by apply (Hx q')|].
    intros Hy'. by pose proof (wf_disj _ _ _ Hwf _ _ _ Hy Hy').
  - rewrite <- Permutation_middle. constructor; [rewrite <- Hq; apply Hx|].
    rewrite <- Hq. apply (wf_nodup _ _ _ Hwf).
  - intros y Hy. rewrite Hq. destruct (decide (y = x)) as [->|]; [by right|left; set_solver].
  - intros y Hy Hoth. rewrite Hlo; [|set_solver|rewrite Hq; set_solver].
    apply (wf_free _ _ _ Hwf). intros q'.
    destruct (decide (q' = q)) as [->|]; [rewrite Hq; set_solver|auto].
Qed.

Lemma queue_insert_ok U s V q x cmp :
  qwf U s V -> unqueued V x -> x ∈ U ->
  exists s', queue_insert q cmp x s = Ret tt s' /\
             qwf U s' (vupd V q (insert_before cmp x (V q))).
Proof.
  intros Hwf Hx HxU. unfold queue_insert. qrun.
  pose proof (wf_free _ _ _ Hwf x Hx) as HLx.
  rewrite !(set_next_None_id _ _ HLx), (status_zero _ _ _ _ Hwf).
  pose proof (qwf_len_lt_new _ _ _ q x Hwf HxU (Hx q)) as Hlen.
  pose proof (qwf_status _ _ _ q Hwf) as Hst.
  pose proof (wf_nodup _ _ _ Hwf q) as Hnd.
  pose proof (walk_fuel_enough _ _ _ q Hwf) as Hfuel.
  destruct (wf_rep _ _ _ Hwf q) as (Hc & _ & Ht).
  pose proof (Hx q) as Hxq.
  destruct (split_before cmp x (V q)) as [a b] eqn:Hsp.
  rewrite (insert_before_split _ _ _ _ _ Hsp).
  pose proof (split_before_app _ _ _ _ _ Hsp) as Hab.
  case_bool_decide as Hnil; cbn [negb].
  { rewrite Hnil in Hab. symmetry in Hab. apply app_eq_nil in Hab as [-> ->].
    eexists; split; [reflexivity|].
    eapply qwf_grow; eauto; [intros q' Hne; by rewrite !getq_putq_ne|].
    rewrite !getq_putq. unfold qrep; cbn. rewrite Hst, Hnil. done. }
  erewrite insert_walk_spec; [|exact Hc|exact Hfuel|exact Hsp].
  rewrite (qwf_head _ _ _ _ Hwf). rewrite Hab in *.
  assert (forall c, hd_error (a ++ b) = Some c -> a <> [] -> hd_error b = Some c -> False) as Hhd.
  { intros c Hc1 Ha Hc2. destruct a as [|z a]; [done|]. cbn in Hc1. injection Hc1 as ->.
    destruct b as [|? b]; [done|]. cbn in Hc2. injection Hc2 as ->.
    apply NoDup_app in Hnd as (_ & Hnd & _). eapply (Hnd c); set_solver. }
  rewrite length_app in Hst, Hlen.
  destruct b as [|c b]; cbn [hd_error].
  - (* at the end *)
    rewrite app_nil_r in *. destruct (exists_last_or_nil a) as [->|(a' & t & ->)]; [done|].
    rewrite Ht by done. rewrite last_snoc. eexists; split; [reflexivity|].
    eapply qwf_grow; eauto; [by rewrite app_nil_r| | |].
    + intros q' Hne. by rewrite !getq_putq_ne.
    + intros y Hy Hyq. rewrite Hab in Hyq. cbn. apply lookup_insert_ne. set_solver.
    + rewrite !getq_putq. unfold qrep. cbn [upd_status upd_tail head tail status]. split_and!.
      * rewrite <- app_assoc. cbn [app]. by apply (chain_link_between _ _ _ _ []).
      * rewrite getq_set_next, Hst. rewrite !length_app in *. cbn in *. rewrite u32_id; lia.
      * intros _. by rewrite last_snoc.
  - destruct (exists_last_or_nil a) as [->|(a' & p & ->)].
    + (* in front *)
      cbn [app hd_error last]. rewrite bool_decide_true by done.
      eexists; split; [reflexivity|].
      eapply (qwf_grow _ _ _ _ _ _ []); eauto.
      * intros q' Hne. by rewrite getq_putq_ne, getq_set_next, getq_putq_ne.
      * intros y Hy Hyq. cbn. by apply lookup_insert_ne.
      * rewrite !getq_putq, getq_set_next, getq_putq. unfold qrep. cbn in *.
        rewrite lookup_insert_eq. split_and!; try done.
        -- rewrite lookup_insert_ne by set_solver. apply chain_insert; [set_solver|by apply Hc].
        -- rewrite Hst, u32_id; lia.
        -- intros _. by apply Ht.
    + (* between p and c *)
      rewrite bool_decide_false.
      2:{ intros Hh. by apply (Hhd c); [|by destruct a'|]. }
      rewrite last_snoc. eexists; split; [reflexivity|].
      eapply qwf_grow; eauto.
      * intros q' Hne. by rewrite !getq_putq_ne.
      * intros y Hy Hyq. rewrite Hab in Hyq. cbn. rewrite !lookup_insert_ne; [done|set_solver|done].
      * rewrite !getq_putq, !getq_set_next. rewrite <- !app_assoc in *. cbn [app] in *.
        unfold qrep. cbn [upd_status head tail status links set_next putq]. split_and!.
        -- by apply (chain_link_between _ _ _ _ (c :: b)).
        -- rewrite Hst. rewrite !length_app in *. cbn in *. rewrite u32_id; lia.
        -- intros _. rewrite Ht by (by destruct a'). rewrite !last_app.
           change (last (p :: x :: c :: b)) with (last (c :: b)).
           change (last (p :: c :: b)) with (last (c :: b)). done.
Qed.

Lemma lookup_walk_spec s inspector fuel l item :
  chain (links s) item l -> (length l < fuel)%nat ->
  lookup_walk fuel inspector item s = Ret (List.find inspector l) s.
Proof.
  revert fuel item. induction l as [|c l IH]; intros fuel item Hc Hf;
    (destruct fuel as [|fuel]; [cbn in *; lia|]); cbn [lookup_walk List.find].
  - by rewrite Hc.
  - destruct Hc as [-> Hc]. destruct (inspector c); [done|]. qrun. apply IH; [done|cbn in *; lia].
Qed.

Lemma queue_lookup_ok U s V q inspector :
  qwf U s V -> queue_lookup q inspector s = Ret (List.find inspector (V q)) s.
Proof.
  intros Hwf. unfold queue_lookup. qrun. rewrite (status_zero _ _ _ _ Hwf).
  case_bool_decide as Hnil; cbn [negb]; [by rewrite Hnil|].
  apply lookup_walk_spec; [apply (wf_rep _ _ _ Hwf)|by eapply walk_fuel_enough].
Qed.

Lemma qwf_ext U s V V' : (forall q, V q = V' q) -> qwf U s V -> qwf U s V'.
Proof.
  intros Heq Hwf. split.
  - intros q. rewrite <- Heq. apply (wf_rep _ _ _ Hwf).
  - intros q q' x. rewrite <- !Heq. apply (wf_disj _ _ _ Hwf).
  - intros q. rewrite <- Heq. apply (wf_nodup _ _ _ Hwf).
  - intros x Hx. apply (wf_free _ _ _ Hwf). intros q. rewrite Heq. apply Hx.
  - intros q x. rewrite <- Heq. apply (wf_in _ _ _ Hwf).
  - apply (wf_size _ _ _ Hwf).
Qed.

Lemma vupd_vupd V q l l' q' : vupd (vupd V q l) q l' q' = vupd V q l' q'.
Proof. unfold vupd. by case_decide. Qed.

Lemma vupd_same V q q' : vupd V q (V q) q' = V q'.
Proof. unfold vupd. case_decide; congruence. Qed.

(** An item taken out of [q] is in no queue. *)
Lemma unqueued_removed U s V q x l1 l2 :
  qwf U s V -> V q = l1 ++ x :: l2 -> unqueued (vupd V q (l1 ++ l2)) x.
Proof.
  intros Hwf Hq q'. unfold vupd. case_decide as Hd.
  - pose proof (wf_nodup _ _ _ Hwf q) as Hnd. rewrite Hq in Hnd. apply NoDup_mid in Hnd. set_solver.
  - intros Hx. apply Hd, (wf_disj _ _ _ Hwf _ _ x); [done|]. rewrite Hq. set_solver.
Qed.

Lemma walk_loop_spec U q inspector fuel l2 : forall s V l1,
  qwf U s V -> V q = l1 ++ l2 -> (length l2 < fuel)%nat ->
  exists s', walk_loop fuel q inspector (hd_error l2) s = Ret tt s' /\
    qwf U s' (vupd V q (l1 ++ List.filter (fun x => negb (inspector x)) l2)).
Proof.
  revert fuel. induction l2 as [|x l2 IH]; intros fuel s V l1 Hwf Hq Hf;
    (destruct fuel as [|fuel]; [cbn in *; lia|]); cbn [walk_loop hd_error List.filter].
  - exists s. split; [done|]. eapply qwf_ext; [|exact Hwf]. intros q'.
    rewrite <- Hq. by rewrite vupd_same.
  - cbn [bind gets]. unfold next.
    destruct (wf_rep _ _ _ Hwf q) as (Hc & _ & _). rewrite Hq in Hc.
    apply chain_link in Hc.
    unfold bind at 1, gets. rewrite Hc. destruct (inspector x); cbn [negb].
    + destruct (queue_extract_ok _ _ _ _ _ _ _ Hwf Hq) as (s1 & Hs1 & Hwf1).
      unfold bind. rewrite Hs1.
      destruct (IH fuel s1 _ l1 Hwf1) as (s2 & Hs2 & Hwf2); [by rewrite vupd_eq|cbn in *; lia|].
      exists s2. split; [done|]. eapply qwf_ext; [|exact Hwf2]. intros q'. apply vupd_vupd.
    + destruct (IH fuel s V (l1 ++ [x]) Hwf) as (s2 & Hs2 & Hwf2);
        [by rewrite <- app_assoc|cbn in *; lia|].
      exists s2. split; [done|]. by rewrite <- app_assoc in Hwf2.
Qed.

Lemma queue_walk_ok U s V q inspector :
  qwf U s V ->
  exists s', queue_walk q inspector s = Ret tt s' /\
    qwf U s' (vupd V q (List.filter (fun x => negb (inspector x)) (V q))).
Proof.
  intros Hwf. unfold queue_walk. qrun. rewrite (status_zero _ _ _ _ Hwf).
  case_bool_decide as Hnil; cbn [negb].
  - exists s. split; [done|]. eapply qwf_ext; [|exact Hwf]. intros q'.
    rewrite Hnil. cbn. rewrite <- Hnil at 1. by rewrite vupd_same.
  - rewrite (qwf_head _ _ _ _ Hwf).
    apply (walk_loop_spec _ _ _ _ _ _ _ []); [done|done|]. by eapply walk_fuel_enough.
Qed.

(** Filling the header of an empty queue with zeros. *)
Lemma qwf_reset U s V q : qwf U s V -> V q = [] -> qwf U (putq q DNA_QUEUE_DEFAULTS s) V.
Proof.
  intros Hwf Hq. split; try apply Hwf.
  intros q'. destruct (decide (q' = q)) as [->|Hne].
  - rewrite getq_putq, Hq. done.
  - rewrite getq_putq_ne by done. apply (wf_rep _ _ _ Hwf).
Qed.

Lemma qwf_init U : Z.of_nat (size U) < 2 ^ 32 -> qwf U (mkQ ∅ ∅) (fun _ => []).
Proof.
  intros HU. split; try done.
  - intros q q' x Hx. by apply not_elem_of_nil in Hx.
  - intros q. apply NoDup_nil_2.
  - intros q x Hx. by apply not_elem_of_nil in Hx.
Qed.

(** ** Programs of queue operations refine programs on lists *)

Inductive qop : Type :=
| OpAdd (q : qid) (x : addr)
| OpRem (q : qid)
| OpExtract (q : qid) (x : addr)
| OpPushback (q : qid) (x : addr)
| OpInsert (q : qid) (cmp : addr -> addr -> bool) (x : addr)
| OpLookup (q : qid) (inspector : addr -> bool)
| OpWalk (q : qid) (inspector : addr -> bool).

Inductive qres : Type :=
| RStatus (st : status_t) | RItem (x : option addr) | RUnit.

Definition run_qop (o : qop) : M qstate qres :=
  match o with
  | OpAdd q x => let* st := queue_add q x in ret (RStatus st)
  | OpRem q => let* x := queue_rem q in ret (RItem x)
  | OpExtract q x => let* st := queue_extract q (Some x) in ret (RStatus st)
  | OpPushback q x => let* st := queue_pushback q x in ret (RStatus st)
  | OpInsert q cmp x => queue_insert q cmp x ;; ret RUnit
  | OpLookup q inspector => let* x := queue_lookup q inspector in ret (RItem x)
  | OpWalk q inspector => queue_walk q inspector ;; ret RUnit
  end.

Fixpoint run_qops (os : list qop) : M qstate (list qres) :=
  match os with
  | [] => ret []
  | o :: os => let* r := run_qop o in let* rs := run_qops os in ret (r :: rs)
  end.

(** The contract: what each operation does to the lists.  An item may be added
    when it exists and is in no queue. *)
Inductive spec_qop (U : gset addr) (V : qid -> list addr) : qop -> qres -> (qid -> list addr) -> Prop :=
| spec_add q x : unqueued V x -> x ∈ U ->
    spec_qop U V (OpAdd q x) (RStatus DNA_OK) (vupd V q (V q ++ [x]))
| spec_rem_nil q : V q = [] -> spec_qop U V (OpRem q) (RItem None) V
| spec_rem_cons q x l : V q = x :: l -> spec_qop U V (OpRem q) (RItem (Some x)) (vupd V q l)
| spec_extract q x l1 l2 : V q = l1 ++ x :: l2 ->
    spec_qop U V (OpExtract q x) (RStatus DNA_OK) (vupd V q (l1 ++ l2))
| spec_extract_fail q x : x ∉ V q -> spec_qop U V (OpExtract q x) (RStatus DNA_ERROR) V
| spec_pushback q x : unqueued V x -> x ∈ U ->
    spec_qop U V (OpPushback q x) (RStatus DNA_OK) (vupd V q (x :: V q))
| spec_insert q cmp x : unqueued V x -> x ∈ U ->
    spec_qop U V (OpInsert q cmp x) RUnit (vupd V q (insert_before cmp x (V q)))
| spec_lookup q inspector :
    spec_qop U V (OpLookup q inspector) (RItem (List.find inspector (V q))) V
| spec_walk q inspector :
    spec_qop U V (OpWalk q inspector) RUnit
      (vupd V q (List.filter (fun x => negb (inspector x)) (V q))).

Inductive spec_qops (U : gset addr) : (qid -> list addr) -> list qop -> list qres -> (qid -> list addr) -> Prop :=
| spec_nil V : spec_qops U V [] [] V
| spec_cons V V' V'' o os r rs :
    spec_qop U V o r V' -> spec_qops U V' os rs V'' -> spec_qops U V (o :: os) (r :: rs) V''.

Lemma run_qop_refines U s V o r V' :
  qwf U s V -> spec_qop U V o r V' -> exists s', run_qop o s = Ret r s' /\ qwf U s' V'.
Proof.
  intros Hwf Hsp. destruct Hsp; cbn [run_qop].
  - destruct (queue_add_ok U s V q x) as (s' & Hr & ?); auto.
    exists s'. by rewrite (bind_Ret _ _ _ _ _ Hr).
  - exists s. by rewrite (bind_Ret _ _ _ _ _ (queue_rem_nil _ _ _ q Hwf ltac:(done))).
  - destruct (queue_rem_cons U s V q x l) as (s' & Hr & ?); auto.
    exists s'. by rewrite (bind_Ret _ _ _ _ _ Hr).
  - destruct (queue_extract_ok U s V q x l1 l2) as (s' & Hr & ?); auto.
    exists s'. by rewrite (bind_Ret _ _ _ _ _ Hr).
  - exists s. by rewrite (bind_Ret _ _ _ _ _ (queue_extract_fail _ _ _ q _ Hwf ltac:(done))).
  - destruct (queue_pushback_ok U s V q x) as (s' & Hr & ?); auto.
    exists s'. by rewrite (bind_Ret _ _ _ _ _ Hr).
  - destruct (queue_insert_ok U s V q x cmp) as (s' & Hr & ?); auto.
    exists s'. by rewrite (bind_Ret _ _ _ _ _ Hr).
  - exists s. by rewrite (bind_Ret _ _ _ _ _ (queue_lookup_ok _ _ _ q inspector Hwf)).
  - destruct (queue_walk_ok U s V q inspector) as (s' & Hr & ?); auto.
    exists s'. by rewrite (bind_Ret _ _ _ _ _ Hr).
Qed.

(** ** Initial queues

    At boot every link is NULL and every header is zero; [layout l] is the result
    of adding, in order, each item of [l] to its queue. *)
Definition boot_queues : qstate := mkQ ∅ ∅.

Definition layout (l : list (qid * addr)) : qstate :=
  foldl (fun s p => match queue_add p.1 p.2 s with Ret _ s' => s' | _ => s end) boot_queues l.

Definition view (l : list (qid * addr)) (q : qid) : list addr :=
  (filter (fun p => p.1 = q) l).*2.

Lemma view_elem l q x : x ∈ view l q <-> (q, x) ∈ l.
Proof.
  unfold view. rewrite list_elem_of_fmap. split.
  - intros ([q1 x1] & -> & [Hq Hin]%list_elem_of_filter). cbn in *. by subst.
  - intros Hin. exists (q, x). split; [done|]. by apply list_elem_of_filter.
Qed.

Lemma view_unqueued l x : x ∉ l.*2 -> unqueued (view l) x.
Proof. intros Hx q Hin%view_elem. apply Hx. apply list_elem_of_fmap. by exists (q, x). Qed.

Lemma boot_queues_wf U : Z.of_nat (size U) < 2 ^ 32 -> qwf U boot_queues (fun _ => []).
Proof.
  intros HU. split; try set_solver.
  - intros q. unfold getq, boot_queues. cbn. rewrite lookup_empty. done.
  - intros q. constructor.
Qed.

Lemma layout_wf U l :
  NoDup l.*2 -> (forall x, x ∈ l.*2 -> x ∈ U) -> Z.of_nat (size U) < 2 ^ 32 -> qwf U (layout l) (view l).
Proof.
  intros Hnd HU Hs. induction l as [|[q x] l IH] using rev_ind; [by apply boot_queues_wf|].
  rewrite fmap_app in Hnd, HU. cbn in Hnd, HU. apply NoDup_app in Hnd as (Hnd & Hx & _).
  specialize (IH Hnd ltac:(set_solver)). unfold layout. rewrite foldl_app. cbn [foldl fst snd].
  fold (layout l). destruct (queue_add_ok U (layout l) (view l) q x) as (s' & -> & Hwf).
  - done.
  - apply view_unqueued. intros Hin. apply (Hx x Hin). set_solver.
  - set_solver.
  - eapply qwf_ext; [|exact Hwf]. intros q'. unfold vupd, view. rewrite filter_app, fmap_app.
    case_decide as Hq; [subst q'; by rewrite filter_cons_True|].
    rewrite filter_cons_False by (cbn; congruence). cbn. by rewrite app_nil_r.
Qed.

(** C1: Programs of queue operations refine programs on lists.  Whatever
    sequence of queue_add, queue_rem, queue_extract, queue_pushback,
    queue_insert, queue_lookup and queue_walk is run on well formed queues, as
    long as only existing items that are in no queue are added, the pointer code
    terminates without dereferencing NULL, returns exactly the results of the
    list operations, and leaves well formed queues that hold the resulting
    lists. *)
Theorem queue_ops_refine_lists U s V os rs V' :
  qwf U s V -> spec_qops U V os rs V' ->
  exists s', run_qops os s = Ret rs s' /\ qwf U s' V'.
Proof.
  intros Hwf Hsp. revert s Hwf.
  induction Hsp as [V|V V' V'' o os r rs Hop _ IH]; intros s Hwf; cbn [run_qops].
  - by exists s.
  - destruct (run_qop_refines _ _ _ _ _ _ Hwf Hop) as (s1 & Hr1 & Hwf1).
    destruct (IH s1 Hwf1) as (s2 & Hr2 & Hwf2). exists s2.
    rewrite (bind_Ret _ _ _ _ _ Hr1), (bind_Ret _ _ _ _ _ Hr2). done.
Qed.

End Queue.

(** Two queues of integers: two items go through the first one, one through the second. *)
Lemma queue_ops_refine_lists_witness :
  exists s', run_qops [OpAdd 1 10; OpAdd 1 20; OpPushback 2 30; OpRem 1; OpExtract 1 20] (boot_queues (addr := Z) (qid := Z))
               = Ret [RStatus DNA_OK; RStatus DNA_OK; RStatus DNA_OK; RItem (Some 10); RStatus DNA_OK] s' /\
             qwf {[10; 20; 30]} s'
               (vupd (vupd (vupd (vupd (vupd (fun _ => []) 1 [10]) 1 [10; 20]) 2 [30]) 1 [20]) 1 []).
Proof.
  apply (queue_ops_refine_lists (addr := Z) (qid := Z) {[10; 20; 30]} boot_queues (fun _ => [])).
  - apply boot_queues_wf. vm_compute. reflexivity.
  - eapply spec_cons; [apply (spec_add _ _ 1 10); [intros q; set_solver|set_solver]|].
    eapply spec_cons; [apply (spec_add _ _ 1 20); [|set_solver]|].
    { intros q. unfold vupd. case_decide; set_solver. }
    eapply spec_cons; [apply (spec_pushback _ _ 2 30); [|set_solver]|].
    { intros q. unfold vupd. repeat case_decide; set_solver. }
    eapply spec_cons; [apply (spec_rem_cons _ _ 1 10 [20]); reflexivity|].
    eapply spec_cons; [apply (spec_extract _ _ 1 20 [] []); reflexivity|].
    apply spec_nil.
Defined.
