(* ===== verification/Allocator.v ===== *)
(** * The worst-fit kernel allocator (DnaMM-WorstFit)

    The heap is cut into regions, each starting with a header
    [struct _kernel_region].  The allocator keeps the free regions in a doubly
    linked list ordered by decreasing size, takes allocations from its first
    element, and keeps the allocated regions in a second doubly linked list.

    Pointers are 32-bit addresses, 0 being NULL; [regions] maps the address of
    every header that has been written to its content; reading any other address
    is a fault.  The sizes and the [status] words are kept at their C types. *)

From S2P Require Import Prelude Status.

(** Private/Allocator.h *)
Definition sizeof_region : Z := 16.
Definition DNA_KERNEL_BLOCK_SIZE : Z := 2 * sizeof_region.
Definition DNA_KERNEL_FREE_REGION : Z := 0xBEEF.
Definition DNA_KERNEL_ALLOCATED_REGION : Z := 0xDEAD.

Record region := mkRegion {
  nblocks : Z;
  r_status : Z;
  r_next : Z;
  r_prev : Z
}.

Record mstate := mkM {
  regions : gmap Z region;
  total_nblocks : Z;          (* kernel_allocator.nblocks *)
  next_created_region : Z;
  next_free_region : Z
}.

Definition set_nblocks v r := mkRegion v (r_status r) (r_next r) (r_prev r).
Definition set_rstatus v r := mkRegion (nblocks r) v (r_next r) (r_prev r).
Definition set_rnext v r := mkRegion (nblocks r) (r_status r) v (r_prev r).
Definition set_rprev v r := mkRegion (nblocks r) (r_status r) (r_next r) v.

(** Reading through a region pointer, writing a field through it. *)
Definition rd (p : Z) : M mstate region :=
  let* h := gets regions in deref (h !! p).

Definition put_region (p : Z) (r : region) (s : mstate) : mstate :=
  mkM (<[p := r]> (regions s)) (total_nblocks s) (next_created_region s) (next_free_region s).

Definition wr (p : Z) (f : region -> region) : M mstate unit :=
  let* r := rd p in modify (put_region p (f r)).

(** A store into memory that is not yet a header: the fields that are not
    written keep unknown contents, represented by 0. *)
Definition wr_new (p : Z) (f : region -> region) : M mstate unit :=
  let* h := gets regions in
  modify (put_region p (f (default (mkRegion 0 0 0 0) (h !! p)))).

Definition set_free (p : Z) : M mstate unit :=
  modify (fun s => mkM (regions s) (total_nblocks s) (next_created_region s) p).
Definition set_created (p : Z) : M mstate unit :=
  modify (fun s => mkM (regions s) (total_nblocks s) p (next_free_region s)).
Definition set_total (n : Z) : M mstate unit :=
  modify (fun s => mkM (regions s) n (next_created_region s) (next_free_region s)).

Definition not_null (p : Z) : bool := negb (p =? 0).

(** while (rptr -> next != NULL) \{ if (rptr -> nblocks <= size) break; rptr = rptr -> next; \} *)
Fixpoint order_walk (fuel : nat) (size rptr : Z) : M mstate Z :=
  match fuel with
  | O => diverge
  | S fuel =>
      let* r := rd rptr in
      if not_null (r_next r) then
        if nblocks r <=? size then ret rptr else order_walk fuel size (r_next r)
      else ret rptr
  end.

(** while (aptr -> next != NULL) aptr = aptr -> next; *)
Fixpoint last_walk (fuel : nat) (aptr : Z) : M mstate Z :=
  match fuel with
  | O => diverge
  | S fuel =>
      let* r := rd aptr in
      if not_null (r_next r) then last_walk fuel (r_next r) else ret aptr
  end.

(** Every list without cycle is shorter than the number of headers. *)
Definition walk_bound (s : mstate) : nat := S (size (regions s)).

(** Re-order the free regions: put [next] before the first region that is not
    larger. *)
Definition insert_free (next : Z) : M mstate unit :=
  let* rptr := gets next_free_region in
  if rptr =? 0 then
    set_free next ;;
    wr next (set_rprev 0) ;;
    wr next (set_rnext 0)
  else
    let* n := rd next in
    let* fuel := gets walk_bound in
    let* rptr := order_walk fuel (nblocks n) rptr in
    let* r := rd rptr in
    let* n := rd next in
    if nblocks r <=? nblocks n then
      wr next (set_rprev (r_prev r)) ;;
      wr rptr (set_rprev next) ;;
      wr next (set_rnext rptr) ;;
      let* n := rd next in
      (if not_null (r_prev n) then wr (r_prev n) (set_rnext next) else set_free next)
    else
      wr next (set_rnext 0) ;;
      wr next (set_rprev rptr) ;;
      wr rptr (set_rnext next).

(** Add the allocated region to the list of created regions. *)
Definition append_created (current : Z) : M mstate unit :=
  let* aptr := gets next_created_region in
  if aptr =? 0 then set_created current
  else
    let* fuel := gets walk_bound in
    let* aptr := last_walk fuel aptr in
    wr aptr (set_rnext current) ;;
    wr current (set_rprev aptr).

(** kernel_region_create.c.  The test [nblocks > required_nblocks] compares an
    int32_t with a uint32_t, hence on unsigned values. *)
Definition kernel_region_create (required : Z) : M mstate (status_t * Z) :=
  let* current := gets next_free_region in
  let required := u32 (required + 1) in
  check not_null current rescue ret (DNA_ERROR, 0) in
  let* c := rd current in
  check required <? u32 (nblocks c) rescue ret (DNA_OUT_OF_MEM, 0) in
  (* Allocate the new region *)
  (if not_null (r_next c) then wr (r_next c) (set_rprev 0) else ret tt) ;;
  let* c := rd current in
  set_free (r_next c) ;;
  let next := u32 (current + required * DNA_KERNEL_BLOCK_SIZE) in
  wr_new next (set_rstatus DNA_KERNEL_FREE_REGION) ;;
  let* c := rd current in
  wr next (set_nblocks (i32 (u32 (nblocks c) - required))) ;;
  wr current (set_rprev 0) ;;
  wr current (set_rnext 0) ;;
  wr current (set_rstatus DNA_KERNEL_ALLOCATED_REGION) ;;
  wr current (set_nblocks (i32 required)) ;;
  insert_free next ;;
  append_created current ;;
  ret (DNA_OK, current).

(** Unlink [ptr] from the free list (the three lines repeated in the loop of
    kernel_region_destroy.c). *)
Definition unlink_free (ptr : Z) : M mstate unit :=
  let* p := rd ptr in
  (if not_null (r_prev p) then wr (r_prev p) (set_rnext (r_next p)) else set_free (r_next p)) ;;
  let* p := rd ptr in
  (if not_null (r_next p) then wr (r_next p) (set_rprev (r_prev p)) else ret tt).

(** The coalescing loop; the result is the final value of [region].  [vregion]
    and [vrsize] are the address and the size of the region when the loop
    starts. *)
Fixpoint coalesce (fuel : nat) (vregion vrsize region ptr : Z) : M mstate Z :=
  match fuel with
  | O => diverge
  | S fuel =>
      if ptr =? 0 then ret region
      else
        let* p := rd ptr in
        let vptr := ptr in
        let vpsize := u32 (nblocks p * DNA_KERNEL_BLOCK_SIZE) in
        let* region' :=
          (if u32 (vptr + vpsize) =? vregion then
             let* r := rd region in
             wr ptr (set_nblocks (i32 (nblocks p + nblocks r))) ;;
             unlink_free ptr ;;
             ret ptr
           else if u32 (vregion + vrsize) =? vptr then
             let* r := rd region in
             wr region (set_nblocks (i32 (nblocks r + nblocks p))) ;;
             unlink_free ptr ;;
             ret region
           else ret region) in
        let* p := rd ptr in
        coalesce fuel vregion vrsize region' (r_next p)
  end.

(** Remove the region from the list of created regions. *)
Definition uncreate (region : Z) : M mstate unit :=
  let* r := rd region in
  (if not_null (r_next r) then
     wr (r_next r) (set_rprev (r_prev r)) ;;
     wr region (set_rnext 0)
   else ret tt) ;;
  let* r := rd region in
  (if not_null (r_prev r) then
     wr (r_prev r) (set_rnext (r_next r)) ;;
     wr region (set_rprev 0)
   else set_created (r_next r)).

(** Order it in term of worst fit. *)
Definition order_free (region : Z) : M mstate unit :=
  let* ptr := gets next_free_region in
  if ptr =? 0 then
    wr region (set_rprev 0) ;;
    wr region (set_rnext 0) ;;
    set_free region
  else
    let* r := rd region in
    let* fuel := gets walk_bound in
    let* ptr := order_walk fuel (nblocks r) ptr in
    let* p := rd ptr in
    let* r := rd region in
    if nblocks p <=? nblocks r then
      wr region (set_rprev (r_prev p)) ;;
      wr region (set_rnext ptr) ;;
      let* p := rd ptr in
      (if not_null (r_prev p) then wr (r_prev p) (set_rnext region) else set_free region) ;;
      wr ptr (set_rprev region)
    else
      wr ptr (set_rnext region) ;;
      wr region (set_rprev ptr) ;;
      wr region (set_rnext 0).

(** kernel_region_destroy.c *)
Definition kernel_region_destroy (region : Z) : M mstate status_t :=
  uncreate region ;;
  (* Add the region as a free region *)
  let* ptr := gets next_free_region in
  if ptr =? 0 then set_free region ;; ret DNA_OK
  else
    let* r := rd region in
    let vrsize := u32 (nblocks r * DNA_KERNEL_BLOCK_SIZE) in
    let* fuel := gets walk_bound in
    let* region := coalesce fuel region vrsize region ptr in
    order_free region ;;
    ret DNA_OK.

(** memory_create.c, for a heap of [heap_bytes] bytes at [heap_address]
    (OS_KERNEL_HEAP_SIZE and OS_KERNEL_HEAP_ADDRESS of the application). *)
Definition memory_create (heap_address heap_bytes : Z) : M mstate status_t :=
  let heap_size := u32 (heap_bytes / DNA_KERNEL_BLOCK_SIZE) in
  wr_new heap_address (set_rnext 0) ;;
  wr heap_address (set_rprev 0) ;;
  wr heap_address (set_nblocks (i32 (heap_size - 1))) ;;
  wr heap_address (set_rstatus DNA_KERNEL_FREE_REGION) ;;
  set_free heap_address ;;
  set_created 0 ;;
  set_total (i32 heap_size) ;;
  ret DNA_OK.

Definition memory_destroy : M mstate status_t := ret DNA_NOT_IMPLEMENTED.
Definition memory_start : M mstate status_t := ret DNA_OK.
Definition memory_stop : M mstate status_t := ret DNA_NOT_IMPLEMENTED.
