(* ===== verification/AllocatorSpec.v ===== *)
(** * Correctness of kernel_region_create (Allocator.v)

    The two region lists are doubly linked lists ([dll]); [heap_ok s F A] says
    that the free regions [F], by decreasing size, and the allocated regions [A]
    do not overlap.  An allocation cuts the largest free region in two and keeps
    this invariant; it fails only when no free region is large enough. *)

From Stdlib Require Import Sorted.
From S2P Require Import Prelude Status Allocator.

(** ** Rules for the accesses to headers *)

Lemma wp_rd p r Q s : regions s !! p = Some r -> Q r s -> wp (rd p) Q s.
Proof. intros Hp HQ. unfold wp, rd, bind, gets. by rewrite Hp. Qed.

Lemma wp_wr p r f Q s :
  regions s !! p = Some r -> Q tt (put_region p (f r) s) -> wp (wr p f) Q s.
Proof. intros Hp HQ. unfold wr. apply wp_bind. by eapply wp_rd. Qed.

Lemma wp_wr_new p f Q s :
  Q tt (put_region p (f (default (mkRegion 0 0 0 0) (regions s !! p))) s) -> wp (wr_new p f) Q s.
Proof. done. Qed.

(** ** Doubly linked lists *)

(** The regions [l] are linked from [p] to [nxt]; [prev] precedes the first. *)
Fixpoint dll (R : gmap Z region) (prev p : Z) (l : list Z) (nxt : Z) : Prop :=
  match l with
  | [] => p = nxt
  | x :: l' => p = x /\ exists r, R !! x = Some r /\ r_prev r = prev /\ dll R x (r_next r) l' nxt
  end.

Definition last_or (d : Z) (l : list Z) : Z := default d (last l).

Lemma last_or_cons d x l : last_or d (x :: l) = last_or x l.
Proof. unfold last_or. rewrite last_cons. by destruct (last l). Qed.

Lemma last_or_snoc d l x : last_or d (l ++ [x]) = x.
Proof. unfold last_or. by rewrite last_snoc. Qed.

Lemma dll_app R prev p l1 l2 nxt :
  dll R prev p (l1 ++ l2) nxt <->
  exists m, dll R prev p l1 m /\ dll R (last_or prev l1) m l2 nxt.
Proof.
  revert prev p. induction l1 as [|x l1 IH]; intros prev p; cbn [app dll].
  - split; [intros Hd; by exists p|intros (m & -> & Hd); done].
  - setoid_rewrite last_or_cons. split.
    + intros (-> & r & Hr & Hp & (m & H1 & H2)%IH). exists m. split; [|done]. split; [done|]. eauto.
    + intros (m & (-> & r & Hr & Hp & H1) & H2). split; [done|]. exists r. split_and!; try done.
      apply IH. eauto.
Qed.

Lemma dll_ext R R' prev p l nxt :
  (forall x, x ∈ l -> R' !! x = R !! x) -> dll R prev p l nxt -> dll R' prev p l nxt.
Proof.
  revert prev p. induction l as [|x l IH]; intros prev p Hx; cbn [dll]; [done|].
  intros (-> & r & Hr & Hp & Hd). split; [done|]. exists r. rewrite Hx by set_solver.
  split_and!; try done. apply IH; [set_solver|done].
Qed.

Lemma dll_insert R prev p l nxt x r :
  x ∉ l -> dll R prev p l nxt -> dll (<[x := r]> R) prev p l nxt.
Proof. intros Hx. apply dll_ext. intros y Hy. apply lookup_insert_ne. by intros ->. Qed.

Lemma dll_lookup R prev p l nxt x : dll R prev p l nxt -> x ∈ l -> exists r, R !! x = Some r.
Proof.
  revert prev p. induction l as [|y l IH]; intros prev p; cbn [dll]; intros Hd Hx.
  - by apply not_elem_of_nil in Hx.
  - destruct Hd as (_ & r & Hr & _ & Hd). apply elem_of_cons in Hx as [->|Hx]; eauto.
Qed.

(** A list grows at its end, or before one of its elements; its first element
    changes its predecessor. *)
Lemma dll_snoc R prev p l nxt x r :
  dll R prev p l x -> x ∉ l -> r_prev r = last_or prev l -> r_next r = nxt ->
  dll (<[x := r]> R) prev p (l ++ [x]) nxt.
Proof.
  intros Hd Hx Hp Hn. apply dll_app. exists x. split; [by apply dll_insert|].
  cbn. split; [done|]. exists r. by rewrite lookup_insert_eq.
Qed.

Lemma dll_first R prev prev' p x l nxt r :
  dll R prev p (x :: l) nxt -> x ∉ l -> R !! x = Some r ->
  dll (<[x := set_rprev prev' r]> R) prev' p (x :: l) nxt.
Proof.
  intros (-> & r' & Hr & _ & Hd) Hx Hr'. rewrite Hr in Hr'. injection Hr' as ->.
  split; [done|]. eexists. rewrite lookup_insert_eq. split_and!; [done|done|]. by apply dll_insert.
Qed.

Lemma dll_retarget R prev p l z nxt nxt' r :
  dll R prev p (l ++ [z]) nxt -> z ∉ l -> R !! z = Some r ->
  dll (<[z := set_rnext nxt' r]> R) prev p (l ++ [z]) nxt'.
Proof.
  intros (m & Hl & (-> & r' & Hr & Hp & _))%dll_app Hz Hr'. rewrite Hr in Hr'. injection Hr' as ->.
  by apply dll_snoc.
Qed.

Definition blocks (R : gmap Z region) (p : Z) : Z := nblocks (default (mkRegion 0 0 0 0) (R !! p)).

Lemma blocks_insert R x r p :
  blocks (<[x := r]> R) p = if decide (p = x) then nblocks r else blocks R p.
Proof.
  unfold blocks. case_decide as Hp; [subst; by rewrite lookup_insert_eq|].
  by rewrite lookup_insert_ne by congruence.
Qed.

(** ** The walks *)

Lemma last_walk_ok s fuel prev x l :
  dll (regions s) prev x (x :: l) 0 -> (length l < fuel)%nat -> (forall y, y ∈ l -> y <> 0) ->
  last_walk fuel x s = Ret (last_or x l) s.
Proof.
  revert fuel prev x. induction l as [|y l IH]; intros fuel prev x Hd Hf H0;
    (destruct fuel as [|fuel]; [cbn in *; lia|]);
    destruct Hd as (_ & r & Hr & Hp & Hd); apply wp_run; cbn [last_walk];
    apply wp_bind; (eapply wp_rd; [exact Hr|]); unfold not_null.
  - cbn in Hd. rewrite Hd. by apply wp_ret.
  - pose proof Hd as (Hn & _). rewrite Hn in *.
    rewrite (proj2 (Z.eqb_neq y 0)) by (apply H0; set_solver). cbn [negb].
    rewrite last_or_cons. eapply wp_eq; [|done]. eapply (IH fuel x y); [done|cbn in *; lia|set_solver].
Qed.

Lemma order_walk_ok s fuel size prev x l :
  dll (regions s) prev x (x :: l) 0 -> (length l < fuel)%nat -> (forall y, y ∈ l -> y <> 0) ->
  exists y l1 l2, order_walk fuel size x s = Ret y s /\ x :: l = l1 ++ y :: l2 /\
    Forall (fun z => size < blocks (regions s) z) l1 /\
    (l2 <> [] -> blocks (regions s) y <= size).
Proof.
  revert fuel prev x. induction l as [|y l IH]; intros fuel prev x Hd Hf H0;
    (destruct fuel as [|fuel]; [cbn in *; lia|]);
    destruct Hd as (_ & r & Hr & Hp & Hd); cbn [order_walk].
  - exists x, [], []. split_and!; [|done|done|done]. apply wp_run. apply wp_bind.
    eapply wp_rd; [exact Hr|]. cbn in Hd. rewrite Hd. by apply wp_ret.
  - pose proof Hd as (Hn & _).
    assert (nblocks r = blocks (regions s) x) as Hb by (unfold blocks; by rewrite Hr).
    destruct (nblocks r <=? size) eqn:Hs; zbool.
    + exists x, [], (y :: l). split_and!; [|done|done|lia]. apply wp_run. apply wp_bind.
      eapply wp_rd; [exact Hr|]. unfold not_null. rewrite Hn.
      rewrite (proj2 (Z.eqb_neq y 0)) by (apply H0; set_solver). cbn [negb].
      rewrite (proj2 (Z.leb_le _ _) Hs). by apply wp_ret.
    + rewrite Hn in Hd. destruct (IH fuel x y Hd) as (z & l1 & l2 & Hw & Hl & Hf1 & Hz);
        [cbn in *; lia|set_solver|].
      exists z, (x :: l1), l2. split_and!; [|by rewrite Hl|constructor; [lia|done]|done].
      apply wp_run. apply wp_bind. eapply wp_rd; [exact Hr|]. unfold not_null. rewrite Hn.
      rewrite (proj2 (Z.eqb_neq y 0)) by (apply H0; set_solver). cbn [negb].
      rewrite (proj2 (Z.leb_gt _ _) Hs). by eapply wp_eq.
Qed.

(** Two heaps that differ by the links only. *)
Definition data (r : region) : Z * Z := (nblocks r, r_status r).
Definition relinked (R R' : gmap Z region) : Prop := forall p, data <$> R' !! p = data <$> R !! p.

Lemma relinked_refl R : relinked R R.
Proof. done. Qed.

(** A write that changes only links. *)
Lemma relinked_wr R R' x r' :
  relinked R R' -> (exists r, R' !! x = Some r /\ data r' = data r) -> relinked R (<[x := r']> R').
Proof.
  intros HR (r & Hr & Hd) p. destruct (decide (x = p)) as [->|Hne].
  - rewrite lookup_insert_eq, <- HR, Hr. cbn. by rewrite Hd.
  - by rewrite lookup_insert_ne.
Qed.

Lemma relinked_blocks R R' p : relinked R R' -> blocks R' p = blocks R p.
Proof.
  intros HR. specialize (HR p). unfold blocks.
  destruct (R !! p), (R' !! p); cbn in *; try done. by injection HR.
Qed.

(** The free list by decreasing size. *)
Definition larger (R : gmap Z region) (p q : Z) : Prop := blocks R q <= blocks R p.

Lemma sorted_insert R l1 y l2 x :
  StronglySorted (larger R) (l1 ++ y :: l2) -> Forall (fun z => blocks R x < blocks R z) l1 ->
  blocks R y <= blocks R x -> StronglySorted (larger R) (l1 ++ x :: y :: l2).
Proof.
  induction l1 as [|z l1 IH]; cbn [app]; intros Hs Hl Hy.
  - constructor; [done|]. apply StronglySorted_inv in Hs as [_ Hs]. constructor; [done|].
    eapply Forall_impl; [exact Hs|]. unfold larger. cbn. lia.
  - apply StronglySorted_inv in Hs as [Hs Hz]. apply Forall_cons in Hl as [Hl0 Hl].
    constructor; [by apply IH|]. rewrite Forall_app, !Forall_cons in *. unfold larger in *.
    split_and!; [apply Hz|lia|apply Hz|apply Hz].
Qed.

Lemma sorted_snoc R l x :
  StronglySorted (larger R) l -> Forall (fun z => blocks R x < blocks R z) l ->
  StronglySorted (larger R) (l ++ [x]).
Proof.
  induction l as [|z l IH]; cbn [app]; intros Hs Hl; [by repeat constructor|].
  apply StronglySorted_inv in Hs as [Hs Hz]. apply Forall_cons in Hl as [Hl0 Hl].
  constructor; [by apply IH|]. apply Forall_app. split; [done|].
  constructor; [unfold larger; lia|done].
Qed.

Lemma sorted_same R R' l :
  (forall p, p ∈ l -> blocks R' p = blocks R p) ->
  StronglySorted (larger R) l -> StronglySorted (larger R') l.
Proof.
  intros Hb Hs. revert Hb. induction Hs as [|x l Hs IH Hx]; intros Hb; constructor.
  - apply IH. set_solver.
  - rewrite Forall_forall in *. intros y Hy. unfold larger. rewrite !Hb by set_solver. by apply Hx.
Qed.

Lemma sorted_ext R R' l :
  relinked R R' -> StronglySorted (larger R) l -> StronglySorted (larger R') l.
Proof. intros Hr. apply sorted_same. intros p _. by apply relinked_blocks. Qed.

Lemma dll_size R prev p l nxt : dll R prev p l nxt -> NoDup l -> (length l <= size R)%nat.
Proof.
  intros Hd Hnd. rewrite <- (size_list_to_set (C := gset Z)) by done.
  rewrite <- size_dom. apply subseteq_size. intros x Hx%elem_of_list_to_set.
  destruct (dll_lookup _ _ _ _ _ _ Hd Hx) as (r & Hr). by apply elem_of_dom.
Qed.

(** Insertion of [x] before [y] in the middle of a list. *)
Lemma dll_push R pr y l nxt x ry rx r0 :
  dll R pr y (y :: l) nxt -> R !! y = Some ry -> x ∉ y :: l -> y ∉ l ->
  r_prev rx = pr -> r_next rx = y ->
  dll (<[x := rx]> (<[y := set_rprev x ry]> (<[x := r0]> R))) pr x (x :: y :: l) nxt.
Proof.
  intros Hd Hy Hx Hyl Hp Hn. split; [done|]. exists rx. rewrite lookup_insert_eq.
  split_and!; [done|done|]. rewrite Hn. apply dll_insert; [done|].
  eapply dll_first; [apply dll_insert; [exact Hx|exact Hd]|done|].
  rewrite lookup_insert_ne; [done|]. set_solver.
Qed.

(** Simplify the accesses to just-written headers. *)
Ltac rmaps :=
  cbn [put_region regions next_free_region next_created_region total_nblocks set_rprev set_rnext
       r_prev r_next nblocks r_status set_rstatus set_nblocks];
  repeat (first [ rewrite lookup_insert_eq | rewrite lookup_insert_ne by (congruence || done)
                | rewrite insert_insert_eq ]).

(** The two ways to link a new region: before [y], or after the last one. *)
Lemma insert_before_ok s l1 y l2 x rx ry :
  dll (regions s) 0 (next_free_region s) l1 y -> dll (regions s) (last_or 0 l1) y (y :: l2) 0 ->
  NoDup (x :: l1 ++ y :: l2) -> (forall z, z ∈ l1 -> z <> 0) ->
  regions s !! x = Some rx -> regions s !! y = Some ry -> r_prev ry = last_or 0 l1 ->
  wp (wr x (set_rprev (r_prev ry)) ;; wr y (set_rprev x) ;; wr x (set_rnext y) ;;
      let* n := rd x in
      if not_null (r_prev n) then wr (r_prev n) (set_rnext x) else set_free x)
    (fun _ s' => dll (regions s') 0 (next_free_region s') (l1 ++ x :: y :: l2) 0 /\
       relinked (regions s) (regions s') /\
       (forall p, p ∉ x :: l1 ++ y :: l2 -> regions s' !! p = regions s !! p) /\
       next_created_region s' = next_created_region s /\ total_nblocks s' = total_nblocks s) s.
Proof.
  intros Hd1 Hd2 Hnd H0 Hrx Hry Hpy. apply NoDup_cons in Hnd as [Hx Hnd].
  apply NoDup_app in Hnd as (Hnd1 & Hdis & Hnd2). apply NoDup_cons in Hnd2 as [Hyl2 Hnd2].
  assert (x <> y) as Hxy by set_solver.
  apply wp_bind. eapply wp_wr; [exact Hrx|]. apply wp_bind.
  eapply wp_wr; [rmaps; exact Hry|]. apply wp_bind. eapply wp_wr; [rmaps; done|].
  apply wp_bind. eapply wp_rd; [rmaps; done|]. cbn [set_rnext set_rprev r_prev].
  set (R3 := <[x := set_rnext y (set_rprev (r_prev ry) rx)]>
               (<[y := set_rprev x ry]> (<[x := set_rprev (r_prev ry) rx]> (regions s)))).
  assert (dll R3 (last_or 0 l1) x (x :: y :: l2) 0) as Hd3.
  { apply dll_push; try done. set_solver. }
  assert (relinked (regions s) R3) as Hrel.
  { unfold R3. repeat (apply relinked_wr; [|eexists; rmaps; eauto]). done. }
  assert (forall p, p ∉ x :: l1 ++ y :: l2 -> R3 !! p = regions s !! p) as Hfr.
  { intros p Hp. unfold R3. by rewrite !lookup_insert_ne by set_solver. }
  destruct l1 as [|z l1 _] using rev_ind.
  - replace (not_null (r_prev ry)) with false by (by rewrite Hpy). apply wp_modify. by split_and!.
  - rewrite last_or_snoc in *. assert (z <> 0) as Hz by (apply H0; set_solver).
    replace (not_null (r_prev ry)) with true
      by (unfold not_null; by rewrite Hpy, (proj2 (Z.eqb_neq z 0))).
    replace (wr (r_prev ry)) with (wr z) by (by rewrite Hpy).
    destruct (dll_lookup _ _ _ _ _ z Hd1 ltac:(set_solver)) as (rz & Hrz).
    assert (z <> x /\ z <> y /\ z ∉ l2) as (Hzx & Hzy & Hzl).
    { split_and!; [set_solver| |]; intros ?; apply (Hdis z); set_solver. }
    assert (z ∉ l1) as Hzl1 by (apply NoDup_app in Hnd1 as (_ & Hc & _); set_solver).
    assert (R3 !! z = Some rz) as Hrz3 by (unfold R3; rmaps; done).
    eapply wp_wr; [exact Hrz3|]. split_and!; try done.
    + apply dll_app. exists x. rewrite last_or_snoc. split.
      * eapply dll_ext; [|eapply dll_retarget; [exact Hd1|done|exact Hrz]].
        intros p Hp. destruct (decide (p = z)) as [->|Hpz]; cbn [put_region regions]; rmaps; [done|].
        assert (p <> x) by set_solver. assert (p <> y) by (intros ->; apply (Hdis y); set_solver).
        fold R3. unfold R3. by rewrite !lookup_insert_ne by congruence.
      * apply dll_insert; [|exact Hd3]. set_solver.
    + apply relinked_wr; [done|by exists rz].
    + intros p Hp. cbn [put_region regions]. rewrite lookup_insert_ne by set_solver. by apply Hfr.
Qed.

Lemma insert_after_ok s l1 y x rx ry :
  dll (regions s) 0 (next_free_region s) (l1 ++ [y]) 0 -> NoDup (x :: l1 ++ [y]) ->
  regions s !! x = Some rx -> regions s !! y = Some ry ->
  wp (wr x (set_rnext 0) ;; wr x (set_rprev y) ;; wr y (set_rnext x))
    (fun _ s' => dll (regions s') 0 (next_free_region s') ((l1 ++ [y]) ++ [x]) 0 /\
       relinked (regions s) (regions s') /\
       (forall p, p ∉ x :: l1 ++ [y] -> regions s' !! p = regions s !! p) /\
       next_created_region s' = next_created_region s /\ total_nblocks s' = total_nblocks s) s.
Proof.
  intros Hd Hnd Hrx Hry. apply NoDup_cons in Hnd as [Hx Hnd].
  apply NoDup_app in Hnd as (_ & Hdis & _). assert (x <> y) as Hxy by set_solver.
  apply wp_bind. eapply wp_wr; [exact Hrx|]. apply wp_bind. eapply wp_wr; [rmaps; done|].
  eapply wp_wr; [rmaps; exact Hry|]. rmaps. rewrite insert_insert_ne by done.
  split_and!; try done.
  - apply dll_snoc; [|done|cbn; by rewrite last_or_snoc|done].
    eapply dll_retarget; [exact Hd|set_solver|exact Hry].
  - repeat (apply relinked_wr; [|eexists; rmaps; eauto]). done.
  - intros p Hp. by rewrite !lookup_insert_ne by set_solver.
Qed.

(** The new region is put at its place in the list of free regions. *)
Lemma insert_free_ok s F x :
  dll (regions s) 0 (next_free_region s) F 0 -> NoDup (x :: F) -> (forall y, y ∈ x :: F -> y <> 0) ->
  (exists rx, regions s !! x = Some rx) -> StronglySorted (larger (regions s)) F ->
  wp (insert_free x) (fun _ s' => exists F',
    F' ≡ₚ x :: F /\ dll (regions s') 0 (next_free_region s') F' 0 /\
    StronglySorted (larger (regions s')) F' /\ relinked (regions s) (regions s') /\
    (forall p, p ∉ x :: F -> regions s' !! p = regions s !! p) /\
    next_created_region s' = next_created_region s /\ total_nblocks s' = total_nblocks s) s.
Proof.
  intros Hd Hnd H0 (rx & Hrx) Hs. apply NoDup_cons in Hnd as [Hx Hnd].
  unfold insert_free. apply wp_bind, wp_gets. destruct F as [|y0 F].
  - cbn in Hd. rewrite Hd. apply wp_bind, wp_modify. apply wp_bind.
    eapply wp_wr; [exact Hrx|]. eapply wp_wr; [apply lookup_insert_eq|]. cbn.
    rewrite insert_insert_eq. exists [x]. split_and!; try done.
    + by apply (dll_snoc (regions s) 0 x [] 0 x).
    + by repeat constructor.
    + apply relinked_wr; [done|by exists rx].
    + intros p Hp. apply lookup_insert_ne. set_solver.
  - pose proof Hd as (Hh & _). rewrite Hh in *.
    rewrite (proj2 (Z.eqb_neq y0 0)) by (apply H0; set_solver).
    apply wp_bind. eapply wp_rd; [exact Hrx|]. apply wp_bind, wp_gets. apply wp_bind.
    destruct (order_walk_ok s (walk_bound s) (nblocks rx) 0 y0 F) as (y & l1 & l2 & Hw & Hl & Hl1 & Hl2).
    { done. } { pose proof (dll_size _ _ _ _ _ Hd Hnd). cbn in *. unfold walk_bound. lia. }
    { intros z Hz. apply H0. set_solver. }
    eapply wp_eq; [exact Hw|]. cbn beta.
    rewrite Hl in *. apply dll_app in Hd as (m & Hd1 & Hd2). pose proof Hd2 as (-> & ry & Hry & Hpy & _).
    assert (blocks (regions s) x = nblocks rx) as Hbx by (unfold blocks; by rewrite Hrx).
    assert (blocks (regions s) y = nblocks ry) as Hby by (unfold blocks; by rewrite Hry).
    assert (x <> y) as Hxy by set_solver.
    apply NoDup_app in Hnd as (Hnd1 & Hdis & Hnd2). apply NoDup_cons in Hnd2 as [Hyl2 Hnd2].
    apply wp_bind. eapply wp_rd; [exact Hry|]. apply wp_bind. eapply wp_rd; [exact Hrx|].
    destruct (nblocks ry <=? nblocks rx) eqn:Hle; zbool.
    + eapply wp_mono; [apply (insert_before_ok s l1 y l2 x rx ry); try done|].
      * by rewrite Hh.
      * constructor; [done|]. by apply NoDup_app; split_and!; [| |constructor].
      * intros z Hz. apply H0. set_solver.
      * intros _ s' (Hd' & Hrel & Hfr & Hc & Ht). exists (l1 ++ x :: y :: l2). split_and!; try done.
        { by rewrite <- Permutation_middle. }
        eapply sorted_ext; [exact Hrel|]. apply sorted_insert; [done| |lia].
        rewrite Hbx. done.
    + assert (l2 = []) as -> by (destruct l2; [done|]; exfalso; specialize (Hl2 ltac:(done)); lia).
      eapply wp_mono; [apply (insert_after_ok s l1 y x rx ry); try done|].
      * rewrite Hh. apply dll_app. eauto.
      * constructor; [done|]. by apply NoDup_app; split_and!; [| |constructor].
      * intros _ s' (Hd' & Hrel & Hfr & Hc & Ht). exists ((l1 ++ [y]) ++ [x]). split_and!; try done.
        { by rewrite (Permutation_app_comm _ [x]). }
        eapply sorted_ext; [exact Hrel|]. apply sorted_snoc; [done|].
        apply Forall_app. split; [by rewrite Hbx|]. repeat constructor. lia.
Qed.

(** The allocated region is put at the end of the list of created regions. *)
Lemma append_created_ok s A c rc :
  dll (regions s) 0 (next_created_region s) A 0 -> NoDup (c :: A) -> (forall y, y ∈ A -> y <> 0) ->
  regions s !! c = Some rc -> r_prev rc = 0 -> r_next rc = 0 ->
  wp (append_created c) (fun _ s' =>
    dll (regions s') 0 (next_created_region s') (A ++ [c]) 0 /\ relinked (regions s) (regions s') /\
    (forall p, p ∉ c :: A -> regions s' !! p = regions s !! p) /\
    next_free_region s' = next_free_region s /\ total_nblocks s' = total_nblocks s) s.
Proof.
  intros Hd Hnd H0 Hrc Hp Hn. apply NoDup_cons in Hnd as [Hc Hnd].
  unfold append_created. apply wp_bind, wp_gets. destruct A as [|a A].
  - cbn in Hd. rewrite Hd. apply wp_modify. cbn. split_and!; try done. exists rc. by rewrite Hn.
  - pose proof Hd as (Hh & _). rewrite Hh in Hd |- *. rewrite (proj2 (Z.eqb_neq a 0)) by (apply H0; set_solver).
    apply wp_bind, wp_gets. apply wp_bind.
    assert (length A < walk_bound s)%nat as Hf.
    { pose proof (dll_size _ _ _ _ _ Hd Hnd). cbn in *. unfold walk_bound. lia. }
    eapply wp_eq; [apply (last_walk_ok s _ 0 a A); [done|done|]|].
    { intros y Hy. apply H0. set_solver. }
    destruct (exists_last (l := a :: A)) as (A' & z & HA); [done|].
    replace (last_or a A) with z by (by rewrite <- (last_or_cons 0), HA, last_or_snoc).
    rewrite HA in *. apply NoDup_app in Hnd as (_ & Hdis & _).
    destruct (dll_lookup _ _ _ _ _ z Hd ltac:(set_solver)) as (rz & Hrz).
    assert (c <> z) as Hcz by set_solver.
    apply wp_bind. eapply wp_wr; [exact Hrz|]. eapply wp_wr; [rmaps; exact Hrc|].
    rmaps. split_and!; try done.
    + rewrite Hh. apply dll_snoc; [|done|cbn; by rewrite last_or_snoc|done].
      eapply dll_retarget; [exact Hd|set_solver|exact Hrz].
    + repeat (apply relinked_wr; [|eexists; rmaps; eauto]). done.
    + intros p Hpn. by rewrite !lookup_insert_ne by set_solver.
Qed.

(** ** The invariant of the heap *)

Definition tag (R : gmap Z region) (p : Z) : Z := r_status (default (mkRegion 0 0 0 0) (R !! p)).
Definition extent (R : gmap Z region) (p : Z) : Z := DNA_KERNEL_BLOCK_SIZE * blocks R p.

Record heap_ok (s : mstate) (F A : list Z) : Prop := {
  heap_free : dll (regions s) 0 (next_free_region s) F 0;
  heap_sorted : StronglySorted (larger (regions s)) F;
  heap_created : dll (regions s) 0 (next_created_region s) A 0;
  heap_nodup : NoDup (F ++ A);
  heap_bounds : forall p, p ∈ F ++ A ->
    0 < p /\ 0 < blocks (regions s) p /\ p + extent (regions s) p <= 2 ^ 32;
  heap_disjoint : forall p q, p ∈ F ++ A -> q ∈ F ++ A -> p <> q ->
    p + extent (regions s) p <= q \/ q + extent (regions s) q <= p;
  heap_tags : forall p, p ∈ F ++ A ->
    tag (regions s) p = if decide (p ∈ F) then DNA_KERNEL_FREE_REGION else DNA_KERNEL_ALLOCATED_REGION
}.

Lemma relinked_tag R R' p : relinked R R' -> tag R' p = tag R p.
Proof.
  intros HR. specialize (HR p). unfold tag.
  destruct (R !! p), (R' !! p); cbn in *; try done. by injection HR.
Qed.

Lemma tag_insert R x r p :
  tag (<[x := r]> R) p = if decide (p = x) then r_status r else tag R p.
Proof.
  unfold tag. case_decide as Hp; [subst; by rewrite lookup_insert_eq|].
  by rewrite lookup_insert_ne by congruence.
Qed.

Lemma relinked_trans R1 R2 R3 : relinked R1 R2 -> relinked R2 R3 -> relinked R1 R3.
Proof. intros H12 H23 p. by rewrite H23. Qed.

(** The first free region is the largest one. *)
Lemma heap_head_largest s c F A p :
  heap_ok s (c :: F) A -> p ∈ c :: F -> blocks (regions s) p <= blocks (regions s) c.
Proof.
  intros Hok [->|Hp]%elem_of_cons; [done|]. pose proof (heap_sorted _ _ _ Hok) as Hs.
  apply StronglySorted_inv in Hs as [_ Hs]. rewrite Forall_forall in Hs. by apply Hs.
Qed.

(** A region cut out of the first free one collides with nothing. *)
Lemma cut_fresh s c F A req :
  heap_ok s (c :: F) A -> 0 < req < blocks (regions s) c ->
  c + req * DNA_KERNEL_BLOCK_SIZE ∉ c :: F ++ A.
Proof.
  intros Hok Hreq Hin. set (n := c + req * DNA_KERNEL_BLOCK_SIZE) in *.
  assert (n <> c) as Hnc by (unfold n, DNA_KERNEL_BLOCK_SIZE, sizeof_region; lia).
  destruct (heap_disjoint _ _ _ Hok c n) as [Hd|Hd]; [set_solver|exact Hin|done| |];
    pose proof (heap_bounds _ _ _ Hok n Hin) as (_ & Hb & _);
    unfold extent, n, DNA_KERNEL_BLOCK_SIZE, sizeof_region in *; lia.
Qed.

(** The first free region leaves the list. *)
Lemma detach_ok s c F rc :
  dll (regions s) 0 c (c :: F) 0 -> NoDup (c :: F) -> (forall p, p ∈ F -> p <> 0) ->
  regions s !! c = Some rc ->
  wp (if not_null (r_next rc) then wr (r_next rc) (set_rprev 0) else ret tt)
    (fun _ s' => dll (regions s') 0 (r_next rc) F 0 /\ relinked (regions s) (regions s') /\
       (forall p, p ∉ F -> regions s' !! p = regions s !! p) /\
       next_created_region s' = next_created_region s /\ total_nblocks s' = total_nblocks s) s.
Proof.
  intros (_ & rc' & Hrc' & _ & Hd) Hnd H0 Hrc. rewrite Hrc in Hrc'. injection Hrc' as <-.
  apply NoDup_cons in Hnd as [Hc Hnd]. destruct F as [|y F].
  - cbn in Hd. rewrite Hd. by apply wp_ret.
  - pose proof Hd as (Hn & ry & Hry & _). rewrite Hn in *. apply NoDup_cons in Hnd as [Hy _].
    unfold not_null. rewrite (proj2 (Z.eqb_neq y 0)) by (apply H0; set_solver). cbn [negb].
    eapply wp_wr; [exact Hry|]. split_and!; try done.
    + by eapply dll_first.
    + apply relinked_wr; [done|by exists ry].
    + intros p Hp. apply lookup_insert_ne. set_solver.
Qed.

(** What an allocation of [req] blocks makes of the data of the headers. *)
Definition cut (R R' : gmap Z region) (c n req : Z) : Prop :=
  forall p, blocks R' p = (if decide (p = c) then req
                           else if decide (p = n) then blocks R c - req else blocks R p) /\
            tag R' p = (if decide (p = c) then DNA_KERNEL_ALLOCATED_REGION
                        else if decide (p = n) then DNA_KERNEL_FREE_REGION else tag R p).

Lemma cut_heap s s' c F A F' req :
  let n := c + req * DNA_KERNEL_BLOCK_SIZE in
  heap_ok s (c :: F) A -> 0 < req < blocks (regions s) c -> F' ≡ₚ n :: F ->
  cut (regions s) (regions s') c n req ->
  dll (regions s') 0 (next_free_region s') F' 0 -> StronglySorted (larger (regions s')) F' ->
  dll (regions s') 0 (next_created_region s') (A ++ [c]) 0 ->
  heap_ok s' F' (A ++ [c]).
Proof.
  intros n Hok Hreq HF Hcut Hd Hs Hc. pose proof (cut_fresh _ _ _ _ _ Hok Hreq) as Hn. fold n in Hn.
  assert (forall p, p ∈ F' ++ A ++ [c] <-> p = n \/ p ∈ (c :: F) ++ A) as Hin.
  { intros p. rewrite HF. set_solver. }
  assert (n <> c) as Hnc by set_solver.
  assert (n = c + 32 * req) as Hn' by (unfold n, DNA_KERNEL_BLOCK_SIZE, sizeof_region; lia).
  pose proof (heap_nodup _ _ _ Hok) as Hnd. pose proof (heap_bounds _ _ _ Hok) as Hb.
  pose proof (heap_disjoint _ _ _ Hok) as Hdis. pose proof (heap_tags _ _ _ Hok) as Ht.
  pose proof (Hb c ltac:(set_solver)) as Hbc.
  assert (forall p, p ∈ (c :: F) ++ A -> n = p -> False) as Hnp by (intros p Hp ->; set_solver).
  assert (forall p, p ∈ (c :: F) ++ A -> p <> c ->
            p + extent (regions s) p <= c \/ c + extent (regions s) c <= p) as Hpc.
  { intros p Hp Hne. apply Hdis; set_solver. }
  clearbody n. split; try done; unfold extent, DNA_KERNEL_BLOCK_SIZE, sizeof_region in *.
  - rewrite HF. rewrite (Permutation_app_comm A [c]). cbn [app]. apply NoDup_cons. split.
    + set_solver.
    + rewrite <- Permutation_middle. done.
  - intros p [->|Hp]%Hin; rewrite (proj1 (Hcut _)).
    + rewrite decide_False, decide_True by done. lia.
    + specialize (Hb p Hp). case_decide; [subst; lia|]. case_decide; [by destruct (Hnp p)|lia].
  - intros p q [->|Hp]%Hin [->|Hq]%Hin Hpq; [done|..];
      rewrite (proj1 (Hcut p)), (proj1 (Hcut q)) || rewrite (proj1 (Hcut n)), (proj1 (Hcut q))
        || rewrite (proj1 (Hcut p)), (proj1 (Hcut n));
      repeat case_decide; subst p || subst q || idtac; try (exfalso; by eauto); try lia;
      first [ by apply Hdis
            | specialize (Hpc q Hq ltac:(done)); specialize (Hb q Hq); lia
            | specialize (Hpc p Hp ltac:(done)); specialize (Hb p Hp); lia ].
  - intros p Hp%Hin. rewrite (proj2 (Hcut p)). destruct (decide (p = c)) as [->|Hpc'].
    + rewrite decide_False; [done|]. rewrite HF. apply NoDup_app in Hnd as (Hnd & _).
      apply NoDup_cons in Hnd. set_solver.
    + destruct (decide (p = n)) as [->|Hpn]; [rewrite decide_True; [done|rewrite HF; set_solver]|].
      destruct Hp as [->|Hp]; [done|]. rewrite (Ht p Hp).
      destruct (decide (p ∈ c :: F)) as [Hf|Hf]; [rewrite decide_True by (rewrite HF; set_solver); done|].
      rewrite decide_False; [done|]. rewrite HF. set_solver.
Qed.

(** The headers of the two halves are written. *)
Lemma carve_ok {B} s c n rc req (k : M mstate B) Q :
  regions s !! c = Some rc -> n <> c -> 0 < req < nblocks rc -> nblocks rc < 2 ^ 31 ->
  (forall rn, nblocks rn = nblocks rc - req -> r_status rn = DNA_KERNEL_FREE_REGION ->
     wp k Q (mkM (<[c := mkRegion req DNA_KERNEL_ALLOCATED_REGION 0 0]> (<[n := rn]> (regions s)))
                 (total_nblocks s) (next_created_region s) (r_next rc))) ->
  wp (let* c0 := rd c in
      set_free (r_next c0) ;;
      wr_new n (set_rstatus DNA_KERNEL_FREE_REGION) ;;
      let* c1 := rd c in
      wr n (set_nblocks (i32 (u32 (nblocks c1) - req))) ;;
      wr c (set_rprev 0) ;; wr c (set_rnext 0) ;;
      wr c (set_rstatus DNA_KERNEL_ALLOCATED_REGION) ;;
      wr c (set_nblocks (i32 req)) ;; k) Q s.
Proof.
  intros Hrc Hnc Hreq Hm Hk. apply wp_bind. eapply wp_rd; [exact Hrc|].
  apply wp_bind, wp_modify. apply wp_bind, wp_wr_new. apply wp_bind.
  eapply wp_rd; [rmaps; exact Hrc|]. rewrite u32_id, !i32_id by lia.
  apply wp_bind. eapply wp_wr; [rmaps; done|].
  do 4 (apply wp_bind; eapply wp_wr; [rmaps; done || exact Hrc|]).
  unfold put_region. cbn [regions total_nblocks next_created_region next_free_region].
  rewrite !insert_insert_eq. by apply Hk.
Qed.

(** A request that the largest free region can serve. *)
Lemma kernel_region_create_ok s c F A required :
  heap_ok s (c :: F) A -> 0 <= required -> required + 1 < blocks (regions s) c ->
  wp (kernel_region_create required) (fun res s' => res = (DNA_OK, c) /\
    exists F', F' ≡ₚ c + (required + 1) * DNA_KERNEL_BLOCK_SIZE :: F /\
      heap_ok s' F' (A ++ [c]) /\
      cut (regions s) (regions s') c (c + (required + 1) * DNA_KERNEL_BLOCK_SIZE) (required + 1) /\
      total_nblocks s' = total_nblocks s) s.
Proof.
  intros Hok H0 Hreq. pose proof (heap_bounds _ _ _ Hok c ltac:(set_solver)) as Hbc.
  pose proof (heap_free _ _ _ Hok) as Hd. pose proof Hd as (Hh & rc & Hrc & _).
  assert (blocks (regions s) c = nblocks rc) as Hb by (unfold blocks; by rewrite Hrc).
  set (req := required + 1) in *. unfold extent, DNA_KERNEL_BLOCK_SIZE, sizeof_region in Hbc.
  assert (0 < req < blocks (regions s) c) as Hreq' by lia.
  pose proof (cut_fresh _ _ _ _ _ Hok Hreq') as Hn. set (n := c + req * DNA_KERNEL_BLOCK_SIZE) in *.
  unfold kernel_region_create. apply wp_bind, wp_gets. rewrite Hh in *. fold req.
  rewrite (u32_id req) by lia. replace (not_null c) with true by (symmetry; unfold not_null; zbool; lia).
  apply wp_bind. eapply wp_rd; [exact Hrc|]. rewrite (u32_id (nblocks rc)) by lia.
  rewrite (proj2 (Z.ltb_lt req _)) by lia.
  pose proof (heap_nodup _ _ _ Hok) as Hnd. cbn [app] in Hnd.
  pose proof (heap_bounds _ _ _ Hok) as Hbs. apply NoDup_cons in Hnd as [Hc Hnd].
  pose proof Hnd as (HndF & HFA & HndA)%NoDup_app.
  apply wp_bind. eapply wp_mono; [eapply (detach_ok s c F rc); try done|].
  { apply NoDup_cons. set_solver. } { intros p Hp. specialize (Hbs p ltac:(set_solver)). lia. }
  intros _ s1 (Hd1 & Hrel1 & Hfr1 & Hcr1 & Ht1).
  replace (u32 (c + req * DNA_KERNEL_BLOCK_SIZE)) with n
    by (symmetry; apply u32_id; unfold n, DNA_KERNEL_BLOCK_SIZE, sizeof_region; lia).
  assert (n <> 0) as Hn0 by (unfold n, DNA_KERNEL_BLOCK_SIZE, sizeof_region; lia).
  apply (carve_ok s1 c n rc req); [rewrite Hfr1 by set_solver; done|set_solver|lia|lia|].
  intros rn Hrn Htn. set (R1 := <[c := _]> _).
  assert (forall p, p <> c -> p <> n -> R1 !! p = regions s1 !! p) as Hfr2.
  { intros p Hp1 Hp2. unfold R1. by rewrite !lookup_insert_ne by congruence. }
  assert (cut (regions s) R1 c n req) as Hcut.
  { intros p. unfold R1. rewrite !blocks_insert, !tag_insert, (relinked_blocks _ _ _ Hrel1),
      (relinked_tag _ _ _ Hrel1), Hrn, Htn, Hb. done. }
  apply wp_bind. eapply wp_mono; [apply (insert_free_ok _ F n); cbn [regions next_free_region]|].
  { eapply dll_ext; [|exact Hd1]. intros p Hp. apply Hfr2; set_solver. }
  { apply NoDup_cons. set_solver. }
  { intros p [->|Hp]%elem_of_cons; [done|]. specialize (Hbs p ltac:(set_solver)). lia. }
  { exists rn. unfold R1. rewrite lookup_insert_ne by set_solver. apply lookup_insert_eq. }
  { eapply sorted_same; [|eapply StronglySorted_inv, (heap_sorted _ _ _ Hok)].
    intros p Hp. rewrite (proj1 (Hcut p)), !decide_False by set_solver. done. }
  cbn [regions next_free_region next_created_region total_nblocks].
  intros _ s3 (F' & HF & Hd3 & Hs3 & Hrel3 & Hfr3 & Hcr3 & Ht3).
  apply wp_bind. eapply wp_mono; [eapply (append_created_ok s3 A c)|].
  { rewrite Hcr3, Hcr1. eapply dll_ext; [|exact (heap_created _ _ _ Hok)]. intros p Hp.
    rewrite Hfr3, Hfr2, Hfr1 by set_solver. done. }
  { apply NoDup_cons. set_solver. }
  { intros p Hp. specialize (Hbs p ltac:(set_solver)). lia. }
  { rewrite Hfr3 by set_solver. apply lookup_insert_eq. } { done. } { done. }
  intros _ s4 (Hd4 & Hrel4 & Hfr4 & Hn4 & Ht4). apply wp_ret. split; [done|]. exists F'.
  assert (cut (regions s) (regions s4) c n req) as Hcut4.
  { intros p. pose proof (relinked_trans _ _ _ Hrel3 Hrel4) as Hr.
    rewrite (relinked_blocks _ _ _ Hr), (relinked_tag _ _ _ Hr). apply Hcut. }
  split_and!; [done| |done|congruence].
  eapply cut_heap; try done.
  - rewrite Hn4. eapply dll_ext; [|exact Hd3]. intros p Hp. rewrite HF in Hp. apply Hfr4. set_solver.
  - by eapply sorted_ext.
Qed.

Lemma served_or_not R F required :
  (exists c F0, F = c :: F0 /\ required + 1 < blocks R c) \/
  (forall c, hd_error F = Some c -> blocks R c <= required + 1).
Proof.
  destruct F as [|c F]; [by right|]. destruct (decide (required + 1 < blocks R c)); [eauto|].
  right. intros ? [= <-]. lia.
Qed.

(** A request that no free region can serve. *)
Lemma kernel_region_create_none s F A required :
  heap_ok s F A -> 0 <= required < 2 ^ 32 - 1 ->
  (forall c, hd_error F = Some c -> blocks (regions s) c <= required + 1) ->
  kernel_region_create required s =
    Ret ((if decide (F = []) then DNA_ERROR else DNA_OUT_OF_MEM), 0) s.
Proof.
  intros Hok Hreq Hbig. apply wp_run. unfold kernel_region_create. apply wp_bind, wp_gets.
  pose proof (heap_free _ _ _ Hok) as Hd. destruct F as [|c F].
  - cbn in Hd. rewrite Hd. by apply wp_ret.
  - destruct Hd as (Hh & rc & Hrc & _). specialize (Hbig c eq_refl).
    pose proof (heap_bounds _ _ _ Hok c ltac:(set_solver)) as Hbc.
    unfold extent, DNA_KERNEL_BLOCK_SIZE, sizeof_region in Hbc.
    assert (blocks (regions s) c = nblocks rc) as Hb by (unfold blocks; by rewrite Hrc).
    rewrite Hh. replace (not_null c) with true by (symmetry; unfold not_null; zbool; lia).
    apply wp_bind. eapply wp_rd; [exact Hrc|]. rewrite !u32_id by lia.
    rewrite (proj2 (Z.ltb_ge _ _)) by lia. by apply wp_ret.
Qed.

(** The heap left by memory_create. *)
Lemma memory_create_ok s addr bytes :
  0 < addr -> 2 * DNA_KERNEL_BLOCK_SIZE <= bytes -> addr + bytes <= 2 ^ 32 ->
  exists s', memory_create addr bytes s = Ret DNA_OK s' /\ heap_ok s' [addr] [] /\
    blocks (regions s') addr = bytes / DNA_KERNEL_BLOCK_SIZE - 1 /\
    total_nblocks s' = bytes / DNA_KERNEL_BLOCK_SIZE.
Proof.
  unfold DNA_KERNEL_BLOCK_SIZE, sizeof_region. intros Ha Hb He.
  assert (2 <= bytes / 32 /\ 32 * (bytes / 32) <= bytes) as Hdiv.
  { split; [by apply Z.div_le_lower_bound|]. by apply Z.mul_div_le. }
  assert (bytes / (2 * 16) = bytes / 32) as H16 by done.
  apply wp_returns. unfold memory_create, DNA_KERNEL_BLOCK_SIZE, sizeof_region. rewrite H16.
  rewrite u32_id, !i32_id by lia.
  apply wp_bind, wp_wr_new. do 3 (apply wp_bind; eapply wp_wr; [rmaps; done|]).
  do 3 (apply wp_bind, wp_modify). apply wp_ret. split; [done|]. rmaps.
  set (R := <[addr := _]> _).
  assert (blocks R addr = bytes / 32 - 1) as Hbl by (unfold R; by rewrite blocks_insert, decide_True).
  assert (tag R addr = DNA_KERNEL_FREE_REGION) as Htg by (unfold R; by rewrite tag_insert, decide_True).
  split_and!; [|done|done].
  split; cbn [app regions next_free_region next_created_region dll]; try done.
  - split; [done|]. eexists. unfold R. rewrite lookup_insert_eq. done.
  - by repeat constructor.
  - apply NoDup_singleton.
  - intros p ->%list_elem_of_singleton. unfold extent, DNA_KERNEL_BLOCK_SIZE, sizeof_region. lia.
  - intros p q ->%list_elem_of_singleton ->%list_elem_of_singleton. done.
  - intros p ->%list_elem_of_singleton. rewrite decide_True by set_solver. done.
Qed.

(** ** Theorems *)

(** memory_create leaves one free region, made of the whole heap but one block,
    and no allocated region. *)
Theorem memory_create_spec s addr bytes :
  0 < addr -> 2 * DNA_KERNEL_BLOCK_SIZE <= bytes -> addr + bytes <= 2 ^ 32 ->
  exists s', memory_create addr bytes s = Ret DNA_OK s' /\ heap_ok s' [addr] [] /\
    blocks (regions s') addr = bytes / DNA_KERNEL_BLOCK_SIZE - 1 /\
    total_nblocks s' = bytes / DNA_KERNEL_BLOCK_SIZE.
Proof. apply memory_create_ok. Qed.

(** C3: kernel_region_create serves a request from the largest free region, which
    it cuts in two regions that do not overlap; it fails, and changes nothing, only when no
    free region is larger than the request. *)
Theorem kernel_region_create_spec s F A required :
  heap_ok s F A -> 0 <= required < 2 ^ 32 - 1 ->
  exists st c s', kernel_region_create required s = Ret (st, c) s' /\
    ((st = DNA_OK /\ c ∈ F /\ (forall q, q ∈ F -> blocks (regions s) q <= blocks (regions s) c) /\
      exists F', F' ≡ₚ c + (required + 1) * DNA_KERNEL_BLOCK_SIZE :: filter (fun q => q <> c) F /\
        heap_ok s' F' (A ++ [c]) /\
        cut (regions s) (regions s') c (c + (required + 1) * DNA_KERNEL_BLOCK_SIZE) (required + 1)) \/
     (st = (if decide (F = []) then DNA_ERROR else DNA_OUT_OF_MEM) /\ c = 0 /\ s' = s /\
      forall q, q ∈ F -> blocks (regions s) q <= required + 1)).
Proof.
  intros Hok Hreq. pose proof heap_head_largest as Hmax.
  destruct (served_or_not (regions s) F required) as [(c & F0 & -> & Hlt)|Hge].
  - destruct (proj1 (wp_exists _ _ _) (kernel_region_create_ok s c F0 A required Hok ltac:(lia) Hlt))
      as (res & s' & Hrun & -> & F' & HF & Hok' & Hcut & _).
    exists DNA_OK, c, s'. split; [done|]. left. split_and!; [done|set_solver|by eauto|].
    exists F'. split_and!; try done. rewrite filter_cons_False, filter_absent; [done| |naive_solver].
    pose proof (heap_nodup _ _ _ Hok) as Hnd. cbn [app] in Hnd. apply NoDup_cons in Hnd. set_solver.
  - eexists _, 0, s. split; [by eapply kernel_region_create_none|]. right. split_and!; try done.
    intros q Hq. destruct F as [|c F]; [by apply not_elem_of_nil in Hq|].
    specialize (Hmax _ _ _ _ _ Hok Hq). specialize (Hge c eq_refl). lia.
Qed.

Lemma memory_create_spec_witness :
  exists s', memory_create 0x1000 4096 (mkM ∅ 0 0 0) = Ret DNA_OK s' /\ heap_ok s' [0x1000] [] /\
    blocks (regions s') 0x1000 = 127 /\ total_nblocks s' = 128.
Proof. apply (memory_create_spec (mkM ∅ 0 0 0) 0x1000 4096); vm_compute; congruence. Defined.

Lemma kernel_region_create_spec_witness :
  exists s st c s', heap_ok s [0x1000] [] /\ kernel_region_create 9 s = Ret (st, c) s'.
Proof.
  destruct (memory_create_ok (mkM ∅ 0 0 0) 0x1000 4096) as (s & _ & Hok & _ & _);
    [vm_compute; congruence..|].
  destruct (kernel_region_create_spec s [0x1000] [] 9 Hok) as (st & c & s' & Hr & _); [lia|].
  exists s, st, c, s'. exact (conj Hok Hr).
Defined.

(** ** The list of created regions after a destruction

    Three regions are created in a fresh heap, then the second is destroyed.
    kernel_region_destroy clears [region -> next] before it copies it into the
    previous region: the third region, still allocated, is no more reachable. *)
Definition three_regions : M mstate (Z * Z * Z) :=
  memory_create 0x1000 4096 ;;
  let* a := kernel_region_create 1 in
  let* b := kernel_region_create 1 in
  let* c := kernel_region_create 1 in
  ret (a.2, b.2, c.2).

Lemma kernel_region_destroy_truncates :
  exists a b c s s', three_regions (mkM ∅ 0 0 0) = Ret (a, b, c) s /\
    dll (regions s) 0 (next_created_region s) [a; b; c] 0 /\
    kernel_region_destroy b s = Ret DNA_OK s' /\
    dll (regions s') 0 (next_created_region s') [a] 0 /\
    tag (regions s') c = DNA_KERNEL_ALLOCATED_REGION.
Proof.
  do 5 eexists. split; [vm_compute; reflexivity|]. split.
  - vm_compute. repeat (split; [reflexivity|eexists; split; [reflexivity|split; [reflexivity|]]]).
    reflexivity.
  - split; [vm_compute; reflexivity|]. split; [|reflexivity].
    vm_compute. split; [reflexivity|eexists; split; [reflexivity|split; reflexivity]].
Qed.
