(* ===== verification/AllocatorFree.v ===== *)
(** * Correctness of kernel_region_destroy (Allocator.v)

    A region that is given back is merged with the free regions just before and just
    after it, if any, and the result takes its place in the list of the free regions.

    The code cuts the list of the created regions at the region it destroys: the regions
    created later are still allocated but in no list.  [heap_live s F A D] says that
    the free regions [F], the created ones [A] and the lost ones [D] do not overlap. *)

From Stdlib Require Import Sorted.
From S2P Require Import Prelude Status Allocator AllocatorSpec.

(** ** Regions that do not overlap *)

Record apart (R : gmap Z region) (l : list Z) : Prop := {
  apart_nodup : NoDup l;
  apart_bounds : forall p, p ∈ l -> 0 < p /\ 0 < blocks R p /\ p + extent R p <= 2 ^ 32;
  apart_disjoint : forall p q, p ∈ l -> q ∈ l -> p <> q -> p + extent R p <= q \/ q + extent R q <= p
}.

Record heap_live (s : mstate) (F A D : list Z) : Prop := {
  live_ok : heap_ok s F A;
  live_apart : apart (regions s) (F ++ A ++ D);
  live_tags : forall p, p ∈ D -> tag (regions s) p = DNA_KERNEL_ALLOCATED_REGION
}.

Lemma heap_ok_live s F A : heap_ok s F A -> heap_live s F A [].
Proof.
  intros Hok. split; [done| |by intros p Hp%not_elem_of_nil]. rewrite app_nil_r. destruct Hok. by split.
Qed.

(** Two heaps whose regions [l] have the same sizes. *)
Lemma apart_same R R' l : (forall p, p ∈ l -> blocks R' p = blocks R p) -> apart R l -> apart R' l.
Proof.
  intros Hb [Hnd Hbd Hd]. assert (forall p, p ∈ l -> extent R' p = extent R p) as He by (intros; unfold extent; by rewrite Hb).
  split; [done| |].
  - intros p Hp. rewrite Hb, He by done. auto.
  - intros p q Hp Hq. rewrite !He by done. auto.
Qed.

Lemma apart_perm R l l' : l ≡ₚ l' -> apart R l -> apart R l'.
Proof.
  intros Hl [Hnd Hb Hd]. split; [by rewrite <- Hl|..].
  - intros p. rewrite <- Hl. auto.
  - intros p q. rewrite <- Hl. auto.
Qed.

(** ** Lists and links *)

(** A list depends on the links of its elements only. *)
Lemma dll_links R R' prev p l nxt :
  (forall x r, x ∈ l -> R !! x = Some r -> exists r', R' !! x = Some r' /\ r_prev r' = r_prev r /\ r_next r' = r_next r) ->
  dll R prev p l nxt -> dll R' prev p l nxt.
Proof.
  revert prev p. induction l as [|x l IH]; intros prev p Hx; cbn [dll]; [done|].
  intros (-> & r & Hr & Hp & Hd). split; [done|]. destruct (Hx x r) as (r' & Hr' & Hp' & Hn'); [set_solver|done|].
  exists r'. split_and!; [done|congruence|]. rewrite Hn'. apply IH; [intros; apply Hx; set_solver|done].
Qed.

Lemma dll_nblocks R prev p l nxt x r n :
  R !! x = Some r -> dll R prev p l nxt -> dll (<[x := set_nblocks n r]> R) prev p l nxt.
Proof.
  intros Hr. apply dll_links. intros y ry _ Hy. destruct (decide (x = y)) as [->|Hne].
  - rewrite lookup_insert_eq. exists (set_nblocks n r). assert (r = ry) as -> by congruence. done.
  - rewrite lookup_insert_ne by done. eauto.
Qed.

Lemma dll_rstatus R prev p l nxt x r n :
  R !! x = Some r -> dll R prev p l nxt -> dll (<[x := set_rstatus n r]> R) prev p l nxt.
Proof.
  intros Hr. apply dll_links. intros y ry _ Hy. destruct (decide (x = y)) as [->|Hne].
  - rewrite lookup_insert_eq. exists (set_rstatus n r). assert (r = ry) as -> by congruence. done.
  - rewrite lookup_insert_ne by done. eauto.
Qed.

(** The links around the element [x] of a list. *)
Lemma dll_middle R prev p l1 x l2 nxt :
  dll R prev p (l1 ++ x :: l2) nxt ->
  exists r, R !! x = Some r /\ r_prev r = last_or prev l1 /\ dll R prev p l1 x /\ dll R x (r_next r) l2 nxt.
Proof. intros (m & H1 & (-> & r & Hr & Hp & H2))%dll_app. by exists r. Qed.

(** Link the neighbours [a] and [b], 0 being the end of the list. *)
Definition join (a b : Z) (R : gmap Z region) : gmap Z region :=
  let R := if a =? 0 then R else alter (set_rnext b) a R in
  if b =? 0 then R else alter (set_rprev a) b R.

Lemma join_other a b R z : z <> a -> z <> b -> join a b R !! z = R !! z.
Proof. intros Ha Hb. unfold join. destruct (a =? 0), (b =? 0); by rewrite ?lookup_alter_ne by congruence. Qed.

Lemma join_left a b R r : a <> 0 -> a <> b -> R !! a = Some r -> join a b R !! a = Some (set_rnext b r).
Proof.
  intros Ha Hb Hr. unfold join. rewrite (proj2 (Z.eqb_neq a 0)) by done.
  destruct (b =? 0); rewrite ?lookup_alter_ne by congruence; by rewrite lookup_alter_eq, Hr.
Qed.

Lemma join_right a b R r : b <> 0 -> a <> b -> R !! b = Some r -> join a b R !! b = Some (set_rprev a r).
Proof.
  intros Hb Hab Hr. unfold join. rewrite (proj2 (Z.eqb_neq b 0)) by done.
  rewrite lookup_alter_eq. destruct (a =? 0); rewrite ?lookup_alter_ne by congruence; by rewrite Hr.
Qed.

Lemma alter_Some {A} (f : A -> A) (m : gmap Z A) i x : m !! i = Some x -> alter f i m = <[i := f x]> m.
Proof.
  intros Hx. apply map_eq. intros j. destruct (decide (i = j)) as [->|Hne].
  - by rewrite lookup_alter_eq, lookup_insert_eq, Hx.
  - by rewrite lookup_alter_ne, lookup_insert_ne.
Qed.

Lemma relinked_alter R R' f x :
  (forall r, data (f r) = data r) -> relinked R R' -> relinked R (alter f x R').
Proof.
  intros Hf HR. destruct (R' !! x) as [r|] eqn:Hx.
  - rewrite (alter_Some _ _ _ _ Hx). apply relinked_wr; [done|]. exists r. auto.
  - intros p. destruct (decide (x = p)) as [->|Hne]; [rewrite lookup_alter_eq|by rewrite lookup_alter_ne].
    by rewrite <- HR, Hx.
Qed.

Lemma relinked_join R R' a b : relinked R R' -> relinked R (join a b R').
Proof. intros HR. unfold join. destruct (a =? 0), (b =? 0); by repeat apply relinked_alter. Qed.

(** Two lists joined in one. *)
Lemma dll_join R p l1 x y n l2 :
  dll R 0 p l1 x -> dll R y n l2 0 -> NoDup (l1 ++ l2) -> (forall z, z ∈ l1 ++ l2 -> z <> 0) ->
  dll (join (last_or 0 l1) n R) 0 (if decide (l1 = []) then n else p) (l1 ++ l2) 0.
Proof.
  intros H1 H2 (Hnd1 & Hdis & Hnd2)%NoDup_app H0. apply dll_app. exists n.
  assert (forall z, z ∈ l2 -> last_or 0 l1 <> z) as Hlast.
  { intros z Hz <-. destruct l1 as [|w l1 _] using rev_ind; [by apply (H0 0); [set_solver|]|].
    rewrite last_or_snoc in Hz. by apply (Hdis w); [set_solver|]. }
  assert (forall z, z ∈ l1 -> n <> z) as Hn.
  { intros z Hz <-. destruct l2 as [|w l2]; cbn in H2; [subst; by apply (H0 0); [set_solver|]|].
    destruct H2 as [-> _]. by apply (Hdis w); [|set_solver]. }
  split.
  - destruct l1 as [|z l1 _] using rev_ind; [done|]. rewrite decide_False by (by destruct l1).
    rewrite last_or_snoc in *. destruct (dll_lookup _ _ _ _ _ z H1 ltac:(set_solver)) as (rz & Hrz).
    assert (z ∉ l1) by (apply NoDup_app in Hnd1 as (_ & Hc & _); set_solver).
    eapply dll_ext; [|eapply (dll_retarget _ _ _ _ _ _ n); [exact H1|done|exact Hrz]].
    intros w Hw. destruct (decide (w = z)) as [->|Hne].
    + rewrite lookup_insert_eq. apply join_left; [apply H0; set_solver|apply not_eq_sym, Hn; set_solver|done].
    + rewrite lookup_insert_ne by done. apply join_other; [done|apply not_eq_sym, Hn, Hw].
  - destruct l2 as [|b l2]; [done|]. pose proof H2 as (-> & rb & Hrb & _).
    apply NoDup_cons in Hnd2 as [Hb _]. eapply dll_ext; [|eapply dll_first; [exact H2|done|exact Hrb]].
    intros w Hw. destruct (decide (w = b)) as [->|Hne].
    + rewrite lookup_insert_eq. apply join_right; [apply H0; set_solver|apply Hlast; set_solver|done].
    + rewrite lookup_insert_ne by done. apply join_other; [apply not_eq_sym, Hlast, Hw|done].
Qed.

(** The element [x] put between two lists. *)
Lemma dll_between R p l1 x l2 y z n rx :
  dll R 0 p l1 y -> dll R z n l2 0 -> NoDup (x :: l1 ++ l2) -> (forall z, z ∈ x :: l1 ++ l2 -> z <> 0) ->
  dll (join x n (join (last_or 0 l1) x (<[x := set_rnext 0 rx]> R))) 0 (if decide (l1 = []) then x else p) (l1 ++ x :: l2) 0.
Proof.
  intros H1 H2 Hnd H0. pose proof Hnd as [Hx Hnd']%NoDup_cons.
  pose proof (dll_join (<[x := set_rnext 0 rx]> R) p l1 y (r_prev rx) x [x]) as Hj.
  assert (dll (join (last_or 0 l1) x (<[x := set_rnext 0 rx]> R)) 0 (if decide (l1 = []) then x else p) (l1 ++ [x]) 0) as H3.
  { apply Hj.
    - apply dll_insert; [set_solver|done].
    - split; [done|]. exists (set_rnext 0 rx). by rewrite lookup_insert_eq.
    - apply NoDup_app in Hnd' as (Hl1 & _ & _). apply NoDup_app. split_and!; [done|set_solver|apply NoDup_singleton].
    - intros w Hw. apply H0. set_solver. }
  clear Hj. set (R1 := join (last_or 0 l1) x _) in *.
  replace x with (last_or 0 (l1 ++ [x])) at 1 by apply last_or_snoc.
  replace (l1 ++ x :: l2) with ((l1 ++ [x]) ++ l2) by (by rewrite <- app_assoc).
  replace (if decide (l1 = []) then x else p)
    with (if decide (l1 ++ [x] = []) then n else if decide (l1 = []) then x else p)
    by (rewrite (decide_False (P := l1 ++ [x] = [])); [done|by destruct l1]).
  eapply dll_join; [exact H3| | |].
  - eapply dll_ext; [|exact H2]. intros w Hw. unfold R1. pose proof Hnd' as (_ & Hdis & _)%NoDup_app.
    rewrite join_other.
    + apply lookup_insert_ne. set_solver.
    + intros ->. destruct l1 as [|v l1 _] using rev_ind; [by apply (H0 0); [set_solver|]|].
      rewrite last_or_snoc in Hw. by apply (Hdis v); [set_solver|].
    + set_solver.
  - rewrite <- app_assoc. cbn [app]. by rewrite <- Permutation_middle.
  - intros w Hw. apply H0. set_solver.
Qed.

(** ** Writes of links *)

Lemma wp_wr_alter p r f Q s :
  regions s !! p = Some r ->
  Q tt (mkM (alter f p (regions s)) (total_nblocks s) (next_created_region s) (next_free_region s)) -> wp (wr p f) Q s.
Proof. intros Hr HQ. eapply wp_wr; [exact Hr|]. unfold put_region. by rewrite <- (alter_Some _ _ _ _ Hr). Qed.

Lemma last_or_nonzero l : (forall z, z ∈ l -> z <> 0) -> not_null (last_or 0 l) = negb (bool_decide (l = [])).
Proof.
  intros H0. unfold not_null. destruct l as [|z l _] using rev_ind; [done|].
  rewrite last_or_snoc, (proj2 (Z.eqb_neq z 0)) by (apply H0; set_solver). by destruct l.
Qed.

Lemma dll_head R prev p l nxt : dll R prev p l nxt -> p = hd nxt l.
Proof. destruct l; [done|]. by intros []. Qed.

(** kernel_region_destroy takes [c] out of the created regions, and loses those after it. *)
Lemma uncreate_ok s A1 c A2 :
  dll (regions s) 0 (next_created_region s) (A1 ++ c :: A2) 0 -> NoDup (A1 ++ c :: A2) -> (forall z, z ∈ A1 ++ c :: A2 -> z <> 0) ->
  wp (uncreate c) (fun _ s' => dll (regions s') 0 (next_created_region s') A1 0 /\
    (exists rc, regions s' !! c = Some rc /\ r_prev rc = 0 /\ r_next rc = 0) /\
    relinked (regions s) (regions s') /\ (forall p, p ∉ A1 ++ c :: A2 -> regions s' !! p = regions s !! p) /\
    next_free_region s' = next_free_region s /\ total_nblocks s' = total_nblocks s) s.
Proof.
  intros Hd Hnd H0. destruct (dll_middle _ _ _ _ _ _ _ Hd) as (rc & Hrc & Hprev & H1 & H2).
  set (a := last_or 0 A1) in *. pose proof (dll_head _ _ _ _ _ H2) as Hn. set (n := r_next rc) in *.
  apply NoDup_app in Hnd as (Hnd1 & Hdis & [Hc Hnd2]%NoDup_cons).
  assert (not_null a = negb (bool_decide (A1 = []))) as Ha by (apply last_or_nonzero; intros; apply H0; set_solver).
  assert (A1 <> [] -> a ∈ A1) as HaA.
  { intros Hne. unfold a. destruct A1 as [|z A _] using rev_ind; [done|]. rewrite last_or_snoc. set_solver. }
  assert (not_null n = true -> n ∈ A2) as HnA.
  { intros Hz. rewrite Hn in *. destruct A2; [done|]. cbn. set_solver. }
  unfold uncreate. apply wp_bind. eapply wp_rd; [exact Hrc|]. fold n. rewrite Hprev.
  set (R1 := if not_null n then alter (set_rnext 0) c (alter (set_rprev a) n (regions s)) else regions s).
  assert (relinked (regions s) R1) as Hrel1.
  { unfold R1. destruct (not_null n); [|done]. by repeat apply relinked_alter. }
  assert (forall p, p <> c -> p ∉ A2 -> R1 !! p = regions s !! p) as Hfr1.
  { intros p Hp1 Hp2. unfold R1. destruct (not_null n); [|done]. rewrite !lookup_alter_ne; try done; set_solver. }
  assert (exists r1, R1 !! c = Some r1 /\ r_prev r1 = a /\ r_next r1 = 0) as (r1 & Hr1 & Hp1 & Hn1).
  { unfold R1. destruct (not_null n) eqn:Hz.
    - exists (set_rnext 0 rc). rewrite lookup_alter_eq, lookup_alter_ne, Hrc by set_solver. done.
    - exists rc. unfold not_null in Hz. zbool. done. }
  apply wp_bind. apply (wp_mono _ (fun _ s1 => s1 = mkM R1 (total_nblocks s) (next_created_region s) (next_free_region s))).
  { unfold R1. destruct (not_null n) eqn:Hz; [|apply wp_ret; by destruct s].
    destruct (dll_lookup _ _ _ _ _ n H2 (HnA eq_refl)) as (rn & Hrn).
    apply wp_bind. eapply wp_wr_alter; [exact Hrn|].
    eapply wp_wr_alter; [cbn [regions]; rewrite lookup_alter_ne by set_solver; exact Hrc|done]. }
  intros _ ? ->. apply wp_bind. eapply wp_rd; [exact Hr1|]. rewrite Hp1, Hn1, Ha.
  destruct (decide (A1 = [])) as [->|Hne].
  - rewrite bool_decide_true by done. cbn [negb]. apply wp_modify. cbn [dll regions next_created_region next_free_region total_nblocks].
    split_and!; [done|by exists r1|done| |done|done]. intros p Hp. apply Hfr1; set_solver.
  - rewrite bool_decide_false by done. cbn [negb].
    destruct (dll_lookup _ _ _ _ _ a H1 (HaA Hne)) as (ra & Hra).
    assert (a <> c /\ a ∉ A2) as [Hac HaA2].
    { split; [intros ->|intros ?]; eapply (Hdis _ (HaA Hne)); set_solver. }
    apply wp_bind. eapply wp_wr_alter; [cbn [regions]; rewrite Hfr1 by done; exact Hra|].
    eapply wp_wr_alter; [cbn [regions]; rewrite lookup_alter_ne by done; exact Hr1|]. cbn [regions next_created_region next_free_region total_nblocks].
    assert (forall p, p ∉ A1 ++ c :: A2 -> alter (set_rprev 0) c (alter (set_rnext 0) a R1) !! p = regions s !! p) as Hfr.
    { intros p Hp. pose proof (HaA Hne). rewrite !lookup_alter_ne by set_solver. apply Hfr1; set_solver. }
    split_and!; [| | |exact Hfr|done|done].
    + pose proof (dll_join (regions s) _ A1 c c 0 [] H1 ltac:(done)) as Hj. rewrite app_nil_r, decide_False in Hj by done.
      eapply dll_ext; [|apply Hj; [done|intros; apply H0; set_solver]]. intros z Hz.
      assert (z <> c /\ z ∉ A2) as [Hzc HzA] by (split; [intros ->|intros ?]; eapply (Hdis _ Hz); set_solver).
      rewrite lookup_alter_ne by done. destruct (decide (z = a)) as [->|Hza].
      * rewrite lookup_alter_eq, Hfr1, Hra by done. cbn [fmap option_fmap option_map]. symmetry. fold a. apply join_left; [|apply H0; set_solver|done].
        apply H0. set_solver.
      * rewrite lookup_alter_ne, Hfr1 by done. symmetry. fold a. apply join_other; [done|apply H0; set_solver].
    + exists (set_rprev 0 r1). rewrite lookup_alter_eq, lookup_alter_ne, Hr1 by done. done.
    + by repeat apply relinked_alter.
Qed.

(** Take [x] out of the list of the free regions. *)
Lemma unlink_free_ok s F1 x F2 :
  dll (regions s) 0 (next_free_region s) (F1 ++ x :: F2) 0 -> NoDup (F1 ++ x :: F2) -> (forall z, z ∈ F1 ++ x :: F2 -> z <> 0) ->
  wp (unlink_free x) (fun _ s' => dll (regions s') 0 (next_free_region s') (F1 ++ F2) 0 /\
    (exists r, regions s' !! x = Some r /\ regions s !! x = Some r /\ r_next r = hd 0 F2) /\
    relinked (regions s) (regions s') /\ (forall p, p ∉ F1 ++ F2 -> regions s' !! p = regions s !! p) /\
    next_created_region s' = next_created_region s /\ total_nblocks s' = total_nblocks s) s.
Proof.
  intros Hd Hnd H0. destruct (dll_middle _ _ _ _ _ _ _ Hd) as (r & Hr & Hprev & H1 & H2).
  set (a := last_or 0 F1) in *. pose proof (dll_head _ _ _ _ _ H2) as Hn. set (n := r_next r) in *.
  pose proof Hnd as (Hnd1 & Hdis & [Hx Hnd2]%NoDup_cons)%NoDup_app.
  assert (not_null a = negb (bool_decide (F1 = []))) as Ha by (apply last_or_nonzero; intros; apply H0; set_solver).
  assert (a <> 0 -> a ∈ F1) as HaF.
  { unfold a. destruct F1 as [|z F _] using rev_ind; [done|]. rewrite last_or_snoc. set_solver. }
  assert (n <> 0 -> n ∈ F2) as HnF by (rewrite Hn; destruct F2; [done|]; cbn; set_solver).
  assert (a <> x) as Hax.
  { intros ->. destruct (decide (x = 0)) as [->|]; [by apply (H0 0); [set_solver|]|]. by apply (Hdis x); [apply HaF|set_solver]. }
  assert (n <> x) as Hnx.
  { intros ->. destruct (decide (x = 0)) as [->|]; [by apply (H0 0); [set_solver|]|]. by apply Hx, HnF. }
  unfold unlink_free. apply wp_bind. eapply wp_rd; [exact Hr|]. rewrite Hprev. fold n.
  set (R1 := if a =? 0 then regions s else alter (set_rnext n) a (regions s)).
  assert (R1 !! x = Some r) as Hr1 by (unfold R1; destruct (a =? 0); by rewrite ?lookup_alter_ne by done).
  apply wp_bind, (wp_mono _ (fun _ s1 => s1 = mkM R1 (total_nblocks s) (next_created_region s)
    (if decide (F1 = []) then n else next_free_region s))).
  { unfold R1. unfold not_null in *. destruct (a =? 0) eqn:Hz; cbn [negb] in *; zbool.
    - case_bool_decide; [|done]. rewrite decide_True by done. by apply wp_modify.
    - case_bool_decide; [done|]. rewrite decide_False by done.
      destruct (dll_lookup _ _ _ _ _ a H1 (HaF Hz)) as (ra & Hra). by eapply wp_wr_alter. }
  intros _ ? ->. apply wp_bind. eapply wp_rd; [exact Hr1|]. fold n. rewrite Hprev.
  apply (wp_mono _ (fun _ s' => s' = mkM (join a n (regions s)) (total_nblocks s) (next_created_region s)
    (if decide (F1 = []) then n else next_free_region s))).
  { unfold join. fold R1. unfold not_null. destruct (n =? 0) eqn:Hz; cbn [negb]; zbool; [by apply wp_ret|].
    destruct (dll_lookup _ _ _ _ _ n H2 (HnF Hz)) as (rn & Hrn).
    assert (exists rn', R1 !! n = Some rn') as [rn' Hrn'].
    { unfold R1. destruct (a =? 0); [eauto|]. apply lookup_alter_is_Some. eauto. }
    by eapply wp_wr_alter. }
  intros _ ? ->. cbn [regions next_created_region next_free_region total_nblocks].
  split_and!; try done.
  - eapply dll_join; [exact H1|exact H2| |intros z Hz; apply H0; set_solver].
    apply NoDup_app. split_and!; [done|set_solver|done].
  - exists r. rewrite join_other by congruence. done.
  - by apply relinked_join.
  - intros p Hp. destruct (decide (p = 0)) as [->|Hp0].
    + unfold join. destruct (a =? 0) eqn:?, (n =? 0) eqn:?; zbool; by rewrite ?lookup_alter_ne by congruence.
    + apply join_other; intros ->; apply Hp; set_solver.
Qed.

(** ** Merging a region with its neighbours *)

(** A program that runs as another one. *)
Lemma wp_eq_run {S A} (m m' : M S A) Q s : m s = m' s -> wp m' Q s -> wp m Q s.
Proof. unfold wp. by intros ->. Qed.

(** Two statements taken together. *)
Lemma wp_unbind2 {S B} (m1 m2 : M S unit) (k : M S B) Q s :
  wp (m1 ;; m2) (fun _ s' => wp k Q s') s -> wp (m1 ;; m2 ;; k) Q s.
Proof. unfold wp, bind. destruct (m1 s); [|done..]. by destruct (m2 s0). Qed.

(** [q] ends where [c] starts, or starts where it ends. *)
Definition precedes (R : gmap Z region) (q c : Z) : Prop := q + extent R q = c.
Definition adjacent (R : gmap Z region) (c q : Z) : Prop := precedes R q c \/ precedes R c q.
#[export] Instance precedes_dec R q c : Decision (precedes R q c).
Proof. unfold precedes. apply _. Defined.
#[export] Instance adjacent_dec R c q : Decision (adjacent R c q).
Proof. unfold adjacent. apply _. Defined.

Definition total_blocks (R : gmap Z region) (l : list Z) : Z := foldr (fun q n => blocks R q + n) 0 l.

Lemma total_blocks_app R l1 l2 : total_blocks R (l1 ++ l2) = total_blocks R l1 + total_blocks R l2.
Proof. unfold total_blocks. induction l1 as [|x l1 IH]; cbn [app foldr]; lia. Qed.

Section Coalesce.
Context (s0 : mstate) (c : Z) (F : list Z).
Local Abbreviation R0 := (regions s0).
Context (Hapart : apart R0 (c :: F)) (Hfree : forall q, q ∈ F -> tag R0 q = DNA_KERNEL_FREE_REGION).

Lemma bounds_of q : q ∈ c :: F -> 0 < q /\ 0 < blocks R0 q < 2 ^ 27 /\ q + 32 * blocks R0 q <= 2 ^ 32.
Proof.
  intros Hq. pose proof (apart_bounds _ _ Hapart q Hq) as Hb. unfold extent, DNA_KERNEL_BLOCK_SIZE, sizeof_region in Hb. lia.
Qed.

Lemma precedes_unique q q' : q ∈ F -> q' ∈ F -> precedes R0 q c -> precedes R0 q' c -> q = q'.
Proof.
  unfold precedes. intros Hq Hq' H1 H2. destruct (decide (q = q')) as [|Hne]; [done|].
  pose proof (bounds_of q ltac:(set_solver)). pose proof (bounds_of q' ltac:(set_solver)).
  unfold extent, DNA_KERNEL_BLOCK_SIZE, sizeof_region in *.
  pose proof (apart_disjoint _ _ Hapart q q' ltac:(set_solver) ltac:(set_solver) Hne).
  unfold extent, DNA_KERNEL_BLOCK_SIZE, sizeof_region in *. lia.
Qed.

(** The merged region is [r] once the free regions [F1] have been examined, [F2] being to
    come. *)
Record merging (s : mstate) (r : Z) (F1 F2 : list Z) : Prop := {
  mg_list : dll (regions s) 0 (next_free_region s) (filter (fun q => ~ adjacent R0 c q) F1 ++ F2) 0;
  mg_start : r = c /\ (forall q, q ∈ F1 -> ~ precedes R0 q c) \/ r ∈ F1 /\ precedes R0 r c;
  mg_header : exists rr, regions s !! r = Some rr /\ r_status rr = DNA_KERNEL_FREE_REGION;
  mg_blocks : blocks (regions s) r = blocks R0 c + total_blocks R0 (filter (adjacent R0 c) F1);
  mg_end : precedes (regions s) r (c + extent R0 c) /\ (forall q, q ∈ F1 -> ~ precedes R0 c q) \/
           (exists q, q ∈ F1 /\ precedes R0 c q /\ precedes (regions s) r (q + extent R0 q));
  mg_same : forall q, q ∈ filter (fun q => ~ adjacent R0 c q) F1 ++ F2 -> data <$> regions s !! q = data <$> R0 !! q;
  mg_other : forall p, p ∉ c :: F -> regions s !! p = R0 !! p;
  mg_created : next_created_region s = next_created_region s0;
  mg_total : total_nblocks s = total_nblocks s0
}.

Lemma same_data R R' q : data <$> R' !! q = data <$> R !! q -> blocks R' q = blocks R q /\ tag R' q = tag R q.
Proof.
  unfold blocks, tag. destruct (R !! q), (R' !! q); cbn; try done. intros H. by injection H.
Qed.

(** The test of the loop on the free region [q]. *)
Lemma precedes_test q : q ∈ F ->
  (u32 (q + u32 (blocks R0 q * DNA_KERNEL_BLOCK_SIZE)) =? c) = bool_decide (precedes R0 q c) /\
  (u32 (c + u32 (blocks R0 c * DNA_KERNEL_BLOCK_SIZE)) =? q) = bool_decide (precedes R0 c q).
Proof.
  intros Hq. pose proof (bounds_of q ltac:(set_solver)). pose proof (bounds_of c ltac:(set_solver)).
  unfold precedes, extent, DNA_KERNEL_BLOCK_SIZE, sizeof_region. rewrite !(u32_id (_ * (2 * 16))) by lia.
  assert (forall x y, 0 < x <= 2 ^ 32 -> 0 < y < 2 ^ 32 -> (u32 x =? y) = (x =? y)) as Hu.
  { intros x y Hx Hy. destruct (decide (x = 2 ^ 32)) as [->|]; [|by rewrite u32_id by lia].
    change (u32 (2 ^ 32)) with 0. rewrite !(proj2 (Z.eqb_neq _ _)); lia. }
  rewrite !Hu by lia. split; apply eq_true_iff_eq; rewrite Z.eqb_eq, bool_decide_eq_true; lia.
Qed.

(** A neighbour is taken out of the list of the free regions and [r'] becomes the
    merged one. *)
Lemma absorb_ok s r F1 q F2 r' :
  F = F1 ++ q :: F2 -> merging s r F1 (q :: F2) -> adjacent R0 c q ->
  (r' = q /\ precedes R0 q c \/ r' = r /\ precedes R0 c q) ->
  wp (wr r' (set_nblocks (i32 (blocks (regions s) r + blocks R0 q))) ;; unlink_free q)
    (fun _ s' => merging s' r' (F1 ++ [q]) F2 /\ exists rq, regions s' !! q = Some rq /\ r_next rq = hd 0 F2) s.
Proof.
  intros HF Hm Hadj Hr'. pose proof (apart_nodup _ _ Hapart) as [HcF HndF]%NoDup_cons.
  pose proof Hm as [Hl Hst (rr & Hrr & Hrs) Hb He Hs Ho Hcr Ht].
  assert (forall z, z ∈ F1 ++ q :: F2 -> z <> 0 /\ z <> c) as H0.
  { intros z Hz. rewrite <- HF in Hz. pose proof (bounds_of z ltac:(set_solver)). split; [lia|]. by intros ->. }
  rewrite HF in HndF. apply NoDup_app in HndF as (Hnd1 & Hdis & [Hq Hnd2]%NoDup_cons).
  set (G := filter (fun q => ~ adjacent R0 c q) F1) in *.
  assert (forall z, z ∈ G -> z ∈ F1 /\ ~ adjacent R0 c z) as HG by (intros z Hz; unfold G in Hz; rewrite list_elem_of_filter in Hz; tauto).
  assert (NoDup (G ++ q :: F2)) as HndG.
  { apply NoDup_app. split_and!; [by apply NoDup_filter|intros z [Hz _]%HG; by apply Hdis|by apply NoDup_cons]. }
  assert (r ∉ G ++ q :: F2) as HrG.
  { destruct Hst as [[-> _]|[Hr1 Hr2]].
    - intros Hin. apply elem_of_app in Hin as [[Hin _]%HG|Hin]; apply (H0 c); set_solver.
    - intros [[_ Hna]%HG|Hin]%elem_of_app; [apply Hna; by left|by apply (Hdis r)]. }
  destruct (bounds_of q) as (Hq0 & Hqb & Hqe); [rewrite HF; set_solver|].
  assert (exists rq, R0 !! q = Some rq) as [rq0 Hrq0].
  { unfold blocks in Hqb. destruct (R0 !! q); [eauto|]. cbn in Hqb. lia. }
  assert (exists rq, regions s !! q = Some rq /\ data rq = data rq0) as (rq & Hrq & Hdq).
  { specialize (Hs q ltac:(set_solver)). rewrite Hrq0 in Hs. destruct (regions s !! q); [|done]. injection Hs as Hs1 Hs2. eexists. split; [done|].
    unfold data. by rewrite Hs1, Hs2. }
  set (n := blocks (regions s) r + blocks R0 q).
  assert (r <> q) as Hrq' by set_solver.
  (* where the merged region starts and ends *)
  assert (extent (regions s) r = 32 * blocks (regions s) r) as Her by done.
  assert (extent R0 q = 32 * blocks R0 q) as Heq by done.
  destruct (bounds_of c ltac:(set_solver)) as (Hc0 & Hcb & Hce). assert (extent R0 c = 32 * blocks R0 c) as Hec by done.
  assert (0 < r /\ r <= c) as [Hr0 Hrc].
  { destruct Hst as [[-> _]|[Hr1 Hr2]]; [lia|]. pose proof (bounds_of r ltac:(rewrite HF; set_solver)).
    unfold precedes, extent, DNA_KERNEL_BLOCK_SIZE, sizeof_region in Hr2. lia. }
  assert (r + 32 * blocks (regions s) r <= 2 ^ 32) as Hre.
  { unfold precedes in He. rewrite Her in He. destruct He as [[He _]|(a & Ha & _ & He)]; [lia|].
    pose proof (bounds_of a ltac:(rewrite HF; set_solver)). rewrite He. unfold extent, DNA_KERNEL_BLOCK_SIZE, sizeof_region. lia. }
  assert (c + 32 * blocks R0 c <= r + 32 * blocks (regions s) r) as Hrce.
  { unfold precedes in He. rewrite Her in He. destruct He as [[He _]|(a & Ha & Ha' & He)]; [lia|].
    pose proof (bounds_of a ltac:(rewrite HF; set_solver)). rewrite He. unfold precedes in Ha'. unfold extent, DNA_KERNEL_BLOCK_SIZE, sizeof_region in *. lia. }
  assert (r' = q /\ precedes R0 q c /\ r = c \/ r' = r /\ precedes R0 c q /\ precedes (regions s) r (c + extent R0 c)) as Hcase.
  { destruct Hr' as [[-> Hpq]|[-> Hpq]]; [left|right].
    - split_and!; [done|done|]. destruct Hst as [[-> _]|[Hr1 Hr2]]; [done|].
      exfalso. assert (r = q) as -> by (apply precedes_unique; [rewrite HF; set_solver|rewrite HF; set_solver|done|done]). done.
    - split_and!; [done|done|]. destruct He as [[He _]|(a & Ha & Ha' & He)]; [done|]. exfalso.
      unfold precedes in Ha', Hpq. assert (a = q) as -> by lia. by apply (Hdis q); [|set_solver]. }
  assert (0 <= n < 2 ^ 31) as Hn.
  { unfold n. destruct Hcase as [(-> & Hpq & ->)|(-> & Hpq & Hee)]; unfold precedes in *; rewrite ?Heq, ?Hec, ?Her in *; lia. }
  rewrite i32_id by lia.
  assert (exists r0, regions s !! r' = Some r0 /\ r_status r0 = DNA_KERNEL_FREE_REGION /\ (r' = q -> r0 = rq)) as (r0 & Hr0' & Hrs0 & Hr0q).
  { destruct Hcase as [(-> & _)|(-> & _)]; [|by exists rr].
    exists rq. split_and!; [done| |done]. rewrite <- (Hfree q) by (rewrite HF; set_solver). unfold tag. rewrite Hrq0. by injection Hdq as _ ->. }
  apply wp_bind. eapply wp_wr_alter; [exact Hr0'|]. rewrite (alter_Some _ _ _ _ Hr0'). set (s1 := mkM _ _ _ _).
  assert (forall p, p <> r' -> regions s1 !! p = regions s !! p) as Hfr1 by (intros; by apply lookup_insert_ne).
  assert (r' ∈ c :: F /\ r' ∉ G ++ F2) as [Hr'F Hr'G].
  { destruct Hcase as [(-> & _)|(-> & _)]; (split; [rewrite HF|]); [set_solver| |destruct Hst as [[-> _]|[? _]]; set_solver|set_solver].
    intros [Hin|Hin]%elem_of_app; [apply HG in Hin as [Hin _]; apply (Hdis q Hin); set_solver|done]. }
  eapply wp_mono; [apply (unlink_free_ok s1 G q F2)|].
  { by apply dll_nblocks. } { done. } { intros z Hz. apply H0. apply elem_of_app in Hz as [[Hz _]%HG|Hz]; set_solver. }
  intros _ s2 (Hl2 & (rq2 & Hrq2 & _ & Hnx) & Hrel & Hfr & Hcr2 & Ht2).
  assert (data <$> regions s2 !! r' = Some (n, DNA_KERNEL_FREE_REGION)) as Hdr.
  { rewrite (Hrel r'). unfold s1. cbn [regions]. rewrite lookup_insert_eq. unfold data. cbn. by rewrite Hrs0. }
  assert (blocks (regions s2) r' = n) as Hbn.
  { unfold blocks. destruct (regions s2 !! r'); [|done]. by injection Hdr. }
  split; [|eauto]. split.
  - rewrite filter_app, filter_cons_False by tauto. cbn [filter list_filter]. by rewrite app_nil_r.
  - destruct Hcase as [(-> & Hpq & ->)|(-> & Hpq & Hee)].
    + right. split; [set_solver|done].
    + destruct Hst as [[-> Hno]|[Hr1 Hr2]]; [left|right; split; [set_solver|done]]. split; [done|].
      intros z [Hz|Hz%list_elem_of_singleton]%elem_of_app; [by apply Hno|subst z]. unfold precedes in *. rewrite ?Heq, ?Hec in *. lia.
  - destruct (regions s2 !! r') as [r2|]; [|done]. exists r2. split; [done|]. by injection Hdr.
  - rewrite Hbn, filter_app, filter_cons_True, total_blocks_app by done. unfold n. rewrite Hb. cbn. lia.
  - assert (extent (regions s2) r' = 32 * n) as He2 by (by rewrite <- Hbn). unfold precedes in *. rewrite He2.
    destruct Hcase as [(-> & Hpq & ->)|(-> & Hpq & Hee)]; unfold n.
    + rewrite Her, Heq in *. destruct He as [[He Hno]|(a & Ha & Ha' & He)]; [left|right].
      * split; [lia|]. intros z [Hz|Hz%list_elem_of_singleton]%elem_of_app; [by apply Hno|subst z; lia].
      * exists a. split_and!; [set_solver|done|lia].
    + right. exists q. rewrite Her, Heq in *. split_and!; [set_solver|done|lia].
  - intros z Hz. rewrite filter_app, filter_cons_False in Hz by tauto. cbn [filter list_filter] in Hz. rewrite app_nil_r in Hz.
    fold G in Hz. rewrite (Hrel z), Hfr1 by (intros ->; by apply Hr'G). apply Hs. set_solver.
  - intros p Hp. rewrite Hfr, Hfr1; [by apply Ho|set_solver|].
    intros [[Hin _]%HG|Hin]%elem_of_app; apply Hp; rewrite HF; set_solver.
  - by rewrite Hcr2.
  - by rewrite Ht2.
Qed.

(** A free region that is no neighbour is kept. *)
Lemma skip_ok s r F1 q F2 :
  merging s r F1 (q :: F2) -> ~ adjacent R0 c q -> merging s r (F1 ++ [q]) F2.
Proof.
  intros [Hl Hst Hh Hb He Hs Ho Hcr Ht] Hna. unfold adjacent in Hna.
  assert (filter (fun q => ~ adjacent R0 c q) (F1 ++ [q]) = filter (fun q => ~ adjacent R0 c q) F1 ++ [q]) as Hf.
  { by rewrite filter_app, filter_cons_True. }
  split; try done.
  - by rewrite Hf, <- app_assoc.
  - destruct Hst as [[-> Hno]|[Hr1 Hr2]]; [left|right; split; [set_solver|done]]. split; [done|].
    intros z [Hz|Hz%list_elem_of_singleton]%elem_of_app; [by apply Hno|subst z; tauto].
  - rewrite filter_app, filter_cons_False, app_nil_r by done. done.
  - destruct He as [[He Hno]|(a & Ha & Ha' & He)]; [left|right; exists a; split; [set_solver|done]]. split; [done|].
    intros z [Hz|Hz%list_elem_of_singleton]%elem_of_app; [by apply Hno|subst z; tauto].
  - intros z Hz. apply Hs. rewrite Hf in Hz. set_solver.
Qed.

Lemma coalesce_ok F2 : forall fuel F1 s r,
  F = F1 ++ F2 -> merging s r F1 F2 -> (length F2 < fuel)%nat ->
  wp (coalesce fuel c (u32 (blocks R0 c * DNA_KERNEL_BLOCK_SIZE)) r (hd 0 F2)) (fun r' s' => merging s' r' F []) s.
Proof.
  induction F2 as [|q F2 IH]; intros fuel F1 s r HF Hm Hfuel; (destruct fuel as [|fuel]; [cbn in Hfuel; lia|]); cbn [coalesce hd].
  { apply wp_ret. by rewrite HF, app_nil_r. }
  assert (q ∈ F) as HqF by (rewrite HF; set_solver). destruct (bounds_of q ltac:(set_solver)) as (Hq0 & Hqb & _).
  rewrite (proj2 (Z.eqb_neq q 0)) by lia.
  assert (exists rq, regions s !! q = Some rq /\ nblocks rq = blocks R0 q) as (rq & Hrq & Hnq).
  { pose proof (mg_same _ _ _ _ Hm q ltac:(set_solver)) as Hs. pose proof (same_data _ _ _ Hs) as [Hbq _].
    destruct (regions s !! q) as [rq|] eqn:Hrq; [|unfold blocks in *; rewrite Hrq in Hbq; cbn in Hbq; lia].
    exists rq. split; [done|]. unfold blocks in Hbq at 1. by rewrite Hrq in Hbq. }
  destruct (mg_header _ _ _ _ Hm) as (rr & Hrr & _).
  assert (nblocks rr = blocks (regions s) r) as Hnr by (unfold blocks; by rewrite Hrr).
  destruct (precedes_test q HqF) as [Hbefore Hafter].
  apply wp_bind. eapply wp_rd; [exact Hrq|]. rewrite Hnq, Hbefore, Hafter. clear Hbefore Hafter.
  assert (F = (F1 ++ [q]) ++ F2) as HF' by (rewrite <- app_assoc; done).
  assert (forall r' s', merging s' r' (F1 ++ [q]) F2 -> (exists rq', regions s' !! q = Some rq' /\ r_next rq' = hd 0 F2) ->
    wp (let* p := rd q in coalesce fuel c (u32 (blocks R0 c * DNA_KERNEL_BLOCK_SIZE)) r' (r_next p)) (fun r' s' => merging s' r' F []) s') as Hnext.
  { intros r' s' Hm' (rq' & Hrq' & Hnx). apply wp_bind. eapply wp_rd; [exact Hrq'|]. rewrite Hnx. apply (IH fuel _ _ _ HF' Hm'). cbn in Hfuel. lia. }
  apply wp_bind. case_bool_decide as Hp1; [|case_bool_decide as Hp2].
  - cbn beta iota. apply wp_bind. eapply wp_rd; [exact Hrr|]. rewrite Hnr, (Z.add_comm (blocks R0 q)).
    apply (wp_unbind2 _ _ (ret q)). eapply wp_mono; [apply (absorb_ok s r F1 q F2 q HF Hm); [by left|by left]|].
    intros _ s' [Hm' Hq']. apply wp_ret. by apply Hnext.
  - cbn beta iota. apply wp_bind. eapply wp_rd; [exact Hrr|]. rewrite Hnr.
    apply (wp_unbind2 _ _ (ret r)). eapply wp_mono; [apply (absorb_ok s r F1 q F2 r HF Hm); [by right|by right]|].
    intros _ s' [Hm' Hq']. apply wp_ret. by apply Hnext.
  - cbn beta iota. apply wp_ret. apply Hnext; [by apply skip_ok; [|intros []]|].
    exists rq. split; [done|]. pose proof (mg_list _ _ _ _ Hm) as Hl. apply dll_middle in Hl as (r0 & Hr0 & _ & _ & Hl).
    assert (r0 = rq) as -> by congruence. by apply dll_head in Hl.
Qed.

End Coalesce.

(** ** The place of the merged region *)

(** order_free writes the links that insert_free writes, in another order. *)
Lemma bind_gets {S A B} (f : S -> A) (k : A -> M S B) s : (let* a := gets f in k a) s = k (f s) s.
Proof. done. Qed.

Lemma run_wr p r f s {B} (k : M mstate B) :
  regions s !! p = Some r -> (wr p f ;; k) s = k (put_region p (f r) s).
Proof. intros Hr. unfold wr, rd, bind, gets, deref. by rewrite Hr. Qed.

Lemma run_wr_last p r f s : regions s !! p = Some r -> wr p f s = Ret tt (put_region p (f r) s).
Proof. intros Hr. unfold wr, rd, bind, gets, deref. by rewrite Hr. Qed.

Lemma run_rd {B} p r s (k : region -> M mstate B) : regions s !! p = Some r -> (let* x := rd p in k x) s = k r s.
Proof. intros Hr. unfold rd, bind, gets, deref. by rewrite Hr. Qed.

Lemma mstate_eq R R' t c f : R = R' -> Ret tt (mkM R t c f) = Ret tt (mkM R' t c f).
Proof. by intros ->. Qed.

(** Headers written at distinct addresses. *)
Ltac same_writes :=
  unfold put_region; cbn [regions total_nblocks next_created_region next_free_region]; apply mstate_eq, map_eq; intros i;
  repeat match goal with |- context [<[?p := _]> _ !! i] => destruct (decide (p = i)) as [<-|];
    repeat (rewrite lookup_insert_eq || rewrite lookup_insert_ne by congruence) end; try done.

Lemma same_before s x y rx ry :
  regions s !! x = Some rx -> regions s !! y = Some ry -> x <> y ->
  (r_prev ry <> 0 -> r_prev ry <> x /\ r_prev ry <> y /\ exists rz, regions s !! r_prev ry = Some rz) ->
  (wr x (set_rprev (r_prev ry)) ;; wr x (set_rnext y) ;;
   let* p := rd y in
   (if not_null (r_prev p) then wr (r_prev p) (set_rnext x) else set_free x) ;; wr y (set_rprev x)) s =
  (wr x (set_rprev (r_prev ry)) ;; wr y (set_rprev x) ;; wr x (set_rnext y) ;;
   let* n := rd x in
   if not_null (r_prev n) then wr (r_prev n) (set_rnext x) else set_free x) s.
Proof.
  intros Hx Hy Hxy Ha. unfold not_null.
  rewrite (run_wr x rx), (run_wr x (set_rprev (r_prev ry) rx)), (run_rd y ry) by (rmaps; done).
  rewrite (run_wr x rx), (run_wr y ry), (run_wr x (set_rprev (r_prev ry) rx)), (run_rd x (set_rnext y (set_rprev (r_prev ry) rx)))
    by (rmaps; done).
  cbn [r_prev set_rnext set_rprev]. destruct (Z.eqb_spec (r_prev ry) 0) as [H0|H0]; cbn [negb].
  - unfold set_free, modify, bind at 1. rewrite (run_wr_last y ry) by (rmaps; done). same_writes.
  - destruct (Ha H0) as (Hax & Hay & rz & Hz).
    rewrite (run_wr _ rz), (run_wr_last y ry), (run_wr_last _ rz) by (rmaps; done). same_writes.
Qed.

Lemma same_after s x y rx ry :
  regions s !! x = Some rx -> regions s !! y = Some ry -> x <> y ->
  (wr y (set_rnext x) ;; wr x (set_rprev y) ;; wr x (set_rnext 0)) s =
  (wr x (set_rnext 0) ;; wr x (set_rprev y) ;; wr y (set_rnext x)) s.
Proof.
  intros Hx Hy Hxy.
  rewrite (run_wr y ry), (run_wr x rx), (run_wr_last x (set_rprev y rx)) by (rmaps; done).
  rewrite (run_wr x rx), (run_wr x (set_rnext 0 rx)), (run_wr_last y ry) by (rmaps; done). same_writes.
Qed.

Lemma order_free_same s F x :
  dll (regions s) 0 (next_free_region s) F 0 -> NoDup (x :: F) -> (forall y, y ∈ x :: F -> y <> 0) ->
  (exists rx, regions s !! x = Some rx) -> order_free x s = insert_free x s.
Proof.
  intros Hd Hnd H0 (rx & Hrx). apply NoDup_cons in Hnd as [Hx Hnd]. unfold order_free, insert_free.
  rewrite !bind_gets. destruct F as [|y0 F].
  - cbn in Hd. rewrite Hd. cbn [Z.eqb]. rewrite (run_wr x rx), (run_wr x (set_rprev 0 rx)) by (rmaps; done).
    unfold set_free at 2, modify, bind at 1. rewrite (run_wr x rx), (run_wr_last x (set_rprev 0 rx)) by (rmaps; done). unfold set_free, modify. same_writes.
  - pose proof Hd as (Hh & _). rewrite Hh. rewrite (proj2 (Z.eqb_neq y0 0)) by (apply H0; set_solver).
    rewrite !(run_rd x rx), !bind_gets by done.
    destruct (order_walk_ok s (walk_bound s) (nblocks rx) 0 y0 F) as (y & l1 & l2 & Hw & Hl & Hl1 & Hl2).
    { by rewrite Hh in Hd. } { pose proof (dll_size _ _ _ _ _ Hd Hnd). cbn in *. unfold walk_bound. lia. }
    { intros z Hz. apply H0. set_solver. }
    rewrite !(bind_Ret _ _ _ _ _ Hw). rewrite Hl in Hd, Hnd, H0, Hx.
    apply dll_middle in Hd as (ry & Hry & Hpy & Hd1 & _). rewrite !(run_rd y ry), !(run_rd x rx) by done.
    apply NoDup_app in Hnd as (Hnd1 & Hdis & _).
    destruct (nblocks ry <=? nblocks rx).
    + apply (same_before s x y rx ry); [done|done|set_solver|]. rewrite Hpy. intros Hne.
      destruct l1 as [|z l1 _] using rev_ind; [done|]. rewrite last_or_snoc in *.
      split_and!; [set_solver|intros ->; by apply (Hdis y); set_solver|]. eapply dll_lookup; [exact Hd1|set_solver].
    + apply (same_after s x y rx ry); [done|done|set_solver].
Qed.

(** ** The heap after kernel_region_destroy *)

Lemma apart_sub R l l' : (forall p, p ∈ l' -> p ∈ l) -> NoDup l' -> apart R l -> apart R l'.
Proof. intros Hsub Hnd [_ Hb Hd]. split; auto. Qed.

Lemma sorted_filter {A} (R : A -> A -> Prop) (P : A -> Prop) `{forall x, Decision (P x)} l :
  StronglySorted R l -> StronglySorted R (filter P l).
Proof.
  induction 1 as [|x l Hl IH Hx]; [constructor|]. rewrite filter_cons. case_decide; [|done].
  constructor; [done|]. rewrite Forall_forall in *. intros y [_ Hy]%list_elem_of_filter. by apply Hx.
Qed.

(** The merged region takes the room of [c] and of its neighbours, and nothing else. *)
Lemma merged_apart s0 s c F L m :
  apart (regions s0) (c :: F ++ L) -> merging s0 c F s m F [] ->
  forall R', (forall p, p ∈ filter (fun q => ~ adjacent (regions s0) c q) F ++ L -> blocks R' p = blocks (regions s0) p) ->
  blocks R' m = blocks (regions s) m -> apart R' (m :: filter (fun q => ~ adjacent (regions s0) c q) F ++ L).
Proof.
  intros Hap Hm R' Hsame Hbm. set (R0 := regions s0) in *. set (G := filter (fun q => ~ adjacent R0 c q) F) in *.
  pose proof (apart_nodup _ _ Hap) as [Hc Hnd]%NoDup_cons. apply NoDup_app in Hnd as (HndF & HFL & HndL).
  pose proof (apart_bounds _ _ Hap) as Hb. pose proof (apart_disjoint _ _ Hap) as Hd.
  assert (forall p, p ∈ G -> p ∈ F /\ ~ adjacent R0 c p) as HG by (intros p Hp; unfold G in Hp; rewrite list_elem_of_filter in Hp; tauto).
  assert (forall p, p ∈ G ++ L -> p ∈ c :: F ++ L /\ p <> c /\ (p ∈ F -> ~ adjacent R0 c p)) as HK.
  { intros p [[Hp Hna]%HG|Hp]%elem_of_app.
    - split_and!; [set_solver|intros ->; apply Hc; set_solver|done].
    - split_and!; [set_solver|intros ->; apply Hc; set_solver|]. intros HpF. by destruct (HFL p). }
  assert (forall p, p ∈ G ++ L -> extent R' p = extent R0 p) as He by (intros; unfold extent; by rewrite Hsame).
  assert (extent R' m = extent (regions s) m) as Hem by (unfold extent; by rewrite Hbm).
  pose proof (Hb c ltac:(set_solver)) as Hbc.
  (* an interval and a region that does not meet it *)
  assert (m = c \/ m ∈ F /\ precedes R0 m c) as Hstart by (destruct (mg_start _ _ _ _ _ _ _ Hm) as [[? _]|?]; auto).
  assert (precedes (regions s) m (c + extent R0 c) \/
    exists q, q ∈ F /\ precedes R0 c q /\ precedes (regions s) m (q + extent R0 q)) as Hend
    by (destruct (mg_end _ _ _ _ _ _ _ Hm) as [[? _]|?]; auto).
  assert (0 < m <= c /\ c + extent R0 c <= m + extent R' m <= 2 ^ 32) as (Hm0 & Hm1).
  { rewrite Hem. unfold precedes in *. split.
    - destruct Hstart as [->|[Hin Hp]]; [lia|]. pose proof (Hb m ltac:(set_solver)). unfold extent, DNA_KERNEL_BLOCK_SIZE, sizeof_region in *. lia.
    - destruct Hend as [->|(q & Hin & Hp & ->)]; [lia|]. pose proof (Hb q ltac:(set_solver)). unfold extent, DNA_KERNEL_BLOCK_SIZE, sizeof_region in *. lia. }
  assert (forall p, p ∈ G ++ L -> p + extent R' p <= m \/ m + extent R' m <= p) as Hmeet.
  { intros p Hp. rewrite (He p Hp), Hem. destruct (HK p Hp) as (Hin & Hpc & Hna).
    pose proof (Hb p Hin) as Hbp. pose proof (Hd p c Hin ltac:(set_solver) Hpc) as Hdc.
    assert (forall q, q ∈ F -> adjacent R0 c q -> p + extent R0 p <= q \/ q + extent R0 q <= p) as Hdq.
    { intros q Hq Hadj. apply Hd; [done|set_solver|]. intros ->. by apply Hna. }
    unfold adjacent, precedes in *. unfold extent, DNA_KERNEL_BLOCK_SIZE, sizeof_region in *.
    destruct Hstart as [->|[Hmin Hmp]], Hend as [->|(q & Hq & Hqp & ->)]; try lia.
    - specialize (Hdq q Hq ltac:(auto)). lia.
    - specialize (Hdq m Hmin ltac:(auto)). lia.
    - pose proof (Hdq q Hq ltac:(auto)). specialize (Hdq m Hmin ltac:(auto)). lia. }
  assert (m ∉ G ++ L) as HmK.
  { intros Hin. destruct (HK m Hin) as (_ & Hmc & Hna). destruct Hstart as [->|[Hmin Hmp]]; [done|]. apply Hna; [done|by left]. }
  split.
  - apply NoDup_cons. split; [done|]. apply NoDup_app. split_and!; [by apply NoDup_filter|intros p [Hp _]%HG; by apply HFL|done].
  - intros p [->|Hp]%elem_of_cons.
    + split_and!; [lia| |lia]. unfold extent, DNA_KERNEL_BLOCK_SIZE, sizeof_region in *. lia.
    + rewrite (He p Hp), (Hsame p Hp). apply Hb. by apply HK.
  - intros p q [->|Hp]%elem_of_cons [->|Hq]%elem_of_cons Hpq; [done| | |].
    + destruct (Hmeet q Hq); auto.
    + destruct (Hmeet p Hp); auto.
    + rewrite (He p Hp), (He q Hq). apply Hd; [by apply HK|by apply HK|done].
Qed.

(** [R'] is what is left of [R] when [c] has joined the free regions [F], now [F'], in the
    region [m]. *)
Definition released (R R' : gmap Z region) (F F' : list Z) (c m : Z) : Prop :=
  (m = c /\ (forall q, q ∈ F -> ~ precedes R q c) \/ m ∈ F /\ precedes R m c) /\
  F' ≡ₚ m :: filter (fun q => ~ adjacent R c q) F /\
  blocks R' m = blocks R c + total_blocks R (filter (adjacent R c) F) /\
  (forall p, p ∈ F' -> p <> m -> blocks R' p = blocks R p).

Lemma released_ext R0 R R' F F' c m :
  (forall p, blocks R p = blocks R0 p) -> released R R' F F' c m -> released R0 R' F F' c m.
Proof.
  intros Hb (Hm & HF & Hn & Ho).
  assert (forall p q, precedes R p q <-> precedes R0 p q) as Hp by (intros; unfold precedes, extent; by rewrite Hb).
  assert (forall l, total_blocks R l = total_blocks R0 l) as Ht.
  { intros l. unfold total_blocks. induction l; cbn [foldr]; [done|]. by rewrite Hb, IHl. }
  split_and!.
  - destruct Hm as [[-> Hno]|[Hin Hpm]]; [left|right]; split; try done; [|by rewrite <- Hp]. intros q Hq. rewrite <- Hp. auto.
  - rewrite HF. erewrite (list_filter_iff _ _ F); [done|]. intros p. unfold adjacent. by rewrite !Hp.
  - rewrite Hn, Hb, Ht. f_equal. erewrite (list_filter_iff _ _ F); [done|]. intros p. unfold adjacent. by rewrite !Hp.
  - intros p HpF Hne. by rewrite Ho, Hb.
Qed.

Lemma merging_start s c F rr :
  dll (regions s) 0 (next_free_region s) F 0 -> regions s !! c = Some rr -> r_status rr = DNA_KERNEL_FREE_REGION ->
  merging s c F s c [] F.
Proof.
  intros Hd Hr Hs. split; try done.
  - left. split; [done|]. by intros q ?%not_elem_of_nil.
  - eauto.
  - cbn. lia.
  - left. split; [done|]. by intros q ?%not_elem_of_nil.
Qed.

(** What follows [uncreate]. *)
Definition give_back (region : Z) : M mstate status_t :=
  let* ptr := gets next_free_region in
  if ptr =? 0 then set_free region ;; ret DNA_OK
  else
    let* r := rd region in
    let vrsize := u32 (nblocks r * DNA_KERNEL_BLOCK_SIZE) in
    let* fuel := gets walk_bound in
    let* region := coalesce fuel region vrsize region ptr in
    order_free region ;;
    ret DNA_OK.

Record given_back (s s' : mstate) (F F' : list Z) (c m : Z) (L : list Z) : Prop := {
  gb_released : released (regions s) (regions s') F F' c m;
  gb_list : dll (regions s') 0 (next_free_region s') F' 0;
  gb_sorted : StronglySorted (larger (regions s')) F';
  gb_apart : apart (regions s') (F' ++ L);
  gb_tags : forall p, p ∈ F' -> tag (regions s') p = DNA_KERNEL_FREE_REGION;
  gb_other : forall p, p ∉ c :: F -> regions s' !! p = regions s !! p;
  gb_created : next_created_region s' = next_created_region s;
  gb_total : total_nblocks s' = total_nblocks s
}.

(** The merged region takes its place. *)
Lemma order_merged_ok s s1 F c L m :
  apart (regions s) (c :: F ++ L) -> StronglySorted (larger (regions s)) F ->
  (forall p, p ∈ c :: F -> tag (regions s) p = DNA_KERNEL_FREE_REGION) -> merging s c F s1 m F [] ->
  wp (order_free m) (fun _ s' => exists F', given_back s s' F F' c m L) s1.
Proof.
  intros Hap Hs Htag Hm. pose proof (apart_nodup _ _ Hap) as [Hc HndFL]%NoDup_cons.
  pose proof HndFL as (HndF & HFL & HndL)%NoDup_app. pose proof (merged_apart _ _ _ _ _ _ Hap Hm) as Hmap.
  set (G := filter (fun q => ~ adjacent (regions s) c q) F) in *.
  assert (forall p, p ∈ G -> p ∈ F) as HG by (intros p Hp; unfold G in Hp; rewrite list_elem_of_filter in Hp; tauto).
  pose proof Hm as [Hl Hst (rm & Hrm & Hrs) Hbm He Hsame Ho Hcr Ht]. fold G in Hl, Hsame. rewrite app_nil_r in Hl, Hsame.
  assert (m ∈ c :: F) as HmF by (destruct Hst as [[-> _]|[? _]]; set_solver).
  assert (forall p, p ∈ G -> blocks (regions s1) p = blocks (regions s) p /\ tag (regions s1) p = tag (regions s) p) as HGs
    by (intros p Hp; by apply same_data, Hsame).
  assert (forall p, p ∈ L -> regions s1 !! p = regions s !! p) as HLs.
  { intros p Hp. apply Ho. intros [->|Hin]%elem_of_cons; [by apply Hc; set_solver|by apply (HFL p)]. }
  assert (apart (regions s1) (m :: G ++ L)) as Hap1.
  { apply Hmap; [|done]. intros p [Hp|Hp]%elem_of_app; [by apply HGs|unfold blocks; by rewrite HLs]. }
  pose proof (apart_nodup _ _ Hap1) as [HmG HndG]%NoDup_cons. apply NoDup_app in HndG as (HndG & _).
  assert (NoDup (m :: G)) as HndmG by (constructor; [set_solver|done]).
  assert (forall z, z ∈ m :: G -> z <> 0) as H0G.
  { intros z Hz. pose proof (apart_bounds _ _ Hap1 z ltac:(set_solver)). lia. }
  eapply wp_eq_run; [by eapply order_free_same; eauto|]. eapply wp_mono; [apply (insert_free_ok s1 G m); eauto|].
  { eapply sorted_same; [|apply sorted_filter; exact Hs]. intros p Hp. by apply HGs. }
  intros _ s2 (F' & HF' & Hd2 & Hs2 & Hrel & Hfr & Hcr2 & Ht2). exists F'. split; try done.
  - split_and!; [exact Hst|exact HF'|by rewrite (relinked_blocks _ _ _ Hrel), Hbm|].
    intros p Hp Hpm. rewrite (relinked_blocks _ _ _ Hrel). apply HGs. rewrite HF' in Hp. set_solver.
  - eapply apart_perm; [|eapply apart_same; [|exact Hap1]]; [by rewrite HF'|]. intros p _. by apply relinked_blocks.
  - intros p Hp. rewrite (relinked_tag _ _ _ Hrel). rewrite HF' in Hp. apply elem_of_cons in Hp as [->|Hp].
    + unfold tag. by rewrite Hrm.
    + rewrite (proj2 (HGs p Hp)). apply Htag. set_solver.
  - intros p Hp. rewrite Hfr; [by apply Ho|]. set_solver.
  - congruence.
  - congruence.
Qed.

Lemma give_back_ok s F c L rc :
  apart (regions s) (c :: F ++ L) -> dll (regions s) 0 (next_free_region s) F 0 -> StronglySorted (larger (regions s)) F ->
  (forall p, p ∈ c :: F -> tag (regions s) p = DNA_KERNEL_FREE_REGION) ->
  regions s !! c = Some rc -> r_prev rc = 0 -> r_next rc = 0 ->
  wp (give_back c) (fun st s' => st = DNA_OK /\ exists F' m, given_back s s' F F' c m L) s.
Proof.
  intros Hap Hd Hs Htag Hrc Hprev Hnext. pose proof (apart_nodup _ _ Hap) as [Hc HndFL]%NoDup_cons.
  pose proof HndFL as (HndF & HFL & HndL)%NoDup_app. pose proof (apart_bounds _ _ Hap) as Hb.
  assert (forall z, z ∈ c :: F -> z <> 0) as H0 by (intros z Hz; specialize (Hb z ltac:(set_solver)); lia).
  unfold give_back. apply wp_bind, wp_gets. rewrite (dll_head _ _ _ _ _ Hd). destruct F as [|y F].
  - cbn [hd Z.eqb]. apply wp_bind, wp_modify, wp_ret. split; [done|]. exists [c], c. split; try done.
    + split_and!; [left; split; [done|by intros q ?%not_elem_of_nil]|done|cbn; lia|done].
    + cbn. split; [done|]. exists rc. done.
    + by repeat constructor.
  - cbn [hd]. rewrite (proj2 (Z.eqb_neq y 0)) by (apply H0; set_solver).
    assert (nblocks rc = blocks (regions s) c) as Hnc by (unfold blocks; by rewrite Hrc).
    apply wp_bind. eapply wp_rd; [exact Hrc|]. apply wp_bind, wp_gets. rewrite Hnc.
    assert (apart (regions s) (c :: y :: F)) as HapF.
    { eapply apart_sub; [|by constructor; [set_solver|]|exact Hap]. set_solver. }
    assert (forall q, q ∈ y :: F -> tag (regions s) q = DNA_KERNEL_FREE_REGION) as HtagF by (intros; apply Htag; set_solver).
    apply wp_bind. eapply wp_mono; [apply (coalesce_ok s c (y :: F) HapF HtagF (y :: F) _ [] s c eq_refl)|].
    { eapply merging_start; [done|exact Hrc|]. specialize (Htag c ltac:(set_solver)). unfold tag in Htag. by rewrite Hrc in Htag. }
    { pose proof (dll_size _ _ _ _ _ Hd HndF). unfold walk_bound. lia. }
    intros m s1 Hm. apply wp_bind. eapply wp_mono; [by eapply (order_merged_ok s s1 (y :: F) c L m)|].
    intros _ s2 [F' HF']. apply wp_ret. split; [done|]. by exists F', m.
Qed.

(** ** The heap after kernel_region_destroy *)

Lemma blocks_rstatus R x r n p : R !! x = Some r -> blocks (<[x := set_rstatus n r]> R) p = blocks R p.
Proof. intros Hr. rewrite blocks_insert. case_decide; [|done]. subst. unfold blocks. by rewrite Hr. Qed.

Lemma destroy_parts region s : kernel_region_destroy region s = (uncreate region ;; give_back region) s.
Proof. done. Qed.

(** kernel_free has marked the region [c] as free. *)
Lemma kernel_region_destroy_ok s0 F A1 c A2 D rc :
  heap_live s0 F (A1 ++ c :: A2) D -> regions s0 !! c = Some rc ->
  wp (kernel_region_destroy c) (fun st s' => st = DNA_OK /\ exists F' m,
      released (regions s0) (regions s') F F' c m /\ heap_live s' F' A1 (A2 ++ D) /\ total_nblocks s' = total_nblocks s0)
    (put_region c (set_rstatus DNA_KERNEL_FREE_REGION rc) s0).
Proof.
  intros [Hok Hap Htags] Hrc. set (s := put_region c _ s0). set (L := A1 ++ A2 ++ D).
  assert (forall p, blocks (regions s) p = blocks (regions s0) p) as Hb by (intros; by apply blocks_rstatus).
  assert (forall p, p <> c -> regions s !! p = regions s0 !! p) as Hso by (intros; by apply lookup_insert_ne).
  pose proof (apart_nodup _ _ Hap) as (_ & HFA & (HndAc & _)%NoDup_app)%NoDup_app.
  assert (F ++ (A1 ++ c :: A2) ++ D ≡ₚ c :: F ++ L) as Hperm.
  { unfold L. rewrite <- app_assoc. cbn [app]. rewrite <- Permutation_middle. by rewrite <- Permutation_middle. }
  pose proof (apart_perm _ _ _ Hperm Hap) as Hap0. pose proof (apart_bounds _ _ Hap0) as Hbd.
  pose proof (apart_nodup _ _ Hap0) as [Hc HndFL]%NoDup_cons. pose proof HndFL as (_ & HFL & HndL)%NoDup_app.
  apply (wp_eq_run _ _ _ _ (destroy_parts c s)). apply wp_bind. eapply wp_mono; [apply (uncreate_ok s A1 c A2)|].
  { apply dll_rstatus; [done|]. apply (heap_created _ _ _ Hok). } { done. }
  { intros z Hz. specialize (Hbd z). rewrite <- Hperm in Hbd. specialize (Hbd ltac:(set_solver)). lia. }
  intros _ s1 (Hcr1 & (rc1 & Hrc1 & Hpc1 & Hnc1) & Hrel1 & Hfr1 & Hfree1 & Ht1).
  assert (forall p, blocks (regions s1) p = blocks (regions s0) p) as Hb1 by (intros p; by rewrite (relinked_blocks _ _ p Hrel1)).
  assert (tag (regions s1) c = DNA_KERNEL_FREE_REGION) as Htc.
  { rewrite (relinked_tag _ _ _ Hrel1). unfold s, put_region. cbn [regions]. by rewrite tag_insert, decide_True. }
  assert (forall p, p <> c -> tag (regions s1) p = tag (regions s0) p) as Htg.
  { intros p Hp. rewrite (relinked_tag _ _ _ Hrel1). unfold tag. by rewrite Hso. }
  eapply wp_mono; [apply (give_back_ok s1 F c L rc1); try done|].
  { eapply apart_same; [|exact Hap0]. done. }
  { rewrite Hfree1. eapply dll_ext; [|exact (heap_free _ _ _ Hok)]. intros p Hp. rewrite Hfr1 by set_solver. apply Hso. set_solver. }
  { eapply sorted_same; [|exact (heap_sorted _ _ _ Hok)]. done. }
  { intros p [->|Hp]%elem_of_cons; [done|]. rewrite Htg by set_solver. rewrite (heap_tags _ _ _ Hok) by set_solver. by rewrite decide_True. }
  intros st s2 (-> & F' & m & [Hrel Hl Hs2 Hap2 Ht2 Ho Hcr Htot]). split; [done|]. exists F', m.
  split_and!; [by eapply released_ext| |rewrite Htot, Ht1; done].
  assert (forall p, p ∈ L -> tag (regions s2) p = DNA_KERNEL_ALLOCATED_REGION) as HtL.
  { intros p Hp. assert (p <> c /\ p ∉ F) as [Hpc HpF] by (split; [intros ->; apply Hc; set_solver|intros Hin; by apply (HFL p)]).
    unfold tag. rewrite Ho by set_solver. fold (tag (regions s1) p). rewrite Htg by done.
    unfold L in Hp. destruct (decide (p ∈ D)) as [HpD|HpD]; [by apply Htags|].
    rewrite (heap_tags _ _ _ Hok) by set_solver. by rewrite decide_False. }
  pose proof Hap2 as [Hnd2 Hbd2 Hdis2]. pose proof Hnd2 as (_ & HF'L & _)%NoDup_app. unfold L in *. split; [split|done|]; try done.
  - rewrite Hcr. eapply dll_ext; [|exact Hcr1]. intros p Hp. apply Ho.
    intros [->|Hin]%elem_of_cons; [apply Hc; set_solver|apply (HFL p Hin); set_solver].
  - rewrite (app_assoc F' A1) in Hnd2. by apply NoDup_app in Hnd2 as (Hnd' & _).
  - intros p Hp. apply Hbd2. set_solver.
  - intros p q Hp Hq. apply Hdis2; set_solver.
  - intros p Hp. case_decide as HpF; [by apply Ht2|]. apply HtL. set_solver.
  - intros p Hp. apply HtL. set_solver.
Qed.

(** ** Regions that are lost do not matter to an allocation *)

Lemma cut_apart R R' c L req :
  let n := c + req * DNA_KERNEL_BLOCK_SIZE in
  apart R (c :: L) -> 0 < req < blocks R c -> cut R R' c n req -> apart R' (n :: c :: L).
Proof.
  intros n [Hnd Hb Hd] Hreq Hcut. pose proof (Hb c ltac:(set_solver)) as Hbc.
  assert (n = c + 32 * req) as Hn by (unfold n, DNA_KERNEL_BLOCK_SIZE, sizeof_region; lia).
  unfold extent, DNA_KERNEL_BLOCK_SIZE, sizeof_region in *. pose proof Hnd as [Hc HndL]%NoDup_cons.
  assert (forall p, p ∈ L -> p <> c /\ p <> n /\ (p + 32 * blocks R p <= c \/ c + 32 * blocks R c <= p) /\ 0 < blocks R p) as HL.
  { intros p Hp. assert (p <> c) as Hpc by (intros ->; done). pose proof (Hb p ltac:(set_solver)) as Hbp.
    pose proof (Hd p c ltac:(set_solver) ltac:(set_solver) Hpc). split_and!; [done| |lia|lia]. intros ->. lia. }
  assert (blocks R' c = req /\ blocks R' n = blocks R c - req) as [Hc' Hn'].
  { rewrite (proj1 (Hcut c)), (proj1 (Hcut n)), decide_True by done. rewrite decide_False, decide_True by (done || lia). done. }
  assert (forall p, p ∈ L -> blocks R' p = blocks R p) as HL'.
  { intros p Hp. rewrite (proj1 (Hcut p)). destruct (HL p Hp) as (? & ? & _). by rewrite !decide_False. }
  clearbody n. split.
  - apply NoDup_cons. split; [|done]. intros [->|Hin]%elem_of_cons; [lia|]. by destruct (HL n Hin) as (_ & ? & _).
  - intros p [->|[->|Hp]%elem_of_cons]%elem_of_cons; unfold extent, DNA_KERNEL_BLOCK_SIZE, sizeof_region.
    + rewrite Hn'. lia.
    + rewrite Hc'. lia.
    + rewrite (HL' p Hp). apply Hb. set_solver.
  - unfold extent, DNA_KERNEL_BLOCK_SIZE, sizeof_region.
    intros p q [->|[->|Hp]%elem_of_cons]%elem_of_cons [->|[->|Hq]%elem_of_cons]%elem_of_cons Hpq; try done;
      rewrite ?Hn', ?Hc', ?HL' by done; try lia;
      try (destruct (HL p Hp) as (_ & _ & Hp1 & Hp2); lia); try (destruct (HL q Hq) as (_ & _ & Hq1 & Hq2); lia).
    apply Hd; set_solver.
Qed.

(** An allocation, with the room left in the region that was cut. *)
Lemma kernel_region_create_live s c F A D required :
  heap_live s (c :: F) A D -> 0 <= required -> required + 1 < blocks (regions s) c ->
  wp (kernel_region_create required) (fun res s' => res = (DNA_OK, c) /\ exists F',
    let n := c + (required + 1) * DNA_KERNEL_BLOCK_SIZE in F' ≡ₚ n :: F /\
    heap_live s' F' (A ++ [c]) D /\ blocks (regions s') c = required + 1 /\
    blocks (regions s') n = blocks (regions s) c - (required + 1)) s.
Proof.
  intros [Hok Hap Ht] H0 Hreq. eapply wp_mono; [by apply (kernel_region_create_ok s c F A required)|].
  intros res s' (-> & F' & HF' & Hok' & Hcut & _). split; [done|]. exists F'. cbn zeta.
  set (n := c + (required + 1) * DNA_KERNEL_BLOCK_SIZE) in *.
  pose proof (cut_apart _ _ c (F ++ A ++ D) (required + 1) Hap ltac:(lia) Hcut) as Hap'. fold n in Hap'.
  assert (n :: c :: F ++ A ++ D ≡ₚ F' ++ (A ++ [c]) ++ D) as Hperm.
  { rewrite HF'. cbn [app]. apply Permutation_cons; [done|]. rewrite <- app_assoc. cbn [app].
    rewrite <- (Permutation_middle A D). by rewrite <- Permutation_middle. }
  pose proof (apart_nodup _ _ Hap') as [Hnc [Hc Hnd]%NoDup_cons]%NoDup_cons.
  split_and!; [done| | |].
  - split; [done|by eapply apart_perm|]. intros p Hp. rewrite (proj2 (Hcut p)), !decide_False; [by apply Ht|set_solver..].
  - by rewrite (proj1 (Hcut c)), decide_True.
  - rewrite (proj1 (Hcut n)), decide_False, decide_True; [done..|]. set_solver.
Qed.
