(* ===== verification/Kernel.v ===== *)
(** * State of the DNA kernel (DnaCore/Headers/Private, core_variables.c)

    The global variables of the kernel (thread, semaphore, alarm, port and CPU
    pools, the scheduler's queues), the spin locks, the registers of the executing
    processor and the requests made to the hardware, as one record [kstate].
    All the globals live in the BSS, which is cleared at boot: an absent map
    binding is an object filled with zeros.

    Objects and queues are named symbolically ([addr], [qid], [lock]); the
    [next] links and queue headers are the [qstate] of Queue.v.  A kernel function
    is a [K] computation.  [mp_id] is the processor that executes it. *)

From S2P Require Import Prelude Status Queue Allocator.

(** ** Names of objects, queues and locks *)

(** A thread slot of [thread_pool.data[group][index]]. *)
Abbreviation tref := (Z * Z)%type.

Inductive addr : Type :=
| AThread (t : tref) | ASem (i : Z) | AAlarm (i : Z) | APort (i : Z)
| ACpu (i : Z) | AIsr (p : Z) | AMsg (port i : Z).

Inductive qid : Type :=
| QReady (i : Z)          (* scheduler.queue[i] *)
| QCpus                   (* cpu_pool.queue *)
| QSemPool                (* semaphore_pool.semaphore *)
| QSemWait (i : Z)        (* semaphore_pool.data[i].waiting_queue *)
| QThreadPool (g : Z)     (* thread_pool.thread[g] *)
| QThreadWait (t : tref)  (* thread_pool.data[g][i].wait *)
| QAlarmPool              (* alarm_pool.alarm *)
| QAlarms (c : Z)         (* cpu_pool.cpu[c].alarm_queue *)
| QGarbage                (* alarm_garbage of alarm_handler *)
| QIsr (c i : Z)          (* cpu_pool.cpu[c].isr[i] *)
| QPortPool               (* port_pool.port *)
| QPortMsg (i : Z)        (* port_pool.data[i].message *)
| QPortMail (i : Z).      (* port_pool.data[i].mailbox *)

Inductive lock : Type :=
| LQueue (q : qid)        (* the lock embedded in a queue_t *)
| LSemPool | LSem (i : Z)
| LThreadPool | LThread (t : tref)
| LAlarmPool | LAlarm (i : Z)
| LPortPool | LPort (i : Z)
| LCpu (c : Z) | LIpi (c : Z)
| LAllocator
| LNamed (tag i : Z).     (* a lock outside the kernel *)

#[export] Instance addr_eq_dec : EqDecision addr.
Proof. solve_decision. Defined.
#[export] Instance qid_eq_dec : EqDecision qid.
Proof. solve_decision. Defined.
#[export] Instance lock_eq_dec : EqDecision lock.
Proof. solve_decision. Defined.

Definition addr_code (a : addr) : Z * Z * Z :=
  match a with
  | AThread (g, i) => (0, g, i) | ASem i => (1, i, 0) | AAlarm i => (2, i, 0)
  | APort i => (3, i, 0) | ACpu i => (4, i, 0) | AIsr p => (5, p, 0)
  | AMsg p i => (6, p, i)
  end.
Definition addr_decode (c : Z * Z * Z) : addr :=
  match c with
  | (0, g, i) => AThread (g, i) | (1, i, _) => ASem i | (2, i, _) => AAlarm i
  | (3, i, _) => APort i | (4, i, _) => ACpu i | (5, p, _) => AIsr p
  | (_, p, i) => AMsg p i
  end.
#[export] Program Instance addr_countable : Countable addr :=
  inj_countable' addr_code addr_decode _.
Next Obligation. by intros [[]| | | | | |]. Qed.

Definition qid_code (q : qid) : Z * Z * Z :=
  match q with
  | QReady i => (0, i, 0) | QCpus => (1, 0, 0) | QSemPool => (2, 0, 0)
  | QSemWait i => (3, i, 0) | QThreadPool g => (4, g, 0) | QThreadWait (g, i) => (5, g, i)
  | QAlarmPool => (6, 0, 0) | QAlarms c => (7, c, 0) | QGarbage => (8, 0, 0)
  | QIsr c i => (9, c, i) | QPortPool => (10, 0, 0) | QPortMsg i => (11, i, 0)
  | QPortMail i => (12, i, 0)
  end.
Definition qid_decode (c : Z * Z * Z) : qid :=
  match c with
  | (0, i, _) => QReady i | (1, _, _) => QCpus | (2, _, _) => QSemPool
  | (3, i, _) => QSemWait i | (4, g, _) => QThreadPool g | (5, g, i) => QThreadWait (g, i)
  | (6, _, _) => QAlarmPool | (7, c, _) => QAlarms c | (8, _, _) => QGarbage
  | (9, c, i) => QIsr c i | (10, _, _) => QPortPool | (11, i, _) => QPortMsg i
  | (_, i, _) => QPortMail i
  end.
#[export] Program Instance qid_countable : Countable qid :=
  inj_countable' qid_code qid_decode _.
Next Obligation. by intros [| | | | |[]| | | | | | |]. Qed.

Definition lock_code (l : lock) : Z * Z * Z + qid :=
  match l with
  | LQueue q => inr q
  | LSemPool => inl (0, 0, 0) | LSem i => inl (1, i, 0) | LThreadPool => inl (2, 0, 0)
  | LThread (g, i) => inl (3, g, i) | LAlarmPool => inl (4, 0, 0) | LAlarm i => inl (5, i, 0)
  | LPortPool => inl (6, 0, 0) | LPort i => inl (7, i, 0) | LCpu c => inl (8, c, 0)
  | LIpi c => inl (9, c, 0) | LAllocator => inl (10, 0, 0) | LNamed t i => inl (11, t, i)
  end.
Definition lock_decode (c : Z * Z * Z + qid) : lock :=
  match c with
  | inr q => LQueue q
  | inl (0, _, _) => LSemPool | inl (1, i, _) => LSem i | inl (2, _, _) => LThreadPool
  | inl (3, g, i) => LThread (g, i) | inl (4, _, _) => LAlarmPool | inl (5, i, _) => LAlarm i
  | inl (6, _, _) => LPortPool | inl (7, i, _) => LPort i | inl (8, c, _) => LCpu c
  | inl (9, c, _) => LIpi c | inl (10, _, _) => LAllocator | inl (_, t, i) => LNamed t i
  end.
#[export] Program Instance lock_countable : Countable lock :=
  inj_countable' lock_code lock_decode _.
Next Obligation. by intros [| | | |[]| | | | | | | |]. Qed.

(** ** Kernel objects *)

Inductive thread_status_t : Type :=
| DNA_THREAD_NONE          (* the 0 of a cleared slot *)
| DNA_THREAD_READY | DNA_THREAD_RUNNING | DNA_THREAD_SLEEPING
| DNA_THREAD_SUSPENDED | DNA_THREAD_WAITING | DNA_THREAD_ENDED.
#[export] Instance thread_status_eq_dec : EqDecision thread_status_t.
Proof. solve_decision. Defined.

Inductive thread_resource_t : Type :=
| DNA_NO_RESOURCE | DNA_RESOURCE_SEMAPHORE | DNA_RESOURCE_THREAD.
#[export] Instance thread_resource_eq_dec : EqDecision thread_resource_t.
Proof. solve_decision. Defined.

Inductive cpu_status_t : Type :=
| DNA_CPU_NONE | DNA_CPU_READY | DNA_CPU_RUNNING | DNA_CPU_DISABLED.
#[export] Instance cpu_status_eq_dec : EqDecision cpu_status_t.
Proof. solve_decision. Defined.

(** Core/Thread.h: thread_info_t. [name] is the content of the char array up to
    its terminator; pointers are addresses, 0 being NULL. *)
Record thread_info_t := mkInfo {
  t_name : list Z;
  cpu_id : Z;
  group : Z;
  affinity : Z;
  sem_tokens : Z;
  t_status : thread_status_t;
  resource : thread_resource_t;
  resource_id : Z;
  kernel_time : Z;
  user_time : Z;
  stack_base : Z;
  stack_size : Z
}.

(** Private/Thread.h: thread_t ([link], [wait] and [lock] are kept with the
    queues and the locks; [context] belongs to the processor). *)
Record thread_t := mkThread {
  resource_queue : option qid;
  tid_value : Z;
  tid_group : Z;
  tid_index : Z;
  info : thread_info_t;
  stack_allocated : bool;
  handler : Z;
  arguments : Z;
  it_restore : Z;
  return_value : Z
}.

(** Private/Semaphore.h: semaphore_t. *)
Record semaphore_t := mkSem {
  sid_value : Z;
  sid_index : Z;
  s_name : list Z;
  tokens : Z;
  latest_holder : Z
}.

(** The callbacks installed by the kernel are thread_alarm and semaphore_alarm;
    any other one is known by its address. *)
Inductive alarm_callback_t : Type :=
| CB_thread_alarm | CB_semaphore_alarm | CB_other (address : Z).

(** Private/Alarm.h: alarm_t. *)
Record alarm_t := mkAlarm {
  aid_value : Z;
  aid_index : Z;
  a_thread_id : Z;
  a_cpu_id : Z;
  a_mode : Z;
  is_invalid : bool;
  quantum : Z;
  deadline : Z;
  execution_time : Z;
  callback : alarm_callback_t;
  a_data : option tref
}.

(** Private/Cpu.h: cpu_t. *)
Record cpu_t := mkCpu {
  c_id : Z;
  c_status : cpu_status_t;
  lap_date : Z;
  prev_thread : option tref;
  current_thread : option tref;
  idle_thread : option tref;
  current_alarm : option Z
}.

(** Private/Port.h: port_t and message_t. *)
Record port_t := mkPort {
  pid_value : Z;
  pid_index : Z;
  closed : bool;
  p_name : list Z;
  capacity : Z;
  queue_count : Z;
  total_count : Z;
  read_sem : Z;
  write_sem : Z;
  p_data : Z
}.

Record message_t := mkMsg {
  m_code : Z;
  m_size : Z;
  m_buffer : Z
}.

Definition info0 : thread_info_t :=
  mkInfo [] 0 0 0 0 DNA_THREAD_NONE DNA_NO_RESOURCE 0 0 0 0 0.
Definition thread0 : thread_t := mkThread None 0 0 0 info0 false 0 0 0 0.
Definition sem0 : semaphore_t := mkSem 0 0 [] 0 0.
Definition alarm0 : alarm_t := mkAlarm 0 0 0 0 0 false 0 0 0 (CB_other 0) None.
Definition cpu0 : cpu_t := mkCpu 0 DNA_CPU_NONE 0 None None None None.
Definition port0 : port_t := mkPort 0 0 false [] 0 0 0 0 0 0.
Definition msg0 : message_t := mkMsg 0 0 0.

(** ** Requests to the hardware *)

Inductive ipi_t : Type :=
| DNA_IPI_DISPATCH (t : tref) | DNA_IPI_SUSPEND (id : Z)
| DNA_IPI_TRAP_ENABLE (id : Z) | DNA_IPI_TRAP_DISABLE (id : Z).

Inductive hal_event : Type :=
| EvIpi (target : Z) (i : ipi_t)
| EvTimerSet (cpu delay : Z)
| EvTimerCancel (cpu : Z)
| EvTrapEnable (id : Z)
| EvTrapDisable (id : Z)
| EvAttachIsr (cpu id mode handler : Z)
| EvContextInit (t : tref) (base size : Z)
| EvContextSave (t : tref)
| EvContextLoad (t : tref).

Record kstate := mkK {
  kq : @qstate addr qid _ _ _ _;
  locks : gmap lock Z;
  threads : gmap tref thread_t;
  thread_counter : Z;
  sems : gmap Z semaphore_t;
  sem_counter : Z;
  alarms : gmap Z alarm_t;
  alarm_counter : Z;
  ports : gmap Z port_t;
  port_counter : Z;
  msgs : gmap (Z * Z) message_t;
  cpus : gmap Z cpu_t;
  isrs : gmap Z Z;          (* handler of each isr_t *)
  heap : mstate;            (* kernel_allocator and the heap *)
  cpsr : Z;                 (* interrupt status of the executing processor *)
  mp_id : Z;                (* identifier of the executing processor *)
  ticks : nat;              (* number of readings of the timer *)
  events : list hal_event   (* newest first *)
}.

(** ** Functional updates *)

Definition set_kq v (s : kstate) : kstate :=
  mkK v (locks s) (threads s) (thread_counter s) (sems s) (sem_counter s) (alarms s) (alarm_counter s) (ports s) (port_counter s) (msgs s) (cpus s) (isrs s) (heap s) (cpsr s) (mp_id s) (ticks s) (events s).
Definition set_locks v (s : kstate) : kstate :=
  mkK (kq s) v (threads s) (thread_counter s) (sems s) (sem_counter s) (alarms s) (alarm_counter s) (ports s) (port_counter s) (msgs s) (cpus s) (isrs s) (heap s) (cpsr s) (mp_id s) (ticks s) (events s).
Definition set_threads v (s : kstate) : kstate :=
  mkK (kq s) (locks s) v (thread_counter s) (sems s) (sem_counter s) (alarms s) (alarm_counter s) (ports s) (port_counter s) (msgs s) (cpus s) (isrs s) (heap s) (cpsr s) (mp_id s) (ticks s) (events s).
Definition set_thread_counter v (s : kstate) : kstate :=
  mkK (kq s) (locks s) (threads s) v (sems s) (sem_counter s) (alarms s) (alarm_counter s) (ports s) (port_counter s) (msgs s) (cpus s) (isrs s) (heap s) (cpsr s) (mp_id s) (ticks s) (events s).
Definition set_sems v (s : kstate) : kstate :=
  mkK (kq s) (locks s) (threads s) (thread_counter s) v (sem_counter s) (alarms s) (alarm_counter s) (ports s) (port_counter s) (msgs s) (cpus s) (isrs s) (heap s) (cpsr s) (mp_id s) (ticks s) (events s).
Definition set_sem_counter v (s : kstate) : kstate :=
  mkK (kq s) (locks s) (threads s) (thread_counter s) (sems s) v (alarms s) (alarm_counter s) (ports s) (port_counter s) (msgs s) (cpus s) (isrs s) (heap s) (cpsr s) (mp_id s) (ticks s) (events s).
Definition set_alarms v (s : kstate) : kstate :=
  mkK (kq s) (locks s) (threads s) (thread_counter s) (sems s) (sem_counter s) v (alarm_counter s) (ports s) (port_counter s) (msgs s) (cpus s) (isrs s) (heap s) (cpsr s) (mp_id s) (ticks s) (events s).
Definition set_alarm_counter v (s : kstate) : kstate :=
  mkK (kq s) (locks s) (threads s) (thread_counter s) (sems s) (sem_counter s) (alarms s) v (ports s) (port_counter s) (msgs s) (cpus s) (isrs s) (heap s) (cpsr s) (mp_id s) (ticks s) (events s).
Definition set_ports v (s : kstate) : kstate :=
  mkK (kq s) (locks s) (threads s) (thread_counter s) (sems s) (sem_counter s) (alarms s) (alarm_counter s) v (port_counter s) (msgs s) (cpus s) (isrs s) (heap s) (cpsr s) (mp_id s) (ticks s) (events s).
Definition set_port_counter v (s : kstate) : kstate :=
  mkK (kq s) (locks s) (threads s) (thread_counter s) (sems s) (sem_counter s) (alarms s) (alarm_counter s) (ports s) v (msgs s) (cpus s) (isrs s) (heap s) (cpsr s) (mp_id s) (ticks s) (events s).
Definition set_msgs v (s : kstate) : kstate :=
  mkK (kq s) (locks s) (threads s) (thread_counter s) (sems s) (sem_counter s) (alarms s) (alarm_counter s) (ports s) (port_counter s) v (cpus s) (isrs s) (heap s) (cpsr s) (mp_id s) (ticks s) (events s).
Definition set_cpus v (s : kstate) : kstate :=
  mkK (kq s) (locks s) (threads s) (thread_counter s) (sems s) (sem_counter s) (alarms s) (alarm_counter s) (ports s) (port_counter s) (msgs s) v (isrs s) (heap s) (cpsr s) (mp_id s) (ticks s) (events s).
Definition set_isrs v (s : kstate) : kstate :=
  mkK (kq s) (locks s) (threads s) (thread_counter s) (sems s) (sem_counter s) (alarms s) (alarm_counter s) (ports s) (port_counter s) (msgs s) (cpus s) v (heap s) (cpsr s) (mp_id s) (ticks s) (events s).
Definition set_heap v (s : kstate) : kstate :=
  mkK (kq s) (locks s) (threads s) (thread_counter s) (sems s) (sem_counter s) (alarms s) (alarm_counter s) (ports s) (port_counter s) (msgs s) (cpus s) (isrs s) v (cpsr s) (mp_id s) (ticks s) (events s).
Definition set_cpsr v (s : kstate) : kstate :=
  mkK (kq s) (locks s) (threads s) (thread_counter s) (sems s) (sem_counter s) (alarms s) (alarm_counter s) (ports s) (port_counter s) (msgs s) (cpus s) (isrs s) (heap s) v (mp_id s) (ticks s) (events s).
Definition set_mp_id v (s : kstate) : kstate :=
  mkK (kq s) (locks s) (threads s) (thread_counter s) (sems s) (sem_counter s) (alarms s) (alarm_counter s) (ports s) (port_counter s) (msgs s) (cpus s) (isrs s) (heap s) (cpsr s) v (ticks s) (events s).
Definition set_ticks v (s : kstate) : kstate :=
  mkK (kq s) (locks s) (threads s) (thread_counter s) (sems s) (sem_counter s) (alarms s) (alarm_counter s) (ports s) (port_counter s) (msgs s) (cpus s) (isrs s) (heap s) (cpsr s) (mp_id s) v (events s).
Definition set_events v (s : kstate) : kstate :=
  mkK (kq s) (locks s) (threads s) (thread_counter s) (sems s) (sem_counter s) (alarms s) (alarm_counter s) (ports s) (port_counter s) (msgs s) (cpus s) (isrs s) (heap s) (cpsr s) (mp_id s) (ticks s) v.

Definition with_t_name v (r : thread_info_t) : thread_info_t := mkInfo v (cpu_id r) (group r) (affinity r) (sem_tokens r) (t_status r) (resource r) (resource_id r) (kernel_time r) (user_time r) (stack_base r) (stack_size r).
Definition with_cpu_id v (r : thread_info_t) : thread_info_t := mkInfo (t_name r) v (group r) (affinity r) (sem_tokens r) (t_status r) (resource r) (resource_id r) (kernel_time r) (user_time r) (stack_base r) (stack_size r).
Definition with_group v (r : thread_info_t) : thread_info_t := mkInfo (t_name r) (cpu_id r) v (affinity r) (sem_tokens r) (t_status r) (resource r) (resource_id r) (kernel_time r) (user_time r) (stack_base r) (stack_size r).
Definition with_affinity v (r : thread_info_t) : thread_info_t := mkInfo (t_name r) (cpu_id r) (group r) v (sem_tokens r) (t_status r) (resource r) (resource_id r) (kernel_time r) (user_time r) (stack_base r) (stack_size r).
Definition with_sem_tokens v (r : thread_info_t) : thread_info_t := mkInfo (t_name r) (cpu_id r) (group r) (affinity r) v (t_status r) (resource r) (resource_id r) (kernel_time r) (user_time r) (stack_base r) (stack_size r).
Definition with_t_status v (r : thread_info_t) : thread_info_t := mkInfo (t_name r) (cpu_id r) (group r) (affinity r) (sem_tokens r) v (resource r) (resource_id r) (kernel_time r) (user_time r) (stack_base r) (stack_size r).
Definition with_resource v (r : thread_info_t) : thread_info_t := mkInfo (t_name r) (cpu_id r) (group r) (affinity r) (sem_tokens r) (t_status r) v (resource_id r) (kernel_time r) (user_time r) (stack_base r) (stack_size r).
Definition with_resource_id v (r : thread_info_t) : thread_info_t := mkInfo (t_name r) (cpu_id r) (group r) (affinity r) (sem_tokens r) (t_status r) (resource r) v (kernel_time r) (user_time r) (stack_base r) (stack_size r).
Definition with_kernel_time v (r : thread_info_t) : thread_info_t := mkInfo (t_name r) (cpu_id r) (group r) (affinity r) (sem_tokens r) (t_status r) (resource r) (resource_id r) v (user_time r) (stack_base r) (stack_size r).
Definition with_user_time v (r : thread_info_t) : thread_info_t := mkInfo (t_name r) (cpu_id r) (group r) (affinity r) (sem_tokens r) (t_status r) (resource r) (resource_id r) (kernel_time r) v (stack_base r) (stack_size r).
Definition with_stack_base v (r : thread_info_t) : thread_info_t := mkInfo (t_name r) (cpu_id r) (group r) (affinity r) (sem_tokens r) (t_status r) (resource r) (resource_id r) (kernel_time r) (user_time r) v (stack_size r).
Definition with_stack_size v (r : thread_info_t) : thread_info_t := mkInfo (t_name r) (cpu_id r) (group r) (affinity r) (sem_tokens r) (t_status r) (resource r) (resource_id r) (kernel_time r) (user_time r) (stack_base r) v.

Definition with_resource_queue v (r : thread_t) : thread_t := mkThread v (tid_value r) (tid_group r) (tid_index r) (info r) (stack_allocated r) (handler r) (arguments r) (it_restore r) (return_value r).
Definition with_tid_value v (r : thread_t) : thread_t := mkThread (resource_queue r) v (tid_group r) (tid_index r) (info r) (stack_allocated r) (handler r) (arguments r) (it_restore r) (return_value r).
Definition with_tid_group v (r : thread_t) : thread_t := mkThread (resource_queue r) (tid_value r) v (tid_index r) (info r) (stack_allocated r) (handler r) (arguments r) (it_restore r) (return_value r).
Definition with_tid_index v (r : thread_t) : thread_t := mkThread (resource_queue r) (tid_value r) (tid_group r) v (info r) (stack_allocated r) (handler r) (arguments r) (it_restore r) (return_value r).
Definition with_info v (r : thread_t) : thread_t := mkThread (resource_queue r) (tid_value r) (tid_group r) (tid_index r) v (stack_allocated r) (handler r) (arguments r) (it_restore r) (return_value r).
Definition with_stack_allocated v (r : thread_t) : thread_t := mkThread (resource_queue r) (tid_value r) (tid_group r) (tid_index r) (info r) v (handler r) (arguments r) (it_restore r) (return_value r).
Definition with_handler v (r : thread_t) : thread_t := mkThread (resource_queue r) (tid_value r) (tid_group r) (tid_index r) (info r) (stack_allocated r) v (arguments r) (it_restore r) (return_value r).
Definition with_arguments v (r : thread_t) : thread_t := mkThread (resource_queue r) (tid_value r) (tid_group r) (tid_index r) (info r) (stack_allocated r) (handler r) v (it_restore r) (return_value r).
Definition with_it_restore v (r : thread_t) : thread_t := mkThread (resource_queue r) (tid_value r) (tid_group r) (tid_index r) (info r) (stack_allocated r) (handler r) (arguments r) v (return_value r).
Definition with_return_value v (r : thread_t) : thread_t := mkThread (resource_queue r) (tid_value r) (tid_group r) (tid_index r) (info r) (stack_allocated r) (handler r) (arguments r) (it_restore r) v.

Definition with_sid_value v (r : semaphore_t) : semaphore_t := mkSem v (sid_index r) (s_name r) (tokens r) (latest_holder r).
Definition with_sid_index v (r : semaphore_t) : semaphore_t := mkSem (sid_value r) v (s_name r) (tokens r) (latest_holder r).
Definition with_s_name v (r : semaphore_t) : semaphore_t := mkSem (sid_value r) (sid_index r) v (tokens r) (latest_holder r).
Definition with_tokens v (r : semaphore_t) : semaphore_t := mkSem (sid_value r) (sid_index r) (s_name r) v (latest_holder r).
Definition with_latest_holder v (r : semaphore_t) : semaphore_t := mkSem (sid_value r) (sid_index r) (s_name r) (tokens r) v.

Definition with_aid_value v (r : alarm_t) : alarm_t := mkAlarm v (aid_index r) (a_thread_id r) (a_cpu_id r) (a_mode r) (is_invalid r) (quantum r) (deadline r) (execution_time r) (callback r) (a_data r).
Definition with_aid_index v (r : alarm_t) : alarm_t := mkAlarm (aid_value r) v (a_thread_id r) (a_cpu_id r) (a_mode r) (is_invalid r) (quantum r) (deadline r) (execution_time r) (callback r) (a_data r).
Definition with_a_thread_id v (r : alarm_t) : alarm_t := mkAlarm (aid_value r) (aid_index r) v (a_cpu_id r) (a_mode r) (is_invalid r) (quantum r) (deadline r) (execution_time r) (callback r) (a_data r).
Definition with_a_cpu_id v (r : alarm_t) : alarm_t := mkAlarm (aid_value r) (aid_index r) (a_thread_id r) v (a_mode r) (is_invalid r) (quantum r) (deadline r) (execution_time r) (callback r) (a_data r).
Definition with_a_mode v (r : alarm_t) : alarm_t := mkAlarm (aid_value r) (aid_index r) (a_thread_id r) (a_cpu_id r) v (is_invalid r) (quantum r) (deadline r) (execution_time r) (callback r) (a_data r).
Definition with_is_invalid v (r : alarm_t) : alarm_t := mkAlarm (aid_value r) (aid_index r) (a_thread_id r) (a_cpu_id r) (a_mode r) v (quantum r) (deadline r) (execution_time r) (callback r) (a_data r).
Definition with_quantum v (r : alarm_t) : alarm_t := mkAlarm (aid_value r) (aid_index r) (a_thread_id r) (a_cpu_id r) (a_mode r) (is_invalid r) v (deadline r) (execution_time r) (callback r) (a_data r).
Definition with_deadline v (r : alarm_t) : alarm_t := mkAlarm (aid_value r) (aid_index r) (a_thread_id r) (a_cpu_id r) (a_mode r) (is_invalid r) (quantum r) v (execution_time r) (callback r) (a_data r).
Definition with_execution_time v (r : alarm_t) : alarm_t := mkAlarm (aid_value r) (aid_index r) (a_thread_id r) (a_cpu_id r) (a_mode r) (is_invalid r) (quantum r) (deadline r) v (callback r) (a_data r).
Definition with_callback v (r : alarm_t) : alarm_t := mkAlarm (aid_value r) (aid_index r) (a_thread_id r) (a_cpu_id r) (a_mode r) (is_invalid r) (quantum r) (deadline r) (execution_time r) v (a_data r).
Definition with_a_data v (r : alarm_t) : alarm_t := mkAlarm (aid_value r) (aid_index r) (a_thread_id r) (a_cpu_id r) (a_mode r) (is_invalid r) (quantum r) (deadline r) (execution_time r) (callback r) v.

Definition with_c_id v (r : cpu_t) : cpu_t := mkCpu v (c_status r) (lap_date r) (prev_thread r) (current_thread r) (idle_thread r) (current_alarm r).
Definition with_c_status v (r : cpu_t) : cpu_t := mkCpu (c_id r) v (lap_date r) (prev_thread r) (current_thread r) (idle_thread r) (current_alarm r).
Definition with_lap_date v (r : cpu_t) : cpu_t := mkCpu (c_id r) (c_status r) v (prev_thread r) (current_thread r) (idle_thread r) (current_alarm r).
Definition with_prev_thread v (r : cpu_t) : cpu_t := mkCpu (c_id r) (c_status r) (lap_date r) v (current_thread r) (idle_thread r) (current_alarm r).
Definition with_current_thread v (r : cpu_t) : cpu_t := mkCpu (c_id r) (c_status r) (lap_date r) (prev_thread r) v (idle_thread r) (current_alarm r).
Definition with_idle_thread v (r : cpu_t) : cpu_t := mkCpu (c_id r) (c_status r) (lap_date r) (prev_thread r) (current_thread r) v (current_alarm r).
Definition with_current_alarm v (r : cpu_t) : cpu_t := mkCpu (c_id r) (c_status r) (lap_date r) (prev_thread r) (current_thread r) (idle_thread r) v.

Definition with_pid_value v (r : port_t) : port_t := mkPort v (pid_index r) (closed r) (p_name r) (capacity r) (queue_count r) (total_count r) (read_sem r) (write_sem r) (p_data r).
Definition with_pid_index v (r : port_t) : port_t := mkPort (pid_value r) v (closed r) (p_name r) (capacity r) (queue_count r) (total_count r) (read_sem r) (write_sem r) (p_data r).
Definition with_closed v (r : port_t) : port_t := mkPort (pid_value r) (pid_index r) v (p_name r) (capacity r) (queue_count r) (total_count r) (read_sem r) (write_sem r) (p_data r).
Definition with_p_name v (r : port_t) : port_t := mkPort (pid_value r) (pid_index r) (closed r) v (capacity r) (queue_count r) (total_count r) (read_sem r) (write_sem r) (p_data r).
Definition with_capacity v (r : port_t) : port_t := mkPort (pid_value r) (pid_index r) (closed r) (p_name r) v (queue_count r) (total_count r) (read_sem r) (write_sem r) (p_data r).
Definition with_queue_count v (r : port_t) : port_t := mkPort (pid_value r) (pid_index r) (closed r) (p_name r) (capacity r) v (total_count r) (read_sem r) (write_sem r) (p_data r).
Definition with_total_count v (r : port_t) : port_t := mkPort (pid_value r) (pid_index r) (closed r) (p_name r) (capacity r) (queue_count r) v (read_sem r) (write_sem r) (p_data r).
Definition with_read_sem v (r : port_t) : port_t := mkPort (pid_value r) (pid_index r) (closed r) (p_name r) (capacity r) (queue_count r) (total_count r) v (write_sem r) (p_data r).
Definition with_write_sem v (r : port_t) : port_t := mkPort (pid_value r) (pid_index r) (closed r) (p_name r) (capacity r) (queue_count r) (total_count r) (read_sem r) v (p_data r).
Definition with_p_data v (r : port_t) : port_t := mkPort (pid_value r) (pid_index r) (closed r) (p_name r) (capacity r) (queue_count r) (total_count r) (read_sem r) (write_sem r) v.

Abbreviation K := (M kstate).

(** ** Access to the objects *)

Definition thr (t : tref) (s : kstate) : thread_t := default thread0 (threads s !! t).
Definition sem (i : Z) (s : kstate) : semaphore_t := default sem0 (sems s !! i).
Definition alarm (i : Z) (s : kstate) : alarm_t := default alarm0 (alarms s !! i).
Definition cpu (c : Z) (s : kstate) : cpu_t := default cpu0 (cpus s !! c).
Definition port (i : Z) (s : kstate) : port_t := default port0 (ports s !! i).
Definition msg (m : Z * Z) (s : kstate) : message_t := default msg0 (msgs s !! m).

Definition put_thr (t : tref) (v : thread_t) (s : kstate) := set_threads (<[t := v]> (threads s)) s.
Definition put_sem (i : Z) (v : semaphore_t) (s : kstate) := set_sems (<[i := v]> (sems s)) s.
Definition put_alarm (i : Z) (v : alarm_t) (s : kstate) := set_alarms (<[i := v]> (alarms s)) s.
Definition put_cpu (c : Z) (v : cpu_t) (s : kstate) := set_cpus (<[c := v]> (cpus s)) s.
Definition put_port (i : Z) (v : port_t) (s : kstate) := set_ports (<[i := v]> (ports s)) s.

Definition upd_thr (t : tref) (f : thread_t -> thread_t) : K unit :=
  modify (fun s => put_thr t (f (thr t s)) s).
Definition upd_sem (i : Z) (f : semaphore_t -> semaphore_t) : K unit :=
  modify (fun s => put_sem i (f (sem i s)) s).
Definition upd_alarm (i : Z) (f : alarm_t -> alarm_t) : K unit :=
  modify (fun s => put_alarm i (f (alarm i s)) s).
Definition upd_cpu (c : Z) (f : cpu_t -> cpu_t) : K unit :=
  modify (fun s => put_cpu c (f (cpu c s)) s).
Definition upd_port (i : Z) (f : port_t -> port_t) : K unit :=
  modify (fun s => put_port i (f (port i s)) s).

(** Update of the [info] member of a thread. *)
Definition upd_info (t : tref) (f : thread_info_t -> thread_info_t) : K unit :=
  upd_thr t (fun v => with_info (f (info v)) v).

(** Run a queue operation, an allocator operation. *)
Definition onq {A} (m : M (@qstate addr qid _ _ _ _) A) : K A := lift kq set_kq m.
Definition onheap {A} (m : M mstate A) : K A := lift heap set_heap m.

(** ** The processor (Processor component, as implemented for ARMv6)

    The number of processors and the readings of the timers are provided by the
    platform. *)

Class Hal := {
  cpu_mp_count : Z;
  timer_value : Z -> nat -> Z
}.

Definition emit (e : hal_event) : K unit := modify (fun s => set_events (e :: events s) s).

Definition cpu_mp_id : K Z := gets mp_id.

(** cpu_trap_mask_and_backup.c: return the status register, mask IRQ and FIQ. *)
Definition cpu_trap_mask_and_backup : K Z :=
  let* v := gets cpsr in
  modify (set_cpsr (Z.lor v 0xC0)) ;;
  ret v.

(** cpu_trap_restore.c *)
Definition cpu_trap_restore (backup : Z) : K unit := modify (set_cpsr backup).

Definition cpu_timer_get `{Hal} (id : Z) : K Z :=
  let* n := gets ticks in
  modify (set_ticks (S n)) ;;
  ret (timer_value id n).

Definition cpu_timer_set (id delay : Z) : K unit := emit (EvTimerSet id delay).
Definition cpu_timer_cancel (id : Z) : K unit := emit (EvTimerCancel id).
Definition cpu_mp_send_ipi (target : Z) (i : ipi_t) : K unit := emit (EvIpi target i).

(** Synchronization.c: the value of the lock is returned, or 0 if it was free,
    in which case it is set. *)
Definition cpu_test_and_set (v : Z) : Z * Z := if v =? 0 then (0, 1) else (v, v).

(** ** Spin locks (lock_*.c) *)

Definition lockval (l : lock) (s : kstate) : Z := default 0 (locks s !! l).

(** Storing 0 removes the binding: a free lock has no binding. *)
Definition store_lock (l : lock) (v : Z) (m : gmap lock Z) : gmap lock Z :=
  if v =? 0 then delete l m else <[l := v]> m.

Definition put_lock (l : lock) (v : Z) (s : kstate) : kstate :=
  set_locks (store_lock l v (locks s)) s.

Definition lock_create (l : lock) : K status_t := modify (put_lock l 0) ;; ret DNA_OK.
Definition lock_destroy (l : lock) : K unit := modify (put_lock l (-1)).

(** while (cpu_test_and_set (lock) == 1); *)
Definition lock_acquire (l : lock) : K unit :=
  fun s => let (r, v) := cpu_test_and_set (lockval l s) in
           if r =? 1 then Spin s else Ret tt (put_lock l v s).

Definition lock_try (l : lock) (acquire : bool) : K status_t :=
  let* v := gets (lockval l) in
  let (r, v') := cpu_test_and_set v in
  modify (put_lock l v') ;;
  if r =? 1 then
    (if acquire then ret DNA_ERROR else ret DNA_WOULD_BLOCK)
  else
    (if negb acquire then modify (put_lock l 0) else ret tt) ;;
    ret DNA_OK.

Definition lock_release (l : lock) : K unit := modify (put_lock l 0).

(** ** Identifiers

    The [raw] member of the identifier unions, on a little-endian processor. *)

Definition sem_raw (value index : Z) : Z := i32 (Z.lor value (Z.shiftl index 16)).
Definition raw_value (raw : Z) : Z := Z.land (u32 raw) 0xFFFF.
Definition raw_index (raw : Z) : Z := Z.shiftr (u32 raw) 16.
Definition thread_raw (value group index : Z) : Z :=
  i32 (Z.lor value (Z.lor (Z.shiftl group 16) (Z.shiftl index 24))).
Definition raw_tgroup (raw : Z) : Z := Z.land (Z.shiftr (u32 raw) 16) 0xFF.
Definition raw_tindex (raw : Z) : Z := Z.shiftr (u32 raw) 24.

Definition sem_id (v : semaphore_t) : Z := sem_raw (sid_value v) (sid_index v).
Definition alarm_id (v : alarm_t) : Z := sem_raw (aid_value v) (aid_index v).
Definition port_id (v : port_t) : Z := sem_raw (pid_value v) (pid_index v).
Definition thread_id (v : thread_t) : Z := thread_raw (tid_value v) (tid_group v) (tid_index v).

Definition tst_eqb (a b : thread_status_t) : bool := bool_decide (a = b).
Definition tref_eqb (a b : tref) : bool := bool_decide (a = b).

(** The thread stored at an item address of a thread queue. *)
Definition as_thread (a : option addr) : K (option tref) :=
  match a with
  | None => ret None
  | Some (AThread t) => ret (Some t)
  | Some _ => fault
  end.
Definition as_sem (a : option addr) : K (option Z) :=
  match a with None => ret None | Some (ASem i) => ret (Some i) | Some _ => fault end.
Definition as_alarm (a : option addr) : K (option Z) :=
  match a with None => ret None | Some (AAlarm i) => ret (Some i) | Some _ => fault end.
Definition as_port (a : option addr) : K (option Z) :=
  match a with None => ret None | Some (APort i) => ret (Some i) | Some _ => fault end.
Definition as_cpu (a : option addr) : K (option Z) :=
  match a with None => ret None | Some (ACpu i) => ret (Some i) | Some _ => fault end.
Definition as_msg (a : option addr) : K (option (Z * Z)) :=
  match a with None => ret None | Some (AMsg p i) => ret (Some (p, i)) | Some _ => fault end.
Definition as_isr (a : option addr) : K (option Z) :=
  match a with None => ret None | Some (AIsr p) => ret (Some p) | Some _ => fault end.

(** dna_strcpy into a [char name[DNA_NAME_LENGTH]] member; a longer string
    overflows the array. *)
Definition strcpy_name (name : list Z) : K (list Z) :=
  if Z.of_nat (length name) <? DNA_NAME_LENGTH then ret name else fault.

(** ** Identifiers: the [raw] member determines the others *)

Lemma u32_i32 z : u32 (i32 z) = u32 z.
Proof.
  unfold u32, i32, wrap_u, wrap_s. change (2 ^ (32 - 1)) with 2147483648.
  change (2 ^ 32) with 4294967296.
  rewrite Zminus_mod_idemp_l. f_equal. lia.
Qed.

Lemma lor_shift v i n : 0 <= n -> 0 <= v < 2 ^ n -> Z.lor v (Z.shiftl i n) = v + i * 2 ^ n.
Proof.
  intros Hn Hv. rewrite Z.shiftl_mul_pow2 by done.
  assert (Z.land v (i * 2 ^ n) = 0) as Hl; [|pose proof (Z.add_lor_land v (i * 2 ^ n)); lia].
  apply Z.bits_inj'. intros k Hk. rewrite Z.land_spec, Z.bits_0.
  destruct (Z.lt_ge_cases k n).
  - rewrite Z.mul_pow2_bits_low by done. apply andb_false_r.
  - destruct (decide (v = 0)) as [->|]; [by rewrite Z.bits_0|].
    rewrite (Z.bits_above_log2 v k); [done|lia|]. apply Z.log2_lt_pow2; [lia|].
    eapply Z.lt_le_trans; [apply Hv|]. apply Z.pow_le_mono_r; lia.
Qed.

(** A semaphore, alarm or port identifier. *)
Lemma sem_raw_fields v i :
  0 <= v < 65536 -> 0 <= i < 65536 ->
  raw_value (sem_raw v i) = v /\ raw_index (sem_raw v i) = i.
Proof.
  intros Hv Hi. unfold raw_value, raw_index, sem_raw. rewrite u32_i32, lor_shift by (cbn; lia).
  change (2 ^ 16) with 65536. rewrite u32_id by lia. split.
  - change 0xFFFF with (Z.ones 16). rewrite Z.land_ones by lia. change (2 ^ 16) with 65536.
    rewrite Z_mod_plus_full. apply Z.mod_small. lia.
  - rewrite Z.shiftr_div_pow2 by lia. change (2 ^ 16) with 65536.
    rewrite Z_div_plus_full, Z.div_small by lia. lia.
Qed.

(** A thread identifier. *)
Lemma thread_raw_fields v g i :
  0 <= v < 65536 -> 0 <= g < 256 -> 0 <= i < 256 ->
  raw_value (thread_raw v g i) = v /\ raw_tgroup (thread_raw v g i) = g /\
  raw_tindex (thread_raw v g i) = i.
Proof.
  intros Hv Hg Hi. unfold raw_value, raw_tgroup, raw_tindex, thread_raw.
  assert (Z.lor (Z.shiftl g 16) (Z.shiftl i 24) = Z.shiftl (g + i * 256) 16) as ->.
  { change 24 with (8 + 16). rewrite <- Z.shiftl_shiftl by lia. rewrite <- Z.shiftl_lor.
    rewrite lor_shift by (cbn; lia). done. }
  rewrite u32_i32, lor_shift by (cbn; lia). change (2 ^ 16) with 65536. rewrite u32_id by lia.
  assert ((v + (g + i * 256) * 65536) / 65536 = g + i * 256) as Hd.
  { rewrite Z_div_plus_full, Z.div_small by lia. lia. }
  split_and!.
  - change 0xFFFF with (Z.ones 16). rewrite Z.land_ones by lia. change (2 ^ 16) with 65536.
    rewrite Z_mod_plus_full. apply Z.mod_small. lia.
  - rewrite Z.shiftr_div_pow2 by lia. change (2 ^ 16) with 65536. rewrite Hd.
    change 0xFF with (Z.ones 8). rewrite Z.land_ones by lia. change (2 ^ 8) with 256.
    rewrite Z_mod_plus_full. apply Z.mod_small. lia.
  - rewrite Z.shiftr_div_pow2 by lia. change (2 ^ 24) with (65536 * 256).
    rewrite <- Z.div_div, Hd by lia. rewrite Z_div_plus_full, Z.div_small by lia. lia.
Qed.

(** the identifiers are faithful: the value, the group and the index packed in the
    identifier of a semaphore or of a thread are read back from it. *)
Theorem identifiers_roundtrip v g i :
  0 <= v < 65536 -> 0 <= g < 256 -> 0 <= i < 256 ->
  (raw_value (sem_raw v i) = v /\ raw_index (sem_raw v i) = i) /\
  raw_value (thread_raw v g i) = v /\ raw_tgroup (thread_raw v g i) = g /\
  raw_tindex (thread_raw v g i) = i.
Proof. intros Hv Hg Hi. split; [apply sem_raw_fields; lia|by apply thread_raw_fields]. Qed.

Lemma identifiers_roundtrip_witness :
  (raw_value (sem_raw 65535 3) = 65535 /\ raw_index (sem_raw 65535 3) = 3) /\
  raw_value (thread_raw 65535 1 3) = 65535 /\ raw_tgroup (thread_raw 65535 1 3) = 1 /\
  raw_tindex (thread_raw 65535 1 3) = 3.
Proof. apply (identifiers_roundtrip 65535 1 3); lia. Defined.
