(* ===== verification/Logic.v ===== *)
(** * Symbolic execution of kernel code

    The rules below complete those of Prelude.v for [wp], one for each primitive
    of Kernel.v and each queue operation; they are applied forwards by the
    tactics [kstep] and [krun].  The queue rules expose a queue operation as its
    effect on the list [V q] (Queue.v) and hide the links. *)

From S2P Require Import Prelude Status Queue Allocator Kernel.

Lemma wp_onheap {A} (m : M mstate A) Q s :
  wp m (fun a h => Q a (set_heap h s)) (heap s) -> wp (onheap m) Q s.
Proof. unfold wp, onheap, lift. by destruct (m (heap s)). Qed.

(** ** Locks *)

Lemma wp_lock_acquire l Q s :
  locks s !! l = None -> Q tt (set_locks (<[l := 1]> (locks s)) s) -> wp (lock_acquire l) Q s.
Proof. intros Hl HQ. unfold wp, lock_acquire, lockval. by rewrite Hl. Qed.

Lemma wp_lock_release l Q s :
  Q tt (set_locks (delete l (locks s)) s) -> wp (lock_release l) Q s.
Proof. done. Qed.

Lemma wp_lock_reset l Q s :
  Q tt (set_locks (delete l (locks s)) s) -> wp (modify (put_lock l 0)) Q s.
Proof. done. Qed.

(** Releasing in any order the locks taken gives the initial locks back. *)
Lemma delete_insert_free {A} `{Countable B} (m : gmap B A) l v :
  m !! l = None -> delete l (<[l := v]> m) = m.
Proof. intros Hl. rewrite delete_insert_eq. by apply delete_id. Qed.

(** ** Queue operations *)

Section QueueRules.
Context (U : gset addr) (V : qid -> list addr).

Lemma wp_queue_add q x Q s :
  qwf U (kq s) V -> unqueued V x -> x ∈ U ->
  (forall t, qwf U t (vupd V q (V q ++ [x])) -> Q DNA_OK (set_kq t s)) ->
  wp (onq (queue_add q x)) Q s.
Proof.
  intros Hwf Hx HxU HQ. destruct (queue_add_ok U (kq s) V q x) as (t & Ht & Hwf'); auto.
  unfold wp, onq, lift. rewrite Ht. auto.
Qed.

Lemma wp_queue_pushback q x Q s :
  qwf U (kq s) V -> unqueued V x -> x ∈ U ->
  (forall t, qwf U t (vupd V q (x :: V q)) -> Q DNA_OK (set_kq t s)) ->
  wp (onq (queue_pushback q x)) Q s.
Proof.
  intros Hwf Hx HxU HQ. destruct (queue_pushback_ok U (kq s) V q x) as (t & Ht & Hwf'); auto.
  unfold wp, onq, lift. rewrite Ht. auto.
Qed.

Lemma wp_queue_rem_nil q Q s :
  qwf U (kq s) V -> V q = [] -> Q None s -> wp (onq (queue_rem q)) Q s.
Proof.
  intros Hwf Hq HQ. unfold wp, onq, lift. rewrite (queue_rem_nil _ _ _ _ Hwf Hq). by destruct s.
Qed.

Lemma wp_queue_rem_cons q x l Q s :
  qwf U (kq s) V -> V q = x :: l ->
  (forall t, qwf U t (vupd V q l) -> Q (Some x) (set_kq t s)) ->
  wp (onq (queue_rem q)) Q s.
Proof.
  intros Hwf Hq HQ. destruct (queue_rem_cons _ _ _ _ _ _ Hwf Hq) as (t & Ht & Hwf').
  unfold wp, onq, lift. rewrite Ht. auto.
Qed.

Lemma wp_queue_extract q x l1 l2 Q s :
  qwf U (kq s) V -> V q = l1 ++ x :: l2 ->
  (forall t, qwf U t (vupd V q (l1 ++ l2)) -> Q DNA_OK (set_kq t s)) ->
  wp (onq (queue_extract q (Some x))) Q s.
Proof.
  intros Hwf Hq HQ. destruct (queue_extract_ok _ _ _ _ _ _ _ Hwf Hq) as (t & Ht & Hwf').
  unfold wp, onq, lift. rewrite Ht. auto.
Qed.

Lemma wp_queue_extract_fail q x Q s :
  qwf U (kq s) V -> x ∉ V q -> Q DNA_ERROR s ->
  wp (onq (queue_extract q (Some x))) Q s.
Proof.
  intros Hwf Hq HQ. unfold wp, onq, lift. rewrite (queue_extract_fail _ _ _ _ _ Hwf Hq).
  by destruct s.
Qed.

Lemma wp_queue_insert q cmp x Q s :
  qwf U (kq s) V -> unqueued V x -> x ∈ U ->
  (forall t, qwf U t (vupd V q (insert_before cmp x (V q))) -> Q tt (set_kq t s)) ->
  wp (onq (queue_insert q cmp x)) Q s.
Proof.
  intros Hwf Hx HxU HQ. destruct (queue_insert_ok U (kq s) V q x cmp) as (t & Ht & Hwf'); auto.
  unfold wp, onq, lift. rewrite Ht. auto.
Qed.

Lemma wp_queue_lookup q inspector Q s :
  qwf U (kq s) V -> Q (List.find inspector (V q)) s ->
  wp (onq (queue_lookup q inspector)) Q s.
Proof.
  intros Hwf HQ. unfold wp, onq, lift. rewrite (queue_lookup_ok _ _ _ _ _ Hwf). by destruct s.
Qed.

End QueueRules.

Lemma wp_onq_modify f Q s : Q tt (set_kq (f (kq s)) s) -> wp (onq (modify f)) Q s.
Proof. done. Qed.

(** dna_memset over an item that is in no queue and over an empty queue. *)
Lemma qwf_cleared U (s : @qstate addr qid _ _ _ _) (V : qid -> list addr) x q :
  qwf U s V -> unqueued V x -> V q = [] ->
  qwf U (putq q DNA_QUEUE_DEFAULTS (set_next x None s)) V.
Proof.
  intros Hwf Hx Hq. apply qwf_reset; [|done].
  enough (set_next x None s = s) as -> by done. unfold set_next.
  rewrite delete_id; [by destruct s|]. by apply (wf_free _ _ _ Hwf).
Qed.

(** Unqueued items stay so when another queue changes. *)
Lemma unqueued_vupd (V : qid -> list addr) q l x :
  unqueued V x -> x ∉ l -> unqueued (vupd V q l) x.
Proof. intros Hx Hl q'. unfold vupd. by case_decide; [|apply Hx]. Qed.

(** ... or when its queue loses items. *)
Lemma unqueued_sub (V : qid -> list addr) q l x :
  unqueued V x -> l ⊆ V q -> unqueued (vupd V q l) x.
Proof. intros Hx Hl. apply unqueued_vupd; [done|]. intros Hin. by apply (Hx q), Hl. Qed.

Lemma unqueued_popped U s (V : qid -> list addr) q x l :
  qwf U s V -> V q = x :: l -> unqueued (vupd V q l) x.
Proof. intros Hwf Hq. by apply (unqueued_removed _ _ _ _ _ [] l Hwf Hq). Qed.

Lemma qwf_in_U U s (V : qid -> list addr) q x : qwf U s V -> x ∈ V q -> x ∈ U.
Proof. intros Hwf. apply (wf_in _ _ _ Hwf). Qed.

(** ** Tactics

    The state is kept as an explicit record [mkK ...]: [kred] reduces the
    setters and projections of Kernel.v, [kmaps] the lookups of just-written
    bindings, [kstep] executes one primitive and [krun] all those whose outcome
    is known.  [lock_free] proves that a lock is free. *)

(** Comparisons of two known codes. *)
Ltac keqb :=
  repeat match goal with
  | |- context [st_eqb ?a ?b] =>
      is_constructor a; is_constructor b;
      let r := eval vm_compute in (st_eqb a b) in change (st_eqb a b) with r
  | |- context [tst_eqb ?a ?b] =>
      is_constructor a; is_constructor b;
      let r := eval vm_compute in (tst_eqb a b) in change (tst_eqb a b) with r
  end; cbn [negb andb orb].

Ltac kred :=
  cbv beta iota zeta delta
    [set_kq set_locks set_threads set_thread_counter set_sems set_sem_counter
     set_alarms set_alarm_counter set_ports set_port_counter set_msgs set_cpus
     set_isrs set_heap set_cpsr set_mp_id set_ticks set_events
     kq locks threads thread_counter sems sem_counter alarms alarm_counter ports
     port_counter msgs cpus isrs heap cpsr mp_id ticks events
     put_thr put_sem put_alarm put_cpu put_port
     thr sem alarm cpu port msg fst snd].

Ltac kmaps :=
  repeat (first [ rewrite lookup_insert_eq | rewrite insert_insert_eq
                | rewrite lookup_delete_eq
                | rewrite lookup_insert_ne by (congruence || done)
                | rewrite lookup_delete_ne by (congruence || done)
                | rewrite lookup_empty ]); cbn [from_option Datatypes.id].

Ltac kdefault := cbn [from_option Datatypes.id].

Ltac lock_free :=
  kred;
  repeat (first [ rewrite lookup_delete_eq
                | rewrite lookup_insert_ne by (congruence || done)
                | rewrite lookup_delete_ne by (congruence || done) ]);
  first [ assumption | by eauto | done ].

(** Cancel the acquisitions against the releases. *)
Ltac klocks :=
  repeat first [ rewrite delete_insert_free by lock_free | rewrite delete_insert_ne by (done || congruence) ].

(** Execute the next primitive. *)
Ltac kstep :=
  lazymatch goal with
  | |- wp (bind _ _) _ _ => apply wp_bind
  | |- wp (ret _) _ _ => apply wp_ret
  | |- wp (gets _) _ _ => apply wp_gets
  | |- wp (modify (put_lock _ 0)) _ _ => apply wp_lock_reset
  | |- wp (modify _) _ _ => apply wp_modify
  | |- wp (onq (modify _)) _ _ => apply wp_onq_modify
  | |- wp (upd_thr _ _) _ _ => apply wp_modify
  | |- wp (upd_info _ _) _ _ => apply wp_modify
  | |- wp (upd_sem _ _) _ _ => apply wp_modify
  | |- wp (upd_alarm _ _) _ _ => apply wp_modify
  | |- wp (upd_cpu _ _) _ _ => apply wp_modify
  | |- wp (upd_port _ _) _ _ => apply wp_modify
  | |- wp (emit _) _ _ => apply wp_modify
  | |- wp (cpu_trap_restore _) _ _ => apply wp_modify
  | |- wp (cpu_timer_set _ _) _ _ => apply wp_modify
  | |- wp (cpu_timer_cancel _) _ _ => apply wp_modify
  | |- wp (cpu_mp_send_ipi _ _) _ _ => apply wp_modify
  | |- wp cpu_mp_id _ _ => apply wp_gets
  | |- wp cpu_trap_mask_and_backup _ _ => unfold cpu_trap_mask_and_backup
  | |- wp (cpu_timer_get _) _ _ => unfold cpu_timer_get
  | |- wp (deref (Some _)) _ _ => apply wp_ret
  | |- wp (as_thread (Some (AThread _))) _ _ => apply wp_ret
  | |- wp (as_thread None) _ _ => apply wp_ret
  | |- wp (as_cpu (Some (ACpu _))) _ _ => apply wp_ret
  | |- wp (as_cpu None) _ _ => apply wp_ret
  | |- wp (as_sem (Some (ASem _))) _ _ => apply wp_ret
  | |- wp (as_sem None) _ _ => apply wp_ret
  | |- wp (as_alarm (Some (AAlarm _))) _ _ => apply wp_ret
  | |- wp (as_alarm None) _ _ => apply wp_ret
  | |- wp (lock_release _) _ _ => apply wp_lock_release
  | |- wp (lock_acquire _) _ _ => apply wp_lock_acquire; [lock_free|]
  end.

(** Make the state [s] an explicit record. *)
Ltac kdestruct s :=
  destruct s as [q0 L0 T0 nt0 S0 ns0 A0 na0 P0 np0 M0 C0 I0 H0 ir0 me0 tk0 E0];
  unfold thr, sem, alarm, cpu, port, msg in *;
  cbn [kq locks threads thread_counter sems sem_counter alarms alarm_counter ports
       port_counter msgs cpus isrs heap cpsr mp_id ticks events] in *.

Ltac krun := repeat (kstep; kred); keqb; repeat (kstep; kred; keqb).
