(* ===== verification/Memory.v ===== *)
(** * kernel_malloc and kernel_free (DnaMM-WorstFit)

    The entry points of the allocator of Allocator.v: they run it under the lock
    of [kernel_allocator] with the interrupts masked. *)

From S2P Require Import Prelude Status Queue Allocator Kernel Logic AllocatorSpec AllocatorFree.

(** Number of blocks requested for [size] bytes. *)
Definition malloc_blocks (size : Z) : Z :=
  let nblocks := size / DNA_KERNEL_BLOCK_SIZE in
  u32 (nblocks + (if negb (u32 (size - nblocks * DNA_KERNEL_BLOCK_SIZE) =? 0) then 1 else 0) + 1).

(** dna_memset (area, 0, len), seen by the region headers lying in the area. *)
Definition erase_area (area len : Z) (s : mstate) : mstate :=
  mkM (map_imap (fun p r => Some (if (area <=? p) && (p <? area + len)
                                  then mkRegion 0 0 0 0 else r)) (regions s))
      (total_nblocks s) (next_created_region s) (next_free_region s).

Definition kernel_malloc (size : Z) (erase : bool) : K Z :=
  check negb (size =? 0) rescue ret 0 in
  let nblocks' := malloc_blocks size in
  let* it_status := cpu_trap_mask_and_backup in
  lock_acquire LAllocator ;;
  let* sr := onheap (kernel_region_create nblocks') in
  check st_eqb sr.1 DNA_OK
    rescue (lock_release LAllocator ;; cpu_trap_restore it_status ;; ret 0) in
  let region := sr.2 in
  let* r := onheap (rd region) in
  let* n := gets (fun s => total_nblocks (heap s)) in
  onheap (set_total (i32 (n - nblocks r))) ;;
  let area := u32 (region + DNA_KERNEL_BLOCK_SIZE) in
  lock_release LAllocator ;;
  cpu_trap_restore it_status ;;
  (if erase then
     let* r := onheap (rd region) in
     onheap (modify (erase_area area (u32 (DNA_KERNEL_BLOCK_SIZE * (nblocks r - 1)))))
   else ret tt) ;;
  ret area.

Definition kernel_free (area : Z) : K status_t :=
  check negb (area =? 0) rescue ret DNA_ERROR in
  let region := u32 (area - DNA_KERNEL_BLOCK_SIZE) in
  onheap (wr region (set_rstatus DNA_KERNEL_FREE_REGION)) ;;
  let* r := onheap (rd region) in
  let region_nblocks := nblocks r in
  let* it_status := cpu_trap_mask_and_backup in
  lock_acquire LAllocator ;;
  let* status := onheap (kernel_region_destroy region) in
  (if st_eqb status DNA_OK then
     let* n := gets (fun s => total_nblocks (heap s)) in
     onheap (set_total (i32 (n + region_nblocks)))
   else ret tt) ;;
  lock_release LAllocator ;;
  cpu_trap_restore it_status ;;
  ret status.

(** ** Theorems *)

Lemma malloc_blocks_enough size :
  0 < size < 2 ^ 32 ->
  0 <= malloc_blocks size < 2 ^ 32 - 1 /\ size <= DNA_KERNEL_BLOCK_SIZE * malloc_blocks size.
Proof.
  intros Hs. unfold malloc_blocks, DNA_KERNEL_BLOCK_SIZE, sizeof_region.
  change (2 * 16) with 32. pose proof (Z.div_mod size 32 ltac:(lia)) as Hd.
  pose proof (Z.mod_pos_bound size 32 ltac:(lia)) as Hm.
  rewrite (u32_id (size - _)) by lia. destruct (_ =? 0) eqn:He; zbool; cbn [negb]; rewrite u32_id; lia.
Qed.

(** The count of free blocks is not part of the invariant. *)
Lemma heap_live_total R t t' cr fr F A D : heap_live (mkM R t cr fr) F A D -> heap_live (mkM R t' cr fr) F A D.
Proof. intros [Hok Hap Ht]. split; [|done|done]. destruct Hok. by split. Qed.

(** Two heaps with the same headers. *)
Lemma heap_live_ext s s' F A D :
  (forall p, p ∈ F ++ A ++ D -> regions s' !! p = regions s !! p) ->
  next_free_region s' = next_free_region s -> next_created_region s' = next_created_region s ->
  heap_live s F A D -> heap_live s' F A D.
Proof.
  intros Hs Hf Hc [Hok Hap Ht].
  assert (forall p, p ∈ F ++ A ++ D -> blocks (regions s') p = blocks (regions s) p) as Hb by (intros; unfold blocks; by rewrite Hs).
  assert (forall p, p ∈ F ++ A ++ D -> tag (regions s') p = tag (regions s) p) as Htg by (intros; unfold tag; by rewrite Hs).
  pose proof (apart_same _ _ _ Hb Hap) as Hap'. destruct Hok. split; [split|done|]; try done.
  - rewrite Hf. eapply dll_ext; [|done]. intros p Hp. apply Hs. set_solver.
  - eapply sorted_same; [|done]. intros p Hp. apply Hb. set_solver.
  - rewrite Hc. eapply dll_ext; [|done]. intros p Hp. apply Hs. set_solver.
  - intros p Hp. apply (apart_bounds _ _ Hap'). set_solver.
  - intros p q Hp Hq. apply (apart_disjoint _ _ Hap'); set_solver.
  - intros p Hp. rewrite Htg by set_solver. auto.
  - intros p Hp. rewrite Htg by set_solver. auto.
Qed.

(** Erasing the area of an allocated region leaves the other headers alone. *)
Lemma erase_area_same h F A D c area len p :
  heap_live h F A D -> c ∈ A -> area = c + DNA_KERNEL_BLOCK_SIZE ->
  area + len = c + extent (regions h) c -> p ∈ F ++ A ++ D ->
  regions (erase_area area len h) !! p = regions h !! p.
Proof.
  intros [_ [_ Hb Hd] _] Hc Ha Hl Hp. unfold erase_area. cbn [regions]. rewrite map_lookup_imap.
  destruct (regions h !! p) as [r|]; cbn; [|done].
  destruct ((area <=? p) && (p <? area + len)) eqn:Hin; [|done]. exfalso. zbool.
  destruct (decide (p = c)) as [->|Hne].
  { unfold DNA_KERNEL_BLOCK_SIZE, sizeof_region in *. lia. }
  pose proof (Hb p Hp). pose proof (Hb c ltac:(set_solver)). pose proof (Hd p c Hp ltac:(set_solver) Hne).
  unfold extent, DNA_KERNEL_BLOCK_SIZE, sizeof_region in *. lia.
Qed.

(** The blocks that an allocation takes from the largest free region. *)
Definition cost (size : Z) : Z := malloc_blocks size + 1.

(** A request that the largest free region can serve: only the heap changes. *)
Lemma kernel_malloc_served s F0 c A D size erase :
  heap_live (heap s) (c :: F0) A D -> locks s !! LAllocator = None -> 0 < size < 2 ^ 32 ->
  cost size < blocks (regions (heap s)) c ->
  exists h F', kernel_malloc size erase s = Ret (c + DNA_KERNEL_BLOCK_SIZE) (set_heap h s) /\
    let n := c + cost size * DNA_KERNEL_BLOCK_SIZE in F' ≡ₚ n :: F0 /\ heap_live h F' (A ++ [c]) D /\
    blocks (regions h) c = cost size /\ blocks (regions h) n = blocks (regions (heap s)) c - cost size.
Proof.
  intros Hlive Hl Hs Hlt. pose proof (malloc_blocks_enough size Hs) as [Hm Hfit]. unfold cost in *.
  enough (wp (kernel_malloc size erase) (fun area s' => area = c + DNA_KERNEL_BLOCK_SIZE /\ exists h F', s' = set_heap h s /\
    let n := c + (malloc_blocks size + 1) * DNA_KERNEL_BLOCK_SIZE in F' ≡ₚ n :: F0 /\ heap_live h F' (A ++ [c]) D /\
    blocks (regions h) c = malloc_blocks size + 1 /\ blocks (regions h) n = blocks (regions (heap s)) c - (malloc_blocks size + 1)) s) as Hwp.
  { apply wp_exists in Hwp as (? & ? & Hrun & -> & h & F' & -> & Hh). by exists h, F'. }
  unfold kernel_malloc. rewrite (proj2 (Z.eqb_neq size 0)) by lia. cbn [negb].
  kdestruct s. krun. apply wp_onheap. kred. cbn in Hlive, Hlt.
  eapply wp_mono; [apply (kernel_region_create_live H0 c F0 A D); [done|lia|done]|].
  intros res h1 (-> & F' & HF & Hlive1 & Hbc & Hbn). set (n := malloc_blocks size + 1) in *.
  pose proof (apart_bounds _ _ (live_apart _ _ _ _ Hlive1) c ltac:(set_solver)) as Hb1.
  destruct (dll_lookup _ _ _ _ _ c (heap_created _ _ _ (live_ok _ _ _ _ Hlive1)) ltac:(set_solver)) as (rc & Hrc).
  assert (nblocks rc = n) as Hnb by (rewrite <- Hbc; unfold blocks; by rewrite Hrc).
  unfold extent, DNA_KERNEL_BLOCK_SIZE, sizeof_region in Hb1. rewrite Hbc in Hb1.
  assert (u32 (c + DNA_KERNEL_BLOCK_SIZE) = c + DNA_KERNEL_BLOCK_SIZE) as Harea.
  { apply u32_id. unfold n, DNA_KERNEL_BLOCK_SIZE, sizeof_region in *. lia. }
  krun. apply wp_onheap. eapply wp_rd; [exact Hrc|]. krun. apply wp_onheap, wp_modify. kred.
  set (h2 := mkM _ _ _ _). assert (heap_live h2 F' (A ++ [c]) D) as Hlive2 by (destruct h1; by eapply heap_live_total).
  assert (regions h2 = regions h1) as Hr2 by done. clearbody h2. rewrite Harea. destruct erase; krun.
  - apply wp_onheap. eapply (wp_rd c rc); [kred; rewrite Hr2; exact Hrc|]. kred. apply wp_onheap, wp_modify. krun. klocks. rewrite Hnb.
    set (len := u32 (DNA_KERNEL_BLOCK_SIZE * (n - 1))).
    assert (forall p, p ∈ F' ++ (A ++ [c]) ++ D -> regions (erase_area (c + DNA_KERNEL_BLOCK_SIZE) len h2) !! p = regions h2 !! p) as Hsame.
    { intros p Hp. apply (erase_area_same h2 F' (A ++ [c]) D c); [done|set_solver|done| |done].
      unfold len, extent. rewrite Hr2, Hbc, u32_id; unfold DNA_KERNEL_BLOCK_SIZE, sizeof_region; lia. }
    split; [done|]. exists (erase_area (c + DNA_KERNEL_BLOCK_SIZE) len h2), F'. split_and!; [done|done| | |].
    + by eapply heap_live_ext.
    + unfold blocks. rewrite Hsame, Hr2 by set_solver. exact Hbc.
    + unfold blocks at 1. rewrite Hsame, Hr2; [exact Hbn|]. rewrite HF. set_solver.
  - klocks. split; [done|]. exists h2, F'. split_and!; [done|done|done|by rewrite Hr2|by rewrite Hr2].
Qed.

(** C37: kernel_malloc returns an area of at least [size] bytes inside a region that
    was free and overlaps no other one, or NULL when no free region is large enough, and
    leaves the locks and the interrupt status as they were. *)
Theorem kernel_malloc_spec s F A size erase :
  heap_ok (heap s) F A -> locks s !! LAllocator = None -> 0 < size < 2 ^ 32 ->
  exists area s', kernel_malloc size erase s = Ret area s' /\
    locks s' = locks s /\ cpsr s' = cpsr s /\
    ((area = 0 /\ heap s' = heap s /\
      forall q, q ∈ F -> extent (regions (heap s)) q <= DNA_KERNEL_BLOCK_SIZE * (malloc_blocks size + 1)) \/
     (exists c F', c ∈ F /\ area = c + DNA_KERNEL_BLOCK_SIZE /\ heap_ok (heap s') F' (A ++ [c]) /\
      area + size <= c + extent (regions (heap s')) c)).
Proof.
  intros Hok Hl Hs. pose proof (malloc_blocks_enough size Hs) as [Hm Hfit].
  destruct (served_or_not (regions (heap s)) F (malloc_blocks size)) as [(c & F0 & -> & Hlt)|Hge].
  - destruct (kernel_malloc_served s F0 c A [] size erase) as (h & F' & Hrun & HF & Hlive & Hbc & _); [by apply heap_ok_live|done..|].
    eexists _, _. split_and!; [exact Hrun|done|done|]. right. exists c, F'. split_and!; [set_solver|done|apply Hlive|].
    cbn [heap set_heap]. unfold extent. rewrite Hbc. unfold cost. lia.
  - apply wp_exists. unfold kernel_malloc. rewrite (proj2 (Z.eqb_neq size 0)) by lia. cbn [negb].
    kdestruct s. krun. apply wp_onheap. kred. cbn in Hok, Hge.
    eapply wp_eq; [by eapply kernel_region_create_none|].
    assert (forall q, q ∈ F -> extent (regions H0) q <= DNA_KERNEL_BLOCK_SIZE * (malloc_blocks size + 1)) as Hq.
    { intros q Hq. destruct F as [|c F]; [by apply not_elem_of_nil in Hq|].
      pose proof (heap_head_largest _ _ _ _ _ Hok Hq). specialize (Hge c eq_refl).
      unfold extent, DNA_KERNEL_BLOCK_SIZE, sizeof_region. lia. }
    case_decide; krun; klocks; split_and!; try done; left; done.
Qed.

Lemma kernel_free_ok s F A1 c A2 D :
  heap_live (heap s) F (A1 ++ c :: A2) D -> locks s !! LAllocator = None ->
  exists h F' m, kernel_free (c + DNA_KERNEL_BLOCK_SIZE) s = Ret DNA_OK (set_heap h s) /\
    released (regions (heap s)) (regions h) F F' c m /\ heap_live h F' A1 (A2 ++ D).
Proof.
  intros Hlive Hl.
  enough (wp (kernel_free (c + DNA_KERNEL_BLOCK_SIZE)) (fun st s' => st = DNA_OK /\ exists h F' m, s' = set_heap h s /\
    released (regions (heap s)) (regions h) F F' c m /\ heap_live h F' A1 (A2 ++ D)) s) as Hwp.
  { apply wp_exists in Hwp as (? & ? & Hrun & -> & h & F' & m & -> & Hh). by exists h, F', m. }
  pose proof (apart_bounds _ _ (live_apart _ _ _ _ Hlive) c ltac:(set_solver)) as Hb.
  destruct (dll_lookup _ _ _ _ _ c (heap_created _ _ _ (live_ok _ _ _ _ Hlive)) ltac:(set_solver)) as (rc & Hrc).
  unfold extent, DNA_KERNEL_BLOCK_SIZE, sizeof_region in Hb. unfold kernel_free.
  rewrite (proj2 (Z.eqb_neq _ 0)) by (unfold DNA_KERNEL_BLOCK_SIZE, sizeof_region; lia). cbn [negb].
  replace (u32 (c + DNA_KERNEL_BLOCK_SIZE - DNA_KERNEL_BLOCK_SIZE)) with c by (rewrite u32_id; lia).
  kdestruct s. cbn in Hlive, Hl, Hrc. apply wp_bind, wp_onheap. kred. eapply wp_wr; [exact Hrc|]. kred.
  apply wp_bind, wp_onheap. kred. eapply (wp_rd c (set_rstatus DNA_KERNEL_FREE_REGION rc)); [apply lookup_insert_eq|].
  krun. apply wp_onheap. kred. eapply wp_mono; [by apply (kernel_region_destroy_ok H0 F A1 c A2 D rc)|].
  intros st h1 (-> & F' & m & Hrel & Hlive1 & _). krun. apply wp_onheap, wp_modify. krun. klocks.
  split; [done|]. eexists _, F', m. split_and!; [reflexivity|exact Hrel|].
  cbn [set_rstatus nblocks]. destruct h1. by eapply heap_live_total.
Qed.

(** C40: kernel_free merges the region of the area with the free regions that touch it,
    keeps the other ones as they were and the list ordered, and gives the locks and the
    interrupt status back; but the regions created after it are in no list any more. *)
Theorem kernel_free_spec s F A1 c A2 D :
  heap_live (heap s) F (A1 ++ c :: A2) D -> locks s !! LAllocator = None ->
  exists h F' m, kernel_free (c + DNA_KERNEL_BLOCK_SIZE) s = Ret DNA_OK (set_heap h s) /\
    (m = c /\ (forall q, q ∈ F -> ~ precedes (regions (heap s)) q c) \/ m ∈ F /\ precedes (regions (heap s)) m c) /\
    F' ≡ₚ m :: filter (fun q => ~ adjacent (regions (heap s)) c q) F /\
    blocks (regions h) m = blocks (regions (heap s)) c + total_blocks (regions (heap s)) (filter (adjacent (regions (heap s)) c) F) /\
    (forall p, p ∈ F' -> p <> m -> blocks (regions h) p = blocks (regions (heap s)) p) /\
    heap_live h F' A1 (A2 ++ D).
Proof.
  intros Hlive Hl. destruct (kernel_free_ok s F A1 c A2 D Hlive Hl) as (h & F' & m & Hrun & (H1 & H2 & H3 & H4) & Hlive').
  by exists h, F', m.
Qed.

(** ** What the heap promises to the other components

    [room A D n k]: in the kernel state [k] the areas of the regions [A] and [D] are in
    use, and [n] blocks can be allocated.  An allocation that is not too large succeeds
    and gives a new area; an area that is given back leaves the others in use. *)
Class Heap (room : list Z -> list Z -> Z -> kstate -> Prop) : Prop := {
  heap_malloc A D n k size erase : room A D n k -> 0 < size < 2 ^ 32 -> cost size < n ->
    exists c h, kernel_malloc size erase k = Ret (c + DNA_KERNEL_BLOCK_SIZE) (set_heap h k) /\
      c + DNA_KERNEL_BLOCK_SIZE + size <= 2 ^ 32 /\ room (A ++ [c]) D (n - cost size) (set_heap h k);
  heap_free A1 c A2 D n k : room (A1 ++ c :: A2) D n k ->
    exists h, kernel_free (c + DNA_KERNEL_BLOCK_SIZE) k = Ret DNA_OK (set_heap h k) /\ room A1 (A2 ++ D) n (set_heap h k);
  heap_distinct A D n k : room A D n k -> NoDup (A ++ D);
  heap_apart A D n k c d : room A D n k -> c ∈ A ++ D -> d ∈ A ++ D -> c <> d ->
    c + DNA_KERNEL_BLOCK_SIZE <= d \/ d + DNA_KERNEL_BLOCK_SIZE <= c;
  heap_address A D n k c : room A D n k -> c ∈ A ++ D -> 0 < c /\ c + DNA_KERNEL_BLOCK_SIZE <= 2 ^ 32;
  heap_frame A D n k k' : room A D n k -> heap k' = heap k -> locks k' !! LAllocator = None -> room A D n k'
}.

Definition worst_fit_room (A D : list Z) (n : Z) (k : kstate) : Prop :=
  locks k !! LAllocator = None /\ exists F, heap_live (heap k) F A D /\ exists q, q ∈ F /\ n <= blocks (regions (heap k)) q.

Lemma total_blocks_mem R l q : (forall p, p ∈ l -> 0 < blocks R p) -> q ∈ l -> blocks R q <= total_blocks R l.
Proof.
  unfold total_blocks. induction l as [|x l IH]; cbn [foldr]; intros Hp Hq; [by apply not_elem_of_nil in Hq|].
  assert (forall l', (forall p, p ∈ l' -> 0 < blocks R p) -> 0 <= foldr (fun q n => blocks R q + n) 0 l') as H0.
  { induction l' as [|y l' IH']; cbn [foldr]; intros H; [lia|]. pose proof (H y ltac:(set_solver)). specialize (IH' ltac:(set_solver)). lia. }
  apply elem_of_cons in Hq as [->|Hq]; [specialize (H0 l ltac:(set_solver)); lia|].
  specialize (IH ltac:(set_solver) Hq). pose proof (Hp x ltac:(set_solver)). lia.
Qed.

#[export] Instance worst_fit_heap : Heap worst_fit_room.
Proof.
  split.
  - intros A D n k size erase (Hl & F & Hlive & q & Hq & Hn) Hs Hlt. destruct F as [|c F0]; [by apply not_elem_of_nil in Hq|].
    pose proof (heap_head_largest _ _ _ _ _ (live_ok _ _ _ _ Hlive) Hq) as Hmax.
    destruct (kernel_malloc_served k F0 c A D size erase) as (h & F' & Hrun & HF & Hlive' & Hbc & Hbn); [done|done|done|lia|].
    exists c, h. split; [done|]. split.
    { pose proof (apart_bounds _ _ (live_apart _ _ _ _ Hlive') c ltac:(set_solver)) as Hb. pose proof (malloc_blocks_enough size Hs).
      unfold extent, cost, DNA_KERNEL_BLOCK_SIZE, sizeof_region in *. lia. }
    split; [done|]. exists F'. split; [done|]. eexists. split; [rewrite HF; by left|].
    cbn [heap set_heap]. lia.
  - intros A1 c A2 D n k (Hl & F & Hlive & q & Hq & Hn).
    destruct (kernel_free_ok k F A1 c A2 D Hlive Hl) as (h & F' & m & Hrun & (Hst & HF & Hbm & Ho) & Hlive').
    exists h. split; [done|]. split; [done|]. exists F'. split; [done|]. cbn [heap set_heap].
    pose proof (apart_bounds _ _ (live_apart _ _ _ _ Hlive)) as Hb. pose proof (Hb c ltac:(set_solver)) as Hbc.
    assert (m ∈ F') as Hm by (rewrite HF; by left).
    destruct (decide (adjacent (regions (heap k)) c q)) as [Hadj|Hadj].
    + exists m. split; [done|]. rewrite Hbm. assert (q ∈ filter (adjacent (regions (heap k)) c) F) as Hin by (by apply list_elem_of_filter).
      enough (blocks (regions (heap k)) q <= total_blocks (regions (heap k)) (filter (adjacent (regions (heap k)) c) F)) by lia.
      apply total_blocks_mem; [|done]. intros p [_ Hp]%list_elem_of_filter. apply Hb. set_solver.
    + assert (q <> m) as Hne.
      { intros ->. destruct Hst as [[-> _]|[_ Hp]]; [|apply Hadj; by left].
        pose proof (apart_nodup _ _ (live_apart _ _ _ _ Hlive)) as (_ & Hdis & _)%NoDup_app. apply (Hdis c Hq). set_solver. }
      assert (q ∈ F') as HqF by (rewrite HF; right; by apply list_elem_of_filter). exists q. by rewrite Ho.
  - intros A D n k (_ & F & Hlive & _). by pose proof (apart_nodup _ _ (live_apart _ _ _ _ Hlive)) as (_ & _ & ?)%NoDup_app.
  - intros A D n k c d (_ & F & Hlive & _) Hc Hd Hne. pose proof (live_apart _ _ _ _ Hlive) as Hap.
    pose proof (apart_bounds _ _ Hap c ltac:(set_solver)) as Hbc. pose proof (apart_bounds _ _ Hap d ltac:(set_solver)) as Hbd.
    pose proof (apart_disjoint _ _ Hap c d ltac:(set_solver) ltac:(set_solver) Hne).
    unfold extent, DNA_KERNEL_BLOCK_SIZE, sizeof_region in *. lia.
  - intros A D n k c (_ & F & Hlive & _) Hc. pose proof (apart_bounds _ _ (live_apart _ _ _ _ Hlive) c ltac:(set_solver)) as Hb.
    unfold extent, DNA_KERNEL_BLOCK_SIZE, sizeof_region in *. lia.
  - intros A D n k k' (_ & F & Hlive & Hq) Hh Hl. split; [done|]. exists F. by rewrite Hh.
Qed.

(** A kernel at boot, with nothing but a heap. *)
Definition boot_heap : mstate := after (memory_create 0x10000 0x10000 (mkM ∅ 0 0 0)) (mkM ∅ 0 0 0).
Definition boot_kern : kstate := mkK boot_queues ∅ ∅ 0 ∅ 0 ∅ 0 ∅ 0 ∅ ∅ ∅ boot_heap 0 0 0%nat [].

Lemma boot_live : heap_live boot_heap [0x10000] [] [] /\ blocks (regions boot_heap) 0x10000 = 2047.
Proof.
  destruct (memory_create_ok (mkM ∅ 0 0 0) 0x10000 0x10000) as (h & Hrun & Hok & Hb & _); [vm_compute; congruence..|].
  unfold boot_heap. rewrite Hrun. cbn [after]. split; [by apply heap_ok_live|]. rewrite Hb. done.
Qed.

Lemma boot_room : worst_fit_room [] [] 2047 boot_kern.
Proof.
  destruct boot_live as [Hlive Hb]. split; [done|]. exists [0x10000]. split; [done|]. exists 0x10000. split; [by left|].
  cbn [heap boot_kern]. rewrite Hb. done.
Qed.

(** Two areas are taken, and the first one is given back. *)
Lemma kernel_free_spec_witness :
  exists s F c A2 h F' m, heap_live (heap s) F ([] ++ c :: A2) [] /\
    kernel_free (c + DNA_KERNEL_BLOCK_SIZE) s = Ret DNA_OK (set_heap h s) /\
    F' ≡ₚ m :: filter (fun q => ~ adjacent (regions (heap s)) c q) F.
Proof.
  destruct boot_live as [Hlive Hb].
  destruct (kernel_malloc_served boot_kern [] 0x10000 [] [] 100 true) as (h1 & F1 & _ & HF1 & Hlive1 & Hb1 & Hb1');
    [exact Hlive|reflexivity|lia|cbn [heap boot_kern]; rewrite Hb; reflexivity|].
  apply Permutation_singleton_r in HF1 as ->.
  destruct (kernel_malloc_served (set_heap h1 boot_kern) [] (0x10000 + cost 100 * DNA_KERNEL_BLOCK_SIZE) [0x10000] [] 50 true)
    as (h2 & F2 & _ & HF2 & Hlive2 & _); [exact Hlive1|reflexivity|lia|cbn [heap boot_kern set_heap] in *; rewrite Hb1', Hb; reflexivity|].
  destruct (kernel_free_spec (set_heap h2 boot_kern) F2 [] 0x10000 [0x10000 + cost 100 * DNA_KERNEL_BLOCK_SIZE] [])
    as (h & F' & m & Hrun & _ & HF' & _); [exact Hlive2|reflexivity|].
  exists (set_heap h2 boot_kern), F2, 0x10000, [0x10000 + cost 100 * DNA_KERNEL_BLOCK_SIZE], h, F', m.
  exact (conj Hlive2 (conj Hrun HF')).
Defined.

Lemma kernel_malloc_spec_witness :
  exists s area s', heap_ok (heap s) [0x1000] [] /\ kernel_malloc 100 true s = Ret area s' /\
    locks s' = locks s.
Proof.
  destruct (memory_create_ok (mkM ∅ 0 0 0) 0x1000 4096) as (h & _ & Hok & _ & _);
    [vm_compute; congruence..|].
  set (s := mkK boot_queues ∅ ∅ 0 ∅ 0 ∅ 0 ∅ 0 ∅ ∅ ∅ h 0 0 0%nat []).
  destruct (kernel_malloc_spec s [0x1000] [] 100 true) as (area & s' & Hr & Hl & _);
    [exact Hok|reflexivity|lia|].
  exists s, area, s'. exact (conj Hok (conj Hr Hl)).
Defined.
