(* ===== verification/Mmc.v ===== *)
(** * MMC and SD cards (MultiMediaCardModule)

    [mmc_card_create] identifies a card: a state machine sends commands through the
    functions of the driver ([mmc_callbacks_t]) and decodes the registers that the card
    answers, with [mmc_build_cid] and [mmc_build_csd]; [mmc_execute] transfers a block.

    The driver acts on a device of any type.  A command gets the local array [response]
    and gives it back.  The contents of this array at the entry of a function, and the
    variable [is_sdhc] of mmc_card_create, which the code does not initialise, are
    arguments of the definitions.  The card objects live in the kernel heap.

    The fuel of a loop bounds the number of its turns; the theorems say how much is
    enough for a card that is busy for a while. *)

From S2P Require Import Prelude Status Queue Allocator Kernel Memory.

(** ** Registers *)

Abbreviation word r i := (nth i r 0).

(** Private/CID.h *)
Definition MANUFACTURER_ID (x : Z) : Z := Z.shiftr (Z.land x (Z.shiftl 0xFF 24)) 24.
Definition OEM_ID (x : Z) : Z := Z.shiftr (Z.land x (Z.shiftl 0xFFFF 8)) 8.
Definition PRODUCT_NAME_C1 (x : Z) : Z := Z.shiftr (Z.land x (Z.shiftl 0xFF 0)) 0.
Definition PRODUCT_NAME_C2 (x : Z) : Z := Z.shiftr (Z.land x (Z.shiftl 0xFF 24)) 24.
Definition PRODUCT_NAME_C3 (x : Z) : Z := Z.shiftr (Z.land x (Z.shiftl 0xFF 16)) 16.
Definition PRODUCT_NAME_C4 (x : Z) : Z := Z.shiftr (Z.land x (Z.shiftl 0xFF 8)) 8.
Definition PRODUCT_NAME_C5 (x : Z) : Z := Z.shiftr (Z.land x (Z.shiftl 0xFF 0)) 0.
Definition PRODUCT_REVISION (x : Z) : Z := Z.shiftr (Z.land x (Z.shiftl 0xFF 24)) 24.
Definition SERIAL_NUMBER (x y : Z) : Z :=
  Z.lor (u32 (Z.shiftl (Z.land x (Z.shiftl 0xFFFFFF 0)) 8)) (Z.shiftr (Z.land y (Z.shiftl 0xFF 24)) 24).
Definition MANUFACTURING_DATE (x : Z) : Z := Z.shiftr (Z.land x (Z.shiftl 0xFFF 8)) 8.

Record mmc_cid_t := mkCid {
  name : list Z;
  manufacturer_id : Z;
  oem_id : Z;
  revision : Z;
  serial_number : Z;
  manufacturing_date : Z
}.

Definition mmc_build_cid (r : list Z) : mmc_cid_t :=
  mkCid
    [u8 (PRODUCT_NAME_C1 (word r 0)); u8 (PRODUCT_NAME_C2 (word r 1)); u8 (PRODUCT_NAME_C3 (word r 1));
     u8 (PRODUCT_NAME_C4 (word r 1)); u8 (PRODUCT_NAME_C5 (word r 1)); 0]
    (u8 (MANUFACTURER_ID (word r 0)))
    (u16 (OEM_ID (word r 0)))
    (u8 (PRODUCT_REVISION (word r 2)))
    (u32 (SERIAL_NUMBER (word r 2) (word r 3)))
    (u16 (MANUFACTURING_DATE (word r 3))).

(** Private/CSD.h *)
Definition CSD_STRUCTURE (x : Z) : Z := Z.shiftr (Z.land x (Z.shiftl 0xC0 24)) 30.
Definition READ_ACCESS_TIME (x : Z) : Z := Z.shiftr (Z.land x (Z.shiftl 0xFF 16)) 16.
Definition READ_ACCESS_CYCLES (x : Z) : Z := Z.shiftr (Z.land x (Z.shiftl 0xFF 8)) 8.
Definition DATA_TRANSFER_RATE (x : Z) : Z := Z.shiftr (Z.land x (Z.shiftl 0xFF 0)) 0.
Definition COMMAND_CLASSES (x : Z) : Z := Z.shiftr (Z.land x (Z.shiftl 0xFFF 20)) 20.
Definition READ_BLOCK_LENGTH (x : Z) : Z := Z.shiftr (Z.land x (Z.shiftl 0x0F 16)) 16.
Definition READ_BLOCK_PARTIAL (x : Z) : Z := Z.shiftr (Z.land x (Z.shiftl 0x01 15)) 15.
Definition WRITE_BLOCK_MISALIGN (x : Z) : Z := Z.shiftr (Z.land x (Z.shiftl 0x01 14)) 14.
Definition READ_BLOCK_MISALIGN (x : Z) : Z := Z.shiftr (Z.land x (Z.shiftl 0x01 13)) 13.
Definition DSR_IMPLEMENTED (x : Z) : Z := Z.shiftr (Z.land x (Z.shiftl 0x01 12)) 12.
Definition DEVICE_SIZE_V1 (x y : Z) : Z :=
  Z.lor (u32 (Z.shiftl (Z.land x (Z.shiftl 0x3FF 0)) 2)) (Z.shiftr (Z.land y (Z.shiftl 0xC0 24)) 30).
Definition DEVICE_SIZE_V2 (x y : Z) : Z :=
  Z.lor (u32 (Z.shiftl (Z.land x (Z.shiftl 0x3F 0)) 16)) (Z.shiftr (Z.land y (Z.shiftl 0xFFFF 16)) 16).
Definition READ_VDD_MIN (x : Z) : Z := Z.shiftr (Z.land x (Z.shiftl 0x38 24)) 27.
Definition READ_VDD_MAX (x : Z) : Z := Z.shiftr (Z.land x (Z.shiftl 0x07 24)) 24.
Definition WRITE_VDD_MIN (x : Z) : Z := Z.shiftr (Z.land x (Z.shiftl 0xE0 16)) 21.
Definition WRITE_VDD_MAX (x : Z) : Z := Z.shiftr (Z.land x (Z.shiftl 0x1C 16)) 18.
Definition SIZE_MULTIPLIER (x : Z) : Z := Z.shiftr (Z.land x (Z.shiftl 0x38 12)) 15.
Definition ERASE_BLOCK_ENABLE (x : Z) : Z := Z.shiftr (Z.land x (Z.shiftl 0x01 14)) 14.
Definition ERASE_SECTOR_SIZE (x : Z) : Z := Z.shiftr (Z.land x (Z.shiftl 0x3F8 4)) 7.
Definition WP_GROUP_SIZE (x : Z) : Z := Z.shiftr (Z.land x (Z.shiftl 0x07 0)) 0.
Definition WP_GROUP_ENABLE (x : Z) : Z := Z.shiftr (Z.land x (Z.shiftl 0x80 24)) 31.
Definition WRITE_BLOCK_LENGTH (x : Z) : Z := Z.shiftr (Z.land x (Z.shiftl 0x3C 20)) 22.
Definition WRITE_BLOCK_PARTIAL (x : Z) : Z := Z.shiftr (Z.land x (Z.shiftl 0x01 21)) 21.
Definition FILE_FORMAT_GROUP (x : Z) : Z := Z.shiftr (Z.land x (Z.shiftl 0x01 15)) 15.
Definition COPY_FLAG (x : Z) : Z := Z.shiftr (Z.land x (Z.shiftl 0x01 14)) 14.
Definition PERM_WRITE_PROTECTION (x : Z) : Z := Z.shiftr (Z.land x (Z.shiftl 0x01 13)) 13.
Definition TEMP_WRITE_PROTECTION (x : Z) : Z := Z.shiftr (Z.land x (Z.shiftl 0x01 12)) 12.
Definition FILE_FORMAT (x : Z) : Z := Z.shiftr (Z.land x (Z.shiftl 0x0C 8)) 10.
Definition CRC (x : Z) : Z := Z.shiftr (Z.land x (Z.shiftl 0xFE 0)) 0.
Definition ALWAYS_ONE (x : Z) : Z := Z.shiftr (Z.land x (Z.shiftl 0x01 0)) 0.

Definition CSD_V1_STRUCTURE : Z := 0.
Definition CSD_V2_STRUCTURE : Z := 1.

Record mmc_csd_t := mkCsd {
  csd_structure : Z;
  read_access_time : Z;
  read_access_cycles : Z;
  data_transfer_rate : Z;
  command_classes : Z;
  device_size : Z;
  size_multiplier : Z;
  file_format : Z;
  read_block_length : Z;
  read_block_partial : bool;
  read_block_misalign : bool;
  write_block_length : Z;
  write_speed_factor : Z;
  write_block_partial : bool;
  write_block_misalign : bool;
  read_vdd_min : Z;
  read_vdd_max : Z;
  write_vdd_min : Z;
  write_vdd_max : Z;
  erase_block_enable : bool;
  erase_sector_size : Z;
  wp_group_enable : bool;
  wp_group_size : Z;
  dsr_implemented : bool;
  file_format_group : bool;
  copy : bool;
  permanent_write_protect : bool;
  temporary_write_protect : bool;
  crc : Z;
  always_one : bool
}.

(** The members that depend on the structure: device_size, read_vdd_min, read_vdd_max,
    write_vdd_min, write_vdd_max and size_multiplier; those of [csd] are kept when it is
    not known. *)
Definition sized (r : list Z) (csd : mmc_csd_t) : Z * Z * Z * Z * Z * Z :=
  let csd_structure := CSD_STRUCTURE (word r 0) in
  if csd_structure =? CSD_V1_STRUCTURE then
    (u32 (DEVICE_SIZE_V1 (word r 1) (word r 2)), u8 (READ_VDD_MIN (word r 2)), u8 (READ_VDD_MAX (word r 2)),
     u8 (WRITE_VDD_MIN (word r 2)), u8 (WRITE_VDD_MAX (word r 2)), u8 (SIZE_MULTIPLIER (word r 2)))
  else if csd_structure =? CSD_V2_STRUCTURE then
    (u32 (DEVICE_SIZE_V2 (word r 1) (word r 2)), 0, 0, 0, 0, 0)
  else (device_size csd, read_vdd_min csd, read_vdd_max csd, write_vdd_min csd, write_vdd_max csd, size_multiplier csd).

Definition bool_of (x : Z) : bool := negb (x =? 0).

Definition mmc_build_csd (r : list Z) (csd : mmc_csd_t) : mmc_csd_t :=
  let '(device_size, read_vdd_min, read_vdd_max, write_vdd_min, write_vdd_max, size_multiplier) := sized r csd in
  {| csd_structure := CSD_STRUCTURE (word r 0);
     read_access_time := u8 (READ_ACCESS_TIME (word r 0));
     read_access_cycles := u8 (READ_ACCESS_CYCLES (word r 0));
     data_transfer_rate := u8 (DATA_TRANSFER_RATE (word r 0));
     command_classes := u16 (COMMAND_CLASSES (word r 1));
     read_block_length := u8 (READ_BLOCK_LENGTH (word r 1));
     read_block_partial := bool_of (READ_BLOCK_PARTIAL (word r 1));
     write_block_misalign := bool_of (WRITE_BLOCK_MISALIGN (word r 1));
     read_block_misalign := bool_of (READ_BLOCK_MISALIGN (word r 1));
     dsr_implemented := bool_of (DSR_IMPLEMENTED (word r 1));
     device_size := device_size;
     read_vdd_min := read_vdd_min;
     read_vdd_max := read_vdd_max;
     write_vdd_min := write_vdd_min;
     write_vdd_max := write_vdd_max;
     size_multiplier := size_multiplier;
     erase_block_enable := bool_of (ERASE_BLOCK_ENABLE (word r 2));
     erase_sector_size := u8 (ERASE_SECTOR_SIZE (word r 2));
     wp_group_size := u8 (WP_GROUP_SIZE (word r 2));
     wp_group_enable := bool_of (WP_GROUP_ENABLE (word r 3));
     write_speed_factor := u8 (WRITE_BLOCK_LENGTH (word r 3));
     write_block_length := u8 (WRITE_BLOCK_LENGTH (word r 3));
     write_block_partial := bool_of (WRITE_BLOCK_PARTIAL (word r 3));
     file_format_group := bool_of (FILE_FORMAT_GROUP (word r 3));
     copy := bool_of (COPY_FLAG (word r 3));
     permanent_write_protect := bool_of (PERM_WRITE_PROTECTION (word r 3));
     temporary_write_protect := bool_of (TEMP_WRITE_PROTECTION (word r 3));
     file_format := u8 (FILE_FORMAT (word r 3));
     crc := u8 (CRC (word r 3));
     always_one := bool_of (ALWAYS_ONE (word r 3)) |}.

(** Private/SCR.h *)
Definition SCR_STRUCTURE (x : Z) : Z := Z.shiftr (Z.land x (Z.shiftl 0xFF 24)) 28.
Definition SD_SPECIFICATION (x : Z) : Z := Z.shiftr (Z.land x (Z.shiftl 0x0F 24)) 24.
Definition DATA_STATUS_AFTER_ERASE (x : Z) : Z := Z.shiftr (Z.land x (Z.shiftl 0x80 16)) 23.
Definition SD_SECURITY (x : Z) : Z := Z.shiftr (Z.land x (Z.shiftl 0x70 16)) 20.
Definition SD_BUS_WIDTH (x : Z) : Z := Z.shiftr (Z.land x (Z.shiftl 0x0F 16)) 16.

Record mmc_scr_t := mkScr {
  scr_structure : Z;
  sd_specification : Z;
  data_status_after_erase : bool;
  security_support : Z;
  data_bus_width : Z
}.

Definition mmc_build_scr (r : list Z) : mmc_scr_t :=
  mkScr (SCR_STRUCTURE (word r 0)) (SD_SPECIFICATION (word r 0)) (bool_of (DATA_STATUS_AFTER_ERASE (word r 0)))
    (SD_SECURITY (word r 0)) (SD_BUS_WIDTH (word r 0)).

(** ** Commands (Private/Command.h, Private/OCR.h) *)

Definition OPEN_DRAIN : Z := Z.shiftl 1 11.
Definition RSPTYPE_R1 : Z := Z.shiftl 1 6.
Definition RSPTYPE_R2 : Z := Z.shiftl 2 6.
Definition MAXLAT_64 : Z := Z.shiftl 1 12.
Definition TRCMD_START : Z := Z.shiftl 1 16.
Definition TRDIR_READ : Z := Z.shiftl 1 18.

Definition GO_IDLE_STATE : Z := Z.lor 0 OPEN_DRAIN.
Definition ALL_SEND_CID : Z := Z.lor (Z.lor (Z.lor 2 RSPTYPE_R2) MAXLAT_64) OPEN_DRAIN.
Definition SEND_RELATIVE_ADDR : Z := Z.lor (Z.lor 3 RSPTYPE_R1) MAXLAT_64.
Definition SELECT_DESELECT_CARD : Z := Z.lor (Z.lor 7 RSPTYPE_R1) MAXLAT_64.
Definition SEND_IF_COND : Z := Z.lor (Z.lor (Z.lor 8 RSPTYPE_R1) OPEN_DRAIN) MAXLAT_64.
Definition SEND_CSD : Z := Z.lor (Z.lor 9 RSPTYPE_R2) MAXLAT_64.
Definition SEND_STATUS : Z := Z.lor (Z.lor 13 RSPTYPE_R1) MAXLAT_64.
Definition SET_BLOCK_LENGTH : Z := Z.lor (Z.lor 16 RSPTYPE_R1) MAXLAT_64.
Definition READ_SINGLE_BLOCK : Z := Z.lor (Z.lor (Z.lor (Z.lor 17 RSPTYPE_R1) MAXLAT_64) TRDIR_READ) TRCMD_START.
Definition WRITE_SINGLE_BLOCK : Z := Z.lor (Z.lor (Z.lor 24 RSPTYPE_R1) MAXLAT_64) TRCMD_START.
Definition APP_CMD : Z := Z.lor (Z.lor 55 RSPTYPE_R1) MAXLAT_64.
Definition SD_SET_BUS_WIDTH : Z := Z.lor (Z.lor 6 RSPTYPE_R1) MAXLAT_64.
Definition SD_CMD_APP_SEND_OP_COND : Z := Z.lor (Z.lor 41 RSPTYPE_R1) MAXLAT_64.

Definition MMC_SD_HCS : Z := Z.shiftl 1 30.
Definition MMC_VOLTAGE_RANGE : Z :=
  Z.lor (Z.lor (Z.lor (Z.lor (Z.lor (Z.shiftl 1 15) (Z.shiftl 1 16)) (Z.shiftl 1 17)) (Z.shiftl 1 18)) (Z.shiftl 1 19)) (Z.shiftl 1 20).

(** The members of the unions mmc_ocr_t and mmc_card_status_t, allocated from the least
    significant bit. *)
Definition not_busy (ocr : Z) : bool := Z.testbit ocr 31.
Definition capacity_status (ocr : Z) : bool := Z.testbit ocr 30.
Definition ready_for_data (card_status : Z) : bool := Z.testbit card_status 8.

(** ** Cards *)

Inductive mmc_card_type_t : Type := MMC_SD_CARD | MMC_SDHC_CARD | MMC_MMC_CARD.
Inductive mmc_operation_t : Type := MMC_READ | MMC_WRITE.
Inductive mmc_state_t : Type :=
| MMC_IDLE_STATE | MMC_SDHC_DISCOVER | MMC_SD_DISCOVER | MMC_GET_IDENTIFIER | MMC_GET_ADDRESS
| MMC_GET_INFORMATION | MMC_CONFIGURE_TRANSFER | MMC_EXECUTE_SINGLE | MMC_EXECUTE_MULTIPLE | MMC_END_STATE.

Record device_info_t := mkDevinfo {
  di_type : Z;
  di_block_size : Z;
  di_block_count : Z;
  removable : bool;
  read_only : bool;
  write_once : bool
}.

(** The functions of the driver: the status and the contents of the response; the
    transfer of words from or to the buffer at an address. *)
Record mmc_callbacks_t (D : Type) := mkCallbacks {
  send_command : Z -> Z -> list Z -> M D (status_t * list Z);
  cb_read : Z -> Z -> M D status_t;
  cb_write : Z -> Z -> M D status_t
}.
Arguments mkCallbacks {D}.
Arguments send_command {D}.
Arguments cb_read {D}.
Arguments cb_write {D}.

Record mmc_card_private (D : Type) := mkCard {
  type : mmc_card_type_t;
  devinfo : device_info_t;
  card_lock : Z;
  callbacks : mmc_callbacks_t D;
  cid : mmc_cid_t;
  csd : mmc_csd_t;
  rca : Z
}.
Arguments mkCard {D}.
Arguments type {D}.
Arguments devinfo {D}.
Arguments card_lock {D}.
Arguments callbacks {D}.
Arguments cid {D}.
Arguments csd {D}.
Arguments rca {D}.

Definition sizeof_mmc_card : Z := 100.

Record mmc (D : Type) := mkMmc {
  mmc_kern : kstate;
  device : D;
  cards : gmap Z (mmc_card_private D)
}.
Arguments mkMmc {D}.
Arguments mmc_kern {D}.
Arguments device {D}.
Arguments cards {D}.

Definition cleared_csd : mmc_csd_t :=
  mkCsd 0 0 0 0 0 0 0 0 0 false false 0 0 false false 0 0 0 0 false 0 false 0 false false false false false 0 false.

Section Mmc.
Context {D : Type}.
Implicit Types c : mmc_card_private D.

Definition onkern {A} (m : K A) : M (mmc D) A := lift mmc_kern (fun k s => mkMmc k (device s) (cards s)) m.
Definition ondev {A} (m : M D A) : M (mmc D) A := lift device (fun d s => mkMmc (mmc_kern s) d (cards s)) m.
Definition rd_card (p : Z) : M (mmc D) (mmc_card_private D) := let* m := gets cards in deref (m !! p).
Definition put_card (p : Z) c : M (mmc D) unit := modify (fun s => mkMmc (mmc_kern s) (device s) (<[p := c]> (cards s))).
Definition wr_card (p : Z) (f : mmc_card_private D -> mmc_card_private D) : M (mmc D) unit :=
  let* c := rd_card p in put_card p (f c).
Definition free_card (p : Z) : M (mmc D) unit :=
  onkern (kernel_free p) ;; modify (fun s => mkMmc (mmc_kern s) (device s) (delete p (cards s))).

Definition with_type x c := mkCard x (devinfo c) (card_lock c) (callbacks c) (cid c) (csd c) (rca c).
Definition with_devinfo x c := mkCard (type c) x (card_lock c) (callbacks c) (cid c) (csd c) (rca c).
Definition with_cid x c := mkCard (type c) (devinfo c) (card_lock c) (callbacks c) x (csd c) (rca c).
Definition with_csd x c := mkCard (type c) (devinfo c) (card_lock c) (callbacks c) (cid c) x (rca c).
Definition with_rca x c := mkCard (type c) (devinfo c) (card_lock c) (callbacks c) (cid c) (csd c) x.

(** kernel_malloc (sizeof (struct _mmc_card_private), true), then the store of the
    callbacks, which faults on NULL. *)
Definition alloc_card (cb : mmc_callbacks_t D) : M (mmc D) Z :=
  let* p := onkern (kernel_malloc sizeof_mmc_card true) in
  if p =? 0 then fault
  else
    put_card p (mkCard MMC_SD_CARD (mkDevinfo 0 0 0 false false false) 0 cb (mkCid [0; 0; 0; 0; 0; 0] 0 0 0 0 0) cleared_csd 0) ;;
    ret p.

(** block_size and block_count of MMC_GET_INFORMATION, from their values [bs] and [bc]. *)
Definition capacity (csd : mmc_csd_t) (bs bc : Z) : Z * Z :=
  if csd_structure csd =? CSD_V1_STRUCTURE then
    let multiplier := u32 (Z.shiftl 1 (size_multiplier csd + 2)) in
    (u32 (Z.shiftl 1 (read_block_length csd)), u32 (u32 (device_size csd + 1) * multiplier))
  else if csd_structure csd =? CSD_V2_STRUCTURE then (512, u32 (device_size csd + 1))
  else (bs, bc).

Inductive create_exit : Type := Rescued (status : status_t) | Returned (status : status_t).

(** The local variables of mmc_card_create. *)
Record create_t := mkCreate {
  state : mmc_state_t;
  is_sdhc : bool;
  response : list Z;
  bsize : Z;
  bcount : Z
}.
Definition go (st : mmc_state_t) (r : list Z) (l : create_t) : create_t := mkCreate st (is_sdhc l) r (bsize l) (bcount l).

(** A turn of the machine: the next locals, or how it ends: with the rescue block or with
    the return of the default case. *)
Definition create_step (cb : mmc_callbacks_t D) (card : Z) (l : create_t) : M (mmc D) (create_exit + create_t) :=
  match state l with
  | MMC_IDLE_STATE =>
      let* r := ondev (send_command cb GO_IDLE_STATE 0 (response l)) in
      check st_eqb r.1 DNA_OK rescue ret (inl (Rescued r.1)) in
      ret (inr (go (if is_sdhc l then MMC_SDHC_DISCOVER else MMC_SD_DISCOVER) r.2 l))
  | MMC_SDHC_DISCOVER =>
      let* r := ondev (send_command cb SEND_IF_COND 0x1AA (response l)) in
      let is_sdhc := word r.2 0 =? 0x1AA in
      ret (inr (mkCreate (if is_sdhc then MMC_SD_DISCOVER else MMC_IDLE_STATE) is_sdhc r.2 (bsize l) (bcount l)))
  | MMC_SD_DISCOVER =>
      let* r := ondev (send_command cb APP_CMD 0 (response l)) in
      check st_eqb r.1 DNA_OK rescue ret (inl (Rescued r.1)) in
      let* r := ondev (send_command cb SD_CMD_APP_SEND_OP_COND
                         (Z.lor MMC_VOLTAGE_RANGE (if is_sdhc l then MMC_SD_HCS else 0)) r.2) in
      check st_eqb r.1 DNA_OK rescue ret (inl (Rescued r.1)) in
      let ocr := word r.2 0 in
      if not_busy ocr then
        let has_ccs := capacity_status ocr in
        wr_card card (with_type (if is_sdhc l && has_ccs then MMC_SDHC_CARD else MMC_SD_CARD)) ;;
        ret (inr (go MMC_GET_IDENTIFIER r.2 l))
      else ret (inr (go MMC_SD_DISCOVER r.2 l))
  | MMC_GET_IDENTIFIER =>
      let* r := ondev (send_command cb ALL_SEND_CID 0 (response l)) in
      check st_eqb r.1 DNA_OK rescue ret (inl (Rescued r.1)) in
      wr_card card (with_cid (mmc_build_cid r.2)) ;;
      ret (inr (go MMC_GET_ADDRESS r.2 l))
  | MMC_GET_ADDRESS =>
      let* r := ondev (send_command cb SEND_RELATIVE_ADDR 0 (response l)) in
      check st_eqb r.1 DNA_OK rescue ret (inl (Rescued r.1)) in
      wr_card card (with_rca (word r.2 0)) ;;
      ret (inr (go MMC_GET_INFORMATION r.2 l))
  | MMC_GET_INFORMATION =>
      let* c := rd_card card in
      let* r := ondev (send_command cb SEND_CSD (rca c) (response l)) in
      check st_eqb r.1 DNA_OK rescue ret (inl (Rescued r.1)) in
      wr_card card (fun c => with_csd (mmc_build_csd r.2 (csd c)) c) ;;
      let* c := rd_card card in
      let size := capacity (csd c) (bsize l) (bcount l) in
      wr_card card (fun c => with_devinfo (mkDevinfo (di_type (devinfo c)) size.1 size.2
        (removable (devinfo c)) (read_only (devinfo c)) (write_once (devinfo c))) c) ;;
      ret (inr (mkCreate MMC_END_STATE (is_sdhc l) r.2 size.1 size.2))
  | _ => ret (inl (Returned DNA_ERROR))
  end.

(** while (loop) switch (state) ... *)
Fixpoint create_loop (fuel : nat) (cb : mmc_callbacks_t D) (card : Z) (l : create_t) : M (mmc D) (option create_exit) :=
  match fuel with
  | O => diverge
  | S fuel =>
      match state l with
      | MMC_END_STATE => ret None
      | _ =>
          let* n := create_step cb card l in
          match n with
          | inl e => ret (Some e)
          | inr l => create_loop fuel cb card l
          end
      end
  end.

(** The status and [*p_card]; [p_ok]: p_card is not NULL; [sdhc0] and [r0] are the initial
    values of is_sdhc and response. *)
Definition mmc_card_create (fuel : nat) (p_ok : bool) (cb : mmc_callbacks_t D) (sdhc0 : bool) (r0 : list Z) :
    M (mmc D) (status_t * Z) :=
  ensure p_ok orelse (DNA_BAD_ARGUMENT, 0) in
  let* card := alloc_card cb in
  let* e := create_loop fuel cb card (mkCreate MMC_IDLE_STATE sdhc0 r0 0 0) in
  match e with
  | Some (Rescued status) => free_card card ;; ret (status, 0)
  | Some (Returned status) => ret (status, 0)
  | None =>
      wr_card card (fun c => with_devinfo
        (mkDevinfo (di_type (devinfo c)) (di_block_size (devinfo c)) (di_block_count (devinfo c)) true true false) c) ;;
      ret (DNA_OK, card)
  end.

Definition mmc_card_destroy (card : Z) : M (mmc D) status_t :=
  ensure negb (card =? 0) orelse DNA_BAD_ARGUMENT in
  free_card card ;;
  ret DNA_OK.

Definition mmc_initialize : M (mmc D) status_t := ret DNA_OK.
Definition mmc_cleanup : M (mmc D) unit := ret tt.

(** ** Transfers *)

(** do ... while (card_status . bits . ready_for_data == 0) *)
Fixpoint status_loop (fuel : nat) (cb : mmc_callbacks_t D) (rca : Z) (r : list Z) : M (mmc D) (status_t * list Z) :=
  match fuel with
  | O => diverge
  | S fuel =>
      let* r := ondev (send_command cb SEND_STATUS rca r) in
      check st_eqb r.1 DNA_OK rescue ret r in
      if ready_for_data (word r.2 0) then ret (DNA_OK, r.2) else status_loop fuel cb rca r.2
  end.

(** MMC_CONFIGURE_TRANSFER: the status of the first failure, and the response. *)
Definition configure_transfer (cb : mmc_callbacks_t D) (rca : Z) (r : list Z) : M (mmc D) (status_t * list Z) :=
  let* r := ondev (send_command cb SELECT_DESELECT_CARD rca r) in
  ensure st_eqb r.1 DNA_OK orelse r in
  let* r := ondev (send_command cb APP_CMD rca r.2) in
  check st_eqb r.1 DNA_OK rescue ret r in
  let* r := ondev (send_command cb SD_SET_BUS_WIDTH 2 r.2) in
  check st_eqb r.1 DNA_OK rescue ret r in
  ondev (send_command cb SET_BLOCK_LENGTH 512 r.2).

(** MMC_EXECUTE_SINGLE. *)
Definition execute_single (fuel : nat) (cb : mmc_callbacks_t D) (c : mmc_card_private D)
    (operation : mmc_operation_t) (buffer block_start block_count : Z) (r : list Z) : M (mmc D) (status_t * list Z) :=
  let multiplier := match type c with MMC_SD_CARD => 9 | _ => 0 end in
  let block_offset := i32 (i64 (Z.shiftl block_start multiplier)) in
  let word_count := Z.shiftr (i32 (block_count * 512)) 2 in
  match operation with
  | MMC_READ =>
      let* r := ondev (send_command cb READ_SINGLE_BLOCK (u32 block_offset) r) in
      check st_eqb r.1 DNA_OK rescue ret r in
      let* status := ondev (cb_read cb buffer word_count) in
      ret (status, r.2)
  | MMC_WRITE =>
      let* r := ondev (send_command cb WRITE_SINGLE_BLOCK (u32 block_offset) r) in
      check st_eqb r.1 DNA_OK rescue ret r in
      let* status := ondev (cb_write cb buffer word_count) in
      check st_eqb status DNA_OK rescue ret (status, r.2) in
      status_loop fuel cb (rca c) r.2
  end.

(** The machine goes from MMC_CONFIGURE_TRANSFER to MMC_EXECUTE_SINGLE or
    MMC_EXECUTE_MULTIPLE, which has no case of its own. *)
Fixpoint execute_loop (n : nat) (fuel : nat) (p : Z) (operation : mmc_operation_t)
    (buffer block_start block_count : Z) (state : mmc_state_t) (r : list Z) : M (mmc D) status_t :=
  match n with
  | O => diverge
  | S n =>
      let* c := rd_card p in
      let cb := callbacks c in
      match state with
      | MMC_CONFIGURE_TRANSFER =>
          let* r := configure_transfer cb (rca c) r in
          check st_eqb r.1 DNA_OK rescue ret r.1 in
          execute_loop n fuel p operation buffer block_start block_count
            (if block_count =? 1 then MMC_EXECUTE_SINGLE else MMC_EXECUTE_MULTIPLE) r.2
      | MMC_EXECUTE_SINGLE =>
          let* r := execute_single fuel cb c operation buffer block_start block_count r in
          check st_eqb r.1 DNA_OK rescue ret r.1 in
          execute_loop n fuel p operation buffer block_start block_count MMC_END_STATE r.2
      | MMC_END_STATE =>
          ondev (send_command cb SELECT_DESELECT_CARD 0 r) ;;
          ret DNA_OK
      | _ => ret DNA_ERROR
      end
  end.

Definition mmc_execute (fuel : nat) (card : Z) (operation : mmc_operation_t)
    (buffer block_start block_count : Z) (r0 : list Z) : M (mmc D) status_t :=
  execute_loop 3 fuel card operation buffer block_start block_count MMC_CONFIGURE_TRANSFER r0.

End Mmc.

(** ** The registers as the card specifies them

    A register is a number of 128 bits, received as four words, the most significant
    first; its fields are given by their bits. *)

Definition register (r : list Z) : Z := ((word r 0 * 2 ^ 32 + word r 1) * 2 ^ 32 + word r 2) * 2 ^ 32 + word r 3.
Definition slice (hi lo x : Z) : Z := field lo (hi - lo + 1) x.
Definition isword (x : Z) : Prop := 0 <= x < 2 ^ 32.
Definition words (r : list Z) : Prop := isword (word r 0) /\ isword (word r 1) /\ isword (word r 2) /\ isword (word r 3).

Definition cid_of_register (x : Z) : mmc_cid_t :=
  mkCid [slice 103 96 x; slice 95 88 x; slice 87 80 x; slice 79 72 x; slice 71 64 x; 0]
    (slice 127 120 x) (slice 119 104 x) (slice 63 56 x) (slice 55 24 x) (slice 19 8 x).

(** Three members are not those of the specification: write_speed_factor, whose bits are
    28 to 26, wp_group_size, whose bits are 38 to 32, and crc, whose bits are 7 to 1, the
    value being doubled. *)
Definition csd_of_register (x : Z) (csd : mmc_csd_t) : mmc_csd_t :=
  let structure := slice 127 126 x in
  let v1 := structure =? CSD_V1_STRUCTURE in
  let v2 := structure =? CSD_V2_STRUCTURE in
  let sized f old := if v1 then f else if v2 then 0 else old in
  {| csd_structure := structure;
     read_access_time := slice 119 112 x;
     read_access_cycles := slice 111 104 x;
     data_transfer_rate := slice 103 96 x;
     command_classes := slice 95 84 x;
     read_block_length := slice 83 80 x;
     read_block_partial := bool_of (slice 79 79 x);
     write_block_misalign := bool_of (slice 78 78 x);
     read_block_misalign := bool_of (slice 77 77 x);
     dsr_implemented := bool_of (slice 76 76 x);
     device_size := if v1 then slice 73 62 x else if v2 then slice 69 48 x else device_size csd;
     read_vdd_min := sized (slice 61 59 x) (read_vdd_min csd);
     read_vdd_max := sized (slice 58 56 x) (read_vdd_max csd);
     write_vdd_min := sized (slice 55 53 x) (write_vdd_min csd);
     write_vdd_max := sized (slice 52 50 x) (write_vdd_max csd);
     size_multiplier := sized (slice 49 47 x) (size_multiplier csd);
     erase_block_enable := bool_of (slice 46 46 x);
     erase_sector_size := slice 45 39 x;
     wp_group_size := slice 34 32 x;
     wp_group_enable := bool_of (slice 31 31 x);
     write_speed_factor := slice 25 22 x;
     write_block_length := slice 25 22 x;
     write_block_partial := bool_of (slice 21 21 x);
     file_format_group := bool_of (slice 15 15 x);
     copy := bool_of (slice 14 14 x);
     permanent_write_protect := bool_of (slice 13 13 x);
     temporary_write_protect := bool_of (slice 12 12 x);
     file_format := slice 11 10 x;
     crc := 2 * slice 7 1 x;
     always_one := bool_of (slice 0 0 x) |}.

(** A field of two parts. *)
Lemma field_split k n l x : 0 <= k -> 0 <= n -> 0 <= l -> field k (n + l) x = field (k + n) l x * 2 ^ n + field k n x.
Proof.
  intros Hk Hn Hl. unfold field. rewrite !Z.pow_add_r, <- Z.div_div by lia.
  rewrite Z.rem_mul_r by (pose proof (Z.pow_pos_nonneg 2 n); pose proof (Z.pow_pos_nonneg 2 l); lia). lia.
Qed.

(** The fields inside a word of a register. *)
Lemma field_word r i k n : words r -> (i < 4)%nat -> 0 <= k -> 0 <= n -> k + n <= 32 ->
  field (k + 32 * (3 - Z.of_nat i)) n (register r) = field k n (word r i).
Proof.
  intros (H0 & H1 & H2 & H3) Hi Hk Hn Hl. unfold isword in *. unfold register.
  destruct i as [|[|[|[|]]]]; [| | | |lia]; cbn [Z.of_nat Pos.of_succ_nat Pos.succ];
    repeat rewrite (field_high _ _ 32) by lia; rewrite ?(field_low _ _ 32) by lia; f_equal; lia.
Qed.

Lemma mask_word r i k n : words r -> (i < 4)%nat -> 0 <= k -> 0 <= n -> k + n <= 32 ->
  Z.shiftr (Z.land (word r i) (Z.shiftl (Z.ones n) k)) k = field (k + 32 * (3 - Z.of_nat i)) n (register r).
Proof. intros. by rewrite mask_shiftr, field_word by done. Qed.

Lemma wrap_mask_word w r i k n : words r -> (i < 4)%nat -> 0 <= k -> 0 <= n -> k + n <= 32 -> n <= w ->
  wrap_u w (Z.shiftr (Z.land (word r i) (Z.shiftl (Z.ones n) k)) k) = field (k + 32 * (3 - Z.of_nat i)) n (register r).
Proof.
  intros. rewrite mask_word by done. apply wrap_u_id. pose proof (field_range (k + 32 * (3 - Z.of_nat i)) n (register r)).
  pose proof (Z.pow_le_mono_r 2 n w). lia.
Qed.

(** A field over two words. *)
Lemma join_words r i n k l : words r -> (i < 3)%nat -> 0 <= n -> 0 <= k -> 0 <= l -> k + l = 32 -> n + l <= 32 ->
  u32 (Z.lor (u32 (Z.shiftl (Z.land (word r i) (Z.shiftl (Z.ones n) 0)) l))
             (Z.shiftr (Z.land (word r (S i)) (Z.shiftl (Z.ones l) k)) k)) =
  field (k + 32 * (2 - Z.of_nat i)) (l + n) (register r).
Proof.
  intros Hr Hi Hn Hk Hl Hkl Hnl. rewrite (mask_word r (S i)) by (done || lia).
  rewrite <- (Z.shiftr_0_r (Z.land (word r i) _)), (mask_word r i) by (done || lia).
  rewrite field_split by lia. replace (k + 32 * (3 - Z.of_nat (S i))) with (k + 32 * (2 - Z.of_nat i)) by lia.
  replace (k + 32 * (2 - Z.of_nat i) + l) with (0 + 32 * (3 - Z.of_nat i)) by lia.
  pose proof (field_range (k + 32 * (2 - Z.of_nat i)) l (register r) Hl) as H2.
  pose proof (field_range (0 + 32 * (3 - Z.of_nat i)) n (register r) Hn) as H1.
  set (a := field (0 + 32 * (3 - Z.of_nat i)) n (register r)) in *. set (b := field _ l _) in *.
  assert (2 ^ n * 2 ^ l <= 2 ^ 32) as Hp by (rewrite <- Z.pow_add_r by lia; apply Z.pow_le_mono_r; lia).
  pose proof (Z.pow_pos_nonneg 2 l). pose proof (Z.pow_pos_nonneg 2 n).
  rewrite Z.shiftl_mul_pow2 by lia. unfold u32. rewrite (wrap_u_id 32 (a * 2 ^ l)) by nia.
  rewrite <- (Z.shiftl_mul_pow2 a l) at 1 by lia. rewrite lor_shiftl_add by lia. apply wrap_u_id. nia.
Qed.

(** A mask that is not shifted back. *)
Lemma land_shiftl_field x k n : 0 <= k -> 0 <= n -> Z.land x (Z.shiftl (Z.ones n) k) = field k n x * 2 ^ k.
Proof.
  intros Hk Hn. rewrite <- mask_shiftr, <- Z.shiftl_mul_pow2 by lia. apply Z.bits_inj'. intros i Hi.
  destruct (decide (i < k)).
  - rewrite (Z.shiftl_spec_low (Z.shiftr _ _)), Z.land_spec, Z.shiftl_spec_low by lia. apply andb_false_r.
  - rewrite (Z.shiftl_spec (Z.shiftr _ _)), Z.shiftr_spec by lia. f_equal. lia.
Qed.

(** Proves that a member of a record is a field of the register [r], from the bits of
    the field. *)
Ltac member :=
  match goal with
  | |- _ = slice ?hi ?lo (register ?r) =>
      let i := eval vm_compute in (Z.to_nat (3 - lo / 32)) in
      let k := eval vm_compute in (lo mod 32) in
      let n := eval vm_compute in (hi - lo + 1) in
      first [ exact (wrap_mask_word 8 r i k n ltac:(assumption) ltac:(lia) ltac:(lia) ltac:(lia) ltac:(lia) ltac:(lia))
            | exact (wrap_mask_word 16 r i k n ltac:(assumption) ltac:(lia) ltac:(lia) ltac:(lia) ltac:(lia) ltac:(lia))
            | exact (mask_word r i k n ltac:(assumption) ltac:(lia) ltac:(lia) ltac:(lia) ltac:(lia)) ]
  end.

Ltac member2 r i n k l := exact (join_words r i n k l ltac:(assumption) ltac:(lia) ltac:(lia) ltac:(lia) ltac:(lia) ltac:(lia) ltac:(lia)).

Lemma mmc_build_cid_spec r : words r -> mmc_build_cid r = cid_of_register (register r).
Proof.
  intros Hr. unfold mmc_build_cid, cid_of_register. f_equal; try member.
  - repeat (f_equal; try member).
  - member2 r 2%nat 24 24 8.
Qed.

(** C19: mmc_build_csd reads in the four words the fields of the register as the card
    specifies them, but for the factor of the write speed, the size of the groups of
    write protection and the checksum, which it takes from other bits. *)
Theorem mmc_build_csd_spec r csd : words r -> mmc_build_csd r csd = csd_of_register (register r) csd.
Proof.
  intros Hr. unfold mmc_build_csd, csd_of_register, sized.
  assert (CSD_STRUCTURE (word r 0) = slice 127 126 (register r)) as -> by member.
  assert (u8 (CRC (word r 3)) = 2 * slice 7 1 (register r)) as ->.
  { change (CRC (word r 3)) with (Z.shiftr (Z.land (word r 3) (Z.shiftl (Z.ones 7) 1)) 0).
    rewrite Z.shiftr_0_r, land_shiftl_field, <- field_word by (done || lia).
    pose proof (field_range (1 + 32 * (3 - Z.of_nat 3)) 7 (register r)). change (2 ^ 7) with 128 in *.
    change (slice 7 1 (register r)) with (field (1 + 32 * (3 - Z.of_nat 3)) 7 (register r)).
    unfold u8. rewrite wrap_u_id; [apply Z.mul_comm|change (2 ^ 8) with 256; lia]. }
  destruct (slice 127 126 (register r) =? CSD_V1_STRUCTURE); [|destruct (_ =? CSD_V2_STRUCTURE)];
    f_equal; try done; try member; try (f_equal; member).
  - member2 r 1%nat 10 30 2.
  - member2 r 1%nat 6 16 16.
Qed.

Lemma slice_range hi lo x : lo <= hi + 1 -> 0 <= slice hi lo x < 2 ^ (hi - lo + 1).
Proof. intros Hl. apply field_range. lia. Qed.

(** The size of a card in blocks, from its register. *)
Definition card_blocks (x : Z) : Z :=
  if slice 127 126 x =? CSD_V1_STRUCTURE then (slice 73 62 x + 1) * 2 ^ (slice 49 47 x + 2) else slice 69 48 x + 1.
Definition card_block_size (x : Z) : Z :=
  if slice 127 126 x =? CSD_V1_STRUCTURE then 2 ^ slice 83 80 x else 512.

Lemma pow_2_bounds n m : 0 <= n < m -> 1 <= 2 ^ n <= 2 ^ (m - 1).
Proof.
  intros Hn. split; [apply (Z.pow_le_mono_r 2 0 n); lia|]. apply Z.pow_le_mono_r; lia.
Qed.

(** C20: For a register of a known structure the computation of the size of the card does
    not overflow: the blocks have at most 2^15 bytes and there are at most 2^22 of them,
    as many as the register says. *)
Theorem mmc_capacity_bounds r csd bs bc :
  words r -> slice 127 126 (register r) <= CSD_V2_STRUCTURE ->
  capacity (mmc_build_csd r csd) bs bc = (card_block_size (register r), card_blocks (register r)) /\
  1 <= card_block_size (register r) <= 2 ^ 15 /\ 1 <= card_blocks (register r) <= 2 ^ 22 /\
  card_block_size (register r) * card_blocks (register r) <= 2 ^ 36.
Proof.
  intros Hr Hs. unfold card_block_size, card_blocks.
  assert (CSD_STRUCTURE (word r 0) = slice 127 126 (register r)) as H0 by member.
  assert (u8 (READ_BLOCK_LENGTH (word r 1)) = slice 83 80 (register r)) as H1 by member.
  assert (u8 (SIZE_MULTIPLIER (word r 2)) = slice 49 47 (register r)) as H2 by member.
  assert (u32 (DEVICE_SIZE_V1 (word r 1) (word r 2)) = slice 73 62 (register r)) as H3 by member2 r 1%nat 10 30 2.
  assert (u32 (DEVICE_SIZE_V2 (word r 1) (word r 2)) = slice 69 48 (register r)) as H4 by member2 r 1%nat 6 16 16.
  set (x := register r) in *.
  pose proof (slice_range 127 126 x ltac:(lia)) as B0. pose proof (slice_range 83 80 x ltac:(lia)) as B1.
  pose proof (slice_range 49 47 x ltac:(lia)) as B2. pose proof (slice_range 73 62 x ltac:(lia)) as B3.
  pose proof (slice_range 69 48 x ltac:(lia)) as B4. cbn in B0, B1, B2, B3, B4.
  unfold capacity, mmc_build_csd, sized. rewrite H0, H1. destruct (slice 127 126 x =? CSD_V1_STRUCTURE) eqn:E1.
  - cbn [csd_structure device_size size_multiplier read_block_length]. rewrite H2, H3, E1.
    pose proof (pow_2_bounds (slice 49 47 x + 2) 10 ltac:(lia)) as P1. change (2 ^ (10 - 1)) with 512 in P1.
    pose proof (pow_2_bounds (slice 83 80 x) 16 ltac:(lia)) as P2. change (2 ^ (16 - 1)) with 32768 in P2.
    rewrite !Z.shiftl_1_l, !(u32_id (2 ^ _)), (u32_id (slice 73 62 x + 1)), u32_id by nia.
    change (2 ^ 15) with 32768. change (2 ^ 22) with 4194304. change (2 ^ 36) with 68719476736. split_and!; [done|nia..].
  - assert (slice 127 126 x = CSD_V2_STRUCTURE) as E2 by (zbool; unfold CSD_V1_STRUCTURE, CSD_V2_STRUCTURE in *; lia).
    rewrite E2. cbn [Z.eqb Pos.eqb CSD_V2_STRUCTURE CSD_V1_STRUCTURE csd_structure device_size]. rewrite H4, u32_id by lia.
    change (2 ^ 15) with 32768. change (2 ^ 22) with 4194304. change (2 ^ 36) with 68719476736. split_and!; [done|lia..].
Qed.

(** ** Identification

    What the driver sends to the card, with the answers.  Only the failure of
    SEND_IF_COND, which the older cards do not know, is accepted. *)

Section Protocol.
Context {D : Type} (cb : mmc_callbacks_t D).
Implicit Types (s : mmc D) (d : D) (r : list Z).

Definition exchange : Type := Z * Z * list Z.

Inductive transcript : list Z -> D -> list exchange -> list Z -> D -> Prop :=
| T_nil r d : transcript r d [] r d
| T_cons r d cmd arg status r1 d1 l r2 d2 :
    send_command cb cmd arg r d = Ret (status, r1) d1 -> status = DNA_OK \/ cmd = SEND_IF_COND ->
    transcript r1 d1 l r2 d2 -> transcript r d ((cmd, arg, r1) :: l) r2 d2.

(** The start of the identification, from the initial value of is_sdhc: whether the card
    is then asked for high capacity. *)
Inductive discovery : bool -> list exchange -> bool -> Prop :=
| D_sd r1 : discovery false [(GO_IDLE_STATE, 0, r1)] false
| D_sdhc r1 r2 : word r2 0 = 0x1AA ->
    discovery true [(GO_IDLE_STATE, 0, r1); (SEND_IF_COND, 0x1AA, r2)] true
| D_retry r1 r2 r3 : word r2 0 <> 0x1AA ->
    discovery true [(GO_IDLE_STATE, 0, r1); (SEND_IF_COND, 0x1AA, r2); (GO_IDLE_STATE, 0, r3)] false.

Definition poll (hcs : bool) (r : list Z * list Z) : list exchange :=
  [(APP_CMD, 0, r.1); (SD_CMD_APP_SEND_OP_COND, Z.lor MMC_VOLTAGE_RANGE (if hcs then MMC_SD_HCS else 0), r.2)].
Definition busy (r : list Z * list Z) : Prop := not_busy (word r.2 0) = false.

Definition identification (hcs : bool) (busies : list (list Z * list Z)) (ready : list Z * list Z) (cidr rcar csdr : list Z) :
    list exchange :=
  concat (poll hcs <$> busies) ++ poll hcs ready ++
  [(ALL_SEND_CID, 0, cidr); (SEND_RELATIVE_ADDR, 0, rcar); (SEND_CSD, word rcar 0, csdr)].

(** The card that is identified. *)
Definition identified (hcs : bool) (ready : list Z * list Z) (cidr rcar csdr : list Z) : mmc_card_private D :=
  let csd := mmc_build_csd csdr cleared_csd in
  mkCard (if hcs && capacity_status (word ready.2 0) then MMC_SDHC_CARD else MMC_SD_CARD)
    (mkDevinfo 0 (capacity csd 0 0).1 (capacity csd 0 0).2 true true false) 0 cb (mmc_build_cid cidr) csd (word rcar 0).

(** *** Rules *)

Definition set_device d s : mmc D := mkMmc (mmc_kern s) d (cards s).
Definition set_card p c s : mmc D := mkMmc (mmc_kern s) (device s) (<[p := c]> (cards s)).

Lemma wp_ondev {A} (m : M D A) Q s a d : m (device s) = Ret a d -> Q a (set_device d s) -> wp (ondev m) Q s.
Proof. intros Hm HQ. unfold wp, ondev, lift. by rewrite Hm. Qed.

Lemma wp_rd_card p c Q s : cards s !! p = Some c -> Q c s -> wp (rd_card p) Q s.
Proof. intros Hp HQ. unfold wp, rd_card, bind, gets. by rewrite Hp. Qed.

Lemma wp_wr_card p f c Q s : cards s !! p = Some c -> Q tt (set_card p (f c) s) -> wp (wr_card p f) Q s.
Proof. intros Hp HQ. apply wp_bind. by eapply wp_rd_card. Qed.

Lemma transcript_head r d cmd arg r1 l r2 d2 :
  transcript r d ((cmd, arg, r1) :: l) r2 d2 ->
  exists status d1, send_command cb cmd arg r d = Ret (status, r1) d1 /\ transcript r1 d1 l r2 d2.
Proof. intros H. inversion H; subst. eauto. Qed.
Lemma transcript_end r d r2 d2 : transcript r d [] r2 d2 -> r2 = r /\ d2 = d.
Proof. intros H. by inversion H. Qed.
Lemma transcript_cons r d cmd arg r1 l r2 d2 :
  transcript r d ((cmd, arg, r1) :: l) r2 d2 -> cmd <> SEND_IF_COND ->
  exists d1, send_command cb cmd arg r d = Ret (DNA_OK, r1) d1 /\ transcript r1 d1 l r2 d2.
Proof. intros H Hc. inversion H as [|? ? ? ? ? ? ? ? ? ? Hsend [->|Heq] Hl]; subst; [eauto|done]. Qed.

Lemma transcript_app r d l1 l2 r2 d2 :
  transcript r d (l1 ++ l2) r2 d2 -> exists r1 d1, transcript r d l1 r1 d1 /\ transcript r1 d1 l2 r2 d2.
Proof.
  revert r d. induction l1 as [|x l1 IH]; intros r d H; [by exists r, d; split; [constructor|]|].
  inversion H; subst. edestruct IH as (r3 & d3 & Ht1 & Ht2); [done|]. exists r3, d3. split; [by econstructor|done].
Qed.

(** A run of the machine from the locals [l]. *)
Definition runs (fuel : nat) p (l : create_t) s s' : Prop :=
  create_loop fuel cb p l s = Ret None s'.

Lemma runs_step fuel p l l' s s1 s' : state l <> MMC_END_STATE ->
  create_step cb p l s = Ret (inr l') s1 -> runs fuel p l' s1 s' -> runs (S fuel) p l s s'.
Proof.
  intros Hl Hstep Hrun. unfold runs. cbn [create_loop].
  destruct (state l); try done; apply wp_run, wp_bind; (eapply wp_eq; [exact Hstep|]); eapply wp_eq; [exact Hrun|done|..];
    done.
Qed.

Lemma step_idle p h r r1 d1 s : send_command cb GO_IDLE_STATE 0 r (device s) = Ret (DNA_OK, r1) d1 ->
  create_step cb p (mkCreate MMC_IDLE_STATE h r 0 0) s =
  Ret (inr (mkCreate (if h then MMC_SDHC_DISCOVER else MMC_SD_DISCOVER) h r1 0 0)) (set_device d1 s).
Proof. intros Hs. apply wp_run, wp_bind. by eapply wp_ondev; [exact Hs|]. Qed.

Lemma step_probe p r r1 d1 st s : send_command cb SEND_IF_COND 0x1AA r (device s) = Ret (st, r1) d1 ->
  create_step cb p (mkCreate MMC_SDHC_DISCOVER true r 0 0) s =
  Ret (inr (mkCreate (if word r1 0 =? 0x1AA then MMC_SD_DISCOVER else MMC_IDLE_STATE) (word r1 0 =? 0x1AA) r1 0 0))
    (set_device d1 s).
Proof. intros Hs. apply wp_run, wp_bind. by eapply wp_ondev; [exact Hs|]. Qed.

Lemma run_discovery sdhc0 start hcs : discovery sdhc0 start hcs -> forall fuel p r r1 d1 s s',
  transcript r (device s) start r1 d1 ->
  runs fuel p (mkCreate MMC_SD_DISCOVER hcs r1 0 0) (set_device d1 s) s' ->
  runs (length start + fuel) p (mkCreate MMC_IDLE_STATE sdhc0 r 0 0) s s'.
Proof.
  intros [] fuel p r r' d' s s' Ht Hrun; cbn [length Nat.add].
  - apply transcript_cons in Ht as (d1 & Hs & Ht); [|done]. apply transcript_end in Ht as [-> ->].
    by eapply runs_step; [done|apply step_idle, Hs|].
  - apply transcript_cons in Ht as (d1 & Hs1 & Ht); [|done]. apply transcript_head in Ht as (st & d2 & Hs2 & Ht).
    apply transcript_end in Ht as [-> ->]. eapply runs_step; [done|apply step_idle, Hs1|].
    eapply runs_step; [done|eapply step_probe, Hs2|]. by rewrite (proj2 (Z.eqb_eq _ _)).
  - apply transcript_cons in Ht as (d1 & Hs1 & Ht); [|done]. apply transcript_head in Ht as (st & d2 & Hs2 & Ht).
    apply transcript_cons in Ht as (d3 & Hs3 & Ht); [|done]. apply transcript_end in Ht as [-> ->].
    eapply runs_step; [done|apply step_idle, Hs1|]. eapply runs_step; [done|eapply step_probe, Hs2|].
    rewrite (proj2 (Z.eqb_neq _ _)) by done. by eapply runs_step; [done|apply step_idle, Hs3|].
Qed.

Lemma run_polls hcs busies : Forall busy busies -> forall fuel p r r1 d1 s s',
  transcript r (device s) (concat (poll hcs <$> busies)) r1 d1 ->
  runs fuel p (mkCreate MMC_SD_DISCOVER hcs r1 0 0) (set_device d1 s) s' ->
  runs (length busies + fuel) p (mkCreate MMC_SD_DISCOVER hcs r 0 0) s s'.
Proof.
  induction 1 as [|b busies Hb _ IH]; intros fuel p r r1 d1 s s' Ht Hrun; cbn [length Nat.add fmap list_fmap concat poll app] in *.
  { apply transcript_end in Ht as [-> ->]. by destruct s. }
  apply transcript_cons in Ht as (d2 & Hs1 & Ht); [|done]. apply transcript_cons in Ht as (d3 & Hs2 & Ht); [|done].
  eapply runs_step; [done| |eapply (IH _ _ _ _ _ (set_device d3 s)); [exact Ht|exact Hrun]].
  apply wp_run, wp_bind. eapply wp_ondev; [exact Hs1|]. cbn [fst snd st_eqb].
  apply wp_bind. eapply wp_ondev; [exact Hs2|]. cbn [fst snd st_eqb]. rewrite Hb. by apply wp_ret.
Qed.

(** Takes the next command of a transcript; runs it. *)
Ltac take_exchange H d Hs := apply transcript_cons in H as (d & Hs & H); [|done].
Ltac send := apply wp_bind; eapply wp_ondev; [eassumption|]; cbn [fst snd st_eqb].

Lemma run_identification fuel p hcs busies ready cidr rcar csdr r r1 d1 s c :
  Forall busy busies -> not_busy (word ready.2 0) = true -> cards s !! p = Some c -> csd c = cleared_csd ->
  transcript r (device s) (identification hcs busies ready cidr rcar csdr) r1 d1 ->
  runs (length busies + (5 + fuel)) p (mkCreate MMC_SD_DISCOVER hcs r 0 0) s
    (set_card p (mkCard (type (identified hcs ready cidr rcar csdr))
       (mkDevinfo (di_type (devinfo c)) (di_block_size (devinfo (identified hcs ready cidr rcar csdr)))
          (di_block_count (devinfo (identified hcs ready cidr rcar csdr)))
          (removable (devinfo c)) (read_only (devinfo c)) (write_once (devinfo c)))
       (card_lock c) (callbacks c) (mmc_build_cid cidr) (mmc_build_csd csdr cleared_csd) (word rcar 0)) (set_device d1 s)).
Proof.
  intros Hb Hready Hp Hcsd Ht. apply transcript_app in Ht as (r2 & d2 & Ht1 & Ht).
  eapply run_polls; [done|exact Ht1|]. cbn [poll app] in Ht. cbn [Nat.add].
  take_exchange Ht d3 Hs1. take_exchange Ht d4 Hs2. take_exchange Ht d5 Hs3. take_exchange Ht d6 Hs4.
  take_exchange Ht d7 Hs5. apply transcript_end in Ht as [-> ->].
  assert (forall q (v : mmc_card_private D) s0, cards (set_card q v s0) !! q = Some v) as Hcard
    by (intros; apply lookup_insert_eq).
  eapply runs_step; [done| |].
  { apply wp_run. unfold create_step. cbn [state response is_sdhc]. send. send. rewrite Hready.
    apply wp_bind. eapply wp_wr_card; [exact Hp|]. apply wp_ret; split; reflexivity. }
  eapply runs_step; [done| |].
  { apply wp_run. unfold create_step. cbn [state response go]. send.
    apply wp_bind. eapply wp_wr_card; [apply Hcard|]. apply wp_ret; split; reflexivity. }
  eapply runs_step; [done| |].
  { apply wp_run. unfold create_step. cbn [state response go]. send.
    apply wp_bind. eapply wp_wr_card; [apply Hcard|]. apply wp_ret; split; reflexivity. }
  eapply runs_step; [done| |].
  { apply wp_run. unfold create_step. cbn [state response go].
    apply wp_bind. eapply wp_rd_card; [apply Hcard|]. cbn [rca with_rca]. send.
    apply wp_bind. eapply wp_wr_card; [apply Hcard|]. apply wp_bind. eapply wp_rd_card; [apply Hcard|].
    apply wp_bind. eapply wp_wr_card; [apply Hcard|]. apply wp_ret; split; reflexivity. }
  cbn [runs create_loop]. unfold runs, create_loop, ret.
  unfold set_card, set_device. cbn [mmc_kern device cards]. rewrite !insert_insert_eq.
  unfold with_cid, with_rca, with_csd, with_devinfo, with_type, identified. cbn. by rewrite Hcsd.
Qed.

Lemma wp_mmc_kern {A} (m : K A) Q s a k :
  m (mmc_kern s) = Ret a k -> Q a (mkMmc k (device s) (cards s)) -> wp (onkern m) Q s.
Proof. intros Hm HQ. unfold wp, onkern, lift. by rewrite Hm. Qed.

(** When the card answers the commands of the identification and is busy for a number
    of turns, mmc_card_create returns the card that its registers describe; the machine
    ends, with the number of its turns. *)
Theorem mmc_card_create_spec fuel sdhc0 start hcs busies ready cidr rcar csdr r0 r1 d1 s p k :
  discovery sdhc0 start hcs -> Forall busy busies -> not_busy (word ready.2 0) = true ->
  transcript r0 (device s) (start ++ identification hcs busies ready cidr rcar csdr) r1 d1 ->
  kernel_malloc sizeof_mmc_card true (mmc_kern s) = Ret p k -> p <> 0 -> (length busies + 8 <= fuel)%nat ->
  mmc_card_create fuel true cb sdhc0 r0 s =
  Ret (DNA_OK, p) (mkMmc k d1 (<[p := identified hcs ready cidr rcar csdr]> (cards s))).
Proof.
  intros Hd Hb Hready Ht Hk Hp Hf. apply transcript_app in Ht as (r2 & d2 & Ht1 & Ht2).
  apply wp_run, wp_bind. unfold alloc_card. apply wp_bind. eapply wp_mmc_kern; [exact Hk|].
  rewrite (proj2 (Z.eqb_neq p 0)) by done. apply wp_bind, wp_modify, wp_ret. cbn [mmc_kern device cards].
  set (s1 := mkMmc k (device s) _).
  assert (exists n, fuel = (length start + (length busies + (5 + n)))%nat) as [n ->].
  { exists (fuel - length busies - 5 - length start)%nat. destruct Hd; cbn [length] in *; lia. }
  assert (cards s1 !! p = Some _) as Hp1 by apply lookup_insert_eq.
  apply wp_bind. eapply wp_eq.
  { eapply run_discovery; [done|exact Ht1|].
    eapply (run_identification n p hcs busies ready cidr rcar csdr); [done|done|exact Hp1|done|exact Ht2]. }
  apply wp_bind. eapply wp_wr_card; [apply lookup_insert_eq|]. apply wp_ret. split; [done|].
  unfold set_card, set_device, s1. cbn [mmc_kern device cards]. by rewrite !insert_insert_eq.
Qed.

(** A command that fails: its status, the rest of the transfer being abandoned. *)
Definition configured (c : mmc_card_private D) (x1 x2 x3 x4 : list Z) : list exchange :=
  [(SELECT_DESELECT_CARD, rca c, x1); (APP_CMD, rca c, x2); (SD_SET_BUS_WIDTH, 2, x3); (SET_BLOCK_LENGTH, 512, x4)].

(** The argument of the transfer: the offset in bytes on a SD card, in blocks otherwise. *)
Definition block_address (c : mmc_card_private D) (block_start : Z) : Z :=
  match type c with MMC_SD_CARD => block_start * 512 | _ => block_start end.

Lemma run_configure c r d x1 x2 x3 x4 l r2 d2 :
  transcript r d (configured c x1 x2 x3 x4 ++ l) r2 d2 ->
  exists d4, (forall s Q, device s = d -> Q (DNA_OK, x4) (set_device d4 s) -> wp (configure_transfer cb (rca c) r) Q s) /\
    transcript x4 d4 l r2 d2.
Proof.
  intros Ht. cbn [configured app] in Ht. take_exchange Ht da Hs1. take_exchange Ht db Hs2. take_exchange Ht dc Hs3.
  take_exchange Ht dd Hs4. exists dd. split; [|done]. intros s Q <- HQ. unfold configure_transfer. send. send. send.
  eapply wp_ondev; [eassumption|]. done.
Qed.

Lemma status_loop_ok rca0 waits : forall last r d r1 d1 fuel s,
  Forall (fun x => ready_for_data (word x 0) = false) waits -> ready_for_data (word last 0) = true ->
  transcript r d ((fun x => (SEND_STATUS, rca0, x)) <$> (waits ++ [last])) r1 d1 -> device s = d ->
  (length waits < fuel)%nat -> status_loop fuel cb rca0 r s = Ret (DNA_OK, r1) (set_device d1 s).
Proof.
  induction waits as [|x waits IH]; intros last r d r1 d1 fuel s Hw Hl Ht <- Hf; (destruct fuel as [|fuel]; [lia|]);
    cbn [status_loop fmap list_fmap app] in *; take_exchange Ht d2 Hs; apply wp_run; send.
  - rewrite Hl. apply transcript_end in Ht as [-> ->]. by apply wp_ret.
  - apply Forall_cons in Hw as [-> Hw]. cbn in Hf. eapply wp_eq; [by eapply IH; [..|lia]|done].
Qed.

(** What a transfer of the block [n] asks from the driver, between the configuration and
    the deselection of the card. *)
Definition transfers (c : mmc_card_private D) (operation : mmc_operation_t) (buffer n : Z) (x4 : list Z) (d4 : D)
    (waits : list (list Z)) (r6 : list Z) (d6 : D) : Prop :=
  exists r5 d5,
  match operation with
  | MMC_READ =>
      waits = [] /\ r6 = r5 /\
      send_command cb READ_SINGLE_BLOCK (block_address c n) x4 d4 = Ret (DNA_OK, r5) d5 /\
      cb_read cb buffer 128 d5 = Ret DNA_OK d6
  | MMC_WRITE =>
      exists d5' last,
      send_command cb WRITE_SINGLE_BLOCK (block_address c n) x4 d4 = Ret (DNA_OK, r5) d5 /\
      cb_write cb buffer 128 d5 = Ret DNA_OK d5' /\
      Forall (fun x => ready_for_data (word x 0) = false) waits /\ ready_for_data (word last 0) = true /\
      transcript r5 d5' ((fun x => (SEND_STATUS, rca c, x)) <$> (waits ++ [last])) r6 d6
  end.

Lemma block_offset_ok c n : 0 <= block_address c n < 2 ^ 31 -> 0 <= n ->
  u32 (i32 (i64 (Z.shiftl n (match type c with MMC_SD_CARD => 9 | _ => 0 end)))) = block_address c n.
Proof.
  intros Hb Hn. assert (Z.shiftl n (match type c with MMC_SD_CARD => 9 | _ => 0 end) = block_address c n) as ->.
  { unfold block_address. rewrite Z.shiftl_mul_pow2 by (destruct (type c); lia).
    destruct (type c); [by change (2 ^ 9) with 512|lia|lia]. }
  rewrite i64_id, i32_id, u32_id by lia. done.
Qed.

(** Reading or writing one block that the address of the card can designate configures
    the card, asks for this block and no other, moves 128 words through the driver, waits
    for a written card to be ready, and deselects the card. *)
Theorem mmc_execute_spec fuel p c operation buffer n s r0 x1 x2 x3 x4 d4 waits r6 d6 st r7 d7 :
  cards s !! p = Some c -> callbacks c = cb -> 0 <= n -> 0 <= block_address c n < 2 ^ 31 ->
  transcript r0 (device s) (configured c x1 x2 x3 x4) x4 d4 ->
  transfers c operation buffer n x4 d4 waits r6 d6 -> (length waits < fuel)%nat ->
  send_command cb SELECT_DESELECT_CARD 0 r6 d6 = Ret (st, r7) d7 ->
  mmc_execute fuel p operation buffer n 1 r0 s = Ret DNA_OK (set_device d7 s).
Proof.
  intros Hp Hcb Hn Haddr Hconf Htr Hf Hend. rewrite <- (app_nil_r (configured _ _ _ _ _)) in Hconf.
  apply run_configure in Hconf as (d & Hconf & Hd). apply transcript_end in Hd as [_ ->].
  apply wp_run. unfold mmc_execute. cbn [execute_loop].
  apply wp_bind. eapply wp_rd_card; [done|]. rewrite Hcb. apply wp_bind, Hconf; [done|]. cbn [fst snd st_eqb].
  cbn [Z.eqb Pos.eqb]. apply wp_bind. eapply wp_rd_card; [done|]. rewrite Hcb.
  assert (wp (execute_single fuel cb c operation buffer n 1 x4) (fun a s' => a = (DNA_OK, r6) /\ s' = set_device d6 s)
    (set_device d s)) as Hsingle.
  { unfold execute_single. rewrite block_offset_ok by done.
    change (Z.shiftr (i32 (1 * 512)) 2) with 128. destruct Htr as (r5 & d5 & Htr). destruct operation.
    - destruct Htr as (-> & -> & Hs & Hr). send. apply wp_bind. eapply wp_ondev; [exact Hr|]. by apply wp_ret.
    - destruct Htr as (d5' & lst & Hs & Hw & Hwaits & Hlast & Ht). send.
      apply wp_bind. eapply wp_ondev; [exact Hw|]. cbn [st_eqb].
      eapply wp_eq; [by eapply status_loop_ok|done]. }
  apply wp_bind. eapply wp_mono; [exact Hsingle|]. intros a s' [-> ->]. cbn [fst snd st_eqb].
  apply wp_bind. eapply wp_rd_card; [done|]. rewrite Hcb. apply wp_bind. eapply wp_ondev; [exact Hend|]. by apply wp_ret.
Qed.

(** For another number of blocks the machine goes to MMC_EXECUTE_MULTIPLE, which has no
    case: an error is returned and the card is left selected. *)
Theorem mmc_execute_multiple fuel p c operation buffer n count s r0 x1 x2 x3 x4 d4 :
  cards s !! p = Some c -> callbacks c = cb -> count <> 1 ->
  transcript r0 (device s) (configured c x1 x2 x3 x4) x4 d4 ->
  mmc_execute fuel p operation buffer n count r0 s = Ret DNA_ERROR (set_device d4 s).
Proof.
  intros Hp Hcb Hn Hconf. rewrite <- (app_nil_r (configured _ _ _ _ _)) in Hconf.
  apply run_configure in Hconf as (d & Hconf & Hd). apply transcript_end in Hd as [_ ->].
  apply wp_run. unfold mmc_execute. cbn [execute_loop].
  apply wp_bind. eapply wp_rd_card; [done|]. rewrite Hcb. apply wp_bind, Hconf; [done|]. cbn [fst snd st_eqb].
  rewrite (proj2 (Z.eqb_neq count 1)) by done. apply wp_bind. by eapply wp_rd_card.
Qed.
End Protocol.

(** ** Instances *)

(** A card of version 1 with 2^13 blocks of 2^9 bytes that says that it is busy as many
    times as its state counts. *)
Definition csd_words : list Z := [0x00260032; 0x1259003F; 0xC0018000; 0x0A4040F1].
Definition cid_words : list Z := [0x03534453; 0x55303147; 0x80112233; 0x4400A000].
Definition sample_send (cmd arg : Z) (r : list Z) : M nat (status_t * list Z) := fun n =>
  if cmd =? SD_CMD_APP_SEND_OP_COND then
    match n with
    | O => Ret (DNA_OK, [0xC0FF8000; 0; 0; 0]) O
    | S n => Ret (DNA_OK, [0x00FF8000; 0; 0; 0]) n
    end
  else if cmd =? SEND_IF_COND then Ret (DNA_OK, [0x1AA; 0; 0; 0]) n
  else if cmd =? ALL_SEND_CID then Ret (DNA_OK, cid_words) n
  else if cmd =? SEND_RELATIVE_ADDR then Ret (DNA_OK, [0xB3680500; 0; 0; 0]) n
  else if cmd =? SEND_CSD then Ret (DNA_OK, csd_words) n
  else if cmd =? SEND_STATUS then
    match n with O => Ret (DNA_OK, [0x100; 0; 0; 0]) O | S n => Ret (DNA_OK, [0; 0; 0; 0]) n end
  else Ret (DNA_OK, r) n.
Definition sample_card : mmc_callbacks_t nat := mkCallbacks sample_send (fun _ _ => ret DNA_OK) (fun _ _ => ret DNA_OK).

Definition sample_ready : list Z * list Z := ([0x00FF8000; 0; 0; 0], [0xC0FF8000; 0; 0; 0]).
Definition sample_identified : mmc_card_private nat :=
  identified sample_card true sample_ready cid_words [0xB3680500; 0; 0; 0] csd_words.
Definition card_malloc := kernel_malloc sizeof_mmc_card true boot_kern.

Ltac replay := repeat (eapply T_cons; [reflexivity|by first [left|right]|]); apply T_nil.

Lemma mmc_build_csd_spec_witness : mmc_build_csd csd_words cleared_csd = csd_of_register (register csd_words) cleared_csd.
Proof. apply (mmc_build_csd_spec csd_words cleared_csd). repeat split; vm_compute; congruence. Defined.

Lemma mmc_capacity_bounds_witness :
  capacity (mmc_build_csd csd_words cleared_csd) 0 0 = (512, 8192).
Proof.
  destruct (mmc_capacity_bounds csd_words cleared_csd 0 0) as [-> _]; [|vm_compute; congruence|vm_compute; reflexivity].
  repeat split; vm_compute; congruence.
Defined.

Lemma mmc_card_create_spec_witness :
  mmc_card_create 9 true sample_card true [0; 0; 0; 0] (mkMmc boot_kern 1%nat ∅) =
  Ret (DNA_OK, 65568) (mkMmc (after card_malloc boot_kern) 0%nat {[65568 := sample_identified]}).
Proof.
  apply (mmc_card_create_spec sample_card 9 true
    [(GO_IDLE_STATE, 0, [0; 0; 0; 0]); (SEND_IF_COND, 0x1AA, [0x1AA; 0; 0; 0])] true
    [([0x1AA; 0; 0; 0], [0x00FF8000; 0; 0; 0])] sample_ready cid_words [0xB3680500; 0; 0; 0] csd_words
    [0; 0; 0; 0] csd_words 0%nat (mkMmc boot_kern 1%nat ∅) 65568 (after card_malloc boot_kern)).
  - by apply D_sdhc.
  - by repeat constructor.
  - reflexivity.
  - replay.
  - apply run_after. vm_compute. reflexivity.
  - lia.
  - cbn. lia.
Defined.

(** A write of the block 3, the card being busy twice. *)
Lemma mmc_execute_spec_witness :
  mmc_execute 3 65568 MMC_WRITE 0x4000 3 1 [0; 0; 0; 0] (mkMmc boot_kern 2%nat {[65568 := sample_identified]}) =
  Ret DNA_OK (mkMmc boot_kern 0%nat {[65568 := sample_identified]}).
Proof.
  change (mkMmc boot_kern 0%nat {[65568 := sample_identified]}) with
    (set_device 0%nat (mkMmc boot_kern 2%nat {[65568 := sample_identified]})).
  apply (mmc_execute_spec sample_card 3 65568 sample_identified MMC_WRITE 0x4000 3
    (mkMmc boot_kern 2%nat {[65568 := sample_identified]}) [0; 0; 0; 0]
    [0; 0; 0; 0] [0; 0; 0; 0] [0; 0; 0; 0] [0; 0; 0; 0] 2%nat [[0; 0; 0; 0]; [0; 0; 0; 0]] [0x100; 0; 0; 0] 0%nat DNA_OK [0x100; 0; 0; 0] 0%nat).
  - reflexivity.
  - reflexivity.
  - lia.
  - vm_compute. by split.
  - replay.
  - exists [0; 0; 0; 0], 2%nat, 2%nat, [0x100; 0; 0; 0]. split_and!; [reflexivity|reflexivity|by repeat constructor|reflexivity|replay].
  - cbn. lia.
  - reflexivity.
Defined.
