(* ===== verification/Scheduler.v ===== *)
(** * The scheduler (scheduler_dispatch.c, scheduler_elect.c, scheduler_switch.c)

    A context switch cuts a C function in two: everything up to
    [cpu_context_load] runs on the stack of the thread that leaves the processor,
    the rest runs when the context of that thread is loaded again, possibly on
    another processor.  [scheduler_switch] is the first half, [switch_end] the
    code at the label [__scheduler_switch_end].  A kernel call that may switch
    returns a [switched]: either it returned, or the processor now runs another
    thread and the argument of [Switched] holds the locals of the call that the
    second half needs.

    Pointer arguments that every caller takes from a local or static object are
    not NULL; the corresponding tests have no counterpart here. *)

From S2P Require Import Prelude Status Queue Allocator Kernel Logic.

Inductive switched (R F : Type) : Type :=
| Returned (r : R)
| Switched (frame : F).
Arguments Returned {R F} r.
Arguments Switched {R F} frame.

Section Scheduler.
Context `{Hal}.

(** Put [thread] at the end of the ready queue of its affinity and unlock it. *)
Definition ready_enqueue (aff : Z) (thread : tref) : K unit :=
  lock_acquire (LQueue (QReady aff)) ;;
  onq (queue_add (QReady aff) (AThread thread)) ;;
  lock_release (LQueue (QReady aff)) ;;
  lock_release (LThread thread).

(** The thread is given to the first available processor it may run on (its lock
    is then released by the IPI handler of that processor), or queued. *)
Definition scheduler_dispatch (thread : tref) : K status_t :=
  let* th := gets (thr thread) in
  let aff := affinity (info th) in
  lock_acquire (LQueue QCpus) ;;
  let* sc :=
    (if aff =? cpu_mp_count then
       let* a := onq (queue_rem QCpus) in
       let* c := as_cpu a in
       ret (DNA_OK, c)
     else
       let* status := onq (queue_extract QCpus (Some (ACpu aff))) in
       ret (status, if st_eqb status DNA_OK then Some aff else None)) in
  lock_release (LQueue QCpus) ;;
  let* me := cpu_mp_id in
  let enqueue : K status_t :=
    ready_enqueue aff thread ;;
    ret (if (aff =? cpu_mp_count) || (aff =? me) then DNA_INVOKE_SCHEDULER else sc.1) in
  match sc.2 with
  | None => enqueue
  | Some c =>
      let* cv := gets (cpu c) in
      if negb (c_id cv =? me) then
        lock_acquire (LIpi c) ;;
        cpu_mp_send_ipi (c_id cv) (DNA_IPI_DISPATCH thread) ;;
        ret sc.1
      else enqueue
  end.

(** The elected thread is locked.  The result is the status and [*p_thread]. *)
Definition scheduler_elect (with_idle : bool) : K (status_t * option tref) :=
  let* current_cpuid := cpu_mp_id in
  let thread_found (queue : option qid) (thread : tref) : K (status_t * option tref) :=
    lock_acquire (LThread thread) ;;
    match queue with Some q => lock_release (LQueue q) | None => ret tt end ;;
    ret (DNA_OK, Some thread) in
  lock_acquire (LQueue (QReady current_cpuid)) ;;
  let* a := onq (queue_rem (QReady current_cpuid)) in
  let* thread := as_thread a in
  match thread with
  | Some t => thread_found (Some (QReady current_cpuid)) t
  | None =>
      lock_release (LQueue (QReady current_cpuid)) ;;
      lock_acquire (LQueue (QReady cpu_mp_count)) ;;
      let* a := onq (queue_rem (QReady cpu_mp_count)) in
      let* thread := as_thread a in
      match thread with
      | Some t => thread_found (Some (QReady cpu_mp_count)) t
      | None =>
          lock_release (LQueue (QReady cpu_mp_count)) ;;
          ensure with_idle orelse (DNA_NO_AVAILABLE_THREAD, None) in
          let* cv := gets (cpu current_cpuid) in
          match idle_thread cv with
          | Some t => thread_found None t
          | None => ret (DNA_ERROR, None)
          end
      end
  end.

Definition opt_tref_eqb (a b : option tref) : bool := bool_decide (a = b).

(** A processor is available when it runs its idle thread. *)
Definition switch_availability (c : Z) (self thread : tref) (idle : option tref) : K unit :=
  if opt_tref_eqb (Some self) idle then
    lock_acquire (LQueue QCpus) ;;
    onq (queue_extract QCpus (Some (ACpu c))) ;;
    lock_release (LQueue QCpus) ;;
    upd_cpu c (with_c_status DNA_CPU_RUNNING)
  else if opt_tref_eqb (Some thread) idle then
    upd_cpu c (with_c_status DNA_CPU_READY) ;;
    lock_acquire (LQueue QCpus) ;;
    onq (queue_add QCpus (ACpu c)) ;;
    lock_release (LQueue QCpus)
  else ret tt.

(** Up to the load of the context of [thread]: [Returned] when the function
    returns before. *)
Definition scheduler_switch (thread : option tref) (queue : option qid) : K (switched status_t unit) :=
  let* current_cpuid := cpu_mp_id in
  let* cv := gets (cpu current_cpuid) in
  match thread with
  | None => ret (Returned DNA_BAD_ARGUMENT)
  | Some thread =>
      let* current_time := cpu_timer_get current_cpuid in
      let delta := i64 (current_time - lap_date cv) in
      let* self := deref (current_thread cv) in
      upd_info self (fun i => with_kernel_time (i64 (kernel_time i + delta)) i) ;;
      upd_cpu current_cpuid (with_prev_thread (Some self)) ;;
      upd_info thread (with_t_status DNA_THREAD_RUNNING) ;;
      upd_info thread (with_cpu_id current_cpuid) ;;
      emit (EvContextSave self) ;;
      switch_availability current_cpuid self thread (idle_thread cv) ;;
      upd_cpu current_cpuid (with_lap_date current_time) ;;
      upd_cpu current_cpuid (with_current_thread (Some thread)) ;;
      match queue with Some q => lock_release (LQueue q) | None => ret tt end ;;
      emit (EvContextLoad thread) ;;
      ret (Switched tt)
  end.

(** From [__scheduler_switch_end] on. *)
Definition switch_end : K status_t :=
  let* c := cpu_mp_id in
  let* cv := gets (cpu c) in
  let* p := deref (prev_thread cv) in
  lock_release (LThread p) ;;
  let* t := deref (current_thread cv) in
  lock_release (LThread t) ;;
  ret DNA_OK.


(** ** Dispatch: the thread is never lost *)

(** What a dispatch does to the queues, the locks and the hardware: the first
    available processor the thread may use, if it is another one, receives the
    thread; otherwise the thread goes to the end of the ready queue of its
    affinity and is unlocked. *)
Inductive dispatched (me : Z) (t : tref) (aff : Z) (V : qid -> list addr)
    (L : gmap lock Z) (E : list hal_event)
    : status_t -> (qid -> list addr) -> gmap lock Z -> list hal_event -> Prop :=
| dispatched_remote c l1 l2 :
    V QCpus = l1 ++ ACpu c :: l2 -> c <> me ->
    (aff = cpu_mp_count /\ l1 = [] \/ aff <> cpu_mp_count /\ c = aff) ->
    dispatched me t aff V L E DNA_OK
      (vupd V QCpus (l1 ++ l2)) (<[LIpi c := 1]> L) (EvIpi c (DNA_IPI_DISPATCH t) :: E)
| dispatched_self l1 l2 :
    V QCpus = l1 ++ ACpu me :: l2 ->
    (aff = cpu_mp_count /\ l1 = [] \/ aff <> cpu_mp_count /\ me = aff) ->
    dispatched me t aff V L E DNA_INVOKE_SCHEDULER
      (vupd (vupd V QCpus (l1 ++ l2)) (QReady aff) (V (QReady aff) ++ [AThread t]))
      (delete (LThread t) L) E
| dispatched_queued st :
    st = (if (aff =? cpu_mp_count) || (aff =? me) then DNA_INVOKE_SCHEDULER else DNA_ERROR) ->
    (aff = cpu_mp_count /\ V QCpus = [] \/ aff <> cpu_mp_count /\ ACpu aff ∉ V QCpus) ->
    dispatched me t aff V L E st
      (vupd V (QReady aff) (V (QReady aff) ++ [AThread t]))
      (delete (LThread t) L) E.

(** What the scheduler relies on when it runs alone on the scheduling data: well
    formed queues, free locks, and only processors without a pending IPI in the
    queue of available processors. *)
Record sched_ok (U : gset addr) (q : @qstate addr qid _ _ _ _) (L : gmap lock Z)
    (C : gmap Z cpu_t) (V : qid -> list addr) : Prop := {
  so_wf : qwf U q V;
  so_cpus_lock : L !! LQueue QCpus = None;
  so_ready_locks : forall a, L !! LQueue (QReady a) = None;
  so_cpus : forall x, x ∈ V QCpus ->
    exists c, x = ACpu c /\ c_id (default cpu0 (C !! c)) = c /\ L !! LIpi c = None
}.

Lemma wp_ready_enqueue U s V t aff (Q : unit -> kstate -> Prop) :
  qwf U (kq s) V -> unqueued V (AThread t) -> AThread t ∈ U ->
  locks s !! LQueue (QReady aff) = None ->
  (forall q', qwf U q' (vupd V (QReady aff) (V (QReady aff) ++ [AThread t])) ->
     Q tt (set_kq q' (set_locks (delete (LThread t) (locks s)) s))) ->
  wp (ready_enqueue aff t) Q s.
Proof.
  intros Hwf Hu HU Hl HQ. unfold ready_enqueue. kdestruct s. krun.
  eapply (wp_queue_add U V); [done..|]. intros q' Hq'. krun.
  rewrite delete_insert_free by done. by apply HQ.
Qed.

Lemma scheduler_dispatch_wp U s V t :
  sched_ok U (kq s) (locks s) (cpus s) V -> unqueued V (AThread t) -> AThread t ∈ U ->
  wp (scheduler_dispatch t) (fun st s' => exists V' L' E' q',
    s' = set_kq q' (set_locks L' (set_events E' s)) /\ qwf U q' V' /\
    dispatched (mp_id s) t (affinity (info (thr t s))) V (locks s) (events s) st V' L' E') s.
Proof.
  intros [Hwf Hlq Hlr Hcpus] Hu HU. unfold scheduler_dispatch.
  kstep. kstep. set (aff := affinity (info (thr t s))).
  kdestruct s. krun.
  destruct (Z.eqb_spec aff cpu_mp_count) as [Ha|Ha].
  - destruct (V QCpus) as [|x l] eqn:HV.
    + krun. eapply (wp_queue_rem_nil U V); [done..|]. krun.
      rewrite delete_insert_free by done.
      eapply (wp_ready_enqueue U); [done..|]. intros q' Hq'. krun.
      do 4 eexists. split; [reflexivity|]. split; [done|].
      apply dispatched_queued; [by rewrite Ha, Z.eqb_refl|by left].
    + destruct (Hcpus x) as (c & -> & Hid & Hipi); [set_solver|].
      krun. eapply (wp_queue_rem_cons U V); [done..|]. intros q1 Hq1. krun.
      rewrite delete_insert_free by done. rewrite Hid.
      destruct (Z.eqb_spec c me0) as [->|Hc]; cbn [negb]; krun.
      * eapply (wp_ready_enqueue U); [done|by apply unqueued_sub; [|rewrite HV; set_solver]|done|done|].
        intros q' Hq'. rewrite vupd_ne in Hq' by done. krun. do 4 eexists. split; [reflexivity|]. split; [done|].
        by apply (dispatched_self _ _ _ _ _ _ [] l); [|left].
      * do 4 eexists. split; [reflexivity|]. split; [done|].
        by apply (dispatched_remote _ _ _ _ _ _ c [] l); [| |left].
  - krun. destruct (decide (ACpu aff ∈ V QCpus)) as [Hin|Hin].
    + apply list_elem_of_split in Hin as (l1 & l2 & HV).
      destruct (Hcpus (ACpu aff)) as (c & Hc & Hid & Hipi); [rewrite HV; set_solver|].
      injection Hc as <-. eapply (wp_queue_extract U V); [done..|]. intros q1 Hq1. krun.
      rewrite delete_insert_free by done. krun.
      rewrite Hid.
      destruct (Z.eqb_spec aff me0) as [Hm|Hm]; cbn [negb]; krun.
      * eapply (wp_ready_enqueue U); [done|by apply unqueued_sub; [|rewrite HV; set_solver]|done|done|].
        intros q' Hq'. rewrite vupd_ne in Hq' by done. krun. do 4 eexists. split; [reflexivity|]. split; [done|].
        apply (dispatched_self _ _ _ _ _ _ l1 l2); [congruence|by right].
      * do 4 eexists. split; [reflexivity|]. split; [done|].
        by apply (dispatched_remote _ _ _ _ _ _ aff l1 l2); [| |right].
    + eapply (wp_queue_extract_fail U V); [done..|]. krun.
      rewrite delete_insert_free by done. krun.
      eapply (wp_ready_enqueue U); [done..|]. intros q' Hq'. krun.
      do 4 eexists. split; [reflexivity|]. split; [done|].
      apply dispatched_queued; [by rewrite (proj2 (Z.eqb_neq _ _) Ha)|by right].
Qed.

(** A dispatch touches the ready queues and the available processors only, and
    the locks of the thread and of the IPI it sends. *)
Lemma dispatched_view me t aff V L E st V' L' E' q :
  dispatched me t aff V L E st V' L' E' -> q <> QCpus -> (forall a, q <> QReady a) -> V' q = V q.
Proof. intros Hd Hq Hr. destruct Hd; by rewrite !vupd_ne. Qed.

Lemma dispatched_lock me t aff V L E st V' L' E' l :
  dispatched me t aff V L E st V' L' E' -> l <> LThread t -> (forall c, l <> LIpi c) ->
  L' !! l = L !! l.
Proof.
  intros Hd Hl Hi. destruct Hd; rewrite ?lookup_insert_ne, ?lookup_delete_ne by done; done.
Qed.

(** The part of [sched_ok] that does not mention the links. *)
Record avail_ok (L : gmap lock Z) (C : gmap Z cpu_t) (V : qid -> list addr) : Prop := {
  ao_nodup : NoDup (V QCpus);
  ao_cpus_lock : L !! LQueue QCpus = None;
  ao_ready_locks : forall a, L !! LQueue (QReady a) = None;
  ao_cpus : forall x, x ∈ V QCpus ->
    exists c, x = ACpu c /\ c_id (default cpu0 (C !! c)) = c /\ L !! LIpi c = None
}.

Lemma sched_ok_avail U q L C V : sched_ok U q L C V <-> qwf U q V /\ avail_ok L C V.
Proof.
  split.
  - intros [Hwf ? ? ?]. split; [done|]. split; try done. apply (wf_nodup _ _ _ Hwf).
  - intros [Hwf [? ? ? ?]]. by split.
Qed.

Lemma avail_ok_locks L L' C V :
  (forall l, (l = LQueue QCpus \/ (exists a, l = LQueue (QReady a)) \/ exists c, l = LIpi c) ->
     L' !! l = L !! l) ->
  avail_ok L C V -> avail_ok L' C V.
Proof.
  intros HL [Hnd Hq Hr Hc]. split; [done|rewrite HL by auto; done| |].
  - intros a. rewrite HL by eauto. done.
  - intros x (c & -> & Hid & Hi)%Hc. exists c. rewrite HL by eauto. done.
Qed.

Lemma dispatched_avail L C V me t aff E st V' L' E' :
  avail_ok L C V -> dispatched me t aff V L E st V' L' E' -> avail_ok L' C V'.
Proof.
  intros [Hnd Hlq Hlr Hcpus] Hd.
  assert (NoDup (V' QCpus) /\ forall x, x ∈ V' QCpus -> x ∈ V QCpus /\
    forall c, x = ACpu c -> L' !! LIpi c = L !! LIpi c) as [Hnd' Hsub].
  { destruct Hd as [c l1 l2 HV Hc _|l1 l2 HV _|st _ _];
      rewrite ?(vupd_ne _ (QReady aff) QCpus) by done; rewrite ?vupd_eq.
    - rewrite HV in *. apply NoDup_mid in Hnd as (Hx1 & Hx2 & Hnd). split; [done|]. intros x Hx'.
      split; [set_solver|]. intros c' ->. apply lookup_insert_ne. intros [= ->]. set_solver.
    - rewrite HV in *. apply NoDup_mid in Hnd as (_ & _ & Hnd). split; [done|]. intros x Hx'.
      split; [set_solver|]. intros c' ->. by apply lookup_delete_ne.
    - split; [done|]. intros x Hx'. split; [done|]. intros c' ->. by apply lookup_delete_ne. }
  split; [done| | |].
  - by erewrite dispatched_lock.
  - intros a. by erewrite dispatched_lock.
  - intros x (Hx & HL)%Hsub. destruct (Hcpus x Hx) as (c & -> & Hid & Hi).
    exists c. rewrite HL by done. done.
Qed.

Lemma dispatched_sched_ok U q q' L C V me t aff E st V' L' E' :
  sched_ok U q L C V -> dispatched me t aff V L E st V' L' E' -> qwf U q' V' ->
  sched_ok U q' L' C V'.
Proof.
  intros [_ Ha]%sched_ok_avail Hd Hwf. apply sched_ok_avail. split; [done|].
  by eapply dispatched_avail.
Qed.

(** The dispatched thread is in the ready queue of its affinity, or was sent to a
    processor that was available. *)
Lemma dispatched_present me t aff V L E st V' L' E' :
  dispatched me t aff V L E st V' L' E' ->
  AThread t ∈ V' (QReady aff) \/
  exists c, ACpu c ∈ V QCpus /\ EvIpi c (DNA_IPI_DISPATCH t) ∈ E'.
Proof.
  intros [c l1 l2 HV _ _|l1 l2 HV _|st' _ _].
  - right. exists c. rewrite HV. set_solver.
  - left. rewrite vupd_eq. set_solver.
  - left. rewrite vupd_eq. set_solver.
Qed.

(** *** Waking up the threads of a queue, one after the other *)

Inductive wake_all (me : Z) (aff : tref -> Z) (q : qid)
    : list tref -> (qid -> list addr) -> gmap lock Z -> list hal_event -> bool ->
      (qid -> list addr) -> gmap lock Z -> list hal_event -> Prop :=
| wake_nil V L E : wake_all me aff q [] V L E false V L E
| wake_cons t ts rest V L E st b V1 L1 E1 V2 L2 E2 :
    V q = AThread t :: rest ->
    dispatched me t (aff t) (vupd V q rest) (<[LThread t := 1]> L) E st V1 L1 E1 ->
    wake_all me aff q ts V1 L1 E1 b V2 L2 E2 ->
    wake_all me aff q (t :: ts) V L E (st_eqb st DNA_INVOKE_SCHEDULER || b) V2 L2 E2.

Lemma wake_all_ext me aff aff' q ts V L E b V' L' E' :
  (forall t, aff t = aff' t) ->
  wake_all me aff q ts V L E b V' L' E' -> wake_all me aff' q ts V L E b V' L' E'.
Proof.
  intros Haff. induction 1 as [|t ts rest V L E st b V1 L1 E1 V2 L2 E2 HV Hd Hw IH]; [constructor|].
  econstructor; [done| |done]. by rewrite <- Haff.
Qed.

Lemma wake_all_grows me aff q ts V L E b V' L' E' :
  wake_all me aff q ts V L E b V' L' E' -> (forall a, q <> QReady a) ->
  (forall a x, x ∈ V (QReady a) -> x ∈ V' (QReady a)) /\ (forall e, e ∈ E -> e ∈ E').
Proof.
  induction 1 as [|t ts rest V L E st b V1 L1 E1 V2 L2 E2 HV Hd Hw IH]; [done|]. intros Hq.
  destruct (IH Hq) as [IHV IHE]. split.
  - intros a x Hx. apply IHV.
    destruct Hd as [c l1 l2 HVc _ _|l1 l2 HVc _|st' _ _];
      [rewrite !vupd_ne by (done || by intros ->); done|unfold vupd at 1..].
    all: destruct (decide (QReady a = QReady (aff t))) as [[= <-]|];
      rewrite ?vupd_ne by (done || by intros Hn; apply (Hq a)); set_solver.
  - intros e He. apply IHE. destruct Hd; set_solver.
Qed.

(** No wake-up is lost. *)
Lemma wake_all_present me aff q ts V L E b V' L' E' :
  wake_all me aff q ts V L E b V' L' E' -> (forall a, q <> QReady a) ->
  forall t, t ∈ ts ->
    AThread t ∈ V' (QReady (aff t)) \/ exists c, EvIpi c (DNA_IPI_DISPATCH t) ∈ E'.
Proof.
  induction 1 as [|t ts rest V L E st b V1 L1 E1 V2 L2 E2 HV Hd Hw IH]; intros Hq t' Ht';
    [by apply not_elem_of_nil in Ht'|].
  apply elem_of_cons in Ht' as [->|Ht']; [|by apply IH].
  destruct (wake_all_grows _ _ _ _ _ _ _ _ _ _ _ Hw Hq) as [HV2 HE2].
  destruct (dispatched_present _ _ _ _ _ _ _ _ _ _ Hd) as [Hp|(c & _ & Hc)]; [left|right]; eauto.
Qed.

Lemma wake_all_queue me aff q ts V L E b V' L' E' :
  wake_all me aff q ts V L E b V' L' E' -> (forall a, q <> QReady a) -> q <> QCpus ->
  V q = map AThread ts ++ V' q.
Proof.
  induction 1 as [|t ts rest V L E st b V1 L1 E1 V2 L2 E2 HV Hd Hw IH]; intros Hq Hc; [done|].
  rewrite HV. cbn. f_equal. rewrite <- IH by done.
  rewrite (dispatched_view _ _ _ _ _ _ _ _ _ _ q Hd) by done. by rewrite vupd_eq.
Qed.

Lemma wake_all_view me aff q ts V L E b V' L' E' q' :
  wake_all me aff q ts V L E b V' L' E' -> q' <> q -> q' <> QCpus -> (forall a, q' <> QReady a) ->
  V' q' = V q'.
Proof.
  induction 1 as [|t ts rest V L E st b V1 L1 E1 V2 L2 E2 HV Hd Hw IH]; intros Hq Hc Hr; [done|].
  rewrite IH, (dispatched_view _ _ _ _ _ _ _ _ _ _ q' Hd) by done. by rewrite vupd_ne.
Qed.

Lemma wake_all_lock me aff q ts V L E b V' L' E' l :
  wake_all me aff q ts V L E b V' L' E' -> (forall t, t ∈ ts -> l <> LThread t) ->
  (forall c, l <> LIpi c) -> L' !! l = L !! l.
Proof.
  induction 1 as [|t ts rest V L E st b V1 L1 E1 V2 L2 E2 HV Hd Hw IH]; intros Ht Hc; [done|].
  rewrite IH by (try done; intros; apply Ht; set_solver).
  rewrite (dispatched_lock _ _ _ _ _ _ _ _ _ _ l Hd) by (try done; apply Ht; set_solver).
  rewrite lookup_insert_ne; [done|]. intros <-. by apply (Ht t); [set_solver|].
Qed.

Lemma wake_all_avail me aff q ts V L E b V' L' E' C :
  wake_all me aff q ts V L E b V' L' E' -> q <> QCpus -> avail_ok L C V -> avail_ok L' C V'.
Proof.
  induction 1 as [|t ts rest V L E st b V1 L1 E1 V2 L2 E2 HV Hd Hw IH]; intros Hq Ha; [done|].
  apply IH; [done|]. eapply dispatched_avail; [|exact Hd].
  eapply (avail_ok_locks L).
  - intros l Hl. apply lookup_insert_ne. intros <-. naive_solver.
  - destruct Ha as [Hnd Hlq Hr Hc]. split; rewrite ?vupd_ne by done; done.
Qed.

(** The update of one thread, of several threads. *)
Definition at_thread (T : gmap tref thread_t) (t : tref) (f : thread_t -> thread_t)
    : gmap tref thread_t := <[t := f (default thread0 (T !! t))]> T.

Definition at_threads (f : thread_t -> thread_t) (ts : list tref) (T : gmap tref thread_t) :=
  fold_left (fun T t => at_thread T t f) ts T.

Definition affinity_in (T : gmap tref thread_t) (t : tref) : Z :=
  affinity (info (default thread0 (T !! t))).

Lemma affinity_at_thread T t f t' :
  (forall v, affinity (info (f v)) = affinity (info v)) ->
  affinity_in (at_thread T t f) t' = affinity_in T t'.
Proof.
  intros Hf. unfold affinity_in, at_thread.
  destruct (decide (t = t')) as [->|Hne]; [rewrite lookup_insert_eq; apply Hf|].
  by rewrite lookup_insert_ne.
Qed.

Lemma at_thread_ne T t f t' : t <> t' -> at_thread T t f !! t' = T !! t'.
Proof. intros. by apply lookup_insert_ne. Qed.

Lemma at_threads_other f ts T t : t ∉ ts -> at_threads f ts T !! t = T !! t.
Proof.
  revert T. induction ts as [|t' ts IH]; intros T Ht; [done|]. cbn [at_threads fold_left].
  apply not_elem_of_cons in Ht as [Hne Ht]. unfold at_threads in IH.
  rewrite IH by done. by apply at_thread_ne.
Qed.

Lemma at_threads_in f ts T t :
  NoDup ts -> t ∈ ts -> at_threads f ts T !! t = Some (f (default thread0 (T !! t))).
Proof.
  revert T. induction ts as [|t' ts IH]; intros T Hnd Ht; [by apply not_elem_of_nil in Ht|].
  apply NoDup_cons in Hnd as [Hn Hnd]. cbn [at_threads fold_left].
  fold (at_threads f ts (at_thread T t' f)).
  destruct (decide (t = t')) as [->|Hne].
  - rewrite at_threads_other by done. apply lookup_insert_eq.
  - apply elem_of_cons in Ht as [->|Ht]; [done|]. rewrite IH by done. by rewrite at_thread_ne.
Qed.

(** A wake-up only moves threads to ready queues. *)
Lemma wake_all_sub me aff q ts V L E b V' L' E' :
  wake_all me aff q ts V L E b V' L' E' ->
  forall q' x, x ∈ V' q' -> x ∈ V q' \/ exists t, x = AThread t /\ t ∈ ts.
Proof.
  induction 1 as [|t ts rest V L E st b V1 L1 E1 V2 L2 E2 HV Hd Hw IH]; intros q' x Hx; [by left|].
  destruct (IH q' x Hx) as [Hin|(t' & -> & Ht')]; [|right; exists t'; set_solver].
  assert (x ∈ vupd V q rest q' \/ x = AThread t) as [Hx'| ->].
  { destruct Hd as [c l1 l2 HVc _ _|l1 l2 HVc _|st _ _].
    - unfold vupd at 1 in Hin. case_decide; [|by left]. subst q'. left. rewrite HVc. set_solver.
    - unfold vupd at 1 in Hin. case_decide.
      + subst q'. set_solver.
      + unfold vupd at 1 in Hin. case_decide; [|by left]. subst q'. left. rewrite HVc. set_solver.
    - unfold vupd at 1 in Hin. case_decide; [|by left]. subst q'. set_solver. }
  - left. unfold vupd in Hx'. case_decide; [|done]. subst q'. rewrite HV. set_solver.
  - right. exists t. set_solver.
Qed.

(** No IPI is sent to a processor that is not available. *)
Lemma wake_all_ipi me aff q ts V L E b V' L' E' c :
  wake_all me aff q ts V L E b V' L' E' -> q <> QCpus -> ACpu c ∉ V QCpus ->
  L' !! LIpi c = L !! LIpi c.
Proof.
  induction 1 as [|t ts rest V L E st b V1 L1 E1 V2 L2 E2 HV Hd Hw IH]; intros Hq Hc; [done|].
  rewrite <- (vupd_ne V q QCpus rest) in Hc by done.
  assert (ACpu c ∉ V1 QCpus /\ L1 !! LIpi c = L !! LIpi c) as [Hc1 <-]; [|by apply IH].
  destruct Hd as [c' l1 l2 HVc _ _|l1 l2 HVc _|st _ _].
  - rewrite vupd_eq, HVc in *. split; [set_solver|].
    rewrite !lookup_insert_ne; [done|done|]. intros [= ->]. set_solver.
  - rewrite vupd_ne, vupd_eq by done. rewrite HVc in Hc. split; [set_solver|].
    by rewrite lookup_delete_ne, lookup_insert_ne.
  - rewrite vupd_ne by done. split; [done|]. by rewrite lookup_delete_ne, lookup_insert_ne.
Qed.

(** The threads of the ready queues are unlocked. *)
Definition ready_unlocked (L : gmap lock Z) (V : qid -> list addr) : Prop :=
  forall a x, x ∈ V (QReady a) -> exists t, x = AThread t /\ L !! LThread t = None.

Lemma dispatched_ready me t aff V L E st V' L' E' :
  (forall a, AThread t ∉ V (QReady a)) -> ready_unlocked L V ->
  dispatched me t aff V (<[LThread t := 1]> L) E st V' L' E' ->
  ready_unlocked L' V' /\ (forall a t', AThread t' ∈ V' (QReady a) -> t' = t \/ AThread t' ∈ V (QReady a)).
Proof.
  intros Ht HL Hd.
  assert (forall a x, x ∈ V (QReady a) -> exists t', x = AThread t' /\ t' <> t /\ L !! LThread t' = None) as Hold.
  { intros a x Hx. destruct (HL a x Hx) as (t' & -> & Hl). exists t'. split_and!; [done| |done].
    intros ->. by apply (Ht a). }
  assert (forall a x, x ∈ V' (QReady a) -> x ∈ V (QReady a) \/
            x = AThread t /\ L' !! LThread t = None) as HV'.
  { intros a x. destruct Hd as [c l1 l2 _ _ _|l1 l2 _ _|st _ _].
    - rewrite vupd_ne by done. by left.
    - rewrite lookup_delete_eq. unfold vupd at 1. case_decide as Ha; rewrite ?vupd_ne by done; [|by left].
      injection Ha as ->. intros [Hx|Hx%list_elem_of_singleton]%elem_of_app; auto.
    - rewrite lookup_delete_eq. unfold vupd. case_decide as Ha; [|by left].
      injection Ha as ->. intros [Hx|Hx%list_elem_of_singleton]%elem_of_app; auto. }
  assert (forall t', t' <> t -> L' !! LThread t' = L !! LThread t') as HL'.
  { intros t' Hne. erewrite dispatched_lock; [|exact Hd|congruence|done].
    by rewrite lookup_insert_ne by congruence. }
  split.
  - intros a x [(t' & -> & Hne & Hl)%Hold|[-> Hl]]%HV'; eexists; split; try done. by rewrite HL'.
  - intros a t' [Hx|[[= ->] _]]%HV'; auto.
Qed.

Lemma wake_all_ready me aff q ts V L E b V' L' E' :
  wake_all me aff q ts V L E b V' L' E' -> (forall a, q <> QReady a) -> NoDup ts ->
  (forall t a, t ∈ ts -> AThread t ∉ V (QReady a)) -> ready_unlocked L V ->
  ready_unlocked L' V' /\
  (forall a t, AThread t ∈ V' (QReady a) -> t ∈ ts \/ AThread t ∈ V (QReady a)).
Proof.
  induction 1 as [|t ts rest V L E st b V1 L1 E1 V2 L2 E2 HV Hd Hw IH]; intros Hq Hnd Hts HL;
    [split; [done|by right]|].
  apply NoDup_cons in Hnd as [Ht Hnd].
  assert (forall a, vupd V q rest (QReady a) = V (QReady a)) as Hvq.
  { intros a. apply vupd_ne. intros <-. by apply (Hq a). }
  destruct (dispatched_ready me t (aff t) (vupd V q rest) L E st V1 L1 E1) as [HL1 HV1]; [| |done|].
  { intros a. rewrite Hvq. apply Hts. set_solver. }
  { intros a x. rewrite Hvq. apply HL. }
  assert (forall a t', AThread t' ∈ V1 (QReady a) -> t' = t \/ AThread t' ∈ V (QReady a)) as HV1'.
  { intros a t' [->|Hin]%HV1; [by left|]. rewrite Hvq in Hin. by right. }
  destruct IH as [IH1 IH2]; [done|done| |done|].
  - intros t' a Ht' [->|Hin]%HV1'; [done|]. apply (Hts t' a); [set_solver|done].
  - split; [done|]. intros a t' [Hin|[->|Hin]%HV1']%IH2; [left; set_solver|left; set_solver|by right].
Qed.

(** One iteration of a loop that wakes threads up: pop, lock, update, dispatch.
    [f] is the update of the thread, which keeps its affinity. *)
Lemma wp_wake_one U s V q t rest (f : thread_t -> thread_t) (Q : status_t -> kstate -> Prop) :
  sched_ok U (kq s) (locks s) (cpus s) V -> q <> QCpus -> V q = AThread t :: rest ->
  (forall v, affinity (info (f v)) = affinity (info v)) ->
  (forall st V1 L1 E1 q1,
       dispatched (mp_id s) t (affinity (info (thr t s))) (vupd V q rest)
         (<[LThread t := 1]> (locks s)) (events s) st V1 L1 E1 ->
       sched_ok U q1 L1 (cpus s) V1 ->
       Q st (set_kq q1 (set_locks L1 (set_events E1
               (set_threads (<[t := f (thr t s)]> (threads s)) s))))) ->
  forall q0, qwf U q0 (vupd V q rest) ->
  wp (scheduler_dispatch t) Q
    (set_kq q0 (set_locks (<[LThread t := 1]> (locks s))
       (set_threads (<[t := f (thr t s)]> (threads s)) s))).
Proof.
  intros [Hwf Hlq Hlr Hcpus] Hq HV Hf HQ q0' Hq0'.
  assert (sched_ok U q0' (<[LThread t := 1]> (locks s)) (cpus s) (vupd V q rest)) as Hok.
  { split; [done| | |].
    - by rewrite lookup_insert_ne.
    - intros a. by rewrite lookup_insert_ne.
    - intros x. rewrite vupd_ne by done. intros (c & -> & Hid & Hi)%Hcpus. exists c.
      split; [done|]. split; [done|]. by rewrite lookup_insert_ne. }
  eapply wp_mono.
  - eapply (scheduler_dispatch_wp U _ (vupd V q rest)); [exact Hok| |].
    + by eapply unqueued_popped.
    + eapply (qwf_in_U _ _ _ q); [exact Hwf|]. rewrite HV. set_solver.
  - cbn beta. intros st s1 (V1 & L1 & E1 & q1 & -> & Hq1 & Hd). kdestruct s.
    cbn [set_kq set_locks set_threads mp_id threads events locks kq] in *.
    rewrite lookup_insert_eq in Hd. cbn [from_option id] in Hd. rewrite Hf in Hd.
    refine (HQ st V1 L1 E1 q1 Hd _). by eapply dispatched_sched_ok.
Qed.

(** ** Election: local queue, then global queue, then the idle thread *)

Inductive elected (me : Z) (idle : option tref) (V : qid -> list addr) (with_idle : bool)
    : status_t * option tref -> (qid -> list addr) -> Prop :=
| elected_local t l :
    V (QReady me) = AThread t :: l ->
    elected me idle V with_idle (DNA_OK, Some t) (vupd V (QReady me) l)
| elected_global t l :
    V (QReady me) = [] -> V (QReady cpu_mp_count) = AThread t :: l ->
    elected me idle V with_idle (DNA_OK, Some t) (vupd V (QReady cpu_mp_count) l)
| elected_idle t :
    V (QReady me) = [] -> V (QReady cpu_mp_count) = [] -> with_idle = true -> idle = Some t ->
    elected me idle V with_idle (DNA_OK, Some t) V
| elected_none :
    V (QReady me) = [] -> V (QReady cpu_mp_count) = [] -> with_idle = false ->
    elected me idle V with_idle (DNA_NO_AVAILABLE_THREAD, None) V
| elected_error :
    V (QReady me) = [] -> V (QReady cpu_mp_count) = [] -> with_idle = true -> idle = None ->
    elected me idle V with_idle (DNA_ERROR, None) V.

(** The elected thread, if any, is locked. *)
Definition lock_elected (r : option tref) (L : gmap lock Z) : gmap lock Z :=
  match r with Some t => <[LThread t := 1]> L | None => L end.

(** The ready queues hold unlocked threads, and the idle thread is unlocked. *)
Record ready_ok (s : kstate) (V : qid -> list addr) : Prop := {
  ro_locks : forall a, locks s !! LQueue (QReady a) = None;
  ro_threads : ready_unlocked (locks s) V;
  ro_idle : forall t, idle_thread (cpu (mp_id s) s) = Some t -> locks s !! LThread t = None
}.

Lemma scheduler_elect_wp U s V with_idle :
  qwf U (kq s) V -> ready_ok s V ->
  wp (scheduler_elect with_idle) (fun r s' => exists V' q',
    s' = set_kq q' (set_locks (lock_elected r.2 (locks s)) s) /\ qwf U q' V' /\
    elected (mp_id s) (idle_thread (cpu (mp_id s) s)) V with_idle r V') s.
Proof.
  intros Hwf [Hlr Hth Hid]. unfold scheduler_elect. kdestruct s. krun.
  destruct (V (QReady me0)) as [|x l] eqn:HV.
  - eapply (wp_queue_rem_nil U V); [done..|]. krun.
    rewrite delete_insert_free by done. krun.
    destruct (V (QReady cpu_mp_count)) as [|x l] eqn:HVg.
    + eapply (wp_queue_rem_nil U V); [done..|]. krun.
      rewrite delete_insert_free by done. destruct with_idle; krun.
      * destruct (idle_thread _) as [t|] eqn:Hi; krun.
        -- do 2 eexists. split; [reflexivity|]. split; [done|]. by apply elected_idle.
        -- do 2 eexists. split; [reflexivity|]. split; [done|]. by apply elected_error.
      * do 2 eexists. split; [reflexivity|]. split; [done|]. by apply elected_none.
    + destruct (Hth cpu_mp_count x) as (t & -> & Ht); [rewrite HVg; set_solver|].
      eapply (wp_queue_rem_cons U V); [done..|]. intros q1 Hq1. krun.
      rewrite delete_insert_ne, delete_insert_free by done.
      do 2 eexists. split; [reflexivity|]. split; [done|]. by apply elected_global.
  - destruct (Hth me0 x) as (t & -> & Ht); [rewrite HV; set_solver|].
    eapply (wp_queue_rem_cons U V); [done..|]. intros q1 Hq1. krun.
    rewrite delete_insert_ne, delete_insert_free by done.
    do 2 eexists. split; [reflexivity|]. split; [done|]. by apply elected_local.
Qed.

(** What holds when the thread [self], which is not the idle thread, runs in the
    kernel: it is in no queue, its processor is not available, and some thread
    can take its place. *)
Record running_ok (U : gset addr) (s : kstate) (V : qid -> list addr) (self idle : tref) : Prop := {
  ru_current : current_thread (cpu (mp_id s) s) = Some self;
  ru_idle : idle_thread (cpu (mp_id s) s) = Some idle;
  ru_ne : self <> idle;
  ru_self : AThread self ∈ U /\ unqueued V (AThread self) /\ locks s !! LThread self = None;
  ru_idle_free : unqueued V (AThread idle) /\ locks s !! LThread idle = None;
  ru_cpu : ACpu (mp_id s) ∈ U /\ unqueued V (ACpu (mp_id s));
  ru_cpu_id : c_id (cpu (mp_id s) s) = mp_id s /\ locks s !! LIpi (mp_id s) = None;
  ru_ready : ready_unlocked (locks s) V
}.

(** The semaphores, the heap and the interrupt status do not matter to it. *)
Lemma running_put U k V self idle j v : running_ok U k V self idle -> running_ok U (put_sem j v k) V self idle.
Proof. by intros []; split. Qed.
Lemma running_heap U k V self idle h : running_ok U k V self idle -> running_ok U (set_heap h k) V self idle.
Proof. by intros []; split. Qed.
Lemma running_cpsr U k V self idle x : running_ok U k V self idle -> running_ok U (set_cpsr x k) V self idle.
Proof. by intros []; split. Qed.

(** The queues after an election. *)
Lemma elected_view me idle V wi r V' q :
  elected me idle V wi r V' -> (forall a, q <> QReady a) -> V' q = V q.
Proof. intros Hel Hq. destruct Hel; rewrite ?vupd_ne by done; done. Qed.

Lemma elected_sub me idle V wi r V' q x : elected me idle V wi r V' -> x ∈ V' q -> x ∈ V q.
Proof.
  intros Hel. destruct Hel as [t l HV|t l _ HV| | |]; try done.
  all: unfold vupd; case_decide as Hq; [|done]; subst q; rewrite HV; set_solver.
Qed.

Lemma elected_keeps me idle V wi st next V' a t :
  elected me idle V wi (st, Some next) V' -> AThread t ∈ V (QReady a) ->
  t = next \/ AThread t ∈ V' (QReady a).
Proof.
  intros Hel Hin. inversion Hel as [t' l HV|t' l _ HV|t' _ _ _ _| |]; subst; try by right.
  all: unfold vupd; case_decide as Hq; [|by right]; rewrite Hq, HV in Hin.
  all: apply elem_of_cons in Hin as [[= ->]|Hin]; auto.
Qed.

Lemma elected_unqueued me idle V wi r V' x : elected me idle V wi r V' -> unqueued V x -> unqueued V' x.
Proof. intros Hel Hx q Hq. apply (Hx q). by eapply elected_sub. Qed.

Lemma elected_thread U s V self idle r V' q0 :
  qwf U q0 V -> running_ok U s V self idle ->
  elected (mp_id s) (Some idle) V true r V' ->
  exists t, r = (DNA_OK, Some t) /\ t <> self /\ locks s !! LThread t = None /\
    (forall q, (forall a, q <> QReady a) -> AThread t ∉ V q) /\ unqueued V' (AThread t).
Proof.
  intros Hwf Hr Hel.
  assert (forall a t l, V (QReady a) = AThread t :: l ->
    t <> self /\ locks s !! LThread t = None /\
    (forall q, (forall a, q <> QReady a) -> AThread t ∉ V q) /\
    unqueued (vupd V (QReady a) l) (AThread t)) as Hq.
  { intros a t l HV. assert (AThread t ∈ V (QReady a)) as Hin by (rewrite HV; set_solver).
    split_and!.
    - intros ->. destruct (ru_self _ _ _ _ _ Hr) as (_ & Hu & _). by apply (Hu (QReady a)).
    - destruct (ru_ready _ _ _ _ _ Hr a _ Hin) as (t' & [= <-] & Ht'). done.
    - intros q Hq Hin'. apply (Hq a). by apply (wf_disj _ _ _ Hwf _ _ (AThread t)).
    - by eapply unqueued_popped. }
  inversion Hel as [t l HV|t l _ HV|t _ _ _ [= <-]| |]; subst; try done.
  - exists t. split; [done|]. by eapply Hq.
  - exists t. split; [done|]. by eapply Hq.
  - exists idle. destruct (ru_idle_free _ _ _ _ _ Hr) as [Hu Hl].
    split_and!; [done|apply not_eq_sym, (ru_ne _ _ _ _ _ Hr)|done|intros; apply Hu|done].
Qed.

(** ** Context switch *)

(** The threads, the processor and the available processors after a switch from
    [self] to [thread] on processor [me]. *)
Definition switch_threads (me delta : Z) (self thread : tref) (T : gmap tref thread_t)
    : gmap tref thread_t :=
  let v := default thread0 (T !! self) in
  let T := <[self := with_info (with_kernel_time (i64 (kernel_time (info v) + delta)) (info v)) v]> T in
  let w := default thread0 (T !! thread) in
  <[thread := with_info (with_cpu_id me (with_t_status DNA_THREAD_RUNNING (info w))) w]> T.

Definition switch_status (self thread : tref) (cv : cpu_t) : cpu_status_t :=
  if opt_tref_eqb (Some self) (idle_thread cv) then DNA_CPU_RUNNING
  else if opt_tref_eqb (Some thread) (idle_thread cv) then DNA_CPU_READY
  else c_status cv.

Definition switch_cpu (self thread : tref) (time : Z) (cv : cpu_t) : cpu_t :=
  mkCpu (c_id cv) (switch_status self thread cv) time (Some self) (Some thread)
    (idle_thread cv) (current_alarm cv).

Definition switch_avail (me : Z) (self thread : tref) (cv : cpu_t) (l : list addr) : list addr :=
  if opt_tref_eqb (Some self) (idle_thread cv) then filter (fun x => x <> ACpu me) l
  else if opt_tref_eqb (Some thread) (idle_thread cv) then l ++ [ACpu me]
  else l.

Definition release_opt (q : option qid) (L : gmap lock Z) : gmap lock Z :=
  match q with Some q => delete (LQueue q) L | None => L end.

Definition switch_state (self thread : tref) (q : option qid) (s : kstate) : kstate :=
  let me := mp_id s in
  let time := timer_value me (ticks s) in
  set_locks (release_opt q (locks s))
    (set_threads (switch_threads me (i64 (time - lap_date (cpu me s))) self thread (threads s))
      (set_cpus (<[me := switch_cpu self thread time (cpu me s)]> (cpus s))
        (set_ticks (S (ticks s))
          (set_events (EvContextLoad thread :: EvContextSave self :: events s) s)))).

Lemma wp_switch_availability U s V me self thread v C (Q : unit -> kstate -> Prop) :
  qwf U (kq s) V -> locks s !! LQueue QCpus = None -> cpus s = <[me := v]> C ->
  (idle_thread v = Some thread -> self <> thread /\ unqueued V (ACpu me) /\ ACpu me ∈ U) ->
  (forall q', qwf U q' (vupd V QCpus (switch_avail me self thread v (V QCpus))) ->
     Q tt (set_kq q' (set_cpus (<[me := with_c_status (switch_status self thread v) v]> C) s))) ->
  wp (switch_availability me self thread (idle_thread v)) Q s.
Proof.
  intros Hwf Hl Hc Hidle HQ. unfold switch_availability, switch_avail, switch_status, opt_tref_eqb in *.
  kdestruct s. subst C0.
  case_bool_decide as Hi; [|case_bool_decide as Hi']; krun.
  - destruct (decide (ACpu me ∈ V QCpus)) as [Hin|Hin].
    + apply list_elem_of_split in Hin as (l1 & l2 & HV).
      eapply (wp_queue_extract U V); [done..|]. intros q1 Hq1. krun.
      rewrite delete_insert_free, lookup_insert_eq, insert_insert_eq by done. apply HQ.
      rewrite HV, filter_remove; [done|]. rewrite <- HV. apply (wf_nodup _ _ _ Hwf).
    + eapply (wp_queue_extract_fail U V); [done..|]. krun.
      rewrite delete_insert_free, lookup_insert_eq, insert_insert_eq by done. apply HQ.
      rewrite filter_absent by done. eapply qwf_ext; [|done]. intros. by rewrite vupd_same.
  - destruct Hidle as (_ & Hu & HU); [done|].
    eapply (wp_queue_add U V); [done..|]. intros q1 Hq1. krun.
    rewrite delete_insert_free, lookup_insert_eq, insert_insert_eq by done. by apply HQ.
  - destruct v. apply (HQ q0). eapply qwf_ext; [|done]. intros. by rewrite vupd_same.
Qed.

Lemma scheduler_switch_wp U s V self thread q :
  qwf U (kq s) V -> locks s !! LQueue QCpus = None ->
  current_thread (cpu (mp_id s) s) = Some self ->
  (idle_thread (cpu (mp_id s) s) = Some thread ->
   self <> thread /\ unqueued V (ACpu (mp_id s)) /\ ACpu (mp_id s) ∈ U) ->
  wp (scheduler_switch (Some thread) q) (fun r s' => exists q',
    r = Switched tt /\ s' = set_kq q' (switch_state self thread q s) /\
    qwf U q' (vupd V QCpus (switch_avail (mp_id s) self thread (cpu (mp_id s) s) (V QCpus)))) s.
Proof.
  intros Hwf Hl Hself Hidle. unfold scheduler_switch, switch_state, switch_cpu, switch_threads.
  kdestruct s. krun. rewrite Hself. krun. set (cv := default cpu0 (C0 !! me0)) in *.
  rewrite lookup_insert_eq, insert_insert_eq. kdefault.
  change (idle_thread cv) with (idle_thread (with_prev_thread (Some self) cv)).
  eapply (wp_switch_availability U _ V); [exact Hwf|exact Hl|reflexivity|exact Hidle|].
  intros q1 Hq1.
  destruct q; krun; rewrite !lookup_insert_eq, !insert_insert_eq; by eexists.
Qed.

(** The available processors after a switch away from a thread that is not idle. *)
Lemma switch_avail_ok U s V V2 q2 self idle next time :
  running_ok U s V self idle -> avail_ok (locks s) (cpus s) V ->
  qwf U q2 (vupd V2 QCpus (switch_avail (mp_id s) self next (cpu (mp_id s) s) (V QCpus))) ->
  avail_ok (locks s) (<[mp_id s := switch_cpu self next time (cpu (mp_id s) s)]> (cpus s))
    (vupd V2 QCpus (switch_avail (mp_id s) self next (cpu (mp_id s) s) (V QCpus))).
Proof.
  intros Hr [_ Hlq Hlr Hcpus] Hwf. pose proof (ru_cpu_id _ _ _ _ _ Hr) as [Hid Hipi].
  assert (forall c, c_id (default cpu0 (<[mp_id s := switch_cpu self next time (cpu (mp_id s) s)]> (cpus s) !! c))
    = c_id (default cpu0 (cpus s !! c))) as Hc.
  { intros c. destruct (decide (c = mp_id s)) as [->|Hne]; [by rewrite lookup_insert_eq|].
    by rewrite lookup_insert_ne. }
  split; [apply (wf_nodup _ _ _ Hwf)|done|done|].
  intros x. rewrite vupd_eq. unfold switch_avail, opt_tref_eqb.
  rewrite (ru_idle _ _ _ _ _ Hr), bool_decide_false by (intros [= ->]; by apply (ru_ne _ _ _ _ _ Hr)).
  case_bool_decide; [intros [Hx|Hx%list_elem_of_singleton]%elem_of_app|intros Hx].
  - destruct (Hcpus x Hx) as (c & -> & ? & ?). exists c. by rewrite Hc.
  - exists (mp_id s). by rewrite Hc.
  - destruct (Hcpus x Hx) as (c & -> & ? & ?). exists c. by rewrite Hc.
Qed.

(** The threads after a switch. *)
Lemma switch_threads_other me delta self next T t :
  t <> self -> t <> next -> switch_threads me delta self next T !! t = T !! t.
Proof. intros. unfold switch_threads. by rewrite !lookup_insert_ne by congruence. Qed.

Lemma switch_threads_next me delta self next T :
  t_status (info (default thread0 (switch_threads me delta self next T !! next))) = DNA_THREAD_RUNNING.
Proof. unfold switch_threads. by rewrite lookup_insert_eq. Qed.

Lemma switch_threads_self me delta self next T :
  self <> next ->
  switch_threads me delta self next T !! self =
  Some (let v := default thread0 (T !! self) in
        with_info (with_kernel_time (i64 (kernel_time (info v) + delta)) (info v)) v).
Proof. intros. unfold switch_threads. by rewrite lookup_insert_ne, lookup_insert_eq by congruence. Qed.

(** *** Blocking on a queue

    The code common to semaphore_acquire and thread_wait: elect a thread, put
    [self] in the queue [q], whose lock it holds, and switch.  [s] is the state
    before the call, [s1] the state in which the election starts. *)
Lemma wp_block {R F} U s s1 V self idle q (err : status_t -> R)
    (k : switched status_t unit -> K (switched R F)) (Q : switched R F -> kstate -> Prop) :
  qwf U (kq s) V -> avail_ok (locks s) (cpus s) V -> running_ok U s V self idle ->
  kq s1 = kq s -> cpus s1 = cpus s -> mp_id s1 = mp_id s ->
  (forall l, l <> LThread self -> l <> LQueue q -> locks s1 !! l = locks s !! l) ->
  q <> QCpus -> (forall a, q <> QReady a) ->
  (forall next V1 q2,
     elected (mp_id s) (Some idle) V true (DNA_OK, Some next) V1 ->
     next <> self -> locks s !! LThread next = None ->
     (forall q, (forall a, q <> QReady a) -> AThread next ∉ V q) ->
     let V2 := vupd V1 q (V q ++ [AThread self]) in
     qwf U q2 (vupd V2 QCpus (switch_avail (mp_id s) self next (cpu (mp_id s) s) (V QCpus))) ->
     wp (k (Switched tt)) Q (set_kq q2 (switch_state self next (Some q)
       (set_locks (<[LThread next := 1]> (locks s1)) s1)))) ->
  wp (let* st := scheduler_elect true in
      ensure negb (st_eqb st.1 DNA_ERROR) && negb (st_eqb st.1 DNA_BAD_ARGUMENT)
        orelse Returned (err st.1) in
      onq (queue_add q (AThread self)) ;;
      let* sw := scheduler_switch st.2 (Some q) in k sw) Q s1.
Proof.
  intros Hwf Ha Hr Hkq Hcpus Hmp HL Hq1 Hq2 HQ. apply wp_bind.
  pose proof (ru_self _ _ _ _ _ Hr) as (HselfU & Hself & _).
  pose proof (ru_cpu _ _ _ _ _ Hr) as (HcU & Hcu).
  assert (cpu (mp_id s1) s1 = cpu (mp_id s) s) as Hcv by (unfold cpu; by rewrite Hmp, Hcpus).
  assert (ready_ok s1 V) as Hready.
  { split.
    - intros a. rewrite HL by (done || by intros [= Heq]; apply (Hq2 a)). apply (ao_ready_locks _ _ _ Ha).
    - intros a x Hx. destruct (ru_ready _ _ _ _ _ Hr a x Hx) as (t & -> & Ht). exists t.
      split; [done|]. rewrite HL; [done| |done]. intros [= ->]. by apply (Hself (QReady a)).
    - intros t. rewrite Hcv, (ru_idle _ _ _ _ _ Hr). intros [= <-]. rewrite HL; [|by intros [= ->]; apply (ru_ne _ _ _ _ _ Hr)|done].
      apply (ru_idle_free _ _ _ _ _ Hr). }
  eapply wp_mono; [eapply (scheduler_elect_wp U s1 V); [by rewrite Hkq|exact Hready]|].
  cbn beta. intros r s' (V1 & q1 & -> & Hq1' & Hel).
  rewrite Hcv, Hmp, (ru_idle _ _ _ _ _ Hr) in Hel.
  destruct (elected_thread U s V self idle r V1 (kq s)) as (next & -> & Hn & Hnl & Hnq & Hnu); try done.
  cbn [fst snd lock_elected]. keqb. apply wp_bind.
  eapply (wp_queue_add U V1); [exact Hq1'|by eapply elected_unqueued|done|]. intros q2 Hq2'. apply wp_bind.
  eapply wp_mono.
  - eapply (scheduler_switch_wp U _ (vupd V1 q (V1 q ++ [AThread self])) self next).
    + exact Hq2'.
    + cbn [set_kq set_locks locks]. rewrite lookup_insert_ne by done. rewrite HL by (done || congruence).
      apply (ao_cpus_lock _ _ _ Ha).
    + cbn [set_kq set_locks mp_id]. unfold cpu in *. cbn [set_kq set_locks cpus]. rewrite Hcv.
      apply (ru_current _ _ _ _ _ Hr).
    + cbn [set_kq set_locks mp_id]. intros _. split; [done|]. rewrite Hmp. split; [|done].
      apply unqueued_vupd; [by eapply elected_unqueued|].
      intros [Hin|Hin%list_elem_of_singleton]%elem_of_app; [|done].
      by eapply Hcu, elected_sub.
  - cbn beta. intros r s2 (q3 & -> & -> & Hq3).
    rewrite (elected_view _ _ _ _ _ _ q Hel) in Hq3 by done.
    unfold cpu in *. cbn [set_kq set_locks mp_id cpus kq] in *.
    rewrite Hmp in *. rewrite Hcpus in *.
    rewrite vupd_ne, (elected_view _ _ _ _ _ _ QCpus Hel) in Hq3 by done.
    specialize (HQ next V1 q3 Hel Hn Hnl Hnq Hq3). by destruct s1.
Qed.

(** *** Leaving the processor for good: thread_exit, the end of a suspension *)
Lemma wp_leave {R F} U s V self idle
    (k : switched status_t unit -> K (switched R F)) (Q : switched R F -> kstate -> Prop) :
  qwf U (kq s) V -> avail_ok (locks s) (cpus s) V -> running_ok U s V self idle ->
  (forall next V1 q2,
     elected (mp_id s) (Some idle) V true (DNA_OK, Some next) V1 ->
     next <> self -> locks s !! LThread next = None ->
     qwf U q2 (vupd V1 QCpus (switch_avail (mp_id s) self next (cpu (mp_id s) s) (V QCpus))) ->
     wp (k (Switched tt)) Q (set_kq q2 (switch_state self next None
       (set_locks (<[LThread next := 1]> (locks s)) s)))) ->
  wp (let* st := scheduler_elect true in
      let* sw := scheduler_switch st.2 None in k sw) Q s.
Proof.
  intros Hwf Ha Hr HQ. apply wp_bind.
  pose proof (ru_cpu _ _ _ _ _ Hr) as (HcU & Hcu).
  assert (ready_ok s V) as Hready.
  { split; [apply (ao_ready_locks _ _ _ Ha)|apply (ru_ready _ _ _ _ _ Hr)|].
    intros t. rewrite (ru_idle _ _ _ _ _ Hr). intros [= <-]. apply (ru_idle_free _ _ _ _ _ Hr). }
  eapply wp_mono; [by eapply (scheduler_elect_wp U s V)|].
  cbn beta. intros r s' (V1 & q1 & -> & Hq1' & Hel). rewrite (ru_idle _ _ _ _ _ Hr) in Hel.
  destruct (elected_thread U s V self idle r V1 (kq s)) as (next & -> & Hn & Hnl & Hnq & Hnu); try done.
  cbn [fst snd lock_elected]. apply wp_bind. eapply wp_mono.
  - eapply (scheduler_switch_wp U _ V1 self next).
    + exact Hq1'.
    + cbn [set_kq set_locks locks]. rewrite lookup_insert_ne by done. apply (ao_cpus_lock _ _ _ Ha).
    + apply (ru_current _ _ _ _ _ Hr).
    + intros _. split; [done|]. split; [by eapply elected_unqueued|done].
  - cbn beta. intros r s2 (q3 & -> & -> & Hq3).
    rewrite (elected_view _ _ _ _ _ _ QCpus Hel) in Hq3 by done.
    specialize (HQ next V1 q3 Hel Hn Hnl Hq3). by destruct s.
Qed.

(** ** Theorems *)

(** C4: scheduler_dispatch never loses a thread: the thread is appended to the ready
    queue of its affinity, or sent to another processor that was available and no longer is;
    whatever else was queued stays in its queue, and the scheduler's invariant is kept. *)
Theorem scheduler_dispatch_spec U s V t :
  let aff := affinity (info (thr t s)) in
  sched_ok U (kq s) (locks s) (cpus s) V -> unqueued V (AThread t) -> AThread t ∈ U ->
  exists st s' V', scheduler_dispatch t s = Ret st s' /\
    sched_ok U (kq s') (locks s') (cpus s') V' /\ threads s' = threads s /\
    (forall q x, q <> QCpus -> x ∈ V q -> x ∈ V' q) /\
    ((V' (QReady aff) = V (QReady aff) ++ [AThread t] /\ locks s' !! LThread t = None) \/
     exists c, c <> mp_id s /\ ACpu c ∈ V QCpus /\ ACpu c ∉ V' QCpus /\
       events s' = EvIpi c (DNA_IPI_DISPATCH t) :: events s).
Proof.
  intros aff Hok Hu HU.
  destruct (proj1 (wp_exists _ _ _) (scheduler_dispatch_wp U s V t Hok Hu HU))
    as (st & s' & Hr & V' & L' & E' & q' & -> & Hwf & Hd).
  exists st, (set_kq q' (set_locks L' (set_events E' s))), V'. cbn.
  split_and!; [done|by eapply dispatched_sched_ok|done| |].
  - intros q x Hq Hx. destruct Hd; unfold vupd; repeat case_decide; subst; set_solver.
  - pose proof (wf_nodup _ _ _ (so_wf _ _ _ _ _ Hok) QCpus) as Hnd.
    destruct Hd as [c l1 l2 HV Hc _|l1 l2 HV _|st _ _]; cbn.
    + right. exists c. rewrite vupd_eq, HV in *. apply NoDup_mid in Hnd as (H1 & H2 & _). set_solver.
    + left. by rewrite vupd_eq, lookup_delete_eq.
    + left. by rewrite vupd_eq, lookup_delete_eq.
Qed.

(** Scheduler_elect takes, with its lock, the first thread of the processor's own
    ready queue, then of the queue shared by all the processors, then the idle thread when it is
    asked for; otherwise there is no available thread.  Nothing else changes. *)
Theorem scheduler_elect_spec U s V with_idle :
  let me := mp_id s in
  let idle := idle_thread (cpu me s) in
  qwf U (kq s) V -> ready_ok s V ->
  exists r s' V', scheduler_elect with_idle s = Ret r s' /\ qwf U (kq s') V' /\
    (forall q, q <> QReady me -> q <> QReady cpu_mp_count -> V' q = V q) /\
    threads s' = threads s /\ cpus s' = cpus s /\
    locks s' = lock_elected r.2 (locks s) /\
    match V (QReady me), V (QReady cpu_mp_count) with
    | AThread t :: l, _ => r = (DNA_OK, Some t) /\ V' (QReady me) = l
    | [], AThread t :: l => r = (DNA_OK, Some t) /\ V' (QReady cpu_mp_count) = l
    | [], [] => match with_idle, idle with
                | true, Some t => r = (DNA_OK, Some t)
                | true, None => r = (DNA_ERROR, None)
                | false, _ => r = (DNA_NO_AVAILABLE_THREAD, None)
                end
    | _, _ => False
    end.
Proof.
  intros me idle Hwf Hro.
  destruct (proj1 (wp_exists _ _ _) (scheduler_elect_wp U s V with_idle Hwf Hro))
    as (r & s' & Hr & V' & q' & -> & Hwf' & He).
  eexists r, _, V'. split; [exact Hr|]. split_and!; try done.
  - intros q H1 H2. destruct He; by rewrite ?vupd_ne.
  - fold me idle in He. destruct He; repeat match goal with E : V _ = _ |- _ => rewrite E; clear E end;
      rewrite ?vupd_eq; subst; try done.
    all: by match goal with E : _ = _ :> option tref |- _ => rewrite E end.
Qed.

(** scheduler_switch makes the elected thread the running one: the context of the
    caller is saved and the elected one loaded, the time since the last switch is charged to the
    caller, and the processor is listed as available exactly when the thread is its idle thread. *)
Theorem scheduler_switch_spec U s V self thread q :
  let me := mp_id s in
  let idle := idle_thread (cpu me s) in
  let elapsed := i64 (timer_value me (ticks s) - lap_date (cpu me s)) in
  qwf U (kq s) V -> locks s !! LQueue QCpus = None -> current_thread (cpu me s) = Some self ->
  self <> thread -> ACpu me ∈ U ->
  (ACpu me ∈ V QCpus <-> idle = Some self) -> (forall q, ACpu me ∈ V q -> q = QCpus) ->
  exists s' V', scheduler_switch (Some thread) q s = Ret (Switched tt) s' /\ qwf U (kq s') V' /\
    (ACpu me ∈ V' QCpus <-> idle = Some thread) /\ (forall q', q' <> QCpus -> V' q' = V q') /\
    current_thread (cpu me s') = Some thread /\ prev_thread (cpu me s') = Some self /\
    t_status (info (thr thread s')) = DNA_THREAD_RUNNING /\ cpu_id (info (thr thread s')) = me /\
    kernel_time (info (thr self s')) = i64 (kernel_time (info (thr self s)) + elapsed) /\
    events s' = EvContextLoad thread :: EvContextSave self :: events s.
Proof.
  intros me idle elapsed Hwf Hl Hcur Hne HU Hav Hmq.
  assert (idle = Some thread -> self <> thread /\ unqueued V (ACpu me) /\ ACpu me ∈ U) as Hidle.
  { intros Hi. split_and!; [done| |done]. intros q0 Hq0. pose proof (Hmq _ Hq0) as ->.
    apply Hav in Hq0. congruence. }
  destruct (proj1 (wp_exists _ _ _) (scheduler_switch_wp U s V self thread q Hwf Hl Hcur Hidle)) as
    (r & s' & Hr & q' & -> & -> & Hwf').
  eexists _, _. split; [exact Hr|]. split; [exact Hwf'|]. fold me. rewrite vupd_eq.
  split; [|split; [intros q0 Hq0; by rewrite vupd_ne|]].
  - unfold switch_avail, opt_tref_eqb. fold idle. repeat case_bool_decide.
    + rewrite list_elem_of_filter. naive_solver.
    + set_solver.
    + naive_solver.
  - unfold cpu, thr. cbn. rewrite lookup_insert_eq. cbn. fold me elapsed.
    rewrite switch_threads_self by done. unfold switch_threads. by rewrite lookup_insert_eq.
Qed.

End Scheduler.
