(* ===== verification/Alarm.v ===== *)
(** * Alarms (alarm_comparator.c, alarm_create.c, alarm_destroy.c)

    Every processor keeps its earliest alarm in [current_alarm], for which the
    timer is programmed, and the other ones in [alarm_queue], ordered by
    deadline.  The interrupt side, alarm_handler.c, is in AlarmHandler.v. *)

From Stdlib Require Import Sorted.
From S2P Require Import Prelude Status Queue Allocator Kernel Logic.

Definition DNA_PERIODIC_ALARM : Z := 0x1.
Definition DNA_ONE_SHOT_RELATIVE_ALARM : Z := 0x2.
Definition DNA_ONE_SHOT_ABSOLUTE_ALARM : Z := 0x4.

(** item2 < item1, in the state where the comparator is called. *)
Definition alarm_comparator (s : kstate) (item1 item2 : addr) : bool :=
  match item1, item2 with
  | AAlarm i1, AAlarm i2 => deadline (alarm i2 s) <? deadline (alarm i1 s)
  | _, _ => false
  end.

(** queue_insert (queue, alarm_comparator, item) *)
Definition alarm_insert (q : qid) (i : Z) : K unit :=
  let* s := gets id in
  onq (queue_insert q (alarm_comparator s) (AAlarm i)).

Section Alarm.
Context `{Hal}.

(** What follows the switch on the mode: the new alarm becomes the current one of
    the processor, or is enqueued. *)
Definition alarm_install (it_status current_cpuid new_alarm : Z) : K (status_t * option Z) :=
  lock_acquire (LCpu current_cpuid) ;;
  let* old_alarm := gets (fun s => current_alarm (cpu current_cpuid s)) in
  let* d_new := gets (fun s => deadline (alarm new_alarm s)) in
  let* sooner :=
    match old_alarm with
    | None => ret true
    | Some o => let* d_old := gets (fun s => deadline (alarm o s)) in ret (d_new <? d_old)
    end in
  let finish : K (status_t * option Z) :=
    lock_release (LCpu current_cpuid) ;;
    cpu_trap_restore it_status ;;
    let* av := gets (alarm new_alarm) in
    ret (DNA_OK, Some (alarm_id av)) in
  if sooner then
    let* updated_time := cpu_timer_get current_cpuid in
    let updated_quantum := i64 (d_new - updated_time) in
    check 0 <? updated_quantum
      rescue (lock_release (LCpu current_cpuid) ;; cpu_trap_restore it_status ;;
              ret (DNA_ERROR, None)) in
    (match old_alarm with
     | Some _ => cpu_timer_cancel current_cpuid
     | None => ret tt
     end) ;;
    upd_cpu current_cpuid (with_current_alarm (Some new_alarm)) ;;
    cpu_timer_set current_cpuid updated_quantum ;;
    (match old_alarm with
     | Some o => alarm_insert (QAlarms current_cpuid) o
     | None => ret tt
     end) ;;
    finish
  else
    alarm_insert (QAlarms current_cpuid) new_alarm ;;
    finish.

(** The result is the status and [*aid]. *)
Definition alarm_create (quantum : Z) (mode : Z) (callback : alarm_callback_t)
    (data : option tref) : K (status_t * option Z) :=
  ensure negb (quantum =? 0) orelse (DNA_BAD_ARGUMENT, None) in
  let* it_status := cpu_trap_mask_and_backup in
  lock_acquire LAlarmPool ;;
  let* current_cpuid := cpu_mp_id in
  let* a := onq (queue_rem QAlarmPool) in
  let* new_alarm := as_alarm a in
  match new_alarm with
  | None =>
      lock_release LAlarmPool ;;
      cpu_trap_restore it_status ;;
      ret (DNA_NO_MORE_ALARM, None)
  | Some new_alarm =>
      let* av := gets (alarm new_alarm) in
      let index := i16 (aid_index av) in
      modify (put_alarm new_alarm alarm0) ;;
      modify (put_lock (LAlarm new_alarm) 0) ;;
      upd_alarm new_alarm (with_aid_index (u16 index)) ;;
      let* counter := gets alarm_counter in
      upd_alarm new_alarm (with_aid_value counter) ;;
      modify (set_alarm_counter (u16 (counter + 1))) ;;
      lock_release LAlarmPool ;;
      upd_alarm new_alarm (with_a_mode mode) ;;
      let* cv := gets (cpu current_cpuid) in
      let* self := deref (current_thread cv) in
      let* th := gets (thr self) in
      upd_alarm new_alarm (with_a_thread_id (thread_id th)) ;;
      upd_alarm new_alarm (with_a_cpu_id current_cpuid) ;;
      upd_alarm new_alarm (with_is_invalid false) ;;
      modify (put_lock (LAlarm new_alarm) 0) ;;
      upd_alarm new_alarm (with_execution_time 0) ;;
      upd_alarm new_alarm (with_callback callback) ;;
      upd_alarm new_alarm (with_a_data data) ;;
      let* start_time := cpu_timer_get current_cpuid in
      if (mode =? DNA_PERIODIC_ALARM) || (mode =? DNA_ONE_SHOT_RELATIVE_ALARM) then
        upd_alarm new_alarm (with_quantum quantum) ;;
        upd_alarm new_alarm (with_deadline (i64 (quantum + start_time))) ;;
        alarm_install it_status current_cpuid new_alarm
      else if mode =? DNA_ONE_SHOT_ABSOLUTE_ALARM then
        check start_time <? quantum
          rescue (cpu_trap_restore it_status ;; ret (DNA_BAD_ARGUMENT, None)) in
        upd_alarm new_alarm (with_quantum (i64 (quantum - start_time))) ;;
        upd_alarm new_alarm (with_deadline quantum) ;;
        alarm_install it_status current_cpuid new_alarm
      else alarm_install it_status current_cpuid new_alarm
  end.

End Alarm.

(** An index outside [alarm_pool.data] is not rejected by the code: it reads
    past the array. *)
Definition alarm_destroy (aid : Z) : K status_t :=
  let index := raw_index aid in
  let* it_status := cpu_trap_mask_and_backup in
  lock_acquire LAlarmPool ;;
  if index <? DNA_MAX_ALARM then
    let* av := gets (alarm index) in
    check alarm_id av =? aid
      rescue (lock_release LAlarmPool ;; cpu_trap_restore it_status ;; ret DNA_UNKNOWN_ALARM) in
    lock_acquire (LAlarm index) ;;
    lock_release LAlarmPool ;;
    upd_alarm index (with_is_invalid true) ;;
    lock_release (LAlarm index) ;;
    cpu_trap_restore it_status ;;
    ret DNA_OK
  else fault.

(** ** The alarms of a processor are ordered by deadline *)

Definition due (s : kstate) (a b : Z) : Prop := deadline (alarm a s) <= deadline (alarm b s).

(** In [s], [cur] is the current alarm of processor [c] and the alarms [l] wait
    behind it, in the order of their deadlines. *)
Record alarm_rep (U : gset addr) (s : kstate) (V : qid -> list addr) (c : Z)
    (cur : option Z) (l : list Z) : Prop := {
  ar_wf : qwf U (kq s) V;
  ar_cur : current_alarm (cpu c s) = cur;
  ar_queue : V (QAlarms c) = map AAlarm l;
  ar_sorted : StronglySorted (due s) l;
  ar_first : match cur with
             | None => l = []
             | Some a => unqueued V (AAlarm a) /\ AAlarm a ∈ U /\ Forall (due s a) l
             end
}.

Lemma insert_alarm_sorted s x l :
  StronglySorted (due s) l ->
  exists l', insert_before (alarm_comparator s) (AAlarm x) (map AAlarm l) = map AAlarm l' /\
    StronglySorted (due s) l' /\ l' ≡ₚ x :: l.
Proof.
  induction l as [|y l IH]; cbn [map insert_before alarm_comparator]; intros Hs.
  - exists [x]. split_and!; [done|by repeat constructor|done].
  - apply StronglySorted_inv in Hs as [Hs Hy].
    destruct (deadline (alarm x s) <? deadline (alarm y s)) eqn:Hxy; zbool.
    + exists (x :: y :: l). split_and!; [done| |done]. constructor; [by constructor|].
      constructor; [unfold due; lia|]. eapply List.Forall_impl; [|exact Hy]. unfold due. lia.
    + destruct (IH Hs) as (l' & -> & Hs' & Hp). exists (y :: l'). split_and!; [done| |].
      * constructor; [done|]. rewrite Hp. constructor; [unfold due; lia|done].
      * rewrite Hp. by apply Permutation_swap.
Qed.

Lemma wp_alarm_insert U s V c l x (Q : unit -> kstate -> Prop) :
  qwf U (kq s) V -> V (QAlarms c) = map AAlarm l -> StronglySorted (due s) l ->
  unqueued V (AAlarm x) -> AAlarm x ∈ U ->
  (forall q' l', qwf U q' (vupd V (QAlarms c) (map AAlarm l')) -> StronglySorted (due s) l' ->
     l' ≡ₚ x :: l -> Q tt (set_kq q' s)) ->
  wp (alarm_insert (QAlarms c) x) Q s.
Proof.
  intros Hwf HV Hs Hu HU HQ. unfold alarm_insert. apply wp_bind, wp_gets.
  destruct (insert_alarm_sorted s x l Hs) as (l' & Hins & Hs' & Hp).
  eapply (wp_queue_insert U V); [done..|]. change (Datatypes.id s) with s. rewrite HV, Hins.
  intros q' Hq'. by eapply HQ.
Qed.

(** An alarm that is neither queued nor the inserted one is still in no queue. *)
Lemma unqueued_alarm V c l l' x b :
  unqueued V (AAlarm b) -> V (QAlarms c) = map AAlarm l -> l' ≡ₚ x :: l -> b <> x ->
  unqueued (vupd V (QAlarms c) (map AAlarm l')) (AAlarm b).
Proof.
  intros Hu HV Hp Hne. apply unqueued_vupd; [done|]. rewrite list_elem_of_fmap.
  intros (b' & [= <-] & Hb). rewrite Hp in Hb. apply elem_of_cons in Hb as [->|Hb]; [done|].
  apply (Hu (QAlarms c)). rewrite HV. apply list_elem_of_fmap. eauto.
Qed.

Lemma due_trans s a b l : due s a b -> Forall (due s b) l -> Forall (due s a) l.
Proof. intros Hab Hl. eapply Forall_impl; [exact Hl|]. unfold due in *. cbn. lia. Qed.

Definition opt_list (o : option Z) : list Z := match o with Some a => [a] | None => [] end.

(** Changing an alarm that is not installed keeps the order of the others. *)
Lemma due_ext s s' l :
  (forall b, b ∈ l -> deadline (alarm b s') = deadline (alarm b s)) ->
  (StronglySorted (due s) l -> StronglySorted (due s') l) /\
  (forall o, deadline (alarm o s') = deadline (alarm o s) ->
     Forall (due s o) l -> Forall (due s' o) l).
Proof.
  intros Hl.
  assert (forall o l', l' ⊆ l -> deadline (alarm o s') = deadline (alarm o s) ->
    Forall (due s o) l' -> Forall (due s' o) l') as HF.
  { intros o l' Hsub Ho HF. rewrite Forall_forall in *. intros b Hb. specialize (HF b Hb).
    unfold due in *. rewrite Ho, Hl; [done|]. by apply Hsub. }
  split; [|intros o; by apply HF]. clear -Hl HF. intros Hs. induction Hs as [|o l' Hs IH Ho].
  - constructor.
  - constructor.
    + apply IH; [intros; apply Hl; set_solver|intros; apply HF; set_solver].
    + apply HF; [set_solver|apply Hl; set_solver|done].
Qed.

Section AlarmProofs.
Context `{Hal}.

Lemma alarm_install_wp U s V c cur l a it :
  alarm_rep U s V c cur l -> unqueued V (AAlarm a) -> AAlarm a ∈ U -> cur <> Some a ->
  locks s !! LCpu c = None ->
  0 < deadline (alarm a s) - timer_value c (ticks s) < 2 ^ 63 ->
  wp (alarm_install it c a) (fun r s' => exists V' cur' l' q' C' n' E',
    r = (DNA_OK, Some (alarm_id (alarm a s))) /\
    s' = set_kq q' (set_cpus C' (set_cpsr it (set_ticks n' (set_events E' s)))) /\
    alarm_rep U s' V' c cur' l' /\
    opt_list cur' ++ l' ≡ₚ a :: opt_list cur ++ l /\
    (cur' = Some a -> EvTimerSet c (deadline (alarm a s) - timer_value c (ticks s)) ∈ E')) s.
Proof.
  intros [Hwf Hcur HV Hs Hf] Hu HU Hca Hl Ht. unfold alarm_install.
  kdestruct s. krun. rewrite Hcur.
  destruct cur as [o|]; krun.
  - destruct Hf as (Hou & HoU & Hfo). assert (o <> a) as Hoa by congruence.
    destruct (_ <? _) eqn:Hd; zbool; krun.
    + rewrite i64_id, (proj2 (Z.ltb_lt 0 _)) by lia. krun.
      eapply (wp_alarm_insert U _ V); [done..|]. intros q1 l' Hq1 Hs' Hp. krun. klocks.
      exists (vupd V (QAlarms c) (map AAlarm l')), (Some a), l'. do 4 eexists.
      split; [done|]. split; [done|]. split; [|split; [cbn; by rewrite Hp|set_solver]].
      split; kred; [done|by rewrite lookup_insert_eq|by rewrite vupd_eq|exact Hs'|].
      split; [by eapply unqueued_alarm|]. split; [done|].
      rewrite Hp. constructor; [unfold due; kred; lia|]. eapply due_trans; [|exact Hfo].
      unfold due. kred. lia.
    + eapply (wp_alarm_insert U _ V); [done..|]. intros q1 l' Hq1 Hs' Hp. krun. klocks.
      exists (vupd V (QAlarms c) (map AAlarm l')), (Some o), l'. do 4 eexists.
      split; [done|]. split; [done|].
      split; [|split; [cbn; rewrite Hp; by apply Permutation_swap|congruence]].
      split; kred; [done|done|by rewrite vupd_eq|exact Hs'|].
      split; [by eapply unqueued_alarm|]. split; [done|].
      rewrite Hp. constructor; [unfold due; kred; lia|done].
  - subst l. rewrite i64_id, (proj2 (Z.ltb_lt 0 _)) by lia. krun. klocks.
    exists V, (Some a), []. do 4 eexists. split; [done|]. split; [done|].
    split; [|split; [done|set_solver]].
    split; kred; [done|by rewrite lookup_insert_eq|done|constructor|]. by split_and!.
Qed.

(** The state in which alarm_create installs the alarm taken from the pool. *)
Lemma alarm_rep_fresh U s V c cur l a pool q' v L n t' it :
  alarm_rep U s V c cur l -> V QAlarmPool = AAlarm a :: pool ->
  qwf U q' (vupd V QAlarmPool pool) ->
  alarm_rep U (set_kq q' (set_locks L (set_alarms (<[a := v]> (alarms s))
      (set_alarm_counter n (set_ticks t' (set_cpsr it s))))))
    (vupd V QAlarmPool pool) c cur l /\
  unqueued (vupd V QAlarmPool pool) (AAlarm a) /\ AAlarm a ∈ U /\ cur <> Some a.
Proof.
  intros [Hwf Hcur HV Hs Hf] Ha Hq'.
  assert (AAlarm a ∈ V QAlarmPool) as Hin by (rewrite Ha; set_solver).
  assert (forall b, b ∈ l -> b <> a) as Hne.
  { intros b Hb ->. assert (QAlarmPool = QAlarms c) as [=].
    apply (wf_disj _ _ _ Hwf _ _ (AAlarm a)); [done|]. rewrite HV. apply list_elem_of_fmap. eauto. }
  assert (cur <> Some a) as Hca by (intros ->; by apply (proj1 Hf QAlarmPool)).
  split_and!; [|by eapply unqueued_popped|exact (qwf_in_U _ _ _ _ _ Hwf Hin)|done].
  set (s1 := set_kq _ _).
  assert (forall b, b <> a -> deadline (alarm b s1) = deadline (alarm b s)) as Hd.
  { intros b Hb. unfold alarm, s1. kdestruct s. kred. by rewrite lookup_insert_ne by congruence. }
  destruct (due_ext s s1 l) as [Hsort HF]; [intros; apply Hd; auto|].
  split; [done|by unfold s1; kdestruct s| |by apply Hsort|].
  { rewrite vupd_ne; [exact HV|done]. }
  destruct cur as [o|]; [|done]. destruct Hf as (Hou & HoU & Hfo). split_and!; [|done|].
  - apply unqueued_sub; [done|]. rewrite Ha. set_solver.
  - apply HF; [apply Hd; congruence|done].
Qed.

(** alarm_create takes a slot of the pool, gives it the deadline [now + quantum], and
    keeps the pending alarms of the processor ordered by deadline; when the new alarm is the
    earliest one the timer is programmed for the time that is left.  No lock is kept, and the
    interrupt status, the threads and the semaphores are unchanged. *)
Theorem alarm_create_spec U s V cur l a pool self q mode cb data :
  let me := mp_id s in
  let t0 := timer_value me (ticks s) in
  let t1 := timer_value me (S (ticks s)) in
  alarm_rep U s V me cur l -> V QAlarmPool = AAlarm a :: pool ->
  locks s !! LAlarmPool = None -> locks s !! LCpu me = None -> locks s !! LAlarm a = None ->
  current_thread (cpu me s) = Some self ->
  mode = DNA_PERIODIC_ALARM \/ mode = DNA_ONE_SHOT_RELATIVE_ALARM ->
  0 <= t0 -> t0 <= t1 < t0 + q -> t0 + q < 2 ^ 63 ->
  wp (alarm_create q mode cb data) (fun r s' => exists V' cur' l',
    r = (DNA_OK, Some (alarm_id (alarm a s'))) /\
    alarm_rep U s' V' me cur' l' /\
    opt_list cur' ++ l' ≡ₚ a :: opt_list cur ++ l /\
    deadline (alarm a s') = t0 + q /\ quantum (alarm a s') = q /\
    callback (alarm a s') = cb /\ a_data (alarm a s') = data /\
    is_invalid (alarm a s') = false /\
    (cur' = Some a -> EvTimerSet me (t0 + q - t1) ∈ events s') /\
    locks s' = locks s /\ cpsr s' = cpsr s /\ threads s' = threads s /\ sems s' = sems s) s.
Proof.
  cbn zeta. intros Hrep Ha Hl1 Hl2 Hl3 Hself Hmode Ht0 Ht1 Hq. unfold alarm_create.
  rewrite (proj2 (Z.eqb_neq q 0)) by lia. cbn [negb].
  pose proof (ar_wf _ _ _ _ _ _ Hrep) as Hwf.
  kdestruct s. krun. eapply (wp_queue_rem_cons U V); [done..|]. intros q1 Hq1. krun.
  rewrite Hself. krun. rewrite !lookup_insert_eq, !insert_insert_eq. kdefault.
  replace ((mode =? DNA_PERIODIC_ALARM) || (mode =? DNA_ONE_SHOT_RELATIVE_ALARM)) with true
    by (destruct Hmode; by subst mode).
  krun. rewrite !lookup_insert_eq, !insert_insert_eq. kdefault.
  match goal with |- context [<[a := ?x]> A0] => set (av := x) end.
  assert (deadline av = timer_value me0 tk0 + q /\ quantum av = q /\ callback av = cb /\
          a_data av = data /\ is_invalid av = false) as (Hd & Hqv & Hcb & Hda & Hiv).
  { split_and!; [|done..]. transitivity (i64 (q + timer_value me0 tk0)); [done|].
    rewrite i64_id; lia. }
  clearbody av. do 3 (klocks; try rewrite (delete_id L0 (LAlarm a)) by done).
  destruct (alarm_rep_fresh _ _ _ _ _ _ _ _ _ av L0 (u16 (na0 + 1)) (S tk0) (Z.lor ir0 192) Hrep Ha Hq1)
    as (Hrep' & Hu & HU & Hca).
  eapply wp_mono; [eapply (alarm_install_wp U); [exact Hrep'|done|done|done|done|]|]; kred.
  { rewrite lookup_insert_eq. kdefault. rewrite Hd. lia. }
  cbn beta. kred. rewrite lookup_insert_eq. kdefault. rewrite Hd.
  intros r s' (V' & cur' & l' & q' & C' & n' & E' & -> & -> & Hrep2 & Hp & Hev). kred.
  exists V', cur', l'. rewrite lookup_insert_eq. kdefault. by split_and!.
Qed.

End AlarmProofs.
