(* ===== verification/Thread.v ===== *)
(** * Threads (thread_create.c ... thread_yield.c)

    The operations on the thread pool and the state of threads.  The calls that
    leave the processor are cut at the context switch as explained in
    Scheduler.v: [thread_yield] and [thread_yield_resume], and so on. *)

From S2P Require Import Prelude Status Queue Allocator Kernel Logic Memory Scheduler Alarm.

Definition DNA_NO_AFFINITY : Z := 0xFFFFFFFF.
Definition CPU_DEFAULT_ITRESTORE : Z := 0x13.

Section Thread.
Context `{Hal}.

(** The tests on [tid] that open every operation: the members of the identifier
    are unsigned. *)
Definition tid_in_range (id : Z) : bool :=
  (0 <=? raw_tgroup id) && (raw_tgroup id <? DNA_MAX_GROUP) &&
  (0 <=? raw_tindex id) && (raw_tindex id <? DNA_MAX_THREAD).

Definition tid_slot (id : Z) : tref := (raw_tgroup id, raw_tindex id).

(** dna_memset (thread, 0, sizeof (struct _thread)) *)
Definition clear_thread (t : tref) : K unit :=
  modify (put_thr t thread0) ;;
  onq (modify (set_next (AThread t) None)) ;;
  onq (modify (putq (QThreadWait t) DNA_QUEUE_DEFAULTS)) ;;
  modify (put_lock (LQueue (QThreadWait t)) 0) ;;
  modify (put_lock (LThread t) 0).

Definition thread_create (handler arguments : Z) (i : thread_info_t) (tid_ok : bool)
    : K (status_t * option Z) :=
  ensure negb (handler =? 0) && tid_ok orelse (DNA_BAD_ARGUMENT, None) in
  ensure (0 <=? group i) && (group i <? DNA_MAX_GROUP) orelse (DNA_BAD_ARGUMENT, None) in
  ensure (u32 (affinity i) =? DNA_NO_AFFINITY)
         || ((0 <=? affinity i) && (affinity i <? cpu_mp_count))
    orelse (DNA_BAD_ARGUMENT, None) in
  ensure tst_eqb (t_status i) DNA_THREAD_SUSPENDED orelse (DNA_BAD_ARGUMENT, None) in
  ensure bool_decide (resource i = DNA_NO_RESOURCE) orelse (DNA_BAD_ARGUMENT, None) in
  ensure resource_id i =? -1 orelse (DNA_BAD_ARGUMENT, None) in
  let* it_status := cpu_trap_mask_and_backup in
  lock_acquire LThreadPool ;;
  let* a := onq (queue_rem (QThreadPool (group i))) in
  let* thread := as_thread a in
  let pool_error it_status st : K (status_t * option Z) :=
    cpu_trap_restore it_status ;;
    lock_release LThreadPool ;;
    ret (st, None) in
  match thread with
  | None => pool_error it_status DNA_NO_MORE_SEM
  | Some t =>
      let* v := gets (thr t) in
      let index := tid_index v in
      clear_thread t ;;
      upd_thr t (with_tid_index (u8 index)) ;;
      let* counter := gets thread_counter in
      upd_thr t (with_tid_value (u16 counter)) ;;
      modify (set_thread_counter (i16 (counter + 1))) ;;
      lock_release LThreadPool ;;
      cpu_trap_restore it_status ;;
      upd_thr t (with_tid_group (u8 (group i))) ;;
      upd_thr t (with_info i) ;;
      let* mem :=
        (if stack_base i =? 0 then
           let* base := kernel_malloc (stack_size i) false in
           upd_info t (with_stack_base base) ;;
           upd_thr t (with_stack_allocated true) ;;
           ret (negb (base =? 0))
         else ret true) in
      if (mem : bool) then
        (if u32 (affinity i) =? DNA_NO_AFFINITY
         then upd_info t (with_affinity cpu_mp_count) else ret tt) ;;
        upd_thr t (with_handler handler) ;;
        upd_thr t (with_arguments arguments) ;;
        upd_thr t (with_it_restore CPU_DEFAULT_ITRESTORE) ;;
        let* v := gets (thr t) in
        emit (EvContextInit t (stack_base (info v)) (stack_size (info v))) ;;
        let* v := gets (thr t) in
        ret (DNA_OK, Some (thread_id v))
      else
        (* no_mem *)
        let* it_status := cpu_trap_mask_and_backup in
        lock_acquire LThreadPool ;;
        upd_thr t (with_tid_value 0) ;;
        onq (queue_add (QThreadPool (group i)) (AThread t)) ;;
        pool_error it_status DNA_OUT_OF_MEM
  end.

Definition thread_destroy (id : Z) : K status_t :=
  ensure tid_in_range id orelse DNA_BAD_ARGUMENT in
  let t := tid_slot id in
  let* it_status := cpu_trap_mask_and_backup in
  lock_acquire LThreadPool ;;
  let* v := gets (thr t) in
  let bad_thread st : K status_t :=
    lock_release LThreadPool ;; cpu_trap_restore it_status ;; ret st in
  check thread_id v =? id rescue bad_thread DNA_INVALID_THREAD_ID in
  lock_acquire (LThread t) ;;
  check tst_eqb (t_status (info v)) DNA_THREAD_ENDED
        || tst_eqb (t_status (info v)) DNA_THREAD_SUSPENDED
    rescue (lock_release (LThread t) ;; bad_thread DNA_ERROR) in
  upd_thr t (with_tid_value 0) ;;
  lock_release (LThread t) ;;
  lock_release LThreadPool ;;
  cpu_trap_restore it_status ;;
  (if stack_allocated v then kernel_free (stack_base (info v)) ;; ret tt else ret tt) ;;
  let* it_status := cpu_trap_mask_and_backup in
  lock_acquire LThreadPool ;;
  onq (queue_add (QThreadPool (raw_tgroup id)) (AThread t)) ;;
  lock_release LThreadPool ;;
  cpu_trap_restore it_status ;;
  ret DNA_OK.

Definition thread_resume (id : Z) : K status_t :=
  ensure tid_in_range id orelse DNA_BAD_ARGUMENT in
  let t := tid_slot id in
  let* it_status := cpu_trap_mask_and_backup in
  lock_acquire LThreadPool ;;
  let* v := gets (thr t) in
  let bad_thread st : K status_t :=
    cpu_trap_restore it_status ;; lock_release LThreadPool ;; ret st in
  check thread_id v =? id rescue bad_thread DNA_INVALID_THREAD_ID in
  lock_acquire (LThread t) ;;
  lock_release LThreadPool ;;
  check tst_eqb (t_status (info v)) DNA_THREAD_SUSPENDED
    rescue (lock_release (LThread t) ;; bad_thread DNA_ERROR) in
  upd_info t (with_t_status DNA_THREAD_READY) ;;
  let* status := scheduler_dispatch t in
  cpu_trap_restore it_status ;;
  ret (if st_eqb status DNA_INVOKE_SCHEDULER then DNA_NO_ERROR else DNA_OK).

(** One iteration of the stabilization loop of thread_suspend: [inl false] ends
    the loop, [inl true] restarts it. *)
Definition suspend_once (id : Z) (it_status : Z) : K (bool + switched status_t Z) :=
  let t := tid_slot id in
  let* current_cpuid := cpu_mp_id in
  lock_acquire LThreadPool ;;
  let* v := gets (thr t) in
  let bad_thread st : K (bool + switched status_t Z) :=
    lock_release LThreadPool ;; cpu_trap_restore it_status ;; ret (inr (Returned st)) in
  let thread_error st := lock_release (LThread t) ;; bad_thread st in
  check thread_id v =? id rescue bad_thread DNA_INVALID_THREAD_ID in
  lock_acquire (LThread t) ;;
  lock_release LThreadPool ;;
  (* the thread is taken out of [queue] if the lock of the queue is free *)
  let extract_from queue : K (bool + switched status_t Z) :=
    let* result := lock_try (LQueue queue) true in
    (if negb (st_eqb result DNA_ERROR) then
       onq (queue_extract queue (Some (AThread t))) ;;
       lock_release (LQueue queue) ;;
       upd_info t (with_t_status DNA_THREAD_SUSPENDED)
     else ret tt) ;;
    lock_release (LThread t) ;;
    ret (inl (st_eqb result DNA_ERROR)) in
  match t_status (info v) with
  | DNA_THREAD_ENDED | DNA_THREAD_SUSPENDED => thread_error DNA_ERROR
  | DNA_THREAD_RUNNING =>
      if cpu_id (info v) =? current_cpuid then
        upd_info t (with_t_status DNA_THREAD_SUSPENDED) ;;
        let* st := scheduler_elect true in
        check negb (st_eqb st.1 DNA_BAD_ARGUMENT) rescue thread_error st.1 in
        let* sw := scheduler_switch st.2 None in
        match sw with
        | Returned status => if st_eqb status DNA_OK then ret (inl false) else thread_error status
        | Switched _ => ret (inr (Switched it_status))
        end
      else
        let next_cpuid := cpu_id (info v) in
        lock_release (LThread t) ;;
        lock_acquire (LIpi next_cpuid) ;;
        let* v := gets (thr t) in
        cpu_mp_send_ipi next_cpuid (DNA_IPI_SUSPEND (thread_id v)) ;;
        ret (inl false)
  | DNA_THREAD_READY => extract_from (QReady (affinity (info v)))
  | DNA_THREAD_SLEEPING =>
      upd_info t (with_t_status DNA_THREAD_SUSPENDED) ;;
      lock_release (LThread t) ;;
      ret (inl false)
  | DNA_THREAD_WAITING =>
      match resource_queue v with
      | None => thread_error DNA_ERROR
      | Some queue => extract_from queue
      end
  | DNA_THREAD_NONE => ret (inl true)
  end.

Fixpoint suspend_loop (fuel : nat) (id it_status : Z) : K (switched status_t Z) :=
  match fuel with
  | O => diverge
  | S fuel =>
      let* r := suspend_once id it_status in
      match r with
      | inl true => suspend_loop fuel id it_status
      | inl false => cpu_trap_restore it_status ;; ret (Returned DNA_OK)
      | inr r => ret r
      end
  end.

(** The number of attempts at taking the lock of the queue is a parameter: the
    loop polls a lock held by another processor. *)
Definition thread_suspend (attempts : nat) (id : Z) : K (switched status_t Z) :=
  ensure tid_in_range id orelse Returned DNA_BAD_ARGUMENT in
  let* it_status := cpu_trap_mask_and_backup in
  suspend_loop attempts id it_status.

Definition thread_suspend_resume (it_status : Z) : K status_t :=
  let* status := switch_end in
  cpu_trap_restore it_status ;;
  ret DNA_OK.

Definition thread_yield : K (switched status_t Z) :=
  let* it_status := cpu_trap_mask_and_backup in
  let* c := cpu_mp_id in
  let* cv := gets (cpu c) in
  let* st := scheduler_elect false in
  ensure negb (st_eqb st.1 DNA_ERROR) && negb (st_eqb st.1 DNA_BAD_ARGUMENT)
    orelse Returned st.1 in
  if negb (st_eqb st.1 DNA_NO_AVAILABLE_THREAD) then
    let* self := deref (current_thread cv) in
    lock_acquire (LThread self) ;;
    upd_info self (with_t_status DNA_THREAD_READY) ;;
    let* v := gets (thr self) in
    let queue := QReady (affinity (info v)) in
    lock_acquire (LQueue queue) ;;
    onq (queue_add queue (AThread self)) ;;
    let* sw := scheduler_switch st.2 (Some queue) in
    match sw with
    | Returned status => ret (Returned status)
    | Switched _ => ret (Switched it_status)
    end
  else
    cpu_trap_restore it_status ;;
    ret (Returned st.1).

Definition thread_yield_resume (it_status : Z) : K status_t :=
  let* status := switch_end in
  cpu_trap_restore it_status ;;
  ret status.

(** The end of thread_wait: [*value] is written when [value_ok]. *)
Definition wait_end (t : tref) (value_ok : bool) (it_status : Z) (status : status_t)
    : K (status_t * option Z) :=
  let* v := gets (thr t) in
  lock_release (LThread t) ;;
  cpu_trap_restore it_status ;;
  ret (status, if value_ok then Some (return_value v) else None).

Definition thread_wait (id : Z) (value_ok : bool)
    : K (switched (status_t * option Z) (Z * Z * bool)) :=
  ensure tid_in_range id orelse Returned (DNA_BAD_ARGUMENT, None) in
  let t := tid_slot id in
  let* it_status := cpu_trap_mask_and_backup in
  let* c := cpu_mp_id in
  let* cv := gets (cpu c) in
  lock_acquire LThreadPool ;;
  let* v := gets (thr t) in
  check thread_id v =? id
    rescue (lock_release LThreadPool ;; cpu_trap_restore it_status ;;
            ret (Returned (DNA_INVALID_THREAD_ID, None))) in
  lock_acquire (LThread t) ;;
  lock_release LThreadPool ;;
  if negb (tst_eqb (t_status (info v)) DNA_THREAD_ENDED) then
    lock_acquire (LQueue (QThreadWait t)) ;;
    lock_release (LThread t) ;;
    let* self := deref (current_thread cv) in
    lock_acquire (LThread self) ;;
    upd_thr self (with_resource_queue (Some (QThreadWait t))) ;;
    upd_info self (with_t_status DNA_THREAD_WAITING) ;;
    upd_info self (with_resource DNA_RESOURCE_THREAD) ;;
    upd_info self (with_resource_id id) ;;
    let* st := scheduler_elect true in
    ensure negb (st_eqb st.1 DNA_ERROR) && negb (st_eqb st.1 DNA_BAD_ARGUMENT)
      orelse Returned (st.1, None) in
    onq (queue_add (QThreadWait t) (AThread self)) ;;
    let* sw := scheduler_switch st.2 (Some (QThreadWait t)) in
    match sw with
    | Returned status => ret (Returned (status, None))
    | Switched _ => ret (Switched (id, it_status, value_ok))
    end
  else
    let* r := wait_end t value_ok it_status DNA_OK in
    ret (Returned r).

Definition thread_wait_resume (frame : Z * Z * bool) : K (status_t * option Z) :=
  let '(id, it_status, value_ok) := frame in
  let t := tid_slot id in
  let* status := switch_end in
  lock_acquire LThreadPool ;;
  let* v := gets (thr t) in
  check thread_id v =? id
    rescue (lock_release LThreadPool ;; cpu_trap_restore it_status ;;
            ret (DNA_THREAD_DESTROYED, None)) in
  lock_acquire (LThread t) ;;
  lock_release LThreadPool ;;
  check tst_eqb (t_status (info v)) DNA_THREAD_ENDED
    rescue (lock_release (LThread t) ;; cpu_trap_restore it_status ;;
            ret (DNA_INTERRUPTED, None)) in
  wait_end t value_ok it_status status.

Definition thread_snooze (value : Z) : K (switched status_t (Z * Z)) :=
  let* it_status := cpu_trap_mask_and_backup in
  let* c := cpu_mp_id in
  let* cv := gets (cpu c) in
  let* ar := alarm_create value DNA_ONE_SHOT_RELATIVE_ALARM CB_thread_alarm (current_thread cv) in
  match ar with
  | (DNA_OK, Some aid) =>
      let* st := scheduler_elect true in
      ensure negb (st_eqb st.1 DNA_ERROR) && negb (st_eqb st.1 DNA_BAD_ARGUMENT)
        orelse Returned st.1 in
      let* self := deref (current_thread cv) in
      lock_acquire (LThread self) ;;
      upd_info self (with_t_status DNA_THREAD_SLEEPING) ;;
      let* sw := scheduler_switch st.2 None in
      match sw with
      | Returned status => ret (Returned status)
      | Switched _ => ret (Switched (aid, it_status))
      end
  | (status, _) =>
      cpu_trap_restore it_status ;;
      ret (Returned status)
  end.

Definition thread_snooze_resume (frame : Z * Z) : K status_t :=
  let '(aid, it_status) := frame in
  switch_end ;;
  let* status := alarm_destroy aid in
  ensure negb (st_eqb status DNA_NO_TIMER) && negb (st_eqb status DNA_BAD_ARGUMENT)
    orelse status in
  cpu_trap_restore it_status ;;
  ret (if st_eqb status DNA_OK then DNA_INTERRUPTED else DNA_OK).

(** The loop of thread_exit over the threads that wait for [self].  Each
    iteration takes an item out of the queue. *)
Fixpoint exit_loop (fuel : nat) (self : tref) : K unit :=
  match fuel with
  | O => diverge
  | S fuel =>
      let* a := onq (queue_rem (QThreadWait self)) in
      let* p := as_thread a in
      match p with
      | None => ret tt
      | Some p =>
          lock_acquire (LThread p) ;;
          upd_thr p (with_resource_queue None) ;;
          upd_info p (with_t_status DNA_THREAD_READY) ;;
          upd_info p (with_resource DNA_NO_RESOURCE) ;;
          upd_info p (with_resource_id (-1)) ;;
          scheduler_dispatch p ;;
          exit_loop fuel self
      end
  end.

Definition queue_bound (q : qid) (s : kstate) : nat := S (Z.to_nat (status (getq q (kq s)))).

Definition thread_exit (value : Z) : K (switched unit unit) :=
  let* it_status := cpu_trap_mask_and_backup in
  let* c := cpu_mp_id in
  let* cv := gets (cpu c) in
  let* self := deref (current_thread cv) in
  lock_acquire (LThread self) ;;
  upd_thr self (with_return_value value) ;;
  upd_info self (with_t_status DNA_THREAD_ENDED) ;;
  lock_acquire (LQueue (QThreadWait self)) ;;
  lock_release (LThread self) ;;
  let* fuel := gets (queue_bound (QThreadWait self)) in
  exit_loop fuel self ;;
  lock_release (LQueue (QThreadWait self)) ;;
  let* st := scheduler_elect true in
  let* sw := scheduler_switch st.2 None in
  match sw with
  | Returned _ => ret (Returned tt)
  | Switched _ => ret (Switched tt)
  end.

(** The loop of thread_find from [index] on: the identifier of the first thread
    in use with that name. *)
Fixpoint find_loop (n : nat) (g index : Z) (name : list Z) (s : kstate) : option Z :=
  match n with
  | O => None
  | S n =>
      let v := thr (g, index) s in
      if negb (tid_value v =? 0) && bool_decide (name = t_name (info v))
      then Some (thread_id v)
      else find_loop n g (index + 1) name s
  end.

Definition thread_find (name : option (list Z)) (tid_ok : bool) : K (status_t * option Z) :=
  ensure tid_ok orelse (DNA_BAD_ARGUMENT, None) in
  let* it_status := cpu_trap_mask_and_backup in
  let* c := cpu_mp_id in
  let* cv := gets (cpu c) in
  match name with
  | None =>
      let* self := deref (current_thread cv) in
      let* v := gets (thr self) in
      cpu_trap_restore it_status ;;
      ret (DNA_OK, Some (thread_id v))
  | Some name =>
      lock_acquire LThreadPool ;;
      let* self := deref (current_thread cv) in
      let* v := gets (thr self) in
      let* r := gets (find_loop (Z.to_nat DNA_MAX_THREAD) (tid_group v) 0 name) in
      lock_release LThreadPool ;;
      cpu_trap_restore it_status ;;
      match r with
      | None => ret (DNA_UNKNOWN_THREAD, None)
      | Some id => ret (DNA_OK, Some id)
      end
  end.

Definition thread_get_info (id : Z) (info_ok : bool) : K (status_t * option thread_info_t) :=
  ensure tid_in_range id orelse (DNA_BAD_ARGUMENT, None) in
  ensure info_ok orelse (DNA_BAD_ARGUMENT, None) in
  let t := tid_slot id in
  let* it_status := cpu_trap_mask_and_backup in
  lock_acquire LThreadPool ;;
  let* v := gets (thr t) in
  check thread_id v =? id
    rescue (cpu_trap_restore it_status ;; lock_release LThreadPool ;;
            ret (DNA_INVALID_THREAD_ID, None)) in
  lock_acquire (LThread t) ;;
  lock_release LThreadPool ;;
  let i := info v in
  let i := if affinity (info v) =? cpu_mp_count then with_affinity (i32 DNA_NO_AFFINITY) i else i in
  let* i :=
    (if tst_eqb (t_status (info v)) DNA_THREAD_RUNNING then
       let* current_time := cpu_timer_get (cpu_id (info v)) in
       let* cv := gets (cpu (cpu_id (info v))) in
       let delta := i64 (current_time - lap_date cv) in
       ret (with_kernel_time (i64 (kernel_time i + delta)) i)
     else ret i) in
  lock_release (LThread t) ;;
  cpu_trap_restore it_status ;;
  ret (DNA_OK, Some i).

Definition thread_alarm (data : option tref) : K status_t :=
  match data with
  | None => ret DNA_BAD_ARGUMENT
  | Some t =>
      lock_acquire (LThread t) ;;
      let* v := gets (thr t) in
      match t_status (info v) with
      | DNA_THREAD_SUSPENDED => lock_release (LThread t) ;; ret DNA_OK
      | DNA_THREAD_SLEEPING =>
          upd_info t (with_t_status DNA_THREAD_READY) ;;
          scheduler_dispatch t
      | _ => lock_release (LThread t) ;; ret DNA_ERROR
      end
  end.

(** The code of the handler of a thread is given by the application. *)
Definition thread_bootstrap (run : Z -> Z -> K Z) (t : tref) : K (switched unit unit) :=
  let* current_cpuid := cpu_mp_id in
  let* cv := gets (cpu current_cpuid) in
  match prev_thread cv with Some p => lock_release (LThread p) | None => ret tt end ;;
  let* cur := deref (current_thread cv) in
  lock_release (LThread cur) ;;
  let* v := gets (thr t) in
  cpu_trap_restore (it_restore v) ;;
  let* value := run (handler v) (arguments v) in
  thread_exit value.

(** ** The loops that empty a queue *)

Lemma queue_bound_enough U s V q : qwf U (kq s) V -> queue_bound q s = S (length (V q)).
Proof. intros Hwf. unfold queue_bound. rewrite (qwf_status _ _ _ _ Hwf). by rewrite Nat2Z.id. Qed.

(** *** thread_exit *)

Definition joined_thread (v : thread_t) : thread_t :=
  with_info (with_resource_id (-1) (with_resource DNA_NO_RESOURCE
    (with_t_status DNA_THREAD_READY (info v)))) (with_resource_queue None v).

Lemma exit_loop_wp U self ts : forall fuel s V,
  (length ts < fuel)%nat -> sched_ok U (kq s) (locks s) (cpus s) V ->
  V (QThreadWait self) = map AThread ts ->
  (forall t, t ∈ ts -> locks s !! LThread t = None) ->
  wp (exit_loop fuel self) (fun _ s' => exists V' L' E' q' b,
    wake_all (mp_id s) (affinity_in (threads s)) (QThreadWait self) ts V (locks s) (events s) b V' L' E' /\
    s' = set_kq q' (set_locks L' (set_events E' (set_threads (at_threads joined_thread ts (threads s)) s))) /\
    qwf U q' V') s.
Proof.
  induction ts as [|t ts IH]; intros fuel s V Hf Hok HV Hl;
    (destruct fuel as [|fuel]; [cbn in *; lia|]); cbn [exit_loop];
    pose proof (so_wf _ _ _ _ _ Hok) as Hwf; cbn [map] in HV.
  - apply wp_bind, (wp_queue_rem_nil U V); [done..|]. apply wp_ret.
    exists V, (locks s), (events s), (kq s), false. split_and!; [constructor|by destruct s|done].
  - assert (locks s !! LThread t = None) as Hlt by (apply Hl; set_solver).
    pose proof (wf_nodup _ _ _ Hwf (QThreadWait self)) as Hnd. rewrite HV in Hnd.
    apply NoDup_cons in Hnd as [Htn Hnd].
    kdestruct s. krun. eapply (wp_queue_rem_cons U V); [done..|]. intros q1 Hq1. krun.
    rewrite !lookup_insert_eq, !insert_insert_eq. kdefault.
    eapply (wp_wake_one U (mkK q0 L0 T0 nt0 S0 ns0 A0 na0 P0 np0 M0 C0 I0 H0 ir0 me0 tk0 E0) V
      (QThreadWait self) t _ joined_thread); [done..| |done]. kred.
    intros st V1 L1 E1 q2 Hd1 Hok1.
    eapply wp_mono; [eapply (IH fuel _ V1); [cbn in *; lia|exact Hok1| |]|]; kred.
    + erewrite dispatched_view by done. by rewrite vupd_eq.
    + intros t' Ht'. assert (t' <> t) as Hne.
      { intros ->. apply Htn. apply list_elem_of_fmap. eauto. }
      erewrite dispatched_lock; [|done|congruence|done]. rewrite lookup_insert_ne by congruence.
      apply Hl. set_solver.
    + intros r0 s0 (V' & L' & E' & q' & b & Hw & -> & Hq').
      exists V', L', E', q', (st_eqb st DNA_INVOKE_SCHEDULER || b).
      split_and!; [|done|done].
      eapply wake_cons; [done|exact Hd1|]. eapply wake_all_ext; [|exact Hw].
      intros t'. by apply (affinity_at_thread T0 t joined_thread).
Qed.

(** Emptying a queue of sleepers keeps what the running thread relies on. *)
Lemma running_ok_wake U s s' V V' self idle q ts aff b E E' L L' :
  qwf U (kq s) V -> running_ok U s V self idle ->
  wake_all (mp_id s) aff q ts V L E b V' L' E' ->
  q <> QCpus -> (forall a, q <> QReady a) -> V q = map AThread ts ->
  (forall l, l <> LQueue q -> L !! l = locks s !! l) ->
  (forall l, l <> LQueue q -> locks s' !! l = L' !! l) ->
  cpus s' = cpus s -> mp_id s' = mp_id s -> running_ok U s' V' self idle.
Proof.
  intros Hwf Hr Hw Hq Hq' HV HL HL' Hc Hm.
  destruct Hr as [Hcur Hidle Hne (HsU & Hsu & Hsl) (Hiu & Hil) (HcU & Hcu) (Hid & Hipi) Hrd].
  assert (NoDup ts) as Hnd.
  { pose proof (wf_nodup _ _ _ Hwf q) as Hnd. rewrite HV in Hnd. by apply NoDup_fmap_1 in Hnd. }
  assert (forall t, t ∈ ts -> AThread t ∈ V q) as Hts.
  { intros t Ht. rewrite HV. apply list_elem_of_fmap. eauto. }
  destruct (wake_all_ready _ _ _ _ _ _ _ _ _ _ _ Hw) as [Hrd' Hsub]; [done|done| | |].
  { intros t a Ht Hin. apply (Hq' a). by apply (wf_disj _ _ _ Hwf _ _ (AThread t)); [apply Hts|]. }
  { intros a x (t & -> & Ht)%Hrd. exists t. split; [done|]. by rewrite HL. }
  assert (forall t, unqueued V (AThread t) -> t ∉ ts) as Hnt by (intros t Hu Ht; by apply (Hu q), Hts).
  assert (forall x, unqueued V x -> unqueued V' x) as Hu'.
  { intros x Hu q1 Hx. destruct (wake_all_sub _ _ _ _ _ _ _ _ _ _ _ Hw q1 x Hx) as [Hin|(t & -> & Ht)].
    - by apply (Hu q1).
    - by apply (Hnt t). }
  assert (forall t, unqueued V (AThread t) -> locks s' !! LThread t = locks s !! LThread t) as HLt.
  { intros t Hu. rewrite HL' by done. rewrite (wake_all_lock _ _ _ _ _ _ _ _ _ _ _ (LThread t) Hw); [by apply HL| |done].
    intros t' Ht' [= <-]. by apply (Hnt t). }
  split; unfold cpu; rewrite ?Hc, ?Hm; try done.
  - split_and!; [done|by apply Hu'|]. by rewrite HLt.
  - split; [by apply Hu'|]. by rewrite HLt.
  - split; [done|by apply Hu'].
  - split; [done|]. rewrite HL' by done. rewrite (wake_all_ipi _ _ _ _ _ _ _ _ _ _ _ _ Hw Hq); [by rewrite HL|apply Hcu].
  - intros a x (t & -> & Ht)%Hrd'. exists t. split; [done|]. by rewrite HL'.
Qed.

(** A thread that waited for the end of [self] is ready after the switch to another one. *)
Lemma woken_found U q0 V ts T0 self ev L E b V1 L1 E1 idle me delta V2 next X t :
  qwf U q0 V -> V (QThreadWait self) = map AThread ts -> self ∉ ts ->
  wake_all me (affinity_in (<[self := ev]> T0)) (QThreadWait self) ts V L E b V1 L1 E1 ->
  elected me idle V1 true (DNA_OK, Some next) V2 -> t ∈ ts -> t <> next ->
  switch_threads me delta self next (at_threads joined_thread ts (<[self := ev]> T0)) !! t =
    Some (joined_thread (default thread0 (T0 !! t))) /\
  (AThread t ∈ vupd V2 QCpus X (QReady (affinity (info (default thread0 (T0 !! t))))) \/
   exists c, EvIpi c (DNA_IPI_DISPATCH t) ∈ E1).
Proof.
  intros Hwf HV Hst Hw Hel Ht Htn. assert (t <> self) as Hts by (by intros ->). split.
  - rewrite switch_threads_other by done. rewrite at_threads_in, lookup_insert_ne; try done.
    pose proof (wf_nodup _ _ _ Hwf (QThreadWait self)) as Hnd. rewrite HV in Hnd. by apply NoDup_fmap_1 in Hnd.
  - destruct (wake_all_present _ _ _ _ _ _ _ _ _ _ _ Hw) with (t := t) as [Hp|(c & Hc)]; [done|done| |eauto].
    left. unfold affinity_in in Hp. rewrite lookup_insert_ne in Hp by done.
    rewrite vupd_ne by done. by destruct (elected_keeps _ _ _ _ _ _ _ _ _ Hel Hp).
Qed.

(** C6: thread_exit ends the caller, records its result, and makes ready every thread that
    waits for it, in the order of the queue (each goes to its ready queue, or is sent to an
    available processor).  Then it leaves the processor to the thread elected in the queues as
    these wake-ups left them: the first of the local ready queue, else the first of the global
    one, else the idle thread.  A woken thread is therefore ready, or it is the one that runs. *)
Theorem thread_exit_spec U s V self idle ts value :
  qwf U (kq s) V -> avail_ok (locks s) (cpus s) V -> running_ok U s V self idle ->
  V (QThreadWait self) = map AThread ts ->
  (forall t, t ∈ ts -> locks s !! LThread t = None) ->
  locks s !! LQueue (QThreadWait self) = None ->
  wp (let* r := thread_exit value in
      match r with Switched _ => switch_end | Returned _ => fault end)
    (fun st s3 => exists next V1 V2 V3 L1 L2 E2 b,
      wake_all (mp_id s) (affinity_in (threads s)) (QThreadWait self) ts V L1 (events s) b V1 L2 E2 /\
      elected (mp_id s) (Some idle) V1 true (DNA_OK, Some next) V2 /\
      st = DNA_OK /\ qwf U (kq s3) V3 /\ (forall q, q <> QCpus -> V3 q = V2 q) /\
      V3 (QThreadWait self) = [] /\
      next <> self /\ current_thread (cpu (mp_id s) s3) = Some next /\
      t_status (info (thr next s3)) = DNA_THREAD_RUNNING /\
      t_status (info (thr self s3)) = DNA_THREAD_ENDED /\
      return_value (thr self s3) = value /\
      forall t, t ∈ ts ->
        t = next \/
        threads s3 !! t = Some (joined_thread (thr t s)) /\
        (AThread t ∈ V3 (QReady (affinity (info (thr t s)))) \/
         exists c, EvIpi c (DNA_IPI_DISPATCH t) ∈ events s3)) s.
Proof.
  intros Hwf Ha Hr HV Hlt Hlq. unfold thread_exit.
  pose proof (ru_current _ _ _ _ _ Hr) as Hcur.
  pose proof (ru_self _ _ _ _ _ Hr) as (HsU & Hsu & Hsl).
  assert (self ∉ ts) as Hst.
  { intros Hin. apply (Hsu (QThreadWait self)). rewrite HV. apply list_elem_of_fmap. eauto. }
  kdestruct s. krun. rewrite Hcur. krun. rewrite !lookup_insert_eq, !insert_insert_eq. kdefault.
  match goal with |- context [<[self := ?x]> T0] => set (ev := x) end.
  assert (t_status (info ev) = DNA_THREAD_ENDED /\ return_value ev = value) as [He1 He2] by done.
  assert (affinity (info ev) = affinity (info (default thread0 (T0 !! self)))) as He3 by done.
  clearbody ev. klocks. erewrite queue_bound_enough by done. rewrite HV, length_map.
  assert (avail_ok (<[LQueue (QThreadWait self) := 1]> L0) C0 V) as Ha1.
  { eapply avail_ok_locks; [|exact Ha]. intros l Hl. apply lookup_insert_ne. intros <-. naive_solver. }
  eapply wp_mono; [eapply (exit_loop_wp U self ts _ _ V); [lia| |exact HV|]; kred|cbn beta; kred].
  { apply sched_ok_avail. by split. }
  { intros t Ht. rewrite lookup_insert_ne by done. by apply Hlt. }
  intros _ s1 (V1 & L1 & E1 & q1 & b & Hw & -> & Hq1). krun.
  set (T1 := at_threads joined_thread ts (<[self := ev]> T0)).
  match goal with |- wp _ _ ?st => set (s1 := st) end.
  assert (running_ok U s1 V1 self idle) as Hr1.
  { refine (running_ok_wake U _ s1 V V1 self idle _ _ _ _ _ _ _ _ _ Hr Hw _ _ HV _ _ _ _); try done.
    - intros l Hl. by apply lookup_insert_ne.
    - intros l Hl. by apply lookup_delete_ne. }
  apply wp_unbind. eapply (wp_leave U s1 V1 self idle); [exact Hq1| |exact Hr1|].
  { eapply (avail_ok_locks L1).
    - intros l Hl. apply lookup_delete_ne. intros <-. naive_solver.
    - by eapply wake_all_avail. }
  intros next V2 q2 Hel Hne Hnl Hq2. subst s1. krun. unfold switch_end, switch_state. krun.
  rewrite lookup_insert_eq. cbn [from_option Datatypes.id switch_cpu prev_thread current_thread]. krun.
  assert (self <> next) as Hne' by congruence.
  assert (T1 !! self = Some ev) as HT1.
  { unfold T1. rewrite at_threads_other by done. apply lookup_insert_eq. }
  exists next, V1, V2. eexists. do 4 eexists. rewrite lookup_insert_eq, switch_threads_self, HT1 by done.
  split. { eapply wake_all_ext; [|exact Hw]. intros t. unfold affinity_in.
    destruct (decide (t = self)) as [->|Hts]; [by rewrite lookup_insert_eq|by rewrite lookup_insert_ne]. }
  split; [exact Hel|].
  split_and!; [done|exact Hq2| | |done|done|apply switch_threads_next|exact He1|exact He2|].
  - intros q Hq. by rewrite vupd_ne.
  - rewrite vupd_ne, (elected_view _ _ _ _ _ _ _ Hel) by done.
    pose proof (wake_all_queue _ _ _ _ _ _ _ _ _ _ _ Hw) as HVq. rewrite HV in HVq.
    eapply (app_inv_head (map AThread ts)). rewrite app_nil_r. symmetry. by apply HVq.
  - intros t Ht. destruct (decide (t = next)) as [->|Htn]; [by left|right].
    edestruct woken_found as [HT HX]; [exact Hwf|exact HV|exact Hst|exact Hw|exact Hel|exact Ht|exact Htn|].
    split; [exact HT|]. destruct HX as [Hq|(c & Hc)]; [left; exact Hq|right]. exists c. set_solver.
Qed.

(** *** thread_alarm, the callback of the alarms of thread_sleep *)

(** A sleeping thread is made ready and dispatched. *)
Lemma thread_alarm_wp U s V t :
  sched_ok U (kq s) (locks s) (cpus s) V -> unqueued V (AThread t) -> AThread t ∈ U ->
  locks s !! LThread t = None -> t_status (info (thr t s)) = DNA_THREAD_SLEEPING ->
  wp (thread_alarm (Some t)) (fun st s' => exists V' L' E' q',
    s' = set_kq q' (set_locks L' (set_events E'
           (set_threads (<[t := with_info (with_t_status DNA_THREAD_READY (info (thr t s))) (thr t s)]>
              (threads s)) s))) /\
    qwf U q' V' /\
    dispatched (mp_id s) t (affinity (info (thr t s))) V (<[LThread t := 1]> (locks s)) (events s)
      st V' L' E') s.
Proof.
  intros [Hwf Ha]%sched_ok_avail Hu HU Hl Hst. unfold thread_alarm. kdestruct s. krun. rewrite Hst. krun.
  eapply wp_mono; [eapply (scheduler_dispatch_wp U _ V); [|done|done]|]; kred.
  { apply sched_ok_avail. split; [done|]. eapply avail_ok_locks; [|exact Ha].
    intros l Hl'. apply lookup_insert_ne. intros <-. naive_solver. }
  cbn beta. intros st s' (V' & L' & E' & q' & -> & Hq & Hd). kred.
  exists V', L', E', q'. split_and!; [done|done|]. rewrite lookup_insert_eq in Hd. exact Hd.
Qed.

(** *** thread_resume and thread_suspend *)

(** [id] names the thread in its slot, and the locks to reach it are free. *)
Record names_thread (s : kstate) (id : Z) : Prop := {
  nt_range : tid_in_range id = true;
  nt_id : thread_id (thr (tid_slot id) s) = id;
  nt_pool : locks s !! LThreadPool = None;
  nt_lock : locks s !! LThread (tid_slot id) = None
}.

(** thread_resume makes a suspended thread ready and dispatches it; the caller is told
    with DNA_NO_ERROR when its own processor should elect it. *)
Theorem thread_resume_spec U s V id :
  let t := tid_slot id in
  names_thread s id -> sched_ok U (kq s) (locks s) (cpus s) V ->
  t_status (info (thr t s)) = DNA_THREAD_SUSPENDED -> unqueued V (AThread t) -> AThread t ∈ U ->
  wp (thread_resume id) (fun st s' => exists st0 V' L' E' q',
    st = (if st_eqb st0 DNA_INVOKE_SCHEDULER then DNA_NO_ERROR else DNA_OK) /\
    dispatched (mp_id s) t (affinity (info (thr t s))) V (<[LThread t := 1]> (locks s)) (events s)
      st0 V' L' E' /\ qwf U q' V' /\
    s' = set_kq q' (set_locks L' (set_events E' (set_threads (at_thread (threads s) t
           (fun v => with_info (with_t_status DNA_THREAD_READY (info v)) v)) s)))) s.
Proof.
  cbn zeta. intros [Hr Hid Hp Hl] Hok Hst Hu HU. unfold thread_resume. rewrite Hr.
  set (t := tid_slot id) in *. apply sched_ok_avail in Hok as [Hwf Ha].
  kdestruct s. krun. rewrite Hid, Z.eqb_refl. krun. rewrite Hst. krun. klocks.
  eapply wp_mono; [eapply (scheduler_dispatch_wp U _ V); [|done|done]; kred|cbn beta; kred].
  { apply sched_ok_avail. split; [done|]. eapply avail_ok_locks; [|exact Ha].
    intros l Hl'. apply lookup_insert_ne. intros <-. naive_solver. }
  intros st s1 (V' & L' & E' & q' & -> & Hq' & Hd). krun.
  rewrite lookup_insert_eq in Hd. exists st, V', L', E', q'. by split_and!.
Qed.

(** thread_suspend takes a ready thread out of its ready queue, marks it suspended,
    and changes nothing else. *)
Theorem thread_suspend_ready_spec U s V id l1 l2 attempts :
  let t := tid_slot id in
  let aff := affinity (info (thr t s)) in
  names_thread s id -> qwf U (kq s) V -> locks s !! LQueue (QReady aff) = None ->
  t_status (info (thr t s)) = DNA_THREAD_READY -> V (QReady aff) = l1 ++ AThread t :: l2 ->
  wp (thread_suspend (S attempts) id) (fun r s' => exists q',
    r = Returned DNA_OK /\ qwf U q' (vupd V (QReady aff) (l1 ++ l2)) /\
    s' = set_kq q' (set_threads (at_thread (threads s) t
           (fun v => with_info (with_t_status DNA_THREAD_SUSPENDED (info v)) v)) s)) s.
Proof.
  cbn zeta. intros [Hr Hid Hp Hl] Hwf Hlq Hst HV. unfold thread_suspend. rewrite Hr.
  cbn [suspend_loop]. unfold suspend_once, lock_try, lockval, cpu_test_and_set.
  set (t := tid_slot id) in *. kdestruct s. krun. rewrite Hid, Z.eqb_refl. krun. rewrite Hst. krun.
  klocks. rewrite lookup_insert_ne, Hlq by done. cbn [from_option Datatypes.id Z.eqb].
  krun. unfold put_lock, store_lock. cbn [Z.eqb]. krun.
  eapply (wp_queue_extract U V); [done..|]. intros q1 Hq1. krun. klocks. by exists q1.
Qed.

(** *** thread_yield *)

(** Thread_yield returns at once, and changes nothing, when no other thread is ready. *)
Theorem thread_yield_alone U s V :
  qwf U (kq s) V -> avail_ok (locks s) (cpus s) V ->
  V (QReady (mp_id s)) = [] -> V (QReady cpu_mp_count) = [] ->
  thread_yield s = Ret (Returned DNA_NO_AVAILABLE_THREAD) s.
Proof.
  intros Hwf Ha H1 H2. pose proof (ao_ready_locks _ _ _ Ha) as Hlr.
  apply wp_run. unfold thread_yield, scheduler_elect. kdestruct s. krun.
  eapply (wp_queue_rem_nil U V); [done..|]. krun. klocks. krun.
  eapply (wp_queue_rem_nil U V); [done..|]. krun. klocks. krun. done.
Qed.

(** thread_yield runs the first ready thread (of the processor's own queue, or else of
    the shared one) and puts the caller at the end of the ready queue of its affinity; every lock
    is free again once the other thread has ended its switch. *)
Theorem thread_yield_spec U s V self idle t :
  qwf U (kq s) V -> avail_ok (locks s) (cpus s) V -> running_ok U s V self idle ->
  (exists l, V (QReady (mp_id s)) = AThread t :: l) \/
  (V (QReady (mp_id s)) = [] /\ exists l, V (QReady cpu_mp_count) = AThread t :: l) ->
  let aff := affinity (info (thr self s)) in
  wp (let* r := thread_yield in
      match r with Switched _ => switch_end | Returned _ => fault end)
    (fun st s3 => exists V1 V3,
      st = DNA_OK /\ elected (mp_id s) (Some idle) V false (DNA_OK, Some t) V1 /\
      qwf U (kq s3) V3 /\
      (forall q, V3 q = vupd V1 (QReady aff) (V1 (QReady aff) ++ [AThread self]) q) /\
      current_thread (cpu (mp_id s) s3) = Some t /\
      t_status (info (thr t s3)) = DNA_THREAD_RUNNING /\
      t_status (info (thr self s3)) = DNA_THREAD_READY /\ locks s3 = locks s) s.
Proof.
  intros Hwf Ha Hr Hfirst aff.
  pose proof (ao_ready_locks _ _ _ Ha) as Hlr. pose proof (ao_cpus_lock _ _ _ Ha) as Hlc.
  pose proof (ru_current _ _ _ _ _ Hr) as Hcur. pose proof (ru_idle _ _ _ _ _ Hr) as Hidle.
  pose proof (ru_self _ _ _ _ _ Hr) as (HsU & Hsu & Hsl).
  assert (ready_ok s V) as Hready.
  { split; [done|apply (ru_ready _ _ _ _ _ Hr)|].
    intros t'. rewrite Hidle. intros [= <-]. apply (ru_idle_free _ _ _ _ _ Hr). }
  assert (exists a, AThread t ∈ V (QReady a)) as (a & Hta).
  { destruct Hfirst as [(l & HV)|(_ & l & HV)]; eexists; rewrite HV; set_solver. }
  assert (t <> self) as Hts by (intros ->; by apply (Hsu (QReady a))).
  assert (t <> idle) as Hti by (intros ->; by apply (proj1 (ru_idle_free _ _ _ _ _ Hr) (QReady a))).
  destruct (ru_ready _ _ _ _ _ Hr a _ Hta) as (t' & [= <-] & Htl).
  unfold thread_yield. kdestruct s. krun.
  eapply wp_mono; [eapply (scheduler_elect_wp U _ V); [exact Hwf|]; kred|cbn beta; kred].
  { destruct Hready as [? ? ?]. by split. }
  rewrite Hidle. intros r s1 (V1 & q1 & -> & Hq1 & Hel).
  assert (r = (DNA_OK, Some t)) as ->.
  { inversion Hel as [t' l HV|t' l HV0 HV|t' HV0 HV|HV0 HV|HV0 HV]; subst; try done;
      destruct Hfirst as [(l' & HV')|(HV1' & l' & HV')]; congruence. }
  krun. rewrite Hcur. cbn [lock_elected]. krun.
  eapply (wp_queue_add U V1); [exact Hq1|by eapply elected_unqueued|done|]. intros q2 Hq2.
  krun. eapply wp_mono; [eapply (scheduler_switch_wp U _ _ self t); [exact Hq2|..]; kred|cbn beta; kred].
  { by rewrite !lookup_insert_ne. }
  { done. }
  { rewrite Hidle. congruence. }
  intros r s2 (q3 & -> & -> & Hq3). krun. unfold switch_end, switch_state. krun.
  rewrite lookup_insert_eq. cbn [from_option Datatypes.id switch_cpu prev_thread current_thread]. krun.
  assert (self <> t) as Hst by congruence.
  exists V1. eexists. rewrite lookup_insert_eq, switch_threads_next, switch_threads_self by done.
  rewrite lookup_insert_eq. cbn [release_opt]. klocks.
  split_and!; [done|done|exact Hq3| |done|done|done|done].
  intros q. unfold switch_avail, opt_tref_eqb. rewrite Hidle.
  rewrite bool_decide_false by (intros [= ->]; by apply (ru_ne _ _ _ _ _ Hr)).
  rewrite bool_decide_false by congruence. rewrite vupd_same. by rewrite lookup_insert_eq.
Qed.

End Thread.
