(* ===== verification/Semaphore.v ===== *)
(** * Semaphores (semaphore_create.c ... semaphore_release.c)

    A semaphore has a number of tokens and a FIFO queue of threads; each waiting
    thread keeps in [sem_tokens] how many tokens it still needs.
    [semaphore_acquire] is cut at the context switch (Scheduler.v). *)

From S2P Require Import Prelude Status Queue Allocator Kernel Logic Memory Scheduler Alarm Thread.

Definition DNA_NO_RESCHEDULE : Z := 0x1.
Definition DNA_RELATIVE_TIMEOUT : Z := 0x2.
Definition DNA_ABSOLUTE_TIMEOUT : Z := 0x4.
Definition DNA_CAN_INTERRUPT : Z := 0x8.

Definition has_flag (flags f : Z) : bool := negb (Z.land flags f =? 0).

(** dna_memset (semaphore, 0, sizeof (struct _semaphore)) *)
Definition clear_sem (i : Z) : K unit :=
  modify (put_sem i sem0) ;;
  onq (modify (set_next (ASem i) None)) ;;
  onq (modify (putq (QSemWait i) DNA_QUEUE_DEFAULTS)) ;;
  modify (put_lock (LQueue (QSemWait i)) 0) ;;
  modify (put_lock (LSem i) 0).

(** The result is the status and [*id]. *)
Definition semaphore_create (name : option (list Z)) (ntokens : Z) (id_ok : bool)
    : K (status_t * option Z) :=
  match name, id_ok with
  | Some name, true =>
      let* it_status := cpu_trap_mask_and_backup in
      lock_acquire LSemPool ;;
      let* a := onq (queue_rem QSemPool) in
      let* semaphore := as_sem a in
      match semaphore with
      | None =>
          cpu_trap_restore it_status ;;
          lock_release LSemPool ;;
          ret (DNA_NO_MORE_SEM, None)
      | Some i =>
          let* v := gets (sem i) in
          let index := i16 (sid_index v) in
          clear_sem i ;;
          upd_sem i (with_sid_index (u16 index)) ;;
          let* counter := gets sem_counter in
          upd_sem i (with_sid_value (u16 counter)) ;;
          modify (set_sem_counter (i16 (counter + 1))) ;;
          lock_release LSemPool ;;
          cpu_trap_restore it_status ;;
          let* nm := strcpy_name name in
          upd_sem i (with_s_name nm) ;;
          upd_sem i (with_tokens ntokens) ;;
          let* v := gets (sem i) in
          ret (DNA_OK, Some (sem_id v))
      end
  | _, _ => ret (DNA_BAD_ARGUMENT, None)
  end.

Section Semaphore.
Context `{Hal}.

(** The loop of semaphore_destroy over the waiting threads; the result is
    [smart_to_reschedule]. *)
Fixpoint destroy_loop (fuel : nat) (i : Z) (smart : bool) : K bool :=
  match fuel with
  | O => diverge
  | S fuel =>
      let* a := onq (queue_rem (QSemWait i)) in
      let* thread := as_thread a in
      match thread with
      | None => ret smart
      | Some t =>
          lock_acquire (LThread t) ;;
          upd_info t (with_sem_tokens 0) ;;
          upd_info t (with_resource DNA_NO_RESOURCE) ;;
          upd_info t (with_resource_id (-1)) ;;
          let* v := gets (thr t) in
          let* smart :=
            (if tst_eqb (t_status (info v)) DNA_THREAD_WAITING then
               upd_info t (with_t_status DNA_THREAD_READY) ;;
               let* status := scheduler_dispatch t in
               ret (smart || st_eqb status DNA_INVOKE_SCHEDULER)
             else ret smart) in
          lock_release (LThread t) ;;
          destroy_loop fuel i smart
      end
  end.

Definition semaphore_destroy (id : Z) : K status_t :=
  let i := raw_index id in
  ensure i <? DNA_MAX_SEM orelse DNA_BAD_SEM_ID in
  let* it_status := cpu_trap_mask_and_backup in
  lock_acquire LSemPool ;;
  let* v := gets (sem i) in
  check sem_id v =? id
    rescue (lock_release LSemPool ;; cpu_trap_restore it_status ;; ret DNA_BAD_SEM_ID) in
  upd_sem i (with_sid_value 0) ;;
  lock_acquire (LQueue (QSemWait i)) ;;
  lock_release LSemPool ;;
  let* fuel := gets (queue_bound (QSemWait i)) in
  let* smart := destroy_loop fuel i false in
  lock_acquire LSemPool ;;
  lock_release (LQueue (QSemWait i)) ;;
  onq (queue_add QSemPool (ASem i)) ;;
  lock_release LSemPool ;;
  cpu_trap_restore it_status ;;
  ret (if (smart : bool) then DNA_INVOKE_SCHEDULER else DNA_OK).

(** The locals of semaphore_acquire that are used after the switch. *)
Record acquire_frame := mkFrame {
  f_self : tref;
  f_id : Z;
  f_tokens : Z;
  f_rem_tokens : Z;
  f_alarm : option Z;       (* [alarm], when [has_alarm] *)
  f_it_status : Z
}.

(** The end of the watch block: the holder is recorded when [status] is DNA_OK. *)
Definition acquire_end (i : Z) (self : tref) (it_status : Z) (status : status_t) : K status_t :=
  (if st_eqb status DNA_OK then
     let* v := gets (thr self) in
     upd_sem i (with_latest_holder (thread_id v))
   else ret tt) ;;
  lock_release (LSem i) ;;
  cpu_trap_restore it_status ;;
  ret status.

Definition semaphore_acquire (id ntokens flags timeout : Z) : K (switched status_t acquire_frame) :=
  let i := raw_index id in
  ensure 0 <? ntokens orelse Returned DNA_BAD_ARGUMENT in
  ensure i <? DNA_MAX_SEM orelse Returned DNA_BAD_SEM_ID in
  let has_alarm := has_flag flags DNA_RELATIVE_TIMEOUT || has_flag flags DNA_ABSOLUTE_TIMEOUT in
  let alarm_mode := if has_flag flags DNA_RELATIVE_TIMEOUT then DNA_ONE_SHOT_RELATIVE_ALARM
                    else if has_flag flags DNA_ABSOLUTE_TIMEOUT then DNA_ONE_SHOT_ABSOLUTE_ALARM
                    else DNA_ONE_SHOT_RELATIVE_ALARM in
  ensure negb has_alarm || (has_alarm && (0 <=? timeout)) orelse Returned DNA_BAD_ARGUMENT in
  let can_interrupt := has_flag flags DNA_CAN_INTERRUPT in
  let* it_status := cpu_trap_mask_and_backup in
  let* c := cpu_mp_id in
  let* self := gets (fun s => current_thread (cpu c s)) in
  lock_acquire LSemPool ;;
  let* v := gets (sem i) in
  check sem_id v =? id
    rescue (lock_release LSemPool ;; cpu_trap_restore it_status ;; ret (Returned DNA_BAD_SEM_ID)) in
  lock_acquire (LSem i) ;;
  lock_release LSemPool ;;
  let rem_tokens := i32 (tokens v - ntokens) in
  let quick_abort st : K (switched status_t acquire_frame) :=
    lock_release (LSem i) ;; cpu_trap_restore it_status ;; ret (Returned st) in
  if 0 <=? rem_tokens then
    upd_sem i (fun v => with_tokens (i32 (tokens v - ntokens)) v) ;;
    let* self := deref self in
    let* st := acquire_end i self it_status DNA_OK in
    ret (Returned st)
  else
    check negb has_alarm || (has_alarm && negb (timeout =? 0)) rescue quick_abort DNA_WOULD_BLOCK in
    upd_sem i (with_tokens 0) ;;
    let* ar :=
      (if has_alarm then alarm_create timeout alarm_mode CB_semaphore_alarm self
       else ret (DNA_OK, None)) in
    check st_eqb ar.1 DNA_OK rescue quick_abort ar.1 in
    let* self := deref self in
    lock_acquire (LThread self) ;;
    upd_thr self (with_resource_queue
      (if can_interrupt || has_alarm then Some (QSemWait i) else None)) ;;
    upd_info self (with_sem_tokens (i32 (-1 * rem_tokens))) ;;
    upd_info self (with_t_status DNA_THREAD_WAITING) ;;
    upd_info self (with_resource DNA_RESOURCE_SEMAPHORE) ;;
    let* v := gets (sem i) in
    upd_info self (with_resource_id (sem_id v)) ;;
    lock_acquire (LQueue (QSemWait i)) ;;
    lock_release (LSem i) ;;
    let* st := scheduler_elect true in
    ensure negb (st_eqb st.1 DNA_ERROR) && negb (st_eqb st.1 DNA_BAD_ARGUMENT)
      orelse Returned st.1 in
    onq (queue_add (QSemWait i) (AThread self)) ;;
    let* sw := scheduler_switch st.2 (Some (QSemWait i)) in
    match sw with
    | Returned status => ret (Returned status)
    | Switched _ => ret (Switched (mkFrame self id ntokens rem_tokens ar.2 it_status))
    end.

(** After the switch; [status] is DNA_OK there, so the two checks that follow
    alarm_destroy, which test [status], never fail. *)
Definition semaphore_acquire_resume (f : acquire_frame) : K status_t :=
  let i := raw_index (f_id f) in
  let self := f_self f in
  switch_end ;;
  lock_acquire LSemPool ;;
  let* v := gets (sem i) in
  check sem_id v =? f_id f
    rescue (lock_release LSemPool ;; cpu_trap_restore (f_it_status f) ;; ret DNA_SEM_DESTROYED) in
  lock_acquire (LSem i) ;;
  lock_release LSemPool ;;
  let* alarm_status :=
    match f_alarm f with Some a => alarm_destroy a | None => ret DNA_OK end in
  let* th := gets (thr self) in
  check bool_decide (resource (info th) = DNA_NO_RESOURCE)
    rescue (
      lock_acquire (LThread self) ;;
      upd_thr self (with_resource_queue None) ;;
      upd_info self (with_sem_tokens 0) ;;
      upd_info self (with_resource DNA_NO_RESOURCE) ;;
      upd_info self (with_resource_id (-1)) ;;
      lock_release (LThread self) ;;
      lock_release (LSem i) ;;
      cpu_trap_restore (f_it_status f) ;;
      ret DNA_INTERRUPTED) in
  if bool_decide (f_alarm f <> None) && st_eqb alarm_status DNA_UNKNOWN_ALARM then
    let* v := gets (sem i) in
    check f_tokens f <=? tokens v
      rescue (
        onq (queue_extract (QSemWait i) (Some (AThread self))) ;;
        upd_sem i (with_tokens (i32 (f_rem_tokens f + f_tokens f))) ;;
        lock_release (LSem i) ;;
        cpu_trap_restore (f_it_status f) ;;
        ret DNA_TIMED_OUT) in
    upd_sem i (fun v => with_tokens (i32 (tokens v - f_tokens f)) v) ;;
    acquire_end i self (f_it_status f) DNA_OK
  else acquire_end i self (f_it_status f) DNA_OK.

(** The loop of semaphore_release: [Some (tokens, smart_to_reschedule)], or
    [None] with the locks released when a waiting thread has a wrong status. *)
Fixpoint release_loop (fuel : nat) (i it_status ntokens : Z) (smart : bool)
    : K (option (Z * bool)) :=
  match fuel with
  | O => diverge
  | S fuel =>
      if negb (ntokens =? 0) then
        let* a := onq (queue_rem (QSemWait i)) in
        let* thread := as_thread a in
        match thread with
        | None => ret (Some (ntokens, smart))
        | Some t =>
            lock_acquire (LThread t) ;;
            let* v := gets (thr t) in
            check tst_eqb (t_status (info v)) DNA_THREAD_WAITING
              rescue (
                lock_release (LThread t) ;;
                lock_release (LQueue (QSemWait i)) ;;
                lock_release (LSem i) ;;
                cpu_trap_restore it_status ;;
                ret None) in
            let debt := sem_tokens (info v) in
            if debt <=? ntokens then
              upd_thr t (with_resource_queue None) ;;
              upd_info t (with_sem_tokens 0) ;;
              upd_info t (with_resource DNA_NO_RESOURCE) ;;
              upd_info t (with_resource_id (-1)) ;;
              upd_info t (with_t_status DNA_THREAD_READY) ;;
              let* status := scheduler_dispatch t in
              release_loop fuel i it_status (i32 (ntokens - debt))
                (smart || st_eqb status DNA_INVOKE_SCHEDULER)
            else
              upd_info t (fun x => with_sem_tokens (i32 (sem_tokens x - ntokens)) x) ;;
              lock_release (LThread t) ;;
              onq (queue_pushback (QSemWait i) (AThread t)) ;;
              ret (Some (0, smart))
        end
      else ret (Some (ntokens, smart))
  end.

(** "Now we deal with the reschedule" *)
Definition release_reschedule (flags : Z) (smart : bool) : K (switched status_t Z) :=
  if negb (has_flag flags DNA_NO_RESCHEDULE) && smart then
    let* y := thread_yield in
    match y with
    | Returned _ => ret (Returned DNA_OK)
    | Switched f => ret (Switched f)
    end
  else ret (Returned DNA_OK).

(** semaphore_release before "Now we deal with the reschedule": the status of an early
    return, or [smart_to_reschedule]. *)
Definition release_tokens (id ntokens : Z) : K (status_t + bool) :=
  let i := raw_index id in
  ensure 0 <? ntokens orelse inl DNA_BAD_ARGUMENT in
  ensure i <? DNA_MAX_SEM orelse inl DNA_BAD_SEM_ID in
  let* it_status := cpu_trap_mask_and_backup in
  lock_acquire LSemPool ;;
  let* v := gets (sem i) in
  check sem_id v =? id
    rescue (lock_release LSemPool ;; cpu_trap_restore it_status ;; ret (inl DNA_BAD_SEM_ID)) in
  lock_acquire (LSem i) ;;
  lock_release LSemPool ;;
  lock_acquire (LQueue (QSemWait i)) ;;
  let* fuel := gets (queue_bound (QSemWait i)) in
  let* r := release_loop fuel i it_status ntokens false in
  match r with
  | None => ret (inl DNA_ERROR)
  | Some (rest, smart) =>
      lock_release (LQueue (QSemWait i)) ;;
      upd_sem i (fun v => with_tokens (i32 (tokens v + rest)) v) ;;
      lock_release (LSem i) ;;
      cpu_trap_restore it_status ;;
      ret (inr smart)
  end.

Definition semaphore_release (id ntokens flags : Z) : K (switched status_t Z) :=
  let* r := release_tokens id ntokens in
  match r with
  | inl status => ret (Returned status)
  | inr smart => release_reschedule flags smart
  end.

Definition semaphore_release_resume (it_status : Z) : K status_t :=
  thread_yield_resume it_status ;;
  ret DNA_OK.

(** The result is the status and [*info]: name, tokens and latest holder. *)
Definition semaphore_get_info (id : Z) (info_ok : bool)
    : K (status_t * option (list Z * Z * Z)) :=
  let i := raw_index id in
  ensure info_ok orelse (DNA_BAD_ARGUMENT, None) in
  ensure i <? DNA_MAX_SEM orelse (DNA_BAD_SEM_ID, None) in
  let* it_status := cpu_trap_mask_and_backup in
  lock_acquire LSemPool ;;
  let* v := gets (sem i) in
  check sem_id v =? id
    rescue (lock_release LSemPool ;; cpu_trap_restore it_status ;; ret (DNA_BAD_SEM_ID, None)) in
  lock_acquire (LSem i) ;;
  lock_release LSemPool ;;
  let* v := gets (sem i) in
  lock_release (LSem i) ;;
  cpu_trap_restore it_status ;;
  ret (DNA_OK, Some (s_name v, tokens v, latest_holder v)).

Definition semaphore_alarm (data : option tref) : K status_t :=
  match data with
  | None => ret DNA_BAD_ARGUMENT
  | Some t =>
      let* v := gets (thr t) in
      match resource_queue v with
      | None => ret DNA_ERROR
      | Some q =>
          ensure tst_eqb (t_status (info v)) DNA_THREAD_WAITING orelse DNA_ERROR in
          ensure bool_decide (resource (info v) = DNA_RESOURCE_SEMAPHORE) orelse DNA_ERROR in
          lock_acquire (LQueue q) ;;
          let* status := onq (queue_extract q (Some (AThread t))) in
          lock_release (LQueue q) ;;
          if st_eqb status DNA_OK then
            lock_acquire (LThread t) ;;
            upd_thr t (with_resource_queue None) ;;
            upd_info t (with_sem_tokens 0) ;;
            upd_info t (with_resource DNA_NO_RESOURCE) ;;
            upd_info t (with_resource_id (-1)) ;;
            upd_info t (with_t_status DNA_THREAD_READY) ;;
            scheduler_dispatch t
          else ret status
      end
  end.

(** ** The contract of a semaphore

    Abstractly, a semaphore is a number of tokens and a queue of waiting threads,
    each with its debt: the number of tokens it still needs. *)

Abbreviation waiter := (tref * Z)%type.

(** Threads served, waiters left and tokens left when [n] tokens come. *)
Fixpoint serve (n : Z) (W : list waiter) : list tref * list waiter * Z :=
  match W with
  | [] => ([], [], n)
  | (t, d) :: W' =>
      if n =? 0 then ([], W, n)
      else if d <=? n then
        let '(woken, rest, m) := serve (n - d) W' in (t :: woken, rest, m)
      else ([], (t, d - n) :: W', 0)
  end.

Definition debts (W : list waiter) : Z := foldr (fun w z => w.2 + z) 0 W.

Lemma debts_cons t d W : debts ((t, d) :: W) = d + debts W.
Proof. reflexivity. Qed.

(** Nothing is lost or created: the tokens that come pay debts, or are left. *)
Lemma serve_balance n W woken rest m :
  serve n W = (woken, rest, m) -> m - debts rest = n - debts W.
Proof.
  revert n woken m. induction W as [|[t d] W IH]; intros n woken m; cbn [serve].
  - intros [= <- <- <-]. done.
  - destruct (Z.eqb_spec n 0); [intros [= <- <- <-]; done|].
    destruct (Z.leb_spec d n).
    + destruct (serve (n - d) W) as [[w r] m'] eqn:Hs. intros [= <- <- <-].
      apply IH in Hs. rewrite debts_cons. lia.
    + intros [= <- <- <-]. rewrite !debts_cons. lia.
Qed.

(** What is served is a prefix of the queue; no token is left while a thread
    waits. *)
Lemma serve_fifo n W woken rest m :
  serve n W = (woken, rest, m) -> 0 <= n -> Forall (fun w => 0 < w.2) W ->
  W.*1 = woken ++ rest.*1 /\ 0 <= m <= n /\ (rest <> [] -> m = 0) /\
  Forall (fun w => 0 < w.2) rest /\ (forall w, w ∈ rest -> exists d, (w.1, d) ∈ W /\ w.2 <= d).
Proof.
  revert n woken m. induction W as [|[t d] W IH]; intros n woken m; cbn [serve].
  - intros [= <- <- <-] Hn _. split_and!; try done. intros w Hw. by apply not_elem_of_nil in Hw.
  - intros Hs Hn HW. inversion HW as [|? ? Hd HW']; subst. cbn in Hd. revert Hs.
    destruct (Z.eqb_spec n 0) as [->|Hn0].
    { intros [= <- <- <-]. split_and!; try done; try lia. intros [t' d'] Hw. exists d'. done. }
    destruct (Z.leb_spec d n) as [Hdn|Hdn].
    + destruct (serve (n - d) W) as [[w r] m'] eqn:Hs. intros [= <- <- <-].
      destruct (IH (n - d) w m' Hs) as (Hf & Hm & Hr & Hp & Hsub); [lia|done|].
      split_and!; [by cbn; f_equal|lia|lia|done|done|].
      intros x (d' & Hx & Hle)%Hsub. exists d'. split; [set_solver|done].
    + intros [= <- <- <-]. split_and!; [done|lia|lia|done| |].
      * constructor; [cbn; lia|done].
      * intros [t' d'] [[= -> ->]|Hw]%elem_of_cons.
        -- exists d. split; [set_solver|cbn; lia].
        -- exists d'. split; [set_solver|done].
Qed.

(** *** The release loop implements [serve] *)

(** A thread that gets all its tokens, and one that gets [n] of them. *)
Definition woken_thread (v : thread_t) : thread_t :=
  with_info (with_t_status DNA_THREAD_READY (with_resource_id (-1)
    (with_resource DNA_NO_RESOURCE (with_sem_tokens 0 (info v))))) (with_resource_queue None v).

Definition paid_thread (n : Z) (v : thread_t) : thread_t :=
  with_info (with_sem_tokens (i32 (sem_tokens (info v) - n)) (info v)) v.

Fixpoint serve_threads (n : Z) (W : list waiter) (T : gmap tref thread_t) : gmap tref thread_t :=
  match W with
  | [] => T
  | (t, d) :: W' =>
      if n =? 0 then T
      else if d <=? n then serve_threads (n - d) W' (at_thread T t woken_thread)
      else at_thread T t (paid_thread n)
  end.

(** [W] describes waiting threads: their status and debts. *)
Definition waiting_with (T : gmap tref thread_t) (w : waiter) : Prop :=
  let v := default thread0 (T !! w.1) in
  t_status (info v) = DNA_THREAD_WAITING /\ sem_tokens (info v) = w.2 /\ 0 < w.2 < 2147483648.

Lemma release_stop U s V i (n : Z) (smart : bool) :
  qwf U (kq s) V ->
  exists V' L' E' q' b, Some (n, smart) = Some (n, smart || b) /\
    wake_all (mp_id s) (affinity_in (threads s)) (QSemWait i) [] V (locks s) (events s) b V' L' E' /\
    s = set_kq q' (set_locks L' (set_events E' (set_threads (threads s) s))) /\ qwf U q' V'.
Proof.
  intros Hwf. exists V, (locks s), (events s), (kq s), false. rewrite orb_false_r.
  split_and!; [done|constructor|by destruct s|done].
Qed.

Lemma release_loop_wp U i it W : forall fuel s V n smart,
  (length W < fuel)%nat -> 0 <= n < 2147483648 ->
  sched_ok U (kq s) (locks s) (cpus s) V ->
  V (QSemWait i) = map AThread W.*1 ->
  Forall (waiting_with (threads s)) W ->
  (forall w, w ∈ W -> locks s !! LThread w.1 = None) ->
  forall woken rest m, serve n W = (woken, rest, m) ->
  wp (release_loop fuel i it n smart) (fun r s' => exists V' L' E' q' b,
    r = Some (m, smart || b) /\
    wake_all (mp_id s) (affinity_in (threads s)) (QSemWait i) woken V (locks s) (events s) b V' L' E' /\
    s' = set_kq q' (set_locks L' (set_events E' (set_threads (serve_threads n W (threads s)) s))) /\
    qwf U q' V') s.
Proof.
  induction W as [|[t d] W IH]; intros fuel s V n smart Hf Hn Hok HV HW Hl woken rest m Hs;
    (destruct fuel as [|fuel]; [cbn in *; lia|]); cbn [release_loop serve serve_threads] in *;
    pose proof (so_wf _ _ _ _ _ Hok) as Hwf.
  - injection Hs as <- <- <-.
    destruct (n =? 0); cbn [negb]; [apply wp_ret; by apply release_stop|].
    apply wp_bind, (wp_queue_rem_nil U V); [done..|]. apply wp_ret. by apply release_stop.
  - destruct (n =? 0) eqn:Hn0; cbn [negb]; zbool.
    { injection Hs as <- <- <-. apply wp_ret. by apply release_stop. }
    apply Forall_cons in HW as [(Hst & Hd & Hd0) HW]. cbn [fst snd] in *.
    assert (locks s !! LThread t = None) as Hlt by (apply (Hl (t, d)); set_solver).
    pose proof (wf_nodup _ _ _ Hwf (QSemWait i)) as Hnd. change (V (QSemWait i) = AThread t :: map AThread W.*1) in HV.
    rewrite HV in Hnd. apply NoDup_cons in Hnd as [Htn Hnd].
    kdestruct s. krun. eapply (wp_queue_rem_cons U V); [done..|]. intros q1 Hq1. krun.
    unfold tst_eqb. rewrite Hst, bool_decide_true by done. rewrite Hd.
    destruct (d <=? n) eqn:Hdn; zbool; krun.
    + rewrite !lookup_insert_eq, !insert_insert_eq. kdefault.
      destruct (serve (n - d) W) as [[w r] m'] eqn:Hs'. injection Hs as <- <- <-.
      eapply (wp_wake_one U (mkK q0 L0 T0 nt0 S0 ns0 A0 na0 P0 np0 M0 C0 I0 H0 ir0 me0 tk0 E0) V
        (QSemWait i) t _ woken_thread); [done..| |done]. kred.
      intros st V1 L1 E1 q2 Hd1 Hok1.
      rewrite i32_id by lia.
      assert (forall w, w ∈ W -> w.1 <> t) as Hne.
      { intros w' Hw' <-. apply Htn. apply list_elem_of_fmap. exists w'.1. split; [done|].
        apply list_elem_of_fmap. by exists w'. }
      eapply wp_mono.
      * eapply (IH fuel _ V1); [cbn in *; lia|lia|exact Hok1| | | |exact Hs']; kred.
        -- erewrite dispatched_view by done. by rewrite vupd_eq.
        -- apply Forall_forall. intros w' Hw'. rewrite Forall_forall in HW.
           specialize (HW w' Hw'). unfold waiting_with in *. by rewrite lookup_insert_ne by (apply not_eq_sym; auto).
        -- intros w' Hw'. erewrite dispatched_lock; [|done|by intros [= Ht']; apply (Hne w' Hw')|done].
           rewrite lookup_insert_ne by (intros [= ->]; by apply (Hne w' Hw')). apply Hl. set_solver.
      * cbn beta. kred. intros r0 s0 (V' & L' & E' & q' & b & -> & Hw & -> & Hq').
        exists V', L', E', q', (st_eqb st DNA_INVOKE_SCHEDULER || b). rewrite orb_assoc.
        split_and!; [done| |done|done].
        eapply wake_cons; [done|exact Hd1|]. eapply wake_all_ext; [|exact Hw].
        intros t'. by apply (affinity_at_thread T0 t woken_thread).
    + injection Hs as <- <- <-. eapply (wp_queue_pushback U (vupd V (QSemWait i) (map AThread W.*1))).
      { done. } { by eapply unqueued_popped. } { eapply qwf_in_U; [exact Hwf|]. rewrite HV. set_solver. }
      intros q2 Hq2. krun. rewrite delete_insert_free by done.
      exists V, L0, E0, q2, false. rewrite orb_false_r. split_and!; [done|constructor|done|].
      eapply qwf_ext; [|exact Hq2]. intros q'. rewrite vupd_vupd, vupd_eq, <- HV. apply vupd_same.
Qed.

Lemma serve_threads_other n W T t : t ∉ W.*1 -> serve_threads n W T !! t = T !! t.
Proof.
  revert n T. induction W as [|[t' d] W IH]; intros n T Ht; cbn [serve_threads]; [done|].
  destruct (n =? 0); [done|]. cbn in Ht. apply not_elem_of_cons in Ht as [Hne Ht].
  destruct (d <=? n); [rewrite IH by done|]; by apply at_thread_ne.
Qed.

Lemma serve_threads_spec n W T woken rest m :
  serve n W = (woken, rest, m) -> 0 <= n < 2147483648 -> NoDup W.*1 -> Forall (waiting_with T) W ->
  (forall t, t ∈ woken ->
     serve_threads n W T !! t = Some (woken_thread (default thread0 (T !! t)))) /\
  Forall (waiting_with (serve_threads n W T)) rest.
Proof.
  revert n T woken m. induction W as [|[t d] W IH]; intros n T woken m; cbn [serve serve_threads].
  { intros [= <- <- <-] _ _ _. split; [|done]. intros t Ht. by apply not_elem_of_nil in Ht. }
  intros Hs Hn Hnd HW. cbn in Hnd. apply NoDup_cons in Hnd as [Htn Hnd].
  pose proof HW as HW0. apply Forall_cons in HW as [(Hst & Hd & Hd0) HW]. cbn [fst snd] in *. revert Hs.
  destruct (n =? 0) eqn:Hn0; zbool.
  { intros [= <- <- <-]. split; [|done]. intros t' Ht. by apply not_elem_of_nil in Ht. }
  assert (forall f, Forall (waiting_with (at_thread T t f)) W) as HWf.
  { intros f. rewrite Forall_forall in *. intros w Hw. specialize (HW w Hw).
    unfold waiting_with in *. rewrite at_thread_ne; [done|]. intros ->. apply Htn.
    apply list_elem_of_fmap. by exists w. }
  destruct (d <=? n) eqn:Hdn; zbool.
  - destruct (serve (n - d) W) as [[w r] m'] eqn:Hs. intros [= <- <- <-].
    destruct (IH (n - d) (at_thread T t woken_thread) w m' Hs) as [IHw IHr]; [lia|done|done|].
    split; [|done]. intros t' Ht'. destruct (decide (t' = t)) as [->|Hne].
    + rewrite serve_threads_other by done. apply lookup_insert_eq.
    + apply elem_of_cons in Ht' as [->|Ht']; [done|]. by rewrite IHw, at_thread_ne.
  - intros [= <- <- <-]. split; [intros t' Ht; by apply not_elem_of_nil in Ht|].
    constructor; [|done]. unfold waiting_with, at_thread. cbn [fst snd].
    rewrite lookup_insert_eq. cbn. rewrite i32_id, Hd by lia. split_and!; [done|done|lia|lia].
Qed.

(** In [s], semaphore [i] holds [T] tokens and the threads [W] wait for it; the
    locks that its operations take are free. *)
Record sem_rep (U : gset addr) (s : kstate) (V : qid -> list addr) (i T : Z) (W : list waiter)
    : Prop := {
  sr_sched : sched_ok U (kq s) (locks s) (cpus s) V;
  sr_queue : V (QSemWait i) = map AThread W.*1;
  sr_waiters : Forall (waiting_with (threads s)) W;
  sr_tokens : tokens (sem i s) = T;
  sr_range : 0 <= T < 2147483648;
  sr_empty : W <> [] -> T = 0;
  sr_pool_lock : locks s !! LSemPool = None;
  sr_lock : locks s !! LSem i = None;
  sr_queue_lock : locks s !! LQueue (QSemWait i) = None;
  sr_thread_locks : forall w, w ∈ W -> locks s !! LThread w.1 = None
}.

(** The heap and the interrupt status are no part of what a semaphore means. *)
Lemma sem_rep_heap U k V i T W h : sem_rep U k V i T W -> sem_rep U (set_heap h k) V i T W.
Proof. by intros []. Qed.
Lemma sem_rep_cpsr U k V i T W x : sem_rep U k V i T W -> sem_rep U (set_cpsr x k) V i T W.
Proof. by intros []. Qed.

(** Another semaphore is no part of what a semaphore means. *)
Lemma sem_rep_put U k V i j T W v : i <> j -> sem_rep U k V i T W -> sem_rep U (put_sem j v k) V i T W.
Proof.
  intros Hij [Hok HV HW HTk HTr HTe Hl1 Hl2 Hl3 Hl4]. kdestruct k. split; kred; try done.
  by rewrite lookup_insert_ne by (by apply not_eq_sym).
Qed.

Lemma sem_put_ne i j v k : i <> j -> sem i (put_sem j v k) = sem i k.
Proof. intros Hij. unfold sem, put_sem. cbn. by rewrite lookup_insert_ne by (by apply not_eq_sym). Qed.

(** What a release does besides changing the semaphore: the threads served are
    ready and none is lost, the other threads, the locks and the interrupt status
    are as before. *)
Record release_effect (s : kstate) (W : list waiter) (woken : list tref)
    (s1 : kstate) (V1 : qid -> list addr) : Prop := {
  re_woken : forall t, t ∈ woken -> threads s1 !! t = Some (woken_thread (thr t s));
  re_present : forall t, t ∈ woken ->
    AThread t ∈ V1 (QReady (affinity (info (thr t s)))) \/
    exists c, EvIpi c (DNA_IPI_DISPATCH t) ∈ events s1;
  re_other : forall t, t ∉ W.*1 -> threads s1 !! t = threads s !! t;
  re_locks : forall l, (forall t, t ∈ woken -> l <> LThread t) -> (forall c, l <> LIpi c) ->
    locks s1 !! l = locks s !! l;
  re_cpsr : cpsr s1 = cpsr s;
  re_heap : heap s1 = heap s
}.

Lemma release_tokens_wp U s V i T W id n woken rest m Q :
  sem_rep U s V i T W -> raw_index id = i -> i < DNA_MAX_SEM -> sem_id (sem i s) = id ->
  0 < n -> T + n < 2147483648 -> serve n W = (woken, rest, m) ->
  (forall s1 V1 b, sem_rep U s1 V1 i (T + m) rest -> release_effect s W woken s1 V1 ->
     sems s1 = <[i := with_tokens (T + m) (sem i s)]> (sems s) ->
     (exists L1 L2, wake_all (mp_id s) (affinity_in (threads s)) (QSemWait i) woken V L1 (events s)
        b V1 L2 (events s1)) ->
     Q (inr b) s1) ->
  wp (release_tokens id n) Q s.
Proof.
  intros Hrep Hi Hi' Hid Hn HT Hs HQ.
  destruct Hrep as [Hok HV HW HTk HTr HTe Hl1 Hl2 Hl3 Hl4].
  unfold release_tokens. rewrite Hi.
  rewrite (proj2 (Z.ltb_lt _ _) Hn), (proj2 (Z.ltb_lt _ _) Hi').
  pose proof Hok as [Hwf Ha]%sched_ok_avail.
  assert (NoDup W.*1) as Hnd.
  { pose proof (wf_nodup _ _ _ Hwf (QSemWait i)) as Hnd. rewrite HV in Hnd.
    by apply NoDup_fmap_1 in Hnd. }
  kdestruct s. krun. rewrite Hid, Z.eqb_refl. krun.
  rewrite delete_insert_ne, delete_insert_free by done.
  erewrite queue_bound_enough by done. rewrite HV.
  eapply wp_mono.
  - eapply (release_loop_wp U i ir0 W) with (V := V); [| |apply sched_ok_avail; split|exact HV|exact HW| |exact Hs].
    + rewrite length_map, length_fmap. lia.
    + lia.
    + done.
    + kred. eapply avail_ok_locks; [|exact Ha]. intros l Hl.
      rewrite !lookup_insert_ne; [done|intros <-; naive_solver..].
    + kred. intros w Hw. rewrite !lookup_insert_ne by done. by apply Hl4.
  - cbn beta. kred. intros r s1 (V' & L' & E' & q' & b & -> & Hw & -> & Hq'). krun.
    assert (serve_fifo_facts : 0 <= m <= n /\ (rest <> [] -> m = 0) /\ W.*1 = woken ++ rest.*1).
    { destruct (serve_fifo _ _ _ _ _ Hs) as (? & ? & ? & _); [lia| |by auto].
      eapply Forall_impl; [exact HW|]. intros w (_ & _ & ?). lia. }
    destruct serve_fifo_facts as (Hm & Hm0 & Hsplit).
    rewrite HTk, i32_id by lia.
    destruct (serve_threads_spec n W T0 woken rest m) as [Hwk Hrest]; [done|lia|done|done|].
    assert (forall l, (forall t, t ∈ woken -> l <> LThread t) -> (forall c, l <> LIpi c) ->
      delete (LSem i) (delete (LQueue (QSemWait i)) L') !! l = L0 !! l) as HL.
    { intros l Ht Hc. destruct (decide (l = LSem i)) as [->|Hn1]; [by rewrite lookup_delete_eq|].
      rewrite lookup_delete_ne by done.
      destruct (decide (l = LQueue (QSemWait i))) as [->|Hn2]; [by rewrite lookup_delete_eq|].
      rewrite lookup_delete_ne by done. rewrite (wake_all_lock _ _ _ _ _ _ _ _ _ _ _ l Hw) by done.
      by rewrite !lookup_insert_ne. }
    eapply HQ; [split| |reflexivity|by eauto]; kred.
    + apply sched_ok_avail. split; [done|]. eapply (avail_ok_locks L').
      { intros l Hl. rewrite !lookup_delete_ne; [done|intros <-; naive_solver..]. }
      eapply wake_all_avail; [exact Hw|done|].
      eapply avail_ok_locks; [|exact Ha]. intros l Hl.
      rewrite !lookup_insert_ne; [done|intros <-; naive_solver..].
    + pose proof (wake_all_queue _ _ _ _ _ _ _ _ _ _ _ Hw) as HVq.
      rewrite HV, Hsplit, map_app in HVq. by eapply app_inv_head; symmetry; apply HVq.
    + done.
    + rewrite lookup_insert_eq. done.
    + lia.
    + intros Hr. rewrite Hm0 by done. rewrite HTe; [done|]. intros ->. by destruct woken, rest.
    + by rewrite HL.
    + by rewrite HL.
    + by rewrite HL.
    + intros [t d] Hwr. assert (t ∈ rest.*1) as Htr by (apply list_elem_of_fmap; by exists (t, d)).
      rewrite HL; [| |done].
      * assert (t ∈ W.*1) as Hin by (rewrite Hsplit; set_solver).
        apply list_elem_of_fmap in Hin as (w' & -> & Hin). by apply Hl4.
      * intros t' Ht [= <-]. rewrite Hsplit in Hnd. apply NoDup_app in Hnd as (_ & Hnd & _).
        by apply (Hnd _ Ht).
    + split; kred; [done| | |done|done|done].
      * intros t Ht. by eapply (wake_all_present _ _ _ _ _ _ _ _ _ _ _ Hw).
      * intros t Ht. by apply serve_threads_other.
Qed.

Lemma semaphore_release_wp U s V i T W id n flags woken rest m Q :
  sem_rep U s V i T W -> raw_index id = i -> i < DNA_MAX_SEM -> sem_id (sem i s) = id ->
  0 < n -> T + n < 2147483648 -> serve n W = (woken, rest, m) ->
  (forall s1 V1 b, sem_rep U s1 V1 i (T + m) rest -> release_effect s W woken s1 V1 ->
     sems s1 = <[i := with_tokens (T + m) (sem i s)]> (sems s) ->
     wp (release_reschedule flags b) Q s1) ->
  wp (semaphore_release id n flags) Q s.
Proof.
  intros Hrep Hi Hmax Hid Hn HT Hs HQ. apply wp_bind.
  eapply release_tokens_wp; [done..|]. intros s1 V1 b Hrep1 Heff Hsems _. by eapply HQ.
Qed.

(** A release that nobody waits for. *)
Lemma semaphore_release_alone U k V i T id n :
  sem_rep U k V i T [] -> raw_index id = i -> i < DNA_MAX_SEM -> sem_id (sem i k) = id ->
  0 < n -> T + n < 2147483648 ->
  let k' := put_sem i (with_tokens (T + n) (sem i k)) k in
  semaphore_release id n DNA_NO_RESCHEDULE k = Ret (Returned DNA_OK) k' /\ sem_rep U k' V i (T + n) [].
Proof.
  intros Hrep Hi Hmax Hid Hn HT k'. pose proof Hrep as [Hok HV HW HTk HTr HTe Hl1 Hl2 Hl3 Hl4]. split.
  - apply wp_run. subst k'. unfold semaphore_release, release_tokens. rewrite Hi.
    rewrite (proj2 (Z.ltb_lt _ _) Hn), (proj2 (Z.ltb_lt _ _) Hmax).
    pose proof Hok as [Hwf _]%sched_ok_avail. kdestruct k. krun. rewrite Hid, Z.eqb_refl. krun.
    rewrite delete_insert_ne, delete_insert_free by done.
    erewrite queue_bound_enough by done. rewrite HV. cbn [fmap list_fmap map length release_loop].
    rewrite (proj2 (Z.eqb_neq n 0)) by lia. cbn [negb].
    apply wp_bind. eapply wp_queue_rem_nil; [done|by rewrite HV|]. krun.
    rewrite HTk, i32_id by lia. klocks. done.
  - subst k'. kdestruct k. split; kred; try done.
    + by rewrite lookup_insert_eq.
    + lia.
Qed.
(** *** semaphore_acquire: the calls that return at once *)

(** The checks on the arguments of semaphore_acquire. *)
Definition acquire_args_ok (n flags timeout : Z) : Prop :=
  0 < n /\ (has_flag flags DNA_RELATIVE_TIMEOUT || has_flag flags DNA_ABSOLUTE_TIMEOUT = true ->
            0 <= timeout).

Lemma acquire_args n flags timeout :
  acquire_args_ok n flags timeout ->
  let has_alarm := has_flag flags DNA_RELATIVE_TIMEOUT || has_flag flags DNA_ABSOLUTE_TIMEOUT in
  (0 <? n) = true /\ (negb has_alarm || has_alarm && (0 <=? timeout)) = true.
Proof.
  intros [Hn Ht]. cbn zeta. split; [by apply Z.ltb_lt|].
  destruct (_ || _); [|done]. cbn. apply Z.leb_le. auto.
Qed.

(** semaphore_acquire takes the tokens when there are enough of them, records the caller
    as the latest holder, and changes nothing else. *)
Theorem semaphore_acquire_now U s V i T W id n flags timeout self :
  sem_rep U s V i T W -> raw_index id = i -> i < DNA_MAX_SEM -> sem_id (sem i s) = id ->
  acquire_args_ok n flags timeout -> n <= T -> current_thread (cpu (mp_id s) s) = Some self ->
  let v := with_latest_holder (thread_id (thr self s)) (with_tokens (T - n) (sem i s)) in
  semaphore_acquire id n flags timeout s = Ret (Returned DNA_OK) (put_sem i v s) /\
  sem_rep U (put_sem i v s) V i (T - n) W.
Proof.
  intros Hrep Hi Hi' Hid [Hn Hta]%acquire_args HnT Hself v. zbool.
  destruct Hrep as [Hok HV HW HTk HTr HTe Hl1 Hl2 Hl3 Hl4].
  split.
  - apply wp_run. subst v. unfold semaphore_acquire, acquire_end. rewrite Hi.
    rewrite (proj2 (Z.ltb_lt _ _) Hn), (proj2 (Z.ltb_lt _ _) Hi'), Hta.
    kdestruct s. krun. rewrite Hid, Z.eqb_refl, HTk, i32_id by lia.
    rewrite (proj2 (Z.leb_le 0 _)) by lia. krun. rewrite Hself, HTk. krun.
    rewrite lookup_insert_eq, insert_insert_eq, i32_id by lia.
    by klocks.
  - subst v. kdestruct s. split; kred; try done.
    + by rewrite lookup_insert_eq.
    + lia.
    + intros Hne. specialize (HTe Hne). lia.
Qed.

(** with a timeout of 0 and not enough tokens, semaphore_acquire fails with
    DNA_WOULD_BLOCK and changes nothing. *)
Theorem semaphore_acquire_would_block U s V i T W id n flags :
  sem_rep U s V i T W -> raw_index id = i -> i < DNA_MAX_SEM -> sem_id (sem i s) = id ->
  0 < n -> T < n < 2147483648 ->
  has_flag flags DNA_RELATIVE_TIMEOUT || has_flag flags DNA_ABSOLUTE_TIMEOUT = true ->
  semaphore_acquire id n flags 0 s = Ret (Returned DNA_WOULD_BLOCK) s.
Proof.
  intros Hrep Hi Hi' Hid Hn HnT Hfl.
  destruct Hrep as [Hok HV HW HTk HTr HTe Hl1 Hl2 Hl3 Hl4].
  apply wp_run. unfold semaphore_acquire. rewrite Hi.
  rewrite (proj2 (Z.ltb_lt _ _) Hn), (proj2 (Z.ltb_lt _ _) Hi'), Hfl.
  change (0 <=? 0) with true. change (0 =? 0) with true. cbn [negb andb orb].
  kdestruct s. krun. rewrite Hid, Z.eqb_refl, HTk, i32_id by lia.
  rewrite (proj2 (Z.leb_gt 0 _)) by lia. krun.
  by klocks.
Qed.

(** An identifier that is not the one of the semaphore in its slot is rejected by
    semaphore_acquire, semaphore_release, semaphore_destroy and semaphore_get_info, which change
    nothing. *)
Theorem stale_semaphore_rejected s id n flags timeout :
  sem_id (sem (raw_index id) s) <> id -> locks s !! LSemPool = None ->
  acquire_args_ok n flags timeout ->
  semaphore_acquire id n flags timeout s = Ret (Returned DNA_BAD_SEM_ID) s /\
  semaphore_release id n flags s = Ret (Returned DNA_BAD_SEM_ID) s /\
  semaphore_destroy id s = Ret DNA_BAD_SEM_ID s /\
  semaphore_get_info id true s = Ret (DNA_BAD_SEM_ID, None) s.
Proof.
  intros Hid Hl [Hn Ht]%acquire_args. apply Z.eqb_neq in Hid.
  unfold semaphore_acquire, semaphore_release, release_tokens, semaphore_destroy, semaphore_get_info.
  rewrite Hn, Ht. destruct (raw_index id <? DNA_MAX_SEM); [|by repeat split].
  split_and!; apply wp_run; kdestruct s; krun; rewrite Hid; krun; by rewrite delete_insert_free.
Qed.

(** *** semaphore_acquire: the calls that block *)

(** A call that switches, and the end of the switch. *)
Lemma wp_switched {S R A B} (m : M S (switched R A)) (k : M S B) Q s :
  wp (let* r := m in match r with Switched f => let* st := k in ret (f, st) | Returned _ => fault end) Q s ->
  exists f st s2 s3, m s = Ret (Switched f) s2 /\ k s2 = Ret st s3 /\ Q (f, st) s3.
Proof.
  unfold wp, bind. destruct (m s) as [[r|f] s2| | |]; try done. destruct (k s2) as [st s3| | |] eqn:Hk; try done.
  intros HQ. by exists f, st, s2, s3.
Qed.

(** The threads that wait after [self] joined them and [next] started. *)
Lemma waiting_joined (T0 : gmap tref thread_t) V i W self next me delta v m :
  V (QSemWait i) = map AThread W.*1 -> Forall (waiting_with T0) W -> unqueued V (AThread self) ->
  AThread next ∉ V (QSemWait i) -> self <> next -> t_status (info v) = DNA_THREAD_WAITING ->
  sem_tokens (info v) = m -> 0 < m < 2147483648 ->
  Forall (waiting_with (switch_threads me delta self next (<[self := v]> T0))) (W ++ [(self, m)]).
Proof.
  intros HV HW Hself Hnext Hne Hst Hm Hr. apply Forall_app. split.
  - rewrite Forall_forall in *. intros w Hw. specialize (HW w Hw). unfold waiting_with in *.
    assert (AThread w.1 ∈ V (QSemWait i)) as Hin.
    { rewrite HV. apply list_elem_of_fmap. exists w.1. split; [done|]. apply list_elem_of_fmap. eauto. }
    assert (w.1 <> self) by (intros Heq; apply (Hself (QSemWait i)); by rewrite <- Heq).
    rewrite switch_threads_other, lookup_insert_ne; [done|done|done|]. intros Heq. apply Hnext. by rewrite <- Heq.
  - constructor; [|done]. unfold waiting_with. cbn [fst snd].
    rewrite switch_threads_self, lookup_insert_eq by done. cbn. rewrite Hst, Hm. split_and!; [done|done|lia|lia].
Qed.

(** A blocking call of semaphore_acquire, with the end of the switch. *)
Lemma semaphore_acquire_block_wp U s V i T W id n flags timeout self idle :
  sem_rep U s V i T W -> running_ok U s V self idle ->
  raw_index id = i -> i < DNA_MAX_SEM -> sem_id (sem i s) = id -> T < n < 2147483648 ->
  has_flag flags DNA_RELATIVE_TIMEOUT || has_flag flags DNA_ABSOLUTE_TIMEOUT = false ->
  wp (let* r := semaphore_acquire id n flags timeout in
      match r with
      | Switched f => let* st := switch_end in ret (f, st)
      | Returned _ => fault
      end) (fun r s3 => exists next V1 V3,
    elected (mp_id s) (Some idle) V true (DNA_OK, Some next) V1 /\
    r = (mkFrame self id n (T - n) None (cpsr s), DNA_OK) /\
    sem_rep U s3 V3 i 0 (W ++ [(self, n - T)]) /\
    locks s3 = locks s /\ current_thread (cpu (mp_id s) s3) = Some next /\
    t_status (info (thr next s3)) = DNA_THREAD_RUNNING /\ sem_id (sem i s3) = id /\ heap s3 = heap s /\
    (forall j, j <> i -> sem j s3 = sem j s) /\
    (forall q, q <> QSemWait i -> q <> QCpus -> (forall a, q <> QReady a) -> V3 q = V q)) s.
Proof.
  intros Hrep Hr Hi Hi' Hid HnT Hfl.
  destruct Hrep as [Hok HV HW HTk HTr HTe Hl1 Hl2 Hl3 Hl4].
  pose proof Hok as [Hwf Ha]%sched_ok_avail.
  unfold semaphore_acquire. rewrite Hi, Hfl.
  rewrite (proj2 (Z.ltb_lt 0 _)), (proj2 (Z.ltb_lt _ _) Hi') by lia. cbn [negb andb orb].
  pose proof (ru_current _ _ _ _ _ Hr) as Hcur.
  pose proof (ru_self _ _ _ _ _ Hr) as (_ & Hsu & Hsl).
  kdestruct s. krun. rewrite Hid, Z.eqb_refl, HTk, i32_id by lia.
  rewrite (proj2 (Z.leb_gt 0 _)) by lia. krun. rewrite Hcur. krun.
  rewrite !lookup_insert_eq, !insert_insert_eq. kdefault. klocks.
  match goal with |- context [<[self := ?x]> T0] => set (bv := x) end.
  assert (t_status (info bv) = DNA_THREAD_WAITING /\ sem_tokens (info bv) = n - T) as [Hb1 Hb2].
  { split; [done|]. transitivity (i32 (-1 * (T - n))); [done|]. rewrite i32_id; lia. }
  clearbody bv. apply wp_unbind.
  apply (wp_block U (mkK q0 L0 T0 nt0 S0 ns0 A0 na0 P0 np0 M0 C0 I0 H0 ir0 me0 tk0 E0) _ V self idle
    (QSemWait i) (fun st => st)); [exact Hwf|exact Ha|exact Hr|done..| |done|done|]; kred.
  { intros l Hn1 Hn2. by rewrite !lookup_insert_ne by done. }
  intros next V1 q2 Hel Hne Hnl Hnq Hq2. krun. unfold switch_end, switch_state.
  krun. rewrite lookup_insert_eq. cbn [from_option Datatypes.id switch_cpu prev_thread current_thread].
  krun. cbn [release_opt].
  match type of Hq2 with qwf _ _ ?V3 => exists next, V1, V3 end. split; [exact Hel|]. split; [done|].
  split; [|rewrite lookup_insert_eq, switch_threads_next; split_and!; [by klocks|done|done|by rewrite lookup_insert_eq|done| |]];
    [|intros j Hj; unfold sem; kred; by rewrite lookup_insert_ne by done
     |intros q Hq Hq' Hqr; rewrite !vupd_ne by done; by eapply elected_view].
  assert (self <> next) as Hne' by congruence. klocks.
  pose proof (switch_avail_ok _ _ _ _ _ _ _ _ (timer_value me0 tk0) Hr Ha Hq2) as Ha'.
  split; kred.
  - apply sched_ok_avail. split; [exact Hq2|exact Ha'].
  - rewrite vupd_ne, vupd_eq, HV by done. rewrite fmap_app, map_app. done.
  - by apply (waiting_joined T0 V i); [..|apply Hnq| | | |lia].
  - by rewrite lookup_insert_eq.
  - lia.
  - done.
  - done.
  - done.
  - done.
  - intros w [Hw| ->%list_elem_of_singleton]%elem_of_app; [|done]. by apply Hl4.
Qed.

(** C5: without timeout and without enough tokens, semaphore_acquire takes those there are
    and puts the caller at the end of the waiting queue with the rest as its debt; the processor
    runs the elected thread, and all the locks are free once that thread has ended the switch. *)
Theorem semaphore_acquire_blocks U s V i T W id n flags timeout self idle :
  sem_rep U s V i T W -> running_ok U s V self idle ->
  raw_index id = i -> i < DNA_MAX_SEM -> sem_id (sem i s) = id -> T < n < 2147483648 ->
  has_flag flags DNA_RELATIVE_TIMEOUT || has_flag flags DNA_ABSOLUTE_TIMEOUT = false ->
  exists next V1 V3 s2 s3,
    elected (mp_id s) (Some idle) V true (DNA_OK, Some next) V1 /\
    semaphore_acquire id n flags timeout s =
      Ret (Switched (mkFrame self id n (T - n) None (cpsr s))) s2 /\
    switch_end s2 = Ret DNA_OK s3 /\
    sem_rep U s3 V3 i 0 (W ++ [(self, n - T)]) /\
    locks s3 = locks s /\ current_thread (cpu (mp_id s) s3) = Some next /\
    t_status (info (thr next s3)) = DNA_THREAD_RUNNING.
Proof.
  intros Hrep Hr Hi Hi' Hid HnT Hfl.
  destruct (wp_switched _ _ _ _ (semaphore_acquire_block_wp U s V i T W id n flags timeout self idle Hrep Hr Hi Hi' Hid HnT Hfl))
    as (f & st & s2 & s3 & H1 & H2 & next & V1 & V3 & Hel & [= -> ->] & Hrep3 & Hl & Hc & Ht & _).
  exists next, V1, V3, s2, s3. by split_and!.
Qed.

(** The end of semaphore_acquire, for a thread that a release has served. *)
Lemma semaphore_acquire_served U s k V i T W f :
  switch_end s = Ret DNA_OK k -> raw_index (f_id f) = i -> f_alarm f = None ->
  sem_id (sem i k) = f_id f -> resource (info (thr (f_self f) k)) = DNA_NO_RESOURCE ->
  sem_rep U k V i T W ->
  let v := with_latest_holder (thread_id (thr (f_self f) k)) (sem i k) in
  semaphore_acquire_resume f s = Ret DNA_OK (set_cpsr (f_it_status f) (put_sem i v k)) /\
  sem_rep U (set_cpsr (f_it_status f) (put_sem i v k)) V i T W.
Proof.
  intros Hsw Hi Ha Hid Hres Hrep v. subst v.
  destruct Hrep as [Hok HV HW HTk HTr HTe Hl1 Hl2 Hl3 Hl4]. split.
  - apply wp_run. unfold semaphore_acquire_resume, acquire_end. rewrite Hi, Ha.
    apply wp_bind. eapply wp_eq; [exact Hsw|]. kdestruct k. krun. rewrite Hid, Z.eqb_refl. krun.
    rewrite Hres, bool_decide_true, andb_false_r by done. krun. by klocks.
  - kdestruct k. split; kred; try done. by rewrite lookup_insert_eq.
Qed.

(** *** semaphore_create *)

(** semaphore_create takes the first free slot and makes it a semaphore with the given
    name and tokens and no waiting thread; the identifier returned names that slot and carries the
    current value of the counter, which is incremented. *)
Theorem semaphore_create_spec U s V i pool name n :
  qwf U (kq s) V -> avail_ok (locks s) (cpus s) V ->
  V QSemPool = ASem i :: pool -> V (QSemWait i) = [] ->
  sid_index (sem i s) = i -> 0 <= i < DNA_MAX_SEM ->
  locks s !! LSemPool = None -> locks s !! LSem i = None ->
  locks s !! LQueue (QSemWait i) = None ->
  Z.of_nat (length name) < DNA_NAME_LENGTH -> 0 <= n < 2147483648 ->
  wp (semaphore_create (Some name) n true) (fun r s' => exists id V',
    r = (DNA_OK, Some id) /\ raw_index id = i /\ raw_value id = u16 (sem_counter s) /\
    sem_id (sem i s') = id /\ sem_rep U s' V' i n [] /\ V' QSemPool = pool /\
    s' = set_kq (kq s') (set_sem_counter (i16 (sem_counter s + 1))
           (set_sems (<[i := mkSem (u16 (sem_counter s)) i name n 0]> (sems s)) s))) s.
Proof.
  intros Hwf Ha HV HVi Hidx Hi Hl1 Hl2 Hl3 Hname Hn. unfold semaphore_create, clear_sem.
  kdestruct s. krun. eapply (wp_queue_rem_cons U V); [done..|]. intros q1 Hq1.
  krun. rewrite !lookup_insert_eq, !insert_insert_eq. kdefault. rewrite Hidx.
  unfold strcpy_name. rewrite (proj2 (Z.ltb_lt _ _) Hname). krun.
  rewrite !lookup_insert_eq, !insert_insert_eq. kdefault.
  unfold DNA_MAX_SEM in *. rewrite (i16_id i), (u16_id i) by lia.
  klocks. do 3 (klocks; try rewrite (delete_id L0) by lock_free).
  exists (sem_raw (u16 ns0) i), (vupd V QSemPool pool).
  destruct (sem_raw_fields (u16 ns0) i (u16_range _)) as [Hv Hx]; [lia|].
  split_and!; [done|exact Hx|exact Hv|done| |by rewrite vupd_eq|done].
  split; kred; try done.
  - apply sched_ok_avail. split.
    + apply qwf_cleared; [done|by eapply unqueued_popped|by rewrite vupd_ne].
    + destruct Ha as [Hnd ? ? ?]. split; rewrite ?vupd_ne by done; done.
  - by rewrite lookup_insert_eq.
  - intros w Hw. by apply not_elem_of_nil in Hw.
Qed.

(** *** semaphore_release *)

(** C2: semaphore_release hands its tokens to the waiting threads as the abstract function
    [serve] does: [serve n W] gives the threads woken, those that keep waiting with the rest of
    their debt, and the tokens left for the semaphore, and the run ends with that queue and
    those tokens.  The threads woken are a prefix of the queue, in the order of their arrival:
    each is made ready, leaves the queue and is dispatched, one after the other, and is never
    lost; tokens are neither lost nor created.  After that the run is [release_reschedule], with
    the flag that tells if a woken thread can run on the executing processor; with
    DNA_NO_RESCHEDULE it returns at once. *)
Theorem semaphore_release_spec U s V i T W id n flags woken rest m :
  sem_rep U s V i T W -> raw_index id = i -> i < DNA_MAX_SEM -> sem_id (sem i s) = id ->
  0 < n -> T + n < 2147483648 -> serve n W = (woken, rest, m) ->
  W.*1 = woken ++ rest.*1 /\ (rest <> [] -> T + m = 0) /\
  T + m - debts rest = T + n - debts W /\
  exists b s' V' L1 L2,
    release_tokens id n s = Ret (inr b) s' /\
    semaphore_release id n flags s = release_reschedule flags b s' /\
    (has_flag flags DNA_NO_RESCHEDULE = true ->
     semaphore_release id n flags s = Ret (Returned DNA_OK) s') /\
    sem_rep U s' V' i (T + m) rest /\
    sems s' = <[i := with_tokens (T + m) (sem i s)]> (sems s) /\
    wake_all (mp_id s) (affinity_in (threads s)) (QSemWait i) woken V L1 (events s)
      b V' L2 (events s') /\
    (forall t, t ∈ woken -> t_status (info (thr t s')) = DNA_THREAD_READY /\
       sem_tokens (info (thr t s')) = 0 /\
       (AThread t ∈ V' (QReady (affinity (info (thr t s)))) \/
        exists c, EvIpi c (DNA_IPI_DISPATCH t) ∈ events s')) /\
    (forall t, t ∉ W.*1 -> threads s' !! t = threads s !! t).
Proof.
  intros Hrep Hi Hmax Hid Hn HT Hs.
  assert (Forall (fun w => 0 < w.2) W) as Hpos.
  { eapply Forall_impl; [exact (sr_waiters _ _ _ _ _ _ Hrep)|]. unfold waiting_with. intros w Hw. lia. }
  destruct (serve_fifo _ _ _ _ _ Hs ltac:(lia) Hpos) as (HW & Hm & Hm0 & _).
  pose proof (serve_balance _ _ _ _ _ Hs) as Hbal.
  assert (wp (release_tokens id n) (fun r s' => exists b V' L1 L2, r = inr b /\
    sem_rep U s' V' i (T + m) rest /\ release_effect s W woken s' V' /\
    sems s' = <[i := with_tokens (T + m) (sem i s)]> (sems s) /\
    wake_all (mp_id s) (affinity_in (threads s)) (QSemWait i) woken V L1 (events s)
      b V' L2 (events s')) s) as Hwp.
  { eapply release_tokens_wp; [done..|]. intros s1 V1 b Hrep1 Heff Hsems (L1 & L2 & Hw).
    by exists b, V1, L1, L2. }
  apply wp_exists in Hwp as (r & s' & Hr & b & V' & L1 & L2 & -> & Hrep' & Heff & Hsems & Hw).
  assert (semaphore_release id n flags s = release_reschedule flags b s') as Hrun.
  { unfold semaphore_release, bind. by rewrite Hr. }
  split; [done|]. split.
  { intros Hne. exact (sr_empty _ _ _ _ _ _ Hrep' Hne). }
  split; [lia|]. exists b, s', V', L1, L2. split_and!; try done; [| |by apply Heff].
  - intros Hfl. rewrite Hrun. unfold release_reschedule. by rewrite Hfl.
  - intros t Ht. unfold thr. rewrite (re_woken _ _ _ _ _ Heff t Ht).
    pose proof (re_present _ _ _ _ _ Heff t Ht). done.
Qed.

End Semaphore.
