(* ===== verification/AlarmHandler.v ===== *)
(** * The alarm interrupt (alarm_handler.c)

    The handler runs the alarm of its processor, programs the timer for the next
    one, or goes on with it when its deadline is over, and finally gives the dead
    alarms back to the pool.

    The callbacks installed by the kernel are those of Thread.v and Semaphore.v;
    the ones of drivers and applications are the parameter [user_callback]. *)

From S2P Require Import Prelude Status Queue Allocator Kernel Logic Memory Scheduler Alarm Thread Semaphore.

Section AlarmHandler.
Context `{Hal} (user_callback : Z -> option tref -> K status_t).

Definition run_callback (cb : alarm_callback_t) (data : option tref) : K status_t :=
  match cb with
  | CB_thread_alarm => thread_alarm data
  | CB_semaphore_alarm => semaphore_alarm data
  | CB_other a => user_callback a data
  end.

(** The inner loop: the first valid alarm of the queue; the invalid ones before
    it become garbage. *)
Fixpoint next_valid (fuel : nat) (c : Z) : K (option Z) :=
  match fuel with
  | O => diverge
  | S fuel =>
      let* a := onq (queue_rem (QAlarms c)) in
      let* next_alarm := as_alarm a in
      match next_alarm with
      | None => ret None
      | Some n =>
          lock_acquire (LAlarm n) ;;
          let* v := gets (alarm n) in
          if negb (is_invalid v) then lock_release (LAlarm n) ;; ret (Some n)
          else
            onq (queue_add QGarbage (AAlarm n)) ;;
            lock_release (LAlarm n) ;;
            next_valid fuel c
      end
  end.

(** One iteration of the main loop: [inl st] when the handler returns [st], else
    the new values of [liveness], [process_next_alarm], [reschedule] and
    [status]. *)
Definition alarm_iteration (liveness : Z) (process_next_alarm reschedule : bool) (status : status_t)
    : K (status_t + Z * bool * bool * status_t) :=
  let* c := cpu_mp_id in
  let* timer := gets (fun s => c_id (cpu c s)) in
  let* start_time := cpu_timer_get timer in
  lock_acquire (LCpu c) ;;
  let* current := gets (fun s => current_alarm (cpu c s)) in
  let no_alarm : K (status_t + Z * bool * bool * status_t) :=
    lock_release (LCpu c) ;; ret (inl DNA_ERROR) in
  match current with
  | None => no_alarm
  | Some a =>
      lock_acquire (LAlarm a) ;;
      let* v := gets (alarm a) in
      let current_deadline := deadline v in
      check process_next_alarm || (current_deadline <? start_time)
        rescue (lock_release (LAlarm a) ;;
                cpu_timer_set timer (i64 (current_deadline - start_time)) ;;
                no_alarm) in
      (if negb (is_invalid v) && negb (Z.land (a_mode v) DNA_PERIODIC_ALARM =? 0) then
         upd_alarm a (fun v => with_deadline (i64 (deadline v + quantum v)) v) ;;
         alarm_insert (QAlarms c) a
       else onq (queue_add QGarbage (AAlarm a)) ;; ret tt) ;;
      lock_release (LAlarm a) ;;
      let* fuel := gets (queue_bound (QAlarms c)) in
      let* next_alarm := next_valid fuel c in
      upd_cpu c (with_current_alarm next_alarm) ;;
      lock_release (LCpu c) ;;
      let* lp :=
        match next_alarm with
        | None => ret (liveness, false)
        | Some n =>
            let liveness := if a =? n then liveness - 1 else 10 in
            (if liveness =? 0 then
               lock_acquire (LAlarm n) ;;
               upd_alarm n (with_is_invalid true) ;;
               lock_release (LAlarm n)
             else ret tt) ;;
            let* execution := gets (fun s => execution_time (alarm a s)) in
            let* d_next := gets (fun s => deadline (alarm n s)) in
            let timer_delay := i64 (start_time - current_deadline) in
            let expected_deadline := i64 (i64 (start_time + timer_delay) + execution) in
            let expected_delay := i64 (expected_deadline - d_next) in
            if 0 <? expected_delay then ret (liveness, true)
            else
              cpu_timer_set timer (i64 (-1 * expected_delay)) ;;
              ret (liveness, false)
        end in
      let* v := gets (alarm a) in
      let* status :=
        (if negb (is_invalid v) then
           let* delta_start := cpu_timer_get timer in
           let* status := run_callback (callback v) (a_data v) in
           let* delta_end := cpu_timer_get timer in
           let q := i64 (delta_end - delta_start) in
           let* execution := gets (fun s => execution_time (alarm a s)) in
           (if execution <? q then upd_alarm a (with_execution_time q) else ret tt) ;;
           ret status
         else ret status) in
      ret (inr (lp.1, lp.2, reschedule || st_eqb status DNA_INVOKE_SCHEDULER, status))
  end.

(** do ... while (process_next_alarm): [inr reschedule] at the end. *)
Fixpoint alarm_loop (fuel : nat) (liveness : Z) (process_next_alarm reschedule : bool)
    (status : status_t) : K (status_t + bool) :=
  match fuel with
  | O => diverge
  | S fuel =>
      let* r := alarm_iteration liveness process_next_alarm reschedule status in
      match r with
      | inl st => ret (inl st)
      | inr (liveness, process_next_alarm, reschedule, status) =>
          if (process_next_alarm : bool)
          then alarm_loop fuel liveness process_next_alarm reschedule status
          else ret (inr reschedule)
      end
  end.

Fixpoint garbage_loop (fuel : nat) : K unit :=
  match fuel with
  | O => diverge
  | S fuel =>
      let* a := onq (queue_rem QGarbage) in
      let* current_alarm := as_alarm a in
      match current_alarm with
      | None => ret tt
      | Some a =>
          upd_alarm a (with_aid_value 0) ;;
          lock_acquire LAlarmPool ;;
          onq (queue_add QAlarmPool (AAlarm a)) ;;
          lock_release LAlarmPool ;;
          garbage_loop fuel
      end
  end.

(** [rounds] bounds the number of alarms handled by one interrupt. *)
Definition alarm_handler (rounds : nat) : K status_t :=
  onq (modify (putq QGarbage DNA_QUEUE_DEFAULTS)) ;;
  let* r := alarm_loop rounds 10 true false DNA_OK in
  match r with
  | inl st => ret st
  | inr reschedule =>
      let* fuel := gets (queue_bound QGarbage) in
      garbage_loop fuel ;;
      ret (if (reschedule : bool) then DNA_INVOKE_SCHEDULER else DNA_OK)
  end.

(** The dead alarms go back to the pool, in order, and lose their identifiers. *)
Lemma garbage_loop_ok U gs : forall fuel s V,
  (length gs < fuel)%nat -> qwf U (kq s) V -> V QGarbage = map AAlarm gs -> locks s !! LAlarmPool = None ->
  wp (garbage_loop fuel) (fun _ s' => exists V' q' A',
    s' = set_kq q' (set_alarms A' s) /\
    qwf U q' V' /\ V' QGarbage = [] /\ V' QAlarmPool = V QAlarmPool ++ map AAlarm gs /\
    (forall q, q <> QGarbage -> q <> QAlarmPool -> V' q = V q) /\
    (forall g, g ∈ gs \/ aid_value (alarm g s) = 0 -> aid_value (alarm g s') = 0) /\
    (forall g, g ∉ gs -> alarm g s' = alarm g s)) s.
Proof.
  induction gs as [|g gs IH]; intros fuel s V Hf Hwf HV Hl; (destruct fuel as [|fuel]; [cbn in Hf; lia|]);
    cbn [garbage_loop map length] in *; apply wp_bind.
  - eapply (wp_queue_rem_nil U V); [done..|]. apply wp_bind, wp_ret, wp_ret. exists V, (kq s), (alarms s).
    rewrite app_nil_r. split_and!; try done; [by destruct s|].
    intros g [Hg|Hg]; [by apply not_elem_of_nil in Hg|done].
  - eapply (wp_queue_rem_cons U V); [done..|]. intros q1 Hq1.
    pose proof (unqueued_popped _ _ _ _ _ _ Hwf HV) as Hu. set (V1 := vupd V QGarbage (map AAlarm gs)) in *.
    assert (AAlarm g ∈ U) as HU by (eapply qwf_in_U; [exact Hwf|rewrite HV; set_solver]).
    apply wp_bind, wp_ret. apply wp_bind, wp_modify. apply wp_bind, wp_lock_acquire; [done|].
    apply wp_bind. eapply (wp_queue_add U V1); [exact Hq1|done|done|]. intros q2 Hq2.
    apply wp_bind, wp_lock_release. eapply wp_mono; [eapply IH; [lia|exact Hq2| |]|].
    + rewrite vupd_ne by done. unfold V1. by rewrite vupd_eq.
    + cbn. by rewrite lookup_delete_eq.
    + intros _ s' (V' & q' & A' & -> & Hwf' & HG & HP & Hother & Haid & Hkeep). exists V', q', A'.
      split_and!; try done.
      * kdestruct s. cbn in Hl |- *. by rewrite delete_insert_free.
      * rewrite HP, vupd_eq. unfold V1. rewrite vupd_ne by done. by rewrite <- app_assoc.
      * intros q H1 H2. rewrite Hother by done. unfold V1. by rewrite !vupd_ne.
      * intros x Hx. apply Haid. unfold alarm. cbn. destruct (decide (x = g)) as [->|Hne].
        { right. by rewrite lookup_insert_eq. }
        rewrite lookup_insert_ne by done. set_solver.
      * intros x [Hx1 Hx2]%not_elem_of_cons. rewrite Hkeep by done. unfold alarm. cbn.
        by rewrite lookup_insert_ne.
Qed.

(** The state in which the handler calls the callback of the alarm that was current on the
    processor [c]: the alarm is in the queue of the dead ones, the processor has no alarm, the
    timer was read twice. *)
Definition before_callback (q1 : qstate) (c : Z) (s : kstate) : kstate :=
  set_kq q1 (set_cpus (<[c := with_current_alarm None (cpu c s)]> (cpus s))
    (set_ticks (S (S (ticks s))) s)).

(** What a callback has to respect: it returns, the queues stay well formed, the dead alarm is
    still alone in its queue, and the lock of the pool is free. *)
Definition callback_ok (U : gset addr) (a : Z) (cb : K status_t) (s1 : kstate) : Prop :=
  exists st s2 V2, cb s1 = Ret st s2 /\ qwf U (kq s2) V2 /\ V2 QGarbage = [AAlarm a] /\
    locks s2 !! LAlarmPool = None.

(** Cut at the callback, the handler of a one-shot alarm: from [s1] the callback goes to [s2],
    and the handler ends in a state that differs from [s2] in the timer, read once more, in the
    dead alarm, and in the queues, where that alarm is back in the pool. *)
Lemma alarm_handler_one_shot_wp U s V a rounds (Q : status_t -> kstate -> Prop) :
  let c := mp_id s in
  let cb := run_callback (callback (alarm a s)) (a_data (alarm a s)) in
  alarm_rep U s V c (Some a) [] -> V QGarbage = [] ->
  locks s !! LCpu c = None -> locks s !! LAlarm a = None ->
  is_invalid (alarm a s) = false -> Z.land (a_mode (alarm a s)) DNA_PERIODIC_ALARM = 0 ->
  (forall q1, qwf U q1 (vupd V QGarbage [AAlarm a]) -> exists st s2 V2,
     cb (before_callback q1 c s) = Ret st s2 /\ qwf U (kq s2) V2 /\ V2 QGarbage = [AAlarm a] /\
     locks s2 !! LAlarmPool = None /\
     forall q' A' V',
       qwf U q' V' -> V' QGarbage = [] -> V' QAlarmPool = V2 QAlarmPool ++ [AAlarm a] ->
       (forall q, q <> QGarbage -> q <> QAlarmPool -> V' q = V2 q) ->
       aid_value (default alarm0 (A' !! a)) = 0 ->
       (forall b, b <> a -> default alarm0 (A' !! b) = alarm b s2) ->
       Q (if st_eqb st DNA_INVOKE_SCHEDULER then DNA_INVOKE_SCHEDULER else DNA_OK)
         (set_kq q' (set_alarms A' (set_ticks (S (ticks s2)) s2)))) ->
  wp (alarm_handler (S rounds)) Q s.
Proof.
  intros c cb [Hwf Hcur Hq _ (Hu & HU & _)] Hg Hl1 Hl2 Hinv Hmode HQ. subst cb.
  unfold alarm_handler. apply wp_bind, wp_onq_modify. apply wp_bind. cbn [alarm_loop]. apply wp_bind.
  unfold alarm_iteration. unfold before_callback in HQ. kdestruct s. cbn in c. subst c. cbn in *.
  pose proof (qwf_reset _ _ _ _ Hwf Hg) as Hwf0. krun. rewrite Hcur. krun. rewrite Hinv, Hmode. cbn [negb andb Z.eqb].
  apply wp_bind. eapply (wp_queue_add U V); [exact Hwf0|done|done|]. intros q1 Hq1. krun.
  rewrite Hg in Hq1. change ([] ++ [AAlarm a]) with [AAlarm a] in Hq1.
  set (V1 := vupd V QGarbage [AAlarm a]) in *.
  rewrite (queue_bound_enough U _ V1) by exact Hq1. replace (V1 (QAlarms me0)) with (@nil addr)
    by (unfold V1; by rewrite vupd_ne). cbn [length next_valid].
  apply wp_bind. eapply (wp_queue_rem_nil U V1); [exact Hq1|unfold V1; by rewrite vupd_ne|]. krun.
  rewrite Hinv. cbn [negb]. krun.
  rewrite (delete_insert_free _ (LAlarm a)) by (by rewrite lookup_insert_ne).
  rewrite delete_insert_free by done.
  destruct (HQ q1 Hq1) as (st & s2 & V2 & Hr & Hwf2 & HG & Hpool & HQ'). clear HQ.
  eapply wp_eq; [exact Hr|]. clear Hr.
  destruct s2 as [q2 L2 T2 nt2 S2 ns2 A2 na2 P2 np2 M2 C2 I2 H2 ir2 me2 tk2 E2]; cbn in Hwf2, Hpool, HQ' |- *. krun.
  match goal with |- wp (if ?b then ?m else ?k) _ ?x => set (s1 := x);
    assert (exists A1, (if b then m else k) s1 = Ret tt (set_alarms A1 s1) /\
      forall z, z <> a -> A1 !! z = alarms s1 !! z) as (A1 & HA1 & HA1o) end.
  { destruct (_ <? _); eexists; (split; [reflexivity|]); intros z Hz; [by apply lookup_insert_ne|done]. }
  eapply wp_eq; [exact HA1|]. apply wp_ret, wp_ret, wp_ret. apply wp_bind, wp_gets. apply wp_bind.
  rewrite (queue_bound_enough U _ V2) by exact Hwf2.
  eapply wp_mono; [apply (garbage_loop_ok U [a] _ _ V2); [rewrite HG; cbn; lia|exact Hwf2|exact HG|done]|].
  intros _ s3 (V' & q' & A' & -> & Hwf' & HG' & HP & Hoth & Haid & Hkeep). apply wp_ret.
  apply (HQ' q' A' V'); try done.
  - apply Haid. left. set_solver.
  - intros b Hb. transitivity (alarm b (set_alarms A1 s1)); [by apply Hkeep; set_solver|].
    unfold alarm. cbn. by rewrite HA1o.
Qed.

(** The dead alarm does not matter to the scheduler, nor does the current one. *)
Lemma before_callback_sched_ok U s V a c q1 :
  sched_ok U (kq s) (locks s) (cpus s) V -> qwf U q1 (vupd V QGarbage [AAlarm a]) ->
  sched_ok U q1 (locks s) (cpus (before_callback q1 c s)) (vupd V QGarbage [AAlarm a]).
Proof.
  intros [_ [H1 H2 H3 H4]]%sched_ok_avail Hq1. apply sched_ok_avail. split; [done|].
  split; rewrite ?vupd_ne by done; try done. intros x (p & -> & Hid & Hi)%H4. exists p.
  split_and!; try done. cbn. destruct (decide (p = c)) as [->|Hp];
    [by rewrite lookup_insert_eq|by rewrite lookup_insert_ne].
Qed.

(** thread_alarm, called by the handler for a sleeping thread. *)
Lemma thread_alarm_called U s V a c t q1 :
  sched_ok U (kq s) (locks s) (cpus s) V -> qwf U q1 (vupd V QGarbage [AAlarm a]) ->
  locks s !! LAlarmPool = None -> locks s !! LThread t = None ->
  t_status (info (thr t s)) = DNA_THREAD_SLEEPING -> unqueued V (AThread t) -> AThread t ∈ U ->
  let T := <[t := with_info (with_t_status DNA_THREAD_READY (info (thr t s))) (thr t s)]> (threads s) in
  exists st V1 L1 E1 q2 s2,
    s2 = set_kq q2 (set_locks L1 (set_events E1 (set_threads T (before_callback q1 c s)))) /\
    run_callback CB_thread_alarm (Some t) (before_callback q1 c s) = Ret st s2 /\
    dispatched (mp_id s) t (affinity (info (thr t s))) (vupd V QGarbage [AAlarm a])
      (<[LThread t := 1]> (locks s)) (events s) st V1 L1 E1 /\
    sched_ok U q2 L1 (cpus s2) V1 /\ V1 QGarbage = [AAlarm a] /\ V1 QAlarmPool = V QAlarmPool /\
    locks s2 !! LAlarmPool = None.
Proof.
  intros Hok Hq1 Hl Hlt Hst Hu HU T.
  pose proof (before_callback_sched_ok U s V a c q1 Hok Hq1) as Hok1.
  assert (unqueued (vupd V QGarbage [AAlarm a]) (AThread t)) as Hu1 by (apply unqueued_vupd; [done|set_solver]).
  pose proof (thread_alarm_wp U (before_callback q1 c s) _ t Hok1 Hu1 HU Hlt Hst) as Hwp.
  apply wp_exists in Hwp as (st & s2 & Hrun & V1 & L1 & E1 & q2 & -> & Hq2 & Hd).
  exists st, V1, L1, E1, q2. eexists. split; [reflexivity|]. split; [exact Hrun|]. split; [exact Hd|].
  split_and!.
  - eapply (dispatched_sched_ok U q1 q2 (<[LThread t := 1]> (locks s))); [|exact Hd|exact Hq2].
    apply sched_ok_avail in Hok1 as [? Ha]. apply sched_ok_avail. split; [done|].
    eapply avail_ok_locks; [|exact Ha]. intros l Hl'. apply lookup_insert_ne. intros <-. naive_solver.
  - rewrite (dispatched_view _ _ _ _ _ _ _ _ _ _ _ Hd) by done. apply vupd_eq.
  - rewrite (dispatched_view _ _ _ _ _ _ _ _ _ _ _ Hd) by done. by rewrite vupd_ne.
  - cbn. rewrite (dispatched_lock _ _ _ _ _ _ _ _ _ _ _ Hd) by done. by rewrite lookup_insert_ne.
Qed.

(** ** Theorems *)

(** C9: when the only pending alarm of the processor is a valid one-shot alarm, the
    handler calls its callback exactly once: from the state [before_callback], where the alarm is
    in the queue of the dead ones and the timer was read twice, to the state [s2] in which the
    callback ends; and the state at the end of the handler is [s2] but for the timer, read once
    more, the dead alarm, which loses its identifier, and the queues, where it is back at the end
    of the pool.  The handler asks for the scheduler exactly when the callback does.  Any
    callback that returns, keeps the queues well formed, leaves the queue of the dead alarms
    alone and does not keep the lock of the pool is covered, the kernel's own ones included. *)
Theorem alarm_handler_one_shot U s V a rounds :
  let c := mp_id s in
  let cb := run_callback (callback (alarm a s)) (a_data (alarm a s)) in
  alarm_rep U s V c (Some a) [] -> V QGarbage = [] ->
  locks s !! LCpu c = None -> locks s !! LAlarm a = None ->
  is_invalid (alarm a s) = false -> Z.land (a_mode (alarm a s)) DNA_PERIODIC_ALARM = 0 ->
  (forall q1, qwf U q1 (vupd V QGarbage [AAlarm a]) -> callback_ok U a cb (before_callback q1 c s)) ->
  exists q1 st s2 V2 q' A' V' s',
    qwf U q1 (vupd V QGarbage [AAlarm a]) /\
    cb (before_callback q1 c s) = Ret st s2 /\ qwf U (kq s2) V2 /\ V2 QGarbage = [AAlarm a] /\
    alarm_handler (S rounds) s =
      Ret (if st_eqb st DNA_INVOKE_SCHEDULER then DNA_INVOKE_SCHEDULER else DNA_OK) s' /\
    s' = set_kq q' (set_alarms A' (set_ticks (S (ticks s2)) s2)) /\
    qwf U q' V' /\ V' QGarbage = [] /\ V' QAlarmPool = V2 QAlarmPool ++ [AAlarm a] /\
    (forall q, q <> QGarbage -> q <> QAlarmPool -> V' q = V2 q) /\
    aid_value (alarm a s') = 0 /\ (forall b, b <> a -> alarm b s' = alarm b s2).
Proof.
  intros c cb Hrep Hg Hl1 Hl2 Hinv Hmode Hcb.
  pose (Post := fun r s' => exists q1 st s2 V2 q' A' V',
    qwf U q1 (vupd V QGarbage [AAlarm a]) /\
    cb (before_callback q1 c s) = Ret st s2 /\ qwf U (kq s2) V2 /\ V2 QGarbage = [AAlarm a] /\
    r = (if st_eqb st DNA_INVOKE_SCHEDULER then DNA_INVOKE_SCHEDULER else DNA_OK) /\
    s' = set_kq q' (set_alarms A' (set_ticks (S (ticks s2)) s2)) /\
    qwf U q' V' /\ V' QGarbage = [] /\ V' QAlarmPool = V2 QAlarmPool ++ [AAlarm a] /\
    (forall q, q <> QGarbage -> q <> QAlarmPool -> V' q = V2 q) /\
    aid_value (alarm a s') = 0 /\ (forall b, b <> a -> alarm b s' = alarm b s2)).
  assert (wp (alarm_handler (S rounds)) Post s) as (r & s' & Hr & HP)%wp_exists.
  { eapply (alarm_handler_one_shot_wp U s V a); [done..|]. intros q1 Hq1.
    destruct (Hcb q1 Hq1) as (st & s2 & V2 & Hrun & Hwf2 & HG & Hpool). exists st, s2, V2.
    split_and!; [done..|]. intros q' A' V' H1 H2 H3 H4 H5 H6. exists q1, st, s2, V2, q', A', V'.
    split_and!; done. }
  destruct HP as (q1 & st & s2 & V2 & q' & A' & V' & HP).
  exists q1, st, s2, V2, q', A', V', s'. destruct HP as (? & ? & ? & ? & -> & ? & ? & ? & ? & ? & ? & ?). by split_and!.
Qed.

(** C30: the alarm of thread_sleep: when the current alarm of the processor is a
    one-shot alarm whose callback is thread_alarm and whose data is a sleeping thread, the handler
    makes the thread ready and dispatches it: the thread is at the end of the ready queue of its
    affinity, or it was sent to a processor that was available.  The handler asks for the
    scheduler exactly when the dispatch does; the other threads are unchanged, the alarm goes
    back to the pool and the invariant of the scheduler is kept. *)
Theorem sleeping_thread_woken U s V a t rounds :
  let c := mp_id s in
  let aff := affinity (info (thr t s)) in
  alarm_rep U s V c (Some a) [] -> V QGarbage = [] ->
  sched_ok U (kq s) (locks s) (cpus s) V ->
  locks s !! LCpu c = None -> locks s !! LAlarm a = None -> locks s !! LAlarmPool = None ->
  is_invalid (alarm a s) = false -> Z.land (a_mode (alarm a s)) DNA_PERIODIC_ALARM = 0 ->
  callback (alarm a s) = CB_thread_alarm -> a_data (alarm a s) = Some t ->
  t_status (info (thr t s)) = DNA_THREAD_SLEEPING -> locks s !! LThread t = None ->
  unqueued V (AThread t) -> AThread t ∈ U ->
  exists st V1 L1 s' V',
    alarm_handler (S rounds) s =
      Ret (if st_eqb st DNA_INVOKE_SCHEDULER then DNA_INVOKE_SCHEDULER else DNA_OK) s' /\
    dispatched c t aff (vupd V QGarbage [AAlarm a]) (<[LThread t := 1]> (locks s)) (events s)
      st V1 L1 (events s') /\ locks s' = L1 /\
    sched_ok U (kq s') (locks s') (cpus s') V' /\
    (AThread t ∈ V' (QReady aff) \/ exists p, ACpu p ∈ V QCpus /\ EvIpi p (DNA_IPI_DISPATCH t) ∈ events s') /\
    (forall q, q <> QGarbage -> q <> QAlarmPool -> V' q = V1 q) /\
    V' QGarbage = [] /\ V' QAlarmPool = V QAlarmPool ++ [AAlarm a] /\
    t_status (info (thr t s')) = DNA_THREAD_READY /\
    (forall u, u <> t -> thr u s' = thr u s) /\ current_alarm (cpu c s') = None.
Proof.
  intros c aff Hrep Hg Hok Hl1 Hl2 Hl3 Hinv Hmode Hcb Hda Hst Hlt Hu HU.
  set (Post := fun r s' => exists st V1 L1 V',
    r = (if st_eqb st DNA_INVOKE_SCHEDULER then DNA_INVOKE_SCHEDULER else DNA_OK) /\
    dispatched c t aff (vupd V QGarbage [AAlarm a]) (<[LThread t := 1]> (locks s)) (events s)
      st V1 L1 (events s') /\ locks s' = L1 /\
    sched_ok U (kq s') (locks s') (cpus s') V' /\
    (AThread t ∈ V' (QReady aff) \/ exists p, ACpu p ∈ V QCpus /\ EvIpi p (DNA_IPI_DISPATCH t) ∈ events s') /\
    (forall q, q <> QGarbage -> q <> QAlarmPool -> V' q = V1 q) /\
    V' QGarbage = [] /\ V' QAlarmPool = V QAlarmPool ++ [AAlarm a] /\
    t_status (info (thr t s')) = DNA_THREAD_READY /\
    (forall u, u <> t -> thr u s' = thr u s) /\ current_alarm (cpu c s') = None).
  enough (wp (alarm_handler (S rounds)) Post s) as (r & s' & Hr & st & V1 & L1 & V' & -> & HP)%wp_exists
    by (by exists st, V1, L1, s', V').
  eapply (alarm_handler_one_shot_wp U s V a); [done..|]. intros q1 Hq1. rewrite Hcb, Hda. cbn [run_callback].
  destruct (thread_alarm_called U s V a c t q1 Hok Hq1 Hl3 Hlt Hst Hu HU)
    as (st & V1 & L1 & E1 & q2 & s2 & -> & Hrun & Hd & Hok2 & HG & HP1 & Hp2).
  exists st. eexists _, V1. split; [exact Hrun|]. split; [exact (so_wf _ _ _ _ _ Hok2)|].
  split; [exact HG|]. split; [exact Hp2|]. intros q' A' V' Hwf' HG' HP' Hoth Haid Hal.
  exists st, V1, L1, V'. kdestruct s. cbn in *.
  split_and!; try done.
  - apply sched_ok_avail in Hok2 as [_ [H1 H2 H3 H4]]. apply sched_ok_avail. split; [done|].
    split; rewrite ?Hoth by done; done.
  - rewrite Hoth by done. destruct (dispatched_present _ _ _ _ _ _ _ _ _ _ Hd) as [Hin|(p & Hp & He)].
    + by left.
    + right. exists p. by rewrite vupd_ne in Hp.
  - by rewrite HP', HP1.
  - by rewrite lookup_insert_eq.
  - intros u Hne. by rewrite lookup_insert_ne.
  - by rewrite lookup_insert_eq.
Qed.

End AlarmHandler.
