(* ===== verification/Interrupt.v ===== *)
(** * Interrupts (interrupt_attach.c, interrupt_detach.c,
      interrupt_handler_inspector.c, interrupt_demultiplexer.c, ipi_handler.c)

    Each processor has a queue of service routines per interrupt line.  The code
    of the routines belongs to the drivers: it is the parameter [run_isr], called
    with the address of the routine and the number of the interrupt. *)

From S2P Require Import Prelude Status Queue Allocator Kernel Logic Memory Scheduler Alarm Thread.

Definition sizeof_isr : Z := 8.

Definition interrupt_handler_inspector (s : kstate) (handler : Z) (isr : addr) : bool :=
  if handler =? 0 then false
  else match isr with
       | AIsr p => default 0 (isrs s !! p) =? handler
       | _ => false
       end.

Definition queue_status (q : qid) (s : kstate) : Z := status (getq q (kq s)).

Section Interrupt.
Context `{Hal} (demultiplexer : Z) (run_isr : Z -> Z -> K status_t).

(** [demultiplexer] is the address of interrupt_demultiplexer; [id] is
    unsigned, [cpuid] signed. *)
Definition interrupt_attach (cpuid id mode handler : Z) (bypass_demux : bool) : K status_t :=
  ensure id <? CPU_TRAP_COUNT orelse DNA_BAD_ARGUMENT in
  ensure cpuid <? cpu_mp_count orelse DNA_BAD_ARGUMENT in
  let* isr := kernel_malloc sizeof_isr true in
  ensure negb (isr =? 0) orelse DNA_OUT_OF_MEM in
  onq (modify (set_next (AIsr isr) None)) ;;
  modify (fun s => set_isrs (<[isr := handler]> (isrs s)) s) ;;
  let* it_status := cpu_trap_mask_and_backup in
  let queue := QIsr cpuid id in
  lock_acquire (LQueue queue) ;;
  onq (queue_add queue (AIsr isr)) ;;
  let* n := gets (queue_status queue) in
  check negb bypass_demux || (bypass_demux && (n =? 1))
    rescue (
      onq (queue_extract queue (Some (AIsr isr))) ;;
      lock_release (LQueue queue) ;;
      cpu_trap_restore it_status ;;
      kernel_free isr ;;
      ret DNA_ERROR) in
  (if n =? 1 then
     emit (EvAttachIsr cpuid id mode (if bypass_demux then handler else demultiplexer)) ;;
     let* me := cpu_mp_id in
     (if cpuid =? me then emit (EvTrapEnable id)
      else
        lock_acquire (LIpi cpuid) ;;
        cpu_mp_send_ipi cpuid (DNA_IPI_TRAP_ENABLE id))
   else ret tt) ;;
  lock_release (LQueue queue) ;;
  cpu_trap_restore it_status ;;
  ret DNA_OK.

Definition interrupt_detach (cpuid id handler : Z) : K status_t :=
  ensure id <? CPU_TRAP_COUNT orelse DNA_BAD_ARGUMENT in
  ensure cpuid <? cpu_mp_count orelse DNA_BAD_ARGUMENT in
  let* it_status := cpu_trap_mask_and_backup in
  let queue := QIsr cpuid id in
  lock_acquire (LQueue queue) ;;
  let* s := gets (fun s => s) in
  let* a := onq (queue_lookup queue (interrupt_handler_inspector s handler)) in
  let* isr := as_isr a in
  match isr with
  | None =>
      lock_release (LQueue queue) ;;
      cpu_trap_restore it_status ;;
      ret DNA_BAD_ARGUMENT
  | Some isr =>
      onq (queue_extract queue (Some (AIsr isr))) ;;
      let* n := gets (queue_status queue) in
      (if n =? 0 then
         let* me := cpu_mp_id in
         (if cpuid =? me then emit (EvTrapDisable id)
          else
            lock_acquire (LIpi cpuid) ;;
            cpu_mp_send_ipi cpuid (DNA_IPI_TRAP_DISABLE id))
       else ret tt) ;;
      lock_release (LQueue queue) ;;
      cpu_trap_restore it_status ;;
      kernel_free isr ;;
      ret DNA_OK
  end.

(** The loop over the routines of the line: the first one that handles the
    interrupt ends it. *)
Fixpoint isr_loop (fuel : nat) (itn : Z) (isr : option addr) (status : status_t) : K status_t :=
  match fuel with
  | O => diverge
  | S fuel =>
      let* p := as_isr isr in
      match p with
      | None => ret status
      | Some p =>
          let* h := gets (fun s => default 0 (isrs s !! p)) in
          let* status := run_isr h itn in
          if st_eqb status DNA_INVOKE_SCHEDULER || st_eqb status DNA_HANDLED_INTERRUPT
          then ret status
          else
            let* nx := gets (fun s => next (AIsr p) (kq s)) in
            isr_loop fuel itn nx status
      end
  end.

Definition interrupt_demultiplexer (itn : Z) : K (switched status_t unit) :=
  let* c := cpu_mp_id in
  let* cv := gets (cpu c) in
  let queue := QIsr c itn in
  ensure itn <? CPU_TRAP_COUNT orelse Returned DNA_BAD_ARGUMENT in
  lock_acquire (LQueue queue) ;;
  let* first := gets (fun s => head (getq queue (kq s))) in
  let* fuel := gets (fun s => walk_fuel (kq s)) in
  let* status := isr_loop fuel itn first DNA_UNHANDLED_INTERRUPT in
  lock_release (LQueue queue) ;;
  if st_eqb status DNA_INVOKE_SCHEDULER then
    let* st := scheduler_elect false in
    ensure negb (st_eqb st.1 DNA_ERROR) && negb (st_eqb st.1 DNA_BAD_ARGUMENT)
      orelse Returned st.1 in
    if negb (st_eqb st.1 DNA_NO_AVAILABLE_THREAD) then
      let* self := deref (current_thread cv) in
      lock_acquire (LThread self) ;;
      upd_info self (with_t_status DNA_THREAD_READY) ;;
      let* idle := gets (fun s => idle_thread (cpu c s)) in
      let* queue :=
        (if negb (opt_tref_eqb (Some self) idle) then
           let* v := gets (thr self) in
           let queue := QReady (affinity (info v)) in
           lock_acquire (LQueue queue) ;;
           onq (queue_add queue (AThread self)) ;;
           ret queue
         else ret queue) in
      let* sw := scheduler_switch st.2 (Some queue) in
      match sw with
      | Returned status => ret (Returned status)
      | Switched _ => ret (Switched tt)
      end
    else ret (Returned DNA_OK)
  else ret (Returned DNA_OK).

Definition interrupt_demultiplexer_resume : K status_t := switch_end ;; ret DNA_OK.

(** [None] is a command that is not one of the four.  [attempts] is the bound of
    thread_suspend. *)
Definition ipi_handler (attempts : nat) (command : option ipi_t)
    : K (switched status_t (option Z)) :=
  let* c := cpu_mp_id in
  let* cv := gets (cpu c) in
  let self := current_thread cv in
  lock_release (LIpi c) ;;
  let invoke target : K (switched status_t (option Z)) :=
    let* self := deref self in
    lock_acquire (LThread self) ;;
    upd_info self (with_t_status DNA_THREAD_READY) ;;
    let* idle := gets (fun s => idle_thread (cpu c s)) in
    let* queue :=
      (if negb (opt_tref_eqb (Some self) idle) then
         let* v := gets (thr self) in
         let queue := QReady (affinity (info v)) in
         lock_acquire (LQueue queue) ;;
         onq (queue_add queue (AThread self)) ;;
         ret (Some queue)
       else ret None) in
    let* sw := scheduler_switch (Some target) queue in
    match sw with
    | Returned status => ret (Returned status)
    | Switched _ => ret (Switched None)
    end in
  match command with
  | Some (DNA_IPI_DISPATCH target) =>
      if opt_tref_eqb self (idle_thread cv) then invoke target
      else
        let* d := scheduler_dispatch target in
        if st_eqb d DNA_INVOKE_SCHEDULER then
          let* st := scheduler_elect false in
          if negb (st_eqb st.1 DNA_NO_AVAILABLE_THREAD) then invoke (default target st.2)
          else ret (Returned st.1)
        else ret (Returned DNA_OK)
  | Some (DNA_IPI_SUSPEND id) =>
      let* sw := thread_suspend attempts id in
      match sw with
      | Returned _ => ret (Returned DNA_OK)
      | Switched f => ret (Switched (Some f))
      end
  | Some (DNA_IPI_TRAP_ENABLE id) => emit (EvTrapEnable id) ;; ret (Returned DNA_OK)
  | Some (DNA_IPI_TRAP_DISABLE id) => emit (EvTrapDisable id) ;; ret (Returned DNA_OK)
  | None => ret (Returned DNA_ERROR)
  end.

(** A frame [Some it_status] belongs to thread_suspend, [None] to the switch of
    the handler itself. *)
Definition ipi_handler_resume (frame : option Z) : K status_t :=
  match frame with
  | Some it_status => thread_suspend_resume it_status ;; ret DNA_OK
  | None => switch_end
  end.

(** ** Theorems *)

Definition handles (st : status_t) : bool :=
  st_eqb st DNA_INVOKE_SCHEDULER || st_eqb st DNA_HANDLED_INTERRUPT.

(** The reference: the routines [ps] in order, up to the first one that handles
    the interrupt; [res] and [eff] are what a routine returns and does. *)
Fixpoint serve_isrs (res : Z -> kstate -> status_t) (eff : Z -> kstate -> kstate) (ps : list Z)
    (st : status_t) (s : kstate) : status_t * kstate :=
  match ps with
  | [] => (st, s)
  | p :: ps =>
      if handles (res p s) then (res p s, eff p s) else serve_isrs res eff ps (res p s) (eff p s)
  end.

Lemma isr_loop_ok (res : Z -> kstate -> status_t) (eff : Z -> kstate -> kstate) itn s0 ps :
  (forall p s, p ∈ ps -> kq s = kq s0 -> isrs s = isrs s0 ->
     run_isr (default 0 (isrs s0 !! p)) itn s = Ret (res p s) (eff p s) /\
     kq (eff p s) = kq s0 /\ isrs (eff p s) = isrs s0) ->
  forall fuel h st s, chain (links (kq s0)) h (map AIsr ps) -> (length ps < fuel)%nat ->
  kq s = kq s0 -> isrs s = isrs s0 ->
  isr_loop fuel itn h st s = Ret (serve_isrs res eff ps st s).1 (serve_isrs res eff ps st s).2.
Proof.
  induction ps as [|p ps IH]; intros Hrun fuel h st s Hc Hf Hk Hi;
    (destruct fuel as [|fuel]; [cbn in Hf; lia|]); cbn [isr_loop serve_isrs map] in *.
  - cbn in Hc. by rewrite Hc.
  - destruct Hc as [-> Hc]. destruct (Hrun p s ltac:(set_solver) Hk Hi) as (Hr & Hk1 & Hi1).
    apply wp_run. apply wp_bind, wp_ret. apply wp_bind, wp_gets. rewrite Hi. apply wp_bind.
    eapply wp_eq; [exact Hr|]. fold (handles (res p s)). destruct (handles (res p s)); [by apply wp_ret|].
    apply wp_bind, wp_gets. unfold next. rewrite Hk1.
    eapply wp_eq; [apply IH; [|exact Hc|cbn in Hf; lia|done|done]|done].
    intros q s' Hq. apply Hrun. set_solver.
Qed.

(** Interrupt_demultiplexer runs the routines of the line in the order of their
    attachment, each at most once, up to the first one that handles the interrupt; when none asks
    for the scheduler it then returns DNA_OK with the locks unchanged.  The routines must not touch
    the queues, the list of routines and the locks. *)
Theorem interrupt_demultiplexer_spec U s V itn ps res eff :
  let c := mp_id s in
  let s1 := set_locks (<[LQueue (QIsr c itn) := 1]> (locks s)) s in
  let r := serve_isrs res eff ps DNA_UNHANDLED_INTERRUPT s1 in
  qwf U (kq s) V -> V (QIsr c itn) = map AIsr ps -> itn < CPU_TRAP_COUNT ->
  locks s !! LQueue (QIsr c itn) = None ->
  (forall p s', p ∈ ps -> kq s' = kq s -> isrs s' = isrs s ->
     run_isr (default 0 (isrs s !! p)) itn s' = Ret (res p s') (eff p s') /\
     kq (eff p s') = kq s /\ isrs (eff p s') = isrs s) ->
  st_eqb r.1 DNA_INVOKE_SCHEDULER = false ->
  interrupt_demultiplexer itn s =
    Ret (Returned DNA_OK) (set_locks (delete (LQueue (QIsr c itn)) (locks r.2)) r.2).
Proof.
  intros c s1 r Hwf HV Hn Hl Hrun Hst. apply wp_run. unfold interrupt_demultiplexer.
  apply wp_bind, wp_gets. apply wp_bind, wp_gets. fold c. rewrite (proj2 (Z.ltb_lt _ _) Hn).
  apply wp_bind. apply wp_lock_acquire; [done|]. apply wp_bind, wp_gets. apply wp_bind, wp_gets. fold s1.
  apply wp_bind. destruct (wf_rep _ _ _ Hwf (QIsr c itn)) as (Hc & _). rewrite HV in Hc.
  pose proof (walk_fuel_enough _ _ _ (QIsr c itn) Hwf) as Hf. rewrite HV, length_map in Hf.
  eapply wp_eq; [apply (isr_loop_ok res eff itn s ps Hrun); [exact Hc|exact Hf|done|done]|].
  fold r. apply wp_bind, wp_lock_release. rewrite Hst. by apply wp_ret.
Qed.

End Interrupt.

Section Ipi.
Context `{Hal}.

(** C10: a thread that was sent to an idle processor runs there: the handler of the
    inter-processor interrupt acknowledges it and switches from the idle thread to that thread. *)
Theorem ipi_dispatch_runs U s V idle t attempts :
  let me := mp_id s in
  qwf U (kq s) V -> locks s !! LQueue QCpus = None -> locks s !! LThread idle = None ->
  current_thread (cpu me s) = Some idle -> idle_thread (cpu me s) = Some idle -> idle <> t ->
  exists s' V', ipi_handler attempts (Some (DNA_IPI_DISPATCH t)) s = Ret (Switched None) s' /\
    qwf U (kq s') V' /\ ACpu me ∉ V' QCpus /\ locks s' !! LIpi me = None /\
    current_thread (cpu me s') = Some t /\ prev_thread (cpu me s') = Some idle /\
    c_status (cpu me s') = DNA_CPU_RUNNING /\
    t_status (info (thr t s')) = DNA_THREAD_RUNNING /\ t_status (info (thr idle s')) = DNA_THREAD_READY.
Proof.
  intros me Hwf Hl Hli Hcur Hidle Hne.
  enough (wp (ipi_handler attempts (Some (DNA_IPI_DISPATCH t))) (fun r s' => r = Switched None /\ exists V',
    qwf U (kq s') V' /\ ACpu me ∉ V' QCpus /\ locks s' !! LIpi me = None /\
    current_thread (cpu me s') = Some t /\ prev_thread (cpu me s') = Some idle /\
    c_status (cpu me s') = DNA_CPU_RUNNING /\
    t_status (info (thr t s')) = DNA_THREAD_RUNNING /\ t_status (info (thr idle s')) = DNA_THREAD_READY) s)
    as Hwp by (apply wp_returns in Hwp as (s' & Hr & V' & H'); by exists s', V').
  unfold ipi_handler. apply wp_bind, wp_gets. apply wp_bind, wp_gets. fold me. rewrite Hcur, Hidle.
  apply wp_bind, wp_lock_release. unfold opt_tref_eqb. rewrite bool_decide_true by done.
  apply wp_bind, wp_ret. apply wp_bind, wp_lock_acquire; [cbn; by rewrite lookup_delete_ne|].
  apply wp_bind, wp_modify. apply wp_bind, wp_gets.
  match goal with |- context [cpu me ?x] => set (s1 := x) end.
  assert (mp_id s1 = me /\ cpu me s1 = cpu me s /\ kq s1 = kq s /\ locks s1 !! LQueue QCpus = None /\
          locks s1 !! LIpi me = None /\ t_status (info (thr idle s1)) = DNA_THREAD_READY)
    as (Hme1 & Hcpu1 & Hk1 & Hl1 & Hipi1 & Hst1).
  { split_and!; try done; [cbn; by rewrite lookup_insert_ne, lookup_delete_ne| |].
    - cbn. by rewrite lookup_insert_ne, lookup_delete_eq.
    - unfold s1, thr at 1, put_thr. cbn. by rewrite lookup_insert_eq. }
  clearbody s1. rewrite Hcpu1, Hidle, bool_decide_true by done. cbn [negb]. apply wp_bind, wp_ret. apply wp_bind.
  eapply wp_mono; [apply (scheduler_switch_wp U s1 V idle t None)|]; rewrite ?Hme1, ?Hcpu1, ?Hk1; try done.
  - intros Hx. congruence.
  - intros r s2 (q' & -> & -> & Hwf2). apply wp_ret. split; [done|]. eexists. split; [exact Hwf2|].
    assert (forall q0, cpu me (set_kq q0 (switch_state idle t None s1)) =
              switch_cpu idle t (timer_value me (ticks s1)) (cpu me s)) as Hc2.
    { intros q0. unfold switch_state, cpu at 1. cbn. rewrite Hme1, lookup_insert_eq. cbn. by rewrite Hcpu1. }
    rewrite vupd_eq, !Hc2. unfold switch_avail, switch_cpu, switch_status, opt_tref_eqb.
    rewrite Hidle, bool_decide_true by done. split_and!; try done.
    + rewrite list_elem_of_filter. naive_solver.
    + apply switch_threads_next.
    + unfold thr. cbn. by rewrite switch_threads_self.
Qed.

End Ipi.
