(* ===== verification/Port.v ===== *)
(** * Ports (port_create.c ... port_write.c)

    A port is a bounded mailbox: [message] holds the free message descriptors,
    [mailbox] the pending ones, and two semaphores count them.  The descriptors
    of port [i] are [AMsg i 0], [AMsg i 1], ...; the bytes of the messages are not
    modelled, only the pointers to them.

    An item of a queue that is not a descriptor (port_read.c queues the port
    itself) faults when it is used as one. *)

From S2P Require Import Prelude Status Queue Allocator Kernel Logic Memory Scheduler Alarm Thread Semaphore.

Definition sizeof_message : Z := 16.

Definition put_msg (m : Z * Z) (v : message_t) (s : kstate) : kstate :=
  set_msgs (<[m := v]> (msgs s)) s.

(** dna_memset (port, 0, sizeof (struct _port)) *)
Definition clear_port (i : Z) : K unit :=
  modify (put_port i port0) ;;
  onq (modify (set_next (APort i) None)) ;;
  onq (modify (putq (QPortMsg i) DNA_QUEUE_DEFAULTS)) ;;
  onq (modify (putq (QPortMail i) DNA_QUEUE_DEFAULTS)) ;;
  modify (put_lock (LQueue (QPortMsg i)) 0) ;;
  modify (put_lock (LQueue (QPortMail i)) 0) ;;
  modify (put_lock (LPort i) 0).

(** dna_memcpy between non-NULL areas when [size] is not 0. *)
Definition memcpy_ptr (dst src size : Z) : K unit :=
  if size =? 0 then ret tt
  else if (dst =? 0) || (src =? 0) then fault else ret tt.

Section Port.
Context `{Hal}.

Definition port_create (name : option (list Z)) (queue_length : Z) (id_ok : bool)
    : K (status_t * option Z) :=
  match name, id_ok with
  | Some name, true =>
      ensure 0 <? queue_length orelse (DNA_BAD_ARGUMENT, None) in
      let* it_status := cpu_trap_mask_and_backup in
      lock_acquire LPortPool ;;
      let* a := onq (queue_rem QPortPool) in
      let* port' := as_port a in
      let pool_error it_status st : K (status_t * option Z) :=
        lock_release LPortPool ;; cpu_trap_restore it_status ;; ret (st, None) in
      match port' with
      | None => pool_error it_status DNA_NO_MORE_PORT
      | Some i =>
          let* v := gets (port i) in
          let index := i16 (pid_index v) in
          clear_port i ;;
          upd_port i (with_pid_index (u16 index)) ;;
          let* counter := gets port_counter in
          upd_port i (with_pid_value (u16 counter)) ;;
          let* n := gets sem_counter in
          modify (set_sem_counter (i16 (n + 1))) ;;
          lock_release LPortPool ;;
          cpu_trap_restore it_status ;;
          let* data := kernel_malloc (u32 (sizeof_message * queue_length)) true in
          upd_port i (with_p_data data) ;;
          let no_mem st : K (status_t * option Z) :=
            let* it_status := cpu_trap_mask_and_backup in
            lock_acquire LPortPool ;;
            onq (queue_add QPortPool (APort i)) ;;
            pool_error it_status st in
          check negb (data =? 0) rescue no_mem DNA_OUT_OF_MEM in
          for_from (Z.to_nat queue_length) 0 (fun j =>
            modify (put_msg (i, j) msg0) ;;
            onq (modify (set_next (AMsg i j) None))) ;;
          for_from (Z.to_nat queue_length) 0 (fun j =>
            onq (queue_add (QPortMsg i) (AMsg i j)) ;; ret tt) ;;
          let wsem_error st : K (status_t * option Z) := kernel_free data ;; no_mem st in
          let* w := semaphore_create (Some name) queue_length true in
          match w with
          | (DNA_OK, Some wid) =>
              upd_port i (with_write_sem wid) ;;
              let* r := semaphore_create (Some name) 0 true in
              match r with
              | (DNA_OK, Some rid) =>
                  upd_port i (with_read_sem rid) ;;
                  let* nm := strcpy_name name in
                  upd_port i (with_p_name nm) ;;
                  upd_port i (with_capacity queue_length) ;;
                  let* v := gets (port i) in
                  ret (DNA_OK, Some (port_id v))
              | (st, _) => semaphore_destroy wid ;; wsem_error st
              end
          | (st, _) => wsem_error st
          end
      end
  | _, _ => ret (DNA_BAD_ARGUMENT, None)
  end.

(** panic (status != DNA_OK) *)
Definition panic_unless_ok (st : status_t) : K unit :=
  if st_eqb st DNA_OK then ret tt else fault.

Definition port_destroy (id : Z) : K status_t :=
  let i := raw_index id in
  ensure i <? DNA_MAX_PORT orelse DNA_BAD_PORT_ID in
  let* it_status := cpu_trap_mask_and_backup in
  lock_acquire LPortPool ;;
  let* v := gets (port i) in
  check port_id v =? id
    rescue (lock_release LPortPool ;; cpu_trap_restore it_status ;; ret DNA_BAD_PORT_ID) in
  upd_port i (with_pid_value 0) ;;
  lock_release LPortPool ;;
  cpu_trap_restore it_status ;;
  let* st := semaphore_destroy (read_sem v) in
  panic_unless_ok st ;;
  let* st := semaphore_destroy (write_sem v) in
  panic_unless_ok st ;;
  for_from (Z.to_nat (capacity v)) 0 (fun j =>
    let* m := gets (msg (i, j)) in
    if negb (m_buffer m =? 0) then kernel_free (m_buffer m) ;; ret tt else ret tt) ;;
  kernel_free (p_data v) ;;
  let* it_status := cpu_trap_mask_and_backup in
  lock_acquire LPortPool ;;
  onq (queue_add QPortPool (APort i)) ;;
  lock_release LPortPool ;;
  cpu_trap_restore it_status ;;
  ret DNA_OK.

Definition port_close (id : Z) : K status_t :=
  let i := raw_index id in
  ensure i <? DNA_MAX_PORT orelse DNA_BAD_PORT_ID in
  let* it_status := cpu_trap_mask_and_backup in
  lock_acquire LPortPool ;;
  let* v := gets (port i) in
  check port_id v =? id
    rescue (lock_release LPortPool ;; cpu_trap_restore it_status ;; ret DNA_BAD_PORT_ID) in
  lock_acquire (LPort i) ;;
  lock_release LPortPool ;;
  upd_port i (with_closed true) ;;
  lock_release (LPort i) ;;
  cpu_trap_restore it_status ;;
  ret DNA_OK.

Fixpoint port_find_loop (n : nat) (index : Z) (name : list Z) (s : kstate) : option Z :=
  match n with
  | O => None
  | S n =>
      let v := port index s in
      if bool_decide (name = p_name v) then Some (port_id v)
      else port_find_loop n (index + 1) name s
  end.

Definition port_find (name : list Z) (id_ok : bool) : K (status_t * option Z) :=
  ensure id_ok orelse (DNA_BAD_ARGUMENT, None) in
  let* it_status := cpu_trap_mask_and_backup in
  lock_acquire LPortPool ;;
  let* r := gets (port_find_loop (Z.to_nat DNA_MAX_PORT) 0 name) in
  lock_release LPortPool ;;
  cpu_trap_restore it_status ;;
  match r with
  | None => ret (DNA_UNKNOWN_PORT, None)
  | Some id => ret (DNA_OK, Some id)
  end.

(** The result is the status and [*p_info]: name, capacity, queue and total
    counts. *)
Definition port_get_info (id : Z) (info_ok : bool)
    : K (status_t * option (list Z * Z * Z * Z)) :=
  let i := raw_index id in
  ensure info_ok orelse (DNA_BAD_ARGUMENT, None) in
  ensure i <? DNA_MAX_PORT orelse (DNA_BAD_PORT_ID, None) in
  let* it_status := cpu_trap_mask_and_backup in
  lock_acquire LPortPool ;;
  let* v := gets (port i) in
  check port_id v =? id
    rescue (lock_release LPortPool ;; cpu_trap_restore it_status ;; ret (DNA_BAD_PORT_ID, None)) in
  lock_acquire (LPort i) ;;
  lock_release LPortPool ;;
  let* v := gets (port i) in
  lock_release (LPort i) ;;
  cpu_trap_restore it_status ;;
  ret (DNA_OK, Some (p_name v, capacity v, queue_count v, total_count v)).

(** Run [k] on the locked port [id], or return an error.  [k] receives the
    index of the port and the interrupt status, and releases both. *)
Definition with_port {A} (id : Z) (bad : status_t -> K A) (k : Z -> Z -> K A) : K A :=
  let i := raw_index id in
  let* it_status := cpu_trap_mask_and_backup in
  lock_acquire LPortPool ;;
  let* v := gets (port i) in
  check port_id v =? id
    rescue (lock_release LPortPool ;; cpu_trap_restore it_status ;; bad DNA_BAD_PORT_ID) in
  lock_acquire (LPort i) ;;
  lock_release LPortPool ;;
  k i it_status.

Definition leave_port (i it_status : Z) : K unit :=
  lock_release (LPort i) ;; cpu_trap_restore it_status.

(** ! port -> closed || port -> mailbox . status != 0 *)
Definition port_usable (i : Z) (s : kstate) : bool :=
  negb (closed (port i s)) || negb (status (getq (QPortMail i) (kq s)) =? 0).

(** semaphore_release with DNA_NO_RESCHEDULE, which never yields. *)
Definition release_quietly (sem_id : Z) : K status_t :=
  let* r := semaphore_release sem_id 1 DNA_NO_RESCHEDULE in
  match r with Returned st => ret st | Switched _ => diverge end.

(** *** port_read: the part before semaphore_acquire returns, and after.  The
    result is the status and [*p_code]. *)

Record port_frame := mkPFrame {
  pf_id : Z;
  pf_rsem : Z;
  pf_wsem : Z;
  pf_arg : Z * Z * Z      (* code, buffer, size *)
}.

Definition port_read_end (f : port_frame) (st : status_t) : K (status_t * option Z) :=
  ensure st_eqb st DNA_OK orelse (st, None) in
  let '(_, buffer, size) := pf_arg f in
  with_port (pf_id f) (fun st => ret (st, None)) (fun i it_status =>
    let* ok := gets (port_usable i) in
    check ok rescue (leave_port i it_status ;; ret (DNA_ERROR, None)) in
    let* a := onq (queue_rem (QPortMail i)) in
    let* m := as_msg a in
    match m with
    | None => leave_port i it_status ;; ret (DNA_ERROR, None)
    | Some m =>
        let* mv := gets (msg m) in
        memcpy_ptr buffer (m_buffer mv) size ;;
        onq (queue_add (QPortMsg i) (APort i)) ;;
        leave_port i it_status ;;
        let* st := release_quietly (pf_wsem f) in
        ret (st, Some (m_code mv))
    end).

Definition port_read (id buffer size flags timeout : Z)
    : K (switched (status_t * option Z) (port_frame * acquire_frame)) :=
  ensure raw_index id <? DNA_MAX_PORT orelse Returned (DNA_BAD_PORT_ID, None) in
  with_port id (fun st => ret (Returned (st, None))) (fun i it_status =>
    let* ok := gets (port_usable i) in
    check ok rescue (leave_port i it_status ;; ret (Returned (DNA_ERROR, None))) in
    let* v := gets (port i) in
    leave_port i it_status ;;
    let f := mkPFrame id (read_sem v) (write_sem v) (0, buffer, size) in
    let* r := semaphore_acquire (read_sem v) 1 flags timeout in
    match r with
    | Returned st => let* r := port_read_end f st in ret (Returned r)
    | Switched af => ret (Switched (f, af))
    end).

Definition port_read_resume (frame : port_frame * acquire_frame) : K (status_t * option Z) :=
  let* st := semaphore_acquire_resume frame.2 in
  port_read_end frame.1 st.

(** *** port_poll *)

Definition port_poll_end (f : port_frame) (st : status_t) : K status_t :=
  ensure st_eqb st DNA_OK orelse st in
  with_port (pf_id f) (fun st => ret st) (fun i it_status =>
    let* ok := gets (port_usable i) in
    check ok rescue (leave_port i it_status ;; ret DNA_ERROR) in
    let* a := onq (queue_rem (QPortMail i)) in
    let* m := as_msg a in
    match m with
    | None => leave_port i it_status ;; ret DNA_ERROR
    | Some m =>
        onq (queue_pushback (QPortMail i) (AMsg m.1 m.2)) ;;
        leave_port i it_status ;;
        release_quietly (pf_rsem f)
    end).

Definition port_poll (id flags timeout : Z)
    : K (switched status_t (port_frame * acquire_frame)) :=
  ensure raw_index id <? DNA_MAX_PORT orelse Returned DNA_BAD_PORT_ID in
  with_port id (fun st => ret (Returned st)) (fun i it_status =>
    let* ok := gets (port_usable i) in
    check ok rescue (leave_port i it_status ;; ret (Returned DNA_ERROR)) in
    let* v := gets (port i) in
    leave_port i it_status ;;
    let f := mkPFrame id (read_sem v) (write_sem v) (0, 0, 0) in
    let* r := semaphore_acquire (read_sem v) 1 flags timeout in
    match r with
    | Returned st => let* r := port_poll_end f st in ret (Returned r)
    | Switched af => ret (Switched (f, af))
    end).

Definition port_poll_resume (frame : port_frame * acquire_frame) : K status_t :=
  let* st := semaphore_acquire_resume frame.2 in
  port_poll_end frame.1 st.

(** *** port_write.  The frame [inr it_status] is left by the thread_yield of
    semaphore_release in the no_mem rescue block. *)

Definition port_write_end (f : port_frame) (st : status_t)
    : K (switched status_t ((port_frame * acquire_frame) + Z)) :=
  ensure st_eqb st DNA_OK orelse Returned st in
  let '(code, buffer, size) := pf_arg f in
  let* message_buffer :=
    (if negb (size =? 0) then kernel_malloc (u32 size) false else ret 0) in
  if negb (size =? 0) && (message_buffer =? 0) then
    let* r := semaphore_release (pf_wsem f) 1 0 in
    match r with
    | Returned _ => ret (Returned DNA_OUT_OF_MEM)
    | Switched y => ret (Switched (inr y))
    end
  else
    (* dna_memcpy (message -> buffer, ...), where [message] is NULL *)
    (if negb (size =? 0) then fault else ret tt) ;;
    let drop : K unit :=
      if negb (message_buffer =? 0) then kernel_free message_buffer ;; ret tt else ret tt in
    with_port (pf_id f) (fun st => drop ;; ret (Returned st)) (fun i it_status =>
      let* ok := gets (port_usable i) in
      check ok rescue (leave_port i it_status ;; drop ;; ret (Returned DNA_ERROR)) in
      let* a := onq (queue_rem (QPortMsg i)) in
      let* m := as_msg a in
      let* m := deref m in
      modify (put_msg m (mkMsg code size message_buffer)) ;;
      onq (queue_add (QPortMail i) (AMsg m.1 m.2)) ;;
      leave_port i it_status ;;
      let* st := release_quietly (pf_rsem f) in
      ret (Returned st)).

Definition port_write (id code buffer size flags timeout : Z)
    : K (switched status_t ((port_frame * acquire_frame) + Z)) :=
  ensure raw_index id <? DNA_MAX_PORT orelse Returned DNA_BAD_PORT_ID in
  with_port id (fun st => ret (Returned st)) (fun i it_status =>
    let* v := gets (port i) in
    leave_port i it_status ;;
    let f := mkPFrame id (read_sem v) (write_sem v) (code, buffer, size) in
    let* r := semaphore_acquire (write_sem v) 1 flags timeout in
    match r with
    | Returned st => port_write_end f st
    | Switched af => ret (Switched (inl (f, af)))
    end).

Definition port_write_resume (frame : (port_frame * acquire_frame) + Z)
    : K (switched status_t ((port_frame * acquire_frame) + Z)) :=
  match frame with
  | inl (f, af) => let* st := semaphore_acquire_resume af in port_write_end f st
  | inr y => semaphore_release_resume y ;; ret (Returned DNA_OUT_OF_MEM)
  end.

(** ** Theorems *)

(** an identifier that is not the one of the port in its slot is rejected by every
    operation on ports, which change nothing. *)
Theorem stale_port_rejected s id code buffer size flags timeout :
  port_id (port (raw_index id) s) <> id -> locks s !! LPortPool = None ->
  port_read id buffer size flags timeout s = Ret (Returned (DNA_BAD_PORT_ID, None)) s /\
  port_write id code buffer size flags timeout s = Ret (Returned DNA_BAD_PORT_ID) s /\
  port_poll id flags timeout s = Ret (Returned DNA_BAD_PORT_ID) s /\
  port_close id s = Ret DNA_BAD_PORT_ID s /\ port_destroy id s = Ret DNA_BAD_PORT_ID s /\
  port_get_info id true s = Ret (DNA_BAD_PORT_ID, None) s.
Proof.
  intros Hid Hl. apply Z.eqb_neq in Hid.
  unfold port_read, port_write, port_poll, port_close, port_destroy, port_get_info, with_port.
  destruct (raw_index id <? DNA_MAX_PORT); [|by repeat split].
  split_and!; apply wp_run; kdestruct s; krun; rewrite Hid; krun; by rewrite delete_insert_free.
Qed.

(** A call that reaches the locked port. *)
Lemma with_port_ok {A} s id (bad : status_t -> K A) k Q :
  let i := raw_index id in
  port_id (port i s) = id -> locks s !! LPortPool = None -> locks s !! LPort i = None ->
  wp (k i (cpsr s)) Q
    (set_cpsr (Z.lor (cpsr s) 0xC0) (set_locks (<[LPort i := 1]> (locks s)) s)) ->
  wp (with_port id bad k) Q s.
Proof.
  intros i Hid Hl1 Hl2 Hk. unfold with_port. fold i. kdestruct s. krun. rewrite Hid, Z.eqb_refl. krun.
  rewrite delete_insert_ne, delete_insert_free in * by (done || by rewrite lookup_insert_ne). exact Hk.
Qed.

(** port_close marks the port and changes nothing else; from then on port_read and
    port_poll fail at once, without any effect, when the mailbox is empty. *)
Theorem port_close_spec s id buffer size flags timeout :
  let i := raw_index id in
  let s' := put_port i (with_closed true (port i s)) s in
  i < DNA_MAX_PORT -> port_id (port i s) = id ->
  locks s !! LPortPool = None -> locks s !! LPort i = None ->
  status (getq (QPortMail i) (kq s)) = 0 ->
  port_close id s = Ret DNA_OK s' /\
  port_read id buffer size flags timeout s' = Ret (Returned (DNA_ERROR, None)) s' /\
  port_poll id flags timeout s' = Ret (Returned DNA_ERROR) s'.
Proof.
  intros i s' Hi Hid Hl1 Hl2 Hq. apply Z.ltb_lt in Hi.
  assert (port_id (port i s') = id) as Hid'.
  { unfold s', port at 1, put_port. cbn. rewrite lookup_insert_eq. exact Hid. }
  assert (forall s0, s0 = set_cpsr (Z.lor (cpsr s') 0xC0) (set_locks (<[LPort i := 1]> (locks s')) s') ->
            port_usable i s0 = false) as Hus.
  { intros s0 ->. unfold port_usable, port. cbn. rewrite lookup_insert_eq. cbn. by rewrite Hq. }
  assert (delete (LPort i) (<[LPort i := 1]> (locks s)) = locks s) as HL by by apply delete_insert_free.
  split_and!.
  - apply wp_run. unfold port_close. fold i. rewrite Hi. unfold s'. kdestruct s. krun.
    rewrite Hid, Z.eqb_refl. krun. by klocks.
  - apply wp_run. unfold port_read. fold i. rewrite Hi. apply with_port_ok; [done..|]. fold i.
    apply wp_bind, wp_gets. rewrite Hus by done. unfold leave_port. repeat kstep.
    split; [done|]. cbn. rewrite HL. by destruct s.
  - apply wp_run. unfold port_poll. fold i. rewrite Hi. apply with_port_ok; [done..|]. fold i.
    apply wp_bind, wp_gets. rewrite Hus by done. unfold leave_port. repeat kstep.
    split; [done|]. cbn. rewrite HL. by destruct s.
Qed.

End Port.
