(* ===== verification/Core.v ===== *)
(** * Life cycle of the core component (core_create.c, core_start.c,
      core_stop.c, core_destroy.c)

    [idle_handler] and [app_entry_point] are the addresses of thread_idle and of
    the entry point of the application. *)

From S2P Require Import Prelude Status Queue Allocator Kernel Logic Memory Scheduler Alarm Thread.

(** DNA_THREAD_SET_DEFAULTS of Core/Thread.h, with the name "thread". *)
Definition DNA_THREAD_DEFAULTS : thread_info_t :=
  mkInfo [116; 104; 114; 101; 97; 100] 0 0 (i32 DNA_NO_AFFINITY) 0
    DNA_THREAD_SUSPENDED DNA_NO_RESOURCE (-1) 0 0 0 0x8000.

(** "IdleThread" and "Main   " *)
Definition idle_name : list Z := [73; 100; 108; 101; 84; 104; 114; 101; 97; 100].
Definition main_name : list Z := [77; 97; 105; 110; 32; 32; 32].

Definition init_thread_pool : K unit :=
  modify (set_thread_counter 1) ;;
  for_from (Z.to_nat DNA_MAX_GROUP) 0 (fun i =>
    for_from (Z.to_nat DNA_MAX_THREAD) 0 (fun j =>
      upd_thr (i, j) (with_tid_group (u8 i)) ;;
      upd_thr (i, j) (with_tid_index (u8 j)) ;;
      onq (queue_add (QThreadPool i) (AThread (i, j))) ;;
      ret tt)).

Definition init_alarm_pool : K unit :=
  modify (set_alarm_counter 1) ;;
  for_from (Z.to_nat DNA_MAX_ALARM) 0 (fun i =>
    upd_alarm i (with_aid_index (u16 i)) ;;
    onq (queue_add QAlarmPool (AAlarm i)) ;;
    ret tt).

Definition init_sem_pool : K unit :=
  modify (set_sem_counter 1) ;;
  for_from (Z.to_nat DNA_MAX_SEM) 0 (fun i =>
    upd_sem i (with_sid_index (u16 i)) ;;
    onq (queue_add QSemPool (ASem i)) ;;
    ret tt).

Definition init_port_pool : K unit :=
  modify (set_port_counter 1) ;;
  for_from (Z.to_nat DNA_MAX_PORT) 0 (fun i =>
    upd_port i (with_pid_index (u16 i)) ;;
    onq (queue_add QPortPool (APort i)) ;;
    ret tt).

Definition init_pools : K unit := init_thread_pool ;; init_alarm_pool ;; init_sem_pool ;; init_port_pool.

Section Core.
Context `{Hal} (idle_handler app_entry_point : Z).

(** The rescue block of core_create. *)
Definition cpu_initialize : K status_t :=
  for_from (Z.to_nat cpu_mp_count) 0 (fun cpu_i =>
    let* cv := gets (cpu cpu_i) in
    match idle_thread cv with
    | None => ret tt
    | Some idle =>
        let* v := gets (thr idle) in
        thread_destroy (thread_id v) ;;
        upd_cpu cpu_i (with_idle_thread None) ;;
        upd_cpu cpu_i (with_current_thread None)
    end) ;;
  ret DNA_ERROR.

(** The loop that creates the idle thread of the processors [cpu_i] ...
    [cpu_i + n - 1]: false when a creation failed. *)
Fixpoint init_cpus (n : nat) (cpu_i : Z) : K bool :=
  match n with
  | O => ret true
  | S n =>
      let i := with_t_name idle_name (with_affinity cpu_i
                 (with_stack_base 0 (with_stack_size DNA_IDLE_STACK_SIZE DNA_THREAD_DEFAULTS))) in
      let* r := thread_create idle_handler 0 i true in
      match r with
      | (DNA_OK, Some tid) =>
          let thread := tid_slot tid in
          upd_info thread (with_t_status DNA_THREAD_READY) ;;
          upd_cpu cpu_i (with_c_id cpu_i) ;;
          upd_cpu cpu_i (with_c_status DNA_CPU_DISABLED) ;;
          upd_cpu cpu_i (with_idle_thread (Some thread)) ;;
          upd_cpu cpu_i (with_current_thread (Some thread)) ;;
          init_cpus n (cpu_i + 1)
      | _ => ret false
      end
  end.

Definition core_create : K status_t :=
  init_pools ;;
  let* ok := init_cpus (Z.to_nat cpu_mp_count) 0 in
  check (ok : bool) rescue cpu_initialize in
  let i := with_t_name main_name (with_affinity (i32 DNA_NO_AFFINITY)
             (with_stack_base 0 (with_stack_size DNA_THREAD_STACK_SIZE DNA_THREAD_DEFAULTS))) in
  let* r := thread_create app_entry_point 0 i true in
  match r with
  | (DNA_OK, Some tid) =>
      upd_cpu 0 (with_current_thread (Some (tid_slot tid))) ;;
      ret DNA_OK
  | _ => cpu_initialize
  end.

(** Up to the load of the context of the first thread of the processor. *)
Definition core_start : K (switched status_t unit) :=
  let* c := cpu_mp_id in
  let* cv := gets (cpu c) in
  match current_thread cv with
  | None => ret (Returned DNA_ERROR)
  | Some thread =>
      lock_acquire (LThread thread) ;;
      (if c =? 0 then upd_cpu c (with_c_status DNA_CPU_RUNNING)
       else
         upd_cpu c (with_c_status DNA_CPU_READY) ;;
         lock_acquire (LQueue QCpus) ;;
         onq (queue_add QCpus (ACpu c)) ;;
         lock_release (LQueue QCpus)) ;;
      upd_info thread (with_t_status DNA_THREAD_RUNNING) ;;
      emit (EvContextLoad thread) ;;
      ret (Switched tt)
  end.

Definition core_stop : K status_t := ret DNA_NOT_IMPLEMENTED.
Definition core_destroy : K status_t := ret DNA_NOT_IMPLEMENTED.

End Core.

(** ** The pools *)

(** The integers [start] ... [start + n - 1]. *)
Fixpoint range (n : nat) (start : Z) : list Z :=
  match n with O => [] | S n => start :: range n (start + 1) end.

Lemma range_length n : forall start, length (range n start) = n.
Proof. induction n; intros start; cbn; [done|by rewrite IHn]. Qed.

Lemma range_elem n : forall start i, i ∈ range n start <-> start <= i < start + Z.of_nat n.
Proof.
  induction n as [|n IH]; intros start i; cbn [range]; [rewrite elem_of_nil; lia|].
  rewrite elem_of_cons, IH. lia.
Qed.

(** A loop whose body prepares a slot (with [effect]) and adds it to the pool. *)
Lemma fill_pool U q (slot : Z -> addr) (body : Z -> K unit) (effect : Z -> kstate -> kstate) n :
  (forall i s, body i s = (onq (queue_add q (slot i)) ;; ret tt) (effect i s)) ->
  (forall i s, kq (effect i s) = kq s) ->
  (forall i t s, effect i (set_kq t s) = set_kq t (effect i s)) ->
  (forall i j, slot i = slot j -> i = j) ->
  forall start s V, qwf U (kq s) V ->
  (forall i, start <= i < start + Z.of_nat n -> unqueued V (slot i) /\ slot i ∈ U) ->
  wp (for_from n start body)
    (fun _ s' => exists t, s' = set_kq t (foldl (fun s i => effect i s) s (range n start)) /\
       qwf U t (vupd V q (V q ++ map slot (range n start)))) s.
Proof.
  intros Hp Hk Hc Hinj. induction n as [|n IH]; intros start s V Hwf Hu; cbn [for_from range map foldl].
  - apply wp_ret. exists (kq s). split; [by destruct s|]. eapply qwf_ext; [|exact Hwf].
    intros q'. unfold vupd. case_decide; [subst; by rewrite app_nil_r|done].
  - destruct (Hu start ltac:(lia)) as [Hs HU]. apply wp_bind. unfold wp at 1. rewrite Hp.
    apply wp_bind. eapply (wp_queue_add U V); [by rewrite Hk|done|done|]. intros t Ht. apply wp_ret.
    eapply wp_mono; [apply (IH (start + 1) (set_kq t (effect start s)) (vupd V q (V q ++ [slot start])) Ht)|].
    + intros i Hi. destruct (Hu i ltac:(lia)) as [Hi1 Hi2]. split; [|done].
      apply unqueued_vupd; [done|]. intros [Hin| Hin%list_elem_of_singleton]%elem_of_app; [by apply (Hi1 q)|].
      apply Hinj in Hin. lia.
    + intros _ s' (t' & -> & Ht'). exists t'. split.
      * clear -Hc. revert t. generalize (effect start s) as s0. induction (range n (start + 1)) as [|i l IH];
          intros s0 t; cbn [foldl]; [by destruct s0|]. rewrite Hc. apply IH.
      * eapply qwf_ext; [|exact Ht']. intros q'. unfold vupd. repeat case_decide; subst; try done.
        by rewrite <- app_assoc.
Qed.

(** What the preparation of the slot [i] established is still there at the end. *)
Lemma foldl_establish (effect : Z -> kstate -> kstate) (P : kstate -> Prop) i l s :
  (forall s, P (effect i s)) -> (forall j s, P s -> P (effect j s)) -> i ∈ l ->
  P (foldl (fun s j => effect j s) s l).
Proof.
  intros H1 H2. revert s. induction l as [|j l IH]; intros s Hi; [by apply not_elem_of_nil in Hi|].
  cbn [foldl]. destruct (decide (i ∈ l)) as [Hin|Hni]; [by apply IH|].
  assert (i = j) as -> by set_solver. clear IH Hi Hni.
  assert (P (effect j s)) as HP by apply H1. revert HP. generalize (effect j s).
  induction l as [|k l IH]; intros s0 HP; cbn [foldl]; [done|]. by apply IH, H2.
Qed.

Lemma foldl_keeps {X} (f : kstate -> X) (effect : Z -> kstate -> kstate) l s :
  (forall j s, f (effect j s) = f s) -> f (foldl (fun s j => effect j s) s l) = f s.
Proof. intros H. revert s. induction l as [|j l IH]; intros s; cbn [foldl]; [done|]. by rewrite IH, H. Qed.

(** Every slot of the pools exists. *)
Definition slots_exist (U : gset addr) : Prop :=
  Z.of_nat (size U) < 2 ^ 32 /\ (forall j, 0 <= j < DNA_MAX_THREAD -> AThread (0, j) ∈ U) /\
  (forall i, 0 <= i < DNA_MAX_ALARM -> AAlarm i ∈ U) /\ (forall i, 0 <= i < DNA_MAX_SEM -> ASem i ∈ U) /\
  (forall i, 0 <= i < DNA_MAX_PORT -> APort i ∈ U).

(** The contents of the pools after their initialization. *)
Definition full_pools : qid -> list addr :=
  vupd (vupd (vupd (vupd (fun _ => []) (QThreadPool 0) (map (fun j => AThread (0, j)) (range (Z.to_nat DNA_MAX_THREAD) 0)))
    QAlarmPool (map AAlarm (range (Z.to_nat DNA_MAX_ALARM) 0))) QSemPool (map ASem (range (Z.to_nat DNA_MAX_SEM) 0)))
    QPortPool (map APort (range (Z.to_nat DNA_MAX_PORT) 0)).

Lemma unqueued_map (V : qid -> list addr) q l (f : Z -> addr) x :
  unqueued V x -> (forall i, x <> f i) -> unqueued (vupd V q (map f l)) x.
Proof. intros Hx Hf. apply unqueued_vupd; [done|]. intros (i & Hi & _)%list_elem_of_fmap. by apply (Hf i). Qed.

(** Effects of the preparation of a slot. *)
Definition thread_slot (j : Z) (s : kstate) : kstate :=
  let s := put_thr (0, j) (with_tid_group (u8 0) (thr (0, j) s)) s in
  put_thr (0, j) (with_tid_index (u8 j) (thr (0, j) s)) s.
Definition alarm_slot (i : Z) (s : kstate) : kstate := put_alarm i (with_aid_index (u16 i) (alarm i s)) s.
Definition sem_slot (i : Z) (s : kstate) : kstate := put_sem i (with_sid_index (u16 i) (sem i s)) s.
Definition port_slot (i : Z) (s : kstate) : kstate := put_port i (with_pid_index (u16 i) (port i s)) s.

(** The hypotheses of [fill_pool] on a queue that is still empty. *)
Definition pool_free (U : gset addr) (V : qid -> list addr) (q : qid) (slot : Z -> addr) (n : nat) : Prop :=
  V q = [] /\ forall i, 0 <= i < Z.of_nat n -> unqueued V (slot i) /\ slot i ∈ U.

Lemma fill_empty_pool U q slot body effect n s V :
  (forall i s, body i s = (onq (queue_add q (slot i)) ;; ret tt) (effect i s)) ->
  (forall i s, kq (effect i s) = kq s) -> (forall i t s, effect i (set_kq t s) = set_kq t (effect i s)) ->
  (forall i j, slot i = slot j -> i = j) -> qwf U (kq s) V -> pool_free U V q slot n ->
  wp (for_from n 0 body) (fun _ s' => exists t,
    s' = set_kq t (foldl (fun s i => effect i s) s (range n 0)) /\
    qwf U t (vupd V q (map slot (range n 0)))) s.
Proof.
  intros Hb Hk Hc Hinj Hwf [Hq Hf].
  eapply wp_mono; [apply (fill_pool U q slot body effect n Hb Hk Hc Hinj 0 s V Hwf Hf)|].
  intros _ s' (t & -> & Ht). exists t. split; [done|]. by rewrite Hq in Ht.
Qed.

Lemma init_thread_pool_ok U s V :
  qwf U (kq s) V -> pool_free U V (QThreadPool 0) (fun j => AThread (0, j)) (Z.to_nat DNA_MAX_THREAD) ->
  wp init_thread_pool (fun _ s' =>
    qwf U (kq s') (vupd V (QThreadPool 0) (map (fun j => AThread (0, j)) (range (Z.to_nat DNA_MAX_THREAD) 0))) /\
    thread_counter s' = 1 /\ locks s' = locks s) s.
Proof.
  intros Hwf Hf. unfold init_thread_pool. apply wp_bind, wp_modify.
  assert (Z.to_nat DNA_MAX_GROUP = 1%nat) as -> by reflexivity.
  generalize dependent (Z.to_nat DNA_MAX_THREAD). intros n Hf. cbn [for_from]. apply wp_bind.
  eapply wp_mono; [eapply (fill_empty_pool U (QThreadPool 0) (fun j => AThread (0, j)) _ thread_slot n _ V)|]; try done.
  - by intros i j [= ->].
  - intros _ s' (t & -> & Ht). apply wp_ret. split; [done|]. cbn [thread_counter locks set_kq].
    rewrite (foldl_keeps thread_counter), (foldl_keeps locks) by done. done.
Qed.

Lemma init_alarm_pool_ok U s V :
  qwf U (kq s) V -> pool_free U V QAlarmPool AAlarm (Z.to_nat DNA_MAX_ALARM) ->
  wp init_alarm_pool (fun _ s' =>
    qwf U (kq s') (vupd V QAlarmPool (map AAlarm (range (Z.to_nat DNA_MAX_ALARM) 0))) /\
    (forall i, 0 <= i < DNA_MAX_ALARM -> aid_index (alarm i s') = i) /\ alarm_counter s' = 1 /\
    thread_counter s' = thread_counter s /\ locks s' = locks s) s.
Proof.
  intros Hwf Hf. unfold init_alarm_pool. apply wp_bind, wp_modify.
  assert (Z.of_nat (Z.to_nat DNA_MAX_ALARM) = DNA_MAX_ALARM) as Hn by reflexivity.
  assert (DNA_MAX_ALARM < 65536) as Hmax by reflexivity.
  generalize dependent (Z.to_nat DNA_MAX_ALARM). intros n Hf Hn.
  eapply wp_mono; [eapply (fill_empty_pool U QAlarmPool AAlarm _ alarm_slot n _ V)|]; try done.
  - by intros i j [= ->].
  - intros _ s' (t & -> & Ht). split; [done|]. cbn [alarm_counter thread_counter locks set_kq].
    rewrite (foldl_keeps thread_counter), (foldl_keeps locks), (foldl_keeps alarm_counter) by done.
    split_and!; try done. intros i Hi.
    apply (foldl_establish alarm_slot (fun s => aid_index (alarm i s) = i) i); [| |apply range_elem; lia].
    + intros s0. unfold alarm, alarm_slot, put_alarm. cbn. rewrite lookup_insert_eq. cbn. by apply u16_id; lia.
    + intros j s0 Hs0. unfold alarm, alarm_slot, put_alarm in *. cbn.
      destruct (decide (j = i)) as [->|Hj]; [rewrite lookup_insert_eq; cbn; by apply u16_id; lia|].
      by rewrite lookup_insert_ne.
Qed.

Lemma init_sem_pool_ok U s V :
  qwf U (kq s) V -> pool_free U V QSemPool ASem (Z.to_nat DNA_MAX_SEM) ->
  wp init_sem_pool (fun _ s' =>
    qwf U (kq s') (vupd V QSemPool (map ASem (range (Z.to_nat DNA_MAX_SEM) 0))) /\
    (forall i, 0 <= i < DNA_MAX_SEM -> sid_index (sem i s') = i) /\ sem_counter s' = 1 /\
    thread_counter s' = thread_counter s /\ alarm_counter s' = alarm_counter s /\
    alarms s' = alarms s /\ locks s' = locks s) s.
Proof.
  intros Hwf Hf. unfold init_sem_pool. apply wp_bind, wp_modify.
  assert (Z.of_nat (Z.to_nat DNA_MAX_SEM) = DNA_MAX_SEM) as Hn by reflexivity.
  assert (DNA_MAX_SEM < 65536) as Hmax by reflexivity.
  generalize dependent (Z.to_nat DNA_MAX_SEM). intros n Hf Hn.
  eapply wp_mono; [eapply (fill_empty_pool U QSemPool ASem _ sem_slot n _ V)|]; try done.
  - by intros i j [= ->].
  - intros _ s' (t & -> & Ht). split; [done|]. cbn [sem_counter alarm_counter alarms thread_counter locks set_kq].
    rewrite (foldl_keeps thread_counter), (foldl_keeps locks), (foldl_keeps alarm_counter),
      (foldl_keeps sem_counter), (foldl_keeps alarms) by done.
    split_and!; try done. intros i Hi.
    apply (foldl_establish sem_slot (fun s => sid_index (sem i s) = i) i); [| |apply range_elem; lia].
    + intros s0. unfold sem, sem_slot, put_sem. cbn. rewrite lookup_insert_eq. cbn. by apply u16_id; lia.
    + intros j s0 Hs0. unfold sem, sem_slot, put_sem in *. cbn.
      destruct (decide (j = i)) as [->|Hj]; [rewrite lookup_insert_eq; cbn; by apply u16_id; lia|].
      by rewrite lookup_insert_ne.
Qed.

Lemma init_port_pool_ok U s V :
  qwf U (kq s) V -> pool_free U V QPortPool APort (Z.to_nat DNA_MAX_PORT) ->
  wp init_port_pool (fun _ s' =>
    qwf U (kq s') (vupd V QPortPool (map APort (range (Z.to_nat DNA_MAX_PORT) 0))) /\
    (forall i, 0 <= i < DNA_MAX_PORT -> pid_index (port i s') = i) /\ sem_counter s' = sem_counter s /\
    thread_counter s' = thread_counter s /\ alarm_counter s' = alarm_counter s /\
    alarms s' = alarms s /\ sems s' = sems s /\ locks s' = locks s) s.
Proof.
  intros Hwf Hf. unfold init_port_pool. apply wp_bind, wp_modify.
  assert (Z.of_nat (Z.to_nat DNA_MAX_PORT) = DNA_MAX_PORT) as Hn by reflexivity.
  assert (DNA_MAX_PORT < 65536) as Hmax by reflexivity.
  generalize dependent (Z.to_nat DNA_MAX_PORT). intros n Hf Hn.
  eapply wp_mono; [eapply (fill_empty_pool U QPortPool APort _ port_slot n _ V)|]; try done.
  - by intros i j [= ->].
  - intros _ s' (t & -> & Ht). split; [done|].
    cbn [sem_counter alarm_counter alarms sems thread_counter locks set_kq].
    rewrite (foldl_keeps thread_counter), (foldl_keeps locks), (foldl_keeps alarm_counter),
      (foldl_keeps sem_counter), (foldl_keeps alarms), (foldl_keeps sems) by done.
    split_and!; try done. intros i Hi.
    apply (foldl_establish port_slot (fun s => pid_index (port i s) = i) i); [| |apply range_elem; lia].
    + intros s0. unfold port, port_slot, put_port. cbn. rewrite lookup_insert_eq. cbn. by apply u16_id; lia.
    + intros j s0 Hs0. unfold port, port_slot, put_port in *. cbn.
      destruct (decide (j = i)) as [->|Hj]; [rewrite lookup_insert_eq; cbn; by apply u16_id; lia|].
      by rewrite lookup_insert_ne.
Qed.

(** A pool whose slots were not put in the queues filled before. *)
Lemma pool_free_vupd U V q slot n q' (f : Z -> addr) l :
  pool_free U V q slot n -> q <> q' -> (forall i j, slot i <> f j) -> pool_free U (vupd V q' (map f l)) q slot n.
Proof.
  intros [Hq Hs] Hne Hf. split; [by rewrite vupd_ne|]. intros i Hi. destruct (Hs i Hi) as [Hu HU].
  split; [|done]. apply unqueued_map; auto.
Qed.

Lemma pool_free_boot U q slot n :
  (forall i, 0 <= i < Z.of_nat n -> slot i ∈ U) -> pool_free U (fun _ => []) q slot n.
Proof. intros HU. split; [done|]. intros i Hi. split; [intros q'; apply not_elem_of_nil|auto]. Qed.

(** At boot, core_create fills the pools: every thread, alarm, semaphore and port
    slot is in its pool, in the order of the indices, and carries its index; no other queue is
    touched. *)
Theorem init_pools_spec U s :
  slots_exist U -> qwf U (kq s) (fun _ => []) ->
  exists s', init_pools s = Ret tt s' /\ qwf U (kq s') full_pools /\
    (forall i, 0 <= i < DNA_MAX_SEM -> sid_index (sem i s') = i) /\
    (forall i, 0 <= i < DNA_MAX_ALARM -> aid_index (alarm i s') = i) /\
    (forall i, 0 <= i < DNA_MAX_PORT -> pid_index (port i s') = i) /\
    sem_counter s' = 1 /\ thread_counter s' = 1 /\ alarm_counter s' = 1 /\ locks s' = locks s.
Proof.
  intros (HU & HUt & HUa & HUs & HUp) Hwf. apply wp_returns. unfold init_pools.
  apply wp_bind. eapply wp_mono; [apply (init_thread_pool_ok U s _ Hwf); by apply pool_free_boot|].
  intros _ s1 (Hwf1 & Ht1 & Hl1).
  apply wp_bind. eapply wp_mono; [apply (init_alarm_pool_ok U s1 _ Hwf1)|].
  { by apply pool_free_vupd; [apply pool_free_boot|..]. }
  intros _ s2 (Hwf2 & Ha2 & Hac2 & Ht2 & Hl2).
  apply wp_bind. eapply wp_mono; [apply (init_sem_pool_ok U s2 _ Hwf2)|].
  { by apply pool_free_vupd; [apply pool_free_vupd; [apply pool_free_boot|..]|..]. }
  intros _ s3 (Hwf3 & Hs3 & Hsc3 & Ht3 & Hac3 & Ha3 & Hl3).
  eapply wp_mono; [apply (init_port_pool_ok U s3 _ Hwf3)|].
  { by apply pool_free_vupd; [apply pool_free_vupd; [apply pool_free_vupd; [apply pool_free_boot|..]|..]|..]. }
  intros [] s4 (Hwf4 & Hp4 & Hsc4 & Ht4 & Hac4 & Ha4 & Hs4 & Hl4).
  unfold alarm, sem in *. rewrite Hs4, Ha4, Ha3. split_and!; try done; congruence.
Qed.
