(* ===== verification/Scenario.v ===== *)
(** * A system with two processors

    A small kernel state on which the theorems of the scheduler, the threads, the
    semaphores and the alarms are instantiated, and the boot of the same system by
    core_create.

    Processor 0 executes the thread (0,2).  The processor 1 is available.  The
    threads (0,3) and (0,4) are ready, (0,5) and (0,6) wait for two and one tokens
    of the semaphore 0, (0,7) waits for the end of (0,2), and (0,8) is suspended.
    The alarms 0 and 1 are pending. *)

From Stdlib Require Import Sorted.
From S2P Require Import Prelude Status Queue Allocator AllocatorSpec Kernel Logic Memory Scheduler Alarm Thread Semaphore AlarmHandler Interrupt Port Core.

#[local] Instance hal2 : Hal := {| cpu_mp_count := 2; timer_value := fun _ n => 100 * Z.of_nat n |}.

Definition queued : list (qid * addr) :=
  [(QCpus, ACpu 1); (QReady 0, AThread (0, 3)); (QReady 2, AThread (0, 4));
   (QSemWait 0, AThread (0, 5)); (QSemWait 0, AThread (0, 6));
   (QThreadWait (0, 2), AThread (0, 7)); (QAlarms 0, AAlarm 1);
   (QAlarmPool, AAlarm 2); (QSemPool, ASem 2)].

Definition items : gset addr :=
  list_to_set (queued.*2 ++ [ACpu 0; AAlarm 0; AThread (0, 0); AThread (0, 2); AThread (0, 8)]).

Definition a_thread (index aff tok : Z) (st : thread_status_t) : thread_t :=
  mkThread None 1 0 index (mkInfo [] 0 0 aff tok st DNA_NO_RESOURCE (-1) 0 0 0 0) false 0 0 0 0.

Definition system (q : list (qid * addr)) : kstate :=
  mkK (layout q) ∅
    (list_to_map
      [((0, 0), a_thread 0 0 0 DNA_THREAD_READY); ((0, 1), a_thread 1 1 0 DNA_THREAD_RUNNING);
       ((0, 2), a_thread 2 0 0 DNA_THREAD_RUNNING); ((0, 3), a_thread 3 0 0 DNA_THREAD_READY);
       ((0, 4), a_thread 4 2 0 DNA_THREAD_READY); ((0, 5), a_thread 5 2 2 DNA_THREAD_WAITING);
       ((0, 6), a_thread 6 0 1 DNA_THREAD_WAITING); ((0, 7), a_thread 7 0 0 DNA_THREAD_WAITING);
       ((0, 8), a_thread 8 2 0 DNA_THREAD_SUSPENDED)]) 9
    (list_to_map [(0, mkSem 7 0 [] 0 0); (1, mkSem 8 1 [] 5 0); (2, mkSem 0 2 [] 0 0)]) 9
    (list_to_map [(0, mkAlarm 1 0 0 0 0 false 500 500 0 (CB_other 0) None);
                  (1, mkAlarm 2 1 0 0 0 false 900 900 0 (CB_other 0) None);
                  (2, mkAlarm 0 2 0 0 0 false 0 0 0 (CB_other 0) None)]) 3
    ∅ 0 ∅
    (list_to_map [(0, mkCpu 0 DNA_CPU_RUNNING 0 None (Some (0, 2)) (Some (0, 0)) (Some 0));
                  (1, mkCpu 1 DNA_CPU_READY 0 None (Some (0, 1)) (Some (0, 1)) None)])
    ∅ (mkM ∅ 0 0 0) 0x10 0 0%nat [].

Definition sys : kstate := system queued.
Definition Vs : qid -> list addr := view queued.

(** The same system when no other thread is ready. *)
Definition quiet : list (qid * addr) := [(QCpus, ACpu 1)].

Ltac in_items := apply elem_of_list_to_set; cbn; set_solver.
Ltac free_item := apply view_unqueued; cbn; set_solver.

(** Cases of the membership in one of the queues. *)
Ltac view_cases H :=
  apply view_elem in H; cbn in H;
  repeat (apply elem_of_cons in H as [H|H]; [try discriminate H|]); [..|by apply not_elem_of_nil in H].

Lemma sys_wf : qwf items (layout queued) Vs.
Proof.
  apply layout_wf.
  - cbn. repeat (apply NoDup_cons; split; [set_solver|]). apply NoDup_nil_2.
  - intros x Hx. apply elem_of_list_to_set, elem_of_app. by left.
  - vm_compute. reflexivity.
Qed.

Lemma quiet_wf : qwf items (layout quiet) (view quiet).
Proof.
  apply layout_wf.
  - cbn. apply NoDup_singleton.
  - intros x Hx. apply elem_of_list_to_set. cbn in *. set_solver.
  - vm_compute. reflexivity.
Qed.

Lemma sys_avail : avail_ok (locks sys) (cpus sys) Vs.
Proof.
  split; [apply NoDup_singleton|done|done|].
  intros x Hx. view_cases Hx. injection Hx as ->. by exists 1.
Qed.

Lemma sys_sched : sched_ok items (kq sys) (locks sys) (cpus sys) Vs.
Proof. apply sched_ok_avail. split; [exact sys_wf|exact sys_avail]. Qed.

Lemma sys_ready : ready_unlocked (locks sys) Vs.
Proof. intros a x Hx. view_cases Hx; injection Hx as _ ->; eauto. Qed.

Lemma sys_running : running_ok items sys Vs (0, 2) (0, 0).
Proof.
  split; try done.
  - split_and!; [in_items|free_item|done].
  - split; [free_item|done].
  - split; [in_items|free_item].
  - exact sys_ready.
Qed.

Lemma sys_sem0 : sem_rep items sys Vs 0 0 [((0, 5), 2); ((0, 6), 1)].
Proof.
  split; try done.
  - exact sys_sched.
  - repeat (apply Forall_cons; split); try apply Forall_nil; vm_compute; done.
Qed.

Lemma sys_sem1 : sem_rep items sys Vs 1 5 [].
Proof. split; try done. exact sys_sched. Qed.

Lemma sys_alarms : alarm_rep items sys Vs 0 (Some 0) [1].
Proof.
  split; try done.
  - exact sys_wf.
  - repeat constructor.
  - split_and!; [free_item|in_items|]. repeat constructor. vm_compute. discriminate.
Qed.

Lemma sys_suspended : names_thread sys (thread_raw 1 0 8).
Proof. by split. Qed.

(** Conclude with what is known of an execution, without evaluating it. *)
Ltac pack := repeat match goal with |- _ /\ _ => split end; assumption.

(** ** The scheduler *)

(** The suspended thread, which runs anywhere, is sent to the processor 1. *)
Lemma scheduler_dispatch_spec_witness :
  exists st s' V', scheduler_dispatch (0, 8) sys = Ret st s' /\
    sched_ok items (kq s') (locks s') (cpus s') V' /\ threads s' = threads sys.
Proof.
  destruct (scheduler_dispatch_spec items sys Vs (0, 8)) as (st & s' & V' & Hr & Hok & Ht & _);
    [exact sys_sched|free_item|in_items|]. exists st, s', V'. pack.
Defined.

Lemma scheduler_elect_spec_witness :
  exists s' V', scheduler_elect false sys = Ret (DNA_OK, Some (0, 3)) s' /\ qwf items (kq s') V' /\
    V' (QReady 0) = [].
Proof.
  destruct (scheduler_elect_spec items sys Vs false) as (r & s' & V' & Hr & Hwf & _ & _ & _ & _ & Hres).
  - exact sys_wf.
  - split; [done|exact sys_ready|done].
  - cbn in Hres. destruct Hres as [-> HV]. exists s', V'. pack.
Defined.

Lemma scheduler_switch_spec_witness :
  exists s' V', scheduler_switch (Some (0, 3)) None sys = Ret (Switched tt) s' /\
    qwf items (kq s') V' /\ (ACpu 0 ∈ V' QCpus <-> Some (0, 0) = Some (0, 3)).
Proof.
  destruct (scheduler_switch_spec items sys Vs (0, 2) (0, 3) None) as (s' & V' & Hr & Hwf & Hav & _);
    [exact sys_wf|done|done|done|in_items| | |].
  - split; [|done]. intros Hx. view_cases Hx.
  - intros q Hx. view_cases Hx; discriminate Hx.
  - exists s', V'. pack.
Defined.

(** ** Threads *)

Lemma thread_exit_spec_witness :
  wp (let* r := thread_exit 42 in match r with Switched _ => switch_end | Returned _ => fault end)
    (fun st s' => st = DNA_OK /\ return_value (thr (0, 2) s') = 42 /\
       t_status (info (thr (0, 2) s')) = DNA_THREAD_ENDED /\
       exists next V1 V2, elected 0 (Some (0, 0)) V1 true (DNA_OK, Some next) V2 /\
         current_thread (cpu 0 s') = Some next) sys.
Proof.
  eapply wp_mono; [apply (thread_exit_spec items sys Vs (0, 2) (0, 0) [(0, 7)] 42)|].
  - exact sys_wf.
  - exact sys_avail.
  - exact sys_running.
  - reflexivity.
  - done.
  - done.
  - intros st s' (next & V1 & V2 & V3 & L1 & L2 & E2 & b & _ & Hel & Hst & _ & _ & _ & _ & Hc & _ & He & Hv & _).
    split_and!; try done. by exists next, V1, V2.
Defined.

Lemma thread_resume_spec_witness :
  wp (thread_resume (thread_raw 1 0 8)) (fun st s' => (st = DNA_OK \/ st = DNA_NO_ERROR) /\
    t_status (info (thr (0, 8) s')) = DNA_THREAD_READY) sys.
Proof.
  eapply wp_mono; [apply (thread_resume_spec items sys Vs (thread_raw 1 0 8))|].
  - exact sys_suspended.
  - exact sys_sched.
  - reflexivity.
  - change (tid_slot (thread_raw 1 0 8)) with (0, 8). free_item.
  - change (tid_slot (thread_raw 1 0 8)) with (0, 8). in_items.
  - intros st s' (st0 & V' & L' & E' & q' & -> & _ & _ & ->). split; [|reflexivity].
    destruct (st_eqb st0 DNA_INVOKE_SCHEDULER); auto.
Defined.

Lemma thread_suspend_ready_spec_witness :
  wp (thread_suspend 1 (thread_raw 1 0 3)) (fun r s' => r = Returned DNA_OK /\
    t_status (info (thr (0, 3) s')) = DNA_THREAD_SUSPENDED) sys.
Proof.
  eapply wp_mono; [apply (thread_suspend_ready_spec items sys Vs (thread_raw 1 0 3) [] [] 0)|].
  - by split.
  - exact sys_wf.
  - reflexivity.
  - reflexivity.
  - reflexivity.
  - intros r s' (q' & -> & _ & ->). split; reflexivity.
Defined.

Lemma thread_yield_alone_witness :
  thread_yield (system quiet) = Ret (Returned DNA_NO_AVAILABLE_THREAD) (system quiet).
Proof.
  apply (thread_yield_alone items (system quiet) (view quiet)); [exact quiet_wf| |reflexivity|reflexivity].
  split; [apply NoDup_singleton|done|done|]. intros x Hx. view_cases Hx. injection Hx as ->. by exists 1.
Defined.

Lemma thread_yield_spec_witness :
  wp (let* r := thread_yield in match r with Switched _ => switch_end | Returned _ => fault end)
    (fun st s' => st = DNA_OK /\ current_thread (cpu 0 s') = Some (0, 3) /\ locks s' = locks sys) sys.
Proof.
  eapply wp_mono; [apply (thread_yield_spec items sys Vs (0, 2) (0, 0) (0, 3))|].
  - exact sys_wf.
  - exact sys_avail.
  - exact sys_running.
  - left. by exists [].
  - intros st s' (V1 & V3 & Hst & _ & _ & _ & Hc & _ & _ & Hl). pack.
Defined.

(** ** Semaphores *)

(** Two tokens: the first waiting thread is served, the second one keeps waiting. *)
Lemma semaphore_release_spec_witness :
  exists s' V', semaphore_release (sem_raw 7 0) 2 DNA_NO_RESCHEDULE sys = Ret (Returned DNA_OK) s' /\
    sem_rep items s' V' 0 0 [((0, 6), 1)] /\ t_status (info (thr (0, 5) s')) = DNA_THREAD_READY.
Proof.
  destruct (semaphore_release_spec items sys Vs 0 0 [((0, 5), 2); ((0, 6), 1)] (sem_raw 7 0) 2
    DNA_NO_RESCHEDULE [(0, 5)] [((0, 6), 1)] 0)
    as (_ & _ & _ & b & s' & V' & L1 & L2 & _ & _ & Hr & Hrep & _ & _ & Hw & _);
    [exact sys_sem0|reflexivity|unfold DNA_MAX_SEM; lia|reflexivity|lia|lia|reflexivity|].
  exists s', V'. split_and!; [by apply Hr|exact Hrep|]. apply Hw. set_solver.
Defined.

Lemma semaphore_acquire_now_witness :
  exists s', semaphore_acquire (sem_raw 8 1) 3 0 0 sys = Ret (Returned DNA_OK) s' /\
    sem_rep items s' Vs 1 2 [].
Proof.
  eexists. apply (semaphore_acquire_now items sys Vs 1 5 [] (sem_raw 8 1) 3 0 0 (0, 2));
    [exact sys_sem1|reflexivity|unfold DNA_MAX_SEM; lia|reflexivity|split; [lia|done]|lia|reflexivity].
Defined.

Lemma semaphore_acquire_would_block_witness :
  semaphore_acquire (sem_raw 8 1) 6 DNA_RELATIVE_TIMEOUT 0 sys = Ret (Returned DNA_WOULD_BLOCK) sys.
Proof.
  apply (semaphore_acquire_would_block items sys Vs 1 5 []);
    [exact sys_sem1|reflexivity|unfold DNA_MAX_SEM; lia|reflexivity|lia|lia|reflexivity].
Defined.

Lemma stale_semaphore_rejected_witness :
  semaphore_acquire (sem_raw 6 0) 1 0 0 sys = Ret (Returned DNA_BAD_SEM_ID) sys /\
  semaphore_release (sem_raw 6 0) 1 0 sys = Ret (Returned DNA_BAD_SEM_ID) sys /\
  semaphore_destroy (sem_raw 6 0) sys = Ret DNA_BAD_SEM_ID sys /\
  semaphore_get_info (sem_raw 6 0) true sys = Ret (DNA_BAD_SEM_ID, None) sys.
Proof.
  apply (stale_semaphore_rejected sys (sem_raw 6 0) 1 0 0); [vm_compute; discriminate|reflexivity|].
  split; [lia|done].
Defined.

Lemma semaphore_acquire_blocks_witness :
  exists next V1 V3 s2 s3,
    elected 0 (Some (0, 0)) Vs true (DNA_OK, Some next) V1 /\
    semaphore_acquire (sem_raw 8 1) 7 0 0 sys =
      Ret (Switched (mkFrame (0, 2) (sem_raw 8 1) 7 (-2) None 0x10)) s2 /\
    switch_end s2 = Ret DNA_OK s3 /\ sem_rep items s3 V3 1 0 [((0, 2), 2)].
Proof.
  destruct (semaphore_acquire_blocks items sys Vs 1 5 [] (sem_raw 8 1) 7 0 0 (0, 2) (0, 0))
    as (next & V1 & V3 & s2 & s3 & He & Hr & Hsw & Hrep & _);
    [exact sys_sem1|exact sys_running|reflexivity|unfold DNA_MAX_SEM; lia|reflexivity|lia|reflexivity|].
  exists next, V1, V3, s2, s3. pack.
Defined.

Lemma semaphore_create_spec_witness :
  wp (semaphore_create (Some [109]) 1 true) (fun r s' => r = (DNA_OK, Some (sem_raw 9 2)) /\
    exists V', sem_rep items s' V' 2 1 []) sys.
Proof.
  eapply wp_mono; [apply (semaphore_create_spec items sys Vs 2 [] [109] 1)|].
  - exact sys_wf.
  - exact sys_avail.
  - reflexivity.
  - reflexivity.
  - reflexivity.
  - unfold DNA_MAX_SEM. lia.
  - reflexivity.
  - reflexivity.
  - reflexivity.
  - cbn. unfold DNA_NAME_LENGTH. lia.
  - lia.
  - intros r s' (id & V' & -> & _ & _ & Hid & Hrep & _ & Hs). split; [|by exists V'].
    rewrite <- Hid, Hs. reflexivity.
Defined.

(** ** Alarms *)

(** An alarm in 300 ticks comes before the two pending ones. *)
Lemma alarm_create_spec_witness :
  wp (alarm_create 300 DNA_ONE_SHOT_RELATIVE_ALARM CB_thread_alarm (Some (0, 2))) (fun r s' =>
    deadline (alarm 2 s') = 300 /\ locks s' = locks sys /\ exists V' cur l,
      alarm_rep items s' V' 0 cur l /\ opt_list cur ++ l ≡ₚ [2; 0; 1]) sys.
Proof.
  eapply wp_mono; [apply (alarm_create_spec items sys Vs (Some 0) [1] 2 [] (0, 2) 300
    DNA_ONE_SHOT_RELATIVE_ALARM CB_thread_alarm (Some (0, 2)))|].
  - exact sys_alarms.
  - reflexivity.
  - reflexivity.
  - reflexivity.
  - reflexivity.
  - reflexivity.
  - by right.
  - cbn. lia.
  - cbn. lia.
  - cbn. lia.
  - intros r s' (V' & cur' & l' & _ & Hrep & Hp & Hd & _ & _ & _ & _ & _ & Hl & _).
    split; [exact Hd|]. split; [exact Hl|]. exists V', cur', l'. pack.
Defined.

(** The thread (0,8), which runs anywhere, sleeps until the alarm 0. *)
Definition asleep : kstate :=
  set_threads (<[(0, 8) := a_thread 8 2 0 DNA_THREAD_SLEEPING]> (threads (system quiet)))
    (set_alarms (<[0 := mkAlarm 1 0 DNA_ONE_SHOT_RELATIVE_ALARM 0 0 false 500 500 0 CB_thread_alarm
                          (Some (0, 8))]> (alarms (system quiet))) (system quiet)).

Lemma asleep_alarm : alarm_rep items asleep (view quiet) 0 (Some 0) [].
Proof.
  split; [exact quiet_wf|reflexivity|reflexivity|constructor|].
  split; [free_item|]. split; [in_items|constructor].
Qed.

Lemma asleep_sched : sched_ok items (kq asleep) (locks asleep) (cpus asleep) (view quiet).
Proof.
  apply sched_ok_avail. split; [exact quiet_wf|]. split; [apply NoDup_singleton|done|done|].
  intros x Hx. view_cases Hx. injection Hx as ->. by exists 1.
Qed.

(** The callback of the kernel: the thread that sleeps is dispatched. *)
Lemma alarm_handler_one_shot_witness :
  exists q1 st s2 V2 s', run_callback (fun _ _ => ret DNA_OK) CB_thread_alarm (Some (0, 8))
      (before_callback q1 0 asleep) = Ret st s2 /\
    alarm_handler (fun _ _ => ret DNA_OK) 1 asleep =
      Ret (if st_eqb st DNA_INVOKE_SCHEDULER then DNA_INVOKE_SCHEDULER else DNA_OK) s' /\
    threads s' = threads s2 /\ events s' = events s2 /\ locks s' = locks s2 /\
    qwf items (kq s2) V2 /\ aid_value (alarm 0 s') = 0.
Proof.
  destruct (alarm_handler_one_shot (fun _ _ => ret DNA_OK) items asleep (view quiet) 0 0)
    as (q1 & st & s2 & V2 & q' & A' & V' & s' & _ & Hcb & Hwf2 & _ & Hr & Hs & _ & _ & _ & _ & Haid & _).
  - exact asleep_alarm.
  - reflexivity.
  - reflexivity.
  - reflexivity.
  - reflexivity.
  - reflexivity.
  - intros q1 Hq1.
    destruct (thread_alarm_called (fun _ _ => ret DNA_OK) items asleep (view quiet) 0 0 (0, 8) q1)
      as (st & V1 & L1 & E1 & q2 & s2 & -> & Hrun & _ & [Hq2 _ _ _] & HG & _ & Hp);
      [exact asleep_sched|exact Hq1|done|done|done|free_item|in_items|].
    exists st. eexists _, V1. split_and!; [exact Hrun|exact Hq2|exact HG|exact Hp].
  - exists q1, st, s2, V2, s'. split_and!; [exact Hcb|exact Hr|by rewrite Hs..|exact Hwf2|exact Haid].
Defined.

Lemma sleeping_thread_woken_witness :
  exists r s', alarm_handler (fun _ _ => ret DNA_OK) 1 asleep = Ret r s' /\
    t_status (info (thr (0, 8) s')) = DNA_THREAD_READY /\ current_alarm (cpu 0 s') = None.
Proof.
  destruct (sleeping_thread_woken (fun _ _ => ret DNA_OK) items asleep (view quiet) 0 (0, 8) 0)
    as (st & V1 & L1 & s' & V' & Hr & _ & _ & _ & _ & _ & _ & _ & Ht & _ & Hc); try reflexivity.
  - exact asleep_alarm.
  - exact asleep_sched.
  - free_item.
  - eexists _, s'. split; [exact Hr|]. by split.
Defined.

(** ** Interrupts *)

(** One routine, at 0x700, on the line 5; it masks the line. *)
Definition line5 : list (qid * addr) := [(QIsr 0 5, AIsr 64)].
Definition line5_sys : kstate := set_isrs {[64 := 0x700]} (system line5).
Definition mask_line (_ itn : Z) : K status_t := emit (EvTrapDisable itn) ;; ret DNA_HANDLED_INTERRUPT.

Lemma interrupt_demultiplexer_spec_witness :
  interrupt_demultiplexer mask_line 5 line5_sys =
    Ret (Returned DNA_OK)
      (set_locks (delete (LQueue (QIsr 0 5)) (<[LQueue (QIsr 0 5) := 1]> ∅))
        (set_events [EvTrapDisable 5] (set_locks (<[LQueue (QIsr 0 5) := 1]> ∅) line5_sys))).
Proof.
  apply (interrupt_demultiplexer_spec mask_line {[AIsr 64]} line5_sys (view line5) 5 [64]
    (fun _ _ => DNA_HANDLED_INTERRUPT) (fun _ s => set_events (EvTrapDisable 5 :: events s) s)).
  - apply layout_wf; [apply NoDup_singleton|set_solver|vm_compute; reflexivity].
  - reflexivity.
  - vm_compute. reflexivity.
  - reflexivity.
  - intros p s' _ Hk Hi. split; [reflexivity|]. split; [exact Hk|exact Hi].
  - reflexivity.
Defined.

(** The processor 1, idle, has received the thread (0,8). *)
Definition sys1 : kstate :=
  set_mp_id 1 (set_locks (<[LIpi 1 := 1]> (<[LThread (0, 8) := 1]> ∅)) (system [])).

Lemma ipi_dispatch_runs_witness :
  exists s' V', ipi_handler 1 (Some (DNA_IPI_DISPATCH (0, 8))) sys1 = Ret (Switched None) s' /\
    qwf items (kq s') V' /\ current_thread (cpu 1 s') = Some (0, 8).
Proof.
  destruct (ipi_dispatch_runs items sys1 (fun _ => []) (0, 1) (0, 8) 1)
    as (s' & V' & Hr & Hwf & _ & _ & Hc & _);
    [apply boot_queues_wf; vm_compute; reflexivity|reflexivity|reflexivity|reflexivity|reflexivity|done|].
  exists s', V'. pack.
Defined.

(** ** Ports *)

Definition port_sys : kstate := set_ports {[0 := mkPort 3 0 false [] 4 0 0 0 0 0]} sys.

Lemma stale_port_rejected_witness :
  port_read (sem_raw 2 0) 0 0 0 0 port_sys = Ret (Returned (DNA_BAD_PORT_ID, None)) port_sys /\
  port_close (sem_raw 2 0) port_sys = Ret DNA_BAD_PORT_ID port_sys.
Proof.
  destruct (stale_port_rejected port_sys (sem_raw 2 0) 0 0 0 0 0) as (Hr & _ & _ & Hc & _);
    [vm_compute; discriminate|reflexivity|]. pack.
Defined.

Lemma port_close_spec_witness :
  port_close (sem_raw 3 0) port_sys =
    Ret DNA_OK (put_port 0 (with_closed true (port 0 port_sys)) port_sys).
Proof.
  destruct (port_close_spec port_sys (sem_raw 3 0) 0 0 0 0) as (Hc & _);
    [vm_compute; reflexivity|reflexivity|reflexivity|reflexivity|vm_compute; reflexivity|]. exact Hc.
Defined.

(** ** Boot *)

Definition all_slots : gset addr :=
  list_to_set (map (fun j => AThread (0, j)) (range (Z.to_nat DNA_MAX_THREAD) 0) ++
               map AAlarm (range (Z.to_nat DNA_MAX_ALARM) 0) ++
               map ASem (range (Z.to_nat DNA_MAX_SEM) 0) ++ map APort (range (Z.to_nat DNA_MAX_PORT) 0)).

(** The kernel when the processors leave the boot loader: all the globals are 0. *)
Definition bare : kstate := mkK boot_queues ∅ ∅ 0 ∅ 0 ∅ 0 ∅ 0 ∅ ∅ ∅ (mkM ∅ 0 0 0) 0 0 0%nat [].

Lemma all_slots_size : Z.of_nat (size all_slots) < 2 ^ 32.
Proof.
  unfold all_slots. eapply Z.le_lt_trans; [apply inj_le, size_list_to_set_le|].
  rewrite !length_app, !length_map, !range_length, !Nat2Z.inj_add, !Z2Nat.id by done. reflexivity.
Qed.

Lemma all_slots_exist : slots_exist all_slots.
Proof.
  split; [apply all_slots_size|].
  assert (forall n (f : Z -> addr) i, 0 <= i < Z.of_nat n -> f i ∈ map f (range n 0)) as Hin.
  { intros n f i Hi. apply list_elem_of_fmap. exists i. split; [done|]. apply range_elem. lia. }
  split_and!; intros i Hi; apply elem_of_list_to_set; rewrite !elem_of_app.
  - left. by apply (Hin _ (fun j => AThread (0, j))).
  - right. left. by apply Hin.
  - right. right. left. by apply Hin.
  - right. right. right. by apply Hin.
Qed.

Lemma init_pools_spec_witness :
  exists s', init_pools bare = Ret tt s' /\ qwf all_slots (kq s') full_pools.
Proof.
  destruct (init_pools_spec all_slots bare) as (s' & Hr & Hwf & _);
    [exact all_slots_exist|apply boot_queues_wf, all_slots_size|].
  exists s'. pack.
Defined.

(** With a heap of one megabyte, core_create makes the idle threads (0,0) and (0,1)
    and gives the thread (0,2), the application, to the processor 0; every lock is
    free. *)
Definition boot : K status_t :=
  onheap (memory_create 0x100000 0x100000) ;; core_create 0x8000 0x9000.

Lemma core_create_boots :
  match boot bare with
  | Ret st s =>
      Some (st, size (locks s), current_thread (cpu 0 s), handler (thr (0, 2) s),
            map (fun c => idle_thread (cpu c s)) [0; 1],
            map (fun t => t_status (info (thr t s))) [(0, 0); (0, 1)],
            status (getq (QThreadPool 0) (kq s)), status (getq QSemPool (kq s)))
  | _ => None
  end =
  Some (DNA_OK, 0%nat, Some (0, 2), 0x9000, [Some (0, 0); Some (0, 1)],
        [DNA_THREAD_READY; DNA_THREAD_READY], 61, 4096).
Proof. vm_compute. reflexivity. Qed.
