(* ===== verification/Rdv.v ===== *)
(** * Rendez-vous channels (RendezVousChannelDriver)

    A channel moves bytes from a writer to a reader without a buffer: the first that
    comes publishes the address of its own bytes and waits on the semaphore of the
    channel; the other one copies the bytes and wakes the first.

    The channels are objects of the kernel heap, with their addresses; the bytes of the
    threads are in the flat memory of CLib.v.  A call that waits is cut at the context
    switch, as in Semaphore.v: it gives the frame that its end, after the switch, needs.

    Strings are lists of characters. *)

From S2P Require Import Prelude Status CLib Queue Allocator Kernel Logic Memory Scheduler Alarm Thread Semaphore AlarmHandler Interrupt Port Core Scenario.

Definition RDV_RTEST : Z := 0x0FFF.
Definition RDV_WTEST : Z := 0x1000.
Definition RDV_RESET : Z := 0x1001.

Record channel_rdv_t := mkRdv {
  rdv_sem : Z;
  setter_buffer : Z;
  setter_ready : bool;
  getter_buffer : Z;
  getter_ready : bool
}.

Definition sizeof_channel_rdv : Z := 96.
Definition sizeof_pointer : Z := 4.

(** rdv -> lock *)
Definition LRdv (p : Z) : lock := LNamed 5 p.

(** [names] are the strings in the heap; [rdv_devices] and [rdv] are the global variables,
    [published] the array at the address [rdv_devices]. *)
Record rdvs := mkRdvs {
  r_kern : kstate;
  r_mem : mem;
  channels : gmap Z channel_rdv_t;
  names : gmap Z (list Z);
  published : gmap Z Z;
  rdv_devices : Z;
  rdv : Z
}.

Definition set_r_kern v s := mkRdvs v (r_mem s) (channels s) (names s) (published s) (rdv_devices s) (rdv s).
Definition set_r_mem v s := mkRdvs (r_kern s) v (channels s) (names s) (published s) (rdv_devices s) (rdv s).
Definition set_channels v s := mkRdvs (r_kern s) (r_mem s) v (names s) (published s) (rdv_devices s) (rdv s).
Definition set_names v s := mkRdvs (r_kern s) (r_mem s) (channels s) v (published s) (rdv_devices s) (rdv s).
Definition set_published v s := mkRdvs (r_kern s) (r_mem s) (channels s) (names s) v (rdv_devices s) (rdv s).
Definition set_rdv_devices v s := mkRdvs (r_kern s) (r_mem s) (channels s) (names s) (published s) v (rdv s).
Definition set_rdv v s := mkRdvs (r_kern s) (r_mem s) (channels s) (names s) (published s) (rdv_devices s) v.

Definition with_rdv_sem x c := mkRdv x (setter_buffer c) (setter_ready c) (getter_buffer c) (getter_ready c).
Definition with_setter_buffer x c := mkRdv (rdv_sem c) x (setter_ready c) (getter_buffer c) (getter_ready c).
Definition with_setter_ready x c := mkRdv (rdv_sem c) (setter_buffer c) x (getter_buffer c) (getter_ready c).
Definition with_getter_buffer x c := mkRdv (rdv_sem c) (setter_buffer c) (setter_ready c) x (getter_ready c).
Definition with_getter_ready x c := mkRdv (rdv_sem c) (setter_buffer c) (setter_ready c) (getter_buffer c) x.

Section Rdv.
Context `{Hal}.
Context (CHANNEL_RDV_NDEV : Z).   (* the number of channels, of the configuration *)

Definition onkern {A} (m : K A) : M rdvs A := lift r_kern set_r_kern m.
Definition onmem {A} (m : M mem A) : M rdvs A := lift r_mem set_r_mem m.
Definition rd_channel (p : Z) : M rdvs channel_rdv_t := let* m := gets channels in deref (m !! p).
Definition wr_channel (p : Z) (f : channel_rdv_t -> channel_rdv_t) : M rdvs unit :=
  let* c := rd_channel p in modify (fun s => set_channels (<[p := f c]> (channels s)) s).

(** ** Transfers *)

(** semaphore_acquire (rdv -> sem, 1, 0, -1), its status being ignored, and the restoration
    of the interrupts. *)
Definition rdv_wait (sem it_status : Z) : M rdvs (switched status_t (acquire_frame * Z)) :=
  let* r := onkern (semaphore_acquire sem 1 0 (-1)) in
  match r with
  | Switched f => ret (Switched (f, it_status))
  | Returned _ => onkern (cpu_trap_restore it_status) ;; ret (Returned DNA_OK)
  end.

(** The end of a call that waited. *)
Definition rdv_resume (f : acquire_frame * Z) : M rdvs status_t :=
  onkern (semaphore_acquire_resume f.1) ;;
  onkern (cpu_trap_restore f.2) ;;
  ret DNA_OK.

(** semaphore_release (rdv -> sem, 1, DNA_NO_RESCHEDULE), which never switches. *)
Definition rdv_wake (sem it_status : Z) : M rdvs (switched status_t (acquire_frame * Z)) :=
  onkern (semaphore_release sem 1 DNA_NO_RESCHEDULE) ;;
  onkern (cpu_trap_restore it_status) ;;
  ret (Returned DNA_OK).

Definition rdv_read (handler destination count : Z) : M rdvs (switched status_t (acquire_frame * Z)) :=
  let* it_status := onkern cpu_trap_mask_and_backup in
  onkern (lock_acquire (LRdv handler)) ;;
  let* c := rd_channel handler in
  if negb (setter_ready c) then
    wr_channel handler (with_getter_ready true) ;;
    wr_channel handler (with_getter_buffer destination) ;;
    onkern (lock_release (LRdv handler)) ;;
    let* c := rd_channel handler in
    rdv_wait (rdv_sem c) it_status
  else
    wr_channel handler (with_setter_ready false) ;;
    wr_channel handler (with_getter_ready false) ;;
    let* c := rd_channel handler in
    onmem (dna_memcpy destination (setter_buffer c) count) ;;
    onkern (lock_release (LRdv handler)) ;;
    let* c := rd_channel handler in
    rdv_wake (rdv_sem c) it_status.

Definition rdv_write (handler source count : Z) : M rdvs (switched status_t (acquire_frame * Z)) :=
  let* it_status := onkern cpu_trap_mask_and_backup in
  onkern (lock_acquire (LRdv handler)) ;;
  let* c := rd_channel handler in
  if negb (getter_ready c) then
    wr_channel handler (with_setter_ready true) ;;
    wr_channel handler (with_setter_buffer source) ;;
    onkern (lock_release (LRdv handler)) ;;
    let* c := rd_channel handler in
    rdv_wait (rdv_sem c) it_status
  else
    wr_channel handler (with_getter_ready false) ;;
    wr_channel handler (with_setter_ready false) ;;
    let* c := rd_channel handler in
    onmem (dna_memcpy (getter_buffer c) source count) ;;
    onkern (lock_release (LRdv handler)) ;;
    let* c := rd_channel handler in
    rdv_wake (rdv_sem c) it_status.

(** The status, [*p_res], and [*result] for the two tests. *)
Definition rdv_control (handler operation : Z) : M rdvs (status_t * Z * option bool) :=
  let* it_status := onkern cpu_trap_mask_and_backup in
  onkern (lock_acquire (LRdv handler)) ;;
  let* c := rd_channel handler in
  let* r :=
    (if operation =? RDV_RTEST then
       ret (if setter_ready c then (DNA_OK, 1, Some true) else (DNA_OK, 0, Some false))
     else if operation =? RDV_WTEST then
       ret (if getter_ready c then (DNA_OK, 1, Some true) else (DNA_OK, 0, Some false))
     else if operation =? RDV_RESET then
       if getter_ready c || setter_ready c then
         wr_channel handler (with_getter_ready false) ;;
         wr_channel handler (with_setter_ready false) ;;
         onkern (semaphore_release (rdv_sem c) 1 DNA_NO_RESCHEDULE) ;;
         ret (DNA_OK, 1, None)
       else ret (DNA_OK, 0, None)
     else ret (DNA_ERROR, -1, None)) in
  onkern (lock_release (LRdv handler)) ;;
  onkern (cpu_trap_restore it_status) ;;
  ret r.

(** ** The driver *)

(** dna_atoi on the string [l] from its character [i]: the string is in a memory of its
    own. *)
Definition atoi_at (l : list Z) (i : Z) : M rdvs Z :=
  match dna_atoi (1 + i) (written ∅ 1 (l ++ [0])) with
  | Ret v _ => ret v
  | Diverge => diverge
  | _ => fault
  end.

(** The status and [*data]; [None] is the NULL name. *)
Definition rdv_open (name : option (list Z)) : M rdvs (status_t * Z) :=
  match name with
  | None => ret (DNA_ERROR, 0)
  | Some name =>
      let* id := atoi_at name 19 in
      ensure (0 <=? id) && (id <? CHANNEL_RDV_NDEV) orelse (DNA_ERROR, 0) in
      let* p := gets rdv in
      ret (DNA_OK, p + id * sizeof_channel_rdv)
  end.

Definition rdv_close (data : Z) : M rdvs status_t := ret DNA_NOT_IMPLEMENTED.
Definition rdv_free (data : Z) : M rdvs status_t := ret DNA_NOT_IMPLEMENTED.
Definition rdv_init_hardware : M rdvs status_t := ret DNA_OK.

(** "channel/rendezvous/" *)
Definition rdv_base : list Z := [99; 104; 97; 110; 110; 101; 108; 47; 114; 101; 110; 100; 101; 122; 118; 111; 117; 115; 47].
Definition rdv_name (i : Z) : list Z := rdv_base ++ rev (itoa_ascii i).

(** rdv_devices[i], an element of an array of [CHANNEL_RDV_NDEV + 1] pointers. *)
Definition rd_device (i : Z) : M rdvs Z := let* m := gets published in deref (m !! i).
Definition wr_device (i v : Z) : M rdvs unit :=
  let* _ := rd_device i in modify (fun s => set_published (<[i := v]> (published s)) s).

(** kernel_malloc of the two arrays, cleared. *)
Definition alloc_devices : M rdvs unit :=
  let* p := onkern (kernel_malloc (u32 (sizeof_pointer * (CHANNEL_RDV_NDEV + 1))) true) in
  modify (set_rdv_devices p) ;;
  if p =? 0 then modify (set_published ∅)
  else modify (set_published (list_to_map ((fun i => (Z.of_nat i, 0)) <$> seq 0 (Z.to_nat (CHANNEL_RDV_NDEV + 1))))).
Definition alloc_channels : M rdvs unit :=
  let* p := onkern (kernel_malloc (u32 (sizeof_channel_rdv * CHANNEL_RDV_NDEV)) true) in
  modify (set_rdv p) ;;
  if p =? 0 then ret tt
  else modify (fun s => set_channels
    (list_to_map ((fun i => (p + Z.of_nat i * sizeof_channel_rdv, mkRdv 0 0 false 0 false)) <$> seq 0 (Z.to_nat CHANNEL_RDV_NDEV))
     ∪ channels s) s).

(** invalid_buffer: the names are freed, then the array of their addresses. *)
Definition free_devices : M rdvs unit :=
  for_from (Z.to_nat CHANNEL_RDV_NDEV) 0 (fun i =>
    let* p := rd_device i in
    if negb (p =? 0) then onkern (kernel_free p) ;; ret tt else ret tt) ;;
  let* p := gets rdv_devices in
  onkern (kernel_free p) ;;
  ret tt.

(** The loop of rdv_init_driver from [i]. *)
Fixpoint init_loop (k : nat) (i : Z) : M rdvs status_t :=
  match k with
  | O => wr_device i 0 ;; ret DNA_OK
  | S k =>
      let* buffer := onkern (kernel_malloc DNA_FILENAME_LENGTH false) in
      check negb (buffer =? 0) rescue (free_devices ;; ret DNA_OUT_OF_MEM) in
      modify (fun s => set_names (<[buffer := rdv_name i]> (names s)) s) ;;
      wr_device i buffer ;;
      let* p := gets rdv in
      let* r := onkern (semaphore_create (Some (rdv_name i)) 0 true) in
      match r.2 with
      | Some id => wr_channel (p + i * sizeof_channel_rdv) (with_rdv_sem id)
      | None => ret tt
      end ;;
      ensure st_eqb r.1 DNA_OK orelse r.1 in
      init_loop k (i + 1)
  end.

(** The second test of the code is on [rdv_devices] too: a failure of the second
    allocation is not seen. *)
Definition rdv_init_driver : M rdvs status_t :=
  alloc_devices ;;
  let* p := gets rdv_devices in
  ensure negb (p =? 0) orelse DNA_OUT_OF_MEM in
  alloc_channels ;;
  let* p := gets rdv_devices in
  ensure negb (p =? 0) orelse DNA_OUT_OF_MEM in
  init_loop (Z.to_nat CHANNEL_RDV_NDEV) 0.

Definition rdv_uninit_driver : M rdvs unit :=
  for_from (Z.to_nat CHANNEL_RDV_NDEV) 0 (fun i => let* p := rd_device i in onkern (kernel_free p) ;; ret tt) ;;
  let* p := gets rdv_devices in
  onkern (kernel_free p) ;;
  ret tt.

Definition rdv_publish_devices : M rdvs Z := gets rdv_devices.

End Rdv.

(** ** Rules *)

Section Rendezvous.
Context `{Hal}.
Implicit Types (s : rdvs) (k : kstate).

Lemma wp_rdv_kern {A} (m : K A) Q s : wp m (fun a k => Q a (set_r_kern k s)) (r_kern s) -> wp (onkern m) Q s.
Proof. unfold wp, onkern, lift. by destruct (m (r_kern s)). Qed.

Lemma wp_onmem {A} (m : M mem A) Q s a v : m (r_mem s) = Ret a v -> Q a (set_r_mem v s) -> wp (onmem m) Q s.
Proof. intros Hm HQ. unfold wp, onmem, lift. by rewrite Hm. Qed.

Lemma wp_rd_rdv p c Q s : channels s !! p = Some c -> Q c s -> wp (rd_channel p) Q s.
Proof. intros Hp HQ. unfold wp, rd_channel, bind, gets. by rewrite Hp. Qed.

Lemma wp_wr_rdv p f c Q s :
  channels s !! p = Some c -> Q tt (set_channels (<[p := f c]> (channels s)) s) -> wp (wr_channel p f) Q s.
Proof. intros Hp HQ. apply wp_bind. by eapply wp_rd_rdv. Qed.

(** A kernel with the interrupts masked, and with a lock taken then released. *)
Definition masked k : kstate := set_cpsr (Z.lor (cpsr k) 0xC0) k.
Definition locked l k : kstate := set_locks (<[l := 1]> (locks k)) k.
Definition unlocked l k : kstate := set_locks (delete l (locks k)) k.

Lemma unlocked_locked l k : locks k !! l = None -> unlocked l (locked l k) = k.
Proof. intros Hl. unfold unlocked, locked. destruct k. cbn in *. by rewrite delete_insert_free. Qed.

(** The entry of an operation on a channel, and the release of its lock. *)
Lemma wp_enter_channel {A} p (m : Z -> M rdvs A) Q s :
  locks (r_kern s) !! LRdv p = None ->
  wp (m (cpsr (r_kern s))) Q (set_r_kern (locked (LRdv p) (masked (r_kern s))) s) ->
  wp (let* it := onkern cpu_trap_mask_and_backup in onkern (lock_acquire (LRdv p)) ;; m it) Q s.
Proof.
  intros Hl HQ. apply wp_bind, wp_rdv_kern. unfold cpu_trap_mask_and_backup. apply wp_bind, wp_gets, wp_bind, wp_modify, wp_ret.
  apply wp_bind, wp_rdv_kern, wp_lock_acquire; [exact Hl|]. by destruct s.
Qed.

Lemma wp_unlock p k Q s : r_kern s = locked (LRdv p) k -> locks k !! LRdv p = None ->
  Q tt (set_r_kern k s) -> wp (onkern (lock_release (LRdv p))) Q s.
Proof. intros Hk Hl HQ. apply wp_rdv_kern. rewrite Hk. change (Q tt (set_r_kern (unlocked (LRdv p) (locked (LRdv p) k)) s)). by rewrite unlocked_locked. Qed.


(** ** Waiting and waking *)

Definition channel_sem k (id i : Z) : Prop := raw_index id = i /\ i < DNA_MAX_SEM /\ sem_id (sem i k) = id.

Lemma rdv_wait_wp U s V i id it self idle :
  sem_rep U (r_kern s) V i 0 [] -> running_ok U (r_kern s) V self idle -> channel_sem (r_kern s) id i ->
  wp (let* r := rdv_wait id it in
      match r with Switched f => let* st := onkern switch_end in ret (f, st) | Returned _ => fault end)
    (fun r s3 => exists k3 next V3, s3 = set_r_kern k3 s /\ r = (mkFrame self id 1 (-1) None (cpsr (r_kern s)), it, DNA_OK) /\
       sem_rep U k3 V3 i 0 [(self, 1)] /\ locks k3 = locks (r_kern s) /\
       current_thread (cpu (mp_id (r_kern s)) k3) = Some next /\ channel_sem k3 id i) s.
Proof.
  intros Hrep Hrun (Hi & Hmax & Hid).
  pose proof (semaphore_acquire_block_wp U (r_kern s) V i 0 [] id 1 0 (-1) self idle Hrep Hrun Hi Hmax Hid ltac:(lia) eq_refl) as Hw.
  destruct (wp_switched _ _ _ _ Hw) as (f & st & k2 & k3 & H1 & H2 & next & V1 & V3 & _ & [= -> ->] & Hr3 & Hl & Hc & _ & Hid3 & _).
  unfold rdv_wait. apply wp_bind, wp_bind, wp_rdv_kern. eapply wp_eq; [exact H1|]. apply wp_ret.
  apply wp_bind, wp_rdv_kern. eapply wp_eq; [exact H2|]. apply wp_ret. exists k3, next, V3.
  split_and!; try done.
Qed.

Lemma rdv_wake_wp U s V i id it t :
  sem_rep U (r_kern s) V i 0 [(t, 1)] -> channel_sem (r_kern s) id i ->
  wp (rdv_wake id it) (fun r s' => exists k1 V1, r = Returned DNA_OK /\ s' = set_r_kern (set_cpsr it k1) s /\
    sem_rep U k1 V1 i 0 [] /\ release_effect (r_kern s) [(t, 1)] [t] k1 V1) s.
Proof.
  intros Hrep (Hi & Hmax & Hid). unfold rdv_wake. apply wp_bind, wp_rdv_kern.
  eapply semaphore_release_wp; [exact Hrep|exact Hi|exact Hmax|exact Hid|lia|lia|reflexivity|].
  intros k1 V1 b Hrep1 Heff _. unfold release_reschedule. cbn [negb andb has_flag]. apply wp_ret.
  apply wp_bind, wp_rdv_kern, wp_modify, wp_ret. exists k1, V1. split_and!; [done|by destruct s|done|done].
Qed.

(** A call that waits, with the end of the switch: the thread that runs next is in the
    state [s3]. *)
Definition until_switched (m : M rdvs (switched status_t (acquire_frame * Z))) : M rdvs (acquire_frame * Z * status_t) :=
  let* r := m in match r with Switched f => let* st := onkern switch_end in ret (f, st) | Returned _ => fault end.

Lemma until_bind {A} (m : M rdvs A) (f : A -> M rdvs (switched status_t (acquire_frame * Z))) Q s :
  wp m (fun a => wp (until_switched (f a)) Q) s -> wp (until_switched (bind m f)) Q s.
Proof. unfold until_switched, wp, bind. by destruct (m s). Qed.

(** The caller waits on the semaphore [i] and nothing but the kernel and the channel [p],
    now [c'], has changed. *)
Definition waits_on U s p c' i self (s3 : rdvs) : Prop :=
  exists k3 next V3, s3 = set_r_kern k3 (set_channels (<[p := c']> (channels s)) s) /\
    sem_rep U k3 V3 i 0 [(self, 1)] /\ locks k3 = locks (r_kern s) /\
    current_thread (cpu (mp_id (r_kern s)) k3) = Some next /\ channel_sem k3 (rdv_sem c') i.

(** The channel [p] in [s]: nobody waits for its semaphore [i]. *)
Record rdv_free_channel U s V p c i self idle : Prop := {
  rf_channel : channels s !! p = Some c;
  rf_sem : channel_sem (r_kern s) (rdv_sem c) i;
  rf_rep : sem_rep U (r_kern s) V i 0 [];
  rf_running : running_ok U (r_kern s) V self idle;
  rf_lock : locks (r_kern s) !! LRdv p = None
}.

Lemma rdv_block U s V p c i self idle (f : channel_rdv_t -> channel_rdv_t) (g : channel_rdv_t -> channel_rdv_t) :
  rdv_free_channel U s V p c i self idle -> rdv_sem (g (f c)) = rdv_sem c ->
  wp (until_switched (
        wr_channel p f ;; wr_channel p g ;; onkern (lock_release (LRdv p)) ;;
        let* c := rd_channel p in rdv_wait (rdv_sem c) (cpsr (r_kern s))))
     (fun r s3 => r.2 = DNA_OK /\ waits_on U s p (g (f c)) i self s3) (set_r_kern (locked (LRdv p) (masked (r_kern s))) s).
Proof.
  intros [Hp Hsem Hrep Hrun Hl] Hfg.
  apply until_bind. eapply wp_wr_rdv; [exact Hp|]. apply until_bind. eapply wp_wr_rdv; [apply lookup_insert_eq|].
  apply until_bind. eapply (wp_unlock p (masked (r_kern s))); [done|exact Hl|].
  apply until_bind. eapply wp_rd_rdv; [apply lookup_insert_eq|]. rewrite Hfg.
  eapply wp_mono; [eapply rdv_wait_wp|].
  - apply sem_rep_cpsr, Hrep.
  - apply running_cpsr, Hrun.
  - exact Hsem.
  - intros r s3 (k3 & next & V3 & -> & -> & Hr3 & Hl3 & Hc3 & Hs3). split; [done|]. exists k3, next, V3.
    cbn [channels set_channels set_r_kern]. rewrite insert_insert_eq, Hfg. by split_and!.
Qed.

Lemma until_enter p (m : Z -> M rdvs (switched status_t (acquire_frame * Z))) Q s :
  locks (r_kern s) !! LRdv p = None ->
  wp (until_switched (m (cpsr (r_kern s)))) Q (set_r_kern (locked (LRdv p) (masked (r_kern s))) s) ->
  wp (until_switched (let* it := onkern cpu_trap_mask_and_backup in onkern (lock_acquire (LRdv p)) ;; m it)) Q s.
Proof.
  intros Hl HQ. apply until_bind, wp_rdv_kern. unfold cpu_trap_mask_and_backup. apply wp_bind, wp_gets, wp_bind, wp_modify, wp_ret.
  apply until_bind, wp_rdv_kern, wp_lock_acquire; [exact Hl|]. by destruct s.
Qed.

(** The first that comes waits. *)
Lemma rdv_read_waits U s V p c i self idle dst cnt :
  rdv_free_channel U s V p c i self idle -> setter_ready c = false ->
  wp (until_switched (rdv_read p dst cnt))
     (fun r s3 => r.2 = DNA_OK /\ waits_on U s p (with_getter_buffer dst (with_getter_ready true c)) i self s3) s.
Proof.
  intros Hf Hr. apply until_enter; [apply Hf|]. apply until_bind. eapply wp_rd_rdv; [apply Hf|]. rewrite Hr.
  by eapply rdv_block.
Qed.
Lemma rdv_write_waits U s V p c i self idle src cnt :
  rdv_free_channel U s V p c i self idle -> getter_ready c = false ->
  wp (until_switched (rdv_write p src cnt))
     (fun r s3 => r.2 = DNA_OK /\ waits_on U s p (with_setter_buffer src (with_setter_ready true c)) i self s3) s.
Proof.
  intros Hf Hr. apply until_enter; [apply Hf|]. apply until_bind. eapply wp_rd_rdv; [apply Hf|]. rewrite Hr.
  by eapply rdv_block.
Qed.

(** The second one copies the bytes [l] from [src] to [dst] and wakes the first, the
    thread [t]; [c'] is the channel where nobody is ready. *)
Definition served s p c' dst l i t U (s' : rdvs) : Prop :=
  exists k' V', s' = set_r_kern k' (set_r_mem (written (r_mem s) dst l) (set_channels (<[p := c']> (channels s)) s)) /\
    sem_rep U k' V' i 0 [] /\ t_status (info (thr t k')) = DNA_THREAD_READY /\
    (AThread t ∈ V' (QReady (affinity (info (thr t (r_kern s))))) \/
     exists cpu, EvIpi cpu (DNA_IPI_DISPATCH t) ∈ events k') /\
    cpsr k' = cpsr (r_kern s).

Lemma rdv_serve U s V p c i t (f g : channel_rdv_t -> channel_rdv_t) (bufs : channel_rdv_t -> Z * Z) dst src l :
  channels s !! p = Some c -> sem_rep U (r_kern s) V i 0 [(t, 1)] -> channel_sem (r_kern s) (rdv_sem c) i ->
  locks (r_kern s) !! LRdv p = None ->
  rdv_sem (g (f c)) = rdv_sem c -> bufs (g (f c)) = (dst, src) ->
  segment (r_mem s) src l -> Forall isbyte l -> mapped (r_mem s) dst (length l) -> apart dst (length l) src (length l) ->
  wp (wr_channel p f ;; wr_channel p g ;;
      let* c := rd_channel p in
      onmem (dna_memcpy (bufs c).1 (bufs c).2 (Z.of_nat (length l))) ;;
      onkern (lock_release (LRdv p)) ;;
      let* c := rd_channel p in rdv_wake (rdv_sem c) (cpsr (r_kern s)))
     (fun r s' => r = Returned DNA_OK /\ served s p (g (f c)) dst l i t U s')
     (set_r_kern (locked (LRdv p) (masked (r_kern s))) s).
Proof.
  intros Hp Hrep Hsem Hl Hfg Hbufs Hseg Hb Hm Ha.
  apply wp_bind. eapply wp_wr_rdv; [exact Hp|]. apply wp_bind. eapply wp_wr_rdv; [apply lookup_insert_eq|].
  apply wp_bind. eapply wp_rd_rdv; [apply lookup_insert_eq|]. rewrite Hbufs. cbn [fst snd].
  apply wp_bind. eapply wp_onmem; [by apply dna_memcpy_ok|].
  apply wp_bind. eapply (wp_unlock p (masked (r_kern s))); [done|exact Hl|].
  apply wp_bind. eapply wp_rd_rdv; [apply lookup_insert_eq|]. rewrite Hfg.
  eapply wp_mono; [eapply rdv_wake_wp; [apply sem_rep_cpsr, Hrep|exact Hsem]|].
  intros r s' (k1 & V1 & -> & -> & Hrep1 & Heff). split; [done|]. exists (set_cpsr (cpsr (r_kern s)) k1), V1.
  split_and!; [|by apply sem_rep_cpsr| | |done].
  - destruct s. cbn. by rewrite insert_insert_eq.
  - change (thr t (set_cpsr (cpsr (r_kern s)) k1)) with (thr t k1). unfold thr.
    by rewrite (re_woken _ _ _ _ _ Heff t) by set_solver.
  - apply (re_present _ _ _ _ _ Heff t). set_solver.
Qed.

Lemma rdv_write_serves U s V p c i t src l :
  channels s !! p = Some c -> sem_rep U (r_kern s) V i 0 [(t, 1)] -> channel_sem (r_kern s) (rdv_sem c) i ->
  locks (r_kern s) !! LRdv p = None -> getter_ready c = true ->
  segment (r_mem s) src l -> Forall isbyte l -> mapped (r_mem s) (getter_buffer c) (length l) ->
  apart (getter_buffer c) (length l) src (length l) ->
  wp (rdv_write p src (Z.of_nat (length l))) (fun r s' => r = Returned DNA_OK /\
    served s p (with_setter_ready false (with_getter_ready false c)) (getter_buffer c) l i t U s') s.
Proof.
  intros Hp Hrep Hsem Hl Hr Hseg Hb Hm Ha. apply wp_enter_channel; [done|]. apply wp_bind. eapply wp_rd_rdv; [exact Hp|].
  rewrite Hr. cbn [negb]. by eapply (rdv_serve U s V p c i t _ _ (fun c => (getter_buffer c, src))).
Qed.
Lemma rdv_read_serves U s V p c i t dst l :
  channels s !! p = Some c -> sem_rep U (r_kern s) V i 0 [(t, 1)] -> channel_sem (r_kern s) (rdv_sem c) i ->
  locks (r_kern s) !! LRdv p = None -> setter_ready c = true ->
  segment (r_mem s) (setter_buffer c) l -> Forall isbyte l -> mapped (r_mem s) dst (length l) ->
  apart dst (length l) (setter_buffer c) (length l) ->
  wp (rdv_read p dst (Z.of_nat (length l))) (fun r s' => r = Returned DNA_OK /\
    served s p (with_getter_ready false (with_setter_ready false c)) dst l i t U s') s.
Proof.
  intros Hp Hrep Hsem Hl Hr Hseg Hb Hm Ha. apply wp_enter_channel; [done|]. apply wp_bind. eapply wp_rd_rdv; [exact Hp|].
  rewrite Hr. cbn [negb]. by eapply (rdv_serve U s V p c i t _ _ (fun c => (dst, setter_buffer c))).
Qed.

(** What a rendez-vous establishes: [first], called by [self], waits, and [second], called
    by the thread that runs next, moves the bytes [l] to [dst] and wakes [self]. *)
Definition rendezvous U s p dst l i self (first second : M rdvs (switched status_t (acquire_frame * Z))) : Prop :=
  exists f s2 s3 s4 c', first s = Ret (Switched f) s2 /\ onkern switch_end s2 = Ret DNA_OK s3 /\
    second s3 = Ret (Returned DNA_OK) s4 /\
    segment (r_mem s4) dst l /\ channels s4 !! p = Some c' /\ getter_ready c' = false /\ setter_ready c' = false /\
    served s3 p c' dst l i self U s4.

Lemma rendezvous_intro U s p c1 c2 dst l i self first second :
  wp (until_switched first) (fun r s3 => r.2 = DNA_OK /\ waits_on U s p c1 i self s3) s ->
  (forall s3, waits_on U s p c1 i self s3 ->
     wp second (fun r s' => r = Returned DNA_OK /\ served s3 p c2 dst l i self U s') s3) ->
  getter_ready c2 = false -> setter_ready c2 = false -> rendezvous U s p dst l i self first second.
Proof.
  intros Hfirst Hsecond Hg Hs. destruct (wp_switched _ _ _ _ Hfirst) as (f & st & s2 & s3 & H1 & H2 & Hst & Hw).
  cbn in Hst. subst st. specialize (Hsecond s3 Hw). apply wp_exists in Hsecond as (r & s4 & H4 & -> & Hserved).
  exists f, s2, s3, s4, c2. split_and!; try done; destruct Hserved as (k' & V' & -> & _).
  - apply written_segment.
  - apply lookup_insert_eq.
Qed.

(** C36: A rendez-vous, whoever comes first: the first of the reader and the writer waits on
    the semaphore of the channel; when the other one comes, the bytes are copied from the
    buffer of the writer to the one of the reader, the first is made ready and is not
    lost, and the channel is free again. *)
Theorem rdv_rendezvous U s V p c i self idle dst src cnt l :
  rdv_free_channel U s V p c i self idle -> setter_ready c = false -> getter_ready c = false ->
  segment (r_mem s) src l -> Forall isbyte l -> mapped (r_mem s) dst (length l) -> apart dst (length l) src (length l) ->
  rendezvous U s p dst l i self (rdv_read p dst cnt) (rdv_write p src (Z.of_nat (length l))) /\
  rendezvous U s p dst l i self (rdv_write p src cnt) (rdv_read p dst (Z.of_nat (length l))).
Proof.
  intros Hf Hs Hg Hseg Hb Hm Ha. pose proof (rf_lock _ _ _ _ _ _ _ _ Hf) as Hlock. split.
  - set (c' := with_getter_buffer dst (with_getter_ready true c)).
    apply (rendezvous_intro U s p c' (with_setter_ready false (with_getter_ready false c'))); [by eapply rdv_read_waits| |done|done].
    intros s3 (k3 & next & V3 & -> & Hrep & Hl & _ & Hsem).
    apply (rdv_write_serves U _ V3 p c'); [apply lookup_insert_eq|exact Hrep|exact Hsem|cbn; by rewrite Hl|done..].
  - set (c' := with_setter_buffer src (with_setter_ready true c)).
    apply (rendezvous_intro U s p c' (with_getter_ready false (with_setter_ready false c'))); [by eapply rdv_write_waits| |done|done].
    intros s3 (k3 & next & V3 & -> & Hrep & Hl & _ & Hsem).
    apply (rdv_read_serves U _ V3 p c'); [apply lookup_insert_eq|exact Hrep|exact Hsem|cbn; by rewrite Hl|done..].
Qed.
End Rendezvous.

(** ** Names *)

(** Rdv_open finds the channel whose name the driver publishes. *)
Theorem rdv_open_published N s i :
  0 <= i < N -> N <= 2 ^ 31 ->
  rdv_open N (Some (rdv_name i)) s = Ret (DNA_OK, rdv s + i * sizeof_channel_rdv) s.
Proof.
  intros Hi HN. destruct (digits_ok 32 i) as (Hd & Hdec & Hne & Hlen); [change (10 ^ Z.of_nat 32) with (10 ^ 32); lia|lia|].
  assert (itoa_ascii i = digits 32 i) as Ha.
  { unfold itoa_ascii. rewrite (proj2 (Z.ltb_ge i 0)) by lia. apply app_nil_r. }
  assert (atoi_at (rdv_name i) 19 s = Ret i s) as Hatoi.
  { unfold atoi_at. rewrite (dna_atoi_ok _ _ (digits 32 i)); [by rewrite Hdec, i32_id by lia|lia| |done|done|lia].
    unfold rdv_name. rewrite Ha, <- app_assoc, written_app. apply written_cstring, Forall_rev.
    eapply Forall_impl; [exact Hd|]. unfold isdigit, ischar. lia. }
  apply wp_run, wp_bind. eapply wp_eq; [exact Hatoi|].
  rewrite (proj2 (Z.leb_le 0 i)), (proj2 (Z.ltb_lt i N)) by lia. by apply wp_bind, wp_gets, wp_ret.
Qed.

(** ** Instances *)

#[local] Existing Instance hal2.

(** The system of Scenario.v, with a channel at 0x5000 on its semaphore 1, without token;
    the writer has "abc" at 100 and the reader a buffer at 300. *)
Definition chan_kern : kstate := set_sems (<[1 := mkSem 8 1 [] 0 0]> (sems sys)) sys.
Definition chan_mem : mem := written (written ∅ 300 [0; 0; 0]) 100 [97; 98; 99].
Definition chan_state : rdvs :=
  mkRdvs chan_kern chan_mem {[0x5000 := mkRdv (sem_raw 8 1) 0 false 0 false]} ∅ ∅ 0 0x5000.

Lemma chan_free : rdv_free_channel items chan_state Vs 0x5000 (mkRdv (sem_raw 8 1) 0 false 0 false) 1 (0, 2) (0, 0).
Proof.
  split; [done|by split_and!| | |done].
  - split; try done. exact sys_sched.
  - destruct sys_running. by split.
Qed.

Lemma rdv_rendezvous_witness :
  rendezvous items chan_state 0x5000 300 [97; 98; 99] 1 (0, 2) (rdv_read 0x5000 300 3) (rdv_write 0x5000 100 3) /\
  rendezvous items chan_state 0x5000 300 [97; 98; 99] 1 (0, 2) (rdv_write 0x5000 100 3) (rdv_read 0x5000 300 3).
Proof.
  apply (rdv_rendezvous items chan_state Vs 0x5000 (mkRdv (sem_raw 8 1) 0 false 0 false) 1 (0, 2) (0, 0) 300 100 3 [97; 98; 99]).
  - exact chan_free.
  - done.
  - done.
  - apply written_segment.
  - bytes.
  - apply mapped_written. apply (segment_mapped _ 300 [0; 0; 0]), written_segment.
  - unfold apart. cbn. lia.
Defined.

Lemma rdv_open_published_witness : rdv_open 12 (Some (rdv_name 11)) chan_state = Ret (DNA_OK, 0x5000 + 11 * 96) chan_state.
Proof. apply (rdv_open_published 12 chan_state 11); lia. Defined.
