(* ===== verification/Vfs.v ===== *)
(** * The virtual file system (DnaVirtualFileSystem)

    Volumes are mounted file systems; a vnode is the handle of a file or directory
    of a volume, kept in a list while it is referenced; files are the open
    descriptors of the processes.  The three kinds of objects live in the kernel
    heap: they are named by their addresses, 0 being NULL, and an access to an
    address that holds no object (never allocated, or freed) is a fault.

    The state contains the kernel state of Kernel.v ([kern]: heap, locks, interrupt
    status, threads) and the private state of the file systems ([fsd], of any type).
    A file system is reached through its table of commands [filesystem_cmd] only,
    as in the code; RootFs.v is one of them.  A pointer argument through which a
    command returns a value is a value it receives and a value it returns; so are
    the objects that the [arguments] of an ioctl point to.

    Strings are lists of characters without the terminator; a string copied into a
    smaller buffer is a fault. *)

From S2P Require Import Prelude Status CLib Queue Allocator Kernel Logic Memory Scheduler Alarm Thread.

Definition DNA_MAX_FILE : Z := 256.

Definition DNA_SEEK_SET : Z := 0.
Definition DNA_SEEK_FROM_CURRENT : Z := 1.
Definition DNA_SEEK_FROM_END : Z := 2.
Definition DNA_CREATE : Z := 0x200.
Definition DNA_GET_DEVICE_SIZE : Z := 0.

(** The two lists. *)
Inductive vqid : Type := QVnodes | QVolumes.
#[export] Instance vqid_eq_dec : EqDecision vqid.
Proof. solve_decision. Defined.
#[export] Program Instance vqid_countable : Countable vqid :=
  inj_countable' (fun q => match q with QVnodes => false | QVolumes => true end)
                 (fun b : bool => if b then QVolumes else QVnodes) _.
Next Obligation. by intros []. Qed.

Definition LVnodeList : lock := LNamed 0 0.      (* vnode_manager.vnode_list.lock *)
Definition LVolumeList : lock := LNamed 1 0.     (* volume_manager.volume_list.lock *)
Definition LVnodeManager : lock := LNamed 2 0.   (* vnode_manager.lock *)
Definition LFilePool : lock := LNamed 3 0.       (* file_pool.lock *)
Definition LFile (file : Z) : lock := LNamed 4 file.

Record volume_t := mkVolume {
  v_id : Z;
  root_vnid : Z;
  host_volume : Z;
  host_vnid : Z;
  v_cmd : Z;
  v_data : Z
}.

Record vnode_t := mkVnode {
  vn_id : Z;
  vn_volume : Z;
  vn_destroy : bool;
  vn_usage : Z;
  vn_data : Z;
  vn_kalloc : Z
}.

Record file_t := mkFile {
  f_usage : Z;
  f_vnode : Z;
  f_destroy : bool;
  f_mode : Z;
  f_offset : Z;
  f_kalloc : Z;
  f_data : Z
}.

Inductive file_type_t : Type :=
| DNA_FILE_REGULAR | DNA_FILE_DIRECTORY | DNA_FILE_SYMBOLIC_LINK
| DNA_FILE_SPECIAL_CHARACTER | DNA_FILE_SPECIAL_BLOCK.

(** The members of file_info_t that a file system fills. *)
Record file_info_t := mkFinfo {
  fi_volume : Z;
  fi_vnode : Z;
  fi_type : file_type_t;
  fi_byte_size : Z;
  fi_block_count : Z;
  fi_optimal_io_block_size : Z
}.

(** A directory entry written by readdir. *)
Record directory_entry_t := mkDirent {
  d_vnid : Z;
  d_vid : Z;
  d_reclen : Z;
  d_name : list Z
}.

Record vstate (F : Type) := mkVs {
  kern : kstate;
  vq : @qstate Z vqid _ _ _ _;
  volumes : gmap Z volume_t;
  vnodes : gmap Z vnode_t;
  files : gmap Z file_t;
  volume_index : Z;
  file_pool : Z;                 (* file_pool.file *)
  file_arrays : gmap Z Z;        (* file_pool.file[g] *)
  fd_table : gmap (Z * Z) Z;     (* file_pool.file[g][fd]; no binding is NULL *)
  fsd : F
}.
Arguments mkVs {F}.
Arguments kern {F}.
Arguments vq {F}.
Arguments volumes {F}.
Arguments vnodes {F}.
Arguments files {F}.
Arguments volume_index {F}.
Arguments file_pool {F}.
Arguments file_arrays {F}.
Arguments fd_table {F}.
Arguments fsd {F}.

Section State.
Context {F : Type}.
Implicit Types s : vstate F.

Definition set_kern v s := mkVs v (vq s) (volumes s) (vnodes s) (files s) (volume_index s) (file_pool s) (file_arrays s) (fd_table s) (fsd s).
Definition set_vq v s := mkVs (kern s) v (volumes s) (vnodes s) (files s) (volume_index s) (file_pool s) (file_arrays s) (fd_table s) (fsd s).
Definition set_volumes v s := mkVs (kern s) (vq s) v (vnodes s) (files s) (volume_index s) (file_pool s) (file_arrays s) (fd_table s) (fsd s).
Definition set_vnodes v s := mkVs (kern s) (vq s) (volumes s) v (files s) (volume_index s) (file_pool s) (file_arrays s) (fd_table s) (fsd s).
Definition set_files v s := mkVs (kern s) (vq s) (volumes s) (vnodes s) v (volume_index s) (file_pool s) (file_arrays s) (fd_table s) (fsd s).
Definition set_volume_index v s := mkVs (kern s) (vq s) (volumes s) (vnodes s) (files s) v (file_pool s) (file_arrays s) (fd_table s) (fsd s).
Definition set_file_pool v s := mkVs (kern s) (vq s) (volumes s) (vnodes s) (files s) (volume_index s) v (file_arrays s) (fd_table s) (fsd s).
Definition set_file_arrays v s := mkVs (kern s) (vq s) (volumes s) (vnodes s) (files s) (volume_index s) (file_pool s) v (fd_table s) (fsd s).
Definition set_fd_table v s := mkVs (kern s) (vq s) (volumes s) (vnodes s) (files s) (volume_index s) (file_pool s) (file_arrays s) v (fsd s).
Definition set_fsd (v : F) s := mkVs (kern s) (vq s) (volumes s) (vnodes s) (files s) (volume_index s) (file_pool s) (file_arrays s) (fd_table s) v.

End State.

Definition with_root_vnid x v := mkVolume (v_id v) x (host_volume v) (host_vnid v) (v_cmd v) (v_data v).
Definition with_v_data x v := mkVolume (v_id v) (root_vnid v) (host_volume v) (host_vnid v) (v_cmd v) x.
Definition with_vn_destroy x v := mkVnode (vn_id v) (vn_volume v) x (vn_usage v) (vn_data v) (vn_kalloc v).
Definition with_vn_usage x v := mkVnode (vn_id v) (vn_volume v) (vn_destroy v) x (vn_data v) (vn_kalloc v).
Definition with_f_usage x v := mkFile x (f_vnode v) (f_destroy v) (f_mode v) (f_offset v) (f_kalloc v) (f_data v).
Definition with_f_destroy x v := mkFile (f_usage v) (f_vnode v) x (f_mode v) (f_offset v) (f_kalloc v) (f_data v).
Definition with_f_offset x v := mkFile (f_usage v) (f_vnode v) (f_destroy v) (f_mode v) x (f_kalloc v) (f_data v).

Abbreviation V F := (M (vstate F)).

(** The commands of a file system (VirtualFileSystem/Filesystem.h). *)
Record filesystem_cmd (F : Type) := mkCmd {
  fs_walk : Z -> Z -> list Z -> Z -> V F (status_t * Z);
  fs_mount : Z -> list Z -> Z -> Z -> V F (status_t * (Z * Z));
  fs_read_vnode : Z -> Z -> Z -> V F (status_t * Z);
  fs_write_vnode : Z -> Z -> V F status_t;
  fs_destroy_vnode : Z -> Z -> V F status_t;
  fs_open : Z -> Z -> Z -> Z -> V F (status_t * Z);
  fs_close : Z -> Z -> Z -> V F status_t;
  fs_free : Z -> Z -> Z -> V F status_t;
  fs_create : Z -> Z -> list Z -> Z -> Z -> Z * Z -> V F (status_t * (Z * Z));
  fs_read : Z -> Z -> Z -> Z -> Z -> Z -> V F (status_t * Z);
  fs_write : Z -> Z -> Z -> Z -> Z -> Z -> V F (status_t * Z);
  fs_get_info : Z -> Z -> Z -> V F (status_t * option file_info_t);
  fs_set_info : Z -> Z -> Z -> file_info_t -> Z -> V F status_t;
  fs_mkdir : Z -> Z -> list Z -> Z -> V F status_t;
  fs_readdir : Z -> Z -> Z -> Z -> Z -> Z -> V F (status_t * (Z * Z * option directory_entry_t));
  fs_ioctl : Z -> Z -> Z -> Z -> list Z -> V F (status_t * (Z * list Z))
}.
Arguments fs_walk {F}.
Arguments fs_mount {F}.
Arguments fs_read_vnode {F}.
Arguments fs_write_vnode {F}.
Arguments fs_destroy_vnode {F}.
Arguments fs_open {F}.
Arguments fs_close {F}.
Arguments fs_free {F}.
Arguments fs_create {F}.
Arguments fs_read {F}.
Arguments fs_write {F}.
Arguments fs_get_info {F}.
Arguments fs_set_info {F}.
Arguments fs_mkdir {F}.
Arguments fs_readdir {F}.
Arguments fs_ioctl {F}.

Section Vfs.
Context `{Hal} {F : Type}.
Context (cmds : Z -> filesystem_cmd F).            (* the table at an address *)
Context (filesystems : list (list Z * Z * bool)).  (* OS_FILESYSTEMS_LIST: name, cmd, no command is NULL *)

(** Run a function of the kernel, a queue operation. *)
Definition onk {A} (m : K A) : V F A := lift kern set_kern m.
Definition onvq {A} (m : M (@qstate Z vqid _ _ _ _) A) : V F A := lift vq set_vq m.

(** Accesses through a pointer. *)
Definition rd_volume (p : Z) : V F volume_t := let* m := gets volumes in deref (m !! p).
Definition rd_vnode (p : Z) : V F vnode_t := let* m := gets vnodes in deref (m !! p).
Definition rd_file (p : Z) : V F file_t := let* m := gets files in deref (m !! p).
Definition wr_volume (p : Z) (f : volume_t -> volume_t) : V F unit :=
  let* v := rd_volume p in modify (fun s => set_volumes (<[p := f v]> (volumes s)) s).
Definition wr_vnode (p : Z) (f : vnode_t -> vnode_t) : V F unit :=
  let* v := rd_vnode p in modify (fun s => set_vnodes (<[p := f v]> (vnodes s)) s).
Definition wr_file (p : Z) (f : file_t -> file_t) : V F unit :=
  let* v := rd_file p in modify (fun s => set_files (<[p := f v]> (files s)) s).

(** p = (kalloc_addr + 0x1F) & ~0x1F *)
Definition align32 (p : Z) : Z := Z.land (u32 (p + 0x1F)) 0xFFFFFFE0.

(** dna_strcpy into a buffer of [n] characters. *)
Definition strcpy_buffer (n : Z) (str : list Z) : V F (list Z) :=
  if Z.of_nat (length str) <? n then ret str else fault.

(** Disable the interrupts and take a lock; release it and restore them. *)
Definition enter (l : lock) : V F Z :=
  let* it_status := onk cpu_trap_mask_and_backup in
  onk (lock_acquire l) ;;
  ret it_status.
Definition leave (l : lock) (it_status : Z) : V F unit :=
  onk (lock_release l) ;;
  onk (cpu_trap_restore it_status).

(** panic (status != DNA_OK) *)
Definition panic_if_error (st : status_t) : V F unit :=
  if st_eqb st DNA_OK then ret tt else fault.

(** ** Volumes *)

Definition volume_id_inspector (s : vstate F) (nid : Z) (ns : Z) : bool :=
  match volumes s !! ns with Some v => v_id v =? nid | None => false end.

Definition volume_host_inspector (s : vstate F) (host vnid : Z) (item : Z) : bool :=
  match volumes s !! item with
  | Some v => (host_volume v =? host) && (host_vnid v =? vnid)
  | None => false
  end.

Definition sizeof_volume : Z := 40.
Definition sizeof_vnode : Z := 40.
Definition sizeof_file : Z := 40.

(** The result is the status and [*p_volume]. *)
Definition volume_create (host vnid cmd : Z) : V F (status_t * Z) :=
  let* volume := onk (kernel_malloc sizeof_volume true) in
  ensure negb (volume =? 0) orelse (DNA_OUT_OF_MEM, 0) in
  let* id := gets volume_index in
  modify (set_volume_index (i32 (id + 1))) ;;
  modify (fun s => set_volumes (<[volume := mkVolume id (-1) host vnid cmd 0]> (volumes s)) s) ;;
  onvq (modify (set_next volume None)) ;;
  let* it_status := enter LVolumeList in
  onvq (queue_add QVolumes volume) ;;
  leave LVolumeList it_status ;;
  ret (DNA_OK, volume).

Definition volume_destroy (volume : Z) : V F status_t :=
  let* it_status := enter LVolumeList in
  onvq (queue_extract QVolumes (Some volume)) ;;
  leave LVolumeList it_status ;;
  onk (kernel_free volume) ;;
  modify (fun s => set_volumes (delete volume (volumes s)) s) ;;
  ret DNA_OK.

(** queue_lookup (& volume_manager . volume_list, inspector, ...) under the lock of
    the list; NULL is 0. *)
Definition lookup_volume (inspector : vstate F -> Z -> bool) : V F Z :=
  let* it_status := enter LVolumeList in
  let* s := gets (fun s => s) in
  let* r := onvq (queue_lookup QVolumes (inspector s)) in
  leave LVolumeList it_status ;;
  ret (default 0 r).

(** ** Vnodes *)

Definition vnode_id_inspector (s : vstate F) (vnid vid : Z) (node : Z) : bool :=
  match vnodes s !! node with
  | Some v => (vn_id v =? vnid) &&
              match volumes s !! vn_volume v with Some w => v_id w =? vid | None => false end
  | None => false
  end.

Definition vnode_volume_inspector (s : vstate F) (volume : Z) (node : Z) : bool :=
  match vnodes s !! node with
  | Some v => negb (volume =? 0) && (vn_volume v =? volume)
  | None => false
  end.

Definition find_vnode (vid vnid : Z) : V F (option Z) :=
  let* s := gets (fun s => s) in
  onvq (queue_lookup QVnodes (vnode_id_inspector s vnid vid)).

Definition vnode_create (vnid vid data : Z) : V F status_t :=
  let* volume := lookup_volume (fun s => volume_id_inspector s vid) in
  ensure negb (volume =? 0) orelse DNA_NO_VOLUME in
  let* it_status := enter LVnodeList in
  let* vnode := find_vnode vid vnid in
  leave LVnodeList it_status ;;
  match vnode with
  | Some _ => ret DNA_ERROR
  | None =>
      let* kalloc_addr := onk (kernel_malloc (sizeof_vnode + 0x1F) true) in
      let vnode := align32 kalloc_addr in
      (if vnode =? 0 then fault else ret tt) ;;
      modify (fun s => set_vnodes (<[vnode := mkVnode vnid volume false 1 data kalloc_addr]> (vnodes s)) s) ;;
      onvq (modify (set_next vnode None)) ;;
      let* it_status := enter LVnodeList in
      onvq (queue_add QVnodes vnode) ;;
      leave LVnodeList it_status ;;
      ret DNA_OK
  end.

(** atomic_add (& vnode -> usage_counter, offset) *)
Definition count_vnode (vnode offset : Z) : V F unit :=
  wr_vnode vnode (fun v => with_vn_usage (i32 (vn_usage v + offset)) v).

Definition free_vnode (vnode area : Z) : V F unit :=
  onk (kernel_free area) ;;
  modify (fun s => set_vnodes (delete vnode (vnodes s)) s).

Definition vnode_destroy (vid vnid : Z) : V F status_t :=
  let* it_status := enter LVnodeList in
  let* r := find_vnode vid vnid in
  match r with
  | None => leave LVnodeList it_status ;; ret DNA_NO_VNODE
  | Some vnode =>
      count_vnode vnode (-1) ;;
      let* v := rd_vnode vnode in
      if vn_usage v =? 0 then
        onvq (queue_extract QVnodes (Some vnode)) ;;
        leave LVnodeList it_status ;;
        let* w := rd_volume (vn_volume v) in
        let* status := fs_destroy_vnode (cmds (v_cmd w)) (v_data w) (vn_data v) in
        ensure st_eqb status DNA_OK orelse status in
        free_vnode vnode (vn_kalloc v) ;;
        ret DNA_OK
      else
        wr_vnode vnode (with_vn_destroy true) ;;
        leave LVnodeList it_status ;;
        ret DNA_OK
  end.

(** The second component is the new value of [*data], whose address is not NULL. *)
Definition vnode_get (vid vnid data : Z) : V F (status_t * Z) :=
  let* it_status := enter LVnodeList in
  let* r := find_vnode vid vnid in
  leave LVnodeList it_status ;;
  match r with
  | None =>
      let* volume := lookup_volume (fun s => volume_id_inspector s vid) in
      let* w := rd_volume volume in
      let* sd := fs_read_vnode (cmds (v_cmd w)) (v_data w) vnid data in
      ensure st_eqb sd.1 DNA_OK orelse sd in
      let* w := rd_volume volume in
      let* status := vnode_create vnid (v_id w) sd.2 in
      ret (status, sd.2)
  | Some vnode =>
      let* v := rd_vnode vnode in
      if negb (vn_destroy v) then
        count_vnode vnode 1 ;;
        ret (DNA_OK, vn_data v)
      else ret (DNA_OK, data)
  end.

Definition vnode_put (vid vnid : Z) : V F status_t :=
  let* it_status := enter LVnodeList in
  let* r := find_vnode vid vnid in
  match r with
  | None => leave LVnodeList it_status ;; ret DNA_NO_VNODE
  | Some vnode =>
      count_vnode vnode (-1) ;;
      let* v := rd_vnode vnode in
      if vn_usage v =? 0 then
        onvq (queue_extract QVnodes (Some vnode)) ;;
        leave LVnodeList it_status ;;
        let* w := rd_volume (vn_volume v) in
        let* status := fs_write_vnode (cmds (v_cmd w)) (v_data w) (vn_data v) in
        ensure st_eqb status DNA_OK orelse status in
        let* status :=
          (if vn_destroy v then
             let* w := rd_volume (vn_volume v) in
             fs_destroy_vnode (cmds (v_cmd w)) (v_data w) (vn_data v)
           else ret DNA_OK) in
        ensure st_eqb status DNA_OK orelse status in
        free_vnode vnode vnode ;;
        ret DNA_OK
      else
        leave LVnodeList it_status ;;
        ret DNA_OK
  end.

(** ** Paths

    [next_entry] is path_get_next_entry (CLib.v) on the string at [*path]: the
    status, the token and the rest of the path.  The token is a buffer of 256
    characters. *)
Fixpoint split_entry (path : list Z) : list Z * list Z :=
  match path with
  | [] => ([], [])
  | c :: path' =>
      if c =? slash then ([], path')
      else let (token, rest) := split_entry path' in (c :: token, rest)
  end.

Definition next_entry (path : list Z) : V F (status_t * list Z * list Z) :=
  match path with
  | [] => ret (DNA_ERROR, [], path)
  | _ =>
      let (token, rest) := split_entry path in
      ensure Z.of_nat (length token) <=? DNA_FILENAME_LENGTH orelse (DNA_NAME_TOO_LONG, [], path) in
      if Z.of_nat (length token) <? DNA_FILENAME_LENGTH then ret (DNA_OK, token, rest) else fault
  end.

(** path_split (CLib.v) on the two buffers of its callers: the status, the content
    of [buffer] and the content of [token]. *)
Definition buffer_at (p : Z) (n : nat) (str : list Z) : mem :=
  list_to_map (zip (seqZ p (Z.of_nat n)) (str ++ replicate (n - length str) 0)).
Fixpoint string_at (n : nat) (m : mem) (p : Z) : list Z :=
  match n with
  | O => []
  | S n => match m !! p with Some c => if c =? 0 then [] else c :: string_at n m (p + 1) | None => [] end
  end.
Definition split_path (path : list Z) : V F (status_t * list Z * list Z) :=
  let m := buffer_at 0x1000 (Z.to_nat DNA_PATH_LENGTH) path ∪
           buffer_at 0x2000 (Z.to_nat DNA_FILENAME_LENGTH) [] in
  match path_split 0x1000 0x2000 m with
  | Ret st m => ret (st, string_at (Z.to_nat DNA_PATH_LENGTH) m 0x1000,
                     string_at (Z.to_nat DNA_FILENAME_LENGTH) m 0x2000)
  | Diverge => diverge
  | _ => fault
  end.

(** *** vnode_walk *)

(** The locals of the walk: [volume], [vnid], [data] and [new_vnid]. *)
Record walk_t := mkWalk {
  w_volume : Z;
  w_vnid : Z;
  w_data : Z;
  w_new : Z
}.

(** do ... while (keep_walking) on one token: [inl] when vnode_walk returns. *)
Fixpoint walk_token (fuel : nat) (token : list Z) (w : walk_t) : V F (status_t + walk_t) :=
  match fuel with
  | O => diverge
  | S fuel =>
      let* v := rd_volume (w_volume w) in
      let* sn := fs_walk (cmds (v_cmd v)) (v_data v) (w_data w) token (w_new w) in
      let status := sn.1 in
      ensure st_eqb status DNA_ALREADY_AT_ROOT || st_eqb status DNA_OK orelse inl DNA_ERROR in
      if st_eqb status DNA_ALREADY_AT_ROOT then
        let new_vnid := w_vnid w in
        let* v := rd_volume (w_volume w) in
        if negb (host_volume v =? 0) then
          let* status := vnode_put (v_id v) new_vnid in
          ensure st_eqb status DNA_OK orelse inl status in
          let* v := rd_volume (w_volume w) in
          let vnid := host_vnid v in
          let volume := host_volume v in
          let* v := rd_volume volume in
          let* sd := vnode_get (v_id v) vnid (w_data w) in
          ensure st_eqb sd.1 DNA_OK orelse inl sd.1 in
          walk_token fuel token (mkWalk volume vnid sd.2 new_vnid)
        else ret (inr (mkWalk (w_volume w) (w_vnid w) (w_data w) new_vnid))
      else ret (inr (mkWalk (w_volume w) (w_vnid w) (w_data w) sn.2))
  end.

(** if (vnid != new_vnid) ... *)
Definition walk_update (w : walk_t) : V F (status_t + walk_t) :=
  if w_vnid w =? w_new w then ret (inr w)
  else
    let* new_volume := lookup_volume (fun s => volume_host_inspector s (w_volume w) (w_new w)) in
    let* v := rd_volume (w_volume w) in
    if negb (new_volume =? 0) then
      let* nv := rd_volume new_volume in
      let new_vnid := root_vnid nv in
      let* sd := vnode_get (v_id nv) new_vnid (w_data w) in
      ensure st_eqb sd.1 DNA_OK orelse inl sd.1 in
      let* status := vnode_put (v_id v) (w_vnid w) in
      ensure st_eqb status DNA_OK orelse inl status in
      ret (inr (mkWalk new_volume new_vnid sd.2 new_vnid))
    else
      let* sd := vnode_get (v_id v) (w_new w) (w_data w) in
      ensure st_eqb sd.1 DNA_OK orelse inl sd.1 in
      let* status := vnode_put (v_id v) (w_vnid w) in
      ensure st_eqb status DNA_OK orelse inl status in
      ret (inr (mkWalk (w_volume w) (w_new w) sd.2 (w_new w))).

(** while ((status = path_get_next_entry (& path_ptr, token)) == DNA_OK) ... *)
Fixpoint walk_loop (fuel : nat) (path : list Z) (w : walk_t) : V F (status_t + walk_t) :=
  match fuel with
  | O => diverge
  | S fuel =>
      let* e := next_entry path in
      let '(status, token, path) := e in
      if st_eqb status DNA_OK then
        let* n := gets (fun s => S (size (volumes s))) in
        let* r := walk_token n token w in
        match r with
        | inl status => ret (inl status)
        | inr w =>
            let* r := walk_update w in
            match r with
            | inl status => ret (inl status)
            | inr w => walk_loop fuel path w
            end
        end
      else ret (inr w)
  end.

(** The status and, when it is DNA_OK, [*p_volume], [*p_vnid] and [*p_data]. *)
Definition vnode_walk (path : list Z) : V F (status_t * option (Z * Z * Z)) :=
  let* buffer := strcpy_buffer DNA_PATH_LENGTH path in
  let* e := next_entry buffer in
  let '(status, token, path_ptr) := e in
  ensure st_eqb status DNA_OK orelse (status, None) in
  ensure bool_decide (token = []) orelse (DNA_ERROR, None) in
  let* new_volume := lookup_volume (fun s => volume_host_inspector s 0 (-1)) in
  ensure negb (new_volume =? 0) orelse (DNA_NO_VOLUME, None) in
  let* v := rd_volume new_volume in
  let vnid := root_vnid v in
  let* sd := vnode_get (v_id v) vnid 0 in
  ensure st_eqb sd.1 DNA_OK orelse (sd.1, None) in
  let* r := walk_loop (S (length path_ptr)) path_ptr (mkWalk new_volume vnid sd.2 (-1)) in
  match r with
  | inl status => ret (status, None)
  | inr w => ret (DNA_OK, Some (w_volume w, w_vnid w, w_data w))
  end.

(** ** File systems *)

(** The status and the address of the commands. *)
Fixpoint filesystem_load (l : list (list Z * Z * bool)) (name : list Z) : status_t * Z :=
  match l with
  | [] => (DNA_ERROR, 0)
  | (n, cmd, complete) :: l =>
      if bool_decide (n = name) then (if complete : bool then (DNA_OK, cmd) else (DNA_ERROR, 0))
      else filesystem_load l name
  end.

(** ** File descriptors *)

(** The group of the calling thread, as the four functions below find it. *)
Definition caller_group : V F (status_t + Z) :=
  let* r := onk (thread_find None true) in
  ensure st_eqb r.1 DNA_OK orelse inl r.1 in
  let* tid := deref r.2 in
  let* i := onk (thread_get_info tid true) in
  ensure st_eqb i.1 DNA_OK orelse inl i.1 in
  let* info := deref i.2 in
  ensure (0 <=? group info) && (group info <? DNA_MAX_GROUP) orelse inl DNA_BAD_ARGUMENT in
  ret (inr (group info)).

(** file_pool . file[g][fd]: the array has DNA_MAX_FILE elements. *)
Definition rd_fd (g fd : Z) : V F Z :=
  let* arrays := gets file_arrays in
  let* _ := deref (arrays !! g) in
  if (0 <=? fd) && (fd <? DNA_MAX_FILE) then gets (fun s => default 0 (fd_table s !! (g, fd)))
  else fault.
Definition wr_fd (g fd file : Z) : V F unit :=
  let* _ := rd_fd g fd in
  modify (fun s => set_fd_table (if file =? 0 then delete (g, fd) (fd_table s)
                                 else <[(g, fd) := file]> (fd_table s)) s).

(** for (fd = 0; file_array[fd] != NULL && fd < DNA_MAX_FILE; fd += 1); *)
Fixpoint fd_loop (fuel : nat) (g fd : Z) : V F Z :=
  match fuel with
  | O => diverge
  | S fuel =>
      let* file := rd_fd g fd in
      if negb (file =? 0) && (fd <? DNA_MAX_FILE) then fd_loop fuel g (i16 (fd + 1)) else ret fd
  end.

(** The status, [*p_fd] and [*p_file], whose addresses are not NULL. *)
Definition file_create (vnode mode data : Z) : V F (status_t * (Z * Z)) :=
  let* g := caller_group in
  match g with
  | inl status => ret (status, (-1, 0))
  | inr g =>
      let* it_status := enter LFilePool in
      let* fd := fd_loop (S (Z.to_nat DNA_MAX_FILE)) g 0 in
      check negb (fd =? DNA_MAX_FILE)
        rescue (leave LFilePool it_status ;; ret (DNA_MAX_OPENED_FILES, (-1, 0))) in
      let* kalloc_addr := onk (kernel_malloc (sizeof_file + 0x1F) true) in
      let file := align32 kalloc_addr in
      (if file =? 0 then fault else ret tt) ;;
      modify (fun s => set_files (<[file := mkFile 1 vnode false mode 0 kalloc_addr data]> (files s)) s) ;;
      onk (modify (put_lock (LFile file) 0)) ;;
      wr_fd g fd file ;;
      leave LFilePool it_status ;;
      ret (DNA_OK, (fd, file))
  end.

(** atomic_add (& file -> usage_counter, offset) *)
Definition count_file (file offset : Z) : V F unit :=
  wr_file file (fun v => with_f_usage (i32 (f_usage v + offset)) v).

Definition free_file (file area : Z) : V F unit :=
  onk (kernel_free area) ;;
  modify (fun s => set_files (delete file (files s)) s).

Definition file_destroy (fd : Z) : V F status_t :=
  let* g := caller_group in
  match g with
  | inl status => ret status
  | inr g =>
      let* it_status := enter LFilePool in
      let* file := rd_fd g fd in
      check negb (file =? 0) rescue (leave LFilePool it_status ;; ret DNA_INVALID_FD) in
      let* v := rd_file file in
      check 0 <? f_usage v rescue (leave LFilePool it_status ;; ret DNA_ERROR) in
      count_file file (-1) ;;
      let* v := rd_file file in
      if f_usage v =? 0 then
        wr_fd g fd 0 ;;
        leave LFilePool it_status ;;
        let* n := rd_vnode (f_vnode v) in
        free_file file (f_kalloc v) ;;
        let* w := rd_volume (vn_volume n) in
        vnode_put (v_id w) (vn_id n)
      else
        wr_file file (with_f_destroy true) ;;
        leave LFilePool it_status ;;
        ret DNA_OK
  end.

(** The status and [*p_file]. *)
Definition file_get (fd : Z) : V F (status_t * Z) :=
  let* g := caller_group in
  match g with
  | inl status => ret (status, 0)
  | inr g =>
      let* it_status := enter LFilePool in
      let* file := rd_fd g fd in
      let invalid : V F (status_t * Z) := leave LFilePool it_status ;; ret (DNA_INVALID_FD, 0) in
      check negb (file =? 0) rescue invalid in
      let* v := rd_file file in
      check negb (f_destroy v) rescue invalid in
      count_file file 1 ;;
      leave LFilePool it_status ;;
      ret (DNA_OK, file)
  end.

(** The commands and the three first arguments of the calls on a file. *)
Definition file_cmd (file : Z) : V F (filesystem_cmd F * (Z * Z * Z)) :=
  let* v := rd_file file in
  let* n := rd_vnode (f_vnode v) in
  let* w := rd_volume (vn_volume n) in
  ret (cmds (v_cmd w), (v_data w, vn_data n, f_data v)).

Definition file_put (fd : Z) : V F status_t :=
  let* g := caller_group in
  match g with
  | inl status => ret status
  | inr g =>
      let* it_status := enter LFilePool in
      let* file := rd_fd g fd in
      check negb (file =? 0) rescue (leave LFilePool it_status ;; ret DNA_INVALID_FD) in
      let* v := rd_file file in
      check 0 <? f_usage v rescue (leave LFilePool it_status ;; ret DNA_ERROR) in
      count_file file (-1) ;;
      let* v := rd_file file in
      if (f_usage v =? 0) && f_destroy v then
        wr_fd g fd 0 ;;
        leave LFilePool it_status ;;
        let* c := file_cmd file in
        let '(cmd, (ns, node, data)) := c in
        let* status := fs_free cmd ns node data in
        panic_if_error status ;;
        let* v := rd_file file in
        let* n := rd_vnode (f_vnode v) in
        free_file file file ;;
        let* w := rd_volume (vn_volume n) in
        let* status := vnode_put (v_id w) (vn_id n) in
        panic_if_error status ;;
        ret DNA_OK
      else
        leave LFilePool it_status ;;
        ret DNA_OK
  end.

(** ** Operations *)

Definition fd_in_range (fd : Z) : bool := (0 <=? fd) && (fd <? DNA_MAX_FILE).

(** The end of most operations: release the file; a failure panics. *)
Definition put_or_panic (fd : Z) : V F unit :=
  let* status := file_put fd in panic_if_error status.

Definition vfs_close (fd : Z) : V F status_t :=
  ensure fd_in_range fd orelse DNA_INVALID_FD in
  let* f := file_get fd in
  ensure st_eqb f.1 DNA_OK orelse f.1 in
  let* c := file_cmd f.2 in
  let '(cmd, (ns, node, data)) := c in
  let* status := fs_close cmd ns node data in
  check st_eqb status DNA_OK rescue (put_or_panic fd ;; ret status) in
  put_or_panic fd ;;
  let* status := file_destroy fd in
  panic_if_error status ;;
  ret DNA_OK.

(** The status and [*p_ret]. *)
Definition vfs_read (fd data count : Z) (ret_ok : bool) : V F (status_t * Z) :=
  ensure negb (data =? 0) && ret_ok && (0 <? count) orelse (DNA_ERROR, 0) in
  ensure fd_in_range fd orelse (DNA_INVALID_FD, 0) in
  let* f := file_get fd in
  ensure st_eqb f.1 DNA_OK orelse (f.1, 0) in
  let file := f.2 in
  let* c := file_cmd file in
  let '(cmd, (ns, node, fdata)) := c in
  let* v := rd_file file in
  let* sn := fs_read cmd ns node fdata data (f_offset v) count in
  check st_eqb sn.1 DNA_OK rescue (put_or_panic fd ;; ret (sn.1, -1)) in
  let* it_status := enter (LFile file) in
  wr_file file (fun v => with_f_offset (i64 (f_offset v + sn.2)) v) ;;
  leave (LFile file) it_status ;;
  put_or_panic fd ;;
  ret (DNA_OK, sn.2).

Definition vfs_write (fd data count : Z) (ret_ok : bool) : V F (status_t * Z) :=
  ensure negb (data =? 0) && ret_ok && (0 <? count) orelse (DNA_ERROR, 0) in
  ensure fd_in_range fd orelse (DNA_INVALID_FD, 0) in
  let* f := file_get fd in
  ensure st_eqb f.1 DNA_OK orelse (f.1, 0) in
  let file := f.2 in
  let* c := file_cmd file in
  let '(cmd, (ns, node, fdata)) := c in
  let* v := rd_file file in
  let* sn := fs_write cmd ns node fdata data (f_offset v) count in
  check st_eqb sn.1 DNA_OK rescue (file_put fd ;; ret (sn.1, -1)) in
  let* it_status := enter (LFile file) in
  wr_file file (fun v => with_f_offset (i64 (f_offset v + sn.2)) v) ;;
  leave (LFile file) it_status ;;
  let* status := file_put fd in
  ret (status, sn.2).

(** [count] is unsigned; the offset of the file is updated in place.  The result is
    the status, [*p_ret] and the entry written to [entry_array]. *)
Definition vfs_readdir (fd entry_array count : Z) (ret_ok : bool)
    : V F (status_t * Z * option directory_entry_t) :=
  ensure negb (entry_array =? 0) && ret_ok && (0 <? count) orelse (DNA_ERROR, 0, None) in
  ensure fd_in_range fd orelse (DNA_INVALID_FD, 0, None) in
  let* f := file_get fd in
  ensure st_eqb f.1 DNA_OK orelse (f.1, 0, None) in
  let file := f.2 in
  let* c := file_cmd file in
  let '(cmd, (ns, node, fdata)) := c in
  let* v := rd_file file in
  let* so := fs_readdir cmd ns node fdata entry_array (f_offset v) (i32 count) in
  let '(offset, n_data, entry) := so.2 in
  wr_file file (with_f_offset offset) ;;
  check st_eqb so.1 DNA_OK rescue (put_or_panic fd ;; ret (so.1, -1, entry)) in
  put_or_panic fd ;;
  ret (DNA_OK, n_data, entry).

Definition vfs_get_info (fd : Z) : V F (status_t * option file_info_t) :=
  ensure fd_in_range fd orelse (DNA_INVALID_FD, None) in
  let* f := file_get fd in
  ensure st_eqb f.1 DNA_OK orelse (f.1, None) in
  let* c := file_cmd f.2 in
  let '(cmd, (ns, node, fdata)) := c in
  let* si := fs_get_info cmd ns node fdata in
  put_or_panic fd ;;
  ret si.

Definition vfs_set_info (fd : Z) (info : file_info_t) (mask : Z) : V F status_t :=
  ensure fd_in_range fd orelse DNA_INVALID_FD in
  let* f := file_get fd in
  ensure st_eqb f.1 DNA_OK orelse f.1 in
  let* c := file_cmd f.2 in
  let '(cmd, (ns, node, fdata)) := c in
  let* status := fs_set_info cmd ns node fdata info mask in
  put_or_panic fd ;;
  ret status.

(** The status, [*p_ret] and the objects of [arguments]. *)
Definition vfs_ioctl (fd function : Z) (arguments : list Z) : V F (status_t * (Z * list Z)) :=
  ensure fd_in_range fd orelse (DNA_INVALID_FD, (0, arguments)) in
  let* f := file_get fd in
  ensure st_eqb f.1 DNA_OK orelse (f.1, (0, arguments)) in
  let* c := file_cmd f.2 in
  let '(cmd, (ns, node, fdata)) := c in
  let* sr := fs_ioctl cmd ns node fdata function arguments in
  check st_eqb sr.1 DNA_OK rescue (put_or_panic fd ;; ret (sr.1, (-1, sr.2.2))) in
  put_or_panic fd ;;
  ret sr.

(** file_get_size of vfs_lseek.c: the status and [size]. *)
Definition file_get_size (file : Z) : V F (status_t * Z) :=
  let* c := file_cmd file in
  let '(cmd, (ns, node, fdata)) := c in
  let* sr := fs_ioctl cmd ns node fdata DNA_GET_DEVICE_SIZE [0] in
  ret (sr.1, hd 0 sr.2.2).

(** The rescue block releases neither the lock of the file nor the interrupts. *)
Definition vfs_lseek (fd offset whence : Z) : V F (status_t * Z) :=
  ensure fd_in_range fd orelse (DNA_INVALID_FD, 0) in
  ensure (whence =? DNA_SEEK_SET) || (whence =? DNA_SEEK_FROM_CURRENT) || (whence =? DNA_SEEK_FROM_END)
    orelse (DNA_INVALID_WHENCE, 0) in
  let* f := file_get fd in
  ensure st_eqb f.1 DNA_OK orelse (f.1, 0) in
  let file := f.2 in
  let* it_status := enter (LFile file) in
  let* status :=
    (if whence =? DNA_SEEK_SET then
       wr_file file (with_f_offset offset) ;; ret DNA_OK
     else if whence =? DNA_SEEK_FROM_CURRENT then
       wr_file file (fun v => with_f_offset (i64 (f_offset v + offset)) v) ;; ret DNA_OK
     else
       let* ss := file_get_size file in
       (if st_eqb ss.1 DNA_OK then wr_file file (with_f_offset (i64 (ss.2 + offset))) else ret tt) ;;
       ret ss.1) in
  check st_eqb status DNA_OK rescue (put_or_panic fd ;; ret (status, -1)) in
  leave (LFile file) it_status ;;
  let* v := rd_file file in
  put_or_panic fd ;;
  ret (DNA_OK, f_offset v).

(** The status and [*p_fd]; [path] is None for NULL. *)
Definition vfs_open (path : option (list Z)) (mode perms : Z) (fd_ok : bool) : V F (status_t * Z) :=
  match path, fd_ok with
  | Some path, true =>
      let* buffer := strcpy_buffer DNA_PATH_LENGTH path in
      (* the status, and [volume], [vnid] and [file_data] *)
      let* r :=
        (if negb (Z.land mode DNA_CREATE =? 0) then
           let* e := split_path buffer in
           let '(status, base, token) := e in
           ensure st_eqb status DNA_OK orelse (status, None) in
           let* w := vnode_walk base in
           match w with
           | (DNA_OK, Some (volume, vnid, data)) =>
               let* v := rd_volume volume in
               let* sc := fs_create (cmds (v_cmd v)) (v_data v) data token mode perms (-1, 0) in
               ensure st_eqb sc.1 DNA_OK orelse (sc.1, None) in
               let* v := rd_volume volume in
               let* status := vnode_put (v_id v) vnid in
               panic_if_error status ;;
               ret (DNA_OK, Some (volume, vnid, sc.2.2))
           | (status, _) => ret (status, None)
           end
         else
           let* w := vnode_walk buffer in
           match w with
           | (DNA_OK, Some (volume, vnid, data)) =>
               let* v := rd_volume volume in
               let* so := fs_open (cmds (v_cmd v)) (v_data v) data mode 0 in
               ensure st_eqb so.1 DNA_OK orelse (so.1, None) in
               ret (DNA_OK, Some (volume, vnid, so.2))
           | (status, _) => ret (status, None)
           end) in
      match r with
      | (_, Some (volume, vnid, file_data)) =>
          let* it_status := enter LVnodeManager in
          let* v := rd_volume volume in
          let* vnode := find_vnode (v_id v) vnid in
          leave LVnodeManager it_status ;;
          match vnode with
          | None => ret (DNA_NO_VNODE, -1)
          | Some vnode =>
              let* f := file_create vnode mode file_data in
              ensure st_eqb f.1 DNA_OK orelse (f.1, -1) in
              ret (DNA_OK, f.2.1)
          end
      | (status, None) => ret (status, -1)
      end
  | _, _ => ret (DNA_ERROR, -1)
  end.

Definition vfs_mkdir (path : option (list Z)) (mode : Z) : V F status_t :=
  match path with
  | None => ret DNA_ERROR
  | Some path =>
      let* buffer := strcpy_buffer DNA_PATH_LENGTH path in
      let* e := split_path buffer in
      let '(status, base, token) := e in
      ensure st_eqb status DNA_OK orelse status in
      let* w := vnode_walk base in
      match w with
      | (DNA_OK, Some (volume, vnid, data)) =>
          let* v := rd_volume volume in
          let* status := fs_mkdir (cmds (v_cmd v)) (v_data v) data token mode in
          ensure st_eqb status DNA_OK orelse status in
          let* v := rd_volume volume in
          vnode_put (v_id v) vnid
      | (status, _) => ret status
      end
  end.

Definition vfs_mount (source target fs_type : option (list Z)) (flags data : Z) : V F status_t :=
  match source, target, fs_type with
  | Some source, Some target, Some fs_type =>
      let* w := vnode_walk target in
      ensure st_eqb w.1 DNA_OK || st_eqb w.1 DNA_NO_VOLUME orelse w.1 in
      let '(host, vnid) := match w.2 with Some (v, n, _) => (v, n) | None => (0, -1) end in
      let* volume := lookup_volume (fun s => volume_host_inspector s host vnid) in
      ensure volume =? 0 orelse DNA_VNODE_MOUNTED in
      let (status, cmd) := filesystem_load filesystems fs_type in
      ensure st_eqb status DNA_OK orelse status in
      let* sv := volume_create host vnid cmd in
      let volume := sv.2 in
      ensure negb (volume =? 0) orelse DNA_OUT_OF_MEM in
      let* v := rd_volume volume in
      let* sm := fs_mount (cmds cmd) (v_id v) source flags data in
      wr_volume volume (fun v => with_root_vnid sm.2.2 (with_v_data sm.2.1 v)) ;;
      check st_eqb sm.1 DNA_OK
        rescue (let* status := volume_destroy volume in panic_if_error status ;; ret sm.1) in
      (if negb (host =? 0) then
         let* h := rd_volume host in
         let* status := vnode_put (v_id h) vnid in
         panic_if_error status
       else ret tt) ;;
      ret DNA_OK
  | _, _, _ => ret DNA_ERROR
  end.

Definition vfs_umount (target : list Z) : V F status_t :=
  let* w := vnode_walk target in
  ensure st_eqb w.1 DNA_OK || st_eqb w.1 DNA_NO_VOLUME orelse w.1 in
  let '(host, vnid) := match w.2 with Some (v, n, _) => (v, n) | None => (0, -1) end in
  ensure negb (host =? 0) && negb (vnid =? -1) orelse DNA_NO_VNODE in
  let* volume := lookup_volume (fun s => volume_host_inspector s host vnid) in
  ensure negb (volume =? 0) orelse DNA_ERROR in
  let* it_status := enter LVnodeList in
  let* s := gets (fun s => s) in
  let* vnode := onvq (queue_lookup QVnodes (vnode_volume_inspector s volume)) in
  leave LVnodeList it_status ;;
  ensure negb (is_null vnode) orelse DNA_VOLUME_IN_USE in
  volume_destroy volume.

(** ** Life cycle *)

(** DNA_MAX_GROUP is 1: the loop on the groups allocates one array. *)
Definition vfs_create : V F status_t :=
  onvq (modify (fun q => putq QVnodes DNA_QUEUE_DEFAULTS (putq QVolumes DNA_QUEUE_DEFAULTS q))) ;;
  onk (modify (put_lock LVnodeList 0)) ;;
  onk (modify (put_lock LVnodeManager 0)) ;;
  onk (modify (put_lock LVolumeList 0)) ;;
  modify (set_volume_index 0) ;;
  onk (modify (put_lock LFilePool 0)) ;;
  let* pool := onk (kernel_malloc (u32 (DNA_MAX_GROUP * 4)) true) in
  modify (set_file_pool pool) ;;
  modify (set_file_arrays ∅) ;;
  ensure negb (pool =? 0) orelse DNA_OUT_OF_MEM in
  let* array := onk (kernel_malloc (u32 (DNA_MAX_FILE * 4)) true) in
  check negb (array =? 0) rescue (onk (kernel_free pool) ;; ret DNA_OUT_OF_MEM) in
  modify (fun s => set_file_arrays (<[0 := array]> (file_arrays s)) s) ;;
  modify (set_fd_table ∅) ;;
  ret DNA_OK.

Definition vfs_destroy : V F status_t := ret DNA_NOT_IMPLEMENTED.
Definition vfs_stop : V F status_t := ret DNA_OK.

(** "/", "/devices", "rootfs", "devfs" and "/devices/serial/kernel/console" *)
Definition root_path : list Z := [47].
Definition devices_path : list Z := [47; 100; 101; 118; 105; 99; 101; 115].
Definition rootfs_name : list Z := [114; 111; 111; 116; 102; 115].
Definition devfs_name : list Z := [100; 101; 118; 102; 115].
Definition console_path : list Z :=
  devices_path ++ [47; 115; 101; 114; 105; 97; 108; 47; 107; 101; 114; 110; 101; 108; 47;
                   99; 111; 110; 115; 111; 108; 101].

Definition vfs_start : V F status_t :=
  let* status := vfs_mount (Some []) (Some root_path) (Some rootfs_name) 0 0 in
  ensure st_eqb status DNA_OK orelse status in
  let* status := vfs_mount (Some []) (Some devices_path) (Some devfs_name) 0 0 in
  ensure st_eqb status DNA_OK orelse status in
  let* o := vfs_open (Some console_path) 0 0 true in
  ensure st_eqb o.1 DNA_OK orelse o.1 in
  let* o := vfs_open (Some console_path) 0 0 true in
  ensure st_eqb o.1 DNA_OK orelse o.1 in
  let* o := vfs_open (Some console_path) 0 0 true in
  ensure st_eqb o.1 DNA_OK orelse o.1 in
  ret DNA_OK.

End Vfs.
