(* ===== verification/VfsSpec.v ===== *)
(** * Correctness of the virtual file system (Vfs.v)

    [vnode_walk] resolves a path along the declarative relation [steps] (entries of
    directories, mount points, and ".." above the root of a volume) and leaves exactly
    one more reference, on the vnode it returns.  The descriptor operations call the
    command of the file system, keep the counters balanced and move the offset.

    The commands of the file systems are arbitrary; what a theorem needs of them is
    one of its hypotheses. *)

From S2P Require Import Prelude Status CLib Queue Allocator Kernel Logic Memory Scheduler Alarm Thread Vfs.

(** ** Rules *)

Lemma i32_add x y : i32 (i32 x + y) = i32 (x + y).
Proof.
  unfold i32, wrap_s. change (2 ^ (32 - 1)) with 2147483648. change (2 ^ 32) with 4294967296. f_equal.
  replace ((x + 2147483648) mod 4294967296 - 2147483648 + y + 2147483648)
    with ((x + 2147483648) mod 4294967296 + y) by lia.
  rewrite Zplus_mod_idemp_l. f_equal. lia.
Qed.

Section VfsSpec.
Context `{Hal} {F : Type} (cmds : Z -> filesystem_cmd F).
Implicit Types s : vstate F.

(** Two states with the same kernel and the same files. *)
Lemma vstate_eq s t :
  kern s = kern t -> vq s = vq t -> volumes s = volumes t -> vnodes s = vnodes t -> files s = files t ->
  volume_index s = volume_index t -> file_pool s = file_pool t -> file_arrays s = file_arrays t ->
  fd_table s = fd_table t -> fsd s = fsd t -> s = t.
Proof. destruct s, t; cbn. congruence. Qed.

(** The state while the lock [l] is held with the interrupts masked. *)
Definition locked (l : lock) s : vstate F :=
  set_kern (set_locks (<[l := 1]> (locks (kern s))) (set_cpsr (Z.lor (cpsr (kern s)) 0xC0) (kern s))) s.

Lemma wp_enter l Q s :
  locks (kern s) !! l = None -> Q (cpsr (kern s)) (locked l s) -> wp (enter l) Q s.
Proof.
  intros Hl HQ. unfold enter. apply wp_bind. unfold onk. apply wp_lift.
  unfold cpu_trap_mask_and_backup. apply wp_bind, wp_gets, wp_bind, wp_modify, wp_ret.
  apply wp_bind. unfold onk. apply wp_lift. apply wp_lock_acquire; [done|]. apply wp_ret.
  destruct s as [k]. by destruct k.
Qed.

(** Leaving gives the kernel back as it was. *)
Lemma wp_leave_lock l Q s s' :
  locks (kern s) !! l = None -> kern s' = kern (locked l s) ->
  Q tt (set_kern (kern s) s') -> wp (leave l (cpsr (kern s))) Q s'.
Proof.
  intros Hl Hk HQ. unfold leave. apply wp_bind. unfold onk. apply wp_lift, wp_lock_release.
  unfold onk. apply wp_lift, wp_modify. destruct s as [k], s' as [k']. cbn in Hk. subst k'. destruct k.
  cbn in *. by rewrite delete_insert_free.
Qed.

Definition view (vn vo : list Z) (q : vqid) : list Z :=
  match q with QVnodes => vn | QVolumes => vo end.

Context (U : gset Z).

Lemma wp_lookup_volume inspector vn vo Q s :
  qwf U (vq s) (view vn vo) -> locks (kern s) !! LVolumeList = None ->
  (forall k, inspector (set_kern k s) = inspector s) ->
  Q (default 0 (List.find (inspector s) vo)) s -> wp (lookup_volume inspector) Q s.
Proof.
  intros Hwf Hl Hi HQ. unfold lookup_volume. apply wp_bind, wp_enter; [done|].
  apply wp_bind, wp_gets, wp_bind. unfold onvq. apply wp_lift. eapply wp_eq; [by apply (queue_lookup_ok _ _ _ _ _ Hwf)|].
  apply wp_bind. eapply (wp_leave_lock _ _ s); [done|by destruct s|]. apply wp_ret.
  unfold locked. rewrite Hi. by destruct s.
Qed.

(** The vnode of a volume identifier and a vnode identifier. *)
Definition node (vn : list Z) s (vid vnid : Z) : option Z :=
  List.find (vnode_id_inspector s vnid vid) vn.

Lemma wp_find_vnode vid vnid vn vo Q s :
  qwf U (vq s) (view vn vo) -> Q (node vn s vid vnid) s -> wp (find_vnode vid vnid) Q s.
Proof.
  intros Hwf HQ. unfold find_vnode. apply wp_bind, wp_gets. unfold onvq. apply wp_lift.
  eapply wp_eq; [by apply (queue_lookup_ok _ _ _ _ _ Hwf)|]. by destruct s.
Qed.

(** One more, or one less, reference. *)
Definition bump (a k : Z) s : vstate F :=
  set_vnodes (alter (fun v => with_vn_usage (i32 (vn_usage v + k)) v) a (vnodes s)) s.

Lemma bump_lookup a k s b :
  vnodes (bump a k s) !! b =
    (if decide (a = b) then (fun v => with_vn_usage (i32 (vn_usage v + k)) v) <$> vnodes s !! b
     else vnodes s !! b).
Proof. cbn. case_decide as Hab; [subst; by rewrite lookup_alter_eq|by rewrite lookup_alter_ne]. Qed.

Lemma bump_inspector a k s vnid vid b :
  vnode_id_inspector (bump a k s) vnid vid b = vnode_id_inspector s vnid vid b.
Proof.
  unfold vnode_id_inspector. rewrite bump_lookup. change (volumes (bump a k s)) with (volumes s).
  case_decide; [|done]. by destruct (vnodes s !! b) as [[]|].
Qed.

Lemma find_ext {A} (f g : A -> bool) l : (forall x, f x = g x) -> List.find f l = List.find g l.
Proof. intros Hfg. induction l as [|x l IH]; cbn; [done|]. by rewrite Hfg, IH. Qed.

Lemma node_bump vn a k s vid vnid : node vn (bump a k s) vid vnid = node vn s vid vnid.
Proof. apply find_ext. intros b. apply bump_inspector. Qed.

Lemma bump_bump a k l s : bump a l (bump a k s) = bump a (k + l) s.
Proof.
  unfold bump, set_vnodes. destruct s as [ke q vo vns fi vi fp fa ft fs]. cbn. f_equal.
  apply map_eq. intros b. destruct (decide (a = b)) as [->|Hab].
  - rewrite !lookup_alter_eq. destruct (vns !! b) as [v|]; cbn; [|done]. f_equal. unfold with_vn_usage. cbn. f_equal.
    rewrite i32_add. by rewrite Z.add_assoc.
  - by rewrite !lookup_alter_ne by done.
Qed.

Lemma bump_comm a b k l s : bump a k (bump b l s) = bump b l (bump a k s).
Proof.
  destruct (decide (a = b)) as [->|Hab]; [rewrite !bump_bump; f_equal; lia|].
  unfold bump, set_vnodes. destruct s as [ke q vo vns fi vi fp fa ft fs]. cbn. f_equal. by apply alter_alter_ne.
Qed.

Lemma alter_same {A} `{Countable B} (f : A -> A) (m : gmap B A) i :
  (forall x, m !! i = Some x -> f x = x) -> alter f i m = m.
Proof.
  intros Hf. apply map_eq. intros j. destruct (decide (i = j)) as [->|Hij]; [|by rewrite lookup_alter_ne].
  rewrite lookup_alter_eq. destruct (m !! j) as [x|] eqn:E; cbn; [|done]. f_equal. auto.
Qed.

Lemma alter_known {A} `{Countable B} (f : A -> A) (m : gmap B A) i x :
  m !! i = Some x -> alter f i m = <[i := f x]> m.
Proof.
  intros Hx. apply map_eq. intros j. destruct (decide (i = j)) as [->|Hij].
  - by rewrite lookup_alter_eq, lookup_insert_eq, Hx.
  - by rewrite lookup_alter_ne, lookup_insert_ne.
Qed.

(** The counters are int32_t. *)
Definition counted s : Prop :=
  forall a v, vnodes s !! a = Some v -> vn_destroy v = false /\ 1 <= vn_usage v < 2 ^ 31 - 1.

Lemma bump_zero a s : counted s -> bump a 0 s = s.
Proof.
  intros Hc. unfold bump. rewrite alter_same; [by destruct s|]. intros v Hv. destruct (Hc _ _ Hv) as [_ Hu].
  destruct v as [id vo d u da ka]. cbn in *. unfold with_vn_usage. cbn. rewrite i32_id by lia. by rewrite Z.add_0_r.
Qed.

Lemma node_elem vn s vid vnid a : node vn s vid vnid = Some a -> exists v, vnodes s !! a = Some v.
Proof.
  intros Ha. apply find_some in Ha as [_ Ha]. unfold vnode_id_inspector in Ha.
  destruct (vnodes s !! a) as [v|]; [eauto|done].
Qed.

(** ** References *)

Lemma wp_count_vnode a k v Q s :
  vnodes s !! a = Some v -> Q tt (bump a k s) -> wp (count_vnode a k) Q s.
Proof.
  intros Hv HQ. unfold count_vnode, wr_vnode, rd_vnode. apply wp_bind, wp_bind, wp_gets. rewrite Hv.
  apply wp_ret, wp_modify. unfold bump in HQ. by rewrite (alter_known _ _ _ v) in HQ.
Qed.

(** Taking and giving back a reference on a vnode that is in the list. *)
Lemma vnode_get_known vn vo vid vnid d a v s :
  qwf U (vq s) (view vn vo) -> locks (kern s) !! LVnodeList = None ->
  node vn s vid vnid = Some a -> vnodes s !! a = Some v -> vn_destroy v = false ->
  vnode_get cmds vid vnid d s = Ret (DNA_OK, vn_data v) (bump a 1 s).
Proof.
  intros Hwf Hl Ha Hv Hd. apply wp_run. unfold vnode_get. apply wp_bind, wp_enter; [done|].
  apply wp_bind. eapply (wp_find_vnode _ _ vn vo); [done|]. apply wp_bind.
  eapply (wp_leave_lock _ _ s); [done|done|]. replace (set_kern (kern s) (locked LVnodeList s)) with s by (by destruct s).
  change (node vn (locked LVnodeList s) vid vnid) with (node vn s vid vnid). rewrite Ha.
  unfold rd_vnode. apply wp_bind, wp_bind, wp_gets. rewrite Hv. apply wp_ret. rewrite Hd.
  apply wp_bind. eapply wp_count_vnode; [done|]. by apply wp_ret.
Qed.

Lemma vnode_put_shared vn vo vid vnid a v s :
  qwf U (vq s) (view vn vo) -> locks (kern s) !! LVnodeList = None ->
  node vn s vid vnid = Some a -> vnodes s !! a = Some v -> i32 (vn_usage v + -1) <> 0 ->
  vnode_put cmds vid vnid s = Ret DNA_OK (bump a (-1) s).
Proof.
  intros Hwf Hl Ha Hv Hu. apply wp_run. unfold vnode_put. apply wp_bind, wp_enter; [done|].
  apply wp_bind. eapply (wp_find_vnode _ _ vn vo); [done|].
  change (node vn (locked LVnodeList s) vid vnid) with (node vn s vid vnid). rewrite Ha.
  apply wp_bind. eapply wp_count_vnode; [done|]. unfold rd_vnode. apply wp_bind, wp_bind, wp_gets.
  rewrite bump_lookup, decide_True by done. change (vnodes (locked LVnodeList s)) with (vnodes s).
  rewrite Hv. cbn [fmap option_fmap option_map deref]. apply wp_ret. cbn [vn_usage with_vn_usage].
  rewrite (proj2 (Z.eqb_neq _ _)) by done. apply wp_bind. eapply (wp_leave_lock _ _ s); [done|done|].
  apply wp_ret. split; [done|]. by destruct s.
Qed.

(** ** The mount table *)

(** The volume mounted on a node; 0 if there is none. *)
Definition mounted (vo : list Z) s (host vnid : Z) : Z :=
  default 0 (List.find (volume_host_inspector s host vnid) vo).

Section Walk.
Context (dir : Z -> Z -> Z -> list Z -> status_t * Z) (vn vo : list Z) (s : vstate F).

(** The node (volume, vnid), its volume and its vnode. *)
Definition located (vol vnid : Z) (w : volume_t) (a : Z) (v : vnode_t) : Prop :=
  volumes s !! vol = Some w /\ node vn s (v_id w) vnid = Some a /\ vnodes s !! a = Some v.

Definition answer (w : volume_t) (v : vnode_t) (token : list Z) : status_t * Z :=
  dir (v_cmd w) (v_data w) (vn_data v) token.

(** The file systems answer the walks from the vnodes of the list as [dir] says, and a
    walk has no effect. *)
Definition walks : Prop :=
  forall vns vol vnid w a v token new, located vol vnid w a v ->
    fs_walk (cmds (v_cmd w)) (v_data w) (vn_data v) token new (set_vnodes vns s) =
      Ret (let r := answer w v token in if st_eqb r.1 DNA_OK then r else (r.1, new)) (set_vnodes vns s).

(** One token of a path leads from a node to a node. *)
Inductive step (token : list Z) : Z * Z -> Z * Z -> Prop :=
| step_same vol vnid w a v :        (* "." *)
    located vol vnid w a v -> answer w v token = (DNA_OK, vnid) -> step token (vol, vnid) (vol, vnid)
| step_entry vol vnid w a v new b vb :   (* an entry of the directory *)
    located vol vnid w a v -> answer w v token = (DNA_OK, new) -> new <> vnid ->
    mounted vo s vol new = 0 -> located vol new w b vb -> step token (vol, vnid) (vol, new)
| step_mount vol vnid w a v new m wm b vb :   (* a mount point: the root of the volume *)
    located vol vnid w a v -> answer w v token = (DNA_OK, new) -> new <> vnid ->
    mounted vo s vol new = m -> m <> 0 -> located m (root_vnid wm) wm b vb ->
    step token (vol, vnid) (m, root_vnid wm)
| step_top vol vnid w a v n :       (* ".." at the root of "/" *)
    located vol vnid w a v -> answer w v token = (DNA_ALREADY_AT_ROOT, n) ->
    host_volume w = 0 -> step token (vol, vnid) (vol, vnid)
| step_up vol vnid w a v n dst :    (* ".." at the root of a mounted volume *)
    located vol vnid w a v -> answer w v token = (DNA_ALREADY_AT_ROOT, n) ->
    host_volume w <> 0 -> step token (host_volume w, host_vnid w) dst -> step token (vol, vnid) dst.

Inductive steps : list (list Z) -> Z * Z -> Z * Z -> Prop :=
| steps_nil x : steps [] x x
| steps_cons token tokens x y z : step token x y -> steps tokens y z -> steps (token :: tokens) x z.

(** A mounted volume is younger than its host. *)
Definition hosts_older : Prop :=
  forall p w, volumes s !! p = Some w -> host_volume w <> 0 ->
    exists h, volumes s !! host_volume w = Some h /\ v_id h < v_id w.

Definition older (x : Z) : gmap Z volume_t := filter (fun kv => v_id kv.2 < x) (volumes s).
Definition rank (vol : Z) : nat :=
  match volumes s !! vol with Some w => size (older (v_id w)) | None => 0%nat end.

Lemma rank_host p w :
  hosts_older -> volumes s !! p = Some w -> host_volume w <> 0 -> (rank (host_volume w) < rank p)%nat.
Proof.
  intros Ho Hp Hh. destruct (Ho p w Hp Hh) as (h & Hhv & Hlt). unfold rank. rewrite Hp, Hhv.
  apply map_subset_size. split.
  - apply map_filter_subseteq_ext. intros i x Hx. cbn. lia.
  - intros Hsub. pose proof (lookup_weaken (older (v_id w)) (older (v_id h)) (host_volume w) h) as Hw.
    assert (older (v_id w) !! host_volume w = Some h) as H1 by (by apply map_lookup_filter_Some_2).
    specialize (Hw H1 Hsub). apply map_lookup_filter_Some in Hw as [_ Hw]. cbn in Hw. lia.
Qed.

Lemma rank_size p : (rank p <= size (volumes s))%nat.
Proof.
  unfold rank. destruct (volumes s !! p) as [w|]; [|lia]. apply map_subseteq_size, map_filter_subseteq.
Qed.

(** *** The references held during a walk *)

Context (Hwf : qwf U (vq s) (view vn vo)) (Hcount : counted s).
Context (Hfree : locks (kern s) !! LVnodeList = None) (Hfree' : locks (kern s) !! LVolumeList = None).

Lemma bumped a v k b : vnodes s !! a = Some v ->
  vnodes (bump b k s) !! a = Some (if decide (b = a) then with_vn_usage (i32 (vn_usage v + k)) v else v).
Proof. intros Hv. rewrite bump_lookup, Hv. by case_decide. Qed.

Lemma get_held a vol vnid w b vb d :
  located vol vnid w b vb ->
  vnode_get cmds (v_id w) vnid d (bump a 1 s) = Ret (DNA_OK, vn_data vb) (bump b 1 (bump a 1 s)).
Proof.
  intros (Hw & Hb & Hv). destruct (Hcount _ _ Hv) as [Hd _].
  rewrite (vnode_get_known vn vo _ _ _ b (if decide (a = b) then with_vn_usage (i32 (vn_usage vb + 1)) vb else vb)).
  - by case_decide.
  - done.
  - done.
  - by rewrite node_bump.
  - by apply bumped.
  - by case_decide.
Qed.

Lemma put_held a vol vnid w v :
  located vol vnid w a v -> vnode_put cmds (v_id w) vnid (bump a 1 s) = Ret DNA_OK s.
Proof.
  intros (Hw & Ha & Hv). destruct (Hcount _ _ Hv) as [_ Hu].
  rewrite (vnode_put_shared vn vo _ _ a (with_vn_usage (i32 (vn_usage v + 1)) v)); try done.
  - by rewrite bump_bump, bump_zero.
  - by rewrite node_bump.
  - rewrite bumped with (v := v) by done. by rewrite decide_True.
  - cbn [vn_usage with_vn_usage]. rewrite i32_add, i32_id; lia.
Qed.

Lemma put_after_get a b vol vnid w v :
  located vol vnid w a v ->
  vnode_put cmds (v_id w) vnid (bump b 1 (bump a 1 s)) = Ret DNA_OK (bump b 1 s).
Proof.
  intros (Hw & Ha & Hv). destruct (Hcount _ _ Hv) as [_ Hu].
  set (v1 := with_vn_usage (i32 (vn_usage v + 1)) v).
  rewrite (vnode_put_shared vn vo _ _ a (if decide (b = a) then with_vn_usage (i32 (vn_usage v1 + 1)) v1 else v1)); try done.
  - by rewrite bump_comm, bump_bump, bump_zero.
  - by rewrite !node_bump.
  - rewrite bump_lookup, (bumped a v 1 a) by done. rewrite (decide_True (P := a = a)) by done. by case_decide.
  - case_decide; cbn [vn_usage with_vn_usage v1]; rewrite (i32_id (vn_usage v + 1)), ?i32_add, i32_id; lia.
Qed.

(** *** One token *)

Context (Hwalk : walks) (Holder : hosts_older).

(** The locals after the inner loop: the destination is the current node, an entry
    of it, or the root of the volume mounted on that entry. *)
Definition found (t : walk_t) (dst : Z * Z) : Prop :=
  (w_new t = w_vnid t /\ dst = (w_volume t, w_vnid t)) \/
  (w_new t <> w_vnid t /\ mounted vo s (w_volume t) (w_new t) = 0 /\ dst = (w_volume t, w_new t)) \/
  (exists wm, w_new t <> w_vnid t /\ mounted vo s (w_volume t) (w_new t) <> 0 /\
     volumes s !! mounted vo s (w_volume t) (w_new t) = Some wm /\
     dst = (mounted vo s (w_volume t) (w_new t), root_vnid wm)).

(** The walk stands on the node [x], on which it holds a reference. *)
Definition standing (t : walk_t) (x : Z * Z) (s' : vstate F) : Prop :=
  exists w a v, located x.1 x.2 w a v /\ w_volume t = x.1 /\ w_vnid t = x.2 /\ w_data t = vn_data v /\
    s' = bump a 1 s.

Lemma wp_rd_volume vol w a k Q :
  volumes s !! vol = Some w -> Q w (bump a k s) -> wp (rd_volume vol) Q (bump a k s).
Proof. intros Hw HQ. unfold rd_volume. apply wp_bind, wp_gets. cbn [volumes bump set_vnodes]. by rewrite Hw. Qed.

Lemma rd_volume_here vol w Q : volumes s !! vol = Some w -> Q w s -> wp (rd_volume vol) Q s.
Proof. intros Hw HQ. unfold rd_volume. apply wp_bind, wp_gets. by rewrite Hw. Qed.

Lemma get_first vol vnid w b vb d :
  located vol vnid w b vb ->
  vnode_get cmds (v_id w) vnid d s = Ret (DNA_OK, vn_data vb) (bump b 1 s).
Proof. intros (Hw & Hb & Hv). destruct (Hcount _ _ Hv) as [Hd _]. by apply (vnode_get_known vn vo). Qed.

Lemma located_fun vol vnid w a v w' a' v' :
  located vol vnid w a v -> located vol vnid w' a' v' -> w' = w /\ a' = a /\ v' = v.
Proof. intros (? & ? & ?) (? & ? & ?). by simplify_eq. Qed.

Lemma step_located token x dst :
  step token x dst ->
  (exists w a v, located x.1 x.2 w a v) /\ (exists w a v, located dst.1 dst.2 w a v).
Proof. induction 1; cbn [fst snd] in *; naive_solver. Qed.

Lemma walk_token_ok token x dst :
  step token x dst -> forall fuel t s', (rank x.1 < fuel)%nat -> standing t x s' ->
  wp (walk_token cmds fuel token t)
     (fun r s'' => exists t' y, r = inr t' /\ standing t' y s'' /\ found t' dst) s'.
Proof.
  induction 1 as [vol vnid w a v Hloc Hans|vol vnid w a v new b vb Hloc Hans Hne Hm Hb
    |vol vnid w a v new m wm b vb Hloc Hans Hne Hm Hm0 Hb|vol vnid w a v n Hloc Hans Hh
    |vol vnid w a v n dst Hloc Hans Hh Hstep IH];
    intros [|fuel] [tvol tvnid td tnew] s' Hfuel (w0 & a0 & v0 & Hloc0 & Hvol & Hvn & Hdata & ->); try lia;
    cbn [fst snd w_volume w_vnid w_data] in *; subst tvol tvnid td;
    destruct (located_fun _ _ _ _ _ _ _ _ Hloc Hloc0) as (-> & -> & ->);
    cbn [walk_token w_volume w_vnid w_data w_new]; apply wp_bind; (eapply wp_rd_volume; [apply Hloc|]);
    apply wp_bind; (eapply wp_eq; [by eapply Hwalk|]); cbv zeta; rewrite Hans;
    cbn [fst snd]; keqb; cbn [fst snd];
    (assert (forall new, standing (mkWalk vol vnid (vn_data v) new) (vol, vnid) (bump a 1 s)) as Hst
       by (intros ?; by exists w, a, v)).
  - apply wp_ret. eexists _, _. split; [reflexivity|]. split; [apply Hst|]. by left.
  - apply wp_ret. eexists _, _. split; [reflexivity|]. split; [apply Hst|]. by right; left.
  - apply wp_ret. eexists _, _. split; [reflexivity|]. split; [apply Hst|]. right; right.
    exists wm. cbn [w_volume w_vnid w_new]. rewrite Hm. split_and!; [done|done|apply Hb|done].
  - apply wp_bind. eapply wp_rd_volume; [apply Hloc|]. rewrite Hh. cbn [Z.eqb negb]. apply wp_ret.
    eexists _, _. split; [reflexivity|]. split; [apply Hst|]. by left.
  - apply wp_bind. eapply wp_rd_volume; [apply Hloc|]. rewrite (proj2 (Z.eqb_neq _ _) Hh). cbn [negb].
    apply wp_bind. eapply wp_eq; [by eapply put_held|]. keqb.
    apply wp_bind. eapply rd_volume_here; [apply Hloc|]. apply wp_bind.
    destruct (step_located _ _ _ Hstep) as [(wh & ah & vh & Hlh) _]. cbn [fst snd] in Hlh.
    eapply rd_volume_here; [apply Hlh|]. apply wp_bind. eapply wp_eq; [by eapply get_first|].
    cbn [fst snd]. keqb. eapply IH.
    + pose proof (rank_host vol w Holder ltac:(apply Hloc) Hh). cbn [fst]. lia.
    + by exists wh, ah, vh.
Qed.

Lemma wp_mounted a k host vnid Q :
  Q (mounted vo s host vnid) (bump a k s) ->
  wp (lookup_volume (fun s => volume_host_inspector s host vnid)) Q (bump a k s).
Proof. intros HQ. by eapply (wp_lookup_volume _ vn vo). Qed.

Lemma walk_update_ok t y dst s' :
  standing t y s' -> found t dst -> (exists w a v, located dst.1 dst.2 w a v) ->
  wp (walk_update cmds t) (fun r s'' => exists t', r = inr t' /\ standing t' dst s'') s'.
Proof.
  destruct t as [vol vnid d new]. destruct y as [yvol yvnid]. unfold found.
  intros (w & a & v & Hloc & Hvol & Hvn & Hdata & ->) Hfound (wd & b & vb & Hd).
  cbn [fst snd w_volume w_vnid w_data w_new] in *. subst yvol yvnid d. unfold walk_update.
  cbn [w_vnid w_new w_volume w_data]. destruct Hfound as [[-> ->]|[(Hne & Hm & ->)|(wm & Hne & Hm & Hwm & ->)]].
  - rewrite Z.eqb_refl. apply wp_ret. eexists. split; [done|]. by exists w, a, v.
  - rewrite (proj2 (Z.eqb_neq vnid new)) by done. apply wp_bind, wp_mounted. rewrite Hm.
    apply wp_bind. eapply wp_rd_volume; [apply Hloc|]. cbn [Z.eqb negb fst snd] in *.
    assert (wd = w) as -> by (destruct Hloc, Hd; by simplify_eq).
    apply wp_bind. eapply wp_eq; [by eapply get_held|]. cbn [fst snd]. keqb.
    apply wp_bind. eapply wp_eq; [by eapply put_after_get|]. keqb. apply wp_ret.
    eexists. split; [done|]. by exists w, b, vb.
  - rewrite (proj2 (Z.eqb_neq vnid new)) by done. apply wp_bind, wp_mounted.
    apply wp_bind. eapply wp_rd_volume; [apply Hloc|]. rewrite (proj2 (Z.eqb_neq _ 0)) by done.
    cbn [negb fst snd] in *. apply wp_bind. eapply wp_rd_volume; [done|].
    assert (wd = wm) as -> by (destruct Hd; by simplify_eq).
    apply wp_bind. eapply wp_eq; [by eapply get_held|]. cbn [fst snd]. keqb.
    apply wp_bind. eapply wp_eq; [by eapply put_after_get|]. keqb. apply wp_ret.
    eexists. split; [done|]. by exists wm, b, vb.
Qed.

(** *** Paths *)

(** The path made of tokens separated by '/'. *)
Fixpoint path_of (tokens : list (list Z)) : list Z :=
  match tokens with
  | [] => []
  | [token] => token
  | token :: tokens => token ++ slash :: path_of tokens
  end.

Definition token_ok (token : list Z) : Prop :=
  token <> [] /\ slash ∉ token /\ Z.of_nat (length token) < DNA_FILENAME_LENGTH.

Lemma split_entry_token token rest :
  slash ∉ token -> split_entry (token ++ slash :: rest) = (token, rest).
Proof.
  induction token as [|c token IH]; intros Hs; cbn [split_entry app]; [by rewrite Z.eqb_refl|].
  apply not_elem_of_cons in Hs as [Hc Hs]. rewrite (proj2 (Z.eqb_neq c slash)) by congruence. by rewrite IH.
Qed.

Lemma split_entry_last token : slash ∉ token -> split_entry token = (token, []).
Proof.
  induction token as [|c token IH]; intros Hs; cbn [split_entry]; [done|].
  apply not_elem_of_cons in Hs as [Hc Hs]. rewrite (proj2 (Z.eqb_neq c slash)) by congruence. by rewrite IH.
Qed.

Lemma next_entry_path token tokens (s' : vstate F) :
  Forall token_ok (token :: tokens) ->
  next_entry (path_of (token :: tokens)) s' = Ret (DNA_OK, token, path_of tokens) s'.
Proof.
  intros [(Hne & Hs & Hlen) Hts]%Forall_cons.
  assert (split_entry (path_of (token :: tokens)) = (token, path_of tokens)) as Hsplit.
  { destruct tokens; [by apply split_entry_last|by apply split_entry_token]. }
  unfold next_entry. destruct (path_of (token :: tokens)) as [|c path] eqn:Hp.
  { destruct tokens, token; done. }
  rewrite Hsplit. rewrite (proj2 (Z.leb_le _ _)) by lia. by rewrite (proj2 (Z.ltb_lt _ _)) by lia.
Qed.

(** The strings of this model are those of the C library: path_get_next_entry finds in
    memory the token and the rest that [next_entry] gives. *)
Lemma split_entry_app path :
  path = (split_entry path).1 /\ slash ∉ path \/
  path = (split_entry path).1 ++ slash :: (split_entry path).2 /\ slash ∉ (split_entry path).1.
Proof.
  induction path as [|c path IH]; cbn [split_entry]; [left; split; [done|set_solver]|].
  destruct (Z.eqb_spec c slash) as [->|Hc]; [right; split; [done|set_solver]|].
  destruct (split_entry path) as [tok rest]. cbn [fst snd] in *.
  destruct IH as [[<- Hs]|[-> Hs]]; [left|right]; (split; [done|set_solver]).
Qed.

Lemma next_entry_refines m p t path (s' : vstate F) :
  cstring m p path -> path <> [] -> (length (split_entry path).1 < Z.to_nat DNA_FILENAME_LENGTH)%nat ->
  mapped m t (Z.to_nat DNA_FILENAME_LENGTH) -> apart t (Z.to_nat DNA_FILENAME_LENGTH) p (S (length path)) ->
  exists tok rest p' m', next_entry path s' = Ret (DNA_OK, tok, rest) s' /\
    path_get_next_entry p t m = Ret (DNA_OK, p') m' /\ cstring m' t tok /\ cstring m' p' rest.
Proof.
  intros [Hch Hseg] Hne Hlen Hm Ha. unfold DNA_FILENAME_LENGTH in *. exists (split_entry path).1, (split_entry path).2.
  assert (next_entry path s' = Ret (DNA_OK, (split_entry path).1, (split_entry path).2) s') as Hnext.
  { unfold next_entry, DNA_FILENAME_LENGTH. destruct path as [|c path]; [done|]. destruct (split_entry (c :: path)) as [tok rest].
    cbn [fst snd] in *. rewrite (proj2 (Z.leb_le _ _)) by lia. by rewrite (proj2 (Z.ltb_lt _ _)) by lia. }
  destruct (split_entry_app path) as [[Hp Hs]|[Hp Hs]].
  - assert ((split_entry path).2 = []) as Hr by (by rewrite (split_entry_last path Hs)).
    rewrite Hr in Hnext |- *. rewrite <- Hp in Hnext, Hlen |- *. eexists _, _. split; [exact Hnext|].
    split; [rewrite (path_get_next_entry_ok m p t path 0);
            [change (0 =? slash) with false; reflexivity| |done|by right|unfold DNA_FILENAME_LENGTH; lia|apply (mapped_sub _ t 256); [done|lia|lia]|apart]|].
    { apply Forall_forall. intros c Hc. split; [by eapply Forall_forall|set_solver]. }
    cbv zeta. split; [by apply written_cstring|]. split; [done|].
    apply segment_written; [apart|]. apply segment_app in Hseg as [_ Hz]. exact Hz.
  - set (tok := (split_entry path).1) in *. set (rest := (split_entry path).2) in *. rewrite Hp in Hch, Hseg, Ha.
    apply Forall_app in Hch as [Hct [_ Hcr]%Forall_cons].
    rewrite <- app_assoc in Hseg. change ((slash :: rest) ++ [0]) with ([slash] ++ (rest ++ [0])) in Hseg.
    rewrite app_assoc in Hseg. apply segment_app in Hseg as [Htok Hrest]. rewrite length_app in Hrest. cbn [length] in Hrest.
    eexists _, _. split; [exact Hnext|].
    split; [rewrite (path_get_next_entry_ok m p t tok slash);
            [rewrite Z.eqb_refl; reflexivity| |done|by left|unfold DNA_FILENAME_LENGTH; lia|apply (mapped_sub _ t 256); [done|lia|lia]|apart]|].
    { apply Forall_forall. intros c Hc. split; [by apply (proj1 (Forall_forall _ _) Hct)|set_solver]. }
    split; [apply cstring_insert; [apart|by apply written_cstring]|]. apply cstring_insert; [left; lia|]. split; [done|].
    apply segment_written; [apart|]. by replace (p + Z.of_nat (length tok) + 1) with (p + Z.of_nat (length tok + 1)) by lia.
Qed.

Lemma path_of_length token tokens :
  (length (path_of tokens) < length (path_of (token :: tokens)))%nat \/ token = [].
Proof. destruct token; [by right|]. left. destruct tokens; cbn; [lia|]. rewrite length_app. cbn. lia. Qed.

Lemma walk_loop_ok tokens x dst :
  steps tokens x dst -> Forall token_ok tokens ->
  forall fuel t s', (length (path_of tokens) < fuel)%nat -> standing t x s' ->
  wp (walk_loop cmds fuel (path_of tokens) t) (fun r s'' => exists t', r = inr t' /\ standing t' dst s'') s'.
Proof.
  induction 1 as [x|token tokens x y z Hstep Hsteps IH]; intros Hok [|fuel] t s' Hfuel Hst; try lia;
    cbn [walk_loop]; apply wp_bind.
  - apply wp_ret. keqb. apply wp_ret. eauto.
  - eapply wp_eq; [by apply next_entry_path|]. keqb.
    apply Forall_cons in Hok as [Htok Hok]. apply wp_bind, wp_gets, wp_bind.
    eapply wp_mono; [eapply walk_token_ok; [done| |done]|].
    { destruct Hst as (? & ? & ? & ? & ? & ? & ? & ->). pose proof (rank_size x.1). cbn [volumes bump set_vnodes]. lia. }
    intros r s1 (t1 & y1 & -> & Hst1 & Hf). apply wp_bind.
    eapply wp_mono; [eapply walk_update_ok; [done|done|by apply (step_located _ _ _ Hstep)]|].
    intros r s2 (t2 & -> & Hst2). apply IH; [done| |done].
    destruct (path_of_length token tokens) as [?| ->]; [lia|]. by destruct Htok.
Qed.

(** From the root of the volume mounted on "/". *)
Lemma vnode_walk_ok tokens r wr ar vr dst w a v :
  Forall token_ok tokens -> Z.of_nat (length (path_of tokens)) < DNA_PATH_LENGTH - 1 ->
  mounted vo s 0 (-1) = r -> r <> 0 -> located r (root_vnid wr) wr ar vr ->
  steps tokens (r, root_vnid wr) dst -> located dst.1 dst.2 w a v ->
  vnode_walk cmds (slash :: path_of tokens) s = Ret (DNA_OK, Some (dst.1, dst.2, vn_data v)) (bump a 1 s).
Proof.
  intros Hok Hlen Hr Hr0 Hroot Hsteps Hdst. apply wp_run. unfold vnode_walk, strcpy_buffer.
  rewrite (proj2 (Z.ltb_lt _ _)) by (cbn [length]; lia). apply wp_bind, wp_ret, wp_bind.
  cbn [next_entry split_entry]. rewrite Z.eqb_refl. cbn [length Z.of_nat]. apply wp_ret. keqb.
  rewrite bool_decide_true by done. apply wp_bind.
  eapply (wp_lookup_volume _ vn vo); [done|done|done|]. fold (mounted vo s 0 (-1)). rewrite Hr.
  rewrite (proj2 (Z.eqb_neq r 0)) by done. cbn [negb]. apply wp_bind. eapply rd_volume_here; [apply Hroot|].
  apply wp_bind. eapply wp_eq; [by eapply get_first|]. cbn [fst snd]. keqb. apply wp_bind.
  eapply wp_mono; [apply (walk_loop_ok _ _ _ Hsteps Hok); [lia|by exists wr, ar, vr]|].
  intros res s' (t & -> & w' & a' & v' & Hl & -> & -> & -> & ->). apply wp_ret.
  by destruct (located_fun _ _ _ _ _ _ _ _ Hdst Hl) as (-> & -> & ->).
Qed.

End Walk.

(** The mounted file systems: the lists of volumes and of vnodes are well formed and
    unlocked, the vnodes of the list are counted, the file systems answer as [dir] says. *)
Record tree (dir : Z -> Z -> Z -> list Z -> status_t * Z) (vn vo : list Z) s : Prop := {
  tree_lists : qwf U (vq s) (view vn vo);
  tree_counted : counted s;
  tree_vnodes : locks (kern s) !! LVnodeList = None;
  tree_volumes : locks (kern s) !! LVolumeList = None;
  tree_walks : walks dir vn s;
  tree_hosts : hosts_older s
}.

(** The path "/" ++ tokens leads from the root of the first volume to the node [dst]. *)
Record resolves dir vn vo s (tokens : list (list Z)) (dst : Z * Z) : Prop := {
  res_tokens : Forall token_ok tokens;
  res_length : Z.of_nat (length (path_of tokens)) < DNA_PATH_LENGTH - 1;
  res_steps : exists r wr ar vr, mounted vo s 0 (-1) = r /\ r <> 0 /\ located vn s r (root_vnid wr) wr ar vr /\
    steps dir vn vo s tokens (r, root_vnid wr) dst
}.

Lemma vnode_walk_resolves dir vn vo s tokens dst w a v :
  tree dir vn vo s -> resolves dir vn vo s tokens dst -> located vn s dst.1 dst.2 w a v ->
  vnode_walk cmds (slash :: path_of tokens) s = Ret (DNA_OK, Some (dst.1, dst.2, vn_data v)) (bump a 1 s).
Proof.
  intros [? ? ? ? ? ?] [Hok Hlen (r & wr & ar & vr & Hm & Hr & Hroot & Hsteps)] Hdst.
  by eapply (vnode_walk_ok dir vn vo).
Qed.

(** ** Descriptors *)

(** thread_get_info reads the timer. *)
Definition tick s : vstate F := set_kern (set_ticks (S (ticks (kern s))) (kern s)) s.

(** The calling thread is a running thread of the group 0, and the locks that the
    descriptor operations take are free. *)
Record calling s : Prop := {
  call_thread : exists t,
    current_thread (cpu (mp_id (kern s)) (kern s)) = Some t /\
    tid_in_range (thread_id (thr t (kern s))) = true /\ tid_slot (thread_id (thr t (kern s))) = t /\
    t_status (info (thr t (kern s))) = DNA_THREAD_RUNNING /\ group (info (thr t (kern s))) = 0 /\
    locks (kern s) !! LThread t = None;
  call_pool : locks (kern s) !! LThreadPool = None;
  call_files : locks (kern s) !! LFilePool = None;
  call_array : is_Some (file_arrays s !! 0)
}.

Lemma thread_find_self (k : kstate) t :
  current_thread (cpu (mp_id k) k) = Some t ->
  thread_find None true k = Ret (DNA_OK, Some (thread_id (thr t k))) k.
Proof.
  intros Hcur. apply wp_run. kdestruct k. unfold thread_find. krun. rewrite Hcur. krun. done.
Qed.

Lemma thread_get_info_running (k : kstate) t :
  tid_in_range (thread_id (thr t k)) = true -> tid_slot (thread_id (thr t k)) = t ->
  t_status (info (thr t k)) = DNA_THREAD_RUNNING ->
  locks k !! LThreadPool = None -> locks k !! LThread t = None ->
  exists i, thread_get_info (thread_id (thr t k)) true k = Ret (DNA_OK, Some i) (set_ticks (S (ticks k)) k) /\
    group i = group (info (thr t k)).
Proof.
  intros Hrange Hslot Hrun Hp Ht.
  enough (wp (thread_get_info (thread_id (thr t k)) true)
    (fun r k' => exists i, r = (DNA_OK, Some i) /\ k' = set_ticks (S (ticks k)) k /\ group i = group (info (thr t k))) k)
    as (r & k' & Hr & i & -> & -> & Hi)%wp_exists by eauto.
  kdestruct k. unfold thread_get_info. rewrite Hrange, Hslot. krun. rewrite Z.eqb_refl. krun.
  rewrite Hrun. krun. klocks. eexists. split_and!; [done|done|]. by destruct (_ =? _).
Qed.

Lemma caller_group_ok s : calling s -> caller_group s = Ret (inr 0) (tick s).
Proof.
  intros [(t & Hcur & Hrange & Hslot & Hrun & Hg & Hlt) Hlp _ _].
  destruct (thread_get_info_running (kern s) t Hrange Hslot Hrun Hlp Hlt) as (i & Hi & Hgi).
  apply wp_run. unfold caller_group. apply wp_bind. unfold onk. apply wp_lift.
  eapply wp_eq; [apply (thread_find_self _ _ Hcur)|].
  cbn [fst snd]. keqb. apply wp_bind, wp_ret, wp_bind, wp_lift. eapply wp_eq; [exact Hi|].
  cbn [fst snd]. keqb. apply wp_bind, wp_ret. rewrite Hgi, Hg. apply wp_ret. split; [reflexivity|]. by destruct s.
Qed.

(** One more, or one less, user of a file. *)
Definition countf (file k : Z) s : vstate F :=
  set_files (alter (fun v => with_f_usage (i32 (f_usage v + k)) v) file (files s)) s.

Lemma wp_count_file file k v Q s :
  files s !! file = Some v -> Q tt (countf file k s) -> wp (count_file file k) Q s.
Proof.
  intros Hv HQ. unfold count_file, wr_file, rd_file. apply wp_bind, wp_bind, wp_gets. rewrite Hv.
  apply wp_ret, wp_modify. unfold countf in HQ. by rewrite (alter_known _ _ _ v) in HQ.
Qed.

Lemma wp_rd_file file v Q s : files s !! file = Some v -> Q v s -> wp (rd_file file) Q s.
Proof. intros Hv HQ. unfold rd_file. apply wp_bind, wp_gets. by rewrite Hv. Qed.

Lemma wp_rd_fd fd Q s :
  is_Some (file_arrays s !! 0) -> fd_in_range fd = true ->
  Q (default 0 (fd_table s !! (0, fd))) s -> wp (rd_fd 0 fd) Q s.
Proof.
  intros [arr Ha] Hfd HQ. unfold rd_fd. apply wp_bind, wp_gets. rewrite Ha. apply wp_bind, wp_ret.
  unfold fd_in_range in Hfd. rewrite Hfd. by apply wp_gets.
Qed.

(** The descriptor [fd] of the group 0 designates the file [v] at [file]. *)
Record opened s (fd file : Z) (v : file_t) : Prop := {
  open_range : fd_in_range fd = true;
  open_fd : fd_table s !! (0, fd) = Some file;
  open_null : file <> 0;
  open_file : files s !! file = Some v;
  open_alive : f_destroy v = false;
  open_users : 1 <= f_usage v < 2 ^ 31 - 1
}.

Lemma file_get_ok s fd file v :
  calling s -> opened s fd file v -> file_get fd s = Ret (DNA_OK, file) (countf file 1 (tick s)).
Proof.
  intros Hc [Hr Hfd Hn Hf Hd _]. apply wp_run. unfold file_get. apply wp_bind.
  eapply wp_eq; [by apply caller_group_ok|]. destruct Hc as [_ _ Hl Ha].
  apply wp_bind, wp_enter; [exact Hl|]. apply wp_bind, wp_rd_fd; [exact Ha|exact Hr|].
  replace (fd_table (locked LFilePool (tick s))) with (fd_table s) by done. rewrite Hfd. change (default 0 (Some file)) with file.
  rewrite (proj2 (Z.eqb_neq file 0)) by done. cbn [negb]. apply wp_bind. eapply wp_rd_file; [exact Hf|].
  rewrite Hd. cbn [negb]. apply wp_bind. eapply wp_count_file; [exact Hf|]. apply wp_bind.
  eapply (wp_leave_lock _ _ (tick s)); [exact Hl|done|]. apply wp_ret. split; [done|]. by destruct s.
Qed.

(** Releasing a file that has another user, or that is not being destroyed. *)
Lemma file_put_ok s fd file v :
  calling s -> fd_in_range fd = true -> fd_table s !! (0, fd) = Some file -> file <> 0 ->
  files s !! file = Some v -> f_destroy v = false -> 0 < f_usage v ->
  file_put cmds fd s = Ret DNA_OK (countf file (-1) (tick s)).
Proof.
  intros Hc Hr Hfd Hn Hf Hd Hu. apply wp_run. unfold file_put. apply wp_bind.
  eapply wp_eq; [by apply caller_group_ok|]. destruct Hc as [_ _ Hl Ha].
  apply wp_bind, wp_enter; [exact Hl|]. apply wp_bind, wp_rd_fd; [exact Ha|exact Hr|].
  replace (fd_table (locked LFilePool (tick s))) with (fd_table s) by done. rewrite Hfd. change (default 0 (Some file)) with file.
  rewrite (proj2 (Z.eqb_neq file 0)) by done. cbn [negb]. apply wp_bind. eapply wp_rd_file; [exact Hf|].
  rewrite (proj2 (Z.ltb_lt 0 _)) by done. apply wp_bind. eapply wp_count_file; [exact Hf|].
  apply wp_bind. eapply wp_rd_file.
  { cbn [files countf set_files]. rewrite lookup_alter_eq.
    replace (files (locked LFilePool (tick s))) with (files s) by done. by rewrite Hf. }
  cbn [f_usage f_destroy with_f_usage]. rewrite Hd, andb_false_r. apply wp_bind.
  eapply (wp_leave_lock _ _ (tick s)); [exact Hl|done|]. apply wp_ret. split; [done|]. by destruct s.
Qed.

(** The vnode and the volume of a file. *)
Record served s (v : file_t) (n : vnode_t) (w : volume_t) : Prop := {
  serve_vnode : vnodes s !! f_vnode v = Some n;
  serve_volume : volumes s !! vn_volume n = Some w
}.

Lemma wp_file_cmd file v n w Q s :
  files s !! file = Some v -> served s v n w ->
  Q (cmds (v_cmd w), (v_data w, vn_data n, f_data v)) s -> wp (file_cmd cmds file) Q s.
Proof.
  intros Hf [Hn Hw] HQ. unfold file_cmd. apply wp_bind. eapply wp_rd_file; [exact Hf|].
  unfold rd_vnode, rd_volume. apply wp_bind, wp_bind, wp_gets. rewrite Hn. apply wp_ret.
  apply wp_bind, wp_bind, wp_gets. rewrite Hw. by apply wp_ret.
Qed.

(** The offset of a file moved by [o]. *)
Definition moved (file : Z) (o : Z -> Z) s : vstate F :=
  set_files (alter (fun v => with_f_offset (o (f_offset v)) v) file (files s)) s.

Lemma moved_same file s : moved file (fun o => o) s = s.
Proof. unfold moved. rewrite alter_same; [by destruct s|]. intros [] _. done. Qed.

Lemma wp_move file o v Q s :
  files s !! file = Some v -> Q tt (moved file o s) ->
  wp (wr_file file (fun v => with_f_offset (o (f_offset v)) v)) Q s.
Proof.
  intros Hv HQ. unfold wr_file. apply wp_bind. eapply wp_rd_file; [exact Hv|]. apply wp_modify.
  unfold moved in HQ. by rewrite (alter_known _ _ _ v) in HQ.
Qed.

Lemma calling_ext s s' n :
  kern s' = set_ticks n (kern s) -> file_arrays s' = file_arrays s -> calling s -> calling s'.
Proof.
  intros Hk Ha [Ht Hp Hf Harr]. split; rewrite ?Hk, ?Ha; try done.
Qed.

(** The state in which the command of a file system is called for a descriptor. *)
Definition in_use (file : Z) s : vstate F := countf file 1 (tick s).

Lemma in_use_file s fd file v :
  opened s fd file v -> files (in_use file s) !! file = Some (with_f_usage (f_usage v + 1) v).
Proof.
  intros [_ _ _ Hf _ Hu]. unfold in_use, countf. cbn [files set_files]. rewrite lookup_alter_eq.
  replace (files (tick s)) with (files s) by done. rewrite Hf. cbn. by rewrite i32_id by lia.
Qed.

(** The release at the end of an operation that moved the offset. *)
Lemma release_ok s fd file v o fs :
  calling s -> opened s fd file v ->
  file_put cmds fd (moved file o (set_fsd fs (in_use file s))) =
    Ret DNA_OK (moved file o (set_fsd fs (tick (tick s)))).
Proof.
  intros Hc Ho. pose proof (in_use_file s fd file v Ho) as Hf. destruct Ho as [Hr Hfd Hn Hv Hd Hu].
  rewrite (file_put_ok _ fd file (with_f_offset (o (f_offset v)) (with_f_usage (f_usage v + 1) v))); try done.
  - f_equal. apply vstate_eq; try reflexivity. apply map_eq. intros b.
    cbn [files set_files countf moved in_use set_fsd tick set_kern].
    destruct (decide (file = b)) as [<-|Hb]; [|by rewrite !lookup_alter_ne].
    rewrite !lookup_alter_eq, Hv. cbn [fmap option_fmap option_map]. f_equal. destruct v.
    unfold with_f_usage, with_f_offset. cbn in *. f_equal. rewrite i32_add. rewrite i32_id; lia.
  - by eapply (calling_ext s _ (S (ticks (kern s)))).
  - unfold moved. cbn [files set_files]. rewrite lookup_alter_eq.
    replace (files (set_fsd fs (in_use file s))) with (files (in_use file s)) by done. by rewrite Hf.
  - cbn. lia.
Qed.

Lemma wp_put_or_panic s fd file v o fs Q :
  calling s -> opened s fd file v -> Q tt (moved file o (set_fsd fs (tick (tick s)))) ->
  wp (put_or_panic cmds fd) Q (moved file o (set_fsd fs (in_use file s))).
Proof.
  intros Hc Ho HQ. unfold put_or_panic. apply wp_bind. eapply wp_eq; [by eapply release_ok|].
  unfold panic_if_error. keqb. by apply wp_ret.
Qed.

(** The release at the end of an operation that did not. *)
Lemma release_same s fd file v fs :
  calling s -> opened s fd file v ->
  file_put cmds fd (set_fsd fs (in_use file s)) = Ret DNA_OK (set_fsd fs (tick (tick s))).
Proof. intros Hc Ho. pose proof (release_ok s fd file v (fun o => o) fs Hc Ho) as Hr. by rewrite !moved_same in Hr. Qed.

Lemma wp_put_same s fd file v fs Q :
  calling s -> opened s fd file v -> Q tt (set_fsd fs (tick (tick s))) ->
  wp (put_or_panic cmds fd) Q (set_fsd fs (in_use file s)).
Proof.
  intros Hc Ho HQ. unfold put_or_panic. apply wp_bind. eapply wp_eq; [by eapply release_same|].
  unfold panic_if_error. keqb. by apply wp_ret.
Qed.

(** Moving the offset under the lock of the file. *)
Lemma wp_advance {A} s fd file v o fs (k : V F A) Q :
  opened s fd file v -> locks (kern s) !! LFile file = None ->
  wp k Q (moved file o (set_fsd fs (in_use file s))) ->
  wp (let* it_status := enter (LFile file) in
      wr_file file (fun v => with_f_offset (o (f_offset v)) v) ;;
      leave (LFile file) it_status ;;
      k) Q (set_fsd fs (in_use file s)).
Proof.
  intros Ho Hl HQ. apply wp_bind, wp_enter; [exact Hl|]. apply wp_bind.
  eapply wp_move; [exact (in_use_file s fd file v Ho)|]. apply wp_bind.
  eapply (wp_leave_lock _ _ (set_fsd fs (in_use file s))); [exact Hl|done|]. by destruct s.
Qed.

(** ** Operations on descriptors *)

(** What all of them begin with. *)
Lemma wp_file_get s fd file v Q :
  calling s -> opened s fd file v -> Q (DNA_OK, file) (in_use file s) -> wp (file_get fd) Q s.
Proof. intros Hc Ho HQ. eapply wp_eq; [by eapply file_get_ok|done]. Qed.

Lemma wp_in_use_cmd s fd file v n w Q :
  opened s fd file v -> served s v n w ->
  Q (cmds (v_cmd w), (v_data w, vn_data n, f_data v)) (in_use file s) ->
  wp (file_cmd cmds file) Q (in_use file s).
Proof.
  intros Ho [Hn Hw] HQ.
  eapply (wp_file_cmd _ (with_f_usage (f_usage v + 1) v) n w); [by eapply in_use_file|by split|done].
Qed.

(** The offset after a read or a write that transferred [n] bytes, or failed. *)
Definition transferred (r : status_t * Z) (o : Z) : Z :=
  if st_eqb r.1 DNA_OK then i64 (o + r.2) else o.

(** What read and write return. *)
Definition transfer_result (r : status_t * Z) : status_t * Z :=
  if st_eqb r.1 DNA_OK then (DNA_OK, r.2) else (r.1, -1).

Lemma vfs_read_ok s fd file v n w data count r fs :
  calling s -> opened s fd file v -> served s v n w -> locks (kern s) !! LFile file = None ->
  data <> 0 -> 0 < count ->
  fs_read (cmds (v_cmd w)) (v_data w) (vn_data n) (f_data v) data (f_offset v) count (in_use file s) =
    Ret r (set_fsd fs (in_use file s)) ->
  vfs_read cmds fd data count true s =
    Ret (transfer_result r) (moved file (transferred r) (set_fsd fs (tick (tick s)))).
Proof.
  intros Hc Ho Hs Hl Hd Hcount Hread. apply wp_run. unfold vfs_read.
  rewrite (proj2 (Z.eqb_neq data 0)), (proj2 (Z.ltb_lt 0 count)), (open_range _ _ _ _ Ho) by done. cbn [negb andb].
  apply wp_bind. eapply wp_file_get; [done|done|]. cbn [fst snd]. keqb.
  apply wp_bind. eapply wp_in_use_cmd; [done|done|]. cbv beta iota.
  apply wp_bind. eapply wp_rd_file; [by eapply in_use_file|]. cbn [f_offset with_f_usage].
  apply wp_bind. eapply wp_eq; [exact Hread|]. unfold transferred, transfer_result.
  destruct (st_eqb r.1 DNA_OK).
  - eapply (wp_advance s fd file v (fun o => i64 (o + r.2))); [done|exact Hl|]. apply wp_bind.
    eapply wp_put_or_panic; [done|done|]. by apply wp_ret.
  - apply wp_bind. eapply wp_put_same; [done|done|]. apply wp_ret. by rewrite moved_same.
Qed.

Lemma vfs_write_ok s fd file v n w data count r fs :
  calling s -> opened s fd file v -> served s v n w -> locks (kern s) !! LFile file = None ->
  data <> 0 -> 0 < count ->
  fs_write (cmds (v_cmd w)) (v_data w) (vn_data n) (f_data v) data (f_offset v) count (in_use file s) =
    Ret r (set_fsd fs (in_use file s)) ->
  vfs_write cmds fd data count true s =
    Ret (transfer_result r) (moved file (transferred r) (set_fsd fs (tick (tick s)))).
Proof.
  intros Hc Ho Hs Hl Hd Hcount Hwrite. apply wp_run. unfold vfs_write.
  rewrite (proj2 (Z.eqb_neq data 0)), (proj2 (Z.ltb_lt 0 count)), (open_range _ _ _ _ Ho) by done. cbn [negb andb].
  apply wp_bind. eapply wp_file_get; [done|done|]. cbn [fst snd]. keqb.
  apply wp_bind. eapply wp_in_use_cmd; [done|done|]. cbv beta iota.
  apply wp_bind. eapply wp_rd_file; [by eapply in_use_file|]. cbn [f_offset with_f_usage].
  apply wp_bind. eapply wp_eq; [exact Hwrite|]. unfold transferred, transfer_result.
  destruct (st_eqb r.1 DNA_OK).
  - eapply (wp_advance s fd file v (fun o => i64 (o + r.2))); [done|exact Hl|]. apply wp_bind.
    eapply wp_eq; [by eapply release_ok|]. by apply wp_ret.
  - apply wp_bind. eapply wp_eq; [by eapply release_same|]. apply wp_ret. by rewrite moved_same.
Qed.

(** The offset asked for by lseek, from the start or from the current offset. *)
Definition sought (whence offset o : Z) : Z :=
  if whence =? DNA_SEEK_SET then offset else i64 (o + offset).

Lemma vfs_lseek_ok s fd file v offset whence :
  calling s -> opened s fd file v -> locks (kern s) !! LFile file = None ->
  whence = DNA_SEEK_SET \/ whence = DNA_SEEK_FROM_CURRENT ->
  vfs_lseek cmds fd offset whence s =
    Ret (DNA_OK, sought whence offset (f_offset v)) (moved file (sought whence offset) (tick (tick s))).
Proof.
  intros Hc Ho Hl Hw. apply wp_run. unfold vfs_lseek. rewrite (open_range _ _ _ _ Ho).
  assert ((whence =? DNA_SEEK_SET) || (whence =? DNA_SEEK_FROM_CURRENT) || (whence =? DNA_SEEK_FROM_END) = true)
    as -> by (by destruct Hw as [->| ->]).
  apply wp_bind. eapply wp_file_get; [done|done|]. cbn [fst snd]. keqb.
  apply wp_bind, wp_enter; [exact Hl|]. apply wp_bind.
  assert (forall Q, Q DNA_OK (moved file (sought whence offset) (locked (LFile file) (in_use file s))) ->
    wp (if whence =? DNA_SEEK_SET then wr_file file (with_f_offset offset) ;; ret DNA_OK
        else if whence =? DNA_SEEK_FROM_CURRENT
        then wr_file file (fun v => with_f_offset (i64 (f_offset v + offset)) v) ;; ret DNA_OK
        else let* ss := file_get_size cmds file in
             (if st_eqb ss.1 DNA_OK then wr_file file (with_f_offset (i64 (ss.2 + offset))) else ret tt) ;;
             ret ss.1) Q (locked (LFile file) (in_use file s))) as Hseek.
  { intros Q HQ. destruct Hw as [->| ->]; cbn [Z.eqb DNA_SEEK_SET DNA_SEEK_FROM_CURRENT].
    - apply wp_bind. eapply (wp_move file (fun _ => offset)); [exact (in_use_file s fd file v Ho)|]. by apply wp_ret.
    - apply wp_bind. eapply (wp_move file (fun o => i64 (o + offset))); [exact (in_use_file s fd file v Ho)|]. by apply wp_ret. }
  apply Hseek. keqb. apply wp_bind.
  eapply (wp_leave_lock _ _ (in_use file s)); [exact Hl|done|].
  set (s1 := set_kern _ _).
  assert (s1 = moved file (sought whence offset) (set_fsd (fsd s) (in_use file s))) as -> by (by destruct s).
  apply wp_bind. eapply wp_rd_file.
  { unfold moved. cbn [files set_files]. rewrite lookup_alter_eq.
    replace (files (set_fsd (fsd s) (in_use file s))) with (files (in_use file s)) by done.
    by rewrite (in_use_file s fd file v Ho). }
  apply wp_bind. eapply wp_put_or_panic; [done|done|]. apply wp_ret. split; [done|]. by destruct s.
Qed.

(** ** Opening and closing *)

Lemma wp_wr_fd fd file Q s :
  is_Some (file_arrays s !! 0) -> fd_in_range fd = true ->
  Q tt (set_fd_table (if file =? 0 then delete (0, fd) (fd_table s)
                      else <[(0, fd) := file]> (fd_table s)) s) -> wp (wr_fd 0 fd file) Q s.
Proof. intros Ha Hfd HQ. unfold wr_fd. apply wp_bind, wp_rd_fd; [done|done|]. by apply wp_modify. Qed.

(** The state without the descriptor and its file. *)
Definition forgotten (fd file : Z) s : vstate F :=
  set_files (delete file (files s)) (set_fd_table (delete (0, fd) (fd_table s)) s).

(** Destroying a file that has no other user; its vnode has one. *)
Lemma file_destroy_ok vn vo s fd file v n w k st :
  calling s -> opened s fd file v -> f_usage v = 1 -> served s v n w ->
  qwf U (vq s) (view vn vo) -> locks (kern s) !! LVnodeList = None ->
  node vn s (v_id w) (vn_id n) = Some (f_vnode v) -> 2 <= vn_usage n < 2 ^ 31 ->
  kernel_free (f_kalloc v) (kern (tick s)) = Ret st k -> locks k = locks (kern s) ->
  file_destroy cmds fd s = Ret DNA_OK (bump (f_vnode v) (-1) (set_kern k (forgotten fd file s))).
Proof.
  intros Hc [Hr Hfd Hnull Hf Hd _] Hu [Hn Hw] Hwf Hl Hnode Hus Hfree Hlk. apply wp_run. unfold file_destroy.
  apply wp_bind. eapply wp_eq; [by apply caller_group_ok|]. destruct Hc as [_ _ Hlf Ha].
  apply wp_bind, wp_enter; [exact Hlf|]. apply wp_bind, wp_rd_fd; [exact Ha|exact Hr|].
  replace (fd_table (locked LFilePool (tick s))) with (fd_table s) by done. rewrite Hfd.
  change (default 0 (Some file)) with file. rewrite (proj2 (Z.eqb_neq file 0)) by done. cbn [negb].
  apply wp_bind. eapply wp_rd_file; [exact Hf|]. rewrite Hu. cbn [Z.ltb Z.compare].
  apply wp_bind. eapply wp_count_file; [exact Hf|]. apply wp_bind. eapply wp_rd_file.
  { cbn [files countf set_files]. rewrite lookup_alter_eq.
    replace (files (locked LFilePool (tick s))) with (files s) by done. by rewrite Hf. }
  cbn [f_usage f_vnode f_kalloc with_f_usage]. rewrite Hu. change (i32 (1 + -1) =? 0) with true. cbv iota.
  apply wp_bind, wp_wr_fd; [exact Ha|exact Hr|]. rewrite Z.eqb_refl. apply wp_bind.
  eapply (wp_leave_lock _ _ (tick s)); [exact Hlf|done|]. unfold rd_vnode. apply wp_bind, wp_bind, wp_gets.
  match goal with |- context [vnodes ?t !! _] => replace (vnodes t) with (vnodes s) by done end.
  rewrite Hn. apply wp_ret. unfold free_file. apply wp_bind, wp_bind. unfold onk at 1. apply wp_lift.
  eapply wp_eq; [exact Hfree|]. apply wp_modify. unfold rd_volume. apply wp_bind, wp_bind, wp_gets.
  match goal with |- context [volumes ?t !! _] => replace (volumes t) with (volumes s) by done end.
  rewrite Hw. apply wp_ret.
  set (t := set_files _ _). assert (t = set_kern k (forgotten fd file s)) as Ht.
  { apply vstate_eq; try reflexivity. apply map_eq. intros b. unfold t.
    cbn [files set_files set_kern set_fd_table countf forgotten locked tick]. destruct (decide (file = b)) as [<-|Hb]; [by rewrite !lookup_delete_eq|].
    rewrite !lookup_delete_ne by done. by rewrite lookup_alter_ne. }
  clearbody t. subst t. eapply wp_eq; [|by split].
  apply (vnode_put_shared vn vo _ _ (f_vnode v) n); try done.
  - cbn [kern set_kern]. by rewrite Hlk.
  - rewrite i32_id; lia.
Qed.

(** *** The search of a descriptor *)

Lemma fd_loop_ok m s : is_Some (file_arrays s !! 0) ->
  fd_table s !! (0, m) = None -> m < DNA_MAX_FILE ->
  forall fuel fd, 0 <= fd <= m -> m - fd < Z.of_nat fuel ->
  (forall j, fd <= j < m -> exists f, fd_table s !! (0, j) = Some f /\ f <> 0) ->
  fd_loop fuel 0 fd s = Ret m s.
Proof.
  unfold DNA_MAX_FILE. intros Ha Hm Hlt. induction fuel as [|fuel IH]; intros fd Hfd Hfuel Hused; [lia|].
  apply wp_run. cbn [fd_loop]. apply wp_bind, wp_rd_fd; [done| |].
  { unfold fd_in_range, DNA_MAX_FILE. by rewrite (proj2 (Z.leb_le 0 fd)), (proj2 (Z.ltb_lt fd 256)) by lia. }
  destruct (decide (fd = m)) as [->|Hne].
  - rewrite Hm. change (default 0 None) with 0. cbn [Z.eqb negb andb]. by apply wp_ret.
  - destruct (Hused fd ltac:(lia)) as (f & Hf & Hf0). rewrite Hf. change (default 0 (Some f)) with f.
    rewrite (proj2 (Z.eqb_neq f 0)), (proj2 (Z.ltb_lt fd _)) by (unfold DNA_MAX_FILE; done || lia). cbn [negb andb].
    rewrite i16_id by lia. eapply wp_eq; [apply IH; [lia|lia|]|by split]. intros j Hj. apply Hused. lia.
Qed.

(** When every descriptor is used, the loop reads after the end of the array. *)
Lemma fd_loop_full s : is_Some (file_arrays s !! 0) ->
  (forall j, 0 <= j < DNA_MAX_FILE -> exists f, fd_table s !! (0, j) = Some f /\ f <> 0) ->
  forall fuel fd, 0 <= fd <= DNA_MAX_FILE -> DNA_MAX_FILE - fd < Z.of_nat fuel ->
  fd_loop fuel 0 fd s = Fault s.
Proof.
  unfold DNA_MAX_FILE. intros [arr Ha] Hused. induction fuel as [|fuel IH]; intros fd Hfd Hfuel; [lia|].
  cbn [fd_loop]. unfold bind at 1, rd_fd at 1, bind at 1, gets at 1. rewrite Ha. unfold bind at 1, deref at 1, ret at 1.
  unfold DNA_MAX_FILE. destruct (decide (fd = 256)) as [->|Hne]; [done|].
  rewrite (proj2 (Z.leb_le 0 fd)), (proj2 (Z.ltb_lt fd 256)) by lia. cbn [andb]. unfold gets.
  destruct (Hused fd ltac:(lia)) as (f & Hf & Hf0). rewrite Hf. change (default 0 (Some f)) with f.
  rewrite (proj2 (Z.eqb_neq f 0)) by done. cbn [negb andb]. rewrite i16_id by lia. apply IH; lia.
Qed.

Lemma wp_leave_any l it Q s :
  Q tt (set_kern (set_cpsr it (set_locks (delete l (locks (kern s))) (kern s))) s) -> wp (leave l it) Q s.
Proof. intros HQ. unfold leave. apply wp_bind. unfold onk. apply wp_lift, wp_lock_release. unfold onk. by apply wp_lift, wp_modify. Qed.

(** The kernel after the allocation of a file, with the file pool and the new file unlocked. *)
Definition after_create (file : Z) (k : kstate) s : kstate :=
  set_cpsr (cpsr (kern s)) (set_locks (delete LFilePool (delete (LFile file) (locks k))) k).

(** When the allocation changes the heap only, so does the creation, but for the timer. *)
Lemma after_create_kern file h s :
  locks (kern s) !! LFilePool = None ->
  after_create file (set_heap h (kern (locked LFilePool (tick s)))) s =
    set_heap h (set_ticks (S (ticks (kern s))) (set_locks (delete (LFile file) (locks (kern s))) (kern s))).
Proof.
  intros Hl. unfold after_create, locked, tick. destruct s as [k ? ? ? ? ? ? ? ? ?]. cbn [kern set_kern] in *.
  kdestruct k. cbn in *. do 2 f_equal. rewrite delete_insert_ne by done. by rewrite delete_insert_free by by rewrite lookup_delete_ne.
Qed.

(** The state with a file [v] at [file], designated by the descriptor [m]. *)
Definition with_file (m file : Z) (v : file_t) s : vstate F :=
  set_fd_table (<[(0, m) := file]> (fd_table s)) (set_files (<[file := v]> (files s)) s).

(** [m] is the lowest free descriptor. *)
Record lowest s (m : Z) : Prop := {
  low_range : 0 <= m < DNA_MAX_FILE;
  low_free : fd_table s !! (0, m) = None;
  low_used : forall j, 0 <= j < m -> exists f, fd_table s !! (0, j) = Some f /\ f <> 0
}.

(** The lowest free descriptor designates the new file; the others are unchanged. *)
Lemma file_create_ok s m vnode mode data area k :
  calling s -> lowest s m ->
  kernel_malloc (sizeof_file + 0x1F) true (kern (locked LFilePool (tick s))) = Ret area k ->
  align32 area <> 0 ->
  file_create vnode mode data s =
    Ret (DNA_OK, (m, align32 area))
        (set_kern (after_create (align32 area) k s)
          (with_file m (align32 area) (mkFile 1 vnode false mode 0 area data) s)).
Proof.
  intros Hc [Hm Hfree Hused] Hmal Hal. pose proof Hc as [_ _ Hl Ha]. apply wp_run.
  unfold file_create. apply wp_bind. eapply wp_eq; [by apply caller_group_ok|].
  apply wp_bind, wp_enter; [exact Hl|]. apply wp_bind.
  eapply wp_eq; [apply (fd_loop_ok m); [exact Ha|exact Hfree|lia|lia| |exact Hused]|].
  { unfold DNA_MAX_FILE in *. cbn. lia. }
  rewrite (proj2 (Z.eqb_neq m DNA_MAX_FILE)) by lia. cbn [negb]. apply wp_bind. unfold onk at 1. apply wp_lift.
  eapply wp_eq; [exact Hmal|]. rewrite (proj2 (Z.eqb_neq _ 0) Hal). apply wp_bind, wp_ret, wp_bind, wp_modify, wp_bind.
  unfold onk at 1. apply wp_lift, wp_modify. apply wp_bind, wp_wr_fd; [exact Ha| |].
  { unfold fd_in_range. by rewrite (proj2 (Z.leb_le 0 m)), (proj2 (Z.ltb_lt m _)) by lia. }
  rewrite (proj2 (Z.eqb_neq _ 0) Hal). apply wp_bind, wp_leave_any, wp_ret. split; [done|].
  apply vstate_eq; try reflexivity.
Qed.

(** Opening an existing file. *)
Lemma vfs_open_ok dir vn vo s tokens dst w a v m mode perms data fs area k :
  tree dir vn vo s -> resolves dir vn vo s tokens dst -> located vn s dst.1 dst.2 w a v ->
  locks (kern s) !! LVnodeManager = None -> calling s -> lowest s m -> Z.land mode DNA_CREATE = 0 ->
  fs_open (cmds (v_cmd w)) (v_data w) (vn_data v) mode 0 (bump a 1 s) =
    Ret (DNA_OK, data) (set_fsd fs (bump a 1 s)) ->
  kernel_malloc (sizeof_file + 0x1F) true (kern (locked LFilePool (tick s))) = Ret area k ->
  align32 area <> 0 ->
  vfs_open cmds (Some (slash :: path_of tokens)) mode perms true s =
    Ret (DNA_OK, m)
        (set_kern (after_create (align32 area) k s)
          (with_file m (align32 area) (mkFile 1 a false mode 0 area data) (set_fsd fs (bump a 1 s)))).
Proof.
  intros Htree Hres Hdst Hl3 Hc Hlow Hmode Hopen Hmal Hal.
  pose proof (res_length _ _ _ _ _ _ Hres) as Hlen. pose proof (tree_lists _ _ _ _ Htree) as Hwf.
  apply wp_run. unfold vfs_open, strcpy_buffer. rewrite (proj2 (Z.ltb_lt _ _)) by (cbn [length]; lia).
  apply wp_bind, wp_ret. rewrite Hmode. cbn [Z.eqb negb]. apply wp_bind, wp_bind.
  eapply wp_eq; [by eapply (vnode_walk_resolves dir vn vo)|]. apply wp_bind. eapply wp_rd_volume; [apply Hdst|].
  apply wp_bind. eapply wp_eq; [exact Hopen|]. cbn [fst snd]. keqb. apply wp_ret. cbv iota beta.
  apply wp_bind, wp_enter; [exact Hl3|]. apply wp_bind. unfold rd_volume. apply wp_bind, wp_gets.
  replace (volumes (locked LVnodeManager (set_fsd fs (bump a 1 s)))) with (volumes s) by done.
  destruct Hdst as (Hw & Hnode & Hv). rewrite Hw. apply wp_ret. apply wp_bind.
  eapply (wp_find_vnode _ _ vn vo); [exact Hwf|]. apply wp_bind.
  eapply (wp_leave_lock _ _ (set_fsd fs (bump a 1 s))); [exact Hl3|done|].
  replace (set_kern (kern (set_fsd fs (bump a 1 s))) (locked LVnodeManager (set_fsd fs (bump a 1 s))))
    with (set_fsd fs (bump a 1 s)) by (by destruct s).
  assert (node vn (locked LVnodeManager (set_fsd fs (bump a 1 s))) (v_id w) dst.2 = Some a) as ->.
  { rewrite <- Hnode. symmetry. rewrite <- (node_bump vn a 1 s). done. }
  apply wp_bind. eapply wp_eq.
  { apply (file_create_ok _ m a mode data area k); [|by destruct Hlow|exact Hmal|exact Hal].
    eapply (calling_ext s _ (ticks (kern s))); [cbn [kern set_fsd bump set_vnodes]; by destruct (kern s)|done|done]. }
  cbn [fst snd]. keqb. by apply wp_ret.
Qed.

(** Closing the last descriptor of a file whose vnode has another user. *)
Lemma vfs_close_ok vn vo s fd file v n w fs k st :
  calling s -> opened s fd file v -> f_usage v = 1 -> served s v n w ->
  qwf U (vq s) (view vn vo) -> locks (kern s) !! LVnodeList = None ->
  node vn s (v_id w) (vn_id n) = Some (f_vnode v) -> 2 <= vn_usage n < 2 ^ 31 ->
  fs_close (cmds (v_cmd w)) (v_data w) (vn_data n) (f_data v) (in_use file s) =
    Ret DNA_OK (set_fsd fs (in_use file s)) ->
  kernel_free (f_kalloc v) (kern (tick (tick (tick s)))) = Ret st k -> locks k = locks (kern s) ->
  vfs_close cmds fd s =
    Ret DNA_OK (bump (f_vnode v) (-1) (set_kern k (forgotten fd file (set_fsd fs s)))).
Proof.
  intros Hc Ho Hu Hs Hwf Hl Hnode Hus Hclose Hfree Hlk. apply wp_run. unfold vfs_close.
  rewrite (open_range _ _ _ _ Ho). apply wp_bind. eapply wp_file_get; [done|done|]. cbn [fst snd]. keqb.
  apply wp_bind. eapply wp_in_use_cmd; [done|done|]. cbv beta iota.
  apply wp_bind. eapply wp_eq; [exact Hclose|]. keqb. apply wp_bind. eapply wp_put_same; [done|done|].
  apply wp_bind. eapply wp_eq.
  { eapply (file_destroy_ok vn vo _ fd file v n w k st); try done.
    - by eapply (calling_ext s _ (S (S (ticks (kern s))))).
    - by destruct Ho.
    - by destruct Hs. }
  unfold panic_if_error. keqb. apply wp_bind, wp_ret, wp_ret. split; [done|]. by destruct s.
Qed.

(** When the file system refuses, the descriptor stays open. *)
Lemma vfs_close_refused s fd file v n w fs e :
  calling s -> opened s fd file v -> served s v n w -> e <> DNA_OK ->
  fs_close (cmds (v_cmd w)) (v_data w) (vn_data n) (f_data v) (in_use file s) =
    Ret e (set_fsd fs (in_use file s)) ->
  vfs_close cmds fd s = Ret e (set_fsd fs (tick (tick s))).
Proof.
  intros Hc Ho Hs He Hclose. apply wp_run. unfold vfs_close.
  rewrite (open_range _ _ _ _ Ho). apply wp_bind. eapply wp_file_get; [done|done|]. cbn [fst snd]. keqb.
  apply wp_bind. eapply wp_in_use_cmd; [done|done|]. cbv beta iota.
  apply wp_bind. eapply wp_eq; [exact Hclose|]. unfold st_eqb. rewrite bool_decide_false by done.
  apply wp_bind. eapply wp_put_same; [done|done|]. by apply wp_ret.
Qed.

(** A descriptor that designates nothing. *)
Lemma file_get_invalid s fd :
  calling s -> fd_in_range fd = true -> default 0 (fd_table s !! (0, fd)) = 0 ->
  file_get fd s = Ret (DNA_INVALID_FD, 0) (tick s).
Proof.
  intros Hc Hr Hfd. apply wp_run. unfold file_get. apply wp_bind.
  eapply wp_eq; [by apply caller_group_ok|]. destruct Hc as [_ _ Hl Ha].
  apply wp_bind, wp_enter; [exact Hl|]. apply wp_bind, wp_rd_fd; [exact Ha|exact Hr|].
  replace (fd_table (locked LFilePool (tick s))) with (fd_table s) by done. rewrite Hfd. cbn [Z.eqb negb].
  apply wp_bind. eapply (wp_leave_lock _ _ (tick s)); [exact Hl|done|]. apply wp_ret. split; [done|]. by destruct s.
Qed.

End VfsSpec.

(** ** The theorems *)

(** C11: when every vnode on the path is in the list of vnodes, with references and not
    being destroyed (what [tree] and [located] ask for), and the walks of the file systems have
    no effect, vnode_walk resolves the path along the declarative relation [steps] (entries of
    directories, mount points, "." and ".." up to the root of a volume and to its host):
    it returns the volume, the vnode identifier and the data of the node that the tokens
    lead to, and the only change is one more reference on the vnode of that node.  The loading of
    a vnode by vnode_get and its removal by the last vnode_put do not happen on such a path. *)
Theorem vnode_walk_spec `{Hal} {F} (cmds : Z -> filesystem_cmd F) U dir vn vo s tokens dst w a v :
  tree cmds U dir vn vo s -> resolves dir vn vo s tokens dst -> located vn s dst.1 dst.2 w a v ->
  vnode_walk cmds (slash :: path_of tokens) s = Ret (DNA_OK, Some (dst.1, dst.2, vn_data v)) (bump a 1 s).
Proof. intros Htree Hres Hdst. by eapply vnode_walk_resolves. Qed.

(** C12: vfs_open without DNA_CREATE, on the path of a node whose vnodes are in the list of
    vnodes with references (the [tree] of vnode_walk_spec), returns the lowest free descriptor,
    which designates a new file of that node with the offset 0, the mode of the call and the
    data of the file system.  The state is otherwise as before: one more reference on the vnode
    of the node, what the open command did to the file system, the area of the file taken from
    the heap, the timer read once by thread_get_info, and the lock of the new file free; the
    other descriptors and files, the lists of vnodes and volumes, the locks and the interrupt
    status are unchanged. *)
Theorem vfs_open_spec `{Hal} {F} (cmds : Z -> filesystem_cmd F) U dir vn vo s tokens dst w a v m mode perms data fs area h :
  tree cmds U dir vn vo s -> resolves dir vn vo s tokens dst -> located vn s dst.1 dst.2 w a v ->
  locks (kern s) !! LVnodeManager = None -> calling s -> lowest s m -> Z.land mode DNA_CREATE = 0 ->
  fs_open (cmds (v_cmd w)) (v_data w) (vn_data v) mode 0 (bump a 1 s) =
    Ret (DNA_OK, data) (set_fsd fs (bump a 1 s)) ->
  kernel_malloc (sizeof_file + 0x1F) true (kern (locked LFilePool (tick s))) =
    Ret area (set_heap h (kern (locked LFilePool (tick s)))) ->
  align32 area <> 0 ->
  let file := align32 area in
  let f := mkFile 1 a false mode 0 area data in
  exists s', vfs_open cmds (Some (slash :: path_of tokens)) mode perms true s = Ret (DNA_OK, m) s' /\
    opened s' m file f /\
    (forall fd, fd <> m -> fd_table s' !! (0, fd) = fd_table s !! (0, fd)) /\
    (forall x, x <> file -> files s' !! x = files s !! x) /\
    vnodes s' = vnodes (bump a 1 s) /\ vq s' = vq s /\ volumes s' = volumes s /\ fsd s' = fs /\
    cpsr (kern s') = cpsr (kern s) /\ (forall l, l <> LFile file -> locks (kern s') !! l = locks (kern s) !! l) /\
    s' = set_kern (set_heap h (set_ticks (S (ticks (kern s)))
                    (set_locks (delete (LFile file) (locks (kern s))) (kern s))))
           (set_fd_table (<[(0, m) := file]> (fd_table s))
             (set_files (<[file := f]> (files s)) (set_fsd fs (bump a 1 s)))).
Proof.
  intros Htree Hres Hdst Hl Hc Hlow Hmode Hopen Hmal Hal file f. eexists.
  split; [by eapply (vfs_open_ok cmds U dir)|]. fold file f. rewrite (after_create_kern file h s) by exact (call_files _ Hc).
  destruct Hlow as [Hm _ _]. split_and!; try reflexivity.
  - split; cbn; [|by rewrite lookup_insert_eq|done|by rewrite lookup_insert_eq|done|lia].
    unfold fd_in_range. by rewrite (proj2 (Z.leb_le 0 m)), (proj2 (Z.ltb_lt m _)) by lia.
  - intros fd Hfd. cbn. apply lookup_insert_ne. congruence.
  - intros x Hf. cbn. by apply lookup_insert_ne.
  - intros l Hll. cbn. by apply lookup_delete_ne.
Qed.

(** C15: on an open descriptor, vfs_read and vfs_write call the command of the file system
    at the offset of the file; they return its count and move the offset by it, or return
    its error and leave the offset; vfs_lseek sets the offset or moves it.  The file, its
    number of users and the other files are otherwise as before. *)
Theorem vfs_transfer_spec `{Hal} {F} (cmds : Z -> filesystem_cmd F) s fd file v n w :
  calling s -> opened s fd file v -> served s v n w -> locks (kern s) !! LFile file = None ->
  (forall data count r fs, data <> 0 -> 0 < count ->
     fs_read (cmds (v_cmd w)) (v_data w) (vn_data n) (f_data v) data (f_offset v) count (in_use file s) =
       Ret r (set_fsd fs (in_use file s)) ->
     vfs_read cmds fd data count true s =
       Ret (transfer_result r) (moved file (transferred r) (set_fsd fs (tick (tick s))))) /\
  (forall data count r fs, data <> 0 -> 0 < count ->
     fs_write (cmds (v_cmd w)) (v_data w) (vn_data n) (f_data v) data (f_offset v) count (in_use file s) =
       Ret r (set_fsd fs (in_use file s)) ->
     vfs_write cmds fd data count true s =
       Ret (transfer_result r) (moved file (transferred r) (set_fsd fs (tick (tick s))))) /\
  (forall offset whence, whence = DNA_SEEK_SET \/ whence = DNA_SEEK_FROM_CURRENT ->
     vfs_lseek cmds fd offset whence s =
       Ret (DNA_OK, sought whence offset (f_offset v)) (moved file (sought whence offset) (tick (tick s)))).
Proof.
  intros Hc Ho Hs Hl. split_and!.
  - intros. by eapply vfs_read_ok.
  - intros. by eapply vfs_write_ok.
  - intros. by eapply vfs_lseek_ok.
Qed.

(** vfs_close on the last user of a file calls the close command; when it succeeds the
    descriptor and the file are gone, the memory of the file is freed and its vnode has
    one reference less; when it fails the descriptor stays open. *)
Theorem vfs_close_spec `{Hal} {F} (cmds : Z -> filesystem_cmd F) U vn vo s fd file v n w fs e k st :
  calling s -> opened s fd file v -> f_usage v = 1 -> served s v n w ->
  qwf U (vq s) (view vn vo) -> locks (kern s) !! LVnodeList = None ->
  node vn s (v_id w) (vn_id n) = Some (f_vnode v) -> 2 <= vn_usage n < 2 ^ 31 ->
  fs_close (cmds (v_cmd w)) (v_data w) (vn_data n) (f_data v) (in_use file s) =
    Ret e (set_fsd fs (in_use file s)) ->
  kernel_free (f_kalloc v) (kern (tick (tick (tick s)))) = Ret st k -> locks k = locks (kern s) ->
  vfs_close cmds fd s =
    Ret e (if st_eqb e DNA_OK then bump (f_vnode v) (-1) (set_kern k (forgotten fd file (set_fsd fs s)))
           else set_fsd fs (tick (tick s))).
Proof.
  intros Hc Ho Hu Hs Hwf Hl Hnode Hus Hclose Hfree Hlk. unfold st_eqb. case_bool_decide as He.
  - subst e. by eapply vfs_close_ok.
  - by eapply vfs_close_refused.
Qed.

(** An operation on a descriptor that is out of range, or that designates no file,
    returns DNA_INVALID_FD; the first changes nothing, the second only reads the timer. *)
Theorem vfs_invalid_fd_rejected `{Hal} {F} (cmds : Z -> filesystem_cmd F) s fd :
  calling s -> default 0 (fd_table s !! (0, fd)) = 0 ->
  let s' := if fd_in_range fd then tick s else s in
  vfs_close cmds fd s = Ret DNA_INVALID_FD s' /\
  (forall data count, data <> 0 -> 0 < count ->
     vfs_read cmds fd data count true s = Ret (DNA_INVALID_FD, 0) s' /\
     vfs_write cmds fd data count true s = Ret (DNA_INVALID_FD, 0) s' /\
     vfs_readdir cmds fd data count true s = Ret (DNA_INVALID_FD, 0, None) s') /\
  (forall offset, vfs_lseek cmds fd offset DNA_SEEK_SET s = Ret (DNA_INVALID_FD, 0) s') /\
  (forall function arguments, vfs_ioctl cmds fd function arguments s = Ret (DNA_INVALID_FD, (0, arguments)) s') /\
  vfs_get_info cmds fd s = Ret (DNA_INVALID_FD, None) s' /\
  (forall info mask, vfs_set_info cmds fd info mask s = Ret DNA_INVALID_FD s').
Proof.
  intros Hc Hfd s'.
  unfold vfs_close, vfs_read, vfs_write, vfs_readdir, vfs_lseek, vfs_ioctl, vfs_get_info, vfs_set_info. subst s'.
  destruct (fd_in_range fd) eqn:Hr.
  - pose proof (file_get_invalid s fd Hc Hr Hfd) as Hget.
    split_and!; [|intros data count Hd Hcount| | | |];
      [|rewrite (proj2 (Z.eqb_neq data 0)), (proj2 (Z.ltb_lt 0 count)) by done; split_and!| | | |];
      intros; unfold bind; cbn [negb andb orb Z.eqb DNA_SEEK_SET]; by rewrite Hget.
  - split_and!; [|intros data count Hd Hcount| | | |]; try done.
    by rewrite (proj2 (Z.eqb_neq data 0)), (proj2 (Z.ltb_lt 0 count)) by done.
Qed.
