(* ===== verification/VfsHeap.v ===== *)
(** * The objects of the virtual file system in the kernel heap

    A vnode lies in an area of its own, at the first multiple of 32.  [vnode_create] adds
    it to the list; its area is new, so that the list stays well formed.  The heap is used
    through its interface [Heap] (Memory.v). *)

From S2P Require Import Prelude Status CLib Queue Allocator Kernel Logic Memory Scheduler Alarm Thread Vfs VfsSpec.

(** The first multiple of 32 that is not before [p]. *)
Lemma align32_bounds p : 0 <= p -> p + 31 < 2 ^ 32 -> p <= align32 p < p + 32.
Proof.
  intros Hp Hw. unfold align32. rewrite u32_id by lia.
  replace 0xFFFFFFE0 with (Z.shiftl (Z.ones 27) 5) by done.
  assert (Z.land (p + 31) (Z.shiftl (Z.ones 27) 5) = 32 * ((p + 31) / 32)) as ->; [|pose proof (Z.div_mod (p + 31) 32); pose proof (Z.mod_pos_bound (p + 31) 32); lia].
  replace (32 * ((p + 31) / 32)) with (Z.shiftl (Z.shiftr (p + 31) 5) 5) by (rewrite Z.shiftl_mul_pow2, Z.shiftr_div_pow2 by lia; change (2 ^ 5) with 32; lia).
  apply Z.bits_inj'. intros i Hi. rewrite Z.land_spec, !Z.shiftl_spec by done.
  destruct (decide (i < 5)) as [Hlt|Hge]; [rewrite !(Z.testbit_neg_r _ (i - 5)) by lia; apply andb_false_r|].
  rewrite Z.shiftr_spec, Z.sub_add by lia. destruct (decide (i - 5 < 27)); [rewrite Z.ones_spec_low by lia; by rewrite andb_true_r|].
  rewrite Z.ones_spec_high by lia. rewrite andb_false_r. symmetry. apply Z.bits_above_log2; [lia|].
  destruct (decide (p + 31 = 0)); [lia|]. apply (Z.lt_le_trans _ 32); [|lia]. apply Z.log2_lt_pow2; lia.
Qed.

Section VfsHeap.
Context `{Hal} {F : Type} {room} `{HH : Heap room} (U : gset Z) (HU : forall p, 0 < p < 2 ^ 32 -> p ∈ U).
Implicit Types s : vstate F.

(** The vnodes and the volumes of the lists lie in areas in use. *)
Record in_heap (B : list Z) (vn vo : list Z) : Prop := {
  ih_vnodes : forall x, x ∈ vn -> exists c, c ∈ B /\ x = align32 (c + DNA_KERNEL_BLOCK_SIZE) /\ c + DNA_KERNEL_BLOCK_SIZE + 31 < 2 ^ 32;
  ih_volumes : forall x, x ∈ vo -> exists c, c ∈ B /\ x = c + DNA_KERNEL_BLOCK_SIZE
}.

(** A vnode in a new area is in no list. *)
Lemma new_vnode_unqueued A c D n k vn vo :
  room (A ++ [c]) D n k -> in_heap (A ++ D) vn vo -> c + DNA_KERNEL_BLOCK_SIZE + 31 < 2 ^ 32 ->
  unqueued (view vn vo) (align32 (c + DNA_KERNEL_BLOCK_SIZE)).
Proof using HH.
  clear HU. intros Hr [Hvn Hvo] Hc. pose proof (heap_distinct _ _ _ _ Hr) as Hd.
  assert (c ∉ A ++ D) as Hnew by (rewrite !NoDup_app in Hd; set_solver).
  pose proof (heap_address _ _ _ _ c Hr ltac:(set_solver)) as [Hc0 _].
  assert (forall d, d ∈ A ++ D -> 0 < d /\ (c + 32 <= d \/ d + 32 <= c)) as Hap.
  { intros d Hd'. assert (c <> d) as Hcd by congruence. split; [by apply (heap_address _ _ _ _ d Hr); set_solver|].
    pose proof (heap_apart _ _ _ _ c d Hr ltac:(set_solver) ltac:(set_solver) Hcd). unfold DNA_KERNEL_BLOCK_SIZE, sizeof_region in *. lia. }
  unfold DNA_KERNEL_BLOCK_SIZE, sizeof_region in *. pose proof (align32_bounds (c + 32)) as Hb.
  intros [|] Hin; cbn [view] in Hin.
  - destruct (Hvn _ Hin) as (d & Hd' & Heq & Hdw). pose proof (Hap d Hd'). pose proof (align32_bounds (d + 2 * 16)). change (2 * 16) with 32 in *. lia.
  - destruct (Hvo _ Hin) as (d & Hd' & Heq). pose proof (Hap d Hd'). change (2 * 16) with 32 in *. lia.
Qed.

(** The volume is there and has no such vnode: the new one has one reference. *)
Lemma vnode_create_ok s vn vo A D n vnid vid vol data :
  qwf U (vq s) (view vn vo) -> locks (kern s) !! LVnodeList = None -> locks (kern s) !! LVolumeList = None ->
  room A D n (kern s) -> in_heap (A ++ D) vn vo -> cost (sizeof_vnode + 0x1F) < n ->
  List.find (volume_id_inspector s vid) vo = Some vol -> vol <> 0 -> node vn s vid vnid = None ->
  exists c h q, let v := align32 (c + DNA_KERNEL_BLOCK_SIZE) in
    vnode_create vnid vid data s =
      Ret DNA_OK (set_vq q (set_vnodes (<[v := mkVnode vnid vol false 1 data (c + DNA_KERNEL_BLOCK_SIZE)]> (vnodes s))
                   (set_kern (set_heap h (kern s)) s))) /\
    qwf U q (view (vn ++ [v]) vo) /\ room (A ++ [c]) D (n - cost (sizeof_vnode + 0x1F)) (set_heap h (kern s)) /\
    in_heap ((A ++ [c]) ++ D) (vn ++ [v]) vo.
Proof using HH HU.
  intros Hq Hl1 Hl2 Hroom Hin Hcost Hvol Hv0 Hnode.
  destruct (heap_malloc A D n (kern s) (sizeof_vnode + 0x1F) true Hroom) as (c & h & Hrun & Hc & Hr); [done|done|].
  pose proof (heap_address _ _ _ _ c Hr) as Hc0. unfold sizeof_vnode in Hc. change (2 ^ 32) with 4294967296 in *.
  assert (0 < c) as Hcp by (apply Hc0; clear HU; set_solver).
  set (v := align32 (c + DNA_KERNEL_BLOCK_SIZE)).
  assert (unqueued (view vn vo) v) as Hunq by (eapply new_vnode_unqueued; [exact Hr|exact Hin|lia]).
  pose proof (align32_bounds (c + DNA_KERNEL_BLOCK_SIZE)) as Hv. change (2 ^ 32) with 4294967296 in *. fold v in Hv.
  assert (0 < v < 4294967296) as Hvb by (unfold DNA_KERNEL_BLOCK_SIZE, sizeof_region in *; lia).
  destruct (queue_add_ok U (vq s) (view vn vo) QVnodes v Hq Hunq) as (q & Hadd & Hq'); [by apply HU|].
  exists c, h, q. cbv zeta. fold v. split_and!; [|eapply qwf_ext; [|exact Hq']; by intros [|]|exact Hr|].
  2: { destruct Hin as [Hvn Hvo]. split; clear HU.
    - intros x [Hx|Hx%list_elem_of_singleton]%elem_of_app; [destruct (Hvn x Hx) as (d & ? & ?); exists d; set_solver|].
      subst x. exists c. split; [set_solver|]. split; [done|lia].
    - intros x Hx. destruct (Hvo x Hx) as (d & ? & ?). exists d. set_solver. }
  apply wp_run. unfold vnode_create. apply wp_bind.
  eapply (wp_lookup_volume U _ vn vo); [exact Hq|exact Hl2|done|]. rewrite Hvol. change (default 0 (Some vol)) with vol.
  rewrite (proj2 (Z.eqb_neq vol 0) Hv0). cbn [negb]. apply wp_bind, wp_enter; [exact Hl1|]. apply wp_bind.
  eapply (wp_find_vnode U vid vnid vn vo); [exact Hq|]. change (node vn (locked LVnodeList s) vid vnid) with (node vn s vid vnid).
  rewrite Hnode. apply wp_bind. eapply (wp_leave_lock _ _ s); [exact Hl1|by destruct s|].
  apply wp_bind. unfold onk at 1. apply wp_lift. eapply wp_eq; [exact Hrun|]. fold v. rewrite (proj2 (Z.eqb_neq v 0)) by lia.
  apply wp_bind, wp_ret, wp_bind, wp_modify, wp_bind. unfold onvq at 1. apply wp_lift, wp_modify.
  apply wp_bind, wp_enter; [exact Hl1|]. apply wp_bind. unfold onvq. apply wp_lift.
  eapply wp_eq; [cbn [vq locked set_vq set_vnodes set_kern]; rewrite set_next_None_id by (by apply (wf_free _ _ _ Hq)); exact Hadd|].
  apply wp_bind. eapply (wp_leave_lock _ _ (set_kern (set_heap h (kern s)) s)); [exact Hl1|by destruct s|].
  apply wp_ret. split; [done|]. by destruct s as [[]].
Qed.

End VfsHeap.
