(* ===== verification/RootFs.v ===== *)
(** * The root file system (RootFileSystem)

    A file system in memory: inodes with lists of named entries.  It is mounted on
    "/" at boot and gives the mount points of the other ones.  Its commands
    ([rootfs_cmd]) are an instance of the interface of Vfs.v; its objects live in the
    kernel heap. *)

From S2P Require Import Prelude Status Queue Allocator Kernel Logic Memory Vfs.

Definition ROOTFS_NAME_LENGTH : Z := 256.

Inductive rootfs_inode_class_t : Type :=
| DNA_ROOTFS_FILE | DNA_ROOTFS_DIRECTORY | DNA_ROOTFS_SYMLINK.

Record rootfs_entry_t := mkEntry {
  e_id : Z;
  e_name : list Z
}.

Record rootfs_inode_t := mkInode {
  i_id : Z;
  i_name : list Z;
  i_class : rootfs_inode_class_t;
  i_size : Z;
  i_mode : Z;
  i_perms : Z
}.

Record rootfs_t := mkRootfs {
  inode_index : Z;
  r_root_vnid : Z;
  r_vid : Z
}.

(** The lists of a rootfs and of an inode, named by the address of their owner. *)
Inductive rqid : Type := QInodes (rootfs : Z) | QEntries (inode : Z).
#[export] Instance rqid_eq_dec : EqDecision rqid.
Proof. solve_decision. Defined.
#[export] Program Instance rqid_countable : Countable rqid :=
  inj_countable' (fun q => match q with QInodes p => inl p | QEntries p => inr p end)
                 (fun c => match c with inl p => QInodes p | inr p => QEntries p end) _.
Next Obligation. by intros []. Qed.

Record rfs := mkRfs {
  rq : @qstate Z rqid _ _ _ _;
  rootfss : gmap Z rootfs_t;
  inodes : gmap Z rootfs_inode_t;
  entries : gmap Z rootfs_entry_t
}.

Definition set_rq v (s : rfs) := mkRfs v (rootfss s) (inodes s) (entries s).
Definition set_rootfss v (s : rfs) := mkRfs (rq s) v (inodes s) (entries s).
Definition set_inodes v (s : rfs) := mkRfs (rq s) (rootfss s) v (entries s).
Definition set_entries v (s : rfs) := mkRfs (rq s) (rootfss s) (inodes s) v.

Definition sizeof_entry : Z := 272.
Definition sizeof_inode : Z := 400.
Definition sizeof_rootfs : Z := 120.

Section RootFs.
Context `{Hal}.

Definition onfs {A} (m : M rfs A) : V rfs A := lift fsd set_fsd m.
Definition onrq {A} (m : M (@qstate Z rqid _ _ _ _) A) : V rfs A := onfs (lift rq set_rq m).

Definition rd_rootfs (p : Z) : V rfs rootfs_t := let* m := onfs (gets rootfss) in deref (m !! p).
Definition rd_inode (p : Z) : V rfs rootfs_inode_t := let* m := onfs (gets inodes) in deref (m !! p).
Definition rd_entry (p : Z) : V rfs rootfs_entry_t := let* m := onfs (gets entries) in deref (m !! p).

(** rootfs -> inode_index ++ *)
Definition next_inode (rootfs : Z) : V rfs Z :=
  let* r := rd_rootfs rootfs in
  onfs (modify (fun s => set_rootfss
    (<[rootfs := mkRootfs (i64 (inode_index r + 1)) (r_root_vnid r) (r_vid r)]> (rootfss s)) s)) ;;
  ret (inode_index r).

(** Allocation of an inode and of an entry, cleared by kernel_malloc; 0 is NULL. *)
Definition alloc_inode : V rfs Z :=
  let* p := onk (kernel_malloc sizeof_inode true) in
  (if p =? 0 then ret tt else
     onfs (modify (fun s => set_inodes (<[p := mkInode 0 [] DNA_ROOTFS_FILE 0 0 0]> (inodes s)) s)) ;;
     onrq (modify (fun q => set_next p None (putq (QEntries p) DNA_QUEUE_DEFAULTS q)))) ;;
  ret p.
Definition alloc_entry : V rfs Z :=
  let* p := onk (kernel_malloc sizeof_entry true) in
  (if p =? 0 then ret tt else
     onfs (modify (fun s => set_entries (<[p := mkEntry 0 []]> (entries s)) s)) ;;
     onrq (modify (set_next p None))) ;;
  ret p.

(** Write the members of an inode, of an entry. *)
Definition put_inode (p : Z) (v : rootfs_inode_t) : V rfs unit :=
  let* _ := rd_inode p in onfs (modify (fun s => set_inodes (<[p := v]> (inodes s)) s)).
Definition put_entry (p : Z) (v : rootfs_entry_t) : V rfs unit :=
  let* _ := rd_entry p in onfs (modify (fun s => set_entries (<[p := v]> (entries s)) s)).

(** ** Inspectors *)

Definition rootfs_entry_name_inspector (s : rfs) (name : list Z) (entry : Z) : bool :=
  match entries s !! entry with Some e => bool_decide (e_name e = name) | None => false end.

Definition rootfs_inode_inspector (s : rfs) (id : Z) (inode : Z) : bool :=
  match inodes s !! inode with Some i => i_id i =? id | None => false end.

(** queue_lookup with rootfs_entry_index_inspector, which counts [*index] down. *)
Fixpoint index_walk (fuel : nat) (item : option Z) (index : Z) : M (@qstate Z rqid _ _ _ _) (option Z) :=
  match fuel with
  | O => diverge
  | S fuel =>
      match item with
      | None => ret None
      | Some e =>
          if index =? 0 then ret (Some e)
          else let* n := gets (next e) in index_walk fuel n (i64 (index - 1))
      end
  end.
Definition lookup_index (q : rqid) (index : Z) : M (@qstate Z rqid _ _ _ _) (option Z) :=
  let* Q := gets (getq q) in
  if negb (status Q =? 0) then let* fuel := gets walk_fuel in index_walk fuel (head Q) index
  else ret None.

(** ** Commands *)

(** [new_path] is not used. *)
Definition rootfs_walk (ns base : Z) (path : list Z) (vnid : Z) : V rfs (status_t * Z) :=
  ensure negb (ns =? 0) && negb (base =? 0) orelse (DNA_ERROR, vnid) in
  let* b := rd_inode base in
  let* r := rd_rootfs ns in
  ensure negb (i_id b =? r_root_vnid r) || negb (bool_decide (path = [46; 46]))
    orelse (DNA_ALREADY_AT_ROOT, vnid) in
  let* s := onfs (gets (fun s => s)) in
  let* entry := onrq (queue_lookup (QEntries base) (rootfs_entry_name_inspector s path)) in
  match entry with
  | None => ret (DNA_NO_ENTRY, vnid)
  | Some entry => let* e := rd_entry entry in ret (DNA_OK, e_id e)
  end.

Definition rootfs_mkdir (ns node : Z) (name : list Z) (mode : Z) : V rfs status_t :=
  ensure negb (ns =? 0) orelse DNA_ERROR in
  ensure negb (node =? 0) orelse DNA_ERROR in
  let* inode := alloc_inode in
  ensure negb (inode =? 0) orelse DNA_OUT_OF_MEM in
  let* id := next_inode ns in
  let* name := strcpy_buffer ROOTFS_NAME_LENGTH name in
  put_inode inode (mkInode id name DNA_ROOTFS_DIRECTORY 0 mode 0) ;;
  onrq (queue_add (QInodes ns) inode) ;;
  (* the rescue blocks, from the last to the first *)
  let invalid_dot_entry : V rfs status_t :=
    onk (kernel_free inode) ;; onfs (modify (fun s => set_inodes (delete inode (inodes s)) s)) ;;
    ret DNA_OUT_OF_MEM in
  let* dot_entry := alloc_entry in
  check negb (dot_entry =? 0) rescue invalid_dot_entry in
  put_entry dot_entry (mkEntry id [46]) ;;
  onrq (queue_add (QEntries inode) dot_entry) ;;
  let invalid_dotdot_entry : V rfs status_t :=
    onk (kernel_free dot_entry) ;; onfs (modify (fun s => set_entries (delete dot_entry (entries s)) s)) ;;
    invalid_dot_entry in
  let* dotdot_entry := alloc_entry in
  check negb (dotdot_entry =? 0) rescue invalid_dotdot_entry in
  let* root_inode := rd_inode node in
  put_entry dotdot_entry (mkEntry (i_id root_inode) [46; 46]) ;;
  onrq (queue_add (QEntries inode) dotdot_entry) ;;
  let* root_entry := alloc_entry in
  check negb (root_entry =? 0)
    rescue (onk (kernel_free dotdot_entry) ;;
            onfs (modify (fun s => set_entries (delete dotdot_entry (entries s)) s)) ;;
            invalid_dotdot_entry) in
  put_entry root_entry (mkEntry id name) ;;
  onrq (queue_add (QEntries node) root_entry) ;;
  ret DNA_OK.

(** The result is the status, [*vnid] and [*data]. *)
Definition rootfs_create (ns node : Z) (path : list Z) (mode perms : Z) (out : Z * Z)
    : V rfs (status_t * (Z * Z)) :=
  let* inode := alloc_inode in
  ensure negb (inode =? 0) orelse (DNA_OUT_OF_MEM, out) in
  let* id := next_inode ns in
  let* path := strcpy_buffer ROOTFS_NAME_LENGTH path in
  put_inode inode (mkInode id path DNA_ROOTFS_FILE 0 mode perms) ;;
  onrq (queue_add (QInodes ns) inode) ;;
  let* entry := alloc_entry in
  ensure negb (entry =? 0) orelse (DNA_OUT_OF_MEM, out) in
  put_entry entry (mkEntry id path) ;;
  onrq (queue_add (QEntries node) entry) ;;
  let* r := rd_rootfs ns in
  let* status := vnode_create id (r_vid r) inode in
  ret (status, (id, 0)).

(** The names of the entries of the root: ".", "..", "devices", "volumes" and "system". *)
Definition dot : list Z := [46].
Definition dotdot : list Z := [46; 46].
Definition devices : list Z := [100; 101; 118; 105; 99; 101; 115].
Definition volumes_name : list Z := [118; 111; 108; 117; 109; 101; 115].
Definition system_name : list Z := [115; 121; 115; 116; 101; 109].

(** The status, [*data] and [*vnid]. *)
Definition rootfs_mount (vid : Z) (dev_path : list Z) (flags params : Z) : V rfs (status_t * (Z * Z)) :=
  let* rootfs := onk (kernel_malloc sizeof_rootfs true) in
  ensure negb (rootfs =? 0) orelse (DNA_OUT_OF_MEM, (0, -1)) in
  onrq (modify (putq (QInodes rootfs) DNA_QUEUE_DEFAULTS)) ;;
  let* root_inode := alloc_inode in
  ensure negb (root_inode =? 0) orelse (DNA_OUT_OF_MEM, (0, -1)) in
  onfs (modify (fun s => set_rootfss (<[rootfs := mkRootfs 1 0 vid]> (rootfss s)) s)) ;;
  let* id := next_inode rootfs in
  put_inode root_inode (mkInode id [] DNA_ROOTFS_DIRECTORY 0 0 0) ;;
  onrq (queue_add (QInodes rootfs) root_inode) ;;
  let* r := rd_rootfs rootfs in
  onfs (modify (fun s => set_rootfss (<[rootfs := mkRootfs (inode_index r) id vid]> (rootfss s)) s)) ;;
  let* entry := alloc_entry in
  ensure negb (entry =? 0) orelse (DNA_OUT_OF_MEM, (0, -1)) in
  put_entry entry (mkEntry id dot) ;;
  onrq (queue_add (QEntries root_inode) entry) ;;
  let* entry := alloc_entry in
  ensure negb (entry =? 0) orelse (DNA_OUT_OF_MEM, (0, -1)) in
  put_entry entry (mkEntry id dotdot) ;;
  onrq (queue_add (QEntries root_inode) entry) ;;
  rootfs_mkdir rootfs root_inode devices 0 ;;
  rootfs_mkdir rootfs root_inode volumes_name 0 ;;
  rootfs_mkdir rootfs root_inode system_name 0 ;;
  let* status := vnode_create id vid root_inode in
  ret (status, (rootfs, id)).

Definition rootfs_read_vnode (ns vnid data : Z) : V rfs (status_t * Z) :=
  let* _ := rd_rootfs ns in
  let* s := onfs (gets (fun s => s)) in
  let* inode := onrq (queue_lookup (QInodes ns) (rootfs_inode_inspector s vnid)) in
  ret (DNA_OK, default 0 inode).

Definition rootfs_write_vnode (ns node : Z) : V rfs status_t := ret DNA_OK.
Definition rootfs_destroy_vnode (ns node : Z) : V rfs status_t := ret DNA_OK.
Definition rootfs_open (ns node mode data : Z) : V rfs (status_t * Z) := ret (DNA_OK, 0).
Definition rootfs_close (ns node data : Z) : V rfs status_t := ret DNA_OK.
Definition rootfs_free (ns node data : Z) : V rfs status_t := ret DNA_OK.
Definition rootfs_read (ns node file data offset count : Z) : V rfs (status_t * Z) := ret (DNA_OK, 0).
Definition rootfs_write (ns node file data offset count : Z) : V rfs (status_t * Z) := ret (DNA_OK, 0).
Definition rootfs_set_info (ns node data : Z) (info : file_info_t) (mask : Z) : V rfs status_t := ret DNA_OK.
Definition rootfs_ioctl (ns node data function : Z) (arguments : list Z)
    : V rfs (status_t * (Z * list Z)) := ret (DNA_ERROR, (0, arguments)).

Definition rootfs_get_info (ns node data : Z) : V rfs (status_t * option file_info_t) :=
  ensure negb (ns =? 0) orelse (DNA_BAD_ARGUMENT, None) in
  ensure negb (node =? 0) orelse (DNA_BAD_ARGUMENT, None) in
  let* r := rd_rootfs ns in
  let* i := rd_inode node in
  let type := match i_class i with
              | DNA_ROOTFS_FILE => DNA_FILE_REGULAR
              | DNA_ROOTFS_DIRECTORY => DNA_FILE_DIRECTORY
              | DNA_ROOTFS_SYMLINK => DNA_FILE_SYMBOLIC_LINK
              end in
  ret (DNA_OK, Some (mkFinfo (r_vid r) (i_id i) type 0 0 0)).

Definition rootfs_readdir (ns node data entry_array offset count : Z)
    : V rfs (status_t * (Z * Z * option directory_entry_t)) :=
  ensure negb (ns =? 0) && negb (node =? 0) && negb (entry_array =? 0)
    orelse (DNA_ERROR, (offset, count, None)) in
  let* i := rd_inode node in
  match i_class i with
  | DNA_ROOTFS_DIRECTORY =>
      let* n := onrq (gets (fun q => status (getq (QEntries node) q))) in
      if n =? 0 then ret (DNA_OK, (offset, 0, None))
      else
        let* entry := onrq (lookup_index (QEntries node) offset) in
        match entry with
        | None => ret (DNA_OK, (offset, 0, None))
        | Some entry =>
            let* e := rd_entry entry in
            let* r := rd_rootfs ns in
            let d_reclen := u16 (16 + Z.of_nat (length (e_name e))) in
            ret (DNA_OK, (i64 (offset + 1), d_reclen, Some (mkDirent (e_id e) (r_vid r) d_reclen (e_name e))))
        end
  | _ => ret (DNA_BAD_INODE_TYPE, (offset, count, None))
  end.

(** rootfs_variables.c *)
Definition rootfs_cmd : filesystem_cmd rfs :=
  mkCmd rfs rootfs_walk rootfs_mount rootfs_read_vnode rootfs_write_vnode rootfs_destroy_vnode
    rootfs_open rootfs_close rootfs_free rootfs_create rootfs_read rootfs_write rootfs_get_info
    rootfs_set_info rootfs_mkdir rootfs_readdir rootfs_ioctl.

End RootFs.
