(* ===== verification/RootFsSpec.v ===== *)
(** * Correctness of the root file system (RootFs.v)

    A directory is the association list of its entries.  [rootfs_walk] looks a name up
    in it ([rootfs_dir]), which gives the answers that the walks of the virtual file
    system rely on ([rootfs_walks]); [rootfs_mkdir] adds an entry to a directory and
    gives the new one its "." and ".." entries. *)

From S2P Require Import Prelude Status CLib Queue Allocator Kernel Logic Memory Scheduler Alarm Thread Vfs VfsSpec RootFs.

Section RootFsSpec.
Context `{Hal} (U : gset Z).
Implicit Types (W : rqid -> list Z) (f : rfs) (s : vstate rfs).

(** The lists are well formed and hold live objects. *)
Record rwf W f : Prop := {
  rwf_lists : qwf U (rq f) W;
  rwf_entries : forall b e, e ∈ W (QEntries b) -> is_Some (entries f !! e);
  rwf_inodes : forall r i, i ∈ W (QInodes r) -> is_Some (inodes f !! i)
}.

(** The entries of the directory [base], in the order of its list. *)
Definition listing W f (base : Z) : list rootfs_entry_t := omap (fun e => entries f !! e) (W (QEntries base)).

(** The inode number of the first entry called [name]. *)
Fixpoint assoc (name : list Z) (l : list rootfs_entry_t) : option Z :=
  match l with
  | [] => None
  | e :: l => if bool_decide (e_name e = name) then Some (e_id e) else assoc name l
  end.

Lemma assoc_app name l l' :
  assoc name (l ++ l') = match assoc name l with Some id => Some id | None => assoc name l' end.
Proof. induction l as [|e l IH]; cbn; [done|]. by case_bool_decide. Qed.

(** The answer to a walk from the inode [base] of the file system [ns]. *)
Definition rootfs_dir W f (ns base : Z) (token : list Z) : status_t * Z :=
  match inodes f !! base, rootfss f !! ns with
  | Some b, Some r =>
      if (i_id b =? r_root_vnid r) && bool_decide (token = dotdot) then (DNA_ALREADY_AT_ROOT, 0)
      else match assoc token (listing W f base) with
           | Some id => (DNA_OK, id)
           | None => (DNA_NO_ENTRY, 0)
           end
  | _, _ => (DNA_ERROR, 0)
  end.

(** ** Rules *)

(** A state given by its kernel and its file system. *)
Definition st (k : kstate) f s : vstate rfs := set_kern k (set_fsd f s).

Lemma st_here s : st (kern s) (fsd s) s = s.
Proof. by destruct s. Qed.

Lemma wp_st {A} (m : V rfs A) Q s : wp m Q (st (kern s) (fsd s) s) -> wp m Q s.
Proof. by rewrite st_here. Qed.

Lemma wp_onfs {A} (m : M rfs A) Q k f s : wp m (fun a f' => Q a (st k f' s)) f -> wp (onfs m) Q (st k f s).
Proof. intros Hm. unfold onfs. apply wp_lift. exact Hm. Qed.

Lemma wp_onrq {A} (m : M (@qstate Z rqid _ _ _ _) A) Q k f s :
  wp m (fun a q => Q a (st k (set_rq q f) s)) (rq f) -> wp (onrq m) Q (st k f s).
Proof. intros Hm. unfold onrq. apply wp_onfs, wp_lift. exact Hm. Qed.

Lemma wp_onk {A} (m : K A) Q k f s a k' : m k = Ret a k' -> Q a (st k' f s) -> wp (onk m) Q (st k f s).
Proof. intros Hm HQ. unfold onk. apply wp_lift. eapply wp_eq; [exact Hm|exact HQ]. Qed.

Lemma wp_rd_rootfs ns r Q k f s :
  rootfss f !! ns = Some r -> Q r (st k f s) -> wp (rd_rootfs ns) Q (st k f s).
Proof. intros Hr HQ. unfold rd_rootfs. apply wp_bind, wp_onfs, wp_gets. rewrite Hr. by apply wp_ret. Qed.

Lemma wp_rd_inode p i Q k f s :
  inodes f !! p = Some i -> Q i (st k f s) -> wp (rd_inode p) Q (st k f s).
Proof. intros Hi HQ. unfold rd_inode. apply wp_bind, wp_onfs, wp_gets. rewrite Hi. by apply wp_ret. Qed.

Lemma wp_rd_entry p e Q k f s :
  entries f !! p = Some e -> Q e (st k f s) -> wp (rd_entry p) Q (st k f s).
Proof. intros He HQ. unfold rd_entry. apply wp_bind, wp_onfs, wp_gets. rewrite He. by apply wp_ret. Qed.

(** ** Walks *)

Lemma find_assoc f name l :
  Forall (fun e => is_Some (entries f !! e)) l ->
  match List.find (rootfs_entry_name_inspector f name) l with
  | Some e => exists v, entries f !! e = Some v /\ assoc name (omap (fun e => entries f !! e) l) = Some (e_id v)
  | None => assoc name (omap (fun e => entries f !! e) l) = None
  end.
Proof.
  induction l as [|e l IH]; intros Hl; [done|]. apply Forall_cons in Hl as [[v Hv] Hl].
  cbn [List.find omap list_omap]. rewrite Hv. cbn [assoc].
  assert (rootfs_entry_name_inspector f name e = bool_decide (e_name v = name)) as ->.
  { unfold rootfs_entry_name_inspector. by rewrite Hv. }
  case_bool_decide; [eauto|]. by apply IH.
Qed.

Lemma rootfs_walk_ok W s ns base token vnid b r :
  rwf W (fsd s) -> ns <> 0 -> base <> 0 -> inodes (fsd s) !! base = Some b -> rootfss (fsd s) !! ns = Some r ->
  rootfs_walk ns base token vnid s =
    Ret (let r := rootfs_dir W (fsd s) ns base token in if st_eqb r.1 DNA_OK then r else (r.1, vnid)) s.
Proof.
  intros [Hq He _] Hns Hbase Hb Hr. apply wp_run, wp_st. unfold rootfs_walk, rootfs_dir.
  rewrite (proj2 (Z.eqb_neq _ _) Hns), (proj2 (Z.eqb_neq _ _) Hbase), Hb, Hr. cbn [negb andb].
  apply wp_bind. eapply wp_rd_inode; [exact Hb|]. apply wp_bind. eapply wp_rd_rootfs; [exact Hr|].
  change [46; 46] with dotdot. rewrite <- negb_andb.
  destruct ((i_id b =? r_root_vnid r) && bool_decide (token = dotdot)); cbn [negb fst snd].
  { apply wp_ret. split; [done|apply st_here]. }
  apply wp_bind, wp_onfs, wp_gets, wp_bind, wp_onrq. eapply wp_eq; [by apply (queue_lookup_ok U _ W)|].
  replace (set_rq (rq (fsd s)) (fsd s)) with (fsd s) by (by destruct (fsd s)).
  pose proof (find_assoc (fsd s) token (W (QEntries base))) as Hfind. unfold listing.
  destruct (List.find _ _) as [e|].
  - destruct Hfind as (v & Hv & ->); [by apply Forall_forall; eauto|]. apply wp_bind.
    eapply wp_rd_entry; [exact Hv|]. apply wp_ret. split; [done|apply st_here].
  - rewrite Hfind by (by apply Forall_forall; eauto). apply wp_ret. split; [done|apply st_here].
Qed.

(** A name that the directory holds. *)
Lemma rootfs_walk_found W k f s ns base token vnid b r id :
  rwf W f -> ns <> 0 -> base <> 0 -> inodes f !! base = Some b -> rootfss f !! ns = Some r ->
  i_id b <> r_root_vnid r \/ token <> dotdot -> assoc token (listing W f base) = Some id ->
  rootfs_walk ns base token vnid (st k f s) = Ret (DNA_OK, id) (st k f s).
Proof.
  intros Hwf Hns Hbase Hb Hr Hup Hid. rewrite (rootfs_walk_ok W _ _ _ _ _ b r) by done.
  unfold rootfs_dir. cbn [fsd st set_fsd set_kern]. rewrite Hb, Hr, Hid.
  assert ((i_id b =? r_root_vnid r) && bool_decide (token = dotdot) = false) as ->; [|done].
  destruct Hup; [by rewrite (proj2 (Z.eqb_neq _ _))|by rewrite (bool_decide_false (token = dotdot)), andb_false_r].
Qed.

(** Every vnode of the list is an inode of a root file system. *)
Definition all_rootfs (cmds : Z -> filesystem_cmd rfs) vn s : Prop :=
  forall vol vnid w a v, located vn s vol vnid w a v ->
    cmds (v_cmd w) = rootfs_cmd /\ v_data w <> 0 /\ vn_data v <> 0 /\
    is_Some (rootfss (fsd s) !! v_data w) /\ is_Some (inodes (fsd s) !! vn_data v).

(** The root file system answers walks as the virtual file system expects. *)
Lemma rootfs_walks cmds vn W s :
  rwf W (fsd s) -> all_rootfs cmds vn s -> walks cmds (fun _ => rootfs_dir W (fsd s)) vn s.
Proof.
  intros Hwf Hall vns vol vnid w a v token new Hloc.
  destruct (Hall _ _ _ _ _ Hloc) as (-> & Hns & Hd & [r Hr] & [i Hi]).
  cbn [fs_walk rootfs_cmd]. by apply (rootfs_walk_ok W (set_vnodes vns s) _ _ _ _ i r).
Qed.

(** ** Allocation and insertion *)

(** The file system with other objects. *)
Record objects f (R : gmap Z rootfs_t) (I : gmap Z rootfs_inode_t) (E : gmap Z rootfs_entry_t) : Prop := {
  obj_rootfss : rootfss f = R;
  obj_inodes : inodes f = I;
  obj_entries : entries f = E
}.

Lemma unqueued_link W f x : qwf U (rq f) W -> unqueued W x -> set_next x None (rq f) = rq f.
Proof. intros Hq Hx. apply set_next_None_id, (wf_free _ _ _ Hq), Hx. Qed.

Lemma wp_alloc_entry W Q k k' p f R I E s :
  rwf W f -> objects f R I E -> kernel_malloc sizeof_entry true k = Ret p k' -> p <> 0 -> unqueued W p ->
  (forall f', rwf W f' -> objects f' R I (<[p := mkEntry 0 []]> E) -> Q p (st k' f' s)) ->
  wp alloc_entry Q (st k f s).
Proof.
  intros [Hq He Hi] [HR HI HE] Hm Hp Hx HQ. unfold alloc_entry. apply wp_bind. eapply wp_onk; [exact Hm|].
  rewrite (proj2 (Z.eqb_neq _ _) Hp). apply wp_bind, wp_bind, wp_onfs, wp_modify, wp_onrq, wp_modify, wp_ret.
  cbn [rq set_entries]. rewrite (unqueued_link W) by done. apply HQ; [|by split; cbn; congruence].
  split; cbn; [done| |done]. intros b e Hb. destruct (decide (p = e)) as [<-|Hne]; [by rewrite lookup_insert_eq|].
  rewrite lookup_insert_ne by done. eauto.
Qed.

Lemma wp_alloc_inode W Q k k' p f R I E s :
  rwf W f -> objects f R I E -> kernel_malloc sizeof_inode true k = Ret p k' -> p <> 0 -> unqueued W p ->
  W (QEntries p) = [] ->
  (forall f', rwf W f' -> objects f' R (<[p := mkInode 0 [] DNA_ROOTFS_FILE 0 0 0]> I) E -> Q p (st k' f' s)) ->
  wp alloc_inode Q (st k f s).
Proof.
  intros [Hq He Hi] [HR HI HE] Hm Hp Hx Hnil HQ. unfold alloc_inode. apply wp_bind. eapply wp_onk; [exact Hm|].
  rewrite (proj2 (Z.eqb_neq _ _) Hp). apply wp_bind, wp_bind, wp_onfs, wp_modify, wp_onrq, wp_modify, wp_ret.
  cbn [rq set_inodes]. pose proof (qwf_reset U _ _ _ Hq Hnil) as Hq'.
  rewrite set_next_None_id by (by apply (wf_free _ _ _ Hq')). apply HQ; [|by split; cbn; congruence].
  split; cbn; [done|done|]. intros r i Hr. destruct (decide (p = i)) as [<-|Hne]; [by rewrite lookup_insert_eq|].
  rewrite lookup_insert_ne by done. eauto.
Qed.

Lemma wp_put_entry W p v Q k f R I E e0 s :
  rwf W f -> objects f R I (<[p := e0]> E) ->
  (forall f', rwf W f' -> objects f' R I (<[p := v]> E) -> Q tt (st k f' s)) ->
  wp (put_entry p v) Q (st k f s).
Proof.
  intros [Hq He Hi] [HR HI HE] HQ. unfold put_entry. apply wp_bind. eapply (wp_rd_entry _ e0).
  { rewrite HE. apply lookup_insert_eq. }
  apply wp_onfs, wp_modify. apply HQ; [|split; cbn; [done|done|by rewrite HE, insert_insert_eq]].
  split; cbn; [done| |done]. intros b e Hb. destruct (decide (p = e)) as [<-|Hne]; [by rewrite lookup_insert_eq|].
  rewrite lookup_insert_ne by done. eauto.
Qed.

Lemma wp_put_inode W p v Q k f R I E i0 s :
  rwf W f -> objects f R (<[p := i0]> I) E ->
  (forall f', rwf W f' -> objects f' R (<[p := v]> I) E -> Q tt (st k f' s)) ->
  wp (put_inode p v) Q (st k f s).
Proof.
  intros [Hq He Hi] [HR HI HE] HQ. unfold put_inode. apply wp_bind. eapply (wp_rd_inode _ i0).
  { rewrite HI. apply lookup_insert_eq. }
  apply wp_onfs, wp_modify. apply HQ; [|split; cbn; [done|by rewrite HI, insert_insert_eq|done]].
  split; cbn; [done|done|]. intros r i Hr. destruct (decide (p = i)) as [<-|Hne]; [by rewrite lookup_insert_eq|].
  rewrite lookup_insert_ne by done. eauto.
Qed.

Lemma wp_next_inode W ns r Q k f R I E s :
  rwf W f -> objects f R I E -> R !! ns = Some r ->
  (forall f', rwf W f' ->
    objects f' (<[ns := mkRootfs (i64 (inode_index r + 1)) (r_root_vnid r) (r_vid r)]> R) I E ->
    Q (inode_index r) (st k f' s)) ->
  wp (next_inode ns) Q (st k f s).
Proof.
  intros [Hq He Hi] [HR HI HE] Hr HQ. unfold next_inode. apply wp_bind. eapply wp_rd_rootfs; [by rewrite HR|].
  apply wp_bind, wp_onfs, wp_modify, wp_ret. apply HQ; [by split|]. by split; cbn; congruence.
Qed.

(** The object that a list of this kind holds is live. *)
Definition live f (q : rqid) (x : Z) : Prop :=
  match q with QInodes _ => is_Some (inodes f !! x) | QEntries _ => is_Some (entries f !! x) end.

Lemma wp_add_item W q x Q k f R I E s :
  rwf W f -> objects f R I E -> unqueued W x -> x ∈ U -> live f q x ->
  (forall f', rwf (vupd W q (W q ++ [x])) f' -> objects f' R I E -> Q DNA_OK (st k f' s)) ->
  wp (onrq (queue_add q x)) Q (st k f s).
Proof.
  intros [Hq He Hi] [HR HI HE] Hx HU Hlive HQ. apply wp_onrq.
  destruct (queue_add_ok U _ W q x Hq Hx HU) as (q' & Hadd & Hq'). eapply wp_eq; [exact Hadd|].
  apply HQ; [|by split]. split; cbn; [done| |].
  - intros b e Hb. destruct (decide (QEntries b = q)) as [<-|Hne]; [|rewrite vupd_ne in Hb by done; eauto].
    rewrite vupd_eq in Hb. apply elem_of_app in Hb as [Hb|Hb]; [eauto|]. apply list_elem_of_singleton in Hb. by subst e.
  - intros b i Hb. destruct (decide (QInodes b = q)) as [<-|Hne]; [|rewrite vupd_ne in Hb by done; eauto].
    rewrite vupd_eq in Hb. apply elem_of_app in Hb as [Hb|Hb]; [eauto|]. apply list_elem_of_singleton in Hb. by subst i.
Qed.

Lemma unqueued_add W q x y : unqueued W y -> x <> y -> unqueued (vupd W q (W q ++ [x])) y.
Proof.
  intros Hy Hne q' Hin. destruct (decide (q' = q)) as [->|Hq].
  - rewrite vupd_eq in Hin. apply elem_of_app in Hin as [Hin|Hin]; [by apply (Hy q)|set_solver].
  - rewrite vupd_ne in Hin by done. by apply (Hy q').
Qed.

(** ** mkdir *)

Definition added W q x : rqid -> list Z := vupd W q (W q ++ [x]).

(** Filling an entry and adding it to a directory. *)
Lemma wp_fill_entry {A} W b p v (m : V rfs A) Q k f R I E e0 s :
  rwf W f -> objects f R I (<[p := e0]> E) -> unqueued W p -> p ∈ U ->
  (forall f', rwf (added W (QEntries b) p) f' -> objects f' R I (<[p := v]> E) -> wp m Q (st k f' s)) ->
  wp (put_entry p v ;; onrq (queue_add (QEntries b) p) ;; m) Q (st k f s).
Proof.
  intros Hwf Ho Hq HU Hm. apply wp_bind. eapply wp_put_entry; [exact Hwf|exact Ho|]. intros f1 W1 O1.
  apply wp_bind. eapply wp_add_item; [exact W1|exact O1|done|exact HU| |exact Hm].
  cbn. rewrite (obj_entries _ _ _ _ O1). by rewrite lookup_insert_eq.
Qed.

(** The allocator gives the inode [pi] and the entries [pd], [pdd] and [pe] (".", ".." and
    the name in the parent), which no list holds. *)
Record room W s (pi pd pdd pe : Z) (k : kstate) : Prop := {
  room_alloc : exists k1 k2 k3,
    kernel_malloc sizeof_inode true (kern s) = Ret pi k1 /\ kernel_malloc sizeof_entry true k1 = Ret pd k2 /\
    kernel_malloc sizeof_entry true k2 = Ret pdd k3 /\ kernel_malloc sizeof_entry true k3 = Ret pe k;
  room_fresh : Forall (fun p => p <> 0 /\ p ∈ U /\ unqueued W p) [pi; pd; pdd; pe];
  room_apart : NoDup [pi; pd; pdd; pe];
  room_inode : inodes (fsd s) !! pi = None /\ W (QEntries pi) = []
}.

(** The lists after mkdir. *)
Definition mkdir_lists W ns node pi pd pdd pe : rqid -> list Z :=
  added (added (added (added W (QInodes ns) pi) (QEntries pi) pd) (QEntries pi) pdd) (QEntries node) pe.

Lemma rootfs_mkdir_ok W s ns node name mode r d pi pd pdd pe k :
  rwf W (fsd s) -> ns <> 0 -> node <> 0 -> rootfss (fsd s) !! ns = Some r -> inodes (fsd s) !! node = Some d ->
  Z.of_nat (length name) < ROOTFS_NAME_LENGTH -> room W s pi pd pdd pe k ->
  exists f', rootfs_mkdir ns node name mode s = Ret DNA_OK (st k f' s) /\
    rwf (mkdir_lists W ns node pi pd pdd pe) f' /\
    objects f' (<[ns := mkRootfs (i64 (inode_index r + 1)) (r_root_vnid r) (r_vid r)]> (rootfss (fsd s)))
      (<[pi := mkInode (inode_index r) name DNA_ROOTFS_DIRECTORY 0 mode 0]> (inodes (fsd s)))
      (<[pe := mkEntry (inode_index r) name]> (<[pdd := mkEntry (i_id d) dotdot]>
         (<[pd := mkEntry (inode_index r) dot]> (entries (fsd s))))).
Proof.
  intros Hwf Hns Hnode Hr Hd Hlen [(k1 & k2 & k3 & M1 & M2 & M3 & M4) Hfresh Hapart [Hnone Hnil]].
  rewrite !Forall_cons in Hfresh. destruct Hfresh as ((Zi & Ui & Qi) & (Zd & Ud & Qd) & (Zdd & Udd & Qdd) & (Ze & Ue & Qe) & _).
  assert (pi <> pd /\ pi <> pdd /\ pi <> pe /\ pd <> pdd /\ pd <> pe /\ pdd <> pe) as (N1 & N2 & N3 & N4 & N5 & N6).
  { rewrite !NoDup_cons in Hapart. set_solver. }
  assert (node <> pi) as Hne by (intros ->; congruence).
  enough (wp (rootfs_mkdir ns node name mode) (fun a s' => exists f', a = DNA_OK /\ s' = st k f' s /\
    rwf (mkdir_lists W ns node pi pd pdd pe) f' /\ objects f' (<[ns := mkRootfs (i64 (inode_index r + 1)) (r_root_vnid r) (r_vid r)]> (rootfss (fsd s)))
      (<[pi := mkInode (inode_index r) name DNA_ROOTFS_DIRECTORY 0 mode 0]> (inodes (fsd s)))
      (<[pe := mkEntry (inode_index r) name]> (<[pdd := mkEntry (i_id d) dotdot]>
         (<[pd := mkEntry (inode_index r) dot]> (entries (fsd s)))))) s)
    as (a & s' & Hrun & f' & -> & -> & Hwf' & Ho)%wp_exists by eauto.
  assert (objects (fsd s) (rootfss (fsd s)) (inodes (fsd s)) (entries (fsd s))) as Ho by done.
  apply wp_st. unfold rootfs_mkdir. rewrite (proj2 (Z.eqb_neq _ _) Hns), (proj2 (Z.eqb_neq _ _) Hnode). cbn [negb].
  apply wp_bind. eapply wp_alloc_inode; [exact Hwf|exact Ho|exact M1|exact Zi|exact Qi|exact Hnil|]. intros f1 W1 O1.
  rewrite (proj2 (Z.eqb_neq _ _) Zi). cbn [negb]. apply wp_bind. eapply wp_next_inode; [exact W1|exact O1|exact Hr|]. intros f2 W2 O2.
  unfold strcpy_buffer. rewrite (proj2 (Z.ltb_lt _ _)) by lia. apply wp_bind, wp_ret, wp_bind.
  eapply wp_put_inode; [exact W2|exact O2|]. intros f3 W3 O3. apply wp_bind.
  eapply (wp_add_item W (QInodes ns)); [exact W3|exact O3|exact Qi|exact Ui| |].
  { cbn. rewrite (obj_inodes _ _ _ _ O3). by rewrite lookup_insert_eq. }
  intros f4 W4 O4. apply wp_bind.
  eapply wp_alloc_entry; [exact W4|exact O4|exact M2|exact Zd|by apply unqueued_add|]. intros f5 W5 O5.
  rewrite (proj2 (Z.eqb_neq _ _) Zd). cbn [negb].
  eapply wp_fill_entry; [exact W5|exact O5|by apply unqueued_add|exact Ud|]. intros f7 W7 O7. apply wp_bind.
  eapply wp_alloc_entry; [exact W7|exact O7|exact M3|exact Zdd|by repeat apply unqueued_add|]. intros f8 W8 O8.
  rewrite (proj2 (Z.eqb_neq _ _) Zdd). cbn [negb]. apply wp_bind. eapply (wp_rd_inode _ d).
  { rewrite (obj_inodes _ _ _ _ O8). by rewrite lookup_insert_ne. }
  eapply wp_fill_entry; [exact W8|exact O8|by repeat apply unqueued_add|exact Udd|]. intros f10 W10 O10. apply wp_bind.
  eapply wp_alloc_entry; [exact W10|exact O10|exact M4|exact Ze|by repeat apply unqueued_add|]. intros f11 W11 O11.
  rewrite (proj2 (Z.eqb_neq _ _) Ze). cbn [negb].
  eapply wp_fill_entry; [exact W11|exact O11|by repeat apply unqueued_add|exact Ue|].
  intros f13 W13 O13. apply wp_ret. by exists f13.
Qed.

(** The directories after mkdir. *)
Lemma omap_fresh (E : gmap Z rootfs_entry_t) p e (l : list Z) :
  p ∉ l -> omap (fun x => <[p := e]> E !! x) l = omap (fun x => E !! x) l.
Proof.
  induction l as [|x l IH]; intros Hp; [done|]. apply not_elem_of_cons in Hp as [Hx Hl]. cbn [omap list_omap].
  rewrite lookup_insert_ne by done. by rewrite IH.
Qed.

Section Mkdir.
Context (W : rqid -> list Z) (s : vstate rfs) (ns node pi pd pdd pe : Z) (k : kstate).
Context (Hroom : room W s pi pd pdd pe k) (Hne : node <> pi).
Let W' := mkdir_lists W ns node pi pd pdd pe.

Lemma mkdir_lists_node : W' (QEntries node) = W (QEntries node) ++ [pe].
Proof using Hne.
  unfold W', mkdir_lists, added. rewrite vupd_eq. f_equal. rewrite !vupd_ne by congruence. done.
Qed.

Lemma mkdir_lists_new : W' (QEntries pi) = [pd; pdd].
Proof using Hne Hroom.
  destruct Hroom as [_ _ _ [_ Hnil]]. unfold W', mkdir_lists, added.
  rewrite (vupd_ne _ (QEntries node)), !vupd_eq by congruence. rewrite (vupd_ne _ (QInodes ns)) by done. by rewrite Hnil.
Qed.

Lemma mkdir_lists_other b : b <> node -> b <> pi -> W' (QEntries b) = W (QEntries b).
Proof. intros Hn Hp. unfold W', mkdir_lists, added. by rewrite !vupd_ne by congruence. Qed.

Context (f' : rfs) (R' : gmap Z rootfs_t) (I' : gmap Z rootfs_inode_t) (ed edd ee : rootfs_entry_t).
Context (Ho : objects f' R' I' (<[pe := ee]> (<[pdd := edd]> (<[pd := ed]> (entries (fsd s)))))).

Lemma mkdir_old b : omap (fun e => entries f' !! e) (W (QEntries b)) = listing W (fsd s) b.
Proof using Ho Hroom.
  destruct Hroom as [_ Hf _ _]. rewrite !Forall_cons in Hf. destruct Hf as (_ & (_ & _ & Qd) & (_ & _ & Qdd) & (_ & _ & Qe) & _).
  rewrite (obj_entries _ _ _ _ Ho). unfold listing.
  rewrite (omap_fresh _ pe), (omap_fresh _ pdd), (omap_fresh _ pd); [done|apply Qd|apply Qdd|apply Qe].
Qed.

Lemma mkdir_distinct : pd <> pdd /\ pd <> pe /\ pdd <> pe.
Proof using Hroom. destruct Hroom as [_ _ Hn _]. clear -Hn. rewrite !NoDup_cons in Hn. set_solver. Qed.

Lemma mkdir_listing_node : listing W' f' node = listing W (fsd s) node ++ [ee].
Proof using Hne Ho Hroom.
  unfold listing at 1. rewrite mkdir_lists_node, omap_app, mkdir_old. f_equal. cbn [omap list_omap].
  rewrite (obj_entries _ _ _ _ Ho). by rewrite lookup_insert_eq.
Qed.

Lemma mkdir_listing_new : listing W' f' pi = [ed; edd].
Proof using Hne Ho Hroom.
  destruct mkdir_distinct as (? & ? & ?). unfold listing. rewrite mkdir_lists_new. cbn [omap list_omap].
  rewrite (obj_entries _ _ _ _ Ho).
  by rewrite !(lookup_insert_ne _ pe), lookup_insert_eq, (lookup_insert_ne _ pdd), lookup_insert_eq by done.
Qed.

Lemma mkdir_listing_other b : b <> node -> b <> pi -> listing W' f' b = listing W (fsd s) b.
Proof using Ho Hroom. intros Hn Hp. unfold listing at 1. rewrite mkdir_lists_other by done. apply mkdir_old. Qed.

End Mkdir.

End RootFsSpec.

(** C16: rootfs_mkdir succeeds when the allocator serves its four requests: the new
    inode gets the next number, a walk from the parent finds every name it found before
    and, if it was not found, the new name, which leads to the new inode; in the new
    directory "." leads to itself and ".." to the parent, and every other directory is
    unchanged. *)
Theorem rootfs_mkdir_spec `{Hal} U W s ns node name mode r d pi pd pdd pe k :
  rwf U W (fsd s) -> ns <> 0 -> node <> 0 -> rootfss (fsd s) !! ns = Some r -> inodes (fsd s) !! node = Some d ->
  Z.of_nat (length name) < ROOTFS_NAME_LENGTH -> room U W s pi pd pdd pe k ->
  inode_index r <> r_root_vnid r -> i_id d <> r_root_vnid r \/ name <> dotdot ->
  exists f' W', rootfs_mkdir ns node name mode s = Ret DNA_OK (st k f' s) /\ rwf U W' f' /\
    (forall x, assoc x (listing W' f' node) =
       match assoc x (listing W (fsd s) node) with
       | Some id => Some id
       | None => if bool_decide (name = x) then Some (inode_index r) else None
       end) /\
    (forall vnid, assoc name (listing W (fsd s) node) = None ->
       rootfs_walk ns node name vnid (st k f' s) = Ret (DNA_OK, inode_index r) (st k f' s)) /\
    (forall vnid, rootfs_walk ns pi dot vnid (st k f' s) = Ret (DNA_OK, inode_index r) (st k f' s)) /\
    (forall vnid, rootfs_walk ns pi dotdot vnid (st k f' s) = Ret (DNA_OK, i_id d) (st k f' s)) /\
    (forall b, b <> node -> b <> pi -> listing W' f' b = listing W (fsd s) b).
Proof.
  intros Hwf Hns Hnode Hr Hd Hlen Hroom Hid Hname.
  destruct (rootfs_mkdir_ok U W s ns node name mode r d pi pd pdd pe k) as (f' & Hrun & Hwf' & Ho); try done.
  assert (node <> pi) as Hne by (intros ->; destruct (room_inode _ _ _ _ _ _ _ _ Hroom); congruence).
  assert (pi <> 0) as Hpi by (by destruct (proj1 (Forall_cons _ _ _) (room_fresh _ _ _ _ _ _ _ _ Hroom)) as [[? _] _]).
  pose proof (mkdir_listing_node U W s ns node pi pd pdd pe k Hroom Hne _ _ _ _ _ _ Ho) as Lnode.
  pose proof (mkdir_listing_new U W s ns node pi pd pdd pe k Hroom Hne _ _ _ _ _ _ Ho) as Lnew.
  pose proof (lookup_insert_eq (inodes (fsd s)) pi (mkInode (inode_index r) name DNA_ROOTFS_DIRECTORY 0 mode 0)) as Inew.
  rewrite <- (obj_inodes _ _ _ _ Ho) in Inew.
  pose proof (lookup_insert_eq (rootfss (fsd s)) ns (mkRootfs (i64 (inode_index r + 1)) (r_root_vnid r) (r_vid r))) as Rnew.
  rewrite <- (obj_rootfss _ _ _ _ Ho) in Rnew.
  assert (forall x, assoc x (listing (mkdir_lists W ns node pi pd pdd pe) f' node) =
    match assoc x (listing W (fsd s) node) with
    | Some id => Some id
    | None => if bool_decide (name = x) then Some (inode_index r) else None
    end) as Hassoc by (intros x; by rewrite Lnode, assoc_app).
  exists f', (mkdir_lists W ns node pi pd pdd pe). split_and!; [done|done|done| | | |].
  - intros vnid Hnew. eapply rootfs_walk_found; [exact Hwf'|done|done| | | |].
    + rewrite (obj_inodes _ _ _ _ Ho), lookup_insert_ne; done.
    + by rewrite (obj_rootfss _ _ _ _ Ho), lookup_insert_eq.
    + done.
    + by rewrite Hassoc, Hnew, bool_decide_true.
  - intros vnid. eapply rootfs_walk_found; [exact Hwf'|done|done|exact Inew|exact Rnew|by left|by rewrite Lnew].
  - intros vnid. eapply rootfs_walk_found; [exact Hwf'|done|done|exact Inew|exact Rnew|by left|by rewrite Lnew].
  - intros b. by apply (mkdir_listing_other U W s ns node pi pd pdd pe k Hroom _ _ _ _ _ _ Ho).
Qed.
