(* ===== verification/VfsScenario.v ===== *)
(** * Two mounted file systems

    A small state of the virtual file system on which its theorems are instantiated: a
    root file system at "/", whose directory "a" hosts a second one, which has a
    directory "b" open on the descriptor 0. *)

From S2P Require Import Prelude Status CLib Queue Allocator AllocatorSpec Kernel Logic Memory Scheduler Alarm Thread Semaphore AlarmHandler Interrupt Port Core Scenario Vfs VfsSpec RootFs RootFsSpec.

#[local] Existing Instance hal2.

(** The system of Scenario.v with a heap in which one area, of the open file, is used. *)
Definition used_heap : mstate :=
  match (memory_create 0x10000 0x10000 ;; kernel_region_create 3) (mkM ∅ 0 0 0) with Ret _ h => h | _ => mkM ∅ 0 0 0 end.
Definition disk_kern : kstate := set_heap used_heap sys.

Definition name_a : list Z := [97].
Definition name_b : list Z := [98].

Definition rootfs_queues : list (rqid * Z) :=
  [(QInodes 0x600, 0x800); (QInodes 0x600, 0x810); (QInodes 0x610, 0x820); (QInodes 0x610, 0x830);
   (QEntries 0x800, 0xA00); (QEntries 0x800, 0xA10); (QEntries 0x800, 0xA20);
   (QEntries 0x810, 0xA30); (QEntries 0x810, 0xA40);
   (QEntries 0x820, 0xA50); (QEntries 0x820, 0xA60); (QEntries 0x820, 0xA70);
   (QEntries 0x830, 0xA80); (QEntries 0x830, 0xA90)].

Definition a_dir (id : Z) (name : list Z) : rootfs_inode_t := mkInode id name DNA_ROOTFS_DIRECTORY 0 0 0.

Definition disk_fs : rfs :=
  mkRfs (layout rootfs_queues)
    (list_to_map [(0x600, mkRootfs 3 1 0); (0x610, mkRootfs 6 1 1)])
    (list_to_map [(0x800, a_dir 1 []); (0x810, a_dir 2 name_a); (0x820, a_dir 1 []); (0x830, a_dir 5 name_b)])
    (list_to_map
      [(0xA00, mkEntry 1 dot); (0xA10, mkEntry 1 dotdot); (0xA20, mkEntry 2 name_a);
       (0xA30, mkEntry 2 dot); (0xA40, mkEntry 1 dotdot);
       (0xA50, mkEntry 1 dot); (0xA60, mkEntry 1 dotdot); (0xA70, mkEntry 5 name_b);
       (0xA80, mkEntry 5 dot); (0xA90, mkEntry 1 dotdot)]).

Definition disk_vnodes : list Z := [0x700; 0x710; 0x720; 0x730].
Definition disk_volumes : list Z := [0x500; 0x510].
Definition disk_queues : list (vqid * Z) :=
  ((fun x => (QVnodes, x)) <$> disk_vnodes) ++ ((fun x => (QVolumes, x)) <$> disk_volumes).

Definition a_file : file_t := mkFile 1 0x730 false 0 0 (0x10000 + DNA_KERNEL_BLOCK_SIZE) 0.

Definition disk : vstate rfs :=
  mkVs disk_kern (layout disk_queues)
    (list_to_map [(0x500, mkVolume 0 1 0 (-1) 7 0x600); (0x510, mkVolume 1 1 0x500 2 7 0x610)])
    (list_to_map [(0x700, mkVnode 1 0x500 false 1 0x800 0); (0x710, mkVnode 2 0x500 false 1 0x810 0);
                  (0x720, mkVnode 1 0x510 false 1 0x820 0); (0x730, mkVnode 5 0x510 false 2 0x830 0)])
    {[0x900 := a_file]} 2 0x400 {[0 := 0x410]} {[(0, 0) := 0x900]} disk_fs.

Definition disk_cmds (_ : Z) : filesystem_cmd rfs := rootfs_cmd.

(** The items of the lists, and free memory. *)
Definition disk_items : gset Z := list_to_set (disk_queues.*2 ++ rootfs_queues.*2 ++ [65696; 66176; 66528; 66880]).

(** ** The state is well formed *)

Ltac nodup := cbn; repeat (apply NoDup_cons; split; [set_solver|]); apply NoDup_nil_2.

Lemma disk_lists : qwf disk_items (layout disk_queues) (VfsSpec.view disk_vnodes disk_volumes).
Proof.
  eapply (qwf_ext _ _ (Queue.view disk_queues)); [by intros []|]. apply layout_wf.
  - nodup.
  - intros x Hx. apply elem_of_list_to_set, elem_of_app. by left.
  - vm_compute. reflexivity.
Qed.

Lemma disk_rwf : rwf disk_items (Queue.view rootfs_queues) disk_fs.
Proof.
  split.
  - apply layout_wf.
    + nodup.
    + intros x Hx. apply elem_of_list_to_set. rewrite !elem_of_app. by right; left.
    + vm_compute. reflexivity.
  - intros b e He. view_cases He; injection He as -> ->; by eexists.
  - intros r i Hi. view_cases Hi; injection Hi as -> ->; by eexists.
Qed.

(** Cases of a lookup in a map given by a list. *)
Ltac map_cases H :=
  unfold disk in H; cbn [volumes vnodes] in H; apply elem_of_list_to_map_2 in H;
  repeat (apply elem_of_cons in H as [[= -> ->]|H]); [..|by apply not_elem_of_nil in H].

Lemma disk_rootfs : all_rootfs disk_cmds disk_vnodes disk.
Proof.
  intros vol vnid w a v (Hw & _ & Hv). split; [done|].
  map_cases Hw; (split; [done|]); map_cases Hv; (split; [done|]); (split; by eexists).
Qed.

Definition disk_dir (_ : Z) : Z -> Z -> list Z -> status_t * Z := rootfs_dir (Queue.view rootfs_queues) disk_fs.

Lemma disk_tree : tree disk_cmds disk_items disk_dir disk_vnodes disk_volumes disk.
Proof.
  split; [exact disk_lists| |done|done| |].
  - intros a v Hv. map_cases Hv; cbn; (split; [done|lia]).
  - exact (rootfs_walks disk_items _ _ _ disk disk_rwf disk_rootfs).
  - intros p w Hw Hh. map_cases Hw; [done|]. eexists. split; [reflexivity|]. done.
Qed.

Lemma disk_calling : calling disk.
Proof. split; [exists (0, 2); by split_and!|done|done|by eexists]. Qed.

Lemma disk_opened : opened disk 0 0x900 a_file.
Proof. split; try done. Qed.

Lemma disk_served : served disk a_file (mkVnode 5 0x510 false 2 0x830 0) (mkVolume 1 1 0x500 2 7 0x610).
Proof. by split. Qed.

(** Cross the mount point, enter "b", come back to the root of the volume, and to "/". *)
Definition tour : list (list Z) := [name_a; name_b; dotdot; dotdot].

Lemma disk_resolves : resolves disk_dir disk_vnodes disk_volumes disk tour (0x500, 1).
Proof.
  split.
  - repeat constructor; try done; set_solver.
  - vm_compute. reflexivity.
  - exists 0x500. do 3 eexists. split_and!; [reflexivity|done|split_and!; reflexivity|].
    eapply steps_cons; [eapply step_mount with (m := 0x510); [by split_and!|reflexivity|done|reflexivity|done|by split_and!]|].
    eapply steps_cons; [eapply step_entry; [by split_and!|reflexivity|done|reflexivity|by split_and!]|].
    eapply steps_cons; [eapply step_entry; [by split_and!|reflexivity|done|reflexivity|by split_and!]|].
    eapply steps_cons; [|apply steps_nil].
    eapply step_up; [by split_and!|reflexivity|done|].
    eapply step_entry; [by split_and!|reflexivity|done|reflexivity|by split_and!].
Qed.

(** ** The theorems on it *)

Lemma vnode_walk_spec_witness :
  vnode_walk disk_cmds (slash :: path_of tour) disk = Ret (DNA_OK, Some (0x500, 1, 0x800)) (bump 0x700 1 disk).
Proof.
  exact (vnode_walk_spec disk_cmds disk_items disk_dir disk_vnodes disk_volumes disk tour (0x500, 1)
           (mkVolume 0 1 0 (-1) 7 0x600) 0x700 (mkVnode 1 0x500 false 1 0x800 0)
           disk_tree disk_resolves (conj eq_refl (conj eq_refl eq_refl))).
Defined.

(** The descriptor 0 is used: the next one is 1. *)
Lemma disk_lowest : lowest disk 1.
Proof.
  split; [done|done|]. intros j Hj. assert (j = 0) as -> by lia. exists 0x900. done.
Qed.

Definition open_run := kernel_malloc (sizeof_file + 0x1F) true (kern (locked LFilePool (tick disk))).

Lemma vfs_open_spec_witness :
  exists s', vfs_open disk_cmds (Some (slash :: path_of tour)) 1 0 true disk = Ret (DNA_OK, 1) s' /\
    fd_table s' !! (0, 0) = Some 0x900.
Proof.
  destruct (vfs_open_spec disk_cmds disk_items disk_dir disk_vnodes disk_volumes disk tour (0x500, 1)
    (mkVolume 0 1 0 (-1) 7 0x600) 0x700 (mkVnode 1 0x500 false 1 0x800 0) 1 1 0 0 disk_fs 65696 (heap (after open_run sys)))
    as (s' & Hr & _ & Hfd & _).
  - exact disk_tree.
  - exact disk_resolves.
  - exact (conj eq_refl (conj eq_refl eq_refl)).
  - reflexivity.
  - exact disk_calling.
  - exact disk_lowest.
  - reflexivity.
  - reflexivity.
  - vm_compute. reflexivity.
  - vm_compute. discriminate.
  - exists s'. split; [exact Hr|]. by rewrite Hfd.
Defined.

Lemma vfs_transfer_spec_witness :
  vfs_read disk_cmds 0 0x40 16 true disk =
    Ret (DNA_OK, 0) (moved 0x900 (transferred (DNA_OK, 0)) (set_fsd disk_fs (tick (tick disk)))) /\
  vfs_lseek disk_cmds 0 25 DNA_SEEK_SET disk =
    Ret (DNA_OK, 25) (moved 0x900 (sought DNA_SEEK_SET 25) (tick (tick disk))).
Proof.
  destruct (vfs_transfer_spec disk_cmds disk 0 0x900 a_file _ _ disk_calling disk_opened disk_served eq_refl)
    as (Hread & _ & Hseek).
  split; [|apply Hseek; by left]. apply (Hread 0x40 16 (DNA_OK, 0) disk_fs); [done|done|reflexivity].
Defined.

Definition close_run := kernel_free (f_kalloc a_file) (kern (tick (tick (tick disk)))).

Lemma vfs_close_spec_witness :
  exists k, vfs_close disk_cmds 0 disk = Ret DNA_OK (bump 0x730 (-1) (set_kern k (forgotten 0 0x900 (set_fsd disk_fs disk)))).
Proof.
  exists (after close_run sys).
  apply (vfs_close_spec disk_cmds disk_items disk_vnodes disk_volumes disk 0 0x900 a_file
    (mkVnode 5 0x510 false 2 0x830 0) (mkVolume 1 1 0x500 2 7 0x610) disk_fs DNA_OK (after close_run sys) DNA_OK).
  - exact disk_calling.
  - exact disk_opened.
  - reflexivity.
  - exact disk_served.
  - exact disk_lists.
  - reflexivity.
  - reflexivity.
  - cbn. lia.
  - reflexivity.
  - apply run_after. vm_compute. reflexivity.
  - vm_compute. reflexivity.
Defined.

Lemma vfs_invalid_fd_rejected_witness :
  vfs_close disk_cmds 3 disk = Ret DNA_INVALID_FD (tick disk) /\ vfs_close disk_cmds 256 disk = Ret DNA_INVALID_FD disk.
Proof.
  split.
  - by destruct (vfs_invalid_fd_rejected disk_cmds disk 3 disk_calling eq_refl) as [Hc _].
  - by destruct (vfs_invalid_fd_rejected disk_cmds disk 256 disk_calling eq_refl) as [Hc _].
Defined.

Definition mk1 := kernel_malloc sizeof_inode true disk_kern.
Definition mk2 := kernel_malloc sizeof_entry true (after mk1 sys).
Definition mk3 := kernel_malloc sizeof_entry true (after mk2 sys).
Definition mk4 := kernel_malloc sizeof_entry true (after mk3 sys).

Lemma disk_room : room disk_items (Queue.view rootfs_queues) disk 65696 66176 66528 66880 (after mk4 sys).
Proof.
  split.
  - exists (after mk1 sys), (after mk2 sys), (after mk3 sys).
    split_and!; apply run_after; vm_compute; reflexivity.
  - repeat (apply Forall_cons; split; [split_and!; [done|apply elem_of_list_to_set; cbn; set_solver|free_item]|]).
    apply Forall_nil_2.
  - nodup.
  - by split.
Qed.

(** mkdir "b" in the root of the first volume. *)
Lemma rootfs_mkdir_spec_witness :
  exists f', rootfs_mkdir 0x600 0x800 name_b 0 disk = Ret DNA_OK (st (after mk4 sys) f' disk) /\
    rootfs_walk 0x600 0x800 name_b (-1) (st (after mk4 sys) f' disk) = Ret (DNA_OK, 3) (st (after mk4 sys) f' disk).
Proof.
  destruct (rootfs_mkdir_spec disk_items (Queue.view rootfs_queues) disk 0x600 0x800 name_b 0
    (mkRootfs 3 1 0) (a_dir 1 []) 65696 66176 66528 66880 (after mk4 sys)) as (f' & W' & Hr & _ & _ & Hw & _).
  - exact disk_rwf.
  - done.
  - done.
  - reflexivity.
  - reflexivity.
  - done.
  - exact disk_room.
  - done.
  - by right.
  - exists f'. split; [exact Hr|]. apply Hw. reflexivity.
Defined.
