(* ===== verification/Libc.v ===== *)
(** * The C library used by the components above the kernel

    The functions of the C library are called by the channels (Kpn.v) and by the FAT
    file system (Fat.v).  They are not part of the repository's own code: the class
    [Libc] gives them, acting on a state of any type.  A call that transfers bytes takes
    or returns their list.  Files are opened with O_RDWR and sought with SEEK_SET, the
    only ways the code uses. *)

From S2P Require Import Prelude.

(** [read fd n] returns the result and the bytes read, [write fd bytes] the result. *)
Class Libc (D : Type) := {
  malloc : Z -> M D Z;
  free : Z -> M D unit;
  open : list Z -> M D Z;
  close : Z -> M D Z;
  read : Z -> Z -> M D (Z * list Z);
  write : Z -> list Z -> M D Z;
  lseek : Z -> Z -> M D Z
}.

(** memcpy inside the bounds of an object: [n] bytes from the offset [p] of [l]; the
    bytes [b] at the offset [p] of [l]. *)
Definition slice {S} (p n : Z) (l : list Z) : M S (list Z) :=
  if (0 <=? p) && (0 <=? n) && (p + n <=? Z.of_nat (length l))
  then ret (take (Z.to_nat n) (drop (Z.to_nat p) l)) else fault.
Definition patch {S} (p : Z) (b l : list Z) : M S (list Z) :=
  if (0 <=? p) && (p + Z.of_nat (length b) <=? Z.of_nat (length l))
  then ret (take (Z.to_nat p) l ++ b ++ drop (Z.to_nat p + length b) l) else fault.

Lemma wp_slice {S} p n l Q (s : S) :
  0 <= p -> 0 <= n -> p + n <= Z.of_nat (length l) ->
  Q (take (Z.to_nat n) (drop (Z.to_nat p) l)) s -> wp (slice p n l) Q s.
Proof. intros Hp Hn Hl HQ. unfold slice. rewrite !(proj2 (Z.leb_le _ _)) by done. by apply wp_ret. Qed.

Lemma wp_patch {S} p b l Q (s : S) :
  0 <= p -> p + Z.of_nat (length b) <= Z.of_nat (length l) ->
  Q (take (Z.to_nat p) l ++ b ++ drop (Z.to_nat p + length b) l) s -> wp (patch p b l) Q s.
Proof. intros Hp Hl HQ. unfold patch. rewrite !(proj2 (Z.leb_le _ _)) by done. by apply wp_ret. Qed.

Lemma take_patch (l b : list Z) n :
  (n + length b <= length l)%nat -> take (n + length b) (take n l ++ b ++ drop (n + length b) l) = take n l ++ b.
Proof.
  intros Hn. rewrite app_assoc, take_app_le by (rewrite length_app, length_take; lia).
  apply take_ge. rewrite length_app, length_take. lia.
Qed.

Lemma length_patch (l b : list Z) n :
  (n + length b <= length l)%nat -> length (take n l ++ b ++ drop (n + length b) l) = length l.
Proof. intros Hn. rewrite !length_app, length_take, length_drop. lia. Qed.

(** A buffer that is overwritten as a whole. *)
Lemma patch_whole (l b : list Z) : length b = length l -> take (Z.to_nat 0) l ++ b ++ drop (Z.to_nat 0 + length b) l = b.
Proof. intros Hl. rewrite take_0, drop_ge by (cbn; lia). apply app_nil_r. Qed.
