(* ===== verification/Dal.v ===== *)
(** * Channels and processes of the DAL library (DalLibrary)

    A channel is remote, and its bytes go through a file descriptor, or local, and they go
    through a ring buffer shared by a writer and a reader; a full ring is replaced by
    one twice as large, up to 32768 bytes, and then the writer waits.

    The C library is that of Libc.v, with ioctl.  What the other threads do between a call to
    thread_yield and its return is the argument [thread_yield] of the definitions; so is the free of
    the C library called for a full ring, an area of kernel_malloc ([free_foreign]), of which
    nothing is assumed.  The
    channels and the rings are objects named by their addresses; the bytes of a new ring,
    which are not read before they are written, are zeros.

    The module [Interleaved] has the accesses of a writer and of a reader to the shared
    variables of a ring as separate steps, in any order. *)

From S2P Require Import Prelude Status CLib Queue Allocator Kernel Logic Memory Scheduler Alarm Thread Semaphore Libc.

Inductive dal_status_t : Type := DAL_OK | DAL_ERROR.

Record DalChannel := mkChannel {
  c_name : list Z;
  app_id : Z;
  chan_id : Z;
  non_blocking : Z;
  is_local : Z;
  c_fd : Z;
  c_size : Z;
  c_buffer : Z;
  c_end : Z;
  c_start : Z
}.

Definition with_c_fd x c := mkChannel (c_name c) (app_id c) (chan_id c) (non_blocking c) (is_local c) x (c_size c) (c_buffer c) (c_end c) (c_start c).
Definition with_c_size x c := mkChannel (c_name c) (app_id c) (chan_id c) (non_blocking c) (is_local c) (c_fd c) x (c_buffer c) (c_end c) (c_start c).
Definition with_c_buffer x c := mkChannel (c_name c) (app_id c) (chan_id c) (non_blocking c) (is_local c) (c_fd c) (c_size c) x (c_end c) (c_start c).
Definition with_c_end x c := mkChannel (c_name c) (app_id c) (chan_id c) (non_blocking c) (is_local c) (c_fd c) (c_size c) (c_buffer c) x (c_start c).
Definition with_c_start x c := mkChannel (c_name c) (app_id c) (chan_id c) (non_blocking c) (is_local c) (c_fd c) (c_size c) (c_buffer c) (c_end c) x.

Record dal (D : Type) := mkDal {
  lib : D;
  d_kern : kstate;
  channels : gmap Z DalChannel;
  buffers : gmap Z (list Z)
}.
Arguments mkDal {D}.
Arguments lib {D}.
Arguments d_kern {D}.
Arguments channels {D}.
Arguments buffers {D}.

(** "/devices/dnp/rdma", "c_event" *)
Definition rdma_path : list Z := [47; 100; 101; 118; 105; 99; 101; 115; 47; 100; 110; 112; 47; 114; 100; 109; 97].
Definition c_event : list Z := [99; 95; 101; 118; 101; 110; 116].
Definition DNP_CONNECT : Z := 0x0FFF.

Section Dal.
Context {D : Type} `{Libc D} (ioctl : Z -> Z -> Z -> M D Z).
Implicit Types s : dal D.
(** What the free of the C library does when dal_write gives it the old ring, an area of
    kernel_malloc.  The documentation of free says nothing of such a call: it may change
    anything, or not return, and nothing is assumed of it. *)
Context (free_foreign : Z -> M (dal D) unit).
Context (thread_yield : M (dal D) unit).

Definition onlib {A} (m : M D A) : M (dal D) A := lift lib (fun d s => mkDal d (d_kern s) (channels s) (buffers s)) m.
Definition onkern {A} (m : K A) : M (dal D) A := lift d_kern (fun k s => mkDal (lib s) k (channels s) (buffers s)) m.

Definition rd_channel (p : Z) : M (dal D) DalChannel := let* m := gets channels in deref (m !! p).
Definition wr_channel (p : Z) (f : DalChannel -> DalChannel) : M (dal D) unit :=
  let* c := rd_channel p in modify (fun s => mkDal (lib s) (d_kern s) (<[p := f c]> (channels s)) (buffers s)).
Definition rd_buffer (p : Z) : M (dal D) (list Z) := let* m := gets buffers in deref (m !! p).
Definition put_buffer (p : Z) (l : list Z) : M (dal D) unit :=
  modify (fun s => mkDal (lib s) (d_kern s) (channels s) (<[p := l]> (buffers s))).

(** kernel_malloc (size, false) of a ring. *)
Definition alloc_buffer (size : Z) : M (dal D) Z :=
  let* p := onkern (kernel_malloc size false) in
  (if p =? 0 then ret tt else put_buffer p (replicate (Z.to_nat size) 0)) ;;
  ret p.
(** memcpy (dst + offset, src + start, n) *)
Definition copy_buffer (dst offset src start n : Z) : M (dal D) unit :=
  let* l := rd_buffer src in
  let* b := slice start n l in
  let* l := rd_buffer dst in
  let* l := patch offset b l in
  put_buffer dst l.

(** *channel has been allocated by the caller. *)
Definition dal_channel_create (channel appID channelID : Z) (name : list Z) : M (dal D) unit :=
  let* _ := rd_channel channel in
  let non_blocking := if bool_decide (take 7 name = c_event) then 1 else 0 in
  wr_channel channel (fun c => mkChannel (take 127 name) appID channelID non_blocking 0
    (c_fd c) (c_size c) (c_buffer c) (c_end c) (c_start c)) ;;
  let* c := rd_channel channel in
  if is_local c =? 0 then
    let* fd := onlib (open rdma_path) in
    wr_channel channel (with_c_fd (i16 fd)) ;;
    ensure negb (i16 fd =? -1) orelse tt in
    let* r := onlib (ioctl (i16 fd) DNP_CONNECT channelID) in
    if r <? 0 then onlib (close (i16 fd)) ;; ret tt else ret tt
  else
    wr_channel channel (with_c_size 64) ;;
    let* p := alloc_buffer 64 in
    wr_channel channel (with_c_buffer p) ;;
    ensure negb (p =? 0) orelse tt in
    wr_channel channel (with_c_start 0) ;;
    wr_channel channel (with_c_end 0).

(** (channel -> end + 1) % channel -> size, converted to int. *)
Definition next_of (x size : Z) : M (dal D) Z :=
  if size =? 0 then fault else ret (i32 (u32 (x + 1) mod size)).

(** while (1); *)
Definition stuck {A} : M (dal D) A := fun s => Spin s.

(** The replacement of a full ring; the result is the new [next]. *)
Definition grow (p : Z) : M (dal D) Z :=
  let* c := rd_channel p in
  let newsize := u32 (c_size c * 2) in
  let* newbuf := alloc_buffer newsize in
  if newbuf =? 0 then stuck
  else
    (if c_start c =? 0 then copy_buffer newbuf 0 (c_buffer c) 0 (c_size c)
     else
       let p0_size := c_start c in
       let p1_size := u32 (c_size c - p0_size) in
       copy_buffer newbuf 0 (c_buffer c) (c_start c) p1_size ;;
       copy_buffer newbuf p1_size (c_buffer c) 0 (c_start c)) ;;
    free_foreign (c_buffer c) ;;
    wr_channel p (with_c_buffer newbuf) ;;
    wr_channel p (with_c_start 0) ;;
    wr_channel p (fun c => with_c_end (u32 (c_size c - 1)) c) ;;
    wr_channel p (with_c_size newsize) ;;
    let* c := rd_channel p in
    next_of (c_end c) (c_size c).

(** while (next == channel -> start) thread_yield (); [next] is not computed again. *)
Fixpoint wait_reader (fuel : nat) (p next : Z) : M (dal D) unit :=
  match fuel with
  | O => diverge
  | S fuel =>
      let* c := rd_channel p in
      if u32 next =? c_start c then thread_yield ;; wait_reader fuel p next else ret tt
  end.

(** A turn of the loop of dal_write. *)
Definition put_byte (fuel : nat) (p b : Z) : M (dal D) unit :=
  let* c := rd_channel p in
  let* next := next_of (c_end c) (c_size c) in
  let* next :=
    (if u32 next =? c_start c then
       if c_size c <? 32768 then grow p
       else wait_reader fuel p next ;; ret next
     else ret next) in
  let* c := rd_channel p in
  let* l := rd_buffer (c_buffer c) in
  let* l := patch (c_end c) [u8 b] l in
  put_buffer (c_buffer c) l ;;
  wr_channel p (with_c_end (u32 next)).

Fixpoint put_bytes (fuel : nat) (p : Z) (data : list Z) : M (dal D) unit :=
  match data with
  | [] => ret tt
  | b :: data => put_byte fuel p b ;; put_bytes fuel p data
  end.

(** [data] has the [n] bytes to write. *)
Definition dal_write (fuel : nat) (port : Z) (data : list Z) : M (dal D) dal_status_t :=
  let* c := rd_channel port in
  if is_local c =? 0 then
    let* res := onlib (write (c_fd c) data) in
    ret (if res =? -1 then DAL_ERROR else DAL_OK)
  else
    put_bytes fuel port data ;;
    ret DAL_OK.

(** The loop of dal_read; [got] is what has been stored, [k] the number of bytes to come. *)
Fixpoint get_bytes (fuel : nat) (p : Z) (k : nat) (got : list Z) : M (dal D) (list Z) :=
  match k with
  | O => ret got
  | S k' =>
      match fuel with
      | O => diverge
      | S fuel =>
          let* c := rd_channel p in
          if negb (c_start c =? c_end c) then
            let* next := next_of (c_start c) (c_size c) in
            let* l := rd_buffer (c_buffer c) in
            let* b := slice (c_start c) 1 l in
            wr_channel p (with_c_start (u32 next)) ;;
            get_bytes fuel p k' (got ++ b)
          else
            thread_yield ;;
            get_bytes fuel p (S k') got
      end
  end.

(** The status and the bytes stored in [data]. *)
Definition dal_read (fuel : nat) (port n : Z) : M (dal D) (dal_status_t * list Z) :=
  let* c := rd_channel port in
  if is_local c =? 0 then
    let* r := onlib (read (c_fd c) n) in
    ret (if (r.1 =? 0) || (r.1 =? -1) then DAL_ERROR else DAL_OK, r.2)
  else
    if negb (non_blocking c =? 0) && (c_start c =? c_end c) then ret (DAL_ERROR, [])
    else
      let* l := get_bytes fuel port (Z.to_nat n) [] in
      ret (DAL_OK, l).

End Dal.

(** ** Processes *)

Record dal_process_info_t := mkInfoDal {
  di_thread_id : Z;
  canceled : bool
}.

(** [wptr] are the members wptr of the processes, [__dal_sem], [__dal_nb_alive_processes] and
    [__dal_init_done] the global variables. *)
Record dalp := mkDalp {
  p_kern : kstate;
  infos : gmap Z dal_process_info_t;
  wptr : gmap Z Z;
  __dal_sem : Z;
  __dal_nb_alive_processes : Z;
  __dal_init_done : Z
}.

Definition set_p_kern v s := mkDalp v (infos s) (wptr s) (__dal_sem s) (__dal_nb_alive_processes s) (__dal_init_done s).
Definition set_infos v s := mkDalp (p_kern s) v (wptr s) (__dal_sem s) (__dal_nb_alive_processes s) (__dal_init_done s).
Definition set_wptr v s := mkDalp (p_kern s) (infos s) v (__dal_sem s) (__dal_nb_alive_processes s) (__dal_init_done s).
Definition set_dal_sem v s := mkDalp (p_kern s) (infos s) (wptr s) v (__dal_nb_alive_processes s) (__dal_init_done s).
Definition set_alive v s := mkDalp (p_kern s) (infos s) (wptr s) (__dal_sem s) v (__dal_init_done s).

Definition sizeof_dal_process_info : Z := 8.

(** DNA_THREAD_SET_DEFAULTS *)
Definition thread_defaults (name : list Z) : thread_info_t :=
  mkInfo name 0 0 DNA_NO_AFFINITY 0 DNA_THREAD_SUSPENDED DNA_NO_RESOURCE (-1) 0 0 0 0x8000.

(** "dal_process_sem" *)
Definition dal_sem_name : list Z := [100; 97; 108; 95; 112; 114; 111; 99; 101; 115; 115; 95; 115; 101; 109].

Section Processes.
Context `{Hal}.
Context (handler : Z).                        (* dal_process_bootstrap, as an address *)
Context (preinit init : Z -> M dalp unit) (fire : Z -> M dalp Z).  (* the functions of the processes *)
Context (thread_yield : M dalp unit).

Definition onpkern {A} (m : K A) : M dalp A := lift p_kern set_p_kern m.

Definition rd_info (p : Z) : M dalp (Z * dal_process_info_t) :=
  let* m := gets wptr in
  let* a := deref (m !! p) in
  let* m := gets infos in
  let* i := deref (m !! a) in ret (a, i).

(** while (semaphore_acquire (__dal_sem, 1, DNA_RELATIVE_TIMEOUT, 0) == DNA_OK); a call with a
    null timeout does not wait. *)
Fixpoint drain_loop (fuel : nat) : M dalp unit :=
  match fuel with
  | O => diverge
  | S fuel =>
      let* sem := gets __dal_sem in
      let* r := onpkern (semaphore_acquire sem 1 DNA_RELATIVE_TIMEOUT 0) in
      match r with
      | Returned st => if st_eqb st DNA_OK then drain_loop fuel else ret tt
      | Switched _ => fault
      end
  end.
Definition dal_init (fuel : nat) : M dalp unit :=
  let* r := onpkern (semaphore_create (Some dal_sem_name) 0 true) in
  match r.2 with Some id => modify (set_dal_sem id) | None => ret tt end ;;
  drain_loop fuel.

(** __dal_init_done is never set. *)
Definition dal_process_create (fuel : nat) (p : Z) (name : list Z) : M dalp dal_status_t :=
  let* info := onpkern (kernel_malloc sizeof_dal_process_info false) in
  if info =? 0 then fun s => Spin s
  else
    modify (fun s => set_infos (<[info := mkInfoDal 0 false]> (infos s)) s) ;;
    let* r := onpkern (thread_create handler p (thread_defaults name) true) in
    if negb (st_eqb r.1 DNA_OK) then fun s => Spin s
    else
      let thread_id := default 0 r.2 in
      modify (fun s => set_infos (<[info := mkInfoDal thread_id false]> (infos s)) s) ;;
      if thread_id =? 0 then fun s => Spin s
      else
        modify (fun s => set_wptr (<[p := info]> (wptr s)) s) ;;
        let* done := gets __dal_init_done in
        (if done =? 0 then dal_init fuel else ret tt) ;;
        modify (fun s => set_alive (u32 (__dal_nb_alive_processes s + 1)) s) ;;
        ret DAL_OK.

Definition dal_process_start (p : Z) : M dalp unit :=
  let* i := rd_info p in onpkern (thread_resume (di_thread_id i.2)) ;; ret tt.

(** thread_suspend, which may switch when the process is the caller. *)
Definition dal_process_pause (attempts : nat) (p : Z) : M dalp (switched unit Z) :=
  let* i := rd_info p in
  let* r := onpkern (thread_suspend attempts (di_thread_id i.2)) in
  match r with Returned _ => ret (Returned tt) | Switched f => ret (Switched f) end.

Definition dal_process_cancel (p : Z) : M dalp unit :=
  let* i := rd_info p in
  modify (fun s => set_infos (<[i.1 := mkInfoDal (di_thread_id i.2) true]> (infos s)) s).

(** while (! info -> canceled) ... *)
Fixpoint fire_loop (fuel : nat) (p : Z) : M dalp unit :=
  match fuel with
  | O => diverge
  | S fuel =>
      let* i := rd_info p in
      if negb (canceled i.2) then
        let* r := fire p in
        if negb (r =? 0) then ret tt
        else thread_yield ;; fire_loop fuel p
      else ret tt
  end.

Definition dal_process_bootstrap (fuel : nat) (p : Z) : M dalp Z :=
  preinit p ;;
  init p ;;
  fire_loop fuel p ;;
  let* sem := gets __dal_sem in
  onpkern (semaphore_release sem 1 DNA_NO_RESCHEDULE) ;;
  ret 0.

(** The loop of dal_process_join, which is cut when semaphore_acquire waits. *)
Fixpoint dal_process_join (fuel : nat) : M dalp (switched unit acquire_frame) :=
  match fuel with
  | O => diverge
  | S fuel =>
      let* n := gets __dal_nb_alive_processes in
      if 0 <? n then
        let* sem := gets __dal_sem in
        let* r := onpkern (semaphore_acquire sem 1 0 0) in
        match r with
        | Returned _ =>
            modify (fun s => set_alive (u32 (__dal_nb_alive_processes s - 1)) s) ;;
            dal_process_join fuel
        | Switched f => ret (Switched f)
        end
      else ret (Returned tt)
  end.
Definition dal_process_join_resume (fuel : nat) (f : acquire_frame) : M dalp (switched unit acquire_frame) :=
  onpkern (semaphore_acquire_resume f) ;;
  modify (fun s => set_alive (u32 (__dal_nb_alive_processes s - 1)) s) ;;
  dal_process_join fuel.

End Processes.

(** ** The queue of a ring *)

(** The ring [l] of the channel [c] holds the bytes [q], the oldest first. *)
Record ring (c : DalChannel) (l q : list Z) : Prop := {
  ri_size : 0 < c_size c <= 32768;
  ri_length : Z.of_nat (length l) = c_size c;
  ri_start : 0 <= c_start c < c_size c;
  ri_end : c_end c = (c_start c + Z.of_nat (length q)) mod c_size c;
  ri_room : Z.of_nat (length q) < c_size c;
  ri_bytes : forall i b, q !! i = Some b -> l !! Z.to_nat ((c_start c + Z.of_nat i) mod c_size c) = Some b
}.

(** Positions of a ring that differ. *)
Lemma ring_positions start size a b :
  0 < size -> 0 <= a < size -> 0 <= b < size -> (start + a) mod size = (start + b) mod size -> a = b.
Proof.
  intros Hs Ha Hb He. assert (((start + a) - (start + b)) mod size = 0) as Hz by (rewrite Zminus_mod, He, Z.sub_diag; by rewrite Zmod_0_l).
  apply Z.mod_divide in Hz as [k Hk]; [|lia].
  assert (-1 < k) by (apply (Zmult_gt_0_lt_reg_r _ _ size); lia). assert (k < 1) by (apply (Zmult_gt_0_lt_reg_r _ _ size); lia).
  assert (k = 0) as -> by lia. lia.
Qed.

Lemma ring_end_range c l q : ring c l q -> 0 <= c_end c < c_size c.
Proof. intros []. rewrite ri_end0. apply Z.mod_pos_bound. lia. Qed.

Lemma ring_next c l q : ring c l q ->
  i32 (u32 (c_end c + 1) mod c_size c) = (c_start c + (Z.of_nat (length q) + 1)) mod c_size c /\
  0 <= (c_start c + (Z.of_nat (length q) + 1)) mod c_size c < 32768.
Proof.
  intros Hr. pose proof (ring_end_range _ _ _ Hr) as He. destruct Hr as [Hs Hl Hst Hend _ _].
  assert ((c_end c + 1) mod c_size c = (c_start c + (Z.of_nat (length q) + 1)) mod c_size c) as Hn
    by (rewrite Hend, Zplus_mod_idemp_l; f_equal; lia).
  pose proof (Z.mod_pos_bound (c_start c + (Z.of_nat (length q) + 1)) (c_size c) ltac:(lia)) as Hb.
  rewrite u32_id by lia. rewrite Hn, i32_id by lia. split; [done|lia].
Qed.

(** Whether the ring is full. *)
Lemma ring_full c l q : ring c l q ->
  ((c_start c + (Z.of_nat (length q) + 1)) mod c_size c =? c_start c) = (Z.of_nat (length q) + 1 =? c_size c).
Proof.
  intros Hr. destruct Hr as [Hs Hl Hst Hend Hroom _]. destruct (Z.eqb_spec (Z.of_nat (length q) + 1) (c_size c)) as [He|He].
  - apply Z.eqb_eq. rewrite He, <- (Z.mul_1_l (c_size c)) at 1. rewrite Z_mod_plus_full. apply Z.mod_small. lia.
  - apply Z.eqb_neq. intros Hz. rewrite <- (Z.mod_small (c_start c) (c_size c)) in Hz at 2 by lia.
    rewrite <- (Z.add_0_r (c_start c)) in Hz at 2. apply ring_positions in Hz; lia.
Qed.

Lemma ring_empty c l q : ring c l q -> (c_start c =? c_end c) = bool_decide (q = []).
Proof.
  intros Hr. destruct Hr as [Hs Hl Hst Hend Hroom _]. rewrite Hend. case_bool_decide as Hq.
  - subst q. rewrite Z.add_0_r, Z.mod_small by lia. apply Z.eqb_refl.
  - apply Z.eqb_neq. intros Hz. rewrite <- (Z.mod_small (c_start c) (c_size c)) in Hz at 1 by lia.
    rewrite <- (Z.add_0_r (c_start c)) in Hz at 1. apply ring_positions in Hz; [|lia|lia|lia]. by destruct q.
Qed.

(** A byte is added. *)
Lemma ring_put c l q b n : ring c l q -> Z.of_nat (length q) + 1 < c_size c ->
  n = (c_start c + (Z.of_nat (length q) + 1)) mod c_size c ->
  ring (with_c_end n c) (<[Z.to_nat (c_end c) := b]> l) (q ++ [b]).
Proof.
  intros Hr Hq ->. pose proof (ring_end_range _ _ _ Hr) as He. destruct Hr as [Hs Hl Hst Hend Hroom Hb].
  split; cbn [c_size c_start c_end with_c_end]; rewrite ?length_app, ?length_insert; cbn [length]; try done; try lia.
  intros i x Hi. destruct (decide (i = length q)) as [->|Hne].
    + rewrite lookup_app_r, Nat.sub_diag in Hi by lia. injection Hi as <-. rewrite <- Hend.
      apply list_lookup_insert_eq. lia.
    + assert (i < length q)%nat as Hlt by (apply lookup_lt_Some in Hi; rewrite length_app in Hi; cbn in Hi; lia).
      rewrite lookup_app_l in Hi by done. rewrite list_lookup_insert_ne; [by apply Hb|].
      intros Heq. rewrite Hend in Heq. pose proof (Z.mod_pos_bound (c_start c + Z.of_nat i) (c_size c) ltac:(lia)).
      pose proof (Z.mod_pos_bound (c_start c + Z.of_nat (length q)) (c_size c) ltac:(lia)).
      apply Z2Nat.inj, ring_positions in Heq; lia.
Qed.

(** A byte is taken. *)
Lemma ring_get c l b q n : ring c l (b :: q) -> n = (c_start c + 1) mod c_size c ->
  ring (with_c_start n c) l q.
Proof.
  intros [Hs Hl Hst Hend Hroom Hb] ->. cbn [length] in *.
  assert (forall x, ((c_start c + 1) mod c_size c + x) mod c_size c = (c_start c + (x + 1)) mod c_size c) as Hm
    by (intros x; rewrite Zplus_mod_idemp_l; f_equal; lia).
  split; cbn [c_size c_start c_end with_c_start]; try done; try lia.
  - apply Z.mod_pos_bound. lia.
  - rewrite Hend, Hm. f_equal. lia.
  - intros i x Hi. rewrite Hm. replace (Z.of_nat i + 1) with (Z.of_nat (S i)) by lia. by apply Hb.
Qed.

(** A full ring is moved to one twice as large. *)
Definition unrolled (c : DalChannel) (l : list Z) : list Z :=
  drop (Z.to_nat (c_start c)) l ++ take (Z.to_nat (c_start c)) l.

Lemma ring_grow c l q p : ring c l q -> Z.of_nat (length q) + 1 = c_size c -> c_size c * 2 <= 32768 ->
  ring (with_c_size (c_size c * 2) (with_c_end (c_size c - 1) (with_c_start 0 (with_c_buffer p c))))
    (unrolled c l ++ replicate (Z.to_nat (c_size c)) 0) q.
Proof.
  intros [Hs Hl Hst Hend Hroom Hb] Hq Hmax.
  assert (Z.of_nat (length (unrolled c l)) = c_size c) as Hu by (unfold unrolled; rewrite length_app, length_drop, length_take; lia).
  split; cbn [c_size c_start c_end with_c_size with_c_end with_c_start]; try lia.
  - rewrite length_app, length_replicate. lia.
  - rewrite Z.mod_small; lia.
  - intros i x Hi. pose proof (lookup_lt_Some _ _ _ Hi) as Hlt. rewrite Z.add_0_l, Z.mod_small, Nat2Z.id by lia.
    rewrite lookup_app_l by lia. specialize (Hb i x Hi). unfold unrolled.
    destruct (decide (c_start c + Z.of_nat i < c_size c)) as [Hc|Hc].
    + rewrite Z.mod_small in Hb by lia. rewrite lookup_app_l, lookup_drop by (rewrite length_drop; lia).
      rewrite <- Hb. f_equal. lia.
    + rewrite lookup_app_r, length_drop by (rewrite length_drop; lia).
      replace (c_start c + Z.of_nat i) with (c_start c + Z.of_nat i - c_size c + 1 * c_size c) in Hb by lia.
      rewrite Z_mod_plus_full, Z.mod_small in Hb by lia. rewrite lookup_take_lt by lia. rewrite <- Hb. f_equal. lia.
Qed.

(** ** Local channels *)

Section Local.
Context {D : Type} `{Libc D} (free_foreign : Z -> M (dal D) unit) (thread_yield : M (dal D) unit).
Implicit Types s : dal D.

(** The local channel [p] holds the bytes [q] in a ring of [F] bytes. *)
Definition fifo (F p : Z) (q : list Z) s : Prop :=
  exists c l, channels s !! p = Some c /\ is_local c <> 0 /\ c_size c = F /\
    buffers s !! c_buffer c = Some l /\ ring c l q.

Lemma wp_onlib {A} (m : M D A) Q s a d : m (lib s) = Ret a d -> Q a (mkDal d (d_kern s) (channels s) (buffers s)) -> wp (onlib m) Q s.
Proof. intros Hm HQ. unfold wp, onlib, lift. by rewrite Hm. Qed.
Lemma wp_dal_kern {A} (m : K A) Q s a k : m (d_kern s) = Ret a k -> Q a (mkDal (lib s) k (channels s) (buffers s)) -> wp (onkern m) Q s.
Proof. intros Hm HQ. unfold wp, onkern, lift. by rewrite Hm. Qed.
Lemma wp_rd_dal p c Q s : channels s !! p = Some c -> Q c s -> wp (rd_channel p) Q s.
Proof. intros Hp HQ. unfold wp, rd_channel, bind, gets. by rewrite Hp. Qed.
Lemma wp_wr_dal p f c Q s :
  channels s !! p = Some c -> Q tt (mkDal (lib s) (d_kern s) (<[p := f c]> (channels s)) (buffers s)) -> wp (wr_channel p f) Q s.
Proof. intros Hp HQ. apply wp_bind. by eapply wp_rd_dal. Qed.
Lemma wp_rd_ring p l Q s : buffers s !! p = Some l -> Q l s -> wp (rd_buffer p) Q s.
Proof. intros Hp HQ. unfold wp, rd_buffer, bind, gets. by rewrite Hp. Qed.

Lemma wp_copy_buffer dst offset src start n l l' Q s :
  buffers s !! src = Some l -> buffers s !! dst = Some l' -> 0 <= start -> 0 <= n -> start + n <= Z.of_nat (length l) ->
  0 <= offset -> offset + n <= Z.of_nat (length l') ->
  Q tt (mkDal (lib s) (d_kern s) (channels s)
    (<[dst := take (Z.to_nat offset) l' ++ take (Z.to_nat n) (drop (Z.to_nat start) l) ++ drop (Z.to_nat offset + Z.to_nat n) l']> (buffers s))) ->
  wp (copy_buffer dst offset src start n) Q s.
Proof.
  intros Hsrc Hdst Hs Hn Hl Ho Hl' HQ. assert (length (take (Z.to_nat n) (drop (Z.to_nat start) l)) = Z.to_nat n) as Hlen
    by (rewrite length_take, length_drop; lia).
  apply wp_bind. eapply wp_rd_ring; [exact Hsrc|]. apply wp_bind, wp_slice; [lia..|].
  apply wp_bind. eapply wp_rd_ring; [exact Hdst|]. apply wp_bind, wp_patch; [lia|rewrite Hlen; lia|].
  rewrite Hlen. apply wp_modify, HQ.
Qed.

Lemma wp_next_of x size Q s : 0 < size -> Q (i32 (u32 (x + 1) mod size)) s -> wp (next_of x size) Q s.
Proof. intros Hs HQ. unfold next_of. by rewrite (proj2 (Z.eqb_neq size 0)) by lia. Qed.

(** What follows the free of the old ring. *)
Definition install_ring (p newbuf newsize : Z) : M (dal D) Z :=
  wr_channel p (with_c_buffer newbuf) ;;
  wr_channel p (with_c_start 0) ;;
  wr_channel p (fun c => with_c_end (u32 (c_size c - 1)) c) ;;
  wr_channel p (with_c_size newsize) ;;
  let* c := rd_channel p in
  next_of (c_end c) (c_size c).

(** The replacement of a full ring, up to the call of free: the new ring has the bytes, from
    its first position on; the channel still uses the old one. *)
Lemma grow_copies p c l q a k1 s :
  channels s !! p = Some c -> buffers s !! c_buffer c = Some l -> ring c l q ->
  Z.of_nat (length q) + 1 = c_size c -> c_size c * 2 <= 32768 ->
  kernel_malloc (c_size c * 2) false (d_kern s) = Ret a k1 -> a <> 0 -> a ∉ dom (buffers s) ->
  let c' := with_c_size (c_size c * 2) (with_c_end (c_size c - 1) (with_c_start 0 (with_c_buffer a c))) in
  let l' := unrolled c l ++ replicate (Z.to_nat (c_size c)) 0 in
  grow free_foreign p s =
    (free_foreign (c_buffer c) ;; install_ring p a (c_size c * 2))
      (mkDal (lib s) k1 (channels s) (<[a := l']> (buffers s))) /\
  ring c' l' q.
Proof.
  intros Hp Hb Hr Hq Hmax Hk Ha Hnew c' l'. split; [|by apply ring_grow]. pose proof Hr as [Hs Hl Hst _ _ _].
  assert (c_buffer c <> a) as Hne by (intros <-; apply Hnew, elem_of_dom; eauto).
  unfold grow.
  etransitivity; [eapply bind_Ret, wp_run, wp_rd_dal; [exact Hp|done]|]. rewrite u32_id by lia.
  etransitivity; [eapply bind_Ret, wp_run|].
  { unfold alloc_buffer. apply wp_bind. eapply wp_dal_kern; [exact Hk|].
    rewrite (proj2 (Z.eqb_neq a 0)) by done. apply wp_bind, wp_modify, wp_ret. done. }
  cbn beta. rewrite (proj2 (Z.eqb_neq a 0)) by done. cbn [lib d_kern channels buffers].
  etransitivity; [eapply bind_Ret, (wp_run _ _ tt (mkDal (lib s) k1 (channels s) (<[a := l']> (buffers s))))|reflexivity].
  eapply wp_mono with (Q := fun _ s' => s' = mkDal (lib s) k1 (channels s)
    (<[a := unrolled c l ++ replicate (Z.to_nat (c_size c)) 0]> (buffers s))); [|by intros [] ? ->].
  set (s1 := mkDal (lib s) k1 (channels s) (<[a := replicate (Z.to_nat (c_size c * 2)) 0]> (buffers s))). assert (buffers s1 !! a = Some (replicate (Z.to_nat (c_size c * 2)) 0)) as Hsa by apply lookup_insert_eq.
    assert (forall l', <[a := l']> (buffers s) !! c_buffer c = Some l) as Hsb by (intros; rewrite lookup_insert_ne by done; exact Hb).
    assert (Z.to_nat (c_size c * 2) = (Z.to_nat (c_size c) + Z.to_nat (c_size c))%nat) as Hdbl by lia.
    destruct (Z.eqb_spec (c_start c) 0) as [H0|H0].
    + eapply wp_copy_buffer; [apply Hsb|exact Hsa|lia|lia|lia|lia|rewrite length_replicate; lia|].
      unfold s1. cbn [lib d_kern channels buffers]. rewrite insert_insert_eq. do 2 f_equal.
      unfold unrolled. rewrite H0. cbn [Z.to_nat]. rewrite !take_0, !drop_0, app_nil_r, (take_ge l) by lia. cbn [app].
      f_equal. rewrite drop_replicate. f_equal. lia.
    + rewrite u32_id by lia. apply wp_bind.
      eapply wp_copy_buffer; [apply Hsb|exact Hsa|lia|lia|lia|lia|rewrite length_replicate; lia|].
      unfold s1. cbn [lib d_kern channels buffers]. rewrite insert_insert_eq.
      eapply wp_copy_buffer; [apply Hsb|apply lookup_insert_eq|lia|lia|lia|lia|..].
      { rewrite !length_app, length_take, length_take, !length_drop, length_replicate. lia. }
      cbn [lib d_kern channels buffers]. rewrite insert_insert_eq. do 2 f_equal.
      cbn [Z.to_nat]. rewrite take_0, drop_0. cbn [app Nat.add]. unfold unrolled.
      assert (take (Z.to_nat (c_size c - c_start c)) (drop (Z.to_nat (c_start c)) l) = drop (Z.to_nat (c_start c)) l) as ->
        by (apply take_ge; rewrite length_drop; lia).
      rewrite take_app_length' by (rewrite length_drop; lia). rewrite <- app_assoc. f_equal. f_equal.
      rewrite drop_app_ge by (rewrite length_drop; lia). rewrite length_drop, !drop_replicate. f_equal. lia.
Qed.

(** The end of a turn of dal_write, once there is room. *)
Lemma store_byte p c l q b n s : ring c l q -> Z.of_nat (length q) + 1 < c_size c -> isbyte b ->
  channels s !! p = Some c -> buffers s !! c_buffer c = Some l ->
  n = (c_start c + (Z.of_nat (length q) + 1)) mod c_size c ->
  wp (let* c := rd_channel p in let* l := rd_buffer (c_buffer c) in let* l := patch (c_end c) [u8 b] l in
      put_buffer (c_buffer c) l ;; wr_channel p (with_c_end (u32 n)))
    (fun _ s' => s' = mkDal (lib s) (d_kern s) (<[p := with_c_end n c]> (channels s))
       (<[c_buffer c := <[Z.to_nat (c_end c) := b]> l]> (buffers s))) s.
Proof.
  intros Hr Hq Hby Hp Hb Hn. pose proof (ring_end_range _ _ _ Hr) as He. pose proof (ring_next _ _ _ Hr) as [_ Hn'].
  pose proof (ri_length _ _ _ Hr) as Hl. rewrite <- Hn in Hn'.
  apply wp_bind. eapply wp_rd_dal; [exact Hp|]. apply wp_bind. eapply wp_rd_ring; [exact Hb|].
  apply wp_bind, wp_patch; [lia|cbn [length]; lia|]. cbn [length]. rewrite Nat.add_1_r.
  assert (u8 b = b) as -> by (apply wrap_u_id; exact Hby). cbn [app]. rewrite <- insert_take_drop by lia.
  apply wp_bind, wp_modify. eapply wp_wr_dal; [exact Hp|]. by rewrite u32_id by lia.
Qed.

(** A byte goes to the end of the queue. *)
Lemma put_byte_ok F p q b fuel s :
  fifo F p q s -> Z.of_nat (length q) + 1 < F -> isbyte b ->
  wp (put_byte free_foreign thread_yield fuel p b) (fun _ s' => fifo F p (q ++ [b]) s') s.
Proof.
  intros (c & l & Hp & Hloc & HF & Hb & Hr) HqF Hby.
  pose proof (ring_next _ _ _ Hr) as [Hn Hn']. pose proof (ri_size _ _ _ Hr) as Hs.
  unfold put_byte. apply wp_bind. eapply wp_rd_dal; [exact Hp|]. apply wp_bind, wp_next_of; [lia|].
  rewrite Hn. rewrite u32_id by lia. rewrite (ring_full _ _ _ Hr). apply wp_bind.
  rewrite (proj2 (Z.eqb_neq _ (c_size c))) by lia.
  apply wp_ret. eapply wp_mono; [eapply (store_byte p c l q b _ s Hr); [lia|done|done|done|reflexivity]|].
  intros _ s2 ->. exists (with_c_end ((c_start c + (Z.of_nat (length q) + 1)) mod c_size c) c), (<[Z.to_nat (c_end c) := b]> l).
  cbn [channels buffers d_kern]. split_and!; [apply lookup_insert_eq|done|done|apply lookup_insert_eq|].
  apply ring_put; [done|lia|done].
Qed.

Lemma put_bytes_ok F p fuel data : forall q s,
  fifo F p q s -> Z.of_nat (length q + length data) < F -> Forall isbyte data ->
  wp (put_bytes free_foreign thread_yield fuel p data) (fun _ s' => fifo F p (q ++ data) s') s.
Proof.
  induction data as [|b data IH]; intros q s Hf Hl Hd; cbn [put_bytes length] in *.
  { apply wp_ret. by rewrite app_nil_r. }
  apply Forall_cons in Hd as [Hb Hd]. apply wp_bind. eapply wp_mono; [apply put_byte_ok; [exact Hf|lia|done]|].
  intros [] s1 H1. replace (q ++ b :: data) with ((q ++ [b]) ++ data) by by rewrite <- app_assoc.
  apply IH; [done|rewrite length_app; cbn; lia|done].
Qed.

Lemma get_bytes_ok F p data : forall fuel q got s,
  fifo F p (data ++ q) s -> (length data <= fuel)%nat ->
  wp (get_bytes thread_yield fuel p (length data) got) (fun l s' => l = got ++ data /\ fifo F p q s') s.
Proof.
  induction data as [|b data IH]; intros fuel q got s Hf Hfuel; (destruct fuel as [|fuel]; [try (cbn in Hfuel; lia)|]);
    cbn [get_bytes length app] in *; try (apply wp_ret; by rewrite app_nil_r).
  destruct Hf as (c & l & Hp & Hloc & HF & Hb & Hr).
  pose proof (ri_size _ _ _ Hr) as Hs. pose proof (ri_start _ _ _ Hr) as Hst.
  apply wp_bind. eapply wp_rd_dal; [exact Hp|]. rewrite (ring_empty _ _ _ Hr), bool_decide_eq_false_2 by done. cbn [negb].
  apply wp_bind, wp_next_of; [lia|]. apply wp_bind. eapply wp_rd_ring; [exact Hb|].
  pose proof (ri_bytes _ _ _ Hr 0%nat b eq_refl) as Hbyte. rewrite Z.add_0_r, Z.mod_small in Hbyte by lia.
  pose proof (ri_length _ _ _ Hr) as Hlen. apply wp_bind, wp_slice; [lia|lia|lia|].
  rewrite (drop_S _ _ _ Hbyte). cbn [take]. change (Z.to_nat 1) with 1%nat. cbn [take]. rewrite take_0.
  apply wp_bind. eapply wp_wr_dal; [exact Hp|].
  pose proof (Z.mod_pos_bound (c_start c + 1) (c_size c) ltac:(lia)) as Hm.
  assert (u32 (i32 (u32 (c_start c + 1) mod c_size c)) = (c_start c + 1) mod c_size c) as ->
    by (rewrite (u32_id (c_start c + 1)), i32_id, u32_id by (rewrite ?u32_id by lia; lia); done).
  eapply wp_mono; [apply (IH fuel q (got ++ [b])); [|lia]|].
  - eexists _, l. cbn [channels buffers d_kern]. split_and!; [apply lookup_insert_eq|done|done|done|].
    by eapply ring_get.
  - intros l' s' [-> Hf']. split; [by rewrite <- app_assoc|done].
Qed.

(** ** Programs of writes and reads *)

Inductive channel_op : Type := Write (data : list Z) | Read (n : Z).

Fixpoint run_ops (fuel : nat) (p : Z) (ops : list channel_op) : M (dal D) (list (dal_status_t * list Z)) :=
  match ops with
  | [] => ret []
  | Write data :: ops =>
      let* st := dal_write free_foreign thread_yield fuel p data in
      let* l := run_ops fuel p ops in ret ((st, []) :: l)
  | Read n :: ops =>
      let* r := dal_read thread_yield fuel p n in
      let* l := run_ops fuel p ops in ret (r :: l)
  end.

(** The same program on a queue of less than [F] bytes, when no read has to wait. *)
Fixpoint queue_ops (F : Z) (ops : list channel_op) (q : list Z) : option (list (dal_status_t * list Z) * list Z) :=
  match ops with
  | [] => Some ([], q)
  | Write data :: ops =>
      if Z.of_nat (length (q ++ data)) <? F then
        match queue_ops F ops (q ++ data) with Some (l, q') => Some ((DAL_OK, []) :: l, q') | None => None end
      else None
  | Read n :: ops =>
      if (0 <? n) && (n <=? Z.of_nat (length q)) then
        match queue_ops F ops (drop (Z.to_nat n) q) with
        | Some (l, q') => Some ((DAL_OK, take (Z.to_nat n) q) :: l, q')
        | None => None
        end
      else None
  end.

Definition op_bytes (o : channel_op) : Prop := match o with Write data => Forall isbyte data | Read _ => True end.

Lemma dal_write_ok F p q fuel data s :
  fifo F p q s -> Z.of_nat (length (q ++ data)) < F -> Forall isbyte data ->
  wp (dal_write free_foreign thread_yield fuel p data) (fun st s' => st = DAL_OK /\ fifo F p (q ++ data) s') s.
Proof.
  intros Hf Hl Hd. rewrite length_app in Hl. pose proof Hf as (c & l & Hp & Hloc & _).
  apply wp_bind. eapply wp_rd_dal; [exact Hp|]. rewrite (proj2 (Z.eqb_neq _ 0)) by done.
  apply wp_bind. eapply wp_mono; [by apply put_bytes_ok|]. intros [] s' Hf'. by apply wp_ret.
Qed.

Lemma dal_read_ok F p q fuel n s :
  fifo F p q s -> 0 < n <= Z.of_nat (length q) -> n <= Z.of_nat fuel ->
  wp (dal_read thread_yield fuel p n)
    (fun r s' => r = (DAL_OK, take (Z.to_nat n) q) /\ fifo F p (drop (Z.to_nat n) q) s') s.
Proof.
  intros Hf Hn Hfuel. pose proof Hf as (c & l & Hp & Hloc & _ & _ & Hr).
  apply wp_bind. eapply wp_rd_dal; [exact Hp|]. rewrite (proj2 (Z.eqb_neq _ 0)) by done.
  rewrite (ring_empty _ _ _ Hr), bool_decide_eq_false_2, andb_false_r by (intros ->; cbn in Hn; lia).
  assert (length (take (Z.to_nat n) q) = Z.to_nat n) as Hlen by (rewrite length_take; lia).
  rewrite <- (take_drop (Z.to_nat n) q) in Hf. rewrite <- Hlen at 1.
  apply wp_bind. eapply wp_mono; [apply get_bytes_ok; [exact Hf|lia]|]. intros d s' [-> Hf']. by apply wp_ret.
Qed.

(** A channel that does not block reports that it is empty. *)
Lemma dal_read_empty F p fuel n s c :
  fifo F p [] s -> channels s !! p = Some c -> non_blocking c <> 0 -> dal_read thread_yield fuel p n s = Ret (DAL_ERROR, []) s.
Proof.
  intros (c' & l & Hp & Hloc & _ & _ & Hr) Hc Hnb. rewrite Hp in Hc. injection Hc as ->.
  apply wp_run, wp_bind. eapply wp_rd_dal; [exact Hp|].
  by rewrite !(proj2 (Z.eqb_neq _ 0)), (ring_empty _ _ _ Hr) by done.
Qed.

(** C23: A local channel is a queue of bytes: every program of writes and reads that always
    leaves less bytes in the channel than its ring has, and of which no read has to wait, returns
    what it returns on a list, wherever the bytes are in the ring and however often they wrap
    around.  The replacement of a full ring is not covered: it gives an area of kernel_malloc to
    the free of the C library. *)
Theorem dal_channel_fifo F p fuel ops : forall q s outs q',
  fifo F p q s -> Forall op_bytes ops -> queue_ops F ops q = Some (outs, q') -> F <= Z.of_nat fuel ->
  exists s', run_ops fuel p ops s = Ret outs s' /\ fifo F p q' s'.
Proof.
  induction ops as [|o ops IH]; intros q s outs q' Hf Hb Hq Hfuel; cbn [queue_ops run_ops] in *.
  { injection Hq as <- <-. eauto. }
  apply Forall_cons in Hb as [Ho Hb]. apply wp_returns. destruct o as [data|n].
  - destruct (Z.ltb_spec (Z.of_nat (length (q ++ data))) F) as [Hl|]; [|done].
    destruct (queue_ops F ops (q ++ data)) as [[l q1]|] eqn:Hops; [|done]. injection Hq as <- <-.
    apply wp_bind. eapply wp_mono; [by apply dal_write_ok|]. intros st s1 [-> Hf1].
    destruct (IH _ _ _ _ Hf1 Hb Hops Hfuel) as (s2 & Hrun & Hf2). apply wp_bind. eapply wp_eq; [exact Hrun|]. by apply wp_ret.
  - destruct (Z.ltb_spec 0 n) as [Hn0|]; [|done]. destruct (Z.leb_spec n (Z.of_nat (length q))) as [Hn|]; [|done].
    cbn [andb] in Hq. destruct (queue_ops F ops _) as [[l q1]|] eqn:Hops; [|done]. injection Hq as <- <-.
    pose proof Hf as (c & l' & _ & _ & HF & _ & Hr).
    pose proof (ri_room _ _ _ Hr).
    apply wp_bind. eapply wp_mono; [apply dal_read_ok; [exact Hf|lia|nia]|]. intros st s1 [-> Hf1].
    destruct (IH _ _ _ _ Hf1 Hb Hops Hfuel) as (s2 & Hrun & Hf2). apply wp_bind. eapply wp_eq; [exact Hrun|]. by apply wp_ret.
Qed.
End Local.

(** ** A writer and a reader at the same time

    Each access to a shared variable is a step, but for the replacement of a full ring, which
    is one step.  [start] is written by the reader only, [end] by the writer only,
    except in this step. *)

Module Interleaved.

Inductive wpc : Type :=
| WLoop (data : list Z)                     (* for (i = 0; i < n; i++): the bytes to come *)
| WTest (b : Z) (data : list Z) (next : Z) (* next == channel -> start *)
| WStore (b : Z) (data : list Z) (next : Z) (* channel -> buffer[channel -> end] = ... *)
| WPublish (data : list Z) (next : Z).     (* channel -> end = next *)

Inductive rpc : Type :=
| RLoop                                    (* while (index < n): start is read *)
| RTest (start : Z)                        (* channel -> start != channel -> end *)
| RLoad (next : Z)                         (* data[index++] = channel -> buffer[channel -> start] *)
| RAdvance (next : Z).                     (* channel -> start = next *)

Record shared := mkShared {
  w : wpc;
  r : rpc;
  ch : DalChannel;
  buf : list Z;
  got : list Z                             (* what the reader has stored *)
}.

Definition next (x size : Z) : Z := i32 (u32 (x + 1) mod size).

(** The ring that replaces a full one. *)
Definition grown (c : DalChannel) : DalChannel := with_c_size (u32 (c_size c * 2)) (with_c_end (u32 (c_size c - 1)) (with_c_start 0 c)).

Definition wstep (s : shared) : shared :=
  let go w ch buf := mkShared w (r s) ch buf (got s) in
  match w s with
  | WLoop [] => s
  | WLoop (b :: data) => go (WTest b data (next (c_end (ch s)) (c_size (ch s)))) (ch s) (buf s)
  | WTest b data n =>
      if u32 n =? c_start (ch s) then
        if c_size (ch s) <? 32768 then
          let c := grown (ch s) in
          go (WStore b data (next (c_end c) (c_size c))) c (unrolled (ch s) (buf s) ++ replicate (Z.to_nat (c_size (ch s))) 0)
        else s
      else go (WStore b data n) (ch s) (buf s)
  | WStore b data n => go (WPublish data n) (ch s) (<[Z.to_nat (c_end (ch s)) := b]> (buf s))
  | WPublish data n => go (WLoop data) (with_c_end (u32 n) (ch s)) (buf s)
  end.

Definition rstep (s : shared) : shared :=
  let go r ch got := mkShared (w s) r ch (buf s) got in
  match r s with
  | RLoop => go (RTest (c_start (ch s))) (ch s) (got s)
  | RTest st => if st =? c_end (ch s) then go RLoop (ch s) (got s)
                else go (RLoad (next (c_start (ch s)) (c_size (ch s)))) (ch s) (got s)
  | RLoad n => go (RAdvance n) (ch s) (got s ++ [nth (Z.to_nat (c_start (ch s))) (buf s) 0])
  | RAdvance n => go RLoop (with_c_start (u32 n) (ch s)) (got s)
  end.

Inductive step : shared -> shared -> Prop :=
| step_writer s : step s (wstep s)
| step_reader s : step s (rstep s).

(** What the writer has not stored yet. *)
Definition pending (x : wpc) : list Z :=
  match x with
  | WLoop data => data
  | WTest b data _ | WStore b data _ => b :: data
  | WPublish data _ => data
  end.

Lemma ring_store c l q b : ring c l q -> ring c (<[Z.to_nat (c_end c) := b]> l) q.
Proof.
  intros Hr. pose proof (ring_end_range _ _ _ Hr) as He. destruct Hr as [Hs Hl Hst Hend Hroom Hb].
  split; try done; [by rewrite length_insert|]. intros i x Hi. pose proof (lookup_lt_Some _ _ _ Hi) as Hlt.
  rewrite list_lookup_insert_ne; [by apply Hb|]. intros Heq. rewrite Hend in Heq.
  pose proof (Z.mod_pos_bound (c_start c + Z.of_nat i) (c_size c) ltac:(lia)).
  pose proof (Z.mod_pos_bound (c_start c + Z.of_nat (length q)) (c_size c) ltac:(lia)).
  apply Z2Nat.inj, ring_positions in Heq; lia.
Qed.

(** [next] from the end and from the start. *)
Lemma next_end c l q : ring c l q ->
  next (c_end c) (c_size c) = (c_start c + (Z.of_nat (length q) + 1)) mod c_size c /\
  0 <= next (c_end c) (c_size c) < 32768.
Proof. intros Hr. unfold next. destruct (ring_next _ _ _ Hr) as [-> ?]. done. Qed.
Lemma next_start c l q : ring c l q ->
  next (c_start c) (c_size c) = (c_start c + 1) mod c_size c /\ 0 <= next (c_start c) (c_size c) < 32768.
Proof.
  intros Hr. pose proof (ri_size _ _ _ Hr). pose proof (ri_start _ _ _ Hr).
  pose proof (Z.mod_pos_bound (c_start c + 1) (c_size c) ltac:(lia)).
  unfold next. rewrite u32_id, i32_id by (rewrite ?u32_id; lia). split; [done|lia].
Qed.

(** The queue [q] is in the ring; the writer has room for the byte it stores; the reader
    has a byte to take, and [taken] is what it took before. *)
Record inv (stream : list Z) (s : shared) (q taken : list Z) : Prop := {
  iv_size : c_size (ch s) = 32768;
  iv_ring : ring (ch s) (buf s) q;
  iv_stream : stream = taken ++ q ++
    match w s with WPublish _ _ => [nth (Z.to_nat (c_end (ch s))) (buf s) 0] | _ => [] end ++ pending (w s);
  iv_writer : match w s with
    | WLoop _ => True
    | WTest _ _ n => n = next (c_end (ch s)) (c_size (ch s))
    | WStore _ _ n | WPublish _ n => n = next (c_end (ch s)) (c_size (ch s)) /\ Z.of_nat (length q) + 1 < c_size (ch s)
    end;
  iv_reader : match r s with
    | RLoop => got s = taken
    | RTest st => st = c_start (ch s) /\ got s = taken
    | RLoad n => n = next (c_start (ch s)) (c_size (ch s)) /\ q <> [] /\ got s = taken
    | RAdvance n => n = next (c_start (ch s)) (c_size (ch s)) /\ exists b q', q = b :: q' /\ got s = taken ++ [b]
    end
}.

Lemma wstep_inv stream s q taken : inv stream s q taken -> exists q', inv stream (wstep s) q' taken.
Proof.
  intros [Hsize Hr Hst Hw Hrd]. destruct s as [pw pr c l g]. cbn [w r ch buf got] in *. unfold wstep. cbn [w r ch buf got].
  pose proof (next_end _ _ _ Hr) as [Hn Hnr].
  destruct pw as [[|b data]|b data n|b data n|data n].
  - exists q. by split.
  - exists q. by split.
  - subst n. rewrite u32_id by lia. rewrite Hn, (ring_full _ _ _ Hr). destruct (Z.eqb_spec (Z.of_nat (length q) + 1) (c_size c)) as [|Hne].
    + exists q. rewrite (proj2 (Z.ltb_ge (c_size c) 32768)) by lia. rewrite <- Hn. by split.
    + exists q. pose proof (ri_room _ _ _ Hr). split; cbn [w r ch buf got]; [done|done|done|split; [done|lia]|done].
  - destruct Hw as [-> Hroom]. exists q. pose proof (ring_end_range _ _ _ Hr). pose proof (ri_length _ _ _ Hr).
    split; cbn [w r ch buf got]; [done|by apply ring_store| |done|done].
    rewrite (nth_lookup_Some _ _ _ b) by (apply list_lookup_insert_eq; lia). exact Hst.
  - destruct Hw as [-> Hroom]. exists (q ++ [nth (Z.to_nat (c_end c)) l 0]). pose proof (ring_end_range _ _ _ Hr).
    pose proof (ri_length _ _ _ Hr) as Hl. rewrite u32_id by lia.
    destruct (lookup_lt_is_Some_2 l (Z.to_nat (c_end c))) as [x Hx]; [lia|]. rewrite (nth_lookup_Some _ _ _ _ Hx) in *.
    split; cbn [w r ch buf got].
    + done.
    + rewrite <- (list_insert_id l (Z.to_nat (c_end c)) x) by done. apply ring_put; [done|lia|exact Hn].
    + rewrite Hst. cbn [pending app]. by rewrite <- !app_assoc.
    + done.
    + destruct pr; cbn [c_start c_size with_c_end]; [done|done| |].
      * destruct Hrd as (-> & Hq & ->). split_and!; [done|by destruct q|done].
      * destruct Hrd as (-> & b' & q' & -> & ->). split; [done|]. by exists b', (q' ++ [x]).
Qed.

Lemma rstep_inv stream s q taken : inv stream s q taken -> exists q' taken', inv stream (rstep s) q' taken'.
Proof.
  intros [Hsize Hr Hst Hw Hrd]. destruct s as [pw pr c l g]. cbn [w r ch buf got] in *. unfold rstep. cbn [w r ch buf got].
  destruct pr as [|st|n|n].
  - exists q, taken. by split.
  - destruct Hrd as [-> ->]. rewrite (ring_empty _ _ _ Hr). exists q, taken. case_bool_decide; by split.
  - destruct Hrd as (-> & Hq & ->). exists q, taken. split; cbn [w r ch buf got]; [done..|]. split; [done|].
    destruct q as [|b q]; [done|]. exists b, q. split; [done|]. f_equal. f_equal.
    pose proof (ri_bytes _ _ _ Hr 0%nat b eq_refl) as Hb. pose proof (ri_start _ _ _ Hr).
    rewrite Z.add_0_r, Z.mod_small in Hb by lia. by apply nth_lookup_Some.
  - destruct Hrd as (-> & b & q' & -> & ->). pose proof (next_start _ _ _ Hr) as [Hn Hnr]. rewrite u32_id by lia.
    exists q', (taken ++ [b]). split; cbn [w r ch buf got].
    + done.
    + by eapply ring_get.
    + rewrite Hst, <- app_assoc. by cbn [c_end with_c_start].
    + destruct pw; cbn [c_end c_size with_c_start] in *; [done|done| |]; (destruct Hw as [-> Hroom]; split; [done|cbn [length] in Hroom; lia]).
    + done.
Qed.

(** The start: the writer has [data] to write, the ring holds [q], nothing has been read. *)
Definition initial (c : DalChannel) (l q data : list Z) : shared := mkShared (WLoop data) RLoop c l [].

(** C24: Whatever the order of the accesses of a writer and of a reader to a ring of the final
    size, what the reader has read is at every moment the beginning of what was in the ring
    followed by what is written: no byte is lost, repeated, reordered or read before it
    is written. *)
Theorem dal_ring_interleaved c l q data s :
  ring c l q -> c_size c = 32768 -> rtc step (initial c l q data) s -> exists rest, q ++ data = got s ++ rest.
Proof.
  intros Hr Hsize Hreach.
  assert (exists q' taken, inv (q ++ data) s q' taken) as (q' & taken & [_ _ Hst _ Hrd]).
  { remember (initial c l q data) as s0. assert (exists q' taken, inv (q ++ data) s0 q' taken) as Hinv.
    { subst s0. exists q, []. by split. }
    clear Heqs0. induction Hreach as [|s0 s1 s Hstep _ IH]; [done|]. apply IH. destruct Hinv as (q' & taken & Hinv).
    destruct Hstep; [destruct (wstep_inv _ _ _ _ Hinv) as [q1 ?]; eauto|by eapply rstep_inv]. }
  destruct (r s).
  - subst taken. eauto.
  - destruct Hrd as [_ <-]. eauto.
  - destruct Hrd as (_ & _ & <-). eauto.
  - destruct Hrd as (_ & b & q1 & -> & ->). exists (q1 ++ match w s with WPublish _ _ => [nth (Z.to_nat (c_end (ch s))) (buf s) 0] | _ => [] end ++ pending (w s)).
    rewrite Hst. by rewrite <- !app_assoc.
Qed.

(** The replacement of the ring is not safe while a reader is in dal_read: the reader has
    computed its [next] in the old ring and loses bytes of the new one. *)
Definition small (n start e : Z) : DalChannel := mkChannel [] 0 0 0 1 0 n 0 e start.
Definition race : list (shared -> shared) := [rstep; rstep; wstep; wstep; rstep; rstep; rstep; rstep; rstep].
Definition raced : shared := fold_left (fun s f => f s) race (initial (small 4 1 0) [0; 1; 2; 3] [1; 2; 3] [4]).

Lemma rtc_steps fs : Forall (fun f => f = rstep \/ f = wstep) fs -> forall s, rtc step s (fold_left (fun s f => f s) fs s).
Proof.
  induction 1 as [|f fs Hf _ IH]; intros s; [apply rtc_refl|]. cbn [fold_left].
  eapply rtc_l; [|apply IH]. destruct Hf as [->| ->]; constructor.
Qed.

Theorem dal_grow_race :
  ring (small 4 1 0) [0; 1; 2; 3] [1; 2; 3] /\ rtc step (initial (small 4 1 0) [0; 1; 2; 3] [1; 2; 3] [4]) raced /\
  got raced = [1; 3].
Proof.
  split_and!; [|apply rtc_steps; unfold race; repeat (apply Forall_cons; split; [by auto|]); apply Forall_nil_2|vm_compute; reflexivity].
  split; cbn; try lia; try done. intros i b Hi. destruct i as [|[|[|i]]]; try done; by injection Hi as <-.
Qed.
End Interleaved.

(** ** Instances *)

(** A C library that does nothing, and a channel at 0x100 with a ring of 64 bytes at 0x200. *)
#[local] Instance unit_libc : Libc unit := {|
  malloc := fun _ => ret 0; free := fun _ => ret tt; open := fun _ => ret (-1); close := fun _ => ret 0;
  read := fun _ _ => ret (0, []); write := fun _ _ => ret 0; lseek := fun _ _ => ret 0
|}.

Definition local_channel : DalChannel := mkChannel [99] 1 1 0 1 0 64 0x200 0 0.
Definition local_state : dal unit :=
  mkDal tt boot_kern {[0x100 := local_channel]} {[0x200 := replicate 64 0]}.

Lemma empty_ring c n : c_size c = Z.of_nat n -> c_start c = 0 -> c_end c = 0 -> 0 < c_size c <= 32768 -> ring c (replicate n 0) [].
Proof.
  intros Hn H0 H1 Hs. split; rewrite ?length_replicate; cbn [length]; try lia; try done.
  rewrite H0, H1. by rewrite Z.mod_small by lia.
Qed.

Lemma local_fifo : fifo 64 0x100 [] local_state.
Proof. exists local_channel, (replicate 64 0). split_and!; [done..|]. apply empty_ring; cbn; lia. Qed.

(** 60 bytes, of which 50 are read, then 40 more, which wrap around. *)
Definition some_ops : list channel_op := [Write (seqZ 0 60); Read 50; Write (seqZ 60 40); Read 50].

Lemma seqZ_bytes m n : 0 <= m -> m + n <= 256 -> Forall isbyte (seqZ m n).
Proof. intros H0 H1. apply Forall_forall. intros x Hx%elem_of_seqZ. unfold isbyte. lia. Qed.

(** Whatever the free of the C library does: here it never returns. *)
Lemma dal_channel_fifo_witness :
  exists s', run_ops (fun _ => diverge) (ret tt) 64 0x100 some_ops local_state =
    Ret [(DAL_OK, []); (DAL_OK, seqZ 0 50); (DAL_OK, []); (DAL_OK, seqZ 50 50)] s' /\ fifo 64 0x100 [] s'.
Proof.
  apply (dal_channel_fifo (fun _ => diverge) (ret tt) 64 0x100 64 some_ops [] local_state).
  - exact local_fifo.
  - repeat (apply Forall_cons; split; [first [exact I|apply seqZ_bytes; lia]|]). apply Forall_nil_2.
  - vm_compute. reflexivity.
  - lia.
Defined.

(** The writer stores 7, the reader takes it while the writer goes on. *)
Definition some_steps : list (Interleaved.shared -> Interleaved.shared) :=
  let rstep := Interleaved.rstep in let wstep := Interleaved.wstep in
  [wstep; wstep; rstep; wstep; wstep; wstep; rstep; wstep; rstep; rstep; rstep; rstep; rstep; rstep; rstep].
Definition big_ring : list Z := replicate (Z.to_nat 32768) 0.
Definition big_start : Interleaved.shared := Interleaved.initial (Interleaved.small 32768 0 0) big_ring [] [7; 8].
Definition big_end : Interleaved.shared := fold_left (fun s f => f s) some_steps big_start.

Lemma dal_ring_interleaved_witness : exists rest, [] ++ [7; 8] = Interleaved.got big_end ++ rest.
Proof.
  refine (Interleaved.dal_ring_interleaved (Interleaved.small 32768 0 0) big_ring [] [7; 8] big_end _ eq_refl _).
  - unfold big_ring. apply empty_ring; [cbn [Interleaved.small c_size]; by rewrite Z2Nat.id by lia|done|done|cbn; lia].
  - unfold big_end. apply Interleaved.rtc_steps. unfold some_steps. repeat (apply Forall_cons; split; [by auto|]). apply Forall_nil_2.
Defined.
