(* ===== verification/Posix.v ===== *)
(** * Semaphores and threads of POSIX (PosixSemaphoresLibrary, PosixThreadsLibrary)

    The objects of the caller (sem_t, pthread_mutex_t, ...) and those that pthread_create
    allocates are maps from addresses; NULL is 0.  The members that no function reads
    (the alignment of the locks, [flags], the lists of threads) are left out, and so are the
    messages printed by ASSERT_RETURN.  Neither the values of errno.h nor the width of
    time_t are in the repository: [errno_t] names the former, [time_width] is the latter.

    A function returns the POSIX error ([None] for 0), or, for the semaphores, 0 or -1 with
    [errno].  A function that can switch is cut there, as in Semaphore.v: [Switched] holds what
    its [..._resume] needs. *)

From S2P Require Import Prelude Status CLib Queue Allocator Kernel Logic Memory Scheduler Alarm Thread Semaphore Scenario Libc.

Inductive errno_t : Type :=
| EAGAIN | ENOMEM | EFAULT | EBUSY | EINVAL | ENOSYS | EOVERFLOW | ETIMEDOUT | ESRCH.

Definition SEM_VALUE_MAX : Z := 128.

Record pthread_mutex_t := mkMutex { m_lock : Z; m_status : Z }.
Record pthread_cond_t := mkCond { c_semaphore : Z; c_count : Z }.
Record pthread_barrier_t := mkBarrier { b_threshold : Z; b_count : Z }.

Record sched_param_t := mkSched { s_priority : Z; s_deadline : Z; s_procs : Z }.

Record pthread_attr_t := mkAttr {
  stackaddr : Z;
  stacksize : Z;
  detachstate : Z;
  schedinherited : Z;
  schedpolicy : Z;
  procid : Z;
  schedparam : sched_param_t;
  a_name : Z
}.

Record pthread := mkPthread {
  attributs : Z;
  tid : Z;
  father : Z;
  children : Z;
  cancel_type : Z;
  cancel_state : Z;
  cancel_bool : bool
}.

Record timespec := mkTime { tv_sec : Z; tv_nsec : Z }.

Definition with_stackaddr v (r : pthread_attr_t) : pthread_attr_t := mkAttr v (stacksize r) (detachstate r) (schedinherited r) (schedpolicy r) (procid r) (schedparam r) (a_name r).
Definition with_stacksize v (r : pthread_attr_t) : pthread_attr_t := mkAttr (stackaddr r) v (detachstate r) (schedinherited r) (schedpolicy r) (procid r) (schedparam r) (a_name r).
Definition with_detachstate v (r : pthread_attr_t) : pthread_attr_t := mkAttr (stackaddr r) (stacksize r) v (schedinherited r) (schedpolicy r) (procid r) (schedparam r) (a_name r).
Definition with_schedinherited v (r : pthread_attr_t) : pthread_attr_t := mkAttr (stackaddr r) (stacksize r) (detachstate r) v (schedpolicy r) (procid r) (schedparam r) (a_name r).
Definition with_schedpolicy v (r : pthread_attr_t) : pthread_attr_t := mkAttr (stackaddr r) (stacksize r) (detachstate r) (schedinherited r) v (procid r) (schedparam r) (a_name r).
Definition with_procid v (r : pthread_attr_t) : pthread_attr_t := mkAttr (stackaddr r) (stacksize r) (detachstate r) (schedinherited r) (schedpolicy r) v (schedparam r) (a_name r).
Definition with_schedparam v (r : pthread_attr_t) : pthread_attr_t := mkAttr (stackaddr r) (stacksize r) (detachstate r) (schedinherited r) (schedpolicy r) (procid r) v (a_name r).
Definition with_a_name v (r : pthread_attr_t) : pthread_attr_t := mkAttr (stackaddr r) (stacksize r) (detachstate r) (schedinherited r) (schedpolicy r) (procid r) (schedparam r) v.
Definition with_p_attributs v (r : pthread) : pthread := mkPthread v (tid r) (father r) (children r) (cancel_type r) (cancel_state r) (cancel_bool r).
Definition with_p_tid v (r : pthread) : pthread := mkPthread (attributs r) v (father r) (children r) (cancel_type r) (cancel_state r) (cancel_bool r).
Definition with_p_father v (r : pthread) : pthread := mkPthread (attributs r) (tid r) v (children r) (cancel_type r) (cancel_state r) (cancel_bool r).
Definition with_p_children v (r : pthread) : pthread := mkPthread (attributs r) (tid r) (father r) v (cancel_type r) (cancel_state r) (cancel_bool r).
Definition with_p_cancel_type v (r : pthread) : pthread := mkPthread (attributs r) (tid r) (father r) (children r) v (cancel_state r) (cancel_bool r).
Definition with_p_cancel_state v (r : pthread) : pthread := mkPthread (attributs r) (tid r) (father r) (children r) (cancel_type r) v (cancel_bool r).
Definition with_p_cancel_bool v (r : pthread) : pthread := mkPthread (attributs r) (tid r) (father r) (children r) (cancel_type r) (cancel_state r) v.

(** The [px_lib] is the state of the C library, [names] the strings that pthread_create
    allocates and those of the caller, the last three members the static counters of
    pthread_mutex_init, pthread_cond_init and pthread_create. *)
Record posix (D : Type) := mkPosix {
  px_kern : kstate;
  px_lib : D;
  errno : option errno_t;
  sem_ids : gmap Z Z;
  mutexes : gmap Z pthread_mutex_t;
  conds : gmap Z pthread_cond_t;
  barriers : gmap Z pthread_barrier_t;
  attrs : gmap Z pthread_attr_t;
  pthreads : gmap Z pthread;
  names : gmap Z (list Z);
  mutex_index : Z;
  cond_index : Z;
  create_index : Z
}.
Arguments mkPosix {D}.
Arguments px_kern {D} _.
Arguments px_lib {D} _.
Arguments errno {D} _.
Arguments sem_ids {D} _.
Arguments mutexes {D} _.
Arguments conds {D} _.
Arguments barriers {D} _.
Arguments attrs {D} _.
Arguments pthreads {D} _.
Arguments names {D} _.
Arguments mutex_index {D} _.
Arguments cond_index {D} _.
Arguments create_index {D} _.

Section Posix.
Context {D : Type} `{Libc D} `{Hal}.
Context (decimal : Z -> list Z).                 (* what sprintf writes for "%ld" *)
Context (time_width : Z).                        (* of time_t *)
Context (junk_attr : pthread_attr_t) (junk_thread : pthread) (junk_tid : Z).  (* memory before its first write *)


Definition set_px_kern v (s : posix D) : posix D := mkPosix v (px_lib s) (errno s) (sem_ids s) (mutexes s) (conds s) (barriers s) (attrs s) (pthreads s) (names s) (mutex_index s) (cond_index s) (create_index s).
Definition set_px_lib v (s : posix D) : posix D := mkPosix (px_kern s) v (errno s) (sem_ids s) (mutexes s) (conds s) (barriers s) (attrs s) (pthreads s) (names s) (mutex_index s) (cond_index s) (create_index s).
Definition set_errno v (s : posix D) : posix D := mkPosix (px_kern s) (px_lib s) v (sem_ids s) (mutexes s) (conds s) (barriers s) (attrs s) (pthreads s) (names s) (mutex_index s) (cond_index s) (create_index s).
Definition set_sem_ids v (s : posix D) : posix D := mkPosix (px_kern s) (px_lib s) (errno s) v (mutexes s) (conds s) (barriers s) (attrs s) (pthreads s) (names s) (mutex_index s) (cond_index s) (create_index s).
Definition set_mutexes v (s : posix D) : posix D := mkPosix (px_kern s) (px_lib s) (errno s) (sem_ids s) v (conds s) (barriers s) (attrs s) (pthreads s) (names s) (mutex_index s) (cond_index s) (create_index s).
Definition set_conds v (s : posix D) : posix D := mkPosix (px_kern s) (px_lib s) (errno s) (sem_ids s) (mutexes s) v (barriers s) (attrs s) (pthreads s) (names s) (mutex_index s) (cond_index s) (create_index s).
Definition set_barriers v (s : posix D) : posix D := mkPosix (px_kern s) (px_lib s) (errno s) (sem_ids s) (mutexes s) (conds s) v (attrs s) (pthreads s) (names s) (mutex_index s) (cond_index s) (create_index s).
Definition set_attrs v (s : posix D) : posix D := mkPosix (px_kern s) (px_lib s) (errno s) (sem_ids s) (mutexes s) (conds s) (barriers s) v (pthreads s) (names s) (mutex_index s) (cond_index s) (create_index s).
Definition set_pthreads v (s : posix D) : posix D := mkPosix (px_kern s) (px_lib s) (errno s) (sem_ids s) (mutexes s) (conds s) (barriers s) (attrs s) v (names s) (mutex_index s) (cond_index s) (create_index s).
Definition set_names v (s : posix D) : posix D := mkPosix (px_kern s) (px_lib s) (errno s) (sem_ids s) (mutexes s) (conds s) (barriers s) (attrs s) (pthreads s) v (mutex_index s) (cond_index s) (create_index s).
Definition set_mutex_index v (s : posix D) : posix D := mkPosix (px_kern s) (px_lib s) (errno s) (sem_ids s) (mutexes s) (conds s) (barriers s) (attrs s) (pthreads s) (names s) v (cond_index s) (create_index s).
Definition set_cond_index v (s : posix D) : posix D := mkPosix (px_kern s) (px_lib s) (errno s) (sem_ids s) (mutexes s) (conds s) (barriers s) (attrs s) (pthreads s) (names s) (mutex_index s) v (create_index s).
Definition set_create_index v (s : posix D) : posix D := mkPosix (px_kern s) (px_lib s) (errno s) (sem_ids s) (mutexes s) (conds s) (barriers s) (attrs s) (pthreads s) (names s) (mutex_index s) (cond_index s) v.

Definition onkernel {A} (m : K A) : M (posix D) A := lift px_kern set_px_kern m.
Definition onclib {A} (m : M D A) : M (posix D) A := lift px_lib set_px_lib m.

(** An object at an address. *)
Definition object {A} (get : posix D -> gmap Z A) (p : Z) : M (posix D) A :=
  let* m := gets get in deref (if p =? 0 then None else m !! p).
Definition upd_mutex (p : Z) (f : pthread_mutex_t -> pthread_mutex_t) : M (posix D) unit :=
  let* v := object mutexes p in modify (fun s => set_mutexes (<[p := f v]> (mutexes s)) s).
Definition upd_cond (p : Z) (f : pthread_cond_t -> pthread_cond_t) : M (posix D) unit :=
  let* v := object conds p in modify (fun s => set_conds (<[p := f v]> (conds s)) s).
Definition upd_attr (p : Z) (f : pthread_attr_t -> pthread_attr_t) : M (posix D) unit :=
  let* v := object attrs p in modify (fun s => set_attrs (<[p := f v]> (attrs s)) s).
Definition upd_pthread (p : Z) (f : pthread -> pthread) : M (posix D) unit :=
  let* v := object pthreads p in modify (fun s => set_pthreads (<[p := f v]> (pthreads s)) s).

(** ** Semaphores *)

(** errno = e; return -1; *)
Definition failed (e : errno_t) : M (posix D) Z := modify (set_errno (Some e)) ;; ret (-1).
(** if (result != 0) { errno = result; return -1; } return 0; *)
Definition sem_result (result : option errno_t) : M (posix D) Z :=
  match result with Some e => failed e | None => ret 0 end.
(** What follows a call of the kernel that may have switched. *)
Definition continue {A B F} (k : A -> M (posix D) B) (r : switched A F) : M (posix D) (switched B F) :=
  match r with
  | Returned a => let* b := k a in ret (Returned b)
  | Switched f => ret (Switched f)
  end.

(** No case of the switch ends in a break: every failure of semaphore_create gives EINVAL. *)
Definition sem_init (sem pshared value : Z) : M (posix D) Z :=
  check negb (sem =? 0) rescue failed EINVAL in
  check value <=? SEM_VALUE_MAX rescue failed EINVAL in
  check pshared =? 0 rescue failed ENOSYS in
  let* r := onkernel (semaphore_create (Some []) value true) in
  match r.2 with Some id => modify (fun s => set_sem_ids (<[sem := id]> (sem_ids s)) s) | None => ret tt end ;;
  sem_result (if st_eqb r.1 DNA_OK then None else Some EINVAL).

Definition sem_destroy (sem : Z) : M (posix D) Z :=
  check negb (sem =? 0) rescue failed EINVAL in
  let* id := object sem_ids sem in
  let* status := onkernel (semaphore_destroy id) in
  if negb (st_eqb status DNA_OK) then failed EINVAL else ret 0.

Definition sem_wait_end (status : status_t) : M (posix D) Z :=
  sem_result (if st_eqb status DNA_OK then None else Some EINVAL).
Definition sem_wait (sem : Z) : M (posix D) (switched Z acquire_frame) :=
  check negb (sem =? 0) rescue (let* r := failed EINVAL in ret (Returned r)) in
  let* id := object sem_ids sem in
  let* r := onkernel (semaphore_acquire id 1 0 (-1)) in
  continue sem_wait_end r.
Definition sem_wait_resume (f : acquire_frame) : M (posix D) Z :=
  let* status := onkernel (semaphore_acquire_resume f) in sem_wait_end status.

Definition sem_trywait_end (status : status_t) : M (posix D) Z :=
  sem_result (if st_eqb status DNA_OK then None else Some EAGAIN).
Definition sem_trywait (sem : Z) : M (posix D) (switched Z acquire_frame) :=
  check negb (sem =? 0) rescue (let* r := failed EINVAL in ret (Returned r)) in
  let* id := object sem_ids sem in
  let* r := onkernel (semaphore_acquire id 1 0 0) in
  continue sem_trywait_end r.
Definition sem_trywait_resume (f : acquire_frame) : M (posix D) Z :=
  let* status := onkernel (semaphore_acquire_resume f) in sem_trywait_end status.

(** The product and the sum are computed in the type of tv_sec.  No case ends in a break. *)
Definition sem_timedwait_end (status : status_t) : M (posix D) Z :=
  sem_result (if st_eqb status DNA_OK then None else Some EINVAL).
Definition sem_timedwait (sem : Z) (abs_timeout : option timespec) : M (posix D) (switched Z acquire_frame) :=
  check negb (sem =? 0) rescue (let* r := failed EINVAL in ret (Returned r)) in
  let* t := deref abs_timeout in
  check (0 <=? tv_nsec t) && (tv_nsec t <? 1000000000) rescue (let* r := failed EINVAL in ret (Returned r)) in
  let* id := object sem_ids sem in
  let* r := onkernel (semaphore_acquire id 1 DNA_ABSOLUTE_TIMEOUT
    (i64 (wrap_s time_width (wrap_s time_width (tv_sec t * 1000000000) + tv_nsec t)))) in
  continue sem_timedwait_end r.
Definition sem_timedwait_resume (f : acquire_frame) : M (posix D) Z :=
  let* status := onkernel (semaphore_acquire_resume f) in sem_timedwait_end status.

(** [Switched] holds the interrupt status that semaphore_release restores. *)
Definition sem_post_end (status : status_t) : M (posix D) Z :=
  sem_result (if st_eqb status DNA_OK then None else Some EINVAL).
Definition sem_post (sem : Z) : M (posix D) (switched Z Z) :=
  check negb (sem =? 0) rescue (let* r := failed EINVAL in ret (Returned r)) in
  let* id := object sem_ids sem in
  let* i := onkernel (semaphore_get_info id true) in
  match i with
  | (DNA_OK, Some (_, n, _)) =>
      if SEM_VALUE_MAX <=? n then let* r := sem_result (Some EOVERFLOW) in ret (Returned r)
      else
        let* r := onkernel (semaphore_release id 1 0) in
        continue sem_post_end r
  | _ => let* r := sem_result (Some EINVAL) in ret (Returned r)
  end.
Definition sem_post_resume (it_status : Z) : M (posix D) Z :=
  let* status := onkernel (semaphore_release_resume it_status) in sem_post_end status.

(** The result and [*sval]. *)
Definition sem_getvalue (sem : Z) (sval_ok : bool) : M (posix D) (Z * option Z) :=
  check negb (sem =? 0) rescue (let* r := failed EINVAL in ret (r, None)) in
  let* id := object sem_ids sem in
  let* i := onkernel (semaphore_get_info id true) in
  match i with
  | (DNA_OK, Some (_, n, _)) => if sval_ok then ret (0, Some n) else fault
  | _ => let* r := sem_result (Some EINVAL) in ret (r, None)
  end.

(** ** Mutexes *)

Definition MUTEX_UNLOCKED : Z := 0.
Definition MUTEX_LOCKED : Z := 1.

Definition pthread_mutex_name : list Z := [112; 116; 104; 114; 101; 97; 100; 95; 109; 117; 116; 101; 120].

(** sprintf (name, "pthread_mutex_%ld", index ++); the names fit in their 32 bytes. *)
Definition pthread_mutex_init (mutex : Z) : M (posix D) (option errno_t) :=
  if mutex =? 0 then ret (Some EFAULT)
  else
    let* index := gets mutex_index in
    modify (set_mutex_index (i32 (index + 1))) ;;
    let* r := onkernel (semaphore_create (Some (pthread_mutex_name ++ [95] ++ decimal index)) 1 true) in
    match r.2 with Some id => upd_mutex mutex (fun v => mkMutex id (m_status v)) | None => ret tt end ;;
    ret (if st_eqb r.1 DNA_OK then None else Some EINVAL).

Definition pthread_mutex_destroy (mutex : Z) : M (posix D) (option errno_t) :=
  let* v := object mutexes mutex in
  onkernel (semaphore_destroy (m_lock v)) ;;
  ret None.

(** The status of semaphore_acquire is ignored. *)
Definition mutex_locked (mutex : Z) : M (posix D) (option errno_t) :=
  upd_mutex mutex (fun v => mkMutex (m_lock v) MUTEX_LOCKED) ;;
  ret None.
Definition pthread_mutex_lock (mutex : Z) : M (posix D) (switched (option errno_t) acquire_frame) :=
  let* v := object mutexes mutex in
  let* status :=
    (if m_lock v =? -1 then
       let* r := onkernel (semaphore_create (Some pthread_mutex_name) 1 true) in
       match r.2 with Some id => upd_mutex mutex (fun v => mkMutex id (m_status v)) | None => ret tt end ;;
       ret r.1
     else ret DNA_OK) in
  if negb (st_eqb status DNA_OK) then ret (Returned (Some EINVAL))
  else
    let* v := object mutexes mutex in
    let* r := onkernel (semaphore_acquire (m_lock v) 1 0 0) in
    continue (fun _ => mutex_locked mutex) r.
Definition pthread_mutex_lock_resume (mutex : Z) (f : acquire_frame) : M (posix D) (option errno_t) :=
  onkernel (semaphore_acquire_resume f) ;;
  mutex_locked mutex.

(** With a timeout of 0 semaphore_acquire does not wait. *)
Definition pthread_mutex_trylock (mutex : Z) : M (posix D) (option errno_t) :=
  if mutex =? 0 then ret (Some EFAULT)
  else
    let* v := object mutexes mutex in
    if m_lock v =? -1 then ret (Some EINVAL)
    else
      let* r := onkernel (semaphore_acquire (m_lock v) 1 DNA_RELATIVE_TIMEOUT 0) in
      match r with
      | Returned DNA_WOULD_BLOCK => ret (Some EBUSY)
      | Returned DNA_OK => mutex_locked mutex
      | Returned _ => ret (Some EINVAL)
      | Switched _ => fault
      end.

Definition pthread_mutex_unlock (mutex : Z) : M (posix D) (switched (option errno_t) Z) :=
  if mutex =? 0 then ret (Returned (Some EFAULT))
  else
    let* v := object mutexes mutex in
    if m_lock v =? -1 then ret (Returned (Some EINVAL))
    else
      upd_mutex mutex (fun v => mkMutex (m_lock v) MUTEX_UNLOCKED) ;;
      let* v := object mutexes mutex in
      let* r := onkernel (semaphore_release (m_lock v) 1 0) in
      continue (fun _ => ret None) r.
Definition pthread_mutex_unlock_resume (it_status : Z) : M (posix D) (option errno_t) :=
  onkernel (semaphore_release_resume it_status) ;;
  ret None.

(** ** Conditions *)

Definition pthread_cond_prefix : list Z := [112; 116; 104; 114; 101; 97; 100; 95; 99; 111; 110; 100; 95].

Definition pthread_cond_init (condition : Z) : M (posix D) (option errno_t) :=
  let* index := gets cond_index in
  modify (set_cond_index (i32 (index + 1))) ;;
  upd_cond condition (fun v => mkCond (c_semaphore v) 0) ;;
  let* r := onkernel (semaphore_create (Some (pthread_cond_prefix ++ decimal index)) 0 true) in
  match r.2 with Some id => upd_cond condition (fun v => mkCond id (c_count v)) | None => ret tt end ;;
  match r.1 with
  | DNA_OK => ret None
  | DNA_NO_MORE_SEM => ret (Some EAGAIN)
  | DNA_OUT_OF_MEM => ret (Some ENOMEM)
  | _ => ret (Some EINVAL)
  end.

Definition pthread_cond_destroy (cond : Z) : M (posix D) (option errno_t) :=
  let* v := object conds cond in
  onkernel (semaphore_destroy (c_semaphore v)) ;;
  ret None.

Definition cond_released (status : status_t) : M (posix D) (option errno_t) :=
  ret (if st_eqb status DNA_BAD_SEM_ID then Some EINVAL else None).
(** The waiting threads decrement [count] themselves, when they run again. *)
Definition pthread_cond_signal (condition : Z) : M (posix D) (switched (option errno_t) Z) :=
  let* v := object conds condition in
  if 0 <? c_count v then
    let* r := onkernel (semaphore_release (c_semaphore v) 1 0) in
    continue cond_released r
  else ret (Returned None).
Definition pthread_cond_broadcast (condition : Z) : M (posix D) (switched (option errno_t) Z) :=
  let* v := object conds condition in
  if 0 <? c_count v then
    let* r := onkernel (semaphore_release (c_semaphore v) (c_count v) 0) in
    continue cond_released r
  else ret (Returned None).
Definition pthread_cond_release_resume (it_status : Z) : M (posix D) (option errno_t) :=
  let* status := onkernel (semaphore_release_resume it_status) in
  cond_released status.

(** The three calls of pthread_cond_wait that can switch. *)
Inductive cond_frame : Type :=
| CwUnlock (it_status : Z)
| CwAcquire (f : acquire_frame)
| CwLock (f : acquire_frame).

Definition cond_wait_end (condition : Z) : M (posix D) (option errno_t) :=
  upd_cond condition (fun v => mkCond (c_semaphore v) (i32 (c_count v - 1))) ;;
  ret None.
Definition cond_wait_lock (condition mutex : Z) : M (posix D) (switched (option errno_t) cond_frame) :=
  let* r := pthread_mutex_lock mutex in
  match r with
  | Returned _ => let* e := cond_wait_end condition in ret (Returned e)
  | Switched f => ret (Switched (CwLock f))
  end.
Definition cond_wait_acquire (condition mutex : Z) : M (posix D) (switched (option errno_t) cond_frame) :=
  let* v := object conds condition in
  let* r := onkernel (semaphore_acquire (c_semaphore v) 1 0 (-1)) in
  match r with
  | Returned _ => cond_wait_lock condition mutex
  | Switched f => ret (Switched (CwAcquire f))
  end.
Definition pthread_cond_wait (condition mutex : Z) : M (posix D) (switched (option errno_t) cond_frame) :=
  let* v := object conds condition in
  let* r := onkernel (semaphore_acquire (c_semaphore v) 1 DNA_RELATIVE_TIMEOUT 0) in
  match r with
  | Switched _ => fault                          (* a null timeout does not wait *)
  | Returned DNA_WOULD_BLOCK =>
      upd_cond condition (fun v => mkCond (c_semaphore v) (i32 (c_count v + 1))) ;;
      let* r := pthread_mutex_unlock mutex in
      match r with
      | Returned _ => cond_wait_acquire condition mutex
      | Switched it_status => ret (Switched (CwUnlock it_status))
      end
  | Returned _ => ret (Returned None)
  end.
Definition pthread_cond_wait_resume (condition mutex : Z) (f : cond_frame)
    : M (posix D) (switched (option errno_t) cond_frame) :=
  match f with
  | CwUnlock it_status =>
      pthread_mutex_unlock_resume it_status ;; cond_wait_acquire condition mutex
  | CwAcquire f =>
      onkernel (semaphore_acquire_resume f) ;; cond_wait_lock condition mutex
  | CwLock f =>
      pthread_mutex_lock_resume mutex f ;;
      let* e := cond_wait_end condition in ret (Returned e)
  end.

Definition pthread_cond_timedwait (condition mutex : Z) (abstime : option timespec) : M (posix D) (option errno_t) := ret None.

(** ** Attributes

    The functions that read a member return it, when the error is [None]; [ok] tells whether the
    pointer to the result is not NULL. *)

Definition PTHREAD_CREATE_JOINABLE : Z := 0.
Definition PTHREAD_EXPLICIT_SCHED : Z := 1.
Definition SCHED_FIFO : Z := 1.
Definition PTHREAD_NOPROCID : Z := 0xFFFFFFFF.
Definition PTHREAD_CANCEL_DEFERRED : Z := 0.
Definition PTHREAD_CANCEL_ASYNCHRONOUS : Z := 1.
Definition PTHREAD_CANCEL_DISABLE : Z := 0.
Definition PTHREAD_CANCEL_ENABLE : Z := 1.

Definition pthread_attr_init (attr : Z) : M (posix D) (option errno_t) :=
  if attr =? 0 then ret (Some EINVAL)
  else
    upd_attr attr (fun _ => mkAttr 0 0 PTHREAD_CREATE_JOINABLE PTHREAD_EXPLICIT_SCHED SCHED_FIFO
      PTHREAD_NOPROCID (mkSched 0 0 0) 0) ;;
    ret None.
Definition pthread_attr_destroy (attr : Z) : M (posix D) (option errno_t) :=
  if attr =? 0 then ret (Some EINVAL) else ret None.

Definition attr_get {A} (get : pthread_attr_t -> A) (attr : Z) (ok : bool) : M (posix D) (option errno_t * option A) :=
  if (attr =? 0) || negb ok then ret (Some EINVAL, None)
  else let* v := object attrs attr in ret (None, Some (get v)).
Definition pthread_attr_getdetachstate := attr_get (fun v => i32 (detachstate v)).
Definition pthread_attr_getinheritsched := attr_get (fun v => i32 (schedinherited v)).
Definition pthread_attr_getschedpolicy := attr_get (fun v => i32 (schedpolicy v)).
Definition pthread_attr_getschedparam := attr_get schedparam.
Definition pthread_attr_getstackaddr := attr_get stackaddr.
Definition pthread_attr_getstacksize := attr_get stacksize.

Definition attr_set (f : pthread_attr_t -> pthread_attr_t) (attr : Z) : M (posix D) (option errno_t) :=
  if attr =? 0 then ret (Some EINVAL) else upd_attr attr f ;; ret None.
Definition pthread_attr_setdetachstate (attr state : Z) := attr_set (with_detachstate (u32 state)) attr.
Definition pthread_attr_setinheritsched (attr h : Z) := attr_set (with_schedinherited (u32 h)) attr.
Definition pthread_attr_setschedpolicy (attr policy : Z) := attr_set (with_schedpolicy (u32 policy)) attr.
Definition pthread_attr_setschedparam (attr : Z) (param : option sched_param_t) : M (posix D) (option errno_t) :=
  match param with
  | Some p => attr_set (with_schedparam p) attr
  | None => ret (Some EINVAL)
  end.
Definition pthread_attr_setstackaddr (attr addr : Z) : M (posix D) (option errno_t) :=
  if (attr =? 0) || (addr =? 0) then ret (Some EINVAL) else attr_set (with_stackaddr addr) attr.
Definition pthread_attr_setstacksize (attr size : Z) : M (posix D) (option errno_t) :=
  if (attr =? 0) || (size =? 0) then ret (Some EINVAL)
  else if negb (size mod 4 =? 0) then ret (Some EINVAL)
  else attr_set (with_stacksize size) attr.

(** ** Threads *)

Definition sizeof_pthread : Z := 32.
Definition sizeof_pthread_attr : Z := 40.
(** "pthread" and "thread" *)
Definition default_name : list Z := [112; 116; 104; 114; 101; 97; 100].
Definition thread_name : list Z := [116; 104; 114; 101; 97; 100].

(** attributs -> name = malloc (32); sprintf (attributs -> name, "%s_%ld", default_name, index ++); *)
Definition set_default_name (attributs : Z) : M (posix D) unit :=
  let* p := onclib (malloc 32) in
  upd_attr attributs (with_a_name p) ;;
  let* index := gets create_index in
  modify (set_create_index (i32 (index + 1))) ;;
  if p =? 0 then fault
  else modify (fun s => set_names (<[p := default_name ++ [95] ++ decimal index]> (names s)) s).

(** The attributes of a new thread. *)
Definition create_attributs (attributs attr : Z) : M (posix D) unit :=
  if attr =? 0 then
    upd_attr attributs (fun v => with_procid PTHREAD_NOPROCID (with_schedpolicy SCHED_FIFO
      (with_schedinherited PTHREAD_EXPLICIT_SCHED (with_detachstate PTHREAD_CREATE_JOINABLE
      (with_stacksize 0x8000 v))))) ;;
    set_default_name attributs ;;
    upd_attr attributs (with_stacksize 0x8000) ;;
    let* p := onclib (malloc 0x8000) in
    upd_attr attributs (with_stackaddr p)
  else
    let* a := object attrs attr in
    upd_attr attributs (fun _ => a) ;;
    let* a := object attrs attr in
    (if a_name a =? 0 then set_default_name attributs else ret tt) ;;
    let* a := object attrs attr in
    if stackaddr a =? 0 then
      (if stacksize a =? 0 then
         let* p := onclib (malloc 0x8000) in
         upd_attr attributs (with_stacksize 0x8000) ;;
         upd_attr attributs (with_stackaddr p)
       else
         let* p := onclib (malloc (stacksize a)) in
         upd_attr attributs (with_stackaddr p))
    else ret tt.

(** The error and [*thread]; the status of thread_create is ignored. *)
Definition pthread_create (thread_ok : bool) (attr start arg : Z) : M (posix D) (option errno_t * option Z) :=
  ensure thread_ok orelse (Some EINVAL, None) in
  let* new := onclib (malloc sizeof_pthread) in
  ensure negb (new =? 0) orelse (Some ENOMEM, None) in
  modify (fun s => set_pthreads (<[new := junk_thread]> (pthreads s)) s) ;;
  let* attributs := onclib (malloc sizeof_pthread_attr) in
  upd_pthread new (with_p_attributs attributs) ;;
  ensure negb (attributs =? 0) orelse (Some ENOMEM, None) in
  modify (fun s => set_attrs (<[attributs := junk_attr]> (attrs s)) s) ;;
  upd_pthread new (fun v => with_p_cancel_bool false (with_p_cancel_state PTHREAD_CANCEL_ENABLE
    (with_p_cancel_type PTHREAD_CANCEL_ASYNCHRONOUS (with_p_children 0 (with_p_father 0 v))))) ;;
  create_attributs attributs attr ;;
  let* a := object attrs attributs in
  let* name := object names (a_name a) in
  let* name := onkernel (strcpy_name name) in
  let info := with_stack_size (stacksize a) (with_stack_base (stackaddr a) (with_affinity (i32 (procid a))
    (with_t_name name (mkInfo thread_name 0 0 DNA_NO_AFFINITY 0 DNA_THREAD_SUSPENDED DNA_NO_RESOURCE (-1) 0 0 0 0x8000)))) in
  let* r := onkernel (thread_create start arg info true) in
  let t_new := default junk_tid r.2 in
  upd_pthread new (with_p_tid t_new) ;;
  onkernel (thread_resume t_new) ;;
  ret (None, Some new).

(** The status of thread_wait is ignored; the result is 0 and [*value_ptr], when it is written. *)
Definition pthread_join (thread : Z) (value_ok : bool)
    : M (posix D) (switched (option errno_t * option Z) (Z * Z * bool)) :=
  ensure negb (thread =? 0) orelse Returned (Some EINVAL, None) in
  let* v := object pthreads thread in
  let* r := onkernel (thread_wait (tid v) value_ok) in
  continue (fun r => ret (None, r.2)) r.
Definition pthread_join_resume (f : Z * Z * bool) : M (posix D) (option errno_t * option Z) :=
  let* r := onkernel (thread_wait_resume f) in
  ret (None, r.2).

Definition pthread_cancel (thread : Z) : M (posix D) (option errno_t) :=
  ensure negb (thread =? 0) orelse Some ESRCH in
  let* v := object pthreads thread in
  ensure negb (negb (cancel_state v =? PTHREAD_CANCEL_DISABLE)
               && negb (cancel_state v =? PTHREAD_CANCEL_ENABLE)) orelse Some EINVAL in
  ensure negb (negb (cancel_type v =? PTHREAD_CANCEL_DEFERRED)
               && negb (cancel_type v =? PTHREAD_CANCEL_ASYNCHRONOUS)) orelse Some EINVAL in
  if cancel_state v =? PTHREAD_CANCEL_DISABLE then ret None
  else if cancel_type v =? PTHREAD_CANCEL_DEFERRED then
    upd_pthread thread (with_p_cancel_bool true) ;;
    ret None
  else ret None.

(** The error, [*p] and [*sp]; [p_ok] and [sp_ok] tell whether the pointers are not NULL. *)
Definition pthread_getschedparam (t : Z) (p_ok sp_ok : bool) : M (posix D) (option errno_t * option (Z * sched_param_t)) :=
  ensure negb ((t =? 0) || negb sp_ok) orelse (Some EINVAL, None) in
  let* v := object pthreads t in
  let* a := object attrs (attributs v) in
  if p_ok then ret (None, Some (i32 (schedpolicy a), schedparam a)) else fault.
Definition pthread_setschedparam (t p : Z) (sp : option sched_param_t) : M (posix D) (option errno_t) :=
  match sp with
  | Some sp =>
      ensure negb (t =? 0) orelse Some EINVAL in
      let* v := object pthreads t in
      upd_attr (attributs v) (fun a => with_schedparam sp (with_schedpolicy (u32 p) a)) ;;
      ret None
  | None => ret (Some EINVAL)
  end.

Definition pthread_barrier_init (barrier count : Z) : M (posix D) (option errno_t) :=
  if count =? 0 then ret (Some EINVAL)
  else
    object barriers barrier ;;
    modify (fun s => set_barriers (<[barrier := mkBarrier count 0]> (barriers s)) s) ;;
    ret None.

(** The first thread of the system, which runs main. *)
Definition __libthread_start (main : M (posix D) Z) : M (posix D) Z :=
  let* wrapper := onclib (malloc sizeof_pthread) in
  let* r := onkernel (thread_find None true) in
  let* attributs := onclib (malloc sizeof_pthread_attr) in
  if (wrapper =? 0) || (attributs =? 0) then fault
  else
    modify (fun s => set_pthreads (<[wrapper := mkPthread attributs (default junk_tid r.2) 0 0
      PTHREAD_CANCEL_ASYNCHRONOUS PTHREAD_CANCEL_ENABLE false]> (pthreads s)) s) ;;
    modify (fun s => set_attrs (<[attributs := mkAttr 0 0 PTHREAD_CREATE_JOINABLE PTHREAD_EXPLICIT_SCHED
      SCHED_FIFO PTHREAD_NOPROCID (schedparam junk_attr) (a_name junk_attr)]> (attrs s)) s) ;;
    main.

Definition pthread_equal (thread1 thread2 : Z) : Z := if thread1 =? thread2 then 1 else 0.

(** The functions whose body is empty or disabled. *)
Definition pthread_self : M (posix D) Z := ret 0.
Definition pthread_exit (retval : Z) : M (posix D) unit := ret tt.
Definition pthread_barrier_wait (barrier : Z) : M (posix D) (option errno_t) := ret None.
Definition pthread_setcancelstate (state : Z) : M (posix D) (option errno_t) := ret None.
Definition pthread_setcanceltype (type : Z) : M (posix D) (option errno_t) := ret None.
Definition pthread_spin_init (spin pshared : Z) : M (posix D) (option errno_t) := ret None.
Definition pthread_spin_destroy (spin : Z) : M (posix D) (option errno_t) := ret None.
Definition pthread_lock_acquire (spin : Z) : M (posix D) (option errno_t) := ret None.
Definition pthread_lock_release (spin : Z) : M (posix D) (option errno_t) := ret None.

End Posix.

Section Spec.
Context {D : Type} `{Hal}.

(** ** Rules *)

Lemma wp_object {A} (get : posix D -> gmap Z A) p v Q s :
  p <> 0 -> get s !! p = Some v -> Q v s -> wp (object get p) Q s.
Proof.
  intros Hp Hv HQ. unfold object. apply wp_bind, wp_gets. rewrite (proj2 (Z.eqb_neq _ _)) by done.
  rewrite Hv. by apply wp_ret.
Qed.

Lemma wp_upd_mutex p f v Q (s : posix D) :
  p <> 0 -> mutexes s !! p = Some v -> Q tt (set_mutexes (<[p := f v]> (mutexes s)) s) -> wp (upd_mutex p f) Q s.
Proof. intros Hp Hv HQ. apply wp_bind. eapply wp_object; [done..|]. by apply wp_modify. Qed.

Lemma wp_onkernel {A} (m : K A) Q (s : posix D) a k :
  m (px_kern s) = Ret a k -> Q a (set_px_kern k s) -> wp (onkernel m) Q s.
Proof. intros Hm HQ. apply wp_lift. by eapply wp_eq. Qed.

(** ** Mutexes: the abstract state

    A mutex is free, or held while [waiters] wait for it, in the order of their arrival. *)
Inductive mutex_state : Type := Free | Held (waiters : list tref).

Definition mutex_tokens (m : mutex_state) : Z := match m with Free => 1 | Held _ => 0 end.
Definition mutex_waiters (m : mutex_state) : list (tref * Z) :=
  match m with Free => [] | Held waiters => map (fun t => (t, 1)) waiters end.

(** The mutex at the address [p] has the semaphore [id] and is in the state [m]. *)
Record mutex_rep (U : gset addr) (s : posix D) (V : qid -> list addr) (p id : Z) (m : mutex_state) : Prop := {
  mr_address : p <> 0;
  mr_object : exists v, mutexes s !! p = Some v /\ m_lock v = id;
  mr_id : id <> -1;
  mr_index : raw_index id < DNA_MAX_SEM;
  mr_sem_id : sem_id (sem (raw_index id) (px_kern s)) = id;
  mr_sem : sem_rep U (px_kern s) V (raw_index id) (mutex_tokens m) (mutex_waiters m)
}.

(** A mutex after its semaphore and its status changed. *)
Lemma mutex_rep_update U (s : posix D) V p id m k V' m' status :
  mutex_rep U s V p id m -> sem_id (sem (raw_index id) k) = id ->
  sem_rep U k V' (raw_index id) (mutex_tokens m') (mutex_waiters m') ->
  mutex_rep U (set_mutexes (<[p := mkMutex id status]> (mutexes s)) (set_px_kern k s)) V' p id m'.
Proof.
  intros [Hp _ Hid Hi _ _] Hs Hrep. split; [done| |done..].
  exists (mkMutex id status). split; [apply lookup_insert_eq|done].
Qed.

Lemma mutex_waiters_app l t : mutex_waiters (Held (l ++ [t])) = mutex_waiters (Held l) ++ [(t, 1)].
Proof. apply map_app. Qed.

Lemma mutex_waiters_threads l : (mutex_waiters (Held l)).*1 = l.
Proof. cbn. induction l as [|t l IH]; [done|]. cbn. by f_equal. Qed.

(** The call of semaphore_acquire on the free semaphore of a mutex. *)
Lemma mutex_take U (s : posix D) V p id flags timeout self :
  mutex_rep U s V p id Free -> acquire_args_ok 1 flags timeout ->
  current_thread (cpu (mp_id (px_kern s)) (px_kern s)) = Some self ->
  exists k, semaphore_acquire id 1 flags timeout (px_kern s) = Ret (Returned DNA_OK) k /\
    k = put_sem (raw_index id) (with_latest_holder (thread_id (thr self (px_kern s)))
          (with_tokens 0 (sem (raw_index id) (px_kern s)))) (px_kern s) /\
    sem_id (sem (raw_index id) k) = id /\ sem_rep U k V (raw_index id) 0 [].
Proof.
  intros Hm Ha Hc. destruct (semaphore_acquire_now U (px_kern s) V (raw_index id) 1 [] id 1 flags timeout self)
    as [Hr Hrep]; [apply Hm|done|apply Hm|apply Hm|done|lia|done|].
  eexists. split; [exact Hr|]. split; [done|]. split; [|exact Hrep].
  unfold put_sem, sem. cbn. rewrite lookup_insert_eq. apply Hm.
Qed.

(** The operations on a mutex whose semaphore exists are operations on that semaphore. *)
Lemma wp_trylock U (s : posix D) V p id m Q :
  mutex_rep U s V p id m ->
  wp (let* r := onkernel (semaphore_acquire id 1 DNA_RELATIVE_TIMEOUT 0) in
      match r with
      | Returned DNA_WOULD_BLOCK => ret (Some EBUSY)
      | Returned DNA_OK => mutex_locked p
      | Returned _ => ret (Some EINVAL)
      | Switched _ => fault
      end) Q s ->
  wp (pthread_mutex_trylock p) Q s.
Proof.
  intros [Hp (v & Hv & <-) Hid _ _ _] HQ. unfold pthread_mutex_trylock.
  rewrite (proj2 (Z.eqb_neq _ _) Hp). apply wp_bind. eapply wp_object; [done..|].
  by rewrite (proj2 (Z.eqb_neq _ _) Hid).
Qed.

Lemma wp_lock U (s : posix D) V p id m Q :
  mutex_rep U s V p id m ->
  wp (let* r := onkernel (semaphore_acquire id 1 0 0) in continue (fun _ => mutex_locked p) r) Q s ->
  wp (pthread_mutex_lock p) Q s.
Proof.
  intros [Hp (v & Hv & <-) Hid _ _ _] HQ. unfold pthread_mutex_lock. apply wp_bind. eapply wp_object; [done..|].
  rewrite (proj2 (Z.eqb_neq _ _) Hid). apply wp_bind, wp_ret. change (st_eqb DNA_OK DNA_OK) with true.
  cbn [negb]. apply wp_bind. by eapply wp_object.
Qed.

Lemma unlock_run U (s : posix D) V p id m :
  mutex_rep U s V p id m ->
  pthread_mutex_unlock p s =
    (let* r := onkernel (semaphore_release id 1 0) in continue (fun _ => ret None) r)
    (set_mutexes (<[p := mkMutex id MUTEX_UNLOCKED]> (mutexes s)) s).
Proof.
  intros [Hp (v & Hv & <-) Hid _ _ _].
  unfold pthread_mutex_unlock, upd_mutex, object, bind, gets, deref, modify, ret.
  rewrite (proj2 (Z.eqb_neq _ _) Hp), Hv, (proj2 (Z.eqb_neq _ _) Hid), Hv. cbn [mutexes set_mutexes].
  by rewrite lookup_insert_eq.
Qed.

Lemma wp_mutex_locked (s : posix D) p v Q :
  p <> 0 -> mutexes s !! p = Some v ->
  Q None (set_mutexes (<[p := mkMutex (m_lock v) MUTEX_LOCKED]> (mutexes s)) s) -> wp (mutex_locked p) Q s.
Proof. intros Hp Hv HQ. apply wp_bind. eapply wp_upd_mutex; [done|exact Hv|]. by apply wp_ret. Qed.

(** A call of semaphore_acquire that waits for one token. *)
Lemma acquire_waits U k V id W timeout self idle :
  sem_rep U k V (raw_index id) 0 W -> running_ok U k V self idle ->
  raw_index id < DNA_MAX_SEM -> sem_id (sem (raw_index id) k) = id ->
  exists f k2 k3 V3 next, semaphore_acquire id 1 0 timeout k = Ret (Switched f) k2 /\
    f_self f = self /\ f_id f = id /\ f_alarm f = None /\ switch_end k2 = Ret DNA_OK k3 /\
    sem_rep U k3 V3 (raw_index id) 0 (W ++ [(self, 1)]) /\ sem_id (sem (raw_index id) k3) = id /\
    current_thread (cpu (mp_id k) k3) = Some next /\ next <> self.
Proof.
  intros Hrep Hr Hi Hs.
  destruct (wp_switched _ _ _ _ (semaphore_acquire_block_wp U k V (raw_index id) 0 W id 1 0 timeout self idle
    Hrep Hr eq_refl Hi Hs ltac:(lia) eq_refl)) as (f & st & k2 & k3 & H1 & H2 & next & V1 & V3 & Hel & [= -> ->] & Hr3 & _ & Hc & _ & Hid3 & _).
  pose proof (proj1 (proj1 (sched_ok_avail _ _ _ _ _) (sr_sched _ _ _ _ _ _ Hrep))) as Hwf.
  destruct (elected_thread U _ V self idle _ _ _ Hwf Hr Hel) as (t & [= <-] & Hne & _).
  by exists (mkFrame self id 1 (0 - 1) None (cpsr k)), k2, k3, V3, next.
Qed.

(** C33: a thread that locks a free mutex holds it, and is its latest holder, whether it
    calls pthread_mutex_lock or pthread_mutex_trylock.  When the mutex is held, trylock returns
    EBUSY and changes nothing, and lock puts the caller behind the threads that wait already and
    runs another one. *)
Theorem pthread_mutex_lock_spec U (s : posix D) V p id m self idle :
  mutex_rep U s V p id m -> running_ok U (px_kern s) V self idle ->
  match m with
  | Free => exists s', pthread_mutex_trylock p s = Ret None s' /\
      pthread_mutex_lock p s = Ret (Returned None) s' /\ mutex_rep U s' V p id (Held []) /\
      mutexes s' !! p = Some (mkMutex id MUTEX_LOCKED) /\
      latest_holder (sem (raw_index id) (px_kern s')) = thread_id (thr self (px_kern s))
  | Held waiters => pthread_mutex_trylock p s = Ret (Some EBUSY) s /\
      exists f s2 k3 V3 next, pthread_mutex_lock p s = Ret (Switched f) s2 /\
        f_self f = self /\ f_id f = id /\ f_alarm f = None /\ switch_end (px_kern s2) = Ret DNA_OK k3 /\
        mutex_rep U (set_px_kern k3 s2) V3 p id (Held (waiters ++ [self])) /\
        current_thread (cpu (mp_id (px_kern s)) k3) = Some next /\ next <> self
  end.
Proof.
  intros Hm Hr. pose proof Hm as [Hp (v & Hv & Hlock) Hid Hi Hs Hrep]. destruct m as [|waiters].
  - pose proof (ru_current _ _ _ _ _ Hr) as Hc.
    destruct (mutex_take U s V p id DNA_RELATIVE_TIMEOUT 0 self) as (k & Ht & -> & Hs1 & Hrep1); [done|done|done|].
    destruct (mutex_take U s V p id 0 0 self) as (k & Hl & -> & _ & _); [done|done|done|].
    set (k := put_sem _ _ _) in *.
    exists (set_mutexes (<[p := mkMutex id MUTEX_LOCKED]> (mutexes s)) (set_px_kern k s)). split_and!.
    + apply wp_run. eapply wp_trylock; [exact Hm|]. apply wp_bind. eapply wp_onkernel; [exact Ht|].
      eapply wp_mutex_locked; [done|exact Hv|]. by rewrite Hlock.
    + apply wp_run. eapply wp_lock; [exact Hm|]. apply wp_bind. eapply wp_onkernel; [exact Hl|].
      apply wp_bind. eapply wp_mutex_locked; [done|exact Hv|]. rewrite Hlock. by apply wp_ret.
    + by eapply mutex_rep_update.
    + apply lookup_insert_eq.
    + cbn. unfold k, put_sem, sem. cbn. by rewrite lookup_insert_eq.
  - split.
    + apply wp_run. eapply wp_trylock; [exact Hm|]. apply wp_bind. eapply wp_onkernel.
      { eapply semaphore_acquire_would_block; [exact Hrep|done..|cbn; lia|done]. }
      apply wp_ret. split; [done|by destruct s].
    + destruct (acquire_waits U (px_kern s) V id _ 0 self idle Hrep Hr Hi Hs)
        as (f & k2 & k3 & V3 & next & H1 & Hf & Hfid & Ha & H2 & Hr3 & Hid3 & Hc & Hne).
      exists f, (set_px_kern k2 s), k3, V3, next. split_and!; try done.
      * apply wp_run. eapply wp_lock; [exact Hm|]. apply wp_bind. eapply wp_onkernel; [exact H1|]. by apply wp_ret.
      * split; [done|by exists v|done..|]. by rewrite mutex_waiters_app.
Qed.

(** The rest of a release, when its tokens are given. *)
Lemma release_run id n (s : posix D) s0 k b {B} (c : status_t -> M (posix D) B) :
  release_tokens id n (px_kern s) = Ret (inr b) k -> px_kern s0 = px_kern s ->
  (let* r := onkernel (semaphore_release id n 0) in continue c r) s0 =
  (let* r := onkernel (release_reschedule 0 b) in continue c r) (set_px_kern k s0).
Proof. intros Hr Hk. unfold semaphore_release, onkernel, lift, bind. by rewrite Hk, Hr. Qed.

(** One token serves the first waiting thread. *)
Lemma serve_mutex t rest : serve 1 (mutex_waiters (Held (t :: rest))) = ([t], mutex_waiters (Held rest), 0).
Proof. destruct rest; reflexivity. Qed.

(** C34: pthread_mutex_unlock frees the mutex only when nobody waits for it; else the
    mutex stays held, by the thread that has waited longest, which is ready and not lost: no other
    thread can take the mutex before it.  In both cases the call then returns 0, after it has let
    the scheduler run if the thread it woke requires it. *)
Theorem pthread_mutex_unlock_spec U (s : posix D) V p id waiters :
  mutex_rep U s V p id (Held waiters) ->
  exists s1 V1,
    mutexes s1 !! p = Some (mkMutex id MUTEX_UNLOCKED) /\
    match waiters with
    | [] => pthread_mutex_unlock p s = Ret (Returned None) s1 /\ mutex_rep U s1 V1 p id Free
    | t :: rest => mutex_rep U s1 V1 p id (Held rest) /\
        (exists b, pthread_mutex_unlock p s =
           (let* r := onkernel (release_reschedule 0 b) in continue (fun _ => ret None) r) s1) /\
        t_status (info (thr t (px_kern s1))) = DNA_THREAD_READY /\
        resource (info (thr t (px_kern s1))) = DNA_NO_RESOURCE /\
        (AThread t ∈ V1 (QReady (affinity (info (thr t (px_kern s))))) \/
         exists c, EvIpi c (DNA_IPI_DISPATCH t) ∈ events (px_kern s1))
    end.
Proof.
  intros Hm. pose proof Hm as [Hp (v & Hv & Hlock) Hid Hi Hs Hrep].
  destruct (serve 1 (mutex_waiters (Held waiters))) as [[woken rest] left] eqn:Hserve.
  assert (wp (release_tokens id 1) (fun r k => exists V1 b, r = inr b /\
    sem_rep U k V1 (raw_index id) (0 + left) rest /\ release_effect (px_kern s) (mutex_waiters (Held waiters)) woken k V1 /\
    sem_id (sem (raw_index id) k) = id /\ (woken = [] -> b = false)) (px_kern s)) as Hw.
  { eapply release_tokens_wp; [exact Hrep|done|done|done|lia|cbn; lia|exact Hserve|].
    intros k V1 b H1 H2 H3 H4. exists V1, b. split_and!; try done.
    - unfold sem. by rewrite H3, lookup_insert_eq.
    - intros ->. destruct H4 as (? & ? & Hw0). by inversion Hw0. }
  apply wp_exists in Hw as (r & k & Hrun & V1 & b & -> & Hr1 & Heff & Hs1 & Hb).
  exists (set_mutexes (<[p := mkMutex id MUTEX_UNLOCKED]> (mutexes s)) (set_px_kern k s)), V1.
  split; [apply lookup_insert_eq|]. rewrite (unlock_run _ _ _ _ _ _ Hm), (release_run _ _ s _ k _ _ Hrun) by done.
  destruct waiters as [|t waiters].
  - injection Hserve as <- <- <-. rewrite (Hb eq_refl). split; [done|]. by eapply mutex_rep_update.
  - rewrite serve_mutex in Hserve. injection Hserve as <- <- <-. split_and!.
    + by eapply mutex_rep_update.
    + by exists b.
    + unfold thr. cbn. by rewrite (re_woken _ _ _ _ _ Heff t) by set_solver.
    + unfold thr. cbn. by rewrite (re_woken _ _ _ _ _ Heff t) by set_solver.
    + apply (re_present _ _ _ _ _ Heff). set_solver.
Qed.

(** A thread that waited in pthread_mutex_lock and was served by an unlock holds the
    mutex when it runs again: it returns 0, is the latest holder, and the threads that wait keep
    their places. *)
Theorem pthread_mutex_lock_resume_spec U (s : posix D) V p id waiters f self k :
  f_self f = self -> f_id f = id -> f_alarm f = None ->
  switch_end (px_kern s) = Ret DNA_OK k -> resource (info (thr self k)) = DNA_NO_RESOURCE ->
  mutex_rep U (set_px_kern k s) V p id (Held waiters) ->
  exists s', pthread_mutex_lock_resume p f s = Ret None s' /\ mutex_rep U s' V p id (Held waiters) /\
    mutexes s' !! p = Some (mkMutex id MUTEX_LOCKED) /\
    latest_holder (sem (raw_index id) (px_kern s')) = thread_id (thr self k) /\
    cpsr (px_kern s') = f_it_status f.
Proof.
  intros Hself Hfid Ha Hsw Hres [Hp (v & Hv & Hlock) Hid Hi Hs Hrep].
  destruct (semaphore_acquire_served U (px_kern s) k V (raw_index id) 0 (mutex_waiters (Held waiters)) f)
    as [Hrun Hrep']; [done|by rewrite Hfid|done|by rewrite Hfid|by rewrite Hself|done|].
  set (k' := set_cpsr _ _) in *.
  exists (set_mutexes (<[p := mkMutex id MUTEX_LOCKED]> (mutexes s)) (set_px_kern k' s)). split_and!.
  - apply wp_run. apply wp_bind. eapply wp_onkernel; [exact Hrun|].
    eapply wp_mutex_locked; [done|exact Hv|]. by rewrite Hlock.
  - split; [done| |done|done| |exact Hrep'].
    + exists (mkMutex id MUTEX_LOCKED). split; [apply lookup_insert_eq|done].
    + unfold k', put_sem, sem. cbn. rewrite lookup_insert_eq. exact Hs.
  - apply lookup_insert_eq.
  - unfold k', put_sem, sem. cbn. by rewrite lookup_insert_eq, Hself.
  - done.
Qed.

(** C35: sem_trywait on a semaphore without tokens does not return EAGAIN: it is sem_wait,
    which puts the caller behind the waiting threads and runs another one. *)
Theorem sem_trywait_blocks U (s : posix D) V p id W self idle :
  p <> 0 -> sem_ids s !! p = Some id -> raw_index id < DNA_MAX_SEM ->
  sem_id (sem (raw_index id) (px_kern s)) = id -> sem_rep U (px_kern s) V (raw_index id) 0 W ->
  running_ok U (px_kern s) V self idle ->
  exists f k2 k3 V3 next, sem_trywait p s = Ret (Switched f) (set_px_kern k2 s) /\
    sem_wait p s = Ret (Switched f) (set_px_kern k2 s) /\ switch_end k2 = Ret DNA_OK k3 /\
    sem_rep U k3 V3 (raw_index id) 0 (W ++ [(self, 1)]) /\
    current_thread (cpu (mp_id (px_kern s)) k3) = Some next /\ next <> self.
Proof.
  intros Hp Hid Hi Hs Hrep Hr.
  destruct (acquire_waits U (px_kern s) V id W 0 self idle Hrep Hr Hi Hs)
    as (f & k2 & k3 & V3 & next & H1 & _ & _ & _ & H2 & Hr3 & _ & Hc & Hne).
  exists f, k2, k3, V3, next. split_and!; try done; apply wp_run.
  all: unfold sem_trywait, sem_wait; rewrite (proj2 (Z.eqb_neq _ _) Hp); cbn [negb].
  all: apply wp_bind; eapply wp_object; [done|exact Hid|]; apply wp_bind.
  all: eapply wp_onkernel; [exact H1|]; by apply wp_ret.
Qed.

End Spec.

(** ** Instances

    The system of Scenario.v, where the semaphore 1 holds one token and the threads (0,5) and (0,6)
    wait for one token of the semaphore 0, with a mutex on each of them, and a C library whose
    malloc always gives the next addresses. *)

#[local] Existing Instance hal2.
#[local] Instance bump_libc : Libc Z := {|
  malloc n := fun d => Ret d (d + n); free _ := ret tt; open _ := ret (-1); close _ := ret 0;
  read _ _ := ret (0, []); write _ _ := ret 0; lseek _ _ := ret 0
|}.

Definition mutex_kern : kstate :=
  put_thr (0, 5) (a_thread 5 2 1 DNA_THREAD_WAITING) (put_sem 1 (mkSem 8 1 [] 1 0) sys).

Definition px : posix Z :=
  mkPosix mutex_kern 0x1000 None {[0x80 := sem_raw 7 0]}
    {[0x100 := mkMutex (sem_raw 8 1) 0; 0x200 := mkMutex (sem_raw 7 0) 1]} ∅ ∅ ∅ ∅ ∅ 0 0 0.

Lemma px_running : running_ok items (px_kern px) Vs (0, 2) (0, 0).
Proof. by destruct sys_running; split. Qed.

Lemma px_sched : sched_ok items (kq mutex_kern) (locks mutex_kern) (cpus mutex_kern) Vs.
Proof. exact sys_sched. Qed.

Lemma px_waiters : sem_rep items (px_kern px) Vs 0 0 [((0, 5), 1); ((0, 6), 1)].
Proof.
  split; try done.
  - exact px_sched.
  - repeat (apply Forall_cons; split); try apply Forall_nil; vm_compute; done.
Qed.

Lemma px_free : mutex_rep items px Vs 0x100 (sem_raw 8 1) Free.
Proof.
  split; [done|by eexists|done|done|done|]. by split; try exact px_sched.
Qed.

Lemma px_held : mutex_rep items px Vs 0x200 (sem_raw 7 0) (Held [(0, 5); (0, 6)]).
Proof. split; [done|by eexists|done|done|done|exact px_waiters]. Qed.

Lemma pthread_mutex_lock_spec_witness :
  (exists s', pthread_mutex_lock 0x100 px = Ret (Returned None) s' /\
     mutex_rep items s' Vs 0x100 (sem_raw 8 1) (Held [])) /\
  pthread_mutex_trylock 0x200 px = Ret (Some EBUSY) px /\
  exists f s2, pthread_mutex_lock 0x200 px = Ret (Switched f) s2.
Proof.
  split; [|split].
  - destruct (pthread_mutex_lock_spec items px Vs 0x100 (sem_raw 8 1) Free (0, 2) (0, 0) px_free px_running)
      as (s' & _ & H1 & H2 & _). by exists s'.
  - exact (proj1 (pthread_mutex_lock_spec items px Vs 0x200 (sem_raw 7 0) _ (0, 2) (0, 0) px_held px_running)).
  - destruct (pthread_mutex_lock_spec items px Vs 0x200 (sem_raw 7 0) _ (0, 2) (0, 0) px_held px_running)
      as (_ & f & s2 & _ & _ & _ & H & _). by exists f, s2.
Defined.

Lemma pthread_mutex_unlock_spec_witness :
  exists (s1 : posix Z) V1, mutex_rep items s1 V1 0x200 (sem_raw 7 0) (Held [(0, 6)]) /\
    t_status (info (thr (0, 5) (px_kern s1))) = DNA_THREAD_READY.
Proof.
  destruct (pthread_mutex_unlock_spec items px Vs 0x200 (sem_raw 7 0) [(0, 5); (0, 6)] px_held)
    as (s1 & V1 & _ & H1 & _ & H2 & _). by exists s1, V1.
Defined.

Lemma sem_trywait_blocks_witness :
  exists (f : acquire_frame) (k2 : kstate), sem_trywait 0x80 px = Ret (Switched f) (set_px_kern k2 px).
Proof.
  destruct (sem_trywait_blocks items px Vs 0x80 (sem_raw 7 0) [((0, 5), 1); ((0, 6), 1)] (0, 2) (0, 0))
    as (f & k2 & _ & _ & _ & H & _); [done|reflexivity|done|done|exact px_waiters|exact px_running|].
  by exists f, k2.
Defined.

(** No thread is left in the pool: pthread_create returns 0 and an object whose [tid] was never
    written. *)
Example pthread_create_without_thread :
  let r := pthread_create (fun _ => [48]) (mkAttr 0 0 0 0 0 0 (mkSched 0 0 0) 0)
    (mkPthread 0 0 0 0 0 0 false) (-559038737) true 0 0x8000 0 px in
  match r with
  | Ret (None, Some t) s => tid <$> pthreads s !! t = Some (-559038737)
  | _ => False
  end.
Proof. vm_compute. reflexivity. Qed.
