(* ===== verification/Dol.v ===== *)
(** * Processes and ports of the DOL library (DolLibrary)

    A process has a thread and two arrays of ports, for its inputs and its outputs.  A port is
    named by a base name and an index in up to three dimensions: dol_port_init opens the device
    of a port and dol_port_get finds its descriptor again.

    The C library is that of Libc.v.  DNA_THREAD_DEFAULTS, which dol_process_create uses, is not
    a macro of DnaCore: it is the argument [defaults].  The objects are named by their addresses,
    NULL is 0, and an array is the list of its ports.  The variable arguments of a call are the
    list [args]. *)

From S2P Require Import Prelude Status CLib Queue Allocator Kernel Logic Memory Scheduler Alarm Thread Semaphore Libc.

Inductive dol_status_t : Type := DOL_OK | DOL_ERROR.
Inductive dol_port_type_t : Type := DOL_IN_PORT | DOL_OUT_PORT.

Definition DOL_PORT_NAME_LENGTH : Z := 64.

Record dol_port_t := mkPort { pt_name : list Z; pt_type : dol_port_type_t; pt_fd : Z }.
Definition with_pt_fd x p := mkPort (pt_name p) (pt_type p) x.

(** [is_scheduling_static] is never used. *)
Record dol_process_info_t := mkDinfo {
  do_thread_id : Z;
  do_canceled : bool;
  n_inputs : Z;
  inputs : Z;
  n_outputs : Z;
  outputs : Z;
  index_n : Z;
  index_x : Z;
  index_y : Z;
  index_z : Z
}.

Record dol (D : Type) := mkDol {
  dol_lib : D;
  dol_kern : kstate;
  dol_infos : gmap Z dol_process_info_t;
  dol_ports : gmap Z (list dol_port_t);
  dol_wptr : gmap Z Z
}.
Arguments mkDol {D}.
Arguments dol_lib {D}.
Arguments dol_kern {D}.
Arguments dol_infos {D}.
Arguments dol_ports {D}.
Arguments dol_wptr {D}.

Definition sizeof_dol_port : Z := 72.
Definition sizeof_dol_process_info : Z := 40.

Section Dol.
Context {D : Type} `{Libc D} `{Hal}.
Context (defaults : thread_info_t) (handler : Z).     (* dol_process_bootstrap, as an address *)
Context (junk_port : dol_port_t).                     (* memory before its first write *)
Context (init : Z -> M (dol D) unit) (fire : Z -> M (dol D) Z).  (* the functions of the processes *)

Definition set_dol_kern v (s : dol D) := mkDol (dol_lib s) v (dol_infos s) (dol_ports s) (dol_wptr s).
Definition set_dol_lib (v : D) (s : dol D) := mkDol v (dol_kern s) (dol_infos s) (dol_ports s) (dol_wptr s).
Definition set_dol_infos v (s : dol D) := mkDol (dol_lib s) (dol_kern s) v (dol_ports s) (dol_wptr s).
Definition set_dol_ports v (s : dol D) := mkDol (dol_lib s) (dol_kern s) (dol_infos s) v (dol_wptr s).
Definition set_dol_wptr v (s : dol D) := mkDol (dol_lib s) (dol_kern s) (dol_infos s) (dol_ports s) v.
Definition ondolk {A} (m : K A) : M (dol D) A := lift dol_kern set_dol_kern m.
Definition ondoll {A} (m : M D A) : M (dol D) A := lift dol_lib set_dol_lib m.

(** p -> wptr, and what it points to. *)
Definition rd_process (p : Z) : M (dol D) (Z * dol_process_info_t) :=
  let* m := gets dol_wptr in
  let* a := deref (m !! p) in
  let* m := gets dol_infos in
  let* i := deref (m !! a) in ret (a, i).

(** An array of [n] ports at [a]; its update. *)
Definition rd_ports (a n : Z) : M (dol D) (list dol_port_t) :=
  if n <=? 0 then ret []
  else
    let* m := gets dol_ports in
    let* l := deref (m !! a) in
    if Z.of_nat (length l) =? n then ret l else fault.
Definition wr_port (a index : Z) (port : dol_port_t) : M (dol D) unit :=
  let* m := gets dol_ports in
  let* l := deref (m !! a) in
  if (0 <=? index) && (index <? Z.of_nat (length l))
  then modify (fun s => set_dol_ports (<[a := <[Z.to_nat index := port]> l]> (dol_ports s)) s) else fault.
Definition port_at (l : list dol_port_t) (index : Z) : M (dol D) dol_port_t :=
  if 0 <=? index then deref (l !! Z.to_nat index) else fault.

(** "Compute the port offset": pairs of an index and a range. *)
Definition va_pair (first : bool) (acc : Z * Z * list Z) : M (dol D) (Z * Z * list Z) :=
  match acc with
  | (offset, range, x :: r :: args) => ret (i32 (offset + (if first then x else i32 (x * range))), r, args)
  | _ => fault
  end.
Definition port_offset (n : Z) (args : list Z) : M (dol D) Z :=
  let* a := (if 1 <=? n then va_pair true (0, 0, args) else ret (0, 0, args)) in
  let* a := (if 2 <=? n then va_pair false a else ret a) in
  let* a := (if n =? 3 then va_pair false a else ret a) in
  ret a.1.1.

(** The index of the first port that satisfies a test, or the length of the array. *)
Fixpoint find_port (test : dol_port_t -> bool) (l : list dol_port_t) : Z :=
  match l with
  | [] => 0
  | port :: l => if test port then 0 else 1 + find_port test l
  end.
Definition free_port (port : dol_port_t) : bool := pt_fd port =? 0.
Definition named (name : list Z) (port : dol_port_t) : bool :=
  negb (pt_fd port =? 0) && bool_decide (pt_name port = name).

(** "Get the right port", and "Fill-in port information and open its device". *)
Definition open_port (port_array array_size offset : Z) (name : list Z) (type : dol_port_type_t) (path : list Z)
    : M (dol D) dol_status_t :=
  let* l := rd_ports port_array array_size in
  let index := if offset =? 0 then find_port free_port l else find_port (named name) l in
  if index =? Z.of_nat (length l) then ret DOL_ERROR
  else
    let index := if offset =? 0 then index else i32 (index + offset) in
    let* port := port_at l index in
    if Z.of_nat (length name) <? DOL_PORT_NAME_LENGTH then
      wr_port port_array index (mkPort name type (pt_fd port)) ;;
      let* fd := ondoll (open path) in
      wr_port port_array index (mkPort name type (i16 fd)) ;;
      if i16 fd =? -1 then
        wr_port port_array index (mkPort name type 0) ;;
        ret DOL_ERROR
      else ret DOL_OK
    else fault.

Definition dol_port_init (p : Z) (name : list Z) (type : dol_port_type_t) (path : list Z) (n : Z) (args : list Z)
    : M (dol D) dol_status_t :=
  let* i := rd_process p in
  let* offset := port_offset n args in
  match type with
  | DOL_IN_PORT => open_port (inputs i.2) (n_inputs i.2) offset name type path
  | DOL_OUT_PORT => open_port (outputs i.2) (n_outputs i.2) offset name type path
  end.

(** The status and [*port]. *)
Definition dol_port_get (p : Z) (name : list Z) (n : Z) (args : list Z) : M (dol D) (dol_status_t * option Z) :=
  let* i := rd_process p in
  let* offset := port_offset n args in
  let* l := rd_ports (inputs i.2) (n_inputs i.2) in
  let index := find_port (named name) l in
  if negb (index =? Z.of_nat (length l)) then
    let* port := port_at l (i32 (index + offset)) in ret (DOL_OK, Some (pt_fd port))
  else
    let* l := rd_ports (outputs i.2) (n_outputs i.2) in
    let index := find_port (named name) l in
    if index =? Z.of_nat (length l) then ret (DOL_ERROR, None)
    else
      let* port := port_at l (i32 (index + offset)) in ret (DOL_OK, Some (pt_fd port)).

(** malloc of an array of ports, of which memset clears the first one only. *)
Definition alloc_ports (n : Z) : M (dol D) Z :=
  let* a := ondoll (malloc (u32 (n * sizeof_dol_port))) in
  if a =? 0 then fault
  else
    modify (fun s => set_dol_ports (<[a := replicate (Z.to_nat n) junk_port]> (dol_ports s)) s) ;;
    wr_port a 0 (mkPort [] DOL_IN_PORT 0) ;;
    ret a.

(** The results of malloc are not tested, the status of thread_create is ignored. *)
Definition dol_process_create (p : Z) (name : list Z) (inports outports n : Z) (args : list Z) : M (dol D) dol_status_t :=
  let* info := ondoll (malloc sizeof_dol_process_info) in
  if info =? 0 then fault
  else
    let* i := (if negb (inports =? 0) then alloc_ports inports else ret 0) in
    let* o := (if negb (outports =? 0) then alloc_ports outports else ret 0) in
    let* x := (if 1 <=? n then deref (args !! 0%nat) else ret 0) in
    let* y := (if 2 <=? n then deref (args !! 1%nat) else ret 0) in
    let* z := (if n =? 3 then deref (args !! 2%nat) else ret 0) in
    let* name := ondolk (strcpy_name name) in
    let* r := ondolk (thread_create handler p (with_t_name name defaults) true) in
    modify (fun s => set_dol_infos (<[info := mkDinfo (default 0 r.2) false inports i outports o n x y z]> (dol_infos s)) s) ;;
    modify (fun s => set_dol_wptr (<[p := info]> (dol_wptr s)) s) ;;
    ret DOL_OK.

Definition dol_process_get_index (p dim : Z) : M (dol D) Z :=
  let* i := rd_process p in
  ret (if dim =? 1 then index_x i.2 else if dim =? 2 then index_y i.2 else if dim =? 3 then index_z i.2 else 0).

Definition dol_process_start (p : Z) : M (dol D) unit :=
  let* i := rd_process p in
  ondolk (thread_resume (do_thread_id i.2)) ;; ret tt.

Definition dol_process_wait (p : Z) : M (dol D) (switched unit (Z * Z * bool)) :=
  let* i := rd_process p in
  let* r := ondolk (thread_wait (do_thread_id i.2) false) in
  match r with Returned _ => ret (Returned tt) | Switched f => ret (Switched f) end.
Definition dol_process_wait_resume (f : Z * Z * bool) : M (dol D) unit :=
  ondolk (thread_wait_resume f) ;; ret tt.

Definition dol_process_cancel (p : Z) : M (dol D) unit :=
  let* i := rd_process p in
  let v := i.2 in
  modify (fun s => set_dol_infos (<[i.1 := mkDinfo (do_thread_id v) true (n_inputs v) (inputs v) (n_outputs v)
    (outputs v) (index_n v) (index_x v) (index_y v) (index_z v)]> (dol_infos s)) s).

(** while (! info -> canceled) p -> fire (p); *)
Fixpoint dol_fire_loop (fuel : nat) (p : Z) : M (dol D) unit :=
  match fuel with
  | O => diverge
  | S fuel =>
      let* i := rd_process p in
      if negb (do_canceled i.2) then fire p ;; dol_fire_loop fuel p else ret tt
  end.
Definition dol_process_bootstrap (fuel : nat) (p : Z) : M (dol D) Z :=
  init p ;;
  dol_fire_loop fuel p ;;
  ret 0.

Definition DOL_read (port n : Z) : M (dol D) (Z * list Z) := ondoll (read (i16 (i32 port)) n).
Definition DOL_write (port : Z) (data : list Z) : M (dol D) Z := ondoll (write (i16 (i32 port)) data).

End Dol.

(** ** An array of ports *)

Section Arrays.
Context {D : Type} `{Libc D}.

(** [p] has the ports [l] of the direction [type]; a name is looked for among the inputs first,
    and for an output none of them has it. *)
Record process_ports (p : Z) (type : dol_port_type_t) (name : list Z) (l : list dol_port_t) (s : dol D) : Prop := {
  pp_fits : Z.of_nat (length l) < 2147483648;
  pp_info : exists a i, dol_wptr s !! p = Some a /\ dol_infos s !! a = Some i /\
    match type with
    | DOL_IN_PORT => dol_ports s !! inputs i = Some l /\ n_inputs i = Z.of_nat (length l)
    | DOL_OUT_PORT => dol_ports s !! outputs i = Some l /\ n_outputs i = Z.of_nat (length l) /\
        inputs i <> outputs i /\ exists l', dol_ports s !! inputs i = Some l' /\
        n_inputs i = Z.of_nat (length l') /\ Forall (fun q => named name q = false) l'
    end
}.

Lemma find_port_first test l1 q l2 :
  Forall (fun q => test q = false) l1 -> test q = true -> find_port test (l1 ++ q :: l2) = Z.of_nat (length l1).
Proof.
  intros Hl Hq. induction Hl as [|x l Hx Hl IH]; cbn; [by rewrite Hq|]. rewrite Hx, IH. lia.
Qed.
Lemma find_port_none test l : Forall (fun q => test q = false) l -> find_port test l = Z.of_nat (length l).
Proof. induction 1 as [|x l Hx Hl IH]; cbn; [done|]. rewrite Hx, IH. lia. Qed.

(** An array of ports in one or two dimensions: the arguments that name the element of rank [k],
    the first index varying first, and the elements that exist. *)
Inductive shape : Type := D1 (m : Z) | D2 (mx my : Z).
Definition shape_dims (sh : shape) : Z := match sh with D1 _ => 1 | D2 _ _ => 2 end.
Definition shape_args (sh : shape) (k : Z) : list Z :=
  match sh with D1 m => [k; m] | D2 mx my => [k mod mx; mx; k / mx; my] end.
Definition shape_ok (sh : shape) : Prop :=
  match sh with D1 _ => True | D2 mx _ => 0 < mx end.

(** The calls that initialise the elements of rank [k], [k + 1], ... of an array. *)
Fixpoint init_array (p : Z) (name : list Z) (type : dol_port_type_t) (sh : shape) (k : Z) (paths : list (list Z)) : M (dol D) (list dol_status_t) :=
  match paths with
  | [] => ret []
  | path :: paths =>
      let* st := dol_port_init p name type path (shape_dims sh) (shape_args sh k) in
      let* sts := init_array p name type sh (k + 1) paths in
      ret (st :: sts)
  end.

Lemma wp_rd_process p a i Q (s : dol D) :
  dol_wptr s !! p = Some a -> dol_infos s !! a = Some i -> Q (a, i) s -> wp (rd_process p) Q s.
Proof.
  intros Ha Hi HQ. unfold rd_process. apply wp_bind, wp_gets. rewrite Ha. apply wp_bind, wp_ret, wp_bind, wp_gets.
  rewrite Hi. by apply wp_bind, wp_ret, wp_ret.
Qed.

Lemma wp_rd_ports a n l Q (s : dol D) :
  dol_ports s !! a = Some l -> n = Z.of_nat (length l) -> Q l s -> wp (rd_ports a n) Q s.
Proof.
  intros Ha -> HQ. unfold rd_ports. destruct (_ <=? 0) eqn:Hn; zbool.
  - destruct l; [by apply wp_ret|cbn in Hn; lia].
  - apply wp_bind, wp_gets. rewrite Ha. apply wp_bind, wp_ret. rewrite Z.eqb_refl. by apply wp_ret.
Qed.

Lemma wp_wr_port a l1 q l2 q' Q (s : dol D) :
  dol_ports s !! a = Some (l1 ++ q :: l2) ->
  Q tt (set_dol_ports (<[a := l1 ++ q' :: l2]> (dol_ports s)) s) -> wp (wr_port a (Z.of_nat (length l1)) q') Q s.
Proof.
  intros Ha HQ. unfold wr_port. apply wp_bind, wp_gets. rewrite Ha. apply wp_bind, wp_ret.
  rewrite length_app. cbn [length]. rewrite (proj2 (Z.leb_le _ _)), (proj2 (Z.ltb_lt _ _)) by lia. cbn [andb].
  apply wp_modify. rewrite Nat2Z.id, insert_app_r_alt, Nat.sub_diag by lia. exact HQ.
Qed.

Lemma wp_port_at l1 q l2 Q (s : dol D) : Q q s -> wp (port_at (l1 ++ q :: l2) (Z.of_nat (length l1))) Q s.
Proof.
  intros HQ. unfold port_at. rewrite (proj2 (Z.leb_le _ _)) by lia. rewrite Nat2Z.id, list_lookup_middle by done.
  by apply wp_ret.
Qed.

(** The offset computed from the indices is the rank. *)
Lemma wp_port_offset sh k Q (s : dol D) :
  shape_ok sh -> 0 <= k < 2147483648 -> Q k s -> wp (port_offset (shape_dims sh) (shape_args sh k)) Q s.
Proof.
  intros Hsh Hk HQ. unfold wp, port_offset, va_pair, bind, ret. destruct sh as [m|mx my];
    cbn [shape_dims shape_args Z.leb Z.eqb Z.compare Pos.compare Pos.compare_cont Pos.eqb fst].
  - by rewrite Z.add_0_l, i32_id by lia.
  - cbn in Hsh. pose proof (Z.mod_pos_bound k mx Hsh) as Hm. pose proof (Z.div_mod k mx ltac:(lia)) as Hd.
    assert (0 <= k / mx) as Hq by (apply Z.div_pos; lia).
    rewrite Z.add_0_l. rewrite (i32_id (k mod mx)) by nia. rewrite (i32_id (k / mx * mx)) by nia.
    replace (k mod mx + k / mx * mx) with k by lia. by rewrite i32_id by lia.
Qed.

(** The elements of an array that are initialised. *)
Definition element (name : list Z) (type : dol_port_type_t) (fd : Z) : dol_port_t := mkPort name type fd.

Lemma element_named name type fds : Forall (fun fd => fd <> 0) fds -> Forall (fun q => named name q = true) (element name type <$> fds).
Proof.
  intros Hf. apply Forall_fmap. eapply Forall_impl; [exact Hf|]. intros fd Hfd. unfold named, element. cbn.
  by rewrite (proj2 (Z.eqb_neq _ _)), bool_decide_true.
Qed.

(** The port that open_port takes: the first free one for the element 0, and for the next
    ones the one that follows the elements that are initialised. *)
Lemma open_index name type l1 fds q rest :
  Forall (fun x => pt_fd x <> 0 /\ named name x = false) l1 -> Forall (fun fd => fd <> 0) fds ->
  (fds = [] -> pt_fd q = 0) ->
  let l := l1 ++ (element name type <$> fds) ++ q :: rest in
  Z.of_nat (length l) < 2147483648 ->
  let offset := Z.of_nat (length fds) in
  let index := if offset =? 0 then find_port free_port l else find_port (named name) l in
  index <> Z.of_nat (length l) /\
  (if offset =? 0 then index else i32 (index + offset)) = Z.of_nat (length (l1 ++ (element name type <$> fds))).
Proof.
  intros Hl1 Hf Hq l Hfit offset index. subst l offset index.
  destruct fds as [|fd fds].
  - change (Z.of_nat (length (@nil Z)) =? 0) with true. cbn [fmap list_fmap app]. rewrite find_port_first; [|eapply Forall_impl; [exact Hl1|]|unfold free_port; by rewrite Hq].
    + rewrite app_nil_r, length_app. cbn. split; [lia|done].
    + intros x [Hx _]. by apply Z.eqb_neq.
  - rewrite (proj2 (Z.eqb_neq _ _)) by (cbn; lia). apply Forall_cons in Hf as [Hfd _].
    rewrite fmap_cons. cbn [app]. rewrite find_port_first.
    + rewrite !length_app in *. cbn [length fmap list_fmap] in *. rewrite length_app, length_fmap in *. cbn [length] in *.
      split; [lia|]. rewrite i32_id; lia.
    + eapply Forall_impl; [exact Hl1|]. by intros x [_ Hx].
    + unfold named, element. cbn. by rewrite (proj2 (Z.eqb_neq _ _)), bool_decide_true.
Qed.

Lemma wp_open_port a n name type path fd d' l1 fds q rest Q (s : dol D) :
  let l := l1 ++ (element name type <$> fds) ++ q :: rest in
  dol_ports s !! a = Some l -> n = Z.of_nat (length l) -> Z.of_nat (length l) < 2147483648 ->
  Forall (fun x => pt_fd x <> 0 /\ named name x = false) l1 -> Forall (fun fd => fd <> 0) fds ->
  (fds = [] -> pt_fd q = 0) -> open path (dol_lib s) = Ret fd d' -> i16 fd <> -1 ->
  Z.of_nat (length name) < DOL_PORT_NAME_LENGTH ->
  Q DOL_OK (set_dol_lib d' (set_dol_ports
     (<[a := l1 ++ (element name type <$> (fds ++ [i16 fd])) ++ rest]> (dol_ports s)) s)) ->
  wp (open_port a n (Z.of_nat (length fds)) name type path) Q s.
Proof.
  intros l Ha Hn Hfit Hl1 Hf Hq Hopen Hfd Hname HQ.
  destruct (open_index name type l1 fds q rest Hl1 Hf Hq Hfit) as [Hne Hix].
  subst l. unfold open_port. apply wp_bind. eapply wp_rd_ports; [exact Ha|exact Hn|]. cbv zeta.
  rewrite (proj2 (Z.eqb_neq _ _) Hne), Hix. rewrite app_assoc in Ha |- *.
  apply wp_bind, wp_port_at. rewrite (proj2 (Z.ltb_lt _ _) Hname).
  apply wp_bind. eapply wp_wr_port; [exact Ha|].
  apply wp_bind, wp_lift. eapply wp_eq; [exact Hopen|]. apply wp_bind.
  eapply wp_wr_port; [apply lookup_insert_eq|]. rewrite (proj2 (Z.eqb_neq _ _) Hfd). apply wp_ret.
  rewrite fmap_app, <- !app_assoc in HQ. cbn in HQ |- *. rewrite insert_insert_eq.
  by rewrite <- app_assoc.
Qed.

(** The library, from the state [d], opens the paths one after the other on the descriptors
    [fds] that dol_port_t can store (0 marks a free port), and is then in the state [d']. *)
Inductive opens : D -> list (list Z) -> list Z -> D -> Prop :=
| opens_nil d : opens d [] [] d
| opens_cons d path fd d1 paths fds d2 :
    open path d = Ret fd d1 -> i16 fd <> 0 -> i16 fd <> -1 ->
    opens d1 paths fds d2 -> opens d (path :: paths) (fd :: fds) d2.

Lemma opens_stored d paths fds d' : opens d paths fds d' -> Forall (fun fd => fd <> 0) (i16 <$> fds).
Proof. induction 1 as [|d path fd d1 paths fds d2 Ho H0 H1 Hos IH]; by constructor. Qed.

Lemma dol_port_init_ok p type name path fd d' l1 fds q rest sh (s : dol D) :
  process_ports p type name (l1 ++ (element name type <$> fds) ++ q :: rest) s ->
  Forall (fun x => pt_fd x <> 0 /\ named name x = false) l1 -> Forall (fun fd => fd <> 0) fds ->
  (fds = [] -> pt_fd q = 0) -> open path (dol_lib s) = Ret fd d' -> i16 fd <> -1 ->
  Z.of_nat (length name) < DOL_PORT_NAME_LENGTH -> shape_ok sh ->
  wp (dol_port_init p name type path (shape_dims sh) (shape_args sh (Z.of_nat (length fds))))
    (fun st s' => st = DOL_OK /\ dol_lib s' = d' /\
       process_ports p type name (l1 ++ (element name type <$> (fds ++ [i16 fd])) ++ rest) s') s.
Proof.
  intros [Hfit (a & i & Ha & Hi & Hp)] Hl1 Hf Hq Hopen Hfd Hname Hsh. unfold dol_port_init.
  assert (length (l1 ++ (element name type <$> (fds ++ [i16 fd])) ++ rest) =
          length (l1 ++ (element name type <$> fds) ++ q :: rest)) as Hlen.
  { rewrite fmap_app, !length_app. cbn. lia. }
  apply wp_bind. eapply wp_rd_process; [exact Ha|exact Hi|]. apply wp_bind, wp_port_offset; [done| |].
  { rewrite !length_app, length_fmap in Hfit. lia. }
  destruct type; [destruct Hp as (Hl & Hn)|destruct Hp as (Hl & Hn & Hne & l' & Hl' & Hn' & Hno)];
    (eapply (wp_open_port _ _ _ _ _ fd d'); [exact Hl|exact Hn|exact Hfit|exact Hl1|exact Hf|exact Hq|exact Hopen|exact Hfd|exact Hname|]; split; [done|]; split; [done|]; split; [by rewrite Hlen|];
     exists a, i; split; [done|]; split; [done|]).
  - split; [apply lookup_insert_eq|by rewrite Hlen].
  - split_and!; [apply lookup_insert_eq|by rewrite Hlen|done|]. exists l'. cbn. by rewrite lookup_insert_ne by done.
Qed.

Lemma init_array_ok p type name sh l1 paths : forall fds new d' rest (s : dol D),
  process_ports p type name (l1 ++ (element name type <$> fds) ++ rest) s ->
  Forall (fun x => pt_fd x <> 0 /\ named name x = false) l1 -> Forall (fun fd => fd <> 0) fds ->
  (fds = [] -> forall q, List.hd_error rest = Some q -> pt_fd q = 0) -> opens (dol_lib s) paths new d' ->
  (length paths <= length rest)%nat -> Z.of_nat (length name) < DOL_PORT_NAME_LENGTH -> shape_ok sh ->
  wp (init_array p name type sh (Z.of_nat (length fds)) paths) (fun sts s' => sts = replicate (length paths) DOL_OK /\
    dol_lib s' = d' /\
    exists rest', process_ports p type name (l1 ++ (element name type <$> (fds ++ (i16 <$> new))) ++ rest') s') s.
Proof.
  induction paths as [|path paths IH]; intros fds new d' rest s Hp Hl1 Hf Hq Ho Hlen Hname Hsh;
    inversion Ho as [|? ? fd d1 ? new' ? Hop H0 H1 Ho']; subst.
  - apply wp_ret. split; [done|]. split; [done|]. exists rest. cbn. by rewrite app_nil_r.
  - destruct rest as [|q rest]; [cbn in Hlen; lia|]. cbn [init_array]. apply wp_bind.
    eapply wp_mono; [eapply dol_port_init_ok; [exact Hp|done|done| |exact Hop|done|done|done]|].
    { intros ->. by apply Hq. }
    cbn beta. intros st s1 (-> & Hl & Hp1). apply wp_bind.
    replace (Z.of_nat (length fds) + 1) with (Z.of_nat (length (fds ++ [i16 fd]))) by (rewrite length_app; cbn; lia).
    eapply wp_mono; [eapply (IH _ new' d'); [exact Hp1|done| | |by rewrite Hl| |done|done]|].
    + apply Forall_app. split; [done|]. by repeat constructor.
    + intros Hnil. by destruct fds.
    + cbn in Hlen. lia.
    + cbn beta. intros sts s2 (-> & Hl2 & rest' & Hp2). apply wp_ret. split; [done|]. split; [done|].
      exists rest'. by rewrite <- app_assoc in Hp2.
Qed.

Lemma dol_port_get_ok p type name l1 fds rest j fd sh (s : dol D) :
  process_ports p type name (l1 ++ (element name type <$> fds) ++ rest) s ->
  Forall (fun x => pt_fd x <> 0 /\ named name x = false) l1 -> Forall (fun fd => fd <> 0) fds -> fds !! j = Some fd -> shape_ok sh ->
  dol_port_get p name (shape_dims sh) (shape_args sh (Z.of_nat j)) s = Ret (DOL_OK, Some fd) s.
Proof.
  intros [Hfit (a & i & Ha & Hi & Hp)] Hl1 Hf Hj Hsh. set (l := l1 ++ (element name type <$> fds) ++ rest) in *.
  assert (find_port (named name) l = Z.of_nat (length l1)) as Hfind.
  { destruct fds as [|f fds]; [done|]. apply find_port_first; [eapply Forall_impl; [exact Hl1|]; by intros x [_ Hx]|].
    apply Forall_cons in Hf as [Hf _]. unfold named, element. cbn. by rewrite (proj2 (Z.eqb_neq _ _)), bool_decide_true. }
  pose proof (lookup_lt_Some _ _ _ Hj) as Hlt.
  assert (length l = (length l1 + length fds + length rest)%nat) as Hlen by (unfold l; rewrite !length_app, length_fmap; lia).
  assert (l !! (length l1 + j)%nat = Some (element name type fd)) as Hlk.
  { unfold l. rewrite lookup_app_r by lia. rewrite lookup_app_l by (rewrite length_fmap; lia).
    replace (length l1 + j - length l1)%nat with j by lia. by rewrite list_lookup_fmap, Hj. }
  assert (forall Q : dol_port_t -> dol D -> Prop, Q (element name type fd) s -> wp (port_at l (i32 (find_port (named name) l + Z.of_nat j))) Q s) as Hat.
  { intros Q HQ. rewrite Hfind, i32_id by lia. unfold port_at. rewrite (proj2 (Z.leb_le _ _)) by lia.
    replace (Z.to_nat (Z.of_nat (length l1) + Z.of_nat j)) with (length l1 + j)%nat by lia. rewrite Hlk. by apply wp_ret. }
  apply wp_run. unfold dol_port_get. apply wp_bind. eapply wp_rd_process; [exact Ha|exact Hi|].
  apply wp_bind, wp_port_offset; [done|lia|]. destruct type.
  - destruct Hp as (Hl & Hn). apply wp_bind. eapply wp_rd_ports; [exact Hl|exact Hn|]. cbv zeta.
    rewrite (proj2 (Z.eqb_neq (find_port _ l) _)) by (rewrite Hfind; lia). apply wp_bind, Hat. by apply wp_ret.
  - destruct Hp as (Hl & Hn & Hne & l' & Hl' & Hn' & Hno). apply wp_bind. eapply wp_rd_ports; [exact Hl'|exact Hn'|]. cbv zeta.
    rewrite (find_port_none _ _ Hno), Z.eqb_refl. apply wp_bind. eapply wp_rd_ports; [exact Hl|exact Hn|]. cbv zeta.
    rewrite (proj2 (Z.eqb_neq (find_port _ l) _)) by (rewrite Hfind; lia). apply wp_bind, Hat. by apply wp_ret.
Qed.

(** C32: the ports of an array in one or two dimensions are found again: when the first
    free port of a process follows ports of other names, there is room for the array, and the
    library opens the devices of its elements one after the other, the calls of dol_port_init for
    the elements, in the order of their ranks, all succeed, each with one open, and
    dol_port_get then gives for the indices of each element the descriptor of its own device.  In
    three dimensions two elements may share a port ([dol_ports_collide]). *)
Theorem dol_ports_connected p type name l1 q rest sh paths fds d' (s : dol D) :
  process_ports p type name (l1 ++ q :: rest) s ->
  Forall (fun x => pt_fd x <> 0 /\ named name x = false) l1 -> pt_fd q = 0 ->
  opens (dol_lib s) paths fds d' -> (length paths <= S (length rest))%nat ->
  Z.of_nat (length name) < DOL_PORT_NAME_LENGTH -> shape_ok sh ->
  exists s', init_array p name type sh 0 paths s = Ret (replicate (length paths) DOL_OK) s' /\
    dol_lib s' = d' /\
    forall j fd, fds !! j = Some fd ->
      dol_port_get p name (shape_dims sh) (shape_args sh (Z.of_nat j)) s' = Ret (DOL_OK, Some (i16 fd)) s'.
Proof.
  intros Hp Hl1 Hq Ho Hlen Hname Hsh.
  pose proof (init_array_ok p type name sh l1 paths [] fds d' (q :: rest) s Hp Hl1 ltac:(constructor)
    ltac:(by intros _ q' [= <-]) Ho Hlen Hname Hsh) as Hw.
  apply wp_exists in Hw as (sts & s' & Hr & -> & Hl & rest' & Hp'). exists s'. split; [exact Hr|]. split; [done|].
  cbn [app] in Hp'. intros j fd Hj. eapply dol_port_get_ok; [exact Hp'|done|by eapply opens_stored| |done].
  by rewrite list_lookup_fmap, Hj.
Qed.

End Arrays.

(** ** Instances

    A C library whose state is the lowest free descriptor, on which open opens any path, and a
    process at 0x10 with twelve input ports, of which the first one is already used. *)

#[local] Instance fd_libc : Libc Z := {|
  malloc _ := ret 0; free _ := ret tt; open _ := fun d => Ret d (d + 1); close _ := ret 0;
  read _ _ := ret (0, []); write _ _ := ret 0; lseek _ _ := ret 0
|}.

Definition blank_port : dol_port_t := mkPort [] DOL_IN_PORT 0.
Definition dol_state (first : dol_port_t) : dol Z :=
  mkDol 40 boot_kern {[0x20 := mkDinfo 0 false 12 0x30 0 0 1 0 0 0]} {[0x30 := first :: replicate 11 blank_port]} {[0x10 := 0x20]}.

(** The elements of an array of 2 x 2 ports. *)
Lemma dol_ports_connected_witness :
  exists s', init_array 0x10 [120] DOL_IN_PORT (D2 2 2) 0 [[1]; [2]; [3]; [4]] (dol_state (mkPort [97] DOL_IN_PORT 39)) =
      Ret [DOL_OK; DOL_OK; DOL_OK; DOL_OK] s' /\
    dol_port_get 0x10 [120] 2 [0; 2; 1; 2] s' = Ret (DOL_OK, Some 42) s'.
Proof.
  destruct (dol_ports_connected 0x10 DOL_IN_PORT [120] [mkPort [97] DOL_IN_PORT 39] blank_port (replicate 10 blank_port)
    (D2 2 2) [[1]; [2]; [3]; [4]] [40; 41; 42; 43] 44 (dol_state (mkPort [97] DOL_IN_PORT 39))) as (s' & Hr & _ & Hg).
  - split; [cbn; lia|]. by eexists _, _.
  - by repeat constructor.
  - done.
  - do 4 (eapply opens_cons; [reflexivity|done|done|]). apply opens_nil.
  - cbn. lia.
  - cbn. unfold DOL_PORT_NAME_LENGTH. lia.
  - cbn. lia.
  - exists s'. split; [exact Hr|]. exact (Hg 2%nat 42 eq_refl).
Defined.

(** In an array of 2 x 3 x 2 ports the elements (1, 1, 0) and (0, 0, 1) are the same port. *)
Example dol_ports_collide :
  match (let* a := dol_port_init 0x10 [120] DOL_IN_PORT [40] 3 [0; 2; 0; 3; 0; 2] in
         let* b := dol_port_init 0x10 [120] DOL_IN_PORT [41] 3 [1; 2; 1; 3; 0; 2] in
         let* c := dol_port_init 0x10 [120] DOL_IN_PORT [42] 3 [0; 2; 0; 3; 1; 2] in
         let* d := dol_port_get 0x10 [120] 3 [1; 2; 1; 3; 0; 2] in ret ([a; b; c], d)) (dol_state blank_port) with
  | Ret r _ => r = ([DOL_OK; DOL_OK; DOL_OK], (DOL_OK, Some 42))
  | _ => False
  end.
Proof. vm_compute. reflexivity. Qed.
