(* ===== verification/Kpn.v ===== *)
(** * Kahn process network channels (KahnProcessNetworkLibrary)

    A channel moves bytes through a file descriptor, directly or through a buffer that
    is exchanged with the descriptor as a whole, with the C library of Libc.v.

    The channels and their buffers are objects named by their addresses, 0 being NULL;
    an access to another address is a fault, and so is an access after the end of a
    buffer.  The bytes of the arguments [data] are a list.

    The theorems relate a buffered channel to the stream of its bytes. *)

From S2P Require Import Prelude Libc.

Inductive kpn_status_t : Type := KPN_OK | KPN_ERROR | KPN_OUT_OF_MEM | KPN_NO_ENTRY.

Record kpn_channel_t := mkChannel {
  c_name : list Z;
  c_fd : Z;
  c_size : Z;
  c_level : Z;
  c_position : Z;
  c_data : Z
}.

Record kpn (D : Type) := mkKpn {
  lib : D;
  channels : gmap Z kpn_channel_t;
  buffers : gmap Z (list Z)
}.
Arguments mkKpn {D}.
Arguments lib {D}.
Arguments channels {D}.
Arguments buffers {D}.

Section Kpn.
Context {D : Type} `{Libc D}.
Implicit Types s : kpn D.

Definition onlib {A} (m : M D A) : M (kpn D) A := lift lib (fun d s => mkKpn d (channels s) (buffers s)) m.

Definition rd_channel (c : Z) : M (kpn D) kpn_channel_t := let* m := gets channels in deref (m !! c).
Definition wr_channel (c : Z) (f : kpn_channel_t -> kpn_channel_t) : M (kpn D) unit :=
  let* v := rd_channel c in modify (fun s => mkKpn (lib s) (<[c := f v]> (channels s)) (buffers s)).
Definition rd_buffer (p : Z) : M (kpn D) (list Z) := let* m := gets buffers in deref (m !! p).
Definition wr_buffer (p : Z) (l : list Z) : M (kpn D) unit :=
  let* _ := rd_buffer p in modify (fun s => mkKpn (lib s) (channels s) (<[p := l]> (buffers s))).

Definition with_level x v := mkChannel (c_name v) (c_fd v) (c_size v) x (c_position v) (c_data v).
Definition with_position x v := mkChannel (c_name v) (c_fd v) (c_size v) (c_level v) x (c_data v).

(** read (c -> fd, c -> data, c -> size): the bytes read replace those of the buffer;
    the result is that of read. *)
Definition refill (c : Z) : M (kpn D) Z :=
  let* v := rd_channel c in
  let* r := onlib (read (c_fd v) (c_size v)) in
  let* l := rd_buffer (c_data v) in
  let* l := patch 0 r.2 l in
  wr_buffer (c_data v) l ;;
  ret r.1.

(** write (c -> fd, c -> data, c -> size) *)
Definition flush_buffer (c : Z) : M (kpn D) Z :=
  let* v := rd_channel c in
  let* l := rd_buffer (c_data v) in
  let* b := slice 0 (c_size v) l in
  onlib (write (c_fd v) b).

(** The status and [*channel]. *)
Definition kpn_channel_create (name : list Z) (buffer_size : Z) : M (kpn D) (kpn_status_t * Z) :=
  let* c := onlib (malloc 24) in
  ensure negb (c =? 0) orelse (KPN_OUT_OF_MEM, 0) in
  let* fd := onlib (open name) in
  let vfs_error (status : kpn_status_t) : M (kpn D) (kpn_status_t * Z) :=
    onlib (free c) ;; ret (status, 0) in
  check negb (i16 fd =? -1) rescue vfs_error KPN_NO_ENTRY in
  let data_error : M (kpn D) (kpn_status_t * Z) :=
    onlib (close (i16 fd)) ;; vfs_error KPN_OUT_OF_MEM in
  let* data := (if negb (buffer_size =? 0) then onlib (malloc (u32 buffer_size)) else ret 0) in
  check (buffer_size =? 0) || negb (data =? 0) rescue data_error in
  let* p := onlib (malloc (Z.of_nat (length name) + 1)) in
  check negb (p =? 0)
    rescue ((if negb (buffer_size =? 0) then onlib (free data) else ret tt) ;; data_error) in
  modify (fun s => mkKpn (lib s) (<[c := mkChannel name (i16 fd) buffer_size 0 0 data]> (channels s))
    (if negb (buffer_size =? 0) then <[data := replicate (Z.to_nat buffer_size) 0]> (buffers s) else buffers s)) ;;
  ret (KPN_OK, c).

(** while (counter != 0) ...: [counter] is the number of bytes of [data]. *)
Fixpoint write_loop (fuel : nat) (c : Z) (data : list Z) : M (kpn D) kpn_status_t :=
  match fuel with
  | O => diverge
  | S fuel =>
      let counter := Z.of_nat (length data) in
      if negb (counter =? 0) then
        let* v := rd_channel c in
        let n := if counter <=? i32 (c_size v - c_level v) then counter else i32 (c_size v - c_level v) in
        let* b := slice 0 n data in
        let* l := rd_buffer (c_data v) in
        let* l := patch (c_position v) b l in
        wr_buffer (c_data v) l ;;
        wr_channel c (fun v => with_position (i32 (c_position v + n)) v) ;;
        wr_channel c (fun v => with_level (i32 (c_level v + n)) v) ;;
        let* v := rd_channel c in
        if c_level v =? c_size v then
          let* res := flush_buffer c in
          ensure negb (res =? -1) orelse KPN_ERROR in
          wr_channel c (with_level 0) ;;
          wr_channel c (with_position 0) ;;
          write_loop fuel c (drop (Z.to_nat n) data)
        else write_loop fuel c (drop (Z.to_nat n) data)
      else ret KPN_OK
  end.

Definition kpn_channel_write (c : Z) (data : list Z) : M (kpn D) kpn_status_t :=
  let* v := rd_channel c in
  if c_data v =? 0 then
    let* res := onlib (write (c_fd v) data) in
    ensure negb (res =? -1) orelse KPN_ERROR in
    ret KPN_OK
  else write_loop (S (length data)) c data.

(** [got] is what has been copied to [data]: [position_in_data] is its length. *)
Fixpoint read_loop (fuel : nat) (c counter : Z) (got : list Z) : M (kpn D) (kpn_status_t * list Z) :=
  match fuel with
  | O => diverge
  | S fuel =>
      if negb (counter =? 0) then
        let* v := rd_channel c in
        let* status :=
          (if c_level v =? 0 then
             let* res := refill c in
             ensure negb (res =? -1) orelse KPN_ERROR in
             wr_channel c (fun v => with_level (c_size v) v) ;;
             wr_channel c (with_position 0) ;;
             ret KPN_OK
           else ret KPN_OK) in
        match status with
        | KPN_OK =>
            let* v := rd_channel c in
            let n := if counter <=? c_level v then counter else c_level v in
            let* l := rd_buffer (c_data v) in
            let* b := slice (c_position v) n l in
            wr_channel c (fun v => with_position (i32 (c_position v + n)) v) ;;
            wr_channel c (fun v => with_level (i32 (c_level v - n)) v) ;;
            read_loop fuel c (i32 (counter - n)) (got ++ b)
        | _ => ret (status, got)
        end
      else ret (KPN_OK, got)
  end.

(** The status and the bytes stored in [data]. *)
Definition kpn_channel_read (c size : Z) : M (kpn D) (kpn_status_t * list Z) :=
  let* v := rd_channel c in
  if c_data v =? 0 then
    let* r := onlib (read (c_fd v) size) in
    ensure negb (r.1 =? -1) orelse (KPN_ERROR, r.2) in
    ret (KPN_OK, r.2)
  else read_loop (S (Z.to_nat size)) c size [].

(** A failure of read is ignored. *)
Fixpoint skip_loop (fuel : nat) (c counter : Z) : M (kpn D) kpn_status_t :=
  match fuel with
  | O => diverge
  | S fuel =>
      if negb (counter =? 0) then
        let* v := rd_channel c in
        (if c_level v =? 0 then
           refill c ;;
           wr_channel c (fun v => with_level (c_size v) v) ;;
           wr_channel c (with_position 0)
         else ret tt) ;;
        let* v := rd_channel c in
        let n := if counter <=? c_level v then counter else c_level v in
        wr_channel c (fun v => with_position (i32 (c_position v + n)) v) ;;
        wr_channel c (fun v => with_level (i32 (c_level v - n)) v) ;;
        skip_loop fuel c (i32 (counter - n))
      else ret KPN_OK
  end.

Definition kpn_channel_skip (c size : Z) : M (kpn D) kpn_status_t :=
  let* v := rd_channel c in
  if c_data v =? 0 then
    let* waste := onlib (malloc size) in
    ensure negb (waste =? 0) orelse KPN_OUT_OF_MEM in
    let* r := onlib (read (c_fd v) size) in
    onlib (free waste) ;;
    ensure negb (r.1 =? -1) orelse KPN_ERROR in
    ret KPN_OK
  else skip_loop (S (Z.to_nat size)) c size.

Definition kpn_channel_purge (c : Z) (flush : bool) : M (kpn D) kpn_status_t :=
  ensure negb (c =? 0) orelse KPN_ERROR in
  let* res := (if flush then flush_buffer c else ret 0) in
  ensure negb (res =? -1) orelse KPN_ERROR in
  wr_channel c (with_level 0) ;;
  wr_channel c (with_position 0) ;;
  ret KPN_OK.

End Kpn.

(** ** The stream of a channel *)

(** What the library relies on: the descriptor is a pipe of packets. *)
Class Pipe (D : Type) `{Libc D} (fd : Z) := {
  pipe : D -> list (list Z);
  pipe_write : forall d b, exists res d', write fd b d = Ret res d' /\ res <> -1 /\ pipe d' = pipe d ++ [b];
  pipe_read : forall d b bs, pipe d = b :: bs ->
    exists res d', read fd (Z.of_nat (length b)) d = Ret (res, b) d' /\ res <> -1 /\ pipe d' = bs
}.

Section Stream.
Context {D : Type} `{Libc D} (fd : Z) `{!Pipe D fd}.
Context (size : Z) (Hsize : 0 < size < 2 ^ 31).
Implicit Types s : kpn D.

(** A buffered channel on the descriptor, its level and position and its buffer. *)
Record channel_at s (c : Z) (name : list Z) (level position p : Z) (l : list Z) : Prop := {
  ch_channel : channels s !! c = Some (mkChannel name fd size level position p);
  ch_null : p <> 0;
  ch_buffer : buffers s !! p = Some l;
  ch_length : Z.of_nat (length l) = size
}.

Lemma wp_rd_channel c v Q s : channels s !! c = Some v -> Q v s -> wp (rd_channel c) Q s.
Proof. intros Hv HQ. unfold rd_channel. apply wp_bind, wp_gets. by rewrite Hv. Qed.

Lemma wp_wr_channel c v f Q s :
  channels s !! c = Some v -> Q tt (mkKpn (lib s) (<[c := f v]> (channels s)) (buffers s)) -> wp (wr_channel c f) Q s.
Proof. intros Hv HQ. unfold wr_channel. apply wp_bind. eapply wp_rd_channel; [done|]. by apply wp_modify. Qed.

Lemma wp_rd_buffer p l Q s : buffers s !! p = Some l -> Q l s -> wp (rd_buffer p) Q s.
Proof. intros Hl HQ. unfold rd_buffer. apply wp_bind, wp_gets. by rewrite Hl. Qed.

Lemma wp_wr_buffer p l l' Q s :
  buffers s !! p = Some l -> Q tt (mkKpn (lib s) (channels s) (<[p := l']> (buffers s))) -> wp (wr_buffer p l') Q s.
Proof. intros Hl HQ. unfold wr_buffer. apply wp_bind. eapply wp_rd_buffer; [done|]. by apply wp_modify. Qed.

(** Two states that differ by the library, a channel and a buffer. *)
Definition put_channel s d c v p l : kpn D := mkKpn d (<[c := v]> (channels s)) (<[p := l]> (buffers s)).

Lemma put_channel_twice s d d' c v v' p l l' :
  put_channel (put_channel s d c v p l) d' c v' p l' = put_channel s d' c v' p l'.
Proof. unfold put_channel. cbn. by rewrite !insert_insert_eq. Qed.

(** *** Writing *)

(** The bytes kept by a writer. *)
Definition kept (level : Z) (l : list Z) : list Z := take (Z.to_nat level) l.

Lemma wp_flush_buffer s c name level position p l Q :
  channel_at s c name level position p l ->
  (forall d', pipe d' = pipe (lib s) ++ [l] -> forall res, res <> -1 ->
     Q res (mkKpn d' (channels s) (buffers s))) ->
  wp (flush_buffer c) Q s.
Proof using Hsize.
  intros [Hc Hp Hb Hl] HQ. unfold flush_buffer. apply wp_bind. eapply wp_rd_channel; [exact Hc|]. cbn [c_data c_size c_fd].
  apply wp_bind. eapply wp_rd_buffer; [exact Hb|]. apply wp_bind, wp_slice; [lia|lia|lia|].
  change (drop (Z.to_nat 0) l) with l. rewrite take_ge by lia. destruct (pipe_write (lib s) l) as (res & d' & Hw & Hres & Hd).
  unfold wp, onlib, lift. rewrite Hw. by apply HQ.
Qed.

(** One turn of the loop: the bytes go to the buffer, which is sent when it is full. *)
Definition written s c name level p l (s' : kpn D) (data : list Z) : Prop :=
  exists d' level' l', s' = put_channel s d' c (mkChannel name fd size level' level' p) p l' /\
    Z.of_nat (length l') = size /\ 0 <= level' < size /\
    (exists ps, pipe d' = pipe (lib s) ++ ps /\ Forall (fun b => Z.of_nat (length b) = size) ps /\
       concat ps ++ kept level' l' = kept level l ++ data).

Lemma write_loop_ok c name p fuel : forall s level l data,
  channel_at s c name level level p l -> 0 <= level < size -> (length data < fuel)%nat ->
  wp (write_loop fuel c data) (fun r s' => r = KPN_OK /\ written s c name level p l s' data) s.
Proof using Hsize.
  induction fuel as [|fuel IH]; intros s level l data Hch Hlev Hfuel; [lia|]. cbn [write_loop].
  pose proof Hch as [Hc Hp Hb Hl].
  destruct (Z.eqb_spec (Z.of_nat (length data)) 0) as [Hz|Hz]; cbn [negb].
  { apply wp_ret. split; [done|]. exists (lib s), level, l. split_and!; [|done|lia|lia|].
    - unfold put_channel. rewrite !insert_id by done. by destruct s.
    - exists []. rewrite app_nil_r. split_and!; [done|done|]. destruct data; [|cbn in Hz; lia]. cbn. by rewrite app_nil_r. }
  apply wp_bind. eapply wp_rd_channel; [exact Hc|]. cbn [c_size c_level c_data c_position].
  rewrite (i32_id (size - level)) by lia.
  set (n := if Z.of_nat (length data) <=? size - level then Z.of_nat (length data) else size - level).
  assert (0 < n <= size - level /\ n <= Z.of_nat (length data) /\
          (n = size - level \/ n = Z.of_nat (length data) /\ n < size - level)) as (Hn1 & Hn2 & Hn3).
  { unfold n. destruct (Z.leb_spec (Z.of_nat (length data)) (size - level)); lia. }
  clearbody n. apply wp_bind, wp_slice; [lia|lia|lia|]. change (drop (Z.to_nat 0) data) with data.
  set (b := take (Z.to_nat n) data). assert (Z.of_nat (length b) = n) as Hbn by (unfold b; rewrite length_take; lia).
  apply wp_bind. eapply wp_rd_buffer; [exact Hb|]. apply wp_bind, wp_patch; [lia|lia|].
  set (l1 := take _ _ ++ _). assert (Z.of_nat (length l1) = size) as Hl1 by (unfold l1; rewrite length_patch; lia).
  assert (kept (level + n) l1 = kept level l ++ b) as Hk1.
  { unfold kept, l1. replace (Z.to_nat (level + n)) with (Z.to_nat level + length b)%nat by lia. apply take_patch. lia. }
  apply wp_bind. eapply wp_wr_buffer; [exact Hb|]. apply wp_bind. eapply wp_wr_channel; [exact Hc|].
  apply wp_bind. eapply wp_wr_channel; [apply lookup_insert_eq|].
  apply wp_bind. eapply wp_rd_channel; [apply lookup_insert_eq|].
  cbn [with_level with_position c_level c_size c_name c_fd c_position c_data channels buffers lib].
  rewrite !insert_insert_eq, i32_id by lia.
  set (s1 := mkKpn _ _ _).
  assert (channel_at s1 c name (level + n) (level + n) p l1) as Hch1 by (by split; cbn; [apply lookup_insert_eq|..|apply lookup_insert_eq|]).
  destruct (Z.eqb_spec (level + n) size) as [Hfull|Hfull].
  - apply wp_bind. eapply wp_flush_buffer; [exact Hch1|]. intros d' Hd' res Hres.
    rewrite (proj2 (Z.eqb_neq _ _) Hres). cbn [negb]. apply wp_bind. eapply wp_wr_channel; [apply Hch1|].
    apply wp_bind. eapply wp_wr_channel; [apply lookup_insert_eq|]. cbn [channels buffers lib with_level with_position c_name c_fd c_size c_position c_data c_level].
    rewrite !insert_insert_eq. set (s2 := mkKpn _ _ _).
    eapply wp_mono; [apply (IH s2 0 l1)|].
    + split; cbn; [apply lookup_insert_eq|done|apply lookup_insert_eq|done].
    + lia.
    + rewrite length_drop. lia.
    + intros r s' [-> (d2 & level' & l2 & -> & Hl2 & Hlev' & ps & Hps & HF & Hcat)]. split; [done|].
      exists d2, level', l2. split_and!; [unfold put_channel; cbn; by rewrite !insert_insert_eq|done|lia|lia|].
      exists (l1 :: ps). cbn [lib] in Hps. rewrite Hps. unfold s2 in *. cbn [lib] in *.
      split_and!; [by rewrite Hd', <- app_assoc|by constructor|]. cbn [concat]. rewrite <- app_assoc, Hcat.
      change (kept 0 l1) with (@nil Z). cbn [app]. rewrite <- (take_drop (Z.to_nat n) data) at 2. rewrite app_assoc. f_equal.
      fold b. rewrite <- Hk1. symmetry. apply take_ge. lia.
  - eapply wp_mono; [apply (IH s1 (level + n) l1); [exact Hch1|lia|rewrite length_drop; lia]|].
    intros r s' [-> (d2 & level' & l2 & -> & Hl2 & Hlev' & ps & Hps & HF & Hcat)]. split; [done|].
    exists d2, level', l2. split_and!; [unfold put_channel; cbn; by rewrite !insert_insert_eq|done|lia|lia|].
    exists ps. split_and!; [done|done|]. rewrite Hcat, Hk1, <- app_assoc. f_equal. apply take_drop.
Qed.

(** *** Reading *)

(** The bytes that a reader has not given yet. *)
Definition rest (level position : Z) (l : list Z) : list Z :=
  take (Z.to_nat level) (drop (Z.to_nat position) l).

Definition consumed s c name level position p l (s' : kpn D) (n : Z) (got : list Z) : Prop :=
  exists d' level' position' l', s' = put_channel s d' c (mkChannel name fd size level' position' p) p l' /\
    Z.of_nat (length l') = size /\ 0 <= level' /\ 0 <= position' /\ position' + level' <= size /\
    Z.of_nat (length got) = n /\
    (exists ps, pipe (lib s) = ps ++ pipe d' /\ rest level position l ++ concat ps = got ++ rest level' position' l').

(** A full buffer is read when the current one is empty. *)
Lemma wp_refill s c name position p l b bs Q :
  channel_at s c name 0 position p l -> pipe (lib s) = b :: bs -> Z.of_nat (length b) = size ->
  (forall d', pipe d' = bs -> Q KPN_OK (put_channel s d' c (mkChannel name fd size size 0 p) p b)) ->
  wp (let* res := refill c in
      ensure negb (res =? -1) orelse KPN_ERROR in
      wr_channel c (fun v => with_level (c_size v) v) ;;
      wr_channel c (with_position 0) ;;
      ret KPN_OK) Q s.
Proof.
  intros [Hc Hp Hb Hl] Hpipe Hlen HQ. destruct (pipe_read (lib s) b bs Hpipe) as (res & d' & Hr & Hres & Hd).
  rewrite Hlen in Hr. unfold refill. apply wp_bind, wp_bind. eapply wp_rd_channel; [exact Hc|]. cbn [c_fd c_size c_data].
  apply wp_bind. unfold wp at 1, onlib, lift. rewrite Hr. apply wp_bind. eapply wp_rd_buffer; [exact Hb|]. cbn [fst snd].
  apply wp_bind, wp_patch; [lia|lia|]. change (take (Z.to_nat 0) l) with (@nil Z). cbn [app].
  rewrite drop_ge, app_nil_r by lia. apply wp_bind. eapply wp_wr_buffer; [exact Hb|]. apply wp_ret.
  rewrite (proj2 (Z.eqb_neq _ _) Hres). cbn [negb]. apply wp_bind. eapply wp_wr_channel; [exact Hc|].
  apply wp_bind. eapply wp_wr_channel; [apply lookup_insert_eq|]. apply wp_ret.
  cbn [channels buffers lib]. rewrite insert_insert_eq. by apply HQ.
Qed.

Lemma rest_take level position l n :
  0 <= n <= level -> 0 <= position -> position + level <= Z.of_nat (length l) ->
  rest level position l = take (Z.to_nat n) (drop (Z.to_nat position) l) ++ rest (level - n) (position + n) l.
Proof.
  intros Hn Hp Hl. unfold rest. rewrite Z2Nat.inj_add, <- drop_drop, Z2Nat.inj_sub by lia.
  rewrite <- skipn_firstn_comm, <- (take_drop (Z.to_nat n) (take (Z.to_nat level) _)) at 1.
  by rewrite take_take, Nat.min_l by lia.
Qed.

(** One transfer from the buffer. *)
Lemma wp_transfer {A} s c name level position p l n (k : list Z -> M (kpn D) A) Q :
  channel_at s c name level position p l -> 0 <= n <= level -> 0 <= position -> position + level <= size ->
  (forall b s', channel_at s' c name (level - n) (position + n) p l ->
     s' = put_channel s (lib s) c (mkChannel name fd size (level - n) (position + n) p) p l ->
     Z.of_nat (length b) = n -> rest level position l = b ++ rest (level - n) (position + n) l -> wp (k b) Q s') ->
  wp (let* l := rd_buffer p in
      let* b := slice position n l in
      wr_channel c (fun v => with_position (i32 (c_position v + n)) v) ;;
      wr_channel c (fun v => with_level (i32 (c_level v - n)) v) ;;
      k b) Q s.
Proof using Hsize.
  intros [Hc Hp Hb Hl] Hn Hpos Hle HQ. apply wp_bind. eapply wp_rd_buffer; [exact Hb|].
  apply wp_bind, wp_slice; [lia|lia|lia|]. apply wp_bind. eapply wp_wr_channel; [exact Hc|].
  apply wp_bind. eapply wp_wr_channel; [apply lookup_insert_eq|].
  cbn [with_level with_position c_level c_size c_name c_fd c_position c_data channels buffers lib].
  rewrite insert_insert_eq, !i32_id by lia. apply HQ.
  - split; cbn; [apply lookup_insert_eq|done|done|done].
  - unfold put_channel. by rewrite (insert_id (buffers s)).
  - rewrite length_take, length_drop. lia.
  - apply rest_take; lia.
Qed.

Lemma length_rest level position l :
  0 <= level -> 0 <= position -> position + level <= Z.of_nat (length l) ->
  Z.of_nat (length (rest level position l)) = level.
Proof. intros. unfold rest. rewrite length_take, length_drop. lia. Qed.

(** After a transfer of [b], and of [got] by the next turns. *)
Lemma consumed_step s c name level position p l s1 n b s' m got :
  s1 = put_channel s (lib s) c (mkChannel name fd size (level - n) (position + n) p) p l ->
  Z.of_nat (length b) = n -> rest level position l = b ++ rest (level - n) (position + n) l ->
  consumed s1 c name (level - n) (position + n) p l s' m got ->
  consumed s c name level position p l s' (n + m) (b ++ got).
Proof.
  intros -> Hb Hrest (d' & level' & position' & l' & -> & Hl' & H1 & H2 & H3 & Hg & ps & Hps & Hcat).
  exists d', level', position', l'. split_and!; [by rewrite put_channel_twice|done..| |].
  - rewrite length_app. lia.
  - exists ps. split; [done|]. by rewrite Hrest, <- !app_assoc, Hcat.
Qed.

Lemma consumed_refill s c name position p l d b s' n got :
  pipe (lib s) = b :: pipe d -> Z.of_nat (length b) = size ->
  consumed (put_channel s d c (mkChannel name fd size size 0 p) p b) c name size 0 p b s' n got ->
  consumed s c name 0 position p l s' n got.
Proof.
  intros Hpipe Hb (d' & level' & position' & l' & -> & Hl' & H1 & H2 & H3 & Hg & ps & Hps & Hcat).
  exists d', level', position', l'. split_and!; [by rewrite put_channel_twice|done..|].
  cbn [lib put_channel] in Hps. exists (b :: ps). rewrite Hpipe, Hps. split; [done|]. cbn [concat app rest].
  rewrite <- Hcat. change (rest 0 position l) with (@nil Z). cbn [app]. f_equal. unfold rest.
  symmetry. change (drop (Z.to_nat 0) b) with b. apply take_ge. lia.
Qed.

(** What the loop promises, and one turn of it from a buffer that is not empty. *)
Definition read_loop_spec (fuel : nat) c name p : Prop := forall s level position l counter got,
  channel_at s c name level position p l -> 0 <= level -> 0 <= position -> position + level <= size ->
  Forall (fun b => Z.of_nat (length b) = size) (pipe (lib s)) ->
  0 <= counter < 2 ^ 31 -> (Z.to_nat counter < fuel)%nat ->
  counter <= level + Z.of_nat (length (concat (pipe (lib s)))) ->
  wp (read_loop fuel c counter got)
     (fun r s' => exists g, r = (KPN_OK, got ++ g) /\ consumed s c name level position p l s' counter g) s.

Lemma read_turn_ok fuel c name p s level position l counter got :
  read_loop_spec fuel c name p -> channel_at s c name level position p l -> 0 < level -> 0 <= position ->
  position + level <= size -> Forall (fun b => Z.of_nat (length b) = size) (pipe (lib s)) ->
  0 < counter < 2 ^ 31 -> (Z.to_nat counter < S fuel)%nat ->
  counter <= level + Z.of_nat (length (concat (pipe (lib s)))) ->
  wp (let* v := rd_channel c in
      let n := if counter <=? c_level v then counter else c_level v in
      let* l := rd_buffer (c_data v) in
      let* b := slice (c_position v) n l in
      wr_channel c (fun v => with_position (i32 (c_position v + n)) v) ;;
      wr_channel c (fun v => with_level (i32 (c_level v - n)) v) ;;
      read_loop fuel c (i32 (counter - n)) (got ++ b))
    (fun r s' => exists g, r = (KPN_OK, got ++ g) /\ consumed s c name level position p l s' counter g) s.
Proof using Hsize.
  intros IH Hch Hlev Hpos Hle HF Hcnt Hfuel Hav. pose proof Hch as [Hc _ _ Hl].
  apply wp_bind. eapply wp_rd_channel; [exact Hc|]. cbn [c_level c_data c_position].
  set (n := if counter <=? level then counter else level). cbv zeta.
  assert (0 < n <= level /\ n <= counter /\ (n = counter \/ n = level)) as (Hn1 & Hn2 & Hn3).
  { unfold n. destruct (Z.leb_spec counter level); lia. }
  clearbody n. eapply (wp_transfer s c name level position p l n); [exact Hch|lia|lia|lia|].
  intros b s1 Hch1 Hs1 Hbn Hrest. rewrite i32_id by lia.
  eapply wp_mono; [apply (IH s1 (level - n) (position + n) l); try done; [lia|lia|lia|by subst s1|lia|lia|subst s1; cbn; lia]|].
  intros r s' (g & -> & Hcons). exists (b ++ g). rewrite <- app_assoc. split; [done|].
  replace counter with (n + (counter - n)) by lia. by eapply consumed_step.
Qed.

Lemma read_loop_ok c name p fuel : read_loop_spec fuel c name p.
Proof using Hsize.
  induction fuel as [|fuel IH]; intros s level position l counter got Hch Hlev Hpos Hle HF Hcnt Hfuel Hav; [lia|].
  cbn [read_loop]. pose proof Hch as [Hc Hp Hb Hl].
  destruct (Z.eqb_spec counter 0) as [->|Hz]; cbn [negb].
  { apply wp_ret. exists []. rewrite app_nil_r. split; [done|]. exists (lib s), level, position, l.
    split_and!; try done; [unfold put_channel; rewrite !insert_id by done; by destruct s|].
    exists []. split; [done|]. cbn. by rewrite app_nil_r. }
  apply wp_bind. eapply wp_rd_channel; [exact Hc|]. cbn [c_level]. apply wp_bind.
  destruct (Z.eqb_spec level 0) as [->|Hl0]; [|by apply wp_ret, read_turn_ok; try lia].
  destruct (pipe (lib s)) as [|b bs] eqn:Hpipe; [cbn in Hav; lia|]. apply Forall_cons in HF as [Hbl HF].
  eapply wp_refill; [exact Hch|exact Hpipe|exact Hbl|]. intros d' Hd'.
  eapply wp_mono; [apply (read_turn_ok fuel c name p _ size 0 b); [exact IH|..]|].
  - split; cbn; [apply lookup_insert_eq|done|apply lookup_insert_eq|done].
  - lia.
  - lia.
  - lia.
  - cbn. by rewrite Hd'.
  - lia.
  - lia.
  - cbn in *. rewrite length_app in Hav. rewrite Hd'. lia.
  - intros r s' (g & -> & Hcons). exists g. split; [done|]. eapply consumed_refill; [by rewrite Hd'|done|done].
Qed.

(** *** The channel as a queue of bytes *)

(** A writer [cw] and a reader [cr] of the pipe, and what is in the pipe. *)
Record linked s (cw cr : Z) (w r : list Z) (packets : list (list Z)) : Prop := {
  lk_writer : exists name level p l, channel_at s cw name level level p l /\ 0 <= level < size /\ w = kept level l;
  lk_reader : exists name level position p l, channel_at s cr name level position p l /\ 0 <= level /\ 0 <= position /\
    position + level <= size /\ r = rest level position l;
  lk_apart : cw <> cr /\ (forall v v', channels s !! cw = Some v -> channels s !! cr = Some v' -> c_data v <> c_data v');
  lk_pipe : pipe (lib s) = packets;
  lk_packets : Forall (fun b => Z.of_nat (length b) = size) packets
}.

Lemma channel_at_other s d c v p l c' name level position p' l' :
  c <> c' -> p <> p' -> channel_at s c' name level position p' l' ->
  channel_at (put_channel s d c v p l) c' name level position p' l'.
Proof. intros Hc Hp [H1 H2 H3 H4]. split; cbn; [by rewrite lookup_insert_ne|done|by rewrite lookup_insert_ne|done]. Qed.

Lemma linked_apart s cw cr w r packets name level position p l name' level' position' p' l' :
  linked s cw cr w r packets -> channel_at s cw name level position p l ->
  channel_at s cr name' level' position' p' l' -> cw <> cr /\ p <> p'.
Proof. intros [_ _ [Hne Hd] _ _] [Hw _ _ _] [Hr _ _ _]. split; [done|]. exact (Hd _ _ Hw Hr). Qed.

(** Both ends, as operations on the contents of the writer, the pipe and the reader. *)
Lemma kpn_write_linked s cw cr w r packets data :
  linked s cw cr w r packets ->
  exists s' w' ps, kpn_channel_write cw data s = Ret KPN_OK s' /\
    linked s' cw cr w' r (packets ++ ps) /\ concat ps ++ w' = w ++ data.
Proof using Hsize.
  intros Hlk. pose proof Hlk as [(nw & lw & pw & bw & Hw & Hlw & ->) (nr & lr & qr & pr & br & Hr & Hr1 & Hr2 & Hr3 & ->) _ Hpipe HF].
  destruct (linked_apart _ _ _ _ _ _ _ _ _ _ _ _ _ _ _ _ Hlk Hw Hr) as [Hne Hp].
  assert (wp (kpn_channel_write cw data) (fun a s' => a = KPN_OK /\ written s cw nw lw pw bw s' data) s)
    as (a & s' & Hrun & -> & d' & lw' & bw' & -> & Hbw & Hlw' & ps & Hps & HFp & Hcat)%wp_exists.
  { unfold kpn_channel_write. apply wp_bind. eapply wp_rd_channel; [apply Hw|]. cbn [c_data].
    rewrite (proj2 (Z.eqb_neq _ _) (ch_null _ _ _ _ _ _ _ Hw)). apply write_loop_ok; [done|done|lia]. }
  exists (put_channel s d' cw (mkChannel nw fd size lw' lw' pw) pw bw'), (kept lw' bw'), ps. split; [exact Hrun|]. split; [|exact Hcat]. split.
  - exists nw, lw', pw, bw'. split_and!; [|lia|lia|done].
    split; cbn; [apply lookup_insert_eq|apply Hw|apply lookup_insert_eq|done].
  - exists nr, lr, qr, pr, br. split_and!; try done. by apply channel_at_other.
  - split; [done|]. cbn. intros v v'. rewrite lookup_insert_eq, lookup_insert_ne by done. intros [= <-] Hv'. cbn.
    destruct Hr as [Hr _ _ _]. rewrite Hr in Hv'. by injection Hv' as <-.
  - cbn. by rewrite Hps, Hpipe.
  - by apply Forall_app.
Qed.

Lemma kpn_read_linked s cw cr w r packets n :
  linked s cw cr w r packets -> 0 <= n < 2 ^ 31 -> n <= Z.of_nat (length (r ++ concat packets)) ->
  exists s' r' ps qs got, kpn_channel_read cr n s = Ret (KPN_OK, got) s' /\ Z.of_nat (length got) = n /\
    packets = ps ++ qs /\ linked s' cw cr w r' qs /\ r ++ concat ps = got ++ r'.
Proof using Hsize.
  intros Hlk Hn Hav. pose proof Hlk as [(nw & lw & pw & bw & Hw & Hlw & ->) (nr & lr & qr & pr & br & Hr & Hr1 & Hr2 & Hr3 & ->) _ Hpipe HF].
  destruct (linked_apart _ _ _ _ _ _ _ _ _ _ _ _ _ _ _ _ Hlk Hw Hr) as [Hne Hp].
  assert (Z.of_nat (length (rest lr qr br)) = lr) as Hrl by (apply length_rest; [done|done|rewrite (ch_length _ _ _ _ _ _ _ Hr); lia]).
  rewrite length_app in Hav.
  assert (wp (kpn_channel_read cr n) (fun a s' => exists g, a = (KPN_OK, g) /\ consumed s cr nr lr qr pr br s' n g) s)
    as (a & s' & Hrun & got & -> & d' & lr' & qr' & br' & -> & Hbr & H1 & H2 & H3 & Hg & ps & Hps & Hcat)%wp_exists.
  { unfold kpn_channel_read. apply wp_bind. eapply wp_rd_channel; [apply Hr|]. cbn [c_data].
    rewrite (proj2 (Z.eqb_neq _ _) (ch_null _ _ _ _ _ _ _ Hr)).
    eapply wp_mono; [apply (read_loop_ok cr nr pr); [exact Hr|lia|lia|lia|by rewrite Hpipe|lia|lia|rewrite Hpipe; lia]|]. done. }
  eexists _, (rest lr' qr' br'), ps, (pipe d'), got. split; [exact Hrun|]. split; [exact Hg|].
  rewrite <- Hpipe. split; [exact Hps|]. split; [|exact Hcat]. split.
  - exists nw, lw, pw, bw. split_and!; [by apply channel_at_other|lia|lia|done].
  - exists nr, lr', qr', pr, br'. split_and!; try done.
    split; cbn; [apply lookup_insert_eq|apply Hr|apply lookup_insert_eq|done].
  - split; [done|]. cbn. intros v v'. rewrite lookup_insert_ne, lookup_insert_eq by done. intros Hv [= <-]. cbn.
    destruct Hw as [Hw _ _ _]. rewrite Hw in Hv. by injection Hv as <-.
  - done.
  - rewrite <- Hpipe, Hps in HF. by apply Forall_app in HF as [_ HF].
Qed.

End Stream.

(** C22: a writer and a reader with buffers of the same size on the two ends of a pipe of
    packets are a queue of bytes: kpn_channel_write appends its bytes to the stream made
    of what the reader has left, the packets of the pipe and what the writer keeps;
    kpn_channel_read returns, for every size that the reader and the pipe can serve, the
    first bytes of the stream and removes them.  Both succeed, whatever the way the
    writes and the reads are cut. *)
Theorem kpn_channel_fifo {D} `{Libc D} fd `{!Pipe D fd} size (s : kpn D) cw cr w r packets :
  0 < size < 2 ^ 31 -> linked fd size s cw cr w r packets ->
  (forall data, exists s' w' packets', kpn_channel_write cw data s = Ret KPN_OK s' /\
     linked fd size s' cw cr w' r packets' /\
     r ++ concat packets' ++ w' = r ++ concat packets ++ w ++ data) /\
  (forall n, 0 <= n < 2 ^ 31 -> n <= Z.of_nat (length (r ++ concat packets)) ->
     exists s' r' packets' got, kpn_channel_read cr n s = Ret (KPN_OK, got) s' /\
       linked fd size s' cw cr w r' packets' /\ Z.of_nat (length got) = n /\
       r ++ concat packets ++ w = got ++ r' ++ concat packets' ++ w).
Proof.
  intros Hsize Hlk. split.
  - intros data. destruct (kpn_write_linked fd size Hsize _ _ _ _ _ _ data Hlk) as (s' & w' & ps & Hrun & Hlk' & Hcat).
    exists s', w', (packets ++ ps). split_and!; [done|done|]. by rewrite concat_app, <- app_assoc, Hcat.
  - intros n Hn Hav. destruct (kpn_read_linked fd size Hsize _ _ _ _ _ _ n Hlk Hn Hav)
      as (s' & r' & ps & qs & got & Hrun & Hg & -> & Hlk' & Hcat).
    exists s', r', qs, got. split_and!; [done|done|done|].
    rewrite concat_app, <- !app_assoc, (app_assoc r), Hcat. by rewrite <- app_assoc.
Qed.

(** ** An instance *)

(** A descriptor that is a list of packets. *)
#[local] Instance list_libc : Libc (list (list Z)) := {|
  malloc _ := ret 64; free _ := ret tt; open _ := ret 3; close _ := ret 0;
  read _ n d := match d with b :: bs => Ret (Z.of_nat (length b), b) bs | [] => Ret (-1, []) [] end;
  write _ b d := Ret (Z.of_nat (length b)) (d ++ [b]);
  lseek _ _ := ret (-1)
|}.

#[local] Program Instance list_pipe fd : Pipe (list (list Z)) fd := {| pipe d := d |}.
Next Obligation. intros fd d b. eexists _, _. split; [reflexivity|]. split; [lia|done]. Qed.
Next Obligation. intros fd d b bs ->. eexists _, _. split; [reflexivity|]. split; [lia|done]. Qed.

(** Buffers of 2 bytes: the writer keeps 1, the reader has 1 left. *)
Definition two_ends : kpn (list (list Z)) :=
  mkKpn [[3; 4]] (list_to_map [(10, mkChannel [] 3 2 1 1 100); (20, mkChannel [] 3 2 1 1 200)])
    (list_to_map [(100, [5; 0]); (200, [1; 2])]).

Lemma kpn_channel_fifo_witness :
  exists s' r' packets' got, kpn_channel_read 20 3 two_ends = Ret (KPN_OK, got) s' /\
    Z.of_nat (length got) = 3 /\ [2; 3; 4; 5] = got ++ r' ++ concat packets' ++ [5].
Proof.
  destruct (kpn_channel_fifo 3 2 two_ends 10 20 [5] [2] [[3; 4]]) as [_ Hread].
  - lia.
  - split.
    + exists [], 1, 100, [5; 0]. split_and!; [by split|lia|lia|done].
    + exists [], 1, 1, 200, [1; 2]. split_and!; [by split|lia|lia|lia|done].
    + split; [done|]. by intros v v' [= <-] [= <-].
    + done.
    + by repeat constructor.
  - destruct (Hread 3) as (s' & r' & ps & got & Hr & _ & Hg & Hs); [lia|cbn; lia|].
    exists s', r', ps, got. exact (conj Hr (conj Hg Hs)).
Defined.
