(* ===== verification/Fat.v ===== *)
(** * The FAT file system (FATFileSystem)

    FAT16 and FAT32 volumes, read from a block device through the C library (Libc.v):
    the sectors of the device (media_*.c), the file allocation table with its buffer
    (fatlib_table.c), the parameters of the volume and the sectors of a chain of
    clusters (fatlib_access.c), the names of the directory entries (fatlib_misc.c) and
    the commands (fatfs_*.c), an instance of the table of commands of Vfs.v.

    Its state ([fat]) has the state of the C library, the objects of the file system
    named by their addresses, and the memory of the callers, where the bytes of the
    files are stored.  A directory entry is the list of its 32 bytes, as the code
    overlays it on a sector.  A plain char is unsigned, as on ARM, and the bytes of a
    buffer on the stack that is not initialised are 0. *)

From S2P Require Import Prelude Status CLib Queue Allocator Kernel Logic Memory Vfs Libc.

Definition FAT_BUFFERED_SECTORS : nat := 1.
Definition FAT_SECTOR_SIZE : Z := 512.
Definition FATFS_NAME_LENGTH : Z := DNA_FILENAME_LENGTH.
Definition FAT32_LAST_CLUSTER : Z := 0xFFFFFFFF.
Definition FAT32_INVALID_CLUSTER : Z := 0xFFFFFFFF.

Definition FAT_INIT_OK : Z := 0.
Definition FAT_INIT_MEDIA_ACCESS_ERROR : Z := -1.
Definition FAT_INIT_INVALID_SECTOR_SIZE : Z := -2.
Definition FAT_INIT_INVALID_SIGNATURE : Z := -3.
Definition FAT_INIT_ENDIAN_ERROR : Z := -4.
Definition FAT_INIT_WRONG_FILESYS_TYPE : Z := -5.

(** ** Data *)

Inductive tFatType : Type := FAT_TYPE_16 | FAT_TYPE_32.
Definition is_fat16 (t : tFatType) : bool := match t with FAT_TYPE_16 => true | FAT_TYPE_32 => false end.

(** The two functions are media_read and media_write, or NULL. *)
Record disk_if := mkDiskIf {
  read_sector : bool;
  write_sector : bool
}.

(** The next buffer is given by its index in [fat_buffers]. *)
Record sector_buffer := mkSectorBuffer {
  sector_of : list Z;
  address : Z;
  dirty : Z;
  buf_next : option nat
}.

(** The members of struct fatfs under "Filesystem globals". *)
Record fat_globals := mkGlobals {
  sectors_per_cluster : Z;
  cluster_begin_lba : Z;
  rootdir_first_cluster : Z;
  rootdir_first_sector : Z;
  rootdir_sectors : Z;
  fat_begin_lba : Z;
  fs_info_sector : Z;
  lba_begin : Z;
  fat_sectors : Z;
  next_free_cluster : Z;
  root_entry_count : Z;
  fat_type : tFatType
}.

Record fatfs_t := mkFatfs {
  ft_vid : Z;
  ft_root_vnid : Z;
  fs_fd : Z;
  globals : fat_globals;
  disk_io : disk_if;
  currentsector : sector_buffer;
  fat_buffer_head : option nat;
  fat_buffers : list sector_buffer
}.

Record fatfs_inode_t := mkFatInode {
  in_id : Z;
  cc_dirid : Z;
  cluster_chain_directory : Z;
  nb_sector : Z;
  in_entry : list Z
}.

Definition with_sector x b := mkSectorBuffer x (address b) (dirty b) (buf_next b).
Definition with_address x b := mkSectorBuffer (sector_of b) x (dirty b) (buf_next b).
Definition with_dirty x b := mkSectorBuffer (sector_of b) (address b) x (buf_next b).
Definition with_buf_next x b := mkSectorBuffer (sector_of b) (address b) (dirty b) x.
Definition with_sectors_per_cluster x g := mkGlobals x (cluster_begin_lba g) (rootdir_first_cluster g) (rootdir_first_sector g) (rootdir_sectors g) (fat_begin_lba g) (fs_info_sector g) (lba_begin g) (fat_sectors g) (next_free_cluster g) (root_entry_count g) (fat_type g).
Definition with_cluster_begin_lba x g := mkGlobals (sectors_per_cluster g) x (rootdir_first_cluster g) (rootdir_first_sector g) (rootdir_sectors g) (fat_begin_lba g) (fs_info_sector g) (lba_begin g) (fat_sectors g) (next_free_cluster g) (root_entry_count g) (fat_type g).
Definition with_rootdir_first_cluster x g := mkGlobals (sectors_per_cluster g) (cluster_begin_lba g) x (rootdir_first_sector g) (rootdir_sectors g) (fat_begin_lba g) (fs_info_sector g) (lba_begin g) (fat_sectors g) (next_free_cluster g) (root_entry_count g) (fat_type g).
Definition with_rootdir_first_sector x g := mkGlobals (sectors_per_cluster g) (cluster_begin_lba g) (rootdir_first_cluster g) x (rootdir_sectors g) (fat_begin_lba g) (fs_info_sector g) (lba_begin g) (fat_sectors g) (next_free_cluster g) (root_entry_count g) (fat_type g).
Definition with_rootdir_sectors x g := mkGlobals (sectors_per_cluster g) (cluster_begin_lba g) (rootdir_first_cluster g) (rootdir_first_sector g) x (fat_begin_lba g) (fs_info_sector g) (lba_begin g) (fat_sectors g) (next_free_cluster g) (root_entry_count g) (fat_type g).
Definition with_fat_begin_lba x g := mkGlobals (sectors_per_cluster g) (cluster_begin_lba g) (rootdir_first_cluster g) (rootdir_first_sector g) (rootdir_sectors g) x (fs_info_sector g) (lba_begin g) (fat_sectors g) (next_free_cluster g) (root_entry_count g) (fat_type g).
Definition with_fs_info_sector x g := mkGlobals (sectors_per_cluster g) (cluster_begin_lba g) (rootdir_first_cluster g) (rootdir_first_sector g) (rootdir_sectors g) (fat_begin_lba g) x (lba_begin g) (fat_sectors g) (next_free_cluster g) (root_entry_count g) (fat_type g).
Definition with_lba_begin x g := mkGlobals (sectors_per_cluster g) (cluster_begin_lba g) (rootdir_first_cluster g) (rootdir_first_sector g) (rootdir_sectors g) (fat_begin_lba g) (fs_info_sector g) x (fat_sectors g) (next_free_cluster g) (root_entry_count g) (fat_type g).
Definition with_fat_sectors x g := mkGlobals (sectors_per_cluster g) (cluster_begin_lba g) (rootdir_first_cluster g) (rootdir_first_sector g) (rootdir_sectors g) (fat_begin_lba g) (fs_info_sector g) (lba_begin g) x (next_free_cluster g) (root_entry_count g) (fat_type g).
Definition with_next_free_cluster x g := mkGlobals (sectors_per_cluster g) (cluster_begin_lba g) (rootdir_first_cluster g) (rootdir_first_sector g) (rootdir_sectors g) (fat_begin_lba g) (fs_info_sector g) (lba_begin g) (fat_sectors g) x (root_entry_count g) (fat_type g).
Definition with_root_entry_count x g := mkGlobals (sectors_per_cluster g) (cluster_begin_lba g) (rootdir_first_cluster g) (rootdir_first_sector g) (rootdir_sectors g) (fat_begin_lba g) (fs_info_sector g) (lba_begin g) (fat_sectors g) (next_free_cluster g) x (fat_type g).
Definition with_fat_type x g := mkGlobals (sectors_per_cluster g) (cluster_begin_lba g) (rootdir_first_cluster g) (rootdir_first_sector g) (rootdir_sectors g) (fat_begin_lba g) (fs_info_sector g) (lba_begin g) (fat_sectors g) (next_free_cluster g) (root_entry_count g) x.
Definition with_ft_vid x f := mkFatfs x (ft_root_vnid f) (fs_fd f) (globals f) (disk_io f) (currentsector f) (fat_buffer_head f) (fat_buffers f).
Definition with_ft_root_vnid x f := mkFatfs (ft_vid f) x (fs_fd f) (globals f) (disk_io f) (currentsector f) (fat_buffer_head f) (fat_buffers f).
Definition with_fs_fd x f := mkFatfs (ft_vid f) (ft_root_vnid f) x (globals f) (disk_io f) (currentsector f) (fat_buffer_head f) (fat_buffers f).
Definition with_globals x f := mkFatfs (ft_vid f) (ft_root_vnid f) (fs_fd f) x (disk_io f) (currentsector f) (fat_buffer_head f) (fat_buffers f).
Definition with_disk_io x f := mkFatfs (ft_vid f) (ft_root_vnid f) (fs_fd f) (globals f) x (currentsector f) (fat_buffer_head f) (fat_buffers f).
Definition with_currentsector x f := mkFatfs (ft_vid f) (ft_root_vnid f) (fs_fd f) (globals f) (disk_io f) x (fat_buffer_head f) (fat_buffers f).
Definition with_fat_buffer_head x f := mkFatfs (ft_vid f) (ft_root_vnid f) (fs_fd f) (globals f) (disk_io f) (currentsector f) x (fat_buffers f).
Definition with_fat_buffers x f := mkFatfs (ft_vid f) (ft_root_vnid f) (fs_fd f) (globals f) (disk_io f) (currentsector f) (fat_buffer_head f) x.

Record fat (D : Type) := mkFat {
  media : D;
  fatfss : gmap Z fatfs_t;
  fat_inodes : gmap Z fatfs_inode_t;
  chains : gmap Z (list Z);        (* the memory of the cluster_chain_directory *)
  user : gmap Z Z                  (* the memory of the callers *)
}.
Arguments mkFat {D}.
Arguments media {D}.
Arguments fatfss {D}.
Arguments fat_inodes {D}.
Arguments chains {D}.
Arguments user {D}.

(** sizeof (struct fatfs), sizeof (struct fatfs_inode), the offset of its entry. *)
Definition sizeof_fatfs : Z := 1128.
Definition sizeof_fat_inode : Z := 56.
Definition offsetof_entry : Z := 20.

(** ** Words and directory entries *)

Definition byte (l : list Z) (i : Z) : Z := nth (Z.to_nat i) l 0.
Definition GET_16BIT_WORD (l : list Z) (i : Z) : Z := Z.shiftl (byte l (i + 1)) 8 + byte l i.
Definition GET_32BIT_WORD (l : list Z) (i : Z) : Z :=
  u32 (Z.shiftl (byte l (i + 3)) 24 + Z.shiftl (byte l (i + 2)) 16 + Z.shiftl (byte l (i + 1)) 8 + byte l i).

(** The members of struct fatfs_entry, on a little-endian processor. *)
Definition Name (e : list Z) (i : Z) : Z := byte e i.
Definition Attr (e : list Z) : Z := byte e 11.
Definition FstClusHI (e : list Z) : Z := GET_16BIT_WORD e 20.
Definition FstClusLO (e : list Z) : Z := GET_16BIT_WORD e 26.
Definition FileSize (e : list Z) : Z := GET_32BIT_WORD e 28.

Definition FILE_ATTR_SYSHID : Z := 0x06.
Definition FILE_ATTR_VOLUME_ID : Z := 0x08.
Definition FILE_ATTR_LFN_TEXT : Z := 0x0F.
Definition FILE_HEADER_BLANK : Z := 0x00.
Definition FILE_HEADER_DELETED : Z := 0xE5.
Definition FILE_TYPE_DIR : Z := 0x10.

Definition fatfs_entry_lfn_text (e : list Z) : bool := Z.land (Attr e) FILE_ATTR_LFN_TEXT =? FILE_ATTR_LFN_TEXT.
Definition fatfs_entry_lfn_invalid (e : list Z) : bool :=
  (Name e 0 =? FILE_HEADER_BLANK) || (Name e 0 =? FILE_HEADER_DELETED) || (Attr e =? FILE_ATTR_VOLUME_ID)
  || negb (Z.land (Attr e) FILE_ATTR_SYSHID =? 0).
Definition fatfs_entry_lfn_exists (e : list Z) : bool :=
  negb (Attr e =? FILE_ATTR_LFN_TEXT) && negb (Name e 0 =? FILE_HEADER_BLANK)
  && negb (Name e 0 =? FILE_HEADER_DELETED) && negb (Attr e =? FILE_ATTR_VOLUME_ID)
  && (Z.land (Attr e) FILE_ATTR_SYSHID =? 0).
Definition fatfs_entry_sfn_only (e : list Z) : bool :=
  negb (Attr e =? FILE_ATTR_LFN_TEXT) && negb (Name e 0 =? FILE_HEADER_BLANK)
  && negb (Name e 0 =? FILE_HEADER_DELETED) && negb (Attr e =? FILE_ATTR_VOLUME_ID)
  && (Z.land (Attr e) FILE_ATTR_SYSHID =? 0).
Definition fatfs_entry_is_dir (e : list Z) : bool := negb (Z.land (Attr e) FILE_TYPE_DIR =? 0).

Section Fat.
Context `{Hal} {D : Type} `{Libc D}.

Definition onmedia {A} (m : M D A) : M (fat D) A :=
  lift media (fun d s => mkFat d (fatfss s) (fat_inodes s) (chains s) (user s)) m.

Definition rd_fs (fs : Z) : M (fat D) fatfs_t := let* m := gets fatfss in deref (m !! fs).
Definition wr_fs (fs : Z) (f : fatfs_t -> fatfs_t) : M (fat D) unit :=
  let* v := rd_fs fs in
  modify (fun s => mkFat (media s) (<[fs := f v]> (fatfss s)) (fat_inodes s) (chains s) (user s)).
Definition wr_globals (fs : Z) (g : fat_globals -> fat_globals) : M (fat D) unit :=
  wr_fs fs (fun f => with_globals (g (globals f)) f).

(** The buffer of index [i] of the table. *)
Definition rd_buf (fs : Z) (i : nat) : M (fat D) sector_buffer :=
  let* f := rd_fs fs in deref (fat_buffers f !! i).
Definition wr_buf (fs : Z) (i : nat) (g : sector_buffer -> sector_buffer) : M (fat D) unit :=
  let* b := rd_buf fs i in wr_fs fs (fun f => with_fat_buffers (<[i := g b]> (fat_buffers f)) f).

(** ** The device (media_open.c, media_read.c, media_write.c) *)

(** The result and [*fs_fd]. *)
Definition media_open (dev_path : list Z) : M (fat D) (Z * Z) :=
  let* fd := onmedia (open dev_path) in
  ret (if 0 <=? fd then 1 else 0, fd).

(** The offset is computed on 32 bits; off_t is signed.  The result is the returned
    value and the contents of the buffer. *)
Definition media_read (sector : Z) (buffer : list Z) (fs_fd : Z) : M (fat D) (Z * list Z) :=
  let* pos := onmedia (lseek fs_fd (i32 (u32 (sector * FAT_SECTOR_SIZE)))) in
  if pos <? 0 then ret (0, buffer)
  else
    let* r := onmedia (read fs_fd FAT_SECTOR_SIZE) in
    let* buffer := patch 0 r.2 buffer in
    ret (if 0 <? r.1 then 1 else 0, buffer).

Definition media_write (sector : Z) (buffer : list Z) (fs_fd : Z) : M (fat D) Z :=
  let* pos := onmedia (lseek fs_fd (i32 (u32 (sector * FAT_SECTOR_SIZE)))) in
  if pos <? 0 then ret 0
  else
    let* r := onmedia (write fs_fd buffer) in
    ret (if 0 <? r then 1 else 0).

(** fs->disk_io.read_sector (...), fs->disk_io.write_sector (...) *)
Definition disk_read (fs sector : Z) (buffer : list Z) : M (fat D) (Z * list Z) :=
  let* f := rd_fs fs in
  if read_sector (disk_io f) then media_read sector buffer (fs_fd f) else fault.
Definition disk_write (fs sector : Z) (buffer : list Z) : M (fat D) Z :=
  let* f := rd_fs fs in
  if write_sector (disk_io f) then media_write sector buffer (fs_fd f) else fault.

(** ** The file allocation table (fatlib_table.c) *)

Fixpoint fat_init_loop (n i : nat) (fs : Z) : M (fat D) unit :=
  match n with
  | O => ret tt
  | S n =>
      let* f := rd_fs fs in
      wr_buf fs i (fun _ => mkSectorBuffer (replicate (Z.to_nat FAT_SECTOR_SIZE) 0) FAT32_INVALID_CLUSTER 0 (fat_buffer_head f)) ;;
      wr_fs fs (with_fat_buffer_head (Some i)) ;;
      fat_init_loop n (S i) fs
  end.
Definition fatfs_fat_init (fs : Z) : M (fat D) unit :=
  wr_fs fs (with_fat_buffer_head None) ;;
  fat_init_loop FAT_BUFFERED_SECTORS 0 fs.

(** The search in the list of buffers, which removes the last one when it fails; the
    result is [last] and [pcur]. *)
Fixpoint fat_buffer_loop (fuel : nat) (fs sector : Z) (last pcur : option nat)
    : M (fat D) (option nat * option nat) :=
  match fuel with
  | O => diverge
  | S fuel =>
      match pcur with
      | None => ret (last, None)
      | Some p =>
          let* b := rd_buf fs p in
          if address b =? sector then ret (last, Some p)
          else
            (match buf_next b, last with
             | None, Some l => wr_buf fs l (with_buf_next None)
             | None, None => wr_fs fs (with_fat_buffer_head None)
             | Some _, _ => ret tt
             end) ;;
            let* b := rd_buf fs p in
            fat_buffer_loop fuel fs sector (Some p) (buf_next b)
      end
  end.

(** The index of the buffer, or none for NULL. *)
Definition fatfs_fat_read_sector (fs sector : Z) : M (fat D) (option nat) :=
  let* f := rd_fs fs in
  let* r := fat_buffer_loop (S (S FAT_BUFFERED_SECTORS)) fs sector None (fat_buffer_head f) in
  match r.2 with
  | Some p => ret (Some p)
  | None =>
      let* p := deref r.1 in
      let* f := rd_fs fs in
      wr_buf fs p (with_buf_next (fat_buffer_head f)) ;;
      wr_fs fs (with_fat_buffer_head (Some p)) ;;
      let* b := rd_buf fs p in
      let* written := (if negb (dirty b =? 0) then
                         let* ok := disk_write fs (address b) (sector_of b) in
                         if ok =? 0 then ret false else wr_buf fs p (with_dirty 0) ;; ret true
                       else ret true) in
      if (written : bool) then
        wr_buf fs p (with_address sector) ;;
        let* b := rd_buf fs p in
        let* r := disk_read fs (address b) (sector_of b) in
        wr_buf fs p (with_sector r.2) ;;
        if r.1 =? 0 then wr_buf fs p (with_address FAT32_INVALID_CLUSTER) ;; ret None
        else ret (Some p)
      else ret None
  end.

Definition fatfs_find_next_cluster (fs current_cluster : Z) : M (fat D) Z :=
  let current_cluster := if current_cluster =? 0 then 2 else current_cluster in
  let* f := rd_fs fs in
  let fat16 := is_fat16 (fat_type (globals f)) in
  let fat_sector_offset := if fat16 then current_cluster / 256 else current_cluster / 128 in
  let* pbuf := fatfs_fat_read_sector fs (u32 (fat_begin_lba (globals f) + fat_sector_offset)) in
  match pbuf with
  | None => ret FAT32_LAST_CLUSTER
  | Some p =>
      let* b := rd_buf fs p in
      if fat16 then
        let position := u32 ((current_cluster - fat_sector_offset * 256) * 2) in
        let nextcluster := GET_16BIT_WORD (sector_of b) (u16 position) in
        if (0xFFF8 <=? nextcluster) && (nextcluster <=? 0xFFFF) then ret FAT32_LAST_CLUSTER else ret nextcluster
      else
        let position := u32 ((current_cluster - fat_sector_offset * 128) * 4) in
        let nextcluster := GET_32BIT_WORD (sector_of b) (u16 position) in
        let nextcluster := Z.land nextcluster 0x0FFFFFFF in
        if (0x0FFFFFF8 <=? nextcluster) && (nextcluster <=? 0x0FFFFFFF) then ret FAT32_LAST_CLUSTER else ret nextcluster
  end.

(** ** Parameters of the volume and sectors of a chain (fatlib_access.c) *)

(** switch (fs->currentsector.sector[PARTITION1_TYPECODE_LOCATION]) *)
Definition valid_partition (code : Z) : bool :=
  if (code =? 0x0B) || (code =? 0x06) || (code =? 0x0C) || (code =? 0x0E) || (code =? 0x0F) || (code =? 0x05)
  then true
  else if code =? 0 then false else code <=? 0x06.

(** Read a sector in the working buffer of the volume. *)
Definition load_current (fs lba : Z) : M (fat D) Z :=
  let* f := rd_fs fs in
  let* r := disk_read fs lba (sector_of (currentsector f)) in
  wr_fs fs (fun f => with_currentsector (with_sector r.2 (currentsector f)) f) ;;
  ret r.1.

(** The parameters and the type of the volume, from the boot sector. *)
Definition load_parameters (fs : Z) : M (fat D) Z :=
  let* f := rd_fs fs in
  let s := sector_of (currentsector f) in
  ensure GET_16BIT_WORD s 0x0B =? FAT_SECTOR_SIZE orelse FAT_INIT_INVALID_SECTOR_SIZE in
  wr_globals fs (with_sectors_per_cluster (byte s 13)) ;;
  let reserved_sectors := GET_16BIT_WORD s 14 in
  let num_of_fats := byte s 16 in
  wr_globals fs (with_root_entry_count (GET_16BIT_WORD s 17)) ;;
  let FATSz := if negb (GET_16BIT_WORD s 22 =? 0) then GET_16BIT_WORD s 22 else GET_32BIT_WORD s 36 in
  wr_globals fs (with_fat_sectors FATSz) ;;
  wr_globals fs (with_rootdir_first_cluster (GET_32BIT_WORD s 44)) ;;
  wr_globals fs (with_fs_info_sector (GET_16BIT_WORD s 48)) ;;
  wr_globals fs (fun g => with_rootdir_first_sector (u32 (reserved_sectors + u32 (num_of_fats * fat_sectors g))) g) ;;
  wr_globals fs (fun g => with_rootdir_sectors ((root_entry_count g * 32 + (FAT_SECTOR_SIZE - 1)) / FAT_SECTOR_SIZE) g) ;;
  wr_globals fs (fun g => with_fat_begin_lba (u32 (lba_begin g + reserved_sectors)) g) ;;
  wr_globals fs (fun g => with_cluster_begin_lba (u32 (fat_begin_lba g + u32 (num_of_fats * fat_sectors g))) g) ;;
  ensure GET_16BIT_WORD s 0x1FE =? 0xAA55 orelse FAT_INIT_INVALID_SIGNATURE in
  let root_dir_sectors := (GET_16BIT_WORD s 17 * 32 + (GET_16BIT_WORD s 11 - 1)) / GET_16BIT_WORD s 11 in
  let total_sectors := if negb (GET_16BIT_WORD s 19 =? 0) then GET_16BIT_WORD s 19 else GET_32BIT_WORD s 32 in
  let data_sectors := u32 (total_sectors - u32 (u32 (GET_16BIT_WORD s 14 + u32 (byte s 16 * FATSz)) + root_dir_sectors)) in
  if negb (byte s 13 =? 0) then
    let count_of_clusters := data_sectors / byte s 13 in
    if count_of_clusters <? 4085 then ret FAT_INIT_WRONG_FILESYS_TYPE
    else if count_of_clusters <? 65525 then
      wr_globals fs (with_rootdir_first_cluster 0) ;;
      wr_globals fs (with_fat_type FAT_TYPE_16) ;;
      ret FAT_INIT_OK
    else
      wr_globals fs (with_fat_type FAT_TYPE_32) ;;
      ret FAT_INIT_OK
  else ret FAT_INIT_WRONG_FILESYS_TYPE.

(** The size of the partition that the code reads is not used. *)
Definition fatfs_init (fs : Z) : M (fat D) Z :=
  wr_fs fs (fun f => with_currentsector (with_address FAT32_INVALID_CLUSTER (with_dirty 0 (currentsector f))) f) ;;
  wr_globals fs (with_next_free_cluster 0) ;;
  fatfs_fat_init fs ;;
  let* f := rd_fs fs in
  ensure read_sector (disk_io f) && write_sector (disk_io f) orelse FAT_INIT_MEDIA_ACCESS_ERROR in
  let* ok := load_current fs 0 in
  ensure negb (ok =? 0) orelse FAT_INIT_MEDIA_ACCESS_ERROR in
  let* f := rd_fs fs in
  let s := sector_of (currentsector f) in
  ensure (byte s 510 =? 0x55) && (byte s 511 =? 0xAA) orelse FAT_INIT_INVALID_SIGNATURE in
  ensure GET_16BIT_WORD s 510 =? 0xAA55 orelse FAT_INIT_ENDIAN_ERROR in
  let lba := if valid_partition (byte s 450) then GET_32BIT_WORD s 454 else 0 in
  wr_globals fs (with_lba_begin lba) ;;
  let* ok := load_current fs lba in
  ensure negb (ok =? 0) orelse FAT_INIT_MEDIA_ACCESS_ERROR in
  load_parameters fs.

Definition fatfs_lba_of_cluster (g : fat_globals) (Cluster_Number : Z) : Z :=
  if is_fat16 (fat_type g)
  then u32 (cluster_begin_lba g + root_entry_count g * 32 / FAT_SECTOR_SIZE + u32 (u32 (Cluster_Number - 2) * sectors_per_cluster g))
  else u32 (cluster_begin_lba g + u32 (u32 (Cluster_Number - 2) * sectors_per_cluster g)).

(** for (i = 0; i < ClustertoRead; i++) ... *)
Fixpoint chain_loop (n : nat) (fs ClusterChain : Z) : M (fat D) Z :=
  match n with
  | O => ret ClusterChain
  | S n => let* c := fatfs_find_next_cluster fs ClusterChain in chain_loop n fs c
  end.

(** The sector to read, or none when it is out of range. *)
Definition sector_lba (fs Startcluster offset : Z) : M (fat D) (option Z) :=
  let* f := rd_fs fs in
  let g := globals f in
  if is_fat16 (fat_type g) && (Startcluster =? 0) then
    if offset <? rootdir_sectors g then ret (Some (u32 (u32 (lba_begin g + rootdir_first_sector g) + offset))) else ret None
  else if sectors_per_cluster g =? 0 then fault
  else
    let ClustertoRead := offset / sectors_per_cluster g in
    let SectortoRead := u32 (offset - u32 (ClustertoRead * sectors_per_cluster g)) in
    let* ClusterChain := chain_loop (Z.to_nat ClustertoRead) fs Startcluster in
    if ClusterChain =? FAT32_LAST_CLUSTER then ret None
    else ret (Some (u32 (fatfs_lba_of_cluster g ClusterChain + SectortoRead))).

(** [target] is the contents of the array of the caller, or none for NULL; the result
    is the returned value and the contents of the target. *)
Definition fatfs_sector_reader (fs Startcluster offset : Z) (target : option (list Z)) : M (fat D) (Z * list Z) :=
  let* lba := sector_lba fs Startcluster offset in
  match lba with
  | None => ret (0, default [] target)
  | Some lba =>
      match target with
      | Some t => disk_read fs lba t
      | None =>
          let* f := rd_fs fs in
          if negb (lba =? address (currentsector f)) then
            wr_fs fs (fun f => with_currentsector (with_address lba (currentsector f)) f) ;;
            let* r := load_current fs lba in ret (r, [])
          else ret (1, [])
      end
  end.

Definition fatfs_get_root_cluster (fs : Z) : M (fat D) Z :=
  let* f := rd_fs fs in ret (rootdir_first_cluster (globals f)).

(** ** Names (fatlib_misc.c) *)

(** filename[i] = c *)
Definition put_char (filename : list Z) (i c : Z) : M (fat D) (list Z) :=
  if (0 <=? i) && (i <? Z.of_nat (length filename)) then ret (<[Z.to_nat i := c]> filename) else fault.

(** for (i = 0; i < 261; i++) filename[i] = 0, on an array of 261 characters *)
Definition fatfs_reset_lfn (filename : list Z) : M (fat D) (list Z) :=
  if 261 <=? Z.of_nat (length filename) then ret (replicate 261 0 ++ drop 261 filename) else fault.

Fixpoint put_chars_at (filename : list Z) (i : Z) (l : list Z) : M (fat D) (list Z) :=
  match l with
  | [] => ret filename
  | c :: l => let* filename := put_char filename i c in put_chars_at filename (i + 1) l
  end.

(** The positions of the 13 characters, of which the code keeps the low byte. *)
Definition lfn_positions : list Z := [0x01; 0x03; 0x05; 0x07; 0x09; 0x0E; 0x10; 0x12; 0x14; 0x16; 0x18; 0x1C; 0x1E].

Definition fatfs_lfn_entry (entryBuffer LongFilename : list Z) : M (fat D) (list Z) :=
  let LFNIndex := u8 ((Z.land (byte entryBuffer 0) 0x0F - 1) * 13) in
  let* LongFilename := put_chars_at LongFilename LFNIndex (map (byte entryBuffer) lfn_positions) in
  (* the second loop *)
  put_chars_at LongFilename LFNIndex
    (map (fun i => let c := byte LongFilename (LFNIndex + i) in if c =? 0xFF then 0x20 else c) (seqZ 0 13)).

(** for (i = 0; i < 8; i++): the result is [i] and the name. *)
Fixpoint base_loop (n : nat) (i : Z) (e filename : list Z) : M (fat D) (Z * list Z) :=
  match n with
  | O => ret (i, filename)
  | S n =>
      if Name e i =? 32 then ret (i, filename)
      else let* filename := put_char filename i (Name e i) in base_loop n (i + 1) e filename
  end.
Fixpoint extension_loop (n : nat) (i j : Z) (e filename : list Z) : M (fat D) (Z * list Z) :=
  match n with
  | O => ret (i, filename)
  | S n =>
      if negb (Name e (8 + j) =? 32)
      then let* filename := put_char filename i (Name e (8 + j)) in extension_loop n (i + 1) (j + 1) e filename
      else extension_loop n i (j + 1) e filename
  end.

(** The result and the contents of [filename]. *)
Definition fatfs_get_sfn_from_entry (e filename : list Z) : M (fat D) (Z * list Z) :=
  if fatfs_entry_sfn_only e then
    let* filename := fatfs_reset_lfn filename in
    let* r := base_loop 8 0 e filename in
    let i := r.1 in
    let* filename := (if negb (byte r.2 0 =? 46) && negb (Name e 8 =? 32) then put_char r.2 i 46 else ret r.2) in
    let* r := extension_loop 3 i 0 e filename in
    let* filename := put_char r.2 r.1 0 in
    ret (0, filename)
  else ret (-1, filename).

(** dna_strlen (filename), the characters before the terminator *)
Fixpoint c_str (l : list Z) : M (fat D) (list Z) :=
  match l with
  | [] => fault
  | c :: l => if c =? 0 then ret [] else let* r := c_str l in ret (c :: r)
  end.

Definition fatfs_get_fn_entry (e filename : list Z) : M (fat D) (Z * list Z) :=
  if fatfs_entry_lfn_text e then
    let* filename := fatfs_lfn_entry e filename in ret (-1, filename)
  else if fatfs_entry_lfn_invalid e then
    let* filename := fatfs_reset_lfn filename in ret (-1, filename)
  else
    let* long := (if fatfs_entry_lfn_exists e
                  then let* n := c_str filename in ret (negb (Z.of_nat (length n) =? 0)) else ret false) in
    if (long : bool) then ret (0, filename)
    else
      let* r := fatfs_get_sfn_from_entry e filename in
      if r.1 =? 0 then ret (0, r.2) else ret (-1, r.2).

Definition fatfs_toupper (c : Z) : Z := if (97 <=? c) && (c <=? 122) then c - 32 else c.

(** Both arguments are the characters with their terminator. *)
Fixpoint fatfs_compare_names (s1 s2 : list Z) : M (fat D) Z :=
  match s1, s2 with
  | c1 :: s1, c2 :: s2 =>
      if negb (fatfs_toupper c1 =? fatfs_toupper c2) then ret (-1)
      else if negb (c2 =? 0) then fatfs_compare_names s1 s2 else ret 0
  | _, _ => fault
  end.

(** ** Commands (fatfs_*.c) *)

Definition rd_fat_inode (p : Z) : M (fat D) fatfs_inode_t := let* m := gets fat_inodes in deref (m !! p).
Definition wr_fat_inode (p : Z) (f : fatfs_inode_t -> fatfs_inode_t) : M (fat D) unit :=
  let* v := rd_fat_inode p in
  modify (fun s => mkFat (media s) (fatfss s) (<[p := f v]> (fat_inodes s)) (chains s) (user s)).
Definition rd_chain (p : Z) : M (fat D) (list Z) := let* m := gets chains in deref (m !! p).
Definition wr_chain (p : Z) (l : list Z) : M (fat D) unit :=
  modify (fun s => mkFat (media s) (fatfss s) (fat_inodes s) (<[p := l]> (chains s)) (user s)).

(** The directory entry overlaid on the chain of the directory. *)
Definition entry_at (chain : list Z) (offset : Z) : M (fat D) (list Z) := slice offset 32 chain.

(** ((uint64_t) inode -> cc_dirid << 32) + sector * FAT_SECTOR_SIZE + recordoffset *)
Definition entry_vnid (cc_dirid sector recordoffset : Z) : Z :=
  i64 (Z.shiftl cc_dirid 32 + sector * FAT_SECTOR_SIZE + recordoffset).

(** The entries of a sector, from [item]; the result is [vnid] and [filename]. *)
Fixpoint item_loop (n : nat) (chain : list Z) (cc_dirid sector item : Z) (path : list Z) (vnid : Z) (filename : list Z)
    : M (fat D) (Z * list Z) :=
  match n with
  | O => ret (vnid, filename)
  | S n =>
      let recordoffset := 32 * item in
      let* directoryEntry := entry_at chain (sector * FAT_SECTOR_SIZE + recordoffset) in
      let* r := fatfs_get_fn_entry directoryEntry filename in
      if r.1 =? 0 then
        let* c := fatfs_compare_names r.2 (path ++ [0]) in
        if c =? 0 then ret (entry_vnid cc_dirid sector recordoffset, r.2)
        else
          let* filename := fatfs_reset_lfn r.2 in
          item_loop n chain cc_dirid sector (item + 1) path vnid filename
      else item_loop n chain cc_dirid sector (item + 1) path vnid r.2
  end.

(** The sectors of the directory; [sector] is a uint16_t. *)
Fixpoint directory_loop (fuel : nat) (chain : list Z) (cc_dirid nb sector : Z) (path : list Z) (vnid : Z) (filename : list Z)
    : M (fat D) Z :=
  match fuel with
  | O => diverge
  | S fuel =>
      if sector <? nb then
        let* r := item_loop 16 chain cc_dirid sector 0 path vnid filename in
        directory_loop fuel chain cc_dirid nb (u16 (sector + 1)) path r.1 r.2
      else ret vnid
  end.

(** [new_path] is not used. *)
Definition fat_walk (ns base : Z) (path : list Z) (p_vnid : Z) : M (fat D) (status_t * Z) :=
  ensure negb (ns =? 0) && negb (base =? 0) orelse (DNA_BAD_ARGUMENT, p_vnid) in
  let* inode := rd_fat_inode base in
  ensure negb (cluster_chain_directory inode =? 0) orelse (DNA_BAD_INODE_TYPE, p_vnid) in
  let* vnid :=
    (if bool_decide (path = [46]) then ret (in_id inode)
     else
       let* chain := rd_chain (cluster_chain_directory inode) in
       directory_loop (S (Z.to_nat (nb_sector inode))) chain (cc_dirid inode) (nb_sector inode) 0 path (-1) (replicate 261 0)) in
  ensure negb (vnid =? -1) || negb (bool_decide (path = [46; 46])) orelse (DNA_ALREADY_AT_ROOT, p_vnid) in
  ensure negb (vnid =? -1) orelse (DNA_NO_ENTRY, p_vnid) in
  ret (DNA_OK, vnid).

(** The file of a descriptor: [&(inode -> entry)]. *)
Definition rd_file_entry (file : Z) : M (fat D) (list Z) :=
  let* inode := rd_fat_inode (file - offsetof_entry) in ret (in_entry inode).

Fixpoint store_bytes (p : Z) (l : list Z) : M (fat D) unit :=
  match l with
  | [] => ret tt
  | b :: l =>
      let* m := gets user in
      let* _ := deref (m !! p) in
      modify (fun s => mkFat (media s) (fatfss s) (fat_inodes s) (chains s) (<[p := b]> (user s))) ;;
      store_bytes (p + 1) l
  end.

(** while (bytesRead < count) ...; [buffer] and [buffered] are the members of
    data_buffer.  The result is bytesRead. *)
Fixpoint file_loop (fuel : nat) (fs startcluster sector sector_offset count bytesRead data : Z) (buffer : list Z) (buffered : Z)
    : M (fat D) Z :=
  match fuel with
  | O => diverge
  | S fuel =>
      if bytesRead <? count then
        let* r := (if negb (buffered =? sector) then fatfs_sector_reader fs startcluster sector (Some buffer)
                   else ret (1, buffer)) in
        if r.1 =? 0 then ret bytesRead
        else
          let copyCount := u32 (FAT_SECTOR_SIZE - sector_offset) in
          let copyCount := if u32 (count - bytesRead) <? copyCount then u32 (count - bytesRead) else copyCount in
          let* b := slice sector_offset copyCount r.2 in
          store_bytes (data + bytesRead) b ;;
          file_loop fuel fs startcluster (u32 (sector + 1)) 0 count (u32 (bytesRead + copyCount)) data r.2 sector
      else ret bytesRead
  end.

(** C division rounds towards zero. *)
Definition fat_read (ns node file data offset p_count : Z) : M (fat D) (status_t * Z) :=
  ensure negb (ns =? 0) && negb (node =? 0) && negb (file =? 0) orelse (DNA_ERROR, p_count) in
  let count := u32 p_count in
  if count <=? 0 then ret (DNA_OK, p_count)
  else
    let* entry := rd_file_entry file in
    if FileSize entry <=? offset then ret (DNA_ERROR, p_count)
    else
      let count := if FileSize entry <? i64 (offset + count) then u32 (FileSize entry - offset) else count in
      let startcluster := u32 (Z.shiftl (FstClusHI entry) 16 + FstClusLO entry) in
      let sector := u32 (Z.quot offset FAT_SECTOR_SIZE) in
      let sector_offset := u32 (Z.rem offset FAT_SECTOR_SIZE) in
      let* bytesRead := file_loop (S (S (Z.to_nat (count / FAT_SECTOR_SIZE + 1)))) ns startcluster sector sector_offset count 0 data
                          (replicate 512 0) 0xFFFFFFFF in
      ret (DNA_OK, i32 bytesRead).

(** The entries of a sector from [item]: the first one that has a name. *)
Fixpoint readdir_items (n : nat) (chain : list Z) (sector item : Z) (filename : list Z) : M (fat D) (list Z + Z * list Z) :=
  match n with
  | O => ret (inl filename)
  | S n =>
      let* directoryEntry := entry_at chain (sector * FAT_SECTOR_SIZE + 32 * item) in
      let* r := fatfs_get_fn_entry directoryEntry filename in
      if r.1 =? 0 then ret (inr (item, r.2)) else readdir_items n chain sector (item + 1) r.2
  end.
Fixpoint readdir_loop (fuel : nat) (chain : list Z) (nb sector item_start : Z) (filename : list Z)
    : M (fat D) (option (Z * Z * list Z)) :=
  match fuel with
  | O => diverge
  | S fuel =>
      if sector <? nb then
        let item := u8 item_start in
        let* r := readdir_items (Z.to_nat (16 - item)) chain sector item filename in
        match r with
        | inr (item, filename) => ret (Some (sector, item, filename))
        | inl filename => readdir_loop fuel chain nb (u16 (sector + 1)) 0 filename
        end
      else ret None
  end.

(** The result is the status, [*offset], [*p_count] and the entry. *)
Definition fat_readdir (ns node data entry_array offset p_count : Z)
    : M (fat D) (status_t * (Z * Z * option directory_entry_t)) :=
  ensure negb (ns =? 0) && negb (node =? 0) && negb (entry_array =? 0) orelse (DNA_BAD_ARGUMENT, (offset, p_count, None)) in
  let* inode := rd_fat_inode node in
  ensure negb (cluster_chain_directory inode =? 0) orelse (DNA_OK, (offset, p_count, None)) in
  let item_start := u16 (Z.rem offset FAT_SECTOR_SIZE) in
  let* chain := rd_chain (cluster_chain_directory inode) in
  let* r := readdir_loop (S (Z.to_nat (nb_sector inode))) chain (nb_sector inode) (u16 (Z.quot offset FAT_SECTOR_SIZE))
              item_start (replicate 261 0) in
  match r with
  | None => ret (DNA_OK, (offset, 0, None))
  | Some (sector, item, filename) =>
      let* d_name := slice 0 FATFS_NAME_LENGTH filename in
      let* name := c_str d_name in
      let* f := rd_fs ns in
      let d_reclen := u16 (16 + Z.of_nat (length name)) in
      ret (DNA_OK, (sector * FAT_SECTOR_SIZE + item + 1, d_reclen,
                    Some (mkDirent (entry_vnid (cc_dirid inode) sector (32 * item)) (ft_vid f) d_reclen name)))
  end.

Definition fat_open (ns node mode data : Z) : M (fat D) (status_t * Z) :=
  ensure negb (ns =? 0) && negb (node =? 0) orelse (DNA_BAD_ARGUMENT, data) in
  ret (DNA_OK, node + offsetof_entry).

(** [p_info] is not NULL. *)
Definition fat_get_info (ns node data : Z) : M (fat D) (status_t * option file_info_t) :=
  ensure negb (ns =? 0) orelse (DNA_BAD_ARGUMENT, None) in
  ensure negb (node =? 0) orelse (DNA_BAD_ARGUMENT, None) in
  let* f := rd_fs ns in
  let* inode := rd_fat_inode node in
  let type := if (in_id inode =? ft_root_vnid f) || (cluster_chain_directory inode =? 0)
              then DNA_FILE_DIRECTORY else DNA_FILE_REGULAR in
  if negb (in_id inode =? ft_root_vnid f) then
    let spc := sectors_per_cluster (globals f) in
    if spc =? 0 then fault
    else ret (DNA_OK, Some (mkFinfo (ft_vid f) (in_id inode) type (FileSize (in_entry inode))
                              (FileSize (in_entry inode) / (spc * FAT_SECTOR_SIZE)) spc))
  else ret (DNA_OK, Some (mkFinfo (ft_vid f) (in_id inode) type 0 0 0)).

(** *** The commands, in the state of the virtual file system *)

Definition onfat {A} (m : M (fat D) A) : V (fat D) A := lift fsd set_fsd m.

Definition fatfs_walk (ns base : Z) (path : list Z) (p_vnid : Z) : V (fat D) (status_t * Z) := onfat (fat_walk ns base path p_vnid).
Definition fatfs_read (ns node file data offset p_count : Z) : V (fat D) (status_t * Z) :=
  onfat (fat_read ns node file data offset p_count).
Definition fatfs_readdir (ns node data entry_array offset p_count : Z)
    : V (fat D) (status_t * (Z * Z * option directory_entry_t)) := onfat (fat_readdir ns node data entry_array offset p_count).
Definition fatfs_open (ns node mode data : Z) : V (fat D) (status_t * Z) := onfat (fat_open ns node mode data).
Definition fatfs_get_info (ns node data : Z) : V (fat D) (status_t * option file_info_t) := onfat (fat_get_info ns node data).

(** kernel_free of an object of the file system. *)
Definition free_fatfs (p : Z) : V (fat D) unit :=
  onk (kernel_free p) ;;
  onfat (modify (fun s => mkFat (media s) (delete p (fatfss s)) (fat_inodes s) (chains s) (user s))).
Definition free_fat_inode (p : Z) : V (fat D) unit :=
  onk (kernel_free p) ;;
  onfat (modify (fun s => mkFat (media s) (fatfss s) (delete p (fat_inodes s)) (chains s) (user s))).
Definition free_chain (p : Z) : V (fat D) unit :=
  onk (kernel_free p) ;;
  onfat (modify (fun s => mkFat (media s) (fatfss s) (fat_inodes s) (delete p (chains s)) (user s))).

(** for (sector_offset = 0; fatfs_sector_reader (..., NULL); sector_offset++): the number
    of sectors of the chain. *)
Fixpoint size_loop (fuel : nat) (fs dirid sector_offset : Z) : M (fat D) Z :=
  match fuel with
  | O => diverge
  | S fuel =>
      let* r := fatfs_sector_reader fs dirid sector_offset None in
      if r.1 =? 0 then ret sector_offset else size_loop fuel fs dirid (u32 (sector_offset + 1))
  end.

(** The same with the sectors copied to the chain at the address [p]. *)
Fixpoint copy_loop (fuel : nat) (fs dirid p sector_offset : Z) : M (fat D) unit :=
  match fuel with
  | O => diverge
  | S fuel =>
      let* chain := rd_chain p in
      let offset := sector_offset * FAT_SECTOR_SIZE in
      (* the address passed at the end of the chain is not used *)
      let* target := (if offset <? Z.of_nat (length chain) then slice offset FAT_SECTOR_SIZE chain else ret []) in
      let* r := fatfs_sector_reader fs dirid sector_offset (Some target) in
      if r.1 =? 0 then ret tt
      else
        let* chain := rd_chain p in
        let* chain := patch offset r.2 chain in
        wr_chain p chain ;;
        copy_loop fuel fs dirid p (u32 (sector_offset + 1))
  end.

(** A chain has at most as many clusters as the table has entries. *)
Definition chain_fuel (g : fat_globals) : nat :=
  Z.to_nat (Z.max 0 (rootdir_sectors g) + 256 * Z.max 0 (fat_sectors g) * Z.max 0 (sectors_per_cluster g) + 2).

(** The entry of the node, read in the directory of its parent: false on an error. *)
Definition read_entry (ns inode dirid entry_offset : Z) : V (fat D) bool :=
  let* r := onfat (fatfs_sector_reader ns dirid (entry_offset / FAT_SECTOR_SIZE) None) in
  if r.1 =? 0 then ret false
  else
    let* f := onfat (rd_fs ns) in
    let* e := onfat (slice (entry_offset mod FAT_SECTOR_SIZE) 32 (sector_of (currentsector f))) in
    onfat (wr_fat_inode inode (fun v => mkFatInode (in_id v) (cc_dirid v) (cluster_chain_directory v) (nb_sector v) e)) ;;
    ret true.

(** The sectors of a directory, copied in a new area: false when there is no memory. *)
Definition read_directory (ns inode dirid : Z) (fuel : nat) : V (fat D) bool :=
  let* n := onfat (size_loop fuel ns dirid 0) in
  let* p := onk (kernel_malloc (u32 (n * FAT_SECTOR_SIZE)) true) in
  onfat (wr_fat_inode inode (fun v => mkFatInode (in_id v) dirid p n (in_entry v))) ;;
  if p =? 0 then ret false
  else
    onfat (wr_chain p (replicate (Z.to_nat (n * FAT_SECTOR_SIZE)) 0)) ;;
    onfat (copy_loop fuel ns dirid p 0) ;;
    ret true.

Definition fatfs_read_vnode (ns vnid data : Z) : V (fat D) (status_t * Z) :=
  let entry_offset := Z.land vnid 0xFFFFFFFF in
  let dirid := u32 (Z.shiftr vnid 32) in
  ensure negb (ns =? 0) && negb (vnid =? -1) orelse (DNA_BAD_ARGUMENT, data) in
  let* inode := onk (kernel_malloc sizeof_fat_inode true) in
  ensure negb (inode =? 0) orelse (DNA_OUT_OF_MEM, data) in
  onfat (modify (fun s => mkFat (media s) (fatfss s)
    (<[inode := mkFatInode vnid 0xFFFFFFFF 0 0 (replicate 32 0)]> (fat_inodes s)) (chains s) (user s))) ;;
  let source_error (st : status_t) : V (fat D) (status_t * Z) := free_fat_inode inode ;; ret (st, data) in
  let* f := onfat (rd_fs ns) in
  let root := vnid =? ft_root_vnid f in
  let* ok := (if negb root then read_entry ns inode dirid entry_offset else ret true) in
  check ok rescue source_error DNA_ERROR in
  let* v := onfat (rd_fat_inode inode) in
  if root || fatfs_entry_is_dir (in_entry v) then
    let dirid := if root then u32 (Z.shiftr vnid 32)
                 else u32 (Z.shiftl (FstClusHI (in_entry v)) 16 + FstClusLO (in_entry v)) in
    let* ok := read_directory ns inode dirid (chain_fuel (globals f)) in
    check ok rescue source_error DNA_OUT_OF_MEM in
    ret (DNA_OK, inode)
  else ret (DNA_OK, inode).

Definition fatfs_destroy_vnode (ns node : Z) : V (fat D) status_t :=
  ensure negb (ns =? 0) && negb (node =? 0) orelse DNA_BAD_ARGUMENT in
  let* inode := onfat (rd_fat_inode node) in
  (if negb (cluster_chain_directory inode =? 0) then free_chain (cluster_chain_directory inode) else ret tt) ;;
  free_fat_inode node ;;
  ret DNA_OK.

(** The status, [*data] and [*vnid]; [dev_path] is not NULL. *)
Definition fatfs_mount (vid : Z) (dev_path : list Z) (flags params : Z) : V (fat D) (status_t * (Z * Z)) :=
  let* fatfs := onk (kernel_malloc sizeof_fatfs true) in
  ensure negb (fatfs =? 0) orelse (DNA_OUT_OF_MEM, (0, -1)) in
  let cleared := mkSectorBuffer (replicate 512 0) 0 0 None in
  let* r := onfat (media_open dev_path) in
  onfat (modify (fun s => mkFat (media s)
    (<[fatfs := mkFatfs 0 0 r.2 (mkGlobals 0 0 0 0 0 0 0 0 0 0 0 FAT_TYPE_16) (mkDiskIf false false) cleared None
                  (replicate FAT_BUFFERED_SECTORS cleared)]> (fatfss s)) (fat_inodes s) (chains s) (user s))) ;;
  check r.1 =? 1 rescue (free_fatfs fatfs ;; ret (DNA_ERROR, (0, -1))) in
  onfat (wr_fs fatfs (with_disk_io (mkDiskIf true true))) ;;
  let* status := onfat (fatfs_init fatfs) in
  check status =? FAT_INIT_OK rescue (free_fatfs fatfs ;; ret (DNA_ERROR, (0, -1))) in
  onfat (wr_fs fatfs (with_ft_vid vid)) ;;
  let* c := onfat (fatfs_get_root_cluster fatfs) in
  let root_vnid := i64 (Z.shiftl c 32 + 0xFFFFFFFF) in
  onfat (wr_fs fatfs (with_ft_root_vnid root_vnid)) ;;
  let* r := fatfs_read_vnode fatfs root_vnid 0 in
  check st_eqb r.1 DNA_OK rescue (free_fatfs fatfs ;; ret (DNA_ERROR, (fatfs, root_vnid))) in
  let* status := vnode_create root_vnid vid r.2 in
  ret (status, (fatfs, root_vnid)).

(** Not implemented. *)
Definition fatfs_write_vnode (ns node : Z) : V (fat D) status_t := ret DNA_OK.
Definition fatfs_close (ns node data : Z) : V (fat D) status_t := ret DNA_OK.
Definition fatfs_free (ns node data : Z) : V (fat D) status_t := ret DNA_OK.
Definition fatfs_create (ns node : Z) (path : list Z) (mode perms : Z) (out : Z * Z) : V (fat D) (status_t * (Z * Z)) :=
  ret (DNA_OK, out).
Definition fatfs_write (ns node file data offset p_count : Z) : V (fat D) (status_t * Z) := ret (DNA_OK, p_count).
Definition fatfs_set_info (ns node data : Z) (info : file_info_t) (mask : Z) : V (fat D) status_t := ret DNA_OK.
Definition fatfs_mkdir (ns node : Z) (name : list Z) (mode : Z) : V (fat D) status_t := ret DNA_OK.
Definition fatfs_ioctl (ns node data function : Z) (arguments : list Z) : V (fat D) (status_t * (Z * list Z)) :=
  ret (DNA_ERROR, (0, arguments)).

(** fatfs_variables.c *)
Definition fatfs_cmd : filesystem_cmd (fat D) :=
  mkCmd (fat D) fatfs_walk fatfs_mount fatfs_read_vnode fatfs_write_vnode fatfs_destroy_vnode
    fatfs_open fatfs_close fatfs_free fatfs_create fatfs_read fatfs_write fatfs_get_info
    fatfs_set_info fatfs_mkdir fatfs_readdir fatfs_ioctl.

End Fat.

(** ** Rules for the accesses *)

Section Rules.
Context {D : Type}.
Implicit Types s : fat D.

Lemma wp_rd_fs fs f Q s : fatfss s !! fs = Some f -> Q f s -> wp (rd_fs fs) Q s.
Proof. intros Hf HQ. unfold rd_fs. apply wp_bind, wp_gets. by rewrite Hf. Qed.
Lemma wp_rd_fat_inode p v Q s : fat_inodes s !! p = Some v -> Q v s -> wp (rd_fat_inode p) Q s.
Proof. intros Hv HQ. unfold rd_fat_inode. apply wp_bind, wp_gets. by rewrite Hv. Qed.
Lemma wp_rd_chain p l Q s : chains s !! p = Some l -> Q l s -> wp (rd_chain p) Q s.
Proof. intros Hl HQ. unfold rd_chain. apply wp_bind, wp_gets. by rewrite Hl. Qed.
End Rules.
