(* ===== verification/FatSpec.v ===== *)
(** * Correctness of the FAT file system (Fat.v)

    The C library gives access to a device of bytes ([Disk]).  On it, the file
    allocation table is an array of words and a file is the bytes of its clusters
    ([next_cluster], [file_byte]), whatever the buffers of the file system hold. *)

From S2P Require Import Prelude Status CLib Queue Allocator Kernel Logic Memory Vfs Libc Fat.

(** What the file system relies on: a descriptor of a block device, read at the
    position of the last seek. *)
Class Disk (D : Type) `{Libc D} (fd : Z) := {
  content : D -> Z -> Z;
  capacity : D -> Z;
  position : D -> Z;
  disk_lseek : forall d p, 0 <= p <= capacity d ->
    exists d', lseek fd p d = Ret p d' /\ content d' = content d /\ capacity d' = capacity d /\ position d' = p;
  disk_read_at : forall d n, 0 <= n -> position d + n <= capacity d ->
    exists d', read fd n d = Ret (n, map (content d) (seqZ (position d) n)) d' /\
      content d' = content d /\ capacity d' = capacity d
}.

Section FatSpec.
Context `{Hal} {D : Type} `{Libc D} (fd : Z) `{!Disk D fd}.
Context (C : Z -> Z) (cap : Z).
Context (HC : forall i, 0 <= C i < 256) (Hcap : cap <= 2 ^ 31).
Implicit Types (s : fat D) (f : fatfs_t) (g : fat_globals) (b : sector_buffer).

(** ** Sectors *)

Definition sec (n : Z) : list Z := map C (seqZ (n * FAT_SECTOR_SIZE) FAT_SECTOR_SIZE).
Definition on_disk (n : Z) : Prop := 0 <= n /\ (n + 1) * FAT_SECTOR_SIZE <= cap.

Lemma length_sec n : length (sec n) = 512%nat.
Proof. unfold sec. by rewrite length_map, length_seqZ. Qed.

Lemma byte_sec n i : 0 <= i < 512 -> byte (sec n) i = C (n * FAT_SECTOR_SIZE + i).
Proof.
  intros Hi. unfold byte, sec. apply nth_lookup_Some. rewrite list_lookup_fmap.
  rewrite lookup_seqZ_lt by (unfold FAT_SECTOR_SIZE; lia). cbn. do 2 f_equal. lia.
Qed.

(** The buffer holds the sector of its address, when it has one. *)
Record cached b : Prop := {
  ca_length : length (sector_of b) = 512%nat;
  ca_sector : address b = FAT32_INVALID_CLUSTER \/ sector_of b = sec (address b)
}.

(** A volume of the device: its buffers are consistent with it. *)
Record vol s (fs : Z) f : Prop := {
  vol_fs : fatfss s !! fs = Some f;
  vol_fd : fs_fd f = fd;
  vol_io : disk_io f = mkDiskIf true true;
  vol_content : content (media s) = C;
  vol_capacity : capacity (media s) = cap;
  vol_current : cached (currentsector f);
  vol_table : exists b, fat_buffers f = [b] /\ fat_buffer_head f = Some 0%nat /\ buf_next b = None /\ dirty b = 0 /\ cached b
}.

(** What an access to the device changes: its position and the buffers. *)
Record accessed (fs : Z) s f s' f' : Prop := {
  acc_vid : ft_vid f' = ft_vid f;
  acc_root : ft_root_vnid f' = ft_root_vnid f;
  acc_globals : globals f' = globals f;
  acc_others : forall p, p <> fs -> fatfss s' !! p = fatfss s !! p;
  acc_inodes : fat_inodes s' = fat_inodes s;
  acc_chains : chains s' = chains s;
  acc_user : user s' = user s
}.

Lemma accessed_refl fs s f : accessed fs s f s f.
Proof. by split. Qed.
Lemma accessed_trans fs s f s1 f1 s2 f2 : accessed fs s f s1 f1 -> accessed fs s1 f1 s2 f2 -> accessed fs s f s2 f2.
Proof.
  intros [A1 A2 A3 A4 A5 A6 A7] [B1 B2 B3 B4 B5 B6 B7].
  split; try congruence. intros p Hp. by rewrite B4, A4.
Qed.

(** ** Rules *)

Definition upd s fs f : fat D := mkFat (media s) (<[fs := f]> (fatfss s)) (fat_inodes s) (chains s) (user s).
Definition set_media d s : fat D := mkFat d (fatfss s) (fat_inodes s) (chains s) (user s).

Lemma upd_lookup s fs f : fatfss (upd s fs f) !! fs = Some f.
Proof. apply lookup_insert_eq. Qed.
Lemma upd_upd s fs f f' : upd (upd s fs f) fs f' = upd s fs f'.
Proof. unfold upd. cbn. by rewrite insert_insert_eq. Qed.
Lemma upd_media d s fs f : set_media d (upd s fs f) = upd (set_media d s) fs f.
Proof. done. Qed.

Lemma wp_wr_fs fs f h Q s : fatfss s !! fs = Some f -> Q tt (upd s fs (h f)) -> wp (wr_fs fs h) Q s.
Proof. intros Hf HQ. unfold wr_fs. apply wp_bind. eapply wp_rd_fs; [done|]. by apply wp_modify. Qed.
Lemma wp_rd_buf fs f i b Q s :
  fatfss s !! fs = Some f -> fat_buffers f !! i = Some b -> Q b s -> wp (rd_buf fs i) Q s.
Proof. intros Hf Hb HQ. unfold rd_buf. apply wp_bind. eapply wp_rd_fs; [done|]. by rewrite Hb. Qed.
Lemma wp_wr_buf fs f i b h Q s :
  fatfss s !! fs = Some f -> fat_buffers f !! i = Some b ->
  Q tt (upd s fs (with_fat_buffers (<[i := h b]> (fat_buffers f)) f)) -> wp (wr_buf fs i h) Q s.
Proof.
  intros Hf Hb HQ. unfold wr_buf. apply wp_bind. eapply wp_rd_buf; [done|done|]. by eapply wp_wr_fs.
Qed.

(** Read one sector of the device. *)
Lemma wp_disk_read fs f n (buf : list Z) Q s :
  fatfss s !! fs = Some f -> fs_fd f = fd -> disk_io f = mkDiskIf true true ->
  content (media s) = C -> capacity (media s) = cap -> on_disk n -> length buf = 512%nat ->
  (forall d, content d = C -> capacity d = cap -> Q (1, sec n) (set_media d s)) ->
  wp (disk_read fs n buf) Q s.
Proof using Hcap.
  intros Hf Hfd Hio Hco Hca [Hn Hn'] Hbuf HQ. unfold FAT_SECTOR_SIZE in *.
  unfold disk_read. apply wp_bind. eapply wp_rd_fs; [exact Hf|]. rewrite Hio, Hfd. cbn [read_sector].
  unfold media_read. apply wp_bind. unfold FAT_SECTOR_SIZE. rewrite u32_id, i32_id by lia.
  destruct (disk_lseek (media s) (n * 512)) as (d1 & Hseek & Hc1 & Hp1 & Hpos); [lia|].
  unfold wp at 1, onmedia at 1, lift at 1. rewrite Hseek. rewrite (proj2 (Z.ltb_ge _ _)) by lia.
  destruct (disk_read_at d1 512) as (d2 & Hread & Hc2 & Hp2); [lia|rewrite Hpos, Hp1, Hca; lia|].
  apply wp_bind. unfold wp at 1, onmedia, lift. cbn [media]. rewrite Hread. cbn [fst snd].
  apply wp_bind, wp_patch; [lia|rewrite length_map, length_seqZ; lia|].
  rewrite patch_whole by (rewrite length_map, length_seqZ; lia). apply wp_ret. cbn [Z.ltb Z.compare].
  rewrite Hpos, Hc1, Hco. apply (HQ d2); congruence.
Qed.

(** ** The table *)

(** Its words, little-endian. *)
Definition le16 (a : Z) : Z := C a + 256 * C (a + 1).
Definition le32 (a : Z) : Z := le16 a + 65536 * le16 (a + 2).

(** The table as an array: the word of the cluster [c]. *)
Definition fat_word g (c : Z) : Z :=
  if is_fat16 (fat_type g) then le16 (fat_begin_lba g * FAT_SECTOR_SIZE + 2 * c)
  else le32 (fat_begin_lba g * FAT_SECTOR_SIZE + 4 * c) mod 2 ^ 28.
Definition next_cluster g (c : Z) : Z :=
  let w := fat_word g (if c =? 0 then 2 else c) in
  if (if is_fat16 (fat_type g) then 0xFFF8 else 0x0FFFFFF8) <=? w then FAT32_LAST_CLUSTER else w.

(** The table is on the device; the clusters that it describes. *)
Definition words_per_sector g : Z := if is_fat16 (fat_type g) then 256 else 128.
Definition table_ok g : Prop := 0 <= fat_begin_lba g /\ 0 < fat_sectors g /\ on_disk (fat_begin_lba g + fat_sectors g - 1).
Definition in_table g (c : Z) : Prop := 0 <= c < fat_sectors g * words_per_sector g.

Lemma get16_sec n i : 0 <= i < 511 -> GET_16BIT_WORD (sec n) i = le16 (n * FAT_SECTOR_SIZE + i).
Proof.
  intros Hi. unfold GET_16BIT_WORD, le16. rewrite !byte_sec, Z.shiftl_mul_pow2 by lia.
  rewrite Z.add_assoc. change (2 ^ 8) with 256. lia.
Qed.

Lemma le16_range a : 0 <= le16 a < 65536.
Proof using HC. unfold le16. pose proof (HC a). pose proof (HC (a + 1)). lia. Qed.
Lemma le32_range a : 0 <= le32 a < 4294967296.
Proof using HC. unfold le32. pose proof (le16_range a). pose proof (le16_range (a + 2)). lia. Qed.

Lemma get32_sec n i : 0 <= i < 509 -> GET_32BIT_WORD (sec n) i = le32 (n * FAT_SECTOR_SIZE + i).
Proof using HC.
  intros Hi. unfold GET_32BIT_WORD. rewrite !byte_sec, !Z.shiftl_mul_pow2 by lia.
  rewrite <- (u32_id (le32 _)) by apply le32_range. f_equal. unfold le32, le16.
  rewrite <- !Z.add_assoc. change (2 + 1) with 3. change (2 ^ 8) with 256. change (2 ^ 16) with 65536. change (2 ^ 24) with 16777216. lia.
Qed.

(** The buffer that the table code returns holds the sector. *)
Lemma fat_read_sector_ok fs f n Q s :
  vol s fs f -> on_disk n ->
  (forall s' f' b, vol s' fs f' -> accessed fs s f s' f' -> fat_buffers f' = [b] -> sector_of b = sec n ->
     Q (Some 0%nat) s') ->
  wp (fatfs_fat_read_sector fs n) Q s.
Proof using Hcap.
  intros Hvol Hn HQ. pose proof Hvol as [Hf Hfd Hio Hco Hca Hcur (b & Hb & Hhd & Hnx & Hd & Hcb)].
  assert (n <> FAT32_INVALID_CLUSTER) as Hinv.
  { destruct Hn as [? Hn]. unfold FAT_SECTOR_SIZE, FAT32_INVALID_CLUSTER in *. lia. }
  unfold fatfs_fat_read_sector. apply wp_bind. eapply wp_rd_fs; [exact Hf|]. rewrite Hhd. apply wp_bind.
  cbn [fat_buffer_loop FAT_BUFFERED_SECTORS]. apply wp_bind. eapply (wp_rd_buf fs f 0 b); [exact Hf|by rewrite Hb|].
  destruct (Z.eqb_spec (address b) n) as [Ha|Ha].
  { apply wp_ret. cbn [fst snd]. apply wp_ret. eapply HQ; [exact Hvol|apply accessed_refl|exact Hb|].
    destruct Hcb as [_ [Hz|Hs]]; [congruence|]. by rewrite Hs, Ha. }
  rewrite Hnx. apply wp_bind. eapply wp_wr_fs; [exact Hf|]. apply wp_bind.
  eapply (wp_rd_buf fs _ 0 b); [apply upd_lookup|cbn; by rewrite Hb|]. rewrite Hnx. apply wp_ret. cbn [fst snd deref].
  apply wp_bind, wp_ret, wp_bind. eapply wp_rd_fs; [apply upd_lookup|].
  apply wp_bind. eapply wp_wr_buf; [apply upd_lookup|cbn; by rewrite Hb|]. rewrite upd_upd.
  apply wp_bind. eapply wp_wr_fs; [apply upd_lookup|]. rewrite upd_upd.
  apply wp_bind. eapply wp_rd_buf; [apply upd_lookup|cbn; by rewrite Hb|].
  cbn [with_buf_next dirty address sector_of]. rewrite Hd. cbn [negb Z.eqb]. apply wp_bind, wp_ret.
  apply wp_bind. eapply wp_wr_buf; [apply upd_lookup|cbn; by rewrite Hb|]. rewrite upd_upd.
  apply wp_bind. eapply wp_rd_buf; [apply upd_lookup|cbn; by rewrite Hb|].
  apply wp_bind. eapply wp_disk_read; [apply upd_lookup|exact Hfd|exact Hio|exact Hco|exact Hca|exact Hn|apply Hcb|].
  intros d Hcd Hpd. rewrite upd_media. apply wp_bind. eapply wp_wr_buf; [apply upd_lookup|cbn; by rewrite Hb|]. rewrite upd_upd.
  cbn. apply wp_ret. eapply HQ.
  - split; [apply upd_lookup|done|done|done|done|exact Hcur|]. cbn. rewrite Hb. eexists. split_and!; [reflexivity|done|done|done|].
    split; cbn; [apply length_sec|by right].
  - split; try done. intros p Hp. cbn. by rewrite lookup_insert_ne.
  - cbn. by rewrite Hb.
  - done.
Qed.
Lemma fat_position g c :
  table_ok g -> in_table g c ->
  on_disk (fat_begin_lba g + c / words_per_sector g) /\ 0 <= c - c / words_per_sector g * words_per_sector g < words_per_sector g.
Proof.
  intros (Hb & Hs & Hd & Hd') [Hc Hc']. unfold on_disk, FAT_SECTOR_SIZE in *.
  assert (0 < words_per_sector g) by (unfold words_per_sector; destruct (is_fat16 _); lia).
  assert (c / words_per_sector g < fat_sectors g) by (apply Z.div_lt_upper_bound; lia).
  pose proof (Z.div_pos c (words_per_sector g)). pose proof (Z.mod_pos_bound c (words_per_sector g)).
  rewrite Z.mod_eq in * by lia. lia.
Qed.

Lemma find_next_cluster_ok fs f c Q s :
  vol s fs f -> table_ok (globals f) -> in_table (globals f) (if c =? 0 then 2 else c) ->
  (forall s' f', vol s' fs f' -> accessed fs s f s' f' -> Q (next_cluster (globals f) c) s') ->
  wp (fatfs_find_next_cluster fs c) Q s.
Proof using HC Hcap.
  intros Hvol Htab Hin HQ. unfold fatfs_find_next_cluster. unfold next_cluster, fat_word in HQ. set (c' := if c =? 0 then 2 else c) in *.
  set (g := globals f) in *. cbv zeta. apply wp_bind. eapply wp_rd_fs; [apply Hvol|]. fold g.
  destruct (fat_position g c' Htab Hin) as [Hd Hpos]. unfold words_per_sector in Hd, Hpos.
  assert (forall x, on_disk x -> u32 x = x) as Hu.
  { intros x [? ?]. unfold FAT_SECTOR_SIZE in *. apply u32_id. lia. }
  destruct (is_fat16 (fat_type g)); rewrite Hu by done; apply wp_bind;
    (eapply fat_read_sector_ok; [exact Hvol|exact Hd|]); intros s' f' b Hvol' Hacc Hb Hsec; cbv beta iota;
    apply wp_bind; (eapply wp_rd_buf; [apply Hvol'|by rewrite Hb|]); rewrite Hsec.
  - rewrite u32_id, u16_id, get16_sec by lia.
    replace (_ * FAT_SECTOR_SIZE + _) with (fat_begin_lba g * FAT_SECTOR_SIZE + 2 * c') by (unfold FAT_SECTOR_SIZE; lia).
    pose proof (le16_range (fat_begin_lba g * FAT_SECTOR_SIZE + 2 * c')) as Hr.
    rewrite (proj2 (Z.leb_le _ 65535)), andb_true_r by lia.
    specialize (HQ s' f' Hvol' Hacc). revert HQ. destruct (_ <=? _); intros HQ; by apply wp_ret.
  - rewrite u32_id, u16_id, get32_sec by lia.
    replace (_ * FAT_SECTOR_SIZE + _) with (fat_begin_lba g * FAT_SECTOR_SIZE + 4 * c') by (unfold FAT_SECTOR_SIZE; lia).
    assert (forall x, Z.land x 0x0FFFFFFF = x mod 2 ^ 28) as -> by (intros x; by apply (Z.land_ones x 28)).
    pose proof (Z.mod_pos_bound (le32 (fat_begin_lba g * FAT_SECTOR_SIZE + 4 * c')) (2 ^ 28) ltac:(lia)) as Hr.
    rewrite (proj2 (Z.leb_le _ 268435455)), andb_true_r by lia.
    specialize (HQ s' f' Hvol' Hacc). revert HQ. destruct (_ <=? _); intros HQ; by apply wp_ret.
Qed.

(** ** Files *)

(** The cluster number [k] of the chain that starts at [c]. *)
Definition cluster_at g (c : Z) (k : nat) : Z := Nat.iter k (next_cluster g) c.

(** The sector number [k] of the file that starts at [c]. *)
Definition data_lba g (c : Z) : Z :=
  cluster_begin_lba g + (if is_fat16 (fat_type g) then root_entry_count g * 32 / FAT_SECTOR_SIZE else 0) + (c - 2) * sectors_per_cluster g.
Definition file_lba g (c k : Z) : Z :=
  data_lba g (cluster_at g c (Z.to_nat (k / sectors_per_cluster g))) + k mod sectors_per_cluster g.

(** The byte number [i] of the file. *)
Definition file_byte g (c i : Z) : Z := C (file_lba g c (i / FAT_SECTOR_SIZE) * FAT_SECTOR_SIZE + i mod FAT_SECTOR_SIZE).

(** The first [n] sectors of the file are data sectors of the device, reached through
    clusters that the table describes. *)
Record file_ok g (c n : Z) : Prop := {
  fo_table : table_ok g;
  fo_spc : 0 < sectors_per_cluster g < 256;
  fo_begin : 0 <= cluster_begin_lba g /\ 0 <= root_entry_count g;
  fo_clusters : forall k, 0 <= k -> k * sectors_per_cluster g < n ->
    2 <= cluster_at g c (Z.to_nat k) < 2 ^ 28 /\ in_table g (cluster_at g c (Z.to_nat k));
  fo_sectors : forall k, 0 <= k < n -> on_disk (file_lba g c k)
}.

Lemma cluster_at_S g c k : cluster_at g c (S k) = cluster_at g (next_cluster g c) k.
Proof. unfold cluster_at. by rewrite Nat.iter_succ_r. Qed.

Lemma chain_loop_ok n : forall fs f c Q s,
  vol s fs f -> table_ok (globals f) ->
  (forall k, (k < n)%nat -> cluster_at (globals f) c k <> 0 /\ in_table (globals f) (cluster_at (globals f) c k)) ->
  (forall s' f', vol s' fs f' -> accessed fs s f s' f' -> Q (cluster_at (globals f) c n) s') ->
  wp (chain_loop n fs c) Q s.
Proof using HC Hcap.
  induction n as [|n IH]; intros fs f c Q s Hvol Htab Hin HQ; cbn [chain_loop].
  { apply wp_ret. eapply HQ; [exact Hvol|apply accessed_refl]. }
  apply wp_bind. destruct (Hin 0%nat) as [Hc Hc']; [lia|]. cbn in Hc, Hc'.
  eapply find_next_cluster_ok; [exact Hvol|exact Htab|by rewrite (proj2 (Z.eqb_neq _ _) Hc)|].
  intros s' f' Hvol' Hacc. pose proof (acc_globals _ _ _ _ _ Hacc) as Hg.
  eapply (IH fs f'); [exact Hvol'|by rewrite Hg| |].
  - intros k Hk. rewrite Hg, <- cluster_at_S. apply Hin. lia.
  - intros s2 f2 Hvol2 Hacc2. rewrite Hg, <- cluster_at_S. eapply HQ; [exact Hvol2|by eapply accessed_trans].
Qed.

(** The sector of the device that holds the sector [k] of a file. *)
Lemma sector_lba_ok fs f c k n Q s :
  vol s fs f -> file_ok (globals f) c n -> 0 <= k < n -> k < 2 ^ 32 ->
  (forall s' f', vol s' fs f' -> accessed fs s f s' f' -> Q (Some (file_lba (globals f) c k)) s') ->
  wp (sector_lba fs c k) Q s.
Proof using HC Hcap.
  intros Hvol [Htab Hspc Hbeg Hcl Hsec] Hk Hk32 HQ. unfold sector_lba. apply wp_bind. eapply wp_rd_fs; [apply Hvol|].
  set (g := globals f) in *. set (spc := sectors_per_cluster g) in *.
  assert (0 <= k / spc /\ k / spc * spc <= k) as [Hq1 Hq2].
  { pose proof (Z.div_pos k spc). pose proof (Z.mul_div_le k spc). lia. }
  assert (c <> 0) as Hc0. { destruct (Hcl 0) as [[Hc _] _]; [lia|lia|]. change (2 <= c) in Hc. lia. }
  rewrite (proj2 (Z.eqb_neq c 0)), andb_false_r, (proj2 (Z.eqb_neq spc 0)) by lia. cbv zeta. apply wp_bind.
  assert (forall q, 0 <= q <= k / spc -> q * spc < n) as Hle by (intros q Hq; nia).
  eapply (chain_loop_ok _ fs f); [exact Hvol|exact Htab| |].
  { intros q Hq. destruct (Hcl (Z.of_nat q)) as [Hcq Hiq]; [lia|apply Hle; lia|].
    rewrite Nat2Z.id in Hcq, Hiq. split; [|exact Hiq]. fold g. lia. }
  intros s' f' Hvol' Hacc. fold g. destruct (Hcl (k / spc)) as [Hcc _]; [lia|apply Hle; lia|].
  specialize (Hsec k Hk). unfold file_lba in Hsec. fold spc in Hsec.
  set (cc := cluster_at g c (Z.to_nat (k / spc))) in *.
  rewrite (proj2 (Z.eqb_neq cc FAT32_LAST_CLUSTER)) by (unfold FAT32_LAST_CLUSTER; lia).
  assert (u32 (fatfs_lba_of_cluster g cc + u32 (k - u32 (k / spc * spc))) = file_lba g c k) as ->.
  2: { apply wp_ret. by eapply HQ. }
  unfold file_lba. fold spc cc. destruct Hsec as [_ Hsec]. unfold fatfs_lba_of_cluster, data_lba in *. fold spc in Hsec. fold spc.
  pose proof (Z.mod_pos_bound k spc) as Hm. rewrite (Z.mul_comm (k / spc)), (u32_id (spc * _)) by lia.
  rewrite <- Z.mod_eq by lia. unfold FAT_SECTOR_SIZE in *.
  assert (0 <= (cc - 2) * spc) by nia. pose proof (Z.div_pos (root_entry_count g * 32) 512).
  rewrite (u32_id (k mod spc)), (u32_id (cc - 2)) by lia.
  destruct (is_fat16 (fat_type g)); rewrite ?Z.add_0_r in *; rewrite (u32_id ((cc - 2) * spc)) by lia;
    rewrite (u32_id (_ + (cc - 2) * spc)) by lia; apply u32_id; lia.
Qed.

Lemma sector_reader_ok fs f c k n (buf : list Z) Q s :
  vol s fs f -> file_ok (globals f) c n -> 0 <= k < n -> k < 2 ^ 32 -> length buf = 512%nat ->
  (forall s' f', vol s' fs f' -> accessed fs s f s' f' -> Q (1, sec (file_lba (globals f) c k)) s') ->
  wp (fatfs_sector_reader fs c k (Some buf)) Q s.
Proof using HC Hcap.
  intros Hvol Hok Hk Hk32 Hbuf HQ. unfold fatfs_sector_reader. apply wp_bind.
  eapply sector_lba_ok; [exact Hvol|exact Hok|exact Hk|exact Hk32|]. intros s' f' Hvol' Hacc.
  pose proof Hvol' as [Hf Hfd Hio Hco Hca Hcur Htb].
  eapply wp_disk_read; [exact Hf|exact Hfd|exact Hio|exact Hco|exact Hca|by eapply fo_sectors|exact Hbuf|].
  intros d Hd1 Hd2. eapply (HQ _ f'); [by split|]. destruct Hacc. by split.
Qed.
(** *** Reading *)

Definition set_user u s : fat D := mkFat (media s) (fatfss s) (fat_inodes s) (chains s) u.

Lemma wp_store_bytes l : forall p Q s,
  mapped (user s) p (length l) -> Q tt (set_user (written (user s) p l) s) -> wp (store_bytes p l) Q s.
Proof.
  induction l as [|b l IH]; intros p Q s Hm HQ; cbn [store_bytes written length] in *.
  { apply wp_ret. by destruct s. }
  destruct (mapped_head _ _ _ Hm) as [v Hv]. apply wp_bind, wp_gets, wp_bind. rewrite Hv. apply wp_ret.
  apply wp_bind, wp_modify, IH; [|exact HQ]. cbn. by apply mapped_insert, mapped_tail.
Qed.

(** The bytes copied from a sector are those of the file. *)
Lemma sector_bytes g c k so n :
  0 <= so -> 0 <= n -> so + n <= 512 ->
  take (Z.to_nat n) (drop (Z.to_nat so) (sec (file_lba g c k))) = map (file_byte g c) (seqZ (k * FAT_SECTOR_SIZE + so) n).
Proof.
  intros Hso Hn Hle. unfold FAT_SECTOR_SIZE. apply list_eq. intros i. rewrite list_lookup_fmap.
  destruct (decide (Z.of_nat i < n)) as [Hi|Hi].
  - rewrite lookup_take_lt, lookup_drop by lia. unfold sec. rewrite list_lookup_fmap.
    rewrite !lookup_seqZ_lt by (unfold FAT_SECTOR_SIZE; lia). cbn. f_equal. unfold file_byte, FAT_SECTOR_SIZE.
    replace (k * 512 + so + Z.of_nat i) with (so + Z.of_nat i + k * 512) by lia.
    rewrite Z.div_add, Z.mod_add, Z.div_small, Z.mod_small, Z.add_0_l by lia. f_equal. lia.
  - rewrite lookup_take_ge, lookup_seqZ_ge by lia. done.
Qed.

Lemma seqZ_split a n m : 0 <= n -> 0 <= m -> seqZ a (n + m) = seqZ a n ++ seqZ (a + n) m.
Proof. intros Hn Hm. by rewrite seqZ_app. Qed.

Lemma vol_set_user s fs f u : vol s fs f -> vol (set_user u s) fs f.
Proof. intros [? ? ? ? ? ? ?]. by split. Qed.

Lemma accessed_user fs s f s1 f1 u s2 f2 :
  accessed fs s f s1 f1 -> accessed fs (set_user u s1) f1 s2 f2 -> accessed fs (set_user u s) f s2 f2.
Proof.
  intros [A1 A2 A3 A4 A5 A6 A7] [B1 B2 B3 B4 B5 B6 B7]. cbn in *.
  split; cbn; try congruence. intros p Hp. by rewrite B4, A4.
Qed.

Lemma mapped_written_bytes m p n q l : mapped m p n -> mapped (written m q l) p n.
Proof. revert m q. induction l as [|c l IH]; intros m q Hm; [done|]. cbn. by apply IH, mapped_insert. Qed.

Lemma mapped_rest m p n k : mapped m p n -> (k <= n)%nat -> mapped m (p + Z.of_nat k) (n - k).
Proof. intros Hm Hk i Hi. rewrite <- Z.add_assoc. apply Hm. lia. Qed.

(** The loop copies the bytes of the file from the position [k * 512 + so]. *)
Lemma file_loop_ok c n fuel : forall fs f k so count r data buf buffered Q s,
  vol s fs f -> file_ok (globals f) c n -> n <= 2 ^ 23 -> 0 <= k -> 0 <= so < 512 -> 0 <= r <= count ->
  k * 512 + so + (count - r) <= n * 512 -> length buf = 512%nat -> buffered <> k ->
  mapped (user s) (data + r) (Z.to_nat (count - r)) -> so + (count - r) <= 512 * (Z.of_nat fuel - 1) -> (0 < fuel)%nat ->
  (forall s' f', vol s' fs f' ->
     accessed fs (set_user (written (user s) (data + r) (map (file_byte (globals f) c) (seqZ (k * 512 + so) (count - r)))) s) f s' f' ->
     Q count s') ->
  count < 2 ^ 32 -> wp (file_loop fuel fs c k so count r data buf buffered) Q s.
Proof using HC Hcap.
  induction fuel as [|fuel IH]; intros fs f k so count r data buf buffered Q s Hvol Hok Hn Hk Hso Hr Hin Hbuf Hne Hmap Hfuel H0' HQ Hc; [lia|].
  cbn [file_loop]. destruct (Z.ltb_spec r count) as [Hlt|Hge].
  2: { apply wp_ret. replace r with count in * by lia. apply (HQ s f Hvol). rewrite Z.sub_diag. split; done. }
  rewrite (proj2 (Z.eqb_neq _ _) Hne). cbn [negb]. apply wp_bind.
  eapply sector_reader_ok; [exact Hvol|exact Hok|lia|lia|exact Hbuf|]. intros s1 f1 Hvol1 Hacc1. cbn [fst snd Z.eqb]. cbv zeta.
  unfold FAT_SECTOR_SIZE. rewrite !u32_id by lia.
  set (m := if count - r <? 512 - so then count - r else 512 - so).
  assert (0 < m <= count - r /\ so + m <= 512 /\ (m = count - r \/ m = 512 - so)) as (Hm1 & Hm2 & Hm3).
  { unfold m. destruct (Z.ltb_spec (count - r) (512 - so)); lia. }
  clearbody m. apply wp_bind, wp_slice; [lia|lia|rewrite length_sec; lia|].
  rewrite sector_bytes by lia. set (l := map _ _). unfold FAT_SECTOR_SIZE in l.
  assert (length l = Z.to_nat m) as Hl by (unfold l; by rewrite length_map, length_seqZ).
  assert (user s1 = user s) as Hu by apply Hacc1.
  apply wp_bind, wp_store_bytes.
  { rewrite Hl, Hu. intros i Hi. apply Hmap. lia. }
  pose proof (acc_globals _ _ _ _ _ Hacc1) as Hg. rewrite Hu, !u32_id by lia.
  eapply (IH fs f1); [by apply vol_set_user|by rewrite Hg|done|lia|lia|lia|lia|apply length_sec|lia| |lia|lia| |done].
  - cbn [user set_user]. apply mapped_written_bytes.
    replace (data + (r + m)) with (data + r + Z.of_nat (Z.to_nat m)) by lia.
    replace (Z.to_nat (count - (r + m))) with (Z.to_nat (count - r) - Z.to_nat m)%nat by lia. apply mapped_rest; [done|lia].
  - intros s2 f2 Hvol2 Hacc2. apply (HQ s2 f2 Hvol2). cbn [user set_user] in Hacc2. rewrite Hg in Hacc2.
    replace (count - r) with (m + (count - (r + m))) by lia. rewrite seqZ_split, map_app, written_app by lia.
    fold l. rewrite Hl. replace (data + r + Z.of_nat (Z.to_nat m)) with (data + (r + m)) by lia.
    eapply accessed_user; [exact Hacc1|]. destruct Hm3 as [->| ->]; [|by replace (k * 512 + so + (512 - so)) with ((k + 1) * 512 + 0) by lia].
    replace (count - (r + (count - r))) with 0 in * by lia. exact Hacc2.
Qed.
(** The first cluster of the file of an entry. *)
Definition first_cluster (e : list Z) : Z := u32 (Z.shiftl (FstClusHI e) 16 + FstClusLO e).

Lemma wp_rd_file_entry file v Q s :
  fat_inodes s !! (file - offsetof_entry) = Some v -> Q (in_entry v) s -> wp (rd_file_entry file) Q s.
Proof.
  intros Hv HQ. unfold rd_file_entry. apply wp_bind. eapply wp_rd_fat_inode; [exact Hv|]. by apply wp_ret.
Qed.

Lemma file_size_range e : 0 <= FileSize e < 2 ^ 32.
Proof. apply u32_range. Qed.

Lemma fat_read_ok fs f node file v n data offset count Q s :
  fs <> 0 -> node <> 0 -> file <> 0 -> vol s fs f -> fat_inodes s !! (file - offsetof_entry) = Some v ->
  0 <= offset < FileSize (in_entry v) -> 0 < count < 2 ^ 31 ->
  let m := Z.min count (FileSize (in_entry v) - offset) in
  file_ok (globals f) (first_cluster (in_entry v)) n -> offset + m <= n * 512 -> n <= 2 ^ 23 ->
  mapped (user s) data (Z.to_nat m) ->
  (forall s' f', vol s' fs f' ->
     accessed fs (set_user (written (user s) data (map (file_byte (globals f) (first_cluster (in_entry v))) (seqZ offset m))) s) f s' f' ->
     Q (DNA_OK, m) s') ->
  wp (fat_read fs node file data offset count) Q s.
Proof using HC Hcap.
  intros Hfs Hnode Hfile Hvol Hv Hoff Hcount m Hok Hin Hn Hmap HQ. unfold fat_read.
  rewrite !(proj2 (Z.eqb_neq _ _)) by done. cbn [negb andb]. rewrite (u32_id count) by lia.
  rewrite (proj2 (Z.leb_gt _ _)) by lia. apply wp_bind. eapply wp_rd_file_entry; [exact Hv|]. set (e := in_entry v) in *.
  pose proof (file_size_range e) as Hsize. rewrite (proj2 (Z.leb_gt _ _)) by lia. cbv zeta. rewrite i64_id by lia.
  replace (if FileSize e <? offset + count then u32 (FileSize e - offset) else count) with m.
  2: { unfold m. destruct (Z.ltb_spec (FileSize e) (offset + count)); [rewrite u32_id by lia|]; lia. }
  assert (0 < m <= count) as Hm by (unfold m; lia). clearbody m. fold (first_cluster e).
  unfold FAT_SECTOR_SIZE. rewrite Z.quot_div_nonneg, Z.rem_mod_nonneg by lia.
  pose proof (Z.div_mod offset 512 ltac:(lia)) as Hdm. pose proof (Z.mod_pos_bound offset 512 ltac:(lia)) as Hmod.
  rewrite !u32_id by lia. pose proof (Z.div_mod m 512 ltac:(lia)). pose proof (Z.mod_pos_bound m 512 ltac:(lia)).
  apply wp_bind. eapply (file_loop_ok _ n _ fs f); [exact Hvol|exact Hok|exact Hn|lia|exact Hmod|lia|lia|by rewrite length_replicate|lia| |lia|lia| |lia].
  - by rewrite Z.add_0_r, Z.sub_0_r.
  - intros s' f' Hvol' Hacc. apply wp_ret. rewrite i32_id by lia. apply (HQ s' f' Hvol').
    rewrite Z.add_0_r, Z.sub_0_r in Hacc. by replace (offset / 512 * 512 + offset mod 512) with offset in Hacc by lia.
Qed.

(** fatfs_find_next_cluster reads the file allocation table as an array of words:
    whatever the buffer of the table holds, it returns the word of the cluster (its low 28
    bits on FAT32), or the mark of the last cluster, and it leaves a buffer that is
    consistent with the device. *)
Theorem fatfs_find_next_cluster_spec s fs f c :
  vol s fs f -> table_ok (globals f) -> c <> 0 -> in_table (globals f) c ->
  exists s' f', fatfs_find_next_cluster fs c s = Ret (next_cluster (globals f) c) s' /\
    vol s' fs f' /\ accessed fs s f s' f'.
Proof using HC Hcap.
  intros Hvol Htab Hc Hin. apply Z.eqb_neq in Hc.
  assert (wp (fatfs_find_next_cluster fs c) (fun r s' => r = next_cluster (globals f) c /\ exists f', vol s' fs f' /\ accessed fs s f s' f') s)
    as (r & s' & Hrun & -> & f' & Hvol' & Hacc)%wp_exists; [|eauto].
  eapply find_next_cluster_ok; [exact Hvol|exact Htab|by rewrite Hc|eauto].
Qed.

(** C17: fatfs_read stores in the buffer of the caller the bytes of the file, which are
    those of the clusters of its chain, from the offset and limited to the size of the
    file, and returns their number; it changes nothing else but the buffers of the
    volume, which stay consistent.  A read from the end of the file on fails. *)
Theorem fatfs_read_spec (s : vstate (fat D)) fs f node file v n data offset count :
  fs <> 0 -> node <> 0 -> file <> 0 -> vol (fsd s) fs f -> fat_inodes (fsd s) !! (file - offsetof_entry) = Some v ->
  0 <= offset -> 0 < count < 2 ^ 31 ->
  let size := FileSize (in_entry v) in
  let m := Z.min count (size - offset) in
  (size <= offset -> fatfs_read fs node file data offset count s = Ret (DNA_ERROR, count) s) /\
  (offset < size -> file_ok (globals f) (first_cluster (in_entry v)) n -> offset + m <= n * 512 -> n <= 2 ^ 23 ->
   mapped (user (fsd s)) data (Z.to_nat m) ->
   exists t f', fatfs_read fs node file data offset count s = Ret (DNA_OK, m) (set_fsd t s) /\ vol t fs f' /\
     accessed fs (set_user (written (user (fsd s)) data
       (map (file_byte (globals f) (first_cluster (in_entry v))) (seqZ offset m))) (fsd s)) f t f').
Proof using HC Hcap.
  intros Hfs Hnode Hfile Hvol Hv Hoff Hcount size m. split.
  - intros Hend. unfold fatfs_read, onfat, lift, fat_read. rewrite !(proj2 (Z.eqb_neq _ _)) by done. cbn [negb andb].
    rewrite (u32_id count), (proj2 (Z.leb_gt _ _)) by lia. unfold rd_file_entry, rd_fat_inode, bind, gets.
    rewrite Hv. cbn [deref ret]. rewrite (proj2 (Z.leb_le _ _)) by done. by destruct s.
  - intros Hlt Hok Hin Hn Hmap.
    assert (wp (fat_read fs node file data offset count) (fun r t => r = (DNA_OK, m) /\ exists f', vol t fs f' /\
      accessed fs (set_user (written (user (fsd s)) data
        (map (file_byte (globals f) (first_cluster (in_entry v))) (seqZ offset m))) (fsd s)) f t f') (fsd s))
      as (r & t & Hrun & -> & f' & Hvol' & Hacc)%wp_exists by (eapply fat_read_ok; eauto; lia).
    exists t, f'. split; [|done]. unfold fatfs_read, onfat, lift. by rewrite Hrun.
Qed.
(** ** Parameters of a volume *)

(** The fields of the boot sector at [a], in bytes. *)
Definition bpb_fat_size (a : Z) : Z := if le16 (a + 22) =? 0 then le32 (a + 36) else le16 (a + 22).
Definition bpb_total (a : Z) : Z := if le16 (a + 19) =? 0 then le32 (a + 32) else le16 (a + 19).
Definition bpb_tables (a : Z) : Z := le16 (a + 14) + C (a + 16) * bpb_fat_size a.
Definition bpb_root_sectors (a : Z) : Z := (le16 (a + 17) * 32 + 511) / 512.
Definition bpb_clusters (a : Z) : Z := (bpb_total a - (bpb_tables a + bpb_root_sectors a)) / C (a + 13).

(** The first sector of the volume: that of the first partition, or 0. *)
Definition volume_lba : Z := if valid_partition (C 450) then le32 454 else 0.

(** The volume that the boot sector describes. *)
Definition bpb_globals (lba : Z) : fat_globals :=
  let a := lba * 512 in
  let fat16 := bpb_clusters a <? 65525 in
  mkGlobals (C (a + 13)) (lba + bpb_tables a) (if fat16 then 0 else le32 (a + 44)) (bpb_tables a) (bpb_root_sectors a)
    (lba + le16 (a + 14)) (le16 (a + 48)) lba (bpb_fat_size a) 0 (le16 (a + 17)) (if fat16 then FAT_TYPE_16 else FAT_TYPE_32).

(** A formatted device. *)
Record formatted : Prop := {
  fm_mbr : on_disk 0 /\ C 510 = 0x55 /\ C 511 = 0xAA;
  fm_boot : on_disk volume_lba /\ le16 (volume_lba * 512 + 510) = 0xAA55;
  fm_sector : le16 (volume_lba * 512 + 11) = 512;
  fm_spc : C (volume_lba * 512 + 13) <> 0;
  fm_room : bpb_tables (volume_lba * 512) + bpb_root_sectors (volume_lba * 512) <= bpb_total (volume_lba * 512);
  fm_bound : volume_lba + bpb_tables (volume_lba * 512) < 2 ^ 32
}.

Lemma wp_wr_globals fs f h Q s :
  fatfss s !! fs = Some f -> Q tt (upd s fs (with_globals (h (globals f)) f)) -> wp (wr_globals fs h) Q s.
Proof. intros Hf HQ. unfold wr_globals. by eapply wp_wr_fs. Qed.

(** One write to the parameters after another. *)
Lemma wp_param {A} fs f g h (k : M (fat D) A) Q s :
  wp k Q (upd s fs (with_globals (h g) f)) -> wp (wr_globals fs h ;; k) Q (upd s fs (with_globals g f)).
Proof. intros HQ. apply wp_bind. eapply wp_wr_globals; [apply upd_lookup|]. by rewrite upd_upd. Qed.

Lemma wp_load_current fs f n Q s :
  fatfss s !! fs = Some f -> fs_fd f = fd -> disk_io f = mkDiskIf true true ->
  content (media s) = C -> capacity (media s) = cap -> on_disk n -> length (sector_of (currentsector f)) = 512%nat ->
  (forall d, content d = C -> capacity d = cap ->
     Q 1 (upd (set_media d s) fs (with_currentsector (with_sector (sec n) (currentsector f)) f))) ->
  wp (load_current fs n) Q s.
Proof using Hcap.
  intros Hf Hfd Hio Hco Hca Hn Hl HQ. unfold load_current. apply wp_bind. eapply wp_rd_fs; [exact Hf|].
  apply wp_bind. eapply wp_disk_read; [exact Hf|done|done|done|done|done|done|]. intros d Hd1 Hd2.
  apply wp_bind. eapply wp_wr_fs; [exact Hf|]. apply wp_ret. by apply HQ.
Qed.

(** The parameters are those of the boot sector in the working buffer. *)
Lemma load_parameters_ok fs f lba Q s :
  let a := lba * 512 in
  0 <= lba -> sector_of (currentsector f) = sec lba -> lba_begin (globals f) = lba -> next_free_cluster (globals f) = 0 ->
  le16 (a + 510) = 0xAA55 -> le16 (a + 11) = 512 -> C (a + 13) <> 0 ->
  bpb_tables a + bpb_root_sectors a <= bpb_total a -> lba + bpb_tables a < 2 ^ 32 ->
  (bpb_clusters a < 4085 -> forall g, Q FAT_INIT_WRONG_FILESYS_TYPE (upd s fs (with_globals g f))) ->
  (4085 <= bpb_clusters a -> Q FAT_INIT_OK (upd s fs (with_globals (bpb_globals lba) f))) ->
  wp (load_parameters fs) Q (upd s fs f).
Proof using HC.
  intros a Hlba Hs Hl Hnf Hsig Hbps Hspc Hroom Hbound Hw HQ. unfold load_parameters.
  apply wp_bind. eapply wp_rd_fs; [apply upd_lookup|]. rewrite Hs. cbv zeta.
  rewrite !get16_sec, !get32_sec, !byte_sec by lia. change (lba * FAT_SECTOR_SIZE) with a.
  rewrite Hbps. change (512 =? FAT_SECTOR_SIZE) with true. cbv iota.
  replace (upd s fs f) with (upd s fs (with_globals (globals f) f)) by (by destruct f).
  destruct (globals f) as [x1 x2 x3 x4 x5 x6 x7 x8 x9 x10 x11 x12]. cbn [lba_begin next_free_cluster] in Hl, Hnf. subst x8 x10.
  do 9 apply wp_param.
  cbn [with_sectors_per_cluster with_root_entry_count with_fat_sectors with_rootdir_first_cluster
    with_fs_info_sector with_rootdir_first_sector with_rootdir_sectors with_fat_begin_lba with_cluster_begin_lba
    sectors_per_cluster cluster_begin_lba rootdir_first_cluster rootdir_first_sector rootdir_sectors
    fat_begin_lba fs_info_sector lba_begin fat_sectors next_free_cluster root_entry_count fat_type].
  rewrite Hsig. change (0xAA55 =? 0xAA55) with true. cbv iota.
  assert ((if negb (le16 (a + 22) =? 0) then le16 (a + 22) else le32 (a + 36)) = bpb_fat_size a) as ->
    by (unfold bpb_fat_size; by destruct (_ =? _)).
  assert ((if negb (le16 (a + 19) =? 0) then le16 (a + 19) else le32 (a + 32)) = bpb_total a) as ->
    by (unfold bpb_total; by destruct (_ =? _)).
  assert (0 <= bpb_fat_size a /\ 0 <= bpb_total a < 2 ^ 32) as [Hfs Htot].
  { unfold bpb_fat_size, bpb_total. pose proof (le16_range (a + 22)). pose proof (le32_range (a + 36)).
    pose proof (le16_range (a + 19)). pose proof (le32_range (a + 32)). destruct (_ =? _), (_ =? _); lia. }
  pose proof (HC (a + 16)). pose proof (HC (a + 13)). pose proof (le16_range (a + 14)). pose proof (le16_range (a + 17)).
  assert (0 <= C (a + 16) * bpb_fat_size a) by nia. unfold bpb_tables in Hroom, Hbound.
  change (512 - 1) with 511. fold (bpb_root_sectors a).
  assert (0 <= bpb_root_sectors a) by (apply Z.div_pos; lia).
  rewrite (u32_id (C (a + 16) * _)) by lia. fold (bpb_tables a) in Hroom, Hbound. fold (bpb_tables a).
  rewrite (u32_id (bpb_tables a)) by (unfold bpb_tables in *; lia). rewrite (u32_id (bpb_tables a + _)) by (unfold bpb_tables in *; lia).
  rewrite (u32_id (bpb_total a - _)) by (unfold bpb_tables in *; lia). fold (bpb_clusters a).
  rewrite (proj2 (Z.eqb_neq _ _) Hspc). cbn [negb].
  destruct (Z.ltb_spec (bpb_clusters a) 4085) as [Hlt|Hge]; [apply wp_ret; by apply Hw|]. specialize (HQ Hge).
  unfold bpb_globals in HQ.
  assert (u32 (u32 (lba + le16 (a + 14)) + C (a + 16) * bpb_fat_size a) = lba + bpb_tables a) as ->
    by (rewrite (u32_id (lba + _)) by (unfold bpb_tables in *; lia); unfold bpb_tables in *; rewrite u32_id; lia).
  rewrite (u32_id (lba + le16 (a + 14))) by (unfold bpb_tables in *; lia).
  change ((le16 (a + 17) * 32 + (FAT_SECTOR_SIZE - 1)) / FAT_SECTOR_SIZE) with (bpb_root_sectors a).
  change (lba * 512) with a in HQ.
  destruct (Z.ltb_spec (bpb_clusters a) 65525); [do 2 apply wp_param|apply wp_param]; apply wp_ret; exact HQ.
Qed.
(** The buffers before the parameters are loaded. *)
Lemma wp_fat_init fs f b Q s :
  fat_buffers f = [b] ->
  Q tt (upd s fs (with_fat_buffer_head (Some 0%nat)
    (with_fat_buffers [mkSectorBuffer (replicate 512 0) FAT32_INVALID_CLUSTER 0 None] f))) ->
  wp (fatfs_fat_init fs) Q (upd s fs f).
Proof.
  intros Hb HQ. unfold fatfs_fat_init. apply wp_bind. eapply wp_wr_fs; [apply upd_lookup|]. rewrite upd_upd.
  cbn [fat_init_loop FAT_BUFFERED_SECTORS]. apply wp_bind. eapply wp_rd_fs; [apply upd_lookup|].
  apply wp_bind. eapply wp_wr_buf; [apply upd_lookup|cbn; by rewrite Hb|]. rewrite upd_upd.
  apply wp_bind. eapply wp_wr_fs; [apply upd_lookup|]. rewrite upd_upd. apply wp_ret. cbn. rewrite Hb. exact HQ.
Qed.

(** On a formatted device fatfs_init returns the parameters of the volume of the boot
    sector, the type of FAT being given by its number of clusters, with buffers that are
    consistent with the device; it refuses a volume with less than 4085 clusters. *)
Theorem fatfs_init_spec s fs f b :
  fatfss s !! fs = Some f -> fs_fd f = fd -> disk_io f = mkDiskIf true true ->
  content (media s) = C -> capacity (media s) = cap ->
  length (sector_of (currentsector f)) = 512%nat -> fat_buffers f = [b] -> formatted ->
  let clusters := bpb_clusters (volume_lba * 512) in
  (clusters < 4085 -> exists s', fatfs_init fs s = Ret FAT_INIT_WRONG_FILESYS_TYPE s') /\
  (4085 <= clusters -> exists s' f', fatfs_init fs s = Ret FAT_INIT_OK s' /\ vol s' fs f' /\
     globals f' = bpb_globals volume_lba /\ accessed fs s f s' (with_globals (globals f) f')).
Proof using HC Hcap.
  intros Hf Hfd Hio Hco Hca Hl Hb [(Hd0 & H55 & HAA) (Hd & Hsig) Hbps Hspc Hroom Hbound] clusters.
  assert (wp (fatfs_init fs) (fun r s' => if clusters <? 4085 then r = FAT_INIT_WRONG_FILESYS_TYPE else
    r = FAT_INIT_OK /\ exists f', vol s' fs f' /\ globals f' = bpb_globals volume_lba /\ accessed fs s f s' (with_globals (globals f) f')) s)
    as (r & s' & Hrun & HQ)%wp_exists.
  2: { destruct (Z.ltb_spec clusters 4085); split; intros; try lia; [subst r; eauto|].
       destruct HQ as (-> & f' & Hvol & Hg & Hacc). by exists s', f'. }
  unfold fatfs_init. apply wp_bind. eapply wp_wr_fs; [exact Hf|].
  apply wp_bind. eapply wp_wr_globals; [apply upd_lookup|]. rewrite upd_upd.
  apply wp_bind. eapply wp_fat_init; [exact Hb|]. apply wp_bind. eapply wp_rd_fs; [apply upd_lookup|]. cbn -[wp upd].
  rewrite Hio. cbn [read_sector write_sector andb].
  apply wp_bind. eapply wp_load_current; [apply upd_lookup|exact Hfd|exact Hio|exact Hco|exact Hca|exact Hd0|exact Hl|].
  intros d1 Hc1 Hp1. cbn [Z.eqb negb]. rewrite upd_media, upd_upd. apply wp_bind. eapply wp_rd_fs; [apply upd_lookup|].
  cbn [sector_of with_sector currentsector with_currentsector].
  rewrite !byte_sec, !get16_sec, get32_sec by lia. change (0 * FAT_SECTOR_SIZE) with 0. rewrite !Z.add_0_l, H55, HAA.
  assert (le16 510 = 0xAA55) as -> by (unfold le16; change (510 + 1) with 511; by rewrite H55, HAA).
  cbn [Z.eqb Pos.eqb andb]. cbv zeta. fold volume_lba.
  apply wp_bind. eapply wp_wr_globals; [apply upd_lookup|]. rewrite upd_upd.
  apply wp_bind. eapply wp_load_current; [apply upd_lookup|exact Hfd|exact Hio|exact Hc1|exact Hp1|exact Hd|apply length_sec|].
  intros d2 Hc2 Hp2. cbn [Z.eqb negb]. rewrite upd_media, upd_upd.
  eapply (load_parameters_ok fs _ volume_lba); [apply Hd|done|done|done|done|done|done|done|done| |]; fold clusters.
  - intros Hlt g. by rewrite (proj2 (Z.ltb_lt _ _) Hlt).
  - intros Hge. rewrite (proj2 (Z.ltb_ge _ _) Hge). split; [done|]. eexists. split.
    + split; [apply upd_lookup|done|done|done|done|split; cbn; [apply length_sec|by left]|].
      eexists. split_and!; [reflexivity|done|done|done|]. split; cbn; [reflexivity|by left].
    + split; [reflexivity|]. split; try done. intros p Hp. cbn. by rewrite lookup_insert_ne.
Qed.
End FatSpec.
