(* ===== verification/FatDirectory.v ===== *)
(** * Directories of the FAT file system (Fat.v)

    The entries of a directory give a list of names ([dir_names]): a name is that of a
    short entry, or the long name collected from the entries before it.  fatfs_walk and
    fatfs_readdir are related to this list. *)

From S2P Require Import Prelude Status CLib Queue Allocator Kernel Logic Memory Vfs Libc Fat.

(** ** Names *)

(** A cleared buffer, a buffer that holds a string, the string of a buffer. *)
Definition blank : list Z := replicate 261 0.
Definition pad (name : list Z) : list Z := name ++ replicate (261 - length name) 0.
Fixpoint cstr (l : list Z) : list Z :=
  match l with [] => [] | c :: l => if c =? 0 then [] else c :: cstr l end.

(** The characters before the first space. *)
Fixpoint word (l : list Z) : list Z :=
  match l with [] => [] | c :: l => if c =? 32 then [] else c :: word l end.

(** The name of a short entry: its base and its extension, without a dot. *)
Definition short_name (e : list Z) : list Z :=
  word (map (Name e) (seqZ 0 8)) ++ filter (fun c => c <> 32) (map (Name e) (seqZ 8 3)).

(** The 13 characters of a long entry, and their place. *)
Definition lfn_index (e : list Z) : Z := u8 ((Z.land (byte e 0) 0x0F - 1) * 13).
Definition lfn_text (e : list Z) : list Z :=
  map (fun p => let c := byte e p in if c =? 0xFF then 0x20 else c) lfn_positions.

(** What an entry does to the buffer of the name, and whether it ends a name. *)
Definition fn_step (e fn : list Z) : bool * list Z :=
  if fatfs_entry_lfn_text e
  then (false, take (Z.to_nat (lfn_index e)) fn ++ lfn_text e ++ drop (Z.to_nat (lfn_index e) + 13) fn)
  else if fatfs_entry_lfn_invalid e then (false, blank)
  else match cstr fn with [] => (true, pad (short_name e)) | _ => (true, fn) end.

(** The names of consecutive entries, and the buffer after them. *)
Fixpoint dir_names (fn : list Z) (es : list (list Z)) : list (option (list Z)) :=
  match es with
  | [] => []
  | e :: es =>
      let r := fn_step e fn in
      if r.1 then Some (cstr r.2) :: dir_names blank es else None :: dir_names r.2 es
  end.
Fixpoint after (fn : list Z) (es : list (list Z)) : list Z :=
  match es with
  | [] => fn
  | e :: es => let r := fn_step e fn in after (if r.1 then blank else r.2) es
  end.

(** Names are compared without case; the index of the first entry with a name. *)
Definition same_name (a b : list Z) : bool := bool_decide (map fatfs_toupper a = map fatfs_toupper b).
Fixpoint find_name (path : list Z) (l : list (option (list Z))) : option nat :=
  match l with
  | [] => None
  | Some n :: l => if same_name n path then Some 0%nat else S <$> find_name path l
  | None :: l => S <$> find_name path l
  end.

(** The entries [a], ..., [a + n - 1] of a directory. *)
Definition dir_entries (chain : list Z) (a n : nat) : list (list Z) :=
  (fun i => take 32 (drop (32 * i) chain)) <$> seq a n.

Lemma dir_entries_S chain a n :
  dir_entries chain a (S n) = take 32 (drop (32 * a) chain) :: dir_entries chain (S a) n.
Proof. done. Qed.
Lemma dir_entries_app chain a n m : dir_entries chain a (n + m) = dir_entries chain a n ++ dir_entries chain (a + n) m.
Proof. unfold dir_entries. by rewrite seq_app, fmap_app. Qed.
Lemma length_dir_names es : forall fn, length (dir_names fn es) = length es.
Proof. induction es as [|e es IH]; intros fn; [done|]. cbn. destruct (fn_step e fn).1; cbn; by rewrite IH. Qed.
Lemma dir_names_app es1 es2 : forall fn, dir_names fn (es1 ++ es2) = dir_names fn es1 ++ dir_names (after fn es1) es2.
Proof.
  induction es1 as [|e es1 IH]; intros fn; [done|]. cbn. destruct (fn_step e fn).1; cbn; by rewrite IH.
Qed.
Lemma find_name_app path l1 l2 :
  find_name path (l1 ++ l2) =
    match find_name path l1 with Some i => Some i | None => Nat.add (length l1) <$> find_name path l2 end.
Proof.
  induction l1 as [|o l1 IH]; cbn; [by destruct (find_name path l2)|].
  rewrite IH. destruct o as [n|]; [destruct (same_name n path); [done|]|];
    destruct (find_name path l1); cbn; try done; by destruct (find_name path l2).
Qed.
Lemma find_name_lt path l i : find_name path l = Some i -> (i < length l)%nat.
Proof.
  revert i. induction l as [|o l IH]; intros i; cbn; [done|].
  destruct o as [n|]; [destruct (same_name n path); [intros [= <-]; lia|]|];
    (destruct (find_name path l) as [j|]; [|done]); intros [= <-]; specialize (IH j eq_refl); lia.
Qed.

Section Names.
Context {D : Type}.
Implicit Types s : fat D.

(** A buffer of names ends with a terminator that no entry overwrites. *)
Record buf_ok (fn : list Z) : Prop := {
  bo_length : length fn = 261%nat;
  bo_end : drop 256 fn = replicate 5 0
}.

Lemma blank_ok : buf_ok blank.
Proof. by split. Qed.

Lemma pad_ok name : (length name <= 256)%nat -> buf_ok (pad name).
Proof.
  intros Hl. unfold pad. split; [rewrite length_app, length_replicate; lia|].
  rewrite drop_app, drop_ge, drop_replicate by done. change (replicate (261 - length name - (256 - length name)) 0 = replicate 5 0). f_equal. lia.
Qed.

Lemma buf_zero fn : buf_ok fn -> 0 ∈ fn.
Proof.
  intros [Hl He]. rewrite <- (take_drop 256 fn), He. apply elem_of_app. right. by left.
Qed.

Lemma c_str_ok (l : list Z) s : 0 ∈ l -> c_str l s = Ret (cstr l) s.
Proof.
  induction l as [|c l IH]; intros Hin; [by apply not_elem_of_nil in Hin|]. cbn.
  destruct (Z.eqb_spec c 0) as [->|Hc]; [done|]. unfold bind. rewrite IH; [done|].
  apply elem_of_cons in Hin as [?|?]; [lia|done].
Qed.

(** *** Writing characters *)

Lemma put_char_ok fn i c s : 0 <= i < Z.of_nat (length fn) -> put_char fn i c s = Ret (<[Z.to_nat i := c]> fn) s.
Proof. intros Hi. unfold put_char. by rewrite (proj2 (Z.leb_le _ _)), (proj2 (Z.ltb_lt _ _)) by lia. Qed.

Lemma put_chars_at_ok l : forall fn i s, 0 <= i -> i + Z.of_nat (length l) <= Z.of_nat (length fn) ->
  put_chars_at fn i l s = Ret (take (Z.to_nat i) fn ++ l ++ drop (Z.to_nat i + length l) fn) s.
Proof.
  induction l as [|c l IH]; intros fn i s Hi Hl; cbn [put_chars_at length] in *.
  { rewrite Nat.add_0_r. unfold ret. f_equal. by rewrite app_nil_l, take_drop. }
  unfold bind. rewrite put_char_ok, IH by (try rewrite length_insert; lia). f_equal.
  replace (Z.to_nat (i + 1)) with (S (Z.to_nat i)) by lia.
  rewrite (take_S_r _ _ c) by (rewrite list_lookup_insert_eq; [done|lia]).
  rewrite take_insert_ge, drop_insert_lt, <- app_assoc by lia. cbn. do 4 f_equal. lia.
Qed.

Lemma insert_pad w c : (length w < 261)%nat -> <[length w := c]> (pad w) = pad (w ++ [c]).
Proof.
  intros Hl. unfold pad. rewrite insert_app_r_alt, Nat.sub_diag by lia.
  destruct (261 - length w)%nat as [|k] eqn:E; [lia|]. cbn. rewrite length_app, <- app_assoc. cbn. do 3 f_equal. lia.
Qed.

Lemma put_pad w c i s : (length w < 261)%nat -> i = Z.of_nat (length w) -> put_char (pad w) i c s = Ret (pad (w ++ [c])) s.
Proof.
  intros Hl ->. rewrite put_char_ok; [by rewrite Nat2Z.id, insert_pad|].
  unfold pad. rewrite length_app, length_replicate. lia.
Qed.

(** *** Short names *)

Lemma base_loop_ok n : forall w i e s, i = Z.of_nat (length w) -> (length w + n < 261)%nat ->
  let w' := w ++ word (map (Name e) (seqZ i (Z.of_nat n))) in
  base_loop n i e (pad w) s = Ret (Z.of_nat (length w'), pad w') s.
Proof.
  induction n as [|n IH]; intros w i e s Hi Hn; cbn [base_loop].
  { rewrite seqZ_nil by lia. cbn. by rewrite app_nil_r, Hi. }
  rewrite seqZ_cons by lia. cbn [map word]. destruct (Name e i =? 32); [by rewrite app_nil_r, Hi|].
  unfold bind. rewrite put_pad by (done || lia).
  rewrite IH by (rewrite length_app; cbn; lia). replace (Z.pred (Z.of_nat (S n))) with (Z.of_nat n) by lia.
  change (Z.succ i) with (i + 1). by rewrite <- app_assoc.
Qed.

Lemma extension_loop_ok n : forall w i j e s, i = Z.of_nat (length w) -> (length w + n < 261)%nat ->
  let w' := w ++ filter (fun c => c <> 32) (map (Name e) (seqZ (8 + j) (Z.of_nat n))) in
  extension_loop n i j e (pad w) s = Ret (Z.of_nat (length w'), pad w') s.
Proof.
  induction n as [|n IH]; intros w i j e s Hi Hn; cbn [extension_loop].
  { rewrite seqZ_nil by lia. cbn. by rewrite app_nil_r, Hi. }
  rewrite seqZ_cons by lia. cbn [map]. replace (Z.pred (Z.of_nat (S n))) with (Z.of_nat n) by lia.
  replace (Z.succ (8 + j)) with (8 + (j + 1)) by lia. destruct (Z.eqb_spec (Name e (8 + j)) 32) as [He|He]; cbn [negb].
  - rewrite filter_cons_False by (intros ?; congruence). apply IH; [done|lia].
  - rewrite filter_cons_True by done. unfold bind. rewrite put_pad by (done || lia).
    rewrite IH by (rewrite length_app; cbn; lia). by rewrite <- app_assoc.
Qed.

(** The dot is overwritten by the first character of the extension. *)
Lemma extension_loop_dot n w e s :
  Name e 8 <> 32 -> (length w < 261)%nat ->
  extension_loop (S n) (Z.of_nat (length w)) 0 e (<[length w := 46]> (pad w)) s =
  extension_loop (S n) (Z.of_nat (length w)) 0 e (pad w) s.
Proof.
  intros He Hw. cbn [extension_loop]. change (8 + 0) with 8. rewrite (proj2 (Z.eqb_neq _ _) He). cbn [negb]. unfold bind.
  assert (length (pad w) = 261%nat) as Hp by (unfold pad; rewrite length_app, length_replicate; lia).
  rewrite !put_char_ok by (rewrite ?length_insert; lia). by rewrite Nat2Z.id, list_insert_insert_eq.
Qed.
Lemma word_length l : (length (word l) <= length l)%nat.
Proof. induction l as [|c l IH]; cbn; [lia|]. destruct (c =? 32); cbn; lia. Qed.

Lemma short_name_length e : (length (short_name e) <= 11)%nat.
Proof.
  unfold short_name. rewrite length_app. pose proof (word_length (map (Name e) (seqZ 0 8))) as Hw.
  pose proof (length_filter (fun c => c <> 32) (map (Name e) (seqZ 8 3))) as Hf.
  rewrite length_map, length_seqZ in Hw, Hf. lia.
Qed.

Lemma reset_ok fn s : length fn = 261%nat -> fatfs_reset_lfn fn s = Ret blank s.
Proof.
  intros Hl. unfold fatfs_reset_lfn. rewrite (proj2 (Z.leb_le _ _)) by lia. rewrite drop_ge by lia.
  unfold ret. by f_equal.
Qed.

Lemma pad_zero w : (length w < 261)%nat -> pad (w ++ [0]) = pad w.
Proof.
  intros Hl. rewrite <- insert_pad by done. unfold pad. rewrite insert_app_r_alt, Nat.sub_diag by lia.
  f_equal. destruct (261 - length w)%nat; done.
Qed.

Lemma get_sfn_ok e fn s :
  length fn = 261%nat -> fatfs_entry_sfn_only e = true ->
  fatfs_get_sfn_from_entry e fn s = Ret (0, pad (short_name e)) s.
Proof.
  intros Hl He. unfold fatfs_get_sfn_from_entry. rewrite He. unfold bind at 1. rewrite reset_ok by done.
  change blank with (pad []). unfold bind at 1. rewrite (base_loop_ok 8 []) by (done || cbn; lia). cbn [app fst snd].
  set (w := word _). assert (length w <= 8)%nat as Hw.
  { unfold w. pose proof (word_length (map (Name e) (seqZ 0 (Z.of_nat 8)))) as Hw. by rewrite length_map, length_seqZ in Hw. }
  pose proof (short_name_length e) as Hsn. unfold short_name in *. change (seqZ 0 8) with (seqZ 0 (Z.of_nat 8)) in *. fold w in Hsn. fold w.
  set (w' := w ++ _) in *.
  assert (extension_loop 3 (Z.of_nat (length w)) 0 e (pad w) s = Ret (Z.of_nat (length w'), pad w') s) as Hx
    by (rewrite extension_loop_ok by (done || lia); done).
  assert (bind (if negb (byte (pad w) 0 =? 46) && negb (Name e 8 =? 32) then put_char (pad w) (Z.of_nat (length w)) 46 else ret (pad w))
    (extension_loop 3 (Z.of_nat (length w)) 0 e) s = Ret (Z.of_nat (length w'), pad w') s) as Hdot.
  { destruct (Z.eqb_spec (Name e 8) 32) as [H8|H8]; [by rewrite andb_false_r|]. destruct (negb (byte (pad w) 0 =? 46)); [|done].
    cbn [negb andb]. unfold bind. rewrite put_char_ok, Nat2Z.id by (unfold pad; rewrite length_app, length_replicate; lia).
    by rewrite extension_loop_dot by (done || lia). }
  unfold bind in Hdot |- *. destruct (_ s) as [l s1| | |]; try done. rewrite Hdot. cbn [fst snd].
  rewrite put_pad, pad_zero by (done || lia). done.
Qed.

(** *** Long names *)

Lemma lfn_index_range e : 0 <= lfn_index e <= 243.
Proof.
  unfold lfn_index. set (x := Z.land (byte e 0) 0x0F).
  assert (0 <= x < 16) as Hx by (unfold x; change 0x0F with (Z.ones 4); rewrite Z.land_ones by lia; apply Z.mod_pos_bound; lia).
  destruct (decide (x = 0)) as [->|Hx0]; [by vm_compute|]. unfold u8. rewrite wrap_u_id; change (2 ^ 8) with 256; lia.
Qed.

Lemma read_back (l1 l l2 : list Z) (i : Z) :
  0 <= i -> Z.to_nat i = length l1 ->
  map (fun k => byte (l1 ++ l ++ l2) (i + k)) (seqZ 0 (Z.of_nat (length l))) = l.
Proof.
  intros Hi Hl1. apply list_eq. intros k. rewrite list_lookup_fmap. destruct (decide (k < length l)%nat) as [Hk|Hk].
  - rewrite lookup_seqZ_lt by lia. cbn. destruct (lookup_lt_is_Some_2 l k Hk) as [c Hc]. rewrite Hc. f_equal.
    unfold byte. apply nth_lookup_Some. rewrite lookup_app_r by lia. rewrite lookup_app_l by lia.
    replace (Z.to_nat (i + (0 + Z.of_nat k)) - length l1)%nat with k by lia. done.
  - rewrite lookup_seqZ_ge by lia. symmetry. apply lookup_ge_None. lia.
Qed.

Lemma lfn_entry_ok e fn s :
  length fn = 261%nat ->
  fatfs_lfn_entry e fn s =
    Ret (take (Z.to_nat (lfn_index e)) fn ++ lfn_text e ++ drop (Z.to_nat (lfn_index e) + 13) fn) s.
Proof.
  intros Hl. pose proof (lfn_index_range e) as Hi. unfold fatfs_lfn_entry. fold (lfn_index e). cbv zeta.
  set (i := lfn_index e) in *. set (cs := map (byte e) lfn_positions). assert (length cs = 13%nat) as Hcs by done.
  unfold bind. rewrite put_chars_at_ok by (rewrite ?Hcs; lia). rewrite Hcs.
  set (b := take _ fn ++ cs ++ drop _ fn).
  assert (length (take (Z.to_nat i) fn) = Z.to_nat i) as Ht by (rewrite length_take; lia).
  assert (length b = 261%nat) as Hb by (unfold b; rewrite !length_app, Ht, Hcs, length_drop; lia).
  match goal with |- put_chars_at _ _ ?x _ = _ => replace x with (lfn_text e) end.
  2: { symmetry. unfold lfn_text. rewrite <- (map_map (byte e) (fun c => if c =? 0xFF then 0x20 else c)). fold cs.
    rewrite <- (read_back (take (Z.to_nat i) fn) cs (drop (Z.to_nat i + 13) fn) i) at 1 by lia.
    rewrite map_map. by rewrite Hcs. }
  rewrite put_chars_at_ok by (cbn [lfn_text lfn_positions map length]; lia). f_equal.
  change (length (lfn_text e)) with 13%nat. unfold b. f_equal.
  - rewrite take_app_le, take_take, Nat.min_id by lia. done.
  - f_equal. rewrite app_assoc, drop_app_ge by (rewrite length_app; lia). rewrite length_app, Ht, Hcs, Nat.sub_diag. done.
Qed.

(** One entry. *)
Lemma get_fn_entry_ok e fn s :
  buf_ok fn ->
  fatfs_get_fn_entry e fn s = Ret (if (fn_step e fn).1 then 0 else -1, (fn_step e fn).2) s /\ buf_ok (fn_step e fn).2.
Proof.
  intros Hok. pose proof Hok as [Hl He]. unfold fatfs_get_fn_entry, fn_step.
  destruct (fatfs_entry_lfn_text e) eqn:Elfn.
  { unfold bind. rewrite lfn_entry_ok by done. split; [done|]. cbn [snd]. pose proof (lfn_index_range e).
    assert (length (lfn_text e) = 13%nat) as Ht by done. split.
    - rewrite !length_app, length_take, length_drop, Ht. lia.
    - rewrite app_assoc, drop_app_ge by (rewrite length_app, length_take, Ht; lia).
      rewrite drop_drop, <- He. f_equal. rewrite length_app, length_take, Ht. lia. }
  destruct (fatfs_entry_lfn_invalid e) eqn:Einv.
  { unfold bind. rewrite reset_ok by done. split; [done|apply blank_ok]. }
  assert (fatfs_entry_sfn_only e = true /\ fatfs_entry_lfn_exists e = true) as [Es Ex].
  { unfold fatfs_entry_lfn_invalid in Einv. zbool. unfold fatfs_entry_sfn_only, fatfs_entry_lfn_exists.
    assert (Attr e <> FILE_ATTR_LFN_TEXT) as Ha.
    { intros Ha. unfold fatfs_entry_lfn_text in Elfn. rewrite Ha in Elfn. done. }
    rewrite !(proj2 (Z.eqb_neq _ _)) by done. split; by apply Z.eqb_eq. }
  rewrite Ex. unfold bind at 1 2. rewrite c_str_ok by (by apply buf_zero).
  destruct (cstr fn) as [|c l] eqn:Ec; cbn [length ret].
  - change (negb (Z.of_nat 0 =? 0)) with false. cbv iota. unfold bind. rewrite get_sfn_ok by done. cbn [fst snd Z.eqb].
    split; [done|]. apply pad_ok. pose proof (short_name_length e). lia.
  - rewrite (proj2 (Z.eqb_neq _ _)) by (cbn; lia). done.
Qed.

(** *** Comparison *)

Lemma toupper_zero c : fatfs_toupper c = 0 -> c = 0.
Proof.
  unfold fatfs_toupper. destruct (Z.leb_spec 97 c), (Z.leb_spec c 122); cbn [andb]; lia.
Qed.

Lemma compare_names_ok path : forall fn s, 0 ∈ fn -> Forall (fun c => c <> 0) path ->
  fatfs_compare_names fn (path ++ [0]) s = Ret (if same_name (cstr fn) path then 0 else -1) s.
Proof.
  induction path as [|p path IH]; intros fn s Hin Hp; (destruct fn as [|c fn]; [by apply not_elem_of_nil in Hin|]);
    cbn [app fatfs_compare_names cstr]; unfold same_name; apply elem_of_cons in Hin.
  - change (fatfs_toupper 0) with 0. destruct (Z.eqb_spec (fatfs_toupper c) 0) as [Hc|Hc]; cbn [negb].
    + apply toupper_zero in Hc as ->. done.
    + destruct (Z.eqb_spec c 0) as [->|_]; [done|]. cbn [map]. by rewrite bool_decide_false.
  - apply Forall_cons in Hp as [Hp0 Hp]. destruct (Z.eqb_spec (fatfs_toupper c) (fatfs_toupper p)) as [Hc|Hc]; cbn [negb].
    + rewrite (proj2 (Z.eqb_neq _ _) Hp0). cbn [negb].
      assert (c <> 0) as Hc0. { intros ->. by apply Hp0, toupper_zero. }
      rewrite (proj2 (Z.eqb_neq _ _) Hc0), IH by (naive_solver). unfold same_name. cbn [map]. rewrite Hc.
      do 2 case_bool_decide; try done; congruence.
    + destruct (Z.eqb_spec c 0) as [->|_]; cbn [map]; rewrite bool_decide_false; [done|congruence|done|congruence].
Qed.
End Names.

(** ** The search of a name *)

Section Walk.
Context `{Hal} {D : Type} `{Libc D}.
Context (chain : list Z) (cc : Z) (path : list Z) (Hpath : Forall (fun c => c <> 0) path).
Implicit Types s : fat D.

Lemma wp_entry_at i Q s :
  (32 * (i + 1) <= length chain)%nat -> Q (take 32 (drop (32 * i) chain)) s ->
  wp (entry_at (D := D) chain (32 * Z.of_nat i)) Q s.
Proof.
  intros Hi HQ. unfold entry_at. apply wp_slice; [lia|lia|lia|]. by replace (Z.to_nat (32 * Z.of_nat i)) with (32 * i)%nat by lia.
Qed.

Lemma entry_offset (sector item : nat) :
  Z.of_nat sector * FAT_SECTOR_SIZE + 32 * Z.of_nat item = 32 * Z.of_nat (16 * sector + item).
Proof. unfold FAT_SECTOR_SIZE. lia. Qed.

Lemma item_loop_ok n : forall (sector item : nat) vnid fn s,
  buf_ok fn -> (32 * (16 * sector + item + n) <= length chain)%nat ->
  wp (item_loop n chain cc (Z.of_nat sector) (Z.of_nat item) path vnid fn)
    (fun r s' => s' = s /\ buf_ok r.2 /\
       match find_name path (dir_names fn (dir_entries chain (16 * sector + item) n)) with
       | Some i => r.1 = entry_vnid cc (Z.of_nat sector) (32 * Z.of_nat (item + i))
       | None => r = (vnid, after fn (dir_entries chain (16 * sector + item) n))
       end) s.
Proof using Hpath.
  induction n as [|n IH]; intros sector item vnid fn s Hok Hlen; cbn [item_loop].
  { apply wp_ret. done. }
  cbv zeta. rewrite entry_offset, dir_entries_S. apply wp_bind, wp_entry_at; [lia|].
  set (e := take 32 _). destruct (get_fn_entry_ok e fn s Hok) as [Hrun Hok']. apply wp_bind. eapply wp_eq; [exact Hrun|].
  cbn [fst snd dir_names after]. replace (Z.of_nat item + 1) with (Z.of_nat (S item)) by lia.
  destruct (fn_step e fn) as [named fn']. cbn [fst snd] in *.
  replace (S (16 * sector + item)) with (16 * sector + S item)%nat by lia. destruct named; cbn [Z.eqb].
  - apply wp_bind. eapply wp_eq; [apply compare_names_ok; [by apply buf_zero|done]|]. cbn [find_name].
    destruct (same_name (cstr fn') path); cbn [Z.eqb].
    { apply wp_ret. split_and!; [done|done|]. by rewrite Nat.add_0_r. }
    apply wp_bind. eapply wp_eq; [apply reset_ok, Hok'|].
    eapply wp_mono; [apply IH; [apply blank_ok|lia]|]. intros r s' (-> & Hr & Hfind). split_and!; [done|done|].
    destruct (find_name path _); cbn; [by rewrite Nat.add_succ_comm in Hfind|done].
  - cbn [find_name]. eapply wp_mono; [apply IH; [exact Hok'|lia]|]. intros r s' (-> & Hr & Hfind). split_and!; [done|done|].
    destruct (find_name path _); cbn; [by rewrite Nat.add_succ_comm in Hfind|done].
Qed.

(** The search goes on after the sector of the match: the result is the first entry with
    the name when no sector follows it. *)
Lemma directory_loop_ok fuel : forall (k sector : nat) vnid fn s,
  buf_ok fn -> (k < fuel)%nat -> (512 * (sector + k) <= length chain)%nat -> Z.of_nat (sector + k) < 65536 ->
  wp (directory_loop fuel chain cc (Z.of_nat (sector + k)) (Z.of_nat sector) path vnid fn)
    (fun r s' => s' = s /\
       match find_name path (dir_names fn (dir_entries chain (16 * sector) (16 * k))) with
       | Some i => (16 * (k - 1) <= i)%nat -> r = entry_vnid cc (Z.of_nat (sector + i / 16)) (32 * Z.of_nat (i mod 16))
       | None => r = vnid
       end) s.
Proof using Hpath.
  induction fuel as [|fuel IH]; intros k sector vnid fn s Hok Hfuel Hlen Hmax; [lia|]. cbn [directory_loop].
  destruct k as [|k].
  { rewrite Nat.add_0_r, Z.ltb_irrefl. by apply wp_ret. }
  rewrite (proj2 (Z.ltb_lt _ _)) by lia. apply wp_bind.
  eapply wp_mono; [apply (item_loop_ok 16 sector 0); [done|lia]|]. intros [v fn'] s' (-> & Hok' & Hfind). cbn [fst snd] in *.
  rewrite u16_id by lia. replace (Z.of_nat sector + 1) with (Z.of_nat (S sector)) by lia.
  replace (sector + S k)%nat with (S sector + k)%nat in * by lia.
  eapply wp_mono; [apply IH; [done|lia|lia|lia]|]. intros r s' [-> Hr]. split; [done|].
  rewrite Nat.add_0_r in Hfind. replace (16 * S k)%nat with (16 + 16 * k)%nat by lia.
  rewrite dir_entries_app, dir_names_app, find_name_app, length_dir_names.
  change (length (dir_entries chain (16 * sector) 16)) with 16%nat.
  destruct (find_name path (dir_names fn (dir_entries chain (16 * sector) 16))) as [i|] eqn:Ei.
  - intros Hi. apply find_name_lt in Ei as Hlt. rewrite length_dir_names in Hlt.
    change (length (dir_entries chain (16 * sector) 16)) with 16%nat in Hlt.
    destruct k as [|k]; [|lia]. cbn in Hr. rewrite Hr, Hfind, Nat.div_small, Nat.mod_small by lia. by rewrite Nat.add_0_r.
  - apply pair_eq in Hfind as [-> ->]. replace (16 * sector + 16)%nat with (16 * S sector)%nat by lia.
    destruct (find_name path (dir_names (after _ _) _)) as [i|]; cbn [fmap option_fmap option_map]; [|done]. intros Hi. rewrite Hr by lia.
    replace (16 + i)%nat with (i + 1 * 16)%nat by lia. rewrite Nat.div_add, Nat.Div0.mod_add by lia. do 2 f_equal. lia.
Qed.
End Walk.

(** ** The listing of a directory *)

(** The first named entry: its index and its name. *)
Fixpoint first_named (l : list (option (list Z))) : option (nat * list Z) :=
  match l with
  | [] => None
  | Some n :: _ => Some (0%nat, n)
  | None :: l => (fun r => (S r.1, r.2)) <$> first_named l
  end.

Lemma first_named_app l1 l2 :
  first_named (l1 ++ l2) =
    match first_named l1 with Some r => Some r | None => (fun r => ((length l1 + r.1)%nat, r.2)) <$> first_named l2 end.
Proof.
  induction l1 as [|o l1 IH]; cbn; [by destruct (first_named l2) as [[? ?]|]|].
  destruct o as [n|]; [done|]. rewrite IH. destruct (first_named l1); cbn; [done|]. by destruct (first_named l2).
Qed.

Lemma first_named_lt l i n : first_named l = Some (i, n) -> (i < length l)%nat.
Proof.
  revert i. induction l as [|o l IH]; intros i; cbn; [done|]. destruct o; [intros [= <- <-]; lia|].
  destruct (first_named l) as [[j m]|]; [|done]. intros [= <- <-]. specialize (IH j eq_refl). lia.
Qed.

Section Readdir.
Context `{Hal} {D : Type} `{Libc D} (chain : list Z).
Implicit Types s : fat D.

Lemma readdir_items_ok n : forall (sector item : nat) fn s,
  buf_ok fn -> (32 * (16 * sector + item + n) <= length chain)%nat ->
  wp (readdir_items n chain (Z.of_nat sector) (Z.of_nat item) fn)
    (fun r s' => s' = s /\
       match first_named (dir_names fn (dir_entries chain (16 * sector + item) n)) with
       | Some (i, name) => exists fn', r = inr (Z.of_nat (item + i), fn') /\ buf_ok fn' /\ cstr fn' = name
       | None => let fn' := after fn (dir_entries chain (16 * sector + item) n) in r = inl fn' /\ buf_ok fn'
       end) s.
Proof.
  induction n as [|n IH]; intros sector item fn s Hok Hlen; cbn [readdir_items].
  { by apply wp_ret. }
  rewrite entry_offset, dir_entries_S. apply wp_bind, wp_entry_at; [lia|].
  set (e := take 32 _). destruct (get_fn_entry_ok e fn s Hok) as [Hrun Hok']. apply wp_bind. eapply wp_eq; [exact Hrun|].
  cbn [fst snd dir_names after]. replace (Z.of_nat item + 1) with (Z.of_nat (S item)) by lia.
  destruct (fn_step e fn) as [named fn']. cbn [fst snd] in *.
  replace (S (16 * sector + item)) with (16 * sector + S item)%nat by lia. destruct named; cbn [Z.eqb first_named].
  - apply wp_ret. split; [done|]. exists fn'. by rewrite Nat.add_0_r.
  - eapply wp_mono; [apply IH; [exact Hok'|lia]|]. intros r s' [-> Hr]. split; [done|].
    destruct (first_named _) as [[i name]|]; cbn; [|done]. by rewrite Nat.add_succ_comm in Hr.
Qed.

(** From the entry [item] of a sector, with [k] sectors after it. *)
Lemma readdir_loop_ok fuel : forall (k sector item : nat) fn s,
  buf_ok fn -> (S k < fuel)%nat -> (item <= 16)%nat -> (512 * (sector + S k) <= length chain)%nat -> Z.of_nat (sector + S k) < 65536 ->
  wp (readdir_loop fuel chain (Z.of_nat (sector + S k)) (Z.of_nat sector) (Z.of_nat item) fn)
    (fun r s' => s' = s /\
       match first_named (dir_names fn (dir_entries chain (16 * sector + item) (16 * S k - item))) with
       | Some (i, name) => exists fn', buf_ok fn' /\ cstr fn' = name /\
           r = Some (Z.of_nat (sector + (item + i) / 16), Z.of_nat ((item + i) mod 16), fn')
       | None => r = None
       end) s.
Proof.
  induction fuel as [|fuel IH]; intros k sector item fn s Hok Hfuel Hitem Hlen Hmax; [lia|]. cbn [readdir_loop].
  rewrite (proj2 (Z.ltb_lt _ _)) by lia. cbv zeta. unfold u8. rewrite wrap_u_id by (change (2 ^ 8) with 256; lia). apply wp_bind.
  replace (Z.to_nat (16 - Z.of_nat item)) with (16 - item)%nat by lia.
  eapply wp_mono; [apply readdir_items_ok; [done|lia]|]. intros r s' [-> Hr].
  replace (16 * S k - item)%nat with (16 - item + 16 * k)%nat by lia.
  rewrite dir_entries_app, dir_names_app, first_named_app, length_dir_names.
  assert (length (dir_entries chain (16 * sector + item) (16 - item)) = (16 - item)%nat) as Hlen1
    by (unfold dir_entries; by rewrite length_fmap, length_seq).
  rewrite Hlen1. destruct (first_named (dir_names fn (dir_entries chain (16 * sector + item) (16 - item)))) as [[i name]|] eqn:Ei.
  - destruct Hr as (fn' & -> & Hok' & Hname). apply wp_ret. split; [done|]. exists fn'. split_and!; [done|done|].
    apply first_named_lt in Ei. rewrite length_dir_names, Hlen1 in Ei.
    rewrite Nat.div_small, Nat.mod_small, Nat.add_0_r by lia. done.
  - destruct Hr as [-> Hok']. set (fn' := after fn _) in *. replace (Z.of_nat sector + 1) with (Z.of_nat (S sector)) by lia.
    rewrite u16_id by lia. replace (16 * sector + item + (16 - item))%nat with (16 * S sector + 0)%nat by lia.
    replace (sector + S k)%nat with (S sector + k)%nat in * by lia. destruct k as [|k].
    { destruct fuel as [|fuel]; [lia|]. cbn [readdir_loop]. rewrite Nat.add_0_r, Z.ltb_irrefl. by apply wp_ret. }
    change 0 with (Z.of_nat 0). eapply wp_mono; [apply (IH k (S sector) 0%nat); [done|lia|lia|lia|lia]|].
    intros r s' [-> Hr]. split; [done|]. rewrite Nat.sub_0_r in Hr.
    destruct (first_named (dir_names fn' _)) as [[i name]|]; cbn [fmap option_fmap option_map fst snd]; [|done].
    destruct Hr as (fn2 & Hok2 & Hname & ->). exists fn2. split_and!; [done|done|].
    replace (item + (16 - item + i))%nat with (i + 1 * 16)%nat by lia. rewrite Nat.div_add, Nat.Div0.mod_add by lia.
    do 3 f_equal. cbn. lia.
Qed.
End Readdir.

(** ** Properties *)

Section Directory.
Context `{Hal} {D : Type} `{Libc D}.
Implicit Types s : vstate (fat D).

(** A directory of [nb] sectors. *)
Record directory s (base : Z) (v : fatfs_inode_t) (chain : list Z) (nb : nat) : Prop := {
  dr_base : base <> 0;
  dr_inode : fat_inodes (fsd s) !! base = Some v;
  dr_chain : cluster_chain_directory v <> 0 /\ chains (fsd s) !! cluster_chain_directory v = Some chain;
  dr_size : nb_sector v = Z.of_nat nb /\ length chain = (512 * nb)%nat /\ Z.of_nat nb < 65536;
  dr_cluster : 0 <= cc_dirid v < 2 ^ 31
}.

Lemma entry_vnid_index cc i : 0 <= cc < 2 ^ 31 -> Z.of_nat i < 1048576 ->
  entry_vnid cc (Z.of_nat (i / 16)) (32 * Z.of_nat (i mod 16)) = cc * 2 ^ 32 + 32 * Z.of_nat i.
Proof.
  intros Hcc Hi. unfold entry_vnid, FAT_SECTOR_SIZE. rewrite Z.shiftl_mul_pow2 by lia.
  pose proof (Nat.div_mod_eq i 16) as Hdm. rewrite i64_id; lia.
Qed.

Lemma onfat_same {A} (m : M (fat D) A) a s : wp m (fun r t => r = a /\ t = fsd s) (fsd s) -> onfat m s = Ret a s.
Proof. intros Hm%wp_run. unfold onfat, lift. rewrite Hm. by destruct s. Qed.

(** C18: fatfs_walk finds a name, compared without case, in the names that the entries of
    the directory give, short or long: the identifier is the cluster of the directory and
    the offset of the first entry with the name, when this entry is in the last sector of
    the directory; DNA_NO_ENTRY (DNA_ALREADY_AT_ROOT for "..") when no entry has it; "."
    is the directory itself. *)
Theorem fatfs_walk_spec s ns base v chain nb path p_vnid :
  directory s base v chain nb -> ns <> 0 -> Forall (fun c => c <> 0) path ->
  let names := dir_names blank (dir_entries chain 0 (16 * nb)) in
  (path = [46] -> in_id v <> -1 -> fatfs_walk ns base path p_vnid s = Ret (DNA_OK, in_id v) s) /\
  (path <> [46] -> find_name path names = None ->
   fatfs_walk ns base path p_vnid s = Ret (if bool_decide (path = [46; 46]) then DNA_ALREADY_AT_ROOT else DNA_NO_ENTRY, p_vnid) s) /\
  (forall i, path <> [46] -> find_name path names = Some i -> (16 * (nb - 1) <= i)%nat ->
   fatfs_walk ns base path p_vnid s = Ret (DNA_OK, cc_dirid v * 2 ^ 32 + 32 * Z.of_nat i) s).
Proof.
  intros [Hbase Hv [Hp Hchain] (Hnb & Hlen & Hmax) Hcc] Hns Hpath names.
  assert (forall vnid, wp (if bool_decide (path = [46]) then ret (in_id v) else
       let* chain := rd_chain (cluster_chain_directory v) in
       directory_loop (S (Z.to_nat (nb_sector v))) chain (cc_dirid v) (nb_sector v) 0 path (-1) (replicate 261 0))
      (fun r t => r = vnid /\ t = fsd s) (fsd s) ->
    fatfs_walk ns base path p_vnid s = Ret (if vnid =? -1 then
      (if bool_decide (path = [46; 46]) then DNA_ALREADY_AT_ROOT else DNA_NO_ENTRY, p_vnid) else (DNA_OK, vnid)) s) as Hwalk.
  { intros vnid Hm. apply onfat_same. unfold fat_walk. rewrite !(proj2 (Z.eqb_neq _ _)) by done. cbn [negb andb].
    apply wp_bind. eapply wp_rd_fat_inode; [exact Hv|]. rewrite (proj2 (Z.eqb_neq _ _) Hp). cbn [negb].
    apply wp_bind. eapply wp_mono; [exact Hm|]. intros r t [-> ->].
    destruct (vnid =? -1); cbn [negb orb]; [destruct (bool_decide (path = [46; 46])); cbn [negb]|]; by apply wp_ret. }
  assert (path <> [46] -> wp (if bool_decide (path = [46]) then ret (in_id v) else
       let* chain := rd_chain (cluster_chain_directory v) in
       directory_loop (S (Z.to_nat (nb_sector v))) chain (cc_dirid v) (nb_sector v) 0 path (-1) (replicate 261 0))
      (fun r t => t = fsd s /\ match find_name path names with
        | Some i => (16 * (nb - 1) <= i)%nat -> r = entry_vnid (cc_dirid v) (Z.of_nat (i / 16)) (32 * Z.of_nat (i mod 16))
        | None => r = -1 end) (fsd s)) as Hloop.
  { intros Hne. rewrite bool_decide_false by done. apply wp_bind. eapply wp_rd_chain; [exact Hchain|]. rewrite Hnb.
    apply (directory_loop_ok chain (cc_dirid v) path Hpath _ nb 0); [apply blank_ok|lia|lia|lia]. }
  split_and!.
  - intros -> Hid. rewrite (Hwalk (in_id v)); [by rewrite (proj2 (Z.eqb_neq _ _) Hid)|]. by apply wp_ret.
  - intros Hne Hnone. rewrite (Hwalk (-1)); [done|]. eapply wp_mono; [by apply Hloop|]. intros r t [-> Hr]. by rewrite Hnone in Hr.
  - intros i Hne Hsome Hi. apply find_name_lt in Hsome as Hlt. unfold names in Hlt. rewrite length_dir_names in Hlt.
    unfold dir_entries in Hlt. rewrite length_fmap, length_seq in Hlt.
    rewrite (Hwalk (cc_dirid v * 2 ^ 32 + 32 * Z.of_nat i)); [by rewrite (proj2 (Z.eqb_neq _ _)) by lia|].
    eapply wp_mono; [by apply Hloop|]. intros r t [-> Hr]. rewrite Hsome in Hr. split; [|done].
    rewrite (Hr Hi). apply entry_vnid_index; lia.
Qed.
Lemma cstr_take n (l : list Z) : (length (cstr l) < n)%nat -> cstr (take n l) = cstr l.
Proof.
  revert n. induction l as [|c l IH]; intros n Hn; [by rewrite take_nil|]. destruct n as [|n]; [lia|]. cbn in *.
  destruct (c =? 0); [done|]. cbn in Hn. f_equal. apply IH. lia.
Qed.

Lemma zero_take n (l : list Z) : 0 ∈ l -> (length (cstr l) < n)%nat -> 0 ∈ take n l.
Proof.
  revert n. induction l as [|c l IH]; intros n Hin Hn; [by apply not_elem_of_nil in Hin|].
  destruct n as [|n]; [lia|]. cbn in *. destruct (Z.eqb_spec c 0) as [->|Hc]; [by left|]. right.
  apply elem_of_cons in Hin as [?|Hin]; [lia|]. apply IH; [done|]. cbn in Hn. lia.
Qed.

(** From the offset of an entry to the end of the directory. *)
Lemma readdir_from chain (nb sector item : nat) (t : fat D) :
  length chain = (512 * nb)%nat -> Z.of_nat nb < 65536 -> (sector < nb)%nat -> (item <= 16)%nat ->
  let offset := 512 * Z.of_nat sector + Z.of_nat item in
  let start := (16 * sector + item)%nat in
  wp (readdir_loop (S nb) chain (Z.of_nat nb) (u16 (Z.quot offset FAT_SECTOR_SIZE)) (u16 (Z.rem offset FAT_SECTOR_SIZE)) (replicate 261 0))
     (fun r t' => t' = t /\ match first_named (dir_names blank (dir_entries chain start (16 * nb - start))) with
       | Some (i, name) => exists fn', buf_ok fn' /\ cstr fn' = name /\
           r = Some (Z.of_nat ((start + i) / 16), Z.of_nat ((start + i) mod 16), fn')
       | None => r = None end) t.
Proof.
  intros Hlen Hmax Hsec Hitem offset start. unfold FAT_SECTOR_SIZE, offset. rewrite Z.quot_div_nonneg, Z.rem_mod_nonneg by lia.
    replace (512 * Z.of_nat sector + Z.of_nat item) with (Z.of_nat item + Z.of_nat sector * 512) by lia.
    rewrite Z.div_add, Z.mod_add, Z.div_small, Z.mod_small, Z.add_0_l by lia. rewrite !u16_id by lia.
    assert (exists k, nb = (sector + S k)%nat) as [k ->] by (exists (nb - S sector)%nat; lia).
    eapply wp_mono; [apply (readdir_loop_ok chain _ k sector item); [apply blank_ok|lia|lia|lia|lia]|].
    intros r t' [-> Hr]. split; [done|]. replace (16 * (sector + S k) - start)%nat with (16 * S k - item)%nat by lia.
    destruct (first_named _) as [[i name]|]; [|done]. destruct Hr as (fn' & Hok & Hname & ->). exists fn'. split_and!; [done|done|].
    unfold start. replace (16 * sector + item + i)%nat with (item + i + sector * 16)%nat by lia.
    rewrite Nat.div_add, Nat.Div0.mod_add, (Nat.add_comm sector) by lia. done.
Qed.

(** Fatfs_readdir returns, from the entry that the offset designates, the next entry
    that has a name, with this name and its identifier, and the offset of the entry after
    it; at the end of the directory it returns a count of 0. *)
Theorem fatfs_readdir_spec s ns f base v chain nb data entry_array (sector item : nat) p_count :
  directory s base v chain nb -> ns <> 0 -> entry_array <> 0 -> fatfss (fsd s) !! ns = Some f ->
  (sector < nb)%nat -> (item <= 16)%nat ->
  let offset := 512 * Z.of_nat sector + Z.of_nat item in
  let start := (16 * sector + item)%nat in
  match first_named (dir_names blank (dir_entries chain start (16 * nb - start))) with
  | None => fatfs_readdir ns base data entry_array offset p_count s = Ret (DNA_OK, (offset, 0, None)) s
  | Some (i, name) => (length name < 256)%nat ->
      let next := 512 * Z.of_nat ((start + i) / 16) + Z.of_nat ((start + i) mod 16) + 1 in
      let reclen := 16 + Z.of_nat (length name) in
      fatfs_readdir ns base data entry_array offset p_count s =
        Ret (DNA_OK, (next, reclen, Some (mkDirent (cc_dirid v * 2 ^ 32 + 32 * Z.of_nat (start + i)) (ft_vid f) reclen name))) s
  end.
Proof.
  intros [Hbase Hv [Hp Hchain] (Hnb & Hlen & Hmax) Hcc] Hns Hea Hf Hsec Hitem offset start.
  pose proof (readdir_from chain nb sector item (fsd s) Hlen Hmax Hsec Hitem) as Hloop. cbv zeta in Hloop. fold offset start in Hloop.
  replace (S nb) with (S (Z.to_nat (nb_sector v))) in Hloop by lia. rewrite <- Hnb in Hloop.
  assert (forall i name, first_named (dir_names blank (dir_entries chain start (16 * nb - start))) = Some (i, name) ->
    Z.of_nat (start + i) < 1048576) as Hbound.
  { intros i name Hi%first_named_lt. rewrite length_dir_names in Hi. unfold dir_entries in Hi.
    rewrite length_fmap, length_seq in Hi. lia. }
  destruct (first_named _) as [[i name]|]; [intros Hname; cbv zeta|]; apply onfat_same; unfold fat_readdir;
    rewrite !(proj2 (Z.eqb_neq _ _)) by done; cbn [negb andb]; apply wp_bind;
    (eapply wp_rd_fat_inode; [exact Hv|]); rewrite (proj2 (Z.eqb_neq _ _) Hp); cbn [negb]; cbv zeta;
    apply wp_bind; (eapply wp_rd_chain; [exact Hchain|]); apply wp_bind; (eapply wp_mono; [exact Hloop|]);
    intros r t [-> Hr]; [|subst r; by apply wp_ret].
  destruct Hr as (fn' & Hok & Hc & ->). specialize (Hbound i name eq_refl). destruct Hok as [Hl He].
  assert (0 ∈ fn') as Hz by (by apply buf_zero).
  apply wp_bind, wp_slice; [lia|by vm_compute|rewrite Hl; by vm_compute|]. change (drop (Z.to_nat 0) fn') with fn'.
  assert (Z.to_nat FATFS_NAME_LENGTH = 256%nat) as -> by done. subst name.
  apply wp_bind. eapply wp_eq; [apply c_str_ok; by apply zero_take|]. rewrite cstr_take by done.
  apply wp_bind. eapply wp_rd_fs; [exact Hf|]. apply wp_ret.
  rewrite u16_id by lia. rewrite entry_vnid_index by done. unfold FAT_SECTOR_SIZE. split; [|done]. by rewrite (Z.mul_comm _ 512).
Qed.
End Directory.
