(* ===== verification/FatVnode.v ===== *)
(** * The inodes of the FAT file system (fatfs_read_vnode)

    An inode is read from its entry in the directory of its parent; the inode of a
    directory has a copy of all its sectors, on which FatDirectory.v works.  The sectors
    of a directory are the root directory of FAT16, or a chain of clusters ([readable]
    abstracts from the difference). *)

From S2P Require Import Prelude Status CLib Queue Allocator Kernel Logic Memory Vfs Libc Fat FatSpec.

Section FatVnode.
Context `{Hal} {D : Type} `{Libc D} (fd : Z) `{!Disk D fd}.
Context (C : Z -> Z) (cap : Z).
Context (HC : forall i, 0 <= C i < 256) (Hcap : cap <= 2 ^ 31).
Implicit Types (t : fat D) (f : fatfs_t) (g : fat_globals) (L : Z -> Z).

(** The sequence of [n] sectors that starts at the cluster [c]: [L k] is the sector of the
    device that holds the sector [k]. *)
Record readable g (c n : Z) L : Prop := {
  re_bound : 0 <= n < 2 ^ 22 /\ n < Z.of_nat (chain_fuel g);
  re_disk : forall k, 0 <= k < n -> on_disk cap (L k);
  re_in : forall fs f k Q t, vol fd C cap t fs f -> globals f = g -> 0 <= k < n ->
    (forall t' f', vol fd C cap t' fs f' -> accessed fs t f t' f' -> Q (Some (L k)) t') -> wp (sector_lba fs c k) Q t;
  re_end : forall fs f Q t, vol fd C cap t fs f -> globals f = g ->
    (forall t' f', vol fd C cap t' fs f' -> accessed fs t f t' f' -> Q None t') -> wp (sector_lba fs c n) Q t
}.

(** The root directory of a FAT16 volume. *)
Lemma readable_root16 g :
  fat_type g = FAT_TYPE_16 -> 0 <= rootdir_sectors g < 2 ^ 22 -> 0 <= lba_begin g -> 0 <= rootdir_first_sector g ->
  (forall k, 0 <= k < rootdir_sectors g -> on_disk cap (lba_begin g + rootdir_first_sector g + k)) ->
  readable g 0 (rootdir_sectors g) (fun k => lba_begin g + rootdir_first_sector g + k).
Proof using Hcap.
  intros Ht Hn Hl Hf Hd. split; [split; [done|unfold chain_fuel; lia]|done| |].
  - intros fs f k Q t Hvol Hg Hk HQ. unfold sector_lba. apply wp_bind. eapply wp_rd_fs; [apply Hvol|].
    cbv zeta. rewrite Hg, Ht. cbn [is_fat16 andb Z.eqb]. rewrite (proj2 (Z.ltb_lt _ _)) by lia.
    destruct (Hd k Hk) as [_ Hk2]. unfold FAT_SECTOR_SIZE in Hk2.
    rewrite (u32_id (lba_begin g + _)), u32_id by lia. apply wp_ret. eapply HQ; [exact Hvol|apply accessed_refl].
  - intros fs f Q t Hvol Hg HQ. unfold sector_lba. apply wp_bind. eapply wp_rd_fs; [apply Hvol|].
    cbv zeta. rewrite Hg, Ht. cbn [is_fat16 andb Z.eqb]. rewrite Z.ltb_irrefl. apply wp_ret.
    eapply HQ; [exact Hvol|apply accessed_refl].
Qed.

(** A chain of [k] clusters that ends with the mark. *)
Lemma readable_chain g c (k : nat) :
  let n := Z.of_nat k * sectors_per_cluster g in
  (0 < k)%nat -> file_ok C cap g c n -> n < 2 ^ 22 -> Z.of_nat k <= 256 * fat_sectors g ->
  cluster_at C g c k = FAT32_LAST_CLUSTER -> readable g c n (file_lba C g c).
Proof using HC Hcap.
  intros n Hk Hok Hn Hfat Hlast. pose proof Hok as [Htab Hspc Hbeg Hcl Hsec]. split.
  - split; [unfold n; nia|]. unfold chain_fuel, n. nia.
  - exact Hsec.
  - intros fs f i Q t Hvol Hg Hi HQ. rewrite <- Hg in Hok, HQ.
    eapply sector_lba_ok; [exact HC|exact Hcap|exact Hvol|exact Hok|exact Hi|lia|exact HQ].
  - intros fs f Q t Hvol Hg HQ. unfold sector_lba. apply wp_bind. eapply wp_rd_fs; [apply Hvol|].
    cbv zeta. rewrite Hg. assert (c <> 0) as Hc0.
    { destruct (Hcl 0) as [[Hc _] _]; [lia|unfold n; nia|]. change (2 <= c) in Hc. lia. }
    rewrite (proj2 (Z.eqb_neq _ _) Hc0), andb_false_r, (proj2 (Z.eqb_neq _ _)) by lia. apply wp_bind.
    unfold n. rewrite Z.div_mul, Nat2Z.id by lia.
    eapply (chain_loop_ok fd C cap HC Hcap k fs f); [exact Hvol|by rewrite Hg| |].
    + intros i Hi. rewrite Hg. destruct (Hcl (Z.of_nat i)) as [Hci Hin]; [lia|unfold n; nia|]. rewrite Nat2Z.id in *. split; [lia|done].
    + intros t' f' Hvol' Hacc. rewrite Hg, Hlast. cbn [Z.eqb]. change (FAT32_LAST_CLUSTER =? FAT32_LAST_CLUSTER) with true.
      apply wp_ret. by eapply HQ.
Qed.

(** ** Reading the sectors *)

(** In the working buffer of the volume. *)
Lemma sector_reader_null g c n L fs f k Q t :
  readable g c n L -> vol fd C cap t fs f -> globals f = g -> 0 <= k < n ->
  (forall t' f', vol fd C cap t' fs f' -> accessed fs t f t' f' -> sector_of (currentsector f') = sec C (L k) -> Q (1, []) t') ->
  wp (fatfs_sector_reader fs c k None) Q t.
Proof using Hcap.
  intros Hr Hvol Hg Hk HQ. unfold fatfs_sector_reader. apply wp_bind. eapply (re_in _ _ _ _ Hr); [exact Hvol|exact Hg|exact Hk|].
  intros t1 f1 Hvol1 Hacc1. pose proof Hvol1 as [Hf Hfd Hio Hco Hca Hcur Htb]. pose proof (re_disk _ _ _ _ Hr k Hk) as Hd.
  apply wp_bind. eapply wp_rd_fs; [exact Hf|]. destruct (Z.eqb_spec (L k) (address (currentsector f1))) as [Ha|Ha]; cbn [negb].
  { apply wp_ret. eapply HQ; [exact Hvol1|exact Hacc1|]. destruct Hcur as [_ [Hi|Hs]]; [|by rewrite Hs, <- Ha].
    destruct Hd as [? Hd]. rewrite Ha, Hi in Hd. unfold FAT_SECTOR_SIZE, FAT32_INVALID_CLUSTER in Hd. lia. }
  apply wp_bind. eapply wp_wr_fs; [exact Hf|]. apply wp_bind.
  eapply wp_load_current; [exact Hcap|apply upd_lookup|exact Hfd|exact Hio|exact Hco|exact Hca|exact Hd|apply Hcur|].
  intros d Hc Hp. apply wp_ret. rewrite upd_media, upd_upd. eapply HQ.
  - split; [apply upd_lookup|done|done|done|done| |exact Htb]. split; cbn; [apply length_sec|by right].
  - eapply accessed_trans; [exact Hacc1|]. split; try done. intros p Hne. cbn. by rewrite lookup_insert_ne.
  - done.
Qed.

(** The end of the sequence. *)
Lemma sector_reader_end g c n L fs f target Q t :
  readable g c n L -> vol fd C cap t fs f -> globals f = g ->
  (forall t' f', vol fd C cap t' fs f' -> accessed fs t f t' f' -> Q (0, default [] target) t') ->
  wp (fatfs_sector_reader fs c n target) Q t.
Proof.
  intros Hr Hvol Hg HQ. unfold fatfs_sector_reader. apply wp_bind. eapply (re_end _ _ _ _ Hr); [exact Hvol|exact Hg|].
  intros t' f' Hvol' Hacc. apply wp_ret. by eapply HQ.
Qed.

Lemma size_loop_ok g c n L fuel : readable g c n L -> forall fs f k Q t,
  vol fd C cap t fs f -> globals f = g -> 0 <= k <= n -> n - k < Z.of_nat fuel ->
  (forall t' f', vol fd C cap t' fs f' -> accessed fs t f t' f' -> Q n t') -> wp (size_loop fuel fs c k) Q t.
Proof using Hcap.
  intros Hr. destruct (re_bound _ _ _ _ Hr) as [Hb _].
  induction fuel as [|fuel IH]; intros fs f k Q t Hvol Hg Hk Hfuel HQ; [lia|]. cbn [size_loop]. apply wp_bind.
  destruct (decide (k = n)) as [->|Hne].
  { eapply sector_reader_end; [exact Hr|exact Hvol|exact Hg|]. intros t' f' Hvol' Hacc. apply wp_ret. by eapply HQ. }
  eapply sector_reader_null; [exact Hr|exact Hvol|exact Hg|lia|]. intros t1 f1 Hvol1 Hacc1 _. cbn [fst Z.eqb].
  rewrite u32_id by lia. eapply IH; [exact Hvol1|by rewrite (acc_globals _ _ _ _ _ Hacc1)|lia|lia|].
  intros t2 f2 Hvol2 Hacc2. eapply HQ; [exact Hvol2|by eapply accessed_trans].
Qed.

(** The bytes of the first [k] sectors. *)
Definition sectors L (k : nat) : list Z := concat (map (fun i => sec C (L (Z.of_nat i))) (seq 0 k)).

Lemma sectors_S L k : sectors L (S k) = sectors L k ++ sec C (L (Z.of_nat k)).
Proof. unfold sectors. rewrite seq_S, map_app, concat_app. cbn. by rewrite app_nil_r. Qed.
Lemma length_sectors L k : length (sectors L k) = (512 * k)%nat.
Proof. induction k as [|k IH]; [done|]. rewrite sectors_S, length_app, IH, length_sec. lia. Qed.

Definition set_chains u t : fat D := mkFat (media t) (fatfss t) (fat_inodes t) u (user t).

Lemma accessed_chains fs t f t1 f1 u t2 f2 :
  accessed fs t f t1 f1 -> accessed fs (set_chains u t1) f1 t2 f2 -> accessed fs (set_chains u t) f t2 f2.
Proof.
  intros [A1 A2 A3 A4 A5 A6 A7] [B1 B2 B3 B4 B5 B6 B7]. cbn in *.
  split; cbn; try congruence. intros p Hp. by rewrite B4, A4.
Qed.

Lemma vol_set_chains t fs f u : vol fd C cap t fs f -> vol fd C cap (set_chains u t) fs f.
Proof. intros [? ? ? ? ? ? ?]. by split. Qed.

Lemma sector_reader_copy g c n L fs f k (buf : list Z) Q t :
  readable g c n L -> vol fd C cap t fs f -> globals f = g -> 0 <= k < n -> length buf = 512%nat ->
  (forall t' f', vol fd C cap t' fs f' -> accessed fs t f t' f' -> Q (1, sec C (L k)) t') ->
  wp (fatfs_sector_reader fs c k (Some buf)) Q t.
Proof using Hcap.
  intros Hr Hvol Hg Hk Hbuf HQ. unfold fatfs_sector_reader. apply wp_bind. eapply (re_in _ _ _ _ Hr); [exact Hvol|exact Hg|exact Hk|].
  intros t1 f1 Hvol1 Hacc1. pose proof Hvol1 as [Hf Hfd Hio Hco Hca Hcur Htb].
  eapply wp_disk_read; [exact Hcap|exact Hf|exact Hfd|exact Hio|exact Hco|exact Hca|by eapply re_disk|exact Hbuf|].
  intros d Hd1 Hd2. eapply (HQ _ f1); [by split|]. destruct Hacc1. by split.
Qed.

Lemma copy_loop_ok g c (n : nat) L fuel : readable g c (Z.of_nat n) L -> forall fs f p (k : nat) chain Q t,
  vol fd C cap t fs f -> globals f = g -> (k <= n)%nat -> (n - k < fuel)%nat ->
  chains t !! p = Some chain -> length chain = (512 * n)%nat -> take (512 * k) chain = sectors L k ->
  (forall t' f', vol fd C cap t' fs f' -> accessed fs (set_chains (<[p := sectors L n]> (chains t)) t) f t' f' -> Q tt t') ->
  wp (copy_loop fuel fs c p (Z.of_nat k)) Q t.
Proof using Hcap.
  intros Hr. destruct (re_bound _ _ _ _ Hr) as [Hb _].
  induction fuel as [|fuel IH]; intros fs f p k chain Q t Hvol Hg Hk Hfuel Hch Hlen Htake HQ; [lia|]. cbn [copy_loop].
  apply wp_bind. eapply wp_rd_chain; [exact Hch|]. cbv zeta. unfold FAT_SECTOR_SIZE. apply wp_bind.
  destruct (decide (k = n)) as [->|Hne].
  { rewrite (proj2 (Z.ltb_ge _ _)) by lia. apply wp_ret, wp_bind.
    eapply sector_reader_end; [exact Hr|exact Hvol|exact Hg|]. intros t' f' Hvol' Hacc. apply wp_ret. eapply HQ; [exact Hvol'|].
    rewrite <- Htake, take_ge, insert_id by (done || lia). by destruct Hacc. }
  rewrite (proj2 (Z.ltb_lt _ _)) by lia. apply wp_slice; [lia|lia|lia|]. apply wp_bind.
  eapply sector_reader_copy; [exact Hr|exact Hvol|exact Hg|lia|rewrite length_take, length_drop; lia|].
  intros t1 f1 Hvol1 Hacc1. cbn [fst snd Z.eqb]. pose proof (acc_chains _ _ _ _ _ Hacc1) as Hch1.
  apply wp_bind. eapply wp_rd_chain; [by rewrite Hch1|]. apply wp_bind, wp_patch; [lia|rewrite length_sec; lia|].
  replace (Z.to_nat (Z.of_nat k * 512)) with (512 * k)%nat by lia. set (chain' := take _ _ ++ _).
  assert (length chain' = (512 * n)%nat) as Hlen' by (unfold chain'; rewrite length_patch; rewrite ?length_sec; lia).
  apply wp_bind, wp_modify. rewrite u32_id by lia. replace (Z.of_nat k + 1) with (Z.of_nat (S k)) by lia.
  eapply (IH fs f1 p (S k) chain'); [by apply (vol_set_chains t1)|by rewrite (acc_globals _ _ _ _ _ Hacc1)|lia|lia|apply lookup_insert_eq|done| |].
  - rewrite sectors_S, <- Htake. unfold chain'. replace (512 * S k)%nat with (512 * k + length (sec C (L (Z.of_nat k))))%nat by (rewrite length_sec; lia).
    apply take_patch. rewrite length_sec. lia.
  - intros t2 f2 Hvol2 Hacc2. apply (HQ t2 f2 Hvol2). cbn [chains] in Hacc2. rewrite insert_insert_eq, Hch1 in Hacc2.
    by eapply accessed_chains.
Qed.
(** ** fatfs_read_vnode *)

Implicit Types s : vstate (fat D).

(** A state given by its kernel and its file system. *)
Definition stf k t s : vstate (fat D) := set_kern k (set_fsd t s).

Lemma wp_onfat {A} (m : M (fat D) A) Q k t s : wp m (fun a t' => Q a (stf k t' s)) t -> wp (onfat m) Q (stf k t s).
Proof. intros Hm. unfold onfat, wp, lift in *. cbn. destruct (m t); done. Qed.
Lemma wp_onk_fat {A} (m : K A) Q k t s a k' : m k = Ret a k' -> Q a (stf k' t s) -> wp (onk m) Q (stf k t s).
Proof. intros Hm HQ. unfold onk, wp, lift. cbn. by rewrite Hm. Qed.
Lemma wp_stf {A} (m : V (fat D) A) Q s : wp m Q (stf (kern s) (fsd s) s) -> wp m Q s.
Proof. by destruct s. Qed.

Definition add_inode p v t : fat D := mkFat (media t) (fatfss t) (<[p := v]> (fat_inodes t)) (chains t) (user t).

Lemma wp_wr_inode p v h Q t : fat_inodes t !! p = Some v -> Q tt (add_inode p (h v) t) -> wp (wr_fat_inode p h) Q t.
Proof. intros Hv HQ. unfold wr_fat_inode. apply wp_bind. eapply wp_rd_fat_inode; [done|]. by apply wp_modify. Qed.
Lemma vol_add_inode t fs f p v : vol fd C cap t fs f -> vol fd C cap (add_inode p v t) fs f.
Proof. intros [? ? ? ? ? ? ?]. by split. Qed.

(** The entry of the node [vnid]: its place is in the directory of its parent. *)
Definition node_entry f (vnid : Z) (e : list Z) : Prop :=
  if vnid =? ft_root_vnid f then e = replicate 32 0
  else
    let offset := Z.land vnid 0xFFFFFFFF in
    exists n L, readable (globals f) (u32 (Z.shiftr vnid 32)) n L /\ offset / 512 < n /\ offset mod 512 + 32 <= 512 /\
      e = take 32 (drop (Z.to_nat (offset mod 512)) (sec C (L (offset / 512)))).

(** Is it a directory, and its first cluster. *)
Definition node_is_dir f (vnid : Z) (e : list Z) : bool := (vnid =? ft_root_vnid f) || fatfs_entry_is_dir e.
Definition node_cluster f (vnid : Z) (e : list Z) : Z :=
  if vnid =? ft_root_vnid f then u32 (Z.shiftr vnid 32) else first_cluster e.

(** What the file system becomes: a new inode and, for a directory, its sectors. *)
Record loaded (ns p : Z) (v : fatfs_inode_t) (chs : gmap Z (list Z)) t f t' f' : Prop := {
  ld_vol : vol fd C cap t' ns f';
  ld_kept : ft_vid f' = ft_vid f /\ ft_root_vnid f' = ft_root_vnid f /\ globals f' = globals f;
  ld_inode : fat_inodes t' = <[p := v]> (fat_inodes t);
  ld_chains : chains t' = chs;
  ld_user : user t' = user t;
  ld_others : forall q, q <> ns -> fatfss t' !! q = fatfss t !! q
}.

Lemma loaded_refl ns p v t f : vol fd C cap t ns f -> fat_inodes t !! p = Some v -> loaded ns p v (chains t) t f t f.
Proof. intros Hvol Hp. split; try done. by rewrite insert_id. Qed.
Lemma loaded_trans ns p v chs t f t1 f1 v' chs' t2 f2 :
  loaded ns p v chs t f t1 f1 -> loaded ns p v' chs' t1 f1 t2 f2 -> loaded ns p v' chs' t f t2 f2.
Proof.
  intros [_ (A1 & A2 & A3) A4 A5 A6 A7] [B0 (B1 & B2 & B3) B4 B5 B6 B7].
  split; [done|split_and!; congruence|by rewrite B4, A4, insert_insert_eq|done|congruence|]. intros q Hq. by rewrite B7, A7.
Qed.

(** The entry, for the root and for the other nodes. *)
Lemma read_entry_ok ns f vnid e p k s t Q :
  vol fd C cap t ns f -> node_entry f vnid e ->
  fat_inodes t !! p = Some (mkFatInode vnid 0xFFFFFFFF 0 0 (replicate 32 0)) ->
  (forall t' f', loaded ns p (mkFatInode vnid 0xFFFFFFFF 0 0 e) (chains t) t f t' f' -> Q true (stf k t' s)) ->
  wp (if negb (vnid =? ft_root_vnid f) then read_entry ns p (u32 (Z.shiftr vnid 32)) (Z.land vnid 0xFFFFFFFF) else ret true)
    Q (stf k t s).
Proof using Hcap.
  intros Hvol He Hp HQ. unfold node_entry in He. unfold read_entry, FAT_SECTOR_SIZE. destruct (vnid =? ft_root_vnid f); cbn [negb].
  { apply wp_ret. apply (HQ t f). subst e. by apply loaded_refl. }
  cbv zeta in He. set (offset := Z.land vnid 0xFFFFFFFF) in *. destruct He as (n & L & Hr & Hn & Hfit & ->).
  assert (0 <= offset) as Hoff by (unfold offset; apply Z.land_nonneg; right; done).
  pose proof (Z.div_pos offset 512 ltac:(lia) ltac:(lia)). pose proof (Z.mod_pos_bound offset 512 ltac:(lia)).
  apply wp_bind, wp_onfat. eapply sector_reader_null; [exact Hr|exact Hvol|done|lia|]. intros t1 f1 Hvol1 Hacc Hs. cbn [fst Z.eqb].
  apply wp_bind, wp_onfat. eapply wp_rd_fs; [apply Hvol1|]. apply wp_bind, wp_onfat.
  rewrite Hs. apply wp_slice; [lia|lia|rewrite length_sec; lia|]. pose proof Hacc as [A1 A2 A3 A4 A5 A6 A7].
  apply wp_bind, wp_onfat. eapply wp_wr_inode; [by rewrite A5|]. apply wp_ret. cbn [in_id cc_dirid cluster_chain_directory nb_sector].
  apply (HQ _ f1). split; cbn; [by apply vol_add_inode|done|by rewrite A5|done|done|done].
Qed.

(** The sectors of a directory. *)
Lemma read_directory_ok ns f p v c (n : nat) L q k k2 s t Q :
  vol fd C cap t ns f -> fat_inodes t !! p = Some v -> readable (globals f) c (Z.of_nat n) L ->
  kernel_malloc (Z.of_nat n * 512) true k = Ret q k2 -> q <> 0 ->
  (forall t' f', loaded ns p (mkFatInode (in_id v) c q (Z.of_nat n) (in_entry v)) (<[q := sectors L n]> (chains t)) t f t' f' ->
     Q true (stf k2 t' s)) ->
  wp (read_directory ns p c (chain_fuel (globals f))) Q (stf k t s).
Proof using Hcap.
  intros Hvol Hp Hr Hm Hq HQ. destruct (re_bound _ _ _ _ Hr) as [Hb1 Hb2]. unfold read_directory.
  apply wp_bind, wp_onfat. eapply (size_loop_ok _ _ _ _ _ Hr ns f); [exact Hvol|done|lia|lia|].
  intros t2 f2 Hvol2 [A1 A2 A3 A4 A5 A6 A7]. unfold FAT_SECTOR_SIZE. rewrite u32_id by lia.
  apply wp_bind. eapply wp_onk_fat; [exact Hm|]. apply wp_bind, wp_onfat.
  eapply wp_wr_inode; [by rewrite A5|]. rewrite (proj2 (Z.eqb_neq _ _) Hq).
  apply wp_bind, wp_onfat, wp_modify, wp_bind, wp_onfat. cbn [add_inode fat_inodes chains media fatfss user].
  rewrite A5. change 0 with (Z.of_nat 0) at 2.
  eapply (copy_loop_ok _ _ n _ _ Hr ns f2 q 0); [|congruence|lia|lia|apply lookup_insert_eq|rewrite length_replicate; lia|done|].
  { destruct Hvol2. by split. }
  intros t3 f3 Hvol3 [B1 B2 B3 B4 B5 B6 B7]. apply wp_ret. cbn in B1, B2, B3, B4, B5, B6, B7. apply (HQ t3 f3).
  split; [done|split_and!; congruence|exact B5|by rewrite B6, insert_insert_eq, A6|congruence|].
  intros r Hne. by rewrite B4, A4.
Qed.

(** fatfs_read_vnode builds the inode of an identifier from its entry in the directory
    of its parent; for a directory, the root included, the inode has a copy of all the
    sectors of the directory and their number.  Both loops end at the end of the chain;
    nothing else changes but the buffers of the volume. *)
Theorem fatfs_read_vnode_spec s ns f vnid e data p k1 :
  ns <> 0 -> vnid <> -1 -> vol fd C cap (fsd s) ns f -> node_entry f vnid e ->
  kernel_malloc sizeof_fat_inode true (kern s) = Ret p k1 -> p <> 0 ->
  (node_is_dir f vnid e = false ->
   exists t' f', fatfs_read_vnode ns vnid data s = Ret (DNA_OK, p) (stf k1 t' s) /\
     loaded ns p (mkFatInode vnid 0xFFFFFFFF 0 0 e) (chains (fsd s)) (fsd s) f t' f') /\
  (forall n L q k2, node_is_dir f vnid e = true -> readable (globals f) (node_cluster f vnid e) (Z.of_nat n) L ->
   kernel_malloc (Z.of_nat n * 512) true k1 = Ret q k2 -> q <> 0 ->
   exists t' f', fatfs_read_vnode ns vnid data s = Ret (DNA_OK, p) (stf k2 t' s) /\
     loaded ns p (mkFatInode vnid (node_cluster f vnid e) q (Z.of_nat n) e)
       (<[q := sectors L n]> (chains (fsd s))) (fsd s) f t' f').
Proof using Hcap.
  intros Hns Hid Hvol He Hm1 Hp.
  assert (forall Q, (forall t1 f1, loaded ns p (mkFatInode vnid 0xFFFFFFFF 0 0 e) (chains (fsd s)) (fsd s) f t1 f1 ->
    wp (if node_is_dir f vnid e then
          let* ok := read_directory ns p (node_cluster f vnid e) (chain_fuel (globals f)) in
          check ok rescue (free_fat_inode p ;; ret (DNA_OUT_OF_MEM, data)) in ret (DNA_OK, p)
        else ret (DNA_OK, p)) Q (stf k1 t1 s)) -> wp (fatfs_read_vnode ns vnid data) Q s) as Hrun.
  { intros Q Hrest. apply wp_stf. unfold fatfs_read_vnode. cbv zeta. rewrite !(proj2 (Z.eqb_neq _ _)) by done. cbn [negb andb].
    apply wp_bind. eapply wp_onk_fat; [exact Hm1|]. rewrite (proj2 (Z.eqb_neq _ _) Hp). cbn [negb].
    apply wp_bind, wp_onfat, wp_modify, wp_bind, wp_onfat. eapply wp_rd_fs; [apply Hvol|]. apply wp_bind.
    eapply read_entry_ok; [by apply (vol_add_inode (fsd s))|exact He|apply lookup_insert_eq|]. intros t1 f1 [B1 B2 B3 B4 B5 B6].
    cbn in B3, B4, B5, B6. rewrite insert_insert_eq in B3. cbv iota.
    apply wp_bind, wp_onfat. eapply wp_rd_fat_inode; [rewrite B3; apply lookup_insert_eq|]. cbn [in_entry]. by apply (Hrest t1 f1). }
  split.
  - intros Hfile. rewrite Hfile in Hrun.
    assert (wp (fatfs_read_vnode ns vnid data) (fun r s' => r = (DNA_OK, p) /\ exists t' f', s' = stf k1 t' s /\
      loaded ns p (mkFatInode vnid 0xFFFFFFFF 0 0 e) (chains (fsd s)) (fsd s) f t' f') s)
      as (r & s' & Hr & -> & t' & f' & -> & Hl)%wp_exists; [|eauto]. apply Hrun. intros t1 f1 Hl. apply wp_ret. eauto.
  - intros n L q k2 Hdir Hr Hm2 Hq. rewrite Hdir in Hrun.
    assert (wp (fatfs_read_vnode ns vnid data) (fun r s' => r = (DNA_OK, p) /\ exists t' f', s' = stf k2 t' s /\
      loaded ns p (mkFatInode vnid (node_cluster f vnid e) q (Z.of_nat n) e) (<[q := sectors L n]> (chains (fsd s))) (fsd s) f t' f') s)
      as (r & s' & Hr' & -> & t' & f' & -> & Hl)%wp_exists; [|eauto]. apply Hrun. intros t1 f1 Hl. apply wp_bind.
    pose proof Hl as [Hvol1 (_ & _ & K3) Hi1 Hc1 _ _]. rewrite <- K3 in Hr |- *.
    eapply read_directory_ok; [exact Hvol1|rewrite Hi1; apply lookup_insert_eq|exact Hr|exact Hm2|exact Hq|].
    intros t2 f2 Hl2. cbn [in_id in_entry] in Hl2. rewrite Hc1 in Hl2. apply wp_ret. split; [done|]. exists t2, f2.
    split; [done|]. by eapply loaded_trans.
Qed.
End FatVnode.
