(* ===== verification/FatScenario.v ===== *)
(** * A FAT16 card

    A device on which the theorems about the FAT file system are instantiated: a volume
    of 5000 sectors with a directory of one sector and a file of two clusters. *)

From S2P Require Import Prelude Status CLib Queue Allocator AllocatorSpec Kernel Logic Memory Scheduler Alarm Thread Semaphore AlarmHandler Interrupt Port Core Scenario Vfs VfsScenario Libc Fat FatSpec FatVnode FatDirectory.

#[local] Existing Instance hal2.

(** The boot sector, the words of the clusters 2 and 4 in the table, and data. *)
Definition card_bytes : gmap Z Z := list_to_map
  [(12, 2); (13, 1); (14, 1); (16, 1); (17, 16); (19, 0x88); (20, 0x13); (22, 20); (510, 0x55); (511, 0xAA);
   (516, 4); (520, 0xFF); (521, 0xFF)].
Definition card_image (i : Z) : Z :=
  match card_bytes !! i with Some b => b | None => if i <? 11264 then 0 else i mod 251 end.
Definition card_size : Z := 5000 * 512.

(** The state of the library is the position of the descriptor. *)
#[local] Instance card_libc : Libc Z := {|
  malloc _ := ret 0; free _ := ret tt; open _ := ret 3; close _ := ret 0;
  read _ n p := Ret (n, map card_image (seqZ p n)) (p + n);
  write _ _ := ret (-1);
  lseek _ q _ := Ret q q
|}.

#[local] Program Instance card_disk fd : Disk Z fd :=
  {| content _ := card_image; capacity _ := card_size; position p := p |}.
Next Obligation. intros fd d p Hp. exists p. by split_and!. Qed.
Next Obligation. intros fd d n Hn Hp. exists (d + n). by split_and!. Qed.

Definition card_globals : fat_globals := mkGlobals 1 21 0 21 1 1 0 0 20 0 16 FAT_TYPE_16.
Definition no_sector : sector_buffer := mkSectorBuffer (replicate 512 0) FAT32_INVALID_CLUSTER 0 None.
Definition card_volume : fatfs_t := mkFatfs 2 0xFFFFFFFF 3 card_globals (mkDiskIf true true) no_sector (Some 0%nat) [no_sector].

(** "README  TXT", of 1000 bytes from the cluster 2; "longname" and its short entry. *)
Definition readme_entry : list Z :=
  [82; 69; 65; 68; 77; 69; 32; 32; 84; 88; 84; 0x20; 0; 0; 0; 0; 0; 0; 0; 0; 0; 0; 0; 0; 0; 0; 2; 0; 0xE8; 3; 0; 0].
Definition long_entry : list Z :=
  [0x41; 108; 0; 111; 0; 110; 0; 103; 0; 110; 0; 0x0F; 0; 0; 97; 0; 109; 0; 101; 0; 0; 0; 0xFF; 0xFF; 0xFF; 0xFF; 0; 0; 0xFF; 0xFF; 0xFF; 0xFF].
Definition short_entry : list Z :=
  [76; 79; 78; 71; 78; 65; 126; 49; 32; 32; 32; 0x20; 0; 0; 0; 0; 0; 0; 0; 0; 0; 0; 0; 0; 0; 0; 9; 0; 5; 0; 0; 0].
Definition card_root : list Z := readme_entry ++ long_entry ++ short_entry ++ replicate 416 0.

Definition card : fat Z :=
  mkFat 0 {[8 := card_volume]}
    (list_to_map [(40, mkFatInode 0xFFFFFFFF 0 80 1 (replicate 32 0)); (60, mkFatInode 0 0xFFFFFFFF 0 0 readme_entry)])
    {[80 := card_root]} (list_to_map ((fun i => (i, 0)) <$> seqZ 1000 20)).
Definition card_state : vstate (fat Z) := mkVs disk_kern (layout []) ∅ ∅ ∅ 0 0 ∅ ∅ card.

(** ** The state is well formed *)

Lemma card_image_byte i : 0 <= card_image i < 256.
Proof.
  unfold card_image. destruct (card_bytes !! i) as [b|] eqn:E.
  - unfold card_bytes in E. apply elem_of_list_to_map_2 in E. rewrite !elem_of_cons, elem_of_nil in E. naive_solver lia.
  - destruct (i <? 11264); [lia|]. pose proof (Z.mod_pos_bound i 251). lia.
Qed.

Lemma card_bound : card_size <= 2 ^ 31.
Proof. done. Qed.

Lemma no_sector_cached : cached card_image no_sector.
Proof. split; [done|by left]. Qed.

Lemma card_vol : vol 3 card_image card_size card 8 card_volume.
Proof. split; try done; [apply no_sector_cached|]. exists no_sector. split_and!; try done. apply no_sector_cached. Qed.

Lemma card_table : table_ok card_size card_globals.
Proof. done. Qed.

Lemma card_next : next_cluster card_image card_globals 2 = 4.
Proof. vm_compute. reflexivity. Qed.

(** The file README has its two sectors in the clusters 2 and 4. *)
Lemma card_file : file_ok card_image card_size card_globals 2 2.
Proof.
  split; [apply card_table|done|done| |].
  - intros k Hk1 Hk2. change (k * 1 < 2) in Hk2. assert (k = 0 \/ k = 1) as [->| ->] by lia; [done|].
    change (cluster_at card_image card_globals 2 (Z.to_nat 1)) with (next_cluster card_image card_globals 2).
    by rewrite card_next.
  - intros k Hk. assert (k = 0 \/ k = 1) as [->| ->] by lia; [done|]. unfold file_lba.
    change (cluster_at card_image card_globals 2 _) with (next_cluster card_image card_globals 2). by rewrite card_next.
Qed.

Lemma card_directory : directory card_state 40 (mkFatInode 0xFFFFFFFF 0 80 1 (replicate 32 0)) card_root 1.
Proof. by split. Qed.

Lemma card_mapped : mapped (user card) 1000 20.
Proof.
  intros i Hi. exists 0. apply elem_of_list_to_map_1.
  - rewrite <- list_fmap_compose, list_fmap_id. apply NoDup_seqZ.
  - apply list_elem_of_fmap. exists (1000 + i). split; [done|]. apply elem_of_seqZ. lia.
Qed.

(** ** Witnesses *)

Lemma fatfs_find_next_cluster_spec_witness :
  exists s' f', fatfs_find_next_cluster 8 2 card = Ret 4 s' /\ vol 3 card_image card_size s' 8 f' /\ accessed 8 card card_volume s' f'.
Proof.
  destruct (fatfs_find_next_cluster_spec 3 card_image card_size card_image_byte card_bound card 8 card_volume 2)
    as (s' & f' & Hrun & Hvol & Hacc); [apply card_vol|apply card_table|done|done|].
  exists s', f'. split; [|exact (conj Hvol Hacc)]. rewrite Hrun. change (globals card_volume) with card_globals. by rewrite card_next.
Defined.

Lemma fatfs_read_spec_witness :
  exists t f', fatfs_read 8 60 80 1000 500 20 card_state = Ret (DNA_OK, 20) (set_fsd t card_state) /\
    vol 3 card_image card_size t 8 f' /\
    accessed 8 (set_user (written (user card) 1000 (map (file_byte card_image card_globals 2) (seqZ 500 20))) card) card_volume t f'.
Proof.
  destruct (fatfs_read_spec 3 card_image card_size card_image_byte card_bound card_state 8 card_volume 60 80
    (mkFatInode 0 0xFFFFFFFF 0 0 readme_entry) 2 1000 500 20) as [_ Hread]; try done; [apply card_vol|].
  apply Hread; [done|apply card_file|done|done|apply card_mapped].
Defined.

Lemma fatfs_init_spec_witness :
  exists s' f', fatfs_init 8 card = Ret FAT_INIT_OK s' /\ vol 3 card_image card_size s' 8 f' /\
    globals f' = card_globals /\ accessed 8 card card_volume s' (with_globals (globals card_volume) f').
Proof.
  destruct (fatfs_init_spec 3 card_image card_size card_image_byte card_bound card 8 card_volume no_sector)
    as [_ Hinit]; try done.
  destruct Hinit as (s' & f' & Hrun & Hvol & Hg & Hacc); [by vm_compute|]. exists s', f'.
  split; [exact Hrun|]. split; [exact Hvol|]. split; [|exact Hacc]. rewrite Hg. vm_compute. reflexivity.
Defined.

(** "LONGNAME", whatever the case, is the entry 2. *)
Lemma fatfs_walk_spec_witness :
  fatfs_walk 8 40 [76; 111; 110; 103; 78; 97; 109; 101] 0 card_state = Ret (DNA_OK, 64) card_state.
Proof.
  destruct (fatfs_walk_spec card_state 8 40 (mkFatInode 0xFFFFFFFF 0 80 1 (replicate 32 0)) card_root 1
    [76; 111; 110; 103; 78; 97; 109; 101] 0) as (_ & _ & Hfound); [apply card_directory|done|by repeat constructor|].
  apply (Hfound 2%nat); [done|vm_compute; reflexivity|cbn; lia].
Defined.

(** The entry after "README  TXT" is "longname". *)
Lemma fatfs_readdir_spec_witness :
  fatfs_readdir 8 40 0 1 1 0 card_state =
    Ret (DNA_OK, (3, 24, Some (mkDirent 64 2 24 [108; 111; 110; 103; 110; 97; 109; 101]))) card_state.
Proof.
  pose proof (fatfs_readdir_spec card_state 8 card_volume 40 (mkFatInode 0xFFFFFFFF 0 80 1 (replicate 32 0)) card_root 1
    0 1 0 1 0 card_directory ltac:(done) ltac:(done) ltac:(done) ltac:(lia) ltac:(lia)) as Hread.
  cbv zeta in Hread.
  assert (first_named (dir_names blank (dir_entries card_root (16 * 0 + 1) (16 * 1 - (16 * 0 + 1)))) =
    Some (1%nat, [108; 111; 110; 103; 110; 97; 109; 101])) as Hn by (vm_compute; reflexivity).
  rewrite Hn in Hread. apply Hread. cbn. lia.
Defined.

(** Two areas of the heap: an inode and the sector of the root directory. *)
Definition inode_run := kernel_malloc sizeof_fat_inode true disk_kern.
Definition inode_area : Z := default 0 (Prelude.value inode_run).
Definition root_run := kernel_malloc (Z.of_nat 1 * 512) true (Prelude.after inode_run disk_kern).
Definition root_area : Z := default 0 (Prelude.value root_run).

Lemma card_areas : Prelude.value inode_run = Some inode_area /\ Prelude.value root_run = Some root_area /\ inode_area <> 0 /\ root_area <> 0.
Proof. vm_compute. repeat split; discriminate. Qed.

Lemma card_root_readable : readable 3 card_image card_size card_globals 0 (Z.of_nat 1) (fun k => 21 + k).
Proof.
  apply (readable_root16 3 card_image card_size card_bound card_globals); [done|done|done|done|].
  intros k Hk. cbn in Hk. assert (k = 0) as -> by lia. done.
Qed.

(** The inode of the root directory, which is the sector 21. *)
Lemma fatfs_read_vnode_spec_witness :
  exists t' f', fatfs_read_vnode 8 0xFFFFFFFF 0 card_state =
      Ret (DNA_OK, inode_area) (stf (Prelude.after root_run disk_kern) t' card_state) /\
    loaded 3 card_image card_size 8 inode_area (mkFatInode 0xFFFFFFFF 0 root_area 1 (replicate 32 0))
      (<[root_area := sectors card_image (fun k => 21 + k) 1]> (chains card)) card card_volume t' f'.
Proof.
  destruct card_areas as (Hi & Hr & Hi0 & Hr0).
  destruct (fatfs_read_vnode_spec 3 card_image card_size card_bound card_state 8 card_volume 0xFFFFFFFF (replicate 32 0) 0
    inode_area (Prelude.after inode_run disk_kern)) as [_ Hdir];
    [done|done|apply card_vol|done|by apply run_after|exact Hi0|].
  apply (Hdir 1%nat (fun k => 21 + k) root_area); [done|apply card_root_readable|by apply run_after|exact Hr0].
Defined.

(** ** Defects *)

(** The dot of a short name is overwritten: the file is found as "READMETXT" only. *)
Lemma short_name_without_dot : cstr (pad (short_name readme_entry)) = [82; 69; 65; 68; 77; 69; 84; 88; 84].
Proof. vm_compute. reflexivity. Qed.

(** A directory of two sectors whose first entry is README: the search goes on with the
    name found, and returns the first entry of the second sector. *)
Definition two_sectors : list Z := readme_entry ++ replicate 480 0 ++ short_entry ++ replicate 480 0.
Definition card2 : fat Z :=
  mkFat 0 {[8 := card_volume]} {[40 := mkFatInode 0xFFFFFFFF 0 80 2 (replicate 32 0)]} {[80 := two_sectors]} ∅.

Lemma fatfs_walk_wrong_entry : fat_walk 8 40 [82; 69; 65; 68; 77; 69; 84; 88; 84] 0 card2 = Ret (DNA_OK, 512) card2.
Proof. vm_compute. reflexivity. Qed.

(** A directory of the root has 0 as the cluster of its ".." entry; on FAT32 the sector
    read for it is before the data of the volume. *)
Lemma fat32_cluster_zero g :
  fat_type g = FAT_TYPE_32 -> 0 <= cluster_begin_lba g - 2 * sectors_per_cluster g < 2 ^ 32 -> 0 <= sectors_per_cluster g ->
  fatfs_lba_of_cluster g 0 = cluster_begin_lba g - 2 * sectors_per_cluster g.
Proof.
  intros Ht Hr Hs. unfold fatfs_lba_of_cluster. rewrite Ht. cbn [is_fat16]. unfold u32, wrap_u.
  rewrite Zmult_mod_idemp_l, Zplus_mod_idemp_r. rewrite Z.mod_small; lia.
Qed.

(** Only the low four bits of the number of a long entry are kept: the 17th part of a
    name overwrites the first one. *)
Lemma lfn_index_wraps : lfn_index (0x11 :: replicate 31 0) = lfn_index (0x01 :: replicate 31 0).
Proof. vm_compute. reflexivity. Qed.
