(* ===== verification/Devfs.v ===== *)
(** * The device file system (DeviceFileSystem)

    A file system in memory that shows the devices published by the drivers.  Its tree of
    inodes is built by the walks of its root: the devices whose names begin with the token
    are inserted before the token is looked up.  The commands on a device are those of
    its driver.

    The drivers are a parameter: their functions run on the kernel and on a state of their
    own, and cannot reach the inodes.  Objects live in the kernel heap and are named by their
    addresses; an access to an object that has been freed is a fault. *)

From S2P Require Import Prelude Status CLib Queue Allocator Kernel Logic Memory Vfs.

(** ** Devices and drivers (DnaTools/Device.h, DnaTools/Driver.h) *)

Definition DNA_CHARACTER_DEVICE : Z := 0.
Definition DNA_DISK_DEVICE : Z := 1.
Definition DNA_WORM_DEVICE : Z := 2.
Definition DNA_CD_DEVICE : Z := 3.
Definition DNA_NETWORK_DEVICE : Z := 4.
Definition DNA_GET_INFO : Z := 6.

(** What a driver can change. *)
Abbreviation Drv D := (M (kstate * D)).

(** The commands of a device; None is NULL.  [dc_control] receives and returns the objects
    that its arguments point to, as the ioctl of Vfs.v. *)
Record device_cmd_t (D : Type) := mkDevcmd {
  dc_open : option (list Z -> Z -> Z -> Drv D (status_t * Z));
  dc_close : option (Z -> Drv D status_t);
  dc_free : option (Z -> Drv D status_t);
  dc_read : option (Z -> Z -> Z -> Z -> Drv D (status_t * Z));
  dc_write : option (Z -> Z -> Z -> Z -> Drv D (status_t * Z));
  dc_control : option (Z -> Z -> list Z -> Drv D (status_t * (Z * list Z)))
}.
Arguments mkDevcmd {D}.
Arguments dc_open {D}.
Arguments dc_close {D}.
Arguments dc_free {D}.
Arguments dc_read {D}.
Arguments dc_write {D}.
Arguments dc_control {D}.

(** [publish_devices] gives the names of the array that ends with NULL; [find_device] the
    address of a table of commands. *)
Record driver_t (D : Type) := mkDriver {
  init_hardware : Drv D status_t;
  init_driver : Drv D status_t;
  uninit_driver : Drv D unit;
  publish_devices : Drv D (list (list Z));
  find_device : list Z -> Drv D Z
}.
Arguments mkDriver {D}.
Arguments init_hardware {D}.
Arguments init_driver {D}.
Arguments uninit_driver {D}.
Arguments publish_devices {D}.
Arguments find_device {D}.

(** ** Inodes and entries *)

Inductive devfs_inode_class_t : Type := DNA_DEVFS_FILE | DNA_DEVFS_DIRECTORY | DNA_DEVFS_SYMLINK.

Record devfs_entry_t := mkEntry {
  de_id : Z;
  loaded : bool;
  de_name : list Z
}.

Record devfs_inode_t := mkInode {
  dn_id : Z;
  dn_class : devfs_inode_class_t;
  dn_parent : Z;
  dn_name : list Z;
  dn_size : Z;
  dn_mode : Z;
  dn_perms : Z;
  dn_dev_cmd : Z;
  dn_path : list Z
}.

Record devfs_t := mkDevfs {
  df_inode_index : Z;
  df_root_vnid : Z;
  df_vid : Z
}.

(** The lists of a devfs and of an inode, named by the address of their owner. *)
Inductive dqid : Type := DInodes (fs : Z) | DEntries (inode : Z).
#[export] Instance dqid_eq_dec : EqDecision dqid.
Proof. solve_decision. Defined.
#[export] Program Instance dqid_countable : Countable dqid :=
  inj_countable' (fun q => match q with DInodes p => inl p | DEntries p => inr p end)
                 (fun c => match c with inl p => DInodes p | inr p => DEntries p end) _.
Next Obligation. by intros []. Qed.

Record dfs (D : Type) := mkDfs {
  dq : @qstate Z dqid _ _ _ _;
  devfss : gmap Z devfs_t;
  dinodes : gmap Z devfs_inode_t;
  dentries : gmap Z devfs_entry_t;
  drivers : D
}.
Arguments mkDfs {D}.
Arguments dq {D}.
Arguments devfss {D}.
Arguments dinodes {D}.
Arguments dentries {D}.
Arguments drivers {D}.

Definition sizeof_devfs_inode : Z := 408.
Definition sizeof_devfs_entry : Z := 280.
Definition sizeof_devfs : Z := 120.

Definition devfs_dot : list Z := [46].
Definition devfs_dotdot : list Z := [46; 46].

Section Devfs.
Context `{Hal} {D : Type}.
Context (devcmds : Z -> option (device_cmd_t D)).   (* the table at an address *)
Context (OS_DRIVERS_LIST : list (driver_t D)).

Definition set_dq v (s : dfs D) := mkDfs v (devfss s) (dinodes s) (dentries s) (drivers s).
Definition set_devfss v (s : dfs D) := mkDfs (dq s) v (dinodes s) (dentries s) (drivers s).
Definition set_dinodes v (s : dfs D) := mkDfs (dq s) (devfss s) v (dentries s) (drivers s).
Definition set_dentries v (s : dfs D) := mkDfs (dq s) (devfss s) (dinodes s) v (drivers s).
Definition set_drivers (v : D) (s : dfs D) := mkDfs (dq s) (devfss s) (dinodes s) (dentries s) v.

Abbreviation W := (V (dfs D)).

Definition ondev {A} (m : M (dfs D) A) : W A := lift fsd set_fsd m.
Definition ondq {A} (m : M (@qstate Z dqid _ _ _ _) A) : W A := ondev (lift dq set_dq m).
(** Call a function of a driver. *)
Definition ondrv {A} (m : Drv D A) : W A :=
  lift (fun s => (kern s, drivers (fsd s))) (fun kd s => set_kern kd.1 (set_fsd (set_drivers kd.2 (fsd s)) s)) m.

Definition rd_devfs (p : Z) : W devfs_t := let* m := ondev (gets devfss) in deref (m !! p).
Definition rd_inode (p : Z) : W devfs_inode_t := let* m := ondev (gets dinodes) in deref (m !! p).
Definition rd_entry (p : Z) : W devfs_entry_t := let* m := ondev (gets dentries) in deref (m !! p).
Definition put_devfs (p : Z) (v : devfs_t) : W unit := ondev (modify (fun s => set_devfss (<[p := v]> (devfss s)) s)).
Definition put_inode (p : Z) (v : devfs_inode_t) : W unit := ondev (modify (fun s => set_dinodes (<[p := v]> (dinodes s)) s)).
Definition put_entry (p : Z) (v : devfs_entry_t) : W unit := ondev (modify (fun s => set_dentries (<[p := v]> (dentries s)) s)).

(** kernel_free of an inode, of an entry. *)
Definition free_inode (p : Z) : W unit :=
  onk (kernel_free p) ;; ondev (modify (fun s => set_dinodes (delete p (dinodes s)) s)).
Definition free_entry (p : Z) : W unit :=
  onk (kernel_free p) ;; ondev (modify (fun s => set_dentries (delete p (dentries s)) s)).

(** fs -> inode_index ++ *)
Definition next_index (fs : Z) : W Z :=
  let* f := rd_devfs fs in
  put_devfs fs (mkDevfs (i64 (df_inode_index f + 1)) (df_root_vnid f) (df_vid f)) ;;
  ret (df_inode_index f).

(** ** Inspectors *)

Definition devfs_entry_name_inspector (s : dfs D) (name : list Z) (entry : Z) : bool :=
  match dentries s !! entry with Some e => bool_decide (de_name e = name) | None => false end.

Definition devfs_inode_id_inspector (s : dfs D) (id : Z) (inode : Z) : bool :=
  match dinodes s !! inode with Some i => dn_id i =? id | None => false end.

Definition devfs_entry_unused_inspector (s : dfs D) (entry : Z) : bool :=
  match dentries s !! entry with
  | Some e => negb (bool_decide (de_name e = devfs_dot)) && negb (bool_decide (de_name e = devfs_dotdot)) && negb (loaded e)
  | None => false
  end.

(** queue_lookup with devfs_entry_index_inspector, which counts [*index] down. *)
Fixpoint devfs_index_walk (fuel : nat) (item : option Z) (index : Z) : M (@qstate Z dqid _ _ _ _) (option Z) :=
  match fuel with
  | O => diverge
  | S fuel =>
      match item with
      | None => ret None
      | Some e =>
          if index =? 0 then ret (Some e)
          else let* n := gets (next e) in devfs_index_walk fuel n (i64 (index - 1))
      end
  end.
Definition devfs_lookup_index (q : dqid) (index : Z) : M (@qstate Z dqid _ _ _ _) (option Z) :=
  let* Q := gets (getq q) in
  if negb (status Q =? 0) then let* fuel := gets walk_fuel in devfs_index_walk fuel (head Q) index
  else ret None.

(** queue_lookup of an entry by name, of an inode by identifier; 0 is NULL. *)
Definition find_entry (inode : Z) (name : list Z) : W Z :=
  let* _ := rd_inode inode in
  let* s := ondev (gets (fun s => s)) in
  let* e := ondq (queue_lookup (DEntries inode) (devfs_entry_name_inspector s name)) in ret (default 0 e).
Definition find_unused (inode : Z) : W Z :=
  let* _ := rd_inode inode in
  let* s := ondev (gets (fun s => s)) in
  let* e := ondq (queue_lookup (DEntries inode) (devfs_entry_unused_inspector s)) in ret (default 0 e).
Definition find_inode (fs id : Z) : W Z :=
  let* _ := rd_devfs fs in
  let* s := ondev (gets (fun s => s)) in
  let* i := ondq (queue_lookup (DInodes fs) (devfs_inode_id_inspector s id)) in ret (default 0 i).

(** ** Inodes *)

(** The status and [*p_inode]; [name] is shorter than its buffer. *)
Definition devfs_inode_create (fs parent : Z) (class : devfs_inode_class_t) (name : list Z) (vnid commands : Z)
    (p_inode : Z) : W (status_t * Z) :=
  let* prefix :=
    (if parent =? 0 then ret None
     else
       let* p := rd_inode parent in
       let* f := rd_devfs fs in
       ret (if negb (dn_id p =? df_root_vnid f) then Some (dn_path p) else None)) in
  let path_length := Z.of_nat (length (default [] prefix)) + Z.of_nat (length name) in
  let* inode := onk (kernel_malloc (sizeof_devfs_inode + path_length) true) in
  ensure negb (inode =? 0) orelse (DNA_OUT_OF_MEM, p_inode) in
  ondq (modify (fun q => set_next inode None (putq (DEntries inode) DNA_QUEUE_DEFAULTS q))) ;;
  let* name := strcpy_buffer DNA_FILENAME_LENGTH name in
  let path := match prefix with Some p => p ++ [slash] ++ name | None => name end in
  put_inode inode (mkInode vnid class parent name 0 0 0 commands path) ;;
  (if negb (fs =? 0) then ondq (queue_add (DInodes fs) inode) ;; ret tt else ret tt) ;;
  ret (DNA_OK, inode).

Definition devfs_entry_add (inode : Z) (name : list Z) (vnid : Z) : W status_t :=
  ensure negb (inode =? 0) orelse DNA_BAD_ARGUMENT in
  let* entry := onk (kernel_malloc sizeof_devfs_entry true) in
  ensure negb (entry =? 0) orelse DNA_OUT_OF_MEM in
  ondq (modify (set_next entry None)) ;;
  let* name := strcpy_buffer DNA_FILENAME_LENGTH name in
  put_entry entry (mkEntry vnid false name) ;;
  let* _ := rd_inode inode in
  ondq (queue_add (DEntries inode) entry) ;;
  ret DNA_OK.

(** The two ways to remove an entry that has been looked up. *)
Definition remove_entry (node entry : Z) : W status_t :=
  ensure negb (entry =? 0) orelse DNA_NO_ENTRY in
  let* status := ondq (queue_extract (DEntries node) (Some entry)) in
  ensure st_eqb status DNA_OK orelse DNA_NO_ENTRY in
  free_entry entry ;;
  ret DNA_OK.

Definition devfs_entry_remove_by_name (node : Z) (name : list Z) : W status_t :=
  ensure negb (node =? 0) orelse DNA_BAD_ARGUMENT in
  let* entry := find_entry node name in
  remove_entry node entry.

(** while (entry != NULL) ... of devfs_inode_destroy, the recursive call being [destroy]. *)
Fixpoint destroy_loop (n : nat) (destroy : Z -> W status_t) (fs inode : Z) (entry : option Z) : W status_t :=
  match n with
  | O => diverge
  | S n =>
      match entry with
      | None => ret DNA_OK
      | Some entry =>
          let* e := rd_entry entry in
          let* next_inode := find_inode fs (de_id e) in
          ensure negb (next_inode =? 0) orelse DNA_NO_VNODE in
          let* status := destroy next_inode in
          ensure st_eqb status DNA_OK orelse status in
          free_entry entry ;;
          let* entry := ondq (queue_rem (DEntries inode)) in
          destroy_loop n destroy fs inode entry
      end
  end.

(** The result of queue_extract is not tested. *)
Fixpoint devfs_inode_destroy (fuel : nat) (fs inode : Z) : W status_t :=
  match fuel with
  | O => diverge
  | S fuel =>
      ensure negb (inode =? 0) orelse DNA_BAD_ARGUMENT in
      let* _ := rd_inode inode in
      ondq (queue_extract (DInodes fs) (Some inode)) ;;
      let* i := rd_inode inode in
      let* status :=
        (match dn_class i with
         | DNA_DEVFS_DIRECTORY =>
             devfs_entry_remove_by_name inode devfs_dot ;;
             devfs_entry_remove_by_name inode devfs_dotdot ;;
             let* entry := ondq (queue_rem (DEntries inode)) in
             destroy_loop fuel (devfs_inode_destroy fuel fs) fs inode entry
         | _ => ret DNA_OK
         end) in
      ensure st_eqb status DNA_OK orelse status in
      free_inode inode ;;
      ret DNA_OK
  end.

(** The walk forward of devfs_inode_clean. *)
Fixpoint clean_loop (n fuel : nat) (fs inode entry : Z) : W status_t :=
  match n with
  | O => diverge
  | S n =>
      ensure negb (entry =? 0) orelse DNA_OK in
      let* e := rd_entry entry in
      let* next_inode := find_inode fs (de_id e) in
      ensure negb (next_inode =? 0) orelse DNA_NO_VNODE in
      let* status := devfs_inode_destroy fuel fs next_inode in
      ensure st_eqb status DNA_OK orelse status in
      let* i := rd_inode next_inode in
      let* status := devfs_entry_remove_by_name inode (dn_name i) in
      ensure st_eqb status DNA_OK orelse status in
      let* entry := find_unused inode in
      clean_loop n fuel fs inode entry
  end.

Fixpoint devfs_inode_clean (fuel : nat) (fs inode : Z) : W status_t :=
  match fuel with
  | O => diverge
  | S fuel =>
      let* entry := find_unused inode in
      let* status := clean_loop fuel fuel fs inode entry in
      ensure st_eqb status DNA_OK orelse status in
      let* n := ondq (gets (fun q => Queue.status (getq (DEntries inode) q))) in
      let* i := rd_inode inode in
      if (n =? 0) && negb (dn_parent i =? 0) then
        let* entry := find_entry (dn_parent i) (dn_name i) in
        ensure negb (entry =? 0) orelse DNA_NO_ENTRY in
        let* status := devfs_entry_remove_by_name (dn_parent i) (dn_name i) in
        ensure st_eqb status DNA_OK orelse status in
        let* status := devfs_inode_destroy fuel fs inode in
        ensure st_eqb status DNA_OK orelse status in
        let* i := rd_inode inode in
        let* status := devfs_inode_clean fuel fs (dn_parent i) in
        ensure st_eqb status DNA_OK orelse status in
        ret DNA_OK
      else ret DNA_OK
  end.

(** A token that path_get_next_entry has not written is a fault. *)
Fixpoint devfs_inode_insert (fuel : nat) (fs inode : Z) (path : list Z) (commands : Z) : W status_t :=
  match fuel with
  | O => diverge
  | S fuel =>
      let* e := next_entry path in
      let '(status, token, path) := e in
      if negb (st_eqb status DNA_OK) then fault
      else
        let* entry := find_entry inode token in
        if entry =? 0 then
          let* next_inode :=
            (if negb (bool_decide (path = [])) then
               let* id := next_index fs in
               let* r := devfs_inode_create fs inode DNA_DEVFS_DIRECTORY token id 0 0 in
               let next_inode := r.2 in
               let* n := rd_inode next_inode in
               devfs_entry_add next_inode devfs_dot (dn_id n) ;;
               let* i := rd_inode inode in
               devfs_entry_add next_inode devfs_dotdot (dn_id i) ;;
               devfs_inode_insert fuel fs next_inode path commands ;;
               ret next_inode
             else
               let* id := next_index fs in
               let* r := devfs_inode_create fs inode DNA_DEVFS_FILE token id commands 0 in
               ret r.2) in
          let* n := rd_inode next_inode in
          devfs_entry_add inode token (dn_id n) ;;
          ret DNA_OK
        else
          ensure negb (bool_decide (path = [])) orelse DNA_INODE_EXISTS in
          let* e := rd_entry entry in
          let* next_inode := find_inode fs (de_id e) in
          ensure negb (next_inode =? 0) orelse DNA_NO_VNODE in
          let* n := rd_inode next_inode in
          match dn_class n with
          | DNA_DEVFS_DIRECTORY => devfs_inode_insert fuel fs next_inode path commands
          | _ => ret DNA_BAD_INODE_TYPE
          end
  end.

(** The index is passed by value where the inspector reads a pointer: 0 is NULL, for which
    the inspector answers false. *)
Definition devfs_entry_remove_by_index (node index : Z) : W status_t :=
  ensure negb (node =? 0) orelse DNA_BAD_ARGUMENT in
  let* _ := rd_inode node in
  let* n := ondq (gets (fun q => status (getq (DEntries node) q))) in
  if n =? 0 then remove_entry node 0
  else if index =? 0 then remove_entry node 0
  else fault.

(** ** Commands *)

(** The loop on the devices of a driver; the status of the insertion is not tested. *)
Fixpoint insert_devices (ns base : Z) (path : list Z) (driver : driver_t D) (devices : list (list Z)) : W unit :=
  match devices with
  | [] => ret tt
  | device :: devices =>
      (if bool_decide (take (length path) device = path) then
         let* a_path := strcpy_buffer DNA_PATH_LENGTH device in
         let* commands := ondrv (find_device driver a_path) in
         devfs_inode_insert (S (length a_path)) ns base a_path commands ;; ret tt
       else ret tt) ;;
      insert_devices ns base path driver devices
  end.

Fixpoint publish_drivers (ns base : Z) (path : list Z) (drivers_list : list (driver_t D)) : W unit :=
  match drivers_list with
  | [] => ret tt
  | driver :: drivers_list =>
      let* devices := ondrv (publish_devices driver) in
      insert_devices ns base path driver devices ;;
      publish_drivers ns base path drivers_list
  end.

(** queue_lookup of the token, then [*p_vnid]. *)
Definition walk_entry (base : Z) (path : list Z) (vnid : Z) : W (status_t * Z) :=
  let* entry := find_entry base path in
  ensure negb (entry =? 0) orelse (DNA_NO_ENTRY, vnid) in
  let* e := rd_entry entry in
  ret (DNA_OK, de_id e).

Definition devfs_walk (ns base : Z) (path : list Z) (vnid : Z) : W (status_t * Z) :=
  ensure negb (ns =? 0) && negb (base =? 0) orelse (DNA_ERROR, vnid) in
  let* b := rd_inode base in
  let* f := rd_devfs ns in
  if dn_id b =? df_root_vnid f then
    ensure negb (bool_decide (path = devfs_dotdot)) orelse (DNA_ALREADY_AT_ROOT, vnid) in
    let* a_path := onk (kernel_malloc DNA_PATH_LENGTH false) in
    ensure negb (a_path =? 0) orelse (DNA_OUT_OF_MEM, vnid) in
    publish_drivers ns base path OS_DRIVERS_LIST ;;
    onk (kernel_free a_path) ;;
    walk_entry base path vnid
  else walk_entry base path vnid.

(** The status and driver_index when the loop of devfs_mount is left. *)
Fixpoint init_drivers (drivers_list : list (driver_t D)) (driver_index : nat) : W (status_t * nat) :=
  match drivers_list with
  | [] => ret (DNA_OK, driver_index)
  | driver :: drivers_list =>
      let* status := ondrv (init_hardware driver) in
      ensure st_eqb status DNA_OK orelse (status, driver_index) in
      let* status := ondrv (init_driver driver) in
      ensure st_eqb status DNA_OK orelse (status, driver_index) in
      init_drivers drivers_list (S driver_index)
  end.

Fixpoint uninit_drivers (drivers_list : list (driver_t D)) : W unit :=
  match drivers_list with
  | [] => ret tt
  | driver :: drivers_list => ondrv (uninit_driver driver) ;; uninit_drivers drivers_list
  end.

(** The number of objects bounds the walks that free them. *)
Definition devfs_fuel : W nat := ondev (gets (fun s => S (size (dinodes s) + size (dentries s)))).

(** The status, [*data] and [*vnid].  The kernel_free of an entry that queue_rem has
    taken is the one of NULL when the list is empty. *)
Definition devfs_mount (vid : Z) (dev_path : list Z) (flags params : Z) : W (status_t * (Z * Z)) :=
  let* devfs := onk (kernel_malloc sizeof_devfs true) in
  ensure negb (devfs =? 0) orelse (DNA_OUT_OF_MEM, (0, -1)) in
  ondq (modify (putq (DInodes devfs) DNA_QUEUE_DEFAULTS)) ;;
  put_devfs devfs (mkDevfs 2 1 vid) ;;
  (* the rescue blocks, from the last to the first *)
  let inode_error (status : status_t) : W (status_t * (Z * Z)) :=
    onk (kernel_free devfs) ;; ondev (modify (fun s => set_devfss (delete devfs (devfss s)) s)) ;;
    ret (status, (0, -1)) in
  let* r := devfs_inode_create devfs 0 DNA_DEVFS_DIRECTORY [] 1 0 0 in
  let '(status, root_inode) := r in
  check st_eqb status DNA_OK rescue inode_error status in
  let entry_error (status : status_t) : W (status_t * (Z * Z)) :=
    let* fuel := devfs_fuel in devfs_inode_destroy fuel devfs root_inode ;; inode_error status in
  let* status := devfs_entry_add root_inode devfs_dot 1 in
  check st_eqb status DNA_OK rescue entry_error status in
  let* status := devfs_entry_add root_inode devfs_dotdot 1 in
  check st_eqb status DNA_OK rescue entry_error status in
  let* r := init_drivers OS_DRIVERS_LIST 0 in
  let '(status, driver_index) := r in
  check st_eqb status DNA_OK
    rescue (uninit_drivers (take driver_index OS_DRIVERS_LIST) ;;
            let* entry := ondq (queue_rem (DEntries root_inode)) in
            match entry with Some entry => free_entry entry | None => onk (kernel_free 0) ;; ret tt end ;;
            entry_error status) in
  let* i := rd_inode root_inode in
  let* status := vnode_create (dn_id i) vid root_inode in
  ret (status, (devfs, dn_id i)).

Definition devfs_read_vnode (ns vnid data : Z) : W (status_t * Z) :=
  let* inode := find_inode ns vnid in
  ensure negb (inode =? 0) orelse (DNA_NO_VNODE, data) in
  let* i := rd_inode inode in
  if negb (dn_parent i =? 0) then
    let* entry := find_entry (dn_parent i) (dn_name i) in
    ensure negb (entry =? 0) orelse (DNA_NO_ENTRY, data) in
    let* e := rd_entry entry in
    put_entry entry (mkEntry (de_id e) true (de_name e)) ;;
    ret (DNA_OK, inode)
  else ret (DNA_OK, inode).

Definition devfs_write_vnode (ns node : Z) : W status_t :=
  let* fuel := devfs_fuel in
  let* status := devfs_inode_clean fuel ns node in
  ensure st_eqb status DNA_OK orelse status in
  ret DNA_OK.

Definition devfs_destroy_vnode (ns node : Z) : W status_t := ret DNA_OK.

(** inode -> dev_cmd -> f: the tables of commands are objects. *)
Definition dev_cmd (i : devfs_inode_t) : W (device_cmd_t D) := deref (devcmds (dn_dev_cmd i)).

Definition devfs_open (ns node mode data : Z) : W (status_t * Z) :=
  let* i := rd_inode node in
  match dn_class i with
  | DNA_DEVFS_FILE =>
      let* c := dev_cmd i in
      match dc_open c with
      | None => ret (DNA_ERROR, data)
      | Some f => ondrv (f (dn_path i) mode data)
      end
  | _ => ret (DNA_OK, data)
  end.

Definition devfs_close (ns node data : Z) : W status_t :=
  let* i := rd_inode node in
  match dn_class i with
  | DNA_DEVFS_FILE =>
      let* c := dev_cmd i in
      match dc_close c with
      | None => ret DNA_ERROR
      | Some f => ondrv (f data)
      end
  | _ => ret DNA_OK
  end.

Definition devfs_free (ns node data : Z) : W status_t :=
  let* i := rd_inode node in
  match dn_class i with
  | DNA_DEVFS_FILE =>
      let* c := dev_cmd i in
      match dc_free c with
      | None => ret DNA_ERROR
      | Some f => ondrv (f data)
      end
  | _ => ret DNA_OK
  end.

(** The class of the inode is not tested by read and write. *)
Definition devfs_read (ns node file data offset count : Z) : W (status_t * Z) :=
  let* i := rd_inode node in
  let* c := dev_cmd i in
  match dc_read c with
  | None => ret (DNA_ERROR, count)
  | Some f => ondrv (f file data offset count)
  end.

Definition devfs_write (ns node file data offset count : Z) : W (status_t * Z) :=
  let* i := rd_inode node in
  let* c := dev_cmd i in
  match dc_write c with
  | None => ret (DNA_ERROR, count)
  | Some f => ondrv (f file data offset count)
  end.

Definition devfs_ioctl (ns node data function : Z) (arguments : list Z) : W (status_t * (Z * list Z)) :=
  let* i := rd_inode node in
  match dn_class i with
  | DNA_DEVFS_FILE =>
      let* c := dev_cmd i in
      match dc_control c with
      | None => ret (DNA_ERROR, (0, arguments))
      | Some f => ondrv (f data function arguments)
      end
  | _ => ret (DNA_OK, (0, arguments))
  end.

Definition device_file_type (type : Z) : file_type_t :=
  if (type =? DNA_NETWORK_DEVICE) || (type =? DNA_CHARACTER_DEVICE) then DNA_FILE_SPECIAL_CHARACTER
  else if (type =? DNA_DISK_DEVICE) || (type =? DNA_WORM_DEVICE) || (type =? DNA_CD_DEVICE) then DNA_FILE_SPECIAL_BLOCK
  else DNA_FILE_REGULAR.

(** The control function is called without a test for NULL, its status is dropped; [dev_info]
    is the content of the variable on the stack that it fills, the type of the device first. *)
Definition devfs_get_info (dev_info : list Z) (ns node data : Z) : W (status_t * option file_info_t) :=
  ensure negb (ns =? 0) orelse (DNA_BAD_ARGUMENT, None) in
  ensure negb (node =? 0) orelse (DNA_BAD_ARGUMENT, None) in
  let* f := rd_devfs ns in
  let* i := rd_inode node in
  let* type :=
    (match dn_class i with
     | DNA_DEVFS_FILE =>
         let* c := dev_cmd i in
         let* control := deref (dc_control c) in
         let* r := ondrv (control data DNA_GET_INFO dev_info) in
         let* type := deref (List.hd_error r.2.2) in
         ret (device_file_type type)
     | DNA_DEVFS_DIRECTORY => ret DNA_FILE_DIRECTORY
     | DNA_DEVFS_SYMLINK => ret DNA_FILE_SYMBOLIC_LINK
     end) in
  ret (DNA_OK, Some (mkFinfo (df_vid f) (dn_id i) type 0 0 0)).

Definition devfs_set_info (ns node data : Z) (info : file_info_t) (mask : Z) : W status_t := ret DNA_OK.
Definition devfs_create (ns node : Z) (path : list Z) (mode perms : Z) (out : Z * Z) : W (status_t * (Z * Z)) :=
  ret (DNA_ERROR, out).
Definition devfs_mkdir (ns node : Z) (name : list Z) (mode : Z) : W status_t := ret DNA_ERROR.

Definition devfs_readdir (ns node data entry_array offset count : Z)
    : W (status_t * (Z * Z * option directory_entry_t)) :=
  ensure negb (ns =? 0) && negb (node =? 0) && negb (entry_array =? 0)
    orelse (DNA_ERROR, (offset, count, None)) in
  let* i := rd_inode node in
  match dn_class i with
  | DNA_DEVFS_DIRECTORY =>
      let* n := ondq (gets (fun q => status (getq (DEntries node) q))) in
      if n =? 0 then ret (DNA_OK, (offset, 0, None))
      else
        let* entry := ondq (devfs_lookup_index (DEntries node) offset) in
        match entry with
        | None => ret (DNA_OK, (offset, 0, None))
        | Some entry =>
            let* e := rd_entry entry in
            let* f := rd_devfs ns in
            let d_reclen := u16 (16 + Z.of_nat (length (de_name e))) in
            ret (DNA_OK, (i64 (offset + 1), d_reclen, Some (mkDirent (de_id e) (df_vid f) d_reclen (de_name e))))
        end
  | _ => ret (DNA_BAD_INODE_TYPE, (offset, count, None))
  end.

(** devfs_variables.c *)
Definition devfs_cmd (dev_info : list Z) : filesystem_cmd (dfs D) :=
  mkCmd (dfs D) devfs_walk devfs_mount devfs_read_vnode devfs_write_vnode devfs_destroy_vnode
    devfs_open devfs_close devfs_free devfs_create devfs_read devfs_write (devfs_get_info dev_info)
    devfs_set_info devfs_mkdir devfs_readdir devfs_ioctl.

End Devfs.
