(* ===== verification/DevfsTree.v ===== *)
(** * The tree of the device file system

    The inodes form a tree of names ([dwf]): the entries of a directory have distinct names
    and designate inodes of the list, an inode knows its parent, its name and its path.  This
    file says what a path leads to ([resolve]) and how new inodes and entries change it. *)

From S2P Require Import Prelude Status CLib Queue Allocator Kernel Logic Memory Scheduler Alarm Thread Vfs VfsSpec Devfs.

(** The first entry called [name]. *)
Fixpoint assoc (name : list Z) (l : list devfs_entry_t) : option Z :=
  match l with
  | [] => None
  | e :: l => if bool_decide (de_name e = name) then Some (de_id e) else assoc name l
  end.

(** The path of the inode called [name] below the directory of path [prefix]; None is the root. *)
Definition child_path (prefix : option (list Z)) (name : list Z) : list Z :=
  match prefix with Some p => p ++ slash :: name | None => name end.

Definition prefix_of (F : devfs_t) (v : devfs_inode_t) : option (list Z) :=
  if dn_id v =? df_root_vnid F then None else Some (dn_path v).

Definition bump_index (F : devfs_t) : devfs_t := mkDevfs (df_inode_index F + 1) (df_root_vnid F) (df_vid F).

Section Model.
Context {D : Type} (U : gset Z) (fs : Z).
Implicit Types (W : dqid -> list Z) (f : dfs D) (F : devfs_t).

(** The entries of a directory, in the order of its list; the inodes of the list. *)
Definition listing W f (b : Z) : list devfs_entry_t := omap (fun e => dentries f !! e) (W (DEntries b)).
Definition member W f (i : Z) (v : devfs_inode_t) : Prop := i ∈ W (DInodes fs) /\ dinodes f !! i = Some v.

(** An inode or an entry is at [p]. *)
Definition object f (p : Z) : Prop := is_Some (dinodes f !! p) \/ is_Some (dentries f !! p).

Definition designates W f (b : Z) (e : devfs_entry_t) (i : Z) (w : devfs_inode_t) : Prop :=
  member W f i w /\ dn_id w = de_id e /\
  (de_name e = devfs_dot \/ de_name e = devfs_dotdot \/ dn_parent w = b /\ dn_name w = de_name e).

(** [A]: the regions of the heap in which the objects lie, one each; [P]: the inodes that have
    no entry yet. *)
Record dwf W (A P : list Z) F f : Prop := {
  d_lists : qwf U (dq f) W;
  d_fs : devfss f !! fs = Some F;
  d_root : 0 < df_root_vnid F < df_inode_index F;
  d_inode_live : forall r i, i ∈ W (DInodes r) -> is_Some (dinodes f !! i);
  d_entry_live : forall b e, e ∈ W (DEntries b) -> is_Some (dentries f !! e) /\ is_Some (dinodes f !! b);
  d_alloc : forall p, is_Some (dinodes f !! p) \/ is_Some (dentries f !! p) -> p - DNA_KERNEL_BLOCK_SIZE ∈ A;
  d_used : forall c, c ∈ A -> object f (c + DNA_KERNEL_BLOCK_SIZE);
  d_ids : forall i v, member W f i v -> dn_id v < df_inode_index F;
  d_unique : forall i j v w, member W f i v -> member W f j w -> dn_id v = dn_id w -> i = j;
  d_points : forall b v e, member W f b v -> e ∈ listing W f b -> exists i w, designates W f b e i w;
  d_files : forall b v, member W f b v -> dn_class v <> DNA_DEVFS_DIRECTORY -> W (DEntries b) = [];
  d_names : forall b v, member W f b v -> NoDup (de_name <$> listing W f b);
  d_parent : forall i v, member W f i v -> dn_parent v <> 0 ->
    exists p, member W f (dn_parent v) p /\ dn_path v = child_path (prefix_of F p) (dn_name v);
  d_top : forall i v, member W f i v -> dn_id v = df_root_vnid F -> dn_parent v = 0;
  d_linked : forall i v, member W f i v -> dn_parent v <> 0 -> i ∉ P ->
    exists e, e ∈ listing W f (dn_parent v) /\ de_name e = dn_name v /\ de_id e = dn_id v
}.

Lemma dwf_bump W A P F F' f f' :
  dwf W A P F f -> dq f' = dq f -> dinodes f' = dinodes f -> dentries f' = dentries f -> devfss f' !! fs = Some F' ->
  df_root_vnid F' = df_root_vnid F -> df_inode_index F <= df_inode_index F' -> dwf W A P F' f'.
Proof.
  intros Hwf Hq Hi He Hfs Hr Hx.
  assert (forall i v, member W f' i v <-> member W f i v) as Hm by (intros; unfold member; by rewrite Hi).
  assert (forall b, listing W f' b = listing W f b) as HL by (intros; unfold listing; by rewrite He).
  assert (forall v, prefix_of F' v = prefix_of F v) as Hpre by (intros w; unfold prefix_of; by rewrite Hr).
  split; unfold designates, object; rewrite ?Hq, ?Hi, ?He; try setoid_rewrite Hm; try setoid_rewrite HL; try setoid_rewrite Hpre; rewrite ?Hr; try apply Hwf; [done| |].
  - pose proof (d_root _ _ _ _ _ Hwf). lia.
  - intros i v Hv. pose proof (d_ids _ _ _ _ _ Hwf i v Hv). lia.
Qed.

(** An inode without a parent needs no entry. *)
Lemma dwf_top W A p v F f : dwf W A [p] F f -> member W f p v -> dn_parent v = 0 -> dwf W A [] F f.
Proof.
  intros Hwf Hp Hv. split; try apply Hwf. intros i w Hi Hw _. apply (d_linked _ _ _ _ _ Hwf i w Hi Hw).
  intros Hin%list_elem_of_singleton. subst i. destruct Hi, Hp. by simplify_eq.
Qed.

(** ** Resolution *)

Definition inode_of W f (id : Z) : option Z := List.find (devfs_inode_id_inspector f id) (W (DInodes fs)).

Definition child W f (b : Z) (name : list Z) : option Z :=
  match assoc name (listing W f b) with Some id => inode_of W f id | None => None end.

Fixpoint resolve W f (b : Z) (names : list (list Z)) : option Z :=
  match names with
  | [] => Some b
  | name :: names => match child W f b name with Some i => resolve W f i names | None => None end
  end.

(** The objects of the second state are those of the first one and new ones. *)
Record grows W f W' f' : Prop := {
  g_inodes : forall i v, member W f i v -> member W' f' i v;
  g_listing : forall b v, member W f b v -> listing W f b `prefix_of` listing W' f' b
}.

Lemma grows_refl W f : grows W f W f.
Proof. by split. Qed.

Lemma grows_trans W1 f1 W2 f2 W3 f3 : grows W1 f1 W2 f2 -> grows W2 f2 W3 f3 -> grows W1 f1 W3 f3.
Proof. intros [Hi Hl] [Hi' Hl']. split; [by eauto|]. intros b v Hb. etrans; [by eapply Hl|by eapply Hl', Hi]. Qed.

Lemma dassoc_app name l l' :
  assoc name (l ++ l') = match assoc name l with Some id => Some id | None => assoc name l' end.
Proof. induction l as [|e l IH]; cbn; [done|]. by case_bool_decide. Qed.

Lemma dassoc_some name l id : assoc name l = Some id -> exists e, e ∈ l /\ de_name e = name /\ de_id e = id.
Proof.
  induction l as [|e l IH]; cbn; [done|]. case_bool_decide as Hn; [intros [= <-]; exists e; split; [by left|done]|].
  intros (e' & He & Hx)%IH. exists e'. split; [by right|done].
Qed.

Lemma dassoc_none name l : assoc name l = None <-> name ∉ de_name <$> l.
Proof.
  induction l as [|e l IH]; cbn; [split; [by intros _ ?%not_elem_of_nil|done]|]. rewrite not_elem_of_cons.
  case_bool_decide; rewrite ?IH; split; [done|naive_solver|naive_solver|naive_solver].
Qed.

Lemma dassoc_in l e : NoDup (de_name <$> l) -> e ∈ l -> assoc (de_name e) l = Some (de_id e).
Proof.
  induction l as [|e' l IH]; cbn; [by intros _ ?%not_elem_of_nil|]. intros [Hn Hnd]%NoDup_cons [->|He]%elem_of_cons.
  - by rewrite bool_decide_true.
  - rewrite bool_decide_false; [by apply IH|]. intros Heq. apply Hn. rewrite Heq. by apply list_elem_of_fmap_2.
Qed.

Section Wf.
Context W A P F f (Hwf : dwf W A P F f).

Lemma inode_of_member i v : member W f i v -> inode_of W f (dn_id v) = Some i.
Proof using Hwf.
  intros Hm. unfold inode_of. destruct (List.find _ _) as [j|] eqn:Hf.
  - apply List.find_some in Hf as [Hj Hid]. apply list_elem_of_In in Hj.
    destruct (d_inode_live _ _ _ _ _ Hwf _ _ Hj) as [w Hw]. unfold devfs_inode_id_inspector in Hid. rewrite Hw in Hid.
    f_equal. symmetry. apply (d_unique _ _ _ _ _ Hwf i j v w); [done|by split|]. apply Z.eqb_eq in Hid. lia.
  - destruct Hm as [Hi Hv]. apply list_elem_of_In in Hi. pose proof (List.find_none _ _ Hf i Hi) as Hn.
    unfold devfs_inode_id_inspector in Hn. rewrite Hv, Z.eqb_refl in Hn. done.
Qed.

Lemma inode_of_some id i : inode_of W f id = Some i -> exists v, member W f i v /\ dn_id v = id.
Proof using Hwf.
  intros [Hi Hid]%List.find_some. apply list_elem_of_In in Hi. destruct (d_inode_live _ _ _ _ _ Hwf _ _ Hi) as [v Hv].
  unfold devfs_inode_id_inspector in Hid. rewrite Hv in Hid. exists v. split; [by split|]. by apply Z.eqb_eq.
Qed.

Lemma child_some b v name id :
  member W f b v -> assoc name (listing W f b) = Some id ->
  exists e i w, e ∈ listing W f b /\ de_name e = name /\ designates W f b e i w /\ dn_id w = id /\ child W f b name = Some i.
Proof using Hwf.
  intros Hb Ha. pose proof (dassoc_some _ _ _ Ha) as (e & He & Hn & Hid).
  destruct (d_points _ _ _ _ _ Hwf b v e Hb He) as (i & w & Hm & Hw & Hx). exists e, i, w. split_and!; [done..|by split|congruence|].
  unfold child. rewrite Ha, <- Hid, <- Hw. by apply inode_of_member.
Qed.

Lemma child_member b name i : child W f b name = Some i -> exists v, member W f i v.
Proof using Hwf. unfold child. destruct (assoc _ _); [|done]. intros (v & Hv & _)%inode_of_some. by exists v. Qed.

Lemma resolve_member names : forall b v i, member W f b v -> resolve W f b names = Some i -> exists w, member W f i w.
Proof using Hwf.
  induction names as [|t names IH]; intros b v i Hb; cbn [resolve]; [intros [= <-]; by exists v|].
  destruct (child W f b t) as [j|] eqn:Hc; [|done]. apply child_member in Hc as [w Hw]. by apply (IH j w).
Qed.

Lemma resolve_app W0 f0 names names' : forall b, resolve W0 f0 b (names ++ names') = match resolve W0 f0 b names with Some i => resolve W0 f0 i names' | None => None end.
Proof using. clear. induction names as [|t names IH]; intros b; cbn [resolve app]; [done|]. by destruct (child W0 f0 b t). Qed.

End Wf.

Lemma resolve_grows W A P F f W' A' P' F' f' names : forall b v i,
  dwf W A P F f -> dwf W' A' P' F' f' -> grows W f W' f' -> member W f b v ->
  resolve W f b names = Some i -> resolve W' f' b names = Some i.
Proof.
  induction names as [|t names IH]; intros b v i Hwf Hwf' Hg Hb; cbn [resolve]; [done|].
  destruct (child W f b t) as [j|] eqn:Hc; [|done]. intros Hr. unfold child in Hc |- *.
  destruct (assoc t (listing W f b)) as [id|] eqn:Ha; [|done]. destruct (g_listing _ _ _ _ Hg b v Hb) as [l ->].
  rewrite dassoc_app, Ha. apply (inode_of_some _ _ _ _ _ Hwf) in Hc as (w & Hj & <-).
  rewrite (inode_of_member _ _ _ _ _ Hwf' j w) by (by apply (g_inodes _ _ _ _ Hg)). by apply (IH j w).
Qed.

(** ** New objects *)

Section Fresh.
Context W A P F f (Hwf : dwf W A P F f) (p : Z) (Hp : p - DNA_KERNEL_BLOCK_SIZE ∉ A).

Lemma fresh_objects : dinodes f !! p = None /\ dentries f !! p = None.
Proof using Hp Hwf.
  split; apply eq_None_not_Some; intros Hs; apply Hp, (d_alloc _ _ _ _ _ Hwf); [by left|by right].
Qed.

Lemma fresh_unqueued : unqueued W p.
Proof using Hp Hwf.
  destruct fresh_objects as [Hi He]. intros [r|b] Hin; [destruct (d_inode_live _ _ _ _ _ Hwf _ _ Hin)|destruct (d_entry_live _ _ _ _ _ Hwf _ _ Hin) as [[] _]]; congruence.
Qed.

Lemma fresh_entries : W (DEntries p) = [].
Proof using Hp Hwf.
  destruct fresh_objects as [Hi _]. destruct (W (DEntries p)) as [|e l] eqn:Hl; [done|].
  destruct (d_entry_live _ _ _ _ _ Hwf p e) as [_ []]; [rewrite Hl; by left|congruence].
Qed.

(** An inode that no entry names yet. *)
Lemma dwf_new_inode F' f' v :
  qwf U (dq f') (vupd W (DInodes fs) (W (DInodes fs) ++ [p])) -> devfss f' !! fs = Some F' ->
  dinodes f' = <[p := v]> (dinodes f) -> dentries f' = dentries f ->
  df_root_vnid F' = df_root_vnid F -> df_inode_index F <= df_inode_index F' ->
  dn_id v < df_inode_index F' -> (forall i w, member W f i w -> dn_id w <> dn_id v) ->
  (dn_id v = df_root_vnid F -> dn_parent v = 0) ->
  (dn_parent v <> 0 -> exists w, member W f (dn_parent v) w /\ dn_path v = child_path (prefix_of F w) (dn_name v)) ->
  let W' := vupd W (DInodes fs) (W (DInodes fs) ++ [p]) in
  dwf W' (A ++ [p - DNA_KERNEL_BLOCK_SIZE]) (p :: P) F' f' /\ grows W f W' f' /\
  member W' f' p v /\ (forall b, listing W' f' b = listing W f b).
Proof using Hp Hwf.
  intros Hq Hfs Hi He Hroot Hidx Hid Hnew Htop Hpar W'. destruct fresh_objects as [Ni Ne].
  assert (forall b, W' (DEntries b) = W (DEntries b)) as HWe by (intros b; by apply vupd_ne).
  assert (forall b, listing W' f' b = listing W f b) as HL by (intros b; unfold listing; by rewrite HWe, He).
  assert (forall i, i ∈ W' (DInodes fs) <-> i ∈ W (DInodes fs) \/ i = p) as HWi.
  { intros i. unfold W'. rewrite vupd_eq, elem_of_app, list_elem_of_singleton. done. }
  assert (forall i w, member W f i w -> member W' f' i w) as Hold.
  { intros i w [Hin Hw]. split; [apply HWi; by left|]. rewrite Hi, lookup_insert_ne; [done|congruence]. }
  assert (member W' f' p v) as Hm by (split; [apply HWi; by right|by rewrite Hi, lookup_insert_eq]).
  assert (forall i w, member W' f' i w -> member W f i w \/ i = p /\ w = v) as Hcase.
  { intros i w [Hin Hw]. rewrite Hi in Hw. destruct (decide (i = p)) as [->|Hne]; [rewrite lookup_insert_eq in Hw; right; by simplify_eq|].
    rewrite lookup_insert_ne in Hw by done. left. split; [|done]. by apply HWi in Hin as [?|?]. }
  assert (forall w, prefix_of F' w = prefix_of F w) as Hpre by (intros w; unfold prefix_of; by rewrite Hroot).
  split_and!; [|split; [done|intros; by rewrite HL]|done|done].
  split; [done|done|pose proof (d_root _ _ _ _ _ Hwf); lia| | | | | | | | | | | |].
  - intros r i Hin. rewrite Hi. destruct (decide (i = p)) as [->|Hne]; [by rewrite lookup_insert_eq|]. rewrite lookup_insert_ne by done.
    destruct (decide (r = fs)) as [->|Hr]; [apply HWi in Hin as [Hin|?]; [|done]|unfold W' in Hin; rewrite vupd_ne in Hin by congruence];
      by eapply (d_inode_live _ _ _ _ _ Hwf).
  - intros b e Hin. rewrite HWe in Hin. destruct (d_entry_live _ _ _ _ _ Hwf b e Hin) as [Hl Hb]. rewrite He. split; [done|].
    rewrite Hi. destruct (decide (b = p)) as [->|Hne]; [by rewrite lookup_insert_eq|by rewrite lookup_insert_ne].
  - intros q Hl. apply elem_of_app. destruct (decide (q = p)) as [->|Hne]; [right; by left|left].
    apply (d_alloc _ _ _ _ _ Hwf). rewrite Hi, He, lookup_insert_ne in Hl; done.
  - intros c [Hc|Hc%list_elem_of_singleton]%elem_of_app; unfold object; rewrite Hi, He.
    + destruct (d_used _ _ _ _ _ Hwf c Hc) as [Ho|Ho]; [|by right].
      left. destruct (decide (c + DNA_KERNEL_BLOCK_SIZE = p)) as [->|Hne]; [by rewrite lookup_insert_eq|by rewrite lookup_insert_ne].
    + left. replace (c + DNA_KERNEL_BLOCK_SIZE) with p by lia. by rewrite lookup_insert_eq.
  - intros i w [Hw|[-> ->]]%Hcase; [pose proof (d_ids _ _ _ _ _ Hwf i w Hw); lia|done].
  - intros i j w w' [Hw|[-> ->]]%Hcase [Hw'|[-> ->]]%Hcase Heq; [by eapply (d_unique _ _ _ _ _ Hwf)| | |done].
    + by destruct (Hnew i w Hw).
    + by destruct (Hnew j w' Hw').
  - intros b w e Hb Hin. rewrite HL in Hin. apply Hcase in Hb as [Hb|[-> ->]].
    + destruct (d_points _ _ _ _ _ Hwf b w e Hb Hin) as (i & x & Hx & Hrest). exists i, x. split; [by apply Hold|done].
    + unfold listing in Hin. rewrite fresh_entries in Hin. by apply not_elem_of_nil in Hin.
  - intros b w [Hb|[-> ->]]%Hcase Hc; rewrite HWe; [by eapply (d_files _ _ _ _ _ Hwf)|apply fresh_entries].
  - intros b w [Hb|[-> ->]]%Hcase; rewrite HL; [by eapply (d_names _ _ _ _ _ Hwf)|unfold listing; rewrite fresh_entries; apply NoDup_nil_2].
  - intros i w [Hw|[-> ->]]%Hcase Hne.
    + destruct (d_parent _ _ _ _ _ Hwf i w Hw Hne) as (x & Hx & Hpath). exists x. rewrite Hpre. split; [by apply Hold|done].
    + destruct (Hpar Hne) as (x & Hx & Hpath). exists x. rewrite Hpre. split; [by apply Hold|done].
  - intros i w [Hw|[-> ->]]%Hcase; rewrite Hroot; [by apply (d_top _ _ _ _ _ Hwf i)|done].
  - intros i w [Hw|[-> ->]]%Hcase Hne HP; [rewrite HL; apply (d_linked _ _ _ _ _ Hwf i w Hw Hne); set_solver|set_solver].
Qed.

(** An entry that designates an inode of the list. *)
Lemma dwf_new_entry f' P' b v e i w :
  qwf U (dq f') (vupd W (DEntries b) (W (DEntries b) ++ [p])) -> devfss f' = devfss f ->
  dinodes f' = dinodes f -> dentries f' = <[p := e]> (dentries f) ->
  member W f b v -> dn_class v = DNA_DEVFS_DIRECTORY -> de_name e ∉ de_name <$> listing W f b -> designates W f b e i w ->
  (forall j x, j ∈ P -> j ∉ P' -> member W f j x -> dn_parent x = b /\ dn_name x = de_name e /\ dn_id x = de_id e) ->
  let W' := vupd W (DEntries b) (W (DEntries b) ++ [p]) in
  dwf W' (A ++ [p - DNA_KERNEL_BLOCK_SIZE]) P' F f' /\ grows W f W' f' /\
  (forall b', listing W' f' b' = listing W f b' ++ (if decide (b' = b) then [e] else [])).
Proof using Hp Hwf.
  intros Hq Hfs Hi He Hb Hdir Hname Hdes HP W'. destruct fresh_objects as [Ni Ne].
  assert (forall r, W' (DInodes r) = W (DInodes r)) as HWi by (intros r; by apply vupd_ne).
  assert (forall l : list Z, p ∉ l -> omap (fun x => dentries f' !! x) l = omap (fun x => dentries f !! x) l) as Hfresh.
  { rewrite He. induction l as [|x l IH]; [done|]. intros [Hx Hl]%not_elem_of_cons. cbn [omap list_omap].
    rewrite lookup_insert_ne by done. by rewrite IH. }
  assert (forall b', listing W' f' b' = listing W f b' ++ (if decide (b' = b) then [e] else [])) as HL.
  { intros b'. unfold listing, W'. destruct (decide (b' = b)) as [->|Hne].
    - rewrite vupd_eq, omap_app, Hfresh by apply fresh_unqueued. f_equal. cbn [omap list_omap]. by rewrite He, lookup_insert_eq.
    - rewrite vupd_ne by congruence. by rewrite Hfresh, app_nil_r by apply fresh_unqueued. }
  assert (forall j x, member W' f' j x <-> member W f j x) as Hm by (intros j x; unfold member; by rewrite HWi, Hi).
  assert (forall b' e' j x, designates W f b' e' j x -> designates W' f' b' e' j x) as Hds by (intros b' e' j x [? ?]; split; [by apply Hm|done]).
  split_and!; [|split; [intros j x; apply Hm|intros b' x _; rewrite HL; by eexists]|done].
  split; try setoid_rewrite Hm; [done|by rewrite Hfs; apply Hwf|apply Hwf| | | | |apply Hwf|apply Hwf| | | | |apply Hwf|].
  - intros r j. rewrite HWi, Hi. apply Hwf.
  - intros b' x Hx. rewrite Hi, He. unfold W' in Hx. destruct (decide (b' = b)) as [->|Hne].
    + rewrite vupd_eq in Hx. split; [|by eexists; apply Hb]. apply elem_of_app in Hx as [Hx|Hx%list_elem_of_singleton]; [|subst x; by rewrite lookup_insert_eq].
      rewrite lookup_insert_ne; [by eapply (d_entry_live _ _ _ _ _ Hwf)|]. intros <-. by apply fresh_unqueued in Hx.
    + rewrite vupd_ne in Hx by congruence. rewrite lookup_insert_ne; [by eapply (d_entry_live _ _ _ _ _ Hwf)|].
      intros <-. by apply fresh_unqueued in Hx.
  - intros q Hl. apply elem_of_app. destruct (decide (q = p)) as [->|Hne]; [right; by left|left].
    apply (d_alloc _ _ _ _ _ Hwf). rewrite Hi, He, lookup_insert_ne in Hl; done.
  - intros c [Hc|Hc%list_elem_of_singleton]%elem_of_app; unfold object; rewrite Hi, He.
    + destruct (d_used _ _ _ _ _ Hwf c Hc) as [Ho|Ho]; [by left|].
      right. destruct (decide (c + DNA_KERNEL_BLOCK_SIZE = p)) as [->|Hne]; [by rewrite lookup_insert_eq|by rewrite lookup_insert_ne].
    + right. replace (c + DNA_KERNEL_BLOCK_SIZE) with p by lia. by rewrite lookup_insert_eq.
  - intros b' x e' Hx. rewrite HL. intros [Hin|Hin]%elem_of_app.
    + destruct (d_points _ _ _ _ _ Hwf b' x e' Hx Hin) as (j & y & Hy). exists j, y. by apply Hds.
    + destruct (decide (b' = b)) as [->|]; [|by apply not_elem_of_nil in Hin]. apply list_elem_of_singleton in Hin as ->.
      exists i, w. by apply Hds.
  - intros b' x Hx Hc. unfold W'. rewrite vupd_ne; [by eapply (d_files _ _ _ _ _ Hwf)|]. intros [= ->]. destruct Hb, Hx. congruence.
  - intros b' x Hx. rewrite HL. pose proof (d_names _ _ _ _ _ Hwf b' x Hx) as Hn. destruct (decide (b' = b)) as [->|]; [|by rewrite app_nil_r].
    rewrite fmap_app. apply NoDup_app. split; [done|]. split; [|apply NoDup_singleton]. intros nm Hin Hin'.
    apply list_elem_of_singleton in Hin'. by subst nm.
  - apply Hwf.
  - intros j x Hx Hne HP'. destruct (decide (j ∈ P)) as [Hj|Hj].
    + destruct (HP j x Hj HP' Hx) as (-> & -> & ->). exists e. rewrite HL, decide_True by done. split; [set_solver|done].
    + destruct (d_linked _ _ _ _ _ Hwf j x Hx Hne Hj) as (e' & Hin & Hrest). exists e'. rewrite HL. split; [set_solver|done].
Qed.

End Fresh.

End Model.
