(* ===== verification/DevfsSpec.v ===== *)
(** * The insertion of a device (devfs_inode_insert)

    The insertion of a path preserves the tree, adds one entry to one of the directories that
    existed and makes the path lead to a new file; where the path is there or goes through a
    file, nothing changes.  The kernel heap is used through its interface [Heap] (Memory.v). *)

From S2P Require Import Prelude Status CLib Queue Allocator Kernel Logic Memory Scheduler Alarm Thread Vfs VfsSpec Devfs DevfsTree.

(** ** Rules *)

(** The blocks that the insertion of a path below a directory takes at most. *)
Definition inode_cost (prefix : option (list Z)) (name : list Z) : Z :=
  cost (sizeof_devfs_inode + (Z.of_nat (length (default [] prefix)) + Z.of_nat (length name))).
Fixpoint insert_cost (prefix : option (list Z)) (names : list (list Z)) : Z :=
  match names with
  | [] => 0
  | name :: names => inode_cost prefix name + 3 * cost sizeof_devfs_entry + insert_cost (Some (child_path prefix name)) names
  end.

(** The heap keeps the regions [Ka], of which those of [Kb] may hold objects, and newer ones,
    which all hold objects; the regions [A] of the objects are among them. *)
Definition owned (room : list Z -> list Z -> Z -> kstate -> Prop) (Ka Kb Dd A : list Z) (n : Z) (k : kstate) : Prop :=
  exists N, room (Ka ++ N) Dd n k /\ (forall c, c ∈ A -> c ∈ Kb ++ N ++ Dd) /\ forall c, c ∈ N -> c ∈ A.

Lemma owned_none room Ka Kb Dd A n k :
  room Ka Dd n k -> (forall c, c ∈ A -> c ∈ Kb ++ Dd) -> owned room Ka Kb Dd A n k.
Proof. intros Hr Hs. exists []. rewrite app_nil_r. split; [done|]. split; [exact Hs|]. by intros c ?%not_elem_of_nil. Qed.

Lemma cost_pos size : 0 < size < 2 ^ 32 -> 0 < cost size.
Proof. intros Hs. unfold cost. pose proof (malloc_blocks_enough size Hs). lia. Qed.

Section Rules.
Context `{Hal} {D : Type} (U : gset Z) (fs : Z) {room} `{HH : Heap room} (HU : forall p, 0 < p < 2 ^ 32 -> p ∈ U).
Context (Ka Kb Dd : list Z) (HK : forall c, c ∈ Kb -> c ∈ Ka).
Implicit Types (W : dqid -> list Z) (f : dfs D) (F : devfs_t) (s : vstate (dfs D)).

Local Abbreviation own := (owned room Ka Kb Dd).

(** A state given by its kernel and its file system. *)
Definition st (k : kstate) f s : vstate (dfs D) := set_kern k (set_fsd f s).

Lemma wp_ondevfs {A} (m : M (dfs D) A) Q k f s : wp m (fun a f' => Q a (st k f' s)) f -> wp (ondev m) Q (st k f s).
Proof. intros Hm. unfold ondev. apply wp_lift. exact Hm. Qed.

Lemma wp_ondq {A} (m : M (@qstate Z dqid _ _ _ _) A) Q k f s :
  wp m (fun a q => Q a (st k (set_dq q f) s)) (dq f) -> wp (ondq m) Q (st k f s).
Proof. intros Hm. unfold ondq. apply wp_ondevfs, wp_lift. exact Hm. Qed.

Lemma wp_dk {A} (m : K A) Q k f s a k' : m k = Ret a k' -> Q a (st k' f s) -> wp (onk m) Q (st k f s).
Proof. intros Hm HQ. unfold onk. apply wp_lift. eapply wp_eq; [exact Hm|exact HQ]. Qed.

Lemma wp_rd_devfs F Q k f s : devfss f !! fs = Some F -> Q F (st k f s) -> wp (rd_devfs fs) Q (st k f s).
Proof. intros Hr HQ. unfold rd_devfs. apply wp_bind, wp_ondevfs, wp_gets. rewrite Hr. by apply wp_ret. Qed.

Lemma wp_rd_dinode p i Q k f s : dinodes f !! p = Some i -> Q i (st k f s) -> wp (rd_inode p) Q (st k f s).
Proof. intros Hi HQ. unfold rd_inode. apply wp_bind, wp_ondevfs, wp_gets. rewrite Hi. by apply wp_ret. Qed.

Lemma wp_rd_dentry p e Q k f s : dentries f !! p = Some e -> Q e (st k f s) -> wp (rd_entry p) Q (st k f s).
Proof. intros He HQ. unfold rd_entry. apply wp_bind, wp_ondevfs, wp_gets. rewrite He. by apply wp_ret. Qed.

Lemma set_dq_same f : set_dq (dq f) f = f.
Proof. by destruct f. Qed.

(** The first entry of the name, as an address and as an entry. *)
Lemma find_dentry f name l :
  Forall (fun e => is_Some (dentries f !! e)) l ->
  match List.find (devfs_entry_name_inspector f name) l with
  | Some e => exists v, e ∈ l /\ dentries f !! e = Some v /\ v ∈ omap (fun e => dentries f !! e) l /\
      de_name v = name /\ assoc name (omap (fun e => dentries f !! e) l) = Some (de_id v)
  | None => assoc name (omap (fun e => dentries f !! e) l) = None
  end.
Proof.
  induction l as [|e l IH]; intros Hl; [done|]. apply Forall_cons in Hl as [[v Hv] Hl].
  cbn [List.find omap list_omap]. rewrite Hv. cbn [assoc].
  assert (devfs_entry_name_inspector f name e = bool_decide (de_name v = name)) as ->.
  { unfold devfs_entry_name_inspector. by rewrite Hv. }
  case_bool_decide; [exists v; split_and!; [by left|done|by left|done|done]|].
  specialize (IH Hl). destruct (List.find _ l); [|done]. destruct IH as (w & Hin & Hw & Hin' & Hn & Ha).
  exists w. split_and!; [by right|done|by right|done|done].
Qed.

(** The insertion of an item in a list. *)
Lemma wp_dadd W q x f0 (k0 : kstate) Q s :
  qwf U (dq f0) W -> unqueued W x -> x ∈ U ->
  (forall qs, qwf U qs (vupd W q (W q ++ [x])) -> Q DNA_OK (st k0 (set_dq qs f0) s)) ->
  wp (ondq (queue_add q x)) Q (st k0 f0 s).
Proof.
  intros Hq Hx Hxu HQ. apply wp_ondq. destruct (queue_add_ok U (dq f0) W q x Hq Hx Hxu) as (qs & Hadd & Hqs).
  eapply wp_eq; [exact Hadd|]. by apply HQ.
Qed.

Section State.
Context W A P F f (Hwf : dwf U fs W A P F f) (n : Z) (k : kstate) (Hroom : own A n k).

Lemma live_address p : is_Some (dinodes f !! p) \/ is_Some (dentries f !! p) -> p <> 0.
Proof using Hwf Hroom HH HK.
  clear HU. intros Hl ->. pose proof (d_alloc _ _ _ _ _ _ _ Hwf 0 Hl) as HA.
  destruct Hroom as (N & Hr & Hsub & _). specialize (Hsub _ HA).
  destruct (heap_address _ _ _ _ (0 - DNA_KERNEL_BLOCK_SIZE) Hr ltac:(set_solver)). unfold DNA_KERNEL_BLOCK_SIZE, sizeof_region in *. lia.
Qed.

Lemma wp_find_entry b v name Q s :
  member fs W f b v ->
  (forall e x, e <> 0 -> dentries f !! e = Some x -> e ∈ W (DEntries b) -> x ∈ listing W f b -> de_name x = name ->
     assoc name (listing W f b) = Some (de_id x) -> Q e (st k f s)) ->
  (assoc name (listing W f b) = None -> Q 0 (st k f s)) -> wp (find_entry b name) Q (st k f s).
Proof using Hwf Hroom HH HK.
  intros [Hin Hv] Hsome Hnone. unfold find_entry. apply wp_bind. eapply wp_rd_dinode; [exact Hv|].
  apply wp_bind, wp_ondevfs, wp_gets, wp_bind, wp_ondq. eapply wp_eq; [apply (queue_lookup_ok U _ W), Hwf|].
  rewrite set_dq_same. apply wp_ret. pose proof (find_dentry f name (W (DEntries b))) as Hf. fold (listing W f b) in Hf.
  destruct (List.find _ _) as [e|]; cbn [default].
  - destruct Hf as (x & He & Hx & Hx' & Hn & Ha); [apply Forall_forall; intros e' He'; by apply (d_entry_live _ _ _ _ _ _ _ Hwf b)|].
    apply (Hsome e x); try done. apply live_address. by right.
  - apply Hnone, Hf, Forall_forall. intros e' He'. by apply (d_entry_live _ _ _ _ _ _ _ Hwf b).
Qed.

Lemma wp_find_inode i v Q s : member fs W f i v -> (i <> 0 -> Q i (st k f s)) -> wp (find_inode fs (dn_id v)) Q (st k f s).
Proof using Hwf Hroom HH HK.
  intros Hm HQ. unfold find_inode. apply wp_bind. eapply wp_rd_devfs; [apply Hwf|].
  apply wp_bind, wp_ondevfs, wp_gets, wp_bind, wp_ondq. eapply wp_eq; [apply (queue_lookup_ok U _ W), Hwf|].
  pose proof (inode_of_member _ _ _ _ _ _ _ Hwf i v Hm) as Hf. unfold inode_of in Hf. rewrite Hf, set_dq_same.
  apply wp_ret, HQ, live_address. left. by eexists; apply Hm.
Qed.

(** An area of the heap for a new object. *)
Lemma wp_dalloc size erase Q s :
  0 < size < 2 ^ 32 -> cost size < n ->
  (forall p h, p <> 0 -> p ∈ U -> p - DNA_KERNEL_BLOCK_SIZE ∉ A -> own (A ++ [p - DNA_KERNEL_BLOCK_SIZE]) (n - cost size) (set_heap h k) ->
    Q p (st (set_heap h k) f s)) ->
  wp (onk (kernel_malloc size erase)) Q (st k f s).
Proof using Hwf Hroom HU HH HK.
  intros Hs Hn HQ. destruct Hroom as (N & Hr0 & Hsub & Hnew).
  destruct (heap_malloc (Ka ++ N) Dd n k size erase Hr0 Hs Hn) as (c & h & Hrun & Hc2 & Hr).
  eapply wp_dk; [exact Hrun|]. pose proof (heap_distinct _ _ _ _ Hr) as Hd.
  pose proof (heap_address _ _ _ _ c Hr ltac:(set_solver)) as [Hc _].
  assert (c + DNA_KERNEL_BLOCK_SIZE - DNA_KERNEL_BLOCK_SIZE = c) as Hcc by lia.
  apply HQ; [unfold DNA_KERNEL_BLOCK_SIZE, sizeof_region; lia|apply HU; unfold DNA_KERNEL_BLOCK_SIZE, sizeof_region in *; lia| |]; rewrite Hcc.
  - intros Hin%Hsub. apply NoDup_app in Hd as (Hd & Hd2 & _). apply NoDup_app in Hd as (_ & Hd & _). set_solver.
  - exists (N ++ [c]). rewrite app_assoc. split; [done|]. split; set_solver.
Qed.

Lemma wp_next_index Q s :
  df_inode_index F < 2 ^ 63 - 1 ->
  (forall f', dq f' = dq f -> devfss f' = <[fs := bump_index F]> (devfss f) -> dinodes f' = dinodes f -> dentries f' = dentries f ->
     Q (df_inode_index F) (st k f' s)) ->
  wp (next_index fs) Q (st k f s).
Proof using Hwf.
  intros Hi HQ. pose proof (d_root _ _ _ _ _ _ _ Hwf). unfold next_index. apply wp_bind. eapply wp_rd_devfs; [apply Hwf|].
  apply wp_bind, wp_ondevfs, wp_modify, wp_ret. rewrite i64_id by lia. by apply HQ.
Qed.

End State.

Lemma inode_size_ok (prefix : option (list Z)) name :
  Z.of_nat (length (child_path prefix name)) < 2 ^ 31 ->
  0 < sizeof_devfs_inode + (Z.of_nat (length (default [] prefix)) + Z.of_nat (length name)) < 2 ^ 32.
Proof. unfold sizeof_devfs_inode. destruct prefix; cbn [child_path default]; rewrite ?length_app; cbn; lia. Qed.

(** The fields of [f'] outside its lists. *)
Definition fields f' (V : gmap Z devfs_t) (I : gmap Z devfs_inode_t) (E : gmap Z devfs_entry_t) : Prop :=
  devfss f' = V /\ dinodes f' = I /\ dentries f' = E.

Section Steps.
Context (Hfs : fs <> 0) W A P F f (Hwf : dwf U fs W A P F f) (n : Z) (k : kstate) (Hroom : own A n k).

(** A new inode, with the next number. *)
Lemma wp_new_inode {B} b v class name commands (C : status_t * Z -> V (dfs D) B) Q s :
  member fs W f b v -> Z.of_nat (length name) < DNA_FILENAME_LENGTH -> df_inode_index F < 2 ^ 63 - 1 ->
  Z.of_nat (length (child_path (prefix_of F v) name)) < 2 ^ 31 -> inode_cost (prefix_of F v) name < n ->
  (forall p h f' W' A',
     let x := mkInode (df_inode_index F) class b name 0 0 0 commands (child_path (prefix_of F v) name) in
     p <> 0 -> dwf U fs W' A' (p :: P) (bump_index F) f' -> grows fs W f W' f' -> member fs W' f' p x ->
     (forall b', listing W' f' b' = listing W f b') -> listing W f p = [] ->
     (forall w, ~ member fs W f p w) ->
     own A' (n - inode_cost (prefix_of F v) name) (set_heap h k) ->
     wp (C (DNA_OK, p)) Q (st (set_heap h k) f' s)) ->
  wp (let* id := next_index fs in let* r := devfs_inode_create fs b class name id commands 0 in C r) Q (st k f s).
Proof using Hfs HH HU HK Hroom Hwf.
  intros Hb Hname Hidx Hlen Hcost HC. pose proof (d_root _ _ _ _ _ _ _ Hwf) as Hrt.
  apply wp_bind. eapply wp_next_index; [exact Hwf|exact Hidx|]. intros f1 Q1 V1 I1 E1.
  assert (dwf U fs W A P (bump_index F) f1) as Hwf1.
  { eapply dwf_bump; [exact Hwf|done..|by rewrite V1, lookup_insert_eq|done|cbn; lia]. }
  assert (member fs W f1 b v) as Hb1 by (split; [apply Hb|rewrite I1; apply Hb]).
  assert (b <> 0) as Hb0 by (eapply (live_address W A P F f Hwf n k Hroom); left; by eexists; apply Hb).
  apply wp_bind. unfold devfs_inode_create. rewrite (proj2 (Z.eqb_neq b 0) Hb0).
  apply wp_bind, wp_bind. eapply wp_rd_dinode; [apply Hb1|]. apply wp_bind. eapply wp_rd_devfs; [apply Hwf1|]. apply wp_ret.
  cbn [bump_index df_root_vnid].
  replace (if negb (dn_id v =? df_root_vnid F) then Some (dn_path v) else None) with (prefix_of F v)
    by (unfold prefix_of; by destruct (dn_id v =? df_root_vnid F)).
  apply wp_bind. eapply (wp_dalloc W A P (bump_index F) f1 Hwf1 n k Hroom); [apply inode_size_ok; lia|exact Hcost|].
  intros p h Hp HpU HpA Hroom'. rewrite (proj2 (Z.eqb_neq p 0) Hp). cbn [negb].
  pose proof (fresh_entries U fs W A P _ f1 Hwf1 p HpA) as Hnil.
  pose proof (fresh_unqueued U fs W A P _ f1 Hwf1 p HpA) as Hunq.
  pose proof (fresh_objects U fs W A P _ f1 Hwf1 p HpA) as [Hnone _].
  set (x := mkInode (df_inode_index F) class b name 0 0 0 commands (child_path (prefix_of F v) name)) in *.
  assert (x = mkInode (df_inode_index F) class b name 0 0 0 commands
    (match prefix_of F v with Some p0 => p0 ++ [slash] ++ name | None => name end)) as Hx by (unfold x, child_path; by destruct (prefix_of F v)).
  apply wp_bind, wp_ondq, wp_modify. unfold strcpy_buffer. rewrite (proj2 (Z.ltb_lt _ _) Hname). apply wp_bind, wp_ret.
  apply wp_bind, wp_ondevfs, wp_modify. rewrite <- Hx.
  assert (fs <> 0) as Hfs0 by exact Hfs. rewrite (proj2 (Z.eqb_neq fs 0) Hfs0).
  apply wp_bind, wp_bind. eapply wp_dadd; [|exact Hunq|exact HpU|].
  { cbn [dq set_dinodes set_dq]. pose proof (qwf_reset U _ _ _ (d_lists _ _ _ _ _ _ _ Hwf1) Hnil) as Hq.
    by rewrite set_next_None_id by (by apply (wf_free _ _ _ Hq)). }
  intros qs Hqs. do 2 apply wp_ret.
  destruct (dwf_new_inode U fs W A P _ f1 Hwf1 p HpA (bump_index F)
    (set_dq qs (set_dinodes (<[p := x]> (dinodes f1)) f1)) x) as (Hwf' & Hg & Hm & HL); try done.
  - apply Hwf1.
  - cbn. lia.
  - intros i w Hw. cbn. pose proof (d_ids _ _ _ _ _ _ _ Hwf i w). unfold member in *. rewrite I1 in Hw. specialize (H0 Hw). lia.
  - cbn. lia.
  - intros _. exists v. by split.
  - assert (forall b', listing W f1 b' = listing W f b') as Hold by (intros b'; unfold listing; by rewrite E1).
    assert (forall i w, member fs W f1 i w <-> member fs W f i w) as Hmem by (intros i w; unfold member; by rewrite I1).
    apply (HC p h _ _ _ Hp Hwf'); [|done|intros b'; by rewrite HL| | |exact Hroom'].
    + split; [intros i w Hw; by apply (g_inodes _ _ _ _ _ Hg), Hmem|intros b' w _; by rewrite HL, Hold].
    + unfold listing. by rewrite Hnil.
    + intros w Hw%Hmem. destruct Hw; congruence.
Qed.

(** A new entry. *)
Lemma wp_new_entry b v name id i w P' Q s :
  member fs W f b v -> dn_class v = DNA_DEVFS_DIRECTORY -> Z.of_nat (length name) < DNA_FILENAME_LENGTH ->
  assoc name (listing W f b) = None -> designates fs W f b (mkEntry id false name) i w ->
  (forall j x, j ∈ P -> j ∉ P' -> member fs W f j x -> dn_parent x = b /\ dn_name x = name /\ dn_id x = id) ->
  cost sizeof_devfs_entry < n ->
  (forall h f' W' A', dwf U fs W' A' P' F f' -> grows fs W f W' f' ->
     (forall b', listing W' f' b' = listing W f b' ++ (if decide (b' = b) then [mkEntry id false name] else [])) ->
     own A' (n - cost sizeof_devfs_entry) (set_heap h k) ->
     Q DNA_OK (st (set_heap h k) f' s)) ->
  wp (devfs_entry_add b name id) Q (st k f s).
Proof using HH HU HK Hroom Hwf.
  intros Hb Hdir Hname Hnone Hdes HP Hcost HQ. unfold devfs_entry_add.
  assert (b <> 0) as Hb0 by (eapply (live_address W A P F f Hwf n k Hroom); left; by eexists; apply Hb).
  rewrite (proj2 (Z.eqb_neq b 0) Hb0). cbn [negb]. apply wp_bind.
  eapply (wp_dalloc W A P F f Hwf n k Hroom); [by unfold sizeof_devfs_entry|exact Hcost|].
  intros p h Hp HpU HpA Hroom'. rewrite (proj2 (Z.eqb_neq p 0) Hp). cbn [negb].
  pose proof (fresh_unqueued U fs W A P F f Hwf p HpA) as Hunq.
  apply wp_bind, wp_ondq, wp_modify. unfold strcpy_buffer. rewrite (proj2 (Z.ltb_lt _ _) Hname). apply wp_bind, wp_ret.
  apply wp_bind, wp_ondevfs, wp_modify, wp_bind. eapply wp_rd_dinode; [apply Hb|].
  apply wp_bind. eapply wp_dadd; [|exact Hunq|exact HpU|].
  { cbn [dq set_dentries set_dq]. rewrite set_next_None_id; [apply Hwf|by apply (wf_free _ _ _ (d_lists _ _ _ _ _ _ _ Hwf))]. }
  intros qs Hqs. apply wp_ret.
  match goal with |- Q _ (st _ ?f' _) =>
    destruct (dwf_new_entry U fs W A P F f Hwf p HpA f' P' b v (mkEntry id false name) i w) as (Hwf' & Hg & HL) end; try done.
  - by apply dassoc_none.
  - by apply (HQ h _ _ _ Hwf').
Qed.

End Steps.

(** A directory that no entry names yet, with its "." and ".." entries; [C] goes on. *)
Lemma wp_new_directory (Hfs : fs <> 0) {B} W A P F f n k b v name (C : Z -> V (dfs D) B) Q s :
  dwf U fs W A P F f -> own A n k ->
  member fs W f b v -> Z.of_nat (length name) < DNA_FILENAME_LENGTH -> df_inode_index F < 2 ^ 63 - 1 ->
  Z.of_nat (length (child_path (prefix_of F v) name)) < 2 ^ 31 ->
  inode_cost (prefix_of F v) name + 2 * cost sizeof_devfs_entry < n ->
  (forall p h f' W' A',
     let id := df_inode_index F in
     let x := mkInode id DNA_DEVFS_DIRECTORY b name 0 0 0 0 (child_path (prefix_of F v) name) in
     dwf U fs W' A' (p :: P) (bump_index F) f' -> grows fs W f W' f' -> member fs W' f' p x -> b <> p ->
     (forall b' w, member fs W f b' w -> b' <> p /\ listing W' f' b' = listing W f b') ->
     listing W' f' p = [mkEntry id false devfs_dot; mkEntry (dn_id v) false devfs_dotdot] -> (forall w, ~ member fs W f p w) ->
     own A' (n - inode_cost (prefix_of F v) name - 2 * cost sizeof_devfs_entry) (set_heap h k) ->
     wp (C p) Q (st (set_heap h k) f' s)) ->
  wp (let* id := next_index fs in
      let* r := devfs_inode_create fs b DNA_DEVFS_DIRECTORY name id 0 0 in
      let* m := rd_inode r.2 in devfs_entry_add r.2 devfs_dot (dn_id m) ;;
      let* i := rd_inode b in devfs_entry_add r.2 devfs_dotdot (dn_id i) ;;
      C r.2) Q (st k f s).
Proof.
  intros Hwf Hroom Hb Hname Hidx Hlen Hcost HC.
  assert (0 < cost sizeof_devfs_entry) as Hce by (by apply cost_pos).
  eapply (wp_new_inode Hfs W A P F f Hwf n k Hroom _ v); [exact Hb|exact Hname|exact Hidx|exact Hlen|lia|].
  intros p h f1 W1 A1 x Hp Hwf1 Hg1 Hm1 HL1 Hnil Hnew Hroom1. cbn [snd].
  assert (forall b' w, member fs W f b' w -> b' <> p) as Hne by (intros b' w Hw ->; by apply (Hnew w)).
  apply wp_bind. eapply wp_rd_dinode; [apply Hm1|]. apply wp_bind.
  eapply (wp_new_entry W1 A1 _ _ f1 Hwf1 _ _ Hroom1 p x devfs_dot (dn_id x) p x (p :: P)); [exact Hm1|done|done|by rewrite HL1, Hnil| |done|lia|].
  { split; [done|]. split; [done|by left]. }
  intros h2 f2 W2 A2 Hwf2 Hg2 HL2 Hroom2. apply wp_bind. eapply wp_rd_dinode; [by apply (g_inodes _ _ _ _ _ Hg2), (g_inodes _ _ _ _ _ Hg1)|]. apply wp_bind.
  eapply (wp_new_entry W2 A2 _ _ f2 Hwf2 _ _ Hroom2 p x devfs_dotdot (dn_id v) b v (p :: P));
    [by apply (g_inodes _ _ _ _ _ Hg2)|done|done|by rewrite HL2, HL1, Hnil, decide_True| |done|lia|].
  { split; [by apply (g_inodes _ _ _ _ _ Hg2), (g_inodes _ _ _ _ _ Hg1)|]. split; [done|right; by left]. }
  intros h3 f3 W3 A3 Hwf3 Hg3 HL3 Hroom3. apply (HC p h3 f3 W3 A3 Hwf3).
  - eapply grows_trans; [exact Hg1|]. by eapply grows_trans.
  - by apply (g_inodes _ _ _ _ _ Hg3), (g_inodes _ _ _ _ _ Hg2).
  - by apply (Hne _ v).
  - intros b' w Hw. pose proof (Hne b' w Hw). split; [done|]. by rewrite HL3, HL2, HL1, !decide_False, !app_nil_r.
  - by rewrite HL3, HL2, HL1, Hnil, !decide_True.
  - exact Hnew.
  - by replace (n - inode_cost (prefix_of F v) name - 2 * cost sizeof_devfs_entry)
      with (n - inode_cost (prefix_of F v) name - cost sizeof_devfs_entry - cost sizeof_devfs_entry) by lia.
Qed.

End Rules.

(** ** Insertion *)

(** The status of the insertion of a path and, where it succeeds, the directory that
    receives an entry. *)
Fixpoint insert_status {D} fs (W : dqid -> list Z) (f : dfs D) (b : Z) (names : list (list Z)) : status_t * Z :=
  match names with
  | [] => (DNA_ERROR, b)
  | name :: names' =>
      match assoc name (listing W f b) with
      | None => (DNA_OK, b)
      | Some id =>
          match names', inode_of fs W f id with
          | [], _ => (DNA_INODE_EXISTS, b)
          | _, None => (DNA_NO_VNODE, b)
          | _, Some i =>
              match dn_class <$> dinodes f !! i with
              | Some DNA_DEVFS_DIRECTORY => insert_status fs W f i names'
              | _ => (DNA_BAD_INODE_TYPE, b)
              end
          end
      end
  end.

(** A name of a device or of one of its directories. *)
Definition name_ok (name : list Z) : Prop := token_ok name /\ name <> devfs_dot /\ name <> devfs_dotdot.

Lemma child_path_cons prefix name names :
  names <> [] -> child_path (Some (child_path prefix name)) (path_of names) = child_path prefix (path_of (name :: names)).
Proof. destruct names; [done|]. intros _. destruct prefix; cbn [child_path path_of]; [|done]. by rewrite <- app_assoc. Qed.

Lemma path_of_nonempty names : Forall name_ok names -> names <> [] -> path_of names <> [].
Proof. intros Hok Hne. destruct names as [|[|c t] [|t' names]]; try done; by apply Forall_cons in Hok as [((? & _) & _) _]. Qed.

(** The inode of an entry that is not "." or ".." knows its parent and its path. *)
Lemma child_named {D} U fs W A P F (f : dfs D) b v name id :
  dwf U fs W A P F f -> member fs W f b v -> b <> 0 -> assoc name (listing W f b) = Some id ->
  name <> devfs_dot /\ name <> devfs_dotdot ->
  exists i w, member fs W f i w /\ dn_id w = id /\ child fs W f b name = Some i /\
    prefix_of F w = Some (child_path (prefix_of F v) name).
Proof.
  intros Hwf Hb Hb0 Ha [Hd Hdd].
  destruct (child_some U fs W A P F f Hwf b v name id Hb Ha) as (e & i & w & He & Hn & (Hi & Hid & Hx) & Hw & Hch).
  assert (dn_parent w = b /\ dn_name w = name) as [Hpar Hnm].
  { destruct Hx as [?|[?|[? ?]]]; [congruence..|]. split; congruence. }
  exists i, w. split_and!; try done. unfold prefix_of at 1.
  destruct (Z.eqb_spec (dn_id w) (df_root_vnid F)) as [Heq|_].
  - pose proof (d_top _ _ _ _ _ _ _ Hwf i w Hi Heq). congruence.
  - destruct (d_parent _ _ _ _ _ _ _ Hwf i w Hi ltac:(congruence)) as (v' & Hv' & ->). rewrite Hpar in Hv'.
    assert (v' = v) as -> by (destruct Hb, Hv'; congruence). by rewrite Hnm.
Qed.

(** The path of an inode is made of the names that lead to it. *)
Lemma resolve_path {D} U fs W A P F (f : dfs D) names :
  dwf U fs W A P F f -> (forall i v, member fs W f i v -> i <> 0) -> forall b v i w,
  member fs W f b v -> Forall name_ok names -> names <> [] -> resolve fs W f b names = Some i -> member fs W f i w ->
  dn_path w = child_path (prefix_of F v) (path_of names).
Proof.
  intros Hwf H0. induction names as [|name names IH]; intros b v i w Hb Hok Hne Hr Hi; [done|].
  apply Forall_cons in Hok as [[_ Hdots] Hok]. cbn [resolve] in Hr.
  destruct (child fs W f b name) as [j|] eqn:Hc; [|done].
  assert (exists id, assoc name (listing W f b) = Some id) as [id Ha] by (unfold child in Hc; destruct (assoc _ _); [by eexists|done]).
  destruct (child_named U fs W A P F f b v name id Hwf Hb (H0 _ _ Hb) Ha Hdots) as (j' & x & Hj & _ & Hch & Hpre).
  assert (j' = j) as -> by congruence. destruct (decide (names = [])) as [->|Hns].
  - cbn [resolve] in Hr. simplify_eq. assert (x = w) as -> by (destruct Hj, Hi; congruence).
    unfold prefix_of at 1 in Hpre. cbn [path_of]. destruct (dn_id w =? _); congruence.
  - rewrite <- child_path_cons, <- Hpre by done. by eapply IH.
Qed.

Section Insert.
Context `{Hal} {D : Type} (U : gset Z) (fs : Z) (Hfs : fs <> 0) {room} `{HH : Heap room} (HU : forall p, 0 < p < 2 ^ 32 -> p ∈ U).
Context (Ka Kb Dd : list Z) (HK : forall c, c ∈ Kb -> c ∈ Ka).
Implicit Types (W : dqid -> list Z) (f : dfs D) (F : devfs_t) (s : vstate (dfs D)).

Local Abbreviation own := (owned room Ka Kb Dd).

(** The second state is the first one with the path [names] below [b], a file. *)
Record inserted W P F f n (b : Z) (v : devfs_inode_t) (names : list (list Z)) (commands : Z) (status : status_t)
    W' A' F' f' n' k' : Prop := {
  ins_status : status = (insert_status fs W f b names).1;
  ins_wf : dwf U fs W' A' P F' f';
  ins_volume : df_root_vnid F' = df_root_vnid F /\ df_vid F' = df_vid F /\
    df_inode_index F <= df_inode_index F' <= df_inode_index F + Z.of_nat (length names);
  ins_grows : grows fs W f W' f';
  ins_room : own A' n' k' /\ n - insert_cost (prefix_of F v) names <= n';
  ins_file : status = DNA_OK -> exists i w, resolve fs W' f' b names = Some i /\ member fs W' f' i w /\
    dn_class w = DNA_DEVFS_FILE /\ dn_dev_cmd w = commands /\ dn_path w = child_path (prefix_of F v) (path_of names);
  ins_error : status <> DNA_OK -> W' = W /\ f' = f;
  ins_listing : forall b' w, member fs W f b' w -> exists l, listing W' f' b' = listing W f b' ++ l /\
    length l = (if decide (status = DNA_OK /\ b' = (insert_status fs W f b names).2) then 1%nat else 0%nat)
}.

(** What a run of the insertion gives. *)
Definition insert_result W P F f n k b v names commands s (r : status_t) (s' : vstate (dfs D)) : Prop :=
  exists W' A' F' f' n' h, s' = st (set_heap h k) f' s /\ inserted W P F f n b v names commands r W' A' F' f' n' (set_heap h k).

(** Nothing happens when the path is there or goes through a file. *)
Lemma inserted_error W A P F f n k b v names commands status :
  dwf U fs W A P F f -> own A n k -> status = (insert_status fs W f b names).1 -> status <> DNA_OK ->
  0 <= insert_cost (prefix_of F v) names ->
  inserted W P F f n b v names commands status W A F f n k.
Proof.
  intros Hwf Hroom Hst Hne Hc. split; try done; [lia|split; [done|lia]|].
  intros b' w Hw. exists []. rewrite app_nil_r. split; [done|]. by rewrite decide_False by (by intros [? _]).
Qed.

(** A path that goes through a directory. *)
Lemma inserted_below W A P F f n b v name names commands status i w W' A' F' f' n' k' :
  dwf U fs W A P F f -> names <> [] -> member fs W f b v -> member fs W f i w -> dn_class w = DNA_DEVFS_DIRECTORY ->
  assoc name (listing W f b) = Some (dn_id w) -> prefix_of F w = Some (child_path (prefix_of F v) name) ->
  0 <= inode_cost (prefix_of F v) name ->
  inserted W P F f n i w names commands status W' A' F' f' n' k' ->
  inserted W P F f n b v (name :: names) commands status W' A' F' f' n' k'.
Proof.
  intros Hwf Hne Hb Hi Hdir Ha Hpre Hc [Hst Hwf' Hvol Hg [Hroom Hn] Hfile Herr HL].
  assert (insert_status fs W f b (name :: names) = insert_status fs W f i names) as Heq.
  { cbn [insert_status]. rewrite Ha, (inode_of_member _ _ _ _ _ _ _ Hwf i w Hi). destruct names; [done|].
    destruct Hi as [_ ->]. cbn [fmap option_fmap option_map]. by rewrite Hdir. }
  assert (0 < cost sizeof_devfs_entry) by (by apply cost_pos).
  split; rewrite ?Heq; try done.
  - cbn [length]. lia.
  - cbn [insert_cost]. rewrite <- Hpre. split; [done|lia].
  - intros Hok. destruct (Hfile Hok) as (j & x & Hr & Hm & Hcl & Hcmd & Hpath). exists j, x. split_and!; [|done..|].
    + change (name :: names) with ([name] ++ names). rewrite resolve_app.
      rewrite (resolve_grows U fs W A P F f W' A' P F' f' [name] b v i Hwf Hwf' Hg Hb); [done|].
      cbn [resolve]. unfold child. by rewrite Ha, (inode_of_member _ _ _ _ _ _ _ Hwf i w Hi).
    + rewrite Hpath, Hpre. by apply child_path_cons.
Qed.

(** A new file. *)
Lemma insert_last W A P F f n k b v name commands fuel s :
  dwf U fs W A P F f -> own A n k -> member fs W f b v -> dn_class v = DNA_DEVFS_DIRECTORY ->
  name_ok name -> df_inode_index F + 1 < 2 ^ 63 ->
  Z.of_nat (length (child_path (prefix_of F v) name)) < 2 ^ 31 -> insert_cost (prefix_of F v) [name] < n ->
  wp (devfs_inode_insert (S fuel) fs b name commands) (insert_result W P F f n k b v [name] commands s) (st k f s).
Proof.
  intros Hwf Hroom Hb Hdir [Hname [Hnd Hndd]] Hidx Hlen Hcost. destruct Hname as (Hne & Hsl & Hl).
  assert (0 < cost sizeof_devfs_entry) as Hce by (by apply cost_pos). cbn [insert_cost] in Hcost.
  assert (0 < inode_cost (prefix_of F v) name) as Hci by (by apply cost_pos, inode_size_ok).
  cbn [devfs_inode_insert]. apply wp_bind. eapply wp_eq; [by apply (next_entry_path name []); repeat constructor|].
  cbn [path_of]. keqb. apply wp_bind. eapply (wp_find_entry U fs Ka Kb Dd HK W A P F f Hwf n k Hroom b v); [exact Hb| |].
  { intros e x He Hx _ _ _ Ha. rewrite (proj2 (Z.eqb_neq e 0) He), bool_decide_true by done. cbn [negb]. apply wp_ret.
    exists W, A, F, f, n, (heap k). split; [by destruct k|]. replace (set_heap (heap k) k) with k by (by destruct k).
    apply inserted_error; [done|done|cbn [insert_status]; by rewrite Ha|done|cbn [insert_cost]; lia]. }
  intros Hnone. rewrite Z.eqb_refl, bool_decide_true by done. cbn [negb]. apply wp_bind.
  eapply (wp_new_inode U fs HU Ka Kb Dd HK Hfs W A P F f Hwf n k Hroom b v); [exact Hb|done|lia|done|lia|].
  intros p h f1 W1 A1 x Hp Hwf1 Hg1 Hm1 HL1 Hnil Hnew Hroom1. apply wp_ret. cbn [snd]. apply wp_bind.
  eapply wp_rd_dinode; [apply Hm1|]. apply wp_bind.
  eapply (wp_new_entry U fs HU Ka Kb Dd HK W1 A1 (p :: P) _ f1 Hwf1 _ _ Hroom1 b v name (dn_id x) p x P);
    [by apply (g_inodes _ _ _ _ _ Hg1)|done|done|by rewrite HL1| | |lia|].
  { split; [exact Hm1|]. split; [done|by right; right]. }
  { intros j y Hj Hj' Hy. assert (j = p) as -> by set_solver. destruct Hm1, Hy. by simplify_eq. }
  intros h2 f2 W2 A2 Hwf2 Hg2 HL2 Hroom2. apply wp_ret. exists W2, A2, (bump_index F), f2.
  exists (n - inode_cost (prefix_of F v) name - cost sizeof_devfs_entry), h2. split; [done|].
  assert (forall w, member fs W f b w -> b <> p) as Hbp by (intros w Hw ->; by apply (Hnew w)).
  split; try done; cbn [insert_status]; rewrite ?Hnone.
  - done.
  - cbn. lia.
  - by eapply grows_trans.
  - split; [done|]. cbn [insert_cost]. lia.
  - intros _. exists p, x. split_and!; try done; [|by apply (g_inodes _ _ _ _ _ Hg2)]. cbn [resolve]. unfold child.
    rewrite HL2, HL1, decide_True, dassoc_app, Hnone by done. cbn [assoc de_name de_id]. rewrite bool_decide_true by done.
    by rewrite (inode_of_member _ _ _ _ _ _ _ Hwf2 p x (g_inodes _ _ _ _ _ Hg2 _ _ Hm1)).
  - intros b' w Hw. rewrite HL2, HL1. eexists. split; [done|]. cbn [snd]. repeat case_decide; naive_solver.
Qed.

(** What the insertion needs. *)
Record insertable W A P F f n k b v (names : list (list Z)) : Prop := {
  isr_wf : dwf U fs W A P F f;
  isr_room : own A n k;
  isr_base : member fs W f b v;
  isr_directory : dn_class v = DNA_DEVFS_DIRECTORY;
  isr_names : names <> [] /\ Forall name_ok names;
  isr_index : df_inode_index F + Z.of_nat (length names) < 2 ^ 63;
  isr_length : Z.of_nat (length (child_path (prefix_of F v) (path_of names))) < 2 ^ 31;
  isr_cost : insert_cost (prefix_of F v) names < n
}.

Lemma child_path_le prefix name names :
  (length (child_path prefix name) <= length (child_path prefix (path_of (name :: names))))%nat.
Proof. destruct names, prefix; cbn [child_path path_of]; rewrite ?length_app; cbn [length]; rewrite ?length_app; lia. Qed.

Lemma insert_cost_pos names : forall prefix,
  Z.of_nat (length (child_path prefix (path_of names))) < 2 ^ 31 -> 0 <= insert_cost prefix names.
Proof.
  induction names as [|name names IH]; intros prefix Hl; cbn [insert_cost]; [done|].
  assert (0 < cost sizeof_devfs_entry) as Hce by (by apply cost_pos). pose proof (child_path_le prefix name names).
  assert (0 < inode_cost prefix name) as Hci by (apply cost_pos, inode_size_ok; lia).
  destruct names as [|name' names]; [cbn [insert_cost]; lia|].
  enough (0 <= insert_cost (Some (child_path prefix name)) (name' :: names)) by lia. apply IH. by rewrite child_path_cons.
Qed.

(** A new directory, that receives the rest of the path. *)
Lemma insert_new_directory W A P F f n k b v name names commands fuel s :
  insertable W A P F f n k b v (name :: names) -> names <> [] -> assoc name (listing W f b) = None ->
  (forall W A P F f n k b v s, insertable W A P F f n k b v names ->
     wp (devfs_inode_insert fuel fs b (path_of names) commands) (insert_result W P F f n k b v names commands s) (st k f s)) ->
  wp (devfs_inode_insert (S fuel) fs b (path_of (name :: names)) commands)
    (insert_result W P F f n k b v (name :: names) commands s) (st k f s).
Proof.
  intros [Hwf Hroom Hb Hdir [_ Hok] Hidx Hlen Hcost] Hne Hnone IH.
  pose proof Hok as [((Htne & Hsl & Hl) & Hnd & Hndd) Hoks]%Forall_cons.
  assert (0 < cost sizeof_devfs_entry) as Hce by (by apply cost_pos). cbn [insert_cost length] in Hcost, Hidx.
  pose proof (child_path_le (prefix_of F v) name names) as Hcl.
  rewrite <- (child_path_cons _ _ _ Hne) in Hlen, Hcl.
  pose proof (insert_cost_pos names _ Hlen) as Hcn.
  pose proof (path_of_nonempty names Hoks Hne) as Hpne.
  cbn [devfs_inode_insert]. apply wp_bind. eapply wp_eq; [apply next_entry_path; eapply Forall_impl; [exact Hok|by intros t []]|].
  keqb. apply wp_bind. eapply (wp_find_entry U fs Ka Kb Dd HK W A P F f Hwf n k Hroom b v); [exact Hb|intros; congruence|].
  intros _. rewrite Z.eqb_refl, bool_decide_false by done. cbn [negb]. apply wp_bind.
  eapply (wp_new_directory U fs HU Ka Kb Dd HK Hfs W A P F f n k b v name (fun p => devfs_inode_insert fuel fs p (path_of names) commands ;; ret p));
    [done|exact Hroom|done|done|lia|lia|lia|].
  intros p h f1 W1 A1 id x Hwf1 Hg1 Hm1 Hbp HL1 HLp Hnew Hroom1. apply wp_bind.
  assert (prefix_of (bump_index F) x = Some (child_path (prefix_of F v) name)) as Hpre.
  { unfold prefix_of at 1. cbn [x dn_id bump_index df_root_vnid dn_path]. pose proof (d_root _ _ _ _ _ _ _ Hwf).
    by rewrite (proj2 (Z.eqb_neq _ _)) by lia. }
  assert (insert_status fs W1 f1 p names = (DNA_OK, p)) as Hst.
  { destruct names as [|t names]; [done|]. cbn [insert_status]. apply Forall_cons in Hoks as [(_ & ? & ?) _].
    rewrite HLp. cbn [assoc de_name]. by rewrite !bool_decide_false by done. }
  eapply wp_mono; [apply (IH W1 A1 (p :: P) (bump_index F) f1 (n - inode_cost (prefix_of F v) name - 2 * cost sizeof_devfs_entry) (set_heap h k) p x); split; rewrite ?Hpre; try done; cbn; lia|].
  intros r s' (W2 & A2 & F2 & f2 & n2 & h2 & -> & [Hr Hwf2 Hvol2 Hg2 [Hroom2 Hn2] Hfile2 _ HL2]).
  rewrite Hst in Hr, HL2. cbn [fst snd] in Hr, HL2. subst r. destruct (Hfile2 eq_refl) as (i & w & Hres & Hi & Hcl2 & Hcmd & Hpath). clear Hfile2.
  apply wp_ret, wp_bind. pose proof (g_inodes _ _ _ _ _ Hg2 _ _ Hm1) as Hm2.
  pose proof (g_inodes _ _ _ _ _ Hg2 _ _ (g_inodes _ _ _ _ _ Hg1 _ _ Hb)) as Hb2.
  eapply wp_rd_dinode; [apply Hm2|]. rewrite Hpre in *. apply wp_bind.
  assert (forall b' w', member fs W f b' w' -> listing W2 f2 b' = listing W f b') as HL12.
  { intros b' w' Hw'. destruct (HL1 b' w' Hw') as [Hbp' <-]. destruct (HL2 b' w' (g_inodes _ _ _ _ _ Hg1 _ _ Hw')) as (l & -> & Hll).
    rewrite decide_False in Hll by naive_solver. destruct l; [by rewrite app_nil_r|done]. }
  eapply (wp_new_entry U fs HU Ka Kb Dd HK W2 A2 (p :: P) F2 f2 Hwf2 n2 _ Hroom2 b v name (dn_id x) p x P); [done|done|done|by rewrite (HL12 b v)| | |lia|].
  { split; [exact Hm2|]. split; [done|by right; right]. }
  { intros j y Hj Hj' Hy. assert (j = p) as -> by set_solver. destruct Hm2, Hy. by simplify_eq. }
  intros h3 f3 W3 A3 Hwf3 Hg3 HL3 Hroom3. apply wp_ret. exists W3, A3, F2, f3, (n2 - cost sizeof_devfs_entry), h3. split; [done|].
  cbn [bump_index df_root_vnid df_vid df_inode_index] in Hvol2.
  split; try done; cbn [insert_status]; rewrite ?Hnone; [done|cbn [length]; lia| | | |].
  - eapply grows_trans; [exact Hg1|]. by eapply grows_trans.
  - split; [done|]. cbn [insert_cost]. lia.
  - intros _. exists i, w. split_and!; try done; [|by apply (g_inodes _ _ _ _ _ Hg3)|by rewrite Hpath, child_path_cons].
    change (name :: names) with ([name] ++ names). rewrite resolve_app. cbn [resolve]. unfold child.
    rewrite HL3, (HL12 b v), decide_True, dassoc_app, Hnone by done. cbn [assoc de_name de_id]. rewrite bool_decide_true by done.
    rewrite (inode_of_member _ _ _ _ _ _ _ Hwf3 p x (g_inodes _ _ _ _ _ Hg3 _ _ Hm2)).
    by eapply (resolve_grows U fs W2 A2 _ _ f2 W3 A3 _ _ f3).
  - intros b' w' Hw'. rewrite HL3, (HL12 b' w') by done. eexists. split; [done|]. cbn [snd]. repeat case_decide; naive_solver.
Qed.

Lemma insert_ok commands fuel : forall W A P F f n k b v names s,
  insertable W A P F f n k b v names -> (length names <= fuel)%nat ->
  wp (devfs_inode_insert fuel fs b (path_of names) commands) (insert_result W P F f n k b v names commands s) (st k f s).
Proof.
  induction fuel as [|fuel IH]; intros W A P F f n k b v names s Hin Hfuel.
  { destruct Hin as [_ _ _ _ [Hn _] _ _ _]. by destruct names; [|cbn in Hfuel; lia]. }
  destruct names as [|name names]; [by destruct Hin as [_ _ _ _ [Hn _] _ _ _]|].
  destruct (decide (names = [])) as [->|Hne].
  { destruct Hin as [? ? ? ? [_ [? _]%Forall_cons] ? ? ?]. by eapply insert_last. }
  destruct (assoc name (listing W f b)) as [id|] eqn:Ha.
  2: { eapply insert_new_directory; [done|done|done|]. intros. eapply IH; [done|]. cbn in Hfuel. lia. }
  destruct Hin as [Hwf Hroom Hb Hdir [_ Hok] Hidx Hlen Hcost].
  pose proof (insert_cost_pos (name :: names) _ Hlen) as Hpos.
  assert (b <> 0) as Hb0 by (eapply (live_address U fs Ka Kb Dd HK W A P F f Hwf n k Hroom); left; by eexists; apply Hb).
  pose proof (proj1 (Forall_cons _ _ _) Hok) as [Hnok Hoks].
  destruct (child_named U fs W A P F f b v name id Hwf Hb Hb0 Ha (proj2 Hnok)) as (i & w & Hi & Hw & Hch & Hpre).
  pose proof (path_of_nonempty names Hoks Hne) as Hpne.
  cbn [devfs_inode_insert]. apply wp_bind. eapply wp_eq; [apply next_entry_path; eapply Forall_impl; [exact Hok|by intros t []]|].
  keqb. apply wp_bind. eapply (wp_find_entry U fs Ka Kb Dd HK W A P F f Hwf n k Hroom b v); [exact Hb| |intros; congruence].
  intros e' x He' Hx' _ _ _ Ha'. rewrite (proj2 (Z.eqb_neq e' 0) He'), bool_decide_false by done. cbn [negb].
  apply wp_bind. eapply wp_rd_dentry; [exact Hx'|]. rewrite Ha in Ha'. assert (de_id x = dn_id w) as -> by congruence.
  apply wp_bind. eapply (wp_find_inode U fs Ka Kb Dd HK W A P F f Hwf n k Hroom); [exact Hi|]. intros Hi0.
  rewrite (proj2 (Z.eqb_neq i 0) Hi0). cbn [negb]. apply wp_bind. eapply wp_rd_dinode; [apply Hi|].
  assert (dn_class w <> DNA_DEVFS_DIRECTORY -> insert_status fs W f b (name :: names) = (DNA_BAD_INODE_TYPE, b)) as Hfile.
  { intros Hc. cbn [insert_status]. rewrite Ha, <- Hw, (inode_of_member _ _ _ _ _ _ _ Hwf i w Hi).
    destruct names; [done|]. destruct Hi as [_ ->]. cbn. by destruct (dn_class w). }
  destruct (dn_class w) eqn:Hc.
  1,3: apply wp_ret; exists W, A, F, f, n, (heap k); (split; [by destruct k|]); replace (set_heap (heap k) k) with k by (by destruct k);
    apply inserted_error; [done|done|by rewrite Hfile|done|done].
  assert (0 < cost sizeof_devfs_entry) as Hce by (by apply cost_pos).
  pose proof (child_path_le (prefix_of F v) name names) as Hcl.
  assert (0 < inode_cost (prefix_of F v) name) as Hci by (apply cost_pos, inode_size_ok; lia).
  cbn [insert_cost length] in Hcost, Hidx. eapply wp_mono.
  - apply (IH W A P F f n k i w names s); [|cbn in Hfuel; lia]. split; rewrite ?Hpre; try done.
    + lia.
    + by rewrite child_path_cons.
    + lia.
  - intros r s' (W' & A' & F' & f' & n' & h & -> & Hins). exists W', A', F', f', n', h. split; [done|].
    eapply inserted_below; try done; [congruence|lia].
Qed.

End Insert.
