(* ===== verification/DevfsWalk.v ===== *)
(** * The walks and the mount of the device file system

    A walk of the root makes the published devices whose names begin with the token
    reachable; the mount builds the root of the tree; an open calls the driver's with the name
    of the device; giving back the vnode of a device reads a freed inode.  The insertions are those of DevfsSpec.v. *)

From S2P Require Import Prelude Status CLib Queue Allocator Kernel Logic Memory Scheduler Alarm Thread Vfs VfsSpec VfsHeap Devfs DevfsTree DevfsSpec.

(** ** The walks of the root *)

(** A driver whose devices and tables of commands never change, as those of a static array. *)
Record static_driver {D} (driver : driver_t D) (devices : list (list (list Z))) (table : list Z -> Z) : Prop := {
  static_publish : forall kd, publish_devices driver kd = Ret (path_of <$> devices) kd;
  static_find : forall name kd, find_device driver name kd = Ret (table name) kd
}.

Definition device_ok (names : list (list Z)) : Prop :=
  names <> [] /\ Forall name_ok names /\ Z.of_nat (length (path_of names)) < DNA_PATH_LENGTH.

(** The blocks and the inodes that the devices need at most. *)
Fixpoint devices_cost (devices : list (list (list Z))) : Z :=
  match devices with [] => 0 | names :: devices => insert_cost None names + devices_cost devices end.
Fixpoint devices_size (devices : list (list (list Z))) : Z :=
  match devices with [] => 0 | names :: devices => Z.of_nat (length names) + devices_size devices end.

Lemma devices_cost_app l l' : devices_cost (l ++ l') = devices_cost l + devices_cost l'.
Proof. induction l as [|x l IH]; cbn [devices_cost app]; lia. Qed.
Lemma devices_size_app l l' : devices_size (l ++ l') = devices_size l + devices_size l'.
Proof. induction l as [|x l IH]; cbn [devices_size app]; lia. Qed.

Lemma devices_pos l : Forall device_ok l -> 0 <= devices_cost l /\ 0 <= devices_size l.
Proof.
  induction 1 as [|names l (_ & _ & Hlen) Hl IH]; cbn [devices_cost devices_size]; [lia|].
  pose proof (insert_cost_pos names None). unfold DNA_PATH_LENGTH in Hlen. cbn [child_path] in *. lia.
Qed.

Lemma names_le_path names : Forall token_ok names -> (length names <= length (path_of names))%nat.
Proof.
  induction 1 as [|t names (Hne & _) _ IH]; [done|]. destruct t as [|c t]; [done|].
  destruct names as [|t' names]; [cbn; lia|]. change (path_of ((c :: t) :: t' :: names)) with ((c :: t) ++ slash :: path_of (t' :: names)).
  rewrite length_app. cbn [length] in *. lia.
Qed.

(** A device is there, or a file stands in its way. *)
Definition shown {D} fs W (f : dfs D) (b : Z) (names : list (list Z)) : Prop :=
  (exists i w, resolve fs W f b names = Some i /\ member fs W f i w) \/
  (exists front i w, front `prefix_of` names /\ resolve fs W f b front = Some i /\ member fs W f i w /\
     dn_class w <> DNA_DEVFS_DIRECTORY).

Lemma shown_grows {D} U fs W A P F (f : dfs D) W' A' P' F' f' b v names :
  dwf U fs W A P F f -> dwf U fs W' A' P' F' f' -> grows fs W f W' f' -> member fs W f b v ->
  shown fs W f b names -> shown fs W' f' b names.
Proof.
  intros Hwf Hwf' Hg Hb [(i & w & Hr & Hi)|(front & i & w & Hp & Hr & Hi & Hc)].
  - left. exists i, w. split; [by eapply (resolve_grows U fs W A)|by apply (g_inodes _ _ _ _ _ Hg)].
  - right. exists front, i, w. split_and!; [done|by eapply (resolve_grows U fs W A)|by apply (g_inodes _ _ _ _ _ Hg)|done].
Qed.

Lemma insert_error_shown {D} U fs W A P F (f : dfs D) names :
  dwf U fs W A P F f -> forall b v, member fs W f b v -> names <> [] ->
  (insert_status fs W f b names).1 <> DNA_OK -> shown fs W f b names.
Proof.
  intros Hwf. induction names as [|name names IH]; intros b v Hb Hne Hst; [done|]. cbn [insert_status] in Hst.
  destruct (assoc name (listing W f b)) as [id|] eqn:Ha; [|done].
  destruct (child_some U fs W A P F f Hwf b v name id Hb Ha) as (e & i & w & _ & _ & _ & Hw & Hch).
  pose proof (inode_of_some U fs W A P F f Hwf id i) as Hi. unfold child in Hch. rewrite Ha in Hch.
  destruct (Hi Hch) as (w' & Hm & _). rewrite Hch in Hst.
  destruct names as [|name' names]; [left; exists i, w'; cbn [resolve]; unfold child; by rewrite Ha, Hch|].
  pose proof Hm as [_ Hl]. rewrite Hl in Hst. cbn [fmap option_fmap option_map] in Hst.
  assert (forall front, resolve fs W f b (name :: front) = resolve fs W f i front) as Hstep
    by (intros front; cbn [resolve]; unfold child; by rewrite Ha, Hch).
  destruct (dn_class w') eqn:Hc.
  2: { destruct (IH i w' Hm ltac:(done) Hst) as [(j & x & Hr & Hj)|(front & j & x & Hp & Hr & Hj & Hcx)].
    - left. exists j, x. by rewrite Hstep.
    - right. exists (name :: front), j, x. rewrite Hstep. split_and!; [by apply prefix_cons|done..]. }
  all: right; exists [name], i, w'; rewrite Hstep; split_and!; [by apply prefix_cons, prefix_nil|done|done|by rewrite Hc].
Qed.

Section Walk.
Context `{Hal} {D : Type} (U : gset Z) (fs : Z) (Hfs : fs <> 0) {room} `{HH : Heap room} (HU : forall p, 0 < p < 2 ^ 32 -> p ∈ U).
Context (P : list Z) (r : Z) (vr : devfs_inode_t).
Implicit Types (W : dqid -> list Z) (f : dfs D) (F : devfs_t) (s : vstate (dfs D)).

(** The first state is well formed, with [r] the root; the second one too, and has grown. *)
Record progress (own : list Z -> Z -> kstate -> Prop) W F f (n cost size : Z) W' A' F' f' n' k' : Prop := {
  pr_wf : dwf U fs W' A' P F' f';
  pr_volume : df_root_vnid F' = df_root_vnid F /\ df_vid F' = df_vid F /\ df_inode_index F' <= df_inode_index F + size;
  pr_grows : grows fs W f W' f';
  pr_own : own A' n' k' /\ n - cost <= n'
}.

Lemma progress_trans own W F f n W1 A1 F1 f1 n1 k1 W2 A2 F2 f2 n2 k2 c1 c2 z1 z2 :
  progress own W F f n c1 z1 W1 A1 F1 f1 n1 k1 -> progress own W1 F1 f1 n1 c2 z2 W2 A2 F2 f2 n2 k2 ->
  progress own W F f n (c1 + c2) (z1 + z2) W2 A2 F2 f2 n2 k2.
Proof.
  intros [Hwf1 Hv1 Hg1 [Ho1 Hn1]] [Hwf2 Hv2 Hg2 [Ho2 Hn2]].
  split; [done|lia|by eapply grows_trans|split; [done|lia]].
Qed.

Definition root_inode W F f : Prop := member fs W f r vr /\ dn_class vr = DNA_DEVFS_DIRECTORY /\ dn_id vr = df_root_vnid F.

Lemma wp_ondrv {A} (m : Drv D A) Q k f s a :
  (forall kd, m kd = Ret a kd) -> Q a (st k f s) -> wp (ondrv m) Q (st k f s).
Proof.
  intros Hm HQ. unfold ondrv. apply wp_lift. eapply wp_eq; [apply Hm|]. cbn [fst snd st kern set_kern fsd set_fsd].
  assert (set_drivers (drivers f) f = f) as -> by (by destruct f). exact HQ.
Qed.

Context (Ka Kb Dd : list Z) (HK : forall c, c ∈ Kb -> c ∈ Ka).
Local Abbreviation own := (owned room Ka Kb Dd).

Lemma insert_devices_ok path driver table all : static_driver driver all table -> forall devices W A F f n k s,
  dwf U fs W A P F f -> own A n k -> root_inode W F f -> Forall device_ok devices ->
  devices_cost devices < n -> df_inode_index F + devices_size devices < 2 ^ 63 ->
  wp (insert_devices fs r path driver (path_of <$> devices)) (fun _ s' => exists W' A' F' f' n' h,
    s' = st (set_heap h k) f' s /\ progress own W F f n (devices_cost devices) (devices_size devices) W' A' F' f' n' (set_heap h k) /\
    forall names, names ∈ devices -> take (length path) (path_of names) = path -> shown fs W' f' r names) (st k f s).
Proof.
  intros Hst. induction devices as [|names devices IH]; intros W A F f n k s Hwf Hown [Hr [Hdir Hid]] Hok Hcost Hidx; cbn [insert_devices fmap list_fmap].
  { apply wp_ret. exists W, A, F, f, n, (heap k). replace (set_heap (heap k) k) with k by (by destruct k). split; [done|].
    split; [split; [done|cbn; lia|apply grows_refl|split; [done|cbn; lia]]|]. intros names Hn. by apply not_elem_of_nil in Hn. }
  apply Forall_cons in Hok as [(Hne & Hnames & Hlen) Hok]. cbn [devices_cost devices_size] in *.
  assert (prefix_of F vr = None) as Hpre by (unfold prefix_of; by rewrite Hid, Z.eqb_refl).
  pose proof (devices_pos devices Hok) as [Hpc Hps].
  assert (0 <= insert_cost None names) as Hic by (apply (insert_cost_pos names None); cbn [child_path]; unfold DNA_PATH_LENGTH in Hlen; lia).
  (* the first device, then the others *)
  enough (wp (if bool_decide (take (length path) (path_of names) = path) then
         let* a_path := strcpy_buffer DNA_PATH_LENGTH (path_of names) in
         let* commands := ondrv (find_device driver a_path) in
         devfs_inode_insert (S (length a_path)) fs r a_path commands ;; ret tt
       else ret tt) (fun _ s' => exists W' A' F' f' n' h, s' = st (set_heap h k) f' s /\
         progress own W F f n (insert_cost None names) (Z.of_nat (length names)) W' A' F' f' n' (set_heap h k) /\
         (take (length path) (path_of names) = path -> shown fs W' f' r names)) (st k f s)) as Hfirst.
  { apply wp_bind. eapply wp_mono; [exact Hfirst|]. intros _ s' (W1 & A1 & F1 & f1 & n1 & h1 & -> & Hp1 & Hs1).
    pose proof Hp1 as [Hwf1 Hv1 Hg1 [Hown1 Hn1]].
    eapply wp_mono; [apply (IH W1 A1 F1 f1 n1 (set_heap h1 k) s); try done; [|lia|lia]|].
    { split; [by apply (g_inodes _ _ _ _ _ Hg1)|]. split; [done|]. rewrite Hid. symmetry. apply Hv1. }
    intros _ s' (W2 & A2 & F2 & f2 & n2 & h2 & -> & Hp2 & Hs2). exists W2, A2, F2, f2, n2, h2. split; [done|].
    split; [by eapply progress_trans|]. intros names' [->|Hin]%elem_of_cons Htk; [|by apply Hs2].
    eapply (shown_grows U fs W1 A1); [done|apply Hp2|apply Hp2|by apply (g_inodes _ _ _ _ _ Hg1)|by apply Hs1]. }
  case_bool_decide as Htk.
  2: { apply wp_ret. exists W, A, F, f, n, (heap k). replace (set_heap (heap k) k) with k by (by destruct k). split; [done|].
    split; [split; [done|lia|apply grows_refl|split; [done|lia]]|done]. }
  unfold strcpy_buffer. rewrite (proj2 (Z.ltb_lt _ _) Hlen). apply wp_bind, wp_ret, wp_bind.
  eapply wp_ondrv; [apply Hst|]. apply wp_bind. eapply wp_mono.
  { apply (insert_ok U fs Hfs HU Ka Kb Dd HK (table (path_of names)) _ W A P F f n k r vr names s).
    - split; rewrite ?Hpre; try done; cbn [child_path]; unfold DNA_PATH_LENGTH in Hlen; lia.
    - apply le_S, names_le_path. by eapply Forall_impl; [exact Hnames|intros t []]. }
  intros st0 s' (W1 & A1 & F1 & f1 & n1 & h & -> & [Hs1 Hwf1 Hv1 Hg1 Ho1 Hf1 He1 _]). rewrite Hpre in Ho1. apply wp_ret.
  exists W1, A1, F1, f1, n1, h. split; [done|]. split; [split; [done|lia|done|done]|]. intros _.
  destruct (decide (st0 = DNA_OK)) as [Hst0|Hst0].
  - destruct (Hf1 Hst0) as (i & w & Hres & Hi & _). left. by exists i, w.
  - destruct (He1 Hst0) as [-> ->]. eapply (insert_error_shown U fs W A); [done|done|done|by rewrite <- Hs1].
Qed.

(** The devices that the drivers publish. *)
Definition catalog : Type := list (list (list (list Z)) * (list Z -> Z)).
Definition static_drivers (drivers_list : list (driver_t D)) (cat : catalog) : Prop :=
  Forall2 (fun driver c => static_driver driver c.1 c.2) drivers_list cat.
Definition all_devices (cat : catalog) : list (list (list Z)) := concat cat.*1.

Lemma publish_drivers_ok path drivers_list cat : static_drivers drivers_list cat -> forall W A F f n k s,
  dwf U fs W A P F f -> own A n k -> root_inode W F f -> Forall device_ok (all_devices cat) ->
  devices_cost (all_devices cat) < n -> df_inode_index F + devices_size (all_devices cat) < 2 ^ 63 ->
  wp (publish_drivers fs r path drivers_list) (fun _ s' => exists W' A' F' f' n' h,
    s' = st (set_heap h k) f' s /\
    progress own W F f n (devices_cost (all_devices cat)) (devices_size (all_devices cat)) W' A' F' f' n' (set_heap h k) /\
    forall names, names ∈ all_devices cat -> take (length path) (path_of names) = path -> shown fs W' f' r names) (st k f s).
Proof.
  unfold all_devices. induction 1 as [|driver [devices table] drivers_list cat Hst Hsts IH]; intros W A F f n k s Hwf Hown Hr Hok Hcost Hidx;
    cbn [publish_drivers fmap list_fmap concat fst] in *.
  { apply wp_ret. exists W, A, F, f, n, (heap k). replace (set_heap (heap k) k) with k by (by destruct k). split; [done|].
    split; [split; [done|cbn; lia|apply grows_refl|split; [done|cbn; lia]]|]. intros names Hn. by apply not_elem_of_nil in Hn. }
  cbn [snd] in Hst. apply Forall_app in Hok as [Hok1 Hok2]. rewrite devices_cost_app in Hcost. rewrite devices_size_app in Hidx.
  pose proof (devices_pos _ Hok1). pose proof (devices_pos _ Hok2).
  apply wp_bind. eapply wp_ondrv; [apply Hst|]. apply wp_bind.
  eapply wp_mono; [eapply (insert_devices_ok path driver table devices Hst devices W A F f n k s); try done; lia|].
  intros _ s' (W1 & A1 & F1 & f1 & n1 & h1 & -> & Hp1 & Hs1). pose proof Hp1 as [Hwf1 Hv1 Hg1 [Hown1 Hn1]].
  destruct Hr as [Hr [Hdir Hid]]. pose proof (g_inodes _ _ _ _ _ Hg1 _ _ Hr) as Hr1.
  eapply wp_mono; [apply (IH W1 A1 F1 f1 n1 (set_heap h1 k) s); try done; [|lia|lia]|].
  { split; [done|]. split; [done|]. rewrite Hid. symmetry. apply Hv1. }
  intros _ s' (W2 & A2 & F2 & f2 & n2 & h2 & -> & Hp2 & Hs2). exists W2, A2, F2, f2, n2, h2. split; [done|].
  rewrite devices_cost_app, devices_size_app. split; [by eapply progress_trans|].
  intros names [Hin|Hin]%elem_of_app Htk; [|by apply Hs2].
  eapply (shown_grows U fs W1 A1); [done|apply Hp2|apply Hp2|done|by apply Hs1].
Qed.

End Walk.

(** The heap holds the regions [A] and can serve [n] blocks. *)
Definition holds (room : list Z -> list Z -> Z -> kstate -> Prop) (A : list Z) (n : Z) (k : kstate) : Prop :=
  exists B D, room B D n k /\ forall c, c ∈ A -> c ∈ B ++ D.

(** The heap still holds the regions [B] and [Dd], and all the other regions that it holds are
    regions of [A]. *)
Definition holds_more (room : list Z -> list Z -> Z -> kstate -> Prop) (B Dd A : list Z) (n : Z) (k : kstate) : Prop :=
  exists N, room B (N ++ Dd) n k /\ (forall c, c ∈ A -> c ∈ B ++ N ++ Dd) /\ forall c, c ∈ N -> c ∈ A.

(** The inode that a token leads to. *)
Definition walk_result {D} W (f : dfs D) (base : Z) (path : list Z) (vnid : Z) : status_t * Z :=
  match assoc path (listing W f base) with Some id => (DNA_OK, id) | None => (DNA_NO_ENTRY, vnid) end.

Section WalkRoot.
Context `{Hal} {D : Type} (U : gset Z) (fs : Z) (Hfs : fs <> 0) {room} `{HH : Heap room} (HU : forall p, 0 < p < 2 ^ 32 -> p ∈ U).
Implicit Types (W : dqid -> list Z) (f : dfs D) (F : devfs_t) (s : vstate (dfs D)).

Lemma wp_walk_entry Ka Kb Dd (HK : forall c, c ∈ Kb -> c ∈ Ka) W A P F f n k b v path vnid Q s :
  dwf U fs W A P F f -> owned room Ka Kb Dd A n k -> member fs W f b v ->
  Q (walk_result W f b path vnid) (st k f s) -> wp (walk_entry b path vnid) Q (st k f s).
Proof.
  intros Hwf Hroom Hb HQ. unfold walk_entry, walk_result in *. apply wp_bind.
  eapply (wp_find_entry U fs Ka Kb Dd HK W A P F f Hwf n k Hroom b v); [exact Hb| |].
  - intros e x He Hx _ _ _ Ha. rewrite (proj2 (Z.eqb_neq e 0) He). cbn [negb]. apply wp_bind.
    eapply wp_rd_dentry; [exact Hx|]. apply wp_ret. by rewrite Ha in HQ.
  - intros Ha. rewrite Z.eqb_refl. cbn [negb]. apply wp_ret. by rewrite Ha in HQ.
Qed.

Lemma devfs_walk_root drivers_list cat W A P F f n k B Dd r vr path vnid s :
  dwf U fs W A P F f -> room B Dd n k -> (forall c, c ∈ A -> c ∈ B ++ Dd) -> root_inode fs r vr W F f -> static_drivers drivers_list cat ->
  Forall device_ok (all_devices cat) -> path <> devfs_dotdot ->
  cost DNA_PATH_LENGTH + devices_cost (all_devices cat) < n -> df_inode_index F + devices_size (all_devices cat) < 2 ^ 63 ->
  exists W' A' F' f' n' h, devfs_walk drivers_list fs r path vnid (st k f s) =
      Ret (walk_result W' f' r path vnid) (st (set_heap h k) f' s) /\
    progress U fs P (holds_more room B Dd) W F f n (cost DNA_PATH_LENGTH + devices_cost (all_devices cat)) (devices_size (all_devices cat))
      W' A' F' f' n' (set_heap h k) /\
    forall names, names ∈ all_devices cat -> take (length path) (path_of names) = path -> shown fs W' f' r names.
Proof.
  intros Hwf Hroom Hsub Hr Hst Hok Hpath Hcost Hidx. pose proof Hr as [Hm [Hdir Hid]].
  assert (r <> 0) as Hr0.
  { eapply (live_address U fs B B Dd ltac:(done) W A P F f Hwf n k); [|left; by eexists; apply Hm].
    by apply owned_none. }
  pose proof (devices_pos _ Hok) as Hpos.
  assert (0 < cost DNA_PATH_LENGTH) as Hcp by (by apply cost_pos).
  destruct (heap_malloc B Dd n k DNA_PATH_LENGTH false Hroom) as (c & h0 & Hrun & Hc & Hroom0); [done|lia|].
  assert (c ∉ A) as HcA.
  { intros Hin%Hsub. pose proof (heap_distinct _ _ _ _ Hroom0) as Hd. apply NoDup_app in Hd as (Hd & Hd2 & _).
    apply NoDup_app in Hd as (_ & Hd & _). clear HU. set_solver. }
  assert (owned room (B ++ [c]) B Dd A (n - cost DNA_PATH_LENGTH) (set_heap h0 k)) as Hown.
  { by apply owned_none. }
  assert (0 < c) as Hc0 by (apply (heap_address _ _ _ _ c Hroom0); set_solver).
  enough (wp (devfs_walk drivers_list fs r path vnid) (fun a s' => exists W' A' F' f' n' h, a = walk_result W' f' r path vnid /\
    s' = st (set_heap h k) f' s /\ progress U fs P (holds_more room B Dd) W F f n (cost DNA_PATH_LENGTH + devices_cost (all_devices cat))
      (devices_size (all_devices cat)) W' A' F' f' n' (set_heap h k) /\
    forall names, names ∈ all_devices cat -> take (length path) (path_of names) = path -> shown fs W' f' r names) (st k f s))
    as (a & s' & Hrun' & W' & A' & F' & f' & n' & h & -> & -> & Hp & Hs)%wp_exists by (by exists W', A', F', f', n', h).
  unfold devfs_walk. rewrite (proj2 (Z.eqb_neq fs 0) Hfs), (proj2 (Z.eqb_neq r 0) Hr0). cbn [negb andb].
  apply wp_bind. eapply wp_rd_dinode; [apply Hm|]. apply wp_bind. eapply wp_rd_devfs; [apply Hwf|].
  rewrite Hid, Z.eqb_refl, bool_decide_false by done. cbn [negb]. apply wp_bind. eapply wp_dk; [exact Hrun|].
  rewrite (proj2 (Z.eqb_neq _ 0)) by (unfold DNA_KERNEL_BLOCK_SIZE, sizeof_region; lia). cbn [negb]. apply wp_bind.
  eapply wp_mono; [eapply (publish_drivers_ok U fs Hfs HU P r vr (B ++ [c]) B Dd ltac:(set_solver) path drivers_list cat Hst W A F f); try done; lia|].
  intros _ s' (W1 & A1 & F1 & f1 & n1 & h1 & -> & [Hwf1 Hv1 Hg1 [(N & Hroom1 & Hsub1 & Hnew1) Hn1]] & Hs1).
  rewrite <- app_assoc in Hroom1. destruct (heap_free B c N Dd n1 _ Hroom1) as (h2 & Hfree & Hroom2).
  apply wp_bind. eapply wp_dk; [exact Hfree|].
  assert (owned room B B (N ++ Dd) A1 n1 (set_heap h2 k)) as Hown2.
  { apply owned_none; [exact Hroom2|exact Hsub1]. }
  eapply (wp_walk_entry B B (N ++ Dd) ltac:(done) W1 A1 P F1 f1 n1 _ r vr); [exact Hwf1|exact Hown2|by apply (g_inodes _ _ _ _ _ Hg1)|].
  exists W1, A1, F1, f1, n1, h2. split; [done|]. split; [done|]. split; [|exact Hs1].
  split; [done|done|done|]. split; [|lia]. by exists N.
Qed.

End WalkRoot.

(** ** The mount *)

(** A driver whose initialisation succeeds and leaves the kernel as it was. *)
Definition ready_driver {D} (driver : driver_t D) : Prop :=
  forall kd, (exists d, init_hardware driver kd = Ret DNA_OK (kd.1, d)) /\ (exists d, init_driver driver kd = Ret DNA_OK (kd.1, d)).

(** Nothing has been mounted. *)
Record blank {D} (U : gset Z) (f : dfs D) : Prop := {
  blank_lists : qwf U (dq f) (fun _ => []);
  blank_inodes : dinodes f = ∅;
  blank_entries : dentries f = ∅
}.

Lemma blank_dwf {D} U fs F (f : dfs D) V q :
  blank U f -> 0 < df_root_vnid F < df_inode_index F -> V !! fs = Some F -> qwf U q (fun _ => []) ->
  dwf U fs (fun _ => []) [] [] F (set_devfss V (set_dq q f)).
Proof.
  intros [Hq Hi He] HF HV Hq'. assert (forall i v, ~ member fs (fun _ => []) (set_devfss V (set_dq q f)) i v) as Hno.
  { intros i v [Hin _]. by apply not_elem_of_nil in Hin. }
  split; try (intros * Hx; exfalso; first [by apply (Hno _ _ Hx)|by apply not_elem_of_nil in Hx]); try done.
  - intros _ i Hx. by apply not_elem_of_nil in Hx.
  - intros p. cbn. rewrite Hi, He, !lookup_empty. by intros [[]|[]].
Qed.

Section Mount.
Context `{Hal} {D : Type} (U : gset Z) {room} `{HH : Heap room} (HU : forall p, 0 < p < 2 ^ 32 -> p ∈ U).
Implicit Types (W : dqid -> list Z) (f : dfs D) (F : devfs_t) (s : vstate (dfs D)).

Section Root.
Context (fs : Z) (Hfs : fs <> 0) (Ka Kb Dd : list Z) (HK : forall c, c ∈ Kb -> c ∈ Ka).
Local Abbreviation own := (owned room Ka Kb Dd).

(** The root inode, and its entries. *)
Lemma wp_root_inode {B} F f n k (C : status_t * Z -> V (dfs D) B) Q s :
  dwf U fs (fun _ => []) [] [] F f -> own [] n k -> inode_cost None [] < n ->
  (forall p h f' W A, let x := mkInode (df_root_vnid F) DNA_DEVFS_DIRECTORY 0 [] 0 0 0 0 [] in
     p <> 0 -> dwf U fs W A [p] F f' -> member fs W f' p x -> listing W f' p = [] ->
     own A (n - inode_cost None []) (set_heap h k) -> wp (C (DNA_OK, p)) Q (st (set_heap h k) f' s)) ->
  wp (let* r := devfs_inode_create fs 0 DNA_DEVFS_DIRECTORY [] (df_root_vnid F) 0 0 in C r) Q (st k f s).
Proof.
  intros Hwf Hown Hcost HC. pose proof (d_root _ _ _ _ _ _ _ Hwf) as Hrt. unfold devfs_inode_create. rewrite Z.eqb_refl.
  apply wp_bind, wp_bind, wp_ret, wp_bind.
  eapply (wp_dalloc U fs HU Ka Kb Dd HK _ [] [] F f Hwf n k Hown); [by unfold sizeof_devfs_inode|exact Hcost|].
  intros p h Hp HpU HpA Hown'. rewrite (proj2 (Z.eqb_neq p 0) Hp). cbn [negb].
  apply wp_bind, wp_ondq, wp_modify. apply wp_bind, wp_ret.
  apply wp_bind, wp_ondevfs, wp_modify. rewrite (proj2 (Z.eqb_neq fs 0) Hfs). apply wp_bind, wp_bind.
  eapply (wp_dadd U (fun _ => [])); [|intros q; apply not_elem_of_nil|exact HpU|].
  { cbn [dq set_dinodes set_dq]. pose proof (qwf_reset U _ _ (DEntries p) (d_lists _ _ _ _ _ _ _ Hwf) eq_refl) as Hq.
    by rewrite set_next_None_id by (apply (wf_free _ _ _ Hq); intros; apply not_elem_of_nil). }
  intros qs Hqs. do 2 apply wp_ret. set (x := mkInode _ _ _ _ _ _ _ _ _).
  destruct (dwf_new_inode U fs _ [] [] F f Hwf p HpA F (set_dq qs (set_dinodes (<[p := x]> (dinodes f)) f)) x) as (Hwf' & _ & Hm & HL);
    try done; [apply Hwf|cbn; lia|intros i w [Hin _]; by apply not_elem_of_nil in Hin|].
  apply (HC p h _ _ _ Hp Hwf'); [done|by rewrite HL|exact Hown'].
Qed.

Lemma init_drivers_ok drivers_list : Forall ready_driver drivers_list -> forall index k f s Q,
  (forall d, Q (DNA_OK, (index + length drivers_list)%nat) (st k (set_drivers d f) s)) ->
  wp (init_drivers drivers_list index) Q (st k f s).
Proof.
  induction 1 as [|driver drivers_list Hd Hds IH]; intros index k f s Q HQ; cbn [init_drivers].
  { apply wp_ret. specialize (HQ (drivers f)). rewrite Nat.add_0_r in HQ. by destruct f. }
  apply wp_bind. unfold ondrv at 1. apply wp_lift. destruct (Hd (k, drivers f)) as [(d1 & Hi) _].
  eapply wp_eq; [exact Hi|]. keqb. apply wp_bind. unfold ondrv at 1. apply wp_lift.
  destruct (Hd (k, d1)) as [_ (d2 & Hi2)]. eapply wp_eq; [exact Hi2|]. keqb.
  apply (IH (S index) k (set_drivers d2 f)). intros d. specialize (HQ d). cbn [length] in HQ. by rewrite Nat.add_succ_r in HQ.
Qed.

End Root.

Lemma in_heap_mono B B' vn vo : (forall c, c ∈ B -> c ∈ B') -> in_heap B vn vo -> in_heap B' vn vo.
Proof.
  intros Hsub [Hvn Hvo]. split; intros x Hx; [destruct (Hvn x Hx) as (c & ? & ?)|destruct (Hvo x Hx) as (c & ? & ?)]; exists c; auto.
Qed.

(** The root of the tree, as the mount leaves it. *)
Definition vroot : devfs_inode_t := mkInode 1 DNA_DEVFS_DIRECTORY 0 [] 0 0 0 0 [].
Definition with_root (root vid : Z) fs W A F f : Prop :=
  dwf U fs W A [] F f /\ root_inode fs root vroot W F f /\
  listing W f root = [mkEntry 1 false devfs_dot; mkEntry 1 false devfs_dotdot] /\ F = mkDevfs 2 1 vid.

Lemma devfs_mount_ok drivers_list vid dev_path flags params k f s A Dd n vn vo vol :
  blank U f -> Forall ready_driver drivers_list -> room A Dd n k ->
  cost sizeof_devfs + inode_cost None [] + 2 * cost sizeof_devfs_entry + cost (sizeof_vnode + 0x1F) < n ->
  qwf U (vq s) (view vn vo) -> locks k !! LVnodeList = None -> locks k !! LVolumeList = None -> in_heap (A ++ Dd) vn vo ->
  List.find (volume_id_inspector s vid) vo = Some vol -> vol <> 0 -> node vn s vid 1 = None ->
  exists fs root W O F h f' q c, let v := align32 (c + DNA_KERNEL_BLOCK_SIZE) in
    devfs_mount drivers_list vid dev_path flags params (st k f s) =
      Ret (DNA_OK, (fs, 1)) (set_vq q (set_vnodes (<[v := mkVnode 1 vol false 1 root (c + DNA_KERNEL_BLOCK_SIZE)]> (vnodes s)) (st (set_heap h k) f' s))) /\
    qwf U q (view (vn ++ [v]) vo) /\ fs <> 0 /\ with_root root vid fs W O F f' /\
    holds room O (n - (cost sizeof_devfs + inode_cost None [] + 2 * cost sizeof_devfs_entry + cost (sizeof_vnode + 0x1F))) (set_heap h k).
Proof.
  intros Hblank Hready Hroom Hcost Hvq Hl1 Hl2 Hih Hvol Hvol0 Hnode.
  assert (0 < cost sizeof_devfs /\ 0 < inode_cost None [] /\ 0 < cost sizeof_devfs_entry /\ 0 < cost (sizeof_vnode + 0x1F))
    as (Hc1 & Hc2 & Hc3 & Hc4) by (split_and!; by apply cost_pos).
  destruct (heap_malloc A Dd n k sizeof_devfs true Hroom) as (c0 & h0 & Hrun & Hc & Hroom0); [done|lia|].
  pose proof (heap_address _ _ _ _ c0 Hroom0 ltac:(clear HU; set_solver)) as [Hc0 _].
  set (fs := c0 + DNA_KERNEL_BLOCK_SIZE) in *. assert (fs <> 0) as Hfs by (unfold fs, DNA_KERNEL_BLOCK_SIZE, sizeof_region; lia).
  set (Ka := A ++ [c0]) in *. set (cost0 := cost sizeof_devfs) in *.
  assert (owned room Ka Ka Dd [] (n - cost0) (set_heap h0 k)) as Hown0.
  { apply owned_none; [done|]. intros c Hx. by apply not_elem_of_nil in Hx. }
  enough (wp (devfs_mount drivers_list vid dev_path flags params) (fun a s' => exists root W O F h f' q c,
      let v := align32 (c + DNA_KERNEL_BLOCK_SIZE) in a = (DNA_OK, (fs, 1)) /\
      s' = set_vq q (set_vnodes (<[v := mkVnode 1 vol false 1 root (c + DNA_KERNEL_BLOCK_SIZE)]> (vnodes s)) (st (set_heap h k) f' s)) /\
      qwf U q (view (vn ++ [v]) vo) /\ with_root root vid fs W O F f' /\
      holds room O (n - (cost0 + inode_cost None [] + 2 * cost sizeof_devfs_entry + cost (sizeof_vnode + 0x1F))) (set_heap h k)) (st k f s))
    as (a & s' & Hrun' & root & W & O & F & h & f' & q & c & -> & -> & Hq & Hroot & Hholds)%wp_exists
    by (by exists fs, root, W, O, F, h, f', q, c).
  unfold devfs_mount. apply wp_bind. eapply wp_dk; [exact Hrun|]. fold fs. rewrite (proj2 (Z.eqb_neq fs 0) Hfs). cbn [negb].
  apply wp_bind, wp_ondq, wp_modify, wp_bind, wp_ondevfs, wp_modify.
  assert (dwf U fs (fun _ => []) [] [] (mkDevfs 2 1 vid) (set_devfss (<[fs := mkDevfs 2 1 vid]> (devfss f)) (set_dq (putq (DInodes fs) DNA_QUEUE_DEFAULTS (dq f)) f))) as Hwf0.
  { apply blank_dwf; [done|done|apply lookup_insert_eq|]. apply qwf_reset; [apply Hblank|done]. }
  eapply (wp_root_inode fs Hfs Ka Ka Dd ltac:(done) (mkDevfs 2 1 vid) _ _ _ _ _ _ Hwf0 Hown0); [unfold cost0; lia|].
  intros p h1 f1 W1 A1 x Hp Hwf1 Hm1 HL1 Hown1. cbv beta iota zeta. keqb. apply wp_bind.
  eapply (wp_new_entry U fs HU Ka Ka Dd ltac:(done) W1 A1 _ _ f1 Hwf1 _ _ Hown1 p x devfs_dot 1 p x [p]); [exact Hm1|done|done|by rewrite HL1| |done|unfold cost0; lia|].
  { split; [done|]. split; [done|by left]. }
  intros h2 f2 W2 A2 Hwf2 Hg2 HL2 Hown2. keqb. apply wp_bind. pose proof (g_inodes _ _ _ _ _ Hg2 _ _ Hm1) as Hm2.
  eapply (wp_new_entry U fs HU Ka Ka Dd ltac:(done) W2 A2 _ _ f2 Hwf2 _ _ Hown2 p x devfs_dotdot 1 p x [p]); [exact Hm2|done|done|by rewrite HL2, HL1, decide_True| |done|unfold cost0; lia|].
  { split; [done|]. split; [done|right; by left]. }
  intros h3 f3 W3 A3 Hwf3 Hg3 HL3 Hown3. keqb. apply wp_bind. pose proof (g_inodes _ _ _ _ _ Hg3 _ _ Hm2) as Hm3.
  apply (init_drivers_ok drivers_list Hready). intros d. cbv beta iota. keqb. apply wp_bind.
  eapply wp_rd_dinode; [apply Hm3|]. apply wp_bind. destruct Hown3 as (N & Hr3 & Hs3 & _).

  destruct (vnode_create_ok U HU (st (set_heap h3 k) (set_drivers d f3) s) vn vo (Ka ++ N) Dd
      (n - cost0 - inode_cost None [] - cost sizeof_devfs_entry - cost sizeof_devfs_entry) 1 vid vol p Hvq) as (c & h4 & q & Hcr & Hq & Hr4 & _);
    [exact Hl1|exact Hl2|exact Hr3|apply (in_heap_mono (A ++ Dd)); [unfold Ka; clear HU; set_solver|done]|unfold cost0; lia|done|done|done|].
  eapply wp_eq; [exact Hcr|]. apply wp_ret. exists p, W3, A3, (mkDevfs 2 1 vid), h4, (set_drivers d f3), q, c.
  split; [done|]. split; [done|]. split; [exact Hq|]. split.
  - split; [apply (dwf_top U fs W3 A3 p x); [eapply dwf_bump; [exact Hwf3|done|done|done|apply Hwf3|done|done]|done|done]|]. split; [done|]. split; [|done]. change (listing W3 (set_drivers d f3) p) with (listing W3 f3 p).
    by rewrite HL3, HL2, HL1, !decide_True.
  - exists ((Ka ++ N) ++ [c]), Dd. split; [|intros y Hy%Hs3; clear HU; set_solver].
    apply (eq_ind _ (fun z => room ((Ka ++ N) ++ [c]) Dd z (set_heap h4 k)) Hr4). lia.
Qed.

End Mount.

(** ** Theorems *)

(** The insertion, when the heap holds the objects. *)
Lemma insert_run `{Hal} {D} U fs (Hfs : fs <> 0) (HU : forall p, 0 < p < 2 ^ 32 -> p ∈ U) {room} `{HH : Heap room}
    W A P F (f : dfs D) n k b v names commands s :
  (dwf U fs W A P F f /\ holds room A n k) /\ (member fs W f b v /\ dn_class v = DNA_DEVFS_DIRECTORY) ->
  (names <> [] /\ Forall name_ok names) /\ df_inode_index F + Z.of_nat (length names) < 2 ^ 63 /\
  Z.of_nat (length (child_path (prefix_of F v) (path_of names))) < 2 ^ 31 /\ insert_cost (prefix_of F v) names < n ->
  exists r W' A' F' f' n' h Ka Kb Dd,
    devfs_inode_insert (S (length (path_of names))) fs b (path_of names) commands (st k f s) = Ret r (st (set_heap h k) f' s) /\
    inserted (room := room) U fs Ka Kb Dd W P F f n b v names commands r W' A' F' f' n' (set_heap h k) /\
    holds room A' n' (set_heap h k).
Proof.
  intros [[Hwf (B & Dd & Hroom & Hsub)] [Hb Hdir]] ([Hne Hok] & Hidx & Hlen & Hcost).
  assert (wp (devfs_inode_insert (S (length (path_of names))) fs b (path_of names) commands)
    (insert_result (room := room) U fs B B Dd W P F f n k b v names commands s) (st k f s)) as Hwp.
  { apply (insert_ok U fs Hfs HU B B Dd ltac:(done) commands _ W A); [split; try done|].
    - by apply owned_none.
    - apply le_S, names_le_path. by eapply Forall_impl; [exact Hok|intros t []]. }
  apply wp_exists in Hwp as (r & s' & Hrun & W' & A' & F' & f' & n' & h & -> & Hins).
  exists r, W', A', F', f', n', h, B, B, Dd. split; [done|]. split; [done|].
  destruct Hins as [_ _ _ _ [(N & Hr & Hs & _) _] _ _ _].
  exists (B ++ N), Dd. split; [done|]. by intros c Hc%Hs; rewrite <- app_assoc.
Qed.

(** ** The release of a device

    devfs_inode_clean removes the entry of the inode and frees both; then it reads the inode. *)

Section Release.
Context `{Hal} {D : Type} (U : gset Z) (fs : Z) {room} `{HH : Heap room}.
Context W A F (f : dfs D) (Hwf : dwf U fs W A [] F f) (n : Z) (k : kstate) (Hroom : holds room A n k).
Implicit Types (s : vstate (dfs D)).

(** What follows the removal of the entry from the list of the parent. *)
Definition release_rest (fuel : nat) (i e : Z) : V (dfs D) status_t :=
  free_entry e ;;
  let* status := devfs_inode_destroy fuel fs i in
  ensure st_eqb status DNA_OK orelse status in
  let* i := rd_inode i in
  let* status := devfs_inode_clean fuel fs (dn_parent i) in
  ensure st_eqb status DNA_OK orelse status in
  ret DNA_OK.

(** The entry of an inode in its parent. *)
Lemma entry_of i w s :
  member fs W f i w -> dn_parent w <> 0 ->
  exists e l1 l2 q, e <> 0 /\ W (DEntries (dn_parent w)) = l1 ++ e :: l2 /\
    find_entry (dn_parent w) (dn_name w) (st k f s) = Ret e (st k f s) /\
    devfs_entry_remove_by_name (dn_parent w) (dn_name w) (st k f s) =
      (free_entry e ;; ret DNA_OK) (st k (set_dq q f) s) /\
    qwf U q (vupd W (DEntries (dn_parent w)) (l1 ++ l2)).
Proof using Hwf Hroom HH.
  intros Hi Hp. destruct Hroom as (B & Dd & Hr & Hsub).
  pose proof (owned_none room B B Dd A n k Hr Hsub) as Hown.
  destruct (d_parent _ _ _ _ _ _ _ Hwf i w Hi Hp) as (v & Hv & _).
  destruct (d_linked _ _ _ _ _ _ _ Hwf i w Hi Hp ltac:(apply not_elem_of_nil)) as (x0 & Hin0 & Hname0 & _).
  assert (wp (find_entry (dn_parent w) (dn_name w))
    (fun e s' => s' = st k f s /\ e <> 0 /\ e ∈ W (DEntries (dn_parent w))) (st k f s)) as Hfind.
  { eapply (wp_find_entry U fs B B Dd ltac:(done) W A [] F f Hwf n k Hown _ v); [exact Hv|by intros|].
    intros Hnone%dassoc_none. exfalso. apply Hnone. rewrite <- Hname0. by apply list_elem_of_fmap_2. }
  apply wp_exists in Hfind as (e & s' & Hrun & -> & He0 & He). apply list_elem_of_split in He as (l1 & l2 & Hl).
  destruct (queue_extract_ok U (dq f) W (DEntries (dn_parent w)) e l1 l2 (d_lists _ _ _ _ _ _ _ Hwf) Hl) as (q & Hx & Hq).
  exists e, l1, l2, q. split_and!; [done|done|exact Hrun| |done].
  unfold devfs_entry_remove_by_name. rewrite (proj2 (Z.eqb_neq _ 0) Hp). cbn [negb].
  etransitivity; [eapply bind_Ret, Hrun|]. unfold remove_entry. rewrite (proj2 (Z.eqb_neq e 0) He0). cbn [negb].
  etransitivity; [eapply bind_Ret, wp_run, wp_ondq, wp_eq; [exact Hx|by split]|]. by keqb.
Qed.

(** A file has no entry of its own, so that there is nothing to destroy below it. *)
Lemma devfs_clean_file i w s fuel :
  member fs W f i w -> dn_class w <> DNA_DEVFS_DIRECTORY -> dn_parent w <> 0 ->
  exists e l1 l2 q, e <> 0 /\ W (DEntries (dn_parent w)) = l1 ++ e :: l2 /\
    qwf U q (vupd W (DEntries (dn_parent w)) (l1 ++ l2)) /\
    devfs_inode_clean (S (S fuel)) fs i (st k f s) = release_rest (S fuel) i e (st k (set_dq q f) s).
Proof using Hwf Hroom HH.
  intros Hi Hc Hp. destruct (entry_of i w s Hi Hp) as (e & l1 & l2 & q & He0 & Hl & Hfind & Hrm & Hq).
  pose proof (d_files _ _ _ _ _ _ _ Hwf i w Hi Hc) as Hnil. exists e, l1, l2, q. split_and!; [done..|].
  remember (S fuel) as m eqn:Hm. cbn [devfs_inode_clean].
  etransitivity; [eapply bind_Ret, (wp_run _ _ 0 (st k f s))|].
  { unfold find_unused. apply wp_bind. eapply wp_rd_dinode; [apply Hi|]. apply wp_bind, wp_ondevfs, wp_gets, wp_bind, wp_ondq.
    eapply wp_eq; [apply (queue_lookup_ok U _ W), Hwf|]. rewrite Hnil, set_dq_same. by apply wp_ret. }
  etransitivity; [apply (bind_Ret _ _ _ DNA_OK (st k f s)); by rewrite Hm|]. keqb.
  etransitivity; [eapply bind_Ret, (wp_run _ _ 0 (st k f s)), wp_ondq, wp_gets|].
  { destruct (wf_rep _ _ _ (d_lists _ _ _ _ _ _ _ Hwf) (DEntries i)) as (_ & -> & _). by rewrite Hnil, set_dq_same. }
  etransitivity; [eapply bind_Ret, wp_run; eapply wp_rd_dinode; [apply Hi|done]|].
  rewrite (proj2 (Z.eqb_neq _ 0) Hp). cbn [Z.eqb negb andb].
  etransitivity; [eapply bind_Ret, Hfind|]. rewrite (proj2 (Z.eqb_neq e 0) He0). cbn [negb].
  unfold bind at 1. rewrite Hrm. unfold release_rest. unfold bind at 1. symmetry. unfold bind at 1.
  destruct (free_entry e _) as [[] s1| | |]; [|done..]. unfold ret at 2. by keqb.
Qed.

(** After the two calls of kernel_free the inode is read when it has been freed; if one of them
    does not return, neither does the run. *)
Lemma release_rest_faults i w e fuel k0 f0 (W0 : dqid -> list Z) s :
  qwf U (dq f0) W0 -> i ∈ W0 (DInodes fs) -> dinodes f0 !! i = Some w -> dn_class w <> DNA_DEVFS_DIRECTORY -> i <> 0 ->
  (forall st1 k1 st2 k2, kernel_free e k0 = Ret st1 k1 -> kernel_free i k1 = Ret st2 k2 ->
     exists s', release_rest (S fuel) i e (st k0 f0 s) = Fault s' /\ dinodes (fsd s') !! i = None) /\
  (forall r s', release_rest (S fuel) i e (st k0 f0 s) <> Ret r s').
Proof.
  intros Hq Hin Hw Hc Hi0. apply list_elem_of_split in Hin as (l1 & l2 & Hl).
  destruct (queue_extract_ok U (dq f0) W0 (DInodes fs) i l1 l2 Hq Hl) as (q & Hx & _).
  set (f1 := set_dentries (delete e (dentries f0)) f0).
  set (f2 := set_dq q f1). set (f3 := set_dinodes (delete i (dinodes f0)) f2).
  assert (forall st1 k1, kernel_free e k0 = Ret st1 k1 -> free_entry e (st k0 f0 s) = Ret tt (st k1 f1 s)) as He.
  { intros st1 k1 H1. apply wp_run. unfold free_entry. apply wp_bind. eapply wp_dk; [exact H1|]. by apply wp_ondevfs, wp_modify. }
  assert (forall k1, devfs_inode_destroy (S fuel) fs i (st k1 f1 s) = (free_inode i ;; ret DNA_OK) (st k1 f2 s)) as Hd.
  { intros k1. cbn [devfs_inode_destroy]. rewrite (proj2 (Z.eqb_neq i 0) Hi0). cbn [negb].
    etransitivity; [eapply bind_Ret, wp_run; eapply wp_rd_dinode; [exact Hw|done]|].
    etransitivity; [eapply bind_Ret, wp_run, wp_ondq, wp_eq; [exact Hx|by split]|].
    etransitivity; [eapply bind_Ret, wp_run; eapply wp_rd_dinode; [exact Hw|done]|].
    etransitivity; [apply (bind_Ret _ _ _ DNA_OK (st k1 f2 s)); by destruct (dn_class w)|]. by keqb. }
  assert (forall k1 st2 k2, kernel_free i k1 = Ret st2 k2 -> free_inode i (st k1 f2 s) = Ret tt (st k2 f3 s)) as Hf.
  { intros k1 st2 k2 H2. apply wp_run. unfold free_inode. apply wp_bind. eapply wp_dk; [exact H2|]. by apply wp_ondevfs, wp_modify. }
  assert (forall st1 k1 st2 k2, kernel_free e k0 = Ret st1 k1 -> kernel_free i k1 = Ret st2 k2 ->
    release_rest (S fuel) i e (st k0 f0 s) = Fault (st k2 f3 s)) as Hfault.
  { intros st1 k1 st2 k2 H1 H2. unfold release_rest.
    etransitivity; [eapply bind_Ret, (He st1 k1 H1)|].
    assert (devfs_inode_destroy (S fuel) fs i (st k1 f1 s) = Ret DNA_OK (st k2 f3 s)) as Hds
      by (rewrite Hd; by rewrite (bind_Ret _ _ _ _ _ (Hf k1 st2 k2 H2))).
    etransitivity; [eapply bind_Ret, Hds|]. keqb.
    unfold rd_inode, bind, ondev, lift, gets. cbn [fsd st set_fsd set_kern dinodes f3 set_dinodes].
    by rewrite lookup_delete_eq. }
  split; [intros st1 k1 st2 k2 H1 H2; eexists; split; [by eapply Hfault|apply lookup_delete_eq]|].
  intros r s' Hret.
  destruct (kernel_free e k0) as [st1 k1| | |] eqn:H1.
  2,3,4: apply bind_inv in Hret as (u & s1 & Hu & _); apply bind_inv in Hu as (x & s2 & Hx' & _);
    unfold onk, lift in Hx'; cbn [kern st set_kern] in Hx'; by rewrite H1 in Hx'.
  destruct (kernel_free i k1) as [st2 k2| | |] eqn:H2; [by rewrite (Hfault st1 k1 st2 k2) in Hret|..].
  all: unfold release_rest in Hret; rewrite (bind_Ret _ _ _ _ _ (He st1 k1 eq_refl)) in Hret;
    apply bind_inv in Hret as (u & s1 & Hu & _); rewrite Hd in Hu; apply bind_inv in Hu as (x & s2 & Hx' & _);
    apply bind_inv in Hx' as (y & s3 & Hy & _); unfold onk, lift in Hy; cbn [kern st set_kern] in Hy; by rewrite H2 in Hy.
Qed.

End Release.

(** C13: the insertion of a device path preserves the tree of the device file system: the
    names of a directory stay distinct and designate inodes of the list, each inode keeps
    its number, its parent and its path, every object lies in an area of the heap, and every
    path that led to an inode still leads to it. *)
Theorem devfs_insert_preserves `{Hal} {D} U fs {room} `{Heap room} W A P F (f : dfs D) n k b v names commands s :
  fs <> 0 -> (forall p, 0 < p < 2 ^ 32 -> p ∈ U) ->
  dwf U fs W A P F f -> holds room A n k -> member fs W f b v -> dn_class v = DNA_DEVFS_DIRECTORY ->
  names <> [] -> Forall name_ok names -> df_inode_index F + Z.of_nat (length names) < 2 ^ 63 ->
  Z.of_nat (length (child_path (prefix_of F v) (path_of names))) < 2 ^ 31 -> insert_cost (prefix_of F v) names < n ->
  exists r W' A' F' f' h n',
    devfs_inode_insert (S (length (path_of names))) fs b (path_of names) commands (st k f s) = Ret r (st (set_heap h k) f' s) /\
    dwf U fs W' A' P F' f' /\ holds room A' n' (set_heap h k) /\ n - insert_cost (prefix_of F v) names <= n' /\
    (forall i w, member fs W f i w -> member fs W' f' i w) /\
    (forall b' w front i, member fs W f b' w -> resolve fs W f b' front = Some i -> resolve fs W' f' b' front = Some i).
Proof.
  intros Hfs HU Hwf Hr Hb Hdir Hne Hok Hidx Hlen Hcost.
  destruct (insert_run U fs Hfs HU W A P F f n k b v names commands s) as (r & W' & A' & F' & f' & n' & h & Ka & Kb & Dd & Hrun & Hins & Hh); [done|done|].
  exists r, W', A', F', f', h, n'. split; [done|]. destruct Hins as [_ Hwf' _ Hg [_ Hn] _ _ _].
  split_and!; [done|done|done|apply Hg|]. intros b' w front i Hb' Hr'. by eapply (resolve_grows U fs W A).
Qed.

(** Inserting the path of a device makes it lead to a new file with the commands of the
    device and the path as its name; one directory that existed receives one entry and the
    others are unchanged.  The errors are those of a reference resolution (the path is
    there, or goes through a file) and change nothing. *)
Theorem devfs_insert_reaches `{Hal} {D} U fs {room} `{Heap room} W A P F (f : dfs D) n k b v names commands s :
  fs <> 0 -> (forall p, 0 < p < 2 ^ 32 -> p ∈ U) ->
  dwf U fs W A P F f -> holds room A n k -> member fs W f b v -> dn_class v = DNA_DEVFS_DIRECTORY ->
  names <> [] -> Forall name_ok names -> df_inode_index F + Z.of_nat (length names) < 2 ^ 63 ->
  Z.of_nat (length (child_path (prefix_of F v) (path_of names))) < 2 ^ 31 -> insert_cost (prefix_of F v) names < n ->
  let (status, dir) := insert_status fs W f b names in
  exists W' f' h,
    devfs_inode_insert (S (length (path_of names))) fs b (path_of names) commands (st k f s) = Ret status (st (set_heap h k) f' s) /\
    (status = DNA_OK -> exists i w, resolve fs W' f' b names = Some i /\ member fs W' f' i w /\
       dn_class w = DNA_DEVFS_FILE /\ dn_dev_cmd w = commands /\ dn_path w = child_path (prefix_of F v) (path_of names)) /\
    (status <> DNA_OK -> W' = W /\ f' = f) /\
    (forall b' w, member fs W f b' w -> exists l, listing W' f' b' = listing W f b' ++ l /\
       length l = (if decide (status = DNA_OK /\ b' = dir) then 1%nat else 0%nat)).
Proof.
  intros Hfs HU Hwf Hr Hb Hdir Hne Hok Hidx Hlen Hcost.
  destruct (insert_run U fs Hfs HU W A P F f n k b v names commands s) as (r & W' & A' & F' & f' & n' & h & Ka & Kb & Dd & Hrun & Hins & Hh); [done|done|].
  destruct Hins as [Hst _ _ _ _ Hfile Herr HL]. destruct (insert_status fs W f b names) as [status dir]. cbn [fst snd] in *. subst r.
  by exists W', f', h.
Qed.

(** C14: a walk from the root first makes the devices that the drivers publish and whose
    names begin with the token reachable (unless a file stands in their way), without losing
    an inode or a path; then it returns the number of the inode that the token leads to, or
    DNA_NO_ENTRY.  It gives back the buffer it used: after the walk the heap holds the regions
    it held before, and every other region it holds is that of an inode or of an entry. *)
Theorem devfs_walk_spec `{Hal} {D} U fs {room} `{Heap room} drivers_list cat W A F (f : dfs D) n k B Dd r vr path vnid s :
  fs <> 0 -> (forall p, 0 < p < 2 ^ 32 -> p ∈ U) ->
  dwf U fs W A [] F f -> room B Dd n k -> (forall c, c ∈ A -> c ∈ B ++ Dd) ->
  root_inode fs r vr W F f -> static_drivers drivers_list cat ->
  Forall device_ok (all_devices cat) -> path <> devfs_dotdot ->
  cost DNA_PATH_LENGTH + devices_cost (all_devices cat) < n -> df_inode_index F + devices_size (all_devices cat) < 2 ^ 63 ->
  exists W' A' F' f' h n' N,
    devfs_walk drivers_list fs r path vnid (st k f s) = Ret (walk_result W' f' r path vnid) (st (set_heap h k) f' s) /\
    dwf U fs W' A' [] F' f' /\ (forall c, c ∈ A' -> c ∈ B ++ N ++ Dd) /\
    room B (N ++ Dd) n' (set_heap h k) /\ (forall c, c ∈ N -> object f' (c + DNA_KERNEL_BLOCK_SIZE)) /\
    n - (cost DNA_PATH_LENGTH + devices_cost (all_devices cat)) <= n' /\
    (forall names, names ∈ all_devices cat -> take (length path) (path_of names) = path -> shown fs W' f' r names) /\
    (forall b w front i, member fs W f b w -> resolve fs W f b front = Some i -> resolve fs W' f' b front = Some i).
Proof.
  intros Hfs HU Hwf Hr Hsub Hroot Hst Hok Hpath Hcost Hidx.
  destruct (devfs_walk_root U fs Hfs HU drivers_list cat W A [] F f n k B Dd r vr path vnid s)
    as (W' & A' & F' & f' & n' & h & Hrun & [Hwf' _ Hg [(N & Hroom' & Hsub' & Hnew) Hn]] & Hs); try done.
  exists W', A', F', f', h, n', N. split_and!; try done.
  - intros c Hc. by apply (d_used _ _ _ _ _ _ _ Hwf'), Hnew.
  - intros b w front i Hb Hres. by eapply (resolve_grows U fs W A).
Qed.

(** When the drivers start, the mount succeeds: the tree is made of the root, whose "."
    and ".." lead to itself; the root is a vnode of the volume with one reference. *)
Theorem devfs_mount_spec `{Hal} {D} U {room} `{Heap room} drivers_list vid dev_path flags params k (f : dfs D) s A Dd n vn vo vol :
  (forall p, 0 < p < 2 ^ 32 -> p ∈ U) -> blank U f -> Forall ready_driver drivers_list -> room A Dd n k ->
  cost sizeof_devfs + inode_cost None [] + 2 * cost sizeof_devfs_entry + cost (sizeof_vnode + 0x1F) < n ->
  qwf U (vq s) (view vn vo) -> locks k !! LVnodeList = None -> locks k !! LVolumeList = None -> in_heap (A ++ Dd) vn vo ->
  List.find (volume_id_inspector s vid) vo = Some vol -> vol <> 0 -> node vn s vid 1 = None ->
  exists fs root v W O F f' s', devfs_mount drivers_list vid dev_path flags params (st k f s) = Ret (DNA_OK, (fs, 1)) s' /\
    fsd s' = f' /\ dwf U fs W O [] F f' /\ (exists n', holds room O n' (kern s')) /\
    root_inode fs root (mkInode 1 DNA_DEVFS_DIRECTORY 0 [] 0 0 0 0 []) W F f' /\
    listing W f' root = [mkEntry 1 false devfs_dot; mkEntry 1 false devfs_dotdot] /\
    qwf U (vq s') (view (vn ++ [v]) vo) /\
    (exists a, vnodes s' !! v = Some (mkVnode 1 vol false 1 root a)).
Proof.
  intros HU Hb Hready Hroom Hcost Hvq Hl1 Hl2 Hih Hvol Hvol0 Hnode.
  destruct (devfs_mount_ok U HU drivers_list vid dev_path flags params k f s A Dd n vn vo vol)
    as (fs & root & W & O & F & h & f' & q & c & Hrun & Hq & Hfs & (Hwf & Hroot & HL & _) & Hh); try done.
  eexists fs, root, _, W, O, F, f', _. split; [exact Hrun|]. split; [done|]. split; [done|]. split; [by eexists|].
  split; [done|]. split; [done|]. split; [exact Hq|]. eexists. apply lookup_insert_eq.
Qed.

(** Opening the inode that the names of a device lead to calls the open function of the
    driver with the name that it published. *)
Theorem devfs_open_device `{Hal} {D} U (devcmds : Z -> option (device_cmd_t D)) ns {room} `{Heap room}
    W A P F (f : dfs D) n k r vr names i w c op mode data s :
  dwf U ns W A P F f -> holds room A n k -> root_inode ns r vr W F f -> Forall name_ok names -> names <> [] ->
  resolve ns W f r names = Some i -> member ns W f i w -> dn_class w = DNA_DEVFS_FILE ->
  devcmds (dn_dev_cmd w) = Some c -> dc_open c = Some op ->
  devfs_open devcmds ns i mode data (st k f s) = ondrv (op (path_of names) mode data) (st k f s).
Proof.
  intros Hwf (B & Dd & Hroom & Hsub) [Hr [_ Hid]] Hok Hne Hres Hi Hcl Hc Hop.
  assert (forall j v, member ns W f j v -> j <> 0) as H0'.
  { intros j v Hj. eapply (live_address U ns B B Dd ltac:(done) W A P F f Hwf n k); [by apply owned_none|left; by eexists; apply Hj]. }
  pose proof (resolve_path U ns W A P F f names Hwf H0' r vr i w Hr Hok Hne Hres Hi) as Hp.
  unfold prefix_of in Hp. rewrite Hid, Z.eqb_refl in Hp. cbn [child_path] in Hp.
  unfold devfs_open, rd_inode, dev_cmd, bind, ondev, lift, gets. cbn [fsd st set_fsd set_kern].
  destruct Hi as [_ Hi]. rewrite Hi. cbn [deref ret]. rewrite Hcl.
  assert (set_fsd f (st k f s) = st k f s) as -> by done. unfold ret at 1. by rewrite Hc; cbn [deref]; unfold ret; rewrite Hop, Hp.
Qed.

(** C39: the vnode of a device cannot be given back.  In any tree of the device file system,
    devfs_write_vnode on an inode that is not a directory and has a parent finds its entry [e]
    in the parent, frees the entry and then the inode, and then reads the parent of the freed
    inode: when both calls of kernel_free return, the run is a fault in a state where the
    inode is gone. *)
Theorem devfs_release_faults `{Hal} {D} U fs {room} `{Heap room} W A F (f : dfs D) n k i w s :
  dwf U fs W A [] F f -> holds room A n k -> member fs W f i w ->
  dn_class w <> DNA_DEVFS_DIRECTORY -> dn_parent w <> 0 ->
  exists e, e ∈ W (DEntries (dn_parent w)) /\
    (forall r s', devfs_write_vnode fs i (st k f s) <> Ret r s') /\
    forall st1 k1 st2 k2, kernel_free e k = Ret st1 k1 -> kernel_free i k1 = Ret st2 k2 ->
      exists s', devfs_write_vnode fs i (st k f s) = Fault s' /\ dinodes (fsd s') !! i = None.
Proof.
  intros Hwf Hh Hi Hc Hp.
  assert (exists m, devfs_fuel (st k f s) = Ret (S (S m)) (st k f s)) as [m Hm].
  { unfold devfs_fuel, ondev, lift, gets. cbn [fsd st set_fsd set_kern].
    destruct (size (dinodes f)) as [|m] eqn:Hz; [|by eexists].
    apply map_size_empty_inv in Hz. destruct Hi as [_ Hi]. by rewrite Hz in Hi. }
  destruct (devfs_clean_file U fs W A F f Hwf n k Hh i w s m Hi Hc Hp) as (e & l1 & l2 & q & He0 & Hl & Hq & Hrun).
  assert (i <> 0) as Hi0.
  { destruct Hh as (B & Dd & Hr & Hsub).
    eapply (live_address U fs B B Dd ltac:(done) W A [] F f Hwf n k); [by apply owned_none|left; by eexists; apply Hi]. }
  destruct (release_rest_faults U fs i w e m k (set_dq q f) _ s Hq) as [Hfault Hnever];
    [rewrite vupd_ne by done; apply Hi|apply Hi|done|done|].
  exists e. split; [rewrite Hl; set_solver|]. unfold devfs_write_vnode. split.
  - intros r s' Hret. rewrite (bind_Ret _ _ _ _ _ Hm) in Hret. apply bind_inv in Hret as (st0 & s1 & Hr & _).
    rewrite Hrun in Hr. by eapply Hnever.
  - intros st1 k1 st2 k2 H1 H2. destruct (Hfault st1 k1 st2 k2 H1 H2) as (s' & Hs' & Hgone). exists s'. split; [|done].
    rewrite (bind_Ret _ _ _ _ _ Hm). unfold bind at 1. rewrite Hrun. by rewrite Hs'.
Qed.
