(* ===== verification/DevfsScenario.v ===== *)
(** * A mounted device file system

    Two drivers, a console and a disk, on which the theorems of DevfsWalk.v are instantiated;
    and a session, evaluated: the device file system is mounted, the console is walked to,
    opened, and its vnode given back, which is a fault. *)

From S2P Require Import Prelude Status CLib Queue Allocator AllocatorSpec Kernel Logic Memory Scheduler Alarm Thread Semaphore AlarmHandler Interrupt Port Core Scenario Vfs VfsSpec VfsHeap Devfs DevfsTree DevfsSpec DevfsWalk.

#[local] Existing Instance hal2.

Definition console : list (list Z) := [[99; 111; 110; 115; 111; 108; 101]].
Definition disk0 : list (list Z) := [[100; 105; 115; 107]; [48]].

(** The state of the drivers: the names of the devices that have been opened. *)
Definition log : Type := list (list Z).
Definition console_cmd : device_cmd_t log :=
  mkDevcmd (Some (fun name mode data => (modify (fun kd => (kd.1, kd.2 ++ [name])) ;; ret (DNA_OK, 7)))) None None None None None.
Definition device_table (address : Z) : option (device_cmd_t log) := if address =? 0x4000 then Some console_cmd else None.

Definition driver_of (devices : list (list (list Z))) (table : Z) : driver_t log :=
  mkDriver (ret DNA_OK) (ret DNA_OK) (ret tt) (ret (path_of <$> devices)) (fun _ => ret table).
Definition two_drivers : list (driver_t log) := [driver_of [console] 0x4000; driver_of [disk0] 0x5000].
Definition two_catalog : catalog := [([console], fun _ => 0x4000); ([disk0], fun _ => 0x5000)].

Lemma two_static : static_drivers two_drivers two_catalog.
Proof. repeat constructor. Qed.
Lemma two_ready : Forall ready_driver two_drivers.
Proof. apply Forall_forall. intros driver Hd kd. repeat (apply elem_of_cons in Hd as [->|Hd]); [..|by apply not_elem_of_nil in Hd]; split; exists kd.2; by destruct kd. Qed.
Lemma name_console_ok : Forall name_ok console /\ Forall name_ok disk0.
Proof. split; repeat constructor; try done; set_solver. Qed.
Lemma two_devices_ok : Forall device_ok (all_devices two_catalog).
Proof. destruct name_console_ok. apply Forall_cons; split; [by split_and!|]. apply Forall_cons; split; [by split_and!|apply Forall_nil_2]. Qed.

Definition no_devices : dfs log := mkDfs (mkQ ∅ ∅) ∅ ∅ ∅ [].

Definition no_system : vstate (dfs log) := mkVs boot_kern (mkQ ∅ ∅) ∅ ∅ ∅ 0 0 ∅ ∅ no_devices.

(** ** The theorems on it *)

Lemma addresses : exists U : gset Z, (forall p, 0 < p < 2 ^ 32 -> p ∈ U) /\ Z.of_nat (size U) < 2 ^ 32.
Proof.
  exists (list_to_set (seqZ 1 (2 ^ 32 - 1))). split.
  - intros p Hp. apply elem_of_list_to_set, elem_of_seqZ. lia.
  - rewrite size_list_to_set by apply NoDup_seqZ. rewrite length_seqZ, Z2Nat.id by lia. lia.
Qed.

(** A kernel with one volume: the objects of the theorem on the mount. *)
Lemma one_volume U : Z.of_nat (size U) < 2 ^ 32 -> (forall p, 0 < p < 2 ^ 32 -> p ∈ U) ->
  exists c k (s : vstate (dfs log)), let vol := c + DNA_KERNEL_BLOCK_SIZE in
    worst_fit_room [c] [] 2000 k /\ qwf U (vq s) (view [] [vol]) /\ locks k !! LVnodeList = None /\
    locks k !! LVolumeList = None /\ in_heap ([c] ++ []) [] [vol] /\
    List.find (volume_id_inspector s 0) [vol] = Some vol /\ vol <> 0.
Proof.
  intros HU Hin. destruct (heap_malloc [] [] 2047 boot_kern 40 true boot_room) as (c & h & _ & Hc & Hr); [done|vm_compute; done|].
  pose proof (heap_address _ _ _ _ c Hr ltac:(by left)) as [Hc0 _]. cbn [app] in Hr.
  destruct (queue_add_ok U (mkQ ∅ ∅) (fun _ => []) QVolumes (c + DNA_KERNEL_BLOCK_SIZE) (qwf_init U HU)) as (q & _ & Hq);
    [intros x; apply not_elem_of_nil|apply Hin; unfold DNA_KERNEL_BLOCK_SIZE, sizeof_region in *; lia|].
  exists c, (set_heap h boot_kern), (mkVs boot_kern q {[c + DNA_KERNEL_BLOCK_SIZE := mkVolume 0 (-1) 0 (-1) 7 0]} ∅ ∅ 1 0 ∅ ∅ no_devices).
  cbv zeta. split_and!; try done.
  - destruct Hr as (Hl & F & Hlive & y & Hy & Hn). split; [done|]. exists F. split; [done|]. exists y. split; [done|].
    assert (cost 40 = 4) as Hcost by (vm_compute; reflexivity). lia.
  - eapply qwf_ext; [|exact Hq]. by intros [|].
  - split; intros x Hx; [by apply not_elem_of_nil in Hx|]. apply list_elem_of_singleton in Hx. subst x. exists c. split; [by left|done].
  - cbn [List.find]. unfold volume_id_inspector. cbn [volumes]. by rewrite lookup_singleton_eq.
  - unfold DNA_KERNEL_BLOCK_SIZE, sizeof_region. lia.
Qed.

Lemma no_devices_blank U : Z.of_nat (size U) < 2 ^ 32 -> blank U no_devices.
Proof. intros HU. by split; [apply qwf_init| |]. Qed.

Lemma devfs_mount_spec_witness :
  exists (s0 : vstate (dfs log)) fs root W O F s', devfs_mount two_drivers 0 [] 0 0 s0 = Ret (DNA_OK, (fs, 1)) s' /\
    (exists U, dwf U fs W O [] F (fsd s')) /\ listing W (fsd s') root = [mkEntry 1 false devfs_dot; mkEntry 1 false devfs_dotdot].
Proof.
  destruct addresses as (U & HU & Hsize). destruct (one_volume U Hsize HU) as (c & k & s & Hr & Hq & H1 & H2 & Hh & Hf & H0).
  destruct (devfs_mount_spec U two_drivers 0 [] 0 0 k no_devices s [c] [] 2000 [] [c + DNA_KERNEL_BLOCK_SIZE] (c + DNA_KERNEL_BLOCK_SIZE)
    HU (no_devices_blank U Hsize) two_ready Hr ltac:(vm_compute; reflexivity) Hq H1 H2 Hh Hf H0 eq_refl)
    as (fs & root & v & W & O & F & f' & s' & Hrun & Hf' & Hwf & _ & _ & HL & _).
  exists (st k no_devices s), fs, root, W, O, F, s'. split; [exact Hrun|]. split; [exists U; by rewrite Hf'|by rewrite Hf'].
Defined.

(** The tree after the mount. *)
Lemma mounted_devices : exists U fs root W O k (f : dfs log) (s : vstate (dfs log)), (forall p, 0 < p < 2 ^ 32 -> p ∈ U) /\ fs <> 0 /\
  with_root U root 0 fs W O (mkDevfs 2 1 0) f /\ holds worst_fit_room O 1900 k.
Proof.
  destruct addresses as (U & HU & Hsize). destruct (one_volume U Hsize HU) as (c & k & s & Hr & Hq & H1 & H2 & Hh & Hf & H0).
  destruct (devfs_mount_ok U HU two_drivers 0 [] 0 0 k no_devices s [c] [] 2000 [] [c + DNA_KERNEL_BLOCK_SIZE] (c + DNA_KERNEL_BLOCK_SIZE)
    (no_devices_blank U Hsize) two_ready Hr ltac:(vm_compute; reflexivity) Hq H1 H2 Hh Hf H0 eq_refl)
    as (fs & root & W & O & F & h & f' & q & c' & _ & _ & Hfs & Hroot & (B & Dd & (Hl & G & Hlive & y & Hy & Hn) & Hsub)).
  pose proof Hroot as (_ & _ & _ & ->). exists U, fs, root, W, O, (set_heap h k), f', s. split_and!; [done|done|done|].
  exists B, Dd. split; [|done]. split; [done|]. exists G. split; [done|]. exists y. split; [done|].
  eapply Z.le_trans; [|exact Hn]. vm_compute. discriminate.
Qed.

Lemma devfs_insert_preserves_witness :
  exists U fs root W' A' F' k s (f' : dfs log), (exists r, devfs_inode_insert 7 fs root (path_of disk0) 0x5000 s = Ret r (st k f' s)) /\
    dwf U fs W' A' [] F' f'.
Proof.
  destruct mounted_devices as (U & fs & root & W & O & k & f & s & HU & Hfs & (Hwf & [Hm _] & HL & _) & Hh).
  destruct (devfs_insert_preserves U fs W O [] (mkDevfs 2 1 0) f 1900 k root vroot disk0 0x5000 s Hfs HU Hwf Hh Hm eq_refl ltac:(done)
    (proj2 name_console_ok) ltac:(vm_compute; reflexivity) ltac:(vm_compute; reflexivity) ltac:(vm_compute; reflexivity))
    as (r & W' & A' & F' & f' & h & n' & Hrun & Hwf' & _).
  exists U, fs, root, W', A', F', (set_heap h k), (st k f s), f'. split; [exists r; exact Hrun|done].
Defined.

Lemma devfs_insert_reaches_witness :
  exists fs root W' k s (f' : dfs log) i w, devfs_inode_insert 7 fs root (path_of disk0) 0x5000 s = Ret DNA_OK (st k f' s) /\
    resolve fs W' f' root disk0 = Some i /\ dinodes f' !! i = Some w /\ dn_path w = path_of disk0.
Proof.
  destruct mounted_devices as (U & fs & root & W & O & k & f & s & HU & Hfs & (Hwf & [Hm _] & HL & _) & Hh).
  assert (insert_status fs W f root disk0 = (DNA_OK, root)) as Hst by (cbn [insert_status disk0]; by rewrite HL).
  pose proof (devfs_insert_reaches U fs W O [] (mkDevfs 2 1 0) f 1900 k root vroot disk0 0x5000 s Hfs HU Hwf Hh Hm eq_refl ltac:(done)
    (proj2 name_console_ok) ltac:(vm_compute; reflexivity) ltac:(vm_compute; reflexivity) ltac:(vm_compute; reflexivity)) as Hx.
  rewrite Hst in Hx. destruct Hx as (W' & f' & h & Hrun & Hok & _). destruct (Hok eq_refl) as (i & w & Hres & [_ Hi] & _ & _ & Hp).
  exists fs, root, W', (set_heap h k), (st k f s), f', i, w. split_and!; [exact Hrun|done|done|exact Hp].
Defined.

Lemma devfs_walk_spec_witness :
  exists fs root W' k s (f' : dfs log), devfs_walk two_drivers fs root (path_of console) 0 s =
      Ret (walk_result W' f' root (path_of console) 0) (st k f' s) /\ shown fs W' f' root console.
Proof.
  destruct mounted_devices as (U & fs & root & W & O & k & f & s & HU & Hfs & (Hwf & Hroot & HL & _) & (B & Dd & Hr & Hsub)).
  destruct (devfs_walk_spec U fs two_drivers two_catalog W O (mkDevfs 2 1 0) f 1900 k B Dd root vroot (path_of console) 0 s Hfs HU Hwf Hr Hsub Hroot
    two_static two_devices_ok ltac:(done) ltac:(vm_compute; reflexivity) ltac:(vm_compute; reflexivity))
    as (W' & A' & F' & f' & h & n' & N & Hrun & _ & _ & _ & _ & _ & Hs & _).
  exists fs, root, W', (set_heap h k), (st k f s), f'. split; [exact Hrun|]. apply Hs; [by left|reflexivity].
Defined.

(** The console, inserted below the root. *)
Lemma inserted_console : exists U fs W A F k (f : dfs log) i w,
  dwf U fs W A [] F f /\ (exists n, holds worst_fit_room A n k) /\ member fs W f i w /\ dn_class w = DNA_DEVFS_FILE /\ dn_parent w <> 0.
Proof.
  destruct mounted_devices as (U & fs & root & W & O & k & f & s & HU & Hfs & (Hwf & [Hm [_ Hid]] & HL & _) & Hh).
  assert (root <> 0) as Hr0.
  { pose proof Hh as (B & Dd & Hr & Hsub).
    eapply (live_address U fs B B Dd ltac:(done) W O [] (mkDevfs 2 1 0) f Hwf 1900 k); [by apply owned_none|left; by eexists; apply Hm]. }
  assert (insert_status fs W f root console = (DNA_OK, root)) as Hst by (cbn [insert_status console]; by rewrite HL).
  destruct (insert_run U fs Hfs HU W O [] (mkDevfs 2 1 0) f 1900 k root vroot console 0x4000 s)
    as (r & W' & A' & F' & f' & n' & h & Ka & Kb & Dd & _ & [Hr Hwf' _ Hg _ Hok _ _] & Hh');
    [done|split_and!; [done|apply name_console_ok|vm_compute; reflexivity..]|].
  rewrite Hst in Hr. destruct (Hok Hr) as (i & w & Hres & Hi & Hc & _).
  exists U, fs, W', A', F', (set_heap h k), f', i, w. split_and!; [done|by exists n'|done|done|].
  cbn [resolve console] in Hres. destruct (child fs W' f' root _) as [j|] eqn:Hch; [|done]. injection Hres as ->.
  pose proof Hch as Hch'. unfold child in Hch'. destruct (assoc _ (listing W' f' root)) as [id|] eqn:Ha; [|done].
  destruct (child_some U fs W' A' [] F' f' Hwf' root vroot _ id (g_inodes _ _ _ _ _ Hg _ _ Hm) Ha)
    as (e & i' & w' & _ & Hn & (Hi' & _ & Hd) & _ & Hch2).
  rewrite Hch in Hch2. injection Hch2 as <-. assert (w' = w) as -> by (destruct Hi, Hi'; congruence).
  rewrite Hn in Hd. destruct Hd as [Hd|[Hd|[-> _]]]; [done|done|done].
Qed.

Lemma devfs_release_faults_witness :
  exists fs i k (f : dfs log) s, forall r s', devfs_write_vnode fs i (st k f s) <> Ret r s'.
Proof.
  destruct inserted_console as (U & fs & W & A & F & k & f & i & w & Hwf & (n & Hh) & Hi & Hc & Hp).
  destruct (devfs_release_faults U fs W A F f n k i w no_system Hwf Hh Hi ltac:(by rewrite Hc) Hp) as (e & _ & Hnever & _).
  by exists fs, i, k, f, no_system.
Defined.

Lemma devfs_open_device_witness :
  exists fs i k (f : dfs log) s, devfs_open device_table fs i 0 0 (st k f s) =
    ondrv (modify (fun kd => (kd.1, kd.2 ++ [path_of console])) ;; ret (DNA_OK, 7)) (st k f s).
Proof.
  destruct mounted_devices as (U & fs & root & W & O & k & f & s & HU & Hfs & (Hwf & [Hm [_ Hid]] & HL & _) & Hh).
  assert (insert_status fs W f root console = (DNA_OK, root)) as Hst by (cbn [insert_status console]; by rewrite HL).
  destruct (insert_run U fs Hfs HU W O [] (mkDevfs 2 1 0) f 1900 k root vroot console 0x4000 s)
    as (r & W' & A' & F' & f' & n' & h & Ka & Kb & Dd & _ & [Hr Hwf' [Hv _] Hg _ Hok _ _] & Hh');
    [done|split_and!; [done|apply name_console_ok|vm_compute; reflexivity..]|].
  rewrite Hst in Hr. destruct (Hok Hr) as (i & w & Hres & Hi & Hc & Hcmd & _).
  exists fs, i, (set_heap h k), f', s.
  exact (devfs_open_device U device_table fs W' A' [] F' f' n' (set_heap h k) root vroot console i w console_cmd _ 0 0 s Hwf' Hh'
    (conj (g_inodes _ _ _ _ _ Hg _ _ Hm) (conj eq_refl (eq_trans Hid (eq_sym Hv)))) (proj1 name_console_ok) ltac:(done) Hres Hi Hc
    ltac:(by rewrite Hcmd) eq_refl).
Defined.

(** ** A session *)

(** Mount, walk to the console, load its inode and open it: the statuses, the file system and
    the inode. *)
Definition session : V (dfs log) (list status_t * Z * Z) :=
  let* v := volume_create 0 (-1) 7 in
  let* m := devfs_mount two_drivers 0 [] 0 0 in
  let fs := m.2.1 in
  let* root := devfs_read_vnode fs m.2.2 0 in
  let* w := devfs_walk two_drivers fs root.2 (path_of console) (-1) in
  let* node := devfs_read_vnode fs w.2 0 in
  let* o := devfs_open device_table fs node.2 0 0 in
  ret ([v.1; m.1; root.1; w.1; node.1; o.1], fs, node.2).

Definition session_end : outcome (vstate (dfs log)) (list status_t * Z * Z) := session no_system.

(** On a system with a console and a disk, the console is walked to from the root of the
    mounted file system, its inode is loaded and its driver is called to open "console"; giving
    the vnode back is a fault ([devfs_release_faults]). *)
Example devfs_session :
  match session_end with
  | Ret (statuses, fs, node) s =>
      statuses = replicate 6 DNA_OK /\ drivers (fsd s) = [path_of console] /\
      match devfs_write_vnode fs node s with Fault s' => dinodes (fsd s') !! node = None | _ => False end
  | _ => False
  end.
Proof. vm_compute. by repeat split. Qed.
