(* ===== verification/Block.v ===== *)
(** * The driver of the block device (SoclibBlockDriver)

    A transfer reads or writes whole blocks of the device through a buffer of the kernel heap;
    block_device_read and block_device_write move bytes between the buffer and the caller.  The
    device is programmed through eight registers and accesses the memory itself: [reg_write] and
    [reg_read] act on the device and on the memory.  Its end is polled, or signalled by an
    interrupt, for which the caller waits on a semaphore; the functions are cut there, as in
    Semaphore.v.

    kernel_malloc clears the buffer of a read, which matters when the device returns less than it
    was asked for; BlockSpec.v states what the device promises and proves the transfers. *)

From S2P Require Import Prelude Status CLib Queue Allocator Kernel Logic Memory Scheduler Alarm Thread Semaphore Interrupt.

(** Private/block_device.h *)
Definition BLOCK_DEVICE_BUFFER : Z := 0.
Definition BLOCK_DEVICE_LBA : Z := 1.
Definition BLOCK_DEVICE_COUNT : Z := 2.
Definition BLOCK_DEVICE_OP : Z := 3.
Definition BLOCK_DEVICE_STATUS : Z := 4.
Definition BLOCK_DEVICE_IRQ_ENABLE : Z := 5.
Definition BLOCK_DEVICE_SIZE : Z := 6.
Definition BLOCK_DEVICE_BLOCK_SIZE : Z := 7.

Definition BLOCK_DEVICE_READ : Z := 1.
Definition BLOCK_DEVICE_WRITE : Z := 2.

Definition BLOCK_DEVICE_BUSY : Z := 1.
Definition BLOCK_DEVICE_READ_SUCCESS : Z := 2.
Definition BLOCK_DEVICE_WRITE_SUCCESS : Z := 3.

Inductive block_device_access_t : Type := READ | WRITE.

Record block_device_control_t := mkBlk {
  bd_semaphore_id : Z;
  bd_isr_semaphore_id : Z;
  bd_should_enable_irq : bool;
  bd_irq : Z;
  bd_block_count : Z;
  bd_block_size : Z;
  bd_port : Z
}.

(** An entry of SOCLIB_BLOCK_DEVICES, which the application gives. *)
Record block_device_t := mkBdev { d_should_enable_irq : Z; d_irq : Z; d_base_address : Z }.

(** [blk_controls] are the objects of the array at [block_device_controls], by their addresses. *)
Record blk (D : Type) := mkBlkState {
  blk_kern : kstate;
  blk_mem : mem;
  blk_dev : D;
  blk_controls : gmap Z block_device_control_t;
  block_device_controls : Z
}.
Arguments mkBlkState {D}.
Arguments blk_kern {D}.
Arguments blk_mem {D}.
Arguments blk_dev {D}.
Arguments blk_controls {D}.
Arguments block_device_controls {D}.

Definition sizeof_block_device_control : Z := 28.

Section Block.
Context {D : Type} `{Hal}.
(** cpu_write and cpu_read of a register: the address of the registers, the register. *)
Context (reg_write : Z -> Z -> Z -> M (D * mem) unit) (reg_read : Z -> Z -> M (D * mem) Z).
Context (SOCLIB_BLOCK_DEVICES : list block_device_t).
Context (demultiplexer isr_address : Z).           (* interrupt_demultiplexer, block_device_isr *)

Definition set_blk_kern v (s : blk D) := mkBlkState v (blk_mem s) (blk_dev s) (blk_controls s) (block_device_controls s).
Definition set_blk_mem v (s : blk D) := mkBlkState (blk_kern s) v (blk_dev s) (blk_controls s) (block_device_controls s).
Definition set_blk_dev (v : D * mem) (s : blk D) := mkBlkState (blk_kern s) v.2 v.1 (blk_controls s) (block_device_controls s).
Definition set_blk_controls v (s : blk D) := mkBlkState (blk_kern s) (blk_mem s) (blk_dev s) v (block_device_controls s).
Definition set_block_device_controls v (s : blk D) := mkBlkState (blk_kern s) (blk_mem s) (blk_dev s) (blk_controls s) v.
Definition onblkk {A} (m : K A) : M (blk D) A := lift blk_kern set_blk_kern m.
Definition onblkm {A} (m : M mem A) : M (blk D) A := lift blk_mem set_blk_mem m.
Definition onregs {A} (m : M (D * mem) A) : M (blk D) A := lift (fun s => (blk_dev s, blk_mem s)) set_blk_dev m.

Definition rd_control (p : Z) : M (blk D) block_device_control_t := let* m := gets blk_controls in deref (m !! p).

(** ** access_device_blocks.c *)

(** do { cpu_read (...) } while (operation_status == BLOCK_DEVICE_BUSY); *)
Fixpoint poll (fuel : nat) (port : Z) : M (D * mem) Z :=
  match fuel with
  | O => diverge
  | S fuel =>
      let* operation_status := reg_read port BLOCK_DEVICE_STATUS in
      if operation_status =? BLOCK_DEVICE_BUSY then poll fuel port else ret operation_status
  end.

Definition operation (read_or_write : block_device_access_t) : Z :=
  match read_or_write with READ => BLOCK_DEVICE_READ | WRITE => BLOCK_DEVICE_WRITE end.

(** The writes to the registers; the last one starts the transfer. *)
Definition program (port access block_offset block_count irq : Z) (read_or_write : block_device_access_t) : M (D * mem) unit :=
  reg_write port BLOCK_DEVICE_BUFFER (u32 access) ;;
  reg_write port BLOCK_DEVICE_COUNT (u32 block_count) ;;
  reg_write port BLOCK_DEVICE_LBA (u32 block_offset) ;;
  reg_write port BLOCK_DEVICE_IRQ_ENABLE irq ;;
  reg_write port BLOCK_DEVICE_OP (operation read_or_write).

Definition access_device_blocks (fuel : nat) (block_device access block_offset block_count : Z)
    (read_or_write : block_device_access_t) : M (blk D) (switched status_t acquire_frame) :=
  let* it_status := onblkk cpu_trap_mask_and_backup in
  let* b := rd_control block_device in
  if bd_should_enable_irq b then
    onregs (program (bd_port b) access block_offset block_count 1 read_or_write) ;;
    onblkk (cpu_trap_restore it_status) ;;
    let* r := onblkk (semaphore_acquire (bd_isr_semaphore_id b) 1 0 (-1)) in
    match r with Returned _ => ret (Returned DNA_OK) | Switched f => ret (Switched f) end
  else
    onregs (program (bd_port b) access block_offset block_count 0 read_or_write) ;;
    let* operation_status := onregs (poll fuel (bd_port b)) in
    onblkk (cpu_trap_restore it_status) ;;
    ensure (operation_status =? BLOCK_DEVICE_READ_SUCCESS) || (operation_status =? BLOCK_DEVICE_WRITE_SUCCESS)
      orelse Returned DNA_ERROR in
    ret (Returned DNA_OK).
Definition access_device_blocks_resume (f : acquire_frame) : M (blk D) status_t :=
  onblkk (semaphore_acquire_resume f) ;; ret DNA_OK.

(** ** block_device_read.c *)

(** while (quot > 0) { dna_memcpy (destination, buffer, block_size); ... } *)
Fixpoint copy_blocks (quot : nat) (destination buffer block_size : Z) : M mem unit :=
  match quot with
  | O => ret tt
  | S quot =>
      dna_memcpy destination buffer block_size ;;
      copy_blocks quot (destination + block_size) (buffer + block_size) block_size
  end.

(** "Remainder from first block", "Block transfers", "Remainder from last block". *)
Definition read_pieces (destination read_buffer offset count block_size : Z) : M mem unit :=
  let remaining_bytes := u32 count in
  let local_offset := u32 (Z.rem offset block_size) in
  let local_p_count := if u32 (block_size - local_offset) <? remaining_bytes
                       then u32 (remaining_bytes - u32 (block_size - local_offset)) else remaining_bytes in
  let read_buffer := read_buffer + local_offset in
  dna_memcpy destination read_buffer local_p_count ;;
  let remaining_bytes := u32 (remaining_bytes - local_p_count) in
  let destination := destination + local_p_count in
  let read_buffer := read_buffer + local_p_count in
  let quot := remaining_bytes / block_size in
  copy_blocks (Z.to_nat quot) destination read_buffer block_size ;;
  let remaining_bytes := remaining_bytes - quot * block_size in
  if 0 <? remaining_bytes then
    dna_memcpy (destination + quot * block_size) (read_buffer + quot * block_size) remaining_bytes ;; ret tt
  else ret tt.

Definition read_nb_blocks (offset count block_size : Z) : Z :=
  u32 (u32 count / block_size + 1 +
       (if (0 <? Z.quot (offset + count) block_size) && (0 <? Z.rem (offset + count) block_size) then 1 else 0)).

(** What the callers leave behind when a transfer fails: neither the buffer nor the semaphore
    are given back. *)
Inductive blk_frame : Type :=
| BkEnter (f : acquire_frame)                    (* block_device -> semaphore_id *)
| BkRead (buffer : Z) (f : acquire_frame)        (* the transfers, [buffer] being the area *)
| BkWrite (buffer : Z) (f : acquire_frame).

(** The end of block_device_read and of block_device_write. *)
Definition transfer_end (handler buffer : Z) : M (blk D) (switched status_t blk_frame) :=
  onblkk (kernel_free buffer) ;;
  let* b := rd_control handler in
  onblkk (semaphore_release (bd_semaphore_id b) 1 DNA_NO_RESCHEDULE) ;;
  ret (Returned DNA_OK).

Definition read_transferred (handler destination offset count buffer : Z) (status : status_t)
    : M (blk D) (switched status_t blk_frame) :=
  ensure st_eqb status DNA_OK orelse Returned DNA_ERROR in
  let* b := rd_control handler in
  onblkm (read_pieces destination buffer offset count (u32 (bd_block_size b))) ;;
  transfer_end handler buffer.

Definition read_entered (fuel : nat) (handler destination offset count : Z) : M (blk D) (switched status_t blk_frame) :=
  let* b := rd_control handler in
  let block_size := u32 (bd_block_size b) in
  if block_size =? 0 then fault
  else
    let nb_blocks := read_nb_blocks offset count block_size in
    let lba := u32 (Z.quot offset block_size) in
    let* read_buffer := onblkk (kernel_malloc (u32 (nb_blocks * block_size)) true) in
    ensure negb (read_buffer =? 0) orelse Returned DNA_OUT_OF_MEM in
    onblkm (modify (fun m => written m read_buffer (zeros (Z.to_nat (nb_blocks * block_size))))) ;;
    let* r := access_device_blocks fuel handler read_buffer lba (i32 nb_blocks) READ in
    match r with
    | Returned status => read_transferred handler destination offset count read_buffer status
    | Switched f => ret (Switched (BkRead read_buffer f))
    end.

Definition block_device_read (fuel : nat) (handler destination offset count : Z) : M (blk D) (switched status_t blk_frame) :=
  let* b := rd_control handler in
  ensure offset + count <=? i32 (bd_block_count b * bd_block_size b) orelse Returned DNA_BAD_ARGUMENT in
  let* r := onblkk (semaphore_acquire (bd_semaphore_id b) 1 0 (-1)) in
  match r with
  | Returned _ => read_entered fuel handler destination offset count
  | Switched f => ret (Switched (BkEnter f))
  end.
Definition block_device_read_resume (fuel : nat) (handler destination offset count : Z) (f : blk_frame)
    : M (blk D) (switched status_t blk_frame) :=
  match f with
  | BkEnter f => onblkk (semaphore_acquire_resume f) ;; read_entered fuel handler destination offset count
  | BkRead buffer f =>
      let* status := access_device_blocks_resume f in
      read_transferred handler destination offset count buffer status
  | BkWrite _ _ => fault
  end.

(** ** block_device_write.c *)

Definition write_pieces (bulk_buffer source offset count block_size : Z) : M mem unit :=
  let local_offset := i32 (Z.rem offset block_size) in
  let bulk_buffer := bulk_buffer + local_offset in
  let remaining_bytes := i32 count in
  let local_count := if i32 (block_size - local_offset) <? remaining_bytes
                     then i32 (block_size - local_offset) else remaining_bytes in
  let n := if 0 <? local_count then local_count else 0 in
  (if 0 <? local_count then dna_memcpy bulk_buffer source local_count ;; ret tt else ret tt) ;;
  let remaining_bytes := i32 (remaining_bytes - n) in
  let bulk_buffer := bulk_buffer + n in
  let source := source + n in
  let quot := Z.quot remaining_bytes block_size in
  copy_blocks (Z.to_nat quot) bulk_buffer source block_size ;;
  let done := Z.max 0 quot * block_size in
  let remaining_bytes := remaining_bytes - done in
  if 0 <? remaining_bytes then
    dna_memcpy (bulk_buffer + done) (source + done) remaining_bytes ;; ret tt
  else ret tt.

(** [block_start] and [nb_blocks]. *)
Definition write_blocks (offset count block_size : Z) : Z * Z :=
  let block_start := i32 (Z.quot offset block_size) in
  let block_end := i32 (Z.quot (offset + count) block_size) in
  (block_start, i32 (i32 (block_end - block_start) + 1)).

Definition write_written (handler buffer : Z) (status : status_t) : M (blk D) (switched status_t blk_frame) :=
  ensure st_eqb status DNA_OK orelse Returned DNA_ERROR in
  transfer_end handler buffer.

Definition write_read (fuel : nat) (handler source offset count buffer : Z) (status : status_t)
    : M (blk D) (switched status_t blk_frame) :=
  ensure st_eqb status DNA_OK orelse Returned DNA_ERROR in
  let* b := rd_control handler in
  onblkm (write_pieces buffer source offset count (bd_block_size b)) ;;
  let '(block_start, nb_blocks) := write_blocks offset count (bd_block_size b) in
  let* r := access_device_blocks fuel handler buffer block_start nb_blocks WRITE in
  match r with
  | Returned status => write_written handler buffer status
  | Switched f => ret (Switched (BkWrite buffer f))
  end.

Definition write_entered (fuel : nat) (handler source offset count : Z) : M (blk D) (switched status_t blk_frame) :=
  let* b := rd_control handler in
  let block_size := bd_block_size b in
  if block_size =? 0 then fault
  else
    let '(_, nb_blocks) := write_blocks offset count block_size in
    let* bulk_buffer := onblkk (kernel_malloc (u32 (nb_blocks * block_size)) false) in
    ensure negb (bulk_buffer =? 0) orelse Returned DNA_OUT_OF_MEM in
    let* r := access_device_blocks fuel handler bulk_buffer (Z.quot offset block_size) nb_blocks READ in
    match r with
    | Returned status => write_read fuel handler source offset count bulk_buffer status
    | Switched f => ret (Switched (BkRead bulk_buffer f))
    end.

Definition block_device_write (fuel : nat) (handler source offset count : Z) : M (blk D) (switched status_t blk_frame) :=
  let* b := rd_control handler in
  let* r := onblkk (semaphore_acquire (bd_semaphore_id b) 1 0 (-1)) in
  match r with
  | Returned _ => write_entered fuel handler source offset count
  | Switched f => ret (Switched (BkEnter f))
  end.
Definition block_device_write_resume (fuel : nat) (handler source offset count : Z) (f : blk_frame)
    : M (blk D) (switched status_t blk_frame) :=
  match f with
  | BkEnter f => onblkk (semaphore_acquire_resume f) ;; write_entered fuel handler source offset count
  | BkRead buffer f =>
      let* status := access_device_blocks_resume f in write_read fuel handler source offset count buffer status
  | BkWrite buffer f =>
      let* status := access_device_blocks_resume f in write_written handler buffer status
  end.

(** ** The other functions of the driver *)

(** The handler reads the registers of the first device. *)
Definition block_device_isr (data : Z) : M (blk D) status_t :=
  let* p := gets block_device_controls in
  let* b := rd_control p in
  let* operation_status := onregs (reg_read (bd_port b) BLOCK_DEVICE_STATUS) in
  ensure (operation_status =? BLOCK_DEVICE_READ_SUCCESS) || (operation_status =? BLOCK_DEVICE_WRITE_SUCCESS)
    orelse DNA_ERROR in
  onblkk (semaphore_release (bd_isr_semaphore_id b) 1 DNA_NO_RESCHEDULE) ;;
  ret DNA_INVOKE_SCHEDULER.

(** "block_device_", "_sem" and "_isr" *)
Definition semaphore_prefix : list Z := [98; 108; 111; 99; 107; 95; 100; 101; 118; 105; 99; 101; 95].
Definition suffix_sem : list Z := [95; 115; 101; 109].
Definition suffix_isr : list Z := [95; 105; 115; 114].
Definition semaphore_name (i : Z) : list Z := semaphore_prefix ++ rev (itoa_ascii i) ++ suffix_sem.

Definition wr_control (p : Z) (f : block_device_control_t -> block_device_control_t) : M (blk D) unit :=
  let* b := rd_control p in modify (fun s => set_blk_controls (<[p := f b]> (blk_controls s)) s).

(** The body of the loop of block_device_init_driver, for the object at [p]. *)
Definition init_device (p i : Z) (device : block_device_t) : M (blk D) unit :=
  let* r := onblkk (semaphore_create (Some (semaphore_name i)) 1 true) in
  let irq := negb (d_should_enable_irq device =? 0) in
  wr_control p (fun b => mkBlk (default (bd_semaphore_id b) r.2) (bd_isr_semaphore_id b) irq (bd_irq b)
    (bd_block_count b) (bd_block_size b) (d_base_address device)) ;;
  let* count := onregs (reg_read (d_base_address device) BLOCK_DEVICE_SIZE) in
  let* size := onregs (reg_read (d_base_address device) BLOCK_DEVICE_BLOCK_SIZE) in
  wr_control p (fun b => mkBlk (bd_semaphore_id b) (bd_isr_semaphore_id b) (bd_should_enable_irq b) (bd_irq b)
    (i32 count) (i32 size) (bd_port b)) ;;
  if irq then
    wr_control p (fun b => mkBlk (bd_semaphore_id b) (bd_isr_semaphore_id b) (bd_should_enable_irq b) (d_irq device)
      (bd_block_count b) (bd_block_size b) (bd_port b)) ;;
    onblkk (interrupt_attach demultiplexer 0 (d_irq device) 0 isr_address false) ;;
    let* r := onblkk (semaphore_create (Some (semaphore_name i ++ suffix_isr)) 0 true) in
    wr_control p (fun b => mkBlk (bd_semaphore_id b) (default (bd_isr_semaphore_id b) r.2) (bd_should_enable_irq b)
      (bd_irq b) (bd_block_count b) (bd_block_size b) (bd_port b))
  else ret tt.
Fixpoint init_devices (p i : Z) (devices : list block_device_t) : M (blk D) unit :=
  match devices with
  | [] => ret tt
  | device :: devices => init_device p i device ;; init_devices (p + sizeof_block_device_control) (i + 1) devices
  end.

(** kernel_malloc clears the objects. *)
Fixpoint cleared_controls (p : Z) (devices : list block_device_t) (m : gmap Z block_device_control_t) :=
  match devices with
  | [] => m
  | _ :: devices => cleared_controls (p + sizeof_block_device_control) devices (<[p := mkBlk 0 0 false 0 0 0 0]> m)
  end.
Definition block_device_init_driver : M (blk D) status_t :=
  let* p := onblkk (kernel_malloc (u32 (sizeof_block_device_control * Z.of_nat (length SOCLIB_BLOCK_DEVICES))) true) in
  modify (set_block_device_controls p) ;;
  ensure negb (p =? 0) orelse DNA_OUT_OF_MEM in
  modify (fun s => set_blk_controls (cleared_controls p SOCLIB_BLOCK_DEVICES (blk_controls s)) s) ;;
  init_devices p 0 SOCLIB_BLOCK_DEVICES ;;
  ret DNA_OK.

Fixpoint detach_devices (p : Z) (n : nat) : M (blk D) unit :=
  match n with
  | O => ret tt
  | S n =>
      let* b := rd_control p in
      (if bd_should_enable_irq b then onblkk (interrupt_detach 0 (bd_irq b) isr_address) ;; ret tt else ret tt) ;;
      detach_devices (p + sizeof_block_device_control) n
  end.
Definition block_device_uninit_driver : M (blk D) unit :=
  let* p := gets block_device_controls in
  detach_devices p (length SOCLIB_BLOCK_DEVICES) ;;
  onblkk (kernel_free p) ;;
  ret tt.

Definition block_device_init_hardware : M (blk D) status_t := ret DNA_OK.
(** "disk/simulator/0" *)
Definition block_devices : list (list Z) :=
  [[100; 105; 115; 107; 47; 115; 105; 109; 117; 108; 97; 116; 111; 114; 47; 48]].
Definition block_device_publish_devices : M (blk D) (list (list Z)) := ret block_devices.
(** The status and [*data]. *)
Definition block_device_open (name : list Z) (mode : Z) : M (blk D) (status_t * Z) :=
  let* p := gets block_device_controls in ret (DNA_OK, p).
Definition block_device_close (data : Z) : M (blk D) status_t := ret DNA_OK.
Definition block_device_free (data : Z) : M (blk D) status_t := ret DNA_OK.

(** The codes of the control functions, and what a call answers: the size of the device, or the
    type of the device in the information. *)
Inductive blk_control : Type := DNA_GET_DEVICE_SIZE | DNA_GET_INFO | OTHER_CONTROL.
Inductive blk_answer : Type := DeviceSize (size : Z) | DeviceInfo | NoAnswer.

(** The status, [*p_ret] and the answer; a NULL argument returns with the interrupts masked. *)
Definition block_device_control (handler : Z) (function : blk_control) (argument_ok : bool)
    : M (blk D) (status_t * option Z * blk_answer) :=
  ensure negb (handler =? 0) orelse (DNA_ERROR, None, NoAnswer) in
  let* it_status := onblkk cpu_trap_mask_and_backup in
  match function with
  | OTHER_CONTROL =>
      onblkk (cpu_trap_restore it_status) ;; ret (DNA_OK, Some (-1), NoAnswer)
  | _ =>
      ensure argument_ok orelse (DNA_ERROR, None, NoAnswer) in
      let* b := rd_control handler in
      onblkk (cpu_trap_restore it_status) ;;
      ret (DNA_OK, Some 0, match function with
                           | DNA_GET_DEVICE_SIZE => DeviceSize (i32 (bd_block_count b * bd_block_size b))
                           | _ => DeviceInfo
                           end)
  end.

End Block.
