(* ===== verification/BlockContract.v ===== *)
(** * What a block device promises, and polled transfers

    [BlockDevice] states what the device promises to the driver: a command that reads stores the
    blocks in the memory, a command that writes stores the memory in the blocks, and the status
    says so after a bounded number of readings, or when the device has raised its interrupt.
    [simulated] is a device that fulfils it: the one of
    the platform (sl_block_device.cpp of src/platform/hardware/rabbits/rabbits/components), without
    its command that changes the file and for a bus without errors.  The lemmas are about the
    arithmetic of the blocks, the copies between the buffer and the caller, the buffer and the
    semaphore of the device, and whole transfers of a device that is polled; the last theorem is about
    the errors of block_device_read. *)

From S2P Require Import Prelude Status Queue Allocator Kernel Logic AllocatorSpec AllocatorFree CLib Memory Scheduler Alarm Thread Semaphore Interrupt Block.

(** ** Copies by pieces *)

(** The bytes [l] at [src] can be copied at [dst]. *)
Record copyable (m : mem) (dst src : Z) (l : list Z) : Prop := {
  cp_source : segment m src l;
  cp_bytes : Forall isbyte l;
  cp_mapped : mapped m dst (length l);
  cp_apart : apart dst (length l) src (length l)
}.

Lemma copyable_step m dst src l1 l2 :
  copyable m dst src (l1 ++ l2) ->
  dna_memcpy dst src (Z.of_nat (length l1)) m = Ret dst (written m dst l1) /\
  copyable (written m dst l1) (dst + Z.of_nat (length l1)) (src + Z.of_nat (length l1)) l2.
Proof.
  intros [[H1 H2]%segment_app [Hb1 Hb2]%Forall_app Hm Ha]. rewrite length_app in Hm, Ha. split.
  - apply dna_memcpy_ok; [done|done|eapply mapped_sub; [exact Hm|lia|lia]|unfold apart in *; lia].
  - split; [apply segment_written; [unfold apart in *; lia|done]|done| |unfold apart in *; lia].
    apply mapped_written. eapply mapped_sub; [exact Hm|lia|lia].
Qed.

Lemma copy_blocks_ok bs : forall q m dst src l1 l2,
  copyable m dst src (l1 ++ l2) -> length l1 = (q * bs)%nat ->
  copy_blocks q dst src (Z.of_nat bs) m = Ret tt (written m dst l1) /\
  copyable (written m dst l1) (dst + Z.of_nat (length l1)) (src + Z.of_nat (length l1)) l2.
Proof.
  induction q as [|q IH]; intros m dst src l1 l2 Hc Hl.
  { apply nil_length_inv in Hl as ->. cbn [length written]. rewrite !Z.add_0_r. by split. }
  rewrite <- (take_drop bs l1) in Hc |- *. set (la := take bs l1) in *. set (lb := drop bs l1) in *.
  assert (length la = bs) as Ha by (unfold la; rewrite length_take; lia).
  assert (length lb = (q * bs)%nat) as Hb by (unfold lb; rewrite length_drop; lia).
  rewrite <- app_assoc in Hc. destruct (copyable_step _ _ _ _ _ Hc) as [Hrun Hc1]. rewrite Ha in Hrun, Hc1.
  destruct (IH _ _ _ _ _ Hc1 Hb) as [Hrun2 Hc2]. cbn [copy_blocks]. unfold bind at 1.
  rewrite Hrun, Hrun2, written_app, length_app, Nat2Z.inj_add, !Z.add_assoc, Ha. by split.
Qed.

(** The three copies of block_device_read and of block_device_write: [n] bytes, blocks, the rest. *)
Lemma pieces_ok m dst src l n bs (Hbs : 0 < bs) (Hn : 0 <= n <= Z.of_nat (length l)) :
  copyable m dst src l ->
  let len := Z.of_nat (length l) - n in let q := len / bs in
  (dna_memcpy dst src n ;; copy_blocks (Z.to_nat q) (dst + n) (src + n) bs ;;
   if 0 <? len - q * bs then dna_memcpy (dst + n + q * bs) (src + n + q * bs) (len - q * bs) ;; ret tt
   else ret tt) m = Ret tt (written m dst l).
Proof.
  intros Hc len q. pose proof (Z.div_mod len bs ltac:(lia)) as Hd. pose proof (Z.mod_pos_bound len bs Hbs) as Hm.
  assert (0 <= q) as Hq by (apply Z.div_pos; lia).
  set (l1 := take (Z.to_nat n) l). set (l2 := take (Z.to_nat (q * bs)) (drop (Z.to_nat n) l)).
  set (l3 := drop (Z.to_nat (q * bs)) (drop (Z.to_nat n) l)).
  assert (l = l1 ++ l2 ++ l3) as Hl by (unfold l1, l2, l3; by rewrite !take_drop).
  assert (Z.of_nat (length l1) = n) as H1 by (unfold l1; rewrite length_take; lia).
  assert (length l2 = Z.to_nat (q * bs)) as H2 by (unfold l2, q in *; rewrite length_take, length_drop; nia).
  assert (Z.of_nat (length l3) = len - q * bs) as H3 by (unfold l3, q in *; rewrite !length_drop; nia).
  rewrite Hl in Hc. destruct (copyable_step _ _ _ _ _ Hc) as [Hr1 Hc1]. rewrite H1 in Hr1, Hc1.
  destruct (copy_blocks_ok (Z.to_nat bs) (Z.to_nat q) _ _ _ _ _ Hc1) as [Hr2 Hc2]; [rewrite H2; lia|].
  rewrite Z2Nat.id in Hr2 by lia. rewrite H2, Z2Nat.id in Hc2 by nia.
  apply wp_run. apply wp_bind. eapply wp_eq; [exact Hr1|]. apply wp_bind. eapply wp_eq; [exact Hr2|].
  rewrite Hl, !written_app, H1, H2, Z2Nat.id by nia. apply wp_if; intros H; zbool.
  - rewrite <- (app_nil_r l3) in Hc2. destruct (copyable_step _ _ _ _ _ Hc2) as [Hr3 _]. rewrite H3 in Hr3.
    apply wp_bind. eapply wp_eq; [exact Hr3|]. by apply wp_ret.
  - assert (length l3 = 0%nat) as ->%nil_length_inv by (unfold q in *; nia). by apply wp_ret.
Qed.

Lemma read_pieces_ok m dst buf off l bs :
  0 < bs < 2 ^ 31 -> 0 <= off -> Z.of_nat (length l) < 2 ^ 31 ->
  copyable m dst (buf + off mod bs) l ->
  read_pieces dst buf off (Z.of_nat (length l)) bs m = Ret tt (written m dst l).
Proof.
  intros Hbs Hoff Hl Hc. pose proof (Z.mod_pos_bound off bs ltac:(lia)) as Hm. unfold read_pieces.
  rewrite Z.rem_mod_nonneg by lia. rewrite !(u32_id (Z.of_nat _)), (u32_id (off mod bs)), (u32_id (bs - _)) by lia.
  set (len := Z.of_nat (length l)) in *.
  destruct (bs - off mod bs <? len) eqn:E; zbool.
  - rewrite (u32_id (len - (bs - off mod bs))) by lia. rewrite u32_id by lia. apply pieces_ok; [lia|lia|done].
  - rewrite u32_id by lia. apply pieces_ok; [lia|lia|done].
Qed.

Lemma write_pieces_ok m src buf off l bs :
  0 < bs < 2 ^ 31 -> 0 <= off -> Z.of_nat (length l) < 2 ^ 31 ->
  copyable m (buf + off mod bs) src l ->
  write_pieces buf src off (Z.of_nat (length l)) bs m = Ret tt (written m (buf + off mod bs) l).
Proof.
  intros Hbs Hoff Hl Hc. pose proof (Z.mod_pos_bound off bs ltac:(lia)) as Hm. unfold write_pieces.
  rewrite Z.rem_mod_nonneg by lia. rewrite !(i32_id (Z.of_nat _)), (i32_id (off mod bs)), (i32_id (bs - _)) by lia.
  set (len := Z.of_nat (length l)) in *. set (n := if bs - off mod bs <? len then _ else _).
  assert (0 <= n <= len /\ (n = 0 -> len = 0)) as [Hn Hn0] by (unfold n; destruct (_ <? _) eqn:E; zbool; lia). clearbody n.
  rewrite (i32_id (len - _)) by (destruct (0 <? n); lia).
  destruct (0 <? n) eqn:E; zbool.
  - rewrite Z.quot_div_nonneg by lia. assert (0 <= (len - n) / bs) by (apply Z.div_pos; lia).
    rewrite Z.max_r by done. rewrite <- (pieces_ok m _ _ _ n bs ltac:(lia) Hn Hc).
    unfold bind, ret. by destruct (dna_memcpy _ _ _ m).
  - rewrite Hn0, Z.sub_diag, Z.quot_0_l by lia. assert (length l = 0%nat) as ->%nil_length_inv by lia. done.
Qed.

(** ** The contract of the device *)

(** The bytes [l] are stored in the disk from [a]; the disk grows when they go past its end. *)
Definition patched (disk : list Z) (a : nat) (l : list Z) : list Z :=
  take a disk ++ l ++ drop (a + length l) disk.

(** The bytes of [count] blocks from [lba], or those that the disk has. *)
Definition disk_blocks (disk : list Z) (bs lba count : Z) : list Z :=
  take (Z.to_nat (count * bs)) (drop (Z.to_nat (lba * bs)) disk).

Lemma patched_length disk a l : (a + length l <= length disk)%nat -> length (patched disk a l) = length disk.
Proof. intros H. unfold patched. rewrite !length_app, length_take, length_drop. lia. Qed.

Lemma patched_bytes disk a l : Forall isbyte disk -> Forall isbyte l -> Forall isbyte (patched disk a l).
Proof. intros Hd Hl. apply Forall_app; split; [by apply Forall_take|]. apply Forall_app; split; [done|by apply Forall_drop]. Qed.

(** Writing inside stored bytes patches them. *)
Lemma segment_patched m p data i l :
  segment m p data -> (i + length l <= length data)%nat -> segment (written m (p + Z.of_nat i) l) p (patched data i l).
Proof.
  intros Hs Hi. rewrite <- (take_drop i data), <- (take_drop (length l) (drop i data)) in Hs.
  apply segment_app in Hs as [H1 Hs]. apply segment_app in Hs as [_ H2].
  assert (length (take i data) = i) as Hli by (rewrite length_take; lia). rewrite Hli in H2.
  rewrite length_take, length_drop, Nat.min_l, drop_drop in H2 by lia.
  apply segment_app. split; [apply segment_written; [unfold apart; lia|done]|]. rewrite Hli.
  apply segment_app. split; [apply written_segment|]. apply segment_written; [unfold apart; lia|done].
Qed.

(** Patching blocks and storing them patches the disk. *)
Lemma patched_window disk a n i l :
  (a + n <= length disk)%nat -> (i + length l <= n)%nat ->
  patched disk a (patched (take n (drop a disk)) i l) = patched disk (a + i) l.
Proof.
  intros Hn Hi. assert (length (take n (drop a disk)) = n) as Hw by (rewrite length_take, length_drop; lia).
  unfold patched at 1. rewrite patched_length by lia. rewrite Hw. unfold patched.
  rewrite <- (take_take_drop disk a i), <- !app_assoc. do 2 f_equal.
  { rewrite take_take, Nat.min_l by lia. done. }
  f_equal. replace (a + i + length l)%nat with (a + (i + length l))%nat by lia. rewrite <- !drop_drop.
  set (X := drop a disk) in *. rewrite !drop_drop. rewrite <- (take_drop n X) at 3. by rewrite drop_app_le by lia.
Qed.

Section Contract.
Context {D : Type} (reg_write : Z -> Z -> Z -> M (D * mem) unit) (reg_read : Z -> Z -> M (D * mem) Z).

(** A command given with the interrupt enabled.  The device ends it by itself, by [ends], in a memory
    which has changed since and of which [before] holds: it leaves the memory [after], raises the
    interrupt and gives [status] to the first reading; [rest] holds of it then. *)
Definition signals (ends : D * mem -> D * mem -> Prop) (d : D) (port : Z) (before : mem -> Prop) (after : mem -> mem)
    (status : Z) (rest : D -> Prop) : Prop :=
  forall m, before m ->
    (exists x, ends (d, m) x) /\
    forall d1 m1, ends (d, m) (d1, m1) ->
      m1 = after m /\ exists d2, reg_read port BLOCK_DEVICE_STATUS (d1, m1) = Ret status (d2, m1) /\ rest d2.

(** [holds d port bs disk]: the device whose registers are at [port] is at rest, its blocks have
    [bs] bytes and [disk] is what it stores. *)
Class BlockDevice (patience : nat) (holds : D -> Z -> Z -> list Z -> Prop) (ends : D * mem -> D * mem -> Prop) : Prop := {
  device_bytes d port bs disk : holds d port bs disk -> Forall isbyte disk;
  device_read d m port bs disk access lba count fuel :
    holds d port bs disk -> 0 < bs -> 0 <= access < 2 ^ 32 -> 0 <= lba -> 0 < count -> (lba + count) * bs < 2 ^ 31 ->
    mapped m access (Z.to_nat (count * bs)) -> (patience <= fuel)%nat ->
    exists d', (program reg_write port access lba count 0 READ ;; poll reg_read fuel port) (d, m) =
        Ret BLOCK_DEVICE_READ_SUCCESS (d', written m access (disk_blocks disk bs lba count)) /\
      holds d' port bs disk;
  device_write d m port bs disk access lba count l fuel :
    holds d port bs disk -> 0 < bs -> 0 <= access < 2 ^ 32 -> 0 <= lba -> 0 < count -> (lba + count) * bs <= Z.of_nat (length disk) < 2 ^ 31 ->
    segment m access l -> Forall isbyte l -> Z.of_nat (length l) = count * bs -> (patience <= fuel)%nat ->
    exists d', (program reg_write port access lba count 0 WRITE ;; poll reg_read fuel port) (d, m) =
        Ret BLOCK_DEVICE_WRITE_SUCCESS (d', m) /\
      holds d' port bs (patched disk (Z.to_nat (lba * bs)) l);
  device_read_irq d m port bs disk access lba count :
    holds d port bs disk -> 0 < bs -> 0 <= access < 2 ^ 32 -> 0 <= lba -> 0 < count -> (lba + count) * bs < 2 ^ 31 ->
    exists d', program reg_write port access lba count 1 READ (d, m) = Ret tt (d', m) /\
      signals ends d' port (fun m => mapped m access (Z.to_nat (count * bs)))
        (fun m => written m access (disk_blocks disk bs lba count)) BLOCK_DEVICE_READ_SUCCESS (fun d => holds d port bs disk);
  device_write_irq d m port bs disk access lba count l :
    holds d port bs disk -> 0 < bs -> 0 <= access < 2 ^ 32 -> 0 <= lba -> 0 < count -> (lba + count) * bs <= Z.of_nat (length disk) < 2 ^ 31 ->
    Forall isbyte l -> Z.of_nat (length l) = count * bs ->
    exists d', program reg_write port access lba count 1 WRITE (d, m) = Ret tt (d', m) /\
      signals ends d' port (fun m => segment m access l) (fun m => m) BLOCK_DEVICE_WRITE_SUCCESS
        (fun d => holds d port bs (patched disk (Z.to_nat (lba * bs)) l))
}.
End Contract.

(** ** The device of the platform

    The registers of sl_block_device_CSregs_t, and the file.  A transfer is over after
    [latency] readings of the status. *)
Record csregs := mkRegs {
  r_buffer : Z; r_lba : Z; r_count : Z; r_op : Z; r_status : Z; r_irqen : Z; r_irq : Z;
  r_left : nat;                  (* readings before the end of the transfer *)
  r_file : list Z
}.

Section Simulated.
Context (base block_size : Z) (latency : nat).

Fixpoint fetch (m : mem) (p : Z) (n : nat) : option (list Z) :=
  match n with
  | O => Some []
  | S n => match m !! p, fetch m (p + 1) n with Some c, Some l => Some (c :: l) | _, _ => None end
  end.

(** control_thread: the end of a transfer. *)
Definition control_step (r : csregs) (m : mem) : csregs * mem :=
  let finish status file := mkRegs (r_buffer r) (r_lba r) (r_count r) 0 status (r_irqen r)
    (if r_irqen r =? 0 then r_irq r else 1) 0 file in
  if r_op r =? BLOCK_DEVICE_READ then
    (finish BLOCK_DEVICE_READ_SUCCESS (r_file r), written m (r_buffer r) (disk_blocks (r_file r) block_size (r_lba r) (r_count r)))
  else
    match fetch m (r_buffer r) (Z.to_nat (u32 (r_count r * block_size))) with
    | Some l => (finish BLOCK_DEVICE_WRITE_SUCCESS (patched (r_file r) (Z.to_nat (u32 (r_lba r * block_size))) l), m)
    | None => (mkRegs (r_buffer r) (r_lba r) (r_count r) 0 5 (r_irqen r) (r_irq r) 0 (r_file r), m)
    end.

(** The device ends its command, and raises its interrupt. *)
Definition finished (x y : csregs * mem) : Prop :=
  r_status x.1 = BLOCK_DEVICE_BUSY /\ r_irqen x.1 = 1 /\ y = control_step x.1 x.2.

(** sl_block_device_slave::write *)
Definition sl_write (port reg v : Z) : M (csregs * mem) unit := fun '(r, m) =>
  let set f := Ret tt (f, m) in
  if negb (port =? base) then Fault (r, m)
  else if reg =? BLOCK_DEVICE_BUFFER then set (mkRegs v (r_lba r) (r_count r) (r_op r) (r_status r) (r_irqen r) (r_irq r) (r_left r) (r_file r))
  else if reg =? BLOCK_DEVICE_LBA then set (mkRegs (r_buffer r) v (r_count r) (r_op r) (r_status r) (r_irqen r) (r_irq r) (r_left r) (r_file r))
  else if reg =? BLOCK_DEVICE_COUNT then set (mkRegs (r_buffer r) (r_lba r) v (r_op r) (r_status r) (r_irqen r) (r_irq r) (r_left r) (r_file r))
  else if reg =? BLOCK_DEVICE_IRQ_ENABLE then set (mkRegs (r_buffer r) (r_lba r) (r_count r) (r_op r) (r_status r) v (r_irq r) (r_left r) (r_file r))
  else if reg =? BLOCK_DEVICE_OP then
    if negb (r_status r =? 0) then set r
    else set (mkRegs (r_buffer r) (r_lba r) (r_count r) v BLOCK_DEVICE_BUSY (r_irqen r) (r_irq r) latency (r_file r))
  else set r.

(** sl_block_device_slave::read *)
Definition sl_read (port reg : Z) : M (csregs * mem) Z := fun '(r, m) =>
  if negb (port =? base) then Fault (r, m)
  else if reg =? BLOCK_DEVICE_STATUS then
    if r_status r =? BLOCK_DEVICE_BUSY then
      match r_left r with
      | S n => Ret BLOCK_DEVICE_BUSY (mkRegs (r_buffer r) (r_lba r) (r_count r) (r_op r) (r_status r) (r_irqen r) (r_irq r) n (r_file r), m)
      | O => let '(r, m) := control_step r m in
             Ret (r_status r) (mkRegs (r_buffer r) (r_lba r) (r_count r) (r_op r) 0 (r_irqen r) 0 0 (r_file r), m)
      end
    else Ret (r_status r) (mkRegs (r_buffer r) (r_lba r) (r_count r) (r_op r) 0 (r_irqen r) 0 (r_left r) (r_file r), m)
  else if reg =? BLOCK_DEVICE_SIZE then Ret (Z.of_nat (length (r_file r)) / block_size) (r, m)
  else if reg =? BLOCK_DEVICE_BLOCK_SIZE then Ret block_size (r, m)
  else Ret 0 (r, m).

Definition at_rest (r : csregs) (port bs : Z) (disk : list Z) : Prop :=
  port = base /\ bs = block_size /\ r_status r = 0 /\ r_file r = disk /\ Forall isbyte disk.

Lemma fetch_segment l : forall m p, segment m p l -> fetch m p (length l) = Some l.
Proof. induction l as [|c l IH]; intros m p; cbn [segment fetch length]; [done|]. intros [-> Hs]. by rewrite IH. Qed.

Lemma poll_left n : forall fuel r m,
  r_status r = BLOCK_DEVICE_BUSY -> r_left r = n -> (n < fuel)%nat ->
  poll sl_read fuel base (r, m) =
    let '(r', m') := control_step r m in
    if r_status r' =? BLOCK_DEVICE_BUSY then Diverge
    else Ret (r_status r') (mkRegs (r_buffer r') (r_lba r') (r_count r') (r_op r') 0 (r_irqen r') 0 0 (r_file r'), m').
Proof.
  induction n as [|n IH]; intros fuel r m Hs Hl Hf; destruct fuel as [|fuel]; [lia| |lia|]; cbn [poll]; unfold bind, sl_read.
  - rewrite Z.eqb_refl, Hs, Hl. cbn -[control_step]. unfold control_step. destruct (r_op r =? _); [done|].
    by destruct (fetch _ _ _).
  - rewrite Z.eqb_refl, Hs, Hl. cbn -[control_step]. rewrite IH by (done || lia). unfold control_step. cbn.
    destruct (r_op r =? _); [done|]. by destruct (fetch _ _ _).
Qed.

#[export] Instance simulated : BlockDevice sl_write sl_read (S latency) at_rest finished.
Proof.
  split.
  - by intros d port bs disk (_ & _ & _ & _ & ?).
  - intros [b l c o st ie iq lf fl] m port bs disk access lba count fuel (-> & -> & Hst & <- & Hb) Hbs Ha Hlba Hc Hs _ Hf.
    cbn in Hst. subst st. eexists. unfold bind at 1. unfold program, bind, sl_write. rewrite !Z.eqb_refl. cbn -[control_step poll sl_read].
    rewrite (poll_left latency) by (done || lia). cbn. rewrite (u32_id access), (u32_id lba), (u32_id count) by nia. split; [reflexivity|done].
  - intros [b lb c o st ie iq lf fl] m port bs disk access lba count l fuel (-> & -> & Hst & <- & Hb) Hbs Ha Hlba Hc Hs Hseg Hl Hlen Hf.
    cbn in Hst, Hs. subst st. eexists. unfold bind at 1. unfold program, bind, sl_write. rewrite !Z.eqb_refl. cbn -[control_step poll sl_read].
    rewrite (poll_left latency) by (done || lia). cbn -[fetch].
    rewrite (u32_id access), (u32_id lba), (u32_id count), (u32_id (count * _)), (u32_id (lba * _)) by nia.
    rewrite <- Hlen, Nat2Z.id, (fetch_segment l) by done. cbn.
    split; [reflexivity|]. split_and!; try done. by apply patched_bytes.
  - intros [b l c o st ie iq lf fl] m port bs disk access lba count (-> & -> & Hst & <- & Hb) Hbs Ha Hlba Hc Hs.
    cbn in Hst. subst st. eexists. unfold program, bind, sl_write. rewrite !Z.eqb_refl. cbn -[control_step].
    split; [reflexivity|]. rewrite (u32_id access), (u32_id lba), (u32_id count) by nia.
    intros m1 _. split; [by eexists|]. intros d1 m2 (_ & _ & [= -> ->]). cbn. split; [done|].
    eexists. unfold sl_read. rewrite Z.eqb_refl. split; [reflexivity|done].
  - intros [b lb c o st ie iq lf fl] m port bs disk access lba count l (-> & -> & Hst & <- & Hb) Hbs Ha Hlba Hc Hs Hl Hlen.
    cbn in Hst, Hs. subst st. eexists. unfold program, bind, sl_write. rewrite !Z.eqb_refl. cbn -[control_step].
    split; [reflexivity|]. rewrite (u32_id access), (u32_id lba), (u32_id count) by nia.
    intros m1 Hseg. split; [by eexists|]. intros d1 m2 (_ & _ & Hy). revert Hy. unfold control_step. cbn -[fetch].
    rewrite (u32_id (count * _)), (u32_id (lba * _)) by nia.
    rewrite <- Hlen, Nat2Z.id, (fetch_segment l) by done. intros [= -> ->]. split; [done|].
    eexists. unfold sl_read. rewrite Z.eqb_refl. split; [reflexivity|]. split_and!; try done. by apply patched_bytes.
Qed.
End Simulated.

(** ** Arithmetic of the blocks *)

Lemma block_split off count bs N :
  0 < bs -> 0 <= off -> 0 <= count -> off + count <= N * bs ->
  0 <= off / bs /\ off = off / bs * bs + off mod bs /\ 0 <= off mod bs < bs /\
  0 <= count / bs /\ count / bs * bs <= count < count / bs * bs + bs /\
  0 <= (off + count) / bs /\ (off + count) / bs * bs <= off + count < (off + count) / bs * bs + bs.
Proof.
  intros Hbs Ho Hc Hn. pose proof (Z.div_mod off bs ltac:(lia)). pose proof (Z.mod_pos_bound off bs ltac:(lia)).
  pose proof (Z.div_mod count bs ltac:(lia)). pose proof (Z.mod_pos_bound count bs ltac:(lia)).
  pose proof (Z.div_mod (off + count) bs ltac:(lia)). pose proof (Z.mod_pos_bound (off + count) bs ltac:(lia)).
  assert (0 <= off / bs) by (apply Z.div_pos; lia). assert (0 <= count / bs) by (apply Z.div_pos; lia).
  assert (0 <= (off + count) / bs) by (apply Z.div_pos; lia). lia.
Qed.

(** The blocks that are read contain the bytes, and at most two more blocks. *)
Lemma read_nb_blocks_ok off count bs N :
  0 < bs -> 0 <= off -> 0 <= count -> off + count <= N * bs -> (N + 2) * bs < 2 ^ 31 ->
  let nb := read_nb_blocks off count bs in
  0 < nb /\ off mod bs + count <= nb * bs /\ off / bs * bs + nb * bs <= (N + 2) * bs.
Proof.
  intros Hbs Ho Hc Hn HN nb.
  destruct (block_split off count bs N Hbs Ho Hc Hn) as (H1 & H2 & H3 & H4 & H5 & H6 & H7).
  set (e := if (0 <? Z.quot (off + count) bs) && (0 <? Z.rem (off + count) bs) then 1 else 0).
  assert (nb = count / bs + 1 + e) as ->.
  { unfold nb, read_nb_blocks. rewrite (u32_id count) by nia. fold e. apply u32_id. unfold e. destruct (_ && _); nia. }
  unfold e. rewrite Z.quot_div_nonneg, Z.rem_mod_nonneg by lia.
  pose proof (Z.div_mod (off + count) bs ltac:(lia)) as H8. pose proof (Z.mod_pos_bound (off + count) bs ltac:(lia)) as H9.
  destruct ((0 <? (off + count) / bs) && (0 <? (off + count) mod bs)) eqn:E; [split_and!; nia|].
  split_and!; [nia| |nia]. apply andb_false_iff in E as [E|E]; zbool; [nia|].
  assert ((off + count) mod bs = 0) as Hz by lia. rewrite Hz in H8.
  assert (off / bs * bs + off mod bs + count = (off + count) / bs * bs) by lia.
  assert ((off + count) / bs < off / bs + count / bs + 2) by (apply (Z.mul_lt_mono_pos_r bs); lia). nia.
Qed.

(** The blocks that are written. *)
Lemma write_blocks_ok off count bs N :
  0 < bs -> 0 <= off -> 0 <= count -> off + count < N * bs -> (N + 2) * bs < 2 ^ 31 ->
  let nb := (off + count) / bs - off / bs + 1 in
  write_blocks off count bs = (off / bs, nb) /\ 0 < nb /\ off mod bs + count <= nb * bs /\
  (off / bs + nb) * bs <= N * bs.
Proof.
  intros Hbs Ho Hc Hn HN nb.
  destruct (block_split off count bs N Hbs Ho Hc ltac:(lia)) as (H1 & H2 & H3 & H4 & H5 & H6 & H7).
  assert (off / bs <= (off + count) / bs) by (apply Z.div_le_mono; lia).
  assert ((off + count) / bs < N) by (apply Z.div_lt_upper_bound; lia).
  assert (N < 2 ^ 31) by nia. split.
  { unfold write_blocks, nb. rewrite !Z.quot_div_nonneg by lia. rewrite !(i32_id (_ / bs)) by lia.
    rewrite (i32_id (_ - _)) by lia. by rewrite i32_id by lia. }
  unfold nb. split_and!; nia.
Qed.

(** The bytes [off, off + count) of the disk in the blocks from off / bs. *)
Lemma disk_window disk bs off count nb :
  0 < bs -> 0 <= off -> 0 <= count -> off + count <= Z.of_nat (length disk) -> off mod bs + count <= nb * bs ->
  exists pre post, disk_blocks disk bs (off / bs) nb = pre ++ take (Z.to_nat count) (drop (Z.to_nat off) disk) ++ post /\
    Z.of_nat (length pre) = off mod bs.
Proof.
  intros Hbs Ho Hc Hd Hn. pose proof (Z.div_mod off bs ltac:(lia)) as H1. pose proof (Z.mod_pos_bound off bs ltac:(lia)) as H2.
  assert (0 <= off / bs) by (apply Z.div_pos; lia).
  unfold disk_blocks. set (X := drop _ disk).
  assert (drop (Z.to_nat off) disk = drop (Z.to_nat (off mod bs)) X) as ->.
  { unfold X. rewrite drop_drop. f_equal. nia. }
  set (lo := Z.to_nat (off mod bs)). set (c := Z.to_nat count). set (w := Z.to_nat (nb * bs)).
  exists (take lo X), (drop (lo + c) (take w X)). split.
  - rewrite <- (take_drop lo (take w X)) at 1. rewrite take_take, Nat.min_l by lia. f_equal.
    rewrite <- (take_drop c (drop lo (take w X))) at 1. rewrite drop_drop. f_equal.
    by rewrite !take_drop_commute, take_take, Nat.min_l by lia.
  - rewrite length_take. unfold X, lo. rewrite length_drop. nia.
Qed.

(** ** The driver *)

Section Driver.
Context {D : Type} `{Hal} (reg_write : Z -> Z -> Z -> M (D * mem) unit) (reg_read : Z -> Z -> M (D * mem) Z).
Context {patience : nat} {holds : D -> Z -> Z -> list Z -> Prop} {ends : D * mem -> D * mem -> Prop}.
Context `{!BlockDevice reg_write reg_read patience holds ends}.
Context {room : list Z -> list Z -> Z -> kstate -> Prop} `{!Heap room}.
Context (U : gset addr) (V : qid -> list addr) (A Dd : list Z) (self : tref) (p : Z) (b : block_device_control_t).
Context (fuel : nat) (Hfuel : (patience <= fuel)%nat).

(** The device at [p] stores [disk]. *)
Record attached (disk : list Z) (s : blk D) : Prop := {
  ba_control : blk_controls s !! p = Some b;
  ba_disk : holds (blk_dev s) (bd_port b) (bd_block_size b) disk;
  ba_size : 0 < bd_block_size b /\ 0 < bd_block_count b /\ (bd_block_count b + 2) * bd_block_size b < 2 ^ 31;
  ba_length : Z.of_nat (length disk) = bd_block_count b * bd_block_size b;
  ba_index : raw_index (bd_semaphore_id b) < DNA_MAX_SEM
}.

(** Nobody uses the device: its semaphore has [T] tokens.  The heap can allocate [n] blocks. *)
Record ready (T n : Z) (disk : list Z) (s : blk D) : Prop := {
  br_attached : attached disk s;
  br_sem : sem_rep U (blk_kern s) V (raw_index (bd_semaphore_id b)) T [];
  br_id : sem_id (sem (raw_index (bd_semaphore_id b)) (blk_kern s)) = bd_semaphore_id b;
  br_tokens : 1 <= T;
  br_room : room A Dd n (blk_kern s);
  br_lock : locks (blk_kern s) !! LAllocator = None;
  br_self : current_thread (cpu (mp_id (blk_kern s)) (blk_kern s)) = Some self
}.

(** The kernel once the semaphore is acquired. *)
Definition taken (s : blk D) : kstate :=
  after (semaphore_acquire (bd_semaphore_id b) 1 0 (-1) (blk_kern s)) (blk_kern s).

(** The area that the transfer gets from the heap is in the memory and away from the [len] bytes
    of the caller at [q]. *)
Definition buffer_fits (size : Z) (erase : bool) (q : Z) (len : nat) (s : blk D) : Prop :=
  forall buffer h, kernel_malloc size erase (taken s) = Ret buffer (set_heap h (taken s)) ->
    mapped (blk_mem s) buffer (Z.to_nat size) /\ apart buffer (Z.to_nat size) q len.

(** During a transfer that holds the area of the region [c]. *)
Record busy (T n : Z) (c : Z) (k : kstate) : Prop := {
  bb_tokens : 1 <= T < 2 ^ 31;
  bb_sem : sem_rep U k V (raw_index (bd_semaphore_id b)) (T - 1) [];
  bb_id : sem_id (sem (raw_index (bd_semaphore_id b)) k) = bd_semaphore_id b;
  bb_room : room (A ++ [c]) Dd n k;
  bb_lock : locks k !! LAllocator = None;
  bb_self : current_thread (cpu (mp_id k) k) = Some self
}.

Lemma wp_control q Q (s : blk D) v : blk_controls s !! q = Some v -> Q v s -> wp (rd_control q) Q s.
Proof. intros Hv HQ. apply wp_bind, wp_gets. rewrite Hv. by apply wp_ret. Qed.

Lemma taken_ok T n disk s :
  ready T n disk s ->
  semaphore_acquire (bd_semaphore_id b) 1 0 (-1) (blk_kern s) = Ret (Returned DNA_OK) (taken s) /\
  1 <= T < 2 ^ 31 /\ sem_rep U (taken s) V (raw_index (bd_semaphore_id b)) (T - 1) [] /\
  sem_id (sem (raw_index (bd_semaphore_id b)) (taken s)) = bd_semaphore_id b /\ room A Dd n (taken s) /\
  locks (taken s) !! LAllocator = None /\ current_thread (cpu (mp_id (taken s)) (taken s)) = Some self.
Proof.
  intros [[_ _ _ _ Hi] Hsem Hid HT Hroom Hl Hself]. pose proof (sr_range _ _ _ _ _ _ Hsem).
  destruct (semaphore_acquire_now U _ V _ T [] (bd_semaphore_id b) 1 0 (-1) self Hsem eq_refl Hi Hid) as [Hrun Hsem1];
    [split; [lia|by vm_compute]|lia|done|].
  unfold taken. rewrite Hrun. cbn [after]. set (k1 := put_sem _ _ _) in *. split_and!; [reflexivity|lia|lia|exact Hsem1| |by eapply heap_frame|exact Hl|exact Hself].
  unfold k1, sem, put_sem. cbn. by rewrite lookup_insert_eq.
Qed.

Lemma transfer_begin T n disk s size erase :
  ready T n disk s -> 0 < size < 2 ^ 31 -> cost size < n ->
  semaphore_acquire (bd_semaphore_id b) 1 0 (-1) (blk_kern s) = Ret (Returned DNA_OK) (taken s) /\
  exists c h, kernel_malloc size erase (taken s) = Ret (c + DNA_KERNEL_BLOCK_SIZE) (set_heap h (taken s)) /\
    0 < c /\ c + DNA_KERNEL_BLOCK_SIZE + size <= 2 ^ 32 /\ busy T (n - cost size) c (set_heap h (taken s)).
Proof.
  intros Hr Hs Hc. destruct (taken_ok T n disk s Hr) as (Hrun & HT & Hsem & Hid & Hroom & Hl & Hself). split; [done|].
  destruct (heap_malloc A Dd n (taken s) size erase Hroom) as (c & h & Hm & Hend & Hroom2); [lia|done|].
  exists c, h. split; [done|]. destruct (heap_address _ _ _ _ c Hroom2) as [Hc0 _]; [rewrite !elem_of_app; left; right; by left|].
  split_and!; [done|done|]. split; [lia|by apply sem_rep_heap|done..].
Qed.

(** The end of a transfer. *)
Lemma transfer_end_ok T n disk c k m d ctl q :
  busy T n c k -> attached disk (mkBlkState k m d ctl q) ->
  exists k', transfer_end p (c + DNA_KERNEL_BLOCK_SIZE) (mkBlkState k m d ctl q) =
      Ret (Returned DNA_OK) (mkBlkState k' m d ctl q) /\
    ready T n disk (mkBlkState k' m d ctl q).
Proof.
  intros [HT Hsem Hid Hroom Hl Hself] Hat. pose proof Hat as [Hctl _ _ _ Hi].
  destruct (heap_free A c [] Dd n k Hroom) as (h & Hf & Hroom1).
  destruct (semaphore_release_alone U (set_heap h k) V _ (T - 1) (bd_semaphore_id b) 1
    (sem_rep_heap _ _ _ _ _ _ h Hsem) eq_refl Hi Hid) as [Hrun Hsem1]; [lia|lia|].
  rewrite Z.sub_add in Hrun, Hsem1. set (k' := put_sem _ _ _) in *. exists k'. split.
  - apply wp_run. apply wp_bind, wp_lift. eapply wp_eq; [exact Hf|]. apply wp_bind. eapply wp_control; [exact Hctl|].
    apply wp_bind, wp_lift. eapply wp_eq; [exact Hrun|]. by apply wp_ret.
  - split; cbn [blk_kern]; [by destruct Hat|done| |lia|by eapply heap_frame|done|done].
    unfold k', sem, put_sem. cbn. by rewrite lookup_insert_eq.
Qed.

(** A polled access is the command and the readings of the status. *)
Lemma access_polled k m d ctl q access lba count rw st d' m' :
  ctl !! p = Some b -> bd_should_enable_irq b = false ->
  (program reg_write (bd_port b) access lba count 0 rw ;; poll reg_read fuel (bd_port b)) (d, m) = Ret st (d', m') ->
  st = BLOCK_DEVICE_READ_SUCCESS \/ st = BLOCK_DEVICE_WRITE_SUCCESS ->
  access_device_blocks reg_write reg_read fuel p access lba count rw (mkBlkState k m d ctl q) =
    Ret (Returned DNA_OK) (mkBlkState k m' d' ctl q).
Proof.
  intros Hctl Hirq Hrun Hst. apply wp_run. apply wp_bind, wp_lift. kdestruct k. krun. apply wp_bind. eapply wp_control; [exact Hctl|].
  rewrite Hirq. apply bind_inv in Hrun as ([] & [d1 m1] & H1 & H2).
  apply wp_bind, wp_lift. eapply wp_eq; [exact H1|]. apply wp_bind, wp_lift. eapply wp_eq; [exact H2|].
  apply wp_bind, wp_lift. krun. by destruct Hst as [-> | ->].
Qed.

(** The result of a call: the driver is ready again, [m'] has the bytes [l] at [q], and only the
    buffer and these bytes have changed. *)
Definition only_written (m m' : mem) (buffer size q : Z) (l : list Z) : Prop :=
  forall a, ~ (buffer <= a < buffer + size) -> ~ (q <= a < q + Z.of_nat (length l)) -> m' !! a = m !! a.

(** The part of block_device_read after the acquisition, once the blocks are in the buffer. *)
Lemma read_transferred_ok T n disk c k m d ctl q dst off l post pre :
  let buffer := c + DNA_KERNEL_BLOCK_SIZE in let bs := bd_block_size b in
  busy T n c k -> attached disk (mkBlkState k m d ctl q) -> 0 <= off ->
  segment m buffer (pre ++ l ++ post) -> Z.of_nat (length pre) = off mod bs -> Forall isbyte l ->
  mapped m dst (length l) -> apart (buffer + off mod bs) (length l) dst (length l) -> Z.of_nat (length l) < 2 ^ 31 ->
  exists k', read_transferred p dst off (Z.of_nat (length l)) buffer DNA_OK (mkBlkState k m d ctl q) =
      Ret (Returned DNA_OK) (mkBlkState k' (written m dst l) d ctl q) /\
    ready T n disk (mkBlkState k' (written m dst l) d ctl q).
Proof.
  intros buffer bs Hbusy Hat Ho Hseg Hpre Hb Hdst Hap Hl. destruct Hat as [Hctl Hd (Hbs & HN & Hmax) Hlen Hi].
  apply segment_app in Hseg as [_ Hseg]. apply segment_app in Hseg as [Hseg _]. rewrite Hpre in Hseg.
  destruct (transfer_end_ok T n disk c k (written m dst l) d ctl q Hbusy) as (k' & Hfin & Hready); [by split|].
  exists k'. split; [|done]. apply wp_run. unfold read_transferred. cbn [st_eqb].
  apply wp_bind. eapply wp_control; [exact Hctl|]. rewrite (u32_id (bd_block_size b)) by nia.
  apply wp_bind, wp_lift. eapply wp_eq; [apply read_pieces_ok; [nia|done|done|]|].
  { split; [exact Hseg|done|done|fold bs; unfold apart in *; lia]. }
  by eapply wp_eq; [exact Hfin|].
Qed.

(** A polled read. *)
Lemma block_device_read_polled T n disk s dst off count :
  let bs := bd_block_size b in let size := read_nb_blocks off count bs * bs in
  bd_should_enable_irq b = false -> ready T n disk s -> 0 <= off -> 0 <= count -> off + count <= Z.of_nat (length disk) ->
  cost size < n -> mapped (blk_mem s) dst (Z.to_nat count) -> buffer_fits size true dst (Z.to_nat count) s ->
  let l := take (Z.to_nat count) (drop (Z.to_nat off) disk) in
  exists buffer s', block_device_read reg_write reg_read fuel p dst off count s = Ret (Returned DNA_OK) s' /\
    ready T (n - cost size) disk s' /\ segment (blk_mem s') dst l /\ only_written (blk_mem s) (blk_mem s') buffer size dst l.
Proof.
  intros bs size Hirq Hr Ho Hc Hend Hcost Hdst Hfit l.
  pose proof (br_attached _ _ _ _ Hr) as [Hctl Hd (Hbs & HN & Hmax) Hlen Hi].
  destruct (read_nb_blocks_ok off count bs (bd_block_count b)) as (Hnb & Hwin & Hlast); [done|done|done|lia|done|].
  assert (0 <= off / bs) as Hlba by (apply Z.div_pos; lia).
  assert (0 < size < 2 ^ 31) as Hsize by (unfold size, bs in *; nia).
  assert (length l = Z.to_nat count) as Hll by (unfold l; rewrite length_take, length_drop; lia).
  destruct (transfer_begin T n disk s size true Hr Hsize Hcost) as (Hacq & c & h & Hmal & Hc0 & Hc1 & Hbusy).
  destruct (Hfit _ _ Hmal) as [Hmap Hap]. set (buffer := c + DNA_KERNEL_BLOCK_SIZE) in *.
  assert (0 < buffer < 2 ^ 32) as Hbuf by (unfold buffer, DNA_KERNEL_BLOCK_SIZE, sizeof_region in *; lia).
  destruct (disk_window disk bs off count _ Hbs Ho Hc Hend Hwin) as (pre & post & Hdata & Hpre). fold l in Hdata.
  destruct s as [k m d ctl q]. cbn [blk_kern blk_mem blk_dev blk_controls] in *. set (k1 := taken _) in *.
  set (m1 := written m buffer (zeros (Z.to_nat size))).
  destruct (device_read reg_write reg_read d m1 (bd_port b) bs disk buffer (off / bs) (read_nb_blocks off count bs) fuel)
    as (d' & Hrun & Hd'); [done|done|lia|done|done|nia|by apply mapped_written|done|].
  set (m2 := written m1 buffer (disk_blocks disk bs (off / bs) (read_nb_blocks off count bs))) in *.
  assert (length (disk_blocks disk bs (off / bs) (read_nb_blocks off count bs)) <= Z.to_nat size)%nat as Hdl
    by (unfold disk_blocks, size; rewrite length_take; lia).
  destruct (read_transferred_ok T (n - cost size) disk c (set_heap h k1) m2 d' ctl q dst off l post pre)
    as (k' & Hfin & Hready); [done|by split|done| |done| |by rewrite Hll; do 2 apply mapped_written| |lia|].
  { rewrite <- Hdata. apply written_segment. }
  { apply Forall_take, Forall_drop. by eapply (device_bytes reg_write reg_read). }
  { rewrite Hll. fold buffer bs. fold size in Hwin. unfold apart in *. lia. }
  exists buffer, (mkBlkState k' (written m2 dst l) d' ctl q). split_and!; [|done|apply written_segment|].
  - apply wp_run. unfold block_device_read. apply wp_bind. eapply wp_control; [exact Hctl|].
    rewrite i32_id by nia. rewrite (proj2 (Z.leb_le _ _)) by lia.
    apply wp_bind, wp_lift. eapply wp_eq; [exact Hacq|]. unfold read_entered.
    apply wp_bind. eapply wp_control; [exact Hctl|]. rewrite (u32_id (bd_block_size b)) by nia. fold bs.
    rewrite (proj2 (Z.eqb_neq bs 0)) by lia. rewrite Z.quot_div_nonneg by lia. fold size.
    rewrite (u32_id size), (u32_id (off / bs)), (i32_id (read_nb_blocks _ _ _)) by nia.
    apply wp_bind, wp_lift. eapply wp_eq; [exact Hmal|]. fold buffer. rewrite (proj2 (Z.eqb_neq buffer 0)) by lia. cbn [negb].
    apply wp_bind, wp_lift, wp_modify. apply wp_bind. eapply wp_eq.
    { eapply (access_polled (set_heap h k1)); [done|done|exact Hrun|by left]. }
    eapply wp_eq; [|split; reflexivity]. rewrite Hll, Z2Nat.id in Hfin by done. exact Hfin.
  - intros a Ha1 Ha2. cbn [blk_mem]. unfold m2, m1. rewrite !written_outside; [done|unfold zeros; rewrite ?length_replicate; lia..].
Qed.

Lemma write_read_ok T n disk c k m d ctl q src off l :
  let buffer := c + DNA_KERNEL_BLOCK_SIZE in let bs := bd_block_size b in
  let len := Z.of_nat (length l) in let nb := (off + len) / bs - off / bs + 1 in
  bd_should_enable_irq b = false -> busy T n c k -> attached disk (mkBlkState k m d ctl q) -> 0 <= off -> 0 <= buffer < 2 ^ 32 ->
  off + len < Z.of_nat (length disk) -> segment m buffer (disk_blocks disk bs (off / bs) nb) ->
  copyable m (buffer + off mod bs) src l ->
  let disk' := patched disk (Z.to_nat off) l in let m' := written m (buffer + off mod bs) l in
  exists k' d', write_read reg_write reg_read fuel p src off len buffer DNA_OK (mkBlkState k m d ctl q) =
      Ret (Returned DNA_OK) (mkBlkState k' m' d' ctl q) /\
    ready T n disk' (mkBlkState k' m' d' ctl q).
Proof.
  intros buffer bs len nb Hirq Hbusy Hat Ho Hbuf Hend Hseg Hcopy disk' m'.
  destruct Hat as [Hctl Hd (Hbs & HN & Hmax) Hlen Hi]. cbn [blk_controls blk_dev] in *. fold bs in Hbs, Hmax, Hlen, Hd.
  destruct (write_blocks_ok off len bs (bd_block_count b)) as (Hwb & Hnb & Hwin & Hlast); [lia..|]. fold nb in Hwb, Hnb, Hwin, Hlast.
  pose proof (Z.div_mod off bs ltac:(lia)) as Hdm. pose proof (Z.mod_pos_bound off bs Hbs) as Hlo.
  assert (0 <= off / bs) as Hlba by (apply Z.div_pos; lia).
  set (data := disk_blocks disk bs (off / bs) nb) in *.
  assert (length data = Z.to_nat (nb * bs)) as Hdata by (unfold data, disk_blocks; rewrite length_take, length_drop; nia).
  set (data' := patched data (Z.to_nat (off mod bs)) l).
  assert (length data' = length data) as Hdata' by (apply patched_length; lia).
  pose proof (device_bytes reg_write reg_read _ _ _ _ Hd) as Hbytes.
  destruct (device_write reg_write reg_read d m' (bd_port b) bs disk buffer (off / bs) nb data' fuel) as (d' & Hrun & Hd');
    [done|done|done|done|done|nia| | |lia|done|].
  { pose proof (segment_patched m buffer data (Z.to_nat (off mod bs)) l) as Hsp. rewrite Z2Nat.id in Hsp by lia. apply Hsp; [done|lia]. }
  { apply patched_bytes; [by apply Forall_take, Forall_drop|by destruct Hcopy]. }
  assert (patched disk (Z.to_nat (off / bs * bs)) data' = disk') as Hdisk.
  { unfold data', data, disk_blocks, disk'. rewrite patched_window by nia. f_equal. nia. }
  rewrite Hdisk in Hd'.
  destruct (transfer_end_ok T n disk' c k m' d' ctl q Hbusy) as (k' & Hfin & Hready).
  { split; [done|done|done| |done]. unfold disk'. rewrite patched_length by lia. exact Hlen. }
  exists k', d'. split; [|done]. apply wp_run. unfold write_read. cbn [st_eqb].
  apply wp_bind. eapply wp_control; [exact Hctl|]. fold bs.
  apply wp_bind, wp_lift. eapply wp_eq; [apply write_pieces_ok; [nia|done|lia|done]|]. fold len. rewrite Hwb.
  apply wp_bind. eapply wp_eq; [eapply access_polled; [done|done|exact Hrun|by right]|].
  unfold write_written. cbn [st_eqb]. by eapply wp_eq; [exact Hfin|].
Qed.

(** A polled write. *)
Lemma block_device_write_polled T n disk s src off l :
  let bs := bd_block_size b in let len := Z.of_nat (length l) in
  let size := ((off + len) / bs - off / bs + 1) * bs in
  bd_should_enable_irq b = false -> ready T n disk s -> 0 <= off -> off + len < Z.of_nat (length disk) ->
  cost size < n -> segment (blk_mem s) src l -> Forall isbyte l -> buffer_fits size false src (length l) s ->
  exists buffer s', block_device_write reg_write reg_read fuel p src off len s = Ret (Returned DNA_OK) s' /\
    ready T (n - cost size) (patched disk (Z.to_nat off) l) s' /\ only_written (blk_mem s) (blk_mem s') buffer size src [].
Proof.
  intros bs len size Hirq Hr Ho Hend Hcost Hsrc Hbl Hfit.
  pose proof (br_attached _ _ _ _ Hr) as [Hctl Hd (Hbs & HN & Hmax) Hlen Hi].
  destruct (write_blocks_ok off len bs (bd_block_count b)) as (Hwb & Hnb & Hwin & Hlast); [done|done|lia|lia|done|].
  set (nb := (off + len) / bs - off / bs + 1) in *.
  pose proof (Z.mod_pos_bound off bs Hbs) as Hlo. assert (0 <= off / bs) as Hlba by (apply Z.div_pos; lia).
  assert (0 < size < 2 ^ 31) as Hsize by (unfold size, bs in *; nia).
  destruct (transfer_begin T n disk s size false Hr Hsize Hcost) as (Hacq & c & h & Hmal & Hc0 & Hc1 & Hbusy).
  destruct (Hfit _ _ Hmal) as [Hmap Hap]. set (buffer := c + DNA_KERNEL_BLOCK_SIZE) in *.
  assert (0 < buffer < 2 ^ 32) as Hbuf by (unfold buffer, DNA_KERNEL_BLOCK_SIZE, sizeof_region in *; lia).
  destruct s as [k m d ctl q]. cbn [blk_kern blk_mem blk_dev blk_controls] in *. set (k1 := taken _) in *.
  destruct (device_read reg_write reg_read d m (bd_port b) bs disk buffer (off / bs) nb fuel)
    as (d1 & Hrun & Hd1); [done|done|lia|done|done|nia|done|done|].
  set (data := disk_blocks disk bs (off / bs) nb) in *. set (m1 := written m buffer data) in *.
  assert (length data = Z.to_nat size) as Hdata by (unfold data, disk_blocks, size; rewrite length_take, length_drop; nia).
  destruct (write_read_ok T (n - cost size) disk c (set_heap h k1) m1 d1 ctl q src off l)
    as (k' & d' & Hfin & Hready); [done|done|by split|done|fold buffer; lia|done|apply written_segment| |].
  { fold bs buffer. fold size in Hwin. split; [apply segment_written; [rewrite Hdata; done|done]|done| |unfold apart in *; lia].
    apply mapped_written. eapply mapped_sub; [exact Hmap|lia|lia]. }
  fold bs buffer len in Hfin. exists buffer. eexists. split_and!; [|exact Hready|].
  - apply wp_run. unfold block_device_write. apply wp_bind. eapply wp_control; [exact Hctl|].
    apply wp_bind, wp_lift. eapply wp_eq; [exact Hacq|]. unfold write_entered.
    apply wp_bind. eapply wp_control; [exact Hctl|]. fold bs.
    rewrite (proj2 (Z.eqb_neq bs 0)) by lia. rewrite Hwb. fold size. rewrite (u32_id size) by lia. rewrite Z.quot_div_nonneg by lia.
    apply wp_bind, wp_lift. eapply wp_eq; [exact Hmal|]. fold buffer. rewrite (proj2 (Z.eqb_neq buffer 0)) by lia. cbn [negb].
    apply wp_bind. eapply wp_eq; [eapply (access_polled (set_heap h k1)); [done|done|exact Hrun|by left]|].
    by eapply wp_eq; [exact Hfin|].
  - intros a Ha1 _. cbn [blk_mem]. unfold m1. fold size in Hwin. by rewrite !written_outside by (fold bs buffer; lia).
Qed.

(** C27: block_device_read rejects a range that ends after the device and changes nothing; when the heap
    cannot give the buffer it reports it, and keeps the token of the semaphore: of a device with one
    token, the next callers wait for ever. *)
Theorem block_device_read_errors T n disk s dst off count :
  let bs := bd_block_size b in let size := read_nb_blocks off count bs * bs in
  ready T n disk s -> 0 <= off -> 0 <= count ->
  (Z.of_nat (length disk) < off + count ->
     block_device_read reg_write reg_read fuel p dst off count s = Ret (Returned DNA_BAD_ARGUMENT) s) /\
  (off + count <= Z.of_nat (length disk) -> kernel_malloc size true (taken s) = Ret 0 (taken s) ->
     exists s', block_device_read reg_write reg_read fuel p dst off count s = Ret (Returned DNA_OUT_OF_MEM) s' /\
       blk_mem s' = blk_mem s /\ attached disk s' /\ sem_rep U (blk_kern s') V (raw_index (bd_semaphore_id b)) (T - 1) []).
Proof.
  intros bs size Hr Ho Hc. pose proof (br_attached _ _ _ _ Hr) as Hat. pose proof Hat as [Hctl Hd (Hbs & HN & Hmax) Hlen Hi].
  split; intros Hend; [|intros Hmal]; unfold block_device_read.
  - apply wp_run. apply wp_bind. eapply wp_control; [exact Hctl|]. rewrite i32_id by nia. by rewrite (proj2 (Z.leb_gt _ _)) by lia.
  - destruct (read_nb_blocks_ok off count bs (bd_block_count b)) as (Hnb & Hwin & Hlast); [done|done|done|lia|done|].
    assert (0 <= off / bs) as Hlba by (apply Z.div_pos; lia).
    destruct (taken_ok T n disk s Hr) as (Hacq & HT & Hsem & _). exists (set_blk_kern (taken s) s).
    split_and!; [|done|by destruct Hat|done]. apply wp_run. apply wp_bind. eapply wp_control; [exact Hctl|].
    rewrite i32_id by nia. rewrite (proj2 (Z.leb_le _ _)) by lia. apply wp_bind, wp_lift. eapply wp_eq; [exact Hacq|].
    unfold read_entered. apply wp_bind. eapply wp_control; [exact Hctl|]. rewrite (u32_id (bd_block_size b)) by nia. fold bs.
    rewrite (proj2 (Z.eqb_neq bs 0)) by (unfold bs; lia). fold size. rewrite (u32_id size) by (unfold size, bs in *; nia).
    apply wp_bind, wp_lift. eapply wp_eq; [exact Hmal|]. by apply wp_ret.
Qed.
End Driver.
