(* ===== verification/BlockSpec.v ===== *)
(** * Transfers of the block device driver

    The bytes that block_device_read delivers and that block_device_write stores, the buffers and
    the semaphore, for a device that fulfils the contract of BlockContract.v, polled
    (should_enable_irq = 0) or signalled by an interrupt (should_enable_irq = 1, as in the linker
    scripts).  With the interrupt a transfer is cut where the caller waits for it: [awaits] is the
    state there, [interrupt_wakes] what block_device_isr does when the device ends, and [resumed] a
    state in which the caller runs again, whatever the other threads have done in between.  An
    interrupt that comes before the caller waits is not covered. *)

From S2P Require Import Prelude Status Queue Allocator Kernel Logic AllocatorSpec AllocatorFree CLib Memory Scheduler Alarm Thread Semaphore Interrupt Scenario Block BlockContract.

Section Transfers.
Context {D : Type} `{Hal} (reg_write : Z -> Z -> Z -> M (D * mem) unit) (reg_read : Z -> Z -> M (D * mem) Z).
Context {patience : nat} {holds : D -> Z -> Z -> list Z -> Prop} {ends : D * mem -> D * mem -> Prop}.
Context `{!BlockDevice reg_write reg_read patience holds ends}.
Context {room : list Z -> list Z -> Z -> kstate -> Prop} `{!Heap room}.
Context (U : gset addr) (V : qid -> list addr) (A Dd : list Z) (self : tref) (p : Z) (b : block_device_control_t).
Context (fuel : nat) (Hfuel : (patience <= fuel)%nat).

Abbreviation ready := (ready (holds := holds) (room := room) U V A Dd self p b).
Abbreviation attached := (attached (holds := holds) p b).
Abbreviation isr := (raw_index (bd_isr_semaphore_id b)).
Abbreviation dev := (raw_index (bd_semaphore_id b)).

(** ** The interrupt *)

(** The semaphore of the interrupt, without token, and the thread that calls the driver. *)
Record by_interrupt (idle : tref) (V : qid -> list addr) (k : kstate) : Prop := {
  bi_index : isr < DNA_MAX_SEM;
  bi_other : isr <> dev;
  bi_sem : sem_rep U k V isr 0 [];
  bi_id : sem_id (sem isr k) = bd_isr_semaphore_id b;
  bi_running : running_ok U k V self idle
}.

(** What access_device_blocks keeps while it waits. *)
Definition frame (it : Z) : acquire_frame := mkFrame self (bd_isr_semaphore_id b) 1 (-1) None it.

(** The caller waits for the interrupt. *)
Record awaits (k : kstate) (V : qid -> list addr) : Prop := {
  aw_sem : sem_rep U k V isr 0 [(self, 1)];
  aw_id : sem_id (sem isr k) = bd_isr_semaphore_id b
}.

(** The device [d] ends its command, and block_device_isr makes the caller ready; it must be the first
    device, the only one whose registers block_device_isr reads. *)
Definition interrupt_wakes (d : D) (before : mem -> Prop) (after : mem -> mem) (disk : list Z) : Prop :=
  forall s V data, blk_dev s = d -> before (blk_mem s) -> blk_controls s !! p = Some b -> block_device_controls s = p ->
    awaits (blk_kern s) V ->
    (exists x, ends (d, blk_mem s) x) /\
    forall d1 m1, ends (d, blk_mem s) (d1, m1) -> m1 = after (blk_mem s) /\
      exists d2 k V1, block_device_isr reg_read data (set_blk_dev (d1, m1) s) =
          Ret DNA_INVOKE_SCHEDULER (set_blk_kern k (set_blk_dev (d2, m1) s)) /\
        holds d2 (bd_port b) (bd_block_size b) disk /\ sem_rep U k V1 isr 0 [] /\
        t_status (info (thr self k)) = DNA_THREAD_READY /\ resource (info (thr self k)) = DNA_NO_RESOURCE /\
        (AThread self ∈ V1 (QReady (affinity (info (thr self (blk_kern s))))) \/
         exists c, EvIpi c (DNA_IPI_DISPATCH self) ∈ events k).

(** The caller has the device and the area of the region [c]; the threads [W] may have asked for the
    device. *)
Record in_use (c T n : Z) (W : list (tref * Z)) (A0 D0 : list Z) (V : qid -> list addr) (k : kstate) : Prop := {
  iu_sem : sem_rep U k V dev T W;
  iu_id : sem_id (sem dev k) = bd_semaphore_id b;
  iu_tokens : T + 1 < 2147483648;
  iu_room : room (A0 ++ [c]) D0 n k;
  iu_lock : locks k !! LAllocator = None
}.

(** The caller runs again once the interrupt has come, in a kernel that is [k] at the end of the
    switch. *)
Record resumed (c T n : Z) (W : list (tref * Z)) (A0 D0 : list Z) (V : qid -> list addr) (k : kstate) (s : blk D) : Prop := {
  rs_switch : switch_end (blk_kern s) = Ret DNA_OK k;
  rs_control : blk_controls s !! p = Some b;
  rs_isr : sem_rep U k V isr 0 [];
  rs_isr_id : sem_id (sem isr k) = bd_isr_semaphore_id b;
  rs_served : resource (info (thr self k)) = DNA_NO_RESOURCE;
  rs_in_use : in_use c T n W A0 D0 V k
}.

(** The buffer and the token of the device are given back: the first of the threads [W] that asks for
    one token is ready. *)
Definition given_back (T n : Z) (W : list (tref * Z)) (A0 D0 : list Z) (k : kstate) : Prop :=
  exists V woken rest m, serve 1 W = (woken, rest, m) /\ sem_rep U k V dev (T + m) rest /\ room A0 D0 n k /\
    forall t, t ∈ woken -> t_status (info (thr t k)) = DNA_THREAD_READY.

(** With the interrupt, an access is the command and the wait. *)
Lemma access_waits idle V0 k m d d1 ctl q access lba count rw :
  ctl !! p = Some b -> bd_should_enable_irq b = true -> by_interrupt idle V0 k ->
  program reg_write (bd_port b) access lba count 1 rw (d, m) = Ret tt (d1, m) ->
  exists k2 k3 V3, access_device_blocks reg_write reg_read fuel p access lba count rw (mkBlkState k m d ctl q) =
      Ret (Switched (frame (cpsr k))) (mkBlkState k2 m d1 ctl q) /\
    switch_end k2 = Ret DNA_OK k3 /\ awaits k3 V3 /\ heap k3 = heap k /\ locks k3 = locks k /\
    forall T, sem_rep U k V0 dev T [] -> sem_rep U k3 V3 dev T [] /\ sem dev k3 = sem dev k.
Proof.
  intros Hctl Hirq [Hi Hne Hsem Hid Hr] Hprog.
  destruct (wp_switched _ _ _ _ (semaphore_acquire_block_wp U k V0 isr 0 [] _ 1 0 (-1) self idle Hsem Hr eq_refl Hi Hid
    ltac:(lia) ltac:(by vm_compute)))
    as (f & st & k2 & k3 & H1 & H2 & next & V1 & V3 & _ & [= -> ->] & Hrep3 & Hl & _ & _ & Hid3 & Hh & Hs3 & HV3).
  exists k2, k3, V3. split_and!; [|exact H2|by split|done|done|].
  - apply wp_run. apply wp_bind, wp_lift. eapply wp_eq; [reflexivity|]. apply wp_bind. eapply wp_control; [exact Hctl|].
    rewrite Hirq. apply wp_bind, wp_lift. eapply wp_eq; [exact Hprog|]. apply wp_bind, wp_lift. eapply wp_eq; [reflexivity|].
    apply wp_bind, wp_lift. eapply wp_eq; [etransitivity; [|exact H1]; f_equal; by destruct k|]. by apply wp_ret.
  - intros T [Hok HV HW HTk HTr HTe Hl1 Hl2 Hl3 Hl4]. rewrite <- Hl in *. split; [|by apply Hs3, not_eq_sym].
    split; try done; [by destruct Hrep3|rewrite HV3; [done|by intros [= ?]|done|done]|by rewrite Hs3 by (by apply not_eq_sym)].
Qed.

(** block_device_isr, when the device ends a command that [signals]. *)
Lemma isr_wakes d before after st disk :
  isr < DNA_MAX_SEM -> st = BLOCK_DEVICE_READ_SUCCESS \/ st = BLOCK_DEVICE_WRITE_SUCCESS ->
  signals reg_read ends d (bd_port b) before after st (fun d => holds d (bd_port b) (bd_block_size b) disk) ->
  interrupt_wakes d before after disk.
Proof.
  intros Hi Hst Hsig s V0 data <- Hb Hctl Hq [Hsem Hid]. destruct (Hsig _ Hb) as [Hex Hend]. split; [done|].
  intros d1 m1 (-> & d2 & Hread & Hd2)%Hend. split; [done|].
  assert (wp (semaphore_release (bd_isr_semaphore_id b) 1 DNA_NO_RESCHEDULE) (fun r k => r = Returned DNA_OK /\
    exists V1, sem_rep U k V1 isr 0 [] /\ release_effect (blk_kern s) [(self, 1)] [self] k V1) (blk_kern s)) as Hrel.
  { eapply (semaphore_release_wp U (blk_kern s) V0 isr 0 [(self, 1)] _ 1 _ [self] [] 0); [done..|lia|lia|done|].
    intros k V1 x Hrep1 Heff _. unfold release_reschedule. apply wp_ret. split; [done|]. by exists V1. }
  apply wp_returns in Hrel as (k & Hrel & V1 & Hrep1 & Heff). exists d2, k, V1.
  pose proof (re_woken _ _ _ _ _ Heff self ltac:(by left)) as Hself.
  split_and!; [|done|done|by unfold thr; rewrite Hself|by unfold thr; rewrite Hself|apply (re_present _ _ _ _ _ Heff); by left].
  destruct s as [k0 m d ctl q]. cbn [blk_kern blk_mem blk_dev blk_controls block_device_controls] in *. subst q.
  apply wp_run. apply wp_bind, wp_gets. apply wp_bind. eapply wp_control; [exact Hctl|].
  apply wp_bind, wp_lift. eapply wp_eq; [exact Hread|].
  destruct Hst as [-> | ->]; cbn -[semaphore_release]; apply wp_bind, wp_lift; (eapply wp_eq; [exact Hrel|]); by apply wp_ret.
Qed.

(** The caller runs again, at the end of the access. *)
Lemma resume_ok it c T n W A0 D0 V0 k s :
  isr <> dev -> resumed c T n W A0 D0 V0 k s ->
  exists k1, access_device_blocks_resume (frame it) s = Ret DNA_OK (set_blk_kern k1 s) /\ cpsr k1 = it /\
    sem_rep U k1 V0 isr 0 [] /\ sem_id (sem isr k1) = bd_isr_semaphore_id b /\ in_use c T n W A0 D0 V0 k1 /\
    (forall idle, running_ok U k V0 self idle -> running_ok U k1 V0 self idle).
Proof.
  intros Hne [Hsw Hctl Hisr Hiid Hres [Hsem Hid HT Hroom Hl]].
  destruct (semaphore_acquire_served U (blk_kern s) k V0 isr 0 [] (frame it) Hsw eq_refl eq_refl Hiid Hres Hisr) as [Hrun Hisr1].
  set (v := with_latest_holder _ _) in *. exists (set_cpsr it (put_sem isr v k)). split_and!; [|done|exact Hisr1| |split|].
  - apply wp_run. apply wp_bind, wp_lift. eapply wp_eq; [exact Hrun|]. by apply wp_ret.
  - unfold v, sem, put_sem. cbn. by rewrite lookup_insert_eq.
  - by apply sem_rep_cpsr, sem_rep_put; [apply not_eq_sym|].
  - etransitivity; [|exact Hid]. f_equal. apply (sem_put_ne dev isr v k). by apply not_eq_sym.
  - done.
  - by eapply heap_frame.
  - done.
  - intros idle Hr. by apply running_cpsr, running_put.
Qed.

(** The end of a transfer, when the threads [W] wait for the device. *)
Lemma transfer_end_served c T n W A0 D0 V0 k m (d : D) ctl q :
  ctl !! p = Some b -> dev < DNA_MAX_SEM -> in_use c T n W A0 D0 V0 k ->
  exists k', transfer_end p (c + DNA_KERNEL_BLOCK_SIZE) (mkBlkState k m d ctl q) =
      Ret (Returned DNA_OK) (mkBlkState k' m d ctl q) /\ given_back T n W A0 D0 k'.
Proof.
  intros Hctl Hi [Hsem Hid HT Hroom Hl]. destruct (heap_free A0 c [] D0 n k Hroom) as (h & Hf & Hroom1).
  destruct (serve 1 W) as [[woken rest] x] eqn:Hs.
  assert (wp (semaphore_release (bd_semaphore_id b) 1 DNA_NO_RESCHEDULE) (fun r k' => r = Returned DNA_OK /\
    given_back T n W A0 D0 k') (set_heap h k)) as Hrel.
  { eapply (semaphore_release_wp U (set_heap h k) V0 dev T W); [by apply sem_rep_heap|done..|lia|done|exact Hs|].
    intros k' V1 y Hrep1 Heff _. unfold release_reschedule. apply wp_ret. split; [done|].
    exists V1, woken, rest, x. split_and!; [done|done| |].
    - eapply heap_frame; [exact Hroom1|by rewrite (re_heap _ _ _ _ _ Heff)|by rewrite (re_locks _ _ _ _ _ Heff)].
    - intros t Ht. unfold thr. by rewrite (re_woken _ _ _ _ _ Heff t Ht). }
  apply wp_returns in Hrel as (k' & Hrel & Hback). exists k'. split; [|done].
  apply wp_run. apply wp_bind, wp_lift. eapply wp_eq; [exact Hf|]. apply wp_bind. eapply wp_control; [exact Hctl|].
  apply wp_bind, wp_lift. eapply wp_eq; [exact Hrel|]. by apply wp_ret.
Qed.

(** The kernel of a caller that has got the device and a buffer. *)
Lemma taken_interrupt idle T n disk s h :
  ready T n disk s -> by_interrupt idle V (blk_kern s) ->
  by_interrupt idle V (set_heap h (taken b s)) /\ cpsr (taken b s) = cpsr (blk_kern s).
Proof.
  intros [[_ _ _ _ Hdi] Hds Hdid HT _ _ Hself] [Hi Hne Hsem Hid Hr].
  destruct (semaphore_acquire_now U _ V _ T [] (bd_semaphore_id b) 1 0 (-1) self Hds eq_refl Hdi Hdid) as [Hrun _];
    [split; [lia|by vm_compute]|lia|done|].
  unfold taken. rewrite Hrun. cbn [after]. set (v := with_latest_holder _ _). split; [|done]. split; [done|done| | |].
  - by apply sem_rep_heap, sem_rep_put.
  - rewrite <- Hid at 2. f_equal. apply (sem_put_ne isr dev v). done.
  - by apply running_heap, running_put.
Qed.

(** ** Reads *)



(** ** Writes *)

(** The blocks are in the buffer: block_device_write patches them with the bytes [l] of the caller, asks
    for their transfer, and waits again. *)
Lemma write_resumes idle it c T n W A0 D0 V0 k s disk src off l :
  let buffer := c + DNA_KERNEL_BLOCK_SIZE in let bs := bd_block_size b in
  let len := Z.of_nat (length l) in let nb := (off + len) / bs - off / bs + 1 in let data := disk_blocks disk bs (off / bs) nb in
  bd_should_enable_irq b = true -> isr < DNA_MAX_SEM -> isr <> dev -> attached disk s -> resumed c T n W A0 D0 V0 k s ->
  running_ok U k V0 self idle -> 0 <= off -> off + len < Z.of_nat (length disk) -> 0 <= buffer < 2 ^ 32 ->
  segment (blk_mem s) buffer data -> copyable (blk_mem s) (buffer + off mod bs) src l ->
  let m := written (blk_mem s) (buffer + off mod bs) l in let data' := patched data (Z.to_nat (off mod bs)) l in
  exists d1 k2 k3 V3,
    block_device_write_resume reg_write reg_read fuel p src off len (BkRead buffer (frame it)) s =
      Ret (Switched (BkWrite buffer (frame it))) (mkBlkState k2 m d1 (blk_controls s) (block_device_controls s)) /\
    switch_end k2 = Ret DNA_OK k3 /\ awaits k3 V3 /\ segment m buffer data' /\
    interrupt_wakes d1 (fun m => segment m buffer data') (fun m => m) (patched disk (Z.to_nat off) l).
Proof.
  intros buffer bs len nb data Hirq Hi Hne Hat Hres Hr Ho Hend Hbuf Hseg Hcopy m data'.
  destruct Hat as [Hctl Hd (Hbs & HN & Hmax) Hlen Hdi].
  destruct (write_blocks_ok off len bs (bd_block_count b)) as (Hwb & Hnb & Hwin & Hlast); [done|done|lia|lia|done|]. fold nb in Hwb, Hnb, Hwin, Hlast.
  pose proof (Z.div_mod off bs ltac:(lia)) as Hdm. pose proof (Z.mod_pos_bound off bs Hbs) as Hlo.
  assert (0 <= off / bs) as Hlba by (apply Z.div_pos; lia).
  assert (length data = Z.to_nat (nb * bs)) as Hdata by (unfold data, disk_blocks; rewrite length_take, length_drop; nia).
  assert (length data' = length data) as Hdata' by (apply patched_length; lia).
  pose proof (device_bytes reg_write reg_read _ _ _ _ Hd) as Hbytes.
  destruct (device_write_irq reg_write reg_read (blk_dev s) m (bd_port b) bs disk buffer (off / bs) nb data') as (d1 & Hprog & Hsig);
    [done|done|done|done|done|nia| |lia|].
  { apply patched_bytes; [by apply Forall_take, Forall_drop|by destruct Hcopy]. }
  assert (patched disk (Z.to_nat (off / bs * bs)) data' = patched disk (Z.to_nat off) l) as Hdisk.
  { unfold data', data, disk_blocks. rewrite patched_window by nia. f_equal. nia. }
  rewrite Hdisk in Hsig.
  destruct (resume_ok it c T n W A0 D0 V0 k s Hne Hres) as (k1 & Hrun & <- & Hisr & Hid & Huse & Hr1).
  destruct s as [k0 m0 d ctl q]. cbn [blk_kern blk_mem blk_dev blk_controls block_device_controls] in *.
  destruct (access_waits idle V0 k1 m d d1 ctl q _ _ _ _ Hctl Hirq ltac:(split; eauto) Hprog)
    as (k2 & k3 & V3 & Hacc & Hsw & Haw & _).
  exists d1, k2, k3, V3. split_and!; [|done|done| |].
  - apply wp_run. apply wp_bind. eapply wp_eq; [exact Hrun|]. unfold write_read. cbn [st_eqb].
    apply wp_bind. eapply wp_control; [exact Hctl|]. fold bs.
    apply wp_bind, wp_lift. eapply wp_eq; [apply write_pieces_ok; [nia|done|lia|done]|]. fold len. rewrite Hwb.
    apply wp_bind. eapply wp_eq; [exact Hacc|]. by apply wp_ret.
  - pose proof (segment_patched m0 buffer data (Z.to_nat (off mod bs)) l) as Hsp. rewrite Z2Nat.id in Hsp by lia. apply Hsp; [done|lia].
  - eapply (isr_wakes d1); [done|by right|exact Hsig].
Qed.

(** The disk has the bytes: block_device_write gives the buffer and the device back. *)
Lemma write_finishes it c T n W A0 D0 V0 k s src off count :
  isr <> dev -> dev < DNA_MAX_SEM -> resumed c T n W A0 D0 V0 k s ->
  exists k', block_device_write_resume reg_write reg_read fuel p src off count (BkWrite (c + DNA_KERNEL_BLOCK_SIZE) (frame it)) s =
      Ret (Returned DNA_OK) (set_blk_kern k' s) /\ given_back T n W A0 D0 k'.
Proof.
  intros Hne Hi Hres. pose proof (rs_control _ _ _ _ _ _ _ _ _ Hres) as Hctl.
  destruct (resume_ok it c T n W A0 D0 V0 k s Hne Hres) as (k1 & Hrun & _ & _ & _ & Huse & _).
  destruct s as [k0 m d ctl q]. cbn [blk_kern blk_mem blk_dev blk_controls] in *.
  destruct (transfer_end_served c T n W A0 D0 V0 k1 m d ctl q Hctl Hi Huse) as (k' & Hfin & Hback).
  exists k'. split; [|done]. apply wp_run. apply wp_bind. eapply wp_eq; [exact Hrun|]. unfold write_written. cbn [st_eqb].
  by eapply wp_eq; [exact Hfin|].
Qed.

(** C26: block_device_write stores the bytes of the source in the disk from [off] and nowhere else,
    through a buffer that it gives back with the semaphore, when they end before the last byte of the
    device.  A device that is polled has stored them at the return, and the memory outside the buffer
    is as before.  With the interrupt the caller waits twice, for the blocks to be in the buffer and for
    the disk to have them: block_device_isr makes it ready each time if the device is the first one; when it runs again, the buffer
    and the source being untouched, it patches the blocks with its bytes, then gives the buffer back to
    the heap and the token to the first thread that waits for the device. *)
Theorem block_device_write_spec T n disk s src off l :
  let bs := bd_block_size b in let len := Z.of_nat (length l) in let nb := (off + len) / bs - off / bs + 1 in let size := nb * bs in
  ready T n disk s -> 0 <= off -> off + len < Z.of_nat (length disk) ->
  cost size < n -> segment (blk_mem s) src l -> Forall isbyte l -> buffer_fits b size false src (length l) s ->
  let disk' := patched disk (Z.to_nat off) l in
  (bd_should_enable_irq b = false ->
   exists buffer s', block_device_write reg_write reg_read fuel p src off len s = Ret (Returned DNA_OK) s' /\
     ready T (n - cost size) disk' s' /\ only_written (blk_mem s) (blk_mem s') buffer size src []) /\
  (bd_should_enable_irq b = true -> forall idle, by_interrupt idle V (blk_kern s) ->
   exists c d1 k2 k3 V3, let buffer := c + DNA_KERNEL_BLOCK_SIZE in let f := frame (cpsr (blk_kern s)) in
     let data := disk_blocks disk bs (off / bs) nb in let data' := patched data (Z.to_nat (off mod bs)) l in
     block_device_write reg_write reg_read fuel p src off len s = Ret (Switched (BkRead buffer f))
       (mkBlkState k2 (blk_mem s) d1 (blk_controls s) (block_device_controls s)) /\
     switch_end k2 = Ret DNA_OK k3 /\ awaits k3 V3 /\ sem_rep U k3 V3 dev (T - 1) [] /\ room (A ++ [c]) Dd (n - cost size) k3 /\
     interrupt_wakes d1 (fun m => mapped m buffer (Z.to_nat size)) (fun m => written m buffer data) disk /\
     (forall T' n' W A' D' V' k s' idle', resumed c T' n' W A' D' V' k s' -> running_ok U k V' self idle' ->
        attached disk s' -> segment (blk_mem s') buffer data -> segment (blk_mem s') src l ->
        exists d2 k4 k5 V5, let m := written (blk_mem s') (buffer + off mod bs) l in
          block_device_write_resume reg_write reg_read fuel p src off len (BkRead buffer f) s' = Ret (Switched (BkWrite buffer f))
            (mkBlkState k4 m d2 (blk_controls s') (block_device_controls s')) /\
          switch_end k4 = Ret DNA_OK k5 /\ awaits k5 V5 /\ segment m buffer data' /\
          interrupt_wakes d2 (fun m => segment m buffer data') (fun m => m) disk') /\
     (forall T' n' W A' D' V' k s', resumed c T' n' W A' D' V' k s' ->
        exists k', block_device_write_resume reg_write reg_read fuel p src off len (BkWrite buffer f) s' =
            Ret (Returned DNA_OK) (set_blk_kern k' s') /\ given_back T' n' W A' D' k')).
Proof.
  intros bs len nb size Hr Ho Hend Hcost Hsrc Hbl Hfit disk'. split; [by intros Hirq; eapply block_device_write_polled|].
  intros Hirq idle Hint. pose proof (br_attached _ _ _ _ _ _ _ _ _ _ _ Hr) as [Hctl Hd (Hbs & HN & Hmax) Hlen Hi].
  destruct (write_blocks_ok off len bs (bd_block_count b)) as (Hwb & Hnb & Hwin & Hlast); [done|done|lia|lia|done|]. fold nb in Hwb, Hnb, Hwin, Hlast.
  pose proof (Z.mod_pos_bound off bs Hbs) as Hlo. assert (0 <= off / bs) as Hlba by (apply Z.div_pos; lia).
  assert (0 < size < 2 ^ 31) as Hsize by (unfold size, bs in *; nia).
  destruct (transfer_begin U V A Dd self p b fuel Hfuel T n disk s size false Hr Hsize Hcost) as (Hacq & c & h & Hmal & Hc0 & Hc1 & Hbusy).
  destruct (Hfit _ _ Hmal) as [Hmap Hap]. set (buffer := c + DNA_KERNEL_BLOCK_SIZE) in *.
  assert (0 < buffer < 2 ^ 32) as Hbuf by (unfold buffer, DNA_KERNEL_BLOCK_SIZE, sizeof_region in *; lia).
  destruct (taken_interrupt idle T n disk s h Hr Hint) as [Hint1 Hcpsr].
  destruct s as [k m d ctl q]. cbn [blk_kern blk_mem blk_dev blk_controls block_device_controls] in *. set (k1 := taken b _) in *.
  destruct (device_read_irq reg_write reg_read d m (bd_port b) bs disk buffer (off / bs) nb)
    as (d1 & Hprog & Hsig); [done|done|lia|done|done|nia|].
  destruct (access_waits idle V (set_heap h k1) m d d1 ctl q _ _ _ _ Hctl Hirq Hint1 Hprog)
    as (k2 & k3 & V3 & Hrun & Hsw & Haw & Hh3 & Hl3 & Hdev).
  exists c, d1, k2, k3, V3. cbn zeta. fold buffer. rewrite <- Hcpsr.
  destruct (Hdev (T - 1) (bb_sem _ _ _ _ _ _ _ _ _ _ Hbusy)) as [Hdev3 _].
  pose proof (bi_index _ _ _ Hint) as Hii. pose proof (bi_other _ _ _ Hint) as Hio.
  split_and!; [|done|done|done| | | |].
  - apply wp_run. unfold block_device_write. apply wp_bind. eapply wp_control; [exact Hctl|].
    apply wp_bind, wp_lift. eapply wp_eq; [exact Hacq|]. unfold write_entered.
    apply wp_bind. eapply wp_control; [exact Hctl|]. fold bs.
    rewrite (proj2 (Z.eqb_neq bs 0)) by lia. rewrite Hwb. fold size. rewrite (u32_id size) by lia. rewrite Z.quot_div_nonneg by lia.
    apply wp_bind, wp_lift. eapply wp_eq; [exact Hmal|]. fold buffer. rewrite (proj2 (Z.eqb_neq buffer 0)) by lia. cbn [negb].
    apply wp_bind. eapply wp_eq; [exact Hrun|]. by apply wp_ret.
  - eapply heap_frame; [exact (bb_room _ _ _ _ _ _ _ _ _ _ Hbusy)|done|]. rewrite Hl3. exact (bb_lock _ _ _ _ _ _ _ _ _ _ Hbusy).
  - eapply (isr_wakes d1); [done|by left|exact Hsig].
  - intros T' n' W A' D' V' k' s' idle' Hres Hr' Hat' Hseg Hsrc'.
    destruct (write_resumes idle' (cpsr k1) c T' n' W A' D' V' k' s' disk src off l) as (d2 & k4 & k5 & V5 & H1 & H2 & H3 & H4 & H5);
      [done..|fold buffer; lia|done| |].
    { fold bs buffer. fold nb size in Hwin. split; [done|done| |unfold apart in *; lia].
      eapply mapped_sub; [apply segment_mapped; exact Hseg|lia|]. unfold disk_blocks. rewrite length_take, length_drop. fold bs len nb. nia. }
    by exists d2, k4, k5, V5.
  - intros T' n' W A' D' V' k' s' Hres. by eapply write_finishes.
Qed.
End Transfers.

(** ** A driver

    The semaphore 1 of the system of Scenario.v protects a device of eight blocks of four bytes, with a
    heap of [size] bytes at 0x10000.  The device is polled, or has the semaphore 3 for its interrupt. *)
#[local] Instance hal_block : Hal := {| cpu_mp_count := 2; timer_value := fun _ n => 100 * Z.of_nat n |}.

Definition disk0 : list Z := map Z.of_nat (seq 100 32).
Definition bdev (irq : bool) : block_device_control_t := mkBlk (sem_raw 8 1) (sem_raw 9 3) irq 2 8 4 0x400.
Definition heap0 (size : Z) : mstate := after (memory_create 0x10000 size (mkM ∅ 0 0 0)) (mkM ∅ 0 0 0).
Definition with_sems (tokens : Z) (k : kstate) : kstate := put_sem 3 (mkSem 9 3 [] 0 0) (put_sem 1 (mkSem 8 1 [] tokens 0) k).
Definition block_kern (size : Z) : kstate := set_heap (heap0 size) (with_sems 1 sys).
Definition block_mem : mem := written (written ∅ 0x10020 (zeros 64)) 0x20000 (map Z.of_nat (seq 1 16)).
Definition block_state (irq : bool) (size : Z) : blk csregs :=
  mkBlkState (block_kern size) block_mem (mkRegs 0 0 0 0 0 0 0 0 disk0) {[0x500 := bdev irq]} 0x500.

Abbreviation at_0x400 n disk irq :=
  (ready (holds := at_rest 0x400 4) (room := worst_fit_room) items Vs [] [] (0, 2) 0x500 (bdev irq) 1 n disk) (only parsing).

Lemma disk0_bytes : Forall isbyte disk0.
Proof. apply Forall_forall. intros x (i & -> & Hi)%list_elem_of_fmap. apply elem_of_seq in Hi. unfold isbyte. lia. Qed.

Lemma heap0_live size : 96 <= size <= 0x10000 -> worst_fit_room [] [] (size / 32 - 1) (block_kern size).
Proof.
  intros Hs. split; [done|]. destruct (memory_create_ok (mkM ∅ 0 0 0) 0x10000 size) as (h & Hrun & Hok & Hb & _);
    [done|unfold DNA_KERNEL_BLOCK_SIZE, sizeof_region; lia|lia|].
  exists [0x10000]. split; [unfold block_kern; cbn [heap set_heap]; unfold heap0; rewrite Hrun; cbn [after]; by apply heap_ok_live|].
  exists 0x10000. split; [by left|]. unfold block_kern; cbn [heap set_heap]. unfold heap0. rewrite Hrun. cbn [after]. rewrite Hb.
  unfold DNA_KERNEL_BLOCK_SIZE, sizeof_region. change (2 * 16) with 32. lia.
Qed.

Lemma block_attached irq k m : attached (holds := at_rest 0x400 4) 0x500 (bdev irq) disk0
  (mkBlkState k m (mkRegs 0 0 0 0 0 0 0 0 disk0) {[0x500 := bdev irq]} 0x500).
Proof. split; try done. split_and!; [done|done|done|done|exact disk0_bytes]. Qed.

Lemma block_ready irq size : 96 <= size <= 0x10000 -> at_0x400 (size / 32 - 1) disk0 irq (block_state irq size).
Proof.
  intros Hs. split; try done.
  - apply block_attached.
  - apply sem_rep_heap. split; try done. exact sys_sched.
  - by apply heap0_live.
Qed.

Lemma block_ready_2047 irq : at_0x400 2047 disk0 irq (block_state irq 0x10000).
Proof. exact (block_ready irq 0x10000 ltac:(lia)). Qed.
Lemma block_ready_2 irq : at_0x400 2 disk0 irq (block_state irq 96).
Proof. exact (block_ready irq 96 ltac:(lia)). Qed.

Lemma block_interrupt : by_interrupt items (0, 2) (bdev true) (0, 0) Vs (block_kern 0x10000).
Proof.
  split; try done.
  - apply sem_rep_heap. split; try done. exact sys_sched.
  - apply running_heap, running_put, running_put. by destruct sys_running; split.
Qed.

Lemma block_buffer irq size erase q len :
  0 < size <= 64 -> 0x10060 <= q -> value (kernel_malloc size erase (taken (bdev irq) (block_state irq 0x10000))) = Some 0x10020 ->
  buffer_fits (bdev irq) size erase q len (block_state irq 0x10000).
Proof.
  intros Hs Hq Hm buffer h Hrun. rewrite Hrun in Hm. injection Hm as ->. split; [|unfold apart; lia].
  eapply (mapped_sub _ 0x10020 64); [|lia|lia]. apply mapped_written.
  change 64%nat with (length (zeros 64)). apply segment_mapped, written_segment.
Qed.

Lemma block_source n : (n <= 16)%nat -> segment block_mem 0x20000 (map Z.of_nat (seq 1 n)).
Proof.
  intros Hn. assert (map Z.of_nat (seq 1 16) = map Z.of_nat (seq 1 n) ++ map Z.of_nat (seq (1 + n) (16 - n))) as Hl.
  { rewrite <- map_app, <- seq_app. do 2 f_equal. lia. }
  pose proof (written_segment (written ∅ 0x10020 (zeros 64)) 0x20000 (map Z.of_nat (seq 1 16))) as Hs.
  rewrite Hl in Hs at 2. by apply segment_app in Hs as [? _].
Qed.

(** The caller runs again after the thread (0,3), with the heap [h]. *)
Definition back (h : mstate) : kstate :=
  set_heap h (set_cpus (<[0 := mkCpu 0 DNA_CPU_RUNNING 0 (Some (0, 3)) (Some (0, 2)) (Some (0, 0)) (Some 0)]> (cpus sys)) (with_sems 0 sys)).
Definition back_state (h : mstate) (m : mem) : blk csregs :=
  mkBlkState (back h) m (mkRegs 0 0 0 0 0 0 0 0 disk0) {[0x500 := bdev true]} 0x500.

Lemma back_sched : sched_ok items (kq sys) (locks sys)
  (<[0 := mkCpu 0 DNA_CPU_RUNNING 0 (Some (0, 3)) (Some (0, 2)) (Some (0, 0)) (Some 0)]> (cpus sys)) Vs.
Proof.
  apply sched_ok_avail. split; [exact sys_wf|]. split; [apply NoDup_singleton|done|done|].
  intros x Hx. view_cases Hx. injection Hx as ->. by exists 1.
Qed.

Lemma back_resumed c n k m :
  worst_fit_room [c] [] n k -> resumed (room := worst_fit_room) items (0, 2) 0x500 (bdev true) c 0 n [] [] [] Vs
    (back (heap k)) (back_state (heap k) m).
Proof.
  intros Hroom. split; try done.
  - by apply sem_rep_heap; split; try done; exact back_sched.
  - split; try done.
    + by apply sem_rep_heap; split; try done; exact back_sched.
    + by eapply (heap_frame (room := worst_fit_room)).
Qed.

Lemma back_running h : running_ok items (back h) Vs (0, 2) (0, 0).
Proof. apply running_heap. by destruct sys_running; split. Qed.


(** The buffer of a transfer that waits for its first interrupt. *)
Definition first_buffer (r : outcome (blk csregs) (switched status_t blk_frame)) : Z :=
  match r with Ret (Switched (BkRead buffer _)) _ => buffer | _ => 0 end.

Lemma block_device_write_spec_witness :
  (exists s' n, block_device_write (sl_write 0x400 3) (sl_read 0x400 4) 4 0x500 0x20000 5 6 (block_state false 0x10000) =
      Ret (Returned DNA_OK) s' /\ at_0x400 n (patched disk0 5 (map Z.of_nat (seq 1 6))) false s') /\
  (exists f s1 s2 f2 s3 s4 s5, block_device_write (sl_write 0x400 3) (sl_read 0x400 4) 4 0x500 0x20000 5 6 (block_state true 0x10000) =
      Ret (Switched f) s1 /\
    block_device_write_resume (sl_write 0x400 3) (sl_read 0x400 4) 4 0x500 0x20000 5 6 f s2 = Ret (Switched f2) s3 /\
    block_device_write_resume (sl_write 0x400 3) (sl_read 0x400 4) 4 0x500 0x20000 5 6 f2 s4 = Ret (Returned DNA_OK) s5).
Proof.
  assert (segment block_mem 0x20000 (map Z.of_nat (seq 1 6))) as Hsrc by (apply (block_source 6); lia).
  assert (Forall isbyte (map Z.of_nat (seq 1 6))) as Hb.
  { apply Forall_forall. intros x (i & -> & Hi)%list_elem_of_fmap. apply elem_of_seq in Hi. unfold isbyte. lia. }
  split.
  - destruct (block_device_write_spec (sl_write 0x400 3) (sl_read 0x400 4) items Vs [] [] (0, 2) 0x500 (bdev false) 4 (le_n 4)
      1 2047 disk0 (block_state false 0x10000) 0x20000 5 (map Z.of_nat (seq 1 6)) (block_ready_2047 false)) as [Hpoll _];
      [lia|by vm_compute|by vm_compute|exact Hsrc|exact Hb|apply block_buffer; [by vm_compute|lia|by vm_compute]|].
    destruct (Hpoll eq_refl) as (buffer & s' & Hrun & Hr & _). exists s'. eexists. exact (conj Hrun Hr).
  - destruct (block_device_write_spec (sl_write 0x400 3) (sl_read 0x400 4) items Vs [] [] (0, 2) 0x500 (bdev true) 4 (le_n 4)
      1 2047 disk0 (block_state true 0x10000) 0x20000 5 (map Z.of_nat (seq 1 6)) (block_ready_2047 true)) as [_ Hirq];
      [lia|by vm_compute|by vm_compute|exact Hsrc|exact Hb|apply block_buffer; [by vm_compute|lia|by vm_compute]|].
    destruct (Hirq eq_refl (0, 0) block_interrupt) as (c & d1 & k2 & k3 & V3 & Hrun & _ & _ & _ & Hroom & _ & Hnext & Hlast).
    set (s2 := back_state (heap k3) (written (written ∅ 0x20000 (map Z.of_nat (seq 1 6))) (c + DNA_KERNEL_BLOCK_SIZE)
      (disk_blocks disk0 4 (5 / 4) ((5 + 6) / 4 - 5 / 4 + 1)))).
    destruct (Hnext _ _ _ _ _ _ _ s2 (0, 0) (back_resumed c _ k3 _ Hroom) (back_running _)) as (d2 & k4 & k5 & V5 & Hmid & _).
    { apply block_attached. }
    { apply written_segment. }
    { apply segment_written; [|apply written_segment].
      assert (first_buffer (block_device_write (sl_write 0x400 3) (sl_read 0x400 4) 4 0x500 0x20000 5 6 (block_state true 0x10000)) = 0x10020)
        as Hbuf by (vm_compute; reflexivity).
      assert (c + DNA_KERNEL_BLOCK_SIZE = 0x10020) as -> by (rewrite <- Hbuf; symmetry; exact (f_equal first_buffer Hrun)).
      left. by vm_compute. }
    destruct (Hlast _ _ _ _ _ _ _ (back_state (heap k3) ∅) (back_resumed c _ k3 _ Hroom)) as (k' & Hend & _).
    eexists _, _, _, _, _, _, _. split; [exact Hrun|]. split; [exact Hmid|exact Hend].
Defined.

Lemma block_device_read_errors_witness :
  block_device_read (sl_write 0x400 3) (sl_read 0x400 4) 4 0x500 0x20000 0 40 (block_state false 0x10000) =
    Ret (Returned DNA_BAD_ARGUMENT) (block_state false 0x10000) /\
  exists s', block_device_read (sl_write 0x400 3) (sl_read 0x400 4) 4 0x500 0x20000 0 20 (block_state false 96) =
    Ret (Returned DNA_OUT_OF_MEM) s'.
Proof.
  destruct (block_device_read_errors (sl_write 0x400 3) (sl_read 0x400 4) items Vs [] [] (0, 2) 0x500 (bdev false) 4 (le_n 4)
    1 2047 disk0 (block_state false 0x10000) 0x20000 0 40 (block_ready_2047 false)) as [H1 _]; [lia|lia|].
  destruct (block_device_read_errors (sl_write 0x400 3) (sl_read 0x400 4) items Vs [] [] (0, 2) 0x500 (bdev false) 4 (le_n 4)
    1 2 disk0 (block_state false 96) 0x20000 0 20 (block_ready_2 false)) as [_ H2]; [lia|lia|].
  destruct H2 as (s' & Hrun & _); [by vm_compute|by vm_compute|].
  split; [apply H1; by vm_compute|]. exists s'. exact Hrun.
Defined.

(** A write that ends with the device also stores the block after it, out of the buffer: the device
    grows from 32 to 36 bytes. *)
Example block_device_write_grows :
  match block_device_write (sl_write 0x400 3) (sl_read 0x400 4) 4 0x500 0x20000 28 4 (block_state false 0x10000) with
  | Ret (Returned DNA_OK) s' => length (r_file (blk_dev s'))
  | _ => 0%nat
  end = 36%nat.
Proof. vm_compute. reflexivity. Qed.
