(* ===== verification/Platform.v ===== *)
(** * The driver of the platform (SoclibPlatformDriver)

    The terminals (soclib_tty_*.c), the routines of the timers and of the requests between processors
    (soclib_timer_isr.c, soclib_ipi_isr.c), which call alarm_handler and ipi_handler, and the
    installation of all of them (soclib_platform_*.c).

    The registers are read and written by their addresses in a device that is a parameter.  A terminal
    holds the last character that it received, and a semaphore that its routine releases for each
    character; soclib_tty_read is cut where it may wait.  The names of the devices are lists of
    characters, at their addresses. *)

From S2P Require Import Prelude Status Queue Allocator Kernel Logic CLib Memory Scheduler Alarm Thread Semaphore AlarmHandler Interrupt Scenario.

(** Private/Tty.h *)
Record soclib_tty_t := mkTty {
  buffer_empty : bool;
  buffer_data : Z;
  tty_irq : Z;
  tty_port : Z;
  tty_sem_id : Z
}.
(** An entry of SOCLIB_TTY_DEVICES, which the application gives. *)
Record soclib_tty_config_t := mkTtyConfig { c_irq : Z; c_port : Z }.

Definition sizeof_soclib_tty : Z := 20.

(** soclib_tty_port_t, soclib_ipi_port_t, soclib_timer_port_t and soclib_aicu_port_t: offsets of the
    registers. *)
Definition tty_write : Z := 0.
Definition tty_status : Z := 4.
Definition tty_read : Z := 8.
Definition sizeof_ipi_port : Z := 16.
Definition ipi_command : Z := 0.
Definition ipi_data : Z := 4.
Definition ipi_reset : Z := 12.
Definition sizeof_timer_port : Z := 16.
Definition timer_mode : Z := 4.
Definition timer_irq_ack : Z := 12.
Definition aicu_control : Z := 0.
Definition slot_mask (i : Z) : Z := 4 * 64 + 16 * i + 4.

Definition with_buffer_empty v (t : soclib_tty_t) := mkTty v (buffer_data t) (tty_irq t) (tty_port t) (tty_sem_id t).
Definition with_buffer_data v (t : soclib_tty_t) := mkTty (buffer_empty t) v (tty_irq t) (tty_port t) (tty_sem_id t).

(** [ttys] are the objects of the array at [TTY], [cells] the pointers of the array at
    [soclib_platform_devices] and [names] the strings, by their addresses. *)
Record plat (D : Type) := mkPlat {
  pl_kern : kstate;
  pl_mem : mem;
  pl_dev : D;
  ttys : gmap Z soclib_tty_t;
  TTY : Z;
  cells : gmap Z Z;
  names : gmap Z (list Z);
  soclib_platform_devices : Z
}.
Arguments mkPlat {D}.
Arguments pl_kern {D}.
Arguments pl_mem {D}.
Arguments pl_dev {D}.
Arguments ttys {D}.
Arguments TTY {D}.
Arguments cells {D}.
Arguments names {D}.
Arguments soclib_platform_devices {D}.

(** "serial/soclib/", "serial/kernel/console", "soclib_tty_" and "_sem" *)
Definition base_path : list Z := [115; 101; 114; 105; 97; 108; 47; 115; 111; 99; 108; 105; 98; 47].
Definition console : list Z :=
  [115; 101; 114; 105; 97; 108; 47; 107; 101; 114; 110; 101; 108; 47; 99; 111; 110; 115; 111; 108; 101].
Definition tty_prefix : list Z := [115; 111; 99; 108; 105; 98; 95; 116; 116; 121; 95].
Definition tty_suffix : list Z := [95; 115; 101; 109].
Definition tty_sem_name (i : Z) : list Z := tty_prefix ++ rev (itoa_ascii i) ++ tty_suffix.

Section Platform.
Context {D : Type} `{Hal} (reg_write : Z -> Z -> M D unit) (reg_read : Z -> M D Z).
Context (PLATFORM_IPI_BASE PLATFORM_TIMER_BASE PLATFORM_AICU_BASE : Z) (SOCLIB_TTY_DEVICES : list soclib_tty_config_t).
(** The addresses of interrupt_demultiplexer and of the routines. *)
Context (demultiplexer ipi_address timer_address tty_address : Z).
(** The callbacks of the alarms of drivers and applications. *)
Context (user_callback : Z -> option tref -> K status_t).
(** The request that the registers of the processor hold. *)
Context (ipi_of : Z -> Z -> option ipi_t).

Definition set_pl_kern v (s : plat D) := mkPlat v (pl_mem s) (pl_dev s) (ttys s) (TTY s) (cells s) (names s) (soclib_platform_devices s).
Definition set_pl_mem v (s : plat D) := mkPlat (pl_kern s) v (pl_dev s) (ttys s) (TTY s) (cells s) (names s) (soclib_platform_devices s).
Definition set_pl_dev (v : D) (s : plat D) := mkPlat (pl_kern s) (pl_mem s) v (ttys s) (TTY s) (cells s) (names s) (soclib_platform_devices s).
Definition set_ttys v (s : plat D) := mkPlat (pl_kern s) (pl_mem s) (pl_dev s) v (TTY s) (cells s) (names s) (soclib_platform_devices s).
Definition set_TTY v (s : plat D) := mkPlat (pl_kern s) (pl_mem s) (pl_dev s) (ttys s) v (cells s) (names s) (soclib_platform_devices s).
Definition set_cells v (s : plat D) := mkPlat (pl_kern s) (pl_mem s) (pl_dev s) (ttys s) (TTY s) v (names s) (soclib_platform_devices s).
Definition set_names v (s : plat D) := mkPlat (pl_kern s) (pl_mem s) (pl_dev s) (ttys s) (TTY s) (cells s) v (soclib_platform_devices s).
Definition set_platform_devices v (s : plat D) := mkPlat (pl_kern s) (pl_mem s) (pl_dev s) (ttys s) (TTY s) (cells s) (names s) v.
Definition onplk {A} (m : K A) : M (plat D) A := lift pl_kern set_pl_kern m.
Definition onplm {A} (m : M mem A) : M (plat D) A := lift pl_mem set_pl_mem m.
Definition onregs {A} (m : M D A) : M (plat D) A := lift pl_dev set_pl_dev m.

Definition rd_tty (p : Z) : M (plat D) soclib_tty_t := let* m := gets ttys in deref (m !! p).
Definition wr_tty (p : Z) (f : soclib_tty_t -> soclib_tty_t) : M (plat D) unit :=
  let* t := rd_tty p in modify (fun s => set_ttys (<[p := f t]> (ttys s)) s).

(** ** The terminals *)

(** soclib_tty_isr.c: the first terminal that has a character. *)
Fixpoint tty_loop (p : Z) (n : nat) : M (plat D) status_t :=
  match n with
  | O => ret DNA_UNHANDLED_INTERRUPT
  | S n =>
      let* t := rd_tty p in
      let* status := onregs (reg_read (tty_port t + tty_status)) in
      if negb (i32 status =? 0) then
        let* c := onregs (reg_read (tty_port t + tty_read)) in
        (if buffer_empty t then wr_tty p (with_buffer_empty false) else ret tt) ;;
        wr_tty p (with_buffer_data (u8 c)) ;;
        onplk (semaphore_release (tty_sem_id t) 1 DNA_NO_RESCHEDULE) ;;
        ret DNA_INVOKE_SCHEDULER
      else tty_loop (p + sizeof_soclib_tty) n
  end.
Definition soclib_tty_isr (data : Z) : M (plat D) status_t :=
  let* p := gets TTY in tty_loop p (length SOCLIB_TTY_DEVICES).

(** The end of soclib_tty_read: the status and [*p_count]. *)
Definition tty_take (handler destination : Z) : M (plat D) (status_t * Z) :=
  let* t := rd_tty handler in
  onplm (store destination (buffer_data t)) ;;
  wr_tty handler (with_buffer_empty true) ;;
  onregs (reg_write (tty_port t + tty_write) (buffer_data t)) ;;
  ret (DNA_OK, 1).
Definition soclib_tty_read (handler destination offset count : Z)
    : M (plat D) (switched (status_t * Z) acquire_frame) :=
  let* t := rd_tty handler in
  if buffer_empty t then
    let* r := onplk (semaphore_acquire (tty_sem_id t) 1 0 (-1)) in
    match r with
    | Returned _ => let* r := tty_take handler destination in ret (Returned r)
    | Switched f => ret (Switched f)
    end
  else let* r := tty_take handler destination in ret (Returned r).
Definition soclib_tty_read_resume (handler destination : Z) (f : acquire_frame) : M (plat D) (status_t * Z) :=
  onplk (semaphore_acquire_resume f) ;; tty_take handler destination.

(** The counter is unsigned: a negative [*p_count] is a large number of characters. *)
Definition soclib_tty_write (handler source offset count : Z) : M (plat D) status_t :=
  let* t := rd_tty handler in
  for_from (Z.to_nat (u32 count)) 0 (fun i =>
    let* c := onplm (load (source + i)) in onregs (reg_write (tty_port t + tty_write) c)) ;;
  ret DNA_OK.

(** The status and [*data]. *)
Definition soclib_tty_open (name : list Z) (mode : Z) (data_ok : bool) : M (plat D) (status_t * option Z) :=
  ensure data_ok orelse (DNA_ERROR, None) in
  if bool_decide (name = console) then let* p := gets TTY in ret (DNA_OK, Some p)
  else ret (DNA_ERROR, None).
Definition soclib_tty_close (data : Z) : M (plat D) status_t := ret DNA_OK.
Definition soclib_tty_free (data : Z) : M (plat D) status_t := ret DNA_OK.

(** The status, [*p_ret], and whether the information is that of a character device. *)
Definition soclib_tty_control (handler : Z) (get_info : bool) : M (plat D) (status_t * Z * bool) :=
  if get_info then ret (DNA_OK, 0, true) else ret (DNA_OK, -1, false).

(** ** The interrupts of a processor *)

(** What the routines answer to interrupt_demultiplexer. *)
Definition handled (status : status_t) : status_t :=
  match status with
  | DNA_OK => DNA_HANDLED_INTERRUPT
  | DNA_INVOKE_SCHEDULER => DNA_INVOKE_SCHEDULER
  | _ => DNA_UNHANDLED_INTERRUPT
  end.

Definition soclib_ipi_isr (attempts : nat) (data : Z) : M (plat D) (switched status_t (option Z)) :=
  let* current_cpuid := onplk cpu_mp_id in
  let port := PLATFORM_IPI_BASE + sizeof_ipi_port * current_cpuid in
  let* value := onregs (reg_read (port + ipi_data)) in
  let* command := onregs (reg_read (port + ipi_command)) in
  let* status := onregs (reg_read (port + ipi_reset)) in
  if negb (i32 status =? 0) then
    onregs (reg_write (port + ipi_reset) 0) ;;
    let* r := onplk (ipi_handler attempts (ipi_of command value)) in
    match r with
    | Returned status => ret (Returned (handled status))
    | Switched f => ret (Switched f)
    end
  else ret (Returned DNA_UNHANDLED_INTERRUPT).
Definition soclib_ipi_isr_resume (f : option Z) : M (plat D) status_t :=
  let* status := onplk (ipi_handler_resume f) in ret (handled status).

Definition soclib_timer_isr (rounds : nat) (data : Z) : M (plat D) status_t :=
  let* current_cpuid := onplk cpu_mp_id in
  let timer := PLATFORM_TIMER_BASE + sizeof_timer_port * current_cpuid in
  let* is_irq := onregs (reg_read (timer + timer_irq_ack)) in
  if negb (i32 is_irq =? 0) then
    onregs (reg_write (timer + timer_irq_ack) 0) ;;
    onregs (reg_write (timer + timer_mode) 1) ;;
    let* status := onplk (alarm_handler user_callback rounds) in
    ret (handled status)
  else ret DNA_UNHANDLED_INTERRUPT.

(** ** The installation *)

Definition soclib_platform_init_hardware : M (plat D) status_t :=
  onregs (reg_write (PLATFORM_AICU_BASE + aicu_control) 1) ;;
  for_from (Z.to_nat cpu_mp_count) 0 (fun i =>
    onregs (reg_write (PLATFORM_TIMER_BASE + sizeof_timer_port * i + timer_mode) 1) ;;
    onregs (reg_write (PLATFORM_AICU_BASE + slot_mask i) 3)) ;;
  ret DNA_OK.

(** for (i = 0; soclib_platform_devices[i] != NULL; i += 1) kernel_free (...); the array ends with
    NULL, [fuel] bounds its length. *)
Fixpoint free_names (fuel : nat) (cell : Z) : M (plat D) unit :=
  match fuel with
  | O => diverge
  | S fuel =>
      let* m := gets cells in
      let* device := deref (m !! cell) in
      if device =? 0 then ret tt
      else onplk (kernel_free device) ;; free_names fuel (cell + 4)
  end.
Definition max_names : nat := length SOCLIB_TTY_DEVICES + 2.
Definition drop_devices : M (plat D) unit :=
  let* p := gets soclib_platform_devices in
  free_names max_names p ;;
  onplk (kernel_free p) ;;
  modify (set_platform_devices 0).

(** A name in a new area, at the address [cell] of the array; [false] when there is no memory. *)
Definition add_name (cell : Z) (name : list Z) : M (plat D) bool :=
  let* device_base := onplk (kernel_malloc DNA_PATH_LENGTH false) in
  if device_base =? 0 then ret false
  else
    modify (fun s => set_names (<[device_base := name]> (names s)) s) ;;
    modify (fun s => set_cells (<[cell := device_base]> (cells s)) s) ;;
    ret true.
Fixpoint add_names (cell i : Z) (n : nat) : M (plat D) bool :=
  match n with
  | O => add_name cell console
  | S n =>
      let* ok := add_name cell (base_path ++ rev (itoa_ascii i)) in
      if (ok : bool) then add_names (cell + 4) (i + 1) n else ret false
  end.

Fixpoint cleared (p : Z) (n : nat) (m : gmap Z Z) : gmap Z Z :=
  match n with O => m | S n => cleared (p + 4) n (<[p := 0]> m) end.

Definition soclib_platform_prepare_devices : M (plat D) status_t :=
  let* p := gets soclib_platform_devices in
  (if negb (p =? 0) then drop_devices else ret tt) ;;
  let* p := onplk (kernel_malloc (u32 ((Z.of_nat (length SOCLIB_TTY_DEVICES) + 2) * 4)) true) in
  modify (set_platform_devices p) ;;
  ensure negb (p =? 0) orelse DNA_ERROR in
  modify (fun s => set_cells (cleared p max_names (cells s)) s) ;;
  let* ok := add_names p 0 (length SOCLIB_TTY_DEVICES) in
  check (ok : bool) rescue (drop_devices ;; ret DNA_ERROR) in
  ret DNA_OK.

(** The body of the loop of soclib_platform_init_driver, for the terminal at [p]. *)
Definition init_tty (p i : Z) (device : soclib_tty_config_t) : M (plat D) unit :=
  wr_tty p (fun t => mkTty (buffer_empty t) (buffer_data t) (c_irq device) (c_port device) (tty_sem_id t)) ;;
  let* r := onplk (semaphore_create (Some (tty_sem_name i)) 0 true) in
  wr_tty p (fun t => mkTty true (buffer_data t) (tty_irq t) (tty_port t) (default (tty_sem_id t) r.2)) ;;
  onplk (interrupt_attach demultiplexer 0 (c_irq device) 0 tty_address false) ;;
  ret tt.
Fixpoint init_ttys (p i : Z) (devices : list soclib_tty_config_t) : M (plat D) unit :=
  match devices with
  | [] => ret tt
  | device :: devices => init_tty p i device ;; init_ttys (p + sizeof_soclib_tty) (i + 1) devices
  end.
(** kernel_malloc clears the objects. *)
Fixpoint cleared_ttys (p : Z) (devices : list soclib_tty_config_t) (m : gmap Z soclib_tty_t) :=
  match devices with
  | [] => m
  | _ :: devices => cleared_ttys (p + sizeof_soclib_tty) devices (<[p := mkTty false 0 0 0 0]> m)
  end.

Definition soclib_platform_init_driver : M (plat D) status_t :=
  for_from (Z.to_nat cpu_mp_count) 0 (fun i =>
    onplk (interrupt_attach demultiplexer i 0 0 ipi_address true) ;;
    onplk (interrupt_attach demultiplexer i 1 0 timer_address false) ;;
    ret tt) ;;
  let* p := onplk (kernel_malloc (u32 (sizeof_soclib_tty * Z.of_nat (length SOCLIB_TTY_DEVICES))) true) in
  modify (set_TTY p) ;;
  ensure negb (p =? 0) orelse DNA_OUT_OF_MEM in
  modify (fun s => set_ttys (cleared_ttys p SOCLIB_TTY_DEVICES (ttys s)) s) ;;
  init_ttys p 0 SOCLIB_TTY_DEVICES ;;
  soclib_platform_prepare_devices ;;
  ret DNA_OK.

Definition soclib_platform_uninit_driver : M (plat D) unit := ret tt.
Definition soclib_platform_publish_devices : M (plat D) Z := gets soclib_platform_devices.

(** ** Theorems *)

(** The terminal at [p], the first one: its semaphore has [T] tokens and nobody waits. *)
Record terminal (U : gset addr) (V : qid -> list addr) (p : Z) (t : soclib_tty_t) (T : Z) (s : plat D) : Prop := {
  te_first : TTY s = p;
  te_some : SOCLIB_TTY_DEVICES <> [];
  te_tty : ttys s !! p = Some t;
  te_sem : sem_rep U (pl_kern s) V (raw_index (tty_sem_id t)) T [];
  te_index : raw_index (tty_sem_id t) < DNA_MAX_SEM;
  te_id : sem_id (sem (raw_index (tty_sem_id t)) (pl_kern s)) = tty_sem_id t
}.

(** The device has the character [c], and takes the echo. *)
Definition has_character (t : soclib_tty_t) (c : Z) (d d' : D) : Prop :=
  exists d1 status, reg_read (tty_port t + tty_status) d = Ret status d1 /\ i32 status <> 0 /\
    reg_read (tty_port t + tty_read) d1 = Ret c d'.
Definition takes_echo (t : soclib_tty_t) : Prop :=
  forall v d, exists d', reg_write (tty_port t + tty_write) v d = Ret tt d'.

Definition received (c : Z) (t : soclib_tty_t) : soclib_tty_t := with_buffer_data (u8 c) (with_buffer_empty false t).

Lemma wp_tty p t Q (s : plat D) : ttys s !! p = Some t -> Q t s -> wp (rd_tty p) Q s.
Proof. intros Ht HQ. apply wp_bind, wp_gets. rewrite Ht. by apply wp_ret. Qed.

Lemma wp_wr_tty p t f Q (s : plat D) :
  ttys s !! p = Some t -> Q tt (set_ttys (<[p := f t]> (ttys s)) s) -> wp (wr_tty p f) Q s.
Proof. intros Ht HQ. apply wp_bind. eapply wp_tty; [exact Ht|]. by apply wp_modify. Qed.

(** The routine stores the character and releases the semaphore. *)
Lemma soclib_tty_isr_ok p t s c d d' r k' data :
  TTY s = p -> SOCLIB_TTY_DEVICES <> [] -> ttys s !! p = Some t -> pl_dev s = d -> has_character t c d d' ->
  semaphore_release (tty_sem_id t) 1 DNA_NO_RESCHEDULE (pl_kern s) = Ret r k' ->
  soclib_tty_isr data s = Ret DNA_INVOKE_SCHEDULER
    (set_pl_kern k' (set_pl_dev d' (set_ttys (<[p := received c t]> (ttys s)) s))).
Proof.
  intros <- Hne Ht <- (d1 & st & H1 & Hst & H2) Hrel.
  assert (exists n, length SOCLIB_TTY_DEVICES = S n) as [n Hn] by (destruct SOCLIB_TTY_DEVICES as [|? l]; [done|by exists (length l)]).
  destruct s as [k m d tt0 p0 ce na pd]. cbn [pl_dev pl_kern ttys TTY] in *. apply wp_run. apply wp_bind, wp_gets. rewrite Hn. cbn [TTY tty_loop].
  apply wp_bind. eapply wp_tty; [exact Ht|]. apply wp_bind, wp_lift. eapply wp_eq; [exact H1|].
  rewrite (proj2 (Z.eqb_neq _ 0)) by done. cbn [negb]. apply wp_bind, wp_lift. eapply wp_eq; [exact H2|].
  apply wp_bind. eapply (wp_mono _ (fun _ s' => s' = mkPlat k m d' (<[p0 := with_buffer_empty false t]> tt0) p0 ce na pd)).
  { destruct (buffer_empty t) eqn:He; [by eapply wp_wr_tty|]. apply wp_ret. unfold set_pl_dev. cbn. f_equal.
    replace (with_buffer_empty false t) with t by (destruct t; cbn in He; by subst). by rewrite insert_id. }
  intros [] s' ->. apply wp_bind. eapply wp_wr_tty; [apply lookup_insert_eq|]. unfold set_ttys. cbn. rewrite insert_insert_eq.
  apply wp_bind, wp_lift. eapply wp_eq; [exact Hrel|]. by apply wp_ret.
Qed.

(** The end of a read: the character is delivered and echoed. *)
Lemma tty_take_ok p t dst s :
  ttys s !! p = Some t -> takes_echo t -> is_Some (pl_mem s !! dst) ->
  exists d', tty_take p dst s = Ret (DNA_OK, 1)
    (set_pl_dev d' (set_pl_mem (<[dst := u8 (buffer_data t)]> (pl_mem s)) (set_ttys (<[p := with_buffer_empty true t]> (ttys s)) s))).
Proof.
  intros Ht He Hm. destruct s as [k m d tt0 p0 ce na pd]. cbn [ttys pl_mem] in *. destruct (He (buffer_data t) d) as (d' & Hd).
  exists d'. apply wp_run. apply wp_bind. eapply wp_tty; [exact Ht|]. apply wp_bind, wp_lift, wp_store; [exact Hm|].
  apply wp_bind. eapply wp_wr_tty; [exact Ht|]. apply wp_bind, wp_lift. eapply wp_eq; [exact Hd|]. by apply wp_ret.
Qed.

(** A reader that finds the terminal empty waits; the routine then stores the character that
    comes and makes the reader ready, and the reader, when it runs again, delivers the character and
    leaves the terminal empty and its semaphore without token. *)
Theorem soclib_tty_read_waits U V p t s self idle dst off cnt data :
  terminal U V p t 0 s -> buffer_empty t = true -> running_ok U (pl_kern s) V self idle -> takes_echo t ->
  exists f k2 k3,
    soclib_tty_read p dst off cnt s = Ret (Switched f) (set_pl_kern k2 s) /\ switch_end k2 = Ret DNA_OK k3 /\
    (forall c d d', has_character t c d d' ->
       exists k4 V4, soclib_tty_isr data (set_pl_dev d (set_pl_kern k3 s)) =
           Ret DNA_INVOKE_SCHEDULER (set_pl_kern k4 (set_pl_dev d' (set_ttys (<[p := received c t]> (ttys s)) s))) /\
         sem_rep U k4 V4 (raw_index (tty_sem_id t)) 0 [] /\ t_status (info (thr self k4)) = DNA_THREAD_READY /\
         (AThread self ∈ V4 (QReady (affinity (info (thr self k3)))) \/
          exists cpu, EvIpi cpu (DNA_IPI_DISPATCH self) ∈ events k4)) /\
    (forall c s5 k5 V5, ttys s5 !! p = Some (received c t) -> is_Some (pl_mem s5 !! dst) ->
       switch_end (pl_kern s5) = Ret DNA_OK k5 -> sem_rep U k5 V5 (raw_index (tty_sem_id t)) 0 [] ->
       sem_id (sem (raw_index (tty_sem_id t)) k5) = tty_sem_id t -> resource (info (thr self k5)) = DNA_NO_RESOURCE ->
       exists s6, soclib_tty_read_resume p dst f s5 = Ret (DNA_OK, 1) s6 /\ pl_mem s6 = <[dst := u8 (u8 c)]> (pl_mem s5) /\
         ttys s6 !! p = Some (with_buffer_empty true (received c t)) /\
         sem_rep U (pl_kern s6) V5 (raw_index (tty_sem_id t)) 0 []).
Proof.
  intros [Hp Hne Ht Hsem Hi Hid] He Hr Hecho.
  destruct (wp_switched _ _ _ _ (semaphore_acquire_block_wp U _ V _ 0 [] _ 1 0 (-1) self idle Hsem Hr eq_refl Hi Hid
    ltac:(lia) ltac:(by vm_compute))) as (f & st & k2 & k3 & H1 & H2 & next & V1 & V3 & _ & [= -> ->] & Hrep3 & _ & _ & _ & Hid3 & _).
  exists (mkFrame self (tty_sem_id t) 1 (0 - 1) None (cpsr (pl_kern s))), k2, k3. split_and!; [|exact H2| |].
  - apply wp_run. apply wp_bind. eapply wp_tty; [exact Ht|]. rewrite He. apply wp_bind, wp_lift. eapply wp_eq; [exact H1|]. by apply wp_ret.
  - intros c d d' Hc.
    assert (wp (semaphore_release (tty_sem_id t) 1 DNA_NO_RESCHEDULE) (fun r k4 => r = Returned DNA_OK /\
      exists V4, sem_rep U k4 V4 (raw_index (tty_sem_id t)) 0 [] /\ release_effect k3 [(self, 1)] [self] k4 V4) k3) as Hrel.
    { eapply (semaphore_release_wp U k3 V3 _ 0 [(self, 1)] _ 1 _ [self] [] 0); [exact Hrep3|done|done|done|lia|lia|done|].
      intros k4 V4 b Hrep4 Heff _. unfold release_reschedule. apply wp_ret. split; [done|]. by exists V4. }
    apply wp_returns in Hrel as (k4 & Hrel & V4 & Hrep4 & Heff). exists k4, V4. split_and!; [|exact Hrep4| |].
    + rewrite (soclib_tty_isr_ok p t (set_pl_dev d (set_pl_kern k3 s)) c d d' (Returned DNA_OK) k4 data) by done. by destruct s.
    + unfold thr. by rewrite (re_woken _ _ _ _ _ Heff self ltac:(by left)).
    + apply (re_present _ _ _ _ _ Heff). by left.
  - intros c s5 k5 V5 Ht5 Hd5 Hsw Hrep5 Hid5 Hres.
    destruct (semaphore_acquire_served U (pl_kern s5) k5 V5 _ 0 [] (mkFrame self (tty_sem_id t) 1 (0 - 1) None (cpsr (pl_kern s)))
      Hsw eq_refl eq_refl Hid5 Hres Hrep5) as [Hrun Hrep6]. set (k6 := set_cpsr _ _) in *.
    destruct (tty_take_ok p (received c t) dst (set_pl_kern k6 s5) Ht5 Hecho Hd5) as (d' & Htake).
    eexists. split.
    { apply (wp_run _ _ _ _). apply wp_bind, wp_lift. eapply wp_eq; [exact Hrun|]. eapply wp_eq; [exact Htake|]. split; reflexivity. }
    split_and!; [reflexivity|apply lookup_insert_eq|exact Hrep6].
Qed.

(** C29: when the character comes before the reader, soclib_tty_read does not take the token of the
    semaphore: a second read returns the same character although none has come. *)
Theorem soclib_tty_read_repeats U V p t s self dst off cnt data c d' :
  terminal U V p t 0 s -> current_thread (cpu (mp_id (pl_kern s)) (pl_kern s)) = Some self ->
  takes_echo t -> has_character t c (pl_dev s) d' -> is_Some (pl_mem s !! dst) ->
  exists s1 s2 s3, soclib_tty_isr data s = Ret DNA_INVOKE_SCHEDULER s1 /\
    soclib_tty_read p dst off cnt s1 = Ret (Returned (DNA_OK, 1)) s2 /\ pl_mem s2 !! dst = Some (u8 (u8 c)) /\
    ttys s2 !! p = Some (with_buffer_empty true (received c t)) /\
    soclib_tty_read p dst off cnt s2 = Ret (Returned (DNA_OK, 1)) s3 /\ pl_mem s3 !! dst = Some (u8 (u8 c)) /\
    terminal U V p (with_buffer_empty true (received c t)) 0 s3.
Proof.
  intros [Hp Hne Ht Hsem Hi Hid] Hself Hecho Hc Hm. set (i := raw_index (tty_sem_id t)) in *.
  destruct (semaphore_release_alone U (pl_kern s) V i 0 (tty_sem_id t) 1 Hsem eq_refl Hi Hid) as [Hrel Hsem1]; [lia|lia|].
  set (k1 := put_sem _ _ _) in *. pose proof (soclib_tty_isr_ok p t s c _ d' _ k1 data Hp Hne Ht eq_refl Hc Hrel) as H1.
  set (s1 := set_pl_kern k1 _) in H1. assert (ttys s1 !! p = Some (received c t)) as Ht1 by apply lookup_insert_eq.
  destruct (tty_take_ok p (received c t) dst s1 Ht1 Hecho Hm) as (d2 & H2). set (s2 := set_pl_dev d2 _) in H2.
  set (t2 := with_buffer_empty true (received c t)) in *. assert (ttys s2 !! p = Some t2) as Ht2 by apply lookup_insert_eq.
  assert (sem_id (sem i k1) = tty_sem_id t) as Hid1 by (unfold k1, sem, put_sem; cbn; by rewrite lookup_insert_eq).
  destruct (semaphore_acquire_now U k1 V i 1 [] (tty_sem_id t) 1 0 (-1) self Hsem1 eq_refl Hi Hid1) as [Hacq Hsem3];
    [split; [lia|by vm_compute]|lia|exact Hself|].
  set (k3 := put_sem i (with_latest_holder _ _) k1) in *.
  destruct (tty_take_ok p t2 dst (set_pl_kern k3 s2) Ht2 Hecho) as (d3 & H3); [eexists; apply lookup_insert_eq|].
  exists s1, s2. eexists. split; [exact H1|]. split.
  { apply wp_run. apply wp_bind. eapply wp_tty; [exact Ht1|]. apply wp_bind. eapply wp_eq; [exact H2|]. by apply wp_ret. }
  split; [apply lookup_insert_eq|]. split; [exact Ht2|]. split.
  { apply (wp_run _ _ _ _). apply wp_bind. eapply wp_tty; [exact Ht2|]. cbn [buffer_empty t2 with_buffer_empty].
    apply wp_bind, wp_lift. eapply wp_eq; [exact Hacq|]. apply wp_bind. eapply wp_eq; [exact H3|]. apply wp_ret. split; reflexivity. }
  split; [apply lookup_insert_eq|]. split; [exact Hp|exact Hne|apply lookup_insert_eq|exact Hsem3|exact Hi|].
  unfold set_pl_dev, set_pl_mem. cbn [pl_kern set_ttys set_pl_kern]. unfold k3, sem, put_sem. cbn. by rewrite lookup_insert_eq.
Qed.



End Platform.

(** ** A terminal

    The registers are at 0x900.  The device is the characters that have come and those that were
    written.  The terminal is on the semaphore 1 of the system of Scenario.v, without token. *)
#[local] Existing Instance hal2.

Definition serial : Type := list Z * list Z.
Definition serial_read (a : Z) : M serial Z := fun '(i, o) =>
  if a =? 0x904 then Ret (Z.of_nat (length i)) (i, o)
  else match i with c :: i => Ret c (i, o) | [] => Ret 0 ([], o) end.
Definition serial_write (a v : Z) : M serial unit := fun '(i, o) => Ret tt (i, o ++ [v]).

Definition tty0 : soclib_tty_t := mkTty true 0 3 0x900 (sem_raw 8 1).
Definition tty_devices : list soclib_tty_config_t := [mkTtyConfig 3 0x900].
Definition tty_state (i : list Z) : plat serial :=
  mkPlat (put_sem 1 (mkSem 8 1 [] 0 0) sys) {[300 := 0]} (i, []) {[0x700 := tty0]} 0x700 ∅ ∅ 0.

Lemma tty_terminal i : terminal tty_devices items Vs 0x700 tty0 0 (tty_state i).
Proof. split; try done. split; try done. exact sys_sched. Qed.

Lemma tty_echo : takes_echo serial_write tty0.
Proof. intros v [i o]. by eexists. Qed.

Lemma soclib_tty_read_waits_witness :
  exists f k2, soclib_tty_read serial_write 0x700 300 0 1 (tty_state []) = Ret (Switched f) (set_pl_kern k2 (tty_state [])).
Proof.
  destruct (soclib_tty_read_waits serial_write serial_read tty_devices items Vs 0x700 tty0 (tty_state []) (0, 2) (0, 0) 300 0 1 0
    (tty_terminal []) eq_refl) as (f & k2 & k3 & H & _).
  - by destruct sys_running; split.
  - exact tty_echo.
  - exists f, k2. exact H.
Defined.

Lemma soclib_tty_read_repeats_witness :
  exists s1 s2 s3, soclib_tty_isr serial_read tty_devices 0 (tty_state [65]) = Ret DNA_INVOKE_SCHEDULER s1 /\
    soclib_tty_read serial_write 0x700 300 0 1 s1 = Ret (Returned (DNA_OK, 1)) s2 /\
    soclib_tty_read serial_write 0x700 300 0 1 s2 = Ret (Returned (DNA_OK, 1)) s3 /\ pl_mem s3 !! 300 = Some 65.
Proof.
  destruct (soclib_tty_read_repeats serial_write serial_read tty_devices items Vs 0x700 tty0 (tty_state [65]) (0, 2) 300 0 1 0 65 ([], [])
    (tty_terminal [65]) eq_refl tty_echo) as (s1 & s2 & s3 & H1 & H2 & _ & _ & H3 & H4 & _).
  - exists ([65], []), 1. split_and!; [done|by vm_compute|done].
  - by eexists.
  - exists s1, s2, s3. exact (conj H1 (conj H2 (conj H3 H4))).
Defined.
