(* ===== verification/Dma.v ===== *)
(** * The driver of the DMA controller (SoclibDmaDriver)

    soclib_dma_control puts the transfers of its callers in a ring and programs the controller when the
    ring was empty; soclib_dma_isr removes the transfer that has ended and programs the next one.  The
    state has the history of the writes to the registers; [reg_value] is what a register holds after
    them.  The call is cut where it may wait. *)

From S2P Require Import Prelude Status Queue Allocator Kernel Logic CLib Memory Scheduler Alarm Thread Semaphore Interrupt Scenario.

(** SoclibDmaDriver/Headers/Private/Dma.h *)
Definition SRC : Z := 0x0.
Definition DST : Z := 0x4.
Definition LEN : Z := 0x8.
Definition RESET : Z := 0xC.
Definition IRQ_DISABLED : Z := 0x10.
Definition RING_SIZE : Z := 32.                  (* BUFFER_SIZE *)

Record tx_descriptor_t := mkTx { tx_src : Z; tx_dst : Z; tx_len : Z }.

Record soclib_dma_t := mkDma {
  dma_lock : Z;
  dma_buf : list tx_descriptor_t;
  dma_start : Z;
  dma_end : Z;
  dma_irq : Z;
  dma_regs : Z;
  dma_sem_id : Z
}.
(** An entry of SOCLIB_DMA_DEVICES, which the application gives. *)
Record soclib_dma_config_t := mkDmaConfig { dc_irq : Z; dc_regs : Z }.

Definition sizeof_soclib_dma : Z := 448.

(** The control codes with their arguments. *)
Inductive dma_requests : Type :=
| XFER (src dst len : Z)
| GET_SRC_ADDR | GET_DST_ADDR | GET_STATUS
| SET_RESET (value : Z) | SET_IRQ_DISABLED (value : Z)
| UNSUPPORTED.

(** [dmas] are the objects of the array at [DMA], by their addresses. *)
Record dmas := mkDmas { dm_kern : kstate; dm_log : list (Z * Z); objects : gmap Z soclib_dma_t; DMA : Z }.

Definition set_dm_kern v (s : dmas) := mkDmas v (dm_log s) (objects s) (DMA s).
Definition set_dm_log v (s : dmas) := mkDmas (dm_kern s) v (objects s) (DMA s).
Definition set_objects v (s : dmas) := mkDmas (dm_kern s) (dm_log s) v (DMA s).
Definition set_DMA v (s : dmas) := mkDmas (dm_kern s) (dm_log s) (objects s) v.
Definition ondmk {A} (m : K A) : M dmas A := lift dm_kern set_dm_kern m.

Definition with_dma_lock v (d : soclib_dma_t) := mkDma v (dma_buf d) (dma_start d) (dma_end d) (dma_irq d) (dma_regs d) (dma_sem_id d).
Definition with_dma_buf v (d : soclib_dma_t) := mkDma (dma_lock d) v (dma_start d) (dma_end d) (dma_irq d) (dma_regs d) (dma_sem_id d).
Definition with_dma_start v (d : soclib_dma_t) := mkDma (dma_lock d) (dma_buf d) v (dma_end d) (dma_irq d) (dma_regs d) (dma_sem_id d).
Definition with_dma_end v (d : soclib_dma_t) := mkDma (dma_lock d) (dma_buf d) (dma_start d) v (dma_irq d) (dma_regs d) (dma_sem_id d).

(** "soclib_dma_" and "_sem", "channel/soclib/0/0" *)
Definition dma_prefix : list Z := [115; 111; 99; 108; 105; 98; 95; 100; 109; 97; 95].
Definition dma_suffix : list Z := [95; 115; 101; 109].
Definition dma_sem_name (i : Z) : list Z := dma_prefix ++ rev (itoa_ascii i) ++ dma_suffix.
Definition soclib_dma_devices : list (list Z) :=
  [[99; 104; 97; 110; 110; 101; 108; 47; 115; 111; 99; 108; 105; 98; 47; 48; 47; 48]].

Section Dma.
Context `{Hal} (reg_value : list (Z * Z) -> Z -> Z) (SOCLIB_DMA_DEVICES : list soclib_dma_config_t).
Context (demultiplexer isr_address : Z).          (* interrupt_demultiplexer, soclib_dma_isr *)

Definition cpu_write (a v : Z) : M dmas unit := modify (fun s => set_dm_log (dm_log s ++ [(a, v)]) s).
Definition cpu_read (a : Z) : M dmas Z := gets (fun s => reg_value (dm_log s) a).

Definition rd_dma (p : Z) : M dmas soclib_dma_t := let* m := gets objects in deref (m !! p).
Definition wr_dma (p : Z) (f : soclib_dma_t -> soclib_dma_t) : M dmas unit :=
  let* d := rd_dma p in modify (fun s => set_objects (<[p := f d]> (objects s)) s).

(** lock_acquire and lock_release of [dma -> lock]. *)
Definition acquire_dma (p : Z) : M dmas unit :=
  let* d := rd_dma p in
  if dma_lock d =? 0 then wr_dma p (with_dma_lock 1) else fun s => Spin s.
Definition release_dma (p : Z) : M dmas unit := wr_dma p (with_dma_lock 0).

Definition tx_at (d : soclib_dma_t) (i : Z) : M dmas tx_descriptor_t := deref (dma_buf d !! Z.to_nat i).

(** The three writes that start the transfer [dma -> buf[dma -> start]]. *)
Definition program_start (p : Z) : M dmas unit :=
  let* d := rd_dma p in
  let* x := tx_at d (dma_start d) in
  cpu_write (dma_regs d + SRC) (tx_src x) ;;
  cpu_write (dma_regs d + DST) (tx_dst x) ;;
  cpu_write (dma_regs d + LEN) (tx_len x).

(** dma -> buf[dma -> end] = ...; dma -> end = (dma -> end + 1) % BUFFER_SIZE *)
Definition push (p : Z) (x : tx_descriptor_t) : M dmas unit :=
  wr_dma p (fun d => with_dma_buf (<[Z.to_nat (dma_end d) := x]> (dma_buf d)) d) ;;
  wr_dma p (fun d => with_dma_end (u32 (dma_end d + 1) mod RING_SIZE) d).

(** soclib_dma_control.c: the status, [*p_ret] and the value of the register. *)
Definition answer : Type := (status_t * Z * option Z)%type.

Definition control_end (it_status p_ret : Z) (value : option Z) : M dmas answer :=
  ondmk (cpu_trap_restore it_status) ;; ret (DNA_OK, p_ret, value).

(** XFER on an empty ring, once the semaphore is acquired. *)
Definition xfer_empty (p : Z) (x : tx_descriptor_t) (it_status : Z) : M dmas answer :=
  push p x ;;
  acquire_dma p ;;
  program_start p ;;
  release_dma p ;;
  control_end it_status 0 None.

Definition read_register (p offset it_status : Z) : M dmas answer :=
  acquire_dma p ;;
  let* d := rd_dma p in
  let* v := cpu_read (dma_regs d + offset) in
  release_dma p ;;
  control_end it_status 0 (Some v).
Definition write_register (p offset value it_status : Z) : M dmas answer :=
  acquire_dma p ;;
  let* d := rd_dma p in
  cpu_write (dma_regs d + offset) value ;;
  release_dma p ;;
  control_end it_status 0 None.

Definition soclib_dma_control (p : Z) (function : dma_requests) : M dmas (switched answer (acquire_frame * Z)) :=
  let* it_status := ondmk cpu_trap_mask_and_backup in
  let* d := rd_dma p in
  match function with
  | XFER src dst len =>
      let x := mkTx src dst len in
      if dma_start d =? dma_end d then
        let* r := ondmk (semaphore_acquire (dma_sem_id d) 1 0 (-1)) in
        match r with
        | Returned _ => let* a := xfer_empty p x it_status in ret (Returned a)
        | Switched f => ret (Switched (f, it_status))
        end
      else if negb (u32 (dma_end d + 1) mod RING_SIZE =? dma_start d) then
        push p x ;;
        let* a := control_end it_status 0 None in ret (Returned a)
      else let* a := control_end it_status 0 None in ret (Returned a)
  | GET_SRC_ADDR => let* a := read_register p SRC it_status in ret (Returned a)
  | GET_DST_ADDR => let* a := read_register p DST it_status in ret (Returned a)
  | GET_STATUS => let* a := read_register p LEN it_status in ret (Returned a)
  | SET_RESET v => let* a := write_register p RESET v it_status in ret (Returned a)
  | SET_IRQ_DISABLED v => let* a := write_register p IRQ_DISABLED v it_status in ret (Returned a)
  | UNSUPPORTED => let* a := control_end it_status (-1) None in ret (Returned a)
  end.
Definition soclib_dma_control_resume (p src dst len : Z) (f : acquire_frame * Z) : M dmas answer :=
  ondmk (semaphore_acquire_resume f.1) ;; xfer_empty p (mkTx src dst len) f.2.

(** soclib_dma_isr.c *)
Fixpoint find_dma (p irq : Z) (n : nat) : M dmas (option Z) :=
  match n with
  | O => ret None
  | S n =>
      let* d := rd_dma p in
      if dma_irq d =? irq then ret (Some p) else find_dma (p + sizeof_soclib_dma) irq n
  end.
Definition dma_done (p : Z) : M dmas status_t :=
  let* d := rd_dma p in
  cpu_write (dma_regs d + RESET) 1 ;;
  cpu_write (dma_regs d + IRQ_DISABLED) 0 ;;
  wr_dma p (fun d => with_dma_start (u32 (dma_start d + 1) mod RING_SIZE) d) ;;
  let* d := rd_dma p in
  (if negb (dma_start d =? dma_end d) then program_start p else ret tt) ;;
  ondmk (semaphore_release (dma_sem_id d) 1 DNA_NO_RESCHEDULE) ;;
  ret DNA_INVOKE_SCHEDULER.
Definition soclib_dma_isr (data : Z) : M dmas status_t :=
  let* p := gets DMA in
  let* dma := find_dma p (u32 data) (length SOCLIB_DMA_DEVICES) in
  match dma with
  | None => ret DNA_UNHANDLED_INTERRUPT
  | Some p => dma_done p
  end.

(** soclib_dma_open.c: the status and [*data]; the names end with NULL. *)
Fixpoint find_name (name : list Z) (p : Z) (i n : nat) : M dmas (option Z) :=
  match n with
  | O => ret None
  | S n =>
      let* device := deref (soclib_dma_devices !! i) in
      if bool_decide (name = device) then ret (Some p) else find_name name (p + sizeof_soclib_dma) (S i) n
  end.
Definition soclib_dma_open (name : list Z) (mode : Z) (data_ok : bool) : M dmas (status_t * option Z) :=
  ensure data_ok orelse (DNA_ERROR, None) in
  let* p := gets DMA in
  let* r := find_name name p 0 (length SOCLIB_DMA_DEVICES) in
  match r with
  | None => ret (DNA_ERROR, None)
  | Some p => ret (DNA_OK, Some p)
  end.
Definition soclib_dma_close (data : Z) : M dmas status_t := ret DNA_OK.
Definition soclib_dma_free (data : Z) : M dmas status_t := ret DNA_OK.
Definition soclib_dma_publish_devices : M dmas (list (list Z)) := ret soclib_dma_devices.

Fixpoint disable_irqs (devices : list soclib_dma_config_t) : M dmas unit :=
  match devices with
  | [] => ret tt
  | device :: devices => cpu_write (dc_regs device + IRQ_DISABLED) 0 ;; disable_irqs devices
  end.
Definition soclib_dma_init_hardware : M dmas status_t := disable_irqs SOCLIB_DMA_DEVICES ;; ret DNA_OK.

(** soclib_dma_init_driver.c.  The objects are cleared by kernel_malloc; the loop gives the first status
    that is not DNA_OK. *)
Fixpoint cleared_dmas (p : Z) (devices : list soclib_dma_config_t) (m : gmap Z soclib_dma_t) :=
  match devices with
  | [] => m
  | _ :: devices =>
      cleared_dmas (p + sizeof_soclib_dma) devices
        (<[p := mkDma 0 (replicate (Z.to_nat RING_SIZE) (mkTx 0 0 0)) 0 0 0 0 0]> m)
  end.
Fixpoint init_dmas (p i : Z) (devices : list soclib_dma_config_t) : M dmas status_t :=
  match devices with
  | [] => ret DNA_OK
  | device :: devices =>
      wr_dma p (fun d => mkDma (dma_lock d) (dma_buf d) 0 0 (dc_irq device) (dc_regs device) (dma_sem_id d)) ;;
      let* r := ondmk (semaphore_create (Some (dma_sem_name i)) 1 true) in
      wr_dma p (fun d => mkDma (dma_lock d) (dma_buf d) (dma_start d) (dma_end d) (dma_irq d) (dma_regs d)
        (default (dma_sem_id d) r.2)) ;;
      ensure st_eqb r.1 DNA_OK orelse r.1 in
      let* status := ondmk (interrupt_attach demultiplexer 0 (dc_irq device) 0 isr_address false) in
      ensure st_eqb status DNA_OK orelse status in
      init_dmas (p + sizeof_soclib_dma) (i + 1) devices
  end.
(** for (i = 0; DMA[i].sem_id != 0; ++i) semaphore_destroy (...): the loop has no other bound; past the
    array it reads another object. *)
Fixpoint destroy_sems (fuel : nat) (p : Z) : M dmas unit :=
  match fuel with
  | O => diverge
  | S fuel =>
      let* d := rd_dma p in
      if dma_sem_id d =? 0 then ret tt
      else ondmk (semaphore_destroy (dma_sem_id d)) ;; destroy_sems fuel (p + sizeof_soclib_dma)
  end.
Definition soclib_dma_init_driver : M dmas status_t :=
  let* p := ondmk (kernel_malloc (u32 (sizeof_soclib_dma * Z.of_nat (length SOCLIB_DMA_DEVICES))) true) in
  modify (set_DMA p) ;;
  ensure negb (p =? 0) orelse DNA_OUT_OF_MEM in
  modify (fun s => set_objects (cleared_dmas p SOCLIB_DMA_DEVICES (objects s)) s) ;;
  let* status := init_dmas p 0 SOCLIB_DMA_DEVICES in
  check st_eqb status DNA_OK
    rescue (
      let* fuel := gets (fun s => S (size (objects s))) in
      destroy_sems fuel p ;;
      ondmk (kernel_free p) ;;
      ret status) in
  ret DNA_OK.

Fixpoint uninit_dmas (p : Z) (n : nat) : M dmas unit :=
  match n with
  | O => ret tt
  | S n =>
      let* d := rd_dma p in
      ondmk (interrupt_detach 0 (dma_irq d) isr_address) ;;
      ondmk (semaphore_destroy (dma_sem_id d)) ;;
      uninit_dmas (p + sizeof_soclib_dma) n
  end.
Definition soclib_dma_uninit_driver : M dmas unit :=
  let* p := gets DMA in
  uninit_dmas p (length SOCLIB_DMA_DEVICES) ;;
  ondmk (kernel_free p) ;;
  ret tt.

(** ** Theorems *)

Ltac zmod := Z.to_euclidean_division_equations; lia.

(** The transfers [Q] are in the ring, the first one in the controller. *)
Record ring (Q : list tx_descriptor_t) (d : soclib_dma_t) : Prop := {
  rg_length : length (dma_buf d) = 32%nat;
  rg_start : 0 <= dma_start d < 32;
  rg_end : dma_end d = (dma_start d + Z.of_nat (length Q)) mod 32;
  rg_fits : (length Q < 32)%nat;
  rg_slots : forall j x, Q !! j = Some x -> dma_buf d !! Z.to_nat ((dma_start d + Z.of_nat j) mod 32) = Some x
}.

(** The first controller, at [p]: its ring holds [Q] and its semaphore [T] tokens. *)
Record transfers (U : gset addr) (V : qid -> list addr) (self : tref) (p : Z) (irq regs : Z) (Q : list tx_descriptor_t)
    (T : Z) (s : dmas) : Prop := {
  tr_dma : exists d, objects s !! p = Some d /\ ring Q d /\ dma_lock d = 0 /\ dma_irq d = irq /\ dma_regs d = regs /\
    raw_index (dma_sem_id d) < DNA_MAX_SEM /\ sem_id (sem (raw_index (dma_sem_id d)) (dm_kern s)) = dma_sem_id d /\
    sem_rep U (dm_kern s) V (raw_index (dma_sem_id d)) T [];
  tr_tokens : 1 <= T + Z.of_nat (length Q);
  tr_first : DMA s = p;
  tr_self : current_thread (cpu (mp_id (dm_kern s)) (dm_kern s)) = Some self
}.

(** What the driver asks from the controller. *)
Inductive action : Type := Start (x : tx_descriptor_t) | Acknowledge.
Definition writes (regs : Z) (a : action) : list (Z * Z) :=
  match a with
  | Start x => [(regs + SRC, tx_src x); (regs + DST, tx_dst x); (regs + LEN, tx_len x)]
  | Acknowledge => [(regs + RESET, 1); (regs + IRQ_DISABLED, 0)]
  end.

(** Requests of the callers and ends of transfers, and what they do on a queue of at most 31 transfers. *)
Inductive dma_event : Type := Request (x : tx_descriptor_t) | Done.

Definition served_event (e : dma_event) (Q : list tx_descriptor_t) : option (list action * list tx_descriptor_t) :=
  match e, Q with
  | Request x, [] => Some ([Start x], [x])
  | Request x, _ => Some ([], if (length Q <? 31)%nat then Q ++ [x] else Q)
  | Done, [] => None
  | Done, _ :: Q => Some (Acknowledge :: match Q with y :: _ => [Start y] | [] => [] end, Q)
  end.
Fixpoint served (evs : list dma_event) (Q : list tx_descriptor_t) : option (list action * list tx_descriptor_t) :=
  match evs with
  | [] => Some ([], Q)
  | e :: evs =>
      match served_event e Q with
      | None => None
      | Some (acts, Q) => match served evs Q with None => None | Some (acts', Q) => Some (acts ++ acts', Q) end
      end
  end.

(** The requests that find room, and the transfers that are started. *)
Fixpoint accepted (evs : list dma_event) (n : nat) : list tx_descriptor_t :=
  match evs with
  | [] => []
  | Request x :: evs => if (n <? 31)%nat then x :: accepted evs (S n) else accepted evs n
  | Done :: evs => accepted evs (n - 1)
  end.
Definition started (acts : list action) : list tx_descriptor_t :=
  omap (fun a => match a with Start x => Some x | Acknowledge => None end) acts.

Definition event (p irq : Z) (e : dma_event) : M dmas unit :=
  match e with
  | Request x =>
      let* r := soclib_dma_control p (XFER (tx_src x) (tx_dst x) (tx_len x)) in
      match r with Returned _ => ret tt | Switched _ => fault end
  | Done => soclib_dma_isr irq ;; ret tt
  end.
Fixpoint events_run (p irq : Z) (evs : list dma_event) : M dmas unit :=
  match evs with [] => ret tt | e :: evs => event p irq e ;; events_run p irq evs end.

Lemma started_app l1 l2 : started (l1 ++ l2) = started l1 ++ started l2.
Proof. apply omap_app. Qed.

(** Each accepted request is started once, in order. *)
Lemma served_fifo evs : forall Q acts Q',
  (length Q < 32)%nat -> served evs Q = Some (acts, Q') ->
  List.tl Q ++ accepted evs (length Q) = started acts ++ List.tl Q' /\ (length Q' < 32)%nat.
Proof.
  induction evs as [|e evs IH]; intros Q acts Q' HQ; cbn [served accepted].
  { intros [= <- <-]. cbn. by rewrite app_nil_r. }
  destruct e as [x|].
  - destruct Q as [|a Q1]; cbn [served_event].
    + destruct (served evs [x]) as [[acts1 Q1]|] eqn:Hs; [|done]. intros [= <- <-].
      apply IH in Hs as [Hs ?]; [|cbn; lia]. cbn in Hs |- *. by rewrite Hs.
    + set (Q := a :: Q1) in *. destruct (Nat.ltb_spec (length Q) 31) as [E|E].
      * destruct (served evs (Q ++ [x])) as [[acts1 Q2]|] eqn:Hs; [|done]. intros [= <- <-].
        apply IH in Hs as [Hs ?]; [|rewrite length_app; change (length [x]) with 1%nat; lia]. split; [|done]. rewrite length_app in Hs. cbn [length] in Hs.
        rewrite Nat.add_1_r in Hs. cbn [app]. rewrite <- Hs. unfold Q. cbn [List.tl app]. by rewrite <- app_assoc.
      * destruct (served evs Q) as [[acts1 Q2]|] eqn:Hs; [|done]. intros [= <- <-]. by apply IH in Hs.
  - destruct Q as [|a Q1]; cbn [served_event]; [done|]. destruct (served evs Q1) as [[acts1 Q2]|] eqn:Hs; [|done].
    intros [= <- <-]. apply IH in Hs as [Hs ?]; [|cbn in HQ; lia]. split; [|done].
    cbn [length List.tl]. rewrite Nat.sub_succ, Nat.sub_0_r. destruct Q1 as [|b Q1]; cbn in Hs |- *; by rewrite Hs.
Qed.

Lemma wp_dma p d Q s : objects s !! p = Some d -> Q d s -> wp (rd_dma p) Q s.
Proof. intros Hd HQ. apply wp_bind, wp_gets. rewrite Hd. by apply wp_ret. Qed.

Lemma wp_wr_dma p d f Q s :
  objects s !! p = Some d -> Q tt (set_objects (<[p := f d]> (objects s)) s) -> wp (wr_dma p f) Q s.
Proof. intros Hd HQ. apply wp_bind. eapply wp_dma; [exact Hd|]. by apply wp_modify. Qed.

Lemma slot_next d : 0 <= d < 32 -> u32 (d + 1) mod RING_SIZE = (d + 1) mod 32.
Proof. intros Hd. by rewrite u32_id by lia. Qed.

Lemma ring_range Q d : ring Q d -> 0 <= dma_end d < 32.
Proof. intros Hr. rewrite (rg_end _ _ Hr). zmod. Qed.

(** The ring with one more transfer. *)
Definition pushed (x : tx_descriptor_t) (d : soclib_dma_t) : soclib_dma_t :=
  with_dma_end ((dma_end d + 1) mod 32) (with_dma_buf (<[Z.to_nat (dma_end d) := x]> (dma_buf d)) d).

Lemma ring_pushed Q d x : ring Q d -> (length Q < 31)%nat -> ring (Q ++ [x]) (pushed x d).
Proof.
  intros [Hl Hs He Hf Hsl] HQ. split; cbn; [by rewrite length_insert|done| | |].
  - rewrite He, length_app. change (length [x]) with 1%nat. zmod.
  - rewrite length_app. change (length [x]) with 1%nat. zmod.
  - intros j y Hj. destruct (decide (j = length Q)) as [->|Hne].
    + rewrite list_lookup_middle in Hj by done. injection Hj as ->. rewrite He. apply list_lookup_insert_eq. rewrite Hl. zmod.
    + apply lookup_app_Some in Hj as [Hj|[Hj Hj2]].
      * pose proof (lookup_lt_Some _ _ _ Hj). rewrite list_lookup_insert_ne; [by apply Hsl|]. zmod.
      * apply list_lookup_singleton_Some in Hj2 as [Hz _]. lia.
Qed.

Lemma push_ok p d x Q s :
  objects s !! p = Some d -> ring Q d -> push p x s = Ret tt (set_objects (<[p := pushed x d]> (objects s)) s).
Proof.
  intros Hd Hr. pose proof (ring_range _ _ Hr). apply wp_run. apply wp_bind. eapply wp_wr_dma; [exact Hd|].
  eapply wp_wr_dma; [apply lookup_insert_eq|]. destruct s. unfold set_objects. cbn. rewrite insert_insert_eq.
  by rewrite slot_next by done.
Qed.

Lemma program_start_ok p d x Q s :
  objects s !! p = Some d -> ring (x :: Q) d ->
  program_start p s = Ret tt (set_dm_log (dm_log s ++ writes (dma_regs d) (Start x)) s).
Proof.
  intros Hd Hr. apply wp_run. apply wp_bind. eapply wp_dma; [exact Hd|]. apply wp_bind. unfold tx_at.
  pose proof (rg_slots _ _ Hr 0%nat x eq_refl) as Hx. rewrite Z.add_0_r, Z.mod_small in Hx by apply Hr. rewrite Hx. apply wp_ret.
  apply wp_bind, wp_modify, wp_bind, wp_modify, wp_modify. destruct s. unfold set_dm_log. cbn. by rewrite <- !app_assoc.
Qed.

Lemma ring_popped x Q d : ring (x :: Q) d -> ring Q (with_dma_start ((dma_start d + 1) mod 32) d).
Proof.
  intros [Hl Hs He Hf Hsl]. cbn [length] in *. split; cbn; [done|zmod|rewrite He; zmod|lia|].
  intros j y Hj. rewrite <- (Hsl (S j) y Hj). f_equal. zmod.
Qed.

(** A change of the kernel outside the semaphore of the controller. *)
Record controller U V self p irq regs Q T (d : soclib_dma_t) (s : dmas) : Prop := {
  co_object : objects s !! p = Some d;
  co_ring : ring Q d;
  co_lock : dma_lock d = 0;
  co_regs : dma_irq d = irq /\ dma_regs d = regs;
  co_index : raw_index (dma_sem_id d) < DNA_MAX_SEM;
  co_id : sem_id (sem (raw_index (dma_sem_id d)) (dm_kern s)) = dma_sem_id d;
  co_sem : sem_rep U (dm_kern s) V (raw_index (dma_sem_id d)) T [];
  co_self : current_thread (cpu (mp_id (dm_kern s)) (dm_kern s)) = Some self
}.

Lemma transfers_controller U V self p irq regs Q T s :
  transfers U V self p irq regs Q T s -> exists d, controller U V self p irq regs Q T d s.
Proof. intros [(d & H1 & H2 & H3 & H4 & H5 & H6 & H7 & H8) Ht Hf Hs]. by exists d. Qed.

(** The end of XFER on an empty ring. *)
Lemma xfer_empty_ok p d x it s :
  objects s !! p = Some d -> ring [] d -> dma_lock d = 0 ->
  xfer_empty p x it s = Ret (DNA_OK, 0, None)
    (set_dm_kern (set_cpsr it (dm_kern s)) (set_dm_log (dm_log s ++ writes (dma_regs d) (Start x))
       (set_objects (<[p := pushed x d]> (objects s)) s))).
Proof.
  intros Hd Hr Hl. destruct s as [k lg ob dm]. cbn [objects] in Hd. apply wp_run. apply wp_bind. eapply wp_eq; [by eapply push_ok|].
  apply wp_bind, wp_bind. eapply wp_dma; [apply lookup_insert_eq|]. cbn [pushed dma_lock with_dma_end with_dma_buf]. rewrite Hl.
  change (0 =? 0) with true. cbn iota. eapply wp_wr_dma; [apply lookup_insert_eq|]. unfold set_objects. cbn [objects].
  rewrite insert_insert_eq. apply wp_bind. eapply wp_eq.
  { eapply (program_start_ok p (with_dma_lock 1 (pushed x d)) x []); [apply lookup_insert_eq|].
    destruct (ring_pushed [] d x Hr ltac:(cbn; lia)). by split. }
  apply wp_bind. eapply wp_wr_dma; [apply lookup_insert_eq|]. unfold set_dm_log, set_objects. cbn [objects dm_log dm_kern].
  rewrite insert_insert_eq. apply wp_bind, wp_lift, wp_modify, wp_ret. split; [done|]. unfold set_dm_kern. cbn.
  do 2 f_equal. destruct d. cbn in Hl. by subst.
Qed.

(** A request. *)
Lemma xfer_ok U V self p irq regs Q T x s :
  transfers U V self p irq regs Q T s ->
  exists acts Q' T' s', served_event (Request x) Q = Some (acts, Q') /\ event p irq (Request x) s = Ret tt s' /\
    dm_log s' = dm_log s ++ concat (writes regs <$> acts) /\ T' <= T /\ transfers U V self p irq regs Q' T' s'.
Proof.
  intros Ht. destruct (transfers_controller _ _ _ _ _ _ _ _ _ Ht) as (d & [Hd Hr Hl [Hq Hg] Hi Hid Hsem Hself]).
  destruct x as [src dst len]. set (x := mkTx src dst len). pose proof (tr_tokens _ _ _ _ _ _ _ _ _ Ht) as HT.
  pose proof (tr_first _ _ _ _ _ _ _ _ _ Ht) as Hf. pose proof (rg_fits _ _ Hr) as Hfits. pose proof (rg_start _ _ Hr) as Hst. pose proof (rg_end _ _ Hr) as He.
  destruct s as [k lg ob dm]. cbn [objects dm_kern DMA dm_log] in *. set (k0 := set_cpsr (Z.lor (cpsr k) 0xC0) k).
  pose proof (sem_rep_cpsr _ _ _ _ _ _ (Z.lor (cpsr k) 0xC0) Hsem) as Hsem0. fold k0 in Hsem0.
  destruct Q as [|y Q].
  - assert (dma_end d = dma_start d) as Hee by (rewrite He; cbn; zmod).
    destruct (semaphore_acquire_now U k0 V _ T [] (dma_sem_id d) 1 0 (-1) self Hsem0 eq_refl Hi Hid) as [Hacq Hsem1];
      [split; [lia|by vm_compute]|cbn in HT; lia|exact Hself|].
    set (k1 := put_sem _ (with_latest_holder _ _) k0) in *.
    exists [Start x], [x], (T - 1), (mkDmas (set_cpsr (cpsr k) k1) (lg ++ writes regs (Start x)) (<[p := pushed x d]> ob) dm).
    split; [done|]. split.
    { apply (wp_run _ _ _ _). apply wp_bind, wp_bind, wp_lift. unfold cpu_trap_mask_and_backup. apply wp_bind, wp_gets, wp_bind, wp_modify, wp_ret.
      apply wp_bind. eapply wp_dma; [exact Hd|]. rewrite Hee, Z.eqb_refl. cbn iota. apply wp_bind, wp_lift. eapply wp_eq; [exact Hacq|].
      apply wp_bind. eapply wp_eq; [by eapply xfer_empty_ok|]. apply wp_ret, wp_ret. rewrite Hg. split; reflexivity. }
    split; [done|]. split; [lia|]. split; [|cbn in HT |- *; lia|exact Hf|exact Hself]. exists (pushed x d).
    split_and!; [apply lookup_insert_eq|apply (ring_pushed [] d x Hr); cbn; lia|done|done|done|done| |].
    + cbn [dm_kern]. unfold k1, sem, put_sem. cbn. by rewrite lookup_insert_eq.
    + by apply sem_rep_cpsr.
  - assert (Z.of_nat (length (y :: Q)) = Z.of_nat (length Q) + 1) as Hlen by (cbn; lia). cbn [length] in Hfits.
    assert (dma_start d <> dma_end d) as Hne by (rewrite He, Hlen; zmod).
    exists [], (if (length (y :: Q) <? 31)%nat then (y :: Q) ++ [x] else y :: Q), T.
    eexists. split; [done|]. split.
    { apply (wp_run _ _ _ _). apply wp_bind, wp_bind, wp_lift. unfold cpu_trap_mask_and_backup. apply wp_bind, wp_gets, wp_bind, wp_modify, wp_ret.
      apply wp_bind. eapply wp_dma; [exact Hd|]. rewrite (proj2 (Z.eqb_neq _ _)) by done. cbn [negb].
      instantiate (1 := set_objects (if (length (y :: Q) <? 31)%nat then <[p := pushed x d]> ob else ob) (mkDmas k lg ob dm)).
      rewrite slot_next by (by apply ring_range in Hr).
      destruct (Nat.ltb_spec (length (y :: Q)) 31) as [E|E].
      - rewrite (proj2 (Z.eqb_neq _ _)) by (rewrite He, Hlen; cbn in E; zmod). cbn [negb].
        apply wp_bind. eapply wp_eq; [by eapply push_ok|]. apply wp_bind, wp_bind, wp_lift, wp_modify, wp_ret, wp_ret. split; [done|].
        unfold set_dm_kern, set_objects. cbn. by destruct k.
      - rewrite (proj2 (Z.eqb_eq _ _)) by (rewrite He, Hlen; cbn in E; zmod). cbn [negb].
        apply wp_bind, wp_bind, wp_lift, wp_modify, wp_ret, wp_ret. split; [done|].
        unfold set_dm_kern, set_objects. cbn. by destruct k. }
    split; [cbn; by rewrite app_nil_r|]. split; [lia|].
    destruct (Nat.ltb_spec (length (y :: Q)) 31) as [E|E].
    + split; [|rewrite length_app; cbn in HT |- *; lia|exact Hf|exact Hself]. exists (pushed x d).
      split_and!; [apply lookup_insert_eq|by apply ring_pushed|done..].
    + split; [|exact HT|exact Hf|exact Hself]. exists d. by split_and!.
Qed.

(** The end of a transfer. *)
Lemma done_ok U V self p irq regs x Q T s :
  SOCLIB_DMA_DEVICES <> [] -> u32 irq = irq -> T + 1 < 2 ^ 31 ->
  transfers U V self p irq regs (x :: Q) T s ->
  exists acts s', served_event Done (x :: Q) = Some (acts, Q) /\ event p irq Done s = Ret tt s' /\
    dm_log s' = dm_log s ++ concat (writes regs <$> acts) /\ transfers U V self p irq regs Q (T + 1) s'.
Proof.
  intros Hne Hirq HT Ht. destruct (transfers_controller _ _ _ _ _ _ _ _ _ Ht) as (d & [Hd Hr Hl [Hq Hg] Hi Hid Hsem Hself]).
  pose proof (tr_tokens _ _ _ _ _ _ _ _ _ Ht) as Htk. pose proof (tr_first _ _ _ _ _ _ _ _ _ Ht) as Hf.
  pose proof (rg_start _ _ Hr) as Hst. pose proof (sr_range _ _ _ _ _ _ Hsem) as HT0.
  destruct s as [k lg ob dm]. cbn [objects dm_kern DMA dm_log] in *. subst dm.
  destruct (semaphore_release_alone U k V _ T (dma_sem_id d) 1 Hsem eq_refl Hi Hid) as [Hrel Hsem1]; [lia|lia|].
  set (k1 := put_sem _ (with_tokens _ _) k) in *. set (d1 := with_dma_start ((dma_start d + 1) mod 32) d).
  pose proof (ring_popped _ _ _ Hr) as Hr1. fold d1 in Hr1.
  set (next := match Q with y :: _ => [Start y] | [] => [] end).
  exists (Acknowledge :: next). eexists. split; [done|].
  assert (exists n, length SOCLIB_DMA_DEVICES = S n) as [n Hn] by (destruct SOCLIB_DMA_DEVICES as [|? l]; [done|by exists (length l)]).
  split.
  { apply (wp_run _ _ _ _). apply wp_bind, wp_bind, wp_gets. cbn [DMA]. rewrite Hn, Hirq. apply wp_bind. cbn [find_dma].
    apply wp_bind. eapply wp_dma; [exact Hd|]. rewrite Hq, Z.eqb_refl. apply wp_ret.
    apply wp_bind. eapply wp_dma; [exact Hd|]. apply wp_bind, wp_modify, wp_bind, wp_modify, wp_bind.
    eapply wp_wr_dma; [exact Hd|]. rewrite slot_next by done. fold d1. unfold set_objects, set_dm_log. cbn [objects dm_log dm_kern DMA].
    apply wp_bind. eapply wp_dma; [apply lookup_insert_eq|]. apply wp_bind.
    eapply (wp_mono _ (fun _ s' => s' = mkDmas k (lg ++ concat (writes regs <$> Acknowledge :: next)) (<[p := d1]> ob) p)).
    { rewrite (rg_end _ _ Hr1). pose proof (rg_fits _ _ Hr1). pose proof (rg_start _ _ Hr1). rewrite <- Hg. destruct Q as [|y Q].
      - rewrite (proj2 (Z.eqb_eq _ _)) by (cbn [length]; zmod). apply wp_ret. cbn. by rewrite <- app_assoc.
      - rewrite (proj2 (Z.eqb_neq _ _)) by (cbn [length] in *; zmod). cbn [negb]. eapply wp_eq; [eapply program_start_ok; [apply lookup_insert_eq|exact Hr1]|].
        unfold set_dm_log. cbn. by rewrite <- !app_assoc. }
    intros [] s' ->. apply wp_bind, wp_lift. eapply wp_eq; [exact Hrel|]. apply wp_ret, wp_ret. split; reflexivity. }
  split; [done|]. split; [|cbn [length] in Htk |- *; lia|done|exact Hself]. exists d1.
  split_and!; [apply lookup_insert_eq|done|done|done|done|done| |exact Hsem1].
  cbn [dm_kern]. unfold k1, sem, put_sem. cbn. by rewrite lookup_insert_eq.
Qed.

(** C28: under every sequence of requests and of ends of transfers that does not end a transfer that is
    not there, the driver implements a queue of at most 31 transfers: it starts each accepted transfer once,
    in the order of the requests, when the one before has ended; requests never wait, and the ones that find
    the queue full are lost. *)
Theorem dma_fifo U V self p irq regs evs : forall Q T s acts Q',
  SOCLIB_DMA_DEVICES <> [] -> u32 irq = irq -> transfers U V self p irq regs Q T s ->
  T + Z.of_nat (length evs) < 2 ^ 31 -> served evs Q = Some (acts, Q') ->
  List.tl Q ++ accepted evs (length Q) = started acts ++ List.tl Q' /\
  exists T' s', events_run p irq evs s = Ret tt s' /\ dm_log s' = dm_log s ++ concat (writes regs <$> acts) /\
    transfers U V self p irq regs Q' T' s'.
Proof.
  intros Q T s acts Q' Hne Hirq Ht HT Hs. split.
  { destruct Ht as [(d & _ & Hr & _) _ _ _]. by apply (served_fifo evs Q acts Q' (rg_fits _ _ Hr)). }
  revert Q T s acts Q' Ht HT Hs. induction evs as [|e evs IH]; intros Q T s acts Q' Ht HT; cbn [served events_run length] in *.
  { intros [= <- <-]. exists T, s. by rewrite app_nil_r. }
  assert (forall acts1 Q1, served_event e Q = Some (acts1, Q1) -> exists T1 s1, event p irq e s = Ret tt s1 /\
    dm_log s1 = dm_log s ++ concat (writes regs <$> acts1) /\ T1 <= T + 1 /\ transfers U V self p irq regs Q1 T1 s1) as Hstep.
  { intros acts1 Q1 He. destruct e as [x|].
    - destruct (xfer_ok U V self p irq regs Q T x s Ht) as (acts2 & Q2 & T2 & s2 & He2 & Hrun & Hlog & HT2 & Ht2).
      rewrite He in He2. injection He2 as <- <-. exists T2, s2. split_and!; [done|done|lia|done].
    - destruct Q as [|x Q]; [done|]. destruct (done_ok U V self p irq regs x Q T s Hne Hirq ltac:(lia) Ht) as (acts2 & s2 & He2 & Hrun & Hlog & Ht2).
      rewrite He in He2. injection He2 as -> ->. exists (T + 1), s2. split_and!; [done|done|lia|done]. }
  destruct (served_event e Q) as [[acts1 Q1]|]; [|done]. destruct (served evs Q1) as [[acts2 Q2]|] eqn:Hs2; [|done]. intros [= <- <-].
  destruct (Hstep acts1 Q1 eq_refl) as (T1 & s1 & Hrun & Hlog & HT1 & Ht1).
  destruct (IH Q1 T1 s1 acts2 Q2 Ht1 ltac:(lia) Hs2) as (T' & s' & Hrun' & Hlog' & Ht'). exists T', s'. split_and!; [|  |done].
  - unfold bind. by rewrite Hrun.
  - by rewrite Hlog', Hlog, fmap_app, concat_app, app_assoc.
Qed.
End Dma.

(** ** A controller

    Its registers are at 0x800 and it is on the semaphore 1 of the system of Scenario.v; three transfers are
    requested, and two end. *)
#[local] Existing Instance hal2.

Definition dma_state : dmas :=
  mkDmas (put_sem 1 (mkSem 8 1 [] 1 0) sys) []
    {[0x6000 := mkDma 0 (replicate 32 (mkTx 0 0 0)) 30 30 5 0x800 (sem_raw 8 1)]} 0x6000.
Definition dma_evs : list dma_event :=
  [Request (mkTx 1 2 3); Request (mkTx 4 5 6); Request (mkTx 7 8 9); Done; Done].

Lemma dma_idle : transfers items Vs (0, 2) 0x6000 5 0x800 [] 1 dma_state.
Proof.
  split; try done. exists (mkDma 0 (replicate 32 (mkTx 0 0 0)) 30 30 5 0x800 (sem_raw 8 1)). split_and!; try done.
  - split; [done|cbn; lia|done|cbn; lia|intros j x Hj; by rewrite lookup_nil in Hj].
  - split; try done. exact sys_sched.
Qed.

Lemma dma_fifo_witness :
  accepted dma_evs 0 = [mkTx 1 2 3; mkTx 4 5 6; mkTx 7 8 9] ++ [] /\
  exists s', events_run (fun _ _ => 0) [mkDmaConfig 5 0x800] 0x6000 5 dma_evs dma_state = Ret tt s' /\
    dm_log s' = [(0x800, 1); (0x804, 2); (0x808, 3); (0x80C, 1); (0x810, 0); (0x800, 4); (0x804, 5); (0x808, 6);
      (0x80C, 1); (0x810, 0); (0x800, 7); (0x804, 8); (0x808, 9)].
Proof.
  destruct (dma_fifo (fun _ _ => 0) [mkDmaConfig 5 0x800] items Vs (0, 2) 0x6000 5 0x800 dma_evs [] 1 dma_state
    [Start (mkTx 1 2 3); Acknowledge; Start (mkTx 4 5 6); Acknowledge; Start (mkTx 7 8 9)] [mkTx 7 8 9])
    as (H1 & T' & s' & H2 & H3 & _); [done|by vm_compute|exact dma_idle|by vm_compute|reflexivity|].
  split; [exact H1|]. exists s'. exact (conj H2 H3).
Defined.

(** A request while 31 transfers are in the ring is answered as the others, and lost. *)
Example dma_overflow :
  let evs := replicate 32 (Request (mkTx 1 2 3)) in
  match events_run (fun _ _ => 0) [mkDmaConfig 5 0x800] 0x6000 5 evs dma_state with
  | Ret _ s => option_map (fun d => (dma_start d, dma_end d)) (objects s !! 0x6000)
  | _ => None
  end = Some (30, 29).
Proof. vm_compute. reflexivity. Qed.
