(* ===== verification/Boot.v ===== *)
(** * The start of the system (DnaKickStart, the life cycle of the components)

    [system_kickstart] runs the life cycle functions of the memory manager, the core and the
    virtual file system on the processor 0 while the others wait for the variable
    [cpu_mp_synchro] of the processor (ArmV6Processor, default build).

    [on_fs] lets file systems that have each their own state be mounted side by side: the
    state of the virtual file system holds all of them, and the commands of one act on its part.
    The last sections start a whole system, the kernel with a root file system and a device file
    system, and interleave the processors on [cpu_mp_synchro]. *)

From S2P Require Import Prelude Status CLib Queue Allocator Kernel Logic Memory Scheduler Alarm Thread Semaphore Core Scenario Vfs.
From S2P Require VfsSpec RootFs Devfs DevfsScenario.

(** ** Several file systems *)

Section Product.
Context {F G : Type} (get : G -> F) (put : F -> G -> G).

Definition with_fsd {A B} (x : B) (s : vstate A) : vstate B :=
  mkVs (kern s) (vq s) (volumes s) (vnodes s) (files s) (volume_index s) (file_pool s) (file_arrays s) (fd_table s) x.

(** A command of the file system whose state is the part [get] of the whole. *)
Definition on_fs {A} (m : V F A) : V G A :=
  lift (fun s => with_fsd (get (fsd s)) s) (fun t s => with_fsd (put (fsd t) (fsd s)) t) m.

Definition cmd_on_fs (c : filesystem_cmd F) : filesystem_cmd G :=
  mkCmd G (fun ns node token vnid => on_fs (fs_walk c ns node token vnid))
    (fun vid device flags data => on_fs (fs_mount c vid device flags data))
    (fun ns vnid node => on_fs (fs_read_vnode c ns vnid node))
    (fun ns node => on_fs (fs_write_vnode c ns node))
    (fun ns node => on_fs (fs_destroy_vnode c ns node))
    (fun ns node mode data => on_fs (fs_open c ns node mode data))
    (fun ns node data => on_fs (fs_close c ns node data))
    (fun ns node data => on_fs (fs_free c ns node data))
    (fun ns node name mode perms out => on_fs (fs_create c ns node name mode perms out))
    (fun ns node file data offset count => on_fs (fs_read c ns node file data offset count))
    (fun ns node file data offset count => on_fs (fs_write c ns node file data offset count))
    (fun ns node data => on_fs (fs_get_info c ns node data))
    (fun ns node data info mask => on_fs (fs_set_info c ns node data info mask))
    (fun ns node name mode => on_fs (fs_mkdir c ns node name mode))
    (fun ns node data entries offset count => on_fs (fs_readdir c ns node data entries offset count))
    (fun ns node data function arguments => on_fs (fs_ioctl c ns node data function arguments)).
End Product.

(** ** system_kickstart *)

Record machine (F : Type) := mkMachine {
  sys_state : vstate F;
  cpu_mp_synchro : Z
}.
Arguments mkMachine {F}.
Arguments sys_state {F}.
Arguments cpu_mp_synchro {F}.

Section Kickstart.
Context `{Hal} {F : Type} (cmds : Z -> filesystem_cmd F) (filesystems : list (list Z * Z * bool)).
Context (heap_address heap_bytes idle_handler app_entry_point : Z).

Definition set_sys v (s : machine F) : machine F := mkMachine v (cpu_mp_synchro s).
Definition set_synchro v (s : machine F) : machine F := mkMachine (sys_state s) v.
Definition onsys {A} (m : V F A) : M (machine F) A := lift sys_state set_sys m.
Definition oncore {A} (m : K A) : M (machine F) A := onsys (onk m).

(** Alone, a processor that waits finds the variable as it has just written it. *)
Definition cpu_mp_wait : M (machine F) unit :=
  modify (set_synchro 1) ;;
  let* synchro := gets cpu_mp_synchro in
  if negb (synchro =? 0) then fun s => Spin s else ret tt.
Definition cpu_mp_proceed : M (machine F) unit := modify (set_synchro 0).

(** The tables memory_component, core_component and vfs_component hold the functions called. *)
Definition system_kickstart : M (machine F) (switched status_t unit) :=
  let* c := oncore cpu_mp_id in
  if c =? 0 then
    let* status := oncore (onheap (memory_create heap_address heap_bytes)) in
    ensure st_eqb status DNA_OK orelse Returned status in
    let* status := oncore (core_create idle_handler app_entry_point) in
    ensure st_eqb status DNA_OK orelse Returned status in
    let* status := onsys vfs_create in
    ensure st_eqb status DNA_OK orelse Returned status in
    cpu_mp_proceed ;;
    let* status := oncore (onheap memory_start) in
    ensure st_eqb status DNA_OK orelse Returned status in
    let* status := onsys (vfs_start cmds filesystems) in
    ensure st_eqb status DNA_OK orelse Returned status in
    oncore core_start
  else
    cpu_mp_wait ;;
    oncore core_start.
End Kickstart.

(** ** A whole system *)

#[local] Existing Instance hal2.

(** One driver, the console "serial/kernel/console". *)
Definition system_console : list (list Z) :=
  [[115; 101; 114; 105; 97; 108]; [107; 101; 114; 110; 101; 108]; [99; 111; 110; 115; 111; 108; 101]].
Definition system_drivers : list (Devfs.driver_t DevfsScenario.log) := [DevfsScenario.driver_of [system_console] 0x4000].

Definition system_fs : Type := RootFs.rfs * Devfs.dfs DevfsScenario.log.
Definition system_cmds (address : Z) : filesystem_cmd system_fs :=
  if address =? 0x100 then cmd_on_fs fst (fun x s => (x, s.2)) RootFs.rootfs_cmd
  else cmd_on_fs snd (fun x s => (s.1, x)) (Devfs.devfs_cmd DevfsScenario.device_table system_drivers []).
Definition system_filesystems : list (list Z * Z * bool) := [(rootfs_name, 0x100, true); (devfs_name, 0x200, true)].

(** The memory before the start: the objects of the kernel are those of Scenario.v. *)
Definition system_off : machine system_fs :=
  mkMachine (mkVs bare (mkQ ∅ ∅) ∅ ∅ ∅ 0 0 ∅ ∅ (RootFs.mkRfs (mkQ ∅ ∅) ∅ ∅ ∅, DevfsScenario.no_devices)) 1.

Definition system_run : outcome (machine system_fs) (switched status_t unit) :=
  system_kickstart system_cmds system_filesystems 0x100000 0x100000 0x8000 0x9000 system_off.

(** The node of a descriptor of the group 0. *)
Definition descriptor (s : vstate system_fs) (fd : Z) : option (Z * Z) :=
  f ← fd_table s !! (0, fd); v ← files s !! f; n ← vnodes s !! f_vnode v; Some (vn_id n, vn_volume n).

(** A run of all the parts together: the processor 0 starts a whole system: with a heap of one megabyte, two processors,
    a root file system and the device file system of one console, system_kickstart creates the
    components, mounts both file systems, opens the console three times and loads the context of
    the application, without a fault and with every lock free but the one of the thread that
    starts. *)
Example system_boots :
  match system_run with
  | Ret r s =>
      let v := sys_state s in
      r = Switched tt /\ cpu_mp_synchro s = 0 /\
      map_to_list (locks (kern v)) = [(LThread (0, 2), 1)] /\
      current_thread (cpu 0 (kern v)) = Some (0, 2) /\ handler (thr (0, 2) (kern v)) = 0x9000 /\
      t_status (info (thr (0, 2) (kern v))) = DNA_THREAD_RUNNING /\
      size (volumes v) = 2%nat /\
      exists node, map (descriptor v) [0; 1; 2; 3] = [Some node; Some node; Some node; None] /\
      Devfs.drivers (fsd v).2 = replicate 3 (VfsSpec.path_of system_console)
  | _ => False
  end.
Proof. vm_compute. split_and!; try done. by eexists. Qed.

(** ** The processors at the start

    The processor 0 creates the components ([Creating]), writes 0 in cpu_mp_synchro
    ([Proceeding]) and starts; another one writes 1 ([Storing]), reads the variable until it
    is 0 ([Waiting]) and then calls core_component.start ([Started]).  Each step is one access
    to the variable. *)

Inductive master_pc : Type := Creating | Proceeding | Running.
Inductive waiter_pc : Type := Storing | Waiting | Started.

Record barrier := mkBarrier {
  synchro : Z;
  master : master_pc;
  others : gmap Z waiter_pc
}.

Inductive bstep : barrier -> barrier -> Prop :=
| step_create x o : bstep (mkBarrier x Creating o) (mkBarrier x Proceeding o)
| step_proceed x o : bstep (mkBarrier x Proceeding o) (mkBarrier 0 Running o)
| step_store x m o i : o !! i = Some Storing -> bstep (mkBarrier x m o) (mkBarrier 1 m (<[i := Waiting]> o))
| step_again x m o i : o !! i = Some Waiting -> x <> 0 -> bstep (mkBarrier x m o) (mkBarrier x m o)
| step_leave m o i : o !! i = Some Waiting -> bstep (mkBarrier 0 m o) (mkBarrier 0 m (<[i := Started]> o)).

(** cpu_mp_synchro is 1 at first. *)
Definition powered_on (ids : gset Z) : barrier := mkBarrier 1 Creating (gset_to_gmap Storing ids).

(** Nothing starts before the components exist. *)
Definition ordered (b : barrier) : Prop :=
  (synchro b = 0 -> master b = Running) /\ (forall i, others b !! i = Some Started -> master b = Running).

Lemma ordered_step b b' : ordered b -> bstep b b' -> ordered b'.
Proof.
  intros [H0 Hs] Hstep. split; destruct Hstep; cbn in *; intros; try naive_solver.
  match goal with H : <[_ := _]> _ !! _ = _ |- _ => apply lookup_insert_Some in H end. naive_solver.
Qed.

Lemma ordered_reachable ids b : rtc bstep (powered_on ids) b -> ordered b.
Proof.
  intros Hr. assert (ordered (powered_on ids)) as H0.
  { split; [done|]. intros i Hi. cbn in Hi. apply lookup_gset_to_gmap_Some in Hi as [_ Hi]. done. }
  revert H0. induction Hr as [|b b1 b2 Hstep Hr IH]; [done|]. intros H. apply IH. by eapply ordered_step.
Qed.

(** Nobody writes the variable any more: processor 0 runs and the others have written it. *)
Definition settled (x : Z) (b : barrier) : Prop :=
  synchro b = x /\ master b = Running /\ forall i, others b !! i <> Some Storing.

Lemma settled_step x b b' : settled x b -> bstep b b' ->
  settled x b' /\ forall i, others b !! i = Some Started \/ x <> 0 -> others b' !! i = others b !! i.
Proof.
  intros (Hx & Hm & Hs) Hstep. destruct Hstep as [y o|y o|y m o i Hi|y m o i Hi Hy|m o i Hi]; cbn in *; try done.
  - by destruct (Hs i).
  - subst x. split.
    + split_and!; try done. intros j. cbn. destruct (decide (i = j)) as [<-|Hne]; [by rewrite lookup_insert_eq|].
      rewrite lookup_insert_ne by done. apply Hs.
    + intros j [Hj|]; [|done]. destruct (decide (i = j)) as [<-|Hne]; [congruence|]. by rewrite lookup_insert_ne.
Qed.

(** The waiting processors leave, one after the other. *)
Lemma leave_all m (l : list Z) : forall o, (forall i, i ∈ l -> exists pc, o !! i = Some pc /\ pc <> Storing) ->
  exists o', rtc bstep (mkBarrier 0 m o) (mkBarrier 0 m o') /\ (forall i, i ∈ l -> o' !! i = Some Started) /\
    forall i, o !! i = Some Started -> o' !! i = Some Started.
Proof.
  induction l as [|j l IH]; intros o Hl.
  - exists o. split_and!; [constructor|intros i Hi; by apply not_elem_of_nil in Hi|done].
  - destruct (Hl j) as (pc & Hj & Hpc); [by left|].
    assert (exists o1, rtc bstep (mkBarrier 0 m o) (mkBarrier 0 m o1) /\ o1 = <[j := Started]> o) as (o1 & Hr1 & ->).
    { eexists. split; [|done]. destruct pc; [done| |by rewrite insert_id].
      eapply rtc_l; [by apply step_leave|constructor]. }
    destruct (IH (<[j := Started]> o)) as (o' & Hr & Ho' & Hk).
    { intros i Hi. destruct (decide (j = i)) as [<-|Hne]; [exists Started; by rewrite lookup_insert_eq|].
      rewrite lookup_insert_ne by done. apply Hl. by right. }
    exists o'. split_and!; [by etrans| |].
    + intros i [->|Hi]%elem_of_cons; [|by apply Ho']. apply Hk. by rewrite lookup_insert_eq.
    + intros i Hi. apply Hk. destruct (decide (j = i)) as [<-|Hne]; [by rewrite lookup_insert_eq|by rewrite lookup_insert_ne].
Qed.

(** C31: no processor starts before the components are created.  When all the others wait
    as the processor 0 proceeds, they can all start, and none can be held back: the variable stays
    0.  But when one of them writes the variable after the processor 0, those that wait then
    never start. *)
Theorem kickstart_barrier ids :
  (forall b i, rtc bstep (powered_on ids) b -> others b !! i = Some Started -> master b = Running) /\
  (forall b b', rtc bstep (powered_on ids) b -> settled 0 b -> rtc bstep b b' ->
     synchro b' = 0 /\ exists b2, rtc bstep b' b2 /\ forall i pc, others b' !! i = Some pc -> others b2 !! i = Some Started) /\
  (forall b b' i, settled 1 b -> rtc bstep b b' -> others b !! i = Some Waiting -> others b' !! i = Some Waiting).
Proof.
  split_and!.
  - intros b i Hr Hi. by eapply ordered_reachable.
  - intros b b' _ Hs Hr. assert (settled 0 b') as (Hx & Hm & Hst).
    { revert Hs. induction Hr as [|b b1 b2 Hstep Hr IH]; [done|]. intros Hs. apply IH. by eapply settled_step. }
    split; [done|]. destruct b' as [x m o]. cbn in *. subst x.
    destruct (leave_all m (elements (dom o)) o) as (o' & Hr' & Ho' & _).
    { intros i Hi. apply elem_of_elements, elem_of_dom in Hi as (pc & Hi). exists pc. split; [done|]. intros ->. by apply (Hst i). }
    exists (mkBarrier 0 m o'). split; [done|]. intros i pc Hi. apply Ho', elem_of_elements, elem_of_dom. eauto.
  - intros b b' i Hs Hr. revert Hs. induction Hr as [|b b1 b2 Hstep Hr IH]; [done|]. intros Hs Hi.
    destruct (settled_step 1 b b1 Hs Hstep) as [Hs1 Hk]. apply IH; [done|]. by rewrite Hk by (by right).
Qed.

(** The late write is possible: with two processors, the processor 1 reads its own 1 for ever. *)
Example kickstart_lost : exists b, rtc bstep (powered_on {[1]}) b /\ settled 1 b /\ others b !! 1 = Some Waiting.
Proof.
  exists (mkBarrier 1 Running (<[1 := Waiting]> (gset_to_gmap Storing {[1]}))). split; [|split].
  - eapply rtc_l; [apply step_create|]. eapply rtc_l; [apply step_proceed|].
    eapply rtc_l; [by apply (step_store 0 Running _ 1)|constructor].
  - split_and!; [done|done|]. intros i. cbn. destruct (decide (i = 1)) as [->|Hne]; [by rewrite lookup_insert_eq|].
    rewrite lookup_insert_ne by done. intros [Hi _]%lookup_gset_to_gmap_Some. set_solver.
  - apply lookup_insert_eq.
Qed.

Lemma kickstart_barrier_witness :
  (exists b, rtc bstep (powered_on {[1]}) b /\ settled 1 b /\ forall b', rtc bstep b b' -> others b' !! 1 = Some Waiting) /\
  (exists b, rtc bstep (powered_on {[1]}) b /\ settled 0 b /\
     exists b2, rtc bstep b b2 /\ others b2 !! 1 = Some Started /\ master b2 = Running).
Proof.
  destruct (kickstart_barrier {[1]}) as (Horder & Hlive & Hlost). split.
  - destruct kickstart_lost as (b & Hr & Hs & Hi). exists b. split_and!; [done|done|].
    intros b' Hr'. by apply (Hlost b b' 1).
  - set (o := <[1 := Waiting]> (gset_to_gmap Storing {[1]} : gmap Z waiter_pc)).
    assert (rtc bstep (powered_on {[1]}) (mkBarrier 0 Running o)) as Hr.
    { eapply rtc_l; [apply step_create|]. eapply rtc_l; [by apply (step_store 1 Proceeding _ 1)|].
      eapply rtc_l; [apply step_proceed|constructor]. }
    assert (settled 0 (mkBarrier 0 Running o)) as Hs.
    { split_and!; [done|done|]. intros i. cbn. unfold o. destruct (decide (i = 1)) as [->|Hne]; [by rewrite lookup_insert_eq|].
      rewrite lookup_insert_ne by done. intros [Hi _]%lookup_gset_to_gmap_Some. set_solver. }
    exists (mkBarrier 0 Running o). split_and!; [done|done|].
    destruct (Hlive _ _ Hr Hs (rtc_refl _ _)) as (_ & b2 & Hr2 & H2).
    assert (others b2 !! 1 = Some Started) as H1 by (apply (H2 1 Waiting); cbn; unfold o; apply lookup_insert_eq).
    exists b2. split_and!; [done|done|]. apply (Horder b2 1); [by etrans|done].
Defined.
